(* ===== verification/_CoqProject ===== *)
-Q . S2P
Prelude.v
State.v
GoTime.v
Engine.v
EngineProps.v
LLM.v
Budget.v
Confirmations.v
Json.v
Database.v
DatabaseFacts.v
JobQueue.v
Catalog.v
Repository.v
RepositoryFacts.v
SalonDemo.v
RepositoryProps.v
Tools.v
ToolBackend.v
ToolBackendProps.v
JsonParse.v
Validation.v
Runner.v
RunnerProps.v
JsonFacts.v
Sha256.v
Base64.v
TimeText.v
Tokens.v
Gateway.v
GatewayProps.v
Hex.v
Regexp.v
Conversations.v
AgentBudget.v
Durable.v
DurableProps.v
Executor.v
AgentTrace.v
TurnQueue.v
Service.v
Deployment.v
ServiceFacts.v
DeploymentProps.v
TurnProps.v
ConversationProps.v
OpenRouter.v
OpenRouterProps.v
Delivery.v
Worker.v
WorkerProps.v
Passwords.v
Identity.v
IdentityProps.v
Aes.v
Url.v
Tenants.v
TenantsProps.v
Seed.v
Mux.v
Contracts.v
ProcessConfig.v
Bootstrap.v
Migrations.v
Float64.v
Httpx.v
Metrics.v
DemoModel.v
DemoModelProps.v
OperatorConsole.v
OperatorHttp.v
OperatorProps.v
PublicHttp.v
Onboarding.v
ChannelFacts.v
Telegram.v
Api.v
PublicProps.v
