(* ===== verification/Prelude.v ===== *)
(** * Kontor, verified: the development and its prelude

    Kontor is a Go service that lets customers of small businesses book appointments by
    talking to a language model.  A message comes in by the widget or by Telegram; a turn
    of an agent answers it, calling tools that read the schedule and propose bookings; a
    booking changes only after the customer has confirmed it; a worker delivers what the
    booking left in an outbox; operators look after their tenant in a console.  This
    library translates that program into definitions that run, file by file, and proves
    what makes it correct.

    ** How the parts fit together

    Rows of PostgreSQL are the shared state.  [Database] holds the tables, the constraints
    of db/migrations and [M], the monad of statements on a pool or in a transaction; its
    environment decides at every statement whether it fails, whether a lost answer has
    taken effect, what the clock and the identifiers are, and when a context ends.
    Theorems hold for every such environment, but for what they assume of it by name.  Code that acts on other surroundings (a
    model, a timer, a semaphore, an HTTP client) is written against a class of operations
    in the state monad of [State], so a theorem holds for every behaviour of them.

    Values of the language and its library.
    - [GoTime], [TimeText]: instants, zones, calendar, RFC 3339.
    - [Json], [JsonParse], [JsonFacts]: encoding/json both ways, with its round trip.
    - [Sha256], [Base64], [Hex], [Aes], [Float64], [Regexp], [Url], [Mux]:
      digests, encodings, AES-256-GCM, binary64 and its shortest decimal text, patterns,
      addresses, routing.  The algorithms are computed and tried on published vectors.

    Scheduling, internal/scheduling.
    - [Engine] (engine.go): the slot search.  [EngineProps]: its slots are
      free working time, none is missing, the loops end.
    - [Catalog], [Repository] (repository.go): queries; creating, moving, cancelling a
      booking.  [RepositoryFacts], [RepositoryProps]: no two
      active bookings of a person overlap, a command is atomic, a used key changes nothing.
      [SalonDemo] is the salon of the witnesses.
    - [ToolBackend] (tool_backend.go) behind the interface of [Tools]; [ToolBackendProps]:
      rows of other tenants are out of reach.

    The agent, internal/agent, llm, tools, agentbudget, agenttools, agenttrace.
    - [LLM] (types.go, fake.go), [OpenRouter] (openrouter.go), [DemoModel] (demo.go) are the
      models; [OpenRouterProps] accounts for attempts and waits, [DemoModelProps] says what
      the demonstration asks for.
    - [Budget], [AgentBudget]: the token budget in memory and in the tables, the second a
      refinement of the first.
    - [Validation], [Contracts], [Runner]: arguments, tool schemas, the loop of one turn;
      [RunnerProps]: its limits, what it may call and when it must stop.
    - [Tokens], [Gateway]: signed slots and the gate every tool call passes.
    - [Confirmations], [Durable]: two-phase confirmation in memory and in the tables, one
      interface for the gateway; [GatewayProps], [DurableProps]: no change without consent.
    - [Executor], [AgentTrace]: a call under the identity of its run, and its record.

    Turns, internal/app, conversations, bootstrap, platform/config.
    - [Conversations], [TurnQueue], [Service]: customers and messages, admission and the
      lock of a conversation, one message from its arrival to its durable outcome.
      [ServiceFacts], [TurnProps], [ConversationProps]: what a turn leaves in the tables.
    - [Deployment], [Bootstrap], [ProcessConfig]: the graph of one tenant, the runtime that
      builds it on demand, the configuration it is built from.  [DeploymentProps] proves
      consent over whole histories of the deployed service and what a turn leaves alone,
      [Bootstrap] that a configuration fails closed and a runtime stays scoped.

    Outbox, internal/jobqueue, cmd/worker, notifications, crm.
    - [JobQueue], [Worker], [Delivery]; [WorkerProps]: the invariant of the
      job table, one recorded outcome for each claimed job under every interleaving, and
      that every batch ends.

    Tenants and operators, internal/tenants, identity, channels/operatorhttp, onboardinghttp.
    - [Tenants], [Passwords], [Identity]: provisioning, sealed secrets, hosts, logins,
      sessions, roles.  [OperatorConsole], [OperatorHttp], [Onboarding]: what operators see
      and do.  Their facts and properties: a role needs its login, a session opens one
      tenant, pages cover a listing, a status tells what happened.

    Channels and processes, internal/channels, platform, demo, cmd/api.
    - [PublicHttp] (demohttp), [Telegram]; [ChannelFacts], [PublicProps]: a message needs its capability, events arrive once, an update is
      answered once.
    - [Migrations], [Seed], [Httpx], [Metrics], [Api]: what a process does before it serves,
      and the edges in front of its handlers.

    ** Conventions

    A Go [int] is a [Z] that wraps at 64 bits where the code can overflow; an [int4] column
    refuses what does not fit.  A text is its bytes.  A number of JSON keeps its literal.
    A Go error is a value of [error] below, and a function that may fail returns [result].
    A panic, and a loop that was given too little fuel, is [None].  What a Go map's walk
    leaves open is a parameter or sorted where the code sorts.  A method of an object that
    is shared is a step; where its steps interleave ([Worker], [Metrics], [TurnQueue]) they
    are a transition system or a log of operations.  A turn of a conversation runs under
    its lock and is one step of a history; the statements of others show in the tables it
    finds and in the failures it meets.

    ** Fuel and bounds

    - [Engine.FindSlots] takes one unit for each local date; 68 are enough for every search
      the code accepts in a zone whose offsets stay within twelve hours of each other, as [EngineProps] proves,
      and the grid of a period computes its own.
    - [TurnQueue.serialize] tries for the lock: with the wait of 750 ms and pauses of 5 ms,
      151 tries outlast it; a run that needs more is [None], which no theorem counts as an
      answer.
    - [PublicHttp.follow] takes one unit for each poll; [PublicProps] proves that a stream
      whose clock advances ends within those of its age.
    - Parsers of texts take a unit for each byte or twice as many; the retries of commands,
      of the provider, of tools and of the Bot API are bounded by the code's own limits, and
      so are the loops that model them.
    - A listing is read by one page for each of its rows and one more ([OperatorProps]).

    ** What is a parameter

    Code that is not in the repository, with what is relied on stated where it is used: the
    JSON Schema validator; the zone database and the collation of the database; the text
    PostgreSQL prints for a [jsonb] and the size of a column; the HTTP client with
    [http.ParseTime] and [net.Error]; the letter case of Unicode beyond ASCII ([Letters]);
    random bytes ([Entropy]); bracketed hosts, where releases of Go differ ([UrlHosts]);
    the texts that are UUIDs ([Uuids]); the environment of the process; what a connection
    does to a stream ([Connection]); the Bot API ([Bot]); what a migration's statements do.

    ** What is not modelled

    Identifiers that are no UUID, a NUL byte and invalid UTF-8 in a parameter of a
    statement: their errors are failures of the environment.  The calls of a driver are one
    move of the worker.  Rules have no identifier; an identity column is the statement's
    tick.  The FIPS mode of PBKDF2.  The bounds of 65,536 bytes on a job's payload and on the state of a
    booking's event, which are written out of columns and notes with far lower bounds.  Two
    spellings of one UUID are two texts.  Stale elements that a repeated array of a JSON text
    leaves in a slice.  Of several complaints about one argument, which of them the error
    names.  Logs, headers of answers beyond the allowed origin, texts of problems beyond
    their titles.  The pool's own limits, the listener with its timeouts and signals, the
    set-up of the log, embedded files and the front end: they are input and output, or no
    Go code of the service.

    ** This file

    The shared vocabulary: Go errors and fallible results, two's-complement [int64]
    arithmetic, sorting by a Go [less] function, and the generic list lemmas and tactics
    that the component files share. *)

From Stdlib Require Import ZArith Lia.
From stdpp Require Import base list strings sorting gmap.

#[global] Open Scope Z_scope.

Declare Scope kontor_scope.
Delimit Scope kontor_scope with kontor.
#[global] Open Scope kontor_scope.

(** ** Go errors

    A Go error is a sentinel ([errors.New] bound to a package variable), an
    anonymous error, an error that wraps one or two others ([fmt.Errorf] with
    [%w]), or a PostgreSQL error carrying its SQLSTATE code. *)
Inductive error : Type :=
| ErrSentinel (name : string)
| ErrText (msg : string)
| ErrWrap (msg : string) (cause : error)
| ErrWrap2 (msg : string) (cause1 cause2 : error)
| ErrPg (code : string).

#[global] Instance error_eq_dec : EqDecision error.
Proof. solve_decision. Defined.

(** [errors.Is]: the chain contains the target. *)
Fixpoint errors_is (e target : error) : bool :=
  bool_decide (e = target) ||
  match e with
  | ErrWrap _ c => errors_is c target
  | ErrWrap2 _ c1 c2 => errors_is c1 target || errors_is c2 target
  | _ => false
  end.

(** [errors.As] into a [*pgconn.PgError]: the first SQLSTATE of the chain. *)
Fixpoint pg_code (e : error) : option string :=
  match e with
  | ErrPg code => Some code
  | ErrWrap _ c => pg_code c
  | ErrWrap2 _ c1 c2 =>
      match pg_code c1 with Some code => Some code | None => pg_code c2 end
  | _ => None
  end.

Lemma errors_is_refl e : errors_is e e = true.
Proof. destruct e; simpl; rewrite bool_decide_eq_true_2 by done; done. Qed.

Lemma errors_is_wrap msg e target :
  errors_is e target = true -> errors_is (ErrWrap msg e) target = true.
Proof. intros H; simpl; rewrite H; apply orb_true_r. Qed.

(** ** Fallible computations *)
Inductive result (A : Type) : Type :=
| Ok (a : A)
| Err (e : error).
Arguments Ok {A} a.
Arguments Err {A} e.

Definition rbind {A B} (m : result A) (f : A -> result B) : result B :=
  match m with Ok a => f a | Err e => Err e end.

Notation "'let!' x := m 'in' k" := (rbind m (fun x => k))
  (at level 10, x pattern, m at level 100, k at level 200) : kontor_scope.

Definition is_ok {A} (r : result A) : bool :=
  match r with Ok _ => true | Err _ => false end.

Lemma rbind_Ok {A B} (m : result A) (f : A -> result B) b :
  rbind m f = Ok b <-> exists a, m = Ok a /\ f a = Ok b.
Proof.
  destruct m as [a|e]; simpl; split; intros H; [by exists a| |done|].
  - by destruct H as (? & [= ->] & ?).
  - by destruct H as (? & ? & ?).
Qed.

(** The answers of all, or the first error. *)
Fixpoint each_ok {A B} (f : A -> result B) (l : list A) : result (list B) :=
  match l with
  | [] => Ok []
  | a :: tl => let! b := f a in let! r := each_ok f tl in Ok (b :: r)
  end.

Lemma each_ok_Ok {A B} (f : A -> result B) l r :
  each_ok f l = Ok r <-> Forall2 (fun a b => f a = Ok b) l r.
Proof.
  revert r. induction l as [|a l IH]; intros r; simpl.
  - split; [by intros [= <-]|intros H; by inversion H].
  - rewrite rbind_Ok. split.
    + intros (b & Hb & (r' & Hr & [= <-])%rbind_Ok). constructor; [done|by apply IH].
    + inversion 1; subst. eexists. split; [eassumption|]. apply rbind_Ok. eexists. split; [by apply IH|done].
Qed.

(** ** Machine integers: Go's [int] and [int64] on a 64-bit platform *)
Definition max_int64 : Z := 9223372036854775807.
Definition min_int64 : Z := -9223372036854775808.
Definition two64 : Z := 18446744073709551616.

Definition wrap64 (z : Z) : Z := (z - min_int64) mod two64 + min_int64.

Definition in_int64 (z : Z) : Prop := min_int64 <= z <= max_int64.

Lemma wrap64_id z : in_int64 z -> wrap64 z = z.
Proof.
  unfold in_int64, wrap64, min_int64, max_int64, two64; intros ?.
  rewrite Z.mod_small; lia.
Qed.

Lemma wrap64_range z : in_int64 (wrap64 z).
Proof.
  unfold in_int64, wrap64, min_int64, max_int64, two64.
  pose proof (Z.mod_pos_bound (z - -9223372036854775808) 18446744073709551616).
  lia.
Qed.

Lemma wrap64_add_l a b : wrap64 (wrap64 a + b) = wrap64 (a + b).
Proof.
  unfold wrap64. replace ((a - min_int64) mod two64 + min_int64 + b - min_int64)
    with ((a - min_int64) mod two64 + b) by lia.
  rewrite Zplus_mod_idemp_l. by replace (a - min_int64 + b) with (a + b - min_int64) by lia.
Qed.

Lemma wrap64_add_r a b : wrap64 (a + wrap64 b) = wrap64 (a + b).
Proof. by rewrite Z.add_comm, wrap64_add_l, Z.add_comm. Qed.

(** A Go loop that sums with [+=] computes the sum modulo 2^64. *)
Lemma fold_wrap_sum {A} (f g : A -> Z) (l : list A) (a b : Z) :
  (forall x, f x = wrap64 (g x)) -> a = wrap64 b ->
  fold_left (fun n x => wrap64 (n + f x)) l a =
  wrap64 (b + foldr (fun x n => g x + n) 0 l).
Proof.
  intros Hf; revert a b; induction l as [|x l IH]; intros a b ->; simpl.
  - by rewrite Z.add_0_r.
  - rewrite (IH _ (b + g x)).
    + by rewrite Z.add_assoc.
    + by rewrite Hf, wrap64_add_l, wrap64_add_r.
Qed.

Lemma wrap64_inj_near a b :
  Z.abs (a - b) < two64 -> wrap64 a = wrap64 b -> a = b.
Proof.
  unfold wrap64, two64, min_int64; intros Hn Heq.
  assert (Hm : (a - -9223372036854775808) mod 18446744073709551616 =
               (b - -9223372036854775808) mod 18446744073709551616) by lia.
  pose proof (Z.div_mod (a - -9223372036854775808) 18446744073709551616).
  pose proof (Z.div_mod (b - -9223372036854775808) 18446744073709551616).
  nia.
Qed.

(** ** Sorting by a Go [less] function

    [sort.Slice] leaves a permutation in which no later element is [less] than
    an earlier one.  Where [less] is total on the values the result is unique,
    so a merge sort computes the same list. *)
Section sort_slice.
Context {A : Type} (less : A -> A -> bool).

Definition not_less (x y : A) : Prop := less y x = false.

#[global] Instance not_less_dec : RelDecision not_less.
Proof. intros x y; unfold not_less; apply _. Defined.

Definition sort_slice (l : list A) : list A := merge_sort not_less l.

Lemma sort_slice_perm l : sort_slice l ≡ₚ l.
Proof. apply merge_sort_Permutation. Qed.

Lemma elem_of_sort_slice x l : x ∈ sort_slice l <-> x ∈ l.
Proof. by rewrite sort_slice_perm. Qed.

Lemma length_sort_slice l : length (sort_slice l) = length l.
Proof. by rewrite sort_slice_perm. Qed.

Lemma sort_slice_sorted `{!Total not_less, !Transitive not_less} l :
  StronglySorted not_less (sort_slice l).
Proof. apply (StronglySorted_merge_sort not_less). Qed.
End sort_slice.

(** ** List lemmas shared by the components *)
Lemma StronglySorted_impl {A} (R S : A -> A -> Prop) l :
  (forall x y, R x y -> S x y) -> StronglySorted R l -> StronglySorted S l.
Proof.
  intros HRS; induction 1 as [|x l ? IH Hf]; constructor; auto.
  eapply Forall_impl; eauto.
Qed.

Lemma length_filter_le {A} (P : A -> Prop) `{!forall x, Decision (P x)} (l : list A) :
  (length (filter P l) <= length l)%nat.
Proof. induction l; simpl; [done|]. rewrite filter_cons; case_decide; simpl; lia. Qed.

Lemma NoDup_fmap_filter {A B} (f : A -> B) (P : A -> Prop)
    `{!forall x, Decision (P x)} (l : list A) :
  NoDup (f <$> l) -> NoDup (f <$> filter P l).
Proof.
  intros Hl. eapply sublist_NoDup; [exact Hl|]. apply fmap_sublist, sublist_filter.
Qed.

Lemma NoDup_map_inj {A B} (f : A -> B) (l : list A) x y :
  NoDup (map f l) -> x ∈ l -> y ∈ l -> f x = f y -> x = y.
Proof.
  intros Hn Hx Hy Hf. apply list_elem_of_lookup in Hx as [i Hi], Hy as [j Hj].
  assert (i = j); [|congruence]. eapply (NoDup_lookup _ i j (f x) Hn).
  - by rewrite list_lookup_fmap, Hi.
  - rewrite Hf. by rewrite list_lookup_fmap, Hj.
Qed.

(** Go compares strings bytewise, as [String.compare] does. *)
Lemma string_ltb_false a b : String.ltb b a = false <-> String.le a b.
Proof.
  unfold String.le, String.ltb, String.leb. rewrite (String.compare_antisym b a).
  destruct (String.compare a b); simpl; done.
Qed.

(** ** Tactics

    [split_match] case-splits on the scrutinee of some [match] or [if] of a
    hypothesis; [crush_guards] walks a chain of early returns. *)
Ltac split_match_in H :=
  match type of H with
  | context [match ?x with _ => _ end] => destruct x eqn:?; simplify_eq/=
  end.

Ltac crush_guards H := repeat split_match_in H; try done.

Ltac bool_to_prop :=
  repeat match goal with
  | H : (_ || _) = false |- _ => apply orb_false_iff in H as [? ?]
  | H : (_ && _) = true |- _ => apply andb_true_iff in H as [? ?]
  | H : (_ <? _) = true |- _ => apply Z.ltb_lt in H
  | H : (_ <? _) = false |- _ => apply Z.ltb_ge in H
  | H : (_ <=? _) = true |- _ => apply Z.leb_le in H
  | H : (_ <=? _) = false |- _ => apply Z.leb_gt in H
  | H : (_ =? _) = true |- _ => apply Z.eqb_eq in H
  | H : (_ =? _) = false |- _ => apply Z.eqb_neq in H
  | H : negb _ = true |- _ => apply negb_true_iff in H
  | H : negb _ = false |- _ => apply negb_false_iff in H
  | H : bool_decide _ = true |- _ => apply bool_decide_eq_true_1 in H
  | H : bool_decide _ = false |- _ => apply bool_decide_eq_false_1 in H
  end.

Create HintDb kontor.
Create Rewrite HintDb kontor.
#[export] Hint Resolve errors_is_refl wrap64_range elem_of_sort_slice : kontor.
#[export] Hint Rewrite @length_sort_slice @elem_of_sort_slice : kontor.
