(* ===== verification/State.v ===== *)
(** * Stateful computations and what they log

    A state-passing monad for code that acts on its surroundings, wrappers that
    write down what an operation was asked and answered, and a logic of what a
    computation adds to that log. *)

From stdpp Require Import base list.
From S2P Require Import Prelude.

Definition St (S A : Type) : Type := S -> A * S.

Definition st_ret {S A} (a : A) : St S A := fun s => (a, s).
Definition st_bind {S A B} (m : St S A) (f : A -> St S B) : St S B :=
  fun s => let '(a, s') := m s in f a s'.

Notation "'let+' x := m 'in' k" := (st_bind m (fun x => k))
  (at level 10, x pattern, m at level 100, k at level 200) : kontor_scope.

(** Reading the state without changing it. *)
Definition st_get {S A} (f : S -> A) : St S A := fun s => (f s, s).

Section logging.
Context {S E : Type}.

(** [m] on the first component, noting its answer on the log. *)
Definition noting {A} (ev : A -> list E) (m : St S A) : St (S * list E) A :=
  fun s => let '(a, s') := m s.1 in (a, (s', s.2 ++ ev a)).

Definition silent {A} (m : St S A) : St (S * list E) A := noting (fun _ => []) m.

(** Every run of [m] extends the log by some [new] with [Q answer new]. *)
Definition emits {A} (m : St (S * list E) A) (Q : A -> list E -> Prop) : Prop :=
  forall s l, let '(a, (_, l')) := m (s, l) in exists new, l' = l ++ new /\ Q a new.

Lemma emits_conseq {A} (m : St (S * list E) A) (Q Q' : A -> list E -> Prop) :
  emits m Q -> (forall a new, Q a new -> Q' a new) -> emits m Q'.
Proof.
  intros Hm HQ s l. specialize (Hm s l). destruct (m (s, l)) as [a [s' l']].
  destruct Hm as (new & -> & ?). eauto.
Qed.

Lemma emits_ret {A} (a : A) (Q : A -> list E -> Prop) : Q a [] -> emits (st_ret a) Q.
Proof. intros HQ s l. simpl. exists []. by rewrite app_nil_r. Qed.

Lemma emits_bind {A B} (m : St (S * list E) A) (f : A -> St (S * list E) B) Q1 Q2 :
  emits m Q1 -> (forall a n1, Q1 a n1 -> emits (f a) (fun b n2 => Q2 b (n1 ++ n2))) ->
  emits (st_bind m f) Q2.
Proof.
  intros Hm Hf s l. unfold st_bind. specialize (Hm s l). destruct (m (s, l)) as [a [s1 l1]].
  destruct Hm as (n1 & -> & HQ1). specialize (Hf a n1 HQ1 s1 (l ++ n1)).
  destruct (f a (s1, l ++ n1)) as [b [s2 l2]]. destruct Hf as (n2 & -> & HQ2).
  exists (n1 ++ n2). by rewrite app_assoc.
Qed.

Lemma emits_noting {A} ev (m : St S A) : emits (noting ev m) (fun a new => new = ev a).
Proof. intros s l. unfold noting. simpl. destruct (m s) as [a s']. eauto. Qed.

Lemma emits_silent {A} (m : St S A) : emits (silent m) (fun _ new => new = []).
Proof. apply emits_noting. Qed.

(** A step that adds nothing is passed over. *)
Lemma emits_quiet {A B} (m : St (S * list E) A) (f : A -> St (S * list E) B) Q :
  emits m (fun _ new => new = []) -> (forall a, emits (f a) Q) -> emits (st_bind m f) Q.
Proof. intros Hm Hf. eapply emits_bind; [exact Hm|]. intros a n1 ->. apply Hf. Qed.

Lemma emits_noted {A B} ev (m : St S A) (f : A -> St (S * list E) B) Q :
  (forall a, emits (f a) (fun b n2 => Q b (ev a ++ n2))) -> emits (st_bind (noting ev m) f) Q.
Proof. intros Hf. eapply emits_bind; [apply emits_noting|]. intros a n1 ->. apply Hf. Qed.

(** Values that must hold whatever is logged. *)
Lemma emits_run {A} (m : St (S * list E) A) Q s l a s' :
  emits m Q -> m (s, l) = (a, s') -> exists new, s'.2 = l ++ new /\ Q a new.
Proof. intros Hm Hr. specialize (Hm s l). rewrite Hr in Hm. by destruct s'. Qed.
End logging.

(** ** Pre- and postconditions *)
Section triples.
Context {S : Type}.

Definition triple {A} (P : S -> Prop) (m : St S A) (Q : A -> S -> Prop) : Prop :=
  forall s, P s -> let '(a, s') := m s in Q a s'.

Lemma triple_ret {A} (a : A) (P : S -> Prop) (Q : A -> S -> Prop) :
  (forall s, P s -> Q a s) -> triple P (st_ret a) Q.
Proof. intros H s Hs. by apply H. Qed.

Lemma triple_bind {A B} (m : St S A) (f : A -> St S B) P R Q :
  triple P m R -> (forall a, triple (R a) (f a) Q) -> triple P (st_bind m f) Q.
Proof.
  intros Hm Hf s Hs. unfold st_bind. specialize (Hm s Hs). destruct (m s) as [a s'].
  by apply Hf.
Qed.

Lemma triple_get {A B} (h : S -> A) (f : A -> St S B) (P : S -> Prop) Q :
  (forall a, triple (fun s => P s /\ h s = a) (f a) Q) -> triple P (st_bind (st_get h) f) Q.
Proof. intros Hf s Hs. unfold st_bind, st_get. by apply Hf. Qed.

Lemma triple_conseq {A} (m : St S A) (P P' : S -> Prop) (Q Q' : A -> S -> Prop) :
  triple P m Q -> (forall s, P' s -> P s) -> (forall a s, Q a s -> Q' a s) -> triple P' m Q'.
Proof. intros Hm HP HQ s Hs. specialize (Hm s (HP s Hs)). destruct (m s). by apply HQ. Qed.

(** An operation that keeps [I] is passed over. *)
Lemma triple_kept {A B} (m : St S A) (f : A -> St S B) (I : S -> Prop) Q :
  triple I m (fun _ => I) -> (forall a, triple I (f a) Q) -> triple I (st_bind m f) Q.
Proof. intros Hm Hf. by eapply triple_bind. Qed.

Lemma triple_weaken {A} (m : St S A) (P P' : S -> Prop) Q :
  (forall s, P' s -> P s) -> triple P m Q -> triple P' m Q.
Proof. intros HP Hm s Hs. by apply Hm, HP. Qed.
End triples.

(** ** Two states side by side *)
Definition on_first {S T A} (m : St S A) : St (S * T) A :=
  fun s => let '(a, s1) := m s.1 in (a, (s1, s.2)).

Definition on_second {S T A} (m : St T A) : St (S * T) A :=
  fun s => let '(a, s2) := m s.2 in (a, (s.1, s2)).
