(* ===== verification/GoTime.v ===== *)
(** * Go's [time] package, as the repository uses it

    Instants are nanoseconds since the Unix epoch; a [Location] is the list of
    its offset transitions, as [time.LoadLocation] reads them from the IANA
    database.  [lookup], [Date], [AddDate] and the accessors follow the
    algorithms of the Go standard library, including its treatment of wall
    clocks that a transition skips or repeats. *)

From Stdlib Require Import ZArith Lia Ascii.
From stdpp Require Import base list strings pretty.
From S2P Require Import Prelude.

#[local] Open Scope Z_scope.

(** ** Durations, in nanoseconds *)
Definition Nanosecond : Z := 1.
Definition Millisecond : Z := 1000000.
Definition Second : Z := 1000000000.
Definition Minute : Z := 60 * Second.
Definition Hour : Z := 60 * Minute.

(** ** The proleptic Gregorian calendar: days since 1970-01-01 *)
Definition days_from_civil (y m d : Z) : Z :=
  let y' := if m <=? 2 then y - 1 else y in
  let era := y' / 400 in
  let yoe := y' mod 400 in
  let mp := (m + 9) mod 12 in
  let doy := (153 * mp + 2) / 5 + d - 1 in
  let doe := yoe * 365 + yoe / 4 - yoe / 100 + doy in
  era * 146097 + doe - 719468.

Definition civil_from_days (z0 : Z) : Z * Z * Z :=
  let z := z0 + 719468 in
  let era := z / 146097 in
  let doe := z mod 146097 in
  let yoe := (doe - doe / 1460 + doe / 36524 - doe / 146096) / 365 in
  let doy := doe - (365 * yoe + yoe / 4 - yoe / 100) in
  let mp := (5 * doy + 2) / 153 in
  let d := doy - (153 * mp + 2) / 5 + 1 in
  let m := if mp <? 10 then mp + 3 else mp - 9 in
  let y := yoe + era * 400 + (if m <=? 2 then 1 else 0) in
  (y, m, d).

(** ** Locations *)
Record Location := mkLocation {
  loc_name : string;
  loc_first : Z;                   (* offset (s) before the first transition *)
  loc_trans : list (Z * Z)         (* (Unix second, offset from then on) *)
}.

Definition UTC : Location := mkLocation "UTC" 0 [].

Definition alpha : Z := min_int64.
Definition omega : Z := max_int64.

(** The zone in force at [sec]: its offset and the half-open range of Unix
    seconds over which it holds. *)
Fixpoint lookup_from (off start : Z) (tx : list (Z * Z)) (sec : Z) : Z * Z * Z :=
  match tx with
  | [] => (off, start, omega)
  | (w, o) :: tl => if sec <? w then (off, start, w) else lookup_from o w tl sec
  end.

Definition lookup (l : Location) (sec : Z) : Z * Z * Z :=
  lookup_from (loc_first l) alpha (loc_trans l) sec.

Definition offset_at (l : Location) (sec : Z) : Z := (lookup l sec).1.1.

(** ** Instants *)
Record Time := mkTime { ns : Z; tloc : Location }.

Definition zero_ns : Z := -62135596800 * Second.
Definition IsZero (t : Time) : bool := ns t =? zero_ns.
Definition In (t : Time) (l : Location) : Time := mkTime (ns t) l.
Definition ToUTC (t : Time) : Time := In t UTC.
Definition Before (t u : Time) : bool := ns t <? ns u.
Definition After (t u : Time) : bool := ns u <? ns t.
Definition Equal (t u : Time) : bool := ns t =? ns u.
Definition Add (t : Time) (d : Z) : Time := mkTime (ns t + d) (tloc t).

(** [t.Sub(u)] saturates at the ends of the duration range. *)
Definition Sub (t u : Time) : Z := Z.max min_int64 (Z.min max_int64 (ns t - ns u)).

(** [t.UnixNano()]: the low 64 bits. *)
Definition UnixNano (t : Time) : Z := wrap64 (ns t).

Definition unix (t : Time) : Z := ns t / Second.

(** Seconds of the local wall clock, as if it were UTC. *)
Definition local_sec (t : Time) : Z := unix t + offset_at (tloc t) (unix t).

Definition local_day (t : Time) : Z := local_sec t / 86400.
Definition day_sec (t : Time) : Z := local_sec t mod 86400.

Definition civil (t : Time) : Z * Z * Z := civil_from_days (local_day t).
Definition Year (t : Time) : Z := (civil t).1.1.
Definition Month (t : Time) : Z := (civil t).1.2.
Definition Day (t : Time) : Z := (civil t).2.
Definition HourOf (t : Time) : Z := day_sec t / 3600.
Definition MinuteOf (t : Time) : Z := day_sec t mod 3600 / 60.
Definition SecondOf (t : Time) : Z := day_sec t mod 60.
Definition NanosecondOf (t : Time) : Z := ns t mod Second.

(** [time.Weekday]: Sunday = 0; 1970-01-01 was a Thursday. *)
Definition Sunday : Z := 0.
Definition Saturday : Z := 6.
Definition Weekday (t : Time) : Z := (local_day t + 4) mod 7.

(** [time.Date]: the wall clock read as UTC selects a zone, and the zone is
    looked up again when the instant it gives lies outside that zone. *)
Definition resolve (l : Location) (wall : Z) : Z :=
  let '(off, s, e) := lookup l wall in
  if off =? 0 then wall
  else
    let utc := wall - off in
    if (utc <? s) || (e <=? utc) then wall - offset_at l utc else wall - off.

Definition Date (y m d h mi s n : Z) (l : Location) : Time :=
  let y' := y + (m - 1) / 12 in
  let m' := (m - 1) mod 12 + 1 in
  let wall := days_from_civil y' m' d * 86400 + h * 3600 + mi * 60 + s + n / Second in
  mkTime (resolve l wall * Second + n mod Second) l.

Definition AddDate (t : Time) (years months days : Z) : Time :=
  Date (Year t + years) (Month t + months) (Day t + days)
       (HourOf t) (MinuteOf t) (SecondOf t) (NanosecondOf t) (tloc t).

(** Midnight of the local date of [t], as the source builds it:
    [time.Date(t.Year(), t.Month(), t.Day(), 0, 0, 0, 0, location)]. *)
Definition date_of (t : Time) (l : Location) : Time :=
  Date (Year t) (Month t) (Day t) 0 0 0 0 l.

(** ** Formatting: [time.RFC3339], [time.RFC3339Nano] and ["2006-01-02"] *)
Definition digit (n : Z) : ascii := ascii_of_N (Z.to_N (48 + n)).

(** [n] in at least [width] decimal digits, as [appendInt] writes it. *)
Fixpoint digits (width : nat) (n : Z) (acc : string) : string :=
  match width with
  | O => acc
  | S w => digits w (n / 10) (String (digit (n mod 10)) acc)
  end.

Definition append_int (n : Z) (width : nat) : string :=
  let m := Z.abs n in
  let body := if m <? 10 ^ Z.of_nat width then digits width m EmptyString else pretty m in
  if n <? 0 then String.append "-" body else body.

Definition format_date (t : Time) : string :=
  String.append (append_int (Year t) 4) (String.append "-"
    (String.append (append_int (Month t) 2) (String.append "-" (append_int (Day t) 2)))).

(** Drops the zeros that end a fraction. *)
Fixpoint trim_zeros (fuel : nat) (width : nat) (n : Z) : string :=
  match fuel with
  | O => EmptyString
  | S f => if n mod 10 =? 0 then trim_zeros f (width - 1) (n / 10)
           else String.append "." (digits width n EmptyString)
  end.

Definition zone_suffix (t : Time) : string :=
  let off := offset_at (tloc t) (unix t) in
  if off =? 0 then "Z"
  else
    let minutes := Z.quot off 60 in
    String.append (if minutes <? 0 then "-" else "+")
      (String.append (append_int (Z.abs minutes / 60) 2)
        (String.append ":" (append_int (Z.abs minutes mod 60) 2))).

Definition format_seconds (t : Time) : string :=
  String.append (format_date t) (String.append "T" (String.append (append_int (HourOf t) 2)
    (String.append ":" (String.append (append_int (MinuteOf t) 2)
      (String.append ":" (append_int (SecondOf t) 2)))))).

Definition RFC3339 (t : Time) : string := String.append (format_seconds t) (zone_suffix t).

Definition RFC3339Nano (t : Time) : string :=
  let n := NanosecondOf t in
  String.append (format_seconds t)
    (String.append (if n =? 0 then EmptyString else trim_zeros 9 9 n) (zone_suffix t)).

Example RFC3339Nano_example :
  RFC3339Nano (mkTime 1785751245120000000 (mkLocation "Berlin" 7200 [])) =
  "2026-08-03T12:00:45.12+02:00".
Proof. vm_compute. reflexivity. Qed.

(** ** Calendar round trip *)
Definition year_of_era (doe : Z) : Z :=
  (doe - doe / 1460 + doe / 36524 - doe / 146096) / 365.

Definition day_of_year (doe : Z) : Z :=
  let yoe := year_of_era doe in doe - (365 * yoe + yoe / 4 - yoe / 100).

Lemma year_of_era_range doe :
  0 <= doe < 146097 -> 0 <= year_of_era doe < 400 /\ 0 <= day_of_year doe <= 365.
Proof.
  intros H. unfold day_of_year, year_of_era; cbv zeta.
  Z.div_mod_to_equations; lia.
Qed.

Lemma month_day_range doy :
  0 <= doy <= 365 ->
  let mp := (5 * doy + 2) / 153 in
  0 <= mp <= 11 /\ 1 <= doy - (153 * mp + 2) / 5 + 1 <= 31.
Proof. cbv zeta; intros H. Z.div_mod_to_equations; lia. Qed.

Lemma civil_roundtrip z :
  let '(y, m, d) := civil_from_days z in
  days_from_civil y m d = z /\ 1 <= m <= 12 /\ 1 <= d <= 31.
Proof.
  unfold civil_from_days. set (era := (z + 719468) / 146097).
  set (doe := (z + 719468) mod 146097).
  assert (Hz : z = era * 146097 + doe - 719468)
    by (unfold era, doe; pose proof (Z.div_mod (z + 719468) 146097); lia).
  assert (Hd : 0 <= doe < 146097) by (apply Z.mod_pos_bound; lia).
  clearbody era doe; subst z. cbv zeta. fold (year_of_era doe). fold (day_of_year doe).
  destruct (year_of_era_range doe Hd) as [Hy Hdoy].
  assert (Hdoe : doe = 365 * year_of_era doe + year_of_era doe / 4 -
                       year_of_era doe / 100 + day_of_year doe)
    by (unfold day_of_year; lia).
  revert Hy Hdoy Hdoe; generalize (year_of_era doe) (day_of_year doe).
  intros yoe doy Hy Hdoy Hdoe.
  destruct (month_day_range doy Hdoy) as [Hmp Hday].
  revert Hmp Hday; generalize ((5 * doy + 2) / 153); intros mp Hmp Hday.
  unfold days_from_civil; cbv zeta.
  assert (Hm : (if mp <? 10 then mp + 3 else mp - 9) = mp + 3 /\ mp < 10 \/
               (if mp <? 10 then mp + 3 else mp - 9) = mp - 9 /\ 10 <= mp)
    by (destruct (Z.ltb_spec mp 10); lia).
  generalize dependent (if mp <? 10 then mp + 3 else mp - 9); intros m Hm.
  assert (Hyy : (if m <=? 2 then yoe + era * 400 + (if m <=? 2 then 1 else 0) - 1
                 else yoe + era * 400 + (if m <=? 2 then 1 else 0)) = yoe + era * 400)
    by (destruct (m <=? 2); lia).
  rewrite Hyy, Z.div_add, Z.mod_add, (Z.div_small yoe), (Z.mod_small yoe) by lia.
  assert (Hmod : (m + 9) mod 12 = mp) by (Z.div_mod_to_equations; lia).
  rewrite Hmod. lia.
Qed.

Lemma days_from_civil_add y m d k :
  days_from_civil y m (d + k) = days_from_civil y m d + k.
Proof. unfold days_from_civil; lia. Qed.

(** ** What [Date] and [AddDate] compute *)
Lemma Date_norm y m d h mi s n l :
  1 <= m <= 12 ->
  Date y m d h mi s n l =
  mkTime (resolve l (days_from_civil y m d * 86400 + h * 3600 + mi * 60 + s + n / Second)
          * Second + n mod Second) l.
Proof.
  intros Hm. unfold Date; cbv zeta.
  rewrite (Z.div_small (m - 1)), (Z.mod_small (m - 1)) by lia.
  by rewrite Z.add_0_r, Z.sub_add.
Qed.

Lemma civil_of_time t :
  days_from_civil (Year t) (Month t) (Day t) = local_day t /\ 1 <= Month t <= 12 /\
  1 <= Day t <= 31.
Proof.
  unfold Year, Month, Day, civil.
  pose proof (civil_roundtrip (local_day t)) as H.
  by destruct (civil_from_days (local_day t)) as [[y m] d].
Qed.

Lemma clock_of_time t :
  local_day t * 86400 + HourOf t * 3600 + MinuteOf t * 60 + SecondOf t = local_sec t.
Proof.
  unfold HourOf, MinuteOf, SecondOf, local_day, day_sec.
  generalize (local_sec t); intros s. Z.div_mod_to_equations; lia.
Qed.

Lemma AddDate_days t k :
  AddDate t 0 0 k =
  mkTime (resolve (tloc t) (local_sec t + k * 86400) * Second + ns t mod Second) (tloc t).
Proof.
  destruct (civil_of_time t) as (Hc & Hm & _).
  unfold AddDate. rewrite !Z.add_0_r, Date_norm by done.
  rewrite days_from_civil_add, Hc, <- (clock_of_time t). unfold NanosecondOf.
  rewrite (Z.div_small (ns t mod Second)), Zmod_mod
    by (apply Z.mod_pos_bound; unfold Second; lia).
  do 4 f_equal. lia.
Qed.

Lemma date_of_spec t l :
  date_of t l = mkTime (resolve l (local_day t * 86400) * Second) l.
Proof.
  destruct (civil_of_time t) as (Hc & Hm & _).
  unfold date_of. rewrite Date_norm, Hc by done.
  change (0 / Second) with 0; change (0 mod Second) with 0.
  rewrite !Z.mul_0_l, !Z.add_0_r. done.
Qed.

(** ** Locations whose offsets stay within a window

    [within lo hi l] holds of every zone whose clock changes are shorter than
    [hi - lo] seconds. *)
Definition within (lo hi : Z) (l : Location) : Prop :=
  lo <= loc_first l <= hi /\ Forall (fun p => lo <= p.2 <= hi) (loc_trans l).

Lemma lookup_from_within lo hi off start tx sec :
  lo <= off <= hi -> Forall (fun p => lo <= p.2 <= hi) tx ->
  lo <= (lookup_from off start tx sec).1.1 <= hi.
Proof.
  intros Ho Hf; revert off start Ho.
  induction Hf as [|[w o] tl Hp _ IH]; intros off start Ho; simpl; [done|].
  destruct (sec <? w); [done|]. by apply IH.
Qed.

Lemma offset_at_within lo hi l sec : within lo hi l -> lo <= offset_at l sec <= hi.
Proof. intros (? & ?). by apply lookup_from_within. Qed.

Lemma resolve_within lo hi l wall :
  within lo hi l -> wall - hi <= resolve l wall <= wall - lo.
Proof.
  intros Hw. unfold resolve.
  pose proof (offset_at_within lo hi l wall Hw) as H1; unfold offset_at in H1.
  destruct (lookup l wall) as [[off s] e]; simpl in H1.
  destruct (Z.eqb_spec off 0); [lia|].
  destruct (_ || _); [|lia].
  pose proof (offset_at_within lo hi l (wall - off) Hw). lia.
Qed.

Lemma unix_mk s n l : 0 <= n < Second -> unix (mkTime (s * Second + n) l) = s.
Proof.
  intros ?. unfold unix; simpl. rewrite Z.add_comm, Z.div_add by (unfold Second; lia).
  rewrite Z.div_small; lia.
Qed.

(** Adding [k] calendar days moves the instant by [k] days up to the spread of
    the zone's offsets. *)
Lemma AddDate_progress lo hi t k :
  within lo hi (tloc t) ->
  k * 86400 - (hi - lo) <= unix (AddDate t 0 0 k) - unix t <= k * 86400 + (hi - lo) /\
  ns (AddDate t 0 0 k) mod Second = ns t mod Second.
Proof.
  intros Hw. rewrite AddDate_days.
  assert (Hn : 0 <= ns t mod Second < Second) by (apply Z.mod_pos_bound; unfold Second; lia).
  rewrite unix_mk by done. simpl. split.
  - pose proof (resolve_within lo hi (tloc t) (local_sec t + k * 86400) Hw).
    pose proof (offset_at_within lo hi (tloc t) (unix t) Hw).
    unfold local_sec in *; lia.
  - rewrite Z.add_comm, Z.mod_add, Zmod_mod by (unfold Second; lia). done.
Qed.

Lemma ns_split t : ns t = unix t * Second + ns t mod Second.
Proof. unfold unix. rewrite Z.mul_comm. apply Z.div_mod. unfold Second; lia. Qed.

Lemma AddDate_progress_ns lo hi t :
  within lo hi (tloc t) -> hi - lo < 86400 ->
  ns t + (86400 - (hi - lo)) * Second <= ns (AddDate t 0 0 1).
Proof.
  intros Hw Hs. destruct (AddDate_progress lo hi t 1 Hw) as [Hp Hm].
  rewrite (ns_split t), (ns_split (AddDate t 0 0 1)), Hm. unfold Second in *. lia.
Qed.

Lemma tloc_AddDate t y m d : tloc (AddDate t y m d) = tloc t.
Proof. done. Qed.

Lemma tloc_date_of t l : tloc (date_of t l) = l.
Proof. done. Qed.

#[export] Hint Rewrite tloc_AddDate tloc_date_of : kontor.

Lemma date_of_bounds lo hi t l :
  within lo hi l -> tloc t = l ->
  unix t - 86400 - (hi - lo) < unix (date_of t l) <= unix t + (hi - lo) /\
  ns (date_of t l) = unix (date_of t l) * Second.
Proof.
  intros Hw Hl. rewrite date_of_spec.
  set (r := resolve l (local_day t * 86400)).
  assert (Hu : unix (mkTime (r * Second) l) = r).
  { unfold unix; simpl. by rewrite Z.div_mul. }
  rewrite Hu. split; [|done].
  pose proof (resolve_within lo hi l (local_day t * 86400) Hw).
  pose proof (offset_at_within lo hi l (unix t) Hw).
  assert (Hd : local_sec t - 86400 < local_day t * 86400 <= local_sec t).
  { unfold local_day. generalize (local_sec t); intros. Z.div_mod_to_equations; lia. }
  unfold local_sec in Hd. rewrite Hl in Hd. unfold r. lia.
Qed.
