(* ===== verification/Engine.v ===== *)
(** * The availability engine: [internal/scheduling/engine.go]

    The pure slot finder: validation of a search, expansion of weekly rules on
    a local date (with its daylight-saving corner cases), interval merging,
    overlap tests, and the slot grid. *)

From Stdlib Require Import ZArith Lia.
From stdpp Require Import base list strings gmap sorting.
From S2P Require Import Prelude GoTime.

#[local] Open Scope Z_scope.

Definition DefaultTenantID : string := "00000000-0000-4000-8000-000000000001".
Definition defaultTimezone : string := "Europe/Berlin".

Definition ErrInvalidInput : error := ErrSentinel "invalid scheduling input".
Definition ErrNotFound : error := ErrSentinel "scheduling resource not found".
Definition ErrSlotUnavailable : error := ErrSentinel "slot is no longer available".
Definition ErrIdempotencyConflict : error :=
  ErrSentinel "idempotency key was used with different arguments".
Definition ErrBookingStateConflict : error :=
  ErrSentinel "booking is not in a state that allows this operation".
Definition ErrScheduleVersionConflict : error :=
  ErrSentinel "booking schedule version does not match the expected version".

(** The panic of [Time.In] on a nil location. *)
Definition PanicNilLocation : error :=
  ErrSentinel "panic: time: missing Location in call to Time.In".

Definition RuleWorking : string := "working".
Definition RuleBreak : string := "break".

Record Service := mkService {
  svc_ID : string; svc_Slug : string; svc_Name : string; svc_Description : string;
  Duration : Z; BufferBefore : Z; BufferAfter : Z;
  PriceMinor : Z; Currency : string
}.

Record Staff := mkStaff {
  stf_ID : string; stf_Slug : string; DisplayName : string; Timezone : string
}.

Record AvailabilityRule := mkRule {
  Kind : string; rule_Weekday : Z; StartMinute : Z; EndMinute : Z;
  ValidFrom : option Time; ValidUntil : option Time
}.

Record Interval := mkInterval {
  iv_Start : Time; iv_End : Time; iv_BufferBefore : Z; iv_BufferAfter : Z
}.

Record Slot := mkSlot {
  sl_ServiceID : string; sl_StaffID : string; sl_Start : Time; sl_End : Time
}.

Record SearchInput := mkSearch {
  si_Service : Service; si_Staff : Staff; From : Time; To : Time;
  Rules : list AvailabilityRule; Busy : list Interval;
  SlotInterval : Z; Limit : Z
}.

Record Engine := mkEngine { eng_location : option Location }.

Record wallInterval := mkWall { start : Time; stop : Time }.

(** ** Local dates and minutes *)
Definition civilDay (value : Time) : Z :=
  Year value * 10000 + Month value * 100 + Day value.

Definition ruleAppliesOn (rule : AvailabilityRule) (day : Time) : bool :=
  let key := civilDay day in
  negb (match ValidFrom rule with Some f => key <? civilDay f | None => false end) &&
  negb (match ValidUntil rule with Some u => civilDay u <? key | None => false end).

(** The instants [anchor-3h, anchor-3h+1m, .., anchor+3h]. *)
Definition probe_instants (anchor : Time) : list Time :=
  (fun k => Add anchor (-3 * Hour + k * Minute)) <$> seqZ 0 361.

Definition wall_matches (target : Z * Z * Z) (hour min : Z) (location : Location)
    (instant : Time) : bool :=
  let local := In instant location in
  let '(year, month, day) := target in
  let '(y, m, d) := civil local in
  if y =? year then if m =? month then if d =? day then
    let s := day_sec local in
    if s / 3600 =? hour then if s mod 3600 / 60 =? min then s mod 60 =? 0
    else false else false
  else false else false else false.

(** The body of the [candidateMinute] loop: the earliest and the latest instant
    whose local wall clock is the candidate minute. *)
Definition minute_matches (targetDay : Time) (candidateMinute : Z) (location : Location)
    : list Time :=
  let hour := candidateMinute / 60 in
  let min := candidateMinute mod 60 in
  let target := civil targetDay in
  let anchor := Date target.1.1 target.1.2 target.2 hour min 0 0 location in
  filter (fun i => wall_matches target hour min location i = true) (probe_instants anchor).

Fixpoint first_real_minute (targetDay : Time) (location : Location) (preferLatest : bool)
    (candidates : list Z) : option Time :=
  match candidates with
  | [] => None
  | c :: cs =>
      match minute_matches targetDay c location with
      | [] => first_real_minute targetDay location preferLatest cs
      | m :: ms => Some (if preferLatest then List.last ms m else m)
      end
  end.

Definition localMinute (day : Time) (minute : Z) (location : Location)
    (preferLatest : bool) : Time :=
  let targetDay := if minute =? 1440 then AddDate day 0 0 1 else day in
  let minute := if minute =? 1440 then 0 else minute in
  match first_real_minute targetDay location preferLatest (seqZ minute (1440 - minute)) with
  | Some t => t
  | None => Date (Year targetDay) (Month targetDay) (Day targetDay + 1) 0 0 0 0 location
  end.

(** The working and break periods of one local date. *)
Fixpoint intervalsForDate (day : Time) (location : Location)
    (rules : list AvailabilityRule) : list wallInterval * list wallInterval :=
  match rules with
  | [] => ([], [])
  | rule :: tl =>
      let '(working, breaks) := intervalsForDate day location tl in
      if negb (rule_Weekday rule =? Weekday day) || negb (ruleAppliesOn rule day)
      then (working, breaks)
      else
        let s := localMinute day (StartMinute rule) location false in
        let e := localMinute day (EndMinute rule) location true in
        if negb (Before s e) then (working, breaks)
        else if bool_decide (Kind rule = RuleWorking)
        then (mkWall s e :: working, breaks)
        else (working, mkWall s e :: breaks)
  end.

(** ** Merging and overlap *)
Definition wall_less (a b : wallInterval) : bool :=
  if Equal (start a) (start b) then Before (stop a) (stop b)
  else Before (start a) (start b).

Fixpoint merge_go (last : wallInterval) (items : list wallInterval) : list wallInterval :=
  match items with
  | [] => [last]
  | item :: tl =>
      if negb (After (start item) (stop last))
      then merge_go (if After (stop item) (stop last)
                     then mkWall (start last) (stop item) else last) tl
      else last :: merge_go item tl
  end.

Definition mergeIntervals (items : list wallInterval) : list wallInterval :=
  if bool_decide (length items < 2)%nat then items
  else match sort_slice wall_less items with
       | [] => []
       | item :: tl => merge_go item tl
       end.

Definition overlapsAny (candidate : wallInterval) (items : list wallInterval) : bool :=
  existsb (fun item => Before (start candidate) (stop item) &&
                       Before (start item) (stop candidate)) items.

Definition string_less (a b : string) : bool := String.ltb a b.

Definition slot_less (a b : Slot) : bool :=
  if Equal (sl_Start a) (sl_Start b) then string_less (sl_StaffID a) (sl_StaffID b)
  else Before (sl_Start a) (sl_Start b).

Definition sortSlots (slots : list Slot) : list Slot := sort_slice slot_less slots.

(** ** The slot grid

    The scan threads the instants already offered ([seen]), the slots found so
    far, and [full], which is set where the source returns early because the
    limit is reached; nothing is scanned after that. *)
Record scan := mkScan { seen : gset Z; slots : list Slot; full : bool }.

(** One iteration of the innermost loop, at grid instant [s]. *)
Definition offer (inp : SearchInput) (breaks busy : list wallInterval)
    (period : wallInterval) (s : Time) (acc : scan) : scan :=
  let e := Add s (Duration (si_Service inp)) in
  if Before s (From inp) || negb (After e s) || After e (To inp) || After e (stop period)
  then acc
  else
    let occupied := mkWall (Add s (- BufferBefore (si_Service inp)))
                           (Add e (BufferAfter (si_Service inp))) in
    if overlapsAny occupied breaks || overlapsAny occupied busy then acc
    else if bool_decide (UnixNano s ∈ seen acc) then acc
    else
      let slot := mkSlot (svc_ID (si_Service inp)) (stf_ID (si_Staff inp)) s e in
      let slots' := slots acc ++ [slot] in
      mkScan ({[UnixNano s]} ∪ seen acc) slots'
             ((0 <? Limit inp) && (Limit inp <=? Z.of_nat (length slots'))).

(** [for start := period.start; start.Before(period.end); start = start.Add(step)].
    [step] is positive, so the loop takes [(end - start) / step] rounded up
    iterations; [grid_fuel] is that bound. *)
Fixpoint scan_period (fuel : nat) (inp : SearchInput) (step : Z)
    (breaks busy : list wallInterval) (period : wallInterval) (s : Time) (acc : scan) : scan :=
  match fuel with
  | O => acc
  | S fuel' =>
      if negb (Before s (stop period)) || full acc then acc
      else scan_period fuel' inp step breaks busy period (Add s step)
             (offer inp breaks busy period s acc)
  end.

Definition grid_fuel (step : Z) (period : wallInterval) : nat :=
  Z.to_nat ((ns (stop period) - ns (start period) + step - 1) / step).

Definition scan_day (inp : SearchInput) (step : Z) (busy : list wallInterval)
    (location : Location) (day : Time) (acc : scan) : scan :=
  let '(working, breaks) := intervalsForDate day location (Rules inp) in
  let working := mergeIntervals working in
  let breaks := mergeIntervals breaks in
  fold_left (fun a period =>
               if full a then a
               else scan_period (grid_fuel step period) inp step breaks busy period
                      (start period) a) working acc.

(** [for !day.After(lastDay)]: [None] when the fuel runs out.  [ctx i] is what
    [ctx.Err()] reports at the [i]-th iteration. *)
Fixpoint scan_days (fuel : nat) (i : nat) (ctx : nat -> option error) (inp : SearchInput)
    (step : Z) (busy : list wallInterval) (location : Location) (day lastDay : Time)
    (acc : scan) : option (result scan) :=
  if After day lastDay then Some (Ok acc)
  else match fuel with
  | O => None
  | S fuel' =>
      match ctx i with
      | Some e => Some (Err e)
      | None =>
          let acc' := scan_day inp step busy location day acc in
          if full acc' then Some (Ok acc')
          else scan_days fuel' (S i) ctx inp step busy location (AddDate day 0 0 1)
                 lastDay acc'
      end
  end.

Definition invalid (msg : string) : error := ErrWrap msg ErrInvalidInput.

Definition busy_invalid (item : Interval) : bool :=
  IsZero (iv_Start item) || IsZero (iv_End item) || negb (Before (iv_Start item) (iv_End item))
  || (iv_BufferBefore item <? 0) || (iv_BufferAfter item <? 0).

Fixpoint expand_busy (items : list Interval) : result (list wallInterval) :=
  match items with
  | [] => Ok []
  | item :: tl =>
      if busy_invalid item then Err (invalid "invalid busy interval")
      else
        let! rest := expand_busy tl in
        Ok (mkWall (Add (iv_Start item) (- iv_BufferBefore item))
                   (Add (iv_End item) (iv_BufferAfter item)) :: rest)
  end.

Definition rule_malformed (rule : AvailabilityRule) : bool :=
  (negb (bool_decide (Kind rule = RuleWorking)) && negb (bool_decide (Kind rule = RuleBreak)))
  || (rule_Weekday rule <? Sunday) || (Saturday <? rule_Weekday rule)
  || (StartMinute rule <? 0) || (1440 <=? StartMinute rule)
  || (EndMinute rule <=? StartMinute rule) || (1440 <? EndMinute rule).

Definition rule_reversed (rule : AvailabilityRule) : bool :=
  match ValidFrom rule, ValidUntil rule with
  | Some f, Some u => civilDay u <? civilDay f
  | _, _ => false
  end.

Fixpoint check_rules (rules : list AvailabilityRule) : result unit :=
  match rules with
  | [] => Ok tt
  | rule :: tl =>
      if rule_malformed rule then Err (invalid "invalid availability rule")
      else if rule_reversed rule then Err (invalid "rule validity range is reversed")
      else check_rules tl
  end.

Section engine.
(** [time.LoadLocation]: the IANA database of the host. *)
Context (LoadLocation : string -> result Location).

Definition load_or_nil (name : string) : option Location :=
  match LoadLocation name with Ok l => Some l | Err _ => None end.

Definition NewEngine (location : option Location) : Engine :=
  mkEngine (match location with
            | None => load_or_nil defaultTimezone
            | Some l => Some l
            end).

Definition NewEngineForTimezone (name : string) : result Engine :=
  let name := if bool_decide (name = "") then defaultTimezone else name in
  match LoadLocation name with
  | Err e => Err (ErrWrap2 "timezone" ErrInvalidInput e)
  | Ok l => Ok (NewEngine (Some l))
  end.

Definition engine_location (e : Engine) (inp : SearchInput) : result (option Location) :=
  let location := match eng_location e with
                  | None => load_or_nil defaultTimezone
                  | Some l => Some l
                  end in
  if bool_decide (Timezone (si_Staff inp) = "") then Ok location
  else match LoadLocation (Timezone (si_Staff inp)) with
       | Err err => Err (ErrWrap2 "staff timezone" ErrInvalidInput err)
       | Ok l => Ok (Some l)
       end.

Definition slot_step (inp : SearchInput) : Z :=
  if SlotInterval inp =? 0 then 15 * Minute else SlotInterval inp.

Definition validate (e : Engine) (inp : SearchInput) : result (option Location * Z) :=
  let svc := si_Service inp in
  if (Duration svc <=? 0) || (24 * Hour <? Duration svc) then
    Err (invalid "service duration must be in (0, 24h]")
  else if (BufferBefore svc <? 0) || (BufferAfter svc <? 0)
          || (4 * Hour <? BufferBefore svc) || (4 * Hour <? BufferAfter svc) then
    Err (invalid "service buffer outside allowed range")
  else if IsZero (From inp) || IsZero (To inp) || negb (Before (From inp) (To inp)) then
    Err (invalid "date range must be positive")
  else if 31 * 24 * Hour + 2 * Hour <? Sub (To inp) (From inp) then
    Err (invalid "date range exceeds 31 days")
  else if (Limit inp <? 0) || (1000 <? Limit inp) then
    Err (invalid "limit outside allowed range")
  else
    let! location := engine_location e inp in
    let step := slot_step inp in
    if (step <? Minute) || (24 * Hour <? step) || negb (Z.rem step Minute =? 0) then
      Err (invalid "slot interval must be whole minutes")
    else
      let! _ := check_rules (Rules inp) in
      Ok (location, step).

(** [FindSlots]: [None] is non-termination within [fuel] local dates. *)
Definition FindSlots (fuel : nat) (e : Engine) (ctx : nat -> option error)
    (inp : SearchInput) : option (result (list Slot)) :=
  match validate e inp with
  | Err err => Some (Err err)
  | Ok (location, step) =>
      match expand_busy (Busy inp) with
      | Err err => Some (Err err)
      | Ok busy =>
          match location with
          | None => Some (Err PanicNilLocation)
          | Some location =>
              let localFrom := In (From inp) location in
              let localLast := In (Add (To inp) (- Nanosecond)) location in
              let day := date_of localFrom location in
              let lastDay := date_of localLast location in
              match scan_days fuel 0 ctx inp step busy location day lastDay
                              (mkScan ∅ [] false) with
              | None => None
              | Some (Err err) => Some (Err err)
              | Some (Ok acc) => Some (Ok (sortSlots (slots acc)))
              end
          end
      end
  end.

Definition day_search (inp : SearchInput) (location : Location) (startsAt : Time)
    : SearchInput :=
  let dayStart := date_of (In startsAt location) location in
  mkSearch (si_Service inp) (si_Staff inp) dayStart (AddDate dayStart 0 0 1)
           (Rules inp) (Busy inp) (SlotInterval inp) 0.

Definition IsAvailable (fuel : nat) (e : Engine) (ctx : nat -> option error)
    (inp : SearchInput) (startsAt : Time) : option (result bool) :=
  match validate e inp with
  | Err err => Some (Err err)
  | Ok (None, _) => Some (Err PanicNilLocation)
  | Ok (Some location, _) =>
      match FindSlots fuel e ctx (day_search inp location startsAt) with
      | None => None
      | Some (Err err) => Some (Err err)
      | Some (Ok slots) => Some (Ok (existsb (fun slot => Equal (sl_Start slot) startsAt) slots))
      end
  end.
End engine.
