(* ===== verification/EngineProps.v ===== *)
(** * Properties of the availability engine

    The contract of [FindSlots] and [IsAvailable]: soundness against working
    hours, breaks and buffered busy intervals, order and limit, completeness,
    termination, and the searches the local-date loop gets wrong.

    Interval merging and overlap against point sets, the invariant of the slot
    scan, what [FindSlots] returns (soundness, completeness, order, limit), its
    termination, and the local dates it never visits. *)

From Stdlib Require Import ZArith Lia.
From stdpp Require Import base list strings gmap sorting.
From S2P Require Import Prelude GoTime Engine.

#[local] Open Scope Z_scope.

(** ** Intervals as sets of instants *)
Definition inside (x : Z) (w : wallInterval) : Prop := ns (start w) <= x < ns (stop w).
Definition covered (x : Z) (l : list wallInterval) : Prop := exists w, w ∈ l /\ inside x w.
Definition proper (w : wallInterval) : Prop := ns (start w) < ns (stop w).

Definition starts_before (a b : wallInterval) : Prop := ns (start a) <= ns (start b).
Definition separated (a b : wallInterval) : Prop := ns (stop a) < ns (start b).

Lemma wall_less_false a b : wall_less b a = false -> starts_before a b.
Proof.
  unfold wall_less, starts_before, Equal, Before. destruct (Z.eqb_spec (ns (start b)) (ns (start a)));
    intros; bool_to_prop; lia.
Qed.

#[global] Instance wall_total : Total (not_less wall_less).
Proof.
  intros a b. unfold not_less, wall_less, Equal, Before.
  destruct (Z.eqb_spec (ns (start b)) (ns (start a)));
    destruct (Z.eqb_spec (ns (start a)) (ns (start b))); try lia;
    rewrite !Z.ltb_ge; lia.
Qed.

#[global] Instance wall_trans : Transitive (not_less wall_less).
Proof.
  intros a b c. unfold not_less, wall_less, Equal, Before.
  repeat case_match; bool_to_prop; rewrite ?Z.ltb_ge in *; intros; bool_to_prop; lia.
Qed.

Lemma covered_cons x w l : covered x (w :: l) <-> inside x w \/ covered x l.
Proof.
  unfold covered. split.
  - intros (v & Hv & Hx). apply elem_of_cons in Hv as [->|]; eauto.
  - intros [?|(v & ? & ?)]; [exists w|exists v]; rewrite elem_of_cons; eauto.
Qed.

Lemma covered_nil x : ~ covered x [].
Proof. by intros (? & ?%elem_of_nil & _). Qed.

Lemma covered_perm x l l' : l ≡ₚ l' -> covered x l <-> covered x l'.
Proof. intros Hp; unfold covered. by setoid_rewrite Hp. Qed.

(** The absorbing step of the merge: the union of two touching intervals. *)
Lemma absorb_inside last item x :
  proper last -> proper item -> starts_before last item -> After (start item) (stop last) = false ->
  inside x (if After (stop item) (stop last) then mkWall (start last) (stop item) else last)
  <-> inside x last \/ inside x item.
Proof.
  unfold proper, starts_before, inside, After. intros ? ? ? ?%Z.ltb_ge.
  destruct (Z.ltb_spec (ns (stop last)) (ns (stop item))); simpl; lia.
Qed.

Lemma absorb_proper last item :
  proper last -> proper (if After (stop item) (stop last)
                         then mkWall (start last) (stop item) else last).
Proof. unfold proper, After. case_match; bool_to_prop; simpl; lia. Qed.

Lemma absorb_start last item :
  start (if After (stop item) (stop last) then mkWall (start last) (stop item) else last)
  = start last.
Proof. by destruct (After _ _). Qed.

Lemma merge_go_covered last items x :
  proper last -> Forall proper items -> StronglySorted starts_before (last :: items) ->
  covered x (merge_go last items) <-> covered x (last :: items).
Proof.
  revert last; induction items as [|item tl IH]; intros last Hp Hf Hs; simpl; [done|].
  inversion_clear Hf. inversion Hs as [|? ? Hs' Hl]; subst.
  inversion_clear Hs'. inversion_clear Hl.
  destruct (After (start item) (stop last)) eqn:Ha; simpl.
  - rewrite !covered_cons, IH, covered_cons; [done|done..|]. by constructor.
  - rewrite IH; [|by apply absorb_proper|done|].
    + rewrite !covered_cons, absorb_inside by done. tauto.
    + constructor; [done|]. eapply Forall_impl; [done|].
      unfold starts_before; intros; by rewrite absorb_start.
Qed.

Lemma merge_go_separated last items :
  proper last -> Forall proper items -> StronglySorted starts_before (last :: items) ->
  StronglySorted separated (merge_go last items) /\ Forall proper (merge_go last items) /\
  Forall (starts_before last) (merge_go last items).
Proof.
  revert last; induction items as [|item tl IH]; intros last Hp Hf Hs; simpl.
  { repeat constructor; try done; unfold starts_before; lia. }
  inversion_clear Hf. inversion Hs as [|? ? Hs' Hl]; subst.
  inversion Hs' as [|? ? Hs'' Hl']; subst. inversion_clear Hl.
  destruct (After (start item) (stop last)) eqn:Ha; simpl.
  - destruct (IH item) as (IH1 & IH2 & IH3); [done..|].
    unfold After in Ha; bool_to_prop. repeat split.
    + constructor; [done|]. eapply Forall_impl; [exact IH3|].
      unfold starts_before, separated; lia.
    + by constructor.
    + constructor; [unfold starts_before; lia|]. eapply Forall_impl; [exact IH3|].
      unfold starts_before in *; lia.
  - destruct (IH (if After (stop item) (stop last) then mkWall (start last) (stop item) else last))
      as (IH1 & IH2 & IH3); [by apply absorb_proper|done| |].
    + constructor; [done|]. eapply Forall_impl; [done|].
      unfold starts_before; intros; by rewrite absorb_start.
    + repeat split; [done..|]. eapply Forall_impl; [exact IH3|].
      unfold starts_before; intros ?; by rewrite absorb_start.
Qed.

Lemma sorted_items_facts items :
  Forall proper items ->
  StronglySorted starts_before (sort_slice wall_less items) /\
  Forall proper (sort_slice wall_less items) /\ sort_slice wall_less items ≡ₚ items.
Proof.
  intros Hf. pose proof (sort_slice_perm wall_less items) as Hp. repeat split; [|by rewrite Hp|done].
  eapply StronglySorted_impl; [|apply sort_slice_sorted; apply _].
  intros a b; apply wall_less_false.
Qed.

Lemma mergeIntervals_covered items x :
  Forall proper items -> covered x (mergeIntervals items) <-> covered x items.
Proof.
  intros Hf. unfold mergeIntervals. case_bool_decide; [done|].
  destruct (sorted_items_facts items Hf) as (Hs & Hf' & Hp).
  rewrite <- (covered_perm x _ _ Hp).
  destruct (sort_slice wall_less items) as [|w tl]; [done|].
  inversion Hf'; subst. by apply merge_go_covered.
Qed.

Lemma mergeIntervals_separated items :
  Forall proper items ->
  StronglySorted separated (mergeIntervals items) /\ Forall proper (mergeIntervals items).
Proof.
  intros Hf. unfold mergeIntervals. case_bool_decide as Hlen.
  - split; [|done]. destruct items as [|w [|? ?]]; simpl in Hlen; [..|lia]; repeat constructor.
  - destruct (sorted_items_facts items Hf) as (Hs & Hf' & _).
    destruct (sort_slice wall_less items) as [|w tl]; [by repeat constructor|].
    inversion Hf'; subst. destruct (merge_go_separated w tl) as (? & ? & _); done.
Qed.

Lemma overlapsAny_true c items :
  overlapsAny c items = true <->
  exists w, w ∈ items /\ ns (start c) < ns (stop w) /\ ns (start w) < ns (stop c).
Proof.
  unfold overlapsAny. rewrite existsb_exists. split.
  - intros (w & Hw & Hb). unfold Before in Hb; bool_to_prop.
    exists w; rewrite list_elem_of_In; eauto.
  - intros (w & Hw & ? & ?). exists w; rewrite <- list_elem_of_In.
    unfold Before. rewrite andb_true_iff, !Z.ltb_lt. eauto.
Qed.

Lemma overlapsAny_false c items :
  overlapsAny c items = false <->
  forall w, w ∈ items -> ns (stop w) <= ns (start c) \/ ns (stop c) <= ns (start w).
Proof.
  rewrite <- not_true_iff_false, overlapsAny_true. split.
  - intros H w Hw. destruct (decide (ns (stop w) <= ns (start c))); [by left|].
    destruct (decide (ns (stop c) <= ns (start w))); [by right|].
    exfalso; apply H. exists w; repeat split; [done|lia..].
  - intros H (w & Hw & ? & ?). destruct (H w Hw); lia.
Qed.

(** ** The order of slots *)
Definition slot_le (a b : Slot) : Prop :=
  ns (sl_Start a) < ns (sl_Start b) \/
  ns (sl_Start a) = ns (sl_Start b) /\ String.le (sl_StaffID a) (sl_StaffID b).

Lemma not_less_slot a b : not_less slot_less a b <-> slot_le a b.
Proof.
  unfold not_less, slot_less, slot_le, Equal, Before, string_less.
  destruct (Z.eqb_spec (ns (sl_Start b)) (ns (sl_Start a))).
  - rewrite string_ltb_false. intuition lia.
  - rewrite Z.ltb_ge. intuition lia.
Qed.

#[global] Instance slot_total : Total (not_less slot_less).
Proof.
  intros a b. rewrite !not_less_slot. unfold slot_le.
  destruct (Z.lt_total (ns (sl_Start a)) (ns (sl_Start b))) as [|[|]]; [by left; left| |by right; left].
  destruct (total String.le (sl_StaffID a) (sl_StaffID b)); [left|right]; by right.
Qed.

#[global] Instance slot_trans : Transitive (not_less slot_less).
Proof.
  intros a b c. rewrite !not_less_slot. unfold slot_le.
  intros [?|[? H1]] [?|[? H2]]; [left; lia..|]. right. split; [lia|].
  by transitivity (sl_StaffID b).
Qed.

Lemma sortSlots_sorted l : StronglySorted slot_le (sortSlots l).
Proof.
  eapply StronglySorted_impl; [|apply sort_slice_sorted; apply _].
  intros a b; apply not_less_slot.
Qed.

(** ** The scan invariant *)
Section scan_facts.
Context (inp : SearchInput) (step : Z) (busy : list wallInterval) (location : Location).

Definition service_time (s : Time) : Time := Add s (Duration (si_Service inp)).

Definition occupied (s : Time) : wallInterval :=
  mkWall (Add s (- BufferBefore (si_Service inp)))
         (Add (service_time s) (BufferAfter (si_Service inp))).

Definition slot_of (s : Time) : Slot :=
  mkSlot (svc_ID (si_Service inp)) (stf_ID (si_Staff inp)) s (service_time s).

Definition working_on (day : Time) : list wallInterval :=
  mergeIntervals (intervalsForDate day location (Rules inp)).1.
Definition breaks_on (day : Time) : list wallInterval :=
  mergeIntervals (intervalsForDate day location (Rules inp)).2.

(** The filter of the innermost loop. *)
Definition admissible (breaks : list wallInterval) (period : wallInterval) (s : Time) : bool :=
  negb (Before s (From inp) || negb (After (service_time s) s) ||
        After (service_time s) (To inp) || After (service_time s) (stop period)) &&
  negb (overlapsAny (occupied s) breaks || overlapsAny (occupied s) busy).

(** [s] is on the grid of a working period of [day] and passes the filter. *)
Definition candidate_on (day s : Time) : Prop :=
  exists period (k : nat), period ∈ working_on day /\
    s = Add (start period) (Z.of_nat k * step) /\
    admissible (breaks_on day) period s = true.

Record scan_inv (good : Time -> Prop) (acc : scan) : Prop := {
  inv_good : forall sl, sl ∈ slots acc -> sl = slot_of (sl_Start sl) /\ good (sl_Start sl);
  inv_seen : forall u, u ∈ seen acc <-> u ∈ (fun sl => UnixNano (sl_Start sl)) <$> slots acc;
  inv_nodup : NoDup ((fun sl => UnixNano (sl_Start sl)) <$> slots acc);
  inv_limit : 0 < Limit inp ->
    (full acc = false -> Z.of_nat (length (slots acc)) < Limit inp) /\
    Z.of_nat (length (slots acc)) <= Limit inp;
  inv_full : full acc = true -> 0 < Limit inp
}.

Lemma offer_admissible breaks period s acc :
  offer inp breaks busy period s acc =
  if admissible breaks period s then
    if bool_decide (UnixNano s ∈ seen acc) then acc
    else mkScan ({[UnixNano s]} ∪ seen acc) (slots acc ++ [slot_of s])
           ((0 <? Limit inp) && (Limit inp <=? Z.of_nat (length (slots acc ++ [slot_of s]))))
  else acc.
Proof.
  unfold offer, admissible; cbv zeta. fold (service_time s). fold (occupied s).
  by destruct (_ || _), (_ || _).
Qed.

Lemma offer_inv good breaks period s acc :
  full acc = false -> (admissible breaks period s = true -> good s) ->
  scan_inv good acc -> scan_inv good (offer inp breaks busy period s acc).
Proof.
  intros Hnf Hg Hinv. rewrite offer_admissible.
  destruct (admissible breaks period s) eqn:Ha; [|done].
  case_bool_decide as Hseen; [done|]. destruct Hinv as [Hgood Hs Hnd Hlim Hfull].
  constructor; simpl.
  - intros sl [Hin|Hin%list_elem_of_singleton]%elem_of_app; [by apply Hgood|subst sl].
    split; [done|by apply Hg].
  - intros u. rewrite fmap_app, elem_of_app, elem_of_union, elem_of_singleton, Hs.
    rewrite fmap_cons, fmap_nil, list_elem_of_singleton; simpl. tauto.
  - rewrite fmap_app. apply NoDup_app. split; [done|]. split; [|apply NoDup_singleton].
    intros u Hu Hu'%list_elem_of_singleton. simpl in Hu'; subst u. by apply Hseen, Hs.
  - intros HL. destruct (Hlim HL) as [H1 _]. specialize (H1 Hnf).
    rewrite length_app; simpl. rewrite andb_false_iff, Z.ltb_ge, Z.leb_gt. lia.
  - rewrite andb_true_iff, Z.ltb_lt. tauto.
Qed.

Lemma scan_period_inv good breaks period fuel s acc :
  (forall k : nat, admissible breaks period (Add s (Z.of_nat k * step)) = true ->
                   good (Add s (Z.of_nat k * step))) ->
  scan_inv good acc -> scan_inv good (scan_period fuel inp step breaks busy period s acc).
Proof.
  revert s acc; induction fuel as [|fuel IH]; intros s acc Hg Hinv; simpl; [done|].
  destruct (negb (Before s (stop period)) || full acc) eqn:Hc; [done|]. bool_to_prop.
  assert (HA : Add s (Z.of_nat 0 * step) = s)
    by (destruct s; unfold Add; simpl; f_equal; lia).
  apply IH; [|apply offer_inv; [done| |done]].
  - intros k. replace (Add (Add s step) (Z.of_nat k * step))
      with (Add s (Z.of_nat (S k) * step)); [apply Hg|].
    unfold Add; simpl. f_equal. lia.
  - intros. rewrite <- HA. apply Hg. by rewrite HA.
Qed.

Lemma scan_day_inv good day acc :
  (forall s, candidate_on day s -> good s) ->
  scan_inv good acc -> scan_inv good (scan_day inp step busy location day acc).
Proof.
  intros Hg. unfold scan_day.
  destruct (intervalsForDate day location (Rules inp)) as [working breaks] eqn:Hi.
  assert (Hsub : forall p, p ∈ mergeIntervals working -> p ∈ working_on day)
    by (unfold working_on; by rewrite Hi).
  assert (Hbr : breaks_on day = mergeIntervals breaks) by (unfold breaks_on; by rewrite Hi).
  revert acc Hsub; induction (mergeIntervals working) as [|p ps IH]; intros acc Hsub Hinv;
    simpl; [done|].
  apply IH; [intros; apply Hsub; by right|].
  destruct (full acc); [done|]. apply scan_period_inv; [|done].
  intros k Hk. apply Hg. exists p, k. rewrite Hbr. split; [apply Hsub; by left|done].
Qed.

(** The local dates the loop visits, in order. *)
Inductive visits (lastDay : Time) : Time -> Time -> Prop :=
| visits_here day : After day lastDay = false -> visits lastDay day day
| visits_next day d : After day lastDay = false ->
    visits lastDay (AddDate day 0 0 1) d -> visits lastDay day d.

Lemma scan_days_inv good fuel i ctx day lastDay acc acc' :
  (forall d s, visits lastDay day d -> candidate_on d s -> good s) ->
  scan_inv good acc ->
  scan_days fuel i ctx inp step busy location day lastDay acc = Some (Ok acc') ->
  scan_inv good acc'.
Proof.
  revert i day acc; induction fuel as [|fuel IH]; intros i day acc Hg Hinv; simpl;
    destruct (After day lastDay) eqn:Ha; try done; try (by intros [= <-]).
  destruct (ctx i); [done|].
  assert (Hinv' : scan_inv good (scan_day inp step busy location day acc)).
  { apply scan_day_inv; [|done]. intros s. apply Hg. by constructor. }
  destruct (full _); [by intros [= <-]|]. apply IH; [|done].
  intros d s Hd. apply Hg. by apply visits_next.
Qed.

Lemma scan_inv_empty good : scan_inv good (mkScan ∅ [] false).
Proof.
  constructor; simpl; [|set_solver|constructor|lia|done].
  by intros ? ?%elem_of_nil.
Qed.

(** ** Completeness of the scan when nothing stops it *)
Lemma offer_unlimited breaks period s acc :
  Limit inp = 0 -> full acc = false ->
  full (offer inp breaks busy period s acc) = false /\
  seen acc ⊆ seen (offer inp breaks busy period s acc) /\
  (admissible breaks period s = true -> UnixNano s ∈ seen (offer inp breaks busy period s acc)).
Proof.
  intros HL Hf. rewrite offer_admissible, HL; simpl.
  destruct (admissible breaks period s); [|done]. case_bool_decide; [done|].
  simpl; repeat split; set_solver.
Qed.

Lemma scan_period_unlimited breaks period fuel s acc :
  Limit inp = 0 -> full acc = false -> 0 < step ->
  ns (stop period) - ns s <= Z.of_nat fuel * step ->
  full (scan_period fuel inp step breaks busy period s acc) = false /\
  seen acc ⊆ seen (scan_period fuel inp step breaks busy period s acc) /\
  forall k : nat, ns s + Z.of_nat k * step < ns (stop period) ->
    admissible breaks period (Add s (Z.of_nat k * step)) = true ->
    UnixNano (Add s (Z.of_nat k * step)) ∈
      seen (scan_period fuel inp step breaks busy period s acc).
Proof.
  intros HL Hf Hst; revert s acc Hf; induction fuel as [|fuel IH]; intros s acc Hf Hfu; simpl.
  { repeat split; [done|done|]. intros k; nia. }
  rewrite Hf, orb_false_r. unfold Before; destruct (Z.ltb_spec (ns s) (ns (stop period))); simpl.
  2: { repeat split; [done|done|]. intros k; nia. }
  destruct (offer_unlimited breaks period s acc HL Hf) as (Hf' & Hsub & Hadd).
  destruct (IH (Add s step) _ Hf') as (IH1 & IH2 & IH3); [simpl; lia|].
  repeat split; [done|set_solver|].
  intros [|k] Hk Hadm.
  - apply IH2. replace (Add s (Z.of_nat 0 * step)) with s in *
      by (destruct s; unfold Add; simpl; f_equal; lia). auto.
  - replace (Add s (Z.of_nat (S k) * step)) with (Add (Add s step) (Z.of_nat k * step)) in *
      by (unfold Add; simpl; f_equal; lia).
    apply IH3; [simpl; lia|done].
Qed.

Lemma grid_fuel_enough period :
  0 < step -> ns (stop period) - ns (start period) <= Z.of_nat (grid_fuel step period) * step.
Proof.
  intros Hst. unfold grid_fuel.
  set (d := ns (stop period) - ns (start period)).
  pose proof (Z.div_mod (d + step - 1) step ltac:(lia)).
  pose proof (Z.mod_pos_bound (d + step - 1) step Hst).
  destruct (Z.le_gt_cases 0 ((d + step - 1) / step)).
  - rewrite Z2Nat.id by done. nia.
  - replace (Z.to_nat ((d + step - 1) / step)) with 0%nat by lia. nia.
Qed.

Lemma scan_day_unlimited day acc :
  Limit inp = 0 -> full acc = false -> 0 < step -> 0 < Duration (si_Service inp) ->
  full (scan_day inp step busy location day acc) = false /\
  seen acc ⊆ seen (scan_day inp step busy location day acc) /\
  forall s, candidate_on day s -> UnixNano s ∈ seen (scan_day inp step busy location day acc).
Proof.
  intros HL Hf Hst Hdur. unfold scan_day, candidate_on, working_on, breaks_on.
  destruct (intervalsForDate day location (Rules inp)) as [working breaks]; simpl.
  revert acc Hf; induction (mergeIntervals working) as [|p ps IH]; intros acc Hf; simpl.
  { repeat split; [done|done|]. by intros s (q & k & ?%elem_of_nil & _). }
  rewrite Hf.
  destruct (scan_period_unlimited (mergeIntervals breaks) p (grid_fuel step p) (start p) acc)
    as (Hf' & Hsub & Hall); [done..|by apply grid_fuel_enough|].
  destruct (IH _ Hf') as (IH1 & IH2 & IH3). repeat split; [done|set_solver|].
  intros s (q & k & Hq & Hs & Hadm). apply elem_of_cons in Hq as [->|Hq];
    [|apply IH3; by exists q, k].
  apply IH2. subst s. apply Hall; [|done].
  unfold admissible in Hadm. bool_to_prop. unfold After, service_time in *; bool_to_prop.
  simpl in *. lia.
Qed.

Lemma scan_days_unlimited fuel i ctx day lastDay acc acc' :
  Limit inp = 0 -> full acc = false -> 0 < step -> 0 < Duration (si_Service inp) ->
  scan_days fuel i ctx inp step busy location day lastDay acc = Some (Ok acc') ->
  full acc' = false /\ seen acc ⊆ seen acc' /\
  forall d s, visits lastDay day d -> candidate_on d s -> UnixNano s ∈ seen acc'.
Proof.
  intros HL Hf Hst Hdur; revert i day acc Hf; induction fuel as [|fuel IH];
    intros i day acc Hf; simpl; destruct (After day lastDay) eqn:Ha; try done.
  1,2: intros [= <-]; repeat split; [done|done|]; intros d s Hv; inversion Hv; congruence.
  destruct (ctx i); [done|].
  destruct (scan_day_unlimited day acc) as (Hf' & Hsub & Hall); [done..|].
  rewrite Hf'. intros Hs. destruct (IH _ _ _ Hf' Hs) as (IH1 & IH2 & IH3).
  repeat split; [done|set_solver|].
  intros d s Hv Hc. inversion Hv; subst; [apply IH2; auto|eauto].
Qed.
End scan_facts.

(** * What a search returns *)

#[local] Open Scope Z_scope.

(** ** Inversion of the entry points *)
Lemma validate_inv ll e inp location step :
  validate ll e inp = Ok (location, step) ->
  engine_location ll e inp = Ok location /\ step = slot_step inp /\
  0 < Duration (si_Service inp) /\ Minute <= step /\
  0 <= BufferBefore (si_Service inp) <= 4 * Hour /\
  0 <= BufferAfter (si_Service inp) <= 4 * Hour /\
  0 < ns (To inp) - ns (From inp) <= 31 * 24 * Hour + 2 * Hour /\ 0 <= Limit inp <= 1000.
Proof.
  unfold validate; cbv zeta. do 5 (case_match; [done|]).
  intros Hv. apply rbind_Ok in Hv as (l & Hl & Hv).
  destruct (_ || negb (_ =? 0)) eqn:Hstep in Hv; [done|].
  apply rbind_Ok in Hv as (? & _ & [= -> <-]).
  bool_to_prop. unfold Before, Sub, slot_step in *. bool_to_prop.
  unfold Hour, Minute, Second, min_int64, max_int64 in *. repeat split; try done; lia.
Qed.

Lemma expand_busy_spec items busy :
  expand_busy items = Ok busy ->
  busy = (fun b => mkWall (Add (iv_Start b) (- iv_BufferBefore b))
                          (Add (iv_End b) (iv_BufferAfter b))) <$> items /\
  Forall (fun b => ns (iv_Start b) < ns (iv_End b) /\
                   0 <= iv_BufferBefore b /\ 0 <= iv_BufferAfter b) items.
Proof.
  revert busy; induction items as [|b tl IH]; simpl; intros busy; [intros [= <-]; done|].
  destruct (busy_invalid b) eqn:Hb; [done|].
  intros Hr. apply rbind_Ok in Hr as (rest & Hrest & [= <-]).
  destruct (IH rest Hrest) as [-> Hf]. split; [done|]. constructor; [|done].
  unfold busy_invalid, Before in Hb. bool_to_prop. lia.
Qed.

Lemma FindSlots_inv ll fuel e ctx inp l :
  FindSlots ll fuel e ctx inp = Some (Ok l) ->
  exists location step busy acc,
    validate ll e inp = Ok (Some location, step) /\ expand_busy (Busy inp) = Ok busy /\
    scan_days fuel 0 ctx inp step busy location
      (date_of (In (From inp) location) location)
      (date_of (In (Add (To inp) (- Nanosecond)) location) location)
      (mkScan ∅ [] false) = Some (Ok acc) /\
    l = sortSlots (slots acc).
Proof.
  unfold FindSlots. destruct (validate ll e inp) as [[location step]|] eqn:Hv; [|done].
  destruct (expand_busy (Busy inp)) as [busy|] eqn:Hb; [|done].
  destruct location as [location|]; [|done]. cbv zeta.
  destruct (scan_days _ _ _ _ _ _ _ _ _ _) as [[acc|]|] eqn:Hs; [|done..].
  intros [= <-]. by exists location, step, busy, acc.
Qed.

(** The local dates [FindSlots] searches. *)
Definition searched (inp : SearchInput) (location : Location) : Time -> Prop :=
  visits (date_of (In (Add (To inp) (- Nanosecond)) location) location)
         (date_of (In (From inp) location) location).

Lemma FindSlots_run ll fuel e ctx inp l :
  FindSlots ll fuel e ctx inp = Some (Ok l) ->
  exists location step busy acc,
    validate ll e inp = Ok (Some location, step) /\ expand_busy (Busy inp) = Ok busy /\
    l = sortSlots (slots acc) /\
    scan_days fuel 0 ctx inp step busy location
      (date_of (In (From inp) location) location)
      (date_of (In (Add (To inp) (- Nanosecond)) location) location)
      (mkScan ∅ [] false) = Some (Ok acc) /\
    scan_inv inp (fun s => exists d, searched inp location d /\
                     candidate_on inp step busy location d s) acc.
Proof.
  intros (location & step & busy & acc & Hv & Hb & Hs & ->)%FindSlots_inv.
  exists location, step, busy, acc. repeat (split; [done|]).
  eapply scan_days_inv; [|apply scan_inv_empty|exact Hs].
  intros d s Hd Hc. by exists d.
Qed.

Lemma admissible_spec inp busy breaks period s :
  admissible inp busy breaks period s = true <->
  (ns (From inp) <= ns s /\ 0 < Duration (si_Service inp) /\
   ns s + Duration (si_Service inp) <= ns (To inp) /\
   ns s + Duration (si_Service inp) <= ns (stop period)) /\
  overlapsAny (occupied inp s) breaks = false /\ overlapsAny (occupied inp s) busy = false.
Proof.
  unfold admissible, After, Before, service_time; simpl.
  rewrite andb_true_iff, !negb_true_iff, !orb_false_iff, negb_false_iff, !Z.ltb_ge, Z.ltb_lt.
  intuition lia.
Qed.

(** The whole occupied range of a service starting at [s] is clear of [w]. *)
Definition clear_of (inp : SearchInput) (s : Time) (first last : Z) : Prop :=
  last <= ns s - BufferBefore (si_Service inp) \/
  ns s + Duration (si_Service inp) + BufferAfter (si_Service inp) <= first.

Lemma overlaps_clear inp s w items :
  overlapsAny (occupied inp s) items = false -> w ∈ items ->
  clear_of inp s (ns (start w)) (ns (stop w)).
Proof.
  intros Ho Hw. apply overlapsAny_false with (w := w) in Ho; [|done].
  unfold clear_of, occupied, service_time in *; simpl in *. lia.
Qed.

(** A start time at which the service can really be performed. *)
Definition genuine (inp : SearchInput) (location : Location) (s : Time) : Prop :=
  exists d period, searched inp location d /\ period ∈ working_on inp location d /\
    ns (From inp) <= ns s /\ ns s + Duration (si_Service inp) <= ns (To inp) /\
    ns (start period) <= ns s /\ ns s + Duration (si_Service inp) <= ns (stop period) /\
    (forall b, b ∈ breaks_on inp location d -> clear_of inp s (ns (start b)) (ns (stop b))) /\
    (forall b, b ∈ Busy inp ->
       clear_of inp s (ns (iv_Start b) - iv_BufferBefore b) (ns (iv_End b) + iv_BufferAfter b)).

Lemma candidate_genuine inp step busy location d s :
  expand_busy (Busy inp) = Ok busy -> 0 <= step ->
  searched inp location d -> candidate_on inp step busy location d s ->
  genuine inp location s.
Proof.
  intros Hb Hstep Hd (period & k & Hp & Hs & Hadm).
  apply admissible_spec in Hadm as ((H1 & H2 & H3 & H4) & Hbr & Hbu).
  destruct (expand_busy_spec _ _ Hb) as [Hbusy _].
  exists d, period. repeat (split; [done|]).
  split; [rewrite Hs; simpl; nia|]. split; [done|]. split.
  - intros b. by apply overlaps_clear.
  - intros b Hin. apply (overlaps_clear _ _
      (mkWall (Add (iv_Start b) (- iv_BufferBefore b)) (Add (iv_End b) (iv_BufferAfter b)))) in Hbu.
    + simpl in Hbu. by rewrite <- Z.add_opp_r.
    + rewrite Hbusy. apply list_elem_of_fmap. by exists b.
Qed.

Lemma FindSlots_genuine ll fuel e ctx inp l :
  FindSlots ll fuel e ctx inp = Some (Ok l) ->
  exists location, engine_location ll e inp = Ok (Some location) /\
    forall sl, sl ∈ l -> sl = slot_of inp (sl_Start sl) /\ genuine inp location (sl_Start sl).
Proof.
  intros (loc & step & busy & acc & Hv & Hb & -> & _ & Hinv)%FindSlots_run.
  destruct (validate_inv _ _ _ _ _ Hv) as (Hl & _ & _ & Hstep & _).
  exists loc. split; [done|]. intros sl Hsl%elem_of_sort_slice.
  destruct (inv_good _ _ _ Hinv sl Hsl) as [Heq (d & Hd & Hc)]. split; [done|].
  eapply candidate_genuine; [done| |done..]. unfold Minute, Second in Hstep. lia.
Qed.

(** C22. Soundness of the offers.  Every slot [FindSlots] returns lies in the
    requested range, lasts exactly the service duration, lies inside one merged
    working period of a searched local date, and, widened by the service's
    buffers, overlaps no break of that date and no busy interval widened by its
    own buffers. *)
Theorem FindSlots_sound ll fuel e ctx inp l sl :
  FindSlots ll fuel e ctx inp = Some (Ok l) -> sl ∈ l ->
  exists location d period,
    engine_location ll e inp = Ok (Some location) /\ searched inp location d /\
    period ∈ working_on inp location d /\
    sl_ServiceID sl = svc_ID (si_Service inp) /\ sl_StaffID sl = stf_ID (si_Staff inp) /\
    ns (sl_End sl) = ns (sl_Start sl) + Duration (si_Service inp) /\
    ns (From inp) <= ns (sl_Start sl) /\ ns (sl_End sl) <= ns (To inp) /\
    ns (start period) <= ns (sl_Start sl) /\ ns (sl_End sl) <= ns (stop period) /\
    (forall b, b ∈ breaks_on inp location d ->
       clear_of inp (sl_Start sl) (ns (start b)) (ns (stop b))) /\
    (forall b, b ∈ Busy inp ->
       clear_of inp (sl_Start sl) (ns (iv_Start b) - iv_BufferBefore b)
                                  (ns (iv_End b) + iv_BufferAfter b)).
Proof.
  intros (loc & Hl & Hall)%FindSlots_genuine Hsl.
  destruct (Hall sl Hsl) as [Heq (d & period & Hd & Hp & H1 & H2 & H3 & H4 & Hbr & Hbu)].
  assert (He : ns (sl_End sl) = ns (sl_Start sl) + Duration (si_Service inp)) by (by rewrite Heq).
  exists loc, d, period. rewrite He. repeat (split; [first [done | by rewrite Heq]|]). done.
Qed.

(** The offers of [FindSlots] come in chronological order, no instant is
    offered twice, and a positive limit is never exceeded. *)
Theorem FindSlots_ordered ll fuel e ctx inp l :
  FindSlots ll fuel e ctx inp = Some (Ok l) ->
  StronglySorted (fun a b => ns (sl_Start a) <= ns (sl_Start b)) l /\
  NoDup ((fun sl => UnixNano (sl_Start sl)) <$> l) /\
  (0 < Limit inp -> Z.of_nat (length l) <= Limit inp).
Proof.
  intros (loc & step & busy & acc & _ & _ & -> & _ & Hinv)%FindSlots_run. split; [|split].
  - eapply StronglySorted_impl; [|apply sortSlots_sorted].
    unfold slot_le; intros ? ? [?|[? _]]; lia.
  - unfold sortSlots. rewrite sort_slice_perm. by eapply inv_nodup.
  - intros HL. unfold sortSlots. rewrite length_sort_slice.
    by apply (inv_limit _ _ _ Hinv).
Qed.

(** C38. Completeness of the offers.  Without a limit, every grid instant of a
    working period of a searched local date that fits the range and the period
    and whose occupied range is clear of breaks and busy intervals is offered. *)
Theorem FindSlots_complete ll fuel e ctx inp l location step d period (k : nat) :
  FindSlots ll fuel e ctx inp = Some (Ok l) -> Limit inp = 0 ->
  validate ll e inp = Ok (Some location, step) ->
  searched inp location d -> period ∈ working_on inp location d ->
  let s := Add (start period) (Z.of_nat k * step) in
  ns (From inp) <= ns s -> ns s + Duration (si_Service inp) <= ns (To inp) ->
  ns s + Duration (si_Service inp) <= ns (stop period) ->
  (forall b, b ∈ breaks_on inp location d -> clear_of inp s (ns (start b)) (ns (stop b))) ->
  (forall b, b ∈ Busy inp ->
     clear_of inp s (ns (iv_Start b) - iv_BufferBefore b) (ns (iv_End b) + iv_BufferAfter b)) ->
  exists sl, sl ∈ l /\ ns (sl_Start sl) = ns s.
Proof.
  intros Hf HL Hv Hd Hp s H1 H2 H3 Hbr Hbu.
  apply FindSlots_run in Hf as (loc' & step' & busy & acc & Hv' & Hb & -> & Hs & Hinv).
  rewrite Hv in Hv'. injection Hv' as <- <-.
  destruct (validate_inv _ _ _ _ _ Hv) as (_ & _ & Hdur & Hstep & _ & _ & Hrange & _).
  destruct (expand_busy_spec _ _ Hb) as [Hbusy _].
  assert (Hc : candidate_on inp step busy location d s).
  { exists period, k. split; [done|]. split; [done|]. apply admissible_spec. split; [lia|].
    split; apply overlapsAny_false; unfold occupied, service_time, clear_of in *; simpl.
    - intros w Hw. destruct (Hbr w Hw); unfold s in *; simpl in *; lia.
    - intros w Hw. rewrite Hbusy in Hw. apply list_elem_of_fmap in Hw as (b & -> & Hin).
      destruct (Hbu b Hin); unfold s in *; simpl in *; lia. }
  assert (Hst : 0 < step) by (unfold Minute, Second in *; lia).
  destruct (scan_days_unlimited inp step busy location fuel 0 ctx _ _ (mkScan ∅ [] false) acc
              HL eq_refl Hst Hdur Hs) as (_ & _ & Hall).
  specialize (Hall d s Hd Hc).
  apply (inv_seen _ _ _ Hinv) in Hall. apply list_elem_of_fmap in Hall as (sl & Heq & Hsl).
  exists sl. split; [by apply elem_of_sort_slice|].
  destruct (inv_good _ _ _ Hinv sl Hsl) as [_ (d' & _ & period' & k' & _ & _ & Hadm)].
  apply admissible_spec in Hadm as ((? & ? & ? & ?) & _).
  symmetry. apply wrap64_inj_near; [|exact Heq].
  unfold two64, Hour, Minute, Second in *. lia.
Qed.

(** ** Termination *)
Lemma scan_days_terminates lo hi fuel i ctx inp step busy location day lastDay acc :
  within lo hi location -> hi - lo < 86400 -> tloc day = location ->
  ns lastDay - ns day < Z.of_nat fuel * ((86400 - (hi - lo)) * Second) ->
  is_Some (scan_days fuel i ctx inp step busy location day lastDay acc).
Proof.
  intros Hw Hs; revert i day acc; induction fuel as [|fuel IH]; intros i day acc Hl Hf; simpl.
  - unfold After. destruct (Z.ltb_spec (ns lastDay) (ns day)); [done|lia].
  - destruct (After day lastDay); [done|]. destruct (ctx i); [done|].
    destruct (full _); [done|]. apply IH; [done|].
    pose proof (AddDate_progress_ns lo hi day ltac:(by rewrite Hl) Hs). lia.
Qed.

Definition search_fuel : nat := 68.

Lemma search_fuel_enough lo hi location from to :
  within lo hi location -> hi - lo <= 43200 -> to - from <= 31 * 24 * Hour + 2 * Hour ->
  ns (date_of (mkTime (to - 1) location) location) - ns (date_of (mkTime from location) location)
  < Z.of_nat search_fuel * ((86400 - (hi - lo)) * Second).
Proof.
  intros Hw Hs Hr.
  assert (Hu : unix (mkTime (to - 1) location) - unix (mkTime from location) <= 2685601).
  { unfold unix; simpl.
    assert (Hle : to - 1 <= from + 2685600 * Second) by (unfold Hour, Minute, Second in *; lia).
    apply (Z.div_le_mono _ _ Second) in Hle; [|done].
    rewrite Z.div_add in Hle by done. lia. }
  destruct (date_of_bounds lo hi (mkTime (to - 1) location) location Hw eq_refl) as [H1 ->].
  destruct (date_of_bounds lo hi (mkTime from location) location Hw eq_refl) as [H2 ->].
  unfold search_fuel, Second. lia.
Qed.

(** C39. Termination.  In every location whose offsets stay within twelve hours
    of each other, 68 iterations of the local-date loop are enough for every
    search the validation admits: [FindSlots] returns. *)
Theorem FindSlots_terminates ll lo hi fuel e ctx inp :
  (forall location step, validate ll e inp = Ok (Some location, step) ->
     within lo hi location) ->
  hi - lo <= 43200 -> (search_fuel <= fuel)%nat ->
  is_Some (FindSlots ll fuel e ctx inp).
Proof.
  intros Hw Hs Hfuel. unfold FindSlots.
  destruct (validate ll e inp) as [[[location|] step]|] eqn:Hv; [|by case_match|done].
  destruct (expand_busy (Busy inp)); [|done]. cbv zeta.
  destruct (validate_inv _ _ _ _ _ Hv) as (_ & _ & _ & _ & _ & _ & [_ Hr] & _).
  assert (Ht : is_Some (scan_days fuel 0 ctx inp step a location
    (date_of (In (From inp) location) location)
    (date_of (In (Add (To inp) (- Nanosecond)) location) location) (mkScan ∅ [] false))).
  { apply (scan_days_terminates lo hi); [eauto|lia|done|].
    pose proof (search_fuel_enough lo hi location (ns (From inp)) (ns (To inp))
                  ltac:(eauto) Hs Hr) as Hf.
    eapply Z.lt_le_trans; [exact Hf|].
    apply Z.mul_le_mono_nonneg_r; [unfold Second; lia|lia]. }
  destruct Ht as [[acc|] ->]; done.
Qed.

(** [mergeIntervals] computes the union: the merged periods cover exactly
    the instants the given periods cover, each is a proper interval, and any two
    consecutive ones are separated by a gap. *)
Theorem mergeIntervals_union items :
  Forall proper items ->
  (forall x, covered x (mergeIntervals items) <-> covered x items) /\
  StronglySorted separated (mergeIntervals items) /\ Forall proper (mergeIntervals items).
Proof.
  intros Hf. split; [intros x; by apply mergeIntervals_covered|].
  by apply mergeIntervals_separated.
Qed.

(** ** The locked recheck *)
Lemma IsAvailable_genuine ll fuel e ctx inp t :
  IsAvailable ll fuel e ctx inp t = Some (Ok true) ->
  exists location s, engine_location ll e inp = Ok (Some location) /\ ns s = ns t /\
    genuine (day_search inp location t) location s.
Proof.
  unfold IsAvailable. destruct (validate ll e inp) as [[[location|] step]|] eqn:Hv; [|done..].
  destruct (FindSlots ll fuel e ctx (day_search inp location t)) as [[l|]|] eqn:Hf; [|done..].
  intros [= Hex]. apply existsb_exists in Hex as (sl & Hsl & Heq).
  apply list_elem_of_In in Hsl. unfold Equal in Heq; bool_to_prop.
  destruct (validate_inv _ _ _ _ _ Hv) as (Hl & _).
  apply FindSlots_genuine in Hf as (loc' & Hl' & Hall).
  assert (loc' = location) as ->.
  { unfold engine_location in Hl, Hl'; simpl in Hl'. congruence. }
  exists location, (sl_Start sl). split; [done|]. split; [done|]. by apply Hall.
Qed.

(** [IsAvailable] never confirms a start that the schedule rules out: when it
    answers true, the service fits inside a working period of the local date of
    [startsAt] and its occupied range is clear of every busy interval. *)
Theorem IsAvailable_sound ll fuel e ctx inp t :
  IsAvailable ll fuel e ctx inp t = Some (Ok true) ->
  exists location d period,
    engine_location ll e inp = Ok (Some location) /\ period ∈ working_on inp location d /\
    ns (start period) <= ns t /\ ns t + Duration (si_Service inp) <= ns (stop period) /\
    ns (date_of (In t location) location) <= ns t /\
    forall b, b ∈ Busy inp ->
      clear_of inp t (ns (iv_Start b) - iv_BufferBefore b) (ns (iv_End b) + iv_BufferAfter b).
Proof.
  intros (location & s & Hl & Hs & d & period & Hd & Hp & H1 & H2 & H3 & H4 & _ & Hbu)%IsAvailable_genuine.
  exists location, d, period. simpl in *. rewrite <- Hs. repeat (split; [done|]).
  intros b Hin. specialize (Hbu b Hin). unfold clear_of in *; simpl in *. by rewrite <- Hs.
Qed.

(** ** A concrete schedule

    Berlin summer time, a 30-minute service with a ten-minute buffer after it,
    Monday 2025-07-07 from 09:00 to 10:30, and a booking from 09:00 to 09:20. *)
Module Demo.
Definition CEST : Location := mkLocation "CEST" 7200 [].
Definition load (name : string) : result Location :=
  if bool_decide (name = "UTC") then Ok UTC else Ok CEST.
Definition engine : Engine := mkEngine (Some CEST).
Definition at_ (d h m : Z) : Time := Date 2025 7 d h m 0 0 CEST.
Definition haircut : Service :=
  mkService "svc" "cut" "Haircut" "" (30 * Minute) 0 (10 * Minute) 3500 "EUR".
Definition anna : Staff := mkStaff "staff" "anna" "Anna" "Europe/Berlin".
Definition monday : AvailabilityRule := mkRule RuleWorking 1 540 630 None None.
Definition busy : Interval := mkInterval (at_ 7 9 0) (at_ 7 9 20) 0 0.
Definition ctx (i : nat) : option error := None.
Definition search (limit : Z) : SearchInput :=
  mkSearch haircut anna (at_ 7 0 0) (at_ 8 0 0) [monday] [busy] 0 limit.
Definition offers (limit : Z) : list Slot :=
  match FindSlots load 68 engine ctx (search limit) with Some (Ok l) => l | _ => [] end.
Definition at0930 : Slot := slot_of (search 0) (at_ 7 9 30).

Example offers_are : (fun sl => ns (sl_Start sl) - ns (at_ 7 0 0)) <$> offers 0
                     = [570 * Minute; 585 * Minute; 600 * Minute].
Proof. vm_compute; reflexivity. Qed.
End Demo.

Lemma FindSlots_sound_witness :
  Demo.at0930 ∈ Demo.offers 0 /\
  exists d period, period ∈ working_on (Demo.search 0) Demo.CEST d /\
    ns (start period) <= ns (sl_Start Demo.at0930).
Proof.
  assert (Hin : Demo.at0930 ∈ Demo.offers 0)
    by (apply list_elem_of_In; vm_compute; by left).
  split; [exact Hin|].
  destruct (FindSlots_sound Demo.load 68 Demo.engine Demo.ctx (Demo.search 0)
              (Demo.offers 0) Demo.at0930 ltac:(vm_compute; reflexivity) Hin)
    as (l & d & period & Hl & _ & Hp & _ & _ & _ & _ & _ & Hs & _).
  assert (Hl' : l = Demo.CEST) by (vm_compute in Hl; by injection Hl as <-).
  subst l. exists d, period. split; [exact Hp|exact Hs].
Defined.

Lemma FindSlots_ordered_witness :
  NoDup ((fun sl => UnixNano (sl_Start sl)) <$> Demo.offers 2) /\
  Z.of_nat (length (Demo.offers 2)) <= 2.
Proof.
  destruct (FindSlots_ordered Demo.load 68 Demo.engine Demo.ctx (Demo.search 2)
              (Demo.offers 2) ltac:(vm_compute; reflexivity)) as (_ & Hnd & Hlim).
  split; [exact Hnd|exact (Hlim ltac:(done))].
Defined.

Lemma FindSlots_terminates_witness :
  is_Some (FindSlots Demo.load 68 Demo.engine Demo.ctx (Demo.search 0)).
Proof.
  apply (FindSlots_terminates Demo.load 0 7200); [|lia|reflexivity].
  intros location step Hv. vm_compute in Hv. injection Hv as <- <-.
  repeat constructor; simpl; lia.
Defined.

Lemma mergeIntervals_union_witness :
  let items := [mkWall (Demo.at_ 7 11 0) (Demo.at_ 7 12 0); mkWall (Demo.at_ 7 9 0) (Demo.at_ 7 11 0)] in
  mergeIntervals items = [mkWall (Demo.at_ 7 9 0) (Demo.at_ 7 12 0)] /\
  StronglySorted separated (mergeIntervals items).
Proof.
  cbv zeta. split; [vm_compute; reflexivity|].
  apply mergeIntervals_union. by repeat constructor.
Defined.

Lemma IsAvailable_sound_witness :
  exists location d period,
    period ∈ working_on (Demo.search 0) location d /\ ns (start period) <= ns (Demo.at_ 7 9 30).
Proof.
  destruct (IsAvailable_sound Demo.load 68 Demo.engine Demo.ctx (Demo.search 0) (Demo.at_ 7 9 30)
              ltac:(vm_compute; reflexivity)) as (l & d & period & _ & Hp & Hs & _).
  exists l, d, period. split; [exact Hp|exact Hs].
Defined.

(** ** The completeness witness: 10:00 is offered *)
Lemma FindSlots_complete_witness :
  exists sl, sl ∈ Demo.offers 0 /\ ns (sl_Start sl) = ns (Demo.at_ 7 10 0).
Proof.
  set (period := mkWall (Demo.at_ 7 9 0) (Demo.at_ 7 10 30)).
  assert (Hf : FindSlots Demo.load 68 Demo.engine Demo.ctx (Demo.search 0) = Some (Ok (Demo.offers 0)))
    by (vm_compute; reflexivity).
  assert (Hv : validate Demo.load Demo.engine (Demo.search 0) = Ok (Some Demo.CEST, 15 * Minute))
    by (vm_compute; reflexivity).
  assert (Hd : searched (Demo.search 0) Demo.CEST (Demo.at_ 7 0 0)).
  { replace (Demo.at_ 7 0 0)
      with (date_of (In (From (Demo.search 0)) Demo.CEST) Demo.CEST) by (vm_compute; reflexivity).
    apply visits_here. vm_compute; reflexivity. }
  assert (Hp : period ∈ working_on (Demo.search 0) Demo.CEST (Demo.at_ 7 0 0))
    by (apply list_elem_of_In; vm_compute; by left).
  assert (Hb : breaks_on (Demo.search 0) Demo.CEST (Demo.at_ 7 0 0) = [])
    by (vm_compute; reflexivity).
  destruct (FindSlots_complete _ _ _ _ _ _ _ _ _ period 4 Hf eq_refl Hv Hd Hp)
    as (sl & Hsl & Heq); [by vm_compute..| | |].
  - rewrite Hb. intros b Hin. inversion Hin.
  - intros b Hin. apply list_elem_of_In in Hin. destruct Hin as [<-|[]]. left. by vm_compute.
  - exists sl. split; [exact Hsl|]. rewrite Heq. vm_compute; reflexivity.
Defined.

(** ** Where the local-date loop fails *)
Module Gaps.
(** Samoa skipped 2011-12-30: UTC-10 became UTC+14 at 2011-12-30T10:00:00Z. *)
Definition Apia : Location := mkLocation "Pacific/Apia" (-36000) [(1325239200, 50400)].
(** Chile starts summer time at local midnight: 2025-09-07T04:00:00Z. *)
Definition Santiago : Location := mkLocation "America/Santiago" (-14400) [(1757217600, -10800)].

Definition load (l : Location) (name : string) : result Location := Ok l.
Definition member : Staff := mkStaff "staff" "s" "S" "local".
Definition search (from to : Time) (rules : list AvailabilityRule) : SearchInput :=
  mkSearch Demo.haircut member from to rules [] 0 0.

Definition apia_29 : Time := Date 2011 12 29 0 0 0 0 Apia.
Definition apia_31 : Time := Date 2011 12 31 0 0 0 0 Apia.

(** Sunday 2025-09-07 in Chile, from its first minute (01:00) to midnight. *)
Definition santiago_from : Time := mkTime (1757217600 * Second) Santiago.
Definition santiago_to : Time := Date 2025 9 8 0 0 0 0 Santiago.
Definition sunday : AvailabilityRule := mkRule RuleWorking 0 540 1020 None None.
Definition noon : Time := Date 2025 9 7 12 0 0 0 Santiago.
End Gaps.

(** A date-line change stops the local-date loop from advancing:
    [AddDate(0, 0, 1)] of 2011-12-29 in Samoa is 2011-12-29 again, so a search
    over that date never returns, whatever number of iterations it is given. *)
Theorem FindSlots_stuck_at_skipped_date fuel ctx :
  (forall i, ctx i = None) ->
  AddDate Gaps.apia_29 0 0 1 = Gaps.apia_29 /\
  FindSlots (Gaps.load Gaps.Apia) fuel (mkEngine None) ctx
    (Gaps.search Gaps.apia_29 Gaps.apia_31 []) = None.
Proof.
  intros Hctx.
  assert (Hstuck : AddDate Gaps.apia_29 0 0 1 = Gaps.apia_29) by (vm_compute; reflexivity).
  split; [done|]. unfold FindSlots.
  replace (validate _ _ _) with (Ok (Some Gaps.Apia, 15 * Minute))
    by (vm_compute; reflexivity).
  change (expand_busy (Busy (Gaps.search Gaps.apia_29 Gaps.apia_31 []))) with (@Ok (list wallInterval) []).
  cbv zeta. set (inp := Gaps.search _ _ _).
  replace (date_of (In (From inp) Gaps.Apia) Gaps.Apia) with Gaps.apia_29
    by (vm_compute; reflexivity).
  replace (date_of (In (Add (To inp) (- Nanosecond)) Gaps.Apia) Gaps.Apia) with Gaps.apia_29
    by (vm_compute; reflexivity).
  assert (Hloop : forall n i acc, full acc = false ->
    scan_days n i ctx inp (15 * Minute) [] Gaps.Apia Gaps.apia_29 Gaps.apia_29 acc = None).
  { induction n as [|n IH]; intros i acc Hf; [done|]. simpl.
    replace (After Gaps.apia_29 Gaps.apia_29) with false by (vm_compute; reflexivity).
    rewrite Hctx. change (scan_day inp (15 * Minute) [] Gaps.Apia Gaps.apia_29 acc) with acc.
    rewrite Hf, Hstuck. by apply IH. }
  by rewrite Hloop.
Qed.

Lemma FindSlots_stuck_at_skipped_date_witness :
  FindSlots (Gaps.load Gaps.Apia) 1000 (mkEngine None) (fun _ => None)
    (Gaps.search Gaps.apia_29 Gaps.apia_31 []) = None.
Proof. apply (FindSlots_stuck_at_skipped_date 1000 (fun _ => None)). reflexivity. Defined.

(** A clock change at midnight hides a whole date: midnight of Sunday
    2025-09-07 does not exist in Chile, [time.Date] answers 23:00 of the Saturday
    before, and a search of that Sunday returns no slot although noon is a
    bookable instant of the Sunday rule inside the searched range. *)
Theorem FindSlots_misses_midnight_gap :
  FindSlots (Gaps.load Gaps.Santiago) search_fuel (mkEngine None) (fun _ => None)
    (Gaps.search Gaps.santiago_from Gaps.santiago_to [Gaps.sunday]) = Some (Ok []) /\
  civil (date_of (In Gaps.santiago_from Gaps.Santiago) Gaps.Santiago) = (2025, 9, 6) /\
  civil Gaps.noon = (2025, 9, 7) /\ Weekday Gaps.noon = rule_Weekday Gaps.sunday /\
  ns Gaps.santiago_from < ns Gaps.noon /\ ns Gaps.noon + 4 * Hour < ns Gaps.santiago_to /\
  StartMinute Gaps.sunday <= HourOf Gaps.noon * 60 < EndMinute Gaps.sunday.
Proof. by vm_compute. Qed.
