(* ===== verification/LLM.v ===== *)
(** * The provider-neutral model boundary: [internal/llm]

    Messages, tool calls, requests, usage and responses ([types.go]), and the
    scripted adapter the tests and the demo run against ([fake.go]). *)

From Stdlib Require Import ZArith Lia.
From stdpp Require Import base list strings.
From S2P Require Import Prelude.

#[local] Open Scope Z_scope.

Definition RoleSystem : string := "system".
Definition RoleUser : string := "user".
Definition RoleAssistant : string := "assistant".
Definition RoleTool : string := "tool".

Record ToolCall := mkToolCall { tc_ID : string; tc_Name : string; tc_Arguments : string }.

Record Message := mkMessage {
  Role : string; Content : string; msg_Name : string; ToolCallID : string;
  ToolCalls : list ToolCall
}.

Record ToolDefinition := mkToolDefinition {
  td_Name : string; td_Version : string; td_Description : string; td_Parameters : string
}.

Record Request := mkRequest {
  Messages : list Message; Tools : list ToolDefinition; ToolChoice : string;
  MaxOutputTokens : Z
}.

Record Usage := mkUsage { InputTokens : Z; OutputTokens : Z; TotalTokens : Z }.

(** [Usage.Total]: the provider's total when present, the sum otherwise. *)
Definition Total (u : Usage) : Z :=
  if 0 <? TotalTokens u then TotalTokens u else wrap64 (InputTokens u + OutputTokens u).

Record Response := mkResponse {
  rsp_ID : string; rsp_Model : string; rsp_Message : Message; FinishReason : string;
  rsp_Usage : Usage; UsageIncomplete : bool; UnknownUsageAttempts : Z
}.

Definition zero_message : Message := mkMessage "" "" "" "" [].
Definition zero_usage : Usage := mkUsage 0 0 0.
Definition zero_response : Response :=
  mkResponse "" "" zero_message "" zero_usage false 0.

(** ** The scripted adapter *)
Definition ErrFakeExhausted : error := ErrSentinel "llm fake: scripted responses exhausted".

Record FakeStep := mkFakeStep { fs_Response : Response; fs_Err : option error }.

Record FakeAdapter := mkFake { fake_steps : list FakeStep; fake_requests : list Request }.

Definition NewFakeAdapter (steps : list FakeStep) : FakeAdapter := mkFake steps [].

(** Go's [(Response, error)] pair: a failed call may still carry a response. *)
Definition Fake_Complete (ctx : option error) (request : Request) (f : FakeAdapter)
    : (Response * option error) * FakeAdapter :=
  match ctx with
  | Some e => ((zero_response, Some e), f)
  | None =>
      let requests := fake_requests f ++ [request] in
      match fake_steps f with
      | [] => ((zero_response, Some ErrFakeExhausted), mkFake [] requests)
      | step :: rest => ((fs_Response step, fs_Err step), mkFake rest requests)
      end
  end.
