(* ===== verification/Budget.v ===== *)
(** * Token accounting: [internal/agent/budget.go]

    The conservative estimator of one provider request and the in-memory budget
    with its reservations, as Go's [int] arithmetic computes them.  A reservation
    is a shared object: it is kept in a store and settled by reference.

    The hard cap over every interleaving of reservations and settlements, the
    effect of one settlement, and the bounds of the estimator. *)

From Stdlib Require Import ZArith Lia.
From stdpp Require Import base list strings gmap.
From S2P Require Import Prelude LLM.

#[local] Open Scope Z_scope.

Definition ErrTokenBudgetExceeded : error :=
  ErrSentinel "agent: conversation token budget exceeded".
Definition ErrUsageExceedsReservation : error :=
  ErrSentinel "agent: provider usage exceeds token reservation".

(** ** The estimator *)
Record ConservativeTokenEstimator := mkEstimator {
  BaseOverhead : Z; PerMessageOverhead : Z; PerToolOverhead : Z;
  BytesPerToken : Z; ProviderAttempts : Z
}.

Definition len (s : string) : Z := Z.of_nat (String.length s).

Definition call_bytes (c : ToolCall) : Z :=
  wrap64 (len (tc_ID c) + len (tc_Name c) + len (tc_Arguments c)).

Definition message_bytes (m : Message) : Z :=
  fold_left (fun n c => wrap64 (n + call_bytes c)) (ToolCalls m)
    (wrap64 (len (Role m) + len (Content m) + len (msg_Name m) + len (ToolCallID m))).

Definition tool_bytes (t : ToolDefinition) : Z :=
  wrap64 (len (td_Name t) + len (td_Description t) + len (td_Parameters t)).

Definition raw_bytes (request : Request) : Z :=
  fold_left (fun n t => wrap64 (n + tool_bytes t)) (Tools request)
    (fold_left (fun n m => wrap64 (n + message_bytes m)) (Messages request) 0).

Definition default_to (d v : Z) : Z := if v <=? 0 then d else v.

(** Tokens of one attempt of one request. *)
Definition per_attempt (e : ConservativeTokenEstimator) (request : Request) : Z :=
  let base := default_to 256 (BaseOverhead e) in
  let perMessage := default_to 64 (PerMessageOverhead e) in
  let perTool := default_to 64 (PerToolOverhead e) in
  let bytesPerToken := if BytesPerToken e <? 1 then 4 else BytesPerToken e in
  let contentTokens := Z.quot (wrap64 (raw_bytes request + bytesPerToken - 1)) bytesPerToken in
  wrap64 (MaxOutputTokens request + contentTokens + base +
          wrap64 (Z.of_nat (length (Messages request)) * perMessage) +
          wrap64 (Z.of_nat (length (Tools request)) * perTool)).

Definition Estimate (e : ConservativeTokenEstimator) (request : Request) : result Z :=
  if MaxOutputTokens request <=? 0 then
    Err (ErrText "agent: max output tokens must be positive")
  else
    let perAttempt := per_attempt e request in
    let attempts := if ProviderAttempts e <? 1 then 1 else ProviderAttempts e in
    if Z.quot max_int64 attempts <? perAttempt then
      Err (ErrText "agent: token reservation estimate overflow")
    else Ok (wrap64 (perAttempt * attempts)).

(** ** The in-memory budget *)
Record MemoryTokenBudget := mkBudget { limit : Z; accounted : gmap string Z }.

Definition NewMemoryTokenBudget (limit : Z) : result MemoryTokenBudget :=
  if limit <=? 0 then Err (ErrText "agent: token budget limit must be positive")
  else Ok (mkBudget limit ∅).

(** A missing key of a Go map reads as zero. *)
Definition Accounted (b : MemoryTokenBudget) (conversationID : string) : Z :=
  default 0 (accounted b !! conversationID).

Record memoryTokenReservation := mkReservation {
  conversationID : string; reserved : Z; settled : bool
}.

Definition Reserve (ctx : option error) (conv : string) (tokens : Z) (b : MemoryTokenBudget)
    : result memoryTokenReservation * MemoryTokenBudget :=
  match ctx with
  | Some e => (Err e, b)
  | None =>
      if bool_decide (conv = "") then
        (Err (ErrText "agent: conversation ID is required for token accounting"), b)
      else if tokens <=? 0 then (Err (ErrText "agent: token reservation must be positive"), b)
      else if wrap64 (limit b - Accounted b conv) <? tokens then
        (Err (ErrWrap "limit, accounted, requested" ErrTokenBudgetExceeded), b)
      else (Ok (mkReservation conv tokens false),
            mkBudget (limit b) (<[conv := wrap64 (Accounted b conv + tokens)]> (accounted b)))
  end.

Definition Settle (ctx : option error) (actualTokens : Z) (r : memoryTokenReservation)
    (b : MemoryTokenBudget) : result unit * memoryTokenReservation * MemoryTokenBudget :=
  match ctx with
  | Some e => (Err e, r, b)
  | None =>
      if actualTokens <? 0 then
        (Err (ErrText "agent: actual token usage cannot be negative"), r, b)
      else if settled r then (Err (ErrText "agent: token reservation already settled"), r, b)
      else
        let r' := mkReservation (conversationID r) (reserved r) true in
        if reserved r <? actualTokens then
          (Err (ErrWrap "reserved, actual" ErrUsageExceedsReservation), r', b)
        else
          (Ok tt, r',
           mkBudget (limit b)
             (<[conversationID r :=
                 wrap64 (Accounted b (conversationID r) - wrap64 (reserved r - actualTokens))]>
              (accounted b)))
  end.

(** ** Runs: any interleaving of calls on one budget

    Each call holds the mutex while it touches the budget, so a concurrent run
    is a sequence of calls; reservation [i] is the [i]-th one handed out. *)
Inductive call : Type :=
| CReserve (ctx : option error) (conv : string) (tokens : Z)
| CSettle (ctx : option error) (i : nat) (actualTokens : Z).

Record system := mkSystem { budget : MemoryTokenBudget; handed : list memoryTokenReservation }.

Definition exec (c : call) (s : system) : system :=
  match c with
  | CReserve ctx conv tokens =>
      match Reserve ctx conv tokens (budget s) with
      | (Ok r, b') => mkSystem b' (handed s ++ [r])
      | (Err _, b') => mkSystem b' (handed s)
      end
  | CSettle ctx i actual =>
      match handed s !! i with
      | None => s
      | Some r =>
          let '(_, r', b') := Settle ctx actual r (budget s) in
          mkSystem b' (<[i := r']> (handed s))
      end
  end.

Definition run (cs : list call) (s : system) : system := fold_left (fun s c => exec c s) cs s.

(** * Properties of the token budget *)

#[local] Open Scope Z_scope.

(** ** The accounting invariant

    [charges] is the ghost list of what each reservation costs at present: the
    whole reservation until it is settled, at most that afterwards. *)
Fixpoint charged (conv : string) (rs : list memoryTokenReservation) (cs : list Z) : Z :=
  match rs, cs with
  | r :: rs', c :: cs' =>
      (if bool_decide (conversationID r = conv) then c else 0) + charged conv rs' cs'
  | _, _ => 0
  end.

Definition fair_charge (r : memoryTokenReservation) (c : Z) : Prop :=
  0 <= c <= reserved r /\ (settled r = false -> c = reserved r).

Definition accounting (s : system) (charges : list Z) : Prop :=
  Forall2 fair_charge (handed s) charges /\ 0 < limit (budget s) <= max_int64 /\
  forall conv, Accounted (budget s) conv = charged conv (handed s) charges /\
               Accounted (budget s) conv <= limit (budget s).

(** What is reserved and not yet settled. *)
Definition outstanding (conv : string) (rs : list memoryTokenReservation) : Z :=
  foldr (fun r n => (if bool_decide (conversationID r = conv) && negb (settled r)
                     then reserved r else 0) + n) 0 rs.

Lemma charged_app conv rs cs r c :
  length rs = length cs ->
  charged conv (rs ++ [r]) (cs ++ [c]) =
  charged conv rs cs + (if bool_decide (conversationID r = conv) then c else 0).
Proof.
  revert cs; induction rs as [|r' rs IH]; intros [|c' cs] Hl; simplify_eq/=; [lia|].
  rewrite IH by done. lia.
Qed.

Lemma charged_update conv rs cs i r c r' c' :
  rs !! i = Some r -> cs !! i = Some c -> conversationID r' = conversationID r ->
  charged conv (<[i:=r']> rs) (<[i:=c']> cs) =
  charged conv rs cs + (if bool_decide (conversationID r = conv) then c' - c else 0).
Proof.
  revert cs i; induction rs as [|r0 rs IH]; intros [|c0 cs] [|i] Hr Hc He; simplify_eq/=.
  - rewrite He. case_bool_decide; lia.
  - rewrite (IH _ _ Hr Hc He). lia.
Qed.

Lemma outstanding_charged conv rs cs :
  Forall2 fair_charge rs cs -> 0 <= outstanding conv rs <= charged conv rs cs.
Proof.
  induction 1 as [|r c rs cs [Hc Hs] _ IH]; simpl; [lia|].
  case_bool_decide; simpl; [|lia]. destruct (settled r); simpl; [lia|].
  rewrite Hs by done. lia.
Qed.

Lemma Accounted_insert l m conv conv' v :
  Accounted (mkBudget l (<[conv := v]> m)) conv' =
  if bool_decide (conv = conv') then v else Accounted (mkBudget l m) conv'.
Proof.
  unfold Accounted; simpl. case_bool_decide; [subst; by rewrite lookup_insert_eq|].
  by rewrite lookup_insert_ne.
Qed.

Lemma wrap_cap l x : 0 < l <= max_int64 -> 0 <= x <= l -> wrap64 x = x.
Proof. intros. apply wrap64_id. unfold in_int64, min_int64, max_int64 in *. lia. Qed.

Lemma exec_reserve_accounting ctx conv tokens s charges :
  accounting s charges ->
  exists charges', accounting (exec (CReserve ctx conv tokens) s) charges'.
Proof.
  intros Hacc. pose proof Hacc as (Hf & Hl & Ha). simpl. unfold Reserve.
  destruct ctx; [by exists charges; destruct s|].
  case_bool_decide; [by exists charges; destruct s|].
  destruct (Z.leb_spec tokens 0); [by exists charges; destruct s|].
  destruct (outstanding_charged conv _ _ Hf) as [Ho1 Ho2].
  destruct (Ha conv) as [Hac Hle].
  rewrite (wrap_cap (limit (budget s)) (limit (budget s) - _)) by lia.
  destruct (Z.ltb_spec (limit (budget s) - Accounted (budget s) conv) tokens) as [Hlt|Hge];
    [by exists charges; destruct s|].
  exists (charges ++ [tokens]). unfold accounting; simpl. split; [|split; [done|]].
  { apply Forall2_app; [done|]. repeat constructor; simpl; lia. }
  intros conv'. rewrite Accounted_insert, charged_app by (by eapply Forall2_length). simpl.
  rewrite (wrap_cap (limit (budget s))) by lia.
  replace (mkBudget (limit (budget s)) (accounted (budget s))) with (budget s) by (by destruct (budget s)).
  destruct (Ha conv'). case_bool_decide; [subst conv'|]; lia.
Qed.

Lemma exec_settle_accounting ctx i actual s charges :
  accounting s charges ->
  exists charges', accounting (exec (CSettle ctx i actual) s) charges'.
Proof.
  intros Hacc. pose proof Hacc as (Hf & Hl & Ha). simpl.
  destruct (handed s !! i) as [r|] eqn:Hi; [|by exists charges].
  destruct (Forall2_lookup_l _ _ _ _ _ Hf Hi) as (c & Hc & [Hc1 Hc2]).
  assert (Hid : mkSystem (budget s) (<[i:=r]> (handed s)) = s)
    by (rewrite list_insert_id by done; by destruct s).
  unfold Settle. destruct ctx; [exists charges; by rewrite Hid|].
  destruct (Z.ltb_spec actual 0); [exists charges; by rewrite Hid|].
  destruct (settled r) eqn:Hs; [exists charges; by rewrite Hid|].
  specialize (Hc2 eq_refl); subst c. set (r' := mkReservation _ _ true).
  assert (Hupd : forall c', 0 <= c' <= reserved r -> forall b',
    limit b' = limit (budget s) ->
    (forall conv, Accounted b' conv = Accounted (budget s) conv +
       (if bool_decide (conversationID r = conv) then c' - reserved r else 0)) ->
    accounting (mkSystem b' (<[i:=r']> (handed s))) (<[i:=c']> charges)).
  { intros c' Hc' b' Hlb Hb. unfold accounting; simpl. rewrite Hlb. split; [|split; [done|]].
    - by apply Forall2_insert.
    - intros conv. rewrite (charged_update _ _ _ _ r (reserved r)), Hb by done.
      destruct (Ha conv). case_bool_decide; lia. }
  destruct (Z.ltb_spec (reserved r) actual).
  - exists (<[i:=reserved r]> charges). apply Hupd; [lia|done|].
    intros conv; case_bool_decide; lia.
  - exists (<[i:=actual]> charges). apply Hupd; [lia|done|]. intros conv.
    rewrite Accounted_insert.
    replace (mkBudget (limit (budget s)) (accounted (budget s))) with (budget s)
      by (by destruct (budget s)).
    destruct (Ha (conversationID r)) as [Har Hle].
    assert (Hrc : reserved r <= Accounted (budget s) (conversationID r)).
    { rewrite Har. clear -Hi Hc Hf. revert i Hi Hc; induction Hf as [|r0 c0 rs cs [Hc0 _] Hfs IH];
        intros [|i] Hi Hc; simplify_eq/=.
      - rewrite bool_decide_eq_true_2 by done.
        pose proof (outstanding_charged (conversationID r) _ _ Hfs). lia.
      - specialize (IH i Hi Hc). case_bool_decide; lia. }
    rewrite (wrap_cap (limit (budget s)) (reserved r - actual)) by lia.
    rewrite (wrap_cap (limit (budget s))) by lia.
    case_bool_decide; [subst conv|]; lia.
Qed.

Lemma run_accounting cs s charges :
  accounting s charges -> exists charges', accounting (run cs s) charges'.
Proof.
  revert s charges; induction cs as [|c cs IH]; intros s charges Hacc; [by exists charges|].
  assert (Hc : exists charges', accounting (exec c s) charges')
    by (destruct c; [by eapply exec_reserve_accounting|by eapply exec_settle_accounting]).
  destruct Hc as [charges' Hacc']. exact (IH _ _ Hacc').
Qed.

Lemma run_limit cs s : limit (budget (run cs s)) = limit (budget s).
Proof.
  revert s; induction cs as [|c cs IH]; intros s; [done|]. simpl. rewrite IH.
  destruct c as [ctx conv tokens|ctx i actual]; simpl.
  - unfold Reserve. repeat case_match; by simplify_eq/=.
  - unfold Settle. repeat case_match; by simplify_eq/=.
Qed.

(** The cap is hard.  Whatever sequence of reservations and settlements runs
    on a fresh budget, the accounted tokens of each conversation stay between the
    outstanding reservations and the limit; no [int] operation wraps around. *)
Theorem budget_hard_cap l b cs conv :
  NewMemoryTokenBudget l = Ok b -> l <= max_int64 ->
  let s := run cs (mkSystem b []) in
  0 <= outstanding conv (handed s) <= Accounted (budget s) conv /\
  Accounted (budget s) conv <= l.
Proof.
  unfold NewMemoryTokenBudget. destruct (Z.leb_spec l 0); intros Hb; [done|]. injection Hb as <-. intros Hl.
  set (s := run cs (mkSystem (mkBudget l ∅) [])).
  assert (Hinit : accounting (mkSystem (mkBudget l ∅) []) []).
  { split; [by constructor|]. split; [simpl; lia|]. intros c. unfold Accounted; simpl.
    rewrite lookup_empty; simpl. lia. }
  destruct (run_accounting cs _ _ Hinit) as [charges (Hf & _ & Ha)]. fold s in Hf, Ha.
  destruct (Ha conv) as [Hac Hle]. pose proof (outstanding_charged conv _ _ Hf).
  assert (Hlim : limit (budget s) = l) by apply run_limit. lia.
Qed.

Lemma budget_hard_cap_witness :
  let s := run [CReserve None "c" 60; CReserve None "c" 50; CSettle None 0 10; CReserve None "c" 50]
             (mkSystem (mkBudget 100 ∅) []) in
  length (handed s) = 2%nat /\ Accounted (budget s) "c" = 60 /\ Accounted (budget s) "c" <= 100.
Proof.
  cbv zeta. split; [vm_compute; reflexivity|]. split; [vm_compute; reflexivity|].
  apply (budget_hard_cap 100 (mkBudget 100 ∅)
           [CReserve None "c" 60; CReserve None "c" 50; CSettle None 0 10; CReserve None "c" 50] "c");
    [reflexivity|unfold max_int64; lia].
Defined.

(** One settlement.  Settling an open reservation with an honest report
    credits exactly the unused tokens of its own conversation; a report above the
    reservation is an error that leaves the whole reservation charged; in both
    cases every later settlement fails and changes nothing. *)
Theorem Settle_once actual r b :
  settled r = false -> 0 <= actual -> 0 <= reserved r <= Accounted b (conversationID r) ->
  Accounted b (conversationID r) <= limit b -> limit b <= max_int64 ->
  let '(res, r', b') := Settle None actual r b in
  (if actual <=? reserved r then
     res = Ok tt /\ Accounted b' (conversationID r)
                    = Accounted b (conversationID r) - (reserved r - actual)
   else b' = b /\ exists e, res = Err e /\ errors_is e ErrUsageExceedsReservation = true) /\
  (forall conv, conv <> conversationID r -> Accounted b' conv = Accounted b conv) /\
  forall ctx actual', exists e, Settle ctx actual' r' b' = (Err e, r', b').
Proof.
  intros Hs Ha Hr Hle Hl. unfold Settle at 1.
  destruct (Z.ltb_spec actual 0); [lia|]. rewrite Hs.
  set (r' := mkReservation _ _ true).
  assert (Hdone : forall ctx actual' b', exists e, Settle ctx actual' r' b' = (Err e, r', b')).
  { intros [e|] actual' b'; simpl; [by exists e|]. destruct (actual' <? 0); eauto. }
  destruct (Z.ltb_spec (reserved r) actual); destruct (Z.leb_spec actual (reserved r)); try lia.
  - split; [|by auto]. split; [done|]. eexists; split; [done|]. reflexivity.
  - assert (Hw : wrap64 (Accounted b (conversationID r) - wrap64 (reserved r - actual)) =
                 Accounted b (conversationID r) - (reserved r - actual)).
    { rewrite (wrap64_id (reserved r - actual)), wrap64_id;
        unfold in_int64, min_int64, max_int64 in *; lia. }
    rewrite Hw. split; [|split; [|by auto]].
    + split; [done|]. by rewrite Accounted_insert, bool_decide_eq_true_2.
    + intros conv Hne. rewrite Accounted_insert, bool_decide_eq_false_2 by congruence.
      by destruct b.
Qed.

Lemma Settle_once_witness :
  Accounted (Settle None 10 (mkReservation "c" 60 false) (mkBudget 100 {["c" := 60]})).2 "c" = 10.
Proof.
  pose proof (Settle_once 10 (mkReservation "c" 60 false) (mkBudget 100 {["c" := 60]})
                eq_refl ltac:(done) ltac:(done) ltac:(done) ltac:(done)) as H.
  vm_compute in H |- *. exact (proj2 (proj1 H)).
Defined.

(** ** The estimator, in unbounded integers *)
Definition plain_call (c : ToolCall) : Z := len (tc_ID c) + len (tc_Name c) + len (tc_Arguments c).
Definition plain_message (m : Message) : Z :=
  len (Role m) + len (Content m) + len (msg_Name m) + len (ToolCallID m) +
  foldr (fun c n => plain_call c + n) 0 (ToolCalls m).
Definition plain_tool (t : ToolDefinition) : Z :=
  len (td_Name t) + len (td_Description t) + len (td_Parameters t).
Definition plain_bytes (r : Request) : Z :=
  foldr (fun m n => plain_message m + n) 0 (Messages r) +
  foldr (fun t n => plain_tool t + n) 0 (Tools r).

Definition ratio (e : ConservativeTokenEstimator) : Z :=
  if BytesPerToken e <? 1 then 4 else BytesPerToken e.
Definition attempts_of (e : ConservativeTokenEstimator) : Z :=
  if ProviderAttempts e <? 1 then 1 else ProviderAttempts e.

Definition overhead (e : ConservativeTokenEstimator) (r : Request) : Z :=
  default_to 256 (BaseOverhead e) +
  Z.of_nat (length (Messages r)) * default_to 64 (PerMessageOverhead e) +
  Z.of_nat (length (Tools r)) * default_to 64 (PerToolOverhead e).

Definition plain_attempt (e : ConservativeTokenEstimator) (r : Request) : Z :=
  MaxOutputTokens r + (plain_bytes r + ratio e - 1) / ratio e + overhead e r.

Lemma len_nonneg s : 0 <= len s.
Proof. unfold len; lia. Qed.

Lemma foldr_nonneg {A} (g : A -> Z) (l : list A) :
  (forall x, 0 <= g x) -> 0 <= foldr (fun x n => g x + n) 0 l.
Proof. intros Hg; induction l as [|x l IH]; simpl; [done|]. specialize (Hg x). lia. Qed.

Lemma plain_bytes_nonneg r : 0 <= plain_bytes r.
Proof.
  unfold plain_bytes. apply Z.add_nonneg_nonneg; apply foldr_nonneg.
  - intros m. unfold plain_message.
    assert (0 <= foldr (fun c n => plain_call c + n) 0 (ToolCalls m)).
    { apply foldr_nonneg. intros c. unfold plain_call.
      pose proof (len_nonneg (tc_ID c)). pose proof (len_nonneg (tc_Name c)).
      pose proof (len_nonneg (tc_Arguments c)). lia. }
    pose proof (len_nonneg (Role m)). pose proof (len_nonneg (Content m)).
    pose proof (len_nonneg (msg_Name m)). pose proof (len_nonneg (ToolCallID m)). lia.
  - intros t. unfold plain_tool. pose proof (len_nonneg (td_Name t)).
    pose proof (len_nonneg (td_Description t)). pose proof (len_nonneg (td_Parameters t)). lia.
Qed.

Lemma raw_bytes_plain r : raw_bytes r = wrap64 (plain_bytes r).
Proof.
  unfold raw_bytes, plain_bytes.
  rewrite (fold_wrap_sum tool_bytes plain_tool (Tools r) _
             (0 + foldr (fun m n => plain_message m + n) 0 (Messages r))); [done|done|].
  apply fold_wrap_sum; [|done]. intros m. unfold message_bytes.
  by apply fold_wrap_sum.
Qed.

Lemma ratio_pos e : 1 <= ratio e.
Proof. unfold ratio. destruct (Z.ltb_spec (BytesPerToken e) 1); lia. Qed.

Lemma default_to_nonneg d v : 0 < d -> 0 < default_to d v.
Proof. unfold default_to. destruct (Z.leb_spec v 0); lia. Qed.

Lemma overhead_nonneg e r : 0 < overhead e r /\
  0 <= Z.of_nat (length (Messages r)) * default_to 64 (PerMessageOverhead e) <= overhead e r /\
  0 <= Z.of_nat (length (Tools r)) * default_to 64 (PerToolOverhead e) <= overhead e r.
Proof.
  unfold overhead. pose proof (default_to_nonneg 256 (BaseOverhead e)).
  pose proof (default_to_nonneg 64 (PerMessageOverhead e)).
  pose proof (default_to_nonneg 64 (PerToolOverhead e)). nia.
Qed.

Lemma per_attempt_plain e r :
  0 <= MaxOutputTokens r -> plain_attempt e r <= max_int64 ->
  plain_bytes r + ratio e <= max_int64 ->
  per_attempt e r = plain_attempt e r.
Proof.
  intros Hm Hp Hb. unfold per_attempt; cbv zeta. fold (ratio e).
  pose proof (plain_bytes_nonneg r). pose proof (ratio_pos e).
  destruct (overhead_nonneg e r) as (Ho & Hom & Hot).
  assert (Hdiv : 0 <= (plain_bytes r + ratio e - 1) / ratio e) by (apply Z.div_pos; lia).
  assert (Hraw : wrap64 (raw_bytes r + ratio e - 1) = plain_bytes r + ratio e - 1).
  { rewrite raw_bytes_plain. replace (wrap64 (plain_bytes r) + ratio e - 1)
      with (wrap64 (plain_bytes r) + (ratio e - 1)) by lia.
    rewrite wrap64_add_l, wrap64_id; [lia|]. unfold in_int64, min_int64, max_int64 in *; lia. }
  rewrite Hraw, Z.quot_div_nonneg by lia. unfold plain_attempt in *.
  rewrite !(wrap64_id (Z.of_nat _ * _)) by (unfold in_int64, min_int64, max_int64 in *; lia).
  rewrite wrap64_id; [unfold overhead; lia|].
  unfold overhead in *; unfold in_int64, min_int64, max_int64 in *; lia.
Qed.

(** The estimate is exact and its overflow check is exact.  For a request
    whose sizes fit an [int], [Estimate] fails precisely when the worst case of
    all provider attempts exceeds [math.MaxInt]; otherwise it returns that worst
    case, which covers the requested completion and one token per [BytesPerToken]
    bytes in every attempt. *)
Theorem Estimate_exact e r :
  0 < MaxOutputTokens r -> plain_attempt e r <= max_int64 ->
  plain_bytes r + ratio e <= max_int64 ->
  (is_ok (Estimate e r) = true <-> attempts_of e * plain_attempt e r <= max_int64) /\
  forall n, Estimate e r = Ok n ->
    n = attempts_of e * plain_attempt e r /\ 0 < n <= max_int64 /\
    attempts_of e * (MaxOutputTokens r * ratio e + plain_bytes r) <= n * ratio e.
Proof.
  intros Hm Hp Hb. unfold Estimate. destruct (Z.leb_spec (MaxOutputTokens r) 0); [lia|].
  cbv zeta. fold (attempts_of e). rewrite per_attempt_plain by lia.
  assert (Ha : 1 <= attempts_of e)
    by (unfold attempts_of; destruct (Z.ltb_spec (ProviderAttempts e) 1); lia).
  pose proof (plain_bytes_nonneg r). pose proof (ratio_pos e).
  destruct (overhead_nonneg e r) as (Ho & _ & _).
  pose proof (Z.div_mod (plain_bytes r + ratio e - 1) (ratio e) ltac:(lia)) as Hdm.
  pose proof (Z.mod_pos_bound (plain_bytes r + ratio e - 1) (ratio e) ltac:(lia)) as Hmb.
  assert (Hpa : MaxOutputTokens r * ratio e + plain_bytes r <= plain_attempt e r * ratio e)
    by (unfold plain_attempt; nia).
  assert (Hpos : 0 < plain_attempt e r) by nia.
  rewrite Z.quot_div_nonneg by (unfold max_int64; lia).
  assert (Hiff : max_int64 / attempts_of e < plain_attempt e r <->
                 max_int64 < attempts_of e * plain_attempt e r).
  { split; intros Hlt.
    - apply Z.nle_gt. intros Hle. apply Z.nle_gt in Hlt. apply Hlt.
      apply Z.div_le_lower_bound; lia.
    - by apply Z.div_lt_upper_bound; [lia|]. }
  destruct (Z.ltb_spec (max_int64 / attempts_of e) (plain_attempt e r)) as [Hlt|Hge].
  - split; [|done]. simpl. apply Hiff in Hlt. split; [done|lia].
  - assert (Hle : attempts_of e * plain_attempt e r <= max_int64)
      by (apply Z.nlt_ge; rewrite <- Hiff; lia).
    split; [done|]. intros n [= <-].
    rewrite wrap64_id by (unfold in_int64, min_int64, max_int64 in *; nia).
    split; [lia|]. split; nia.
Qed.

Lemma Estimate_exact_witness :
  let r := mkRequest [mkMessage "user" "hello" "" "" []] [] "auto" 100 in
  Estimate (mkEstimator 0 0 0 0 2) r = Ok 846 /\
  2 * (100 * 4 + plain_bytes r) <= 846 * 4.
Proof.
  cbv zeta. split; [vm_compute; reflexivity|].
  destruct (Estimate_exact (mkEstimator 0 0 0 0 2)
              (mkRequest [mkMessage "user" "hello" "" "" []] [] "auto" 100)
              ltac:(done) ltac:(done) ltac:(done)) as [_ H].
  exact (proj2 (proj2 (H 846 eq_refl))).
Defined.

(** The documented default of three bytes per token is four in the code. *)
Theorem Estimate_default_is_four e r :
  BytesPerToken e < 1 ->
  per_attempt e r = per_attempt (mkEstimator (BaseOverhead e) (PerMessageOverhead e)
                                   (PerToolOverhead e) 4 (ProviderAttempts e)) r.
Proof. intros Hb. unfold per_attempt; simpl. by destruct (Z.ltb_spec (BytesPerToken e) 1); [|lia]. Qed.
