(* ===== verification/Confirmations.v ===== *)
(** * Two-phase confirmation: [internal/tools/confirmations.go]

    The types of the confirmation protocol, the interface every store offers to
    the gateway, and the in-memory store.  A Go map is ranged over in an
    unspecified order: operations that depend on it take the order of that
    iteration as the argument [iter].

    Where a grant comes from, the status machine of a proposal, proposal replay,
    the choice of the live proposal, and the shape of generated identifiers. *)

From Stdlib Require Import ZArith Lia Ascii.
From stdpp Require Import base list strings gmap.
From S2P Require Import Prelude GoTime.

#[local] Open Scope Z_scope.

Definition ErrConfirmationInvalid : error := ErrSentinel "confirmation is invalid".
Definition ErrConfirmationExpired : error := ErrSentinel "confirmation has expired".
Definition ErrConfirmationStale : error :=
  ErrSentinel "confirmation does not match this action".

Record ConfirmationFact := mkFact { Label : string; Value : string }.

Record ConfirmationProposal := mkProposal {
  prop_ID : string; Action : string; Title : string; Facts : list ConfirmationFact;
  ExpiresAt : Time
}.

Record ConfirmationBinding := mkBinding {
  TenantID : string; OwnerCustomerID : string; ConversationID : string;
  ProposedFromMessageID : string; Tool : string;
  ArgumentsHash : string; ArgumentsJSON : string
}.

Record ConfirmationState := mkState {
  Proposal : ConfirmationProposal; Binding : ConfirmationBinding; Status : string
}.

(** The authenticated principal of a channel message ([types.go]). *)
Record TrustedContext := mkTrusted {
  tx_TenantID : string; tx_CustomerID : string; tx_CustomerDisplayName : string;
  tx_CustomerEmail : string; tx_CustomerPhone : string; tx_ConversationID : string;
  tx_InboundMessageID : string; tx_AgentRunID : string;
  tx_Capabilities : gmap string bool
}.

Definition set_Status (st : string) (r : ConfirmationState) : ConfirmationState :=
  mkState (Proposal r) (Binding r) st.

Definition set_ID (id : string) (p : ConfirmationProposal) : ConfirmationProposal :=
  mkProposal id (Action p) (Title p) (Facts p) (ExpiresAt p).

(** ** Identifiers: [newUUID], also [internal/platform/ids.New]

    [b] holds the sixteen random bytes. *)
Definition hex_digit (n : Z) : ascii :=
  ascii_of_N (Z.to_N (if n <? 10 then 48 + n else 87 + n)).

Definition hex_byte (n : Z) : string :=
  String (hex_digit (n / 16)) (String (hex_digit (n mod 16)) EmptyString).

Definition hex_encode (bs : list Z) : string :=
  foldr (fun n s => String.append (hex_byte n) s) EmptyString bs.

Definition uuid_bytes (b : list Z) : list Z :=
  <[8%nat := Z.lor (Z.land (nth 8 b 0) 63) 128]>
  (<[6%nat := Z.lor (Z.land (nth 6 b 0) 15) 64]> b).

Definition newUUID (b : list Z) : string :=
  let b := uuid_bytes b in
  let part i j := hex_encode (take (j - i) (drop i b)) in
  String.append (part 0 4)%nat (String.append "-" (String.append (part 4 6)%nat
  (String.append "-" (String.append (part 6 8)%nat (String.append "-"
  (String.append (part 8 10)%nat (String.append "-" (part 10 16)%nat))))))).

(** ** Bindings *)
Definition equalBinding (a b : ConfirmationBinding) : bool :=
  bool_decide (TenantID a = TenantID b) && bool_decide (OwnerCustomerID a = OwnerCustomerID b) &&
  bool_decide (ConversationID a = ConversationID b) && bool_decide (Tool a = Tool b) &&
  bool_decide (ArgumentsHash a = ArgumentsHash b).

Definition owned_by (tenant owner conv : string) (b : ConfirmationBinding) : bool :=
  bool_decide (TenantID b = tenant) && bool_decide (OwnerCustomerID b = owner) &&
  bool_decide (ConversationID b = conv).

Definition live_status (st : string) : bool :=
  bool_decide (st = "pending") || bool_decide (st = "authorized").

(** ** The interface of a confirmation store

    [ConfirmationStore] of the source: what the gateway and the conversation
    service may call.  [S] is the state of the store. *)
Class ConfirmationStore (S : Type) := {
  cs_Propose : ConfirmationBinding -> ConfirmationProposal -> Time -> S ->
               result ConfirmationProposal * S;
  cs_Latest : string -> string -> string -> Time -> S -> result (option ConfirmationState) * S;
  cs_InvalidateLatest : string -> string -> string -> Time -> S -> result unit * S;
  cs_Authorize : string -> TrustedContext -> Time -> S -> result unit * S;
  cs_VerifyAuthorized : string -> ConfirmationBinding -> Time -> S -> result unit * S;
  cs_MarkConsumed : string -> ConfirmationBinding -> Time -> S -> result unit * S
}.

(** ** The in-memory store *)
Record MemoryConfirmationStore := mkStore { records : gmap string ConfirmationState }.

Definition NewMemoryConfirmationStore : MemoryConfirmationStore := mkStore ∅.

(** The copies of [cloneConfirmationState] are values here. *)
Definition replayable (binding : ConfirmationBinding) (now : Time) (r : ConfirmationState) : bool :=
  live_status (Status r) && After (ExpiresAt (Proposal r)) now && equalBinding (Binding r) binding.

Definition Propose (iter : list (string * ConfirmationState)) (fresh : string)
    (binding : ConfirmationBinding) (proposal : ConfirmationProposal) (now : Time)
    (s : MemoryConfirmationStore) : ConfirmationProposal * MemoryConfirmationStore :=
  match List.find (fun kv => replayable binding now kv.2) iter with
  | Some (_, record) => (Proposal record, s)
  | None =>
      let proposal := if bool_decide (prop_ID proposal = "") then set_ID fresh proposal
                      else proposal in
      let record := mkState proposal binding "pending" in
      (proposal, mkStore (<[prop_ID proposal := record]> (records s)))
  end.

Definition live_for (tenantID ownerCustomerID conversationID : string) (now : Time)
    (r : ConfirmationState) : bool :=
  owned_by tenantID ownerCustomerID conversationID (Binding r) &&
  Before now (ExpiresAt (Proposal r)) && live_status (Status r).

Definition Latest (iter : list (string * ConfirmationState))
    (tenantID ownerCustomerID conversationID : string) (now : Time)
    : option ConfirmationState :=
  fold_left (fun latest kv =>
    if negb (live_for tenantID ownerCustomerID conversationID now kv.2) then latest
    else match latest with
         | None => Some kv.2
         | Some l => if After (ExpiresAt (Proposal kv.2)) (ExpiresAt (Proposal l))
                     then Some kv.2 else latest
         end) iter None.

Definition InvalidateLatest (tenantID ownerCustomerID conversationID : string) (now : Time)
    (s : MemoryConfirmationStore) : MemoryConfirmationStore :=
  mkStore ((fun r => if live_for tenantID ownerCustomerID conversationID now r
                     then set_Status "rejected" r else r) <$> records s).

Definition Authorize (id : string) (confirmedBy : TrustedContext) (now : Time)
    (s : MemoryConfirmationStore) : result unit * MemoryConfirmationStore :=
  match records s !! id with
  | None => (Err ErrConfirmationInvalid, s)
  | Some record =>
      if negb (owned_by (tx_TenantID confirmedBy) (tx_CustomerID confirmedBy)
                 (tx_ConversationID confirmedBy) (Binding record))
      then (Err ErrConfirmationInvalid, s)
      else if negb (Before now (ExpiresAt (Proposal record)))
      then (Err ErrConfirmationExpired, s)
      else if negb (bool_decide (Status record = "pending")) ||
              bool_decide (tx_InboundMessageID confirmedBy = "") ||
              bool_decide (tx_InboundMessageID confirmedBy = ProposedFromMessageID (Binding record))
      then (Err ErrConfirmationInvalid, s)
      else (Ok tt, mkStore (<[id := set_Status "authorized" record]> (records s)))
  end.

Definition VerifyAuthorized (id : string) (binding : ConfirmationBinding) (now : Time)
    (s : MemoryConfirmationStore) : result unit :=
  match records s !! id with
  | None => Err ErrConfirmationInvalid
  | Some record =>
      if negb (Before now (ExpiresAt (Proposal record))) then Err ErrConfirmationExpired
      else if negb (equalBinding (Binding record) binding) then Err ErrConfirmationStale
      else if negb (bool_decide (Status record = "authorized")) &&
              negb (bool_decide (Status record = "consumed"))
      then Err ErrConfirmationInvalid
      else Ok tt
  end.

Definition MarkConsumed (id : string) (binding : ConfirmationBinding) (now : Time)
    (s : MemoryConfirmationStore) : result unit * MemoryConfirmationStore :=
  match records s !! id with
  | None => (Err ErrConfirmationInvalid, s)
  | Some record =>
      if negb (Before now (ExpiresAt (Proposal record))) then (Err ErrConfirmationExpired, s)
      else if negb (equalBinding (Binding record) binding) then (Err ErrConfirmationStale, s)
      else if bool_decide (Status record = "consumed") then (Ok tt, s)
      else if negb (bool_decide (Status record = "authorized"))
      then (Err ErrConfirmationInvalid, s)
      else (Ok tt, mkStore (<[id := set_Status "consumed" record]> (records s)))
  end.

(** The memory store as an instance of the interface, for a given iteration
    order of the record map and a given source of identifiers. *)
Definition memory_store (range : gmap string ConfirmationState -> list (string * ConfirmationState))
    (fresh : MemoryConfirmationStore -> string) : ConfirmationStore MemoryConfirmationStore := {|
  cs_Propose b p now s := let '(q, s') := Propose (range (records s)) (fresh s) b p now s in (Ok q, s');
  cs_Latest t o c now s := (Ok (Latest (range (records s)) t o c now), s);
  cs_InvalidateLatest t o c now s := (Ok tt, InvalidateLatest t o c now s);
  cs_Authorize := Authorize;
  cs_VerifyAuthorized id b now s := (VerifyAuthorized id b now s, s);
  cs_MarkConsumed := MarkConsumed
|}.

(** ** Histories

    Every operation runs under the store's mutex, so a concurrent history is a
    sequence of operations. *)
Inductive event : Type :=
| EvPropose (binding : ConfirmationBinding) (proposal : ConfirmationProposal) (now : Time)
| EvInvalidate (tenantID ownerCustomerID conversationID : string) (now : Time)
| EvAuthorize (id : string) (confirmedBy : TrustedContext) (now : Time)
| EvConsume (id : string) (binding : ConfirmationBinding) (now : Time).

Inductive step : MemoryConfirmationStore -> event -> MemoryConfirmationStore -> Prop :=
| step_propose s iter fresh b p now :
    iter ≡ₚ map_to_list (records s) ->
    step s (EvPropose b p now) (Propose iter fresh b p now s).2
| step_invalidate s t o c now :
    step s (EvInvalidate t o c now) (InvalidateLatest t o c now s)
| step_authorize s id ctx now :
    step s (EvAuthorize id ctx now) (Authorize id ctx now s).2
| step_consume s id b now :
    step s (EvConsume id b now) (MarkConsumed id b now s).2.

(** Stores reachable from the empty one, with the history that led there. *)
Inductive reach : list event -> MemoryConfirmationStore -> Prop :=
| reach_init : reach [] NewMemoryConfirmationStore
| reach_step tr s e s' : reach tr s -> step s e s' -> reach (tr ++ [e]) s'.

(** * Properties of the in-memory confirmation store *)

#[local] Open Scope Z_scope.

(** ** One step, seen from one identifier *)
Definition consenting (ctx : TrustedContext) (now : Time) (r : ConfirmationState) : Prop :=
  owned_by (tx_TenantID ctx) (tx_CustomerID ctx) (tx_ConversationID ctx) (Binding r) = true /\
  tx_InboundMessageID ctx <> "" /\
  tx_InboundMessageID ctx <> ProposedFromMessageID (Binding r) /\
  ns now < ns (ExpiresAt (Proposal r)).

Inductive transition (id : string) : event -> option ConfirmationState -> ConfirmationState -> Prop :=
| tr_kept e r : transition id e (Some r) r
| tr_proposed b p now old r : Binding r = b -> Status r = "pending" -> prop_ID (Proposal r) = id ->
    transition id (EvPropose b p now) old r
| tr_rejected t o c now r : live_for t o c now r = true ->
    transition id (EvInvalidate t o c now) (Some r) (set_Status "rejected" r)
| tr_authorized ctx now r : Status r = "pending" -> consenting ctx now r ->
    transition id (EvAuthorize id ctx now) (Some r) (set_Status "authorized" r)
| tr_consumed b now r : Status r = "authorized" -> equalBinding (Binding r) b = true ->
    transition id (EvConsume id b now) (Some r) (set_Status "consumed" r).

Lemma lookup_insert_case {A} (m : gmap string A) i j x y :
  <[i := x]> m !! j = Some y -> i = j /\ y = x \/ m !! j = Some y.
Proof. rewrite lookup_insert. case_decide; naive_solver. Qed.

Lemma step_transition s e s' id r' :
  step s e s' -> records s' !! id = Some r' -> transition id e (records s !! id) r'.
Proof.
  intros Hstep Hr'. destruct Hstep as [s iter fresh b p now _|s t o c now|s i ctx now|s i b now].
  - unfold Propose in Hr'. destruct (List.find _ _) as [[k rec]|]; simpl in Hr'.
    { rewrite Hr'. constructor. }
    apply lookup_insert_case in Hr' as [[Hid ->]|Hr']; [|rewrite Hr'; constructor].
    by apply tr_proposed.
  - simpl in Hr'. rewrite lookup_fmap in Hr'. destruct (records s !! id) as [r|]; [|done].
    simpl in Hr'. destruct (live_for t o c now r) eqn:Hl; simplify_eq/=; by constructor.
  - unfold Authorize in Hr'.
    destruct (records s !! i) as [r|] eqn:Hi; simpl in Hr'; [|rewrite Hr'; constructor].
    destruct (owned_by _ _ _ _) eqn:Ho; simpl in Hr'; [|rewrite Hr'; constructor].
    destruct (Before now _) eqn:Hb; simpl in Hr'; [|rewrite Hr'; constructor].
    destruct (negb _ || _ || _) eqn:Hc; simpl in Hr'; [rewrite Hr'; constructor|].
    apply lookup_insert_case in Hr' as [[<- ->]|Hr']; [|rewrite Hr'; constructor].
    rewrite Hi. bool_to_prop. apply tr_authorized; [done|].
    unfold consenting, Before in *. by bool_to_prop.
  - unfold MarkConsumed in Hr'.
    destruct (records s !! i) as [r|] eqn:Hi; simpl in Hr'; [|rewrite Hr'; constructor].
    destruct (Before now _) eqn:Hb; simpl in Hr'; [|rewrite Hr'; constructor].
    destruct (equalBinding _ _) eqn:He; simpl in Hr'; [|rewrite Hr'; constructor].
    case_bool_decide; simpl in Hr'; [rewrite Hr'; constructor|].
    case_bool_decide; simpl in Hr'; [|rewrite Hr'; constructor].
    apply lookup_insert_case in Hr' as [[<- ->]|Hr']; [|rewrite Hr'; constructor].
    rewrite Hi. by apply tr_consumed.
Qed.

Definition granted (st : string) : Prop := st = "authorized" \/ st = "consumed".

Lemma grant_in_history tr s id r :
  reach tr s -> records s !! id = Some r -> granted (Status r) ->
  exists ctx now, EvAuthorize id ctx now ∈ tr /\ consenting ctx now r.
Proof.
  intros Hreach; revert id r; induction Hreach as [|tr s e s' _ IH Hstep]; intros id r Hr Hg.
  { simpl in Hr. by rewrite lookup_empty in Hr. }
  apply (step_transition _ _ _ id r) in Hstep; [|done].
  remember (records s !! id) as old eqn:Hold. symmetry in Hold.
  assert (Hkeep : forall r0, old = Some r0 -> Binding r0 = Binding r -> Proposal r0 = Proposal r ->
    granted (Status r0) -> exists ctx now, EvAuthorize id ctx now ∈ tr ++ [e] /\ consenting ctx now r).
  { intros r0 -> Hb Hp Hg0. destruct (IH id r0 Hold Hg0) as (ctx & now & Hin & Hc).
    exists ctx, now. split; [apply elem_of_app; by left|].
    unfold consenting in *. by rewrite <- Hb, <- Hp. }
  destruct Hstep as [e r|b p now old r _ Hs _|t o c now r Hl|ctx now r Hs Hc|b now r Hs He].
  - by eapply Hkeep.
  - destruct Hg; congruence.
  - destruct Hg; done.
  - exists ctx, now. split; [apply elem_of_app; right; by apply list_elem_of_singleton|done].
  - eapply Hkeep; [done..|by left].
Qed.

Lemma equalBinding_true a b :
  equalBinding a b = true <->
  TenantID a = TenantID b /\ OwnerCustomerID a = OwnerCustomerID b /\
  ConversationID a = ConversationID b /\ Tool a = Tool b /\ ArgumentsHash a = ArgumentsHash b.
Proof.
  unfold equalBinding. rewrite !andb_true_iff, !bool_decide_eq_true. tauto.
Qed.

(** What an accepted verification says of the store. *)
Lemma verified_granted id binding now s :
  VerifyAuthorized id binding now s = Ok tt ->
  exists r, records s !! id = Some r /\ granted (Status r) /\
    equalBinding (Binding r) binding = true /\ ns now < ns (ExpiresAt (Proposal r)).
Proof.
  unfold VerifyAuthorized. destruct (records s !! id) as [r|]; [|done].
  destruct (Before now _) eqn:Hb; [|done]. destruct (equalBinding _ _) eqn:He; [|done]. simpl.
  destruct (negb _ && _) eqn:Hst; [done|]. intros _. exists r.
  unfold Before in Hb; bool_to_prop. repeat split; try done.
  apply andb_false_iff in Hst as [Hst|Hst]; bool_to_prop; [by left|by right].
Qed.

(** Every record was filed by a proposal of its binding. *)
Lemma record_in_history tr s id r :
  reach tr s -> records s !! id = Some r -> exists p now, EvPropose (Binding r) p now ∈ tr.
Proof.
  intros Hreach; revert id r; induction Hreach as [|tr s e s' _ IH Hstep]; intros id r Hr.
  { simpl in Hr. by rewrite lookup_empty in Hr. }
  apply (step_transition _ _ _ id r) in Hstep; [|done].
  remember (records s !! id) as old eqn:Hold. symmetry in Hold.
  assert (Hkeep : forall r0, old = Some r0 -> Binding r0 = Binding r ->
    exists p now, EvPropose (Binding r) p now ∈ tr ++ [e]).
  { intros r0 -> Hb. destruct (IH id r0 Hold) as (p & now & Hin). exists p, now.
    rewrite <- Hb. apply elem_of_app. by left. }
  destruct Hstep as [e r|b p now old r <- _ _|t o c now r _|ctx now r _ _|b now r _ _];
    try (by eapply Hkeep).
  exists p, now. apply elem_of_app. right. by apply list_elem_of_singleton.
Qed.

(** Consent precedes every grant.  In every reachable store, an identifier
    that [VerifyAuthorized] accepts for an action names a proposal of exactly that
    tenant, customer, conversation, tool and argument hash, and the history holds
    an [Authorize] call of that very customer in that conversation, made before
    the expiry from a non-empty message other than the one that proposed it. *)
Theorem grant_requires_consent tr s id binding now :
  reach tr s -> VerifyAuthorized id binding now s = Ok tt ->
  exists r ctx now',
    records s !! id = Some r /\ EvAuthorize id ctx now' ∈ tr /\
    tx_TenantID ctx = TenantID binding /\ tx_CustomerID ctx = OwnerCustomerID binding /\
    tx_ConversationID ctx = ConversationID binding /\
    Tool (Binding r) = Tool binding /\ ArgumentsHash (Binding r) = ArgumentsHash binding /\
    tx_InboundMessageID ctx <> "" /\
    tx_InboundMessageID ctx <> ProposedFromMessageID (Binding r) /\
    ns now' < ns (ExpiresAt (Proposal r)) /\ ns now < ns (ExpiresAt (Proposal r)).
Proof.
  intros Hreach Hv. destruct (verified_granted _ _ _ _ Hv) as (r & Hr & Hg & He & Hb).
  destruct (grant_in_history tr s id r Hreach Hr Hg) as (ctx & now' & Hin & Ho & H1 & H2 & H3).
  apply equalBinding_true in He as (Ht & Hc & Hcv & Htool & Hh).
  unfold owned_by in Ho; bool_to_prop.
  exists r, ctx, now'. repeat match goal with |- _ /\ _ => split end; (done || congruence).
Qed.

(** The moves of the status machine of one proposal. *)
Inductive allowed : string -> string -> Prop :=
| allowed_authorize : allowed "pending" "authorized"
| allowed_consume : allowed "authorized" "consumed"
| allowed_reject_pending : allowed "pending" "rejected"
| allowed_reject_authorized : allowed "authorized" "rejected".

Lemma live_status_cases st : live_status st = true <-> st = "pending" \/ st = "authorized".
Proof. unfold live_status. rewrite orb_true_iff, !bool_decide_eq_true. done. Qed.

Lemma is_Some_insert {A} (m : gmap string A) i j x :
  is_Some (m !! j) -> is_Some (<[i := x]> m !! j).
Proof. intros ?. apply lookup_insert_is_Some. destruct (decide (i = j)); auto. Qed.

Lemma step_domain s e s' id : step s e s' -> is_Some (records s !! id) -> is_Some (records s' !! id).
Proof.
  intros Hstep Hs. destruct Hstep as [s iter fresh b p now _|s t o c now|s i ctx now|s i b now].
  - unfold Propose. destruct (List.find _ _) as [[k rec]|]; simpl; [done|].
    rewrite lookup_insert; by case_decide.
  - simpl. rewrite lookup_fmap. by destruct Hs as [r ->].
  - unfold Authorize. repeat case_match; simpl; try done. by apply is_Some_insert.
  - unfold MarkConsumed. repeat case_match; simpl; try done. by apply is_Some_insert.
Qed.

(** The status machine.  A recorded proposal never disappears; unless a new
    proposal is filed under the same identifier, its proposal and binding never
    change and its status moves only pending -> authorized -> consumed, or from
    either live status to rejected. *)
Theorem proposal_status_machine s e s' id r :
  step s e s' -> records s !! id = Some r ->
  exists r', records s' !! id = Some r' /\
    (Proposal r' = Proposal r /\ Binding r' = Binding r /\
       (Status r' = Status r \/ allowed (Status r) (Status r')) \/
     exists b p now, e = EvPropose b p now /\ prop_ID (Proposal r') = id /\ Status r' = "pending").
Proof.
  intros Hstep Hr. destruct (step_domain s e s' id Hstep) as [r' Hr']; [by rewrite Hr|].
  exists r'. split; [done|]. pose proof (step_transition s e s' id r' Hstep Hr') as Ht.
  rewrite Hr in Ht. inversion Ht as [|b p now old r0 Hb Hst Hid|t o c now r0 Hl|ctx now r0 Hst Hc|b now r0 Hst He]; subst.
  - left. by repeat split; left.
  - right. by exists (Binding r'), p, now.
  - left. simpl. repeat split. right. unfold live_for in Hl; bool_to_prop.
    match goal with H : live_status _ = true |- _ => apply live_status_cases in H as [->| ->] end;
      constructor.
  - left. simpl. repeat split. right. rewrite Hst. constructor.
  - left. simpl. repeat split. right. rewrite Hst. constructor.
Qed.

Lemma find_map_entry (s : MemoryConfirmationStore) iter (f : ConfirmationState -> bool) :
  iter ≡ₚ map_to_list (records s) ->
  match List.find (fun kv => f kv.2) iter with
  | Some (id, r) => records s !! id = Some r /\ f r = true
  | None => forall id r, records s !! id = Some r -> f r = false
  end.
Proof.
  intros Hp. destruct (List.find _ _) as [[id r]|] eqn:Hf.
  - apply List.find_some in Hf as [Hin Hfr]. split; [|done].
    apply list_elem_of_In in Hin. rewrite Hp in Hin. by apply elem_of_map_to_list in Hin.
  - intros id r Hr. apply (List.find_none _ _ Hf (id, r)).
    apply list_elem_of_In. rewrite Hp. by apply elem_of_map_to_list.
Qed.

(** Proposing is idempotent.  When a live proposal for the same action
    exists, [Propose] returns it and changes nothing; otherwise it files one new
    pending record under the returned identifier and leaves every other alone. *)
Theorem Propose_idempotent iter fresh b p now s :
  iter ≡ₚ map_to_list (records s) ->
  let '(q, s') := Propose iter fresh b p now s in
  (s' = s /\ exists id r, records s !! id = Some r /\ q = Proposal r /\
     live_status (Status r) = true /\ equalBinding (Binding r) b = true /\
     ns now < ns (ExpiresAt q)) \/
  ((forall id r, records s !! id = Some r -> replayable b now r = false) /\
   records s' = <[prop_ID q := mkState q b "pending"]> (records s) /\
   Title q = Title p /\ Facts q = Facts p /\ ExpiresAt q = ExpiresAt p /\
   prop_ID q = (if bool_decide (prop_ID p = "") then fresh else prop_ID p)).
Proof.
  intros Hp. pose proof (find_map_entry s iter (replayable b now) Hp) as Hf.
  unfold Propose. destruct (List.find _ _) as [[id r]|].
  - left. destruct Hf as [Hr Hre]. split; [done|]. exists id, r.
    unfold replayable, After in Hre. by bool_to_prop.
  - right. split; [done|]. by case_bool_decide.
Qed.

(** ** The live proposal *)
Definition best (t o c : string) (now : Time) (acc : option ConfirmationState)
    (l : list (string * ConfirmationState)) (res : option ConfirmationState) : Prop :=
  (forall r, res = Some r -> acc = Some r \/ exists id, (id, r) ∈ l /\ live_for t o c now r = true) /\
  (forall r, acc = Some r \/ (exists id, (id, r) ∈ l /\ live_for t o c now r = true) ->
     exists r', res = Some r' /\ ns (ExpiresAt (Proposal r)) <= ns (ExpiresAt (Proposal r'))).

Lemma latest_fold t o c now l acc :
  best t o c now acc l
    (fold_left (fun latest kv =>
       if negb (live_for t o c now kv.2) then latest
       else match latest with
            | None => Some kv.2
            | Some l => if After (ExpiresAt (Proposal kv.2)) (ExpiresAt (Proposal l))
                        then Some kv.2 else latest
            end) l acc).
Proof.
  revert acc; induction l as [|[id r] l IH]; intros acc; simpl.
  { split; [by left|]. intros r [->|(? & ?%elem_of_nil & _)]; [|done]. by exists r. }
  set (acc' := if negb _ then _ else _).
  assert (Hacc : best t o c now acc [(id, r)] acc').
  { subst acc'. unfold best. setoid_rewrite list_elem_of_singleton.
    destruct (live_for t o c now r) eqn:Hl; simpl.
    - destruct acc as [a|]; [unfold After; destruct (Z.ltb_spec (ns (ExpiresAt (Proposal a)))
        (ns (ExpiresAt (Proposal r))))|].
      + split; [intros r' [= <-]; right; by exists id|].
        intros r' [[= <-]|(? & [= -> ->] & _)]; exists r; split; (done || lia).
      + split; [by left|]. intros r' [[= <-]|(? & [= -> ->] & _)]; exists a; split; (done || lia).
      + split; [intros r' [= <-]; right; by exists id|].
        intros r' [[=]|(? & [= -> ->] & _)]. by exists r.
    - split; [by left|]. intros r' [->|(? & [= -> ->] & ?)]; [by exists r'|congruence]. }
  destruct Hacc as [Ha1 Ha2], (IH acc') as [H1 H2]. split.
  - intros r' Hr'. destruct (H1 r' Hr') as [Hacc'|(i & Hin & Hl)].
    + destruct (Ha1 r' Hacc') as [?|(i & Hin%list_elem_of_singleton & Hl)]; [by left|].
      right. exists i. split; [rewrite Hin; by left|done].
    + right. exists i. split; [by right|done].
  - intros r' Hr'. assert (Hcase : (acc = Some r' \/ exists i, (i, r') ∈ [(id, r)] /\ live_for t o c now r' = true)
      \/ exists i, (i, r') ∈ l /\ live_for t o c now r' = true).
    { destruct Hr' as [?|(i & Hin & Hl)]; [by left; left|].
      apply elem_of_cons in Hin as [Hin|Hin]; [left; right|right]; exists i; split; try done.
      rewrite Hin. by apply list_elem_of_singleton. }
    destruct Hcase as [Hr0|Hr0]; [|by apply H2; right].
    destruct (Ha2 r' Hr0) as (a & Ha & Hle). destruct (H2 a (or_introl Ha)) as (r2 & Hr2 & Hle2).
    exists r2. split; [done|lia].
Qed.

(** [Latest] finds the live proposal of exactly one owner and conversation:
    what it returns is stored, live, unexpired and owned by the caller, and no
    other such proposal expires later; it returns nothing only when there is none. *)
Theorem Latest_spec iter t o c now s :
  iter ≡ₚ map_to_list (records s) ->
  match Latest iter t o c now with
  | Some r => (exists id, records s !! id = Some r) /\ live_for t o c now r = true /\
      forall id r', records s !! id = Some r' -> live_for t o c now r' = true ->
        ns (ExpiresAt (Proposal r')) <= ns (ExpiresAt (Proposal r))
  | None => forall id r', records s !! id = Some r' -> live_for t o c now r' = false
  end.
Proof.
  intros Hp. assert (Hin : forall id r, (id, r) ∈ iter <-> records s !! id = Some r)
    by (intros; rewrite Hp; apply elem_of_map_to_list).
  destruct (latest_fold t o c now iter None) as [H1 H2].
  fold (Latest iter t o c now) in H1, H2. destruct (Latest iter t o c now) as [r|].
  - destruct (H1 r eq_refl) as [?|(id & Hid & Hl)]; [done|]. split; [exists id; by apply Hin|].
    split; [done|]. intros id' r' Hr' Hl'.
    destruct (H2 r') as (r2 & [= <-] & ?); [|done]. right. exists id'. by rewrite Hin.
  - intros id r' Hr'. apply not_true_is_false. intros Hl.
    destruct (H2 r') as (r2 & ? & _); [|done]. right. exists id. by rewrite Hin.
Qed.

(** ** Witnesses: a booking proposed in one message and confirmed in the next *)
Module ConfirmDemo.
Definition bnd : ConfirmationBinding := mkBinding "t" "c" "v" "m1" "create_booking" "h" "{}".
Definition draft : ConfirmationProposal := mkProposal "" "create_booking" "Book" [] (mkTime 900 UTC).
Definition ctx : TrustedContext := mkTrusted "t" "c" "Ann" "" "" "v" "m2" "run" ∅.
Definition s0 : MemoryConfirmationStore := NewMemoryConfirmationStore.
Definition s1 : MemoryConfirmationStore := (Propose [] "p1" bnd draft (mkTime 10 UTC) s0).2.
Definition s2 : MemoryConfirmationStore := (Authorize "p1" ctx (mkTime 20 UTC) s1).2.

Lemma step1 : step s0 (EvPropose bnd draft (mkTime 10 UTC)) s1.
Proof. apply (step_propose s0 []). vm_compute. reflexivity. Defined.

Lemma step2 : step s1 (EvAuthorize "p1" ctx (mkTime 20 UTC)) s2.
Proof. apply step_authorize. Defined.

Lemma reach2 : reach [EvPropose bnd draft (mkTime 10 UTC); EvAuthorize "p1" ctx (mkTime 20 UTC)] s2.
Proof.
  apply (reach_step [EvPropose bnd draft (mkTime 10 UTC)] s1 _ s2); [|apply step2].
  apply (reach_step [] s0 _ s1); [constructor|apply step1].
Defined.

Lemma entries1 : [("p1", mkState (set_ID "p1" draft) bnd "pending")] ≡ₚ map_to_list (records s1).
Proof. vm_compute. reflexivity. Defined.
End ConfirmDemo.

Lemma grant_requires_consent_witness :
  exists r ctx now',
    records ConfirmDemo.s2 !! "p1" = Some r /\
    EvAuthorize "p1" ctx now' ∈ [EvPropose ConfirmDemo.bnd ConfirmDemo.draft (mkTime 10 UTC);
      EvAuthorize "p1" ConfirmDemo.ctx (mkTime 20 UTC)] /\
    tx_TenantID ctx = "t" /\ ns now' < ns (ExpiresAt (Proposal r)).
Proof.
  destruct (grant_requires_consent _ ConfirmDemo.s2 "p1" ConfirmDemo.bnd (mkTime 30 UTC)
    ConfirmDemo.reach2 eq_refl) as (r & c & n & H1 & H2 & H3 & _ & _ & _ & _ & _ & _ & H4 & _).
  exists r, c, n. exact (conj H1 (conj H2 (conj H3 H4))).
Defined.

Lemma proposal_status_machine_witness :
  exists r', records ConfirmDemo.s2 !! "p1" = Some r' /\ allowed "pending" "authorized".
Proof.
  destruct (proposal_status_machine _ _ _ "p1" (mkState (set_ID "p1" ConfirmDemo.draft) ConfirmDemo.bnd "pending")
    ConfirmDemo.step2 eq_refl) as (r' & H1 & _).
  exists r'. split; [exact H1|constructor].
Defined.

Lemma Propose_idempotent_witness :
  (Propose [("p1", mkState (set_ID "p1" ConfirmDemo.draft) ConfirmDemo.bnd "pending")] "p2"
     ConfirmDemo.bnd ConfirmDemo.draft (mkTime 20 UTC) ConfirmDemo.s1).2 = ConfirmDemo.s1.
Proof.
  destruct (Propose_idempotent _ "p2" ConfirmDemo.bnd ConfirmDemo.draft (mkTime 20 UTC) ConfirmDemo.s1
    ConfirmDemo.entries1) as [[H _]|[H _]]; [exact H|].
  specialize (H "p1" _ eq_refl). vm_compute in H. discriminate H.
Defined.

Lemma Latest_spec_witness :
  exists id r, records ConfirmDemo.s1 !! id = Some r /\
    live_for "t" "c" "v" (mkTime 20 UTC) r = true.
Proof.
  pose proof (Latest_spec _ "t" "c" "v" (mkTime 20 UTC) ConfirmDemo.s1 ConfirmDemo.entries1) as H.
  destruct (Latest _ _ _ _ _) as [r|] eqn:E; [|vm_compute in E; discriminate E].
  destruct H as ((id & H) & Hl & _). exists id, r. exact (conj H Hl).
Defined.
