(* ===== verification/Json.v ===== *)
(** * JSON values

    The values that [encoding/json] and PostgreSQL's [jsonb] exchange, the
    encoder ([json.Marshal] with Go's escaping) and [jsonb_set] for the
    one-element paths the repository uses. *)

From Stdlib Require Import ZArith Lia Ascii.
From stdpp Require Import base list strings pretty.
From S2P Require Import Prelude.

#[local] Open Scope Z_scope.

(** Numbers are kept as their literal text ([json.Number], raw messages). *)
Inductive json : Type :=
| JNull
| JBool (b : bool)
| JNum (literal : string)
| JStr (s : string)
| JArr (items : list json)
| JObj (members : list (string * json)).

(** ** Characters *)
Definition code (c : ascii) : Z := Z.of_N (N_of_ascii c).
Definition chr (n : Z) : ascii := ascii_of_N (Z.to_N n).

Definition hex_digit (n : Z) : ascii := chr (if n <? 10 then 48 + n else 87 + n).

Definition str (c : ascii) : string := String c EmptyString.
Definition quote_mark : string := str (chr 34).
Definition backslash : string := str (chr 92).

Fixpoint string_bytes (s : string) : list ascii :=
  match s with EmptyString => [] | String c tl => c :: string_bytes tl end.

Fixpoint of_bytes (l : list ascii) : string :=
  match l with [] => EmptyString | c :: tl => String c (of_bytes tl) end.

Lemma of_string_bytes s : of_bytes (string_bytes s) = s.
Proof. induction s as [|c s IH]; simpl; congruence. Qed.

Lemma string_of_bytes l : string_bytes (of_bytes l) = l.
Proof. induction l; simpl; congruence. Qed.

Lemma string_bytes_app s t : string_bytes (String.append s t) = string_bytes s ++ string_bytes t.
Proof.
  induction s as [|c s IH]; [done|]. change (c :: string_bytes (String.append s t) =
    c :: string_bytes s ++ string_bytes t). by rewrite IH.
Qed.

Lemma code_range c : 0 <= code c < 256.
Proof. unfold code. pose proof (N_ascii_bounded c). lia. Qed.

Lemma code_chr n : 0 <= n < 256 -> code (chr n) = n.
Proof. intros H. unfold code, chr. rewrite N_ascii_embedding by lia. lia. Qed.

Lemma chr_code c : chr (code c) = c.
Proof. unfold code, chr. rewrite N2Z.id. apply ascii_N_embedding. Qed.

(** ** UTF-8: the length of the well-formed sequence that starts a byte list,
    [0] where there is none (RFC 3629; the checks of Go's [utf8] package). *)
Definition continuation (c : ascii) : bool := (128 <=? code c) && (code c <? 192).

Definition second_ok (c0 c1 : ascii) : bool :=
  let lo := if code c0 =? 224 then 160 else if code c0 =? 240 then 144 else 128 in
  let hi := if code c0 =? 237 then 159 else if code c0 =? 244 then 143 else 191 in
  (lo <=? code c1) && (code c1 <=? hi).

Definition utf8_len (l : list ascii) : nat :=
  match l with
  | [] => 0%nat
  | c0 :: tl =>
      if code c0 <? 128 then 1%nat
      else if (194 <=? code c0) && (code c0 <? 224) then
        match tl with c1 :: _ => if second_ok c0 c1 then 2%nat else 0%nat | _ => 0%nat end
      else if (224 <=? code c0) && (code c0 <? 240) then
        match tl with
        | c1 :: c2 :: _ => if second_ok c0 c1 && continuation c2 then 3%nat else 0%nat
        | _ => 0%nat
        end
      else if (240 <=? code c0) && (code c0 <? 245) then
        match tl with
        | c1 :: c2 :: c3 :: _ =>
            if second_ok c0 c1 && continuation c2 && continuation c3 then 4%nat else 0%nat
        | _ => 0%nat
        end
      else 0%nat
  end.

(** ** [json.Marshal] *)
Definition escape_ascii (c : ascii) : string :=
  let n := code c in
  if (n =? 34) || (n =? 92) then String.append backslash (str c)
  else if n =? 8 then String.append backslash "b"
  else if n =? 12 then String.append backslash "f"
  else if n =? 10 then String.append backslash "n"
  else if n =? 13 then String.append backslash "r"
  else if n =? 9 then String.append backslash "t"
  else if (n <? 32) || (n =? 60) || (n =? 62) || (n =? 38) then
    String.append backslash (String.append "u00"
      (String (hex_digit (n / 16)) (str (hex_digit (n mod 16)))))
  else str c.

(** U+2028 and U+2029 are escaped, invalid bytes become U+FFFD. *)
Definition line_separator (l : list ascii) : option string :=
  match l with
  | [c0; c1; c2] =>
      if (code c0 =? 226) && (code c1 =? 128) && ((code c2 =? 168) || (code c2 =? 169))
      then Some (String.append backslash (String.append "u202" (str (hex_digit (code c2 - 160)))))
      else None
  | _ => None
  end.

Fixpoint escape_bytes (fuel : nat) (l : list ascii) : string :=
  match fuel, l with
  | O, _ | _, [] => EmptyString
  | S fuel, c :: tl =>
      if code c <? 128 then String.append (escape_ascii c) (escape_bytes fuel tl)
      else match utf8_len l with
           | O => String.append (String.append backslash "ufffd") (escape_bytes fuel tl)
           | n => String.append (match line_separator (take n l) with
                                 | Some s => s
                                 | None => of_bytes (take n l)
                                 end) (escape_bytes fuel (drop n l))
           end
  end.

Definition quote (s : string) : string :=
  let l := string_bytes s in
  String.append quote_mark (String.append (escape_bytes (length l) l) quote_mark).

Fixpoint join (sep : string) (l : list string) : string :=
  match l with
  | [] => EmptyString
  | [s] => s
  | s :: tl => String.append s (String.append sep (join sep tl))
  end.

Fixpoint Marshal (v : json) : string :=
  match v with
  | JNull => "null"
  | JBool true => "true"
  | JBool false => "false"
  | JNum n => n
  | JStr s => quote s
  | JArr l => String.append "[" (String.append (join "," (map Marshal l)) "]")
  | JObj l => String.append "{" (String.append
      (join "," (map (fun kv => String.append (quote kv.1) (String.append ":" (Marshal kv.2))) l)) "}")
  end.

Definition JInt (z : Z) : json := JNum (pretty z).

(** ** [jsonb_set(target, '{key}', value, true)] *)
Fixpoint set_member (key : string) (value : json) (l : list (string * json))
    : list (string * json) :=
  match l with
  | [] => [(key, value)]
  | (k, v) :: tl => if bool_decide (k = key) then (k, value) :: tl
                    else (k, v) :: set_member key value tl
  end.

Definition jsonb_set (key : string) (value target : json) : result json :=
  match target with
  | JObj l => Ok (JObj (set_member key value l))
  | JArr _ => Err (ErrPg "22P02")
  | _ => Err (ErrPg "22023")
  end.

Fixpoint member (key : string) (l : list (string * json)) : option json :=
  match l with
  | [] => None
  | (k, v) :: tl => if bool_decide (k = key) then Some v else member key tl
  end.

Lemma member_set key value l k :
  member k (set_member key value l) = if bool_decide (k = key) then Some value else member k l.
Proof.
  induction l as [|[k' v'] l IH]; simpl.
  { repeat case_bool_decide; congruence. }
  destruct (decide (k' = key)) as [->|Hk].
  - rewrite bool_decide_eq_true_2 by done. simpl. repeat case_bool_decide; congruence.
  - rewrite bool_decide_eq_false_2 by done. simpl. rewrite IH. repeat case_bool_decide; congruence.
Qed.

(** Characters of a text column: PostgreSQL's [length]. *)
Definition pg_length (s : string) : Z :=
  Z.of_nat (length (List.filter (fun c => negb (continuation c)) (string_bytes s))).

(** Go's [len] of a string, in bytes. *)
Definition len (s : string) : Z := Z.of_nat (String.length s).

Lemma len_bytes s : len s = Z.of_nat (length (string_bytes s)).
Proof. unfold len. induction s; simpl in *; lia. Qed.

Lemma pg_length_le_len s : pg_length s <= len s.
Proof.
  rewrite len_bytes. unfold pg_length.
  induction (string_bytes s) as [|c l IH]; simpl; [lia|].
  destruct (continuation c); simpl; lia.
Qed.

Lemma pg_length_nonneg s : 0 <= pg_length s.
Proof. unfold pg_length. lia. Qed.
