(* ===== verification/Database.v ===== *)
(** * The scheduling database: [db/migrations] and the statements' semantics

    Tables are lists of rows; a statement is a function of the tables that may
    fail with an SQLSTATE.  [CHECK], foreign-key, unique and exclusion
    constraints are those of the migrations.  [M] is the state and error monad
    in which the Go code runs statements on a pool (each its own transaction)
    or inside one explicit transaction.

    Every statement consumes one tick of an environment that supplies the wall
    clock, the generated identifiers, the rows other sessions hold locked, the
    state of the caller's context, and a possible failure: whatever a network, a cancelled context or a serialization
    conflict does to a statement is such a failure. *)

From Stdlib Require Import ZArith Lia Ascii.
From stdpp Require Import base list strings sorting.
From S2P Require Import Prelude GoTime Json.

#[local] Open Scope Z_scope.

(** ** Rows *)
Record ServiceRow := mkServiceRow {
  sv_tenant : string; sv_id : string; sv_slug : string; sv_name : string;
  sv_description : string; sv_duration : Z; sv_before : Z; sv_after : Z;
  sv_price : Z; sv_currency : string; sv_active : bool
}.

Record StaffRow := mkStaffRow {
  st_tenant : string; st_id : string; st_slug : string; st_name : string;
  st_timezone : string; st_active : bool
}.

Record StaffServiceRow := mkStaffServiceRow {
  ss_tenant : string; ss_staff : string; ss_service : string
}.

(** Local times are seconds of the day, dates are days since 1970-01-01. *)
Record RuleRow := mkRuleRow {
  ar_tenant : string; ar_staff : string; ar_type : string; ar_day : Z;
  ar_start : Z; ar_end : Z; ar_from : option Z; ar_until : option Z
}.

Record BlockRow := mkBlockRow {
  bl_tenant : string; bl_id : string; bl_staff : string; bl_starts : Time; bl_ends : Time;
  bl_kind : string; bl_note : string
}.

Record CustomerRow := mkCustomerRow {
  cu_tenant : string; cu_id : string; cu_name : string;
  cu_email : option string; cu_phone : option string
}.

Record ConversationRow := mkConversationRow {
  cv_tenant : string; cv_id : string; cv_customer : option string; cv_channel : string;
  cv_ref : option string; cv_status : string;
  cv_failures : Z; cv_budget : Z; cv_used : Z; cv_reserved : Z
}.

(** A booking as the repository scans and marshals it ([scheduling.Booking]). *)
Record Booking := mkBooking {
  bk_ID : string; CustomerID : string; ConversationID : string; ServiceID : string;
  StaffID : string; Status : string; StartsAt : Time; EndsAt : Time;
  BufferBeforeMinutes : Z; BufferAfterMinutes : Z; ScheduleVersion : Z;
  Notes : string; CreatedAt : Time; UpdatedAt : Time
}.

(** A row of [bookings]: the scanned columns and those only the table holds. *)
Record BookingRow := mkBookingRow {
  b_tenant : string; b_data : Booking;
  b_reason : option string; b_cancelled_at : option Time
}.

Record EventRow := mkEventRow {
  ev_tenant : string; ev_booking : string; ev_type : string; ev_actor : string;
  ev_actor_ref : option string; ev_from : option Booking; ev_to : Booking
}.

Record LockRow := mkLockRow { lk_tenant : string; lk_staff : string; lk_date : string }.

Record IdemRow := mkIdemRow {
  id_tenant : string; id_scope : string; id_key : string; id_hash : string;
  id_status : string; id_resource : option string; id_response : option Booking;
  id_completed : option Time
}.

Record JobRow := mkJobRow {
  j_tenant : string; j_id : string; j_booking : string; j_type : string;
  j_status : string; j_payload : json; j_attempts : Z; j_max : Z;
  j_next_retry : Time; j_claimed : option Time; j_completed : option Time;
  j_dead : option Time; j_cancelled : option Time; j_error : option string;
  j_key : option string; j_created : Time
}.

Record DeadRow := mkDeadRow {
  d_tenant : string; d_id : string; d_job : string; d_booking : string; d_type : string;
  d_payload : json; d_attempts : Z; d_max : Z; d_error : option string;
  d_key : option string; d_dead : Time; d_created : Time
}.

Record RunRow := mkRunRow {
  ru_tenant : string; ru_id : string; ru_conversation : string; ru_trigger : option string;
  ru_status : string; ru_provider : string; ru_model : string; ru_prompt : Z; ru_completion : Z;
  ru_duration : option Z; ru_code : option string; ru_error : option string;
  ru_started : Time; ru_finished : option Time
}.

Record EscalationRow := mkEscalationRow {
  es_tenant : string; es_id : string; es_conversation : string; es_customer : string;
  es_run : option string; es_call : option string; es_reason : string; es_summary : string;
  es_status : string; es_created : Time
}.

Record MessageRow := mkMessageRow {
  ms_tenant : string; ms_id : string; ms_conversation : string; ms_role : string;
  ms_content : string; ms_tokens : Z; ms_ref : option string; ms_created : Time
}.

(** [arguments_json] as the text PostgreSQL prints for the stored value. *)
Record ProposalRow := mkProposalRow {
  pr_tenant : string; pr_id : string; pr_conversation : string; pr_customer : string;
  pr_message : string; pr_tool : string; pr_arguments : string; pr_hash : string;
  pr_summary : string; pr_status : string; pr_expires : Time;
  pr_confirmed_message : option string; pr_confirmed : option Time; pr_consumed : option Time;
  pr_created : Time
}.

(** [model_response], [arguments_json] and the results are [jsonb] texts. *)
Record IterationRow := mkIterationRow {
  it_tenant : string; it_id : string; it_run : string; it_no : Z; it_status : string;
  it_finish : string; it_prompt : Z; it_completion : Z; it_duration : Z; it_response : string;
  it_error : option string; it_created : Time
}.

Record ToolRow := mkToolRow {
  tl_tenant : string; tl_id : string; tl_run : string; tl_iteration : string; tl_call : string;
  tl_index : Z; tl_count : Z; tl_name : string; tl_version : string; tl_arguments : string;
  tl_result : option string; tl_status : string; tl_duration : option Z;
  tl_started : option Time; tl_finished : option Time
}.

Record AttemptRow := mkAttemptRow {
  ax_tenant : string; ax_id : string; ax_tool : string; ax_no : Z; ax_status : string;
  ax_result : option string; ax_duration : option Z; ax_started : Time; ax_finished : option Time
}.

(** [dead_letter_events] *)
Record FailureRow := mkFailureRow {
  fe_tenant : string; fe_id : string; fe_conversation : string; fe_customer : string;
  fe_run : string; fe_trigger : string; fe_type : string; fe_reason : string;
  fe_payload : string; fe_error : option string
}.

(** [conversation_events]; [te_id] is the identity column. *)
Record TurnEventRow := mkTurnEventRow {
  te_tenant : string; te_id : Z; te_conversation : string; te_type : string;
  te_payload : string; te_created : Time
}.

(** What [tenants] holds of a tenant beside its identifier. *)
Record TenantRow := mkTenantRow {
  tr_id : string; tr_slug : string; tr_name : string; tr_timezone : string; tr_currency : string;
  tr_created : Time; tr_updated : Time
}.

Record OperatorRow := mkOperatorRow {
  op_tenant : string; op_id : string; op_email : string; op_name : string; op_hash : string;
  op_role : string; op_active : bool; op_created : Time; op_updated : Time
}.

Record SessionRow := mkSessionRow {
  se_id : string; se_tenant : string; se_operator : string; se_digest : string; se_expires : Time;
  se_revoked : option Time; se_used : Time; se_created : Time
}.

(** [tenant_channels] *)
Record ChannelsRow := mkChannelsRow {
  ch_tenant : string; ch_origin : string; ch_ciphertext : option string; ch_nonce : option string;
  ch_digest : option string; ch_enabled : bool; ch_updated : Time
}.

(** [telegram_updates] *)
Record UpdateRow := mkUpdateRow { tu_tenant : string; tu_update : Z; tu_received : Time }.

(** The tables of tenants, their operators and their channels. *)
Record Accounts := mkAccounts {
  tenant_rows : list TenantRow; operators : list OperatorRow; operator_sessions : list SessionRow;
  tenant_channels : list ChannelsRow; telegram_updates : list UpdateRow
}.

Definition no_accounts : Accounts := mkAccounts [] [] [] [] [].

(** The tables the turns of conversations write, and those of the accounts. *)
Record TurnTables := mkTurnTables {
  agent_iterations : list IterationRow; tool_executions : list ToolRow;
  tool_execution_attempts : list AttemptRow; dead_letter_events : list FailureRow;
  conversation_events : list TurnEventRow; accounts : Accounts
}.

Definition no_turns : TurnTables := mkTurnTables [] [] [] [] [] no_accounts.

Record DB := mkDB {
  tenants : list string; services : list ServiceRow; staff : list StaffRow;
  staff_services : list StaffServiceRow; rules : list RuleRow; blocks : list BlockRow;
  customers : list CustomerRow; conversations : list ConversationRow;
  bookings : list BookingRow; booking_events : list EventRow;
  schedule_locks : list LockRow; idempotency : list IdemRow;
  jobs : list JobRow; dead_letters : list DeadRow;
  agent_runs : list RunRow; escalations : list EscalationRow;
  messages : list MessageRow; proposals : list ProposalRow; turns : TurnTables
}.

Definition set_bookings (x : list BookingRow) (d : DB) : DB :=
  mkDB (tenants d) (services d) (staff d) (staff_services d) (rules d) (blocks d) (customers d)
    (conversations d) x (booking_events d) (schedule_locks d) (idempotency d) (jobs d) (dead_letters d)
    (agent_runs d) (escalations d) (messages d) (proposals d) (turns d).
Definition set_events (x : list EventRow) (d : DB) : DB :=
  mkDB (tenants d) (services d) (staff d) (staff_services d) (rules d) (blocks d) (customers d)
    (conversations d) (bookings d) x (schedule_locks d) (idempotency d) (jobs d) (dead_letters d)
    (agent_runs d) (escalations d) (messages d) (proposals d) (turns d).
Definition set_locks (x : list LockRow) (d : DB) : DB :=
  mkDB (tenants d) (services d) (staff d) (staff_services d) (rules d) (blocks d) (customers d)
    (conversations d) (bookings d) (booking_events d) x (idempotency d) (jobs d) (dead_letters d)
    (agent_runs d) (escalations d) (messages d) (proposals d) (turns d).
Definition set_idempotency (x : list IdemRow) (d : DB) : DB :=
  mkDB (tenants d) (services d) (staff d) (staff_services d) (rules d) (blocks d) (customers d)
    (conversations d) (bookings d) (booking_events d) (schedule_locks d) x (jobs d) (dead_letters d)
    (agent_runs d) (escalations d) (messages d) (proposals d) (turns d).
Definition set_jobs (x : list JobRow) (d : DB) : DB :=
  mkDB (tenants d) (services d) (staff d) (staff_services d) (rules d) (blocks d) (customers d)
    (conversations d) (bookings d) (booking_events d) (schedule_locks d) (idempotency d) x (dead_letters d)
    (agent_runs d) (escalations d) (messages d) (proposals d) (turns d).
Definition set_dead (x : list DeadRow) (d : DB) : DB :=
  mkDB (tenants d) (services d) (staff d) (staff_services d) (rules d) (blocks d) (customers d)
    (conversations d) (bookings d) (booking_events d) (schedule_locks d) (idempotency d) (jobs d) x
    (agent_runs d) (escalations d) (messages d) (proposals d) (turns d).
Definition set_customers (x : list CustomerRow) (d : DB) : DB :=
  mkDB (tenants d) (services d) (staff d) (staff_services d) (rules d) (blocks d) x
    (conversations d) (bookings d) (booking_events d) (schedule_locks d) (idempotency d) (jobs d) (dead_letters d)
    (agent_runs d) (escalations d) (messages d) (proposals d) (turns d).
Definition set_conversations (x : list ConversationRow) (d : DB) : DB :=
  mkDB (tenants d) (services d) (staff d) (staff_services d) (rules d) (blocks d) (customers d)
    x (bookings d) (booking_events d) (schedule_locks d) (idempotency d) (jobs d) (dead_letters d)
    (agent_runs d) (escalations d) (messages d) (proposals d) (turns d).
Definition set_escalations (x : list EscalationRow) (d : DB) : DB :=
  mkDB (tenants d) (services d) (staff d) (staff_services d) (rules d) (blocks d) (customers d)
    (conversations d) (bookings d) (booking_events d) (schedule_locks d) (idempotency d) (jobs d) (dead_letters d)
    (agent_runs d) x (messages d) (proposals d) (turns d).
Definition set_messages (x : list MessageRow) (d : DB) : DB :=
  mkDB (tenants d) (services d) (staff d) (staff_services d) (rules d) (blocks d) (customers d)
    (conversations d) (bookings d) (booking_events d) (schedule_locks d) (idempotency d) (jobs d) (dead_letters d)
    (agent_runs d) (escalations d) x (proposals d) (turns d).
Definition set_proposals (x : list ProposalRow) (d : DB) : DB :=
  mkDB (tenants d) (services d) (staff d) (staff_services d) (rules d) (blocks d) (customers d)
    (conversations d) (bookings d) (booking_events d) (schedule_locks d) (idempotency d) (jobs d) (dead_letters d)
    (agent_runs d) (escalations d) (messages d) x (turns d).
Definition set_runs (x : list RunRow) (d : DB) : DB :=
  mkDB (tenants d) (services d) (staff d) (staff_services d) (rules d) (blocks d) (customers d)
    (conversations d) (bookings d) (booking_events d) (schedule_locks d) (idempotency d) (jobs d) (dead_letters d)
    x (escalations d) (messages d) (proposals d) (turns d).
Definition set_turns (x : TurnTables) (d : DB) : DB :=
  mkDB (tenants d) (services d) (staff d) (staff_services d) (rules d) (blocks d) (customers d)
    (conversations d) (bookings d) (booking_events d) (schedule_locks d) (idempotency d) (jobs d) (dead_letters d)
    (agent_runs d) (escalations d) (messages d) (proposals d) x.
Definition set_iterations (x : list IterationRow) (d : DB) : DB :=
  let t := turns d in set_turns (mkTurnTables x (tool_executions t) (tool_execution_attempts t)
    (dead_letter_events t) (conversation_events t) (accounts t)) d.
Definition set_tools (x : list ToolRow) (d : DB) : DB :=
  let t := turns d in set_turns (mkTurnTables (agent_iterations t) x (tool_execution_attempts t)
    (dead_letter_events t) (conversation_events t) (accounts t)) d.
Definition set_attempts (x : list AttemptRow) (d : DB) : DB :=
  let t := turns d in set_turns (mkTurnTables (agent_iterations t) (tool_executions t) x
    (dead_letter_events t) (conversation_events t) (accounts t)) d.
Definition set_failures (x : list FailureRow) (d : DB) : DB :=
  let t := turns d in set_turns (mkTurnTables (agent_iterations t) (tool_executions t)
    (tool_execution_attempts t) x (conversation_events t) (accounts t)) d.
Definition set_turn_events (x : list TurnEventRow) (d : DB) : DB :=
  let t := turns d in set_turns (mkTurnTables (agent_iterations t) (tool_executions t)
    (tool_execution_attempts t) (dead_letter_events t) x (accounts t)) d.
Definition set_accounts (x : Accounts) (d : DB) : DB :=
  let t := turns d in set_turns (mkTurnTables (agent_iterations t) (tool_executions t)
    (tool_execution_attempts t) (dead_letter_events t) (conversation_events t) x) d.

Definition accounts_of (d : DB) : Accounts := accounts (turns d).

Definition set_operators (x : list OperatorRow) (d : DB) : DB :=
  let a := accounts_of d in
  set_accounts (mkAccounts (tenant_rows a) x (operator_sessions a) (tenant_channels a) (telegram_updates a)) d.
Definition set_sessions (x : list SessionRow) (d : DB) : DB :=
  let a := accounts_of d in
  set_accounts (mkAccounts (tenant_rows a) (operators a) x (tenant_channels a) (telegram_updates a)) d.
Definition set_channels (x : list ChannelsRow) (d : DB) : DB :=
  let a := accounts_of d in
  set_accounts (mkAccounts (tenant_rows a) (operators a) (operator_sessions a) x (telegram_updates a)) d.
Definition set_updates (x : list UpdateRow) (d : DB) : DB :=
  let a := accounts_of d in
  set_accounts (mkAccounts (tenant_rows a) (operators a) (operator_sessions a) (tenant_channels a) x) d.
(** A tenant's row and its identifier. *)
Definition add_tenant (x : TenantRow) (d : DB) : DB :=
  let a := accounts_of d in
  let d := set_accounts (mkAccounts (tenant_rows a ++ [x]) (operators a) (operator_sessions a) (tenant_channels a)
    (telegram_updates a)) d in
  mkDB (tenants d ++ [tr_id x]) (services d) (staff d) (staff_services d) (rules d) (blocks d) (customers d)
    (conversations d) (bookings d) (booking_events d) (schedule_locks d) (idempotency d) (jobs d) (dead_letters d)
    (agent_runs d) (escalations d) (messages d) (proposals d) (turns d).
(** New rows of the catalogue. *)
Definition set_catalogue (sv : list ServiceRow) (st : list StaffRow) (ss : list StaffServiceRow)
    (ru : list RuleRow) (d : DB) : DB :=
  mkDB (tenants d) sv st ss ru (blocks d) (customers d)
    (conversations d) (bookings d) (booking_events d) (schedule_locks d) (idempotency d) (jobs d) (dead_letters d)
    (agent_runs d) (escalations d) (messages d) (proposals d) (turns d).

(** ** Constraints *)
Definition string_in (s : string) (l : list string) : bool := existsb (String.eqb s) l.

Definition between (lo hi n : Z) : bool := (lo <=? n) && (n <=? hi).

Definition opt_check {A} (p : A -> bool) (o : option A) : bool :=
  match o with Some a => p a | None => true end.

Definition is_set {A} (o : option A) : bool := match o with Some _ => true | None => false end.

(** The statuses whose bookings occupy their time. *)
Definition occupying : list string := ["confirmed"; "checked_in"; "completed"; "no_show"].

Definition booking_check (b : BookingRow) : bool :=
  let d := b_data b in
  string_in (Status d) ["confirmed"; "checked_in"; "completed"; "no_show"; "cancelled"] &&
  between 0 240 (BufferBeforeMinutes d) && between 0 240 (BufferAfterMinutes d) &&
  (0 <? ScheduleVersion d) && (pg_length (Notes d) <=? 500) &&
  opt_check (fun r => pg_length r <=? 500) (b_reason b) &&
  (ns (StartsAt d) <? ns (EndsAt d)) &&
  Bool.eqb (String.eqb (Status d) "cancelled") (is_set (b_cancelled_at b)).

(** [occupied_range], which a trigger keeps up to date: [[starts_at - before,
    ends_at + after)]. *)
Definition occ_start (b : BookingRow) : Z :=
  ns (StartsAt (b_data b)) - BufferBeforeMinutes (b_data b) * Minute.
Definition occ_end (b : BookingRow) : Z :=
  ns (EndsAt (b_data b)) + BufferAfterMinutes (b_data b) * Minute.

Definition active (b : BookingRow) : bool := string_in (Status (b_data b)) occupying.

Definition ranges_overlap (a b c d : Z) : bool := (a <? d) && (c <? b).

(** [bookings_no_staff_overlap]: what two rows must not do. *)
Definition excludes (a b : BookingRow) : bool :=
  String.eqb (b_tenant a) (b_tenant b) && String.eqb (StaffID (b_data a)) (StaffID (b_data b)) &&
  active a && active b &&
  ranges_overlap (occ_start a) (occ_end a) (occ_start b) (occ_end b).

Definition b_id (b : BookingRow) : string := bk_ID (b_data b).

Definition is_booking (tenant id : string) (b : BookingRow) : bool :=
  String.eqb (b_tenant b) tenant && String.eqb (b_id b) id.

Definition job_statuses : list string := ["pending"; "claimed"; "completed"; "dead"; "cancelled"].
Definition job_types : list string := ["send_reminder"; "crm_upsert_contact"; "crm_create_deal"].

Definition job_check (j : JobRow) : bool :=
  string_in (j_type j) job_types && string_in (j_status j) job_statuses &&
  (0 <=? j_attempts j) && between 1 20 (j_max j) &&
  opt_check (fun e => pg_length e <=? 2000) (j_error j) &&
  opt_check (fun k => between 16 128 (pg_length k)) (j_key j) &&
  Bool.eqb (String.eqb (j_status j) "completed") (is_set (j_completed j)) &&
  Bool.eqb (String.eqb (j_status j) "dead") (is_set (j_dead j)) &&
  Bool.eqb (String.eqb (j_status j) "cancelled") (is_set (j_cancelled j)).

Definition dead_check (d : DeadRow) : bool :=
  string_in (d_type d) job_types && (0 <=? d_attempts d) && between 1 20 (d_max d) &&
  opt_check (fun e => pg_length e <=? 2000) (d_error d) &&
  opt_check (fun k => between 16 128 (pg_length k)) (d_key d).

Definition idem_check (i : IdemRow) : bool :=
  between 1 100 (pg_length (id_scope i)) && between 16 128 (pg_length (id_key i)) &&
  between 32 128 (pg_length (id_hash i)) &&
  string_in (id_status i) ["in_progress"; "completed"] &&
  Bool.eqb (String.eqb (id_status i) "completed") (is_set (id_completed i)).

Definition event_check (e : EventRow) : bool :=
  string_in (ev_type e) ["created"; "rescheduled"; "cancelled"; "status_changed"] &&
  string_in (ev_actor e) ["customer"; "agent"; "admin"; "system"].

Definition conversation_check (c : ConversationRow) : bool :=
  string_in (cv_channel c) ["web"; "telegram"; "demo"] &&
  string_in (cv_status c) ["open"; "waiting_confirmation"; "escalated"; "closed"] &&
  between 0 3 (cv_failures c) && between 1 2000000 (cv_budget c) &&
  (0 <=? cv_used c) && (0 <=? cv_reserved c) && (cv_used c + cv_reserved c <=? cv_budget c) &&
  ((cv_failures c <? 3) || String.eqb (cv_status c) "escalated").

Definition digits_only (s : string) : bool :=
  forallb (fun c => between 48 57 (Z.of_nat (nat_of_ascii c))) (String.list_ascii_of_string s).

(** [phone ~ '^\+[1-9][0-9]{7,14}$'] *)
Definition e164 (s : string) : bool :=
  match s with
  | String "+" (String d rest) =>
      between 49 57 (Z.of_nat (nat_of_ascii d)) && digits_only rest &&
      between 7 14 (Z.of_nat (String.length rest))
  | _ => false
  end.

Definition customer_check (c : CustomerRow) : bool :=
  between 1 200 (pg_length (cu_name c)) && opt_check (fun e => pg_length e <=? 254) (cu_email c) &&
  opt_check e164 (cu_phone c).

(** [octet_length]: a string here is its bytes. *)
Definition message_check (m : MessageRow) : bool :=
  string_in (ms_role m) ["user"; "assistant"; "system"; "tool"] &&
  (Z.of_nat (String.length (ms_content m)) <=? 65536) && (0 <=? ms_tokens m).

Definition proposal_statuses : list string :=
  ["pending"; "confirmed"; "consumed"; "expired"; "rejected"].

Definition proposal_check (p : ProposalRow) : bool :=
  string_in (pr_tool p) ["create_booking"; "reschedule_booking"; "cancel_booking"] &&
  (Z.of_nat (String.length (pr_arguments p)) <=? 65536) && between 32 128 (pg_length (pr_hash p)) &&
  between 1 2000 (pg_length (pr_summary p)) && string_in (pr_status p) proposal_statuses &&
  (ns (pr_created p) <? ns (pr_expires p)).

(** [action_proposals_one_active_uq]: what two rows must not do. *)
Definition proposal_active (p : ProposalRow) : bool := string_in (pr_status p) ["pending"; "confirmed"].

Definition same_conversation (a b : ProposalRow) : bool :=
  String.eqb (pr_tenant a) (pr_tenant b) && String.eqb (pr_conversation a) (pr_conversation b) &&
  String.eqb (pr_customer a) (pr_customer b).

Definition escalation_check (x : EscalationRow) : bool :=
  opt_check (fun c => between 1 200 (pg_length c)) (es_call x) &&
  between 1 100 (pg_length (es_reason x)) && between 1 2000 (pg_length (es_summary x)) &&
  string_in (es_status x) ["open"; "claimed"; "resolved"].

Definition run_check (r : RunRow) : bool :=
  string_in (ru_status r) ["running"; "completed"; "failed"; "escalated"; "budget_exhausted"] &&
  (0 <=? ru_prompt r) && (0 <=? ru_completion r) && opt_check (Z.leb 0) (ru_duration r) &&
  opt_check (fun e => pg_length e <=? 2000) (ru_error r).

Definition iteration_check (i : IterationRow) : bool :=
  between 1 64 (it_no i) && string_in (it_status i) ["succeeded"; "failed"] &&
  (0 <=? it_prompt i) && (0 <=? it_completion i) && (0 <=? it_duration i) &&
  (Z.of_nat (String.length (it_response i)) <=? 262144) &&
  opt_check (fun e => pg_length e <=? 2000) (it_error i).

Definition tool_check (t : ToolRow) : bool :=
  between 1 200 (pg_length (tl_call t)) && between 1 64 (tl_index t) && between 1 64 (tl_count t) &&
  between 1 100 (pg_length (tl_name t)) && between 1 32 (pg_length (tl_version t)) &&
  (Z.of_nat (String.length (tl_arguments t)) <=? 65536) &&
  opt_check (fun r => Z.of_nat (String.length r) <=? 262144) (tl_result t) &&
  string_in (tl_status t) ["pending"; "running"; "succeeded"; "failed"; "refused"; "confirmation_required"] &&
  opt_check (Z.leb 0) (tl_duration t) && (tl_index t <=? tl_count t).

Definition attempt_check (a : AttemptRow) : bool :=
  between 1 16 (ax_no a) && string_in (ax_status a) ["running"; "succeeded"; "failed"] &&
  opt_check (fun r => Z.of_nat (String.length r) <=? 262144) (ax_result a) &&
  opt_check (Z.leb 0) (ax_duration a).

Definition failure_check (f : FailureRow) : bool :=
  string_in (fe_type f) ["agent_turn_failed"] && between 1 100 (pg_length (fe_reason f)) &&
  (Z.of_nat (String.length (fe_payload f)) <=? 65536) &&
  opt_check (fun e => pg_length e <=? 2000) (fe_error f).

Definition is_message (tenant id conversation : string) (m : MessageRow) : bool :=
  String.eqb (ms_tenant m) tenant && String.eqb (ms_id m) id && String.eqb (ms_conversation m) conversation.

Definition CheckViolation : error := ErrPg "23514".
Definition ForeignKeyViolation : error := ErrPg "23503".
Definition UniqueViolation : error := ErrPg "23505".
Definition ExclusionViolation : error := ErrPg "23P01".
Definition InFailedTransaction : error := ErrPg "25P02".

(** pgx: a query for one row found none; a commit of a failed transaction. *)
Definition ErrNoRows : error := ErrSentinel "no rows in result set".
Definition ErrTxCommitRollback : error := ErrSentinel "commit unexpectedly resulted in rollback".

(** ** Updates of one table *)
Definition update_rows {R} (p : R -> bool) (f : R -> R) (l : list R) : list R :=
  map (fun r => if p r then f r else r) l.

Definition sql_update {R} (check : R -> bool) (p : R -> bool) (f : R -> R) (l : list R)
    : result (list R * list R) :=
  let touched := map f (List.filter p l) in
  if forallb check touched then Ok (update_rows p f l, touched) else Err CheckViolation.

(** timestamptz keeps microseconds; pgx hands it back in the server's zone. *)
Definition pg_time (local : Location) (t : Time) : Time := mkTime (ns t / 1000 * 1000) local.

(** ** The monad of statements *)
Record env := mkEnv {
  clock : nat -> Time;
  uuid : nat -> nat -> string;
  locked : nat -> string -> bool;
  fault : nat -> option error;
  landed : nat -> bool;
  ctx_err : nat -> option error
}.

(** [db] is the committed state, [work] that of the open transaction. *)
Record world := mkWorld { db : DB; work : DB; aborted : bool; tx_now : Time; tick : nat }.

Definition M (A : Type) : Type := env -> world -> result A * world.

Definition ret {A} (a : A) : M A := fun _ w => (Ok a, w).
Definition fail {A} (e : error) : M A := fun _ w => (Err e, w).

Definition bind {A B} (m : M A) (f : A -> M B) : M B :=
  fun e w => match m e w with
             | (Ok a, w') => f a e w'
             | (Err err, w') => (Err err, w')
             end.

Notation "'let*' x := m 'in' k" := (bind m (fun x => k))
  (at level 10, x pattern, m at level 100, k at level 200) : kontor_scope.

(** Handing an error on as [fmt.Errorf("...: %w", err)], or replaced. *)
Definition map_err {A} (f : error -> error) (m : M A) : M A :=
  fun e w => match m e w with
             | (Ok a, w') => (Ok a, w')
             | (Err err, w') => (Err (f err), w')
             end.

Definition wrap {A} (msg : string) (m : M A) : M A := map_err (ErrWrap msg) m.

(** [_, _ = tx.Exec(...)]: the error is dropped. *)
Definition ignore {A} (m : M A) : M unit :=
  fun e w => (Ok tt, (m e w).2).

Definition lift {A} (r : result A) : M A := fun _ w => (r, w).

(** A statement's meaning: given the transaction's [now()], the tick and the
    environment, the rows it answers and the tables it leaves. *)
Definition sql (A : Type) : Type := Time -> nat -> env -> DB -> result (A * DB).

(** A statement on the pool commits by itself; when its answer was lost,
    [landed] says whether it took effect. *)
Inductive queryer := Pool | Tx.

Definition bump (w : world) : world :=
  mkWorld (db w) (work w) (aborted w) (tx_now w) (S (tick w)).
Definition abort (w : world) : world :=
  mkWorld (db w) (work w) true (tx_now w) (S (tick w)).

Definition run {A} (q : queryer) (s : sql A) : M A := fun e w =>
  let n := tick w in
  match q with
  | Pool =>
      match fault e n, s (clock e n) n e (db w) with
      | None, Ok (a, d) => (Ok a, mkWorld d (work w) (aborted w) (tx_now w) (S n))
      | None, Err err => (Err err, bump w)
      | Some err, Ok (_, d) =>
          (Err err, if negb (is_set (pg_code err)) && landed e n
                    then mkWorld d (work w) (aborted w) (tx_now w) (S n) else bump w)
      | Some err, Err _ => (Err err, bump w)
      end
  | Tx =>
      if aborted w then (Err InFailedTransaction, bump w)
      else match fault e n with
           | Some err => (Err err, abort w)
           | None => match s (tx_now w) n e (work w) with
                     | Err err => (Err err, abort w)
                     | Ok (a, d) => (Ok a, mkWorld (db w) d false (tx_now w) (S n))
                     end
           end
  end.

(** [ctx.Err()] at this point. *)
Definition ctx_check : M unit := fun e w =>
  match ctx_err e (tick w) with Some err => (Err err, bump w) | None => (Ok tt, bump w) end.

(** [ids.New]: no statement, but an identifier of its own. *)
Definition New_id : M string := fun e w => (Ok (uuid e (tick w) 0%nat), bump w).

(** A statement that only reads. *)
Definition query {A} (q : queryer) (f : Time -> nat -> env -> DB -> result A) : M A :=
  run q (fun now n e d => let! a := f now n e d in Ok (a, d)).

(** A loop of the program: [None] is non-termination, within the fuel given. *)
Definition Diverges : error := ErrSentinel "<the loop has not returned>".
Definition looped {A} (o : option (result A)) : M A :=
  match o with Some r => lift r | None => fail Diverges end.

(** A call of pure code that polls [ctx.Err()]. *)
Definition polling {A} (f : (nat -> option error) -> option (result A)) : M A :=
  fun e w => looped (f (fun i => ctx_err e (tick w + i)%nat)) e w.

(** [QueryRow(...).Scan(...)]: no row is an error of the client alone. *)
Definition one_row {A} (o : option A) : M A :=
  match o with Some a => ret a | None => fail ErrNoRows end.

Definition begin_tx : M unit := fun e w =>
  let n := tick w in
  match fault e n with
  | Some err => (Err err, bump w)
  | None => (Ok tt, mkWorld (db w) (db w) false (clock e n) (S n))
  end.

(** A commit the server refused (an SQLSTATE came back) is a rollback; when the
    answer was lost, [landed] says whether it took effect. *)
Definition commit : M unit := fun e w =>
  let n := tick w in
  if aborted w then (Err ErrTxCommitRollback, bump w)
  else match fault e n with
       | Some err =>
           (Err err, if negb (is_set (pg_code err)) && landed e n
                     then mkWorld (work w) (work w) false (tx_now w) (S n) else bump w)
       | None => (Ok tt, mkWorld (work w) (work w) false (tx_now w) (S n))
       end.

(** [defer tx.Rollback]. *)
Definition rolled_back {A} (body : M A) : M A := fun e w =>
  let '(r, w') := body e w in (r, mkWorld (db w') (db w') false (tx_now w') (tick w')).

Definition with_tx {A} (msg : string) (body : M A) : M A :=
  let* _ := wrap msg begin_tx in rolled_back body.

#[global] Arguments run : simpl never.
#[global] Arguments query : simpl never.
#[global] Arguments bind : simpl never.
#[global] Arguments map_err : simpl never.
#[global] Arguments wrap : simpl never.
#[global] Arguments commit : simpl never.
#[global] Arguments with_tx : simpl never.
#[global] Arguments rolled_back : simpl never.
