(* ===== verification/DatabaseFacts.v ===== *)
(** * Reasoning about statements and transactions

    Inversion of successful computations, invariants of the tables, locality
    (nothing is committed) and atomicity (an error leaves the tables alone). *)

From Stdlib Require Import ZArith Lia Ascii.
From stdpp Require Import base list strings sorting.
From S2P Require Import Prelude GoTime Json Database.

#[local] Open Scope Z_scope.

(** ** Inversion *)
Lemma bind_Ok {A B} (m : M A) (f : A -> M B) e w b w' :
  bind m f e w = (Ok b, w') -> exists a w1, m e w = (Ok a, w1) /\ f a e w1 = (Ok b, w').
Proof. unfold bind. destruct (m e w) as [[a|err] w1]; [eauto|done]. Qed.

Lemma map_err_Ok {A} g (m : M A) e w a w' :
  map_err g m e w = (Ok a, w') -> m e w = (Ok a, w').
Proof. unfold map_err. by destruct (m e w) as [[?|?] ?]; intros [= <- <-]. Qed.

Lemma wrap_Ok {A} msg (m : M A) e w a w' : wrap msg m e w = (Ok a, w') -> m e w = (Ok a, w').
Proof. apply map_err_Ok. Qed.

Lemma run_Tx_Ok {A} (s : sql A) e w a w' :
  run Tx s e w = (Ok a, w') ->
  aborted w = false /\ exists d, s (tx_now w) (tick w) e (work w) = Ok (a, d) /\
    w' = mkWorld (db w) d false (tx_now w) (S (tick w)).
Proof.
  unfold run. destruct (aborted w); [done|]. destruct (fault e _); [done|].
  destruct (s _ _ _ _) as [[a' d]|]; [|done]. intros [= <- <-]. eauto.
Qed.

Lemma run_Pool_Ok {A} (s : sql A) e w a w' :
  run Pool s e w = (Ok a, w') ->
  exists d, s (clock e (tick w)) (tick w) e (db w) = Ok (a, d) /\
    w' = mkWorld d (work w) (aborted w) (tx_now w) (S (tick w)).
Proof.
  unfold run. destruct (fault e _), (s _ _ _ _) as [[a' d]|]; [done..| |done]. intros [= <- <-]. eauto.
Qed.

Lemma query_Tx_Ok {A} (f : Time -> nat -> env -> DB -> result A) e w a w' :
  query Tx f e w = (Ok a, w') ->
  aborted w = false /\ f (tx_now w) (tick w) e (work w) = Ok a /\
  w' = mkWorld (db w) (work w) false (tx_now w) (S (tick w)).
Proof.
  intros (Hab & d & Hf & ->)%run_Tx_Ok. apply rbind_Ok in Hf as (a' & Hf & [= -> <-]). done.
Qed.

Lemma query_Pool_Ok {A} (f : Time -> nat -> env -> DB -> result A) e w a w' :
  query Pool f e w = (Ok a, w') ->
  f (clock e (tick w)) (tick w) e (db w) = Ok a /\
  w' = mkWorld (db w) (work w) (aborted w) (tx_now w) (S (tick w)).
Proof.
  intros (d & Hf & ->)%run_Pool_Ok. apply rbind_Ok in Hf as (a' & Hf & [= -> <-]). done.
Qed.

Lemma one_row_Ok {A} (o : option A) e w a w' :
  one_row o e w = (Ok a, w') -> o = Some a /\ w' = w.
Proof. destruct o; simpl; unfold ret, fail; [intros [= -> ->]|]; done. Qed.

Lemma looped_Ok {A} (o : option (result A)) e w a w' :
  looped o e w = (Ok a, w') -> o = Some (Ok a) /\ w' = w.
Proof. destruct o; simpl; unfold lift, fail; [intros [= -> ->]|]; done. Qed.

Lemma polling_Ok {A} (f : (nat -> option error) -> option (result A)) e w a w' :
  polling f e w = (Ok a, w') -> f (fun i => ctx_err e (tick w + i)%nat) = Some (Ok a) /\ w' = w.
Proof. apply looped_Ok. Qed.

Lemma commit_Ok e w u w' :
  commit e w = (Ok u, w') ->
  aborted w = false /\ w' = mkWorld (work w) (work w) false (tx_now w) (S (tick w)).
Proof.
  unfold commit. destruct (aborted w); [done|]. destruct (fault e _); [done|].
  by intros [= <- <-].
Qed.

Lemma begin_Ok e w u w' :
  begin_tx e w = (Ok u, w') -> w' = mkWorld (db w) (db w) false (clock e (tick w)) (S (tick w)).
Proof. unfold begin_tx. destruct (fault e _); [done|]. by intros [= <- <-]. Qed.

Lemma with_tx_Ok {A} msg (body : M A) e w a w' :
  with_tx msg body e w = (Ok a, w') ->
  exists w2, body e (mkWorld (db w) (db w) false (clock e (tick w)) (S (tick w))) = (Ok a, w2) /\
    db w' = db w2.
Proof.
  intros H. apply bind_Ok in H as (u & w1 & H1 & H). apply wrap_Ok, begin_Ok in H1 as ->.
  unfold rolled_back in H. destruct (body e _) as [r w2]. simplify_eq/=. eauto.
Qed.

(** ** Invariants of the tables *)
Section invariant.
Context (I : DB -> Prop).

Definition holds (w : world) : Prop := I (db w) /\ I (work w).

Definition preserves {A} (m : M A) : Prop :=
  forall e w, holds w -> holds (m e w).2.

Definition sql_preserves {A} (s : sql A) : Prop :=
  forall now n e d a d', I d -> s now n e d = Ok (a, d') -> I d'.

Lemma preserves_ret {A} (a : A) : preserves (ret a).
Proof. by intros e w. Qed.

Lemma preserves_fail {A} err : preserves (@fail A err).
Proof. by intros e w. Qed.

Lemma preserves_lift {A} (r : result A) : preserves (lift r).
Proof. by intros e w. Qed.

Lemma preserves_new_id : preserves New_id.
Proof. by intros e w. Qed.

Lemma preserves_ctx_check : preserves ctx_check.
Proof. intros e w Hw. unfold ctx_check. by destruct (ctx_err e _). Qed.

Lemma preserves_looped {A} (o : option (result A)) : preserves (looped o).
Proof. by destruct o; intros e w. Qed.

Lemma preserves_polling {A} (f : (nat -> option error) -> option (result A)) : preserves (polling f).
Proof. intros e w Hw. by apply preserves_looped. Qed.

Lemma preserves_one_row {A} (o : option A) : preserves (one_row o).
Proof. by destruct o; intros e w. Qed.

Lemma preserves_bind {A B} (m : M A) (f : A -> M B) :
  preserves m -> (forall a, preserves (f a)) -> preserves (bind m f).
Proof.
  intros Hm Hf e w Hw. unfold bind. specialize (Hm e w Hw).
  destruct (m e w) as [[a|err] w1]; [apply (Hf a e w1 Hm)|exact Hm].
Qed.

Lemma preserves_map_err {A} g (m : M A) : preserves m -> preserves (map_err g m).
Proof.
  intros Hm e w Hw. unfold map_err. specialize (Hm e w Hw). by destruct (m e w) as [[a|err] w1].
Qed.

Lemma preserves_wrap {A} msg (m : M A) : preserves m -> preserves (wrap msg m).
Proof. apply preserves_map_err. Qed.

Lemma preserves_ignore {A} (m : M A) : preserves m -> preserves (ignore m).
Proof. intros Hm e w Hw. by apply Hm. Qed.

Lemma preserves_run {A} q (s : sql A) : sql_preserves s -> preserves (run q s).
Proof.
  intros Hs e w [Hd Hw]. destruct q; unfold run.
  - destruct (s _ _ _ _) as [[a d]|] eqn:Hr; [apply (Hs _ _ _ _ _ _ Hd) in Hr|];
      destruct (fault e _); try destruct (_ && _); by split.
  - destruct (aborted w); [by split|]. destruct (fault e _); [by split|].
    destruct (s _ _ _ _) as [[a d]|] eqn:Hr; [|by split]. split; [done|exact (Hs _ _ _ _ _ _ Hw Hr)].
Qed.

Lemma preserves_query {A} q (f : Time -> nat -> env -> DB -> result A) : preserves (query q f).
Proof.
  apply preserves_run. intros now n e d a d' Hd Hf.
  apply rbind_Ok in Hf as (? & _ & [= _ <-]). done.
Qed.

Lemma preserves_commit : preserves commit.
Proof.
  intros e w [Hd Hw]. unfold commit. destruct (aborted w); [by split|].
  destruct (fault e _); [|by split]. by destruct (_ && _); split.
Qed.

Lemma preserves_with_tx {A} msg (body : M A) : preserves body -> preserves (with_tx msg body).
Proof.
  intros Hb. unfold with_tx. apply preserves_bind.
  - apply preserves_wrap. intros e w [Hd Hw]. unfold begin_tx. by destruct (fault e _); split.
  - intros _ e w Hw. unfold rolled_back. specialize (Hb e w Hw). destruct (body e w) as [r w1]. by split; apply Hb.
Qed.
End invariant.

(** ** The committed tables alone *)
Definition db_preserves (I : DB -> Prop) {A} (m : M A) : Prop :=
  forall e w, I (db w) -> I (db (m e w).2).

Section committed.
Context (I : DB -> Prop).

Lemma db_bind {A B} (m : M A) (f : A -> M B) :
  db_preserves I m -> (forall a, db_preserves I (f a)) -> db_preserves I (bind m f).
Proof.
  intros Hm Hf e w Hw. unfold bind. specialize (Hm e w Hw).
  destruct (m e w) as [[a|err] w1]; [by apply Hf|done].
Qed.

Lemma db_map_err {A} g (m : M A) : db_preserves I m -> db_preserves I (map_err g m).
Proof.
  intros Hm e w Hw. unfold map_err. specialize (Hm e w Hw). by destruct (m e w) as [[a|err] w1].
Qed.

(** A transaction's body sees the committed tables when it starts. *)
Lemma db_begin {A} g (body : M A) :
  preserves I body -> db_preserves I (let* _ := map_err g begin_tx in rolled_back body).
Proof.
  intros Hb e w Hw. unfold bind, map_err, begin_tx, rolled_back.
  destruct (fault e _); [done|].
  specialize (Hb e (mkWorld (db w) (db w) false (clock e (tick w)) (S (tick w)))).
  destruct (body e _) as [res w1]. by apply Hb.
Qed.

Lemma db_preserves_with_tx {A} msg (body : M A) : preserves I body -> db_preserves I (with_tx msg body).
Proof. intros Hb. by apply db_begin. Qed.

Lemma db_run_pool {A} (s : sql A) : sql_preserves I s -> db_preserves I (run Pool s).
Proof.
  intros Hs e w Hw. unfold run. destruct (s _ _ _ _) as [[a d]|] eqn:Hr; [apply (Hs _ _ _ _ _ _ Hw) in Hr|];
    destruct (fault e _); try destruct (_ && _); done.
Qed.

(** The statement at hand, rather than every statement. *)
Lemma db_run_pool_at {A} (s : sql A) e w :
  (forall a d, s (clock e (tick w)) (tick w) e (db w) = Ok (a, d) -> I d) ->
  I (db w) -> I (db (run Pool s e w).2).
Proof.
  intros Hs Hw. unfold run. destruct (s _ _ _ _) as [[a d]|] eqn:Hr; [pose proof (Hs a d eq_refl)|];
    destruct (fault e _); try destruct (_ && _); done.
Qed.
End committed.


(** ** Locality and atomicity *)
Definition local {A} (m : M A) : Prop := forall e w, db (m e w).2 = db w.

(** The answer to a commit was lost although the commit took effect. *)
Definition lost_commit (e : env) : Prop :=
  exists n err, fault e n = Some err /\ pg_code err = None /\ landed e n = true.

Definition atomic {A} (m : M A) : Prop :=
  forall e w err w', m e w = (Err err, w') ->
    db w' = db w \/ pg_code err = None /\ lost_commit e.

(** A change of error that does not hide an SQLSTATE's absence. *)
Definition code_free (g : error -> error) : Prop :=
  forall err, pg_code err = None -> pg_code (g err) = None.

Definition succeeds {A} (m : M A) : Prop := forall e w, exists a, m e w = (Ok a, w).

Lemma local_ret {A} (a : A) : local (ret a).
Proof. done. Qed.

Lemma local_fail {A} err : local (@fail A err).
Proof. done. Qed.

Lemma local_lift {A} (r : result A) : local (lift r).
Proof. done. Qed.

Lemma local_new_id : local New_id.
Proof. by intros e w. Qed.

Lemma local_ctx_check : local ctx_check.
Proof. intros e w. unfold ctx_check. by destruct (ctx_err e _). Qed.

Lemma local_looped {A} (o : option (result A)) : local (looped o).
Proof. by destruct o. Qed.

Lemma local_polling {A} (f : (nat -> option error) -> option (result A)) : local (polling f).
Proof. intros e w. apply local_looped. Qed.

Lemma local_one_row {A} (o : option A) : local (one_row o).
Proof. by destruct o. Qed.

Lemma local_bind {A B} (m : M A) (f : A -> M B) :
  local m -> (forall a, local (f a)) -> local (bind m f).
Proof.
  intros Hm Hf e w. unfold bind. specialize (Hm e w).
  destruct (m e w) as [[a|err] w1]; [rewrite (Hf a)|]; done.
Qed.

Lemma local_map_err {A} g (m : M A) : local m -> local (map_err g m).
Proof.
  intros Hm e w. unfold map_err. specialize (Hm e w). by destruct (m e w) as [[a|err] w1].
Qed.

Lemma local_wrap {A} msg (m : M A) : local m -> local (wrap msg m).
Proof. apply local_map_err. Qed.

Lemma local_ignore {A} (m : M A) : local m -> local (ignore m).
Proof. intros Hm e w. apply Hm. Qed.

Lemma local_run {A} (s : sql A) : local (run Tx s).
Proof.
  intros e w. unfold run. destruct (aborted w); [done|]. destruct (fault e _); [done|].
  by destruct (s _ _ _ _) as [[? ?]|].
Qed.

Lemma local_query {A} q (f : Time -> nat -> env -> DB -> result A) : local (query q f).
Proof.
  destruct q; [|apply local_run]. intros e w. unfold query, run.
  destruct (fault e _), (f _ _ _ _); simpl; try destruct (_ && _); done.
Qed.

(** After a step that commits nothing the tables are those at its start. *)
Lemma db_after_local (I : DB -> Prop) {A B} (m : M A) (f : A -> M B) e w :
  local m -> (forall a w1, m e w = (Ok a, w1) -> db w1 = db w -> I (db (f a e w1).2)) ->
  I (db w) -> I (db (bind m f e w).2).
Proof.
  intros Hm Hf Hw. unfold bind. specialize (Hm e w). destruct (m e w) as [[a|err] w1]; cbn in *; [by apply Hf|].
  by rewrite Hm.
Qed.

(** What follows commits nothing more. *)
Lemma then_local {A B} (m : M A) (f : A -> M B) e w :
  (forall a, local (f a)) -> db (bind m f e w).2 = db (m e w).2.
Proof. intros Hf. unfold bind. destruct (m e w) as [[a|err] w1]; [apply Hf|done]. Qed.

Lemma map_err_db {A} g (m : M A) e w : db (map_err g m e w).2 = db (m e w).2.
Proof. unfold map_err. by destruct (m e w) as [[?|?] ?]. Qed.

Lemma local_bind_ok {A B} (m : M A) (f : A -> M B) e w b w' :
  local m -> bind m f e w = (Ok b, w') ->
  exists a w1, m e w = (Ok a, w1) /\ db w1 = db w /\ f a e w1 = (Ok b, w').
Proof.
  intros Hm (a & w1 & H1 & H2)%bind_Ok. exists a, w1. specialize (Hm e w).
  rewrite H1 in Hm. done.
Qed.

Lemma atomic_local {A} (m : M A) : local m -> atomic m.
Proof. intros Hm e w err w' H. left. specialize (Hm e w). by rewrite H in Hm. Qed.

Lemma lost_answer e n err :
  fault e n = Some err -> negb (is_set (pg_code err)) && landed e n = true ->
  pg_code err = None /\ lost_commit e.
Proof.
  intros Hf Hl. bool_to_prop. assert (Hp : pg_code err = None) by (destruct (pg_code err); done).
  split; [done|]. by exists n, err.
Qed.

Lemma atomic_commit : atomic commit.
Proof.
  intros e w err w'. unfold commit. destruct (aborted w); [intros [= _ <-]; by left|].
  destruct (fault e _) as [err'|] eqn:Hf; [|done]. intros [= <- <-].
  destruct (negb _ && _) eqn:Hl; [|by left]. right. by apply lost_answer in Hl.
Qed.

Lemma atomic_map_err {A} g (m : M A) : code_free g -> atomic m -> atomic (map_err g m).
Proof.
  intros Hg Hm e w err w'. unfold map_err. specialize (Hm e w).
  destruct (m e w) as [[a|err1] w1]; [done|]. intros [= <- <-].
  destruct (Hm _ _ eq_refl) as [?|[? ?]]; [by left|right; auto].
Qed.

Lemma atomic_wrap {A} msg (m : M A) : atomic m -> atomic (wrap msg m).
Proof. intros Hm. apply atomic_map_err; [by intros err|done]. Qed.

Lemma atomic_bind {A B} (m : M A) (f : A -> M B) :
  local m -> (forall a, atomic (f a)) -> atomic (bind m f).
Proof.
  intros Hm Hf e w err w'. unfold bind. specialize (Hm e w).
  destruct (m e w) as [[a|err1] w1]; simpl in *; [|intros [= _ <-]; by left].
  intros H. rewrite <- Hm. by eapply Hf.
Qed.

Lemma atomic_then {A B} (m : M A) (f : A -> M B) :
  atomic m -> (forall a, succeeds (f a)) -> atomic (bind m f).
Proof.
  intros Hm Hf e w err w'. unfold bind. specialize (Hm e w).
  destruct (m e w) as [[a|err1] w1]; simpl in *.
  - destruct (Hf a e w1) as [b Hb]. by rewrite Hb.
  - intros [= <- <-]. by eapply Hm.
Qed.

Lemma succeeds_ret {A} (a : A) : succeeds (ret a).
Proof. by intros e w; exists a. Qed.

Lemma atomic_with_tx {A} msg (body : M A) : atomic body -> atomic (with_tx msg body).
Proof.
  intros Hb. apply atomic_bind.
  - apply local_wrap. intros e w. unfold begin_tx. by destruct (fault e _).
  - intros _ e w err w'. unfold rolled_back. intros H. destruct (body e w) as [r w1] eqn:Hr. simplify_eq/=. by eapply Hb.
Qed.

(** A single statement on the pool is atomic. *)
Lemma atomic_run_pool {A} (s : sql A) : atomic (run Pool s).
Proof.
  intros e w err w'. unfold run.
  destruct (fault e _) as [err'|] eqn:Hf, (s _ _ _ _) as [[? ?]|]; intros [= <- <-]; [|by left..].
  destruct (negb _ && _) eqn:Hl; [right; by apply lost_answer in Hl|by left].
Qed.

(** ** What a successful computation may do to the open transaction *)
Section moves.
Context (R : DB -> DB -> Prop) `{!Reflexive R, !Transitive R}.

Definition moves {A} (m : M A) : Prop := forall e w a w', m e w = (Ok a, w') ->
  db w' = db w /\ tx_now w' = tx_now w /\ R (work w) (work w').

Lemma moves_ret {A} (a : A) : moves (ret a).
Proof. intros e w b w'. unfold ret. by intros [= _ <-]. Qed.

Lemma moves_fail {A} err : moves (@fail A err).
Proof. by intros e w b w'. Qed.

Lemma moves_lift {A} (r : result A) : moves (lift r).
Proof. intros e w b w'. unfold lift. by intros [= _ <-]. Qed.

Lemma moves_one_row {A} (o : option A) : moves (one_row o).
Proof. intros e w b w' Hr. by apply one_row_Ok in Hr as [_ ->]. Qed.

Lemma moves_looped {A} (o : option (result A)) : moves (looped o).
Proof. intros e w b w' Hr. by apply looped_Ok in Hr as [_ ->]. Qed.

Lemma moves_bind {A B} (m : M A) (f : A -> M B) : moves m -> (forall a, moves (f a)) -> moves (bind m f).
Proof.
  intros Hm Hf e w b w' (a & w1 & H1 & H2)%bind_Ok.
  destruct (Hm _ _ _ _ H1) as (Hd1 & Hn1 & HR1), (Hf _ _ _ _ _ H2) as (Hd2 & Hn2 & HR2).
  split; [congruence|]. split; [congruence|by etrans].
Qed.

Lemma moves_map_err {A} g (m : M A) : moves m -> moves (map_err g m).
Proof. intros Hm e w a w' Hr%map_err_Ok. by apply Hm in Hr. Qed.

Lemma moves_wrap {A} msg (m : M A) : moves m -> moves (wrap msg m).
Proof. apply moves_map_err. Qed.

Lemma moves_run {A} (s : sql A) :
  (forall now n e d a d', s now n e d = Ok (a, d') -> R d d') -> moves (run Tx s).
Proof.
  intros Hs e w a w' (_ & d & Hr & ->)%run_Tx_Ok. simpl.
  split; [exact eq_refl|]. split; [exact eq_refl|exact (Hs _ _ _ _ _ _ Hr)].
Qed.

Lemma moves_query {A} (f : Time -> nat -> env -> DB -> result A) : moves (query Tx f).
Proof. intros e w a w' (_ & _ & ->)%query_Tx_Ok. done. Qed.
End moves.

Abbreviation reads := (moves eq).

Ltac moves_side := lazymatch goal with
  | |- Transitive _ => typeclasses eauto
  | |- Reflexive _ => typeclasses eauto
  end.

Ltac moves_seq := (apply moves_bind; try moves_side); [|intros ?].

Ltac walk_moves :=
  repeat (lazymatch goal with
  | |- moves _ (match ?x with _ => _ end) => destruct x
  | |- moves _ (bind _ _) => moves_seq
  | |- moves _ (wrap _ _) => apply moves_wrap
  | |- moves _ (map_err _ _) => apply moves_map_err
  | |- moves _ (query Tx _) => apply moves_query; moves_side
  | |- moves _ (ret _) => apply moves_ret; moves_side
  | |- moves _ (fail _) => apply moves_fail
  | |- moves _ (lift _) => apply moves_lift; moves_side
  | |- moves _ (one_row _) => apply moves_one_row; moves_side
  | |- moves _ (looped _) => apply moves_looped; moves_side
  end).

Create HintDb db.
#[export] Hint Resolve preserves_ret preserves_fail preserves_lift preserves_new_id preserves_ctx_check preserves_looped preserves_polling preserves_one_row preserves_bind
  preserves_map_err preserves_wrap preserves_ignore preserves_run preserves_query preserves_commit
  preserves_with_tx local_ret local_fail local_lift local_new_id local_ctx_check local_looped local_polling local_one_row local_bind local_map_err
  local_wrap local_ignore local_run local_query atomic_commit atomic_wrap
  atomic_with_tx atomic_run_pool succeeds_ret : db.

Lemma db_local I {A} (m : M A) : local m -> db_preserves I m.
Proof. intros Hm e w Hw. by rewrite Hm. Qed.

(** Walks the structure of a computation, splitting its case distinctions. *)
Ltac walk_preserves :=
  repeat (lazymatch goal with
  | |- preserves _ (match ?x with _ => _ end) => destruct x
  | |- preserves _ (bind _ _) => apply preserves_bind; [|intros ?]
  | |- preserves _ (with_tx _ _) => apply preserves_with_tx
  | |- preserves _ (wrap _ _) => apply preserves_wrap
  | |- preserves _ (map_err _ _) => apply preserves_map_err
  | |- preserves _ (ignore _) => apply preserves_ignore
  | |- preserves _ (run _ _) => apply preserves_run
  | |- preserves _ _ => solve [auto 4 with db]
  | |- sql_preserves _ _ => solve [auto 4 with db]
  end).

Ltac walk_local :=
  repeat (lazymatch goal with
  | |- local (match ?x with _ => _ end) => destruct x
  | |- local (bind _ _) => apply local_bind; [|intros ?]
  | |- local (wrap _ _) => apply local_wrap
  | |- local (map_err _ _) => apply local_map_err
  | |- local (ignore _) => apply local_ignore
  | |- local _ => solve [auto 4 with db]
  end).

(** What a computation commits: its transactions, and its statements on the pool. *)
Ltac walk_committed :=
  repeat (lazymatch goal with
  | |- db_preserves _ (match ?x with _ => _ end) => destruct x
  | |- db_preserves _ (with_tx _ _) => apply db_preserves_with_tx; walk_preserves
  | |- db_preserves _ (bind _ _) => apply db_bind; [|intros ?]
  | |- db_preserves _ (wrap _ _) => apply db_map_err
  | |- db_preserves _ (map_err _ _) => apply db_map_err
  | |- db_preserves _ (run Pool _) => apply db_run_pool
  | |- db_preserves _ _ => apply db_local; solve [walk_local]
  | |- sql_preserves _ _ => solve [auto 4 with db]
  end).

(** A computation is atomic when nothing can fail after its commit. *)
Ltac walk_atomic :=
  repeat (lazymatch goal with
  | |- atomic (match ?x with _ => _ end) => destruct x
  | |- atomic (with_tx _ _) => apply atomic_with_tx
  | |- atomic (bind (wrap _ commit) _) =>
      apply atomic_then; [apply atomic_wrap, atomic_commit|intros ?; apply succeeds_ret]
  | |- atomic (bind _ _) => apply atomic_bind; [solve [walk_local]|intros ?]
  | |- atomic (wrap _ _) => apply atomic_wrap
  | |- atomic _ => first [solve [auto 4 with db] | apply atomic_local; solve [walk_local]]
  end).

(** Opens a successful computation statement by statement. *)
Ltac open_step H :=
  lazymatch type of H with
  | bind _ _ _ _ = (Ok _, _) =>
      let a := fresh "a" in let w1 := fresh "w" in let H1 := fresh "Hm" in
      apply bind_Ok in H as (a & w1 & H1 & H)
  | wrap _ _ _ _ = (Ok _, _) => apply wrap_Ok in H
  | map_err _ _ _ _ = (Ok _, _) => apply map_err_Ok in H
  | one_row _ _ _ = (Ok _, _) => apply one_row_Ok in H as [? ->]
  | looped _ _ _ = (Ok _, _) => apply looped_Ok in H as [? ->]
  | polling _ _ _ = (Ok _, _) => apply polling_Ok in H as [? ->]
  | run Tx _ _ _ = (Ok _, _) =>
      let d := fresh "d" in apply run_Tx_Ok in H as (? & d & H & ->)
  | run Pool _ _ _ = (Ok _, _) =>
      let d := fresh "d" in apply run_Pool_Ok in H as (d & H & ->)
  | query Tx _ _ _ = (Ok _, _) => apply query_Tx_Ok in H as (? & H & ->)
  | query Pool _ _ _ = (Ok _, _) => apply query_Pool_Ok in H as (H & ->)
  | commit _ _ = (Ok _, _) => apply commit_Ok in H as [? ->]
  | ret _ _ _ = (Ok _, _) => unfold ret in H; simplify_eq/=
  | lift _ _ _ = (Ok _, _) => unfold lift in H; simplify_eq/=
  | fail _ _ _ = (Ok _, _) => discriminate H
  end.

(** Opens every successful computation of the context. *)
Ltac open_all :=
  repeat match goal with
  | Hr : _ _ _ = (Ok _, _) |- _ => open_step Hr
  | Hr : _ _ _ _ = (Ok _, _) |- _ => open_step Hr
  | Hr : _ _ _ _ _ = (Ok _, _) |- _ => open_step Hr
  end; simplify_eq/=.

(** ** Updates of a table *)
Lemma sql_update_Ok {R} (check : R -> bool) p f (l l' touched : list R) :
  sql_update check p f l = Ok (l', touched) <->
  l' = update_rows p f l /\ touched = map f (List.filter p l) /\ forallb check touched = true.
Proof.
  unfold sql_update. destruct (forallb _ _) eqn:Hc.
  - split; [intros [= <- <-]|intros (-> & -> & _)]; done.
  - split; [done|]. intros (_ & -> & ?). congruence.
Qed.

Lemma update_rows_Forall {R} (P : R -> Prop) p f (l : list R) :
  Forall P l -> (forall r, P r -> p r = true -> P (f r)) -> Forall P (update_rows p f l).
Proof.
  intros Hl Hf. unfold update_rows. induction Hl as [|r l Hr _ IH]; simpl; constructor; auto.
  destruct (p r) eqn:Hp; auto.
Qed.

Lemma update_rows_none {R} p f (l : list R) :
  List.filter p l = [] -> update_rows p f l = l.
Proof.
  induction l as [|r l IH]; simpl; [done|]. destruct (p r); [done|]. intros H. by rewrite IH.
Qed.

Lemma elem_of_update_rows {R} p f (l : list R) r :
  r ∈ update_rows p f l <-> exists r0, r0 ∈ l /\ r = (if p r0 then f r0 else r0).
Proof.
  unfold update_rows. rewrite list_elem_of_In, in_map_iff.
  setoid_rewrite list_elem_of_In. naive_solver.
Qed.

Lemma elem_of_filter_bool {R} (p : R -> bool) (l : list R) r :
  r ∈ List.filter p l <-> r ∈ l /\ p r = true.
Proof. rewrite !list_elem_of_In. apply filter_In. Qed.

Lemma fmap_update_rows {R B} (g : R -> B) p f (l : list R) :
  (forall r, p r = true -> g (f r) = g r) -> g <$> update_rows p f l = g <$> l.
Proof.
  intros Hg. unfold update_rows. induction l as [|r l IH]; simpl; [done|].
  f_equal; [|done]. destruct (p r) eqn:Hp; auto.
Qed.
