(* ===== verification/JobQueue.v ===== *)
(** * The durable job queue: [internal/jobqueue/postgres.go]

    Claiming, completion, retry with backoff, dead-lettering, recovery of stale
    claims, enqueueing inside a booking's transaction, and the two statements by
    which a booking moves or retires its reminder.

    The invariant of the job table under every operation, what a claim takes,
    what a failure does, the recovery of stale claims, the backoff delay, and
    the races and oversights the queue does not rule out. *)

From Stdlib Require Import ZArith Lia Ascii.
From stdpp Require Import base list strings sorting.
From S2P Require Import Prelude GoTime Json Database.

#[local] Open Scope Z_scope.

Record Job := mkJob {
  job_ID : string; job_TenantID : string; job_BookingID : string; JobType : string;
  PayloadJSON : json; Attempts : Z; MaxAttempts : Z
}.

Record EnqueueParams := mkEnqueue {
  eq_TenantID : string; eq_BookingID : string; eq_JobType : string;
  eq_PayloadJSON : json; eq_MaxAttempts : Z; eq_IdempotencyKey : string
}.

Definition defaultStaleClaimLease : Z := 5 * Minute.

(** [make_interval(secs => d.Seconds())]: PostgreSQL keeps microseconds. *)
Definition pg_interval (d : Z) : Z := (d + 500) / 1000 * 1000.

(** ** The columns each statement sets *)
Definition claim_row (now : Time) (j : JobRow) : JobRow :=
  mkJobRow (j_tenant j) (j_id j) (j_booking j) (j_type j) "claimed" (j_payload j)
    (j_attempts j + 1) (j_max j) (j_next_retry j) (Some now) (j_completed j) (j_dead j)
    (j_cancelled j) (j_error j) (j_key j) (j_created j).

Definition complete_row (now : Time) (j : JobRow) : JobRow :=
  mkJobRow (j_tenant j) (j_id j) (j_booking j) (j_type j) "completed" (j_payload j)
    (j_attempts j) (j_max j) (j_next_retry j) (j_claimed j) (Some now) (j_dead j)
    (j_cancelled j) (j_error j) (j_key j) (j_created j).

Definition pending_row (next : Time) (msg : string) (j : JobRow) : JobRow :=
  mkJobRow (j_tenant j) (j_id j) (j_booking j) (j_type j) "pending" (j_payload j)
    (j_attempts j) (j_max j) next None (j_completed j) (j_dead j)
    (j_cancelled j) (Some msg) (j_key j) (j_created j).

Definition dead_row (now : Time) (msg : string) (j : JobRow) : JobRow :=
  mkJobRow (j_tenant j) (j_id j) (j_booking j) (j_type j) "dead" (j_payload j)
    (j_attempts j) (j_max j) (j_next_retry j) None (j_completed j) (Some now)
    (j_cancelled j) (Some msg) (j_key j) (j_created j).

Definition replay_row (now : Time) (j : JobRow) : JobRow :=
  mkJobRow (j_tenant j) (j_id j) (j_booking j) (j_type j) "pending" (j_payload j)
    0 (j_max j) now None None None (j_cancelled j) None (j_key j) (j_created j).

Definition cancel_row (now : Time) (j : JobRow) : JobRow :=
  mkJobRow (j_tenant j) (j_id j) (j_booking j) (j_type j) "cancelled" (j_payload j)
    (j_attempts j) (j_max j) (j_next_retry j) None (j_completed j) (j_dead j)
    (Some now) (j_error j) (j_key j) (j_created j).

Definition set_payload (p : json) (j : JobRow) : JobRow :=
  mkJobRow (j_tenant j) (j_id j) (j_booking j) (j_type j) (j_status j) p
    (j_attempts j) (j_max j) (j_next_retry j) (j_claimed j) (j_completed j) (j_dead j)
    (j_cancelled j) (j_error j) (j_key j) (j_created j).

(** The row a dead letter copies from its job. *)
Definition dead_copy (now : Time) (msg id : string) (j : JobRow) : DeadRow :=
  mkDeadRow (j_tenant j) id (j_id j) (j_booking j) (j_type j) (j_payload j)
    (j_attempts j) (j_max j) (Some msg) (j_key j) now (j_created j).

Definition job_of (j : JobRow) : Job :=
  mkJob (j_id j) (j_tenant j) (j_booking j) (j_type j) (j_payload j) (j_attempts j) (j_max j).

(** An [UPDATE jobs]: the touched rows, in their new form. *)
Definition update_jobs (p : JobRow -> bool) (f : JobRow -> JobRow) (d : DB)
    : result (list JobRow * DB) :=
  let! (l, touched) := sql_update job_check p f (jobs d) in Ok (touched, set_jobs l d).

Definition insert_dead (now : Time) (msg : string) (id : nat -> string) (l : list JobRow) (d : DB)
    : result DB :=
  let new := imap (fun i j => dead_copy now msg (id i) j) l in
  if forallb dead_check new then Ok (set_dead (dead_letters d ++ new) d) else Err CheckViolation.

Definition is_job (id status : string) (j : JobRow) : bool :=
  String.eqb (j_id j) id && String.eqb (j_status j) status.

(** ** Claiming *)
Definition claimable (now : Time) (n : nat) (e : env) (j : JobRow) : bool :=
  String.eqb (j_status j) "pending" && (ns (j_next_retry j) <=? ns now) &&
  negb (locked e n (j_id j)).

Definition due_before (a b : JobRow) : bool := ns (j_next_retry a) <? ns (j_next_retry b).

Definition same_job (a b : JobRow) : bool :=
  String.eqb (j_tenant a) (j_tenant b) && String.eqb (j_id a) (j_id b).

Definition chosen (limit : Z) (now : Time) (n : nat) (e : env) (d : DB) : list JobRow :=
  take (Z.to_nat limit) (sort_slice due_before (List.filter (claimable now n e) (jobs d))).

Definition claim_sql (limit : Z) : sql (list JobRow) := fun now n e d =>
  if limit <? 0 then Err (ErrPg "2201W")
  else update_jobs (fun j => existsb (same_job j) (chosen limit now n e d)) (claim_row now) d.

Definition ClaimBatch (limit : Z) : M (list Job) :=
  let* rows := wrap "jobqueue: claim batch query" (run Pool (claim_sql limit)) in
  ret (map job_of rows).

(** ** Completion and failure *)
Definition complete_sql (jobID : string) : sql (list JobRow) := fun now n e d =>
  update_jobs (is_job jobID "claimed") (complete_row now) d.

Definition Complete (jobID : string) : M unit :=
  let* touched := wrap "jobqueue: complete job" (run Pool (complete_sql jobID)) in
  match touched with
  | [] => fail (ErrText "jobqueue: complete job: no claimed job found")
  | _ => ret tt
  end.

(** [time.Duration(float64(30s) * math.Pow(2, attempts-1))], capped at an hour.
    The product of 30s and a power of two is exact in a float64; the conversion
    truncates, and [overflow] is what it gives beyond the int64 range. *)
Definition retryDelay (overflow : Z) (attempts : Z) : Z :=
  let base := 30 * Second in
  let product := if 1 <=? attempts then base * 2 ^ (attempts - 1)
                 else base / 2 ^ (1 - attempts) in
  let delay := if product <=? max_int64 then product else overflow in
  if Hour <? delay then Hour else delay.

Definition retry_sql (jobID msg : string) (delay : Z) : sql (list JobRow) := fun now n e d =>
  update_jobs (is_job jobID "claimed") (pending_row (Add now (pg_interval delay)) msg) d.

Definition retryJob (overflow : Z) (jobID : string) (attempts : Z) (jobErr : string) : M unit :=
  let* _ := wrap "jobqueue: retry job"
              (run Pool (retry_sql jobID jobErr (retryDelay overflow attempts))) in
  ret tt.

Definition dead_insert_sql (jobID jobErr : string) : sql unit := fun now n e d =>
  let! d' := insert_dead now jobErr (uuid e n) (List.filter (is_job jobID "claimed") (jobs d)) d in
  Ok (tt, d').

Definition dead_update_sql (jobID jobErr : string) : sql (list JobRow) := fun now n e d =>
  update_jobs (is_job jobID "claimed") (dead_row now jobErr) d.

Definition deadLetter (jobID jobErr : string) : M unit :=
  with_tx "jobqueue: dead letter begin tx for job" (
    let* _ := wrap "jobqueue: dead letter insert for job"
                (run Tx (dead_insert_sql jobID jobErr)) in
    let* _ := wrap "jobqueue: dead letter update for job"
                (run Tx (dead_update_sql jobID jobErr)) in
    wrap "jobqueue: dead letter commit for job" commit).

Definition lookup_claimed (jobID : string) : M (option JobRow) :=
  query Pool (fun _ _ _ d => Ok (List.find (is_job jobID "claimed") (jobs d))).

Definition Fail_ (overflow : Z) (jobID jobErr : string) : M unit :=
  let* row := wrap "jobqueue: fail lookup job"
                (let* o := lookup_claimed jobID in one_row o) in
  if j_attempts row <? j_max row
  then retryJob overflow jobID (j_attempts row) jobErr
  else deadLetter jobID jobErr.

(** ** Recovery of stale claims *)
Definition stale (now : Time) (lease : Z) (j : JobRow) : bool :=
  String.eqb (j_status j) "claimed" &&
  match j_claimed j with
  | Some t => ns t <? ns now - pg_interval lease
  | None => false
  end.

Definition exhausted (j : JobRow) : bool := j_max j <=? j_attempts j.

Definition staleDeadMessage : string := "stale claim exceeded max attempts".
Definition staleRetryMessage : string := "reclaimed after stale claim lease".

Definition reap_dead_sql (lease : Z) : sql (list JobRow) := fun now n e d =>
  let! (touched, d1) := update_jobs (fun j => stale now lease j && exhausted j)
                                     (dead_row now staleDeadMessage) d in
  let! d2 := insert_dead now staleDeadMessage (uuid e n) touched d1 in
  Ok (touched, d2).

Definition reap_pending_sql (lease : Z) : sql (list JobRow) := fun now n e d =>
  update_jobs (fun j => stale now lease j && (j_attempts j <? j_max j))
              (pending_row now staleRetryMessage) d.

Definition RequeueStaleClaims (lease : Z) : M (nat * nat) :=
  let lease := if lease <=? 0 then defaultStaleClaimLease else lease in
  with_tx "jobqueue: requeue stale begin tx" (
    let* deadTag := wrap "jobqueue: dead-letter stale claims" (run Tx (reap_dead_sql lease)) in
    let* reTag := wrap "jobqueue: requeue stale claims" (run Tx (reap_pending_sql lease)) in
    let* _ := wrap "jobqueue: requeue stale commit" commit in
    ret (length reTag, length deadTag)).

(** ** Enqueue and replay *)
Definition new_job (now : Time) (id tenant booking type : string) (payload : json) (max : Z)
    (key : string) : JobRow :=
  mkJobRow tenant id booking type "pending" payload 0 max now None None None None None
    (Some key) now.

(** [INSERT INTO jobs ... ON CONFLICT (tenant_id, idempotency_key) DO NOTHING]. *)
Definition insert_job (row : JobRow) (d : DB) : result DB :=
  if negb (job_check row) then Err CheckViolation
  else if existsb (fun j => String.eqb (j_tenant j) (j_tenant row) &&
                            bool_decide (is_Some (j_key row)) &&
                            bool_decide (j_key j = j_key row)) (jobs d) then Ok d
  else if existsb (same_job row) (jobs d) then Err UniqueViolation
  else if negb (existsb (is_booking (j_tenant row) (j_booking row)) (bookings d))
  then Err ForeignKeyViolation
  else Ok (set_jobs (jobs d ++ [row]) d).

Definition insert_job_sql (tenant booking type : string) (payload : json) (max : Z) (key : string)
    : sql unit := fun now n e d =>
  let! d' := insert_job (new_job now (uuid e n 0%nat) tenant booking type payload max key) d in
  Ok (tt, d').

Definition Enqueue (p : EnqueueParams) : M unit :=
  wrap "jobqueue: enqueue job type for tenant"
    (run Tx (insert_job_sql (eq_TenantID p) (eq_BookingID p) (eq_JobType p) (eq_PayloadJSON p)
               (eq_MaxAttempts p) (eq_IdempotencyKey p))).

Definition replay_sql (jobID : string) : sql (list JobRow) := fun now n e d =>
  update_jobs (is_job jobID "dead") (replay_row now) d.

Definition ReplayDeadLetter (jobID : string) : M unit :=
  let* touched := wrap "jobqueue: replay dead letter job" (run Pool (replay_sql jobID)) in
  match touched with
  | [] => fail (ErrText "jobqueue: replay dead letter job: no dead job found")
  | _ => ret tt
  end.

(** ** Bookings and their jobs *)
Definition of_booking (tenantID bookingID : string) (j : JobRow) : bool :=
  String.eqb (j_tenant j) tenantID && String.eqb (j_booking j) bookingID.

Definition cancel_jobs_sql (tenantID bookingID jobType : string) : sql (list JobRow) :=
  fun now n e d =>
  update_jobs (fun j => of_booking tenantID bookingID j &&
                        string_in (j_status j) ["pending"; "claimed"] &&
                        (String.eqb jobType "" || String.eqb (j_type j) jobType))
              (cancel_row now) d.

Definition CancelBookingJobs (tenantID bookingID jobType : string) : M nat :=
  let* touched := wrap "jobqueue: cancel booking jobs"
                    (run Tx (cancel_jobs_sql tenantID bookingID jobType)) in
  ret (length touched).

Definition moved_payload (newStartsAt : Time) (timezone : string) (p : json) : result json :=
  let! p1 := jsonb_set "starts_at" (JStr (RFC3339 (ToUTC newStartsAt))) p in
  jsonb_set "timezone" (JStr timezone) p1.

Definition pending_reminder (tenantID bookingID : string) (j : JobRow) : bool :=
  of_booking tenantID bookingID j && String.eqb (j_type j) "send_reminder" &&
  String.eqb (j_status j) "pending".

(** The update with a value that may fail row by row. *)
Fixpoint move_reminders (p : JobRow -> bool) (newStartsAt : Time) (timezone : string)
    (l : list JobRow) : result (nat * list JobRow) :=
  match l with
  | [] => Ok (0%nat, [])
  | j :: tl =>
      let! (k, tl') := move_reminders p newStartsAt timezone tl in
      if p j then
        let! payload := moved_payload newStartsAt timezone (j_payload j) in
        Ok (S k, set_payload payload j :: tl')
      else Ok (k, j :: tl')
  end.

Definition move_reminders_sql (tenantID bookingID : string) (newStartsAt : Time)
    (timezone : string) : sql nat := fun now n e d =>
  let! (k, l) := move_reminders (pending_reminder tenantID bookingID) newStartsAt timezone (jobs d) in
  Ok (k, set_jobs l d).

Definition UpdateReminderSchedule (tenantID bookingID : string) (newStartsAt : Time)
    (timezone : string) : M nat :=
  wrap "jobqueue: reschedule booking reminders"
    (run Tx (move_reminders_sql tenantID bookingID newStartsAt timezone)).

(** * Properties of the job queue *)

From S2P Require Import DatabaseFacts.

#[local] Open Scope Z_scope.

(** ** The invariant of the job table *)
Definition within_attempts (j : JobRow) : Prop :=
  j_attempts j <= j_max j /\ (j_status j = "pending" -> j_attempts j < j_max j).

Definition job_wf (j : JobRow) : Prop := job_check j = true /\ within_attempts j.

Definition jobs_wf (d : DB) : Prop :=
  NoDup (j_id <$> jobs d) /\ Forall job_wf (jobs d).

Lemma update_jobs_Ok p f d t d' :
  update_jobs p f d = Ok (t, d') <->
  d' = set_jobs (update_rows p f (jobs d)) d /\ t = map f (List.filter p (jobs d)) /\
  forallb job_check t = true.
Proof.
  unfold update_jobs. rewrite rbind_Ok. split.
  - intros ([l t'] & (-> & -> & Hc)%sql_update_Ok & [= <- <-]). done.
  - intros (-> & -> & Hc). eexists (_, _). split; [by apply sql_update_Ok|done].
Qed.

Lemma update_jobs_wf p f d t d' :
  jobs_wf d -> update_jobs p f d = Ok (t, d') ->
  (forall j, p j = true -> j_id (f j) = j_id j) ->
  (forall j, j ∈ jobs d -> job_wf j -> p j = true -> within_attempts (f j)) ->
  jobs_wf d'.
Proof.
  intros [Hnd Hwf] (-> & -> & Hc)%update_jobs_Ok Hid Hf. split; simpl.
  - by rewrite fmap_update_rows.
  - rewrite Forall_forall in Hwf |- *. intros j (j0 & Hj0 & ->)%elem_of_update_rows.
    destruct (p j0) eqn:Hp; [|by apply Hwf]. split; [|by apply Hf; [|apply Hwf|]].
    rewrite forallb_forall in Hc. apply Hc, in_map, list_elem_of_In, elem_of_filter_bool. done.
Qed.

Lemma is_job_spec id st j : is_job id st j = true <-> j_id j = id /\ j_status j = st.
Proof. unfold is_job. by rewrite andb_true_iff, !String.eqb_eq. Qed.

Lemma same_job_spec a b : same_job a b = true <-> j_tenant a = j_tenant b /\ j_id a = j_id b.
Proof. unfold same_job. by rewrite andb_true_iff, !String.eqb_eq. Qed.

(** With unique identifiers, a row is found again by its identifier. *)
Lemma same_id_eq d a b :
  jobs_wf d -> a ∈ jobs d -> b ∈ jobs d -> j_id a = j_id b -> a = b.
Proof.
  intros [Hnd _] Ha Hb Heq. apply list_elem_of_lookup in Ha as [i Hi], Hb as [k Hk].
  assert (i = k); [|congruence].
  eapply (NoDup_lookup _ i k (j_id a) Hnd); rewrite list_lookup_fmap.
  - by rewrite Hi.
  - rewrite Heq. by rewrite Hk.
Qed.

Lemma elem_of_chosen limit now n e d j :
  j ∈ chosen limit now n e d -> j ∈ jobs d /\ claimable now n e j = true.
Proof.
  unfold chosen. intros Hj. apply elem_of_take in Hj as (i & Hi & _).
  apply list_elem_of_lookup_2 in Hi. by rewrite elem_of_sort_slice, elem_of_filter_bool in Hi.
Qed.

Lemma claimed_row limit now n e d j :
  jobs_wf d -> j ∈ jobs d ->
  existsb (same_job j) (chosen limit now n e d) = true <-> j ∈ chosen limit now n e d.
Proof.
  intros Hwf Hj. rewrite existsb_exists. split.
  - intros (c & Hc%list_elem_of_In & [_ Hid]%same_job_spec).
    destruct (elem_of_chosen _ _ _ _ _ _ Hc) as [Hin _].
    by rewrite (same_id_eq d j c).
  - intros Hc. exists j. split; [by apply list_elem_of_In|by apply same_job_spec].
Qed.

Lemma claimable_pending now n e j :
  claimable now n e j = true ->
  j_status j = "pending" /\ ns (j_next_retry j) <= ns now /\ locked e n (j_id j) = false.
Proof.
  unfold claimable. intros H. apply andb_true_iff in H as [H Hl].
  apply andb_true_iff in H as [Hs%String.eqb_eq Hn%Z.leb_le]. by apply negb_true_iff in Hl.
Qed.

Lemma claim_sql_wf limit now n e d t d' :
  jobs_wf d -> claim_sql limit now n e d = Ok (t, d') -> jobs_wf d'.
Proof.
  unfold claim_sql. destruct (_ <? _); [done|]. intros Hwf Hu.
  apply (update_jobs_wf _ _ _ _ _ Hwf Hu); [done|]. intros j Hj [_ [_ Hlt]] Hc.
  apply claimed_row in Hc; [|done..]. apply elem_of_chosen in Hc as [_ Hc].
  apply claimable_pending in Hc as (Hs & _). specialize (Hlt Hs).
  split; simpl; [lia|done].
Qed.

(** Rows that leave the pending state keep their bound. *)
Lemma settle_wf p f d t d' :
  (forall j, j_id (f j) = j_id j) ->
  (forall j, j_attempts (f j) = j_attempts j /\ j_max (f j) = j_max j /\ j_status (f j) <> "pending") ->
  jobs_wf d -> update_jobs p f d = Ok (t, d') -> jobs_wf d'.
Proof.
  intros Hid Hf Hwf Hu. apply (update_jobs_wf _ _ _ _ _ Hwf Hu); [done|].
  intros j _ [_ [Hle _]] _. destruct (Hf j) as (Ha & Hm & Hs).
  split; [by rewrite Ha, Hm|by intros ?].
Qed.

Lemma retry_sql_wf id msg delay now n e d t d' :
  (forall j, j ∈ jobs d -> is_job id "claimed" j = true -> j_attempts j < j_max j) ->
  jobs_wf d -> retry_sql id msg delay now n e d = Ok (t, d') -> jobs_wf d'.
Proof.
  intros Hlt Hwf Hu. apply (update_jobs_wf _ _ _ _ _ Hwf Hu); [done|].
  intros j Hj [_ [Hle _]] Hp. specialize (Hlt j Hj Hp). split; simpl; lia.
Qed.

Lemma replay_sql_wf id now n e d t d' :
  jobs_wf d -> replay_sql id now n e d = Ok (t, d') -> jobs_wf d'.
Proof.
  intros Hwf Hu. apply (update_jobs_wf _ _ _ _ _ Hwf Hu); [done|].
  intros j _ [Hc _] _. unfold job_check, between in Hc. bool_to_prop.
  split; simpl; lia.
Qed.

Lemma insert_dead_jobs now msg id l d d' : insert_dead now msg id l d = Ok d' -> jobs d' = jobs d.
Proof. unfold insert_dead. destruct (forallb _ _); [|done]. by intros [= <-]. Qed.

Lemma jobs_wf_same d d' : jobs d' = jobs d -> jobs_wf d -> jobs_wf d'.
Proof. unfold jobs_wf. by intros ->. Qed.

Lemma reap_pending_wf lease now n e d t d' :
  jobs_wf d -> reap_pending_sql lease now n e d = Ok (t, d') -> jobs_wf d'.
Proof.
  intros Hwf Hu. apply (update_jobs_wf _ _ _ _ _ Hwf Hu); [done|].
  intros j _ [_ [Hle _]] Hp. apply andb_true_iff in Hp as [_ Hp%Z.ltb_lt]. split; simpl; lia.
Qed.

Lemma reap_dead_wf lease now n e d t d' :
  jobs_wf d -> reap_dead_sql lease now n e d = Ok (t, d') -> jobs_wf d'.
Proof.
  unfold reap_dead_sql. intros Hwf ([t1 d1] & Hu & H)%rbind_Ok.
  apply rbind_Ok in H as (d2 & Hi & [= <- <-]).
  apply (jobs_wf_same d1); [by eapply insert_dead_jobs|].
  by eapply (settle_wf _ (dead_row now staleDeadMessage)); [..|exact Hu].
Qed.

Lemma move_reminders_spec p start tz l k l' :
  move_reminders p start tz l = Ok (k, l') ->
  Forall2 (fun j j' => if p j then exists q, moved_payload start tz (j_payload j) = Ok q /\
                                     j' = set_payload q j
                       else j' = j) l l' /\ k = length (List.filter p l).
Proof.
  revert k l'; induction l as [|j l IH]; simpl; intros k l'.
  - intros [= <- <-]. by split.
  - intros ([k1 l1] & H1 & H)%rbind_Ok. specialize (IH _ _ H1) as [IH ->].
    destruct (p j) eqn:Hp.
    + apply rbind_Ok in H as (q & Hq & [= <- <-]). split; [|done]. constructor; [|done].
      rewrite Hp. by exists q.
    + simplify_eq. split; [|done]. constructor; [|done]. by rewrite Hp.
Qed.

Lemma set_payload_wf q j : job_wf j -> job_wf (set_payload q j).
Proof. done. Qed.

Lemma move_reminders_wf t b start tz now n e d k d' :
  jobs_wf d -> move_reminders_sql t b start tz now n e d = Ok (k, d') -> jobs_wf d'.
Proof.
  unfold move_reminders_sql. intros [Hnd Hwf] ([k1 l] & H & [= <- <-])%rbind_Ok.
  apply move_reminders_spec in H as [H _].
  assert (Hid : j_id <$> l = j_id <$> jobs d /\ Forall job_wf l); [|destruct Hid as [Hid ?]; split; simpl; [by rewrite Hid|done]].
  clear Hnd. induction H as [|j j' l1 l2 Hj _ IH]; [done|]. apply Forall_cons in Hwf as [Hw Hwf].
  destruct (IH Hwf) as [IH1 IH2]. destruct (pending_reminder _ _ _).
  - destruct Hj as (q & _ & ->). rewrite !fmap_cons, IH1. split; [done|]. constructor; [by apply set_payload_wf|done].
  - subst. rewrite !fmap_cons, IH1. split; [done|]. by constructor.
Qed.

(** ** Every operation of the queue *)
Inductive queue_op : Type :=
| OpClaim (limit : Z)
| OpComplete (id : string)
| OpFail (overflow : Z) (id msg : string)
| OpRequeue (lease : Z)
| OpReplay (id : string)
| OpEnqueue (p : EnqueueParams)
| OpCancel (tenant booking type : string)
| OpMove (tenant booking : string) (start : Time) (timezone : string).

Definition discard {A} (m : M A) : M unit := let* _ := m in ret tt.

Definition exec_op (o : queue_op) : M unit :=
  match o with
  | OpClaim limit => discard (ClaimBatch limit)
  | OpComplete id => Complete id
  | OpFail overflow id msg => Fail_ overflow id msg
  | OpRequeue lease => discard (RequeueStaleClaims lease)
  | OpReplay id => ReplayDeadLetter id
  | OpEnqueue p => Enqueue p
  | OpCancel t b ty => discard (CancelBookingJobs t b ty)
  | OpMove t b start tz => discard (UpdateReminderSchedule t b start tz)
  end.

(** A generated identifier is new. *)
Definition fresh_for (o : queue_op) (e : env) (w : world) : Prop :=
  match o with
  | OpEnqueue _ => uuid e (tick w) 0%nat ∉ j_id <$> jobs (work w)
  | _ => True
  end.

Lemma insert_job_wf row d d' :
  j_id row ∉ j_id <$> jobs d -> within_attempts row -> jobs_wf d ->
  insert_job row d = Ok d' -> jobs_wf d'.
Proof.
  unfold insert_job. intros Hf Hw [Hnd Hwf]. destruct (job_check row) eqn:Hc; [|done]. simpl.
  destruct (existsb _ (jobs d)); [intros [= <-]; by split|].
  destruct (existsb _ (jobs d)); [done|]. destruct (existsb _ (bookings d)); [|done].
  intros [= <-]. split; simpl.
  - rewrite fmap_app. apply NoDup_app. split; [done|]. split; [|apply NoDup_singleton].
    intros x Hx. simpl. rewrite list_elem_of_singleton. intros ->. done.
  - apply Forall_app. split; [done|]. apply Forall_singleton. by split.
Qed.

Lemma run_Pool_holds {A} (I : DB -> Prop) (s : sql A) e w :
  (forall a d, I (db w) -> s (clock e (tick w)) (tick w) e (db w) = Ok (a, d) -> I d) ->
  holds I w -> holds I (run Pool s e w).2.
Proof.
  intros Hs [Hd Hw]. unfold run. destruct (s _ _ _ _) as [[a d]|] eqn:Hr; [pose proof (Hs a d Hd eq_refl)|];
    destruct (fault e _); try destruct (_ && _); by split.
Qed.

Lemma run_Tx_holds {A} (I : DB -> Prop) (s : sql A) e w :
  (forall a d, I (work w) -> s (tx_now w) (tick w) e (work w) = Ok (a, d) -> I d) ->
  holds I w -> holds I (run Tx s e w).2.
Proof.
  intros Hs [Hd Hw]. unfold run. destruct (aborted w); [by split|].
  destruct (fault e _); [by split|].
  destruct (s _ _ _ _) as [[a d]|] eqn:Hr; [|by split]. split; [done|by apply (Hs a)].
Qed.

Lemma map_err_world {A} g (m : M A) e w : (map_err g m e w).2 = (m e w).2.
Proof. unfold map_err. by destruct (m e w) as [[?|?] ?]. Qed.

Lemma discard_world {A} msg (m : M A) e w : (let* _ := wrap msg m in ret tt) e w = 
  (match (m e w).1 with Ok _ => Ok tt | Err err => Err (ErrWrap msg err) end, (m e w).2).
Proof. unfold bind, wrap, map_err, ret. by destruct (m e w) as [[?|?] ?]. Qed.

(** A failed lookup changes nothing; a successful one names a claimed row. *)
Lemma Fail_lookup id e w :
  match (wrap "jobqueue: fail lookup job" (let* o := lookup_claimed id in one_row o)) e w with
  | (Ok row, w') => db w' = db w /\ work w' = work w /\
      List.find (is_job id "claimed") (jobs (db w)) = Some row
  | (Err _, w') => db w' = db w /\ work w' = work w
  end.
Proof.
  unfold wrap, map_err, bind, lookup_claimed, query, run. destruct (fault e _); simpl.
  - by destruct (_ && _).
  - by destruct (List.find _ _).
Qed.

Lemma deadLetter_wf id msg : preserves jobs_wf (deadLetter id msg).
Proof.
  apply preserves_with_tx. apply preserves_bind; [|intros _; apply preserves_bind].
  - apply preserves_wrap, preserves_run. intros now n e d a d' Hwf H.
    apply rbind_Ok in H as (d1 & Hi & [= _ <-]). apply (jobs_wf_same d); [|done].
    by eapply insert_dead_jobs.
  - apply preserves_wrap, preserves_run. intros now n e d a d' Hwf H.
    by eapply (settle_wf _ (dead_row now msg)); [..|exact H].
  - intros _. auto with db.
Qed.

Lemma Fail_wf overflow id msg : preserves jobs_wf (Fail_ overflow id msg).
Proof.
  intros e w Hw. unfold Fail_, bind at 1. pose proof (Fail_lookup id e w) as Hl.
  destruct (wrap _ _ e w) as [[row|err] w1]; [|unfold holds; simpl; by destruct Hl as [-> ->]].
  destruct Hl as (Hdb & Hwk & Hf).
  assert (Hw1 : holds jobs_wf w1) by (unfold holds; by rewrite Hdb, Hwk).
  destruct (Z.ltb_spec (j_attempts row) (j_max row)); [|by apply deadLetter_wf].
  unfold retryJob. rewrite discard_world. apply run_Pool_holds; [|done].
  intros a d Hwf Hr. eapply retry_sql_wf; [|done|exact Hr].
  intros j Hj Hp. apply List.find_some in Hf as [Hrow%list_elem_of_In Hp'].
  rewrite <- Hdb in Hrow. apply is_job_spec in Hp as [Hp _], Hp' as [Hp' _].
  rewrite (same_id_eq _ j row Hwf Hj Hrow); [done|congruence].
Qed.

Lemma discard_preserves I {A} (m : M A) : preserves I m -> preserves I (discard m).
Proof. intros Hm. apply preserves_bind; [done|]. auto with db. Qed.

Lemma RequeueStaleClaims_wf lease : preserves jobs_wf (RequeueStaleClaims lease).
Proof.
  unfold RequeueStaleClaims. apply preserves_with_tx. apply preserves_bind.
  { apply preserves_wrap, preserves_run. intros now n e d a d'. apply reap_dead_wf. }
  intros t. apply preserves_bind; [|intros ?; walk_preserves].
  apply preserves_wrap, preserves_run. intros now n e d a d'. apply reap_pending_wf.
Qed.

(** C37. The invariant of the job table.  Whatever operation of the queue runs,
    on the pool or in a booking's transaction and with whatever faults, the table
    keeps its schema's checks and unique identifiers, no job has been attempted
    more often than its maximum, and a pending job has an attempt left. *)
Theorem queue_invariant o e w :
  fresh_for o e w -> holds jobs_wf w -> holds jobs_wf (exec_op o e w).2.
Proof.
  intros Hfresh Hw. destruct o; simpl.
  - apply discard_preserves; [|done]. apply preserves_bind; [|auto with db].
    apply preserves_wrap, preserves_run. intros now n e' d a d'. apply claim_sql_wf.
  - apply preserves_bind; [|intros []; auto with db|done].
    apply preserves_wrap, preserves_run. intros now n e' d a d' Hwf H.
    by eapply (settle_wf _ (complete_row now)); [..|exact H].
  - by apply Fail_wf.
  - apply discard_preserves; [|done]. apply RequeueStaleClaims_wf.
  - apply preserves_bind; [|intros []; auto with db|done].
    apply preserves_wrap, preserves_run. intros now n e' d a d'. apply replay_sql_wf.
  - unfold Enqueue, wrap. rewrite map_err_world. apply run_Tx_holds; [|done].
    intros a d Hwf H. apply rbind_Ok in H as (d' & H & [= _ <-]).
    eapply insert_job_wf; [..|done|exact H]; [done|].
    unfold insert_job in H. destruct (job_check _) eqn:Hc; [|done].
    unfold job_check, between in Hc. bool_to_prop. split; simpl in *; lia.
  - apply discard_preserves; [|done]. apply preserves_bind; [|auto with db].
    apply preserves_wrap, preserves_run. intros now n e' d a d' Hwf H.
    by eapply (settle_wf _ (cancel_row now)); [..|exact H].
  - apply discard_preserves; [|done]. apply preserves_wrap, preserves_run.
    intros now n e' d a d'. apply move_reminders_wf.
Qed.

(** ** Claiming *)
#[local] Instance due_total : Total (not_less due_before).
Proof. intros a b. unfold not_less, due_before. rewrite !Z.ltb_ge. lia. Qed.

#[local] Instance due_transitive : Transitive (not_less due_before).
Proof. intros a b c. unfold not_less, due_before. rewrite !Z.ltb_ge. lia. Qed.

Lemma sorted_take_drop {A} (R : A -> A -> Prop) l k x y :
  StronglySorted R l -> x ∈ take k l -> y ∈ drop k l -> R x y.
Proof.
  revert k. induction l as [|a l IH]; intros k Hs Hx Hy.
  { rewrite take_nil in Hx. by apply elem_of_nil in Hx. }
  destruct k as [|k]; [by apply elem_of_nil in Hx|]. simpl in *.
  apply StronglySorted_inv in Hs as [Hs Ha]. apply elem_of_cons in Hx as [->|Hx]; [|by eapply IH].
  rewrite Forall_forall in Ha. apply Ha. rewrite <- (take_drop k l). apply elem_of_app; by right.
Qed.

Lemma chosen_first limit now n e d j k :
  j ∈ jobs d -> claimable now n e j = true -> j ∉ chosen limit now n e d ->
  k ∈ chosen limit now n e d ->
  length (chosen limit now n e d) = Z.to_nat limit /\ ns (j_next_retry k) <= ns (j_next_retry j).
Proof.
  unfold chosen. set (l := sort_slice _ _). intros Hj Hc Hn Hk.
  assert (Hl : j ∈ l) by (unfold l; by rewrite elem_of_sort_slice, elem_of_filter_bool).
  rewrite <- (take_drop (Z.to_nat limit) l) in Hl. apply elem_of_app in Hl as [?|Hl]; [done|].
  split.
  - rewrite length_take. apply list_elem_of_lookup in Hl as [i Hi].
    rewrite lookup_drop in Hi. apply lookup_lt_Some in Hi. lia.
  - assert (Hs : not_less due_before k j)
      by (eapply sorted_take_drop; [apply (sort_slice_sorted due_before)|exact Hk|exact Hl]).
    unfold not_less, due_before in Hs. bool_to_prop. lia.
Qed.

Lemma NoDup_jobs d : jobs_wf d -> NoDup (jobs d).
Proof. intros [Hnd _]. by eapply NoDup_fmap_1. Qed.

Lemma NoDup_filter_bool {A} (p : A -> bool) (l : list A) : NoDup l -> NoDup (List.filter p l).
Proof.
  induction 1 as [|x l Hx _ IH]; simpl; [constructor|]. destruct (p x); [|done].
  constructor; [|done]. rewrite elem_of_filter_bool. by intros [? _].
Qed.

Lemma NoDup_chosen limit now n e d : jobs_wf d -> NoDup (chosen limit now n e d).
Proof.
  intros Hwf. unfold chosen. eapply sublist_NoDup; [|apply sublist_take].
  rewrite sort_slice_perm. by apply NoDup_filter_bool, NoDup_jobs.
Qed.

Lemma claimed_filter limit now n e d :
  jobs_wf d ->
  List.filter (fun j => existsb (same_job j) (chosen limit now n e d)) (jobs d)
  ≡ₚ chosen limit now n e d.
Proof.
  intros Hwf. apply NoDup_Permutation.
  - by apply NoDup_filter_bool, NoDup_jobs.
  - by apply NoDup_chosen.
  - intros j. rewrite elem_of_filter_bool. split.
    + intros [Hj Hc]. by apply claimed_row in Hc.
    + intros Hc. pose proof (elem_of_chosen _ _ _ _ _ _ Hc) as [Hj _]. split; [done|].
      by apply claimed_row.
Qed.

(** What a claim takes.  A successful [ClaimBatch] takes at most [limit]
    jobs, all of them pending, due and not locked by another session; a claimable
    job it leaves behind is not due earlier than one it takes, and is left only
    when the limit is used up.  The jobs it returns are exactly the taken ones
    with one attempt more, now claimed, and every other row is untouched. *)
Theorem ClaimBatch_spec limit e w js w' :
  jobs_wf (db w) -> ClaimBatch limit e w = (Ok js, w') ->
  let now := clock e (tick w) in
  exists taken : list JobRow,
    (length taken <= Z.to_nat limit)%nat /\
    (forall j, j ∈ taken -> j ∈ jobs (db w) /\ j_status j = "pending" /\
       ns (j_next_retry j) <= ns now /\ locked e (tick w) (j_id j) = false) /\
    (forall j k, j ∈ jobs (db w) -> claimable now (tick w) e j = true -> j ∉ taken -> k ∈ taken ->
       length taken = Z.to_nat limit /\ ns (j_next_retry k) <= ns (j_next_retry j)) /\
    js ≡ₚ map (fun j => job_of (claim_row now j)) taken /\
    (forall j', j' ∈ jobs (db w') <->
       (j' ∈ jobs (db w) /\ j' ∉ taken) \/ exists j, j ∈ taken /\ j' = claim_row now j).
Proof.
  intros Hwf H. unfold ClaimBatch in H. repeat open_step H. repeat open_step Hm.
  unfold claim_sql in Hm. destruct (_ <? _); [done|].
  apply update_jobs_Ok in Hm as (-> & -> & _). simpl.
  set (now := clock e (tick w)). set (n := tick w).
  exists (chosen limit now n e (db w)). split; [|split; [|split; [|split; [|split]]]].
  - unfold chosen. rewrite length_take. lia.
  - intros j [Hj Hc]%elem_of_chosen. split; [done|]. by apply claimable_pending in Hc.
  - intros j k. apply chosen_first.
  - rewrite map_map. apply fmap_Permutation. by apply claimed_filter.
  - intros (j & Hj & ->)%elem_of_update_rows. destruct (existsb _ _) eqn:Hc.
    + right. exists j. split; [by apply claimed_row in Hc|done].
    + left. split; [done|]. intros Hin. apply claimed_row in Hin; [congruence|done..].
  - intros Hcase. apply elem_of_update_rows. destruct Hcase as [[Hj Hn]|(j & Hj & ->)].
    + exists j'. split; [done|]. destruct (existsb _ _) eqn:Hc; [|done].
      by apply claimed_row in Hc.
    + destruct (elem_of_chosen _ _ _ _ _ _ Hj) as [Hin _]. exists j. split; [done|].
      assert (Hc : existsb (same_job j) (chosen limit now n e (db w)) = true) by by apply claimed_row.
      by rewrite Hc.
Qed.

(** ** Failure *)
Lemma find_unique d id row :
  jobs_wf d -> List.find (is_job id "claimed") (jobs d) = Some row ->
  row ∈ jobs d /\ j_id row = id /\ j_status row = "claimed" /\
  List.filter (is_job id "claimed") (jobs d) = [row].
Proof.
  intros Hwf Hf. apply List.find_some in Hf as Hf'. destruct Hf' as [Hin%list_elem_of_In Hp].
  apply is_job_spec in Hp as Hp'. destruct Hp' as [Hid Hst]. do 3 (split; [done|]).
  assert (Hperm : List.filter (is_job id "claimed") (jobs d) ≡ₚ [row]); [|by apply Permutation_singleton_r in Hperm].
  apply NoDup_Permutation; [by apply NoDup_filter_bool, NoDup_jobs|apply NoDup_singleton|].
  intros j. rewrite elem_of_filter_bool, list_elem_of_singleton. split; [|by intros ->].
  intros [Hj [Hjid _]%is_job_spec]. apply (same_id_eq d); [done..|congruence].
Qed.

(** Writing one row by its identifier. *)
Lemma update_one d id row f :
  jobs_wf d -> List.find (is_job id "claimed") (jobs d) = Some row ->
  forall j', j' ∈ update_rows (is_job id "claimed") f (jobs d) <->
    (j' ∈ jobs d /\ j' <> row) \/ j' = f row.
Proof.
  intros Hwf Hf j'. destruct (find_unique d id row Hwf Hf) as (Hin & Hid & Hst & _).
  assert (Hrow : is_job id "claimed" row = true) by by apply is_job_spec.
  rewrite elem_of_update_rows. split.
  - intros (j & Hj & ->). destruct (is_job _ _ j) eqn:Hp.
    + right. f_equal. apply is_job_spec in Hp as [? _]. apply (same_id_eq d); [done..|congruence].
    + left. split; [done|]. intros ->. congruence.
  - intros [[Hj Hn]| ->].
    + exists j'. split; [done|]. destruct (is_job id "claimed" j') eqn:Hp; [|done].
      destruct Hn. apply is_job_spec in Hp as [? _]. apply (same_id_eq d); [done..|congruence].
    + exists row. by rewrite Hrow.
Qed.

(** What a failure does.  A [Fail] that succeeds found exactly one claimed
    job under the identifier: with attempts left it is pending again, due after
    the backoff delay of its attempt count, its error recorded; otherwise it is
    dead and one dead letter with its payload, attempts and error is filed.  No
    other job and no earlier dead letter changes. *)
Theorem Fail_spec overflow id msg e w w' :
  jobs_wf (db w) -> Fail_ overflow id msg e w = (Ok tt, w') ->
  exists row now, row ∈ jobs (db w) /\ j_id row = id /\ j_status row = "claimed" /\
    (j_attempts row < j_max row /\ dead_letters (db w') = dead_letters (db w) /\
     (forall j, j ∈ jobs (db w') <-> (j ∈ jobs (db w) /\ j <> row) \/
        j = pending_row (Add now (pg_interval (retryDelay overflow (j_attempts row)))) msg row)
     \/
     j_max row <= j_attempts row /\
     (exists did, dead_letters (db w') = dead_letters (db w) ++ [dead_copy now msg did row]) /\
     (forall j, j ∈ jobs (db w') <-> (j ∈ jobs (db w) /\ j <> row) \/ j = dead_row now msg row)).
Proof.
  intros Hwf H. unfold Fail_ in H. apply bind_Ok in H as (row & w1 & Hl & H).
  pose proof (Fail_lookup id e w) as Hfl. rewrite Hl in Hfl. destruct Hfl as (Hdb & _ & Hf).
  destruct (find_unique _ _ _ Hwf Hf) as (Hin & Hid & Hst & Hfil).
  exists row. destruct (Z.ltb_spec (j_attempts row) (j_max row)) as [Hlt|Hge].
  - unfold retryJob in H. repeat open_step H. repeat open_step Hm.
    unfold retry_sql in Hm. apply update_jobs_Ok in Hm as (-> & _ & _). simpl. rewrite Hdb.
    exists (clock e (tick w1)). do 3 (split; [done|]). left. do 2 (split; [done|]).
    by apply update_one.
  - unfold deadLetter in H. apply with_tx_Ok in H as (w2 & H & ->).
    repeat open_step H. repeat open_step Hm. repeat open_step Hm0. simpl.
    unfold dead_insert_sql, dead_update_sql in *. simpl in *.
    apply rbind_Ok in Hm as (d' & Hi & [= <-]). unfold insert_dead in Hi.
    rewrite Hdb, Hfil in Hi. destruct (forallb _ _); [|done]. simplify_eq/=.
    apply update_jobs_Ok in Hm0 as (-> & _ & _). simpl.
    exists (clock e (tick w1)). do 3 (split; [done|]). right. split; [done|].
    split; [by eexists|]. by apply update_one.
Qed.

(** ** Stale claims *)
(** What recovery makes of one row. *)
Definition reaped (now : Time) (lease : Z) (j : JobRow) : JobRow :=
  if negb (stale now lease j) then j
  else if exhausted j then dead_row now staleDeadMessage j
  else pending_row now staleRetryMessage j.

Lemma reap_compose now lease l :
  update_rows (fun j => stale now lease j && (j_attempts j <? j_max j))
    (pending_row now staleRetryMessage)
    (update_rows (fun j => stale now lease j && exhausted j) (dead_row now staleDeadMessage) l)
  = map (reaped now lease) l /\
  length (List.filter (fun j => stale now lease j && (j_attempts j <? j_max j))
    (update_rows (fun j => stale now lease j && exhausted j) (dead_row now staleDeadMessage) l))
  = length (List.filter (fun j => stale now lease j && negb (exhausted j)) l).
Proof.
  unfold update_rows. rewrite map_map. induction l as [|j l [IH1 IH2]]; simpl; [done|].
  unfold reaped at 1. rewrite IH1. destruct (stale now lease j) eqn:Hs; simpl.
  - assert (He : exhausted j = negb (j_attempts j <? j_max j)) by apply Z.leb_antisym.
    rewrite !He. destruct (j_attempts j <? j_max j) eqn:Hlt; simpl.
    + rewrite Hs, Hlt. simpl. split; [done|]. by rewrite IH2.
    + split; [done|]. by rewrite IH2.
  - rewrite Hs. simpl. done.
Qed.

(** The lease a caller's argument stands for. *)
Definition effective_lease (lease : Z) : Z := if lease <=? 0 then defaultStaleClaimLease else lease.

(** Recovery refines its specification: a successful [RequeueStaleClaims]
    replaces every row by what [reaped] says, files one dead letter for each
    stale claim whose attempts are exhausted, and reports the two counts; so no
    claim older than the lease survives it and no fresh claim is touched. *)
Theorem RequeueStaleClaims_spec lease e w requeued deadLettered w' :
  RequeueStaleClaims lease e w = (Ok (requeued, deadLettered), w') ->
  let now := clock e (tick w) in
  let old := jobs (db w) in
  let dying := List.filter (fun j => stale now (effective_lease lease) j && exhausted j) old in
  jobs (db w') = map (reaped now (effective_lease lease)) old /\
  (exists ids, dead_letters (db w') = dead_letters (db w) ++
     imap (fun i j => dead_copy now staleDeadMessage (ids i) (dead_row now staleDeadMessage j)) dying) /\
  deadLettered = length dying /\
  requeued = length (List.filter (fun j => stale now (effective_lease lease) j && negb (exhausted j)) old) /\
  Forall (fun j => stale now (effective_lease lease) j = false) (jobs (db w')).
Proof.
  unfold RequeueStaleClaims. fold (effective_lease lease). set (ls := effective_lease lease).
  intros H. apply with_tx_Ok in H as (w2 & H & ->). repeat open_step H.
  repeat open_step Hm. repeat open_step Hm0. repeat open_step Hm1. simpl in *.
  unfold reap_dead_sql, reap_pending_sql in *.
  apply rbind_Ok in Hm as ([t d1] & Hu & Hm). apply rbind_Ok in Hm as (d2 & Hi & [= <- <-]).
  apply update_jobs_Ok in Hu as (-> & -> & _). apply update_jobs_Ok in Hm0 as (-> & -> & _).
  pose proof (insert_dead_jobs _ _ _ _ _ _ Hi) as Hj. simpl in Hj. rewrite Hj. simpl.
  unfold insert_dead in Hi. destruct (forallb _ _); [|done]. simplify_eq/=.
  destruct (reap_compose (clock e (tick w)) ls (jobs (db w))) as [H1 H2].
  rewrite !length_map, H1, H2. split; [done|]. split.
  { exists (uuid e (S (tick w))). f_equal.
    change (map (dead_row ?n ?m) ?l) with (dead_row n m <$> l). by rewrite imap_fmap. }
  split; [done|]. split; [done|]. apply Forall_forall. intros j Hj'.
  apply list_elem_of_In, in_map_iff in Hj' as (j0 & <- & _). unfold reaped.
  destruct (stale _ _ j0) eqn:Hs; simpl; [|done]. by destruct (exhausted j0).
Qed.

(** ** Backoff *)
Lemma pow_two_bound a : 1 <= a <= 29 -> 1 <= 2 ^ (a - 1) <= 268435456.
Proof.
  intros H. split; [apply (Z.pow_le_mono_r 2 0); lia|].
  change 268435456 with (2 ^ 28). apply Z.pow_le_mono_r; lia.
Qed.

Lemma retryDelay_value overflow a :
  1 <= a <= 29 -> retryDelay overflow a = Z.min (30 * Second * 2 ^ (a - 1)) Hour.
Proof.
  intros H. pose proof (pow_two_bound a H) as Hp. unfold retryDelay.
  rewrite (proj2 (Z.leb_le 1 a)) by lia. generalize dependent (2 ^ (a - 1)). intros x Hx.
  unfold Hour, Minute, Second, max_int64.
  destruct (Z.leb_spec (30 * 1000000000 * x) 9223372036854775807); [|lia].
  destruct (Z.ltb_spec (60 * (60 * 1000000000)) (30 * 1000000000 * x)); lia.
Qed.

(** The backoff delay.  For every attempt count a well-formed job row can
    reach, the delay is thirty seconds doubled once per earlier attempt, capped at
    an hour: it does not overflow, and it never shrinks as attempts grow. *)
Theorem retryDelay_spec overflow d j :
  jobs_wf d -> j ∈ jobs d -> 1 <= j_attempts j ->
  retryDelay overflow (j_attempts j) = Z.min (30 * Second * 2 ^ (j_attempts j - 1)) Hour /\
  30 * Second <= retryDelay overflow (j_attempts j) <= Hour /\
  retryDelay overflow (j_attempts j) <= retryDelay overflow (j_attempts j + 1).
Proof.
  intros [_ Hwf] Hj Ha. rewrite Forall_forall in Hwf. destruct (Hwf j Hj) as [Hc [Hle _]].
  assert (Hm : j_max j <= 20) by (unfold job_check, between in Hc; bool_to_prop; lia).
  rewrite !retryDelay_value by lia. pose proof (pow_two_bound (j_attempts j)) as Hp.
  pose proof (Z.pow_le_mono_r 2 (j_attempts j - 1) (j_attempts j + 1 - 1)) as Hmono.
  unfold Hour, Minute, Second. split; [done|]. lia.
Qed.

(** ** A message that does not fit *)
Lemma long_message_update id f d row :
  jobs_wf d -> List.find (is_job id "claimed") (jobs d) = Some row -> job_check (f row) = false ->
  update_jobs (is_job id "claimed") f d = Err CheckViolation.
Proof.
  intros Hwf Hf Hc. destruct (find_unique _ _ _ Hwf Hf) as (_ & _ & _ & Hfil).
  unfold update_jobs, sql_update. by rewrite Hfil; simpl; rewrite Hc.
Qed.

Definition fails_quietly {A} (m : M A) (e : env) (w : world) : Prop :=
  exists err w', m e w = (Err err, w') /\ db w' = db w.

Lemma fails_wrap {A} msg (m : M A) e w : fails_quietly m e w -> fails_quietly (wrap msg m) e w.
Proof. intros (err & w' & H & Hd). unfold fails_quietly, wrap, map_err. rewrite H. by eexists _, w'. Qed.

Lemma fails_bind {A B} (m : M A) (f : A -> M B) e w :
  local m -> (fails_quietly m e w \/ forall a w', m e w = (Ok a, w') -> fails_quietly (f a) e w') ->
  fails_quietly (bind m f) e w.
Proof.
  intros Hloc Hcase. unfold fails_quietly, bind. pose proof (Hloc e w) as Hl.
  destruct (m e w) as [[a|err] w1] eqn:Hm; simpl in Hl; [|by eexists _, w1].
  destruct Hcase as [(? & ? & ? & _)|Hf]; [congruence|].
  destruct (Hf a w1 eq_refl) as (err & w2 & -> & Hd). eexists _, w2. split; [done|congruence].
Qed.

Lemma fails_run {A} q (s : sql A) e w :
  s (match q with Pool => clock e (tick w) | Tx => tx_now w end) (tick w) e
    (match q with Pool => db w | Tx => work w end) = Err CheckViolation ->
  fails_quietly (run q s) e w.
Proof.
  intros Hs. unfold fails_quietly, run. destruct q.
  - rewrite Hs. destruct (fault e _); by eexists _, _.
  - destruct (aborted w); [by eexists _, _|]. destruct (fault e _); [by eexists _, _|].
    rewrite Hs. by eexists _, _.
Qed.

Lemma local_begin msg : local (wrap msg begin_tx).
Proof. apply local_wrap. intros e w. unfold begin_tx. by destruct (fault e _). Qed.

(** Error texts are not clipped to the column.  When a handler's error is
    longer than the 2000 characters [last_error] holds, [Fail] cannot record it:
    it returns an error and the job keeps its claim, with neither a retry
    scheduled nor a dead letter filed. *)
Theorem Fail_long_error_keeps_claim overflow id msg e w :
  jobs_wf (db w) -> 2000 < pg_length msg ->
  exists err w', Fail_ overflow id msg e w = (Err err, w') /\ db w' = db w.
Proof.
  intros Hwf Hlen. change (fails_quietly (Fail_ overflow id msg) e w).
  pose proof (Fail_lookup id e w) as Hl. assert (Hlong : (pg_length msg <=? 2000) = false) by (apply Z.leb_gt; lia).
  unfold Fail_. apply fails_bind; [unfold lookup_claimed; walk_local|].
  right. intros row w1 Hrow. rewrite Hrow in Hl. destruct Hl as (Hdb & _ & Hf). rewrite <- Hdb in *.
  destruct (_ <? _).
  - unfold retryJob, bind at 1. change (fails_quietly (let* _ := wrap "jobqueue: retry job"
      (run Pool (retry_sql id msg (retryDelay overflow (j_attempts row)))) in ret tt) e w1).
    destruct (fails_wrap "jobqueue: retry job" (run Pool (retry_sql id msg (retryDelay overflow (j_attempts row)))) e w1)
      as (err & w2 & H & Hd); [|unfold fails_quietly, bind; rewrite H; by eexists _, w2].
    apply fails_run. apply (long_message_update _ _ _ row Hwf Hf).
    unfold job_check. simpl. by rewrite Hlong, !andb_false_r.
  - apply fails_bind; [apply local_begin|]. right. intros [] w2 Hb.
    apply wrap_Ok, begin_Ok in Hb as ->.
    destruct (fails_wrap "jobqueue: dead letter insert for job" (run Tx (dead_insert_sql id msg)) e
      (mkWorld (db w1) (db w1) false (clock e (tick w1)) (S (tick w1)))) as (err & w3 & H & Hd).
    { apply fails_run. unfold dead_insert_sql, insert_dead. simpl.
      destruct (find_unique _ _ _ Hwf Hf) as (_ & _ & _ & Hfil). rewrite Hfil. simpl.
      unfold dead_check. simpl. by rewrite Hlong, !andb_false_r. }
    unfold fails_quietly, rolled_back, bind at 1. rewrite H. by eexists _, _.
Qed.

(** ** A worker that outlives its lease *)
(** The statements of two workers and the reaper, in the order in which the
    database may run them: worker A, past its lease, reads its claimed job in
    [Fail]; the reaper returns the job to the queue; worker B claims it; A's
    retry then hits B's claim; the job is claimed once more. *)
Definition stale_worker_race (overflow lease : Z) (id msg : string) : M (list Job) :=
  let* o := lookup_claimed id in
  let* row := one_row o in
  let* _ := RequeueStaleClaims lease in
  let* _ := ClaimBatch 1 in
  let* _ := retryJob overflow id (j_attempts row) msg in
  ClaimBatch 1.

Module QueueDemo.
Definition at_ (h : Z) : Time := mkTime (h * Hour) UTC.
Definition e : env := mkEnv (fun n => at_ (100 + Z.of_nat n)) (fun _ _ => "fresh") (fun _ _ => false)
  (fun _ => None) (fun _ => false) (fun _ => None).
Definition job (id status : string) (attempts : Z) (claimed : option Time) : JobRow :=
  mkJobRow "t" id "b" "send_reminder" status (JObj []) attempts 2 (at_ 1) claimed None None None
    None (Some "reminder:00000000") (at_ 0).
Definition with_jobs (l : list JobRow) : world :=
  let d := mkDB ["t"] [] [] [] [] [] [] [] [] [] [] [] l [] [] [] [] [] no_turns in mkWorld d d false (at_ 0) 0.
Definition claimed1 : world := with_jobs [job "j" "claimed" 1 (Some (at_ 2))].
Definition claimed2 : world := with_jobs [job "j" "claimed" 2 (Some (at_ 2))].
Definition pending1 : world := with_jobs [job "j" "pending" 1 None].

Lemma wf1 : jobs_wf (db claimed1).
Proof. split; [apply NoDup_singleton|]. repeat constructor; vm_compute; congruence. Defined.
Lemma wf2 : jobs_wf (db claimed2).
Proof. split; [apply NoDup_singleton|]. repeat constructor; vm_compute; congruence. Defined.
Lemma wfp : jobs_wf (db pending1).
Proof. split; [apply NoDup_singleton|]. repeat constructor; vm_compute; congruence. Defined.

Fixpoint repeat_char (n : nat) : string :=
  match n with O => EmptyString | S n => String "x" (repeat_char n) end.
End QueueDemo.

(** Claims carry no fencing token.  From a well-formed table, a worker that
    outlives its lease can return another worker's live claim to the queue after
    the attempt count has moved on, and the job is then handed out with more
    attempts than its maximum. *)
Theorem stale_worker_exceeds_max_attempts :
  exists e w js, jobs_wf (db w) /\ (stale_worker_race 0 (5 * Minute) "j" "boom" e w).1 = Ok js /\
    Exists (fun j => MaxAttempts j < Attempts j) js.
Proof.
  exists QueueDemo.e, QueueDemo.claimed1. eexists. split; [apply QueueDemo.wf1|].
  split; [vm_compute; reflexivity|]. apply Exists_cons_hd. done.
Qed.

(** ** Witnesses *)
Lemma queue_invariant_witness :
  holds jobs_wf (exec_op (OpFail 0 "j" "boom") QueueDemo.e QueueDemo.claimed2).2.
Proof.
  apply (queue_invariant (OpFail 0 "j" "boom") QueueDemo.e QueueDemo.claimed2 I).
  split; apply QueueDemo.wf2.
Defined.

Lemma ClaimBatch_spec_witness :
  exists taken : list JobRow, (length taken <= 1)%nat /\
    map job_of taken <> [] \/ taken = [].
Proof.
  destruct (ClaimBatch_spec 1 QueueDemo.e QueueDemo.pending1
    [job_of (claim_row (QueueDemo.at_ 100) (QueueDemo.job "j" "pending" 1 None))] _ QueueDemo.wfp
    ltac:(vm_compute; reflexivity)) as (taken & Hlen & _).
  exists taken. destruct taken; [by right|left; split; [exact Hlen|done]].
Defined.

Lemma Fail_spec_witness :
  exists row, row ∈ jobs (db QueueDemo.claimed2) /\ j_max row <= j_attempts row.
Proof.
  destruct (Fail_spec 0 "j" "boom" QueueDemo.e QueueDemo.claimed2 _ QueueDemo.wf2
    ltac:(vm_compute; reflexivity)) as (row & now & Hin & _ & _ & Hcase).
  exists row. split; [exact Hin|]. destruct Hcase as [(Hlt & _)|(Hge & _)]; [|exact Hge].
  apply list_elem_of_singleton in Hin. rewrite Hin in Hlt. vm_compute in Hlt. discriminate Hlt.
Defined.

Lemma RequeueStaleClaims_spec_witness :
  Forall (fun j => stale (QueueDemo.at_ 100) (5 * Minute) j = false)
    (jobs (db (RequeueStaleClaims (5 * Minute) QueueDemo.e QueueDemo.claimed1).2)).
Proof.
  refine (proj2 (proj2 (proj2 (proj2 (RequeueStaleClaims_spec (5 * Minute) QueueDemo.e QueueDemo.claimed1
    1%nat 0%nat _ _))))).
  vm_compute. reflexivity.
Defined.

Lemma retryDelay_spec_witness : retryDelay 0 2 = 60 * Second.
Proof.
  destruct (retryDelay_spec 0 (db QueueDemo.claimed2) (QueueDemo.job "j" "claimed" 2 (Some (QueueDemo.at_ 2)))
    QueueDemo.wf2) as [H _]; [by left|done|exact H].
Defined.

Lemma Fail_long_error_keeps_claim_witness :
  exists err w', Fail_ 0 "j" (QueueDemo.repeat_char 2001) QueueDemo.e QueueDemo.claimed1 = (Err err, w') /\
    db w' = db QueueDemo.claimed1.
Proof.
  apply (Fail_long_error_keeps_claim 0 "j" (QueueDemo.repeat_char 2001) QueueDemo.e QueueDemo.claimed1
    QueueDemo.wf1). vm_compute. reflexivity.
Defined.
