(* ===== verification/Catalog.v ===== *)
(** * Reading the schedule: the queries of [internal/scheduling/repository.go]

    The repository's receiver, the statements that read services, staff, rules,
    busy intervals and bookings, [FindSlots] over them, the local dates a booking
    touches, and the classification of database errors. *)

From Stdlib Require Import ZArith Lia Ascii.
From stdpp Require Import base list strings sorting.
From S2P Require Import Prelude GoTime Json Engine Database.

#[local] Open Scope Z_scope.

(** What the server's host and database give: the zone database, the server's
    own zone, the collation of text columns and SHA-256 in hexadecimal. *)
Class Host := {
  LoadLocation : string -> result Location;
  Local : Location;
  collate : string -> string -> comparison;
  sha256_hex : string -> string
}.

Record FindSlotsRequest := mkFindSlots {
  fs_ServiceID : string; fs_StaffID : string; fs_From : Time; fs_To : Time;
  fs_SlotInterval : Z; fs_Limit : Z
}.

(** [r == nil || r.pool == nil] is [has_pool r = false]. *)
Record PGXRepository := mkRepository {
  has_pool : bool; tenantID : string; engine : Engine
}.

Definition ErrNilPool : error := ErrText "scheduling repository: nil pool".

Definition minutes (duration : Z) : Z := Z.quot duration Minute.

(** [strings.TrimSpace] on a text of ASCII characters. *)
Definition ascii_space (c : ascii) : bool := let n := code c in between 9 13 n || (n =? 32).

Fixpoint drop_space (l : list ascii) : list ascii :=
  match l with
  | [] => []
  | c :: tl => if ascii_space c then drop_space tl else l
  end.

Definition TrimSpace (s : string) : string :=
  of_bytes (rev (drop_space (rev (drop_space (string_bytes s))))).

Definition isTransactionRetry (err : error) : bool :=
  match pg_code err with
  | Some code => String.eqb code "40001" || String.eqb code "40P01"
  | None => false
  end.

Definition mapDatabaseError (err : error) : error :=
  if errors_is err ErrInvalidInput || errors_is err ErrNotFound ||
     errors_is err ErrSlotUnavailable || errors_is err ErrIdempotencyConflict ||
     errors_is err ErrBookingStateConflict || errors_is err ErrScheduleVersionConflict
  then err
  else match pg_code err with
       | Some code =>
           if String.eqb code "23P01" then ErrWrap "concurrent booking won the slot" ErrSlotUnavailable
           else if String.eqb code "23503" then ErrWrap "referenced scheduling resource" ErrNotFound
           else err
       | None => err
       end.

(** [for !day.After(last)]: [None] when the fuel runs out. *)
Fixpoint touched_days (fuel : nat) (day last : Time) : option (list string) :=
  if After day last then Some []
  else match fuel with
       | O => None
       | S f => match touched_days f (AddDate day 0 0 1) last with
                | Some l => Some (format_date day :: l)
                | None => None
                end
       end.

Definition touchedLocalDates (fuel : nat) (start stop : Time) (location : Location)
    : option (list string) :=
  if negb (Before start stop) then Some []
  else
    let localStart := In start location in
    let localLast := In (Add stop (- Nanosecond)) location in
    touched_days fuel (date_of localStart location) (date_of localLast location).

(** [StableStaffOrder], and the order of every listing by a name and an id. *)
Definition staff_less (a b : Staff) : bool :=
  if bool_decide (DisplayName a = DisplayName b) then string_less (stf_ID a) (stf_ID b)
  else string_less (DisplayName a) (DisplayName b).

Definition StableStaffOrder (staff : list Staff) : list Staff := sort_slice staff_less staff.

Section catalog.
Context `{Host} (fuel : nat).

Definition NewPGXRepository (pool : bool) (tenant : string) : PGXRepository :=
  mkRepository pool (if bool_decide (tenant = "") then DefaultTenantID else tenant)
    (NewEngine LoadLocation None).

Definition collated {A} (name id : A -> string) (a b : A) : bool :=
  match collate (name a) (name b) with
  | Lt => true
  | Gt => false
  | Eq => String.ltb (id a) (id b)
  end.

(** ** Services *)
Definition scanService (row : ServiceRow) : Service :=
  mkService (sv_id row) (sv_slug row) (sv_name row) (sv_description row)
    (sv_duration row * Minute) (sv_before row * Minute) (sv_after row * Minute)
    (sv_price row) (TrimSpace (sv_currency row)).

Definition active_service (tenant id : string) (row : ServiceRow) : bool :=
  String.eqb (sv_tenant row) tenant && String.eqb (sv_id row) id && sv_active row.

Definition ListServices (r : PGXRepository) : M (list Service) :=
  if negb (has_pool r) then fail ErrNilPool
  else
    let* rows := wrap "list services" (query Pool (fun _ _ _ d =>
      Ok (sort_slice (collated sv_name sv_id)
            (List.filter (fun row => String.eqb (sv_tenant row) (tenantID r) && sv_active row)
               (services d))))) in
    ret (map scanService rows).

(** [errors.Is(err, pgx.ErrNoRows)] picks the not-found error. *)
Definition no_rows_or (not_found : error) (msg : string) (err : error) : error :=
  if errors_is err ErrNoRows then not_found else ErrWrap msg err.

Definition loadService (q : queryer) (tenant serviceID : string) : M Service :=
  map_err (no_rows_or (ErrWrap "service" ErrNotFound) "load service") (
    let* row := query q (fun _ _ _ d =>
      Ok (List.find (active_service tenant serviceID) (services d))) in
    let* row := one_row row in
    ret (scanService row)).

(** ** Staff *)
Definition staff_of (row : StaffRow) : Staff :=
  mkStaff (st_id row) (st_slug row) (st_name row) (st_timezone row).

(** The join of staff, staff_services and services. *)
Definition eligible (tenant serviceID staffID : string) (d : DB) : list StaffRow :=
  flat_map (fun s =>
    flat_map (fun ss =>
      flat_map (fun svc =>
        if String.eqb (ss_tenant ss) (st_tenant s) && String.eqb (ss_staff ss) (st_id s) &&
           String.eqb (sv_tenant svc) (ss_tenant ss) && String.eqb (sv_id svc) (ss_service ss) &&
           String.eqb (st_tenant s) tenant && String.eqb (ss_service ss) serviceID &&
           (String.eqb staffID "" || String.eqb (st_id s) staffID) &&
           st_active s && sv_active svc
        then [s] else []) (services d)) (staff_services d)) (staff d).

Definition listStaff (q : queryer) (tenant serviceID staffID : string) : M (list Staff) :=
  let* rows := wrap "list staff" (query q (fun _ _ _ d =>
    Ok (sort_slice (collated st_name st_id) (eligible tenant serviceID staffID d)))) in
  ret (map staff_of rows).

Definition ListStaff (r : PGXRepository) (serviceID : string) : M (list Staff) :=
  if negb (has_pool r) then fail ErrNilPool
  else if bool_decide (serviceID = "") then fail (ErrWrap "service_id is required" ErrInvalidInput)
  else listStaff Pool (tenantID r) serviceID "".

Definition loadBookingInputs (r : PGXRepository) (q : queryer) (serviceID staffID : string)
    : M (Service * Staff) :=
  let* service := loadService q (tenantID r) serviceID in
  let* staff := listStaff q (tenantID r) serviceID staffID in
  match staff with
  | [member] => ret (service, member)
  | _ => fail (ErrWrap "staff is inactive or cannot perform service" ErrNotFound)
  end.

(** ** Rules *)
Definition rule_less (a b : RuleRow) : bool :=
  if ar_day a =? ar_day b then
    if ar_start a =? ar_start b then String.ltb (ar_type a) (ar_type b)
    else ar_start a <? ar_start b
  else ar_day a <? ar_day b.

(** [time.Parse("2006-01-02", d::text)]: four-digit years only. *)
Definition parse_date (msg : string) (days : Z) : result Time :=
  let y := (civil_from_days days).1.1 in
  if (1 <=? y) && (y <=? 9999) then Ok (mkTime (days * 86400 * Second) UTC)
  else Err (ErrWrap msg (ErrText "parsing time")).

Definition parse_opt (msg : string) (o : option Z) : result (option Time) :=
  match o with
  | None => Ok None
  | Some days => let! t := parse_date msg days in Ok (Some t)
  end.

Definition scan_rule (row : RuleRow) : result AvailabilityRule :=
  let! from := parse_opt "parse availability valid_from" (ar_from row) in
  let! until := parse_opt "parse availability valid_until" (ar_until row) in
  Ok (mkRule (ar_type row) (ar_day row) (ar_start row / 60) (ar_end row / 60) from until).

Fixpoint scan_rules (rows : list RuleRow) : result (list AvailabilityRule) :=
  match rows with
  | [] => Ok []
  | row :: tl =>
      let! rule := scan_rule row in
      let! rest := scan_rules tl in
      Ok (rule :: rest)
  end.

Definition loadRules (q : queryer) (tenant staffID : string) : M (list AvailabilityRule) :=
  let* rows := wrap "load availability rules" (query q (fun _ _ _ d =>
    Ok (sort_slice rule_less (List.filter (fun row => String.eqb (ar_tenant row) tenant &&
                                              String.eqb (ar_staff row) staffID) (rules d))))) in
  lift (scan_rules rows).

(** ** Busy intervals *)
Definition block_interval (b : BlockRow) : Interval := mkInterval (bl_starts b) (bl_ends b) 0 0.

Definition booking_interval (b : BookingRow) : Interval :=
  mkInterval (StartsAt (b_data b)) (EndsAt (b_data b))
    (BufferBeforeMinutes (b_data b) * Minute) (BufferAfterMinutes (b_data b) * Minute).

Definition busy_rows (tenant staffID : string) (qf qt : Time) (d : DB) : list Interval :=
  map block_interval (List.filter (fun b =>
    String.eqb (bl_tenant b) tenant && String.eqb (bl_staff b) staffID &&
    (ns (bl_starts b) <? ns qt) && (ns qf <? ns (bl_ends b))) (blocks d)) ++
  map booking_interval (List.filter (fun b =>
    String.eqb (b_tenant b) tenant && String.eqb (StaffID (b_data b)) staffID && active b &&
    (ns qf <? ns qt) && ranges_overlap (occ_start b) (occ_end b) (ns qf) (ns qt)) (bookings d)).

Definition loadBusy (q : queryer) (tenant staffID : string) (from to : Time) : M (list Interval) :=
  let queryFrom := Add from (-4 * Hour) in
  let queryTo := Add to (4 * Hour) in
  wrap "load busy intervals" (query q (fun _ _ _ d =>
    let qf := pg_time Local queryFrom in
    let qt := pg_time Local queryTo in
    if ns qt <? ns qf then Err (ErrPg "22000") else Ok (busy_rows tenant staffID qf qt d))).

(** ** One booking *)
Definition booking_row (p : BookingRow -> bool) (d : DB) : option Booking :=
  option_map b_data (List.find p (bookings d)).

Definition loadBooking (q : queryer) (tenant bookingID : string) : M Booking :=
  map_err (no_rows_or (ErrWrap "booking" ErrNotFound) "load booking") (
    let* o := query q (fun _ _ _ d => Ok (booking_row (is_booking tenant bookingID) d)) in
    one_row o).

Definition loadBookingForUpdate (tenant bookingID : string) : M Booking :=
  map_err (no_rows_or ErrNotFound "load booking for update") (
    let* o := query Tx (fun _ _ _ d => Ok (booking_row (is_booking tenant bookingID) d)) in
    one_row o).

(** ** [FindSlots] over every eligible member *)
Fixpoint search_staff (r : PGXRepository) (request : FindSlotsRequest) (service : Service)
    (perStaffLimit : Z) (members : list Staff) : M (list Slot) :=
  match members with
  | [] => ret []
  | member :: tl =>
      let* rules := loadRules Pool (tenantID r) (stf_ID member) in
      let* busy := loadBusy Pool (tenantID r) (stf_ID member) (fs_From request) (fs_To request) in
      let* slots := polling (fun ctx => FindSlots LoadLocation fuel (engine r) ctx
          (mkSearch service member (fs_From request) (fs_To request) rules busy
             (fs_SlotInterval request) perStaffLimit)) in
      let* rest := search_staff r request service perStaffLimit tl in
      ret (slots ++ rest)
  end.

Definition FindSlotsRepo (r : PGXRepository) (request : FindSlotsRequest) : M (list Slot) :=
  if negb (has_pool r) then fail ErrNilPool
  else if bool_decide (fs_ServiceID request = "") || IsZero (fs_From request) ||
          IsZero (fs_To request) || negb (Before (fs_From request) (fs_To request)) then
    fail (ErrWrap "service_id and a positive date range are required" ErrInvalidInput)
  else if (fs_Limit request <? 0) || (1000 <? fs_Limit request) then
    fail (ErrWrap "limit outside allowed range" ErrInvalidInput)
  else
    let* service := loadService Pool (tenantID r) (fs_ServiceID request) in
    let* members := listStaff Pool (tenantID r) (fs_ServiceID request) (fs_StaffID request) in
    if bool_decide (members = []) then fail (ErrWrap "no eligible staff" ErrNotFound)
    else
      let perStaffLimit := if fs_Limit request =? 0 then 1000 else fs_Limit request in
      let* all := search_staff r request service perStaffLimit members in
      let all := sortSlots all in
      ret (if (0 <? fs_Limit request) && (fs_Limit request <? Z.of_nat (length all))
           then take (Z.to_nat (fs_Limit request)) all else all).
End catalog.
