(* ===== verification/Repository.v ===== *)
(** * Changing bookings: the commands of [internal/scheduling/repository.go]

    Creating, rescheduling and cancelling a booking on the customer's path and on
    the operator's: idempotency keys, schedule locks, the availability recheck,
    the insert or update guarded by the exclusion constraint, the audit event,
    the outbox jobs, and the retry of serialization conflicts. *)

From Stdlib Require Import ZArith Lia Ascii.
From stdpp Require Import base list strings sorting.
From S2P Require Import Prelude GoTime Json Engine Database JobQueue Catalog.

#[local] Open Scope Z_scope.

Record CreateBookingRequest := mkCreate {
  cr_CustomerID : string; cr_ConversationID : string; cr_ServiceID : string;
  cr_StaffID : string; cr_StartsAt : Time; cr_Notes : string; cr_IdempotencyKey : string
}.

(** The results of the three commands have the same shape. *)
Record BookingResult := mkResult { res_Booking : Booking; Replayed : bool }.

Record RescheduleBookingRequest := mkReschedule {
  rs_BookingID : string; rs_OwnerCustomerID : string; rs_NewStartsAt : Time;
  rs_NewEndsAt : Time; rs_Timezone : string; rs_IdempotencyKey : string
}.

Record CancelBookingRequest := mkCancel {
  cn_BookingID : string; cn_OwnerCustomerID : string; cn_Reason : string;
  cn_IdempotencyKey : string
}.

Record AdminCreateBookingRequest := mkAdminCreate {
  ac_CustomerID : string; ac_ServiceID : string; ac_StaffID : string; ac_StartsAt : Time;
  ac_Notes : string; ac_ActorRef : string; ac_IdempotencyKey : string
}.

Record AdminRescheduleBookingRequest := mkAdminReschedule {
  ar_BookingID : string; ar_ExpectedVersion : Z; ar_NewStartsAt : Time;
  ar_ActorRef : string; ar_IdempotencyKey : string
}.

Record AdminCancelBookingRequest := mkAdminCancel {
  an_BookingID : string; an_ExpectedVersion : Z; an_Reason : string;
  an_ActorRef : string; an_IdempotencyKey : string
}.

Definition createBookingScope : string := "booking.create.v1".
Definition rescheduleScope : string := "booking.reschedule.v1".
Definition cancelScope : string := "booking.cancel.v1".
Definition adminCreateScope : string := "booking.admin_create.v1".
Definition adminRescheduleScope : string := "booking.admin_reschedule.v1".
Definition actorTypeAdmin : string := "admin".

Definition cat (l : list string) : string := foldr String.append EmptyString l.

Definition key_length_bad (key : string) : bool := (len key <? 16) || (128 <? len key).

(** ** Idempotency records *)
Definition is_key (tenant scope key : string) (i : IdemRow) : bool :=
  String.eqb (id_tenant i) tenant && String.eqb (id_scope i) scope && String.eqb (id_key i) key.

(** [INSERT ... ON CONFLICT DO NOTHING]: whether the row was inserted. *)
Definition reserve_key_sql (tenant scope key hash : string) : sql bool := fun now n e d =>
  let row := mkIdemRow tenant scope key hash "in_progress" None None None in
  if negb (idem_check row) then Err CheckViolation
  else if existsb (is_key tenant scope key) (idempotency d) then Ok (false, d)
  else if negb (string_in tenant (tenants d)) then Err ForeignKeyViolation
  else Ok (true, set_idempotency (idempotency d ++ [row]) d).

Definition reserve_key (tenant scope key hash : string) : M bool :=
  wrap "reserve idempotency key" (run Tx (reserve_key_sql tenant scope key hash)).

(** The branch taken when the key was used before. *)
Definition replay (tenant scope key requestHash : string) : M BookingResult :=
  let* stored := wrap "read idempotency key" (
    let* o := query Tx (fun _ _ _ d => Ok (List.find (is_key tenant scope key) (idempotency d))) in
    one_row o) in
  if negb (bool_decide (id_hash stored = requestHash)) then fail ErrIdempotencyConflict
  else
    let resourceID := default "" (id_resource stored) in
    if negb (bool_decide (id_status stored = "completed")) || bool_decide (resourceID = "")
    then fail (ErrText "idempotency record is unexpectedly incomplete")
    else
      let* booking := loadBooking Tx tenant resourceID in
      let* _ := wrap "commit idempotency replay" commit in
      ret (mkResult booking true).

Definition complete_idem (resource : string) (response : option Booking) (now : Time) (i : IdemRow)
    : IdemRow :=
  mkIdemRow (id_tenant i) (id_scope i) (id_key i) (id_hash i) "completed" (Some resource)
    (match response with Some b => Some b | None => id_response i end) (Some now).

Definition complete_key_sql (tenant scope key resource : string) (response : option Booking)
    : sql unit := fun now n e d =>
  let! (l, _) := sql_update idem_check (is_key tenant scope key) (complete_idem resource response now)
                   (idempotency d) in
  Ok (tt, set_idempotency l d).

Definition complete_key (tenant scope key resource : string) (response : option Booking) : M unit :=
  run Tx (complete_key_sql tenant scope key resource response).

(** ** Schedule locks *)
Definition is_lock (tenant staffID date : string) (l : LockRow) : bool :=
  String.eqb (lk_tenant l) tenant && String.eqb (lk_staff l) staffID && String.eqb (lk_date l) date.

Definition is_staff (tenant staffID : string) (s : StaffRow) : bool :=
  String.eqb (st_tenant s) tenant && String.eqb (st_id s) staffID.

Definition insert_lock_sql (tenant staffID date : string) : sql unit := fun now n e d =>
  if existsb (is_lock tenant staffID date) (schedule_locks d) then Ok (tt, d)
  else if negb (existsb (is_staff tenant staffID) (staff d)) then Err ForeignKeyViolation
  else Ok (tt, set_locks (schedule_locks d ++ [mkLockRow tenant staffID date]) d).

Fixpoint insert_locks (tenant staffID : string) (dates : list string) : M unit :=
  match dates with
  | [] => ret tt
  | date :: tl =>
      let* _ := wrap "materialize schedule lock" (run Tx (insert_lock_sql tenant staffID date)) in
      insert_locks tenant staffID tl
  end.

Fixpoint take_locks (tenant staffID : string) (dates : list string) : M unit :=
  match dates with
  | [] => ret tt
  | date :: tl =>
      let* _ := wrap "lock staff schedule" (
        let* o := query Tx (fun _ _ _ d => Ok (List.find (is_lock tenant staffID date) (schedule_locks d))) in
        one_row o) in
      take_locks tenant staffID tl
  end.

Definition acquireScheduleLocks (tenant staffID : string) (localDates : list string) : M unit :=
  let* _ := insert_locks tenant staffID localDates in
  take_locks tenant staffID localDates.

(** ** Writing bookings *)
Definition is_service (tenant id : string) (s : ServiceRow) : bool :=
  String.eqb (sv_tenant s) tenant && String.eqb (sv_id s) id.
Definition is_customer (tenant id : string) (c : CustomerRow) : bool :=
  String.eqb (cu_tenant c) tenant && String.eqb (cu_id c) id.
Definition is_conversation (tenant id customer : string) (c : ConversationRow) : bool :=
  String.eqb (cv_tenant c) tenant && String.eqb (cv_id c) id &&
  bool_decide (cv_customer c = Some customer).

Definition references_ok (row : BookingRow) (d : DB) : bool :=
  let b := b_data row in
  existsb (is_customer (b_tenant row) (CustomerID b)) (customers d) &&
  (String.eqb (ConversationID b) "" ||
   existsb (is_conversation (b_tenant row) (ConversationID b) (CustomerID b)) (conversations d)) &&
  existsb (is_service (b_tenant row) (ServiceID b)) (services d) &&
  existsb (is_staff (b_tenant row) (StaffID b)) (staff d).

Definition same_booking (a b : BookingRow) : bool := is_booking (b_tenant b) (b_id b) a.

Definition insert_booking (row : BookingRow) (d : DB) : result DB :=
  if negb (booking_check row) then Err CheckViolation
  else if existsb (same_booking row) (bookings d) then Err UniqueViolation
  else if existsb (excludes row) (bookings d) then Err ExclusionViolation
  else if negb (references_ok row d) then Err ForeignKeyViolation
  else Ok (set_bookings (bookings d ++ [row]) d).

Definition set_schedule (start stop : Time) (now : Time) (b : BookingRow) : BookingRow :=
  let d := b_data b in
  mkBookingRow (b_tenant b)
    (mkBooking (bk_ID d) (CustomerID d) (ConversationID d) (ServiceID d) (StaffID d) (Status d)
       start stop (BufferBeforeMinutes d) (BufferAfterMinutes d) (ScheduleVersion d + 1)
       (Notes d) (CreatedAt d) now)
    (b_reason b) (b_cancelled_at b).

Definition set_cancelled (reason : string) (now : Time) (b : BookingRow) : BookingRow :=
  let d := b_data b in
  mkBookingRow (b_tenant b)
    (mkBooking (bk_ID d) (CustomerID d) (ConversationID d) (ServiceID d) (StaffID d) "cancelled"
       (StartsAt d) (EndsAt d) (BufferBeforeMinutes d) (BufferAfterMinutes d) (ScheduleVersion d + 1)
       (Notes d) (CreatedAt d) now)
    (Some reason) (Some now).

(** [UPDATE bookings ... WHERE tenant_id, id AND status = 'confirmed' RETURNING]:
    the updated row is checked against every other row. *)
Definition update_booking (tenant bookingID : string) (f : BookingRow -> BookingRow) (d : DB)
    : result (option Booking * DB) :=
  let p b := is_booking tenant bookingID b && String.eqb (Status (b_data b)) "confirmed" in
  match List.find p (bookings d) with
  | None => Ok (None, d)
  | Some old =>
      let new := f old in
      if negb (booking_check new) then Err CheckViolation
      else if existsb (fun b => negb (same_booking new b) && excludes new b) (bookings d)
      then Err ExclusionViolation
      else Ok (Some (b_data new), set_bookings (update_rows p f (bookings d)) d)
  end.

Definition insert_event (row : EventRow) (d : DB) : result DB :=
  if negb (event_check row) then Err CheckViolation
  else if negb (existsb (is_booking (ev_tenant row) (ev_booking row)) (bookings d))
  then Err ForeignKeyViolation
  else Ok (set_events (booking_events d ++ [row]) d).

Definition insert_event_sql (row : EventRow) : sql unit := fun now n e d =>
  let! d' := insert_event row d in Ok (tt, d').

Section repository.
Context `{Host} (fuel : nat).

Definition insert_booking_sql (tenant customer conversation service staffID : string)
    (start stop : Time) (before after : Z) (notes : string) : sql Booking := fun now n e d =>
  let row := mkBookingRow tenant
    (mkBooking (uuid e n 0%nat) customer conversation service staffID "confirmed"
       (pg_time Local start) (pg_time Local stop) before after 1 notes now now) None None in
  let! d' := insert_booking row d in
  Ok (b_data row, d').

Definition reschedule_sql (tenant bookingID : string) (start stop : Time) : sql (option Booking) :=
  fun now n e d =>
  update_booking tenant bookingID (set_schedule (pg_time Local start) (pg_time Local stop) now) d.

Definition cancel_sql (tenant bookingID reason : string) : sql (option Booking) :=
  fun now n e d => update_booking tenant bookingID (set_cancelled reason now) d.

(** ** Validation and request hashes *)
Definition validateCreateBookingAt (request : CreateBookingRequest) (now : Time) : result unit :=
  if bool_decide (cr_CustomerID request = "") || bool_decide (cr_ServiceID request = "") ||
     bool_decide (cr_StaffID request = "") || IsZero (cr_StartsAt request) then
    Err (ErrWrap "customer, service, staff, and start are required" ErrInvalidInput)
  else if negb (After (cr_StartsAt request) now) then
    Err (ErrWrap "booking start must be in the future" ErrSlotUnavailable)
  else if key_length_bad (cr_IdempotencyKey request) then
    Err (ErrWrap "idempotency key length must be 16..128" ErrInvalidInput)
  else if 500 <? len (cr_Notes request) then
    Err (ErrWrap "notes exceed 500 bytes" ErrInvalidInput)
  else Ok tt.

(** A field tagged [omitempty]. *)
Definition omitempty (name value : string) : list (string * json) :=
  if bool_decide (value = "") then [] else [(name, JStr value)].

Definition hashCreateBooking (request : CreateBookingRequest) : string :=
  sha256_hex (Marshal (JObj (
    [("customer_id", JStr (cr_CustomerID request))] ++
    omitempty "conversation_id" (cr_ConversationID request) ++
    [("service_id", JStr (cr_ServiceID request)); ("staff_id", JStr (cr_StaffID request));
     ("starts_at", JStr (RFC3339Nano (ToUTC (cr_StartsAt request))))] ++
    omitempty "notes" (cr_Notes request)))).

Definition hashAdminCreateBooking (request : AdminCreateBookingRequest) : string :=
  sha256_hex (Marshal (JObj (
    [("customer_id", JStr (ac_CustomerID request)); ("service_id", JStr (ac_ServiceID request));
     ("staff_id", JStr (ac_StaffID request));
     ("starts_at", JStr (RFC3339Nano (ToUTC (ac_StartsAt request))))] ++
    omitempty "notes" (ac_Notes request)))).

(** ** The outbox of a new booking *)
Definition reminder_payload (c : CustomerRow) (booking : Booking)
    (serviceName staffName staffTimezone : string) : json :=
  JObj [("customer_email", JStr (default "" (cu_email c))); ("customer_name", JStr (cu_name c));
        ("customer_phone", JStr (default "" (cu_phone c))); ("service_name", JStr serviceName);
        ("staff_name", JStr staffName); ("starts_at", JStr (RFC3339 (StartsAt booking)));
        ("timezone", JStr staffTimezone)].

Definition crm_payload (c : CustomerRow) (booking : Booking) : json :=
  JObj [("customer_id", JStr (CustomerID booking)); ("display_name", JStr (cu_name c));
        ("email", JStr (default "" (cu_email c))); ("phone", JStr (default "" (cu_phone c)))].

Definition reminder_key (bookingID : string) : string := String.append "reminder:" bookingID.
Definition crm_key (bookingID : string) : string := String.append "crm_upsert:" bookingID.

Definition enqueueBookingCreatedJobs (tenant : string) (booking : Booking)
    (serviceName staffName staffTimezone : string) : M unit :=
  let* c := wrap "load customer for booking jobs" (
    let* o := query Tx (fun _ _ _ d => Ok (List.find (is_customer tenant (CustomerID booking)) (customers d))) in
    one_row o) in
  let* _ := wrap "enqueue send_reminder job" (run Tx (insert_job_sql tenant (bk_ID booking)
    "send_reminder" (reminder_payload c booking serviceName staffName staffTimezone) 5
    (reminder_key (bk_ID booking)))) in
  wrap "enqueue crm_upsert_contact job" (run Tx (insert_job_sql tenant (bk_ID booking)
    "crm_upsert_contact" (crm_payload c booking) 5 (crm_key (bk_ID booking)))).

(** ** Retrying a serialization conflict: three attempts *)
Fixpoint retry_loop {A} (again : nat) (once : M A) : M A := fun e w =>
  match once e w with
  | (Ok a, w') => (Ok a, w')
  | (Err err, w') =>
      if negb (isTransactionRetry err) then (Err (mapDatabaseError err), w')
      else match again with
           | O => (Err (mapDatabaseError err), w')
           | S k => (let* _ := ctx_check in retry_loop k once) e w'
           end
  end.

Definition with_retry {A} (once : M A) : M A := retry_loop 2 once.

(** ** Creating *)
Definition still_future (start : Time) : M bool :=
  wrap "recheck booking start time"
    (query Tx (fun _ n e _ => Ok (After (pg_time Local start) (clock e n)))).

Definition location_of (member : Staff) : M Location :=
  match LoadLocation (Timezone member) with
  | Ok l => ret l
  | Err err => fail (ErrWrap2 "stored staff timezone" ErrInvalidInput err)
  end.

(** Both creating paths end alike: the audit event, the outbox, the completed
    idempotency record and the commit. *)
Definition finish_create (r : PGXRepository) (scope key actor : string) (actorRef : option string)
    (committing : string) (service : Service) (member : Staff) (booking : Booking) : M BookingResult :=
  let* _ := wrap "insert booking event" (run Tx (insert_event_sql
    (mkEventRow (tenantID r) (bk_ID booking) "created" actor actorRef None booking))) in
  let* _ := enqueueBookingCreatedJobs (tenantID r) booking (svc_Name service)
    (DisplayName member) (Timezone member) in
  let* _ := wrap "complete idempotency key" (complete_key (tenantID r) scope key
    (bk_ID booking) (Some booking)) in
  let* _ := wrap committing commit in
  ret (mkResult booking false).

(** The search [createBookingOnce] asks the engine about. *)
Definition recheck_input (service : Service) (member : Staff) (dayStart dayEnd : Time)
    (rules : list AvailabilityRule) (busy : list Interval) : SearchInput :=
  mkSearch service member dayStart dayEnd rules busy (15 * Minute) 0.

Definition createBookingOnce (r : PGXRepository) (request : CreateBookingRequest)
    (requestHash : string) : M BookingResult :=
  let scope := cat [createBookingScope; ":"; cr_CustomerID request] in
  with_tx "begin booking transaction" (
    let* inserted := reserve_key (tenantID r) scope (cr_IdempotencyKey request) requestHash in
    if negb inserted then replay (tenantID r) scope (cr_IdempotencyKey request) requestHash
    else
      let* (service, member) := loadBookingInputs r Tx (cr_ServiceID request) (cr_StaffID request) in
      let* location := location_of member in
      let endsAt := Add (cr_StartsAt request) (Duration service) in
      let* lockDates := looped (option_map Ok (touchedLocalDates fuel
        (Add (cr_StartsAt request) (- BufferBefore service)) (Add endsAt (BufferAfter service)) location)) in
      let* _ := acquireScheduleLocks (tenantID r) (cr_StaffID request) lockDates in
      let* future := still_future (cr_StartsAt request) in
      if negb future then fail ErrSlotUnavailable
      else
        let* rules := loadRules Tx (tenantID r) (stf_ID member) in
        let dayStart := date_of (In (cr_StartsAt request) location) location in
        let dayEnd := AddDate dayStart 0 0 1 in
        let* busy := loadBusy Tx (tenantID r) (stf_ID member) dayStart dayEnd in
        let* available := polling (fun ctx => IsAvailable LoadLocation fuel (engine r) ctx
          (recheck_input service member dayStart dayEnd rules busy) (cr_StartsAt request)) in
        if negb available then fail ErrSlotUnavailable
        else
          let* booking := wrap "insert booking" (run Tx (insert_booking_sql (tenantID r)
            (cr_CustomerID request) (cr_ConversationID request) (cr_ServiceID request)
            (cr_StaffID request) (cr_StartsAt request) endsAt (minutes (BufferBefore service))
            (minutes (BufferAfter service)) (cr_Notes request))) in
          finish_create r scope (cr_IdempotencyKey request) "agent" None "commit booking"
            service member booking).

(** [now] is the application clock of the early check. *)
Definition CreateBooking (r : PGXRepository) (now : Time) (request : CreateBookingRequest)
    : M BookingResult :=
  if negb (has_pool r) then fail ErrNilPool
  else
    let* _ := lift (validateCreateBookingAt request now) in
    with_retry (createBookingOnce r request (hashCreateBooking request)).

(** ** Rescheduling *)
Definition is_owned (tenant bookingID owner : string) (b : BookingRow) : bool :=
  is_booking tenant bookingID b && String.eqb (CustomerID (b_data b)) owner.

Definition load_owned (msg tenant bookingID owner : string) : M Booking :=
  map_err (no_rows_or ErrNotFound msg) (
    let* o := query Tx (fun _ _ _ d => Ok (booking_row (is_owned tenant bookingID owner) d)) in
    one_row o).

Definition time_hash (t : Time) : string := RFC3339Nano (ToUTC t).

Definition rescheduleHash (request : RescheduleBookingRequest) : string :=
  cat ["reschedule:"; rs_BookingID request; ":"; time_hash (rs_NewStartsAt request); ":";
       time_hash (rs_NewEndsAt request)].

(** Both reschedule paths fall back to UTC for an unknown zone. *)
Definition location_or_utc (name : string) : Location :=
  match LoadLocation name with Ok l => l | Err _ => UTC end.

(** From the schedule locks to the moved reminder. *)
Definition move_booking (r : PGXRepository) (current : Booking) (start stop : Time)
    (timezone bookingID actor : string) (actorRef : option string) : M Booking :=
  let* lockDates := looped (option_map Ok (touchedLocalDates fuel
    (Add start (- (BufferBeforeMinutes current * Minute)))
    (Add stop (BufferAfterMinutes current * Minute)) (location_or_utc timezone))) in
  let* _ := acquireScheduleLocks (tenantID r) (StaffID current) lockDates in
  let* updated := wrap "update booking" (
    let* o := run Tx (reschedule_sql (tenantID r) bookingID start stop) in one_row o) in
  let* _ := wrap "insert reschedule event" (run Tx (insert_event_sql
    (mkEventRow (tenantID r) (bk_ID updated) "rescheduled" actor actorRef (Some current) updated))) in
  let* _ := UpdateReminderSchedule (tenantID r) (bk_ID updated) (StartsAt updated) timezone in
  ret updated.

Definition rescheduleBookingOnce (r : PGXRepository) (request : RescheduleBookingRequest)
    : M BookingResult :=
  let scope := cat [rescheduleScope; ":"; rs_OwnerCustomerID request] in
  let key := rs_IdempotencyKey request in
  with_tx "begin reschedule transaction" (
    let* fresh := if bool_decide (key = "") then ret true
                  else reserve_key (tenantID r) scope key (rescheduleHash request) in
    if negb fresh then replay (tenantID r) scope key (rescheduleHash request)
    else
      let* current := load_owned "load booking for reschedule" (tenantID r) (rs_BookingID request)
        (rs_OwnerCustomerID request) in
      if negb (bool_decide (Status current = "confirmed")) then fail ErrBookingStateConflict
      else
        let* updated := move_booking r current (rs_NewStartsAt request) (rs_NewEndsAt request)
          (rs_Timezone request) (rs_BookingID request) "agent" None in
        let* _ := if bool_decide (key = "") then ret tt
                  else ignore (complete_key (tenantID r) scope key (bk_ID updated) None) in
        let* _ := wrap "commit reschedule" commit in
        ret (mkResult updated false)).

Definition RescheduleBooking (r : PGXRepository) (request : RescheduleBookingRequest)
    : M BookingResult :=
  if negb (has_pool r) then fail ErrNilPool
  else if bool_decide (rs_BookingID request = "") || bool_decide (rs_OwnerCustomerID request = "") ||
          IsZero (rs_NewStartsAt request) || IsZero (rs_NewEndsAt request) then
    fail (ErrWrap "booking_id, owner, and new time range are required" ErrInvalidInput)
  else if negb (Before (rs_NewStartsAt request) (rs_NewEndsAt request)) then
    fail (ErrWrap "new_starts_at must be before new_ends_at" ErrInvalidInput)
  else with_retry (rescheduleBookingOnce r request).

(** ** Cancelling *)
Definition cancelHash (request : CancelBookingRequest) : string :=
  cat ["cancel:"; cn_BookingID request; ":"; cn_Reason request].

(** From the update to the retired reminder. *)
Definition retire_booking (r : PGXRepository) (current : Booking) (reason bookingID actor : string)
    (actorRef : option string) : M Booking :=
  let* cancelled := wrap "cancel booking" (
    let* o := run Tx (cancel_sql (tenantID r) bookingID reason) in one_row o) in
  let* _ := wrap "insert cancel event" (run Tx (insert_event_sql
    (mkEventRow (tenantID r) (bk_ID cancelled) "cancelled" actor actorRef (Some current) cancelled))) in
  let* _ := CancelBookingJobs (tenantID r) (bk_ID cancelled) "send_reminder" in
  ret cancelled.

Definition cancelBookingOnce (r : PGXRepository) (request : CancelBookingRequest)
    : M BookingResult :=
  let scope := cat [cancelScope; ":"; cn_OwnerCustomerID request] in
  let key := cn_IdempotencyKey request in
  with_tx "begin cancel transaction" (
    let* fresh := if bool_decide (key = "") then ret true
                  else reserve_key (tenantID r) scope key (cancelHash request) in
    if negb fresh then replay (tenantID r) scope key (cancelHash request)
    else
      let* current := load_owned "load booking for cancel" (tenantID r) (cn_BookingID request)
        (cn_OwnerCustomerID request) in
      if bool_decide (Status current = "cancelled") then
        let* _ := wrap "commit already-cancelled" commit in
        ret (mkResult current true)
      else if negb (bool_decide (Status current = "confirmed")) then fail ErrBookingStateConflict
      else
        let* cancelled := retire_booking r current (cn_Reason request) (cn_BookingID request)
          "agent" None in
        let* _ := if bool_decide (key = "") then ret tt
                  else ignore (complete_key (tenantID r) scope key (bk_ID cancelled) None) in
        let* _ := wrap "commit cancel" commit in
        ret (mkResult cancelled false)).

Definition CancelBooking (r : PGXRepository) (request : CancelBookingRequest) : M BookingResult :=
  if negb (has_pool r) then fail ErrNilPool
  else if bool_decide (cn_BookingID request = "") || bool_decide (cn_OwnerCustomerID request = "") ||
          bool_decide (cn_Reason request = "") then
    fail (ErrWrap "booking_id, owner, and reason are required" ErrInvalidInput)
  else with_retry (cancelBookingOnce r request).

(** ** The operator's paths *)
Definition actor_ref (ref : string) : string := if bool_decide (ref = "") then "operator" else ref.

Definition adminCreateBookingOnce (r : PGXRepository) (request : AdminCreateBookingRequest)
    (actorRef requestHash : string) : M BookingResult :=
  let scope := cat [adminCreateScope; ":"; ac_CustomerID request] in
  with_tx "begin admin booking transaction" (
    let* inserted := reserve_key (tenantID r) scope (ac_IdempotencyKey request) requestHash in
    if negb inserted then replay (tenantID r) scope (ac_IdempotencyKey request) requestHash
    else
      let* (service, member) := loadBookingInputs r Tx (ac_ServiceID request) (ac_StaffID request) in
      let* location := location_of member in
      let endsAt := Add (ac_StartsAt request) (Duration service) in
      let* lockDates := looped (option_map Ok (touchedLocalDates fuel
        (Add (ac_StartsAt request) (- BufferBefore service)) (Add endsAt (BufferAfter service)) location)) in
      let* _ := acquireScheduleLocks (tenantID r) (ac_StaffID request) lockDates in
      let* future := still_future (ac_StartsAt request) in
      if negb future then fail ErrSlotUnavailable
      else
        let* booking := wrap "insert booking" (run Tx (insert_booking_sql (tenantID r)
          (ac_CustomerID request) "" (ac_ServiceID request) (ac_StaffID request)
          (ac_StartsAt request) endsAt (minutes (BufferBefore service))
          (minutes (BufferAfter service)) (ac_Notes request))) in
        finish_create r scope (ac_IdempotencyKey request) actorTypeAdmin (Some actorRef)
          "commit admin booking" service member booking).

Definition AdminCreateBooking (r : PGXRepository) (request : AdminCreateBookingRequest)
    : M BookingResult :=
  if negb (has_pool r) then fail ErrNilPool
  else if bool_decide (ac_CustomerID request = "") || bool_decide (ac_ServiceID request = "") ||
          bool_decide (ac_StaffID request = "") || IsZero (ac_StartsAt request) then
    fail (ErrWrap "customer, service, staff, and start are required" ErrInvalidInput)
  else if 500 <? len (ac_Notes request) then fail (ErrWrap "notes exceed 500 bytes" ErrInvalidInput)
  else if key_length_bad (ac_IdempotencyKey request) then
    fail (ErrWrap "idempotency key length must be 16..128" ErrInvalidInput)
  else with_retry (adminCreateBookingOnce r request (actor_ref (ac_ActorRef request))
                     (hashAdminCreateBooking request)).

Definition adminRescheduleHash (request : AdminRescheduleBookingRequest) : string :=
  cat ["reschedule:"; ar_BookingID request; ":"; time_hash (ar_NewStartsAt request)].

Definition load_timezone (tenant staffID : string) : M string :=
  wrap "load staff timezone" (
    let* o := query Tx (fun _ _ _ d =>
      Ok (option_map st_timezone (List.find (is_staff tenant staffID) (staff d)))) in
    one_row o).

Definition adminRescheduleBookingOnce (r : PGXRepository) (request : AdminRescheduleBookingRequest)
    (actorRef : string) : M BookingResult :=
  let scope := cat [adminRescheduleScope; ":"; ar_BookingID request] in
  let key := ar_IdempotencyKey request in
  with_tx "begin admin reschedule transaction" (
    let* inserted := reserve_key (tenantID r) scope key (adminRescheduleHash request) in
    if negb inserted then replay (tenantID r) scope key (adminRescheduleHash request)
    else
      let* current := loadBookingForUpdate (tenantID r) (ar_BookingID request) in
      if negb (ScheduleVersion current =? ar_ExpectedVersion request) then fail ErrScheduleVersionConflict
      else if negb (bool_decide (Status current = "confirmed")) then fail ErrBookingStateConflict
      else
        let newEndsAt := Add (ar_NewStartsAt request) (Sub (EndsAt current) (StartsAt current)) in
        let* staffTimezone := load_timezone (tenantID r) (StaffID current) in
        let* updated := move_booking r current (ar_NewStartsAt request) newEndsAt staffTimezone
          (ar_BookingID request) actorTypeAdmin (Some actorRef) in
        let* _ := wrap "complete idempotency key"
          (complete_key (tenantID r) scope key (bk_ID updated) None) in
        let* _ := wrap "commit admin reschedule" commit in
        ret (mkResult updated false)).

Definition AdminRescheduleBooking (r : PGXRepository) (request : AdminRescheduleBookingRequest)
    : M BookingResult :=
  if negb (has_pool r) then fail ErrNilPool
  else if bool_decide (ar_BookingID request = "") || IsZero (ar_NewStartsAt request) then
    fail (ErrWrap "booking_id and new start are required" ErrInvalidInput)
  else if ar_ExpectedVersion request <=? 0 then
    fail (ErrWrap "expected_version must be positive" ErrInvalidInput)
  else if key_length_bad (ar_IdempotencyKey request) then
    fail (ErrWrap "idempotency key length must be 16..128" ErrInvalidInput)
  else with_retry (adminRescheduleBookingOnce r request (actor_ref (ar_ActorRef request))).

Definition adminCancelBookingOnce (r : PGXRepository) (request : AdminCancelBookingRequest)
    (actorRef : string) : M BookingResult :=
  with_tx "begin admin cancel transaction" (
    let* current := loadBookingForUpdate (tenantID r) (an_BookingID request) in
    if bool_decide (Status current = "cancelled") then
      let* _ := wrap "commit already-cancelled" commit in
      ret (mkResult current true)
    else if negb (ScheduleVersion current =? an_ExpectedVersion request) then fail ErrScheduleVersionConflict
    else if negb (bool_decide (Status current = "confirmed")) then fail ErrBookingStateConflict
    else
      let* cancelled := retire_booking r current (an_Reason request) (an_BookingID request)
        actorTypeAdmin (Some actorRef) in
      let* _ := wrap "commit admin cancel" commit in
      ret (mkResult cancelled false)).

Definition AdminCancelBooking (r : PGXRepository) (request : AdminCancelBookingRequest)
    : M BookingResult :=
  if negb (has_pool r) then fail ErrNilPool
  else if bool_decide (an_BookingID request = "") || bool_decide (an_Reason request = "") then
    fail (ErrWrap "booking_id and reason are required" ErrInvalidInput)
  else if an_ExpectedVersion request <=? 0 then
    fail (ErrWrap "expected_version must be positive" ErrInvalidInput)
  else if 500 <? len (an_Reason request) then fail (ErrWrap "reason exceeds 500 bytes" ErrInvalidInput)
  else if key_length_bad (an_IdempotencyKey request) then
    fail (ErrWrap "idempotency key length must be 16..128" ErrInvalidInput)
  else with_retry (adminCancelBookingOnce r request (actor_ref (an_ActorRef request))).
End repository.
