(* ===== verification/RepositoryFacts.v ===== *)
(** * Lemmas about the booking commands

    The invariant of the booking table and its preservation by each statement,
    the atomicity of every command, and what the retry loop returns. *)

From Stdlib Require Import ZArith Lia Ascii.
From stdpp Require Import base list strings sorting.
From S2P Require Import Prelude GoTime Json Engine Database DatabaseFacts JobQueue Catalog Repository.

#[local] Open Scope Z_scope.

(** ** Rows and their keys *)
Definition booking_key (b : BookingRow) : string * string := (b_tenant b, b_id b).

Lemma is_booking_spec t id b : is_booking t id b = true <-> b_tenant b = t /\ b_id b = id.
Proof. unfold is_booking. by rewrite andb_true_iff, !String.eqb_eq. Qed.

Lemma same_booking_spec a b : same_booking a b = true <-> booking_key a = booking_key b.
Proof. unfold same_booking. rewrite is_booking_spec. unfold booking_key. split; [intros [-> ->]|intros [= -> ->]]; done. Qed.

Lemma string_in_spec s l : string_in s l = true <-> s ∈ l.
Proof.
  unfold string_in. rewrite existsb_exists, list_elem_of_In. split.
  - intros (x & Hx & ->%String.eqb_eq). done.
  - intros Hs. exists s. by rewrite String.eqb_refl.
Qed.

Lemma excludes_sym a b : excludes a b = excludes b a.
Proof.
  unfold excludes, ranges_overlap. rewrite (String.eqb_sym (b_tenant a)), (String.eqb_sym (StaffID (b_data a))).
  destruct (String.eqb _ _), (String.eqb _ _), (active a), (active b); simpl; try done.
  apply andb_comm.
Qed.

(** ** The invariant of the booking table *)
Definition micro (t : Time) : Prop := ns t mod 1000 = 0.

Definition booking_wf (b : BookingRow) : Prop :=
  booking_check b = true /\ micro (StartsAt (b_data b)) /\ micro (EndsAt (b_data b)).

Definition schedule_wf (d : DB) : Prop :=
  NoDup (booking_key <$> bookings d) /\ Forall booking_wf (bookings d) /\
  (forall a b, a ∈ bookings d -> b ∈ bookings d -> booking_key a <> booking_key b ->
     excludes a b = false).

Lemma schedule_wf_same d d' : bookings d' = bookings d -> schedule_wf d -> schedule_wf d'.
Proof. unfold schedule_wf. by intros ->. Qed.

Lemma micro_pg_time l t : micro (pg_time l t).
Proof. unfold micro, pg_time. simpl. rewrite Z.mod_mul; lia. Qed.

Lemma existsb_false {A} (p : A -> bool) l : existsb p l = false <-> forall x, x ∈ l -> p x = false.
Proof.
  split.
  - intros H x Hx. destruct (p x) eqn:Hp; [|done].
    assert (existsb p l = true); [|congruence]. apply existsb_exists. exists x.
    split; [by apply list_elem_of_In|done].
  - intros H. apply not_true_is_false. intros (x & Hx%list_elem_of_In & Hp)%existsb_exists.
    rewrite H in Hp; done.
Qed.

Lemma insert_booking_Ok row d d' :
  insert_booking row d = Ok d' ->
  booking_check row = true /\ existsb (same_booking row) (bookings d) = false /\
  existsb (excludes row) (bookings d) = false /\ references_ok row d = true /\
  d' = set_bookings (bookings d ++ [row]) d.
Proof.
  unfold insert_booking. repeat (destruct (booking_check _) || destruct (existsb _ _) || destruct (references_ok _ _)); simpl; try done.
  by intros [= <-].
Qed.

Lemma insert_booking_wf row d d' :
  micro (StartsAt (b_data row)) -> micro (EndsAt (b_data row)) ->
  schedule_wf d -> insert_booking row d = Ok d' -> schedule_wf d'.
Proof.
  intros Hs He (Hnd & Hwf & Hex) (Hc & Hk & Hx & _ & ->)%insert_booking_Ok.
  rewrite existsb_false in Hk, Hx. unfold schedule_wf; simpl. split; [|split].
  - rewrite fmap_app. apply NoDup_app. split; [done|]. split; [|apply NoDup_singleton].
    intros k (b & -> & Hb)%list_elem_of_fmap Hin. apply list_elem_of_singleton in Hin.
    assert (Hsame : same_booking row b = true) by by apply same_booking_spec. rewrite Hk in Hsame; done.
  - apply Forall_app. split; [done|]. by apply Forall_singleton.
  - intros a b Ha Hb Hne. apply elem_of_app in Ha, Hb. rewrite list_elem_of_singleton in Ha, Hb.
    destruct Ha as [Ha| ->], Hb as [Hb| ->]; [by apply Hex| |by apply Hx|done].
    rewrite excludes_sym. by apply Hx.
Qed.

(** Only the row found by the update is rewritten. *)
Definition target (tenant id : string) (b : BookingRow) : bool :=
  is_booking tenant id b && String.eqb (Status (b_data b)) "confirmed".

Lemma update_booking_Ok tenant id f d o d' :
  update_booking tenant id f d = Ok (o, d') ->
  (o = None /\ d' = d) \/
  exists old, o = Some (b_data (f old)) /\ List.find (target tenant id) (bookings d) = Some old /\
    booking_check (f old) = true /\
    (forall b, b ∈ bookings d -> booking_key b <> booking_key (f old) -> excludes (f old) b = false) /\
    d' = set_bookings (update_rows (target tenant id) f (bookings d)) d.
Proof.
  unfold update_booking. fold (target tenant id).
  destruct (List.find _ _) as [old|] eqn:Hf; [|intros [= <- <-]; by left].
  destruct (booking_check _) eqn:Hc; [|done]. simpl.
  destruct (existsb _ _) eqn:Hx; [done|]. intros [= <- <-]. right. exists old.
  do 3 (split; [done|]). split; [|done]. intros b Hb Hne.
  rewrite existsb_false in Hx. specialize (Hx b Hb). apply andb_false_iff in Hx as [Hx|Hx]; [|done].
  apply negb_false_iff, same_booking_spec in Hx. congruence.
Qed.

Lemma target_unique tenant id d old b :
  NoDup (booking_key <$> bookings d) -> List.find (target tenant id) (bookings d) = Some old ->
  b ∈ bookings d -> booking_key b = booking_key old -> b = old.
Proof.
  intros Hnd Hf Hb Hk. apply List.find_some in Hf as [Ho%list_elem_of_In _].
  apply list_elem_of_lookup in Hb as [i Hi], Ho as [j Hj]. assert (i = j); [|congruence].
  eapply (NoDup_lookup _ i j (booking_key b) Hnd); rewrite list_lookup_fmap.
  - by rewrite Hi.
  - rewrite Hk. by rewrite Hj.
Qed.

Lemma target_spec tenant id b :
  target tenant id b = true <-> booking_key b = (tenant, id) /\ Status (b_data b) = "confirmed".
Proof.
  unfold target. rewrite andb_true_iff, is_booking_spec, String.eqb_eq. unfold booking_key.
  split; [intros [[-> ->] ->]|intros [[= -> ->] ->]]; done.
Qed.

Lemma update_booking_wf tenant id f d o d' :
  (forall b, booking_key (f b) = booking_key b) ->
  (forall b, booking_wf b -> micro (StartsAt (b_data (f b))) /\ micro (EndsAt (b_data (f b)))) ->
  schedule_wf d -> update_booking tenant id f d = Ok (o, d') -> schedule_wf d'.
Proof.
  intros Hkey Hmicro Hd Hu. apply update_booking_Ok in Hu as [[_ ->]|(old & _ & Hf & Hc & Hx & ->)]; [done|].
  destruct Hd as (Hnd & Hwf & Hex).
  assert (Hup : forall b, b ∈ bookings d -> target tenant id b = true -> b = old).
  { intros b Hb [Hk _]%target_spec. apply (target_unique tenant id d); [done..|].
    apply List.find_some in Hf as [_ [Hk' _]%target_spec]. congruence. }
  assert (Hold : old ∈ bookings d) by (apply List.find_some in Hf as [Ho%list_elem_of_In _]; done).
  unfold schedule_wf; simpl. split; [|split].
  - rewrite fmap_update_rows; [done|]. intros; apply Hkey.
  - rewrite Forall_forall in Hwf |- *. intros b (b0 & Hb0 & ->)%elem_of_update_rows.
    destruct (target tenant id b0) eqn:Ht; [|by apply Hwf].
    rewrite (Hup _ Hb0 Ht). split; [done|]. by apply Hmicro, Hwf.
  - intros a b (a0 & Ha0 & ->)%elem_of_update_rows (b0 & Hb0 & ->)%elem_of_update_rows.
    destruct (target tenant id a0) eqn:Hta, (target tenant id b0) eqn:Htb; intros Hne.
    + rewrite (Hup _ Ha0 Hta), (Hup _ Hb0 Htb) in Hne. done.
    + rewrite (Hup _ Ha0 Hta) in Hne |- *. by apply Hx.
    + rewrite (Hup _ Hb0 Htb) in Hne |- *. rewrite excludes_sym. by apply Hx.
    + by apply Hex.
Qed.

(** ** Statements that leave the bookings alone *)
Definition keeps_bookings {A} (s : sql A) : Prop :=
  forall now n e d a d', s now n e d = Ok (a, d') -> bookings d' = bookings d.

Lemma keeps_bookings_wf {A} (s : sql A) : keeps_bookings s -> sql_preserves schedule_wf s.
Proof. intros Hs now n e d a d' Hd H. eapply schedule_wf_same; [by eapply Hs|done]. Qed.

Lemma keeps_reserve t sc k h : keeps_bookings (reserve_key_sql t sc k h).
Proof.
  intros now n e d a d'. unfold reserve_key_sql. repeat case_match; intros; simplify_eq/=; done.
Qed.

Lemma keeps_complete t sc k r o : keeps_bookings (complete_key_sql t sc k r o).
Proof. intros now n e d a d' ([l x] & _ & [= _ <-])%rbind_Ok. done. Qed.

Lemma keeps_lock t s l : keeps_bookings (insert_lock_sql t s l).
Proof.
  intros now n e d a d'. unfold insert_lock_sql. repeat case_match; intros; simplify_eq/=; done.
Qed.

Lemma keeps_event row : keeps_bookings (insert_event_sql row).
Proof.
  intros now n e d a d' (d1 & H & [= _ <-])%rbind_Ok. unfold insert_event in H.
  repeat case_match; simplify_eq/=; done.
Qed.

Lemma keeps_job t b ty p m k : keeps_bookings (insert_job_sql t b ty p m k).
Proof.
  intros now n e d a d' (d1 & H & [= _ <-])%rbind_Ok. unfold insert_job in H.
  repeat case_match; simplify_eq/=; done.
Qed.

Lemma keeps_cancel_jobs t b ty : keeps_bookings (cancel_jobs_sql t b ty).
Proof. intros now n e d a d' ([l x] & _ & [= _ <-])%rbind_Ok. done. Qed.

Lemma keeps_move t b s tz : keeps_bookings (move_reminders_sql t b s tz).
Proof. intros now n e d a d' ([l x] & _ & [= _ <-])%rbind_Ok. done. Qed.

#[export] Hint Resolve keeps_bookings_wf keeps_reserve keeps_complete keeps_lock keeps_event
  keeps_job keeps_cancel_jobs keeps_move : db.

Section commands.
Context `{Host} (fuel : nat).

Lemma insert_booking_sql_wf t c cv s st a b x y n :
  sql_preserves schedule_wf (insert_booking_sql t c cv s st a b x y n).
Proof.
  intros now k e d r d' Hd Hr. apply rbind_Ok in Hr as (d1 & Hi & [= _ <-]).
  eapply insert_booking_wf; [| |exact Hd|exact Hi]; apply micro_pg_time.
Qed.

Lemma reschedule_sql_wf t id a b : sql_preserves schedule_wf (reschedule_sql t id a b).
Proof.
  intros now k e d r d' Hd Hr. eapply update_booking_wf; [| |exact Hd|exact Hr]; [done|].
  intros; split; apply micro_pg_time.
Qed.

Lemma cancel_sql_wf t id reason : sql_preserves schedule_wf (cancel_sql t id reason).
Proof.
  intros now k e d r d' Hd Hr. eapply update_booking_wf; [| |exact Hd|exact Hr]; [done|].
  intros ? (_ & ? & ?). done.
Qed.

Hint Resolve insert_booking_sql_wf reschedule_sql_wf cancel_sql_wf : db.

Lemma preserves_retry I {A} n (once : M A) : preserves I once -> preserves I (retry_loop n once).
Proof.
  intros Ho. induction n as [|n IH]; intros e w Hw; simpl; specialize (Ho e w Hw);
    destruct (once e w) as [[a|err] w1]; try done; destruct (negb _); try done.
  apply preserves_bind; auto with db.
Qed.

Lemma acquire_wf t s l : preserves schedule_wf (acquireScheduleLocks t s l).
Proof.
  unfold acquireScheduleLocks. apply preserves_bind; [|intros _].
  - induction l; simpl; [auto with db|]. apply preserves_bind; [|auto]. walk_preserves.
  - induction l; simpl; [auto with db|]. apply preserves_bind; [|auto]. walk_preserves.
Qed.

Lemma replay_wf I t s k h : preserves I (replay t s k h).
Proof. unfold replay, loadBooking. walk_preserves. Qed.

Lemma enqueue_wf t b s m tz : preserves schedule_wf (enqueueBookingCreatedJobs t b s m tz).
Proof. unfold enqueueBookingCreatedJobs. walk_preserves. Qed.

Hint Resolve preserves_retry acquire_wf replay_wf enqueue_wf : db.

(** The commands a caller can give the repository. *)
Inductive command : Type :=
| CmdCreate (now : Time) (request : CreateBookingRequest)
| CmdReschedule (request : RescheduleBookingRequest)
| CmdCancel (request : CancelBookingRequest)
| CmdAdminCreate (request : AdminCreateBookingRequest)
| CmdAdminReschedule (request : AdminRescheduleBookingRequest)
| CmdAdminCancel (request : AdminCancelBookingRequest).

Definition exec_command (r : PGXRepository) (c : command) : M BookingResult :=
  match c with
  | CmdCreate now request => CreateBooking fuel r now request
  | CmdReschedule request => RescheduleBooking fuel r request
  | CmdCancel request => CancelBooking r request
  | CmdAdminCreate request => AdminCreateBooking fuel r request
  | CmdAdminReschedule request => AdminRescheduleBooking fuel r request
  | CmdAdminCancel request => AdminCancelBooking r request
  end.

Lemma loadBookingInputs_wf I r q s st : preserves I (loadBookingInputs r q s st).
Proof. unfold loadBookingInputs, loadService, listStaff. walk_preserves. Qed.

Lemma loadRules_wf I q t s : preserves I (loadRules q t s).
Proof. unfold loadRules. walk_preserves. Qed.

Lemma loadBusy_wf I q t s a b : preserves I (loadBusy q t s a b).
Proof. unfold loadBusy. walk_preserves. Qed.

Lemma move_booking_wf r c a b tz id ac ref : preserves schedule_wf (move_booking fuel r c a b tz id ac ref).
Proof. unfold move_booking, UpdateReminderSchedule. walk_preserves. Qed.

Lemma retire_booking_wf r c re id ac ref : preserves schedule_wf (retire_booking r c re id ac ref).
Proof. unfold retire_booking, CancelBookingJobs. walk_preserves. Qed.

Lemma finish_create_wf r sc k a ref msg sv m b :
  preserves schedule_wf (finish_create r sc k a ref msg sv m b).
Proof. unfold finish_create, complete_key. walk_preserves. Qed.

Lemma load_one_wf I msg t id o : preserves I (load_owned msg t id o).
Proof. unfold load_owned. walk_preserves. Qed.

Lemma loadBookingForUpdate_wf I t id : preserves I (loadBookingForUpdate t id).
Proof. unfold loadBookingForUpdate. walk_preserves. Qed.

Lemma location_of_wf I m : preserves I (location_of m).
Proof. unfold location_of. walk_preserves. Qed.

Lemma reserve_key_wf t s k h : preserves schedule_wf (reserve_key t s k h).
Proof. unfold reserve_key. walk_preserves. Qed.

Lemma complete_key_wf t s k i o : preserves schedule_wf (complete_key t s k i o).
Proof. unfold complete_key. walk_preserves. Qed.

Lemma still_future_wf I t : preserves I (still_future t).
Proof. unfold still_future. walk_preserves. Qed.

Lemma load_timezone_wf I t s : preserves I (load_timezone t s).
Proof. unfold load_timezone. walk_preserves. Qed.

Hint Resolve loadBookingInputs_wf loadRules_wf loadBusy_wf move_booking_wf retire_booking_wf finish_create_wf
  load_one_wf loadBookingForUpdate_wf location_of_wf reserve_key_wf complete_key_wf
  still_future_wf load_timezone_wf : db.

(** One attempt of a command, and how the command reaches it. *)
Definition once_of (r : PGXRepository) (c : command) : M BookingResult :=
  match c with
  | CmdCreate now request => createBookingOnce fuel r request (hashCreateBooking request)
  | CmdReschedule request => rescheduleBookingOnce fuel r request
  | CmdCancel request => cancelBookingOnce r request
  | CmdAdminCreate request =>
      adminCreateBookingOnce fuel r request (actor_ref (ac_ActorRef request)) (hashAdminCreateBooking request)
  | CmdAdminReschedule request => adminRescheduleBookingOnce fuel r request (actor_ref (ar_ActorRef request))
  | CmdAdminCancel request => adminCancelBookingOnce r request (actor_ref (an_ActorRef request))
  end.

Lemma command_cases r c e w :
  (exists err, exec_command r c e w = (Err err, w)) \/
  exec_command r c e w = with_retry (once_of r c) e w.
Proof.
  destruct c; simpl;
    unfold CreateBooking, RescheduleBooking, CancelBooking, AdminCreateBooking,
      AdminRescheduleBooking, AdminCancelBooking, bind, lift;
    repeat match goal with
    | |- context [if ?b then _ else _] => destruct b; [left; by eexists|]
    end; try by right.
  destruct (validateCreateBookingAt _ _) as [[]|err]; [by right|left; by eexists].
Qed.

Lemma once_wf r c : preserves schedule_wf (once_of r c).
Proof.
  destruct c; simpl;
    unfold createBookingOnce, rescheduleBookingOnce, cancelBookingOnce, adminCreateBookingOnce,
      adminRescheduleBookingOnce, adminCancelBookingOnce; cbv zeta;
    walk_preserves.
Qed.

(** ** Atomicity *)
Lemma local_acquire t s l : local (acquireScheduleLocks t s l).
Proof.
  unfold acquireScheduleLocks. apply local_bind; [|intros _].
  - induction l; simpl; [auto with db|]. apply local_bind; [|auto]. walk_local.
  - induction l; simpl; [auto with db|]. apply local_bind; [|auto]. walk_local.
Qed.

Lemma local_reserve t s k h : local (reserve_key t s k h).
Proof. unfold reserve_key. walk_local. Qed.

Lemma local_inputs r s st : local (loadBookingInputs r Tx s st).
Proof. unfold loadBookingInputs, loadService, listStaff. walk_local. Qed.

Lemma local_rules t s : local (loadRules Tx t s).
Proof. unfold loadRules. walk_local. Qed.

Lemma local_busy t s a b : local (loadBusy Tx t s a b).
Proof. unfold loadBusy. walk_local. Qed.

Lemma local_location m : local (location_of m).
Proof. unfold location_of. walk_local. Qed.

Lemma local_future t : local (still_future t).
Proof. unfold still_future. walk_local. Qed.

Lemma local_enqueue t b s m tz : local (enqueueBookingCreatedJobs t b s m tz).
Proof. unfold enqueueBookingCreatedJobs. walk_local. Qed.

Lemma local_complete t s k i o : local (complete_key t s k i o).
Proof. unfold complete_key. walk_local. Qed.

Lemma local_owned msg t id o : local (load_owned msg t id o).
Proof. unfold load_owned. walk_local. Qed.

Lemma local_for_update t id : local (loadBookingForUpdate t id).
Proof. unfold loadBookingForUpdate. walk_local. Qed.

Lemma local_timezone t s : local (load_timezone t s).
Proof. unfold load_timezone. walk_local. Qed.

Lemma local_loadBooking t id : local (loadBooking Tx t id).
Proof. unfold loadBooking. walk_local. Qed.

Hint Resolve local_acquire local_reserve local_inputs local_rules local_busy local_location
  local_future local_enqueue local_complete local_owned local_for_update local_timezone
  local_loadBooking : db.

Lemma local_move r c a b tz id ac ref : local (move_booking fuel r c a b tz id ac ref).
Proof. unfold move_booking, UpdateReminderSchedule. walk_local. Qed.

Lemma local_retire r c re id ac ref : local (retire_booking r c re id ac ref).
Proof. unfold retire_booking, CancelBookingJobs. walk_local. Qed.

Lemma atomic_replay t s k h : atomic (replay t s k h).
Proof. unfold replay. walk_atomic. Qed.

Lemma atomic_finish r sc k a ref msg sv m b : atomic (finish_create r sc k a ref msg sv m b).
Proof. unfold finish_create. walk_atomic. Qed.

Hint Resolve local_move local_retire atomic_replay atomic_finish : db.

Lemma mapDatabaseError_code_free : code_free mapDatabaseError.
Proof. intros err Hc. unfold mapDatabaseError. rewrite Hc. by destruct (_ || _). Qed.

Lemma retry_code err : isTransactionRetry err = true -> pg_code err <> None.
Proof. unfold isTransactionRetry. by destruct (pg_code err). Qed.

(** A retried attempt changed nothing. *)
Lemma atomic_retry {A} n (once : M A) : atomic once -> atomic (retry_loop n once).
Proof.
  intros Ho. induction n as [|n IH]; intros e w err w'; simpl;
    specialize (Ho e w); destruct (once e w) as [[a|err1] w1]; try done;
    destruct (Ho _ _ eq_refl) as [Hd|[Hp Hl]]; destruct (isTransactionRetry err1) eqn:Hr; simpl;
    try (intros [= <- <-]); try (by left); try (right; split; [by apply mapDatabaseError_code_free|done]).
  - intros Hb. rewrite <- Hd. revert Hb. apply atomic_bind; [auto with db|done].
  - by apply retry_code in Hr.
Qed.

(** What the retry loop answers is the answer of one attempt, made on the tables
    the command found. *)
Lemma retry_Ok {A} n (once : M A) e w a w' :
  atomic once -> retry_loop n once e w = (Ok a, w') ->
  exists w0, db w0 = db w /\ once e w0 = (Ok a, w').
Proof.
  intros Ho. revert w. induction n as [|n IH]; intros w; simpl; pose proof (Ho e w) as Hw;
    destruct (once e w) as [[b|err1] w1] eqn:Hon; try (intros [= -> ->]; by exists w);
    destruct (isTransactionRetry err1) eqn:Hr; simpl; try done.
  intros Hb. apply local_bind_ok in Hb as (u & w2 & _ & Hd & Hb); [|apply local_ctx_check].
  destruct (IH _ Hb) as (w0 & Hd0 & Honce). exists w0. split; [|done].
  destruct (Hw _ _ eq_refl) as [?|[? _]]; [congruence|by apply retry_code in Hr].
Qed.

Lemma atomic_once r c : atomic (once_of r c).
Proof.
  destruct c; simpl;
    unfold createBookingOnce, rescheduleBookingOnce, cancelBookingOnce, adminCreateBookingOnce,
      adminRescheduleBookingOnce, adminCancelBookingOnce; cbv zeta; walk_atomic.
Qed.

Lemma atomic_command r c : atomic (exec_command r c).
Proof.
  intros e w err w'. destruct (command_cases r c e w) as [[err' ->]| ->]; [intros [= _ <-]; by left|].
  intros Hr. by apply (atomic_retry 2) in Hr; [|apply atomic_once].
Qed.

(** A command that succeeds is one attempt on the tables the command found. *)
Lemma command_Ok r c e w res w' :
  exec_command r c e w = (Ok res, w') ->
  exists w0, db w0 = db w /\ once_of r c e w0 = (Ok res, w').
Proof.
  destruct (command_cases r c e w) as [[err ->]| ->]; [done|]. intros Hr.
  by apply retry_Ok in Hr; [|apply atomic_once].
Qed.

(** ** Commands *)
(** A command runs in transactions of its own: what an open transaction of the
    same connection holds does not matter to it. *)
Definition fresh_tx {A} (m : M A) : Prop :=
  exists msg body, m = with_tx msg body.

Lemma once_fresh r c : fresh_tx (once_of r c).
Proof. destruct c; eexists _, _; reflexivity. Qed.

Lemma with_tx_holds I {A} msg (body : M A) e w :
  preserves I (with_tx msg body) -> I (db w) -> I (db (with_tx msg body e w).2).
Proof.
  intros Hp Hw. pose proof (Hp e (mkWorld (db w) (db w) (aborted w) (tx_now w) (tick w))) as Hq.
  revert Hq. unfold with_tx, rolled_back, bind, wrap, map_err, begin_tx; simpl. destruct (fault e _); [done|].
  destruct (body e _) as [res w1]. intros Hq. by apply Hq.
Qed.

Lemma db_preserves_retry I {A} n (once : M A) : db_preserves I once -> db_preserves I (retry_loop n once).
Proof.
  intros Ho. induction n as [|n IH]; intros e w Hw; simpl; specialize (Ho e w Hw);
    destruct (once e w) as [[a|err] w1]; try done; destruct (negb _); try done.
  unfold bind, ctx_check. destruct (ctx_err e _); [done|]. by apply IH.
Qed.

Lemma command_db_preserves I r c : preserves I (once_of r c) -> db_preserves I (exec_command r c).
Proof.
  intros Hp e w Hw. destruct (command_cases r c e w) as [[err ->]| ->]; [done|].
  apply (db_preserves_retry I 2 (once_of r c)); [|done]. intros e1 w1 Hw1.
  destruct (once_fresh r c) as (msg & body & Heq). rewrite Heq in Hp |- *. by apply with_tx_holds.
Qed.

(** The continuation only has to preserve what the first part can answer. *)
Lemma preserves_bind_post I {A B} (Q : A -> Prop) (m : M A) (f : A -> M B) :
  preserves I m -> (forall e w a w', holds I w -> m e w = (Ok a, w') -> Q a) ->
  (forall a, Q a -> preserves I (f a)) -> preserves I (bind m f).
Proof.
  intros Hm HQ Hf e w Hw. unfold bind. specialize (Hm e w Hw). specialize (HQ e w).
  destruct (m e w) as [[a|err] w1]; [|exact Hm]. apply (Hf a); [by eapply HQ|exact Hm].
Qed.

(** ** Idempotency keys *)
Definition key_row (t s k : string) (d : DB) : option IdemRow := List.find (is_key t s k) (idempotency d).

Lemma find_existsb {A} (p : A -> bool) l : existsb p l = is_set (List.find p l).
Proof. induction l as [|a l IH]; simpl; [done|]. by destruct (p a). Qed.

Lemma reserve_key_Ok t s k h e w b w' :
  reserve_key t s k h e w = (Ok b, w') ->
  db w' = db w /\ aborted w' = false /\ tx_now w' = tx_now w /\
  match key_row t s k (work w) with
  | Some _ => b = false /\ work w' = work w
  | None => b = true /\
      work w' = set_idempotency (idempotency (work w) ++ [mkIdemRow t s k h "in_progress" None None None]) (work w)
  end.
Proof.
  unfold reserve_key, key_row. intros Hr. open_step Hr. open_step Hr. unfold reserve_key_sql in Hr. simpl.
  destruct (idem_check _); simpl in Hr; [|done]. rewrite find_existsb in Hr.
  destruct (List.find _ _); simpl in Hr; [by simplify_eq|].
  destruct (string_in _ _); simpl in Hr; [|done]. by simplify_eq.
Qed.

Lemma map_err_no_rows nf msg {A} (m : M A) e w a w' :
  map_err (no_rows_or nf msg) m e w = (Ok a, w') -> m e w = (Ok a, w').
Proof. apply map_err_Ok. Qed.

Lemma loadBooking_Ok t id e w b w' :
  loadBooking Tx t id e w = (Ok b, w') ->
  db w' = db w /\ work w' = work w /\ aborted w' = false /\ tx_now w' = tx_now w /\
  exists row, List.find (is_booking t id) (bookings (work w)) = Some row /\ b = b_data row.
Proof.
  unfold loadBooking. intros Hl. apply map_err_Ok in Hl. open_step Hl. open_step Hm. open_step Hl.
  unfold booking_row in *. destruct (List.find _ _) as [row|]; simplify_eq/=. eauto 10.
Qed.

Lemma replay_Ok t s k h e w res w' :
  replay t s k h e w = (Ok res, w') ->
  db w' = work w /\ Replayed res = true /\
  exists i row, key_row t s k (work w) = Some i /\ id_hash i = h /\ id_status i = "completed" /\
    id_resource i = Some (bk_ID (res_Booking res)) /\
    row ∈ bookings (work w) /\ b_tenant row = t /\ b_data row = res_Booking res.
Proof.
  unfold replay. intros Hr. open_step Hr. open_step Hm. open_step Hm. open_step Hm0. open_step Hm.
  simplify_eq/=. destruct (bool_decide (id_hash a = h)) eqn:Hh; simpl in Hr; [|discriminate Hr].
  destruct (_ || _) eqn:Hst; [discriminate Hr|]. bool_to_prop.
  open_step Hr. apply loadBooking_Ok in Hm as (Hd & Hw & Hab & Htx & row & Hf & ->).
  open_step Hr. open_step Hm. open_step Hm. open_step Hr. simpl in *.
  split; [congruence|]. split; [done|]. exists a, row.
  apply List.find_some in Hf as [Hin%list_elem_of_In [Ht Hid]%is_booking_spec].
  destruct (id_resource a) as [res|]; simpl in *; [|done].
  unfold b_id in Hid. repeat split; try done; congruence.
Qed.
End commands.

(** ** Inversion of the parts of a command *)
Section inversion.
Context `{Host} (fuel : nat).

Lemma reads_inputs r s st : reads (loadBookingInputs r Tx s st).
Proof. unfold loadBookingInputs, loadService, listStaff. walk_moves. Qed.

Lemma reads_location m : reads (location_of m).
Proof. unfold location_of. walk_moves. Qed.

Lemma reads_rules t s : reads (loadRules Tx t s).
Proof. unfold loadRules. walk_moves. Qed.

Lemma reads_owned msg t id o : reads (load_owned msg t id o).
Proof. unfold load_owned. walk_moves. Qed.

Lemma reads_timezone t s : reads (load_timezone t s).
Proof. unfold load_timezone. walk_moves. Qed.

(** Only the lock table moved. *)
Definition same_but_locks (d d' : DB) : Prop := set_locks [] d' = set_locks [] d.

#[local] Instance same_but_locks_refl : Reflexive same_but_locks.
Proof. by intros d. Qed.
#[local] Instance same_but_locks_trans : Transitive same_but_locks.
Proof. intros a b c. unfold same_but_locks. congruence. Qed.

Lemma moves_acquire t s l : moves same_but_locks (acquireScheduleLocks t s l).
Proof.
  unfold acquireScheduleLocks. moves_seq.
  - induction l; simpl; [walk_moves|]. moves_seq; [|auto].
    apply moves_wrap, moves_run. intros now n e d u d'. unfold insert_lock_sql.
    repeat case_match; intros; simplify_eq/=; done.
  - induction l; simpl; [walk_moves|]. moves_seq; [|auto]. walk_moves.
Qed.

Lemma inputs_Ok r s st e w service member w' :
  loadBookingInputs r Tx s st e w = (Ok (service, member), w') ->
  (exists row, row ∈ services (work w) /\ sv_tenant row = tenantID r /\ sv_id row = s /\
     sv_active row = true /\ service = scanService row) /\
  (exists row, row ∈ eligible (tenantID r) s st (work w) /\ member = staff_of row) /\
  db w' = db w /\ work w' = work w.
Proof.
  intros Hi. destruct (reads_inputs _ _ _ _ _ _ _ Hi) as (Hd & _ & Hw).
  unfold loadBookingInputs, loadService, listStaff in Hi. open_all.
  destruct (sort_slice _ _) as [|row [|]] eqn:Hs; try discriminate Hi.
  simpl in Hi. open_step Hi. split; [|split; [|done]].
  - match goal with Hf : List.find _ _ = Some ?x |- _ =>
      apply List.find_some in Hf as [Hin%list_elem_of_In Hac]; exists x end.
    unfold active_service in Hac. bool_to_prop.
    repeat match goal with Hx : String.eqb _ _ = true |- _ => apply String.eqb_eq in Hx end. done.
  - exists row. split; [|done]. rewrite <- (elem_of_sort_slice (collated st_name st_id)), Hs. by left.
Qed.

Lemma eligible_spec t s st d row :
  row ∈ eligible t s st d -> row ∈ staff d /\ st_tenant row = t /\ (st = "" \/ st_id row = st) /\
  st_active row = true.
Proof.
  unfold eligible. rewrite list_elem_of_In. intros (x & Hx & Hin)%in_flat_map.
  apply in_flat_map in Hin as (ss & _ & Hin). apply in_flat_map in Hin as (svc & _ & Hin).
  destruct (_ && sv_active svc) eqn:Hc; [|done]. destruct Hin as [<-|[]]. bool_to_prop.
  repeat match goal with
  | Hy : String.eqb _ _ = true |- _ => apply String.eqb_eq in Hy
  | Hy : _ || _ = true |- _ => apply orb_true_iff in Hy as [Hy|Hy]
  end; split_and!; try (by apply list_elem_of_In); auto.
Qed.

(** Only the job table moved. *)
Definition same_but_jobs (d d' : DB) : Prop := set_jobs [] d' = set_jobs [] d.

Lemma insert_job_spec row d d' :
  insert_job row d = Ok d' -> is_Some (j_key row) ->
  same_but_jobs d d' /\ (jobs d' = jobs d \/ jobs d' = jobs d ++ [row]) /\
  exists j, j ∈ jobs d' /\ j_tenant j = j_tenant row /\ j_key j = j_key row.
Proof.
  unfold insert_job. destruct (job_check row); simpl; [|done]. intros Hi Hk.
  destruct (existsb _ (jobs d)) eqn:Hex.
  - injection Hi as <-. split; [done|]. split; [by left|].
    apply existsb_exists in Hex as (j & Hj%list_elem_of_In & Hc). bool_to_prop.
    match goal with Hx : String.eqb _ _ = true |- _ => apply String.eqb_eq in Hx end. eauto.
  - destruct (existsb (same_job row) _); [done|]. destruct (existsb _ (bookings d)); [|done].
    injection Hi as <-. split; [done|]. split; [by right|]. exists row.
    split; [|done]. simpl. apply elem_of_app; right; by left.
Qed.

Lemma insert_job_sql_spec t b ty p m k now n e d u d' :
  insert_job_sql t b ty p m k now n e d = Ok (u, d') ->
  same_but_jobs d d' /\
  (jobs d' = jobs d \/ jobs d' = jobs d ++ [new_job now (uuid e n 0%nat) t b ty p m k]) /\
  exists j, j ∈ jobs d' /\ j_tenant j = t /\ j_key j = Some k.
Proof. intros (d1 & Hi & [= _ <-])%rbind_Ok. by apply insert_job_spec in Hi. Qed.

Lemma enqueue_Ok t b s m tz e w u w' :
  enqueueBookingCreatedJobs t b s m tz e w = (Ok u, w') ->
  db w' = db w /\ same_but_jobs (work w) (work w') /\
  (exists new, jobs (work w') = jobs (work w) ++ new) /\
  (exists j, j ∈ jobs (work w') /\ j_tenant j = t /\ j_key j = Some (reminder_key (bk_ID b))) /\
  (exists j, j ∈ jobs (work w') /\ j_tenant j = t /\ j_key j = Some (crm_key (bk_ID b))).
Proof.
  unfold enqueueBookingCreatedJobs. intros He. open_all.
  simpl in *. apply insert_job_sql_spec in Hm0 as (Hs1 & Hj1 & j1 & Hin1 & Ht1 & Hk1).
  apply insert_job_sql_spec in He as (Hs2 & Hj2 & Hin2).
  split; [done|]. split; [unfold same_but_jobs in *; congruence|]. split; [|split; [|done]].
  - destruct Hj1 as [E1|E1], Hj2 as [E2|E2]; rewrite E2, E1.
    + exists []. by rewrite app_nil_r.
    + by eexists.
    + by eexists.
    + rewrite <- app_assoc. by eexists.
  - exists j1. split; [|done]. destruct Hj2 as [E2|E2]; rewrite E2; [done|]. apply elem_of_app; by left.
Qed.

(** What the end of a creation writes and commits. *)
Lemma finish_create_Ok r sc k a ref msg sv m b e w res w' :
  finish_create r sc k a ref msg sv m b e w = (Ok res, w') ->
  res = mkResult b false /\ exists d3 d4,
    insert_event (mkEventRow (tenantID r) (bk_ID b) "created" a ref None b) (work w) = Ok d3 /\
    same_but_jobs d3 d4 /\ (exists new, jobs d4 = jobs d3 ++ new) /\
    (exists j, j ∈ jobs d4 /\ j_tenant j = tenantID r /\ j_key j = Some (reminder_key (bk_ID b))) /\
    (exists j, j ∈ jobs d4 /\ j_tenant j = tenantID r /\ j_key j = Some (crm_key (bk_ID b))) /\
    (exists now, db w' = set_idempotency (update_rows (is_key (tenantID r) sc k)
       (complete_idem (bk_ID b) (Some b) now) (idempotency d4)) d4).
Proof.
  unfold finish_create. intros Hf. open_step Hf. open_step Hm. open_step Hm.
  unfold insert_event_sql in Hm. apply rbind_Ok in Hm as (d3 & Hev & [= _ <-]).
  open_step Hf. apply enqueue_Ok in Hm as (_ & Hs & Hnew & Hrem & Hcrm). simpl in *.
  open_step Hf. open_step Hm. unfold complete_key in Hm. open_step Hm. unfold complete_key_sql in Hm.
  apply rbind_Ok in Hm as ([l t] & Hu & [= _ <-]). apply sql_update_Ok in Hu as (-> & _ & _).
  open_all. split; [done|]. exists d3, (work w0). do 5 (split; [assumption|]). by eexists.
Qed.
End inversion.

(** ** A used key *)
Section used_key.
Context `{Host} (fuel : nat).

(** The idempotency key of a command, where it has one. *)
Definition key_of (c : command) : option (string * string * string) :=
  match c with
  | CmdCreate _ q => Some (cat [createBookingScope; ":"; cr_CustomerID q], cr_IdempotencyKey q, hashCreateBooking q)
  | CmdReschedule q =>
      if bool_decide (rs_IdempotencyKey q = "") then None
      else Some (cat [rescheduleScope; ":"; rs_OwnerCustomerID q], rs_IdempotencyKey q, rescheduleHash q)
  | CmdCancel q =>
      if bool_decide (cn_IdempotencyKey q = "") then None
      else Some (cat [cancelScope; ":"; cn_OwnerCustomerID q], cn_IdempotencyKey q, cancelHash q)
  | CmdAdminCreate q =>
      Some (cat [adminCreateScope; ":"; ac_CustomerID q], ac_IdempotencyKey q, hashAdminCreateBooking q)
  | CmdAdminReschedule q =>
      Some (cat [adminRescheduleScope; ":"; ar_BookingID q], ar_IdempotencyKey q, adminRescheduleHash q)
  | CmdAdminCancel _ => None
  end.

(** The transaction of a keyed command: reserve the key, or replay. *)
Lemma keyed_body r c s k h :
  key_of c = Some (s, k, h) ->
  exists msg rest, once_of fuel r c = with_tx msg (
    let* fresh := reserve_key (tenantID r) s k h in
    if negb fresh then replay (tenantID r) s k h else rest).
Proof.
  destruct c; simpl; try case_bool_decide; intros [= <- <- <-]; eexists _, _;
    unfold rescheduleBookingOnce, cancelBookingOnce, createBookingOnce, adminCreateBookingOnce,
      adminRescheduleBookingOnce; cbv zeta; rewrite ?bool_decide_eq_false_2 by done; reflexivity.
Qed.

Lemma used_key_fixed t s k h D i (rest : M BookingResult) :
  key_row t s k D = Some i ->
  preserves (fun d => d = D)
    (let* fresh := reserve_key t s k h in if negb fresh then replay t s k h else rest).
Proof.
  intros Hi. apply (preserves_bind_post _ (fun b => b = false)).
  - unfold reserve_key. apply preserves_wrap, preserves_run. intros now n e d a d' -> Hr.
    unfold reserve_key_sql in Hr. destruct (idem_check _); simpl in Hr; [|done].
    rewrite find_existsb in Hr. fold (key_row t s k D) in Hr. rewrite Hi in Hr. by simplify_eq/=.
  - intros e w a w' [_ Hw] (_ & _ & _ & Hr)%reserve_key_Ok. rewrite Hw, Hi in Hr. by destruct Hr.
  - intros a ->. apply replay_wf.
Qed.

Lemma used_key_replays r c s k h i e w :
  key_of c = Some (s, k, h) -> key_row (tenantID r) s k (db w) = Some i ->
  db (exec_command fuel r c e w).2 = db w /\
  forall res w', exec_command fuel r c e w = (Ok res, w') ->
    Replayed res = true /\ id_hash i = h /\ id_status i = "completed" /\
    id_resource i = Some (bk_ID (res_Booking res)) /\
    exists row, row ∈ bookings (db w) /\ b_tenant row = tenantID r /\ b_data row = res_Booking res.
Proof.
  intros Hk Hi. destruct (keyed_body r c s k h Hk) as (msg & rest & Heq). split.
  - apply (command_db_preserves fuel (fun d => d = db w) r c); [|done]. rewrite Heq.
    apply preserves_with_tx. by eapply used_key_fixed.
  - intros res w' (w0 & Hd & Hon)%command_Ok. rewrite Heq in Hon.
    apply with_tx_Ok in Hon as (w2 & Hb & _). open_step Hb.
    apply reserve_key_Ok in Hm as (_ & _ & _ & Hm). simpl in Hm. rewrite Hd, Hi in Hm.
    destruct Hm as [-> Hw]. simpl in Hb. apply replay_Ok in Hb as (_ & Hrep & i' & row & Hi' & Hh & Hs & Hr & Hin & Ht & Hrow).
    rewrite Hw in Hi', Hin. rewrite Hi in Hi'. simplify_eq. eauto 10.
Qed.
End used_key.
