(* ===== verification/SalonDemo.v ===== *)
(** * A concrete salon

    One service, one member of staff who works Mondays from nine to five in UTC,
    one customer: the tables, the host and the requests on which the witnesses of
    the booking properties run. *)

From Stdlib Require Import ZArith Lia Ascii.
From stdpp Require Import base list strings sorting.
From S2P Require Import Prelude GoTime Json Engine Database JobQueue Catalog Repository RepositoryFacts.

#[local] Open Scope Z_scope.

#[export] Instance demo_host : Host := {
  LoadLocation name := if String.eqb name "UTC" then Ok UTC else Err (ErrText "unknown time zone");
  Local := UTC;
  collate := String.compare;
  sha256_hex _ := "0000000000000000000000000000000000000000000000000000000000000000"
}.

(** 2026-08-03, a Monday, at [h]:[m]. *)
Definition monday (h m : Z) : Time := Date 2026 8 3 h m 0 0 UTC.

Definition service_id : string := "00000000-0000-4000-8000-0000000000a1".
Definition staff_id : string := "00000000-0000-4000-8000-0000000000b1".
Definition customer_id : string := "00000000-0000-4000-8000-0000000000c1".

Definition conversation_id : string := "00000000-0000-4000-8000-0000000000d1".
Definition run_id : string := "00000000-0000-4000-8000-0000000000e1".

Definition demo_booking (id : string) (status : string) (h : Z) : Booking :=
  mkBooking id customer_id "" service_id staff_id status (monday h 0) (monday (h + 1) 0) 15 15 1 ""
    (monday 0 0) (monday 0 0).

Definition demo_row (id : string) (h : Z) : BookingRow :=
  mkBookingRow "t" (demo_booking id "confirmed" h) None None.

Definition cancelled_row (id : string) (h : Z) : BookingRow :=
  mkBookingRow "t" (demo_booking id "cancelled" h) (Some "ill") (Some (monday 0 0)).

Definition demo_db (l : list BookingRow) : DB :=
  mkDB ["t"]
    [mkServiceRow "t" service_id "cut" "Cut" "" 60 15 15 4000 "EUR" true]
    [mkStaffRow "t" staff_id "ann" "Ann" "UTC" true]
    [mkStaffServiceRow "t" staff_id service_id]
    [mkRuleRow "t" staff_id "working" 1 32400 61200 None None]
    [] [mkCustomerRow "t" customer_id "Carl" (Some "carl@example.com") None]
    [mkConversationRow "t" conversation_id (Some customer_id) "demo" None "open" 0 50000 0 0]
    l [] [] [] [] []
    [mkRunRow "t" run_id conversation_id None "running" "fake" "" 0 0 None None None (monday 7 0) None]
    [] [] [] no_turns.

(** Identifiers numbered by tick. *)
Definition demo_uuid (n k : nat) : string :=
  String.append "00000000-0000-4000-8000-" (append_int (Z.of_nat (n * 10 + k)) 12).

(** Nothing fails; the clock stands at seven on that Monday. *)
Definition calm : env :=
  mkEnv (fun _ => monday 7 0) demo_uuid (fun _ _ => false) (fun _ => None) (fun _ => false) (fun _ => None).

(** The second statement of a transaction fails with a serialization conflict. *)
Definition conflict_once : env :=
  mkEnv (fun _ => monday 7 0) demo_uuid (fun _ _ => false)
    (fun n => if (n =? 2)%nat then Some (ErrPg "40001") else None) (fun _ => false) (fun _ => None).

Definition idle (d : DB) : world := mkWorld d d false (monday 0 0) 0.

Definition repo : PGXRepository := mkRepository true "t" (mkEngine (Some UTC)).

Definition empty_salon : world := idle (demo_db []).
Definition booked_salon : world :=
  idle (demo_db [demo_row "00000000-0000-4000-8000-000000000001" 10]).
Definition cancelled_salon : world :=
  idle (demo_db [cancelled_row "00000000-0000-4000-8000-000000000001" 10]).

Definition create_at (h : Z) : CreateBookingRequest :=
  mkCreate customer_id "" service_id staff_id (monday h 0) "window seat" "create-key-000001".

Definition cancel_request : CancelBookingRequest :=
  mkCancel "00000000-0000-4000-8000-000000000001" customer_id "I am ill" "cancel-key-000001".

Definition long_reason : string :=
  "I am very sorry, but something came up at work and I cannot make it to the appointment on Monday".

Definition long_cancel_request : CancelBookingRequest :=
  mkCancel "00000000-0000-4000-8000-000000000001" customer_id long_reason "cancel-key-000001".

Definition reschedule_request : RescheduleBookingRequest :=
  mkReschedule "00000000-0000-4000-8000-000000000001" customer_id (monday 13 0) (monday 14 0) "UTC"
    "move-key-00000001".

(** Runs on these tables, evaluated. *)
Lemma created : exists res w', CreateBooking 40 repo (monday 6 0) (create_at 10) calm empty_salon = (Ok res, w') /\
  Replayed res = false.
Proof. eexists _, _. split; [vm_compute; reflexivity|reflexivity]. Defined.

(** After a creation its key is recorded, and the same request is replayed. *)
Lemma created_key : exists w' i res2 w2,
  key_row "t" (cat [createBookingScope; ":"; customer_id]) "create-key-000001" (db w') = Some i /\
  CreateBooking 40 repo (monday 6 0) (create_at 10) calm w' = (Ok res2, w2).
Proof.
  exists (CreateBooking 40 repo (monday 6 0) (create_at 10) calm empty_salon).2. eexists _, _, _.
  split; vm_compute; reflexivity.
Defined.

Lemma cancelled : exists res w', CancelBooking repo cancel_request calm booked_salon = (Ok res, w') /\
  Replayed res = false.
Proof. eexists _, _. split; [vm_compute; reflexivity|reflexivity]. Defined.

Lemma cancelled_twice : exists res w', CancelBooking repo cancel_request calm cancelled_salon = (Ok res, w') /\
  Replayed res = true.
Proof. eexists _, _. split; [vm_compute; reflexivity|reflexivity]. Defined.

Lemma rescheduled : exists res w', RescheduleBooking 40 repo reschedule_request calm booked_salon = (Ok res, w') /\
  Replayed res = false.
Proof. eexists _, _. split; [vm_compute; reflexivity|reflexivity]. Defined.

Lemma refused : exists err w', CreateBooking 40 repo (monday 6 0) (create_at 20) calm empty_salon = (Err err, w').
Proof. eexists _, _. vm_compute; reflexivity. Defined.

(** A conflict is retried and the second attempt succeeds. *)
Lemma retried : exists res w', CreateBooking 40 repo (monday 6 0) (create_at 10) conflict_once empty_salon = (Ok res, w').
Proof. eexists _, _. vm_compute; reflexivity. Defined.

(** Both salons satisfy the invariant of the booking table. *)
Lemma empty_salon_wf : schedule_wf (db empty_salon).
Proof. split; [apply NoDup_nil_2|split; [apply Forall_nil_2|]]. intros a b Ha. by apply elem_of_nil in Ha. Defined.

Lemma booked_salon_wf : schedule_wf (db booked_salon).
Proof.
  split; [apply NoDup_singleton|split].
  - apply Forall_singleton. repeat split; vm_compute; reflexivity.
  - intros a b Ha Hb Hne. apply list_elem_of_singleton in Ha, Hb. destruct Hne. by rewrite Ha, Hb.
Defined.

Lemma cancelled_salon_wf : schedule_wf (db cancelled_salon).
Proof.
  split; [apply NoDup_singleton|split].
  - apply Forall_singleton. repeat split; vm_compute; reflexivity.
  - intros a b Ha Hb Hne. apply list_elem_of_singleton in Ha, Hb. destruct Hne. by rewrite Ha, Hb.
Defined.
