(* ===== verification/RepositoryProps.v ===== *)
(** * Properties of the booking commands

    No double booking, atomicity, idempotency keys, what each command writes, the
    agreement of the availability recheck with the exclusion constraint, and the
    idempotency records that the customer's cancellation gets wrong.

    What a successful [CreateBooking] has read, checked and written, and why the
    exclusion constraint cannot reject what the availability recheck accepts.

    What a successful reschedule or cancellation found and wrote, on the
    customer's path and the operator's, and the two ways in which the customer's
    cancellation misuses its idempotency record. *)

From Stdlib Require Import ZArith Lia Ascii.
From stdpp Require Import base list strings sorting.
From S2P Require Import Prelude GoTime Json Engine EngineProps Database DatabaseFacts JobQueue Catalog Repository RepositoryFacts SalonDemo.

#[local] Open Scope Z_scope.

Section properties.
Context `{Host} (fuel : nat).

(** C2. No double booking.  Whatever command runs against the booking table, on
    the customer's or the operator's path, with whatever faults, the table keeps
    unique keys, the schema's checks, microsecond times, and no two of its
    occupying bookings of one member of staff overlap with their buffers. *)
Theorem no_double_booking r c e w :
  schedule_wf (db w) -> schedule_wf (db (exec_command fuel r c e w).2).
Proof. intros Hw. apply (command_db_preserves fuel schedule_wf r c); [apply once_wf|done]. Qed.

(** C23. Commands are atomic.  A command that returns an error has left every
    table as it was, unless the answer to a commit that took effect was lost; and
    then the error carries no SQLSTATE, so it is never retried. *)
Theorem command_atomic r c e w err w' :
  exec_command fuel r c e w = (Err err, w') ->
  db w' = db w \/ (pg_code err = None /\ lost_commit e).
Proof. apply atomic_command. Qed.

(** ** Used keys *)
(** C17. A key works once.  When a record under the command's scope and key
    exists, running the command changes no table; it can only answer with the
    booking that record names, marked as replayed, and only when the record is
    completed and was made by a request with the same arguments. *)
Theorem used_key_changes_nothing r c s k h i e w :
  key_of c = Some (s, k, h) -> key_row (tenantID r) s k (db w) = Some i ->
  db (exec_command fuel r c e w).2 = db w /\
  forall res w', exec_command fuel r c e w = (Ok res, w') ->
    Replayed res = true /\ id_hash i = h /\ id_status i = "completed" /\
    id_resource i = Some (bk_ID (res_Booking res)) /\
    exists row, row ∈ bookings (db w) /\ b_tenant row = tenantID r /\ b_data row = res_Booking res.
Proof. intros Hk Hi. by eapply used_key_replays. Qed.
End properties.

(** ** Witnesses *)
Lemma no_double_booking_witness :
  schedule_wf (db (exec_command 40 repo (CmdCreate (monday 6 0) (create_at 12)) calm booked_salon).2).
Proof. apply (no_double_booking 40 repo (CmdCreate (monday 6 0) (create_at 12)) calm booked_salon booked_salon_wf). Defined.

Lemma command_atomic_witness :
  exists err w', CreateBooking 40 repo (monday 6 0) (create_at 20) calm empty_salon = (Err err, w') /\
    (db w' = db empty_salon \/ (pg_code err = None /\ lost_commit calm)).
Proof.
  destruct refused as (err & w' & Hr). exists err, w'. split; [exact Hr|].
  exact (command_atomic 40 repo (CmdCreate (monday 6 0) (create_at 20)) calm empty_salon err w' Hr).
Defined.

Lemma used_key_changes_nothing_witness :
  exists w' res2, Replayed res2 = true /\
    db (exec_command 40 repo (CmdCreate (monday 6 0) (create_at 10)) calm w').2 = db w'.
Proof.
  destruct created_key as (w' & i & res2 & w2 & Hi & Hc2).
  destruct (used_key_changes_nothing 40 repo (CmdCreate (monday 6 0) (create_at 10)) _ _ _ i calm w' eq_refl Hi)
    as [Hdb Hres].
  exists w', res2. split; [exact (proj1 (Hres res2 w2 Hc2))|exact Hdb].
Defined.

(** * Creating a booking *)

#[local] Open Scope Z_scope.

Section create.
Context `{Host} (fuel : nat).

(** The scope of a customer's creation keys. *)
Definition create_scope (request : CreateBookingRequest) : string :=
  cat [createBookingScope; ":"; cr_CustomerID request].

(** The search of the locked recheck, over the tables [d]. *)
Definition recheck_of (tenant : string) (service : Service) (member : Staff) (location : Location)
    (rules : list AvailabilityRule) (start : Time) (d : DB) : SearchInput :=
  let dayStart := date_of (In start location) location in
  let dayEnd := AddDate dayStart 0 0 1 in
  recheck_input service member dayStart dayEnd rules
    (busy_rows tenant (stf_ID member) (pg_time Local (Add dayStart (-4 * Hour)))
       (pg_time Local (Add dayEnd (4 * Hour))) d).

Definition scanned_rules (tenant staffID : string) (d : DB) : result (list AvailabilityRule) :=
  scan_rules (sort_slice rule_less (List.filter (fun row => String.eqb (ar_tenant row) tenant &&
    String.eqb (ar_staff row) staffID) (rules d))).

Record create_inputs := mkInputs {
  ci_service : ServiceRow; ci_staff : StaffRow; ci_location : Location;
  ci_rules : list AvailabilityRule
}.

(** What the transaction has established about the tables [d] before it writes. *)
Definition checked (r : PGXRepository) (request : CreateBookingRequest) (e : env) (d : DB)
    (c : create_inputs) : Prop :=
  let service := scanService (ci_service c) in
  let member := staff_of (ci_staff c) in
  ci_service c ∈ services d /\ sv_tenant (ci_service c) = tenantID r /\
  sv_id (ci_service c) = cr_ServiceID request /\ sv_active (ci_service c) = true /\
  ci_staff c ∈ eligible (tenantID r) (cr_ServiceID request) (cr_StaffID request) d /\
  LoadLocation (st_timezone (ci_staff c)) = Ok (ci_location c) /\
  (exists n, ns (clock e n) < ns (pg_time Local (cr_StartsAt request))) /\
  scanned_rules (tenantID r) (st_id (ci_staff c)) d = Ok (ci_rules c) /\
  exists ctx, IsAvailable LoadLocation fuel (engine r) ctx
    (recheck_of (tenantID r) service member (ci_location c) (ci_rules c) (cr_StartsAt request) d)
    (cr_StartsAt request) = Some (Ok true).

(** The row the transaction inserts. *)
Definition created_row (r : PGXRepository) (request : CreateBookingRequest) (c : create_inputs)
    (id : string) (now : Time) : BookingRow :=
  let service := scanService (ci_service c) in
  mkBookingRow (tenantID r)
    (mkBooking id (cr_CustomerID request) (cr_ConversationID request) (cr_ServiceID request)
       (cr_StaffID request) "confirmed" (pg_time Local (cr_StartsAt request))
       (pg_time Local (Add (cr_StartsAt request) (Duration service)))
       (minutes (BufferBefore service)) (minutes (BufferAfter service)) 1 (cr_Notes request) now now)
    None None.

Lemma reads_busy t s a b e w x w' :
  loadBusy Tx t s a b e w = (Ok x, w') ->
  x = busy_rows t s (pg_time Local (Add a (-4 * Hour))) (pg_time Local (Add b (4 * Hour))) (work w) /\
  db w' = db w /\ work w' = work w.
Proof.
  unfold loadBusy. intros Hb. open_all. destruct (_ <? _); [done|]. by simplify_eq.
Qed.

Lemma reads_rules_Ok t s e w x w' :
  loadRules Tx t s e w = (Ok x, w') ->
  scanned_rules t s (work w) = Ok x /\ db w' = db w /\ work w' = work w.
Proof. unfold loadRules. intros Hr. open_all. done. Qed.

(** Lock rows and idempotency rows are not among the tables the checks read. *)
Definition same_schedule (d d' : DB) : Prop :=
  set_locks [] (set_idempotency [] d') = set_locks [] (set_idempotency [] d).

Lemma same_schedule_fields d d' :
  same_schedule d d' ->
  tenants d' = tenants d /\ services d' = services d /\ staff d' = staff d /\
  staff_services d' = staff_services d /\ rules d' = rules d /\ blocks d' = blocks d /\
  customers d' = customers d /\ conversations d' = conversations d /\ bookings d' = bookings d /\
  booking_events d' = booking_events d /\ jobs d' = jobs d /\ dead_letters d' = dead_letters d.
Proof. unfold same_schedule. intros Hs. by injection Hs. Qed.

Lemma same_schedule_locked d x d' :
  same_but_locks (set_idempotency x d) d' -> same_schedule d d' /\ idempotency d' = x.
Proof.
  unfold same_but_locks, same_schedule. intros Hs. split; [|by injection Hs].
  injection Hs. intros. unfold set_locks, set_idempotency; simpl. by f_equal.
Qed.

Lemma eligible_idem t s st x d : eligible t s st (set_idempotency x d) = eligible t s st d.
Proof. done. Qed.

Lemma recheck_same t sv m loc rs start d d' :
  same_schedule d d' -> recheck_of t sv m loc rs start d' = recheck_of t sv m loc rs start d.
Proof.
  intros Hs. apply same_schedule_fields in Hs as (_&_&_&_&_&Hbl&_&_&Hb&_).
  unfold recheck_of, busy_rows. by rewrite Hbl, Hb.
Qed.

(** The tail of a creation: the inserted row, the event, the outbox, the key. *)
Definition written (r : PGXRepository) (scope key : string) (row : BookingRow) (actor : string)
    (ref : option string) (d1 d' : DB) : Prop :=
  let b := b_data row in
  exists d2 d3 d4, insert_booking row d1 = Ok d2 /\
    insert_event (mkEventRow (tenantID r) (bk_ID b) "created" actor ref None b) d2 = Ok d3 /\
    same_but_jobs d3 d4 /\ (exists new, jobs d4 = jobs d3 ++ new) /\
    (exists j, j ∈ jobs d4 /\ j_tenant j = tenantID r /\ j_key j = Some (reminder_key (bk_ID b))) /\
    (exists j, j ∈ jobs d4 /\ j_tenant j = tenantID r /\ j_key j = Some (crm_key (bk_ID b))) /\
    (exists now, d' = set_idempotency (update_rows (is_key (tenantID r) scope key)
       (complete_idem (bk_ID b) (Some b) now) (idempotency d4)) d4).

Lemma create_inv r request h e w0 res w' :
  createBookingOnce fuel r request h e w0 = (Ok res, w') -> Replayed res = false ->
  key_row (tenantID r) (create_scope request) (cr_IdempotencyKey request) (db w0) = None /\
  exists c id now d1,
    checked r request e (db w0) c /\ same_schedule (db w0) d1 /\
    idempotency d1 = idempotency (db w0) ++ [mkIdemRow (tenantID r) (create_scope request)
      (cr_IdempotencyKey request) h "in_progress" None None None] /\
    res = mkResult (b_data (created_row r request c id now)) false /\
    written r (create_scope request) (cr_IdempotencyKey request) (created_row r request c id now)
      "agent" None d1 (db w').
Proof.
  intros Hon Hrep. unfold createBookingOnce in Hon. fold (create_scope request) in Hon.
  apply with_tx_Ok in Hon as (w2 & Hb & ->). open_step Hb.
  apply reserve_key_Ok in Hm as (Hdb & Hab & Htx & Hm). simpl in *.
  destruct (key_row _ _ _ (db w0)) as [i|] eqn:Hkey.
  { destruct Hm as [-> _]. simpl in Hb. apply replay_Ok in Hb as (_ & Hr & _). congruence. }
  split; [done|]. destruct Hm as [-> Hw]. simpl in Hb. open_step Hb. destruct a as [service member].
  apply inputs_Ok in Hm as ((svc & Hsvc & Hst & Hsi & Hsa & ->) & (row & Hrow & ->) & _ & Hw1).
  rewrite Hw in Hsvc, Hrow. open_step Hb. unfold location_of in Hm. simpl in Hm.
  destruct (LoadLocation (st_timezone row)) as [location|] eqn:Hloc; [|discriminate Hm].
  unfold ret in Hm. injection Hm as <- <-. open_step Hb. open_step Hm. open_step Hb.
  apply moves_acquire in Hm as (_ & _ & Hw3). rewrite Hw1, Hw in Hw3.
  open_step Hb. unfold still_future in Hm. open_all. destruct (After _ _) eqn:Hfut; simpl in Hb; [|discriminate Hb].
  apply same_schedule_locked in Hw3 as [Hss Hidem]. destruct (same_schedule_fields _ _ Hss) as (_&_&_&_&Hru&_).
  open_step Hb. apply reads_rules_Ok in Hm as (Hrules & _ & Hwr). simpl in Hrules, Hwr.
  open_step Hb. apply reads_busy in Hm as (-> & _ & Hwb). rewrite Hwr in *.
  open_step Hb. open_step Hm. match goal with Ha : IsAvailable _ _ _ _ _ _ = Some (Ok ?b) |- _ =>
    destruct b; [rename Ha into Hav|discriminate Hb] end. simpl in Hb.
  open_step Hb. open_step Hm. open_step Hm. unfold insert_booking_sql in Hm.
  apply rbind_Ok in Hm as (d2 & Hins & [= <- <-]). apply finish_create_Ok in Hb as (-> & d3 & d4 & Hfin).
  exists (mkInputs svc row location a1). eexists _, _, (work w3). split; [|split; [done|]].
  - unfold checked. simpl. do 5 (split; [done|]). split; [done|]. split; [|split].
    + exists (tick w3). unfold After in Hfut. by apply Z.ltb_lt.
    + unfold scanned_rules in *. by rewrite <- Hru.
    + eexists. rewrite <- (recheck_same _ _ _ _ _ _ _ _ Hss). exact Hav.
  - split; [done|]. split; [reflexivity|]. exists d2, d3, d4. rewrite Hwb in Hins. done.
Qed.

(** ** What was written *)
Lemma same_but_jobs_fields d d' :
  same_but_jobs d d' ->
  bookings d' = bookings d /\ booking_events d' = booking_events d /\ idempotency d' = idempotency d.
Proof. unfold same_but_jobs. intros Hs. by injection Hs. Qed.

Lemma insert_event_Ok row d d' :
  insert_event row d = Ok d' -> d' = set_events (booking_events d ++ [row]) d.
Proof.
  unfold insert_event. destruct (event_check row); [|done]. simpl.
  destruct (existsb _ _); [|done]. by intros [= <-].
Qed.

Lemma find_completed {A} (p : A -> bool) f l x :
  List.find p l = None -> p x = true -> p (f x) = true ->
  List.find p (update_rows p f (l ++ [x])) = Some (f x).
Proof.
  intros Hl Hx Hf. unfold update_rows. induction l as [|a l IH]; simpl in *.
  - by rewrite Hx, Hf.
  - destruct (p a) eqn:Ha; [done|]. rewrite Ha. by apply IH.
Qed.

Lemma is_key_complete t s k r o now i : is_key t s k (complete_idem r o now i) = is_key t s k i.
Proof. done. Qed.

Lemma written_fields r sc k row a ref d1 d' h D :
  written r sc k row a ref d1 d' ->
  key_row (tenantID r) sc k D = None ->
  idempotency d1 = idempotency D ++ [mkIdemRow (tenantID r) sc k h "in_progress" None None None] ->
  bookings d' = bookings d1 ++ [row] /\
  booking_events d' = booking_events d1 ++
    [mkEventRow (tenantID r) (b_id row) "created" a ref None (b_data row)] /\
  (exists j, j ∈ jobs d' /\ j_tenant j = tenantID r /\ j_key j = Some (reminder_key (b_id row))) /\
  (exists j, j ∈ jobs d' /\ j_tenant j = tenantID r /\ j_key j = Some (crm_key (b_id row))) /\
  exists i, key_row (tenantID r) sc k d' = Some i /\ id_hash i = h /\ id_status i = "completed" /\
    id_resource i = Some (b_id row) /\ id_response i = Some (b_data row).
Proof.
  intros (d2 & d3 & d4 & Hi & He & Hs & _ & Hr & Hc & now & ->) Hkey Hid.
  apply insert_booking_Ok in Hi as (_ & _ & _ & _ & ->). apply insert_event_Ok in He as ->.
  apply same_but_jobs_fields in Hs as (Hb & Hev & Hidem). simpl in *.
  rewrite Hb, Hev, Hidem, Hid. split; [done|]. split; [done|]. split; [done|]. split; [done|].
  eexists. split; [|split; [|split; [|split]]].
  - unfold key_row in *. simpl. apply find_completed; [done|..];
      rewrite ?is_key_complete; unfold is_key; simpl; by rewrite !String.eqb_refl.
  - done.
  - done.
  - done.
  - done.
Qed.

Lemma minutes_exact n : minutes (n * Minute) = n.
Proof. unfold minutes. apply Z.quot_mul. by unfold Minute, Second. Qed.

(** What creating a booking writes.  When [CreateBooking] answers with a new
    booking, its key was unused; exactly one row was added to the bookings, with
    the requested customer, conversation, service, staff and notes, confirmed at
    version 1, starting at the requested instant (to the microsecond) and lasting
    the service's duration with its buffers; exactly one audit event was added; the
    outbox holds the booking's reminder and its CRM job; and the key's record is
    completed with this request's hash and this booking. *)
Theorem CreateBooking_effect r now request e w res w' :
  CreateBooking fuel r now request e w = (Ok res, w') -> Replayed res = false ->
  let b := res_Booking res in
  let t := tenantID r in
  (exists svc, svc ∈ services (db w) /\ sv_tenant svc = t /\ sv_id svc = cr_ServiceID request /\
     sv_active svc = true /\
     EndsAt b = pg_time Local (Add (cr_StartsAt request) (sv_duration svc * Minute)) /\
     BufferBeforeMinutes b = sv_before svc /\ BufferAfterMinutes b = sv_after svc) /\
  (CustomerID b = cr_CustomerID request /\ ConversationID b = cr_ConversationID request /\
   ServiceID b = cr_ServiceID request /\ StaffID b = cr_StaffID request /\ Status b = "confirmed" /\
   StartsAt b = pg_time Local (cr_StartsAt request) /\ ScheduleVersion b = 1 /\
   Notes b = cr_Notes request) /\
  bookings (db w') = bookings (db w) ++ [mkBookingRow t b None None] /\
  booking_events (db w') = booking_events (db w) ++ [mkEventRow t (bk_ID b) "created" "agent" None None b] /\
  (exists j, j ∈ jobs (db w') /\ j_tenant j = t /\ j_key j = Some (reminder_key (bk_ID b))) /\
  (exists j, j ∈ jobs (db w') /\ j_tenant j = t /\ j_key j = Some (crm_key (bk_ID b))) /\
  key_row t (create_scope request) (cr_IdempotencyKey request) (db w) = None /\
  exists i, key_row t (create_scope request) (cr_IdempotencyKey request) (db w') = Some i /\
    id_hash i = hashCreateBooking request /\ id_status i = "completed" /\ id_resource i = Some (bk_ID b).
Proof.
  intros Hc Hrep. change (exec_command fuel r (CmdCreate now request) e w = (Ok res, w')) in Hc.
  apply command_Ok in Hc as (w0 & Hd & Hon). simpl in Hon.
  apply create_inv in Hon as (Hkey & c & id & t0 & d1 & Hch & Hss & Hid & -> & Hw); [|done].
  destruct (written_fields _ _ _ _ _ _ _ _ _ _ Hw Hkey Hid) as (Hb & Hev & Hr & Hcrm & i & Hi & Hh & Hst & Hres & _).
  destruct (same_schedule_fields _ _ Hss) as (_&_&_&_&_&_&_&_&Hbk&Hevs&_).
  rewrite Hd in *. rewrite Hbk in Hb. rewrite Hevs in Hev. destruct Hch as (H1 & H2 & H3 & H4 & _).
  simpl. split; [|split; [|split; [|split; [|split; [|split; [|split]]]]]].
  - exists (ci_service c). rewrite !minutes_exact. done.
  - done.
  - exact Hb.
  - exact Hev.
  - exact Hr.
  - exact Hcrm.
  - exact Hkey.
  - exists i. done.
Qed.

(** ** The recheck and the exclusion constraint *)
Lemma trunc_mono a b : a <= b -> a / 1000 * 1000 <= b / 1000 * 1000.
Proof. intros Hab. apply Z.mul_le_mono_nonneg_r; [lia|]. apply Z.div_le_mono; lia. Qed.

Lemma trunc_le a : a / 1000 * 1000 <= a.
Proof. pose proof (Z.mul_div_le a 1000). lia. Qed.

Lemma trunc_minutes a k : (a + k * Minute) / 1000 * 1000 = a / 1000 * 1000 + k * Minute.
Proof.
  unfold Minute, Second. replace (a + k * (60 * 1000000000)) with (a + (k * 60000000) * 1000) by lia.
  rewrite Z.div_add by lia. lia.
Qed.

Lemma micro_le t x k : micro t -> ns t + k * Minute <= x -> ns t + k * Minute <= x / 1000 * 1000.
Proof.
  unfold micro. intros Hm Hle. apply trunc_mono in Hle. rewrite trunc_minutes in Hle.
  pose proof (Z.div_mod (ns t) 1000). lia.
Qed.

Lemma booking_interval_in t st qf qt d b :
  b ∈ bookings d -> b_tenant b = t -> StaffID (b_data b) = st -> active b = true ->
  ns qf < ns qt -> occ_start b < ns qt -> ns qf < occ_end b ->
  booking_interval b ∈ busy_rows t st qf qt d.
Proof.
  intros Hb Ht Hs Ha Hq H1 H2. unfold busy_rows. apply elem_of_app; right.
  apply list_elem_of_fmap. exists b. split; [done|]. apply elem_of_filter_bool. split; [done|].
  rewrite Ht, Hs, !String.eqb_refl, Ha. unfold ranges_overlap. simpl.
  rewrite !andb_true_iff, !Z.ltb_lt. done.
Qed.

(** What the recheck has found about the requested start. *)
Lemma checked_validated r request e d c :
  checked r request e d c -> exists l st, validate LoadLocation (engine r)
    (recheck_of (tenantID r) (scanService (ci_service c)) (staff_of (ci_staff c)) (ci_location c) (ci_rules c)
       (cr_StartsAt request) d) = Ok (l, st).
Proof.
  intros (_ & _ & _ & _ & _ & _ & _ & _ & ctx & Hav). unfold IsAvailable in Hav.
  destruct (validate _ _ _) as [[l st]|]; [by eexists _, _|done].
Qed.

Lemma checked_duration r request e d c : checked r request e d c -> 0 < Duration (scanService (ci_service c)).
Proof. intros Hch. destruct (checked_validated _ _ _ _ _ Hch) as (l & st & Hv). by apply validate_inv in Hv as (_ & _ & Hd & _). Qed.

Lemma checked_offer r request e d c :
  checked r request e d c ->
  let service := scanService (ci_service c) in
  let inp := recheck_of (tenantID r) service (staff_of (ci_staff c)) (ci_location c) (ci_rules c) (cr_StartsAt request) d in
  exists zone s, engine_location LoadLocation (engine r) inp = Ok (Some zone) /\ ns s = ns (cr_StartsAt request) /\
    0 <= BufferBefore service <= 4 * Hour /\ 0 <= BufferAfter service <= 4 * Hour /\
    genuine (day_search inp zone (cr_StartsAt request)) zone s.
Proof.
  intros Hch. cbv zeta. destruct (checked_validated _ _ _ _ _ Hch) as (l & st & Hv).
  apply validate_inv in Hv as (_ & _ & _ & _ & Hbb & Hba & _). destruct Hch as (_ & _ & _ & _ & _ & _ & _ & _ & ctx & Hav).
  apply IsAvailable_genuine in Hav as (zone & s & Hz & Hs & Hg). by exists zone, s.
Qed.

(** A stored zone is the zone of the search. *)
Lemma own_zone r request d c location zone :
  LoadLocation (st_timezone (ci_staff c)) = Ok location ->
  engine_location LoadLocation (engine r) (recheck_of (tenantID r) (scanService (ci_service c)) (staff_of (ci_staff c))
    (ci_location c) (ci_rules c) (cr_StartsAt request) d) = Ok (Some zone) ->
  st_timezone (ci_staff c) <> "" -> zone = location.
Proof.
  intros Hloc Hz Htz. unfold engine_location in Hz. simpl in Hz. rewrite bool_decide_eq_false_2 in Hz by done.
  rewrite Hloc in Hz. by simplify_eq.
Qed.

(** The facts of a check, spelled out at the requested start. *)
Lemma checked_genuine r request e d c :
  checked r request e d c -> st_timezone (ci_staff c) <> "" ->
  let service := scanService (ci_service c) in
  let loc := ci_location c in
  let dayStart := date_of (In (cr_StartsAt request) loc) loc in
  let dayEnd := AddDate dayStart 0 0 1 in
  let inp := recheck_of (tenantID r) service (staff_of (ci_staff c)) loc (ci_rules c)
               (cr_StartsAt request) d in
  0 < Duration service /\ 0 <= BufferBefore service <= 4 * Hour /\ 0 <= BufferAfter service <= 4 * Hour /\
  ns dayStart <= ns (cr_StartsAt request) /\
  ns (cr_StartsAt request) + Duration service <= ns dayEnd /\
  exists s, ns s = ns (cr_StartsAt request) /\ genuine (day_search inp loc (cr_StartsAt request)) loc s.
Proof.
  intros Hch Htz. cbv zeta. pose proof (checked_duration _ _ _ _ _ Hch) as Hdur.
  destruct (checked_offer _ _ _ _ _ Hch) as (zone & s & Hz & Hs & Hbb & Hba & Hg).
  assert (zone = ci_location c) as -> by (eapply own_zone; [apply Hch|done..]).
  split; [done|]. split; [done|]. split; [done|].
  pose proof Hg as (_ & _ & _ & _ & Hfrom & Hto & _). simpl in Hfrom, Hto.
  rewrite Hs in Hfrom, Hto. split; [done|]. split; [done|]. by exists s.
Qed.

(** The recheck covers the constraint.  Once the locked recheck has accepted
    a start, the row the command inserts collides with no booking of the table: the
    four-hour margin of the busy query, the buffers and the rounding to
    microseconds leave the exclusion constraint nothing to reject. *)
Theorem recheck_covers_constraint r request e d c id now :
  schedule_wf d -> checked r request e d c ->
  st_timezone (ci_staff c) <> "" -> cr_StaffID request <> "" ->
  existsb (excludes (created_row r request c id now)) (bookings d) = false.
Proof.
  intros (_ & Hwf & _) Hch Htz Hst. pose proof (checked_genuine _ _ _ _ _ Hch Htz) as Hg.
  destruct Hch as (_ & _ & _ & _ & Hel & _). unfold recheck_of in Hg. cbv zeta in Hg.
  remember (date_of (In (cr_StartsAt request) (ci_location c)) (ci_location c)) as ds eqn:Hds.
  remember (AddDate ds 0 0 1) as de eqn:Hde. clear Hds Hde.
  apply eligible_spec in Hel as (_ & Hten & [?|Hsid] & _); [done|].
  destruct Hg as (Hdur & Hbb & Hba & Hfrom & Hto & s & Hs & day & period & _ & _ & _ & _ & _ & _ & _ & Hbusy).
  apply existsb_false. intros b Hb. apply not_true_is_false. intros Hex.
  unfold excludes, ranges_overlap in Hex. bool_to_prop.
  repeat match goal with Hx : String.eqb _ _ = true |- _ => apply String.eqb_eq in Hx end.
  unfold occ_start, occ_end in *. simpl in *. rewrite !minutes_exact in *.
  rewrite trunc_minutes in *. set (start := ns (cr_StartsAt request)) in *.
  assert (H4h : 4 * Hour = 240 * Minute) by done. rewrite H4h in *.
  assert (Hqf : (ns ds + -4 * Hour) / 1000 * 1000 <= start / 1000 * 1000 - sv_before (ci_service c) * Minute).
  { rewrite <- (Z.add_opp_r (start / 1000 * 1000)), <- Z.mul_opp_l, <- trunc_minutes. apply trunc_mono. lia. }
  assert (Hqt : start / 1000 * 1000 + sv_duration (ci_service c) * Minute + sv_after (ci_service c) * Minute
                <= (ns de + 240 * Minute) / 1000 * 1000).
  { rewrite <- !trunc_minutes. apply trunc_mono. lia. }
  rewrite Forall_forall in Hwf. destruct (Hwf b Hb) as (_ & _ & Hmic).
  destruct (Hbusy (booking_interval b)) as [Hcl|Hcl].
  - apply booking_interval_in; try done; try congruence; simpl;
      unfold occ_start, occ_end; simpl; unfold Hour, Minute, Second in *; lia.
  - simpl in Hcl. rewrite Hs in Hcl. fold start in Hcl.
    pose proof (micro_le (EndsAt (b_data b)) start
      (BufferAfterMinutes (b_data b) + sv_before (ci_service c)) Hmic) as Hm.
    unfold Minute, Second in *. lia.
  - simpl in Hcl. rewrite Hs in Hcl. fold start in Hcl. pose proof (trunc_le start).
    unfold Minute, Second in *. lia.
Qed.

(** ** Free time *)
(** Whatever occupies a member of staff in the tables. *)
Definition taken (tenant staffID : string) (d : DB) : list Interval :=
  map block_interval (List.filter (fun b => String.eqb (bl_tenant b) tenant && String.eqb (bl_staff b) staffID) (blocks d)) ++
  map booking_interval (List.filter (fun b => String.eqb (b_tenant b) tenant && String.eqb (StaffID (b_data b)) staffID &&
    active b) (bookings d)).

Lemma day_bounds_whole t l : ns (date_of t l) mod 1000 = 0 /\ ns (AddDate (date_of t l) 0 0 1) mod 1000 = 0.
Proof.
  assert (Hs : forall k, k * Second mod 1000 = 0).
  { intros k. unfold Second. replace (k * 1000000000) with (k * 1000000 * 1000) by lia. by rewrite Z.mod_mul. }
  assert (Hd : ns (date_of t l) mod Second = 0) by (rewrite date_of_spec; cbn [ns]; by rewrite Z.mod_mul).
  split; [rewrite date_of_spec; apply Hs|]. unfold AddDate, Date. cbn [ns]. unfold NanosecondOf. rewrite Hd, Z.add_0_r. apply Hs.
Qed.

(** What the busy query leaves out is too far away to matter. *)
Lemma taken_loaded tenant staffID inp location s d :
  ns (From inp) mod 1000 = 0 -> ns (To inp) mod 1000 = 0 ->
  Busy inp = busy_rows tenant staffID (pg_time Local (Add (From inp) (-4 * Hour))) (pg_time Local (Add (To inp) (4 * Hour))) d ->
  0 < Duration (si_Service inp) ->
  0 <= BufferBefore (si_Service inp) <= 4 * Hour -> 0 <= BufferAfter (si_Service inp) <= 4 * Hour ->
  genuine inp location s -> forall b, b ∈ taken tenant staffID d ->
    clear_of inp s (ns (iv_Start b) - iv_BufferBefore b) (ns (iv_End b) + iv_BufferAfter b).
Proof.
  intros Hf Ht Hload Hdur Hbb Hba (day & period & _ & _ & Hs1 & Hs2 & _ & _ & _ & Hbusy) b Hb.
  rewrite Hload in Hbusy. clear Hload. set (from := From inp) in *. set (to := To inp) in *.
  assert (Hlt : ns from < ns to) by lia.
  assert (Hwhole : forall x k, ns x mod 1000 = 0 -> ns (pg_time Local (Add x (k * Hour))) = ns x + k * Hour).
  { intros x k Hx. cbn [pg_time Add ns]. unfold Hour, Minute, Second. pose proof (Z.div_mod (ns x) 1000).
    replace (ns x + k * (60 * (60 * 1000000000))) with (ns x + k * 3600000000 * 1000) by lia.
    rewrite Z.div_add by lia. lia. }
  pose proof (Hwhole from (-4) Hf) as Hqf. pose proof (Hwhole to 4 Ht) as Hqt. revert Hbusy.
  set (qf := pg_time Local (Add from (-4 * Hour))) in *. set (qt := pg_time Local (Add to (4 * Hour))) in *. intros Hbusy.
  apply elem_of_app in Hb as [Hb|Hb]; apply list_elem_of_fmap in Hb as (x & -> & [Hx Hp]%elem_of_filter_bool).
  - destruct ((ns (bl_starts x) <? ns qt) && (ns qf <? ns (bl_ends x))) eqn:E.
    + apply Hbusy, elem_of_app. left. apply list_elem_of_fmap. exists x. split; [done|]. apply elem_of_filter_bool.
      split; [done|]. rewrite Hp. exact E.
    + unfold clear_of. cbn [block_interval iv_Start iv_End iv_BufferBefore iv_BufferAfter].
      apply andb_false_iff in E as [E|E]; bool_to_prop; lia.
  - destruct (ranges_overlap (occ_start x) (occ_end x) (ns qf) (ns qt)) eqn:E.
    + apply Hbusy, elem_of_app. right. apply list_elem_of_fmap. exists x. split; [done|]. apply elem_of_filter_bool.
      split; [done|]. rewrite Hp, E. unfold Hour, Minute, Second in *. rewrite (proj2 (Z.ltb_lt (ns qf) (ns qt))); [done|lia].
    + unfold clear_of. cbn [booking_interval iv_Start iv_End iv_BufferBefore iv_BufferAfter].
      unfold ranges_overlap, occ_start, occ_end in E. apply andb_false_iff in E as [E|E]; bool_to_prop; lia.
Qed.

(** C14. Only free time is booked.  A new booking was made from tables in which its
    service was active and its staff eligible and active, it starts after a reading of
    the database clock, and its start was an offer of the availability engine over the
    rules, blocks and bookings those tables hold: the service fits inside a working
    period of a local day, clear of the day's breaks and of what the recheck loaded with
    their buffers.  The day is that of the staff's zone, and then no block and no active
    booking of the staff in the tables is in the way, loaded or not.  Where the stored
    zone is empty the day is that of the engine's own zone, while the recheck loads what
    lies around the day of UTC. *)
Theorem CreateBooking_books_free_time r now request e w res w' :
  CreateBooking fuel r now request e w = (Ok res, w') -> Replayed res = false ->
  exists c zone s,
    let inp := recheck_of (tenantID r) (scanService (ci_service c)) (staff_of (ci_staff c)) (ci_location c) (ci_rules c)
                 (cr_StartsAt request) (db w) in
    checked r request e (db w) c /\ engine_location LoadLocation (engine r) inp = Ok (Some zone) /\
    ns s = ns (cr_StartsAt request) /\ genuine (day_search inp zone (cr_StartsAt request)) zone s /\
    (st_timezone (ci_staff c) <> "" -> zone = ci_location c /\
       forall b, b ∈ taken (tenantID r) (st_id (ci_staff c)) (db w) ->
         clear_of inp s (ns (iv_Start b) - iv_BufferBefore b) (ns (iv_End b) + iv_BufferAfter b)).
Proof.
  intros Hc Hrep. change (exec_command fuel r (CmdCreate now request) e w = (Ok res, w')) in Hc.
  apply command_Ok in Hc as (w0 & Hd & Hon). simpl in Hon.
  apply create_inv in Hon as (_ & c & _ & _ & _ & Hch & _); [|done]. rewrite Hd in Hch.
  destruct (checked_offer _ _ _ _ _ Hch) as (zone & s & Hz & Hs & Hbb & Hba & Hg). exists c, zone, s.
  split; [done|]. split; [done|]. split; [done|]. split; [done|]. intros Htz.
  assert (zone = ci_location c) as -> by (eapply own_zone; [apply Hch|done..]). split; [done|].
  destruct (day_bounds_whole (In (cr_StartsAt request) (ci_location c)) (ci_location c)) as [H1 H2].
  exact (taken_loaded (tenantID r) (st_id (ci_staff c)) (day_search (recheck_of (tenantID r) (scanService (ci_service c))
    (staff_of (ci_staff c)) (ci_location c) (ci_rules c) (cr_StartsAt request) (db w)) (ci_location c) (cr_StartsAt request))
    (ci_location c) s (db w) H1 H2 eq_refl (checked_duration _ _ _ _ _ Hch) Hbb Hba Hg).
Qed.
End create.

(** ** Witnesses *)
Lemma CreateBooking_effect_witness :
  exists res w', bookings (db w') = bookings (db empty_salon) ++ [mkBookingRow "t" (res_Booking res) None None].
Proof.
  destruct created as (res & w' & Hc & Hr).
  destruct (CreateBooking_effect 40 repo (monday 6 0) (create_at 10) calm empty_salon res w' Hc Hr)
    as (_ & _ & Hb & _).
  exists res, w'. exact Hb.
Defined.

Lemma CreateBooking_books_free_time_witness :
  exists c zone s, checked 40 repo (create_at 10) calm (db empty_salon) c /\ ns s = ns (monday 10 0) /\
    genuine (day_search (recheck_of "t" (scanService (ci_service c)) (staff_of (ci_staff c)) (ci_location c) (ci_rules c)
      (monday 10 0) (db empty_salon)) zone (monday 10 0)) zone s.
Proof.
  destruct created as (res & w' & Hc & Hr).
  destruct (CreateBooking_books_free_time 40 repo (monday 6 0) (create_at 10) calm empty_salon res w' Hc Hr)
    as (c & zone & s & Hch & _ & Hs & Hg & _).
  exists c, zone, s. split; [exact Hch|]. split; [exact Hs|exact Hg].
Defined.

Definition demo_inputs : create_inputs :=
  mkInputs (mkServiceRow "t" service_id "cut" "Cut" "" 60 15 15 4000 "EUR" true)
    (mkStaffRow "t" staff_id "ann" "Ann" "UTC" true) UTC
    [mkRule "working" 1 540 1020 None None].

Lemma demo_checked : checked 40 repo (create_at 12) calm (db booked_salon) demo_inputs.
Proof.
  repeat split; try (by left); try (vm_compute; reflexivity).
  - exists 0%nat. vm_compute. reflexivity.
  - exists (fun _ => None). vm_compute. reflexivity.
Defined.

Lemma recheck_covers_constraint_witness :
  existsb (excludes (created_row repo (create_at 12) demo_inputs "new" (monday 7 0))) (bookings (db booked_salon)) = false.
Proof.
  apply (recheck_covers_constraint 40 repo (create_at 12) calm (db booked_salon) demo_inputs "new" (monday 7 0)
    booked_salon_wf demo_checked); discriminate.
Defined.

(** * Moving and cancelling a booking *)

#[local] Open Scope Z_scope.

Section change.
Context `{Host} (fuel : nat).

Lemma insert_event_sql_Ok row now n e d u d' :
  insert_event_sql row now n e d = Ok (u, d') -> d' = set_events (booking_events d ++ [row]) d.
Proof. intros (d1 & He & [= _ <-])%rbind_Ok. by apply insert_event_Ok. Qed.

(** An ignored statement that did not abort the transaction succeeded. *)
Lemma ignore_run_Ok {A} (s : sql A) e w u w' :
  ignore (run Tx s) e w = (Ok u, w') -> aborted w' = false ->
  exists a d, s (tx_now w) (tick w) e (work w) = Ok (a, d) /\ work w' = d /\ db w' = db w.
Proof.
  unfold ignore, run. intros [= _ <-]. destruct (aborted w) eqn:Hab; simpl; [by rewrite Hab|].
  destruct (fault e _); [done|]. destruct (s _ _ _ _) as [[a d]|]; [|done]. eauto.
Qed.

(** Only the record of the command's own key may differ. *)
Definition same_but_keys (d d' : DB) : Prop := set_idempotency [] d' = set_idempotency [] d.

Lemma same_but_keys_fields d d' :
  same_but_keys d d' -> bookings d' = bookings d /\ booking_events d' = booking_events d /\
  jobs d' = jobs d /\ same_schedule d d'.
Proof. unfold same_but_keys, same_schedule. intros Hs. injection Hs. intros. unfold set_locks, set_idempotency; simpl. repeat (split; [assumption|]). by f_equal. Qed.

Lemma reserve_keys t s k h e w b w' :
  reserve_key t s k h e w = (Ok b, w') -> same_but_keys (work w) (work w').
Proof.
  intros (_ & _ & _ & Hr)%reserve_key_Ok. destruct (key_row _ _ _ _); destruct Hr as [_ ->]; done.
Qed.

Lemma complete_keys t s k res o now n e d u d' :
  complete_key_sql t s k res o now n e d = Ok (u, d') -> same_but_keys d d'.
Proof. unfold complete_key_sql. intros ([l x] & _ & [= _ <-])%rbind_Ok. done. Qed.

(** ** The common tails *)
Lemma retire_Ok r current reason id actor ref e w b w' :
  retire_booking r current reason id actor ref e w = (Ok b, w') ->
  exists now d2 d3 touched,
    update_booking (tenantID r) id (set_cancelled reason now) (work w) = Ok (Some b, d2) /\
    d3 = set_events (booking_events d2 ++
           [mkEventRow (tenantID r) (bk_ID b) "cancelled" actor ref (Some current) b]) d2 /\
    update_jobs (fun j => of_booking (tenantID r) (bk_ID b) j && string_in (j_status j) ["pending"; "claimed"] &&
                          (String.eqb "send_reminder" "" || String.eqb (j_type j) "send_reminder"))
      (cancel_row now) d3 = Ok (touched, work w') /\ db w' = db w.
Proof.
  unfold retire_booking, CancelBookingJobs. intros Hr. open_all.
  unfold cancel_sql, cancel_jobs_sql in *.
  match goal with He : insert_event_sql _ _ _ _ _ = Ok _ |- _ => apply insert_event_sql_Ok in He as -> end.
  eexists _, _, _, _. split; [eassumption|]. split; [done|]. split; [eassumption|done].
Qed.

Lemma move_Ok r current start stop tz id actor ref e w b w' :
  move_booking fuel r current start stop tz id actor ref e w = (Ok b, w') ->
  exists now d1 d2 d3 k l,
    same_but_locks (work w) d1 /\
    update_booking (tenantID r) id (set_schedule (pg_time Local start) (pg_time Local stop) now) d1 = Ok (Some b, d2) /\
    d3 = set_events (booking_events d2 ++
           [mkEventRow (tenantID r) (bk_ID b) "rescheduled" actor ref (Some current) b]) d2 /\
    move_reminders (pending_reminder (tenantID r) (bk_ID b)) (StartsAt b) tz (jobs d3) = Ok (k, l) /\
    work w' = set_jobs l d3 /\ db w' = db w.
Proof.
  unfold move_booking, UpdateReminderSchedule. intros Hr. open_step Hr. open_step Hm. open_step Hr.
  pose proof (moves_acquire _ _ _ _ _ _ _ Hm) as (Hdb & _ & Hlk). clear Hm. open_all.
  unfold reschedule_sql, move_reminders_sql in *.
  match goal with He : insert_event_sql _ _ _ _ _ = Ok _ |- _ => apply insert_event_sql_Ok in He as -> end.
  match goal with He : rbind _ _ = Ok _ |- _ => apply rbind_Ok in He as ([k l] & Hmv & [= _ <-]) end.
  eexists _, _, _, _, k, l. do 4 (split; [eassumption || done|]). done.
Qed.

Lemma owned_Ok msg t id owner e w b w' :
  load_owned msg t id owner e w = (Ok b, w') ->
  (exists row, row ∈ bookings (work w) /\ b_tenant row = t /\ b_id row = id /\ b = b_data row /\
     CustomerID b = owner) /\ db w' = db w /\ work w' = work w.
Proof.
  unfold load_owned. intros Hl. open_all. split; [|done]. unfold booking_row in *.
  destruct (List.find _ _) as [row|] eqn:Hf; [|done]. simplify_eq/=.
  apply List.find_some in Hf as [Hin%list_elem_of_In Ho]. unfold is_owned in Ho. bool_to_prop.
  match goal with Hx : String.eqb _ _ = true |- _ => apply String.eqb_eq in Hx end.
  match goal with Hx : is_booking _ _ _ = true |- _ => apply is_booking_spec in Hx as [? ?] end.
  eauto 10.
Qed.

Lemma for_update_Ok t id e w b w' :
  loadBookingForUpdate t id e w = (Ok b, w') ->
  (exists row, row ∈ bookings (work w) /\ b_tenant row = t /\ b_id row = id /\ b = b_data row) /\
  db w' = db w /\ work w' = work w.
Proof.
  unfold loadBookingForUpdate. intros Hl. open_all. split; [|done]. unfold booking_row in *.
  destruct (List.find _ _) as [row|] eqn:Hf; [|done]. simplify_eq/=.
  apply List.find_some in Hf as [Hin%list_elem_of_In [Ht Hi]%is_booking_spec]. eauto 10.
Qed.

(** ** Cancelling *)
Lemma update_target_iff t id f d old :
  NoDup (booking_key <$> bookings d) -> List.find (target t id) (bookings d) = Some old ->
  forall x, x ∈ update_rows (target t id) f (bookings d) <-> (x ∈ bookings d /\ x <> old) \/ x = f old.
Proof.
  intros Hnd Hf x. apply List.find_some in Hf as Ho. destruct Ho as [Hin%list_elem_of_In Ht].
  assert (Honly : forall b, b ∈ bookings d -> target t id b = true -> b = old).
  { intros b Hb [Hk _]%target_spec. apply (target_unique t id d); [done..|].
    apply target_spec in Ht as [Hk' _]. congruence. }
  rewrite elem_of_update_rows. split.
  - intros (b & Hb & ->). destruct (target t id b) eqn:Htb.
    + right. by rewrite (Honly b).
    + left. split; [done|]. intros ->. congruence.
  - intros [[Hx Hne]| ->].
    + exists x. split; [done|]. destruct (target t id x) eqn:Htx; [|done]. destruct Hne. by apply Honly.
    + exists old. by rewrite Ht.
Qed.

(** What the update found is the row that was loaded. *)
Lemma update_found t id f d d1 o d2 row :
  bookings d1 = bookings d -> schedule_wf d -> update_booking t id f d1 = Ok (Some o, d2) ->
  row ∈ bookings d -> b_tenant row = t -> b_id row = id ->
  Status (b_data row) = "confirmed" /\ o = b_data (f row) /\
  (forall x, x ∈ bookings d2 <-> (x ∈ bookings d /\ x <> row) \/ x = f row) /\
  booking_events d2 = booking_events d1 /\ jobs d2 = jobs d1.
Proof.
  intros Hb (Hnd & _) Hu Hrow Ht Hid. apply update_booking_Ok in Hu as [[? _]|(old & Ho & Hf & _ & _ & ->)]; [done|].
  rewrite Hb in Hf. assert (row = old) as <-.
  { apply (target_unique t id d); [done..|]. apply List.find_some in Hf as [_ [Hk _]%target_spec].
    rewrite Hk. unfold booking_key. by rewrite Ht, Hid. }
  apply List.find_some in Hf as Hfs. destruct Hfs as [_ [_ Hst]%target_spec].
  split; [done|]. split; [congruence|]. split; [|done]. simpl. rewrite Hb. by apply update_target_iff.
Qed.

(** A reminder of the booking that could still fire. *)
Definition live_reminder (t id : string) (j : JobRow) : Prop :=
  j_tenant j = t /\ j_booking j = id /\ j_type j = "send_reminder" /\
  (j_status j = "pending" \/ j_status j = "claimed").

(** The row, the event and the reminders after a cancellation. *)
Definition cancelled_from (t : string) (reason actor : string) (ref : option string)
    (old : BookingRow) (b : Booking) (d d' : DB) : Prop :=
  exists now, b = b_data (set_cancelled reason now old) /\
    (forall x, x ∈ bookings d' <-> (x ∈ bookings d /\ x <> old) \/ x = set_cancelled reason now old) /\
    booking_events d' = booking_events d ++
      [mkEventRow t (bk_ID b) "cancelled" actor ref (Some (b_data old)) b] /\
    (forall j, j ∈ jobs d' -> ~ live_reminder t (bk_ID b) j) /\
    (forall j, j ∈ jobs d -> ~ live_reminder t (bk_ID b) j -> j ∈ jobs d').

Lemma reminder_selected t id j :
  (of_booking t id j && string_in (j_status j) ["pending"; "claimed"] &&
   (String.eqb "send_reminder" "" || String.eqb (j_type j) "send_reminder")) = true <->
  live_reminder t id j.
Proof.
  unfold of_booking, live_reminder. simpl. rewrite !andb_true_iff, !String.eqb_eq.
  unfold string_in; simpl. rewrite !orb_true_iff, !String.eqb_eq. naive_solver.
Qed.

Lemma retired r current reason id actor ref e w b w' d row :
  retire_booking r current reason id actor ref e w = (Ok b, w') ->
  same_but_keys d (work w) -> schedule_wf d ->
  row ∈ bookings d -> b_tenant row = tenantID r -> b_id row = id -> current = b_data row ->
  Status (b_data row) = "confirmed" /\
  cancelled_from (tenantID r) reason actor ref row b d (work w').
Proof.
  intros (now & d2 & d3 & touched & Hu & -> & Hj & _)%retire_Ok Hk Hwf Hrow Ht Hid ->.
  destruct (same_but_keys_fields _ _ Hk) as (Hkb & Hke & Hkj & _).
  destruct (update_found _ _ _ _ _ _ _ row Hkb Hwf Hu Hrow Ht Hid) as (Hst & Hb & Hx & He2 & Hj2).
  apply update_jobs_Ok in Hj as (-> & _ & _). simpl. split; [done|]. exists now. simpl.
  split; [done|]. split; [done|]. rewrite He2, Hke, Hj2, Hkj. split; [done|]. split.
  - intros j (j0 & Hj0 & ->)%elem_of_update_rows. destruct (_ && _) eqn:Hsel.
    + intros (_ & _ & _ & [?|?]); done.
    + intros Hl%reminder_selected. simpl in Hl, Hsel. congruence.
  - intros j Hj Hn. apply elem_of_update_rows. exists j. split; [done|].
    destruct (_ && _) eqn:Hsel; [|done]. destruct Hn. by apply reminder_selected.
Qed.

Lemma cancelled_from_keys t reason actor ref old b d d1 d2 :
  same_but_keys d1 d2 -> cancelled_from t reason actor ref old b d d1 ->
  cancelled_from t reason actor ref old b d d2.
Proof.
  intros (Hb & He & Hj & _)%same_but_keys_fields. unfold cancelled_from. by rewrite Hb, He, Hj.
Qed.

(** Which booking a command cancels, and on whose authority. *)
Definition cancels (c : command) : option (string * string * string * option string) :=
  match c with
  | CmdCancel q => Some (cn_BookingID q, cn_Reason q, "agent", None)
  | CmdAdminCancel q => Some (an_BookingID q, an_Reason q, "admin", Some (actor_ref (an_ActorRef q)))
  | _ => None
  end.

Definition may_cancel (c : command) (b : Booking) : Prop :=
  match c with
  | CmdCancel q => CustomerID b = cn_OwnerCustomerID q
  | CmdAdminCancel q => ScheduleVersion b = an_ExpectedVersion q
  | _ => False
  end.

(** The commit of a transaction whose key was completed, or had none. *)
Lemma commit_after_key t sc key id e w u w1 msg u2 w2 :
  (if bool_decide (key = "") then ret tt else ignore (complete_key t sc key id None)) e w = (Ok u, w1) ->
  wrap msg commit e w1 = (Ok u2, w2) ->
  same_but_keys (work w) (db w2).
Proof.
  intros Hi Hc. open_step Hc. open_step Hc. simpl. destruct (bool_decide _).
  - unfold ret in Hi. by simplify_eq.
  - apply ignore_run_Ok in Hi as (a & d & Hs & -> & _); [|done]. by apply complete_keys in Hs.
Qed.

(** The key of a customer's command, reserved where it has one. *)
Lemma reserve_opt t sc key h e w b w' :
  (if bool_decide (key = "") then ret true else reserve_key t sc key h) e w = (Ok b, w') ->
  same_but_keys (work w) (work w').
Proof. destruct (bool_decide _); [unfold ret; by intros [= _ <-]|apply reserve_keys]. Qed.

(** What cancelling does.  A cancellation that is not a replay found the
    booking confirmed, under its owner on the customer's path and at the expected
    version on the operator's; it leaves that row cancelled with the reason and one
    version later and every other booking as it was, adds one audit event with the
    states before and after, and leaves no reminder of the booking that could still
    fire, while every other job stays. *)
Theorem cancel_effect r c id reason actor ref e w res w' :
  schedule_wf (db w) -> cancels c = Some (id, reason, actor, ref) ->
  exec_command fuel r c e w = (Ok res, w') -> Replayed res = false ->
  exists old, old ∈ bookings (db w) /\ b_tenant old = tenantID r /\ b_id old = id /\
    Status (b_data old) = "confirmed" /\ may_cancel c (b_data old) /\
    cancelled_from (tenantID r) reason actor ref old (res_Booking res) (db w) (db w').
Proof.
  intros Hwf Hc Hx Hrep. apply command_Ok in Hx as (w0 & Hd & Hon). rewrite <- Hd in *.
  destruct c as [| |q| | |q]; try done; simpl in Hc, Hon; simplify_eq.
  - unfold cancelBookingOnce in Hon. apply with_tx_Ok in Hon as (w2 & Hb & ->). open_step Hb.
    pose proof (reserve_opt _ _ _ _ _ _ _ _ Hm) as Hk. simpl in Hk. destruct a; simpl in Hb;
      [|apply replay_Ok in Hb as (_ & Hr & _); congruence].
    open_step Hb. apply owned_Ok in Hm0 as ((row & Hrow & Ht & Hid & -> & Hown) & _ & Hw1).
    destruct (same_but_keys_fields _ _ Hk) as (Hkb & _).
    rewrite Hkb in Hrow.
    destruct (bool_decide (Status _ = "cancelled")).
    { open_step Hb. unfold ret in Hb. injection Hb as <- _. discriminate Hrep. }
    destruct (bool_decide (Status _ = "confirmed")); [|discriminate Hb]. simpl in Hb.
    open_step Hb. rewrite <- Hw1 in Hk.
    eapply (retired _ _ _ _ _ _ _ _ _ _ (db w0) row) in Hm0 as [Hst Hcf]; [|done..].
    open_step Hb. open_step Hb. unfold ret in Hb. injection Hb as <- <-.
    pose proof (commit_after_key _ _ _ _ _ _ _ _ _ _ _ Hm0 Hm1) as Hck.
    exists row. do 5 (split; [done|]). by eapply cancelled_from_keys.
  - unfold adminCancelBookingOnce in Hon. apply with_tx_Ok in Hon as (w2 & Hb & ->). open_step Hb.
    apply for_update_Ok in Hm as ((row & Hrow & Ht & Hid & ->) & _ & Hw1). simpl in Hrow, Hw1.
    destruct (bool_decide (Status _ = "cancelled")).
    { open_step Hb. unfold ret in Hb. injection Hb as <- _. discriminate Hrep. }
    destruct (Z.eqb_spec (ScheduleVersion (b_data row)) (an_ExpectedVersion q)) as [Hver|]; [|discriminate Hb].
    destruct (bool_decide (Status _ = "confirmed")); [|discriminate Hb]. simpl in Hb.
    open_step Hb. eapply (retired _ _ _ _ _ _ _ _ _ _ (db w0) row) in Hm as [Hst Hcf]; [|unfold same_but_keys; by rewrite Hw1|done..].
    open_step Hb. unfold ret in Hb. injection Hb as <- <-. open_all.
    exists row. by do 5 (split; [done|]).
Qed.

(** ** Moving *)
(** The reminder carries the booking's time and zone. *)
Definition reminds (b : Booking) (timezone : string) (j : JobRow) : Prop :=
  exists l, j_payload j = JObj l /\
    member "starts_at" l = Some (JStr (RFC3339 (ToUTC (StartsAt b)))) /\
    member "timezone" l = Some (JStr timezone).

Definition moved_from (t : string) (start stop : Time) (timezone actor : string)
    (ref : option string) (old : BookingRow) (b : Booking) (d d' : DB) : Prop :=
  exists now, b = b_data (set_schedule (pg_time Local start) (pg_time Local stop) now old) /\
    (forall x, x ∈ bookings d' <-> (x ∈ bookings d /\ x <> old) \/
       x = set_schedule (pg_time Local start) (pg_time Local stop) now old) /\
    booking_events d' = booking_events d ++
      [mkEventRow t (bk_ID b) "rescheduled" actor ref (Some (b_data old)) b] /\
    (forall j, j ∈ jobs d' -> pending_reminder t (bk_ID b) j = true -> reminds b timezone j) /\
    (forall j, pending_reminder t (bk_ID b) j = false -> j ∈ jobs d' <-> j ∈ jobs d).

Lemma moved_payload_Ok start tz p q :
  moved_payload start tz p = Ok q ->
  exists l, q = JObj l /\ member "starts_at" l = Some (JStr (RFC3339 (ToUTC start))) /\
    member "timezone" l = Some (JStr tz).
Proof.
  unfold moved_payload. intros (p1 & H1 & H2)%rbind_Ok.
  destruct p as [| | | | |l0]; try discriminate H1. injection H1 as <-. injection H2 as <-.
  eexists. split; [reflexivity|]. rewrite !member_set. done.
Qed.

Lemma moved_jobs t id start tz l k l' :
  move_reminders (pending_reminder t id) start tz l = Ok (k, l') ->
  (forall j, j ∈ l' -> pending_reminder t id j = true ->
     exists m, j_payload j = JObj m /\ member "starts_at" m = Some (JStr (RFC3339 (ToUTC start))) /\
       member "timezone" m = Some (JStr tz)) /\
  (forall j, pending_reminder t id j = false -> j ∈ l' <-> j ∈ l).
Proof.
  intros [Hall _]%move_reminders_spec. induction Hall as [|j j' l l' Hj _ [IH1 IH2]].
  { split; [intros j Hj; by apply elem_of_nil in Hj|done]. }
  destruct (pending_reminder t id j) eqn:Hp.
  - destruct Hj as (q & Hq & ->). split.
    + intros x [->|Hx]%elem_of_cons Hpx; [|by apply IH1]. by apply moved_payload_Ok in Hq.
    + intros x Hx. rewrite !elem_of_cons, IH2 by done. split; intros [->|?]; auto; exfalso; [|congruence].
      change (pending_reminder t id (set_payload q j)) with (pending_reminder t id j) in Hx. congruence.
  - subst j'. split.
    + intros x [->|Hx]%elem_of_cons Hpx; [congruence|by apply IH1].
    + intros x Hx. by rewrite !elem_of_cons, IH2.
Qed.

Lemma moved r current start stop tz id actor ref e w b w' d row :
  move_booking fuel r current start stop tz id actor ref e w = (Ok b, w') ->
  same_but_keys d (work w) -> schedule_wf d ->
  row ∈ bookings d -> b_tenant row = tenantID r -> b_id row = id -> current = b_data row ->
  Status (b_data row) = "confirmed" /\
  moved_from (tenantID r) start stop tz actor ref row b d (work w').
Proof.
  intros (now & d1 & d2 & d3 & k & l & Hlk & Hu & -> & Hmv & -> & _)%move_Ok Hk Hwf Hrow Ht Hid ->.
  destruct (same_but_keys_fields _ _ Hk) as (Hkb & Hke & Hkj & _).
  assert (Hl : bookings d1 = bookings d /\ booking_events d1 = booking_events d /\ jobs d1 = jobs d).
  { unfold same_but_locks in Hlk. injection Hlk. intros. by repeat split; congruence. }
  destruct Hl as (Hlb & Hle & Hlj).
  destruct (update_found _ _ _ _ _ _ _ row Hlb Hwf Hu Hrow Ht Hid) as (Hst & Hb & Hx & He2 & Hj2).
  split; [done|]. exists now. simpl in *. split; [done|]. split; [done|].
  rewrite He2, Hle. split; [done|]. rewrite Hj2, Hlj in Hmv. by apply moved_jobs in Hmv.
Qed.

Lemma moved_from_keys t start stop tz actor ref old b d d1 d2 :
  same_but_keys d1 d2 -> moved_from t start stop tz actor ref old b d d1 ->
  moved_from t start stop tz actor ref old b d d2.
Proof. intros (Hb & He & Hj & _)%same_but_keys_fields. unfold moved_from. by rewrite Hb, He, Hj. Qed.

(** Which booking a command moves, to when, and on whose authority. *)
Definition reschedules (c : command) : option (string * Time * string * option string) :=
  match c with
  | CmdReschedule q => Some (rs_BookingID q, rs_NewStartsAt q, "agent", None)
  | CmdAdminReschedule q =>
      Some (ar_BookingID q, ar_NewStartsAt q, "admin", Some (actor_ref (ar_ActorRef q)))
  | _ => None
  end.

Definition new_end (c : command) (old : Booking) : Time :=
  match c with
  | CmdReschedule q => rs_NewEndsAt q
  | CmdAdminReschedule q => Add (ar_NewStartsAt q) (Sub (EndsAt old) (StartsAt old))
  | _ => EndsAt old
  end.

Definition may_reschedule (c : command) (b : Booking) : Prop :=
  match c with
  | CmdReschedule q => CustomerID b = rs_OwnerCustomerID q
  | CmdAdminReschedule q => ScheduleVersion b = ar_ExpectedVersion q
  | _ => False
  end.

(** The zone the moved reminder names: the request's, or the staff's. *)
Definition reminder_zone (c : command) (old : BookingRow) (d : DB) (tz : string) : Prop :=
  match c with
  | CmdReschedule q => tz = rs_Timezone q
  | _ => exists s, s ∈ staff d /\ st_tenant s = b_tenant old /\ st_id s = StaffID (b_data old) /\
           tz = st_timezone s
  end.

Lemma timezone_Ok t s e w tz w' :
  load_timezone t s e w = (Ok tz, w') ->
  (exists row, row ∈ staff (work w) /\ st_tenant row = t /\ st_id row = s /\ tz = st_timezone row) /\
  work w' = work w.
Proof.
  unfold load_timezone. intros Hl. open_all. split; [|done].
  destruct (List.find _ _) as [row|] eqn:Hf; [|done]. simplify_eq/=.
  apply List.find_some in Hf as [Hin%list_elem_of_In Hs]. unfold is_staff in Hs. bool_to_prop.
  repeat match goal with Hx : String.eqb _ _ = true |- _ => apply String.eqb_eq in Hx end. eauto 10.
Qed.

(** What rescheduling does.  A reschedule that is not a replay found the
    booking confirmed, under its owner on the customer's path and at the expected
    version on the operator's; it leaves that row at the new times (an operator's
    move keeps the duration) one version later and every other booking as it was,
    adds one audit event with the states before and after, and every pending
    reminder of the booking then carries the new start and zone. *)
Theorem reschedule_effect r c id start actor ref e w res w' :
  schedule_wf (db w) -> reschedules c = Some (id, start, actor, ref) ->
  exec_command fuel r c e w = (Ok res, w') -> Replayed res = false ->
  exists old tz, old ∈ bookings (db w) /\ b_tenant old = tenantID r /\ b_id old = id /\
    Status (b_data old) = "confirmed" /\ may_reschedule c (b_data old) /\
    reminder_zone c old (db w) tz /\
    moved_from (tenantID r) start (new_end c (b_data old)) tz actor ref old (res_Booking res) (db w) (db w').
Proof.
  intros Hwf Hc Hx Hrep. apply command_Ok in Hx as (w0 & Hd & Hon). rewrite <- Hd in *.
  destruct c as [|q| | |q|]; try done; simpl in Hc, Hon; simplify_eq.
  - unfold rescheduleBookingOnce in Hon. apply with_tx_Ok in Hon as (w2 & Hb & ->). open_step Hb.
    pose proof (reserve_opt _ _ _ _ _ _ _ _ Hm) as Hk. simpl in Hk. destruct a; simpl in Hb;
      [|apply replay_Ok in Hb as (_ & Hr & _); congruence].
    open_step Hb. apply owned_Ok in Hm0 as ((row & Hrow & Ht & Hid & -> & Hown) & _ & Hw1).
    destruct (same_but_keys_fields _ _ Hk) as (Hkb & _). rewrite Hkb in Hrow.
    destruct (bool_decide (Status _ = "confirmed")); [|discriminate Hb]. simpl in Hb.
    open_step Hb. rewrite <- Hw1 in Hk.
    eapply (moved _ _ _ _ _ _ _ _ _ _ _ _ (db w0) row) in Hm0 as [Hst Hcf]; [|done..].
    open_step Hb. open_step Hb. unfold ret in Hb. injection Hb as <- <-.
    pose proof (commit_after_key _ _ _ _ _ _ _ _ _ _ _ Hm0 Hm1) as Hck.
    exists row, (rs_Timezone q). do 6 (split; [done|]). by eapply moved_from_keys.
  - unfold adminRescheduleBookingOnce in Hon. apply with_tx_Ok in Hon as (w2 & Hb & ->). open_step Hb.
    pose proof (reserve_keys _ _ _ _ _ _ _ _ Hm) as Hk. simpl in Hk. destruct a; simpl in Hb;
      [|apply replay_Ok in Hb as (_ & Hr & _); congruence].
    open_step Hb. apply for_update_Ok in Hm0 as ((row & Hrow & Ht & Hid & ->) & _ & Hw1).
    destruct (same_but_keys_fields _ _ Hk) as (Hkb & _ & _ & Hkss). rewrite Hkb in Hrow.
    destruct (Z.eqb_spec (ScheduleVersion (b_data row)) (ar_ExpectedVersion q)) as [Hver|]; [|discriminate Hb].
    destruct (bool_decide (Status _ = "confirmed")); [|discriminate Hb]. simpl in Hb.
    open_step Hb. apply timezone_Ok in Hm0 as ((st & Hstf & Hst1 & Hst2 & ->) & Hw2).
    open_step Hb. rewrite <- Hw1, <- Hw2 in Hk.
    apply same_schedule_fields in Hkss as (_ & _ & Hstaff & _). rewrite Hw1, Hstaff in Hstf.
    eapply (moved _ _ _ _ _ _ _ _ _ _ _ _ (db w0) row) in Hm0 as [Hst Hcf]; [|done..].
    open_step Hb. open_step Hm0. open_step Hb. unfold ret in Hb. injection Hb as <- <-.
    unfold complete_key in Hm0. open_step Hm0. apply complete_keys in Hm0. open_step Hm1. open_step Hm1.
    exists row, (st_timezone st). do 5 (split; [done|]). split; [simpl; exists st; by rewrite Ht|].
    by eapply moved_from_keys.
Qed.

(** ** The customer's cancellation and its idempotency record *)
Lemma string_bytes_append a b : string_bytes (String.append a b) = string_bytes a ++ string_bytes b.
Proof. induction a as [|c a IH]; simpl; [done|]. by rewrite IH. Qed.

Lemma pg_length_append a b : pg_length (String.append a b) = pg_length a + pg_length b.
Proof. unfold pg_length. rewrite string_bytes_append, List.filter_app, length_app. lia. Qed.

Lemma cancelHash_length q :
  pg_length (cancelHash q) = 8 + pg_length (cn_BookingID q) + pg_length (cn_Reason q).
Proof.
  unfold cancelHash, cat; simpl. rewrite !pg_length_append.
  change (pg_length "cancel:") with 7. change (pg_length ":") with 1. change (pg_length "") with 0. lia.
Qed.

(** Long reasons cannot be cancelled with.  The customer's cancellation uses
    the whole reason as its request hash, which the schema limits to 128 characters:
    with an idempotency key, a booking identifier of 36 characters and a reason of
    more than 84 characters (the column allows 500), it always fails and changes
    nothing. *)
Theorem cancel_long_reason_fails r q e w :
  cn_IdempotencyKey q <> "" -> pg_length (cn_BookingID q) = 36 -> 84 < pg_length (cn_Reason q) ->
  (exists err w', CancelBooking r q e w = (Err err, w')) /\ db (CancelBooking r q e w).2 = db w.
Proof.
  intros Hkey Hid Hlen.
  assert (Hcheck : forall t s k, idem_check (mkIdemRow t s k (cancelHash q) "in_progress" None None None) = false).
  { intros. unfold idem_check. simpl. unfold between. rewrite cancelHash_length, Hid.
    replace (8 + 36 + pg_length (cn_Reason q) <=? 128) with false by (symmetry; apply Z.leb_gt; lia). by rewrite !andb_false_r. }
  destruct (keyed_body fuel r (CmdCancel q) _ _ _ ltac:(simpl; by rewrite bool_decide_eq_false_2))
    as (msg & rest & Heq). split.
  - destruct (CancelBooking r q e w) as [[res|err] w'] eqn:Hc; [|by eexists _, _]. exfalso.
    change (exec_command fuel r (CmdCancel q) e w = (Ok res, w')) in Hc.
    apply command_Ok in Hc as (w0 & _ & Hon). rewrite Heq in Hon.
    apply with_tx_Ok in Hon as (w2 & Hb & _). open_step Hb. unfold reserve_key in Hm. open_step Hm. open_step Hm.
    unfold reserve_key_sql in Hm. by rewrite Hcheck in Hm.
  - apply (command_db_preserves fuel (fun d => d = db w) r (CmdCancel q)); [|done]. rewrite Heq.
    apply preserves_with_tx, (preserves_bind_post _ (fun _ => False)); [|intros e' w' a w'' _ Hm|done].
    + unfold reserve_key. apply preserves_wrap, preserves_run. intros now n e' d a d' -> Hr.
      unfold reserve_key_sql in Hr. by rewrite Hcheck in Hr.
    + unfold reserve_key in Hm. open_step Hm. open_step Hm.
      unfold reserve_key_sql in Hm. by rewrite Hcheck in Hm.
Qed.

Lemma find_snoc {A} (p : A -> bool) l x :
  List.find p l = None -> p x = true -> List.find p (l ++ [x]) = Some x.
Proof. intros Hl Hx. induction l as [|a l IH]; simpl in *; [by rewrite Hx|]. destruct (p a); auto; done. Qed.

(** Cancelling a cancelled booking spoils its key.  When the customer's
    cancellation finds the booking already cancelled under an unused key, it
    answers with a replay but commits the key's record in progress; from then on
    the same request under that key never succeeds again. *)
Theorem cancel_again_spoils_key r q e w res w' :
  cn_IdempotencyKey q <> "" ->
  key_row (tenantID r) (cat [cancelScope; ":"; cn_OwnerCustomerID q]) (cn_IdempotencyKey q) (db w) = None ->
  CancelBooking r q e w = (Ok res, w') -> Replayed res = true ->
  Status (res_Booking res) = "cancelled" /\
  (exists i, key_row (tenantID r) (cat [cancelScope; ":"; cn_OwnerCustomerID q]) (cn_IdempotencyKey q) (db w')
     = Some i /\ id_status i = "in_progress") /\
  forall e2 w2 res2 w3, db w2 = db w' -> CancelBooking r q e2 w2 <> (Ok res2, w3).
Proof.
  intros Hkey Hnone Hc Hrep.
  change (exec_command fuel r (CmdCancel q) e w = (Ok res, w')) in Hc.
  apply command_Ok in Hc as (w0 & Hd & Hon). simpl in Hon. unfold cancelBookingOnce in Hon.
  rewrite bool_decide_eq_false_2 in Hon by done.
  apply with_tx_Ok in Hon as (w2 & Hb & Hw'). open_step Hb.
  apply reserve_key_Ok in Hm as (_ & _ & _ & Hm). cbn [work] in Hm. rewrite Hd, Hnone in Hm.
  destruct Hm as [-> Hw]. simpl in Hb. open_step Hb. apply owned_Ok in Hm as (_ & _ & Hw1).
  destruct (bool_decide (Status a = "cancelled")) eqn:Hst.
  2:{ destruct (bool_decide (Status a = "confirmed")); [|discriminate Hb]. simpl in Hb.
      open_step Hb. open_step Hb. open_step Hb. unfold ret in Hb. injection Hb as <- _. discriminate Hrep. }
  open_step Hb. unfold ret in Hb. injection Hb as <- <-. open_step Hm. open_step Hm. simpl in *.
  split; [by apply bool_decide_eq_true_1 in Hst|].
  set (i := mkIdemRow (tenantID r) (cat [cancelScope; ":"; cn_OwnerCustomerID q]) (cn_IdempotencyKey q)
    (cancelHash q) "in_progress" None None None) in Hw.
  assert (Hi : key_row (tenantID r) (cat [cancelScope; ":"; cn_OwnerCustomerID q]) (cn_IdempotencyKey q) (db w') = Some i).
  { rewrite Hw', Hw1, Hw. apply find_snoc; [done|]. unfold is_key. cbn [id_tenant id_scope id_key].
    by rewrite !String.eqb_refl. }
  split; [by exists i|]. intros e2 w4 res2 w5 Hd4 Hc2.
  change (exec_command fuel r (CmdCancel q) e2 w4 = (Ok res2, w5)) in Hc2. rewrite <- Hd4 in Hi.
  destruct (used_key_replays fuel r (CmdCancel q) _ _ _ i e2 w4 ltac:(simpl; by rewrite bool_decide_eq_false_2) Hi)
    as [_ Hr]. by apply Hr in Hc2 as (_ & _ & ? & _).
Qed.
End change.

(** ** Witnesses *)
Lemma cancel_effect_witness :
  exists res w' old, old ∈ bookings (db booked_salon) /\
    cancelled_from "t" "I am ill" "agent" None old (res_Booking res) (db booked_salon) (db w').
Proof.
  destruct cancelled as (res & w' & Hc & Hr).
  destruct (cancel_effect 40 repo (CmdCancel cancel_request) _ _ _ _ calm booked_salon res w'
    booked_salon_wf eq_refl Hc Hr) as (old & Hold & _ & _ & _ & _ & Hcf).
  exists res, w', old. exact (conj Hold Hcf).
Defined.

Lemma reschedule_effect_witness :
  exists res w' old tz, old ∈ bookings (db booked_salon) /\
    moved_from "t" (monday 13 0) (monday 14 0) tz "agent" None old (res_Booking res) (db booked_salon) (db w').
Proof.
  destruct rescheduled as (res & w' & Hc & Hr).
  destruct (reschedule_effect 40 repo (CmdReschedule reschedule_request) _ _ _ _ calm booked_salon res w'
    booked_salon_wf eq_refl Hc Hr) as (old & tz & Hold & _ & _ & _ & _ & _ & Hmf).
  exists res, w', old, tz. exact (conj Hold Hmf).
Defined.

Lemma cancel_long_reason_fails_witness :
  exists err w', CancelBooking repo long_cancel_request calm booked_salon = (Err err, w').
Proof.
  destruct (cancel_long_reason_fails 40 repo long_cancel_request calm booked_salon) as [He _];
    [discriminate|vm_compute; reflexivity|vm_compute; reflexivity|exact He].
Defined.

Lemma cancel_again_spoils_key_witness :
  exists w', forall e2 w2 res2 w3, db w2 = db w' -> CancelBooking repo cancel_request e2 w2 <> (Ok res2, w3).
Proof.
  destruct cancelled_twice as (res & w' & Hc & Hr). exists w'.
  destruct (cancel_again_spoils_key 40 repo cancel_request calm cancelled_salon res w') as (_ & _ & Hn);
    [discriminate|vm_compute; reflexivity|exact Hc|exact Hr|exact Hn].
Defined.
