(* ===== verification/Tools.v ===== *)
(** * The boundary of the tool gateway: [internal/tools/types.go]

    What the gateway asks of a booking backend: the values that cross the
    boundary, the errors a backend may answer with, and the interface itself.
    The module is named as the scheduling package imports it. *)

From Stdlib Require Import ZArith Lia.
From stdpp Require Import base list strings.
From S2P Require Import Prelude GoTime.

#[local] Open Scope Z_scope.

Module toolapi.
Definition ErrNotFoundOrNotOwned : error := ErrSentinel "not found or not owned".
Definition ErrSlotUnavailable : error := ErrSentinel "slot unavailable".
Definition ErrBookingStateConflict : error := ErrSentinel "booking state conflict".
Definition ErrIdempotencyConflict : error := ErrSentinel "idempotency conflict".
Definition ErrDependencyUnavailable : error := ErrSentinel "dependency unavailable".

Record Money := mkMoney { MinorUnits : Z; Currency : string }.

Record Service := mkService {
  sv_ID : string; sv_Name : string; sv_Description : string; sv_DurationMinutes : Z;
  sv_BufferBeforeMinutes : Z; sv_BufferAfterMinutes : Z; sv_Price : option Money
}.

Record Staff := mkStaff { sf_ID : string; sf_DisplayName : string; sf_Timezone : string }.

Record AvailableSlot := mkAvailable {
  as_ServiceID : string; as_ServiceName : string; as_StaffID : string; as_StaffName : string;
  as_StartAt : Time; as_EndAt : Time; as_Timezone : string
}.

Record ContactDetails := mkContact { Email : string; Phone : string }.

Record CustomerProfile := mkProfile {
  cp_DisplayName : string; cp_Contact : ContactDetails; cp_Company : string; cp_Locale : string
}.

Record Booking := mkBooking {
  bo_ID : string; bo_Status : string; bo_ServiceID : string; bo_ServiceName : string;
  bo_StaffID : string; bo_StaffName : string; bo_StartAt : Time; bo_EndAt : Time;
  bo_Timezone : string; bo_CustomerDisplayName : string; bo_Version : Z
}.

Record FindSlotsQuery := mkQuery {
  q_TenantID : string; q_ServiceID : string; q_StaffID : string;
  q_DateFrom : Time; q_DateTo : Time
}.

Record CreateBookingCommand := mkCreate {
  c_TenantID : string; c_OwnerCustomerID : string; c_ConversationID : string;
  c_ServiceID : string; c_StaffID : string; c_StartAt : Time; c_EndAt : Time;
  c_Timezone : string; c_Customer : CustomerProfile; c_Notes : string; c_IdempotencyKey : string
}.

Record CreateBookingOutcome := mkCreated {
  co_Booking : Booking; co_CalendarSync : string; co_IdempotencyReplayed : bool
}.

Record EscalationCommand := mkEscalation {
  e_TenantID : string; e_OwnerCustomerID : string; e_ConversationID : string;
  e_AgentRunID : string; e_ToolCallID : string; e_ReasonCode : string; e_Summary : string
}.

Record EscalationOutcome := mkEscalated { eo_ID : string; eo_Status : string; eo_Replayed : bool }.

Record RescheduleBookingCommand := mkReschedule {
  r_TenantID : string; r_OwnerCustomerID : string; r_ConversationID : string;
  r_BookingID : string; r_NewStartAt : Time; r_NewEndAt : Time; r_NewTimezone : string;
  r_IdempotencyKey : string
}.

Record RescheduleBookingOutcome := mkRescheduled { ro_Booking : Booking; ro_IdempotencyReplayed : bool }.

Record CancelBookingCommand := mkCancel {
  x_TenantID : string; x_OwnerCustomerID : string; x_ConversationID : string;
  x_BookingID : string; x_Reason : string; x_IdempotencyKey : string
}.

Record CancelBookingOutcome := mkCancelled { xo_Booking : Booking; xo_IdempotencyReplayed : bool }.

(** [S] is the state the backend works on; every call is told the time of the
    server's clock and the state of its context is the backend's own affair. *)
Class Backend (S : Type) := {
  ListServices : string -> S -> result (list Service) * S;
  ListStaff : string -> string -> S -> result (list Staff) * S;
  FindSlots : FindSlotsQuery -> S -> result (list AvailableSlot) * S;
  CreateBooking : Time -> CreateBookingCommand -> S -> result CreateBookingOutcome * S;
  RescheduleBooking : RescheduleBookingCommand -> S -> result RescheduleBookingOutcome * S;
  CancelBooking : CancelBookingCommand -> S -> result CancelBookingOutcome * S;
  Escalate : EscalationCommand -> S -> result EscalationOutcome * S
}.

(** The errors a gateway can tell apart. *)
Definition boundary_errors : list error :=
  [ErrNotFoundOrNotOwned; ErrSlotUnavailable; ErrBookingStateConflict; ErrIdempotencyConflict;
   ErrDependencyUnavailable].

Definition boundary (err : error) : bool := existsb (errors_is err) boundary_errors.
End toolapi.
