(* ===== verification/ToolBackend.v ===== *)
(** * The booking backend of the tools: [internal/scheduling/tool_backend.go]

    The adapter between the tool gateway and the scheduling repository: the
    tenant check, the translation of values and errors, and the escalation of a
    conversation to a person. *)

From Stdlib Require Import ZArith Lia Ascii.
From stdpp Require Import base list strings gmap.
From S2P Require Import Prelude GoTime Json Engine Database Catalog Repository Tools.

#[local] Open Scope Z_scope.

(** [b == nil || b.repository == nil] is [repository b = None]. *)
Record ToolBackend := mkToolBackend { repository : option PGXRepository }.

Definition NewToolBackend (r : option PGXRepository) : ToolBackend := mkToolBackend r.

Definition unavailable (msg : string) (err : error) : error :=
  ErrWrap2 msg toolapi.ErrDependencyUnavailable err.

Definition ErrRepositoryUnavailable : error :=
  ErrWrap "scheduling repository is unavailable" toolapi.ErrDependencyUnavailable.

(** The repository every operation goes on to use is the answer. *)
Definition authorizeTenant (b : ToolBackend) (tenant : string) : result PGXRepository :=
  match repository b with
  | None => Err ErrRepositoryUnavailable
  | Some r =>
      if bool_decide (tenant = "") || negb (bool_decide (tenant = tenantID r))
      then Err toolapi.ErrNotFoundOrNotOwned
      else if negb (has_pool r) then Err ErrRepositoryUnavailable
      else Ok r
  end.

Definition mapToolBackendError (err : error) : error :=
  if errors_is err ErrNotFound then toolapi.ErrNotFoundOrNotOwned
  else if errors_is err ErrSlotUnavailable then toolapi.ErrSlotUnavailable
  else if errors_is err ErrIdempotencyConflict then toolapi.ErrIdempotencyConflict
  else if errors_is err ErrBookingStateConflict then toolapi.ErrBookingStateConflict
  else unavailable "" err.

Definition mapped {A} (m : M A) : M A := map_err mapToolBackendError m.

Definition zero_service : Service := mkService "" "" "" "" 0 0 0 0 "".
Definition zero_staff : Staff := mkStaff "" "" "" "".

(** The first value with the identifier, or Go's zero value. *)
Definition select {A} (id : A -> string) (zero : A) (wanted : string) (l : list A) : A :=
  default zero (List.find (fun x => String.eqb (id x) wanted) l).

Definition service_view (s : Service) : toolapi.Service :=
  toolapi.mkService (svc_ID s) (svc_Name s) (svc_Description s) (minutes (Duration s))
    (minutes (BufferBefore s)) (minutes (BufferAfter s))
    (Some (toolapi.mkMoney (PriceMinor s) (Currency s))).

Definition staff_view (m : Staff) : toolapi.Staff :=
  toolapi.mkStaff (stf_ID m) (DisplayName m) (Timezone m).

Definition staff_by_id (l : list Staff) : gmap string Staff :=
  fold_left (fun m member => <[stf_ID member := member]> m) l ∅.

Fixpoint available_slots (s : Service) (byID : gmap string Staff) (slots : list Slot)
    : result (list toolapi.AvailableSlot) :=
  match slots with
  | [] => Ok []
  | slot :: tl =>
      match byID !! sl_StaffID slot with
      | None => Err (ErrWrap "slot references unknown staff" toolapi.ErrDependencyUnavailable)
      | Some member =>
          let! rest := available_slots s byID tl in
          Ok (toolapi.mkAvailable (svc_ID s) (svc_Name s) (stf_ID member) (DisplayName member)
                (sl_Start slot) (sl_End slot) (Timezone member) :: rest)
      end
  end.

(** ** Escalation *)
Definition escalate_conversation (c : ConversationRow) : ConversationRow :=
  mkConversationRow (cv_tenant c) (cv_id c) (cv_customer c) (cv_channel c) (cv_ref c) "escalated" (cv_failures c)
    (cv_budget c) (cv_used c) (cv_reserved c).

(** Answers [tag.RowsAffected()]. *)
Definition mark_escalated_sql (tenant conversation customer : string) : sql nat := fun now n e d =>
  let! (l, touched) := sql_update conversation_check (is_conversation tenant conversation customer)
                         escalate_conversation (conversations d) in
  Ok (length touched, set_conversations l d).

Definition is_run (tenant run conversation : string) (x : RunRow) : bool :=
  String.eqb (ru_tenant x) tenant && String.eqb (ru_id x) run &&
  String.eqb (ru_conversation x) conversation.

Definition escalation_refs_ok (x : EscalationRow) (d : DB) : bool :=
  existsb (is_customer (es_tenant x) (es_customer x)) (customers d) &&
  existsb (is_conversation (es_tenant x) (es_conversation x) (es_customer x)) (conversations d) &&
  opt_check (fun run => existsb (is_run (es_tenant x) run (es_conversation x)) (agent_runs d)) (es_run x).

(** [escalations_tool_call_uq]. *)
Definition of_call (tenant run call : string) (x : EscalationRow) : bool :=
  String.eqb (es_tenant x) tenant && bool_decide (es_run x = Some run) &&
  bool_decide (es_call x = Some call).

(** The command's row, by its first or its second statement. *)
Definition escalation_row (command : toolapi.EscalationCommand) (id : string) (at_ : Time) : EscalationRow :=
  let traced := negb (bool_decide (toolapi.e_AgentRunID command = "")) &&
                negb (bool_decide (toolapi.e_ToolCallID command = "")) in
  mkEscalationRow (toolapi.e_TenantID command) id (toolapi.e_ConversationID command)
    (toolapi.e_OwnerCustomerID command)
    (if traced then Some (toolapi.e_AgentRunID command) else None)
    (if traced then Some (toolapi.e_ToolCallID command) else None)
    (toolapi.e_ReasonCode command) (toolapi.e_Summary command) "open" at_.

Definition insert_escalation (x : EscalationRow) (d : DB) : result DB :=
  if negb (escalation_check x) then Err CheckViolation
  else if negb (escalation_refs_ok x d) then Err ForeignKeyViolation
  else Ok (set_escalations (escalations d ++ [x]) d).

(** [ON CONFLICT DO NOTHING], then the row of the earlier call. *)
Definition escalate_call_sql (command : toolapi.EscalationCommand)
    : sql (option toolapi.EscalationOutcome) := fun now n e d =>
  let x := escalation_row command (uuid e n 0%nat) now in
  if negb (escalation_check x) then Err CheckViolation
  else
    match List.find (of_call (toolapi.e_TenantID command) (toolapi.e_AgentRunID command)
                       (toolapi.e_ToolCallID command)) (escalations d) with
    | Some old => Ok (Some (toolapi.mkEscalated (es_id old) (es_status old) true), d)
    | None =>
        let! d' := insert_escalation x d in
        Ok (Some (toolapi.mkEscalated (es_id x) (es_status x) false), d')
    end.

Definition escalate_plain_sql (command : toolapi.EscalationCommand)
    : sql (option toolapi.EscalationOutcome) := fun now n e d =>
  let x := escalation_row command (uuid e n 0%nat) now in
  let! d' := insert_escalation x d in
  Ok (Some (toolapi.mkEscalated (es_id x) (es_status x) false), d').

Definition escalate_sql (command : toolapi.EscalationCommand) : sql (option toolapi.EscalationOutcome) :=
  if negb (bool_decide (toolapi.e_AgentRunID command = "")) &&
     negb (bool_decide (toolapi.e_ToolCallID command = ""))
  then escalate_call_sql command else escalate_plain_sql command.

(** Every operation starts with the tenant check. *)
Definition authorized {A} (b : ToolBackend) (tenant : string) (k : PGXRepository -> M A) : M A :=
  let* r := lift (authorizeTenant b tenant) in k r.

Definition Escalate (b : ToolBackend) (command : toolapi.EscalationCommand)
    : M toolapi.EscalationOutcome :=
  authorized b (toolapi.e_TenantID command) (fun r =>
  if bool_decide (toolapi.e_OwnerCustomerID command = "") ||
     bool_decide (toolapi.e_ConversationID command = "") ||
     bool_decide (toolapi.e_ReasonCode command = "") ||
     bool_decide (toolapi.e_Summary command = "")
  then fail toolapi.ErrNotFoundOrNotOwned
  else
    let* _ := map_err (unavailable "begin escalation") begin_tx in
    rolled_back (
      let* affected := map_err (unavailable "mark conversation escalated") (run Tx
        (mark_escalated_sql (toolapi.e_TenantID command) (toolapi.e_ConversationID command)
           (toolapi.e_OwnerCustomerID command))) in
      if negb (Nat.eqb affected 1) then fail toolapi.ErrNotFoundOrNotOwned
      else
        let* outcome := map_err (unavailable "persist escalation") (
          let* o := run Tx (escalate_sql command) in one_row o) in
        let* _ := map_err (unavailable "commit escalation") commit in
        ret outcome)).

(** ** The other operations *)
Section backend.
Context `{Host} (fuel : nat).

Definition ListServices (b : ToolBackend) (tenant : string) : M (list toolapi.Service) :=
  authorized b tenant (fun r =>
  let* services := mapped (Catalog.ListServices r) in
  ret (map service_view services)).

Definition ListStaff (b : ToolBackend) (tenant serviceID : string) : M (list toolapi.Staff) :=
  authorized b tenant (fun r =>
  let* staff := mapped (Catalog.ListStaff r serviceID) in
  ret (map staff_view staff)).

Definition FindSlots (b : ToolBackend) (query : toolapi.FindSlotsQuery)
    : M (list toolapi.AvailableSlot) :=
  authorized b (toolapi.q_TenantID query) (fun r =>
  let* services := mapped (Catalog.ListServices r) in
  let selectedService := select svc_ID zero_service (toolapi.q_ServiceID query) services in
  if bool_decide (svc_ID selectedService = "") then fail toolapi.ErrNotFoundOrNotOwned
  else
    let* staff := mapped (Catalog.ListStaff r (toolapi.q_ServiceID query)) in
    let staffByID := staff_by_id staff in
    if negb (bool_decide (toolapi.q_StaffID query = "")) &&
       negb (is_set (staffByID !! toolapi.q_StaffID query))
    then fail toolapi.ErrNotFoundOrNotOwned
    else
      let* slots := mapped (FindSlotsRepo fuel r
        (mkFindSlots (toolapi.q_ServiceID query) (toolapi.q_StaffID query)
           (toolapi.q_DateFrom query) (toolapi.q_DateTo query) (15 * Minute) 100)) in
      lift (available_slots selectedService staffByID slots)).

Definition CreateBooking (b : ToolBackend) (now : Time) (command : toolapi.CreateBookingCommand)
    : M toolapi.CreateBookingOutcome :=
  authorized b (toolapi.c_TenantID command) (fun r =>
  if bool_decide (toolapi.c_OwnerCustomerID command = "") then fail toolapi.ErrNotFoundOrNotOwned
  else
    let* services := mapped (Catalog.ListServices r) in
    let service := select svc_ID zero_service (toolapi.c_ServiceID command) services in
    if bool_decide (svc_ID service = "") ||
       negb (Equal (toolapi.c_EndAt command) (Add (toolapi.c_StartAt command) (Duration service)))
    then fail toolapi.ErrSlotUnavailable
    else
      let* staff := mapped (Catalog.ListStaff r (toolapi.c_ServiceID command)) in
      let member := select stf_ID zero_staff (toolapi.c_StaffID command) staff in
      if bool_decide (stf_ID member = "") ||
         negb (bool_decide (toolapi.c_Timezone command = Timezone member))
      then fail toolapi.ErrSlotUnavailable
      else
        let* created := mapped (Repository.CreateBooking fuel r now
          (mkCreate (toolapi.c_OwnerCustomerID command) (toolapi.c_ConversationID command)
             (toolapi.c_ServiceID command) (toolapi.c_StaffID command) (toolapi.c_StartAt command)
             (toolapi.c_Notes command) (toolapi.c_IdempotencyKey command))) in
        let booking := res_Booking created in
        ret (toolapi.mkCreated
          (toolapi.mkBooking (bk_ID booking) (Status booking) (svc_ID service) (svc_Name service)
             (stf_ID member) (DisplayName member) (StartsAt booking) (EndsAt booking)
             (Timezone member) (toolapi.cp_DisplayName (toolapi.c_Customer command))
             (ScheduleVersion booking))
          "noop" (Replayed created))).

(** A lookup that fails leaves the names empty. *)
Definition names_of (tenant serviceID staffID customerID : string) (d : DB) : string * string * string :=
  (default "" (option_map sv_name (List.find (is_service tenant serviceID) (services d))),
   default "" (option_map st_name (List.find (is_staff tenant staffID) (staff d))),
   default "" (option_map cu_name (List.find (is_customer tenant customerID) (customers d)))).

Definition with_names (booking : toolapi.Booking) (names : string * string * string) : toolapi.Booking :=
  toolapi.mkBooking (toolapi.bo_ID booking) (toolapi.bo_Status booking) (toolapi.bo_ServiceID booking)
    names.1.1 (toolapi.bo_StaffID booking) names.1.2 (toolapi.bo_StartAt booking)
    (toolapi.bo_EndAt booking) (toolapi.bo_Timezone booking) names.2 (toolapi.bo_Version booking).

Definition enrichBookingNames (r : PGXRepository) (booking : toolapi.Booking) (customerID : string)
    : M toolapi.Booking := fun e w =>
  match query Pool (fun _ _ _ d => Ok (names_of (tenantID r) (toolapi.bo_ServiceID booking)
                                         (toolapi.bo_StaffID booking) customerID d)) e w with
  | (Ok names, w') => (Ok (with_names booking names), w')
  | (Err _, w') => (Ok booking, w')
  end.

(** The view of a changed booking, before its names are looked up. *)
Definition booking_view (booking : Booking) (timezone : string) : toolapi.Booking :=
  toolapi.mkBooking (bk_ID booking) (Status booking) (ServiceID booking) "" (StaffID booking) ""
    (StartsAt booking) (EndsAt booking) timezone "" (ScheduleVersion booking).

Definition RescheduleBooking (b : ToolBackend) (command : toolapi.RescheduleBookingCommand)
    : M toolapi.RescheduleBookingOutcome :=
  authorized b (toolapi.r_TenantID command) (fun r =>
  if bool_decide (toolapi.r_OwnerCustomerID command = "") ||
     bool_decide (toolapi.r_BookingID command = "")
  then fail toolapi.ErrNotFoundOrNotOwned
  else
    let* result := mapped (Repository.RescheduleBooking fuel r
      (mkReschedule (toolapi.r_BookingID command) (toolapi.r_OwnerCustomerID command)
         (toolapi.r_NewStartAt command) (toolapi.r_NewEndAt command) (toolapi.r_NewTimezone command)
         (toolapi.r_IdempotencyKey command))) in
    let* booking := enrichBookingNames r
      (booking_view (res_Booking result) (toolapi.r_NewTimezone command)) (CustomerID (res_Booking result)) in
    ret (toolapi.mkRescheduled booking (Replayed result))).

Definition CancelBooking (b : ToolBackend) (command : toolapi.CancelBookingCommand)
    : M toolapi.CancelBookingOutcome :=
  authorized b (toolapi.x_TenantID command) (fun r =>
  if bool_decide (toolapi.x_OwnerCustomerID command = "") ||
     bool_decide (toolapi.x_BookingID command = "")
  then fail toolapi.ErrNotFoundOrNotOwned
  else
    let* result := mapped (Repository.CancelBooking r
      (mkCancel (toolapi.x_BookingID command) (toolapi.x_OwnerCustomerID command)
         (toolapi.x_Reason command) (toolapi.x_IdempotencyKey command))) in
    let* booking := enrichBookingNames r
      (booking_view (res_Booking result) "") (CustomerID (res_Booking result)) in
    ret (toolapi.mkCancelled booking (Replayed result))).

(** What the gateway is given, in an environment of the database. *)
#[global] Instance tool_backend (b : ToolBackend) (e : env) : toolapi.Backend world := {|
  toolapi.ListServices tenant := ListServices b tenant e;
  toolapi.ListStaff tenant service := ListStaff b tenant service e;
  toolapi.FindSlots q := FindSlots b q e;
  toolapi.CreateBooking now c := CreateBooking b now c e;
  toolapi.RescheduleBooking c := RescheduleBooking b c e;
  toolapi.CancelBooking c := CancelBooking b c e;
  toolapi.Escalate c := Escalate b c e
|}.
End backend.
