(* ===== verification/ToolBackendProps.v ===== *)
(** * Properties of the tools' backend

    Whatever the gateway asks for, only rows of the backend's own tenant change;
    every error is one the gateway can tell apart; and an escalation requested by
    one tool call of one run is filed once.

    The tables without one tenant's rows, and the lemmas that no statement a
    command runs for that tenant changes them. *)

From Stdlib Require Import ZArith Lia Ascii.
From stdpp Require Import base list strings sorting.
From S2P Require Import Prelude GoTime Json Engine Database DatabaseFacts JobQueue Catalog Repository RepositoryFacts Tools ToolBackend.

#[local] Open Scope Z_scope.

Definition foreign {R} (tenant_of : R -> string) (t : string) (l : list R) : list R :=
  List.filter (fun r => negb (String.eqb (tenant_of r) t)) l.

(** Every table a command may write, less the rows of [t]; every other table. *)
Definition others (t : string) (d : DB) : DB :=
  mkDB (tenants d) (services d) (staff d) (staff_services d) (rules d) (blocks d) (customers d)
    (foreign cv_tenant t (conversations d)) (foreign b_tenant t (bookings d))
    (foreign ev_tenant t (booking_events d)) (foreign lk_tenant t (schedule_locks d))
    (foreign id_tenant t (idempotency d)) (foreign j_tenant t (jobs d))
    (foreign d_tenant t (dead_letters d)) (agent_runs d) (foreign es_tenant t (escalations d))
    (messages d) (proposals d) (turns d).

Lemma foreign_app {R} (ten : R -> string) t (l : list R) x :
  ten x = t -> foreign ten t (l ++ [x]) = foreign ten t l.
Proof.
  intros Hx. unfold foreign. rewrite List.filter_app. simpl.
  by rewrite Hx, String.eqb_refl, app_nil_r.
Qed.

Lemma foreign_update {R} (ten : R -> string) t p f (l : list R) :
  (forall r, p r = true -> ten r = t /\ ten (f r) = t) ->
  foreign ten t (update_rows p f l) = foreign ten t l.
Proof.
  intros Hp. unfold foreign, update_rows. induction l as [|r l IH]; simpl; [done|].
  destruct (p r) eqn:Hr; [|by rewrite IH].
  destruct (Hp _ Hr) as [H1 H2]. by rewrite H1, H2, String.eqb_refl.
Qed.

(** A statement that writes only rows of [t]. *)
Definition stays (t : string) {A} (s : sql A) : Prop :=
  forall now n e d a d', s now n e d = Ok (a, d') -> others t d' = others t d.

Lemma stays_preserves t D {A} (s : sql A) :
  stays t s -> sql_preserves (fun d => others t d = D) s.
Proof. intros Hs now n e d a d' Hd H. by rewrite (Hs _ _ _ _ _ _ H). Qed.

Ltac stay_app :=
  repeat case_match; intros; simplify_eq/=;
  unfold others, set_bookings, set_events, set_locks, set_idempotency, set_jobs, set_escalations;
  cbn [tenants services staff staff_services rules blocks customers conversations bookings
       booking_events schedule_locks idempotency jobs dead_letters agent_runs escalations messages
       proposals turns];
  rewrite ?foreign_app by done; done.

Lemma stays_reserve t sc k h : stays t (reserve_key_sql t sc k h).
Proof. intros now n e d a d'. unfold reserve_key_sql. stay_app. Qed.

Lemma stays_lock t s l : stays t (insert_lock_sql t s l).
Proof. intros now n e d a d'. unfold insert_lock_sql. stay_app. Qed.

Lemma stays_event t row : ev_tenant row = t -> stays t (insert_event_sql row).
Proof.
  intros Ht now n e d a d' (d1 & H & [= _ <-])%rbind_Ok. revert H. unfold insert_event. stay_app.
Qed.

Lemma stays_job t b ty p m k : stays t (insert_job_sql t b ty p m k).
Proof.
  intros now n e d a d' (d1 & H & [= _ <-])%rbind_Ok. revert H. unfold insert_job. stay_app.
Qed.

Lemma is_key_tenant t s k i : is_key t s k i = true -> id_tenant i = t.
Proof. unfold is_key. intros H. bool_to_prop. by apply String.eqb_eq. Qed.

Lemma stays_complete t sc k r o : stays t (complete_key_sql t sc k r o).
Proof.
  intros now n e d a d' ([l x] & (-> & _)%sql_update_Ok & [= _ <-])%rbind_Ok.
  unfold others; simpl. f_equal. apply foreign_update. intros i Hi%is_key_tenant. done.
Qed.

Lemma of_booking_tenant t b j : of_booking t b j = true -> j_tenant j = t.
Proof. unfold of_booking. intros H. bool_to_prop. by apply String.eqb_eq. Qed.

Lemma stays_cancel_jobs t b ty : stays t (cancel_jobs_sql t b ty).
Proof.
  intros now n e d a d' ([l x] & (-> & _)%sql_update_Ok & [= _ <-])%rbind_Ok.
  unfold others; simpl. f_equal. apply foreign_update. intros j Hj. bool_to_prop.
  split; by eapply of_booking_tenant.
Qed.

Lemma foreign_move t b s tz l k l' :
  move_reminders (pending_reminder t b) s tz l = Ok (k, l') ->
  foreign j_tenant t l' = foreign j_tenant t l.
Proof.
  revert k l'. induction l as [|j l IH]; intros k l'; simpl; [by intros [= _ <-]|].
  intros ([k1 l1] & H1 & H)%rbind_Ok. specialize (IH _ _ H1). unfold foreign in *.
  destruct (pending_reminder t b j) eqn:Hp.
  - apply rbind_Ok in H as (q & _ & [= _ <-]). unfold pending_reminder in Hp. bool_to_prop.
    simpl. by rewrite (of_booking_tenant t b), String.eqb_refl.
  - injection H as _ <-. simpl. by rewrite IH.
Qed.

Lemma stays_move t b s tz : stays t (move_reminders_sql t b s tz).
Proof.
  intros now n e d a d' ([k l] & Hm%foreign_move & [= _ <-])%rbind_Ok.
  unfold others; simpl. by rewrite Hm.
Qed.

Lemma stays_update_booking t id f d o d' :
  (forall b, b_tenant (f b) = b_tenant b) ->
  update_booking t id f d = Ok (o, d') -> others t d' = others t d.
Proof.
  intros Hf [[_ ->]|(old & _ & _ & _ & _ & ->)]%update_booking_Ok; [done|].
  unfold others; simpl. f_equal. apply foreign_update. intros b [[= <- _] _]%target_spec. auto.
Qed.

Lemma stays_mark t c cu : stays t (mark_escalated_sql t c cu).
Proof.
  intros now n e d a d' ([l x] & (-> & _)%sql_update_Ok & [= _ <-])%rbind_Ok.
  unfold others; simpl. f_equal. apply foreign_update. unfold is_conversation. intros r Hr.
  bool_to_prop. split; by apply String.eqb_eq.
Qed.

Lemma stays_insert_escalation x d d' :
  insert_escalation x d = Ok d' -> others (es_tenant x) d' = others (es_tenant x) d.
Proof. unfold insert_escalation. stay_app. Qed.

Lemma stays_escalate c : stays (toolapi.e_TenantID c) (escalate_sql c).
Proof.
  intros now n e d a d'. unfold escalate_sql, escalate_call_sql, escalate_plain_sql.
  destruct (_ && _); [destruct (negb (escalation_check _)); [done|destruct (List.find _ _);
    [by intros [= _ <-]|]]|];
    intros (d1 & H%stays_insert_escalation & [= _ <-])%rbind_Ok; exact H.
Qed.

#[export] Hint Resolve stays_preserves stays_reserve stays_lock stays_event stays_job stays_complete
  stays_cancel_jobs stays_move stays_mark stays_escalate : db.

(** ** Commands *)
Section commands.
Context `{Host} (fuel : nat) (t : string) (D : DB).

#[local] Abbreviation I := (fun d => others t d = D).

Lemma stays_insert_booking c cv s st a b x y n :
  stays t (insert_booking_sql t c cv s st a b x y n).
Proof.
  intros now k e d r d' Hr. apply rbind_Ok in Hr as (d1 & (_ & _ & _ & _ & ->)%insert_booking_Ok & [= _ <-]).
  unfold others; simpl. by rewrite foreign_app.
Qed.

Lemma stays_reschedule id a b : stays t (reschedule_sql t id a b).
Proof. intros now k e d r d'. by apply stays_update_booking. Qed.

Lemma stays_cancel id reason : stays t (cancel_sql t id reason).
Proof. intros now k e d r d'. by apply stays_update_booking. Qed.

Hint Resolve stays_insert_booking stays_reschedule stays_cancel : db.

Lemma acquire_stays s l : preserves I (acquireScheduleLocks t s l).
Proof.
  unfold acquireScheduleLocks. apply preserves_bind; [|intros _].
  - induction l; simpl; [auto with db|]. apply preserves_bind; [|auto]. walk_preserves.
  - induction l; simpl; [auto with db|]. apply preserves_bind; [|auto]. walk_preserves.
Qed.

Lemma enqueue_stays b s m tz : preserves I (enqueueBookingCreatedJobs t b s m tz).
Proof. unfold enqueueBookingCreatedJobs. walk_preserves. Qed.

Lemma reserve_stays s k h : preserves I (reserve_key t s k h).
Proof. unfold reserve_key. walk_preserves. Qed.

Lemma complete_stays s k i o : preserves I (complete_key t s k i o).
Proof. unfold complete_key. walk_preserves. Qed.

Hint Resolve acquire_stays enqueue_stays reserve_stays complete_stays replay_wf
  loadBookingInputs_wf loadRules_wf loadBusy_wf load_one_wf loadBookingForUpdate_wf location_of_wf
  still_future_wf load_timezone_wf : db.

Lemma once_stays r c : tenantID r = t -> preserves I (once_of fuel r c).
Proof.
  intros Ht. destruct c; simpl;
    unfold createBookingOnce, rescheduleBookingOnce, cancelBookingOnce, adminCreateBookingOnce,
      adminRescheduleBookingOnce, adminCancelBookingOnce, move_booking, retire_booking, finish_create,
      UpdateReminderSchedule, CancelBookingJobs; cbv zeta; rewrite ?Ht;
    walk_preserves.
Qed.

Lemma command_stays r c : tenantID r = t -> db_preserves I (exec_command fuel r c).
Proof. intros Ht. by apply command_db_preserves, once_stays. Qed.
End commands.

(** * The backend stays in its tenant *)

From S2P Require Import SalonDemo.

#[local] Open Scope Z_scope.

(** ** Requests to the backend *)
Inductive request : Type :=
| RqListServices (tenant : string)
| RqListStaff (tenant serviceID : string)
| RqFindSlots (query : toolapi.FindSlotsQuery)
| RqCreate (now : Time) (command : toolapi.CreateBookingCommand)
| RqReschedule (command : toolapi.RescheduleBookingCommand)
| RqCancel (command : toolapi.CancelBookingCommand)
| RqEscalate (command : toolapi.EscalationCommand).

Definition tenant_of (q : request) : string :=
  match q with
  | RqListServices t | RqListStaff t _ => t
  | RqFindSlots q => toolapi.q_TenantID q
  | RqCreate _ c => toolapi.c_TenantID c
  | RqReschedule c => toolapi.r_TenantID c
  | RqCancel c => toolapi.x_TenantID c
  | RqEscalate c => toolapi.e_TenantID c
  end.

Definition discard {A} (m : M A) : M unit := let* _ := m in ret tt.

Section properties.
Context `{Host} (fuel : nat).

Definition perform (b : ToolBackend) (q : request) : M unit :=
  match q with
  | RqListServices t => discard (ListServices b t)
  | RqListStaff t s => discard (ListStaff b t s)
  | RqFindSlots q => discard (FindSlots fuel b q)
  | RqCreate now c => discard (CreateBooking fuel b now c)
  | RqReschedule c => discard (RescheduleBooking fuel b c)
  | RqCancel c => discard (CancelBooking b c)
  | RqEscalate c => discard (Escalate b c)
  end.

(** ** Isolation *)
Lemma local_search r q s l limit : local (search_staff fuel r q s limit l).
Proof.
  induction l as [|m l IH]; simpl; [auto with db|]. unfold loadRules, loadBusy. walk_local.
Qed.

Hint Resolve local_search : db.

Lemma local_services r : local (Catalog.ListServices r).
Proof. unfold Catalog.ListServices. walk_local. Qed.

Lemma local_staff r s : local (Catalog.ListStaff r s).
Proof. unfold Catalog.ListStaff, listStaff. walk_local. Qed.

Lemma local_slots r q : local (FindSlotsRepo fuel r q).
Proof. unfold FindSlotsRepo, loadService, listStaff. walk_local. Qed.

Lemma local_names r b c : local (enrichBookingNames r b c).
Proof.
  intros e w. unfold enrichBookingNames.
  match goal with |- context [query Pool ?f] => pose proof (local_query Pool f e w) as Hl end.
  destruct (query _ _ e w) as [[n|err] w1]; exact Hl.
Qed.

Hint Resolve local_services local_staff local_slots local_names : db.

Lemma escalate_body_stays t D c :
  toolapi.e_TenantID c = t ->
  preserves (fun d => others t d = D) (
    let* affected := map_err (unavailable "mark conversation escalated") (run Tx
      (mark_escalated_sql t (toolapi.e_ConversationID c) (toolapi.e_OwnerCustomerID c))) in
    if negb (Nat.eqb affected 1) then fail toolapi.ErrNotFoundOrNotOwned
    else
      let* outcome := map_err (unavailable "persist escalation") (
        let* o := run Tx (escalate_sql c) in one_row o) in
      let* _ := map_err (unavailable "commit escalation") commit in
      ret outcome).
Proof. intros <-. walk_preserves. Qed.

Lemma authorize_Ok b t r :
  authorizeTenant b t = Ok r -> repository b = Some r /\ tenantID r = t /\ has_pool r = true.
Proof.
  unfold authorizeTenant. destruct (repository b) as [r'|]; [|discriminate].
  destruct (_ || _) eqn:Ht; [discriminate|]. bool_to_prop.
  destruct (has_pool r') eqn:Hp; [|discriminate]. by intros [= <-].
Qed.

(** Everything after the tenant check, by the repository it was made for. *)
Lemma db_authorized I {A} b t (k : PGXRepository -> M A) :
  (forall r, tenantID r = t -> repository b = Some r -> db_preserves I (k r)) ->
  db_preserves I (authorized b t k).
Proof.
  intros Hk. unfold authorized. intros e w Hw. unfold bind, lift.
  destruct (authorizeTenant b t) as [r|err] eqn:Ha; [|done].
  apply authorize_Ok in Ha as (Hr & Ht & _). by apply Hk.
Qed.

Lemma stays_command r q now D :
  db_preserves (fun d => others (tenantID r) d = D) (Repository.CreateBooking fuel r now q).
Proof. exact (command_stays fuel (tenantID r) D r (CmdCreate now q) eq_refl). Qed.

Lemma stays_reschedule_command r q D :
  db_preserves (fun d => others (tenantID r) d = D) (Repository.RescheduleBooking fuel r q).
Proof. exact (command_stays fuel (tenantID r) D r (CmdReschedule q) eq_refl). Qed.

Lemma stays_cancel_command r q D :
  db_preserves (fun d => others (tenantID r) d = D) (Repository.CancelBooking r q).
Proof. exact (command_stays fuel (tenantID r) D r (CmdCancel q) eq_refl). Qed.

Ltac walk_db :=
  repeat (lazymatch goal with
  | |- db_preserves _ (match ?x with _ => _ end) => destruct x
  | |- db_preserves _ (fail _) => apply db_local, local_fail
  | |- db_preserves _ (ret _) => apply db_local, local_ret
  | |- db_preserves _ (lift _) => apply db_local, local_lift
  | |- db_preserves _ (mapped _) => apply db_map_err
  | |- db_preserves _ (bind (map_err _ begin_tx) _) => apply db_begin
  | |- db_preserves _ (bind _ _) => apply db_bind; [|intros ?]
  | |- db_preserves _ (Repository.CreateBooking _ _ _ _) => apply stays_command
  | |- db_preserves _ (Repository.RescheduleBooking _ _ _) => apply stays_reschedule_command
  | |- db_preserves _ (Repository.CancelBooking _ _) => apply stays_cancel_command
  | |- db_preserves _ _ => apply db_local; solve [auto 4 with db]
  end).

Lemma perform_stays b r q D :
  repository b = Some r ->
  db_preserves (fun d => others (tenantID r) d = D) (perform b q).
Proof.
  intros Hb. destruct q; simpl; unfold discard; (apply db_bind; [|intros ?; apply db_local, local_ret]);
    apply db_authorized; intros r' Ht Hr'; rewrite Hb in Hr'; injection Hr' as <-; cbv zeta; walk_db.
  rewrite Ht. by apply escalate_body_stays.
Qed.

(** C21. Tenants are isolated.  Whatever the gateway asks of a backend bound to
    a repository, the rows of every other tenant stay as they are; and a request
    in the name of any other tenant, or of none, is refused as not found before
    anything is read. *)
Theorem tenant_isolation b r q e w :
  repository b = Some r ->
  others (tenantID r) (db (perform b q e w).2) = others (tenantID r) (db w) /\
  (tenant_of q = "" \/ tenant_of q <> tenantID r ->
   perform b q e w = (Err toolapi.ErrNotFoundOrNotOwned, w)).
Proof.
  intros Hb. split; [exact (perform_stays b r q _ Hb e w eq_refl)|]. intros Hq.
  assert (Ha : authorizeTenant b (tenant_of q) = Err toolapi.ErrNotFoundOrNotOwned).
  { unfold authorizeTenant. rewrite Hb. destruct Hq as [->|Hq]; [done|].
    by rewrite (bool_decide_eq_false_2 _ Hq), orb_true_r. }
  destruct q; simpl in *; unfold discard, ListServices, ListStaff, FindSlots, CreateBooking,
    RescheduleBooking, CancelBooking, Escalate, authorized, bind, lift; by rewrite Ha.
Qed.

(** ** Errors *)
Definition classified {A} (m : M A) : Prop :=
  forall e w err w', m e w = (Err err, w') -> toolapi.boundary err = true.

Lemma classified_ret {A} (a : A) : classified (ret a).
Proof. done. Qed.

Lemma classified_fail {A} err : toolapi.boundary err = true -> classified (@fail A err).
Proof. intros Hb e w err' w' [= <- _]. done. Qed.

Lemma classified_bind {A B} (m : M A) (f : A -> M B) :
  classified m -> (forall a, classified (f a)) -> classified (bind m f).
Proof.
  intros Hm Hf e w err w'. unfold bind. specialize (Hm e w).
  destruct (m e w) as [[a|err1] w1]; [apply Hf|]. intros [= <- _]. by eapply Hm.
Qed.

Lemma classified_lift {A} (r : result A) :
  (forall err, r = Err err -> toolapi.boundary err = true) -> classified (lift r).
Proof. intros Hr e w err w'. unfold lift. intros [= -> _]. auto. Qed.

Lemma boundary_wrap2 msg err : toolapi.boundary (unavailable msg err) = true.
Proof.
  unfold toolapi.boundary, unavailable. apply existsb_exists. exists toolapi.ErrDependencyUnavailable.
  split; [simpl; tauto|]. cbn [errors_is]. by rewrite (errors_is_refl toolapi.ErrDependencyUnavailable), orb_true_r.
Qed.

Lemma boundary_mapped err : toolapi.boundary (mapToolBackendError err) = true.
Proof. unfold mapToolBackendError. repeat case_match; try done. apply boundary_wrap2. Qed.

Lemma classified_map_err {A} g (m : M A) :
  (forall err, toolapi.boundary (g err) = true) -> classified (map_err g m).
Proof.
  intros Hg e w err w'. unfold map_err. destruct (m e w) as [[a|err1] w1]; [done|].
  intros [= <- _]. auto.
Qed.

Lemma classified_rolled_back {A} (m : M A) : classified m -> classified (rolled_back m).
Proof.
  intros Hm e w err w'. unfold rolled_back. specialize (Hm e w).
  destruct (m e w) as [r w1]. intros [= -> _]. by eapply Hm.
Qed.

Lemma classified_names r b c : classified (enrichBookingNames r b c).
Proof.
  intros e w err w'. unfold enrichBookingNames. by destruct (query _ _ e w) as [[n|err1] w1].
Qed.

Lemma classified_slots s m l : classified (lift (available_slots s m l)).
Proof.
  apply classified_lift. induction l as [|x l IH]; intros err; simpl; [done|].
  destruct (m !! _); [|by intros [= <-]].
  destruct (available_slots s m l); [done|]. intros [= <-]. auto.
Qed.

Lemma classified_authorized {A} b t (k : PGXRepository -> M A) :
  (forall r, classified (k r)) -> classified (authorized b t k).
Proof.
  intros Hk. unfold authorized. apply classified_bind; [|done]. apply classified_lift.
  intros err. unfold authorizeTenant. repeat case_match; by intros [= <-].
Qed.

Ltac walk_classified :=
  repeat (lazymatch goal with
  | |- classified (match ?x with _ => _ end) => destruct x
  | |- classified (bind _ _) => apply classified_bind; [|intros ?]
  | |- classified (mapped _) => apply classified_map_err, boundary_mapped
  | |- classified (map_err (unavailable _) _) => apply classified_map_err; intros ?; apply boundary_wrap2
  | |- classified (rolled_back _) => apply classified_rolled_back
  | |- classified (fail _) => apply classified_fail; reflexivity
  | |- classified (lift (available_slots _ _ _)) => apply classified_slots
  | |- classified (enrichBookingNames _ _ _) => apply classified_names
  | |- classified (ret _) => apply classified_ret
  | |- classified (authorized _ _ _) => apply classified_authorized; intros ?; cbv zeta
  end).

Lemma perform_classified b q : classified (perform b q).
Proof.
  destruct q; simpl; unfold discard, ListServices, ListStaff, FindSlots, CreateBooking,
    RescheduleBooking, CancelBooking, Escalate; walk_classified.
Qed.

(** No scheduling sentinel has named the error yet. *)
Definition unnamed (err : error) : Prop :=
  Forall (fun s => errors_is err s = false)
    [ErrInvalidInput; ErrNotFound; ErrSlotUnavailable; ErrIdempotencyConflict;
     ErrBookingStateConflict; ErrScheduleVersionConflict].

Lemma database_codes err :
  unnamed err ->
  (pg_code err = Some "23P01" ->
   mapToolBackendError (mapDatabaseError err) = toolapi.ErrSlotUnavailable) /\
  (pg_code err = Some "23503" ->
   mapToolBackendError (mapDatabaseError err) = toolapi.ErrNotFoundOrNotOwned).
Proof.
  intros Hu. unfold unnamed in Hu. rewrite !Forall_cons in Hu.
  destruct Hu as (H1 & H2 & H3 & H4 & H5 & H6 & _).
  unfold mapDatabaseError. rewrite H1, H2, H3, H4, H5, H6. simpl.
  split; intros ->; reflexivity.
Qed.

(** Every error is understood.  Whatever fails in the repository, the
    database or the context, the backend answers with one of the five errors the
    gateway maps to a code, never with an unclassified one; the exclusion
    constraint's refusal comes out as an unavailable slot and a missing
    referenced row as not found. *)
Theorem backend_errors b q e w err w' :
  perform b q e w = (Err err, w') ->
  toolapi.boundary err = true /\
  forall cause, unnamed cause ->
    (pg_code cause = Some "23P01" ->
     mapToolBackendError (mapDatabaseError cause) = toolapi.ErrSlotUnavailable) /\
    (pg_code cause = Some "23503" ->
     mapToolBackendError (mapDatabaseError cause) = toolapi.ErrNotFoundOrNotOwned).
Proof. intros Hp. split; [by eapply perform_classified|]. apply database_codes. Qed.
End properties.

(** ** Escalation *)
Definition traced (c : toolapi.EscalationCommand) : bool :=
  negb (bool_decide (toolapi.e_AgentRunID c = "")) && negb (bool_decide (toolapi.e_ToolCallID c = "")).

Definition its_conversation (c : toolapi.EscalationCommand) : ConversationRow -> bool :=
  is_conversation (toolapi.e_TenantID c) (toolapi.e_ConversationID c) (toolapi.e_OwnerCustomerID c).

Definition its_call (c : toolapi.EscalationCommand) : EscalationRow -> bool :=
  of_call (toolapi.e_TenantID c) (toolapi.e_AgentRunID c) (toolapi.e_ToolCallID c).

(** The tables after the conversation was marked. *)
Definition marked (c : toolapi.EscalationCommand) (d : DB) : DB :=
  set_conversations (update_rows (its_conversation c) escalate_conversation (conversations d)) d.

Lemma insert_escalation_Ok x d d' :
  insert_escalation x d = Ok d' -> d' = set_escalations (escalations d ++ [x]) d.
Proof. unfold insert_escalation. repeat case_match; by intros [= <-]. Qed.

Lemma escalate_sql_Ok c now n e d o d' :
  escalate_sql c now n e d = Ok (Some o, d') ->
  if toolapi.eo_Replayed o
  then traced c = true /\ d' = d /\
       exists old, List.find (its_call c) (escalations d) = Some old /\ es_id old = toolapi.eo_ID o
  else d' = set_escalations (escalations d ++ [escalation_row c (toolapi.eo_ID o) now]) d /\
       (traced c = true -> List.find (its_call c) (escalations d) = None).
Proof.
  unfold escalate_sql, escalate_call_sql, escalate_plain_sql. fold (traced c) (its_call c).
  destruct (traced c) eqn:Ht.
  - destruct (negb (escalation_check _)); [done|]. destruct (List.find _ _) as [old|] eqn:Hf.
    + intros [= <- <-]. simpl. eauto.
    + intros (d1 & ->%insert_escalation_Ok & [= <- <-])%rbind_Ok. simpl. done.
  - intros (d1 & ->%insert_escalation_Ok & [= <- <-])%rbind_Ok. simpl. done.
Qed.

Lemma escalate_Ok b c e w o w' :
  Escalate b c e w = (Ok o, w') ->
  length (List.filter (its_conversation c) (conversations (db w))) = 1%nat /\
  exists now n, escalate_sql c now n e (marked c (db w)) = Ok (Some o, db w').
Proof.
  unfold Escalate, authorized. intros He. open_step He. open_step Hm.
  destruct (_ || _); [done|]. open_step He.
  match goal with Hb : map_err _ begin_tx _ _ = _ |- _ => apply map_err_Ok, begin_Ok in Hb as -> end.
  unfold rolled_back in He.
  match type of He with (let '(_, _) := ?body in _) = _ => destruct body as [res w2] eqn:Hbody end.
  injection He as -> <-. simpl. unfold mark_escalated_sql in Hbody. open_step Hbody.
  destruct (negb _) eqn:Hone; [done|]. bool_to_prop. apply Nat.eqb_eq in Hone as ->.
  open_all. match goal with Hs : rbind _ _ = Ok (1%nat, _) |- _ =>
    apply rbind_Ok in Hs as ([l touched] & (-> & -> & _)%sql_update_Ok & Hlen) end.
  injection Hlen as Hlen <-. rewrite length_map in Hlen. split; [exact Hlen|]. eauto.
Qed.

Lemma find_update_app {A} (p : A -> bool) l x :
  List.find p l = None -> p x = true -> List.find p (l ++ [x]) = Some x.
Proof.
  induction l as [|y l IH]; simpl; intros Hl Hx; [by rewrite Hx|]. destruct (p y); [done|auto].
Qed.

Lemma its_call_row c id at_ : traced c = true -> its_call c (escalation_row c id at_) = true.
Proof.
  unfold its_call, of_call, escalation_row. fold (traced c). intros ->. simpl.
  by rewrite String.eqb_refl, !bool_decide_eq_true_2.
Qed.

Lemma marked_twice c d :
  marked c (marked c d) = marked c d.
Proof.
  unfold marked; simpl. unfold set_conversations; simpl. f_equal. unfold update_rows. rewrite map_map.
  apply map_ext. intros r. destruct (its_conversation c r) eqn:Hr; [|by rewrite Hr].
  change (its_conversation c (escalate_conversation r)) with (its_conversation c r). by rewrite Hr.
Qed.

(** An escalation is filed once.  A successful escalation marks the
    customer's conversation, which it found, as escalated and touches no other;
    it files one row, or none when the same tool call of the same run filed it
    before.  When that call is repeated on the tables it left, the answer is the
    first escalation, marked as replayed, and no table changes. *)
Theorem escalate_once b c e w o w' :
  Escalate b c e w = (Ok o, w') ->
  length (List.filter (its_conversation c) (conversations (db w))) = 1%nat /\
  conversations (db w') = update_rows (its_conversation c) escalate_conversation (conversations (db w)) /\
  (exists at_, escalations (db w') = escalations (db w) ++
    (if toolapi.eo_Replayed o then [] else [escalation_row c (toolapi.eo_ID o) at_])) /\
  (traced c = true ->
   forall e2 w2 o2 w2', db w2 = db w' -> Escalate b c e2 w2 = (Ok o2, w2') ->
     toolapi.eo_Replayed o2 = true /\ toolapi.eo_ID o2 = toolapi.eo_ID o /\ db w2' = db w2).
Proof.
  intros (Hone & now & n & Hs%escalate_sql_Ok)%escalate_Ok. split; [done|].
  assert (Hd : conversations (db w') = conversations (marked c (db w)) /\
    (exists at_, escalations (db w') = escalations (db w) ++
      (if toolapi.eo_Replayed o then [] else [escalation_row c (toolapi.eo_ID o) at_])) /\
    marked c (db w') = db w' /\
    (traced c = true -> exists old, List.find (its_call c) (escalations (db w')) = Some old /\
       es_id old = toolapi.eo_ID o)).
  { destruct (toolapi.eo_Replayed o).
    - destruct Hs as (_ & -> & old & Hf & Hid). rewrite app_nil_r. rewrite marked_twice. split; [done|]. split; [by exists now|]. eauto.
    - destruct Hs as (-> & Hf). split; [done|]. split; [by exists now|]. split.
      + exact (f_equal (set_escalations _) (marked_twice c (db w))).
      + intros Ht. exists (escalation_row c (toolapi.eo_ID o) now). split; [|done].
        apply find_update_app; [by apply Hf|by apply its_call_row]. }
  destruct Hd as (Hc & He & Hm & Hold). split; [exact Hc|]. split; [exact He|].
  intros Ht e2 w2 o2 w2' Hd2 (_ & now2 & n2 & Hs2%escalate_sql_Ok)%escalate_Ok.
  destruct (Hold Ht) as (old & Hf & Hid). rewrite Hd2, Hm in Hs2.
  destruct (toolapi.eo_Replayed o2).
  - destruct Hs2 as (_ & Hdb & old2 & Hf2 & Hid2). rewrite Hf in Hf2. injection Hf2 as <-.
    rewrite Hdb, <- Hd2. split; [done|]. by rewrite <- Hid, <- Hid2.
  - destruct Hs2 as [_ Hn]. by rewrite Hf in Hn; specialize (Hn Ht).
Qed.

(** ** Witnesses *)
Definition salon_backend : ToolBackend := NewToolBackend (Some repo).

Definition create_command (tenant : string) (h : Z) : toolapi.CreateBookingCommand :=
  toolapi.mkCreate tenant customer_id "" service_id staff_id (monday h 0) (monday (h + 1) 0) "UTC"
    (toolapi.mkProfile "Carl" (toolapi.mkContact "carl@example.com" "") "" "") "" "create-key-000001".

Definition escalation : toolapi.EscalationCommand :=
  toolapi.mkEscalation "t" customer_id conversation_id run_id "call-1" "customer_request" "Please call me".

Lemma tenant_isolation_witness :
  others "t" (db (perform 40 salon_backend (RqCreate (monday 6 0) (create_command "t" 10)) calm booked_salon).2) =
    others "t" (db booked_salon) /\
  perform 40 salon_backend (RqCreate (monday 6 0) (create_command "u" 10)) calm booked_salon =
    (Err toolapi.ErrNotFoundOrNotOwned, booked_salon).
Proof.
  split.
  - exact (proj1 (tenant_isolation 40 salon_backend repo (RqCreate (monday 6 0) (create_command "t" 10))
      calm booked_salon eq_refl)).
  - apply (proj2 (tenant_isolation 40 salon_backend repo (RqCreate (monday 6 0) (create_command "u" 10))
      calm booked_salon eq_refl)). by right.
Defined.

(** A create through the backend is accepted, one after closing time is not. *)
Lemma backend_created : exists w',
  perform 40 salon_backend (RqCreate (monday 6 0) (create_command "t" 10)) calm empty_salon = (Ok tt, w').
Proof. eexists. vm_compute. reflexivity. Defined.

Lemma backend_refused : exists w',
  perform 40 salon_backend (RqCreate (monday 6 0) (create_command "t" 20)) calm empty_salon =
    (Err toolapi.ErrSlotUnavailable, w').
Proof. eexists. vm_compute. reflexivity. Defined.

Lemma backend_errors_witness : toolapi.boundary toolapi.ErrSlotUnavailable = true.
Proof. destruct backend_refused as (w' & Hr). exact (proj1 (backend_errors 40 _ _ _ _ _ _ Hr)). Defined.

Lemma escalated : exists o w', Escalate salon_backend escalation calm empty_salon = (Ok o, w') /\
  toolapi.eo_Replayed o = false.
Proof. eexists _, _. split; [vm_compute; reflexivity|reflexivity]. Defined.

Lemma escalated_again : exists o w' o2 w2,
  Escalate salon_backend escalation calm empty_salon = (Ok o, w') /\
  Escalate salon_backend escalation calm w' = (Ok o2, w2).
Proof.
  exists (toolapi.mkEscalated (demo_uuid 2 0) "open" false),
    (Escalate salon_backend escalation calm empty_salon).2.
  eexists _, _. split; vm_compute; reflexivity.
Defined.

Lemma escalate_once_witness : exists o w' o2 w2,
  Escalate salon_backend escalation calm empty_salon = (Ok o, w') /\
  Escalate salon_backend escalation calm w' = (Ok o2, w2) /\
  toolapi.eo_ID o2 = toolapi.eo_ID o /\ db w2 = db w'.
Proof.
  destruct escalated_again as (o & w' & o2 & w2 & H1 & H2).
  destruct (escalate_once _ _ _ _ _ _ H1) as (_ & _ & _ & Hagain).
  destruct (Hagain eq_refl calm w' o2 w2 eq_refl H2) as (_ & Hid & Hdb).
  exists o, w', o2, w2. auto.
Defined.
