(* ===== verification/JsonParse.v ===== *)
(** * Decoding JSON: [encoding/json]'s scanner

    A recursive-descent parser for the grammar that [json.Valid] and
    [json.Unmarshal] accept, with string unquoting and the nesting limit of the
    scanner, UTF-8 code points, and the duplicate-key walk of
    [internal/tools/validation.go].  Numbers keep their literal text, as under
    [UseNumber]. *)

From Stdlib Require Import ZArith Lia Ascii.
From stdpp Require Import base list strings.
From S2P Require Import Prelude Json.

#[local] Open Scope Z_scope.

(** ** Code points *)
Definition tail6 (c : ascii) : Z := code c mod 64.

(** The code point of a well-formed sequence. *)
Definition rune_of (l : list ascii) : Z :=
  match l with
  | [c0] => code c0
  | [c0; c1] => (code c0 mod 32) * 64 + tail6 c1
  | [c0; c1; c2] => (code c0 mod 16) * 4096 + tail6 c1 * 64 + tail6 c2
  | [c0; c1; c2; c3] => (code c0 mod 8) * 262144 + tail6 c1 * 4096 + tail6 c2 * 64 + tail6 c3
  | _ => 65533
  end.

(** [utf8.AppendRune]. *)
Definition encode_rune (r : Z) : list ascii :=
  if r <? 128 then [chr r]
  else if r <? 2048 then [chr (192 + r / 64); chr (128 + r mod 64)]
  else if r <? 65536 then
    [chr (224 + r / 4096); chr (128 + r / 64 mod 64); chr (128 + r mod 64)]
  else [chr (240 + r / 262144); chr (128 + r / 4096 mod 64); chr (128 + r / 64 mod 64);
        chr (128 + r mod 64)].

Definition replacement : Z := 65533.

(** Ranging over a string: its code points, U+FFFD for every stray byte. *)
Fixpoint runes (fuel : nat) (l : list ascii) : list Z :=
  match fuel, l with
  | O, _ | _, [] => []
  | S fuel, _ :: tl =>
      match utf8_len l with
      | O => replacement :: runes fuel tl
      | n => rune_of (take n l) :: runes fuel (drop n l)
      end
  end.

Definition runes_of (s : string) : list Z := runes (String.length s) (string_bytes s).

(** [utf8.RuneCountInString]. *)
Definition RuneCountInString (s : string) : Z := Z.of_nat (length (runes_of s)).

(** [utf8.ValidString]. *)
Fixpoint valid_utf8 (fuel : nat) (l : list ascii) : bool :=
  match fuel, l with
  | _, [] => true
  | O, _ => false
  | S fuel, _ => match utf8_len l with O => false | n => valid_utf8 fuel (drop n l) end
  end.

Definition ValidString (s : string) : bool := valid_utf8 (String.length s) (string_bytes s).

(** [unicode.IsSpace]. *)
Definition IsSpace (r : Z) : bool :=
  ((9 <=? r) && (r <=? 13)) || (r =? 32) || (r =? 133) || (r =? 160) || (r =? 5760) ||
  ((8192 <=? r) && (r <=? 8202)) || (r =? 8232) || (r =? 8233) || (r =? 8239) || (r =? 8287) ||
  (r =? 12288).

(** [strings.TrimSpace(s) == ""]. *)
Definition blank (s : string) : bool := forallb IsSpace (runes_of s).

(** The bytes of each code point, a stray byte alone. *)
Fixpoint chunks (fuel : nat) (l : list ascii) : list (list ascii) :=
  match fuel, l with
  | O, _ | _, [] => []
  | S fuel, c :: tl =>
      match utf8_len l with
      | O => [c] :: chunks fuel tl
      | n => take n l :: chunks fuel (drop n l)
      end
  end.

Definition space_chunk (l : list ascii) : bool :=
  negb (Nat.eqb (utf8_len l) 0) && IsSpace (rune_of l).

Fixpoint drop_spaces (l : list (list ascii)) : list (list ascii) :=
  match l with c :: tl => if space_chunk c then drop_spaces tl else l | [] => [] end.

(** [bytes.TrimSpace]. *)
Definition TrimSpace (s : string) : string :=
  of_bytes (concat (rev (drop_spaces (rev (drop_spaces (chunks (String.length s) (string_bytes s))))))).

(** The longest valid prefix of at most [n] bytes. *)
Fixpoint valid_prefix (n : nat) (l : list ascii) : list ascii :=
  if valid_utf8 n (take n l) then take n l
  else match n with O => [] | S k => valid_prefix k l end.

Definition truncateUTF8 (value : string) (maxBytes : nat) : string :=
  if Z.of_nat (String.length value) <=? Z.of_nat maxBytes then value
  else of_bytes (valid_prefix maxBytes (string_bytes value)).

(** ** Tokens *)
Definition json_space (c : ascii) : bool :=
  let n := code c in (n =? 32) || (n =? 9) || (n =? 10) || (n =? 13).

Fixpoint skip (l : list ascii) : list ascii :=
  match l with c :: tl => if json_space c then skip tl else l | [] => [] end.

Definition is_digit (c : ascii) : bool := (48 <=? code c) && (code c <=? 57).

Fixpoint span_digits (l : list ascii) : list ascii * list ascii :=
  match l with
  | c :: tl => if is_digit c then let '(a, b) := span_digits tl in (c :: a, b) else ([], l)
  | [] => ([], [])
  end.

Definition opt_sign (allowed : ascii -> bool) (l : list ascii) : list ascii * list ascii :=
  match l with c :: tl => if allowed c then ([c], tl) else ([], l) | [] => ([], []) end.

(** One digit at least. *)
Definition digits1 (l : list ascii) : option (list ascii * list ascii) :=
  match span_digits l with ([], _) => None | p => Some p end.

Definition integer_part (l : list ascii) : option (list ascii * list ascii) :=
  match l with
  | c :: tl => if code c =? 48 then Some ([c], tl) else digits1 l
  | [] => None
  end.

Definition fraction (l : list ascii) : option (list ascii * list ascii) :=
  match l with
  | c :: tl => if code c =? 46
               then match digits1 tl with Some (a, b) => Some (c :: a, b) | None => None end
               else Some ([], l)
  | [] => Some ([], [])
  end.

Definition exponent (l : list ascii) : option (list ascii * list ascii) :=
  match l with
  | c :: tl => if (code c =? 101) || (code c =? 69)
               then let '(s, tl') := opt_sign (fun c => (code c =? 43) || (code c =? 45)) tl in
                    match digits1 tl' with Some (a, b) => Some (c :: s ++ a, b) | None => None end
               else Some ([], l)
  | [] => Some ([], [])
  end.

Definition scan_number (l : list ascii) : option (list ascii * list ascii) :=
  let '(sign, l) := opt_sign (fun c => code c =? 45) l in
  match integer_part l with
  | None => None
  | Some (i, l) =>
      match fraction l with
      | None => None
      | Some (f, l) =>
          match exponent l with
          | None => None
          | Some (x, l) => Some (sign ++ i ++ f ++ x, l)
          end
      end
  end.

Definition hex_value (c : ascii) : option Z :=
  let n := code c in
  if (48 <=? n) && (n <=? 57) then Some (n - 48)
  else if (97 <=? n) && (n <=? 102) then Some (n - 87)
  else if (65 <=? n) && (n <=? 70) then Some (n - 55)
  else None.

Definition hex4 (a b c d : ascii) : option Z :=
  match hex_value a, hex_value b, hex_value c, hex_value d with
  | Some w, Some x, Some y, Some z => Some (w * 4096 + x * 256 + y * 16 + z)
  | _, _, _, _ => None
  end.

(** [getu4] at the start of the rest. *)
Definition getu4 (l : list ascii) : option Z :=
  match l with
  | s :: u :: a :: b :: c :: d :: _ =>
      if (code s =? 92) && (code u =? 117) then hex4 a b c d else None
  | _ => None
  end.

Definition is_surrogate (r : Z) : bool := (55296 <=? r) && (r <=? 57343).

(** [utf16.DecodeRune] of two surrogates in order. *)
Definition decode_pair (r1 r2 : Z) : option Z :=
  if (55296 <=? r1) && (r1 <? 56320) && (56320 <=? r2) && (r2 <? 57344)
  then Some ((r1 - 55296) * 1024 + (r2 - 56320) + 65536) else None.

Definition simple_escape (c : ascii) : option ascii :=
  let n := code c in
  if (n =? 34) || (n =? 92) || (n =? 47) then Some c
  else if n =? 98 then Some (chr 8)
  else if n =? 102 then Some (chr 12)
  else if n =? 110 then Some (chr 10)
  else if n =? 114 then Some (chr 13)
  else if n =? 116 then Some (chr 9)
  else None.

(** The value of a string literal after its opening quote, and the rest. *)
Fixpoint string_body (fuel : nat) (l : list ascii) : option (list ascii * list ascii) :=
  match fuel with
  | O => None
  | S fuel =>
      let put (s : list ascii) (o : option (list ascii * list ascii)) :=
        match o with Some (a, b) => Some (s ++ a, b) | None => None end in
      match l with
      | [] => None
      | c :: tl =>
          if code c =? 34 then Some ([], tl)
          else if code c =? 92 then
            match tl with
            | [] => None
            | x :: tl' =>
                match simple_escape x with
                | Some y => put [y] (string_body fuel tl')
                | None =>
                    match getu4 l with
                    | None => None
                    | Some r =>
                        if is_surrogate r then
                          match getu4 (drop 6 l) with
                          | Some r2 =>
                              match decode_pair r r2 with
                              | Some p => put (encode_rune p) (string_body fuel (drop 12 l))
                              | None => put (encode_rune replacement) (string_body fuel (drop 6 l))
                              end
                          | None => put (encode_rune replacement) (string_body fuel (drop 6 l))
                          end
                        else put (encode_rune r) (string_body fuel (drop 6 l))
                    end
                end
            end
          else if code c <? 32 then None
          else if code c <? 128 then put [c] (string_body fuel tl)
          else match utf8_len l with
               | O => put (encode_rune replacement) (string_body fuel tl)
               | n => put (take n l) (string_body fuel (drop n l))
               end
      end
  end.

Definition string_literal (l : list ascii) : option (string * list ascii) :=
  match string_body (S (length l)) l with
  | Some (a, b) => Some (of_bytes a, b)
  | None => None
  end.

(** The rest after a fixed word. *)
Fixpoint after (w l : list ascii) : option (list ascii) :=
  match w, l with
  | [], _ => Some l
  | x :: w, y :: l => if Ascii.eqb x y then after w l else None
  | _ :: _, [] => None
  end.

Definition word (s : string) (v : json) (l : list ascii) : option (json * list ascii) :=
  match after (string_bytes s) l with Some rest => Some (v, rest) | None => None end.

(** ** Values

    [depth] counts the open arrays and objects; the scanner refuses more than
    ten thousand.  Every call but the first of a level consumes a character, so
    twice the length of the input is fuel enough. *)
Definition maxNestingDepth : Z := 10000.

Fixpoint value (fuel : nat) (depth : Z) (l : list ascii) : option (json * list ascii) :=
  match fuel with
  | O => None
  | S fuel =>
      match skip l with
      | [] => None
      | c :: tl =>
          let n := code c in
          if n =? 34 then
            match string_literal tl with Some (s, rest) => Some (JStr s, rest) | None => None end
          else if n =? 123 then
            if maxNestingDepth <=? depth then None
            else match skip tl with
                 | d :: rest =>
                     if code d =? 125 then Some (JObj [], rest)
                     else match members fuel (depth + 1) (d :: rest) with
                          | Some (m, rest) => Some (JObj m, rest)
                          | None => None
                          end
                 | [] => None
                 end
          else if n =? 91 then
            if maxNestingDepth <=? depth then None
            else match skip tl with
                 | d :: rest =>
                     if code d =? 93 then Some (JArr [], rest)
                     else match elements fuel (depth + 1) (d :: rest) with
                          | Some (m, rest) => Some (JArr m, rest)
                          | None => None
                          end
                 | [] => None
                 end
          else if n =? 116 then word "true" (JBool true) (c :: tl)
          else if n =? 102 then word "false" (JBool false) (c :: tl)
          else if n =? 110 then word "null" JNull (c :: tl)
          else match scan_number (c :: tl) with
               | Some (s, rest) => Some (JNum (of_bytes s), rest)
               | None => None
               end
      end
  end

with elements (fuel : nat) (depth : Z) (l : list ascii) : option (list json * list ascii) :=
  match fuel with
  | O => None
  | S fuel =>
      match value fuel depth l with
      | None => None
      | Some (v, rest) =>
          match skip rest with
          | c :: tl =>
              if code c =? 44 then
                match elements fuel depth tl with
                | Some (vs, rest) => Some (v :: vs, rest)
                | None => None
                end
              else if code c =? 93 then Some ([v], tl)
              else None
          | [] => None
          end
      end
  end

with members (fuel : nat) (depth : Z) (l : list ascii)
    : option (list (string * json) * list ascii) :=
  match fuel with
  | O => None
  | S fuel =>
      match skip l with
      | q :: tl =>
          if negb (code q =? 34) then None
          else
            match string_literal tl with
            | None => None
            | Some (k, rest) =>
                match skip rest with
                | colon :: tl =>
                    if negb (code colon =? 58) then None
                    else
                      match value fuel depth tl with
                      | None => None
                      | Some (v, rest) =>
                          match skip rest with
                          | c :: tl =>
                              if code c =? 44 then
                                match members fuel depth tl with
                                | Some (kvs, rest) => Some ((k, v) :: kvs, rest)
                                | None => None
                                end
                              else if code c =? 125 then Some ([(k, v)], tl)
                              else None
                          | [] => None
                          end
                      end
                | [] => None
                end
            end
      | [] => None
      end
  end.

(** The whole text is one value; members in order, duplicates included. *)
Definition Unmarshal (s : string) : option json :=
  let l := string_bytes s in
  match value (2 * length l + 2) 0 l with
  | Some (v, rest) => match skip rest with [] => Some v | _ => None end
  | None => None
  end.

(** [json.Valid]. *)
Definition Valid (s : string) : bool := match Unmarshal s with Some _ => true | None => false end.

(** ** [rejectDuplicateKeys] *)
Fixpoint nodup_keys (l : list string) : bool :=
  match l with [] => true | k :: tl => negb (existsb (String.eqb k) tl) && nodup_keys tl end.

Fixpoint unique_keys (v : json) : bool :=
  match v with
  | JArr l => forallb unique_keys l
  | JObj l => nodup_keys (map fst l) && forallb (fun kv => unique_keys kv.2) l
  | _ => true
  end.
