(* ===== verification/Validation.v ===== *)
(** * Arguments a model wrote: [internal/tools/validation.go]

    The checks on tool arguments before anything is dispatched, and the contract
    of the terminal [respond_to_customer] call.  The JSON Schema validator is a
    third-party package and a parameter.  Where several complaints apply to one
    text, which of them the error names is not modelled. *)

From Stdlib Require Import ZArith Lia Ascii.
From stdpp Require Import base list strings.
From S2P Require Import Prelude Json JsonParse.

#[local] Open Scope Z_scope.

Definition maxCustomerResponseRunes : Z := 2000.

Record RespondToCustomerArguments := mkRespond { Disposition : string; rc_Message : string }.

Definition ResponseComplete : string := "complete".
Definition ResponseClarificationNeeded : string := "clarification_needed".

Definition zero_respond : RespondToCustomerArguments := mkRespond "" "".

(** ** Letter case, as far as a name of ASCII letters can tell *)
Definition shift_case (from to : Z) (c : ascii) : ascii :=
  if (from <=? code c) && (code c <=? from + 25) then chr (code c - from + to) else c.

(** [encoding/json] folds field names; U+017F and U+212A fold to letters. *)
Fixpoint fold_name (fuel : nat) (l : list ascii) : list ascii :=
  match fuel with
  | O => []
  | S fuel =>
      match l with
      | [] => []
      | c0 :: tl =>
          match tl with
          | c1 :: tl1 =>
              if (code c0 =? 197) && (code c1 =? 191) then chr 83 :: fold_name fuel tl1
              else match tl1 with
                   | c2 :: tl2 =>
                       if (code c0 =? 226) && (code c1 =? 132) && (code c2 =? 170)
                       then chr 75 :: fold_name fuel tl2
                       else shift_case 97 65 c0 :: fold_name fuel tl
                   | [] => shift_case 97 65 c0 :: fold_name fuel tl
                   end
          | [] => shift_case 97 65 c0 :: fold_name fuel tl
          end
      end
  end.

Definition names_field (key field : string) : bool :=
  bool_decide (fold_name (String.length key) (string_bytes key) =
               fold_name (String.length field) (string_bytes field)).

(** [strings.ToLower]: U+0130 and U+212A become the letters i and k. *)
Fixpoint to_lower (fuel : nat) (l : list ascii) : list ascii :=
  match fuel with
  | O => []
  | S fuel =>
      match l with
      | [] => []
      | c0 :: tl =>
          match tl with
          | c1 :: tl1 =>
              if (code c0 =? 196) && (code c1 =? 176) then chr 105 :: to_lower fuel tl1
              else match tl1 with
                   | c2 :: tl2 =>
                       if (code c0 =? 226) && (code c1 =? 132) && (code c2 =? 170)
                       then chr 107 :: to_lower fuel tl2
                       else shift_case 65 97 c0 :: to_lower fuel tl
                   | [] => shift_case 65 97 c0 :: to_lower fuel tl
                   end
          | [] => shift_case 65 97 c0 :: to_lower fuel tl
          end
      end
  end.

Definition ToLower (s : string) : string := of_bytes (to_lower (String.length s) (string_bytes s)).

(** ** [rejectDuplicateKeys] *)
Definition rejectDuplicateKeys (raw : string) : result json :=
  match Unmarshal raw with
  | None => Err (ErrText "arguments are not valid JSON")
  | Some v => if unique_keys v then Ok v else Err (ErrText "arguments contain duplicate key")
  end.

(** ** The terminal call *)
Definition ErrRespondContract : error :=
  ErrText "arguments must match the respond_to_customer v1 contract".

(** A JSON value into a string field: [null] leaves it, another type fails. *)
Definition decode_string (old : string) (v : json) : result string :=
  match v with
  | JStr s => Ok s
  | JNull => Ok old
  | _ => Err ErrRespondContract
  end.

(** Members in order; unknown fields are refused. *)
Fixpoint decode_respond (l : list (string * json)) (a : RespondToCustomerArguments)
    : result RespondToCustomerArguments :=
  match l with
  | [] => Ok a
  | (k, v) :: tl =>
      if names_field k "disposition" then
        let! s := decode_string (Disposition a) v in decode_respond tl (mkRespond s (rc_Message a))
      else if names_field k "message" then
        let! s := decode_string (rc_Message a) v in decode_respond tl (mkRespond (Disposition a) s)
      else Err ErrRespondContract
  end.

Definition ParseRespondToCustomerArguments (raw : string) : result RespondToCustomerArguments :=
  let! v := rejectDuplicateKeys raw in
  let! arguments := match v with
                    | JObj l => decode_respond l zero_respond
                    | JNull => Ok zero_respond
                    | _ => Err ErrRespondContract
                    end in
  if negb (bool_decide (Disposition arguments = ResponseComplete) ||
           bool_decide (Disposition arguments = ResponseClarificationNeeded))
  then Err (ErrText "invalid customer response disposition")
  else if blank (rc_Message arguments) ||
          (maxCustomerResponseRunes <? RuneCountInString (rc_Message arguments))
  then Err (ErrText "customer response message must contain 1 to 2000 characters")
  else Ok arguments.

(** ** Identity fields *)
Definition forbiddenIdentityFields : list string :=
  ["tenant_id"; "customer_id"; "agent_run_id"; "inbound_message_id"; "tool_call_id";
   "principal_id"; "owner_id"; "owner_customer_id"; "conversation_id"; "role"; "capability";
   "capabilities"; "bypass_confirmation"; "is_admin"].

Definition forbidden_key (key : string) : bool := existsb (String.eqb (ToLower key)) forbiddenIdentityFields.

(** Whether some object of the value, at any depth, has a forbidden key; the
    path the source reports depends on the order of a map. *)
Fixpoint findForbiddenIdentityField (v : json) : bool :=
  match v with
  | JObj l => existsb (fun kv => forbidden_key kv.1 || findForbiddenIdentityField kv.2) l
  | JArr l => existsb findForbiddenIdentityField l
  | _ => false
  end.

Definition validateArguments (schema : json -> option error) (raw : string)
    : result (list (string * json)) :=
  let raw := if blank raw then String (chr 123) (String (chr 125) EmptyString) else raw in
  let! instance := rejectDuplicateKeys raw in
  match instance with
  | JObj object =>
      if findForbiddenIdentityField instance then
        Err (ErrText "trusted identity field is forbidden")
      else match schema instance with
           | Some err => Err (ErrWrap "arguments do not match the tool's v1 JSON Schema" err)
           | None => Ok object
           end
  | _ => Err (ErrText "arguments must be a JSON object")
  end.
