(* ===== verification/Runner.v ===== *)
(** * The agent loop: [internal/agent/runner.go]

    One turn of a conversation: model call, tool calls, model call, until a sole
    terminal call answers the customer, a tool hands the conversation to a
    person, or a limit is reached.  The model, the tool executor, the trace sink,
    the token budget, the clock and the turn's context are the interface
    [Dependencies], over a state of their own. *)

From Stdlib Require Import ZArith Lia Ascii.
From stdpp Require Import base list strings pretty.
From S2P Require Import Prelude State GoTime Json JsonParse LLM Validation.

#[local] Open Scope Z_scope.

Definition maxToolArgumentBytes : Z := 65536.
Definition maxToolResultBytes : Z := 262144.
Definition maxProtocolCorrections : Z := 2.

Definition protocolCorrection : string := "PROTOCOL ERROR: your previous response contained no tool call, so it was discarded and the customer did not see it. Every customer-facing reply must be the sole respond_to_customer call. Never state that a service, staff member, date, or slot is unavailable or invalid unless a tool in this turn returned that result: call list_services, list_staff, and find_slots first and match the customer's wording case-insensitively against the returned names. Now either call the tools you still need, or call respond_to_customer.".

Definition proposalCorrection : string := "PROTOCOL ERROR: this turn already produced a proposal the customer must confirm, and no further tool call was executed. Call respond_to_customer now with the proposed service, staff member, date, and time in human-readable form, and ask the customer to confirm. Do not include any identifier.".

Definition ErrIterationLimit : error := ErrSentinel "agent: iteration limit reached".
Definition ErrTurnTimeout : error := ErrSentinel "agent: turn deadline exceeded".
Definition ErrTerminalProtocol : error := ErrSentinel "agent: terminal response protocol violated".
Definition DeadlineExceeded : error := ErrSentinel "context deadline exceeded".

Definition ToolRespondToCustomer : string := "respond_to_customer".
Definition ToolCreateBooking : string := "create_booking".
Definition ToolEscalate : string := "escalate_to_human".
Definition ToolChoiceAuto : string := "auto".

(** ** Tools and traces ([tool.go], [trace.go]) *)
Definition ToolStatusSucceeded : string := "succeeded".
Definition ToolStatusFailed : string := "failed".
Definition ToolStatusRefused : string := "refused".
Definition ToolStatusConfirmationRequired : string := "confirmation_required".

Record ToolRequest := mkToolRequest {
  tq_RunID : string; tq_ConversationID : string; tq_Iteration : Z; tq_CallIndex : Z;
  tq_CallCount : Z; tq_Call : ToolCall
}.

Record ToolAttempt := mkAttempt {
  at_StartedAt : Time; at_FinishedAt : Time; at_Status : string; at_Detail : string
}.

Record ToolExecution := mkExecution {
  ex_Content : string; IsError : bool; ex_Status : string; Attempts : list ToolAttempt;
  SideEffectCommitted : bool
}.

Definition ModelCallSucceeded : string := "succeeded".
Definition ModelCallFailed : string := "failed".

Record ModelCallTrace := mkModelCall {
  mc_RunID : string; mc_ConversationID : string; mc_Iteration : Z; mc_StartedAt : Time;
  mc_FinishedAt : Time; mc_Model : string; mc_FinishReason : string; mc_Usage : Usage;
  mc_ReservedTokens : Z; mc_ChargedTokens : Z; mc_ReturnedToolCallCount : Z;
  mc_Status : string; mc_ErrorMessage : string
}.

Record ToolExecutionStartedTrace := mkStarted {
  ts_RunID : string; ts_ConversationID : string; ts_Iteration : Z; ts_CallIndex : Z;
  ts_CallCount : Z; ts_CallID : string; ts_ToolName : string; ts_ContractVersion : string;
  ts_Arguments : string; ts_StartedAt : Time
}.

Record ToolAttemptTrace := mkAttemptTrace {
  ta_RunID : string; ta_ConversationID : string; ta_Iteration : Z; ta_CallIndex : Z;
  ta_CallID : string; ta_ToolName : string; ta_ContractVersion : string; ta_AttemptNo : Z;
  ta_StartedAt : Time; ta_FinishedAt : Time; ta_Status : string; ta_Detail : string
}.

Record ToolExecutionCompletedTrace := mkCompleted {
  tc_RunID : string; tc_ConversationID : string; tc_Iteration : Z; tc_CallIndex : Z;
  tc_CallID : string; tc_ToolName : string; tc_ContractVersion : string; tc_StartedAt : Time;
  tc_FinishedAt : Time; tc_Status : string; tc_Result : string; tc_AttemptCount : Z
}.

(** The turn's context, or one detached from it for at most three seconds. *)
Inductive Ctx := TurnContext | PersistenceContext.

(** The replaceable boundaries of a runner.  A reservation is a handle of the
    budget; [Error] renders an error. *)
Class Dependencies (S : Type) := {
  ctx_Err : St S (option error);
  now : St S Time;
  Error : error -> string;
  Estimate : Request -> result Z;
  Reserve : string -> Z -> St S (result nat);
  ReservedTokens : nat -> S -> Z;
  Settle : Ctx -> nat -> Z -> St S (option error);
  Complete : Request -> St S (Response * option error);
  executor : option (ToolRequest -> St S (ToolExecution * option error));
  RecordModelCall : Ctx -> ModelCallTrace -> St S (option error);
  RecordToolExecutionStarted : Ctx -> ToolExecutionStartedTrace -> St S (option error);
  RecordToolAttempt : Ctx -> ToolAttemptTrace -> St S (option error);
  RecordToolExecutionCompleted : Ctx -> ToolExecutionCompletedTrace -> St S (option error)
}.

(** ** The runner *)
Record Config := mkConfig {
  MaxIterations : Z; TurnTimeout : Z; MaxOutputTokensPerCall : Z; ConversationTokenLimit : Z
}.

Record Runner := mkRunner { config : Config; tools : list ToolDefinition }.

Fixpoint check_tools (seen : list string) (defs : list ToolDefinition) : result unit :=
  match defs with
  | [] => Ok tt
  | tool :: tl =>
      if bool_decide (td_Name tool = "") then Err (ErrText "agent: tool has no name")
      else if 100 <? len (td_Name tool) then Err (ErrText "agent: tool exceeds the 100-byte name limit")
      else if existsb (String.eqb (td_Name tool)) seen then Err (ErrText "agent: duplicate tool")
      else if bool_decide (td_Version tool = "") then Err (ErrText "agent: tool has no contract version")
      else if 32 <? len (td_Version tool) then Err (ErrText "agent: tool contract version exceeds 32 bytes")
      else if bool_decide (td_Parameters tool = "") || negb (Valid (td_Parameters tool))
      then Err (ErrText "agent: tool has invalid parameter schema")
      else check_tools (td_Name tool :: seen) tl
  end.

Definition names_tool (name : string) (t : ToolDefinition) : bool := String.eqb (td_Name t) name.

(** The dependencies' defaults are theirs; a missing model is an error. *)
Definition NewRunner (config : Config) (has_model : bool) (toolDefinitions : list ToolDefinition)
    : result Runner :=
  if MaxIterations config <=? 0 then Err (ErrText "agent: max iterations must be positive")
  else if TurnTimeout config <=? 0 then Err (ErrText "agent: turn timeout must be positive")
  else if MaxOutputTokensPerCall config <=? 0 then
    Err (ErrText "agent: max output tokens per call must be positive")
  else if ConversationTokenLimit config <=? 0 then
    Err (ErrText "agent: conversation token limit must be positive")
  else if negb has_model then Err (ErrText "agent: model adapter is required")
  else
    let! _ := check_tools [] toolDefinitions in
    if existsb (names_tool ToolRespondToCustomer) toolDefinitions
    then Ok (mkRunner config toolDefinitions)
    else Err (ErrText "agent: required terminal tool is not registered").

Definition allowed (r : Runner) (name : string) : bool := existsb (names_tool name) (tools r).

Definition toolVersion (r : Runner) (name : string) : string :=
  match List.find (names_tool name) (tools r) with
  | Some t => if bool_decide (td_Version t = "") then "unregistered" else td_Version t
  | None => "unregistered"
  end.

Record TurnRequest := mkTurn { RunID : string; trq_ConversationID : string; trq_Messages : list Message }.

Record TurnResult := mkTurnResult {
  tr_Message : Message; tr_Messages : list Message; Iterations : Z; tr_Usage : Usage;
  ToolRefused : bool; HumanEscalated : bool; BookingCommitted : bool;
  CustomerResponseDisposition : string; CustomerResponseToolCallID : string
}.

Definition set_Messages (l : list Message) (t : TurnResult) : TurnResult :=
  mkTurnResult (tr_Message t) l (Iterations t) (tr_Usage t) (ToolRefused t) (HumanEscalated t)
    (BookingCommitted t) (CustomerResponseDisposition t) (CustomerResponseToolCallID t).
Definition set_Message (m : Message) (t : TurnResult) : TurnResult :=
  mkTurnResult m (tr_Messages t) (Iterations t) (tr_Usage t) (ToolRefused t) (HumanEscalated t)
    (BookingCommitted t) (CustomerResponseDisposition t) (CustomerResponseToolCallID t).
Definition set_Call (i : Z) (u : Usage) (t : TurnResult) : TurnResult :=
  mkTurnResult (tr_Message t) (tr_Messages t) i u (ToolRefused t) (HumanEscalated t)
    (BookingCommitted t) (CustomerResponseDisposition t) (CustomerResponseToolCallID t).
Definition set_Refused (t : TurnResult) : TurnResult :=
  mkTurnResult (tr_Message t) (tr_Messages t) (Iterations t) (tr_Usage t) true (HumanEscalated t)
    (BookingCommitted t) (CustomerResponseDisposition t) (CustomerResponseToolCallID t).
Definition set_Escalated (t : TurnResult) : TurnResult :=
  mkTurnResult (tr_Message t) (tr_Messages t) (Iterations t) (tr_Usage t) (ToolRefused t) true
    (BookingCommitted t) (CustomerResponseDisposition t) (CustomerResponseToolCallID t).
Definition set_Committed (t : TurnResult) : TurnResult :=
  mkTurnResult (tr_Message t) (tr_Messages t) (Iterations t) (tr_Usage t) (ToolRefused t)
    (HumanEscalated t) true (CustomerResponseDisposition t) (CustomerResponseToolCallID t).
Definition set_Response (d id : string) (t : TurnResult) : TurnResult :=
  mkTurnResult (tr_Message t) (tr_Messages t) (Iterations t) (tr_Usage t) (ToolRefused t)
    (HumanEscalated t) (BookingCommitted t) d id.

Definition zero_result : TurnResult :=
  mkTurnResult zero_message [] 0 zero_usage false false false "" "".

(** ** Pure helpers *)
Definition turnContextError (err : error) : error :=
  if errors_is err DeadlineExceeded then ErrWrap2 "" ErrTurnTimeout err else err.

Definition addUsage (total usage : Usage) : Usage :=
  mkUsage (wrap64 (InputTokens total + InputTokens usage))
    (wrap64 (OutputTokens total + OutputTokens usage))
    (wrap64 (TotalTokens total + Total usage)).

Definition chargeForModelCall (response : Response) (modelErr : option error) (reservedTokens : Z) : Z :=
  let reported := Total (rsp_Usage response) in
  if bool_decide (is_Some modelErr) || (reported <=? 0) then reservedTokens
  else if negb (UsageIncomplete response) then reported
  else
    let unknown := if UnknownUsageAttempts response <? 1 then 1 else UnknownUsageAttempts response in
    let perAttempt := if InputTokens (rsp_Usage response) <=? 0 then reported
                      else InputTokens (rsp_Usage response) in
    let charged := wrap64 (reported + wrap64 (unknown * perAttempt)) in
    if (reservedTokens <? charged) || (charged <? reported) then reservedTokens else charged.

Definition set_name (name : string) (c : ToolCall) : ToolCall := mkToolCall (tc_ID c) name (tc_Arguments c).
Definition set_call_id (id : string) (c : ToolCall) : ToolCall := mkToolCall id (tc_Name c) (tc_Arguments c).

Definition providerNamespace : string := "default_api.".

Definition normalizeToolCallNames (r : Runner) (calls : list ToolCall) : list ToolCall :=
  map (fun c =>
    match after (string_bytes providerNamespace) (string_bytes (tc_Name c)) with
    | Some rest => if allowed r (of_bytes rest) then set_name (of_bytes rest) c else c
    | None => c
    end) calls.

(** The first of [base], [base-2], [base-3], ... that is not taken. *)
Fixpoint fresh_id (fuel : nat) (seen : list string) (base candidate : string) (suffix : Z) : string :=
  match fuel with
  | O => candidate
  | S fuel =>
      if existsb (String.eqb candidate) seen
      then fresh_id fuel seen base (String.append base (String.append "-" (pretty suffix))) (suffix + 1)
      else candidate
  end.

Definition call_base (iteration i : Z) : string :=
  String.append "model-call-" (String.append (pretty iteration) (String.append "-" (pretty i))).

(** More candidates than taken identifiers are tried. *)
Fixpoint normalizeToolCallIDs (iteration i : Z) (seen : list string) (calls : list ToolCall)
    : list ToolCall * list string :=
  match calls with
  | [] => ([], seen)
  | c :: tl =>
      let candidate := tc_ID c in
      let id := if bool_decide (candidate = "") || (200 <? len candidate) ||
                   existsb (String.eqb candidate) seen
                then fresh_id (S (length seen)) seen (call_base iteration i) (call_base iteration i) 2
                else candidate in
      let '(tl', seen') := normalizeToolCallIDs iteration (i + 1) (id :: seen) tl in
      (set_call_id id c :: tl', seen')
  end.

Definition isJSONObject (raw : string) : bool :=
  match TrimSpace raw with
  | String c _ as trimmed => (2 <=? len trimmed) && (code c =? 123) && Valid trimmed
  | EmptyString => false
  end.

Definition modelFacingToolError (code message : string) : ToolExecution :=
  mkExecution (Marshal (JObj [("status", JStr "error");
      ("error", JObj [("code", JStr code); ("message", JStr message); ("retryable", JBool false)])]))
    true ToolStatusFailed [] false.

Definition redacted (what : string) : string := Marshal (JObj [("redacted", JStr what)]).

(** What a trace may keep of the model's arguments. *)
Definition trace_arguments (what arguments : string) : string :=
  if (maxToolArgumentBytes <? len arguments) || negb (Valid arguments) then redacted what else arguments.

Definition trace_name (name : string) : string :=
  let n := truncateUTF8 name 100 in if bool_decide (n = "") then "unknown_tool" else n.

Definition tool_message (name id content : string) : Message := mkMessage RoleTool content name id [].

(** A content the model may be shown. *)
Definition content_bad (content : string) : bool :=
  bool_decide (content = "") || (maxToolResultBytes <? len content) || negb (Valid content).

Record skipReason := mkSkip { skip_code : string; skip_message : string }.

Definition skippedAfterHandoff : skipReason := mkSkip "SKIPPED_AFTER_HANDOFF"
  "The call was not executed because this response already triggered a human hand-off.".
Definition skippedAfterProposal : skipReason := mkSkip "SKIPPED_AFTER_PROPOSAL"
  "The call was not executed because this response already proposed an action the customer must confirm. Answer the customer with respond_to_customer and wait for their reply.".

(** ** One turn *)
Section runner.
Context {S : Type} `{Dependencies S} (r : Runner) (turn : TurnRequest).

Definition boundedPersistenceContext : St S Ctx :=
  let+ err := ctx_Err in st_ret (match err with None => TurnContext | Some _ => PersistenceContext end).

Definition toolVersion_of (name : string) : string := toolVersion r name.

(** [executeCustomerResponse]: the tool message, once there is one, and the
    arguments or the error. *)
Definition terminal_result (arguments : result RespondToCustomerArguments) : string :=
  match arguments with
  | Ok a => Marshal (JObj [("data", JObj [("disposition", JStr (Disposition a));
                                          ("message", JStr (rc_Message a))]);
                           ("status", JStr "success")])
  | Err _ => Marshal (JObj [("error", JObj [("code", JStr "INVALID_ARGUMENT");
                 ("message", JStr "The terminal response did not match the required contract.")]);
               ("status", JStr "error")])
  end.

Definition parse_terminal (call : ToolCall) : result RespondToCustomerArguments :=
  if maxToolArgumentBytes <? len (tc_Arguments call)
  then Err (ErrText "terminal response arguments exceed the size limit")
  else ParseRespondToCustomerArguments (tc_Arguments call).

Definition executeCustomerResponse (iteration : Z) (call : ToolCall)
    : St S (option Message * result RespondToCustomerArguments) :=
  let+ startedAt := now in
  let+ err := RecordToolExecutionStarted TurnContext
    (mkStarted (RunID turn) (trq_ConversationID turn) iteration 1 1 (tc_ID call) ToolRespondToCustomer
       (toolVersion_of ToolRespondToCustomer)
       (trace_arguments "invalid or oversized terminal arguments" (tc_Arguments call)) startedAt) in
  match err with
  | Some e => st_ret (None, Err (ErrWrap "agent: persist terminal response parent trace" e))
  | None =>
      let parsed := parse_terminal call in
      let message := tool_message ToolRespondToCustomer (tc_ID call) (terminal_result parsed) in
      let+ finishedAt := now in
      let+ ctx := boundedPersistenceContext in
      let+ err := RecordToolExecutionCompleted ctx
        (mkCompleted (RunID turn) (trq_ConversationID turn) iteration 1 (tc_ID call)
           ToolRespondToCustomer (toolVersion_of ToolRespondToCustomer) startedAt finishedAt
           (if is_ok parsed then ToolStatusSucceeded else ToolStatusFailed)
           (terminal_result parsed) 0) in
      match err, parsed with
      | Some e, _ => st_ret (Some message, Err (ErrWrap "agent: persist terminal response completion trace" e))
      | None, Err _ => st_ret (Some message, Err (ErrWrap "invalid respond_to_customer arguments" ErrTerminalProtocol))
      | None, Ok arguments =>
          let+ err := ctx_Err in
          st_ret (Some message, match err with Some e => Err (turnContextError e) | None => Ok arguments end)
      end
  end.

(** ** Executing one tool call *)
Definition failed_if (b : bool) : string := if b then ToolStatusFailed else ToolStatusSucceeded.

(** The call reaches the executor only when its name is registered and its
    arguments are one JSON object; the flag says whether it did. *)
Definition invoke (iteration callIndex callCount : Z) (call : ToolCall)
    : St S (ToolExecution * bool) :=
  if negb (allowed r (tc_Name call)) then
    st_ret (modelFacingToolError "TOOL_NOT_ALLOWED" "That tool is not available for this agent.", false)
  else if (maxToolArgumentBytes <? len (tc_Arguments call)) || negb (isJSONObject (tc_Arguments call)) then
    st_ret (modelFacingToolError "INVALID_ARGUMENT" "Tool arguments must be a valid JSON object.", false)
  else match executor with
       | None => st_ret (modelFacingToolError "TOOL_UNAVAILABLE" "The tool is temporarily unavailable.", false)
       | Some execute =>
           let+ answer := execute (mkToolRequest (RunID turn) (trq_ConversationID turn) iteration
                                     callIndex callCount call) in
           let (execution, err) := (answer : ToolExecution * option error) in
           st_ret (match err with
                   | Some _ => mkExecution
                       (ex_Content (modelFacingToolError "TOOL_EXECUTION_FAILED" "The tool could not be executed."))
                       true ToolStatusFailed (Attempts execution) (SideEffectCommitted execution)
                   | None => execution
                   end, true)
       end.

(** A result the model may not be shown is replaced; what happened is kept. *)
Definition checked (execution : ToolExecution) : ToolExecution :=
  if content_bad (ex_Content execution) then
    let bad := modelFacingToolError "INVALID_TOOL_RESULT" "The tool returned an invalid result." in
    mkExecution (ex_Content bad) (IsError bad) (ex_Status bad) (Attempts execution)
      (SideEffectCommitted execution)
  else execution.

Definition known_status (s : string) : bool :=
  existsb (String.eqb s) [ToolStatusSucceeded; ToolStatusFailed; ToolStatusRefused;
                          ToolStatusConfirmationRequired].

Definition status_of (execution : ToolExecution) : string :=
  if known_status (ex_Status execution) then ex_Status execution else failed_if (IsError execution).

Definition attempts_of (invoked : bool) (startedAt finishedAt : Time) (execution : ToolExecution)
    : list ToolAttempt :=
  match Attempts execution with
  | [] => if invoked
          then [mkAttempt startedAt finishedAt (failed_if (IsError execution)) (ex_Content execution)]
          else []
  | l => l
  end.

Definition default_time (d t : Time) : Time := if IsZero t then d else t.

Fixpoint record_attempts (ctx : Ctx) (iteration callIndex attemptNo : Z) (call : ToolCall)
    (startedAt finishedAt : Time) (isError : bool) (l : list ToolAttempt) : St S (option error) :=
  match l with
  | [] => st_ret None
  | attempt :: tl =>
      let status := if bool_decide (at_Status attempt = ToolStatusSucceeded) ||
                       bool_decide (at_Status attempt = ToolStatusFailed)
                    then at_Status attempt else failed_if isError in
      let detail := if content_bad (at_Detail attempt) then "null" else at_Detail attempt in
      let+ err := RecordToolAttempt ctx
        (mkAttemptTrace (RunID turn) (trq_ConversationID turn) iteration callIndex (tc_ID call)
           (trace_name (tc_Name call)) (toolVersion_of (tc_Name call)) attemptNo
           (default_time startedAt (at_StartedAt attempt))
           (default_time finishedAt (at_FinishedAt attempt)) status detail) in
      match err with
      | Some e => st_ret (Some e)
      | None => record_attempts ctx iteration callIndex (attemptNo + 1) call startedAt finishedAt isError tl
      end
  end.

(** The outcome of one call: the message, the status, whether a side effect was
    committed, and the error that ends the turn. *)
Record CallOutcome := mkOutcome {
  oc_Message : Message; oc_Status : string; oc_Committed : bool; oc_Err : option error
}.

Definition started_trace (iteration callIndex callCount : Z) (call : ToolCall) (startedAt : Time)
    : ToolExecutionStartedTrace :=
  mkStarted (RunID turn) (trq_ConversationID turn) iteration callIndex callCount (tc_ID call)
    (trace_name (tc_Name call)) (toolVersion_of (tc_Name call))
    (trace_arguments "invalid or oversized tool arguments" (tc_Arguments call)) startedAt.

Definition completed_trace (iteration callIndex : Z) (call : ToolCall) (startedAt finishedAt : Time)
    (status content : string) (count : Z) : ToolExecutionCompletedTrace :=
  mkCompleted (RunID turn) (trq_ConversationID turn) iteration callIndex (tc_ID call)
    (trace_name (tc_Name call)) (toolVersion_of (tc_Name call)) startedAt finishedAt status content count.

Definition executeTool (iteration callIndex callCount : Z) (call : ToolCall) : St S CallOutcome :=
  let+ startedAt := now in
  let+ err := RecordToolExecutionStarted TurnContext
    (started_trace iteration callIndex callCount call startedAt) in
  match err with
  | Some e => st_ret (mkOutcome zero_message "" false (Some (ErrWrap "agent: persist tool parent trace" e)))
  | None =>
      let+ answer := invoke iteration callIndex callCount call in
      let (raw, invoked) := (answer : ToolExecution * bool) in
      let+ finishedAt := now in
      let execution := checked raw in
      let status := status_of execution in
      let message := tool_message (tc_Name call) (tc_ID call) (ex_Content execution) in
      let outcome := mkOutcome message status (SideEffectCommitted execution) in
      let attempts := attempts_of invoked startedAt finishedAt execution in
      let+ ctx := boundedPersistenceContext in
      let+ err := record_attempts ctx iteration callIndex 1 call startedAt finishedAt
                    (IsError execution) attempts in
      match err with
      | Some e => st_ret (outcome (Some (ErrWrap "agent: persist tool attempt trace" e)))
      | None =>
          let+ err := RecordToolExecutionCompleted ctx
            (completed_trace iteration callIndex call startedAt finishedAt status
               (ex_Content execution) (Z.of_nat (length attempts))) in
          match err with
          | Some e => st_ret (outcome (Some (ErrWrap "agent: persist tool completion trace" e)))
          | None =>
              let+ err := ctx_Err in
              st_ret (outcome (option_map turnContextError err))
          end
      end
  end.

Definition recordSkippedTool (iteration callIndex callCount : Z) (call : ToolCall) (skip : skipReason)
    : St S (result Message) :=
  let+ startedAt := now in
  let+ err := RecordToolExecutionStarted TurnContext
    (started_trace iteration callIndex callCount call startedAt) in
  match err with
  | Some e => st_ret (Err (ErrWrap "agent: persist skipped tool parent trace" e))
  | None =>
      let execution := modelFacingToolError (skip_code skip) (skip_message skip) in
      let+ finishedAt := now in
      let+ err := RecordToolExecutionCompleted TurnContext
        (completed_trace iteration callIndex call startedAt finishedAt ToolStatusRefused
           (ex_Content execution) 0) in
      st_ret (match err with
              | Some e => Err (ErrWrap "agent: persist skipped tool completion trace" e)
              | None => Ok (tool_message (tc_Name call) (tc_ID call) (ex_Content execution))
              end)
  end.

(** ** The batch of one model response *)
Record BatchState := mkBatch {
  ba_Result : TurnResult; ba_Skip : option skipReason; ba_Handoff : bool; ba_Pending : bool
}.

(** [history = append(history, m); result.Messages = cloneMessages(history)]:
    the two lists agree wherever the source looks at them. *)
Definition say (m : Message) (t : TurnResult) : TurnResult := set_Messages (tr_Messages t ++ [m]) t.

(** What the status of an executed call means for the rest of the batch. *)
Definition settle_call (call : ToolCall) (o : CallOutcome) (b : BatchState) : BatchState :=
  let b := if bool_decide (oc_Status o = ToolStatusRefused)
           then mkBatch (set_Refused (ba_Result b)) (Some skippedAfterHandoff) true (ba_Pending b) else b in
  let b := if bool_decide (oc_Status o = ToolStatusSucceeded) && bool_decide (tc_Name call = ToolEscalate)
           then mkBatch (set_Escalated (ba_Result b)) (Some skippedAfterHandoff) true (ba_Pending b) else b in
  let b := if bool_decide (oc_Status o = ToolStatusConfirmationRequired)
           then mkBatch (ba_Result b) (Some skippedAfterProposal) (ba_Handoff b) true else b in
  mkBatch (say (oc_Message o) (ba_Result b)) (ba_Skip b) (ba_Handoff b) (ba_Pending b).

Fixpoint run_batch (iteration callIndex callCount : Z) (calls : list ToolCall) (b : BatchState)
    : St S (BatchState * option error) :=
  match calls with
  | [] => st_ret (b, None)
  | call :: tl =>
      let+ err := ctx_Err in
      match err with
      | Some e => st_ret (b, Some (turnContextError e))
      | None =>
          match ba_Skip b with
          | Some skip =>
              let+ skipped := recordSkippedTool iteration callIndex callCount call skip in
              match skipped with
              | Err e => st_ret (b, Some e)
              | Ok m => run_batch iteration (callIndex + 1) callCount tl
                          (mkBatch (say m (ba_Result b)) (ba_Skip b) (ba_Handoff b) (ba_Pending b))
              end
          | None =>
              let+ o := executeTool iteration callIndex callCount call in
              let b := if oc_Committed o && bool_decide (tc_Name call = ToolCreateBooking)
                       then mkBatch (set_Committed (ba_Result b)) (ba_Skip b) (ba_Handoff b) (ba_Pending b)
                       else b in
              match oc_Err o with
              | Some e => st_ret (b, Some e)
              | None => run_batch iteration (callIndex + 1) callCount tl (settle_call call o b)
              end
          end
      end
  end.

(** ** The model call *)
Definition model_call (iteration : Z) (history : list Message) : St S (result Response) :=
  let request := mkRequest history (tools r) ToolChoiceAuto (MaxOutputTokensPerCall (config r)) in
  match Estimate request with
  | Err e => st_ret (Err (ErrWrap "agent: estimate model tokens" e))
  | Ok reservedTokens =>
      let+ reserved := Reserve (trq_ConversationID turn) reservedTokens in
      match reserved with
      | Err e => st_ret (Err e)
      | Ok reservation =>
          let+ modelStarted := now in
          let+ answer := Complete request in
          let (response, modelErr) := (answer : Response * option error) in
          let+ modelFinished := now in
          let+ held := (fun s => (ReservedTokens reservation s, s)) in
          let chargedTokens := chargeForModelCall response modelErr held in
          let+ ctx := boundedPersistenceContext in
          let+ settleErr := Settle ctx reservation chargedTokens in
          match settleErr with
          | Some e => st_ret (Err (ErrWrap "agent: settle token reservation" e))
          | None =>
              let+ ctx := boundedPersistenceContext in
              let+ err := RecordModelCall ctx
                (mkModelCall (RunID turn) (trq_ConversationID turn) iteration modelStarted modelFinished
                   (rsp_Model response) (FinishReason response) (rsp_Usage response) reservedTokens
                   chargedTokens (Z.of_nat (length (ToolCalls (rsp_Message response))))
                   (match modelErr with None => ModelCallSucceeded | Some _ => ModelCallFailed end)
                   (match modelErr with None => "" | Some e => truncateUTF8 (Error e) 2000 end)) in
              match err, modelErr with
              | Some e, _ => st_ret (Err (ErrWrap "agent: persist model trace" e))
              | None, None => st_ret (Ok response)
              | None, Some e =>
                  let+ ctx_err := ctx_Err in
                  st_ret (Err (match ctx_err with
                               | Some c => turnContextError c
                               | None => ErrWrap "agent: model completion" e
                               end))
              end
          end
      end
  end.

(** ** Iterations *)
Record TurnState := mkTurnState {
  ts_Result : TurnResult; ts_Used : list string; ts_Corrections : Z; ts_Pending : bool
}.

Inductive Step := Stop (result : TurnResult) (err : option error) | Next (state : TurnState).

Definition handoffMessage (t : TurnResult) : string :=
  if ToolRefused t && negb (HumanEscalated t)
  then "I couldn’t perform that action safely, so I’ve handed this conversation to a person."
  else "I’ve handed this conversation to a person. The automated agent will not take further actions.".

Definition assistant (content : string) : Message := mkMessage RoleAssistant content "" "" [].
Definition user (content : string) : Message := mkMessage RoleUser content "" "" [].

(** Another correction, while they last. *)
Definition correct (iteration : Z) (correction : string) (st : TurnState) (msg : string) : Step :=
  let corrections := ts_Corrections st + 1 in
  if (maxProtocolCorrections <? corrections) || (iteration =? MaxIterations (config r))
  then Stop (ts_Result st) (Some (ErrWrap msg ErrTerminalProtocol))
  else Next (mkTurnState (say (user correction) (ts_Result st)) (ts_Used st) corrections (ts_Pending st)).

Definition is_terminal (call : ToolCall) : bool := bool_decide (tc_Name call = ToolRespondToCustomer).

(** The response holds the terminal call: it must be alone. *)
Definition respond (iteration : Z) (m : Message) (res : TurnResult) : St S Step :=
  match ToolCalls m with
  | [call] =>
      if negb (blank (Content m)) then
        st_ret (Stop res (Some (ErrWrap "terminal call cannot include separate assistant content" ErrTerminalProtocol)))
      else
        let+ answer := executeCustomerResponse iteration call in
        let (message, arguments) := (answer : option Message * result RespondToCustomerArguments) in
        let res := match message with Some tm => say tm res | None => res end in
        st_ret (match arguments with
                | Err e => Stop res (Some e)
                | Ok a =>
                    let res := set_Message (assistant (rc_Message a)) res in
                    let res := set_Response (Disposition a) (tc_ID call) res in
                    Stop (say (assistant (rc_Message a)) res) None
                end)
  | _ => st_ret (Stop res (Some (ErrWrap "terminal call must be the only tool call in its response" ErrTerminalProtocol)))
  end.

Definition run_tools (iteration : Z) (calls : list ToolCall) (st : TurnState) : St S Step :=
  let+ answer := run_batch iteration 1 (Z.of_nat (length calls)) calls
                   (mkBatch (ts_Result st) None false (ts_Pending st)) in
  let (b, err) := (answer : BatchState * option error) in
  st_ret (match err with
          | Some e => Stop (ba_Result b) (Some e)
          | None =>
              if ba_Handoff b then
                let m := assistant (handoffMessage (ba_Result b)) in
                Stop (say m (set_Message m (ba_Result b))) None
              else Next (mkTurnState (ba_Result b) (ts_Used st) (ts_Corrections st) (ba_Pending b))
          end).

(** The assistant's message as it enters the history. *)
Definition assistant_message (iteration : Z) (m : Message) (used : list string) : Message * list string :=
  let role := if bool_decide (Role m = "") then RoleAssistant else Role m in
  let '(calls, used') := normalizeToolCallIDs iteration 1 used (normalizeToolCallNames r (ToolCalls m)) in
  (mkMessage role (Content m) (msg_Name m) (ToolCallID m) calls, used').

Definition iterate (iteration : Z) (st : TurnState) : St S Step :=
  let+ err := ctx_Err in
  match err with
  | Some e => st_ret (Stop (ts_Result st) (Some (turnContextError e)))
  | None =>
      let+ completed := model_call iteration (tr_Messages (ts_Result st)) in
      match completed with
      | Err e => st_ret (Stop (ts_Result st) (Some e))
      | Ok response =>
          let res := set_Call iteration (addUsage (tr_Usage (ts_Result st)) (rsp_Usage response))
                       (ts_Result st) in
          if negb (bool_decide (Role (rsp_Message response) = "")) &&
             negb (bool_decide (Role (rsp_Message response) = RoleAssistant))
          then st_ret (Stop res (Some (ErrText "agent: model returned another role")))
          else
            let '(m, used) := assistant_message iteration (rsp_Message response) (ts_Used st) in
            let res := say m res in
            let st := mkTurnState res used (ts_Corrections st) (ts_Pending st) in
            if bool_decide (ToolCalls m = []) then
              st_ret (correct iteration protocolCorrection st "model returned no terminal call")
            else if existsb is_terminal (ToolCalls m) then respond iteration m res
            else if ts_Pending st then
              st_ret (correct iteration proposalCorrection st "model kept calling tools after a proposal")
            else if iteration =? MaxIterations (config r) then st_ret (Stop res (Some ErrIterationLimit))
            else run_tools iteration (ToolCalls m) st
      end
  end.

(** The loop runs for the iterations that are left. *)
Fixpoint iterations (remaining : nat) (iteration : Z) (st : TurnState) : St S (TurnResult * option error) :=
  match remaining with
  | O => st_ret (ts_Result st, Some ErrIterationLimit)
  | Datatypes.S remaining =>
      let+ step := iterate iteration st in
      match step with
      | Stop res err => st_ret (res, err)
      | Next st => iterations remaining (iteration + 1) st
      end
  end.

Definition Run : St S (TurnResult * option error) :=
  if bool_decide (trq_ConversationID turn = "") then
    st_ret (zero_result, Some (ErrText "agent: conversation ID is required"))
  else iterations (Z.to_nat (MaxIterations (config r))) 1
         (mkTurnState (set_Messages (trq_Messages turn) zero_result) [] 0 false).
End runner.
