(* ===== verification/RunnerProps.v ===== *)
(** * Properties of the agent's turns

    The limits of a turn and its token accounting, what may reach the tool
    executor and when nothing more may, and where a reply to the customer comes
    from; for every model, executor, budget, trace and clock.

    Dependencies that write down what the runner asks of them, and the log of
    each part of a turn. *)

From Stdlib Require Import ZArith Lia Ascii.
From stdpp Require Import base list strings pretty.
From S2P Require Import Prelude State GoTime Json JsonParse LLM Validation Runner.

#[local] Open Scope Z_scope.

(** ** Logged dependencies *)
Inductive event : Type :=
| EvReserve (tokens : Z) (granted : option nat)
| EvComplete (request : Request) (response : Response) (err : option error)
| EvSettle (reservation : nat) (tokens : Z)
| EvStarted (trace : ToolExecutionStartedTrace) (ok : bool)
| EvExecute (request : ToolRequest) (execution : ToolExecution) (err : option error).

Definition granted (x : result nat) : option nat := match x with Ok h => Some h | Err _ => None end.
Definition accepted (x : option error) : bool := match x with None => true | Some _ => false end.

#[global] Instance logged {S} (D : Dependencies S) : Dependencies (S * list event) := {|
  ctx_Err := silent ctx_Err;
  now := silent now;
  Error := Error;
  Estimate := Estimate;
  Reserve conv tokens := noting (fun x => [EvReserve tokens (granted x)]) (Reserve conv tokens);
  ReservedTokens h s := ReservedTokens h s.1;
  Settle ctx h tokens := noting (fun _ => [EvSettle h tokens]) (Settle ctx h tokens);
  Complete request := noting (fun x => [EvComplete request x.1 x.2]) (Complete request);
  executor := option_map (fun execute request =>
    noting (fun x : ToolExecution * option error => [EvExecute request x.1 x.2]) (execute request)) executor;
  RecordModelCall ctx t := silent (RecordModelCall ctx t);
  RecordToolExecutionStarted ctx t :=
    noting (fun x => [EvStarted t (accepted x)]) (RecordToolExecutionStarted ctx t);
  RecordToolAttempt ctx t := silent (RecordToolAttempt ctx t);
  RecordToolExecutionCompleted ctx t := silent (RecordToolExecutionCompleted ctx t)
|}.

(** ** Reading the log *)
(** The executed calls, each with the status the runner derives for it. *)
Definition raw_execution (x : ToolExecution) (err : option error) : ToolExecution :=
  match err with
  | Some _ => mkExecution
      (ex_Content (modelFacingToolError "TOOL_EXECUTION_FAILED" "The tool could not be executed."))
      true ToolStatusFailed (Attempts x) (SideEffectCommitted x)
  | None => x
  end.

Fixpoint executed (l : list event) : list (ToolRequest * string) :=
  match l with
  | [] => []
  | EvExecute q x err :: tl => (q, status_of (checked (raw_execution x err))) :: executed tl
  | _ :: tl => executed tl
  end.

Lemma executed_app l1 l2 : executed (l1 ++ l2) = executed l1 ++ executed l2.
Proof. induction l1 as [|[] l1 IH]; simpl; rewrite ?IH; done. Qed.

Fixpoint completions (l : list event) : nat :=
  match l with
  | [] => 0
  | EvComplete _ _ _ :: tl => Datatypes.S (completions tl)
  | _ :: tl => completions tl
  end.

Lemma completions_app l1 l2 : completions (l1 ++ l2) = (completions l1 + completions l2)%nat.
Proof. induction l1 as [|[] l1 IH]; simpl; rewrite ?IH; done. Qed.

(** The life of a token reservation: granted, spent on one model call, settled. *)
Inductive phase := Idle | Granted (h : nat) | Spent (h : nat).

Definition bill (p : phase) (e : event) : option phase :=
  match e, p with
  | EvReserve _ None, Idle => Some Idle
  | EvReserve _ (Some h), Idle => Some (Granted h)
  | EvComplete _ _ _, Granted h => Some (Spent h)
  | EvSettle h' _, Spent h => if Nat.eqb h' h then Some Idle else None
  | EvStarted _ _, Idle | EvExecute _ _ _, Idle => Some Idle
  | _, _ => None
  end.

Fixpoint bills (p : phase) (l : list event) : option phase :=
  match l with
  | [] => Some p
  | e :: tl => match bill p e with Some p' => bills p' tl | None => None end
  end.

Lemma bills_app p l1 l2 :
  bills p (l1 ++ l2) = match bills p l1 with Some p' => bills p' l2 | None => None end.
Proof. revert p. induction l1 as [|e l1 IH]; intros p; simpl; [done|]. by destruct (bill p e). Qed.

Definition tool_event (e : event) : bool :=
  match e with EvStarted _ _ | EvExecute _ _ _ => true | _ => false end.

Lemma bills_tools l : forallb tool_event l = true -> bills Idle l = Some Idle /\ completions l = 0%nat.
Proof. induction l as [|[] l IH]; simpl; try done; auto. Qed.

(** Outcomes after which nothing more may run. *)
Definition stopping (name status : string) : bool :=
  bool_decide (status = ToolStatusRefused) || bool_decide (status = ToolStatusConfirmationRequired) ||
  (bool_decide (status = ToolStatusSucceeded) && bool_decide (name = ToolEscalate)).

Definition stops (x : ToolRequest * string) : bool := stopping (tc_Name (tq_Call x.1)) x.2.

Fixpoint quiet (l : list (ToolRequest * string)) : Prop :=
  match l with
  | [] => True
  | x :: tl => if stops x then tl = [] else quiet tl
  end.

Definition unstopped (l : list (ToolRequest * string)) : Prop := Forall (fun x => stops x = false) l.

Lemma quiet_app l1 l2 : unstopped l1 -> quiet l2 -> quiet (l1 ++ l2).
Proof. induction 1 as [|x l1 Hx _ IH]; simpl; [done|]. rewrite Hx. auto. Qed.

Lemma quiet_nil_r l : quiet l -> quiet (l ++ []).
Proof. by rewrite app_nil_r. Qed.

(** A call reaches the executor only after its parent record was accepted. *)
Fixpoint announced (prev : option ToolExecutionStartedTrace) (l : list event) : Prop :=
  match l with
  | [] => True
  | EvStarted t true :: tl => announced (Some t) tl
  | EvExecute q _ _ :: tl =>
      (exists t, prev = Some t /\ ts_CallID t = tc_ID (tq_Call q) /\
         ts_Iteration t = tq_Iteration q /\ ts_CallIndex t = tq_CallIndex q) /\ announced None tl
  | _ :: tl => announced None tl
  end.

Lemma announced_any p l : announced None l -> announced p l.
Proof. destruct l as [|[] l]; simpl; try done. by intros [(? & ? & _) _]. Qed.

Lemma announced_app p l1 l2 : announced p l1 -> announced None l2 -> announced p (l1 ++ l2).
Proof.
  intros H1 H2. revert p H1. induction l1 as [|e l1 IH]; intros p H1; simpl in *; [by apply announced_any|].
  destruct e as [| | |t []|]; try by apply IH. destruct H1 as [He H1]. split; [done|by apply IH].
Qed.

Section specs.
Context {S : Type} (D : Dependencies S) (r : Runner) (turn : TurnRequest).

Lemma emits_bounded : emits boundedPersistenceContext (fun _ new => new = []).
Proof. apply emits_quiet; [apply emits_silent|]. intros a. by apply emits_ret. Qed.

Lemma emits_attempts ctx i c n call s f e l :
  emits (record_attempts r turn ctx i c n call s f e l) (fun _ new => new = []).
Proof.
  revert n. induction l as [|a l IH]; intros n; simpl; [by apply emits_ret|].
  apply emits_quiet; [apply emits_silent|]. intros [err|]; [by apply emits_ret|apply IH].
Qed.

Ltac step :=
  lazymatch goal with
  | |- emits (st_ret _) _ => apply emits_ret
  | |- emits (st_bind now _) _ => apply emits_quiet; [apply emits_silent|intros ?]
  | |- emits (st_bind ctx_Err _) _ => apply emits_quiet; [apply emits_silent|intros ?]
  | |- emits (st_bind (RecordToolExecutionCompleted _ _) _) _ =>
      apply emits_quiet; [apply emits_silent|intros ?]
  | |- emits (st_bind (RecordModelCall _ _) _) _ => apply emits_quiet; [apply emits_silent|intros ?]
  | |- emits (st_bind boundedPersistenceContext _) _ => apply emits_quiet; [apply emits_bounded|intros ?]
  | |- emits (st_bind (record_attempts _ _ _ _ _ _ _ _ _ _ _) _) _ =>
      apply emits_quiet; [apply emits_attempts|intros ?]
  | |- emits (st_bind (RecordToolExecutionStarted _ _) _) _ => apply emits_noted; intros ?
  | |- emits (match ?x with _ => _ end) _ => destruct x eqn:?
  end.

Definition request_of (iteration callIndex callCount : Z) (call : ToolCall) : ToolRequest :=
  mkToolRequest (RunID turn) (trq_ConversationID turn) iteration callIndex callCount call.

(** The checks a call passes before the executor sees it. *)
Definition admissible (call : ToolCall) : Prop :=
  allowed r (tc_Name call) = true /\ len (tc_Arguments call) <= maxToolArgumentBytes /\
  isJSONObject (tc_Arguments call) = true.

Lemma status_error c m : status_of (checked (modelFacingToolError c m)) = ToolStatusFailed.
Proof. unfold checked. by destruct (content_bad _). Qed.

Lemma stopping_failed name : stopping name ToolStatusFailed = false.
Proof. reflexivity. Qed.

Lemma invoke_log i ci cc call :
  emits (invoke r turn i ci cc call) (fun x new =>
    if x.2 then exists x0 err, new = [EvExecute (request_of i ci cc call) x0 err] /\
                  x.1 = raw_execution x0 err /\ admissible call
    else new = [] /\ status_of (checked x.1) = ToolStatusFailed).
Proof.
  unfold invoke. destruct (negb (allowed _ _)) eqn:Ha.
  { apply emits_ret. split; [done|apply status_error]. }
  destruct (_ || _) eqn:Hargs; [apply emits_ret; split; [done|apply status_error]|].
  unfold executor, logged. destruct (@executor _ D) as [execute|]; simpl.
  - apply emits_noted. intros [x0 err]. apply emits_ret. simpl. exists x0, err.
    bool_to_prop. split; [done|]. split; [by destruct err|done].
  - apply emits_ret. split; [done|apply status_error].
Qed.

Lemma executeTool_log i ci cc call :
  emits (executeTool r turn i ci cc call) (fun o new =>
    forallb tool_event new = true /\ announced None new /\
    ((executed new = [] /\ stopping (tc_Name call) (oc_Status o) = false) \/
     (executed new = [(request_of i ci cc call, oc_Status o)] /\ admissible call))).
Proof.
  unfold executeTool. step. step. step; [step; simpl; auto|].
  eapply emits_bind; [apply invoke_log|]. intros [x invoked] n1 Hn1. simpl in Hn1.
  cbv beta zeta iota. step. step.
  assert (Hspec : forall o : CallOutcome, oc_Status o = status_of (checked x) ->
    let new := [EvStarted (started_trace r turn i ci cc call a) true] ++ n1 ++ [] in
    forallb tool_event new = true /\ announced None new /\
    ((executed new = [] /\ stopping (tc_Name call) (oc_Status o) = false) \/
     (executed new = [(request_of i ci cc call, oc_Status o)] /\ admissible call))).
  { intros o ->. destruct invoked.
    - destruct Hn1 as (x0 & err & -> & -> & Hadm). simpl. repeat split; [|by right].
      by eexists.
    - destruct Hn1 as [-> ->]. simpl. auto. }
  repeat step; by apply Hspec.
Qed.

Lemma settle_stopping call o b :
  stopping (tc_Name call) (oc_Status o) = true ->
  ba_Skip (settle_call call o b) <> None /\
  (ba_Handoff (settle_call call o b) = true \/ ba_Pending (settle_call call o b) = true).
Proof.
  unfold stopping, settle_call. cbv zeta. intros Hs.
  repeat case_bool_decide; simplify_eq/=; try done; auto.
Qed.

Lemma settle_keeps call o b :
  (ba_Handoff b = true -> ba_Handoff (settle_call call o b) = true) /\
  (ba_Pending b = true -> ba_Pending (settle_call call o b) = true).
Proof. unfold settle_call. cbv zeta. repeat case_bool_decide; simplify_eq/=; done. Qed.

(** The calls of [calls] that one iteration executed. *)
Definition from_batch (i : Z) (calls : list ToolCall) (x : ToolRequest * string) : Prop :=
  tq_Iteration x.1 = i /\ tq_Call x.1 ∈ calls /\ admissible (tq_Call x.1).

Record batch_spec (i : Z) (calls : list ToolCall) (b : BatchState) (x : BatchState * option error)
    (new : list event) : Prop := {
  bs_tools : forallb tool_event new = true;
  bs_announced : announced None new;
  bs_quiet : quiet (executed new);
  bs_skip : ba_Skip b <> None -> executed new = [];
  bs_stopped : x.2 = None ->
    unstopped (executed new) \/ ba_Handoff x.1 = true \/ ba_Pending x.1 = true;
  bs_handoff : ba_Handoff b = true -> ba_Handoff x.1 = true;
  bs_pending : ba_Pending b = true -> ba_Pending x.1 = true;
  bs_from : Forall (from_batch i calls) (executed new)
}.

Lemma batch_nil i calls b b' err :
  (ba_Handoff b = true -> ba_Handoff b' = true) -> (ba_Pending b = true -> ba_Pending b' = true) ->
  batch_spec i calls b (b', err) [].
Proof. intros. split; simpl; try done. left. constructor. Qed.

Lemma from_batch_cons i call calls l :
  Forall (from_batch i calls) l -> Forall (from_batch i (call :: calls)) l.
Proof. intros Hl. eapply Forall_impl; [exact Hl|]. intros x (? & ? & ?). split; [done|]. split; [by right|done]. Qed.

(** One skipped call, then the rest. *)
Lemma skipped_log i ci cc call skip :
  emits (recordSkippedTool r turn i ci cc call skip) (fun _ new =>
    forallb tool_event new = true /\ announced None new /\ executed new = []).
Proof. unfold recordSkippedTool. repeat step; by destruct (accepted _). Qed.

Lemma batch_log i ci cc calls b :
  emits (run_batch r turn i ci cc calls b) (batch_spec i calls b).
Proof.
  revert ci b. induction calls as [|call calls IH]; intros ci b; cbn [run_batch].
  { apply emits_ret. by apply batch_nil. }
  step. step; [step; by apply batch_nil|].
  destruct (ba_Skip b) as [skip|] eqn:Hskip.
  - eapply emits_bind; [apply skipped_log|]. intros [m|e] n1 (Ht1 & Ha1 & He1); [|apply emits_ret].
    + eapply emits_conseq; [apply IH|]. intros x n2 Hs.
      assert (Hn2 : executed n2 = []) by (apply (bs_skip _ _ _ _ _ Hs); simpl; congruence).
      assert (Hn : executed (n1 ++ n2) = []) by by rewrite executed_app, He1, Hn2.
      destruct Hs. split; rewrite ?Hn; try done; simpl.
      * rewrite forallb_app, Ht1. done.
      * by apply announced_app.
      * left. constructor.
    + split; rewrite ?app_nil_r, ?He1; done.
  - eapply emits_bind; [apply executeTool_log|]. intros o n1 (Ht1 & Ha1 & He1). cbv zeta.
    set (b1 := if oc_Committed o && _ then _ else b).
    assert (Hb1 : ba_Handoff b1 = ba_Handoff b /\ ba_Pending b1 = ba_Pending b /\ ba_Skip b1 = None).
    { unfold b1. by destruct (_ && _). }
    destruct Hb1 as (Hh & Hp & Hs1).
    assert (Hfrom : Forall (from_batch i (call :: calls)) (executed n1)).
    { destruct He1 as [[-> _]|[-> Hadm]]; [constructor|]. apply Forall_singleton.
      split; [done|]. split; [by left|done]. }
    assert (Hq1 : quiet (executed n1)).
    { destruct He1 as [[-> _]|[-> _]]; simpl; [done|]. by destruct (stops _). }
    step.
    { apply emits_ret. rewrite app_nil_r. split; simpl; try done; by rewrite ?Hh, ?Hp. }
    eapply emits_conseq; [apply IH|]. intros x n2 Hs.
    destruct (settle_keeps call o b1) as [Hk1 Hk2]. rewrite Hh in Hk1. rewrite Hp in Hk2.
    assert (Hcase : (stopping (tc_Name call) (oc_Status o) = true /\ executed n2 = []) \/
                    unstopped (executed n1)).
    { destruct (stopping (tc_Name call) (oc_Status o)) eqn:Hst.
      - left. split; [done|]. apply (bs_skip _ _ _ _ _ Hs). by apply settle_stopping.
      - right. destruct He1 as [[-> _]|[-> _]]; [constructor|]. by apply Forall_singleton. }
    destruct Hs as [Ht2 Ha2 Hq2 Hsk2 Hst2 Hh2 Hp2 Hf2]. split.
    + by rewrite forallb_app, Ht1.
    + by apply announced_app.
    + rewrite executed_app. destruct Hcase as [[_ ->]|Hu]; [by rewrite app_nil_r|by apply quiet_app].
    + by rewrite Hskip.
    + intros Hx. destruct Hcase as [[Hst _]|Hu].
      * right. destruct (settle_stopping call o b1 Hst) as [_ [Hb|Hb]]; auto.
      * rewrite executed_app. destruct (Hst2 Hx) as [Hu2|Ho]; [|by right].
        left. by apply Forall_app.
    + auto.
    + auto.
    + rewrite executed_app. apply Forall_app. split; [done|by apply from_batch_cons].
Qed.

(** What a model call is charged is positive: no settlement reports negative usage. *)
Lemma charge_positive response err held : 0 < held -> 0 < chargeForModelCall response err held.
Proof.
  intros Hh. unfold chargeForModelCall. destruct (_ || _) eqn:E; [done|]. bool_to_prop. destruct (negb _); [done|].
  destruct ((held <? _) || _) eqn:Ec; [done|]. bool_to_prop. lia.
Qed.

Lemma model_log i history :
  emits (model_call r turn i history) (fun _ new =>
    bills Idle new = Some Idle /\ (completions new <= 1)%nat /\ announced None new /\ executed new = []).
Proof.
  unfold model_call. cbv zeta. destruct (Estimate _) as [tokens|e]; [|step; simpl; auto].
  apply emits_noted. intros [h|e]; [|step; simpl; auto]. step.
  apply emits_noted. intros [response err]. cbv beta iota. step.
  apply emits_quiet; [intros s l; exists []; by rewrite app_nil_r|]. intros held. step.
  apply emits_noted. intros settled.
  assert (Hspec : let new := [EvReserve tokens (granted (Ok h))] ++
      ([EvComplete (mkRequest history (tools r) ToolChoiceAuto (MaxOutputTokensPerCall (config r))) response err] ++
       ([EvSettle h (chargeForModelCall response err held)] ++ [])) in
    bills Idle new = Some Idle /\ (completions new <= 1)%nat /\ announced None new /\ executed new = []).
  { simpl. rewrite Nat.eqb_refl. auto. }
  repeat step; exact Hspec.
Qed.

Lemma terminal_log i call :
  emits (executeCustomerResponse r turn i call) (fun _ new =>
    forallb tool_event new = true /\ announced None new /\ executed new = []).
Proof. unfold executeCustomerResponse. repeat step; by destruct (accepted _). Qed.

(** What one iteration adds to the log. *)
Record iteration_spec (i : Z) (st : TurnState) (x : Step) (new : list event) : Prop := {
  is_bills : bills Idle new = Some Idle;
  is_completions : (completions new <= 1)%nat;
  is_announced : announced None new;
  is_quiet : quiet (executed new);
  is_waiting : ts_Pending st = true ->
    executed new = [] /\ forall st', x = Next st' -> ts_Pending st' = true;
  is_stopped : forall st', x = Next st' -> unstopped (executed new) \/ ts_Pending st' = true;
  is_from : Forall (fun y => tq_Iteration y.1 = i /\ i <> MaxIterations (config r) /\
    admissible (tq_Call y.1) /\ is_terminal (tq_Call y.1) = false) (executed new)
}.

Lemma iteration_silent i st x new :
  bills Idle new = Some Idle -> (completions new <= 1)%nat -> announced None new -> executed new = [] ->
  (forall st', x = Next st' -> ts_Pending st = true -> ts_Pending st' = true) ->
  iteration_spec i st x new.
Proof.
  intros Hb Hc Ha He Hp. split; rewrite ?He; try done; [intros; split; auto|left; constructor].
Qed.

Lemma correct_pending i msg st err st' :
  correct r i msg st err = Next st' -> ts_Pending st' = ts_Pending st.
Proof. unfold correct. destruct (_ || _); [done|]. by intros [= <-]. Qed.

(** A part of an iteration that runs after the model's call. *)
Lemma after_model {A} (m : St (S * list event) A) n0 (P : A -> list event -> Prop) :
  bills Idle n0 = Some Idle -> (completions n0 <= 1)%nat -> announced None n0 -> executed n0 = [] ->
  emits m (fun x new => forallb tool_event new = true /\ announced None new /\ P x new) ->
  emits m (fun x n2 => bills Idle (n0 ++ n2) = Some Idle /\ (completions (n0 ++ n2) <= 1)%nat /\
    announced None (n0 ++ n2) /\ executed (n0 ++ n2) = executed n2 /\ P x n2).
Proof.
  intros Hb Hc Ha He Hm. eapply emits_conseq; [exact Hm|]. intros x n2 (Ht & Ha2 & HP).
  apply bills_tools in Ht as [Hb2 Hc2]. rewrite bills_app, Hb, completions_app, Hc2, executed_app, He.
  repeat split; try done; [lia|by apply announced_app].
Qed.

Lemma respond_log i m res st n0 :
  bills Idle n0 = Some Idle -> (completions n0 <= 1)%nat -> announced None n0 -> executed n0 = [] ->
  emits (respond r turn i m res) (fun x n2 => iteration_spec i st x (n0 ++ n2)).
Proof.
  intros Hb Hc Ha He.
  assert (Hstop : forall res err, iteration_spec i st (Stop res err) (n0 ++ [])).
  { intros. rewrite app_nil_r. by apply iteration_silent. }
  unfold respond. destruct (ToolCalls m) as [|call [|]]; [apply emits_ret, Hstop| |apply emits_ret, Hstop].
  destruct (negb _); [apply emits_ret, Hstop|].
  eapply emits_bind; [apply (after_model _ n0 (fun _ new => executed new = [])); try done; apply terminal_log|].
  intros [tm [a|e]] n1 (Hb1 & Hc1 & Ha1 & He1 & Hn1); apply emits_ret; rewrite app_nil_r;
    (apply iteration_silent; [done..|congruence|done]).
Qed.

Lemma tools_log i calls st n0 :
  bills Idle n0 = Some Idle -> (completions n0 <= 1)%nat -> announced None n0 -> executed n0 = [] ->
  ts_Pending st = false -> i <> MaxIterations (config r) -> existsb is_terminal calls = false ->
  emits (run_tools r turn i calls st) (fun x n2 => iteration_spec i st x (n0 ++ n2)).
Proof.
  intros Hb Hc Ha He Hp Hi Hterm. unfold run_tools.
  set (b0 := mkBatch (ts_Result st) None false (ts_Pending st)).
  eapply emits_bind; [apply (after_model _ n0 (batch_spec i calls b0)); try done|].
  { eapply emits_conseq; [apply batch_log|]. intros x new Hs. split; [apply Hs|]. split; [apply Hs|exact Hs]. }
  intros [b err] n1 (Hb1 & Hc1 & Ha1 & He1 & Hs). apply emits_ret. rewrite app_nil_r.
  split; rewrite ?He1, ?Hp; try done.
  - apply Hs.
  - intros st'. destruct err; [done|]. destruct (ba_Handoff b) eqn:Hh; [done|]. intros [= <-].
    destruct (bs_stopped _ _ _ _ _ Hs eq_refl) as [?|[Hx|?]]; [by left| |by right].
    simpl in Hx. congruence.
  - eapply Forall_impl; [apply (bs_from _ _ _ _ _ Hs)|]. intros x (Hx & Hin & Hadm).
    do 3 (split; [done|]). apply not_true_is_false. intros Ht.
    assert (existsb is_terminal calls = true); [|congruence]. apply existsb_exists.
    exists (tq_Call x.1). by rewrite <- list_elem_of_In.
Qed.

Lemma iterate_log i st : emits (iterate r turn i st) (iteration_spec i st).
Proof.
  unfold iterate. step. step; [step; apply iteration_silent; simpl; auto; done|].
  eapply emits_bind; [apply model_log|]. intros [response|e] n0 (Hb & Hc & Ha & He); cbv zeta;
    [|apply emits_ret; rewrite app_nil_r; by apply iteration_silent].
  destruct (_ && _); [apply emits_ret; rewrite app_nil_r; by apply iteration_silent|].
  destruct (assistant_message _ _ _ _) as [m used]. case_bool_decide as Hcalls.
  { apply emits_ret. rewrite app_nil_r. apply iteration_silent; try done.
    intros st' Hst' Hp. apply correct_pending in Hst'. by rewrite Hst'. }
  destruct (existsb is_terminal _) eqn:Hterm; [by apply respond_log|].
  cbn [ts_Pending]. destruct (ts_Pending st) eqn:Hp.
  { apply emits_ret. rewrite app_nil_r. apply iteration_silent; try done.
    intros st' Hst' _. apply correct_pending in Hst'. by rewrite Hst'. }
  destruct (_ =? _) eqn:Hi; [apply emits_ret; rewrite app_nil_r; by apply iteration_silent|].
  eapply emits_conseq; [apply tools_log; try done; by bool_to_prop|].
  intros x n2 [Hb2 Hc2 Ha2 Hq2 Hw2 Hs2 Hf2]. split; try done. by rewrite Hp.
Qed.

(** The log of a whole turn. *)
Record turn_spec (remaining : nat) (i : Z) (new : list event) : Prop := {
  ts_bills : bills Idle new = Some Idle;
  ts_completions : (completions new <= remaining)%nat;
  ts_announced : announced None new;
  ts_quiet : quiet (executed new);
  ts_from : Forall (fun y => i <= tq_Iteration y.1 < MaxIterations (config r) /\
    admissible (tq_Call y.1) /\ is_terminal (tq_Call y.1) = false) (executed new)
}.

Lemma iterations_log n i st :
  i + Z.of_nat n = MaxIterations (config r) + 1 ->
  emits (iterations r turn n i st) (fun _ new =>
    turn_spec n i new /\ (ts_Pending st = true -> executed new = [])).
Proof.
  revert i st. induction n as [|n IH]; intros i st Hn; cbn [iterations].
  { apply emits_ret. split; [split; simpl; auto|done]. }
  eapply emits_bind; [apply iterate_log|]. intros x n1 [Hb1 Hc1 Ha1 Hq1 Hw1 Hs1 Hf1].
  assert (Hf1' : Forall (fun y => i <= tq_Iteration y.1 < MaxIterations (config r) /\
    admissible (tq_Call y.1) /\ is_terminal (tq_Call y.1) = false) (executed n1)).
  { eapply Forall_impl; [exact Hf1|]. intros y (-> & Hne & Hrest). split; [lia|done]. }
  destruct x as [res err|st'].
  - apply emits_ret. rewrite app_nil_r. split; [split; try done; lia|]. intros Hp. by apply Hw1.
  - eapply emits_conseq; [apply IH; lia|]. intros y n2 [[Hb2 Hc2 Ha2 Hq2 Hf2] Hp2]. split.
    + split.
      * by rewrite bills_app, Hb1.
      * rewrite completions_app. lia.
      * by apply announced_app.
      * rewrite executed_app. destruct (Hs1 _ eq_refl) as [Hu|Hp]; [by apply quiet_app|].
        rewrite (Hp2 Hp), app_nil_r. done.
      * rewrite executed_app. apply Forall_app. split; [done|].
        eapply Forall_impl; [exact Hf2|]. intros z [? ?]. split; [lia|done].
    + intros Hp. destruct (Hw1 Hp) as [He1 Hn1]. rewrite executed_app, He1. simpl. auto.
Qed.

Lemma Run_log :
  emits (Run r turn) (fun _ new => turn_spec (Z.to_nat (MaxIterations (config r))) 1 new).
Proof.
  unfold Run. case_bool_decide.
  - apply emits_ret. split; simpl; try done. lia.
  - destruct (Z_le_gt_dec 0 (MaxIterations (config r))) as [Hm|Hm].
    + eapply emits_conseq; [apply iterations_log; lia|]. by intros x new [? _].
    + replace (Z.to_nat (MaxIterations (config r))) with 0%nat by lia. apply emits_ret.
      split; simpl; auto.
Qed.
End specs.

(** * Limits, tools and replies of a turn *)

#[local] Open Scope Z_scope.

(** ** The log only watches *)
Section erasure.
Context {S : Type} (D : Dependencies S) (r : Runner) (turn : TurnRequest).

(** A logged computation answers as the computation itself. *)
Definition watches {A} (m' : St (S * list event) A) (m : St S A) : Prop :=
  forall s l, exists l', m' (s, l) = ((m s).1, ((m s).2, l')).

Lemma watches_ret {A} (a : A) : watches (st_ret a) (st_ret a).
Proof. intros s l. by exists l. Qed.

Lemma watches_bind {A B} (m' : St (S * list event) A) m (f' : A -> St (S * list event) B) f :
  watches m' m -> (forall a, watches (f' a) (f a)) -> watches (st_bind m' f') (st_bind m f).
Proof.
  intros Hm Hf s l. unfold st_bind. destruct (Hm s l) as [l1 ->]. destruct (m s) as [a s1].
  apply Hf.
Qed.

Lemma watches_noting {A} ev (m : St S A) : watches (noting ev m) m.
Proof. intros s l. unfold noting. simpl. destruct (m s) as [a s']. by eexists. Qed.

Lemma watches_held h : watches (fun s => (ReservedTokens h s, s)) (fun s => (@ReservedTokens S D h s, s)).
Proof. intros s l. by exists l. Qed.

Ltac walk_watches :=
  repeat (lazymatch goal with
  | |- watches (st_ret _) _ => apply watches_ret
  | |- watches (st_bind _ _) _ => apply watches_bind; [|intros ?]
  | |- watches (match ?x with _ => _ end) _ => destruct x
  | |- watches (let (_, _) := ?x in _) _ => destruct x
  | |- watches (fun s => (ReservedTokens _ _, _)) _ => apply watches_held
  | |- watches _ _ => first [assumption | apply watches_noting]
  end).

Lemma watches_bounded : watches boundedPersistenceContext (@boundedPersistenceContext S D).
Proof. unfold boundedPersistenceContext. walk_watches. Qed.

Lemma watches_attempts ctx i c n call s f e l :
  watches (record_attempts r turn ctx i c n call s f e l) (@record_attempts S D r turn ctx i c n call s f e l).
Proof. revert n. induction l as [|a l IH]; intros n; cbn [record_attempts]; walk_watches. apply IH. Qed.

Lemma watches_invoke i ci cc call :
  watches (invoke r turn i ci cc call) (@invoke S D r turn i ci cc call).
Proof.
  unfold invoke. destruct (negb _); [apply watches_ret|]. destruct (_ || _); [apply watches_ret|].
  change (@executor _ (logged D)) with (option_map (fun execute request =>
    noting (fun x : ToolExecution * option error => [EvExecute request x.1 x.2]) (execute request))
    (@executor S D)).
  destruct (@executor S D) as [execute|]; cbn [option_map]; [|apply watches_ret].
  apply watches_bind; [apply watches_noting|]. intros [x err]. apply watches_ret.
Qed.

Lemma watches_tool i ci cc call :
  watches (executeTool r turn i ci cc call) (@executeTool S D r turn i ci cc call).
Proof.
  unfold executeTool. walk_watches; first [apply watches_invoke|apply watches_bounded|apply watches_attempts|idtac].
Qed.

Ltac finish_watches := first [apply watches_bounded | apply watches_attempts | apply watches_invoke |
  apply watches_tool | idtac].

Lemma watches_skipped i ci cc call skip :
  watches (recordSkippedTool r turn i ci cc call skip) (@recordSkippedTool S D r turn i ci cc call skip).
Proof. unfold recordSkippedTool. walk_watches. Qed.

Lemma watches_batch i ci cc calls b :
  watches (run_batch r turn i ci cc calls b) (@run_batch S D r turn i ci cc calls b).
Proof.
  revert ci b. induction calls as [|call calls IH]; intros ci b; cbn [run_batch]; [apply watches_ret|].
  walk_watches; first [apply watches_skipped | apply watches_tool | apply IH].
Qed.

Lemma watches_model i history :
  watches (model_call r turn i history) (@model_call S D r turn i history).
Proof.
  unfold model_call. cbv zeta. change (@Estimate _ (logged D)) with (@Estimate S D).
  destruct (Estimate _); walk_watches; finish_watches.
Qed.

Lemma watches_terminal i call :
  watches (executeCustomerResponse r turn i call) (@executeCustomerResponse S D r turn i call).
Proof. unfold executeCustomerResponse. walk_watches; finish_watches. Qed.

Lemma watches_iterate i st : watches (iterate r turn i st) (@iterate S D r turn i st).
Proof.
  unfold iterate, respond, run_tools.
  walk_watches; first [apply watches_model | apply watches_terminal | apply watches_batch].
Qed.

Lemma watches_run : watches (Run r turn) (@Run S D r turn).
Proof.
  unfold Run. case_bool_decide; [apply watches_ret|]. generalize 1 as i, (mkTurnState (set_Messages (trq_Messages turn) zero_result) [] 0 false) as st.
  induction (Z.to_nat (MaxIterations (config r))) as [|n IH]; intros i st; cbn [iterations];
    [apply watches_ret|].
  apply watches_bind; [apply watches_iterate|]. intros [res err|st']; [apply watches_ret|apply IH].
Qed.

(** The log of a turn that starts with an empty one. *)
Definition log_of (s : S) : list event := (@Run _ (logged D) r turn (s, [])).2.2.

Lemma log_of_spec s :
  (@Run _ (logged D) r turn (s, [])) = ((Run r turn s).1, ((Run r turn s).2, log_of s)) /\
  turn_spec r (Z.to_nat (MaxIterations (config r))) 1 (log_of s).
Proof.
  unfold log_of. pose proof (Run_log D r turn s []) as Hl.
  destruct (watches_run s []) as [l Hr]. rewrite Hr in Hl |- *. simpl. split; [done|].
  destruct Hl as (new & -> & Hspec). exact Hspec.
Qed.
End erasure.

(** ** Limits *)
Section properties.
Context {S : Type} (D : Dependencies S) (r : Runner) (turn : TurnRequest).

(** C27. A turn keeps its limits.  Whatever the model, the tools and the budget
    do, a turn makes at most [MaxIterations] model calls; each is made under a
    token reservation of its own, granted just before, and that reservation is
    settled once, before anything else happens.  The log watched here is that of
    the very run: watching changes neither its result nor its state. *)
Theorem turn_within_limits s :
  @Run _ (logged D) r turn (s, []) = ((Run r turn s).1, ((Run r turn s).2, log_of D r turn s)) /\
  (completions (log_of D r turn s) <= Z.to_nat (MaxIterations (config r)))%nat /\
  bills Idle (log_of D r turn s) = Some Idle.
Proof. destruct (log_of_spec D r turn s) as [Hr [Hb Hc _ _ _]]. auto. Qed.

(** C26. Tools stop.  What reaches the tool executor in a turn is a registered
    tool, never the terminal call, with arguments that are one JSON object of
    bounded size, after its parent record was persisted, and never in the last
    iteration, which has no room for the answer.  Once an executed call was
    refused, escalated the conversation or froze a proposal that the customer
    must confirm, nothing more is executed for the rest of the turn. *)
Theorem tools_stop s :
  announced None (log_of D r turn s) /\
  quiet (executed (log_of D r turn s)) /\
  Forall (fun y => 1 <= tq_Iteration y.1 < MaxIterations (config r) /\
    admissible r (tq_Call y.1) /\ is_terminal (tq_Call y.1) = false) (executed (log_of D r turn s)).
Proof. destruct (log_of_spec D r turn s) as [_ [_ _ Ha Hq Hf]]. auto. Qed.

(** ** Replies *)
Definition yields {A} (m : St S A) (Q : A -> Prop) : Prop := forall s, Q (m s).1.

Lemma yields_ret {A} (a : A) (Q : A -> Prop) : Q a -> yields (st_ret a) Q.
Proof. by intros HQ s. Qed.

Lemma yields_bind {A B} (m : St S A) (f : A -> St S B) (Q1 : A -> Prop) (Q2 : B -> Prop) :
  yields m Q1 -> (forall a, Q1 a -> yields (f a) Q2) -> yields (st_bind m f) Q2.
Proof.
  intros Hm Hf s. unfold st_bind. specialize (Hm s). destruct (m s) as [a s']. by apply Hf.
Qed.

Lemma yields_any {A B} (m : St S A) (f : A -> St S B) (Q : B -> Prop) :
  (forall a, yields (f a) Q) -> yields (st_bind m f) Q.
Proof. intros Hf. by apply (yields_bind m f (fun _ => True)). Qed.

(** The validated contents of a terminal call. *)
Lemma parse_respond_Ok raw a :
  ParseRespondToCustomerArguments raw = Ok a ->
  (Disposition a = ResponseComplete \/ Disposition a = ResponseClarificationNeeded) /\
  blank (rc_Message a) = false /\ RuneCountInString (rc_Message a) <= maxCustomerResponseRunes.
Proof.
  unfold ParseRespondToCustomerArguments. intros (v & _ & (a' & _ & H)%rbind_Ok)%rbind_Ok.
  destruct (negb _) eqn:Hd; [done|]. destruct (blank _ || _) eqn:Hm; [done|]. injection H as ->.
  bool_to_prop. split; [|done]. apply orb_true_iff in Hd as [Hd|Hd]; bool_to_prop; auto.
Qed.

Definition escalated_or_refused (t : TurnResult) : Prop := ToolRefused t = true \/ HumanEscalated t = true.

(** Nothing was answered yet. *)
Definition open_turn (t : TurnResult) : Prop := CustomerResponseDisposition t = "".

Lemma batch_flags i ci cc calls b :
  open_turn (ba_Result b) -> (ba_Handoff b = true -> escalated_or_refused (ba_Result b)) ->
  yields (run_batch r turn i ci cc calls b) (fun x =>
    open_turn (ba_Result x.1) /\ (ba_Handoff x.1 = true -> escalated_or_refused (ba_Result x.1))).
Proof.
  revert ci b. induction calls as [|call calls IH]; intros ci b Ho Hb; cbn [run_batch];
    [by apply yields_ret|].
  apply yields_any. intros [e|]; [by apply yields_ret|].
  destruct (ba_Skip b) as [skip|].
  { apply yields_any. intros [m|e]; [by apply IH|by apply yields_ret]. }
  apply yields_any. intros o. cbv zeta.
  set (b1 := if oc_Committed o && _ then _ else b).
  assert (Hb1 : open_turn (ba_Result b1) /\ (ba_Handoff b1 = true -> escalated_or_refused (ba_Result b1))).
  { unfold b1. by destruct (_ && _). }
  destruct Hb1 as [Ho1 Hh1]. destruct (oc_Err o) as [e|]; [by apply yields_ret|].
  apply IH; unfold settle_call, escalated_or_refused, open_turn in *; cbv zeta;
    repeat case_bool_decide; simplify_eq/=; auto.
Qed.

(** Where a reply comes from: the sole terminal call of the last response, or
    the fixed words of a hand-off. *)
Inductive reply (res : TurnResult) : Prop :=
| ReplyCall (h : list Message) (m tm : Message) (call : ToolCall) (a : RespondToCustomerArguments) :
    ToolCalls m = [call] -> tc_Name call = ToolRespondToCustomer -> blank (Content m) = true ->
    ParseRespondToCustomerArguments (tc_Arguments call) = Ok a ->
    blank (rc_Message a) = false -> RuneCountInString (rc_Message a) <= maxCustomerResponseRunes ->
    CustomerResponseDisposition res = Disposition a -> CustomerResponseToolCallID res = tc_ID call ->
    (Disposition a = ResponseComplete \/ Disposition a = ResponseClarificationNeeded) ->
    tr_Message res = assistant (rc_Message a) ->
    tr_Messages res = h ++ [m; tm; assistant (rc_Message a)] -> reply res
| ReplyHandoff (h : list Message) :
    escalated_or_refused res -> CustomerResponseDisposition res = "" ->
    tr_Message res = assistant (handoffMessage res) ->
    tr_Messages res = h ++ [assistant (handoffMessage res)] -> reply res.

Definition step_ok (x : Step) : Prop :=
  match x with
  | Next st => open_turn (ts_Result st)
  | Stop res None => reply res
  | Stop _ (Some _) => True
  end.

Lemma terminal_yields i call :
  yields (executeCustomerResponse r turn i call) (fun x =>
    match x.2 with Ok a => is_Some x.1 /\ parse_terminal call = Ok a | Err _ => True end).
Proof.
  unfold executeCustomerResponse. apply yields_any. intros t. apply yields_any. intros [e|]; [by apply yields_ret|].
  cbv zeta. do 2 (apply yields_any; intros ?). apply yields_any. intros [e|]; [by apply yields_ret|].
  destruct (parse_terminal call) as [args|e] eqn:Hp; [|by apply yields_ret].
  apply yields_any. intros [e|]; apply yields_ret; simpl; auto.
Qed.

Lemma respond_yields i m h res :
  existsb is_terminal (ToolCalls m) = true -> tr_Messages res = h ++ [m] ->
  yields (respond r turn i m res) step_ok.
Proof.
  intros Hterm Hm. unfold respond. destruct (ToolCalls m) as [|call [|]] eqn:Hc; try by apply yields_ret.
  destruct (negb _) eqn:Hblank; [by apply yields_ret|].
  eapply yields_bind; [apply terminal_yields|]. simpl. intros [tm [args|e]]; [|by intros _; apply yields_ret].
  intros [[tm' Htm] Hp]. simpl in Htm. subst tm. apply yields_ret. simpl.
  unfold parse_terminal in Hp. destruct (_ <? _); [done|].
  destruct (parse_respond_Ok _ _ Hp) as (Hd & Hb & Hr). simpl in Hterm. rewrite orb_false_r in Hterm.
  unfold is_terminal in Hterm. bool_to_prop.
  apply (ReplyCall _ h m tm' call args); try done. simpl. by rewrite Hm, <- !app_assoc.
Qed.

Lemma iterate_yields i st : open_turn (ts_Result st) -> yields (iterate r turn i st) step_ok.
Proof.
  intros Ho. unfold iterate. apply yields_any. intros [e|]; [by apply yields_ret|].
  apply yields_any. intros [response|e]; [|by apply yields_ret]. cbv zeta.
  destruct (_ && _); [by apply yields_ret|]. destruct (assistant_message _ _ _ _) as [m used].
  assert (Hc : forall correction msg st', ts_Result st' = say m (set_Call i
      (addUsage (tr_Usage (ts_Result st)) (rsp_Usage response)) (ts_Result st)) ->
    step_ok (correct r i correction st' msg)).
  { intros correction msg st' Hst. unfold correct. destruct (_ || _); simpl; [done|]. by rewrite Hst. }
  case_bool_decide; [by apply yields_ret, Hc|].
  destruct (existsb _ _) eqn:Hterm; [by eapply respond_yields|].
  cbn [ts_Pending]. destruct (ts_Pending st); [by apply yields_ret, Hc|].
  destruct (_ =? _); [by apply yields_ret|]. unfold run_tools.
  eapply yields_bind; [by apply batch_flags|]. intros [b [e|]] [Ho' Hh]; apply yields_ret; [done|].
  simpl in *. destruct (ba_Handoff b); simpl; [|done].
  eapply ReplyHandoff; [by apply Hh|done|reflexivity|reflexivity].
Qed.

(** Replies are validated.  A turn that ends without an error answers the
    customer either with the message of a [respond_to_customer] call that stood
    alone in the last model response, without prose beside it, satisfied the
    contract, has a known disposition, is not blank and has at most two thousand
    characters; or with the server's fixed hand-off text, and then a tool was
    refused or the conversation was escalated.  Model prose never gets through. *)
Theorem replies_are_validated s res s' :
  Run r turn s = ((res, None), s') -> reply res.
Proof.
  assert (Hy : yields (Run r turn) (fun x => x.2 = None -> reply x.1)).
  { unfold Run. case_bool_decide; [by apply yields_ret|].
    set (st := mkTurnState _ _ _ _). assert (Hst : open_turn (ts_Result st)) by done. clearbody st.
    generalize 1 as i. revert st Hst.
    induction (Z.to_nat (MaxIterations (config r))) as [|n IH]; intros st Hst i; cbn [iterations];
      [by apply yields_ret|].
    eapply yields_bind; [by apply iterate_yields|].
    intros [res0 [e|]|st'] Hx; [by apply yields_ret|by apply yields_ret|by apply IH]. }
  intros Hr. specialize (Hy s). rewrite Hr in Hy. by apply Hy.
Qed.
End properties.

(** ** A scripted turn *)
Module TurnDemo.
Definition noon : Time := mkTime (12 * Hour) UTC.

(** The script of the fake adapter, a tool that freezes a proposal. *)
Definition proposal : ToolExecution :=
  mkExecution (Marshal (JObj [("status", JStr "confirmation_required")])) false
    ToolStatusConfirmationRequired [] false.

#[export] Instance scripted : Dependencies FakeAdapter := {|
  ctx_Err s := (None, s);
  now s := (noon, s);
  Error _ := "failed";
  Estimate _ := Ok 1000;
  Reserve _ _ s := (Ok 0%nat, s);
  ReservedTokens _ _ := 1000;
  Settle _ _ _ s := (None, s);
  Complete q s := Fake_Complete None q s;
  executor := Some (fun _ s => ((proposal, None), s));
  RecordModelCall _ _ s := (None, s);
  RecordToolExecutionStarted _ _ s := (None, s);
  RecordToolAttempt _ _ s := (None, s);
  RecordToolExecutionCompleted _ _ s := (None, s)
|}.

Definition call (name : string) (arguments : json) : ToolCall := mkToolCall "" name (Marshal arguments).

Definition answer (calls : list ToolCall) : FakeStep :=
  mkFakeStep (mkResponse "" "demo" (mkMessage RoleAssistant "" "" "" calls) "tool_calls"
    (mkUsage 10 5 15) false 0) None.

(** Two bookings are tried at once, then a third, then the customer is asked. *)
Definition script : FakeAdapter := NewFakeAdapter
  [answer [call "create_booking" (JObj []); call "create_booking" (JObj [])];
   answer [call "create_booking" (JObj [])];
   answer [call ToolRespondToCustomer (JObj [("disposition", JStr "clarification_needed");
                                            ("message", JStr "Shall I book Monday at ten?")])]].

Definition runner : Runner := mkRunner (mkConfig 5 60 1000 50000)
  [mkToolDefinition "create_booking" "1.0.0" "" "{}"; mkToolDefinition ToolRespondToCustomer "1.0.0" "" "{}"].

Definition turn : TurnRequest := mkTurn "run" "conversation" [user "Monday at ten, please"].

Lemma replied : exists res s', Run runner turn script = ((res, None), s') /\
  Iterations res = 3 /\ tr_Message res = assistant "Shall I book Monday at ten?".
Proof. eexists _, _. split; [vm_compute; reflexivity|]. split; reflexivity. Defined.

(** Only the first of the three calls was executed. *)
Lemma executed_once :
  map (fun x => (tq_Iteration x.1, tq_CallIndex x.1, x.2)) (executed (log_of scripted runner turn script)) =
    [(1, 1, ToolStatusConfirmationRequired)].
Proof. vm_compute. reflexivity. Qed.
End TurnDemo.

Lemma replies_are_validated_witness : exists res s',
  @Run _ TurnDemo.scripted TurnDemo.runner TurnDemo.turn TurnDemo.script = ((res, None), s') /\ reply res.
Proof.
  destruct TurnDemo.replied as (res & s' & Hr & _). exists res, s'. split; [exact Hr|].
  exact (replies_are_validated TurnDemo.scripted TurnDemo.runner TurnDemo.turn _ _ _ Hr).
Defined.
