(* ===== verification/JsonFacts.v ===== *)
(** * Facts about JSON texts

    Decoding what was encoded gives the value back, for every value whose
    strings are valid UTF-8, whose numbers are JSON literals and whose nesting
    stays under the scanner's limit. *)

From Stdlib Require Import ZArith Lia Ascii.
From stdpp Require Import base list strings pretty.
From S2P Require Import Prelude Json JsonParse.

#[local] Open Scope Z_scope.

(** ** Valid UTF-8, as a predicate on bytes *)
Inductive utf8 : list ascii -> Prop :=
| utf8_nil : utf8 []
| utf8_step c l : utf8_len (c :: l) <> 0%nat -> utf8 (drop (utf8_len (c :: l)) (c :: l)) ->
                  utf8 (c :: l).

Lemma valid_utf8_utf8 fuel l : valid_utf8 fuel l = true -> utf8 l.
Proof.
  revert l; induction fuel as [|fuel IH]; intros [|c l] H; try constructor; try discriminate.
  - intros E. cbn [valid_utf8] in H. by rewrite E in H.
  - cbn [valid_utf8] in H. destruct (utf8_len (c :: l)) as [|n] eqn:E; [done|].
    by apply IH.
Qed.

Lemma ValidString_utf8 s : ValidString s = true -> utf8 (string_bytes s).
Proof. apply valid_utf8_utf8. Qed.

(** The length of a first sequence, and what follows it does not matter. *)
Lemma utf8_len_cases c l :
  utf8_len (c :: l) <> 0%nat ->
  code c < 128 /\ utf8_len (c :: l) = 1%nat \/
  128 <= code c /\ (utf8_len (c :: l) <= length (c :: l))%nat /\
  forall rest, utf8_len (take (utf8_len (c :: l)) (c :: l) ++ rest) = utf8_len (c :: l).
Proof.
  destruct (Z.ltb_spec (code c) 128) as [Hc|Hc].
  { left. split; [done|]. unfold utf8_len. by rewrite (proj2 (Z.ltb_lt _ _) Hc). }
  right. assert (E : (code c <? 128) = false) by lia.
  split; [done|]. unfold utf8_len in *. rewrite E in *.
  repeat first
    [ match goal with |- context [if ?b then _ else _] => destruct b eqn:? end
    | match goal with |- context [match ?l with [] => _ | _ => _ end] => destruct l end ];
  try done; (split; [simpl; lia|]); intros rest; cbn [take app]; rewrite E;
  repeat match goal with H : ?b = _ |- context [if ?b then _ else _] => rewrite H end; done.
Qed.

(** ** String literals *)
Definition put (s : list ascii) (o : option (list ascii * list ascii)) :=
  match o with Some (a, b) => Some (s ++ a, b) | None => None end.

Lemma string_body_escape_ascii fuel c tl :
  code c < 128 -> string_body (S fuel) (string_bytes (escape_ascii c) ++ tl) = put [c] (string_body fuel tl).
Proof. destruct c as [[] [] [] [] [] [] [] []]; intros H; try reflexivity; discriminate H. Qed.

Lemma string_body_raw fuel c l tl :
  128 <= code c -> utf8_len (c :: l) <> 0%nat ->
  string_body (S fuel) (take (utf8_len (c :: l)) (c :: l) ++ tl) =
  put (take (utf8_len (c :: l)) (c :: l)) (string_body fuel tl).
Proof.
  intros Hc Hn. destruct (utf8_len_cases c l Hn) as [[? _]|(_ & Hl & He)]; [lia|].
  specialize (He tl). destruct (utf8_len (c :: l)) as [|n]; [done|]. clear Hn.
  cbn [take app] in *. simpl length in Hl.
  cbn [string_body]. rewrite He.
  destruct (Z.eqb_spec (code c) 34); [lia|]. destruct (Z.eqb_spec (code c) 92); [lia|].
  destruct (Z.ltb_spec (code c) 32); [lia|]. destruct (Z.ltb_spec (code c) 128); [lia|].
  cbn [take drop]. unfold put.
  assert (Ht : take n (take n l ++ tl) = take n l).
  { rewrite take_app_le by (rewrite length_take; lia). rewrite take_take. f_equal; lia. }
  assert (Hd : drop n (take n l ++ tl) = tl).
  { rewrite drop_app_ge by (rewrite length_take; lia). rewrite length_take.
    replace (n - n `min` length l)%nat with 0%nat by lia. done. }
  by rewrite Ht, Hd.
Qed.

Lemma string_body_separator fuel l s tl :
  line_separator l = Some s ->
  string_body (S fuel) (string_bytes s ++ tl) = put l (string_body fuel tl).
Proof.
  unfold line_separator. destruct l as [|c0 [|c1 [|c2 [|]]]]; try done.
  destruct (_ && _) eqn:E; intros [= <-]. bool_to_prop.
  assert (E0 : c0 = chr 226) by (rewrite <- (chr_code c0); by f_equal).
  assert (E1 : c1 = chr 128) by (rewrite <- (chr_code c1); by f_equal).
  assert (E2 : c2 = chr 168 \/ c2 = chr 169).
  { match goal with H : (_ || _) = true |- _ => apply orb_true_iff in H as [H|H] end;
    [left|right]; rewrite <- (chr_code c2); f_equal; lia. }
  subst. destruct E2 as [-> | ->]; reflexivity.
Qed.

Lemma put_put a b o : put a (put b o) = put (a ++ b) o.
Proof. destruct o as [[x y]|]; [|done]. simpl. by rewrite app_assoc. Qed.

(** What [escape_bytes] writes is read back, up to the closing quote. *)
Lemma string_body_escape l :
  utf8 l -> forall n fuel tl, (length l <= n)%nat -> (length l < fuel)%nat ->
  string_body fuel (string_bytes (escape_bytes n l) ++ chr 34 :: tl) = Some (l, tl).
Proof.
  induction 1 as [|c l Hn _ IH]; intros n fuel tl Hl Hf.
  { destruct fuel; [lia|]. by destruct n. }
  destruct n as [|n]; [simpl in Hl; lia|]. destruct fuel as [|fuel]; [lia|].
  cbn [escape_bytes].
  destruct (utf8_len_cases c l Hn) as [[Hc E]|(Hc & Hle & _)].
  - rewrite (proj2 (Z.ltb_lt _ _) Hc), string_bytes_app, <- app_assoc, string_body_escape_ascii by done.
    rewrite E in IH. cbn [drop] in IH. rewrite drop_0 in IH.
    by rewrite IH by (simpl in *; lia).
  - rewrite (proj2 (Z.ltb_ge _ _) Hc).
    pose proof (string_body_raw fuel c l) as Hraw.
    set (k := utf8_len (c :: l)) in *.
    assert (IH' : string_body fuel (string_bytes (escape_bytes n (drop k (c :: l))) ++ chr 34 :: tl) =
                  Some (drop k (c :: l), tl)).
    { apply IH; rewrite length_drop; simpl in *; lia. }
    assert (Hkl : (k <= length (c :: l))%nat) by done.
    clearbody k. destruct k as [|k]; [done|].
    rewrite string_bytes_app, <- app_assoc.
    replace (Some (c :: l, tl)) with (put (take (S k) (c :: l)) (Some (drop (S k) (c :: l), tl)))
      by (unfold put; by rewrite take_drop).
    rewrite <- IH'. destruct (line_separator _) as [s|] eqn:Es.
    + by apply string_body_separator.
    + rewrite string_of_bytes. by apply Hraw.
Qed.

(** An escaped text is no shorter. *)
Lemma escape_ascii_length c : (1 <= length (string_bytes (escape_ascii c)))%nat.
Proof. destruct c as [[] [] [] [] [] [] [] []]; apply Nat.leb_le; reflexivity. Qed.

Lemma escape_length n l :
  utf8 l -> (length l <= n)%nat -> (length l <= length (string_bytes (escape_bytes n l)))%nat.
Proof.
  intros Hu; revert n; induction Hu as [|c l Hn _ IH]; intros n Hl; [simpl; lia|].
  destruct n as [|n]; [simpl in Hl; lia|]. cbn [escape_bytes].
  destruct (utf8_len_cases c l Hn) as [[Hc E]|(Hc & Hle & _)].
  - rewrite (proj2 (Z.ltb_lt _ _) Hc), string_bytes_app, length_app.
    rewrite E in IH. cbn [drop] in IH. rewrite drop_0 in IH.
    pose proof (escape_ascii_length c). specialize (IH n). simpl in *. lia.
  - rewrite (proj2 (Z.ltb_ge _ _) Hc).
    set (k := utf8_len (c :: l)) in *. clearbody k. destruct k as [|k]; [done|].
    rewrite string_bytes_app, length_app.
    assert (Hd : (length (drop (S k) (c :: l)) <=
                  length (string_bytes (escape_bytes n (drop (S k) (c :: l)))))%nat).
    { apply IH. rewrite length_drop. simpl in *. lia. }
    assert (Ht : (length (take (S k) (c :: l)) <=
                  length (string_bytes match line_separator (take (S k) (c :: l)) with
                                       | Some s => s | None => of_bytes (take (S k) (c :: l)) end))%nat).
    { destruct (line_separator _) as [s|] eqn:Es; [|by rewrite string_of_bytes].
      unfold line_separator in Es. destruct (take (S k) (c :: l)) as [|? [|? [|? [|]]]]; try done.
      destruct (_ && _); [|done]. injection Es as <-. simpl. lia. }
    rewrite length_drop in Hd. rewrite length_take in Ht. simpl in *. lia.
Qed.

Lemma string_bytes_quote s tl :
  string_bytes (quote s) ++ tl =
  chr 34 :: string_bytes (escape_bytes (length (string_bytes s)) (string_bytes s)) ++ chr 34 :: tl.
Proof.
  unfold quote. cbv zeta. rewrite !string_bytes_app, <- !app_assoc. reflexivity.
Qed.

Lemma string_literal_escape s tl :
  ValidString s = true ->
  string_literal (string_bytes (escape_bytes (length (string_bytes s)) (string_bytes s)) ++ chr 34 :: tl) =
  Some (s, tl).
Proof.
  intros Hs. unfold string_literal.
  rewrite string_body_escape.
  - by rewrite of_string_bytes.
  - by apply ValidString_utf8.
  - done.
  - rewrite length_app. simpl.
    pose proof (escape_length _ (string_bytes s) (ValidString_utf8 _ Hs) (le_n _)). lia.
Qed.

(** ** Number literals *)
Definition number_char (c : ascii) : bool :=
  is_digit c || (code c =? 46) || (code c =? 101) || (code c =? 69) || (code c =? 43) || (code c =? 45).

Definition stops (l : list ascii) : Prop :=
  match l with [] => True | c :: _ => number_char c = false end.

Definition number_literal (s : string) : bool :=
  bool_decide (scan_number (string_bytes s) = Some (string_bytes s, [])).

Ltac stop_head rest H :=
  destruct rest as [|? ?]; [done|]; simpl in H; unfold number_char in H; bool_to_prop.

Lemma span_digits_app l a b rest :
  stops rest -> span_digits l = (a, b) -> span_digits (l ++ rest) = (a, b ++ rest).
Proof.
  intros Hr; revert a b; induction l as [|c l IH]; intros a b H; simpl in *.
  - injection H as <- <-. stop_head rest Hr. simpl.
    match goal with E : is_digit _ = false |- _ => by rewrite E end.
  - destruct (is_digit c); [|by injection H as <- <-].
    destruct (span_digits l) as [x y]. injection H as <- <-. by rewrite (IH x y).
Qed.

Lemma digits1_app l a b rest :
  stops rest -> digits1 l = Some (a, b) -> digits1 (l ++ rest) = Some (a, b ++ rest).
Proof.
  unfold digits1. intros Hr H. destruct (span_digits l) as [x y] eqn:E.
  rewrite (span_digits_app _ _ _ _ Hr E). destruct x; [done|]. by injection H as <- <-.
Qed.

Lemma integer_part_app l a b rest :
  stops rest -> integer_part l = Some (a, b) -> integer_part (l ++ rest) = Some (a, b ++ rest).
Proof.
  intros Hr. destruct l as [|c l]; [done|]. simpl.
  destruct (code c =? 48); [by intros [= <- <-]|]. by apply (digits1_app (c :: l)).
Qed.

Lemma fraction_app l a b rest :
  stops rest -> fraction l = Some (a, b) -> fraction (l ++ rest) = Some (a, b ++ rest).
Proof.
  intros Hr. destruct l as [|c l].
  - intros [= <- <-]. stop_head rest Hr. simpl.
    match goal with E : code _ <> 46 |- _ => by rewrite (proj2 (Z.eqb_neq _ _) E) end.
  - simpl. destruct (code c =? 46); [|by intros [= <- <-]].
    destruct (digits1 l) as [[x y]|] eqn:E; [|done]. intros [= <- <-].
    by rewrite (digits1_app _ _ _ _ Hr E).
Qed.

Lemma opt_sign_app allowed l a b rest :
  l <> [] -> opt_sign allowed l = (a, b) -> opt_sign allowed (l ++ rest) = (a, b ++ rest).
Proof.
  destruct l as [|c l]; [done|]. simpl. intros _. destruct (allowed c); by intros [= <- <-].
Qed.

Lemma exponent_app l a b rest :
  stops rest -> exponent l = Some (a, b) -> exponent (l ++ rest) = Some (a, b ++ rest).
Proof.
  intros Hr. destruct l as [|c l].
  - intros [= <- <-]. stop_head rest Hr. simpl.
    repeat match goal with E : code _ <> _ |- _ => rewrite (proj2 (Z.eqb_neq _ _) E); clear E end. done.
  - simpl. destruct (_ || _); [|by intros [= <- <-]].
    destruct l as [|d l]; [done|].
    destruct (opt_sign _ (d :: l)) as [s y] eqn:Es.
    rewrite (opt_sign_app _ (d :: l) _ _ rest (ltac:(done)) Es).
    destruct (digits1 y) as [[u v]|] eqn:E; [|done]. intros [= <- <-].
    by rewrite (digits1_app _ _ _ _ Hr E).
Qed.

Lemma scan_number_app l a b rest :
  stops rest -> scan_number l = Some (a, b) -> scan_number (l ++ rest) = Some (a, b ++ rest).
Proof.
  intros Hr H. unfold scan_number in *. destruct l as [|c l]; [done|].
  destruct (opt_sign _ (c :: l)) as [sg l1] eqn:Es.
  rewrite (opt_sign_app _ (c :: l) _ _ rest (ltac:(done)) Es).
  destruct (integer_part l1) as [[i l2]|] eqn:Ei; [|done].
  rewrite (integer_part_app _ _ _ _ Hr Ei).
  destruct (fraction l2) as [[f l3]|] eqn:Ef; [|done].
  rewrite (fraction_app _ _ _ _ Hr Ef).
  destruct (exponent l3) as [[x l4]|] eqn:Ex; [|done].
  rewrite (exponent_app _ _ _ _ Hr Ex). by injection H as <- <-.
Qed.

(** A literal starts with a digit or a minus sign. *)
Lemma number_literal_head s :
  number_literal s = true ->
  exists c l, string_bytes s = c :: l /\ (is_digit c = true \/ code c = 45).
Proof.
  unfold number_literal. intros H. bool_to_prop.
  destruct (string_bytes s) as [|c l]; [done|]. exists c, l. split; [done|].
  unfold scan_number in H. simpl in H. destruct (Z.eqb_spec (code c) 45); [by right|left].
  simpl in H. destruct (Z.eqb_spec (code c) 48) as [E|_]; [unfold is_digit; by rewrite E|].
  unfold digits1 in H. simpl in H. by destruct (is_digit c).
Qed.

(** ** Values *)
Fixpoint encodable (v : json) : bool :=
  match v with
  | JNum n => number_literal n
  | JStr s => ValidString s
  | JArr l => forallb encodable l
  | JObj l => forallb (fun kv => ValidString kv.1 && encodable kv.2) l
  | _ => true
  end.

Fixpoint height (v : json) : Z :=
  match v with
  | JArr l => 1 + foldr (fun x n => Z.max (height x) n) 0 l
  | JObj l => 1 + foldr (fun kv n => Z.max (height kv.2) n) 0 l
  | _ => 0
  end.

Section json_induction.
Variable P : json -> Prop.
Hypothesis null_case : P JNull.
Hypothesis bool_case : forall b, P (JBool b).
Hypothesis num_case : forall n, P (JNum n).
Hypothesis str_case : forall s, P (JStr s).
Hypothesis arr_case : forall l, Forall P l -> P (JArr l).
Hypothesis obj_case : forall l, Forall (fun kv : string * json => P kv.2) l -> P (JObj l).

Fixpoint json_nested_ind (v : json) : P v :=
  match v with
  | JNull => null_case
  | JBool b => bool_case b
  | JNum n => num_case n
  | JStr s => str_case s
  | JArr l => arr_case l ((fix all l := match l return Forall P l with
                                        | [] => Forall_nil_2 P
                                        | x :: tl => Forall_cons_2 _ _ _ (json_nested_ind x) (all tl)
                                        end) l)
  | JObj l => obj_case l ((fix all l := match l return Forall (fun kv => P kv.2) l with
                                        | [] => Forall_nil_2 _
                                        | x :: tl => Forall_cons_2 _ _ _ (json_nested_ind x.2) (all tl)
                                        end) l)
  end.
End json_induction.

Definition text (v : json) : list ascii := string_bytes (Marshal v).
Definition items (l : list json) : list ascii := string_bytes (join "," (map Marshal l)).
Definition pair_text (kv : string * json) : list ascii :=
  string_bytes (String.append (quote kv.1) (String.append ":" (Marshal kv.2))).
Definition pairs (l : list (string * json)) : list ascii :=
  string_bytes (join "," (map (fun kv => String.append (quote kv.1) (String.append ":" (Marshal kv.2))) l)).

Lemma text_arr l rest : text (JArr l) ++ rest = chr 91 :: items l ++ chr 93 :: rest.
Proof. unfold text, items. cbn [Marshal]. by rewrite !string_bytes_app, <- !app_assoc. Qed.

Lemma text_obj l rest : text (JObj l) ++ rest = chr 123 :: pairs l ++ chr 125 :: rest.
Proof. unfold text, pairs. cbn [Marshal]. by rewrite !string_bytes_app, <- !app_assoc. Qed.

Lemma length_text_arr l : length (text (JArr l)) = S (S (length (items l))).
Proof.
  pose proof (f_equal length (text_arr l [])) as H. rewrite app_nil_r in H. rewrite H.
  simpl. rewrite length_app. simpl. lia.
Qed.

Lemma length_text_obj l : length (text (JObj l)) = S (S (length (pairs l))).
Proof.
  pose proof (f_equal length (text_obj l [])) as H. rewrite app_nil_r in H. rewrite H.
  simpl. rewrite length_app. simpl. lia.
Qed.

Lemma items_cons v w l : items (v :: w :: l) = text v ++ chr 44 :: items (w :: l).
Proof. unfold items, text. cbn [map join]. by rewrite !string_bytes_app. Qed.

Lemma pairs_cons kv kw l : pairs (kv :: kw :: l) = pair_text kv ++ chr 44 :: pairs (kw :: l).
Proof. unfold pairs, pair_text. cbn [map join]. by rewrite !string_bytes_app. Qed.

Lemma pair_text_app kv rest :
  pair_text kv ++ rest =
  chr 34 :: string_bytes (escape_bytes (length (string_bytes kv.1)) (string_bytes kv.1)) ++
  chr 34 :: chr 58 :: text kv.2 ++ rest.
Proof.
  unfold pair_text, quote, text. cbv zeta. by rewrite !string_bytes_app, <- !app_assoc.
Qed.

(** A value's text starts with neither a space nor a closing bracket. *)
Lemma text_head v :
  encodable v = true ->
  exists c l, text v = c :: l /\ json_space c = false /\ code c <> 93 /\ code c <> 125.
Proof.
  destruct v as [| [] | n | s | l | l]; intros H; try (do 2 eexists; split; [reflexivity|done]).
  apply number_literal_head in H as (c & l & E & Hc). exists c, l. split; [done|].
  unfold is_digit, json_space in *. destruct Hc as [Hc|Hc]; [bool_to_prop|rewrite Hc; done].
  split; [|lia]. repeat (apply orb_false_iff; split); apply Z.eqb_neq; lia.
Qed.

Lemma skip_head c l : json_space c = false -> skip (c :: l) = c :: l.
Proof. intros H. simpl. by rewrite H. Qed.

(** The parser's equations on the texts that arise. *)
Lemma value_str f d tl :
  value (S f) d (chr 34 :: tl) =
  match string_literal tl with Some (s, rest) => Some (JStr s, rest) | None => None end.
Proof. reflexivity. Qed.

Lemma value_arr f d c tl :
  json_space c = false -> d < maxNestingDepth -> code c <> 93 ->
  value (S f) d (chr 91 :: c :: tl) =
  match elements f (d + 1) (c :: tl) with Some (m, rest) => Some (JArr m, rest) | None => None end.
Proof.
  intros Hs Hd Hc.
  change (value (S f) d (chr 91 :: c :: tl)) with
    (if maxNestingDepth <=? d then None
     else match skip (c :: tl) with
          | e :: rest => if code e =? 93 then Some (JArr [], rest)
                         else match elements f (d + 1) (e :: rest) with
                              | Some (m, rest) => Some (JArr m, rest)
                              | None => None
                              end
          | [] => None
          end).
  rewrite (proj2 (Z.leb_gt _ _) Hd), (skip_head c tl Hs). by rewrite (proj2 (Z.eqb_neq _ _) Hc).
Qed.

Lemma value_obj f d tl :
  d < maxNestingDepth ->
  value (S f) d (chr 123 :: chr 34 :: tl) =
  match members f (d + 1) (chr 34 :: tl) with Some (m, rest) => Some (JObj m, rest) | None => None end.
Proof.
  intros Hd.
  change (value (S f) d (chr 123 :: chr 34 :: tl)) with
    (if maxNestingDepth <=? d then None
     else match members f (d + 1) (chr 34 :: tl) with
          | Some (m, rest) => Some (JObj m, rest)
          | None => None
          end).
  by rewrite (proj2 (Z.leb_gt _ _) Hd).
Qed.

Lemma value_number f d c l :
  (is_digit c = true \/ code c = 45) ->
  value (S f) d (c :: l) =
  match scan_number (c :: l) with Some (s, rest) => Some (JNum (of_bytes s), rest) | None => None end.
Proof.
  intros Hc. assert (Hr : 45 <= code c <= 57).
  { unfold is_digit in Hc. destruct Hc; [bool_to_prop; lia|lia]. }
  cbn [value]. rewrite skip_head by (unfold json_space; repeat (apply orb_false_iff; split); lia).
  repeat match goal with |- context [code c =? ?n] => destruct (Z.eqb_spec (code c) n); [lia|] end.
  done.
Qed.

Definition reads (v : json) : Prop := forall fuel depth rest,
  (2 * length (text v) <= fuel)%nat -> depth + height v <= maxNestingDepth -> stops rest ->
  value fuel depth (text v ++ rest) = Some (v, rest).

Lemma elements_reads l :
  Forall reads l -> l <> [] -> forall fuel depth rest,
  (2 * length (items l) + 1 <= fuel)%nat ->
  depth + foldr (fun x n => Z.max (height x) n) 0 l <= maxNestingDepth ->
  elements fuel depth (items l ++ chr 93 :: rest) = Some (l, rest).
Proof.
  induction 1 as [|v l Hv _ IH]; intros Hn [|fuel] depth rest Hf Hd; [done..|lia|]. clear Hn.
  destruct l as [|w l].
  - cbn [elements]. unfold items in *; cbn [map join] in *. fold (text v) in *.
    rewrite Hv; [done|lia|simpl in Hd; lia|done].
  - rewrite items_cons in *. rewrite length_app, length_cons in Hf.
    rewrite <- app_assoc. cbn [elements]. cbn [foldr] in Hd, IH.
    rewrite Hv; [|lia|lia|done]. cbn [app].
    change (skip (chr 44 :: ?l)) with (chr 44 :: l). cbv iota.
    change (code (chr 44) =? 44) with true. cbv iota.
    rewrite IH; [done|done|lia|lia].
Qed.

Lemma members_quote f d tl :
  members (S f) d (chr 34 :: tl) =
  match string_literal tl with
  | None => None
  | Some (k, rest) =>
      match skip rest with
      | colon :: tl =>
          if negb (code colon =? 58) then None
          else match value f d tl with
               | None => None
               | Some (v, rest) =>
                   match skip rest with
                   | c :: tl =>
                       if code c =? 44 then
                         match members f d tl with
                         | Some (kvs, rest) => Some ((k, v) :: kvs, rest)
                         | None => None
                         end
                       else if code c =? 125 then Some ([(k, v)], tl)
                       else None
                   | [] => None
                   end
               end
      | [] => None
      end
  end.
Proof. reflexivity. Qed.

Lemma members_reads l :
  Forall (fun kv => ValidString kv.1 = true /\ reads kv.2) l -> l <> [] ->
  forall fuel depth rest,
  (2 * length (pairs l) + 1 <= fuel)%nat ->
  depth + foldr (fun kv n => Z.max (height kv.2) n) 0 l <= maxNestingDepth ->
  members fuel depth (pairs l ++ chr 125 :: rest) = Some (l, rest).
Proof.
  induction 1 as [|[k v] l [Hk Hv] _ IH]; intros Hn [|fuel] depth rest Hf Hd; [done..|lia|].
  clear Hn. simpl in Hk, Hv.
  assert (Hlen : (length (text v) <= length (pair_text (k, v)))%nat).
  { pose proof (f_equal length (pair_text_app (k, v) [])) as H. rewrite app_nil_r in H.
    rewrite H. simpl. rewrite length_app. simpl. rewrite length_app. lia. }
  destruct l as [|kw l].
  - change (pairs [(k, v)]) with (pair_text (k, v)) in *.
    rewrite pair_text_app, members_quote. simpl fst; simpl snd.
    rewrite (string_literal_escape k _ Hk).
    change (skip (chr 58 :: ?l)) with (chr 58 :: l). cbv iota.
    change (negb (code (chr 58) =? 58)) with false. cbv iota.
    rewrite Hv; [done|lia|simpl in Hd; lia|done].
  - rewrite pairs_cons in *. rewrite length_app, length_cons in Hf.
    rewrite <- app_assoc, pair_text_app, members_quote. simpl fst; simpl snd.
    rewrite (string_literal_escape k _ Hk).
    change (skip (chr 58 :: ?l)) with (chr 58 :: l). cbv iota.
    change (negb (code (chr 58) =? 58)) with false. cbv iota.
    cbn [foldr snd] in Hd, IH.
    rewrite Hv; [|lia|lia|done]. cbn [app].
    change (skip (chr 44 :: ?l)) with (chr 44 :: l). cbv iota.
    change (code (chr 44) =? 44) with true. cbv iota.
    rewrite IH; [done|done|lia|lia].
Qed.

Lemma Forall_encodable (l : list json) :
  Forall (fun v => encodable v = true -> reads v) l -> forallb encodable l = true -> Forall reads l.
Proof.
  induction 1; simpl; intros E; constructor; bool_to_prop; auto.
Qed.

Lemma fold_max_nonneg {A} (h : A -> Z) l : 0 <= foldr (fun x n => Z.max (h x) n) 0 l.
Proof. induction l; simpl; lia. Qed.

Lemma items_head l rest :
  l <> [] -> forallb encodable l = true ->
  exists c tl, items l ++ rest = c :: tl /\ json_space c = false /\ code c <> 93.
Proof.
  destruct l as [|v l]; [done|]. intros _ He. simpl in He. bool_to_prop.
  destruct (text_head v) as (c & tl & Ev & Hs & Hc & _); [done|]. exists c.
  destruct l as [|w l]; [change (items [v]) with (text v)|rewrite items_cons, <- app_assoc];
    rewrite Ev; simpl; by eexists.
Qed.

Lemma pairs_head l rest : l <> [] -> exists tl, pairs l ++ rest = chr 34 :: tl.
Proof.
  destruct l as [|kv [|w l]]; [done|intros _..];
    [change (pairs [kv]) with (pair_text kv)|rewrite pairs_cons, <- app_assoc];
    rewrite pair_text_app; by eexists.
Qed.

Lemma arr_reads l : Forall reads l -> forallb encodable l = true -> reads (JArr l).
Proof.
  intros Hl He [|fuel] depth rest Hf Hd Hr; rewrite length_text_arr in Hf; [lia|].
  rewrite text_arr. cbn [height] in Hd. pose proof (fold_max_nonneg height l).
  destruct (decide (l = [])) as [-> | Hn].
  { unfold items; simpl. destruct (Z.leb_spec maxNestingDepth depth); [lia|done]. }
  destruct (items_head l (chr 93 :: rest) Hn He) as (c & tl & E & Hs & Hc).
  rewrite E, value_arr, <- E by (done || lia).
  rewrite elements_reads; [done|done|done|lia|lia].
Qed.

Lemma obj_reads l :
  Forall (fun kv => ValidString kv.1 = true /\ reads kv.2) l -> reads (JObj l).
Proof.
  intros Hl [|fuel] depth rest Hf Hd Hr; rewrite length_text_obj in Hf; [lia|].
  rewrite text_obj. cbn [height] in Hd.
  pose proof (fold_max_nonneg (fun kv : string * json => height kv.2) l).
  destruct (decide (l = [])) as [-> | Hn].
  { unfold pairs; simpl. destruct (Z.leb_spec maxNestingDepth depth); [lia|done]. }
  destruct (pairs_head l (chr 125 :: rest) Hn) as (tl & E).
  rewrite E, value_obj, <- E by lia.
  rewrite members_reads; [done|done|done|lia|lia].
Qed.

Lemma num_reads n : number_literal n = true -> reads (JNum n).
Proof.
  intros He fuel depth rest Hf Hd Hr. unfold text in *; cbn [Marshal] in *.
  pose proof (number_literal_head n He) as (c & l & E & Hc).
  destruct fuel; [rewrite E in Hf; simpl in Hf; lia|]. rewrite E. simpl app.
  rewrite (value_number _ _ _ _ Hc). change (c :: l ++ rest) with ((c :: l) ++ rest).
  rewrite <- E. unfold number_literal in He. bool_to_prop.
  rewrite (scan_number_app _ _ _ _ Hr He). by rewrite of_string_bytes.
Qed.

Lemma str_reads s : ValidString s = true -> reads (JStr s).
Proof.
  intros He fuel depth rest Hf Hd Hr. unfold text in *; cbn [Marshal] in *.
  rewrite string_bytes_quote.
  destruct fuel; [unfold quote in Hf; rewrite !string_bytes_app in Hf; simpl in Hf; lia|].
  by rewrite value_str, string_literal_escape.
Qed.

Lemma encodable_reads v : encodable v = true -> reads v.
Proof.
  induction v as [|b|n|s|l IH|l IH] using json_nested_ind; intros He.
  - intros [|fuel] depth rest Hf Hd Hr; [simpl in Hf; lia|done].
  - intros [|fuel] depth rest Hf Hd Hr; [destruct b; simpl in Hf; lia|by destruct b].
  - by apply num_reads.
  - by apply str_reads.
  - apply arr_reads; [by apply Forall_encodable|done].
  - apply obj_reads. cbn [encodable] in He. revert He.
    induction IH; simpl; intros He; constructor; bool_to_prop; auto.
Qed.

(** Go's encoder and decoder agree. *)
Lemma Unmarshal_Marshal v :
  encodable v = true -> height v <= maxNestingDepth -> Unmarshal (Marshal v) = Some v.
Proof.
  intros He Hh. unfold Unmarshal. cbv zeta. fold (text v).
  rewrite <- (app_nil_r (text v)) at 2.
  rewrite (encodable_reads v He); [done|lia|lia|done].
Qed.
