(* ===== verification/Sha256.v ===== *)
(** * [crypto/sha256] and [crypto/hmac]

    SHA-256 over byte lists (a byte is a [Z] below 256, a word a [Z] below
    2^32), the keyed digest the slot tokens are signed with, and the hexadecimal
    and raw renderings the source uses. *)

From Stdlib Require Import ZArith Lia Ascii.
From stdpp Require Import base list strings.
From S2P Require Import Prelude Json.

#[local] Open Scope Z_scope.

Definition word32 (n : Z) : Z := Z.land n 4294967295.
Definition rotate_right (n x : Z) : Z := Z.lor (Z.shiftr x n) (word32 (Z.shiftl x (32 - n))).
Definition xor3 (a b c : Z) : Z := Z.lxor (Z.lxor a b) c.

Definition small_sigma0 (x : Z) : Z := xor3 (rotate_right 7 x) (rotate_right 18 x) (Z.shiftr x 3).
Definition small_sigma1 (x : Z) : Z := xor3 (rotate_right 17 x) (rotate_right 19 x) (Z.shiftr x 10).
Definition big_sigma0 (x : Z) : Z := xor3 (rotate_right 2 x) (rotate_right 13 x) (rotate_right 22 x).
Definition big_sigma1 (x : Z) : Z := xor3 (rotate_right 6 x) (rotate_right 11 x) (rotate_right 25 x).
Definition choice (x y z : Z) : Z := Z.lxor (Z.land x y) (Z.land (4294967295 - x) z).
Definition majority (x y z : Z) : Z := xor3 (Z.land x y) (Z.land x z) (Z.land y z).

(** The fractional bits of the cube roots of the first sixty-four primes, and
    of the square roots of the first eight. *)
Definition round_constants : list Z :=
  [1116352408; 1899447441; 3049323471; 3921009573; 961987163; 1508970993; 2453635748; 2870763221;
   3624381080; 310598401; 607225278; 1426881987; 1925078388; 2162078206; 2614888103; 3248222580;
   3835390401; 4022224774; 264347078; 604807628; 770255983; 1249150122; 1555081692; 1996064986;
   2554220882; 2821834349; 2952996808; 3210313671; 3336571891; 3584528711; 113926993; 338241895;
   666307205; 773529912; 1294757372; 1396182291; 1695183700; 1986661051; 2177026350; 2456956037;
   2730485921; 2820302411; 3259730800; 3345764771; 3516065817; 3600352804; 4094571909; 275423344;
   430227734; 506948616; 659060556; 883997877; 958139571; 1322822218; 1537002063; 1747873779;
   1955562222; 2024104815; 2227730452; 2361852424; 2428436474; 2756734187; 3204031479; 3329325298].

Definition initial_state : list Z :=
  [1779033703; 3144134277; 1013904242; 2773480762; 1359893119; 2600822924; 528734635; 1541459225].

(** ** Padding and words *)
Fixpoint big_endian (n : nat) (z : Z) : list Z :=
  match n with O => [] | S k => big_endian k (z / 256) ++ [z mod 256] end.

Definition padding (length : Z) : list Z :=
  128 :: repeat 0 (Z.to_nat ((55 - length) mod 64)) ++ big_endian 8 (8 * length).

Fixpoint words (l : list Z) : list Z :=
  match l with
  | a :: b :: c :: d :: tl => (((a * 256 + b) * 256 + c) * 256 + d) :: words tl
  | _ => []
  end.

Fixpoint blocks (fuel : nat) (l : list Z) : list (list Z) :=
  match fuel, l with
  | O, _ | _, [] => []
  | S k, _ => take 16 l :: blocks k (drop 16 l)
  end.

(** ** Compression: [recent] holds the schedule, the latest word first. *)
Definition next_word (recent : list Z) : Z :=
  word32 (small_sigma1 (nth 1 recent 0) + nth 6 recent 0 + small_sigma0 (nth 14 recent 0) +
          nth 15 recent 0).

Fixpoint extend (n : nat) (recent : list Z) : list Z :=
  match n with O => recent | S k => extend k (next_word recent :: recent) end.

Definition schedule (block : list Z) : list Z := rev (extend 48 (rev block)).

Definition round (s : list Z) (kw : Z * Z) : list Z :=
  match s with
  | [a; b; c; d; e; f; g; h] =>
      let t1 := h + big_sigma1 e + choice e f g + kw.1 + kw.2 in
      let t2 := big_sigma0 a + majority a b c in
      [word32 (t1 + t2); a; b; c; word32 (d + t1); e; f; g]
  | _ => s
  end.

Definition compress (state block : list Z) : list Z :=
  zip_with (fun x y => word32 (x + y)) state
    (fold_left round (zip round_constants (schedule block)) state).

Definition Sum256 (message : list Z) : list Z :=
  let padded := words (message ++ padding (Z.of_nat (length message))) in
  mjoin (big_endian 4 <$> fold_left compress (blocks (length padded) padded) initial_state).

(** ** The keyed digest of [crypto/hmac] over SHA-256 *)
Definition hmac_pad (mask : Z) (key : list Z) : list Z :=
  let short := if (64 <? Z.of_nat (length key)) then Sum256 key else key in
  map (Z.lxor mask) (short ++ repeat 0 (64 - length short)).

Definition HMAC (key message : list Z) : list Z :=
  Sum256 (hmac_pad 92 key ++ Sum256 (hmac_pad 54 key ++ message)).

(** ** Strings *)
Definition octets (s : string) : list Z := map code (string_bytes s).
Definition of_octets (l : list Z) : string := of_bytes (map chr l).

Definition hex (l : list Z) : string :=
  of_bytes (mjoin ((fun n => [Json.hex_digit (n / 16); Json.hex_digit (n mod 16)]) <$> l)).

Definition sha256 (s : string) : string := of_octets (Sum256 (octets s)).
Definition sha256_hex (s : string) : string := hex (Sum256 (octets s)).
Definition hmac_sha256 (key s : string) : string := of_octets (HMAC (octets key) (octets s)).

(** ** A digest has 32 bytes *)
Lemma round_length s kw : length (round s kw) = length s.
Proof. unfold round. by repeat case_match. Qed.

Lemma compress_length state block : length state = 8%nat -> length (compress state block) = 8%nat.
Proof.
  intros Hs. unfold compress. rewrite length_zip_with.
  assert (Hf : forall l s, length (fold_left round l s) = length s).
  { induction l as [|kw l IH]; intros s; [done|]. cbn [fold_left]. by rewrite IH, round_length. }
  rewrite Hf. lia.
Qed.

Lemma Sum256_length message : length (Sum256 message) = 32%nat.
Proof.
  unfold Sum256. cbv zeta. generalize (blocks (length (words (message ++ padding (Z.of_nat (length message)))))
    (words (message ++ padding (Z.of_nat (length message))))). intros l.
  assert (Hl : length (fold_left compress l initial_state) = 8%nat).
  { assert (H8 : length initial_state = 8%nat) by reflexivity. revert H8. generalize initial_state.
    induction l as [|b l IH]; intros s Hs; [done|]. cbn [fold_left]. by apply IH, compress_length. }
  assert (H4 : forall ws, length (mjoin (big_endian 4 <$> ws)) = (4 * length ws)%nat).
  { induction ws as [|x ws IH]; [done|]. change (length (big_endian 4 x ++ mjoin (big_endian 4 <$> ws)) = (4 * S (length ws))%nat).
    rewrite length_app, IH. cbn [big_endian app length]. lia. }
  rewrite H4, Hl. reflexivity.
Qed.

Example sha256_abc :
  sha256_hex "abc" = "ba7816bf8f01cfea414140de5dae2223b00361a396177a9cb410ff61f20015ad".
Proof. vm_compute. reflexivity. Qed.

Example hmac_rfc4231_case_2 :
  hex (HMAC (octets "Jefe") (octets "what do ya want for nothing?")) =
  "5bdcc146bf60754e6a042426089575c75a003f089d2739839dec58b964ec3843".
Proof. vm_compute. reflexivity. Qed.
