(* ===== verification/Base64.v ===== *)
(** * [encoding/base64]: [RawURLEncoding]

    The URL alphabet without padding.  The decoder skips line breaks and does
    not look at the unused bits of a last group, as Go's does. *)

From Stdlib Require Import ZArith Lia Ascii.
From stdpp Require Import base list strings.
From S2P Require Import Prelude Json.

#[local] Open Scope Z_scope.

Definition symbol (n : Z) : ascii :=
  chr (if n <? 26 then 65 + n else if n <? 52 then 71 + n else if n <? 62 then n - 4
       else if n =? 62 then 45 else 95).

Definition sextet (c : ascii) : option Z :=
  let n := code c in
  if (65 <=? n) && (n <=? 90) then Some (n - 65)
  else if (97 <=? n) && (n <=? 122) then Some (n - 71)
  else if (48 <=? n) && (n <=? 57) then Some (n + 4)
  else if n =? 45 then Some 62
  else if n =? 95 then Some 63
  else None.

Fixpoint encode (l : list ascii) : list ascii :=
  match l with
  | [] => []
  | [a] => let n := code a in [symbol (n / 4); symbol (n mod 4 * 16)]
  | [a; b] => let n := code a * 256 + code b in
              [symbol (n / 1024); symbol (n / 16 mod 64); symbol (n mod 16 * 4)]
  | a :: b :: c :: tl =>
      let n := (code a * 256 + code b) * 256 + code c in
      symbol (n / 262144) :: symbol (n / 4096 mod 64) :: symbol (n / 64 mod 64) ::
      symbol (n mod 64) :: encode tl
  end.

Fixpoint groups (l : list Z) : option (list ascii) :=
  match l with
  | [] => Some []
  | [_] => None
  | [a; b] => Some [chr ((a * 64 + b) / 16)]
  | [a; b; c] => let n := (a * 64 + b) * 64 + c in Some [chr (n / 1024); chr (n / 4 mod 256)]
  | a :: b :: c :: d :: tl =>
      let n := ((a * 64 + b) * 64 + c) * 64 + d in
      match groups tl with
      | Some r => Some (chr (n / 65536) :: chr (n / 256 mod 256) :: chr (n mod 256) :: r)
      | None => None
      end
  end.

Definition line_break (c : ascii) : bool := (code c =? 10) || (code c =? 13).

Fixpoint sextets (l : list ascii) : option (list Z) :=
  match l with
  | [] => Some []
  | c :: tl =>
      if line_break c then sextets tl
      else match sextet c, sextets tl with Some n, Some r => Some (n :: r) | _, _ => None end
  end.

Definition EncodeToString (s : string) : string := of_bytes (encode (string_bytes s)).

Definition DecodeString (s : string) : option string :=
  match sextets (string_bytes s) with
  | Some l => of_bytes <$> groups l
  | None => None
  end.

(** A decidable property of the sixty-four sextets or of the 256 characters. *)
Lemma below_forallb (p : Z -> bool) (k n : Z) :
  forallb p (map Z.of_nat (seq 0 (Z.to_nat k))) = true -> 0 <= n < k -> p n = true.
Proof.
  intros H Hn. rewrite forallb_forall in H. apply H, in_map_iff.
  exists (Z.to_nat n). rewrite Z2Nat.id by lia. split; [done|]. apply in_seq. lia.
Qed.

Definition symbol_ok (n : Z) : bool :=
  bool_decide (sextet (symbol n) = Some n) && negb (line_break (symbol n)) &&
  negb (code (symbol n) =? 46).

Lemma symbol_facts n :
  0 <= n < 64 ->
  sextet (symbol n) = Some n /\ line_break (symbol n) = false /\ code (symbol n) <> 46.
Proof.
  intros Hn. assert (H : symbol_ok n = true)
    by (apply (below_forallb symbol_ok 64); [by vm_compute|done]).
  unfold symbol_ok in H. bool_to_prop. done.
Qed.

Lemma sextets_symbol n l :
  0 <= n < 64 -> sextets (symbol n :: l) = (fun r => n :: r) <$> sextets l.
Proof.
  intros Hn. destruct (symbol_facts n Hn) as (Hs & Hb & _). cbn [sextets].
  rewrite Hb, Hs. by destruct (sextets l).
Qed.

(** ** Decoding what was encoded *)
Ltac sextet_range := Z.div_mod_to_equations; lia.

Ltac pose_codes :=
  repeat match goal with
  | |- context [code ?c] => lazymatch goal with
                            | _ : 0 <= code c < 256 |- _ => fail
                            | _ => pose proof (code_range c)
                            end
  end.

Lemma chr_eq n c : n = code c -> chr n = c.
Proof. intros ->. apply chr_code. Qed.

(** Three at a time. *)
Lemma triples_ind {A} (P : list A -> Prop) :
  P [] -> (forall a, P [a]) -> (forall a b, P [a; b]) ->
  (forall a b c l, P l -> P (a :: b :: c :: l)) -> forall l, P l.
Proof.
  intros H0 H1 H2 H3.
  assert (H : forall n l, (length l <= n)%nat -> P l).
  { induction n as [|n IH]; intros [|a [|b [|c l]]] Hl; simpl in Hl; auto; try lia.
    apply H3, IH. lia. }
  intros l. by apply (H (length l)).
Qed.

Lemma decode_encode l : exists s, sextets (encode l) = Some s /\ groups s = Some l.
Proof.
  induction l as [|a|a b|a b c l (s & Hs & Hg)] using triples_ind; cbn [encode].
  - by exists [].
  - pose_codes. rewrite !sextets_symbol by sextet_range. simpl.
    eexists; split; [done|]. simpl. do 2 f_equal. apply chr_eq. sextet_range.
  - pose_codes. rewrite !sextets_symbol by sextet_range. simpl.
    eexists; split; [done|]. simpl.
    f_equal. repeat f_equal; apply chr_eq; sextet_range.
  - pose_codes. rewrite !sextets_symbol by sextet_range. rewrite Hs. simpl.
    eexists; split; [done|]. cbn [groups]. rewrite Hg.
    repeat f_equal; apply chr_eq; sextet_range.
Qed.

Lemma DecodeString_EncodeToString s : DecodeString (EncodeToString s) = Some s.
Proof.
  unfold DecodeString, EncodeToString. rewrite string_of_bytes.
  destruct (decode_encode (string_bytes s)) as (l & -> & ->). simpl. by rewrite of_string_bytes.
Qed.

(** The alphabet has no dot, which separates the parts of a token. *)
Lemma encode_no_dot l : Forall (fun c => code c <> 46) (encode l).
Proof.
  induction l as [|a|a b|a b c l IH] using triples_ind; cbn [encode]; pose_codes;
    repeat constructor; try done; apply symbol_facts; sextet_range.
Qed.

Lemma encode_not_nil l : l <> [] -> encode l <> [].
Proof. by destruct l as [|a [|b [|c l]]]. Qed.

Example EncodeToString_example : EncodeToString "any carnal pleas?>" = "YW55IGNhcm5hbCBwbGVhcz8-".
Proof. vm_compute. reflexivity. Qed.
