(* ===== verification/TimeText.v ===== *)
(** * Reading times: [time.Parse(time.RFC3339, _)] and times in JSON

    The parser's own leniencies are kept: an hour of one digit, a comma before
    the fraction, a fraction the layout does not ask for, offsets of up to 24
    hours and 60 minutes.  [Local] is the zone of the process.

    A time that [RFC3339Nano] wrote is read back as the same instant, in every
    zone whose offset is a whole number of minutes. *)

From Stdlib Require Import ZArith Lia Ascii.
From stdpp Require Import base list strings pretty.
From S2P Require Import Prelude GoTime Json JsonParse Base64.

#[local] Open Scope Z_scope.

(** ** Pieces of the layout *)
Definition digit_value (c : ascii) : option Z := if is_digit c then Some (code c - 48) else None.

Fixpoint number (acc : Z) (l : list ascii) : option Z :=
  match l with
  | [] => Some acc
  | c :: tl => match digit_value c with Some d => number (acc * 10 + d) tl | None => None end
  end.

(** A number of exactly [n] digits. *)
Definition fixed (n : nat) (l : list ascii) : option (Z * list ascii) :=
  if (length l <? n)%nat then None
  else match number 0 (take n l) with Some z => Some (z, drop n l) | None => None end.

(** One digit or two, as the hour of the layout is read. *)
Definition hour (l : list ascii) : option (Z * list ascii) :=
  match l with
  | c :: d :: tl => match digit_value c, digit_value d with
                    | Some x, Some y => Some (x * 10 + y, tl)
                    | Some x, None => Some (x, d :: tl)
                    | None, _ => None
                    end
  | [c] => match digit_value c with Some x => Some (x, []) | None => None end
  | [] => None
  end.

Definition literal (n : Z) (l : list ascii) : option (list ascii) :=
  match l with c :: tl => if code c =? n then Some tl else None | [] => None end.

(** A fraction is read after the seconds; digits beyond the ninth are dropped. *)
Definition fraction_of (l : list ascii) : option (Z * list ascii) :=
  match l with
  | c :: d :: tl =>
      if ((code c =? 46) || (code c =? 44)) && is_digit d then
        let '(ds, rest) := span_digits (d :: tl) in
        let ds := take 9 ds in
        match number 0 ds with
        | Some n => Some (n * 10 ^ (9 - Z.of_nat (length ds)), rest)
        | None => None
        end
      else Some (0, l)
  | _ => Some (0, l)
  end.

(** [Z], or a sign, hours and minutes: the offset in seconds, [None] for [Z]. *)
Definition zone (l : list ascii) : option (option Z * list ascii) :=
  match l with
  | [] => None
  | c :: tl =>
      if code c =? 90 then Some (None, tl)
      else match fixed 2 tl with
           | None => None
           | Some (hh, tl) =>
               match literal 58 tl with
               | None => None
               | Some tl =>
                   match fixed 2 tl with
                   | None => None
                   | Some (mm, tl) =>
                       if (24 <? hh) || (60 <? mm) then None
                       else if code c =? 43 then Some (Some (hh * 3600 + mm * 60), tl)
                       else if code c =? 45 then Some (Some (- (hh * 3600 + mm * 60)), tl)
                       else None
                   end
               end
           end
  end.

Definition leap (y : Z) : bool := (y mod 4 =? 0) && (negb (y mod 100 =? 0) || (y mod 400 =? 0)).

Definition days_in (y m : Z) : Z :=
  if m =? 2 then if leap y then 29 else 28
  else if (m =? 4) || (m =? 6) || (m =? 9) || (m =? 11) then 30 else 31.

(** ** The parser *)
Definition between_bad (lo hi n : Z) : bool := (n <? lo) || (hi <? n).

Definition date_part (l : list ascii) : option (Z * Z * Z * list ascii) :=
  '(y, l) ← fixed 4 l; l ← literal 45 l;
  '(m, l) ← fixed 2 l; l ← literal 45 l;
  '(d, l) ← fixed 2 l; l ← literal 84 l;
  Some (y, m, d, l).

Definition clock_part (l : list ascii) : option (Z * Z * Z * Z * list ascii) :=
  '(h, l) ← hour l; l ← literal 58 l;
  '(mi, l) ← fixed 2 l; l ← literal 58 l;
  '(s, l) ← fixed 2 l; '(n, l) ← fraction_of l;
  Some (h, mi, s, n, l).

Definition in_zone (Local : Location) (t : Time) (off : option Z) : Time :=
  match off with
  | None => t
  | Some off =>
      let n := ns t - off * Second in
      mkTime n (if offset_at Local (n / Second) =? off then Local else mkLocation "" off [])
  end.

Definition ParseRFC3339 (Local : Location) (text : string) : option Time :=
  '(y, m, d, l) ← date_part (string_bytes text);
  '(h, mi, s, n, l) ← clock_part l;
  '(off, l) ← zone l;
  match l with
  | _ :: _ => None
  | [] =>
      if between_bad 1 12 m || between_bad 1 (days_in y m) d || (24 <=? h) || (60 <=? mi) || (60 <=? s)
      then None
      else Some (in_zone Local (Date y m d h mi s n UTC) off)
  end.

(** ** Times in JSON: [MarshalJSON] and [UnmarshalJSON]

    A year of other than four digits or an offset of a day or more does not
    encode; [null] leaves the old value. *)
Definition time_json (t : Time) : option json :=
  let y := Year t in let off := offset_at (tloc t) (unix t) in
  if (0 <=? y) && (y <=? 9999) && (Z.abs off <? 86400) then Some (JStr (RFC3339Nano t)) else None.

Definition decode_time (Local : Location) (old : Time) (v : json) : option Time :=
  match v with
  | JStr s => ParseRFC3339 Local s
  | JNull => Some old
  | _ => None
  end.

Example ParseRFC3339_example :
  ParseRFC3339 UTC "2026-08-03T9:00:45,125+02:00" =
  Some (mkTime 1785740445125000000 (mkLocation "" 7200 [])).
Proof. vm_compute. reflexivity. Qed.

Example ParseRFC3339_bad_day : ParseRFC3339 UTC "2026-02-29T09:00:00Z" = None.
Proof. vm_compute. reflexivity. Qed.

(** * Facts about times as text *)

#[local] Open Scope Z_scope.

(** ** Month lengths of the calendar *)
Fixpoint all_below (n : nat) (z : Z) (p : Z -> bool) : bool :=
  match n with O => true | S n => p z && all_below n (z + 1) p end.

Lemma all_below_spec n z p k :
  all_below n z p = true -> z <= k < z + Z.of_nat n -> p k = true.
Proof.
  revert z; induction n as [|n IH]; intros z H Hk; simpl in H; [lia|]. bool_to_prop.
  destruct (decide (k = z)) as [->|]; [done|]. apply (IH (z + 1)); [done|lia].
Qed.

Lemma leap_era y k : leap (y + k * 400) = leap y.
Proof.
  unfold leap. rewrite Z.mod_add by lia. replace (k * 400) with (k * 4 * 100) by lia.
  rewrite Z.mod_add by lia. replace (k * 4 * 100) with (k * 100 * 4) by lia.
  rewrite Z.mod_add by lia. done.
Qed.

(** Years of an era start in March: only a leap year has a 366th day. *)
Definition long_year_leaps (yoe : Z) : bool :=
  negb (year_of_era (365 * yoe + yoe / 4 - yoe / 100 + 365) =? yoe) || leap (yoe + 1).

Lemma long_year doe :
  0 <= doe < 146097 -> day_of_year doe = 365 -> leap (year_of_era doe + 1) = true.
Proof.
  intros Hd H. destruct (year_of_era_range doe Hd) as [Hy _].
  assert (E : doe = 365 * year_of_era doe + year_of_era doe / 4 - year_of_era doe / 100 + 365)
    by (unfold day_of_year in H; lia).
  pose proof (all_below_spec 400 0 long_year_leaps (year_of_era doe)
                ltac:(by vm_compute) ltac:(lia)) as Hl.
  unfold long_year_leaps in Hl. rewrite <- E, Z.eqb_refl in Hl. done.
Qed.

(** The day within its month, counted from the month of March. *)
Lemma month_length_march doy mp :
  0 <= doy <= 365 -> mp = (5 * doy + 2) / 153 -> mp <> 11 ->
  forall y, 1 <= doy - (153 * mp + 2) / 5 + 1 <= days_in y (if mp <? 10 then mp + 3 else mp - 9).
Proof.
  intros Hd Hm Hn y. assert (Hr : 0 <= mp <= 10) by (Z.div_mod_to_equations; lia).
  unfold days_in.
  assert (Hc : mp = 0 \/ mp = 1 \/ mp = 2 \/ mp = 3 \/ mp = 4 \/ mp = 5 \/ mp = 6 \/ mp = 7 \/
               mp = 8 \/ mp = 9 \/ mp = 10) by lia.
  clear Hn Hr.
  repeat (destruct Hc as [Hc|Hc]; [subst; rewrite Hc; simpl; Z.div_mod_to_equations; lia|]).
  rewrite Hm. rewrite Hm in Hc. rewrite Hc. simpl. Z.div_mod_to_equations; lia.
Qed.

Lemma civil_day_bound z : let '(y, m, d) := civil_from_days z in 1 <= d <= days_in y m.
Proof.
  unfold civil_from_days. set (era := (z + 719468) / 146097).
  set (doe := (z + 719468) mod 146097).
  assert (Hd : 0 <= doe < 146097) by (apply Z.mod_pos_bound; lia).
  clearbody era doe. cbv zeta. fold (year_of_era doe). fold (day_of_year doe).
  destruct (year_of_era_range doe Hd) as [Hy Hdoy]. pose proof (long_year doe Hd) as Hl.
  revert Hy Hdoy Hl. generalize (year_of_era doe) (day_of_year doe). intros yoe doy Hy Hdoy Hl.
  destruct (decide ((5 * doy + 2) / 153 = 11)) as [E|E]; [|by apply month_length_march].
  rewrite E. change ((153 * 11 + 2) / 5) with 337. simpl. unfold days_in. simpl.
  replace (yoe + era * 400 + 1) with (yoe + 1 + era * 400) by lia. rewrite leap_era.
  assert (H337 : 337 <= doy) by (Z.div_mod_to_equations; lia).
  destruct (decide (doy = 365)) as [Hx|Hx]; [rewrite (Hl Hx); lia|].
  destruct (leap (yoe + 1)); lia.
Qed.

(** ** Digits *)
Lemma code_digit d : 0 <= d < 10 -> code (digit d) = 48 + d.
Proof. intros H. change (digit d) with (chr (48 + d)). apply code_chr. lia. Qed.

Lemma digit_is_digit d : 0 <= d < 10 -> is_digit (digit d) = true.
Proof. intros H. unfold is_digit. rewrite code_digit by done. lia. Qed.

Lemma digit_value_digit d : 0 <= d < 10 -> digit_value (digit d) = Some d.
Proof.
  intros H. unfold digit_value. rewrite digit_is_digit, code_digit by done. f_equal. lia.
Qed.

(** [digits w n] is [w] digits of value [n]. *)
Fixpoint digit_list (w : nat) (n : Z) : list ascii :=
  match w with O => [] | S w => digit_list w (n / 10) ++ [digit (n mod 10)] end.

Lemma digits_list w n acc : string_bytes (digits w n acc) = digit_list w n ++ string_bytes acc.
Proof.
  revert n acc; induction w as [|w IH]; intros n acc; simpl; [done|].
  rewrite IH, <- app_assoc. done.
Qed.

Lemma length_digit_list w n : length (digit_list w n) = w.
Proof. revert n; induction w as [|w IH]; intros n; simpl; [done|]. rewrite length_app, IH. simpl. lia. Qed.

Lemma number_app acc l m :
  number acc (l ++ m) = match number acc l with Some z => number z m | None => None end.
Proof.
  revert acc; induction l as [|c l IH]; intros acc; simpl; [done|].
  destruct (digit_value c); [apply IH|done].
Qed.

Lemma number_digits w n acc :
  0 <= n < 10 ^ Z.of_nat w -> number acc (digit_list w n) = Some (acc * 10 ^ Z.of_nat w + n).
Proof.
  revert n acc; induction w as [|w IH]; intros n acc H.
  - simpl in *. f_equal. lia.
  - rewrite Nat2Z.inj_succ, Z.pow_succ_r in * by lia. cbn [digit_list].
    rewrite number_app, IH by (Z.div_mod_to_equations; lia). simpl.
    rewrite digit_value_digit by (apply Z.mod_pos_bound; lia). f_equal.
    rewrite (Z.div_mod n 10) at 3 by lia. lia.
Qed.

Lemma digits_all_digits w n : 0 <= n -> Forall (fun c => is_digit c = true) (digit_list w n).
Proof.
  revert n; induction w as [|w IH]; intros n H; simpl; [constructor|].
  apply Forall_app; split; [apply IH, Z.div_pos; lia|].
  repeat constructor. apply digit_is_digit, Z.mod_pos_bound. lia.
Qed.

Lemma append_int_digits n w :
  0 <= n < 10 ^ Z.of_nat w -> string_bytes (append_int n w) = digit_list w n.
Proof.
  intros H. unfold append_int. rewrite (Z.abs_eq n) by lia.
  rewrite (proj2 (Z.ltb_lt _ _) (proj2 H)), (proj2 (Z.ltb_ge n 0) (proj1 H)).
  by rewrite digits_list, app_nil_r.
Qed.

Lemma fixed_digits w n rest :
  0 <= n < 10 ^ Z.of_nat w -> fixed w (digit_list w n ++ rest) = Some (n, rest).
Proof.
  intros H. unfold fixed. rewrite length_app, length_digit_list.
  destruct (Nat.ltb_spec (w + length rest) w); [lia|].
  rewrite take_app_length', drop_app_length' by (symmetry; apply length_digit_list).
  rewrite number_digits by done. by rewrite Z.mul_0_l.
Qed.

Lemma hour_digits n rest :
  0 <= n < 100 -> hour (digit_list 2 n ++ rest) = Some (n, rest).
Proof.
  intros H. simpl. rewrite !digit_value_digit by (Z.div_mod_to_equations; lia).
  do 2 f_equal. Z.div_mod_to_equations; lia.
Qed.

(** ** Fractions *)
Lemma span_digits_all ds rest :
  Forall (fun c => is_digit c = true) ds ->
  match rest with [] => True | c :: _ => is_digit c = false end ->
  span_digits (ds ++ rest) = (ds, rest).
Proof.
  intros H Hr. induction H as [|c ds Hc _ IH]; simpl.
  - destruct rest as [|c rest]; [done|]. simpl. by rewrite Hr.
  - by rewrite Hc, IH.
Qed.

Definition fraction_end (rest : list ascii) : Prop :=
  match rest with [] => True | c :: _ => is_digit c = false /\ code c <> 46 /\ code c <> 44 end.

Lemma fraction_none rest : fraction_end rest -> fraction_of rest = Some (0, rest).
Proof.
  destruct rest as [|c [|d rest]]; [done..|]. intros (_ & H1 & H2). simpl.
  by rewrite (proj2 (Z.eqb_neq _ _) H1), (proj2 (Z.eqb_neq _ _) H2).
Qed.

Lemma fraction_digits w n rest :
  (1 <= w <= 9)%nat -> 0 <= n < 10 ^ Z.of_nat w -> fraction_end rest ->
  fraction_of (chr 46 :: digit_list w n ++ rest) = Some (n * 10 ^ (9 - Z.of_nat w), rest).
Proof.
  intros Hw Hn Hr. pose proof (digits_all_digits w n ltac:(lia)) as Ha.
  pose proof (length_digit_list w n) as Hl.
  unfold fraction_of. destruct (digit_list w n) as [|d ds] eqn:E; [simpl in Hl; lia|].
  simpl app. inversion Ha as [|? ? Hd _]; subst. rewrite Hd.
  change ((code (chr 46) =? 46) || (code (chr 46) =? 44)) with true. simpl andb. cbv iota.
  change (d :: ds ++ rest) with ((d :: ds) ++ rest). rewrite span_digits_all; [|done|by destruct rest; [|destruct Hr]].
  rewrite take_ge by lia. rewrite <- E, number_digits, length_digit_list by done.
  by rewrite Z.mul_0_l.
Qed.

Lemma trim_zeros_spec fuel w n :
  (w <= fuel)%nat -> 0 < n < 10 ^ Z.of_nat w ->
  exists v m, (1 <= v <= w)%nat /\ 0 <= m < 10 ^ Z.of_nat v /\
    n = m * 10 ^ (Z.of_nat w - Z.of_nat v) /\
    string_bytes (trim_zeros fuel w n) = chr 46 :: digit_list v m.
Proof.
  revert w n; induction fuel as [|fuel IH]; intros w n Hf Hn.
  { destruct w; [simpl in Hn; lia|lia]. }
  destruct w as [|w]; [simpl in Hn; lia|]. cbn [trim_zeros].
  rewrite Nat2Z.inj_succ, Z.pow_succ_r in Hn by lia.
  destruct (Z.eqb_spec (n mod 10) 0) as [E|E].
  - destruct (IH w (n / 10)) as (v & m & Hv & Hm & En & Es); [lia| |].
    { Z.div_mod_to_equations; lia. }
    replace (S w - 1)%nat with w by lia.
    exists v, m. split; [lia|]. split; [done|]. split; [|done].
    replace (Z.of_nat (S w) - Z.of_nat v) with (1 + (Z.of_nat w - Z.of_nat v)) by lia.
    rewrite Z.pow_add_r by lia. rewrite (Z.div_mod n 10), E, En by lia. lia.
  - exists (S w), n. rewrite Z.sub_diag. split; [lia|].
    rewrite Nat2Z.inj_succ, Z.pow_succ_r by lia. split; [lia|]. split; [lia|].
    rewrite string_bytes_app, digits_list, app_nil_r. done.
Qed.

(** ** Zones *)
Definition whole_minutes (t : Time) : Prop :=
  let off := offset_at (tloc t) (unix t) in off mod 60 = 0 /\ -86400 < off < 86400.

Lemma zone_suffix_head t :
  exists c l, string_bytes (zone_suffix t) = c :: l /\ is_digit c = false /\ code c <> 46 /\ code c <> 44.
Proof.
  unfold zone_suffix. destruct (_ =? 0); [by exists (chr 90), []|]. cbv zeta.
  rewrite string_bytes_app. destruct (_ <? 0); by do 2 eexists.
Qed.

Lemma zone_fraction_end t : fraction_end (string_bytes (zone_suffix t)).
Proof. destruct (zone_suffix_head t) as (c & l & -> & ?). done. Qed.

(** The suffix is [Z], or a sign, two digits of hours and two of minutes. *)
Lemma zone_suffix_bytes t :
  whole_minutes t ->
  let off := offset_at (tloc t) (unix t) in
  off = 0 /\ string_bytes (zone_suffix t) = [chr 90] \/
  exists c h m, 0 <= h < 24 /\ 0 <= m < 60 /\
    string_bytes (zone_suffix t) = c :: digit_list 2 h ++ chr 58 :: digit_list 2 m /\
    (c = chr 43 /\ off = h * 3600 + m * 60 \/ c = chr 45 /\ off = - (h * 3600 + m * 60)).
Proof.
  unfold whole_minutes. cbv zeta. intros [Hm Hr]. unfold zone_suffix.
  set (off := offset_at (tloc t) (unix t)) in *. clearbody off.
  destruct (Z.eqb_spec off 0) as [->|Hn]; [by left|]. right. cbv zeta.
  assert (Hq : off = Z.quot off 60 * 60).
  { pose proof (Z.quot_rem off 60 ltac:(lia)). pose proof (Z.rem_divide off 60 ltac:(lia)) as [_ H0].
    rewrite H0 in H by (by apply Z.mod_divide). lia. }
  set (q := Z.quot off 60) in *. clearbody q. subst off.
  assert (Hh : 0 <= Z.abs q / 60 < 24) by (Z.div_mod_to_equations; lia).
  assert (Hmm : 0 <= Z.abs q mod 60 < 60) by (apply Z.mod_pos_bound; lia).
  assert (Ea : Z.abs q / 60 * 3600 + Z.abs q mod 60 * 60 = Z.abs q * 60)
    by (pose proof (Z.div_mod (Z.abs q) 60); lia).
  exists (if q <? 0 then chr 45 else chr 43), (Z.abs q / 60), (Z.abs q mod 60).
  split; [done|]. split; [done|]. split.
  - rewrite !string_bytes_app.
    rewrite !append_int_digits by (change (10 ^ Z.of_nat 2) with 100; lia). by destruct (q <? 0).
  - destruct (Z.ltb_spec q 0); [right|left]; (split; [done|lia]).
Qed.

Lemma zone_suffix_zone t :
  whole_minutes t ->
  exists o, zone (string_bytes (zone_suffix t)) = Some (o, []) /\
    default 0 o = offset_at (tloc t) (unix t).
Proof.
  intros Hw. destruct (zone_suffix_bytes t Hw) as [[-> ->]|(c & h & m & Hh & Hm & -> & Hc)];
    [by exists None|].
  assert (Hz : code c <> 90 -> zone (c :: digit_list 2 h ++ chr 58 :: digit_list 2 m) =
    if code c =? 43 then Some (Some (h * 3600 + m * 60), [])
    else if code c =? 45 then Some (Some (- (h * 3600 + m * 60)), []) else None).
  { intros Hn. unfold zone. rewrite (proj2 (Z.eqb_neq _ _) Hn).
    rewrite fixed_digits by (change (10 ^ Z.of_nat 2) with 100; lia).
    change (literal 58 (chr 58 :: ?l)) with (Some l). cbv iota.
    rewrite <- (app_nil_r (digit_list 2 m)).
    rewrite fixed_digits by (change (10 ^ Z.of_nat 2) with 100; lia).
    destruct (Z.ltb_spec 24 h), (Z.ltb_spec 60 m); done || lia. }
  destruct Hc as [[-> ->]|[-> ->]]; rewrite Hz by done; eexists; by split.
Qed.

(** ** The round trip *)
Lemma clock_ranges t :
  0 <= HourOf t < 24 /\ 0 <= MinuteOf t < 60 /\ 0 <= SecondOf t < 60 /\
  0 <= NanosecondOf t < Second.
Proof.
  unfold HourOf, MinuteOf, SecondOf, NanosecondOf.
  pose proof (Z.mod_pos_bound (local_sec t) 86400). unfold day_sec.
  pose proof (Z.mod_pos_bound (ns t) Second). unfold Second in *.
  generalize dependent (local_sec t mod 86400). intros. Z.div_mod_to_equations; lia.
Qed.

Definition fraction_text (t : Time) : list ascii :=
  string_bytes (if NanosecondOf t =? 0 then EmptyString else trim_zeros 9 9 (NanosecondOf t)).

Lemma fraction_text_read t rest :
  fraction_end rest -> fraction_of (fraction_text t ++ rest) = Some (NanosecondOf t, rest).
Proof.
  intros Hr. unfold fraction_text. destruct (clock_ranges t) as (_ & _ & _ & Hn).
  destruct (Z.eqb_spec (NanosecondOf t) 0) as [->|H0]; [by apply fraction_none|].
  destruct (trim_zeros_spec 9 9 (NanosecondOf t)) as (v & m & Hv & Hm & En & ->);
    [lia|change (10 ^ Z.of_nat 9) with Second; lia|].
  simpl app. rewrite fraction_digits by done. do 2 f_equal. by rewrite En.
Qed.

Lemma RFC3339Nano_bytes t :
  0 <= Year t <= 9999 ->
  string_bytes (RFC3339Nano t) =
  digit_list 4 (Year t) ++ chr 45 :: digit_list 2 (Month t) ++ chr 45 :: digit_list 2 (Day t) ++
  chr 84 :: digit_list 2 (HourOf t) ++ chr 58 :: digit_list 2 (MinuteOf t) ++
  chr 58 :: digit_list 2 (SecondOf t) ++ fraction_text t ++ string_bytes (zone_suffix t).
Proof.
  intros Hy. destruct (civil_of_time t) as (_ & Hm & Hd).
  destruct (clock_ranges t) as (Hh & Hmi & Hs & _).
  unfold RFC3339Nano, format_seconds, format_date. cbv zeta. rewrite !string_bytes_app.
  rewrite !append_int_digits
    by (change (10 ^ Z.of_nat 4) with 10000 || change (10 ^ Z.of_nat 2) with 100; lia).
  rewrite <- !app_assoc. reflexivity.
Qed.

Lemma literal_chr n rest : 0 <= n < 256 -> literal n (chr n :: rest) = Some rest.
Proof. intros H. simpl. by rewrite code_chr, Z.eqb_refl. Qed.

Lemma date_part_digits y m d rest :
  0 <= y < 10000 -> 0 <= m < 100 -> 0 <= d < 100 ->
  date_part (digit_list 4 y ++ chr 45 :: digit_list 2 m ++ chr 45 :: digit_list 2 d ++ chr 84 :: rest) =
  Some (y, m, d, rest).
Proof.
  intros Hy Hm Hd. unfold date_part.
  rewrite fixed_digits by (change (10 ^ Z.of_nat 4) with 10000; lia). cbn [mbind option_bind].
  rewrite literal_chr by lia. cbn [mbind option_bind].
  rewrite fixed_digits by (change (10 ^ Z.of_nat 2) with 100; lia). cbn [mbind option_bind].
  rewrite literal_chr by lia. cbn [mbind option_bind].
  rewrite fixed_digits by (change (10 ^ Z.of_nat 2) with 100; lia). cbn [mbind option_bind].
  by rewrite literal_chr.
Qed.

Lemma clock_part_digits h mi s n fr rest :
  0 <= h < 100 -> 0 <= mi < 100 -> 0 <= s < 100 -> fraction_of (fr ++ rest) = Some (n, rest) ->
  clock_part (digit_list 2 h ++ chr 58 :: digit_list 2 mi ++ chr 58 :: digit_list 2 s ++ fr ++ rest) =
  Some (h, mi, s, n, rest).
Proof.
  intros Hh Hmi Hs Hf. unfold clock_part.
  rewrite hour_digits by lia. cbn [mbind option_bind].
  rewrite literal_chr by lia. cbn [mbind option_bind].
  rewrite fixed_digits by (change (10 ^ Z.of_nat 2) with 100; lia). cbn [mbind option_bind].
  rewrite literal_chr by lia. cbn [mbind option_bind].
  rewrite fixed_digits by (change (10 ^ Z.of_nat 2) with 100; lia). cbn [mbind option_bind].
  by rewrite Hf.
Qed.

Lemma ParseRFC3339_RFC3339Nano Local t :
  0 <= Year t <= 9999 -> whole_minutes t ->
  exists t', ParseRFC3339 Local (RFC3339Nano t) = Some t' /\ ns t' = ns t.
Proof.
  intros Hy Hw. destruct (civil_of_time t) as (Hc & Hm & Hd).
  pose proof (civil_day_bound (local_day t)) as Hb.
  assert (Hday : 1 <= Day t <= days_in (Year t) (Month t)).
  { unfold Year, Month, Day, civil in *. by destruct (civil_from_days (local_day t)) as [[? ?] ?]. }
  destruct (clock_ranges t) as (Hh & Hmi & Hs & Hn).
  destruct (zone_suffix_zone t Hw) as (o & Hz & Ho).
  unfold ParseRFC3339. rewrite RFC3339Nano_bytes by done.
  rewrite date_part_digits by lia. cbn [mbind option_bind].
  rewrite (clock_part_digits _ _ _ (NanosecondOf t)) by (lia || apply fraction_text_read, zone_fraction_end).
  cbn [mbind option_bind]. rewrite Hz. cbn [mbind option_bind].
  unfold between_bad.
  repeat match goal with
  | |- context [?a <? ?b] => destruct (Z.ltb_spec a b); [lia|]
  | |- context [?a <=? ?b] => destruct (Z.leb_spec a b); [lia|]
  end.
  simpl orb. cbv iota. eexists; split; [reflexivity|].
  rewrite Date_norm, Hc, (Z.div_small (NanosecondOf t)), (Z.mod_small (NanosecondOf t)) by lia.
  rewrite Z.add_0_r, clock_of_time. change (resolve UTC (local_sec t)) with (local_sec t).
  assert (Hns : ns t = (local_sec t - default 0 o) * Second + NanosecondOf t).
  { rewrite Ho. unfold local_sec, NanosecondOf. rewrite (ns_split t) at 1. lia. }
  rewrite Hns. destruct o as [o|]; simpl; lia.
Qed.

(** ** The text is ASCII *)
Definition plain (c : ascii) : Prop := code c < 128.

Lemma plain_valid fuel l : (length l <= fuel)%nat -> Forall plain l -> valid_utf8 fuel l = true.
Proof.
  revert fuel; induction l as [|c l IH]; intros [|fuel] Hl H; simpl in Hl; try done; [lia|].
  apply Forall_cons in H as [Hc H]. cbn [valid_utf8]. unfold utf8_len, plain in *.
  rewrite (proj2 (Z.ltb_lt _ _) Hc). cbn [drop]. rewrite drop_0. apply IH; [lia|done].
Qed.

Lemma digits_plain w n : 0 <= n -> Forall plain (digit_list w n).
Proof.
  intros H. eapply Forall_impl; [by apply digits_all_digits|].
  intros c Hc. unfold plain, is_digit in *. bool_to_prop. lia.
Qed.

Lemma plain_chr n : 0 <= n < 128 -> plain (chr n).
Proof. intros H. unfold plain. rewrite code_chr; lia. Qed.

Lemma RFC3339Nano_valid t :
  0 <= Year t <= 9999 -> whole_minutes t -> ValidString (RFC3339Nano t) = true.
Proof.
  intros Hy Hw. unfold ValidString. apply plain_valid.
  { pose proof (len_bytes (RFC3339Nano t)) as H. unfold len in H. lia. }
  rewrite RFC3339Nano_bytes by done.
  destruct (civil_of_time t) as (_ & Hm & Hd). destruct (clock_ranges t) as (Hh & Hmi & Hs & Hn).
  repeat first [ apply digits_plain; lia | apply Forall_cons; split; [apply plain_chr; lia|]
               | apply Forall_app; split ].
  - unfold fraction_text. destruct (Z.eqb_spec (NanosecondOf t) 0) as [|H0]; [constructor|].
    destruct (trim_zeros_spec 9 9 (NanosecondOf t)) as (v & m & _ & Hv & _ & E);
      [lia|change (10 ^ Z.of_nat 9) with Second; lia|]. cbv iota. rewrite E.
    apply Forall_cons; split; [apply plain_chr; lia|apply digits_plain; lia].
  - destruct (zone_suffix_bytes t Hw) as [[_ ->]|(c & h & m & ? & ? & -> & Hc)].
    + by repeat constructor.
    + apply Forall_cons; split; [destruct Hc as [[-> _]|[-> _]]; by apply plain_chr|].
      apply Forall_app; split; [apply digits_plain; lia|].
      apply Forall_cons; split; [by apply plain_chr|apply digits_plain; lia].
Qed.
