(* ===== verification/Tokens.v ===== *)
(** * Slot tokens: [internal/tools/tokens.go]

    A slot the model may book is shown to it as a signed token: the claims in
    JSON, encoded, and an HMAC over them.  A time text written with JSON escapes,
    which no encoder does, is read as the text it stands for.

    [Verify] on a token of [Sign] under the same key gives the signed claims, or
    the error of exactly the check that fails. *)

From Stdlib Require Import ZArith Lia Ascii.
From stdpp Require Import base list strings gmap pretty.
From S2P Require Import Prelude GoTime Json JsonParse Validation Base64 TimeText Sha256 Confirmations.

#[local] Open Scope Z_scope.

Definition ErrInvalidSlotToken : error := ErrSentinel "invalid slot token".
Definition ErrExpiredSlotToken : error := ErrSentinel "expired slot token".
Definition ErrSlotTokenScope : error := ErrSentinel "slot token belongs to another security scope".

Record SlotClaims := mkClaims {
  sc_Version : Z; sc_TenantID : string; sc_ConversationID : string; sc_ServiceID : string;
  sc_ServiceName : string; sc_StaffID : string; sc_StaffName : string;
  sc_StartAt : Time; sc_EndAt : Time; sc_Timezone : string; sc_ExpiresAt : Time
}.

Record SlotSigner := mkSigner { signing_key : string }.

Definition NewSlotSigner (key : string) : result SlotSigner :=
  if len key <? 32 then Err (ErrText "slot signing key must contain at least 32 bytes")
  else Ok (mkSigner key).

(** The domain separator ends with a zero byte. *)
Definition mac_prefix : string := String.append "kontor.slot.v1" (str zero).

Definition mac (s : SlotSigner) (encodedPayload : string) : string :=
  hmac_sha256 (signing_key s) (String.append mac_prefix encodedPayload).

(** The claims a token may carry. *)
Definition incomplete (c : SlotClaims) : bool :=
  negb (sc_Version c =? 1) || bool_decide (sc_TenantID c = "") ||
  bool_decide (sc_ConversationID c = "") || bool_decide (sc_ServiceID c = "") ||
  bool_decide (sc_StaffID c = "") || IsZero (sc_StartAt c) || IsZero (sc_EndAt c) ||
  negb (Before (sc_StartAt c) (sc_EndAt c)) || IsZero (sc_ExpiresAt c).

Definition set_Version (v : Z) (c : SlotClaims) : SlotClaims :=
  mkClaims v (sc_TenantID c) (sc_ConversationID c) (sc_ServiceID c) (sc_ServiceName c)
    (sc_StaffID c) (sc_StaffName c) (sc_StartAt c) (sc_EndAt c) (sc_Timezone c) (sc_ExpiresAt c).

(** [json.Marshal] of the claims; a time may fail to encode. *)
Definition encode_claims (c : SlotClaims) : option json :=
  match time_json (sc_StartAt c), time_json (sc_EndAt c), time_json (sc_ExpiresAt c) with
  | Some start, Some stop, Some expires =>
      Some (JObj [("v", JInt (sc_Version c)); ("tenant_id", JStr (sc_TenantID c));
        ("conversation_id", JStr (sc_ConversationID c)); ("service_id", JStr (sc_ServiceID c));
        ("service_name", JStr (sc_ServiceName c)); ("staff_id", JStr (sc_StaffID c));
        ("staff_name", JStr (sc_StaffName c)); ("start_at", start); ("end_at", stop);
        ("timezone", JStr (sc_Timezone c)); ("expires_at", expires)])
  | _, _, _ => None
  end.

Definition token_prefix : string := "slt_v1_".

Definition Sign (s : SlotSigner) (claims : SlotClaims) : result string :=
  let claims := if sc_Version claims =? 0 then set_Version 1 claims else claims in
  if incomplete claims then Err (ErrWrap "incomplete claims" ErrInvalidSlotToken)
  else match encode_claims claims with
       | None => Err (ErrText "marshal slot claims")
       | Some v =>
           let encoded := EncodeToString (Marshal v) in
           Ok (String.append token_prefix (String.append encoded
                (String.append "." (EncodeToString (mac s encoded)))))
       end.

(** ** Reading a token *)
Fixpoint split_on (sep : Z) (l : list ascii) : list (list ascii) :=
  match l with
  | [] => [[]]
  | c :: tl =>
      if code c =? sep then [] :: split_on sep tl
      else match split_on sep tl with
           | part :: parts => (c :: part) :: parts
           | [] => [[c]]
           end
  end.

(** An integer field takes an integer literal of 64 bits. *)
Definition decode_int (old : Z) (v : json) : option Z :=
  match v with
  | JNull => Some old
  | JNum lit =>
      let '(sign, ds) := opt_sign (fun c => code c =? 45) (string_bytes lit) in
      match number 0 ds with
      | None => None
      | Some n => let n := match sign with [] => n | _ => - n end in
                  if (min_int64 <=? n) && (n <=? max_int64) then Some n else None
      end
  | _ => None
  end.

Definition decode_text (old : string) (v : json) : option string :=
  match v with JStr s => Some s | JNull => Some old | _ => None end.

(** Into a struct: a field takes the member that names it without regard to
    case; other members are ignored, [null] leaves the field, another type is an
    error. *)
Fixpoint decode_fields {A} (field : string * json -> A -> option A) (l : list (string * json)) (a : A)
    : option A :=
  match l with [] => Some a | kv :: tl => a ← field kv a; decode_fields field tl a end.

Definition decode_struct {A} (field : string * json -> A -> option A) (v : json) (a : A) : option A :=
  match v with JObj l => decode_fields field l a | JNull => Some a | _ => None end.

Definition zero_time : Time := mkTime zero_ns UTC.
Definition zero_claims : SlotClaims := mkClaims 0 "" "" "" "" "" "" zero_time zero_time "" zero_time.

Section with_local.
Context (Local : Location).

(** One member into its field, by name without regard to case; a member that
    names no field is ignored. *)
Definition decode_member (kv : string * json) (c : SlotClaims) : option SlotClaims :=
  let '(mkClaims v tenant conv service service_name staff staff_name start stop tz expires) := c in
  let '(k, x) := kv in
  if names_field k "v" then
    v ← decode_int v x; Some (mkClaims v tenant conv service service_name staff staff_name start stop tz expires)
  else if names_field k "tenant_id" then
    tenant ← decode_text tenant x; Some (mkClaims v tenant conv service service_name staff staff_name start stop tz expires)
  else if names_field k "conversation_id" then
    conv ← decode_text conv x; Some (mkClaims v tenant conv service service_name staff staff_name start stop tz expires)
  else if names_field k "service_id" then
    service ← decode_text service x; Some (mkClaims v tenant conv service service_name staff staff_name start stop tz expires)
  else if names_field k "service_name" then
    service_name ← decode_text service_name x; Some (mkClaims v tenant conv service service_name staff staff_name start stop tz expires)
  else if names_field k "staff_id" then
    staff ← decode_text staff x; Some (mkClaims v tenant conv service service_name staff staff_name start stop tz expires)
  else if names_field k "staff_name" then
    staff_name ← decode_text staff_name x; Some (mkClaims v tenant conv service service_name staff staff_name start stop tz expires)
  else if names_field k "start_at" then
    start ← decode_time Local start x; Some (mkClaims v tenant conv service service_name staff staff_name start stop tz expires)
  else if names_field k "end_at" then
    stop ← decode_time Local stop x; Some (mkClaims v tenant conv service service_name staff staff_name start stop tz expires)
  else if names_field k "timezone" then
    tz ← decode_text tz x; Some (mkClaims v tenant conv service service_name staff staff_name start stop tz expires)
  else if names_field k "expires_at" then
    expires ← decode_time Local expires x; Some (mkClaims v tenant conv service service_name staff staff_name start stop tz expires)
  else Some c.

Definition decode_claims (payload : string) : option SlotClaims :=
  v ← Unmarshal payload; decode_struct decode_member v zero_claims.

(** The signature and the claims of a token that is authentic. *)
Definition open_token (s : SlotSigner) (token : string) : option SlotClaims :=
  if 1024 <? len token then None
  else match after (string_bytes token_prefix) (string_bytes token) with
       | None => None
       | Some rest =>
           match split_on 46 rest with
           | [payload; signature] =>
               if bool_decide (payload = []) || bool_decide (signature = []) then None
               else if negb (bool_decide (DecodeString (of_bytes signature) = Some (mac s (of_bytes payload))))
               then None
               else match DecodeString (of_bytes payload) with
                    | Some text => decode_claims text
                    | None => None
                    end
           | _ => None
           end
       end.

Definition Verify (s : SlotSigner) (token : string) (trusted : TrustedContext) (now : Time)
    : result SlotClaims :=
  match open_token s token with
  | None => Err ErrInvalidSlotToken
  | Some claims =>
      if incomplete claims then Err ErrInvalidSlotToken
      else if negb (bool_decide (sc_TenantID claims = tx_TenantID trusted)) ||
              negb (bool_decide (sc_ConversationID claims = tx_ConversationID trusted))
      then Err ErrSlotTokenScope
      else if negb (Before now (sc_ExpiresAt claims)) then Err ErrExpiredSlotToken
      else Ok claims
  end.
End with_local.

(** * Slot tokens are read back as they were signed *)

From S2P Require Import JsonFacts.

#[local] Open Scope Z_scope.

(** ** The digest is never empty *)
Lemma length_round s kw : length s = 8%nat -> length (round s kw) = 8%nat.
Proof. intros H. by do 9 (destruct s as [|? s]; try discriminate H). Qed.

Lemma length_rounds l s : length s = 8%nat -> length (fold_left round l s) = 8%nat.
Proof. revert s; induction l as [|kw l IH]; intros s H; simpl; [done|]. by apply IH, length_round. Qed.

Lemma length_compress s b : length s = 8%nat -> length (compress s b) = 8%nat.
Proof.
  intros H. unfold compress. rewrite length_zip_with, length_rounds, H by done. done.
Qed.

Lemma length_compressed bs s : length s = 8%nat -> length (fold_left compress bs s) = 8%nat.
Proof. revert s; induction bs as [|b bs IH]; intros s H; simpl; [done|]. by apply IH, length_compress. Qed.

Lemma length_big_endian n z : length (big_endian n z) = n.
Proof. revert z; induction n as [|n IH]; intros z; simpl; [done|]. rewrite length_app, IH. simpl. lia. Qed.

Lemma Sum256_not_nil m : Sum256 m <> [].
Proof.
  unfold Sum256. cbv zeta.
  pose proof (length_compressed (blocks (length (words (m ++ padding (Z.of_nat (length m)))))
    (words (m ++ padding (Z.of_nat (length m))))) initial_state eq_refl) as H.
  destruct (fold_left _ _ _) as [|z l]; [done|]. intros E.
  apply app_eq_nil in E as [E _]. pose proof (length_big_endian 4 z) as Hl. by rewrite E in Hl.
Qed.

Lemma mac_not_nil s e : string_bytes (mac s e) <> [].
Proof.
  unfold mac, hmac_sha256, of_octets, HMAC. rewrite string_of_bytes. intros E.
  apply map_eq_nil in E. by apply Sum256_not_nil in E.
Qed.

(** ** The parts of a token *)
Lemma after_app w l : after w (w ++ l) = Some l.
Proof. induction w as [|c w IH]; simpl; [done|]. by rewrite Ascii.eqb_refl. Qed.

Lemma split_on_part sep a :
  Forall (fun c => code c <> sep) a -> split_on sep a = [a].
Proof.
  induction 1 as [|c a Hc _ IH]; simpl; [done|]. by rewrite (proj2 (Z.eqb_neq _ _) Hc), IH.
Qed.

Lemma split_on_parts sep a b :
  0 <= sep < 256 -> Forall (fun c => code c <> sep) a -> Forall (fun c => code c <> sep) b ->
  split_on sep (a ++ chr sep :: b) = [a; b].
Proof.
  intros Hs Ha Hb. induction Ha as [|c a Hc _ IH]; simpl.
  - by rewrite code_chr, Z.eqb_refl, split_on_part.
  - by rewrite (proj2 (Z.eqb_neq _ _) Hc), IH.
Qed.

Lemma bool_decide_nil (l : list ascii) : l <> [] -> bool_decide (l = []) = false.
Proof. intros H. by apply bool_decide_eq_false_2. Qed.

Lemma string_bytes_encoded s : string_bytes (EncodeToString s) = encode (string_bytes s).
Proof. apply string_of_bytes. Qed.

Lemma open_token_signed Local s text :
  string_bytes text <> [] ->
  open_token Local s (String.append token_prefix (String.append (EncodeToString text)
    (String.append "." (EncodeToString (mac s (EncodeToString text)))))) =
  if 1024 <? len (String.append token_prefix (String.append (EncodeToString text)
    (String.append "." (EncodeToString (mac s (EncodeToString text)))))) then None
  else decode_claims Local text.
Proof.
  intros Ht. unfold open_token. destruct (1024 <? _); [done|].
  rewrite string_bytes_app, after_app, !string_bytes_app.
  change (string_bytes "." ++ ?l) with (chr 46 :: l). rewrite !string_bytes_encoded.
  rewrite (split_on_parts 46) by (lia || apply encode_no_dot).
  rewrite (bool_decide_nil (encode (string_bytes text))) by (by apply encode_not_nil).
  rewrite (bool_decide_nil (encode (string_bytes (mac s _)))) by (apply encode_not_nil, mac_not_nil).
  simpl orb. cbv iota.
  repeat change (of_bytes (encode (string_bytes ?x))) with (EncodeToString x).
  rewrite (DecodeString_EncodeToString (mac s _)), bool_decide_eq_true_2 by done.
  simpl negb. cbv iota. by rewrite (DecodeString_EncodeToString text).
Qed.

(** ** The claims *)
Definition printable (c : SlotClaims) : Prop :=
  Forall (fun s => ValidString s = true)
    [sc_TenantID c; sc_ConversationID c; sc_ServiceID c; sc_ServiceName c; sc_StaffID c;
     sc_StaffName c; sc_Timezone c] /\
  Forall whole_minutes [sc_StartAt c; sc_EndAt c; sc_ExpiresAt c].

(** Equal but for the locations of their times. *)
Definition same_claims (c d : SlotClaims) : Prop :=
  sc_Version c = 1 /\ sc_TenantID c = sc_TenantID d /\ sc_ConversationID c = sc_ConversationID d /\
  sc_ServiceID c = sc_ServiceID d /\ sc_ServiceName c = sc_ServiceName d /\
  sc_StaffID c = sc_StaffID d /\ sc_StaffName c = sc_StaffName d /\
  ns (sc_StartAt c) = ns (sc_StartAt d) /\ ns (sc_EndAt c) = ns (sc_EndAt d) /\
  sc_Timezone c = sc_Timezone d /\ ns (sc_ExpiresAt c) = ns (sc_ExpiresAt d).

Lemma time_json_spec t v :
  time_json t = Some v -> whole_minutes t ->
  encodable v = true /\ height v = 0 /\
  forall Local old, exists t', decode_time Local old v = Some t' /\ ns t' = ns t.
Proof.
  unfold time_json. cbv zeta. intros H Hw. destruct (_ && _) eqn:E; [|done].
  injection H as <-. bool_to_prop. split; [|split; [done|]].
  - by apply RFC3339Nano_valid.
  - intros Local old. by apply ParseRFC3339_RFC3339Nano.
Qed.

Ltac eval_names :=
  repeat match goal with
  | |- context [names_field ?k ?f] =>
      let b := eval vm_compute in (names_field k f) in change (names_field k f) with b; cbv iota
  end.

Lemma claims_roundtrip c v :
  encode_claims c = Some v -> sc_Version c = 1 -> printable c ->
  forall Local, exists c', decode_claims Local (Marshal v) = Some c' /\ same_claims c' c.
Proof.
  destruct c as [ver tenant conv service service_name staff staff_name start stop tz expires].
  unfold encode_claims; simpl. intros He -> [Hs Ht] Local; simpl in Hs, Ht.
  repeat match goal with
  | H : Forall _ (_ :: _) |- _ => apply Forall_cons in H as [? H]
  end.
  destruct (time_json start) as [vs|] eqn:Es; [|done].
  destruct (time_json stop) as [vp|] eqn:Ep; [|done].
  destruct (time_json expires) as [vx|] eqn:Ex; [|done]. injection He as <-.
  destruct (time_json_spec _ _ Es) as (Es1 & Es2 & Es3); [done|].
  destruct (time_json_spec _ _ Ep) as (Ep1 & Ep2 & Ep3); [done|].
  destruct (time_json_spec _ _ Ex) as (Ex1 & Ex2 & Ex3); [done|].
  unfold decode_claims. rewrite Unmarshal_Marshal; cycle 1.
  { cbn [encodable forallb fst snd]. rewrite Es1, Ep1, Ex1.
    repeat match goal with H : ValidString _ = true |- _ => rewrite H; clear H end. reflexivity. }
  { cbn [height foldr snd]. rewrite Es2, Ep2, Ex2. done. }
  destruct (Es3 Local zero_time) as (start' & Es4 & ?).
  destruct (Ep3 Local zero_time) as (stop' & Ep4 & ?).
  destruct (Ex3 Local zero_time) as (expires' & Ex4 & ?).
  exists (mkClaims 1 tenant conv service service_name staff staff_name start' stop' tz expires').
  split; [|by repeat split].
  cbn [mbind option_bind decode_struct decode_fields].
  assert (Ev : decode_int 0 (JInt 1) = Some 1) by reflexivity.
  repeat first [ progress (cbn [mbind option_bind decode_text decode_member zero_claims]; eval_names)
               | rewrite Ev | rewrite Es4 | rewrite Ep4 | rewrite Ex4 ]. done.
Qed.

(** ** The round trip *)
Lemma same_claims_checks c d :
  same_claims c d -> sc_Version d = 1 ->
  incomplete c = incomplete d /\ sc_TenantID c = sc_TenantID d /\
  sc_ConversationID c = sc_ConversationID d /\ ns (sc_ExpiresAt c) = ns (sc_ExpiresAt d).
Proof.
  intros (Ev & Et & Ec & Es & _ & Ef & _ & Ea & Eb & _ & Ex) Hd. repeat split; try done.
  unfold incomplete, Before, IsZero. by rewrite Ev, Et, Ec, Es, Ef, Ea, Eb, Ex, Hd.
Qed.

Lemma encode_claims_text c v : encode_claims c = Some v -> string_bytes (Marshal v) <> [].
Proof.
  unfold encode_claims. destruct (time_json (sc_StartAt c)); [|done].
  destruct (time_json (sc_EndAt c)); [|done]. destruct (time_json (sc_ExpiresAt c)); [|done].
  by intros [= <-].
Qed.

(** What [Sign] does when it succeeds. *)
Lemma Sign_inv s c token :
  Sign s c = Ok token ->
  let c1 := set_Version 1 c in
  (sc_Version c = 0 \/ sc_Version c = 1) /\ incomplete c1 = false /\ exists v,
  encode_claims c1 = Some v /\
  token = String.append token_prefix (String.append (EncodeToString (Marshal v))
    (String.append "." (EncodeToString (mac s (EncodeToString (Marshal v)))))).
Proof.
  unfold Sign. cbv zeta. intros H.
  assert (Hv : (sc_Version c = 0 \/ sc_Version c = 1) /\
    (if sc_Version c =? 0 then set_Version 1 c else c) = set_Version 1 c).
  { destruct (Z.eqb_spec (sc_Version c) 0) as [|Hn]; [by split; [left|]|].
    destruct (incomplete c) eqn:Ei; [done|]. unfold incomplete in Ei. bool_to_prop.
    split; [by right|]. destruct c; simpl in *; by subst. }
  destruct Hv as [Hv Ev]. rewrite Ev in H. split; [done|].
  destruct (incomplete _); [done|]. split; [done|].
  destruct (encode_claims _) as [v|]; [|done]. injection H as <-. by exists v.
Qed.

(** C33. A signed token is read back: what [Sign] made of printable claims,
    [Verify] under the same key returns as the same claims, unless it is longer
    than the 1024 bytes a token may have, was issued for another tenant or
    conversation, or has expired, which are told apart in this order. *)
Theorem slot_token_roundtrip Local s c token trusted now :
  Sign s c = Ok token -> printable c ->
  exists c', same_claims c' c /\
    Verify Local s token trusted now =
    if 1024 <? len token then Err ErrInvalidSlotToken
    else if negb (bool_decide (sc_TenantID c = tx_TenantID trusted) &&
                  bool_decide (sc_ConversationID c = tx_ConversationID trusted))
    then Err ErrSlotTokenScope
    else if ns (sc_ExpiresAt c) <=? ns now then Err ErrExpiredSlotToken
    else Ok c'.
Proof.
  intros Hs Hp. destruct (Sign_inv _ _ _ Hs) as (Hv & Hi & v & He & ->).
  destruct (claims_roundtrip (set_Version 1 c) v He eq_refl Hp Local) as (c' & Hc & Hsame).
  exists c'. split; [exact Hsame|]. destruct (same_claims_checks _ _ Hsame eq_refl) as (Ei & Et & Ec & Ex).
  unfold Verify. rewrite open_token_signed.
  2: by eapply encode_claims_text.
  destruct (1024 <? _); [done|]. rewrite Hc, Ei, Hi, Et, Ec, <- negb_andb.
  unfold Before. rewrite Ex, Z.ltb_antisym, negb_involutive. done.
Qed.

Definition demo_signer : SlotSigner := mkSigner "0123456789abcdef0123456789abcdef".

Definition demo_claims (service_name staff_name : string) : SlotClaims :=
  mkClaims 0 "11111111-1111-4111-8111-111111111111" "22222222-2222-4222-8222-222222222222"
    "33333333-3333-4333-8333-333333333333" service_name "44444444-4444-4444-8444-444444444444"
    staff_name (mkTime 1785751200000000000 (mkLocation "Europe/Berlin" 7200 []))
    (mkTime 1785753000000000000 (mkLocation "Europe/Berlin" 7200 [])) "Europe/Berlin"
    (mkTime 1785700000000000000 UTC).

Definition demo_reader : TrustedContext :=
  mkTrusted "11111111-1111-4111-8111-111111111111" "customer" "Ada" "ada@example.com" ""
    "22222222-2222-4222-8222-222222222222" "message" "run" ∅.

Definition demo_token : string :=
  match Sign demo_signer (demo_claims "Haircut" "Anna") with Ok t => t | Err _ => "" end.

(** A token of the salon read in its own conversation, before it expires. *)
Lemma slot_token_roundtrip_witness :
  exists c', same_claims c' (demo_claims "Haircut" "Anna") /\
    Verify UTC demo_signer demo_token demo_reader (mkTime 1785699999000000000 UTC) = Ok c'.
Proof.
  destruct (slot_token_roundtrip UTC demo_signer (demo_claims "Haircut" "Anna") demo_token
              demo_reader (mkTime 1785699999000000000 UTC)) as (c' & Hs & Hv).
  - vm_compute. reflexivity.
  - split; repeat constructor; vm_compute; reflexivity.
  - exists c'. split; [exact Hs|]. rewrite Hv. vm_compute. reflexivity.
Defined.

(** Names as long as their columns allow make a token that is never accepted. *)
Definition long_name : string := of_bytes (repeat (chr 65) 200).

Lemma long_names_unbookable trusted now :
  exists token, Sign demo_signer (demo_claims long_name long_name) = Ok token /\
    Verify UTC demo_signer token trusted now = Err ErrInvalidSlotToken.
Proof.
  eexists. split; [vm_compute; reflexivity|].
  unfold Verify, open_token. vm_compute. reflexivity.
Qed.
