(* ===== verification/Gateway.v ===== *)
(** * The tool gateway: [internal/tools/gateway.go]

    Every tool call of the model passes here: the allowlist, the arguments, the
    authenticated context, the capability, the frozen action of a confirmed
    proposal, and then one handler per tool over the booking backend and the
    confirmation store, which are interfaces.  A Go map is kept as its members;
    it is encoded with its keys sorted, as [json.Marshal] does.  A handler
    answers [None] where the source would panic on a type assertion.  Numbers in
    arguments keep their text; no contract of the allowlist has any. *)

From Stdlib Require Import ZArith Lia Ascii.
From stdpp Require Import base list strings sorting gmap pretty.
From S2P Require Import Prelude State GoTime Json Catalog JsonParse Validation TimeText Sha256 Confirmations Tools Tokens.

#[local] Open Scope Z_scope.

(** ** Names ([types.go]) *)
Definition ContractVersion : string := "1.0.0".
Definition ResultSchemaV1 : string := "kontor.tool-result.v1".
Definition ToolListServices : string := "list_services".
Definition ToolListStaff : string := "list_staff".
Definition ToolFindSlots : string := "find_slots".
Definition ToolCreateBooking : string := "create_booking".
Definition ToolReschedule : string := "reschedule_booking".
Definition ToolCancel : string := "cancel_booking".
Definition ToolUpsertContact : string := "upsert_crm_contact".
Definition ToolCreateDeal : string := "create_deal".
Definition ToolEscalate : string := "escalate_to_human".
Definition ToolRespondToCustomer : string := "respond_to_customer".

(** The names of [contracts.go]; the schemas themselves are read by a
    third-party validator. *)
Definition definitions : list string :=
  [ToolListServices; ToolListStaff; ToolFindSlots; ToolCreateBooking; ToolReschedule; ToolCancel;
   ToolUpsertContact; ToolCreateDeal; ToolEscalate; ToolRespondToCustomer].

Definition CapabilityScheduleRead : string := "schedule:read".
Definition CapabilityBookingCreateSelf : string := "booking:create:self".
Definition CapabilityBookingWriteSelf : string := "booking:write:self".
Definition CapabilityCRMContactSelf : string := "crm:contact:self".
Definition CapabilityCRMDealAfterBook : string := "crm:deal:after_booking".
Definition CapabilityConversationEscalate : string := "conversation:escalate:self".

Definition StatusSuccess : string := "success".
Definition StatusConfirmationRequired : string := "confirmation_required".
Definition StatusError : string := "error".

Definition CodeInvalidArgument : string := "INVALID_ARGUMENT".
Definition CodeContactRequired : string := "CONTACT_REQUIRED".
Definition CodeToolNotAllowed : string := "TOOL_NOT_ALLOWED".
Definition CodePolicyDenied : string := "POLICY_DENIED".
Definition CodeNotFoundOrNotOwned : string := "NOT_FOUND_OR_NOT_OWNED".
Definition CodeConfirmationInvalid : string := "CONFIRMATION_INVALID".
Definition CodeConfirmationExpired : string := "CONFIRMATION_EXPIRED".
Definition CodeConfirmationStale : string := "CONFIRMATION_STALE".
Definition CodeIdempotencyConflict : string := "IDEMPOTENCY_CONFLICT".
Definition CodeSlotUnavailable : string := "SLOT_UNAVAILABLE".
Definition CodeBookingStateConflict : string := "BOOKING_STATE_CONFLICT".
Definition CodeDependencyUnavailable : string := "DEPENDENCY_UNAVAILABLE".
Definition CodeInternal : string := "INTERNAL".
Definition CodeNotImplemented : string := "NOT_IMPLEMENTED".

(** ** Calls and results *)
Record Call := mkCall { call_ID : string; call_Name : string; call_Arguments : string }.

Record Slot := mkSlot {
  SlotToken : string; sl_ServiceID : string; sl_StaffID : string; sl_StaffName : string;
  sl_StartAt : Time; sl_EndAt : Time; sl_Timezone : string; sl_ExpiresAt : Time
}.

(** The data of each tool's success. *)
Inductive Data :=
| ListServicesData (services : list toolapi.Service)
| ListStaffData (staff : list toolapi.Staff)
| FindSlotsData (slots : list Slot) (availabilityAsOf : Time) (truncated : bool)
| CreateBookingData (booking : toolapi.Booking) (calendarSync : string)
| RescheduleBookingData (booking : toolapi.Booking)
| CancelBookingData (booking : toolapi.Booking)
| EscalationData (escalation : toolapi.EscalationOutcome).

Record ToolError := mkToolError {
  te_Code : string; te_Message : string; Retryable : bool; Resolution : string
}.

Record Result := mkResult {
  SchemaVersion : string; res_Tool : string; res_ContractVersion : string; CallID : string;
  res_Status : string; res_Data : option Data; res_Confirmation : option ConfirmationProposal;
  res_Error : option ToolError; DurationMS : Z; IdempotencyReplayed : bool;
  res_SideEffectCommitted : bool
}.

Definition success (r : Result) (data : Data) (replayed : bool) : Result :=
  mkResult (SchemaVersion r) (res_Tool r) (res_ContractVersion r) (CallID r) StatusSuccess
    (Some data) None None (DurationMS r) replayed (res_SideEffectCommitted r).

Definition failure (r : Result) (code message : string) (retryable : bool) (resolution : string) : Result :=
  mkResult (SchemaVersion r) (res_Tool r) (res_ContractVersion r) (CallID r) StatusError None None
    (Some (mkToolError code message retryable resolution)) (DurationMS r) (IdempotencyReplayed r)
    (res_SideEffectCommitted r).

Definition proposed (r : Result) (p : ConfirmationProposal) : Result :=
  mkResult (SchemaVersion r) (res_Tool r) (res_ContractVersion r) (CallID r)
    StatusConfirmationRequired (res_Data r) (Some p) None (DurationMS r) (IdempotencyReplayed r)
    (res_SideEffectCommitted r).

Definition committed (r : Result) : Result :=
  mkResult (SchemaVersion r) (res_Tool r) (res_ContractVersion r) (CallID r) (res_Status r)
    (res_Data r) (res_Confirmation r) (res_Error r) (DurationMS r) (IdempotencyReplayed r) true.

Definition timed (ms : Z) (r : Result) : Result :=
  mkResult (SchemaVersion r) (res_Tool r) (res_ContractVersion r) (CallID r) (res_Status r)
    (res_Data r) (res_Confirmation r) (res_Error r) ms (IdempotencyReplayed r)
    (res_SideEffectCommitted r).

Definition backendFailure (r : Result) (err : error) : Result :=
  if errors_is err toolapi.ErrNotFoundOrNotOwned then
    failure r CodeNotFoundOrNotOwned "resource was not found or is not owned by this customer" false "escalate"
  else if errors_is err toolapi.ErrSlotUnavailable then
    failure r CodeSlotUnavailable "slot is no longer available" false "find_another_slot"
  else if errors_is err toolapi.ErrBookingStateConflict then
    failure r CodeBookingStateConflict "booking state changed" false "ask_customer"
  else if errors_is err toolapi.ErrIdempotencyConflict then
    failure r CodeIdempotencyConflict "idempotency key was already used with different arguments" false "escalate"
  else if errors_is err toolapi.ErrDependencyUnavailable then
    failure r CodeDependencyUnavailable "a required dependency is unavailable" true "retry"
  else failure r CodeInternal "tool execution failed" false "escalate".

Definition discoveryFailure (r : Result) (err : error) : Result :=
  if errors_is err toolapi.ErrNotFoundOrNotOwned then
    failure r CodeInvalidArgument "service_id or staff_id does not match this tenant's catalogue; re-read the list_services and list_staff results and use their UUIDs" false "fix_arguments"
  else backendFailure r err.

(** A slot token that [Verify] refuses. *)
Definition slotFailure (r : Result) (err : error) : Result :=
  if errors_is err ErrExpiredSlotToken then
    failure r CodeSlotUnavailable "slot token has expired; find a new slot" false "find_another_slot"
  else if errors_is err ErrSlotTokenScope then
    failure r CodePolicyDenied "slot token is not valid for this conversation" false "escalate"
  else failure r CodeInvalidArgument "slot token is invalid or has been tampered with" false "find_another_slot".

(** A confirmation that [VerifyAuthorized] refuses. *)
Definition confirmationFailure (r : Result) (err : error) : Result :=
  if errors_is err ErrConfirmationExpired then
    failure r CodeConfirmationExpired "confirmation has expired" false "ask_customer"
  else if errors_is err ErrConfirmationStale then
    failure r CodeConfirmationStale "confirmation does not match these arguments" false "ask_customer"
  else failure r CodeConfirmationInvalid "confirmation is not authorized or was already used" false "ask_customer".

Definition firstNonEmpty (values : list string) : string :=
  match List.find (fun v => negb (bool_decide (v = ""))) values with Some v => v | None => "unknown" end.

(** ** Argument maps *)
Definition object := list (string * json).

Definition key_less (a b : string * json) : bool := String.ltb a.1 b.1.

(** A decoded JSON object as a map: later members win, keys are unordered, and
    nested objects are maps too. *)
Definition insert_member (m : object) (kv : string * json) : object := set_member kv.1 kv.2 m.

Fixpoint as_any (v : json) : json :=
  match v with
  | JObj l => JObj (sort_slice key_less
                (fold_left insert_member (map (fun kv => (kv.1, as_any kv.2)) l) []))
  | JArr l => JArr (map as_any l)
  | _ => v
  end.

Definition as_map (l : object) : object :=
  fold_left insert_member (map (fun kv => (kv.1, as_any kv.2)) l) [].

(** [json.Marshal] of a map. *)
Definition marshal_map (m : object) : string := Marshal (JObj (sort_slice key_less m)).

Definition text_member (key : string) (m : object) : option string :=
  match member key m with Some (JStr s) => Some s | _ => None end.

(** ** Trusted values *)
Definition Allows (c : TrustedContext) (capability : string) : bool :=
  default false (tx_Capabilities c !! capability).

Definition valid (c : TrustedContext) : bool :=
  negb (bool_decide (tx_TenantID c = "")) && negb (bool_decide (tx_CustomerID c = "")) &&
  negb (bool_decide (tx_ConversationID c = "")).

Definition requiredCapability (tool : string) : string :=
  if existsb (String.eqb tool) [ToolListServices; ToolListStaff; ToolFindSlots] then CapabilityScheduleRead
  else if String.eqb tool ToolCreateBooking then CapabilityBookingCreateSelf
  else if existsb (String.eqb tool) [ToolReschedule; ToolCancel] then CapabilityBookingWriteSelf
  else if String.eqb tool ToolUpsertContact then CapabilityCRMContactSelf
  else if String.eqb tool ToolCreateDeal then CapabilityCRMDealAfterBook
  else if String.eqb tool ToolEscalate then CapabilityConversationEscalate
  else "never".

Definition trustedCustomerProfile (trusted : TrustedContext) : toolapi.CustomerProfile * bool :=
  let contact := toolapi.mkContact (tx_CustomerEmail trusted) (tx_CustomerPhone trusted) in
  (toolapi.mkProfile (tx_CustomerDisplayName trusted) contact "" "",
   negb (bool_decide (tx_CustomerDisplayName trusted = "")) &&
   (negb (bool_decide (toolapi.Email contact = "")) || negb (bool_decide (toolapi.Phone contact = "")))).

(** A field that is left out when it is empty. *)
Definition omit_empty (name value : string) : object :=
  if bool_decide (value = "") then [] else [(name, JStr value)].

Definition profile_json (p : toolapi.CustomerProfile) : json :=
  JObj ([("display_name", JStr (toolapi.cp_DisplayName p));
         ("contact", JObj (omit_empty "email" (toolapi.Email (toolapi.cp_Contact p)) ++
                           omit_empty "phone" (toolapi.Phone (toolapi.cp_Contact p))))] ++
        omit_empty "company" (toolapi.cp_Company p) ++ omit_empty "locale" (toolapi.cp_Locale p)).

(** [adoptIdempotencyKey]: the key, and the arguments it was written into. *)
Definition adoptIdempotencyKey (m : object) (supplied : string) (trusted : TrustedContext)
    (tool : string) (facts : list string) : string * object :=
  if negb (blank supplied) then (supplied, m)
  else
    let parts := [tx_TenantID trusted; tx_ConversationID trusted; tx_CustomerID trusted; tool] ++ facts in
    let derived := String.append "srv-" (Sha256.sha256_hex (join (str zero) parts)) in
    (derived, set_member "idempotency_key" (JStr derived) m).

Definition confirmationBinding (trusted : TrustedContext) (tool : string) (arguments : object)
    : ConfirmationBinding :=
  let canonical := marshal_map
    (List.filter (fun kv => negb (String.eqb kv.1 "confirmation_id")) arguments) in
  mkBinding (tx_TenantID trusted) (tx_CustomerID trusted) (tx_ConversationID trusted)
    (tx_InboundMessageID trusted) tool (sha256 canonical) canonical.

(** ** Decoding arguments into structs *)
Definition contact_field (kv : string * json) (c : toolapi.ContactDetails) : option toolapi.ContactDetails :=
  let '(toolapi.mkContact email phone) := c in
  if names_field kv.1 "email" then x ← decode_text email kv.2; Some (toolapi.mkContact x phone)
  else if names_field kv.1 "phone" then x ← decode_text phone kv.2; Some (toolapi.mkContact email x)
  else Some c.

Definition profile_field (kv : string * json) (p : toolapi.CustomerProfile) : option toolapi.CustomerProfile :=
  let '(toolapi.mkProfile name contact company locale) := p in
  if names_field kv.1 "display_name" then
    x ← decode_text name kv.2; Some (toolapi.mkProfile x contact company locale)
  else if names_field kv.1 "contact" then
    x ← decode_struct contact_field kv.2 contact; Some (toolapi.mkProfile name x company locale)
  else if names_field kv.1 "company" then
    x ← decode_text company kv.2; Some (toolapi.mkProfile name contact x locale)
  else if names_field kv.1 "locale" then
    x ← decode_text locale kv.2; Some (toolapi.mkProfile name contact company x)
  else Some p.

Record createBookingArguments := mkCreateArgs {
  ca_SlotToken : string; ca_Customer : toolapi.CustomerProfile; ca_Notes : string;
  ca_IdempotencyKey : string; ca_ConfirmationID : string
}.

Definition create_field (kv : string * json) (a : createBookingArguments) : option createBookingArguments :=
  let '(mkCreateArgs token customer notes key confirmation) := a in
  if names_field kv.1 "slot_token" then
    x ← decode_text token kv.2; Some (mkCreateArgs x customer notes key confirmation)
  else if names_field kv.1 "customer" then
    x ← decode_struct profile_field kv.2 customer; Some (mkCreateArgs token x notes key confirmation)
  else if names_field kv.1 "notes" then
    x ← decode_text notes kv.2; Some (mkCreateArgs token customer x key confirmation)
  else if names_field kv.1 "idempotency_key" then
    x ← decode_text key kv.2; Some (mkCreateArgs token customer notes x confirmation)
  else if names_field kv.1 "confirmation_id" then
    x ← decode_text confirmation kv.2; Some (mkCreateArgs token customer notes key x)
  else Some a.

Record rescheduleBookingArguments := mkMoveArgs {
  ra_BookingID : string; ra_SlotToken : string; ra_IdempotencyKey : string; ra_ConfirmationID : string
}.

Definition new_slot_field (kv : string * json) (token : string) : option string :=
  if names_field kv.1 "slot_token" then decode_text token kv.2 else Some token.

Definition reschedule_field (kv : string * json) (a : rescheduleBookingArguments)
    : option rescheduleBookingArguments :=
  let '(mkMoveArgs booking token key confirmation) := a in
  if names_field kv.1 "booking_id" then
    x ← decode_text booking kv.2; Some (mkMoveArgs x token key confirmation)
  else if names_field kv.1 "new_slot" then
    x ← decode_struct new_slot_field kv.2 token; Some (mkMoveArgs booking x key confirmation)
  else if names_field kv.1 "idempotency_key" then
    x ← decode_text key kv.2; Some (mkMoveArgs booking token x confirmation)
  else if names_field kv.1 "confirmation_id" then
    x ← decode_text confirmation kv.2; Some (mkMoveArgs booking token key x)
  else Some a.

Record cancelBookingArguments := mkCancelArgs {
  xa_BookingID : string; xa_Reason : string; xa_IdempotencyKey : string; xa_ConfirmationID : string
}.

Definition cancel_field (kv : string * json) (a : cancelBookingArguments) : option cancelBookingArguments :=
  let '(mkCancelArgs booking reason key confirmation) := a in
  if names_field kv.1 "booking_id" then
    x ← decode_text booking kv.2; Some (mkCancelArgs x reason key confirmation)
  else if names_field kv.1 "reason" then
    x ← decode_text reason kv.2; Some (mkCancelArgs booking x key confirmation)
  else if names_field kv.1 "idempotency_key" then
    x ← decode_text key kv.2; Some (mkCancelArgs booking reason x confirmation)
  else if names_field kv.1 "confirmation_id" then
    x ← decode_text confirmation kv.2; Some (mkCancelArgs booking reason key x)
  else Some a.

(** [json.Unmarshal] of the encoded map into a struct. *)
Definition decode_arguments {A} (field : string * json -> A -> option A) (zero : A) (m : object) : option A :=
  v ← Unmarshal (marshal_map m); decode_struct field v zero.

Definition zero_profile : toolapi.CustomerProfile :=
  toolapi.mkProfile "" (toolapi.mkContact "" "") "" "".

Definition decode_create : object -> option createBookingArguments :=
  decode_arguments create_field (mkCreateArgs "" zero_profile "" "" "").
Definition decode_reschedule : object -> option rescheduleBookingArguments :=
  decode_arguments reschedule_field (mkMoveArgs "" "" "" "").
Definition decode_cancel : object -> option cancelBookingArguments :=
  decode_arguments cancel_field (mkCancelArgs "" "" "" "").

(** ** The gateway *)
Definition maxSlotSearchRange : Z := 31 * 24 * Hour.
Definition defaultMinBookingLeadTime : Z := 15 * Minute.
Definition defaultMaxBookingHorizon : Z := 365 * 24 * Hour.
Definition maxModelFacingSlots : Z := 12.

Record Gateway := mkGateway {
  signer : SlotSigner; slotTokenTTL : Z; confirmationTTL : Z; minBookingLeadTime : Z;
  maxBookingHorizon : Z
}.

Definition positive_or (d z : Z) : Z := if z <=? 0 then d else z.

(** The backend, the store and the clock are instances, and the schemas compile. *)
Definition NewGateway (has_backend has_store : bool) (key : string)
    (tokenTTL confirmationTTL lead horizon : Z) : result Gateway :=
  if negb has_backend then Err (ErrText "tools backend is required")
  else if negb has_store then Err (ErrText "confirmation store is required")
  else
    let! signer := NewSlotSigner key in
    let lead := positive_or defaultMinBookingLeadTime lead in
    let horizon := positive_or defaultMaxBookingHorizon horizon in
    if horizon <=? lead then Err (ErrText "maximum booking horizon must exceed minimum lead time")
    else Ok (mkGateway signer (positive_or (5 * Minute) tokenTTL)
               (positive_or (10 * Minute) confirmationTTL) lead horizon).

Definition bookingWindow (g : Gateway) (now : Time) : Time * Time :=
  (Add now (minBookingLeadTime g), Add now (maxBookingHorizon g)).

Definition slotWithinBookingWindow (g : Gateway) (start stop now : Time) : bool :=
  let '(earliest, latest) := bookingWindow g now in
  negb (Before start earliest) && Before start stop && negb (After stop latest).

Section gateway.
Context `{Host} {S : Type} `{!toolapi.Backend S} `{!ConfirmationStore S}.

(** The gateway's clock, the one the backend reads, the validator of each tool's
    contract, and the text of an error. *)
Context (now clock : St S Time) (schema : string -> json -> option error) (Error : error -> string)
  (g : Gateway).

Definition answer (r : Result) : St S (option Result) := st_ret (Some r).
Definition panic {A} : St S (option A) := st_ret None.

Definition Latest_ (trusted : TrustedContext) (now : Time) : St S (result (option ConfirmationState)) :=
  cs_Latest (tx_TenantID trusted) (tx_CustomerID trusted) (tx_ConversationID trusted) now.

(** The frozen arguments, the call's own where there is nothing to restore, an
    error, or a panic: the source writes into a nil map when [null] was frozen. *)
Definition restoreFrozenAction (trusted : TrustedContext) (tool : string) (arguments : object)
    : St S (option (result object)) :=
  match text_member "confirmation_id" arguments with
  | None => st_ret (Some (Ok arguments))
  | Some confirmationID =>
      if bool_decide (confirmationID = "") then st_ret (Some (Ok arguments))
      else
        let+ now := now in
        let+ latest := Latest_ trusted now in
        match latest with
        | Ok (Some state) =>
            if negb (bool_decide (prop_ID (Proposal state) = confirmationID)) ||
               negb (bool_decide (Tool (Binding state) = tool)) ||
               bool_decide (ArgumentsJSON (Binding state) = "")
            then st_ret (Some (Ok arguments))
            else match Unmarshal (ArgumentsJSON (Binding state)) with
                 | Some (JObj frozen) =>
                     st_ret (Some (Ok (set_member "confirmation_id" (JStr confirmationID) (as_map frozen))))
                 | Some JNull => panic
                 | _ => st_ret (Some (Err (ErrText "the frozen confirmed action could not be decoded")))
                 end
        | _ => st_ret (Some (Ok arguments))
        end
  end.

(** ** Discovery *)
Definition listServices (trusted : TrustedContext) (r : Result) : St S (option Result) :=
  let+ services := toolapi.ListServices (tx_TenantID trusted) in
  answer (match services with
          | Err err => backendFailure r err
          | Ok services => success r (ListServicesData services) false
          end).

Definition listStaff (trusted : TrustedContext) (r : Result) (arguments : object) : St S (option Result) :=
  match text_member "service_id" arguments with
  | None => panic
  | Some serviceID =>
      let+ staff := toolapi.ListStaff (tx_TenantID trusted) serviceID in
      answer (match staff with
              | Err err => discoveryFailure r err
              | Ok staff => success r (ListStaffData staff) false
              end)
  end.

(** What a candidate slot may not be. *)
Definition bad_candidate (q : toolapi.FindSlotsQuery) (c : toolapi.AvailableSlot) : bool :=
  negb (bool_decide (toolapi.as_ServiceID c = toolapi.q_ServiceID q)) ||
  bool_decide (toolapi.as_StaffID c = "") ||
  (negb (bool_decide (toolapi.q_StaffID q = "")) &&
   negb (bool_decide (toolapi.as_StaffID c = toolapi.q_StaffID q))) ||
  bool_decide (toolapi.as_Timezone c = "") ||
  Before (toolapi.as_StartAt c) (toolapi.q_DateFrom q) ||
  After (toolapi.as_EndAt c) (toolapi.q_DateTo q) ||
  negb (Before (toolapi.as_StartAt c) (toolapi.as_EndAt c)).

Definition with_service (id : string) (c : toolapi.AvailableSlot) : toolapi.AvailableSlot :=
  if bool_decide (toolapi.as_ServiceID c = "")
  then toolapi.mkAvailable id (toolapi.as_ServiceName c) (toolapi.as_StaffID c) (toolapi.as_StaffName c)
         (toolapi.as_StartAt c) (toolapi.as_EndAt c) (toolapi.as_Timezone c)
  else c.

(** The token of a slot lives no longer than the slot may still be booked. *)
Definition token_expiry (start now : Time) : Time :=
  let expiresAt := Add now (slotTokenTTL g) in
  let leadBoundary := Add start (- minBookingLeadTime g) in
  if Before leadBoundary expiresAt then leadBoundary else expiresAt.

Definition claims_of (trusted : TrustedContext) (c : toolapi.AvailableSlot) (expiresAt : Time) : SlotClaims :=
  mkClaims 0 (tx_TenantID trusted) (tx_ConversationID trusted) (toolapi.as_ServiceID c)
    (toolapi.as_ServiceName c) (toolapi.as_StaffID c) (toolapi.as_StaffName c)
    (toolapi.as_StartAt c) (toolapi.as_EndAt c) (toolapi.as_Timezone c) expiresAt.

(** The loop over the available slots: the signed ones and whether more
    remained, or the failure. *)
Fixpoint sign_slots (trusted : TrustedContext) (r : Result) (q : toolapi.FindSlotsQuery) (now : Time)
    (available : list toolapi.AvailableSlot) (slots : list Slot) : list Slot * bool + Result :=
  match available with
  | [] => inl (slots, false)
  | candidate :: tl =>
      if Z.of_nat (length slots) =? maxModelFacingSlots then inl (slots, true)
      else
        let c := with_service (toolapi.q_ServiceID q) candidate in
        if bad_candidate q c then
          inr (failure r CodeInternal "scheduling backend returned an invalid slot" false "escalate")
        else if negb (is_ok (LoadLocation (toolapi.as_Timezone c))) then
          inr (failure r CodeInternal "scheduling backend returned an invalid timezone" false "escalate")
        else if negb (slotWithinBookingWindow g (toolapi.as_StartAt c) (toolapi.as_EndAt c) now) then
          sign_slots trusted r q now tl slots
        else
          let expiresAt := token_expiry (toolapi.as_StartAt c) now in
          if negb (Before now expiresAt) then sign_slots trusted r q now tl slots
          else match Sign (signer g) (claims_of trusted c expiresAt) with
               | Err _ => inr (failure r CodeInternal "could not issue a slot token" false "escalate")
               | Ok token =>
                   sign_slots trusted r q now tl (slots ++ [mkSlot token (toolapi.as_ServiceID c)
                     (toolapi.as_StaffID c) (toolapi.as_StaffName c) (toolapi.as_StartAt c)
                     (toolapi.as_EndAt c) (toolapi.as_Timezone c) expiresAt])
               end
  end.

(** [findSlots] once both dates are read. *)
Definition searchSlots (trusted : TrustedContext) (r : Result) (arguments : object)
    (dateFrom dateTo : Time) : St S (option Result) :=
  if negb (Before dateFrom dateTo) || (maxSlotSearchRange <? Sub dateTo dateFrom) then
    answer (failure r CodeInvalidArgument "date_to must be after date_from and the range must not exceed 31 days" false "fix_arguments")
  else
    let+ t := now in
    let '(earliest, latest) := bookingWindow g t in
    if Before dateFrom earliest then
      answer (failure r CodeInvalidArgument "date_from is earlier than the minimum booking lead time" false "fix_arguments")
    else if After dateTo latest then
      answer (failure r CodeInvalidArgument "date_to exceeds the maximum booking horizon" false "fix_arguments")
    else match text_member "service_id" arguments with
         | None => panic
         | Some serviceID =>
             let staffID := default "" (text_member "staff_id" arguments) in
             let q := toolapi.mkQuery (tx_TenantID trusted) serviceID staffID dateFrom dateTo in
             let+ available := toolapi.FindSlots q in
             match available with
             | Err err => answer (discoveryFailure r err)
             | Ok available =>
                 let+ t := now in
                 answer (match sign_slots trusted r q t available [] with
                         | inl (slots, truncated) => success r (FindSlotsData slots t truncated) false
                         | inr failed => failed
                         end)
             end
         end.

Definition findSlots (trusted : TrustedContext) (r : Result) (arguments : object) : St S (option Result) :=
  match text_member "date_from" arguments with
  | None => panic
  | Some from =>
      match ParseRFC3339 Local from with
      | None => answer (failure r CodeInvalidArgument "date_from must be RFC3339" false "fix_arguments")
      | Some dateFrom =>
          match text_member "date_to" arguments with
          | None => panic
          | Some to =>
              match ParseRFC3339 Local to with
              | None => answer (failure r CodeInvalidArgument "date_to must be RFC3339" false "fix_arguments")
              | Some dateTo => searchSlots trusted r arguments dateFrom dateTo
              end
          end
      end
  end.
(** ** The two-phase part of a mutation

    Without a confirmation the action is proposed; with one it must have been
    authorized for exactly this binding; after the backend's success the
    confirmation is spent. *)
Definition propose (r : Result) (binding : ConfirmationBinding) (proposal : ConfirmationProposal)
    (now : Time) : St S (option Result) :=
  let+ filed := cs_Propose binding proposal now in
  answer (match filed with
          | Err _ => failure r CodeInternal "could not create confirmation proposal" true "retry"
          | Ok p => proposed r p
          end).

Definition authorized (r : Result) (id : string) (binding : ConfirmationBinding) (now : Time)
    (act : St S (option Result)) : St S (option Result) :=
  let+ verdict := cs_VerifyAuthorized id binding now in
  match verdict with
  | Err err => answer (confirmationFailure r err)
  | Ok _ => act
  end.

Definition finish (r : Result) (id : string) (binding : ConfirmationBinding) (now : Time)
    (message : string) (data : Data) (replayed : bool) : St S (option Result) :=
  let r := committed r in
  let+ spent := cs_MarkConsumed id binding now in
  answer (match spent with
          | Err _ => failure r CodeInternal message true "retry"
          | Ok _ => success r data replayed
          end).

(** The claims of a slot that may still be booked. *)
Definition usable_slot (trusted : TrustedContext) (r : Result) (token : string) (now : Time)
    : SlotClaims + Result :=
  match Verify Local (signer g) token trusted now with
  | Err err => inr (slotFailure r err)
  | Ok claims =>
      if slotWithinBookingWindow g (sc_StartAt claims) (sc_EndAt claims) now then inl claims
      else inr (failure r CodeSlotUnavailable "slot is outside the allowed booking window; find a new slot" false "find_another_slot")
  end.

Definition proposal_expiry (claims : SlotClaims) (now : Time) : Time :=
  let e := Add now (confirmationTTL g) in
  if Before (sc_ExpiresAt claims) e then sc_ExpiresAt claims else e.

Definition undecodable (r : Result) : Result :=
  failure r CodeInvalidArgument "arguments could not be decoded" false "fix_arguments".

(** ** Booking *)
Definition create_proposal (claims : SlotClaims) (customer : toolapi.CustomerProfile) (now : Time)
    : ConfirmationProposal :=
  mkProposal "" ToolCreateBooking "Confirm this booking"
    [mkFact "Service" (firstNonEmpty [sc_ServiceName claims; sc_ServiceID claims]);
     mkFact "Staff" (firstNonEmpty [sc_StaffName claims; sc_StaffID claims]);
     mkFact "Starts" (RFC3339 (sc_StartAt claims)); mkFact "Ends" (RFC3339 (sc_EndAt claims));
     mkFact "Customer" (toolapi.cp_DisplayName customer)]
    (proposal_expiry claims now).

Definition create_command (trusted : TrustedContext) (claims : SlotClaims)
    (customer : toolapi.CustomerProfile) (notes key : string) : toolapi.CreateBookingCommand :=
  toolapi.mkCreate (tx_TenantID trusted) (tx_CustomerID trusted) (tx_ConversationID trusted)
    (sc_ServiceID claims) (sc_StaffID claims) (sc_StartAt claims) (sc_EndAt claims)
    (sc_Timezone claims) customer notes key.

Definition utc_text (t : Time) : string := RFC3339 (ToUTC t).

Definition createBooking (trusted : TrustedContext) (r : Result) (object : object) : St S (option Result) :=
  match decode_create object with
  | None => answer (undecodable r)
  | Some arguments =>
      let '(customer, ok) := trustedCustomerProfile trusted in
      if negb ok then
        answer (failure r CodeContactRequired "an email or E.164 phone number is required before booking" false "ask_customer")
      else
        let object := set_member "customer" (profile_json customer) object in
        let+ t := now in
        match usable_slot trusted r (ca_SlotToken arguments) t with
        | inr failed => answer failed
        | inl claims =>
            let '(key, object) := adoptIdempotencyKey object (ca_IdempotencyKey arguments) trusted
              ToolCreateBooking [sc_ServiceID claims; sc_StaffID claims;
                                 utc_text (sc_StartAt claims); utc_text (sc_EndAt claims)] in
            let binding := confirmationBinding trusted ToolCreateBooking object in
            let id := ca_ConfirmationID arguments in
            if bool_decide (id = "") then propose r binding (create_proposal claims customer t) t
            else authorized r id binding t (
              let+ wall := clock in
              let+ outcome := toolapi.CreateBooking wall
                (create_command trusted claims customer (ca_Notes arguments) key) in
              match outcome with
              | Err err => answer (backendFailure r err)
              | Ok outcome =>
                  finish r id binding t "booking succeeded but confirmation finalization must be retried"
                    (CreateBookingData (toolapi.co_Booking outcome)
                       (if bool_decide (toolapi.co_CalendarSync outcome = "") then "queued"
                        else toolapi.co_CalendarSync outcome))
                    (toolapi.co_IdempotencyReplayed outcome)
              end)
        end
  end.

(** ** Rescheduling *)
Definition reschedule_proposal (bookingID : string) (claims : SlotClaims) (now : Time)
    : ConfirmationProposal :=
  mkProposal "" ToolReschedule "Confirm reschedule"
    [mkFact "Booking" bookingID;
     mkFact "New time" (String.append (RFC3339 (sc_StartAt claims))
       (String.append " – " (RFC3339 (sc_EndAt claims))));
     mkFact "Staff" (firstNonEmpty [sc_StaffName claims; sc_StaffID claims])]
    (proposal_expiry claims now).

Definition reschedule_command (trusted : TrustedContext) (bookingID : string) (claims : SlotClaims)
    (key : string) : toolapi.RescheduleBookingCommand :=
  toolapi.mkReschedule (tx_TenantID trusted) (tx_CustomerID trusted) (tx_ConversationID trusted)
    bookingID (sc_StartAt claims) (sc_EndAt claims) (sc_Timezone claims) key.

Definition rescheduleBooking (trusted : TrustedContext) (r : Result) (object : object) : St S (option Result) :=
  match decode_reschedule object with
  | None => answer (undecodable r)
  | Some arguments =>
      let+ t := now in
      match usable_slot trusted r (ra_SlotToken arguments) t with
      | inr failed => answer failed
      | inl claims =>
          let '(key, object) := adoptIdempotencyKey object (ra_IdempotencyKey arguments) trusted
            ToolReschedule [ra_BookingID arguments; sc_StaffID claims;
                            utc_text (sc_StartAt claims); utc_text (sc_EndAt claims)] in
          let binding := confirmationBinding trusted ToolReschedule object in
          let id := ra_ConfirmationID arguments in
          if bool_decide (id = "")
          then propose r binding (reschedule_proposal (ra_BookingID arguments) claims t) t
          else authorized r id binding t (
            let+ outcome := toolapi.RescheduleBooking
              (reschedule_command trusted (ra_BookingID arguments) claims key) in
            match outcome with
            | Err err => answer (backendFailure r err)
            | Ok outcome =>
                finish r id binding t "reschedule succeeded but confirmation finalization must be retried"
                  (RescheduleBookingData (toolapi.ro_Booking outcome))
                  (toolapi.ro_IdempotencyReplayed outcome)
            end)
      end
  end.

(** ** Cancelling *)
Definition cancel_proposal (bookingID reason : string) (now : Time) : ConfirmationProposal :=
  mkProposal "" ToolCancel "Confirm cancellation"
    [mkFact "Booking" bookingID; mkFact "Reason" reason] (Add now (confirmationTTL g)).

Definition cancel_command (trusted : TrustedContext) (bookingID reason key : string)
    : toolapi.CancelBookingCommand :=
  toolapi.mkCancel (tx_TenantID trusted) (tx_CustomerID trusted) (tx_ConversationID trusted)
    bookingID reason key.

Definition cancelBooking (trusted : TrustedContext) (r : Result) (object : object) : St S (option Result) :=
  match decode_cancel object with
  | None => answer (undecodable r)
  | Some arguments =>
      let+ t := now in
      let '(key, object) := adoptIdempotencyKey object (xa_IdempotencyKey arguments) trusted
        ToolCancel [xa_BookingID arguments] in
      let binding := confirmationBinding trusted ToolCancel object in
      let id := xa_ConfirmationID arguments in
      if bool_decide (id = "")
      then propose r binding (cancel_proposal (xa_BookingID arguments) (xa_Reason arguments) t) t
      else authorized r id binding t (
        let+ outcome := toolapi.CancelBooking
          (cancel_command trusted (xa_BookingID arguments) (xa_Reason arguments) key) in
        match outcome with
        | Err err => answer (backendFailure r err)
        | Ok outcome =>
            finish r id binding t "cancellation succeeded but confirmation finalization must be retried"
              (CancelBookingData (toolapi.xo_Booking outcome)) (toolapi.xo_IdempotencyReplayed outcome)
        end)
  end.

(** ** Escalation *)
Definition escalate (trusted : TrustedContext) (r : Result) (arguments : object) : St S (option Result) :=
  match member "reason" arguments with
  | Some (JObj reason) =>
      match text_member "code" reason, text_member "summary" reason with
      | Some code, Some summary =>
          let+ outcome := toolapi.Escalate
            (toolapi.mkEscalation (tx_TenantID trusted) (tx_CustomerID trusted)
               (tx_ConversationID trusted) (tx_AgentRunID trusted) (CallID r) code summary) in
          answer (match outcome with
                  | Err err => backendFailure r err
                  | Ok outcome => success r (EscalationData outcome) (toolapi.eo_Replayed outcome)
                  end)
      | _, _ => panic
      end
  | _ => answer (failure r CodeInvalidArgument "reason could not be decoded" false "fix_arguments")
  end.

(** ** [Execute] *)
Definition dispatch (trusted : TrustedContext) (name : string) (r : Result) (arguments : object)
    : St S (option Result) :=
  if String.eqb name ToolListServices then listServices trusted r
  else if String.eqb name ToolListStaff then listStaff trusted r arguments
  else if String.eqb name ToolFindSlots then findSlots trusted r arguments
  else if String.eqb name ToolCreateBooking then createBooking trusted r arguments
  else if String.eqb name ToolReschedule then rescheduleBooking trusted r arguments
  else if String.eqb name ToolCancel then cancelBooking trusted r arguments
  else if String.eqb name ToolEscalate then escalate trusted r arguments
  else answer (failure r CodeNotImplemented "tool is part of the v1 allowlist but is not implemented" false "escalate").

(** The checks before any tool runs. *)
Definition guarded (trusted : TrustedContext) (call : Call) (r : Result) : St S (option Result) :=
  let name := call_Name call in
  if negb (existsb (String.eqb name) definitions) then
    answer (failure r CodeToolNotAllowed "tool is not in the server allowlist" false "escalate")
  else match validateArguments (schema name) (call_Arguments call) with
       | Err err => answer (failure r CodeInvalidArgument (Error err) false "fix_arguments")
       | Ok arguments =>
           if negb (valid trusted) then
             answer (failure r CodePolicyDenied "trusted execution context is incomplete" false "escalate")
           else if negb (Allows trusted (requiredCapability name)) then
             answer (failure r CodePolicyDenied "authenticated principal is not permitted to call this tool" false "escalate")
           else
             let+ restored := restoreFrozenAction trusted name (as_map arguments) in
             match restored with
             | None => panic
             | Some (Err err) => answer (failure r CodeInvalidArgument (Error err) false "fix_arguments")
             | Some (Ok arguments) => dispatch trusted name r arguments
             end
       end.

Definition Execute (trusted : TrustedContext) (call : Call) : St S (option Result) :=
  let+ started := now in
  let r := mkResult ResultSchemaV1 (call_Name call) ContractVersion (call_ID call) StatusError None None
             None 0 false false in
  let+ out := guarded trusted call r in
  match out with
  | None => panic
  | Some out =>
      let+ finished := now in
      answer (timed (Z.quot (Sub finished started) Millisecond) out)
  end.
End gateway.
