(* ===== verification/GatewayProps.v ===== *)
(** * No booking changes without consent

    The gateway over the in-memory confirmation store and any backend: in every
    history of tool calls, customer messages and foreign changes of the backend,
    a command that creates, moves or cancels a booking was authorized by its own
    customer for exactly the arguments it carries.

    The gateway's two interfaces instantiated: the confirmation store of
    [confirmations.go] beside any backend, each operation that changes either
    written to a log.  What holds of the log of every call: the store is the one
    its history of operations makes, and no booking changes without consent. *)

From Stdlib Require Import ZArith Lia Ascii.
From stdpp Require Import base list strings gmap.
From S2P Require Import Prelude State GoTime Json Catalog JsonParse Validation Confirmations Tools Tokens Gateway.

#[local] Open Scope Z_scope.

(** The commands that change bookings. *)
Inductive mutation :=
| MCreate (c : toolapi.CreateBookingCommand)
| MReschedule (c : toolapi.RescheduleBookingCommand)
| MCancel (c : toolapi.CancelBookingCommand).

Inductive gevent :=
| GStore (e : Confirmations.event)
| GMutation (m : mutation).

Fixpoint store_events (l : list gevent) : list Confirmations.event :=
  match l with
  | [] => []
  | GStore e :: tl => e :: store_events tl
  | GMutation _ :: tl => store_events tl
  end.

Lemma store_events_app l1 l2 : store_events (l1 ++ l2) = store_events l1 ++ store_events l2.
Proof. induction l1 as [|[] l1 IH]; simpl; rewrite ?IH; done. Qed.

Lemma elem_of_store_events e l : e ∈ store_events l -> GStore e ∈ l.
Proof.
  induction l as [|[e'|m] l IH]; simpl; [by intros ?%elem_of_nil|..].
  - intros [->|Hl]%elem_of_cons; apply elem_of_cons; [by left|right; by apply IH].
  - intros Hl. apply elem_of_cons. right. by apply IH.
Qed.

(** ** What a store promises about consent

    [cl_inv tr s]: the state [s] is one that the store's operations [tr] may have
    made.  The laws say that each operation extends its history by itself, that
    reading extends nothing, and that an accepted verification has a proposal and
    a later consent in the history.  [cl_may id ctx t s]: when consent may be
    recorded; the store itself may promise its law always. *)
Definition consent_in (tr : list Confirmations.event) (b : ConfirmationBinding) : Prop :=
  exists id b0 p t0 ctx t',
    EvPropose b0 p t0 ∈ tr /\ equalBinding b0 b = true /\ EvAuthorize id ctx t' ∈ tr /\
    tx_TenantID ctx = TenantID b /\ tx_CustomerID ctx = OwnerCustomerID b /\
    tx_ConversationID ctx = ConversationID b /\
    tx_InboundMessageID ctx <> "" /\ tx_InboundMessageID ctx <> ProposedFromMessageID b0.

Class ConsentLaws (S : Type) `{!ConfirmationStore S} := {
  cl_inv : list Confirmations.event -> S -> Prop;
  cl_may : string -> TrustedContext -> Time -> S -> Prop;
  cl_propose tr s b p t : cl_inv tr s -> cl_inv (tr ++ [EvPropose b p t]) (cs_Propose b p t s).2;
  cl_latest tr s t o c n : cl_inv tr s -> cl_inv tr (cs_Latest t o c n s).2;
  cl_invalidate tr s t o c n :
    cl_inv tr s -> cl_inv (tr ++ [EvInvalidate t o c n]) (cs_InvalidateLatest t o c n s).2;
  cl_authorize tr s id ctx t :
    cl_may id ctx t s -> cl_inv tr s -> cl_inv (tr ++ [EvAuthorize id ctx t]) (cs_Authorize id ctx t s).2;
  cl_verify tr s id b t : cl_inv tr s -> cl_inv tr (cs_VerifyAuthorized id b t s).2;
  cl_consume tr s id b t :
    cl_inv tr s -> cl_inv (tr ++ [EvConsume id b t]) (cs_MarkConsumed id b t s).2;
  cl_verified tr s id b t :
    cl_inv tr s -> (cs_VerifyAuthorized id b t s).1 = Ok tt -> consent_in tr b
}.

(** A computation that is no operation of the store. *)
Definition quiet {S A} `{ConsentLaws S} (m : St S A) : Prop :=
  forall tr s, cl_inv tr s -> cl_inv tr (m s).2.

Class QuietBackend (S : Type) `{ConsentLaws S} `{!toolapi.Backend S} := {
  qb_services t : quiet (toolapi.ListServices t);
  qb_staff t id : quiet (toolapi.ListStaff t id);
  qb_slots q : quiet (toolapi.FindSlots q);
  qb_create n c : quiet (toolapi.CreateBooking n c);
  qb_reschedule c : quiet (toolapi.RescheduleBooking c);
  qb_cancel c : quiet (toolapi.CancelBooking c);
  qb_escalate c : quiet (toolapi.Escalate c)
}.

(** ** The instances *)
Section world.
Context {S : Type} `{ConsentLaws S} `{!toolapi.Backend S} `{!QuietBackend S}.

(** Noted before it is done: the log says what was asked, whatever came of it. *)
Definition noted {A} (e : gevent) (m : St S A) : St (S * list gevent) A := noting (fun _ => [e]) m.

#[global] Instance world_backend : toolapi.Backend (S * list gevent) := {|
  toolapi.ListServices t := silent (toolapi.ListServices t);
  toolapi.ListStaff t id := silent (toolapi.ListStaff t id);
  toolapi.FindSlots q := silent (toolapi.FindSlots q);
  toolapi.CreateBooking now c := noted (GMutation (MCreate c)) (toolapi.CreateBooking now c);
  toolapi.RescheduleBooking c := noted (GMutation (MReschedule c)) (toolapi.RescheduleBooking c);
  toolapi.CancelBooking c := noted (GMutation (MCancel c)) (toolapi.CancelBooking c);
  toolapi.Escalate c := silent (toolapi.Escalate c)
|}.

#[global] Instance world_store : ConfirmationStore (S * list gevent) := {|
  cs_Propose b p now := noted (GStore (EvPropose b p now)) (cs_Propose b p now);
  cs_Latest t o c now := silent (cs_Latest t o c now);
  cs_InvalidateLatest t o c now := noted (GStore (EvInvalidate t o c now)) (cs_InvalidateLatest t o c now);
  cs_Authorize id ctx now := noted (GStore (EvAuthorize id ctx now)) (cs_Authorize id ctx now);
  cs_VerifyAuthorized id b now := silent (cs_VerifyAuthorized id b now);
  cs_MarkConsumed id b now := noted (GStore (EvConsume id b now)) (cs_MarkConsumed id b now)
|}.

(** ** Actions and the commands they stand for

    [covers g b t m]: at [t] the gateway turns arguments into the binding [b]
    and the command [m]; both come from the same arguments, and the slot token
    in them is authentic, unexpired and inside the booking window. *)
Context `{Host} (g : Gateway).

Inductive covers (b : ConfirmationBinding) (t : Time) : mutation -> Prop :=
| covers_create trusted o o' a claims key :
    decode_create o = Some a -> (trustedCustomerProfile trusted).2 = true ->
    Verify Local (signer g) (ca_SlotToken a) trusted t = Ok claims ->
    slotWithinBookingWindow g (sc_StartAt claims) (sc_EndAt claims) t = true ->
    adoptIdempotencyKey (set_member "customer" (profile_json (trustedCustomerProfile trusted).1) o)
      (ca_IdempotencyKey a) trusted ToolCreateBooking
      [sc_ServiceID claims; sc_StaffID claims; utc_text (sc_StartAt claims); utc_text (sc_EndAt claims)] =
      (key, o') ->
    b = confirmationBinding trusted ToolCreateBooking o' ->
    covers b t (MCreate (create_command trusted claims (trustedCustomerProfile trusted).1 (ca_Notes a) key))
| covers_reschedule trusted o o' a claims key :
    decode_reschedule o = Some a ->
    Verify Local (signer g) (ra_SlotToken a) trusted t = Ok claims ->
    slotWithinBookingWindow g (sc_StartAt claims) (sc_EndAt claims) t = true ->
    adoptIdempotencyKey o (ra_IdempotencyKey a) trusted ToolReschedule
      [ra_BookingID a; sc_StaffID claims; utc_text (sc_StartAt claims); utc_text (sc_EndAt claims)] =
      (key, o') ->
    b = confirmationBinding trusted ToolReschedule o' ->
    covers b t (MReschedule (reschedule_command trusted (ra_BookingID a) claims key))
| covers_cancel trusted o o' a key :
    decode_cancel o = Some a ->
    adoptIdempotencyKey o (xa_IdempotencyKey a) trusted ToolCancel [xa_BookingID a] = (key, o') ->
    b = confirmationBinding trusted ToolCancel o' ->
    covers b t (MCancel (cancel_command trusted (xa_BookingID a) (xa_Reason a) key)).

(** The history before a command holds the proposal of its action and its own
    customer's consent from another message. *)
Definition consented (l : list gevent) (b : ConfirmationBinding) : Prop :=
  consent_in (store_events l) b.

Definition justified (l : list gevent) (m : mutation) : Prop :=
  exists b t, covers b t m /\ consented l b.

Definition all_justified (l : list gevent) : Prop :=
  forall l1 m l2, l = l1 ++ GMutation m :: l2 -> justified l1 m.

Definition inv (s : S * list gevent) : Prop :=
  cl_inv (store_events s.2) s.1 /\ all_justified s.2.

(** ** Growing a log *)
Lemma list_snoc_cases {A} (l l1 l2 : list A) x y :
  l ++ [y] = l1 ++ x :: l2 -> (l1 = l /\ x = y /\ l2 = []) \/ exists l3, l = l1 ++ x :: l3.
Proof.
  intros E. destruct (decide (l2 = [])) as [->|Hn].
  - apply app_inj_tail in E as [-> ->]. by left.
  - destruct (exists_last Hn) as (l3 & z & ->). right. exists l3.
    rewrite app_comm_cons, app_assoc in E. by apply app_inj_tail in E as [-> _].
Qed.

Lemma all_justified_store l e : all_justified l -> all_justified (l ++ [GStore e]).
Proof.
  intros Hl l1 m l2 E. apply list_snoc_cases in E as [(_ & [=] & _)|(l3 & E)]. by eapply Hl.
Qed.

Lemma all_justified_mutation l m : all_justified l -> justified l m -> all_justified (l ++ [GMutation m]).
Proof.
  intros Hl Hm l1 m' l2 E. apply list_snoc_cases in E as [(-> & [= ->] & _)|(l3 & E)]; [done|].
  by eapply Hl.
Qed.

Lemma inv_store s l e s' :
  inv (s, l) -> cl_inv (store_events l ++ [e]) s' -> inv (s', l ++ [GStore e]).
Proof.
  intros [_ Hj] Hs. split; simpl in *; [|by apply all_justified_store].
  by rewrite store_events_app.
Qed.

(** ** Operations that keep the invariant *)
Definition keeps {A} (m : St (S * list gevent) A) : Prop := triple inv m (fun _ => inv).

Lemma keeps_quiet {A} (m : St S A) : quiet m -> keeps (silent m).
Proof.
  intros Hq [s l] [Hr Hj]. specialize (Hq _ _ Hr). unfold silent, noting. simpl in *.
  destruct (m s) as [a s']. by rewrite app_nil_r.
Qed.

Lemma keeps_store {A} (m : St S A) e :
  (forall tr s, cl_inv tr s -> cl_inv (tr ++ [e]) (m s).2) -> keeps (noted (GStore e) m).
Proof.
  intros Hm [s l] Hi. pose proof (Hm _ _ (proj1 Hi)) as Hs. unfold noted, noting. simpl in *.
  destruct (m s) as [a s']. simpl in *. by eapply inv_store.
Qed.

Lemma mutation_keeps {A} (m : St S A) c :
  quiet m -> triple (fun s => inv s /\ justified s.2 c) (noted (GMutation c) m) (fun _ => inv).
Proof.
  intros Hq [s l] [[Hr Hj] Hc]. specialize (Hq _ _ Hr). unfold noted, noting. simpl in *.
  destruct (m s) as [a s']. split; simpl in *.
  - by rewrite store_events_app, app_nil_r.
  - by apply all_justified_mutation.
Qed.

(** Consent recorded where it may be. *)
Lemma keeps_authorize id ctx t :
  triple (fun s => inv s /\ cl_may id ctx t s.1) (cs_Authorize id ctx t) (fun _ => inv).
Proof.
  intros [s l] [Hi Hm]. pose proof (cl_authorize _ _ id ctx t Hm (proj1 Hi)) as Hs. unfold noted, noting; simpl in *.
  unfold noted, noting. simpl. destruct (cs_Authorize id ctx t s) as [a s']. simpl in *. by eapply inv_store.
Qed.

Lemma keeps_propose b p t : keeps (cs_Propose b p t).
Proof. apply (keeps_store _ (EvPropose b p t)). intros tr s. apply cl_propose. Qed.

Lemma keeps_consume id b t : keeps (cs_MarkConsumed id b t).
Proof. apply (keeps_store _ (EvConsume id b t)). intros tr s. apply cl_consume. Qed.

Lemma keeps_latest t o c n : keeps (cs_Latest t o c n).
Proof. apply keeps_quiet. intros tr s. apply cl_latest. Qed.

Lemma keeps_answer {A} (a : A) : keeps (st_ret (S := S * list gevent) a).
Proof. by apply triple_ret. Qed.

(** An accepted verification is consent found in the log. *)
Lemma verified_consented id b t :
  triple inv (cs_VerifyAuthorized id b t) (fun v s => inv s /\ (v = Ok tt -> consented s.2 b)).
Proof.
  intros [s l] Hi. pose proof (keeps_quiet _ (fun tr s => cl_verify tr s id b t) (s, l) Hi) as Hk.
  pose proof (cl_verified _ _ id b t (proj1 Hi)) as Hv. simpl in *.
  unfold silent, noting in *. simpl in *. destruct (cs_VerifyAuthorized _ _ _ s) as [v s'].
  rewrite app_nil_r in *. by split.
Qed.
End world.

(** * Histories of the gateway *)

#[local] Open Scope Z_scope.

Section consent.
Context {S : Type} `{ConsentLaws S} `{!toolapi.Backend S} `{!QuietBackend S} `{Host}.
Context (g : Gateway) (now clock : St S Time) (quiet_now : quiet now) (quiet_clock : quiet clock)
  (Error : error -> string).

#[local] Abbreviation W := (S * list gevent)%type.

(** Histories: tool calls of any run, the messages of customers that authorize or
    withdraw, and whatever else happens that is no operation of the store. *)
Definition nowW : St W Time := silent now.
Definition clockW : St W Time := silent clock.

Inductive sys : W -> Prop :=
| sys_init s : cl_inv [] s -> sys (s, [])
| sys_call w schema trusted call :
    sys w -> sys (Execute nowW clockW schema Error g trusted call w).2
| sys_authorize w id ctx t : cl_may id ctx t w.1 -> sys w -> sys (cs_Authorize id ctx t w).2
| sys_invalidate w tenant owner conv t : sys w -> sys (cs_InvalidateLatest tenant owner conv t w).2
| sys_other s s' l : (forall tr, cl_inv tr s -> cl_inv tr s') -> sys (s, l) -> sys (s', l).

Definition kept {A} (m : St W A) : Prop := keeps g m.

Ltac pass := eapply triple_kept; [|intros ?].
Ltac done_here := first
  [ apply keeps_answer
  | apply keeps_quiet; first [ exact quiet_now | exact quiet_clock | apply qb_services | apply qb_staff
                             | apply qb_slots | apply qb_escalate ] ].

Lemma silent_log {A} (m : St S A) (P : list gevent -> Prop) :
  quiet m -> triple (fun s => inv g s /\ P s.2) (silent m) (fun _ s => inv g s /\ P s.2).
Proof.
  intros Hq [s l] [Hi HP]. pose proof (keeps_quiet g m Hq (s, l) Hi) as Hk.
  unfold silent, noting in *. simpl in *. destruct (m s) as [a s']. by rewrite app_nil_r in *.
Qed.

(** ** Parts of a handler *)
Lemma keeps_propose_action r b p t : kept (propose (S := W) r b p t).
Proof. unfold propose. pass; [by apply keeps_propose|done_here]. Qed.

Lemma keeps_finish r id b t message data replayed :
  kept (finish (S := W) r id b t message data replayed).
Proof. unfold finish. cbv zeta. pass; [by apply keeps_consume|done_here]. Qed.

Lemma keeps_authorized r id b t (act : St W (option Result)) :
  triple (fun s => inv g s /\ consented s.2 b) act (fun _ => inv g) ->
  kept (authorized r id b t act).
Proof.
  intros Hact. unfold kept, keeps, authorized.
  eapply triple_bind; [apply verified_consented|]. intros [[]|err].
  - eapply triple_weaken; [|exact Hact]. intros s [Hi Hv]. by split; [|apply Hv].
  - eapply triple_weaken; [|apply keeps_answer]. by intros s [Hi _].
Qed.

(** A command of a consented action, and what follows its answer. *)
Lemma keeps_mutation {A} b t c (m : St S A) (k : A -> St W (option Result)) :
  quiet m -> covers g b t c -> (forall a, kept (k a)) ->
  triple (fun s => inv g s /\ consented s.2 b) (st_bind (noted (GMutation c) m) k) (fun _ => inv g).
Proof.
  intros Hq Hc Hk. eapply triple_bind; [|intros a; apply Hk].
  eapply triple_weaken; [|by apply mutation_keeps]. intros s [Hi Hs]. split; [done|]. by exists b, t.
Qed.

(** ** The handlers *)
Lemma keeps_create trusted r o : kept (createBooking nowW clockW g trusted r o).
Proof.
  unfold createBooking. destruct (decode_create o) as [a|] eqn:Ea; [|done_here].
  destruct (trustedCustomerProfile trusted) as [customer ok] eqn:Ec.
  destruct ok; [|done_here]. simpl negb. cbv iota zeta.
  eapply triple_kept; [done_here|]. intros t. unfold usable_slot. destruct (Verify _ _ _ _ _) as [claims|err] eqn:Ev; [|done_here].
  destruct (slotWithinBookingWindow _ _ _ _) eqn:Ew; [|done_here].
  destruct (adoptIdempotencyKey _ _ _ _ _) as [key o'] eqn:Ek.
  case_bool_decide; [apply keeps_propose_action|]. apply keeps_authorized.
  eapply triple_bind; [apply (silent_log _ (fun l => consented l _) quiet_clock)|]. intros wall.
  eapply keeps_mutation; [apply qb_create|..].
  - replace customer with (trustedCustomerProfile trusted).1 by (by rewrite Ec).
    eapply covers_create; [exact Ea|by rewrite Ec|exact Ev|exact Ew| |reflexivity]. by rewrite Ec.
  - intros [outcome|err]; [apply keeps_finish|done_here].
Qed.

Lemma keeps_reschedule trusted r o : kept (rescheduleBooking nowW g trusted r o).
Proof.
  unfold rescheduleBooking. destruct (decode_reschedule o) as [a|] eqn:Ea; [|done_here].
  pass; [done_here|].
  unfold usable_slot. destruct (Verify _ _ _ _ _) as [claims|err] eqn:Ev; [|done_here].
  destruct (slotWithinBookingWindow _ _ _ _) eqn:Ew; [|done_here].
  destruct (adoptIdempotencyKey _ _ _ _ _) as [key o'] eqn:Ek. cbv zeta.
  case_bool_decide; [apply keeps_propose_action|]. apply keeps_authorized.
  eapply keeps_mutation; [apply qb_reschedule|..].
  - by eapply covers_reschedule.
  - intros [outcome|err]; [apply keeps_finish|done_here].
Qed.

Lemma keeps_cancel trusted r o : kept (cancelBooking nowW g trusted r o).
Proof.
  unfold cancelBooking. destruct (decode_cancel o) as [a|] eqn:Ea; [|done_here].
  eapply triple_kept; [done_here|intros t].
  destruct (adoptIdempotencyKey _ _ _ _ _) as [key o'] eqn:Ek. cbv zeta.
  case_bool_decide; [apply keeps_propose_action|]. apply keeps_authorized.
  eapply (keeps_mutation _ t); [apply qb_cancel|..].
  - by eapply covers_cancel.
  - intros [outcome|err]; [apply keeps_finish|done_here].
Qed.

Lemma keeps_find trusted r o : kept (findSlots nowW g trusted r o).
Proof.
  unfold findSlots, searchSlots. repeat case_match; try done_here.
  all: pass; [done_here|]. all: repeat case_match; try done_here.
  all: pass; [done_here|]. all: repeat case_match; try done_here.
  all: pass; done_here.
Qed.

Lemma keeps_dispatch trusted name r o : kept (dispatch nowW clockW g trusted name r o).
Proof.
  unfold dispatch.
  repeat match goal with |- kept (if ?b then _ else _) => destruct b end; try done_here.
  - unfold listServices. pass; done_here.
  - unfold listStaff. case_match; [pass|]; done_here.
  - apply keeps_find.
  - apply keeps_create.
  - apply keeps_reschedule.
  - apply keeps_cancel.
  - unfold escalate. repeat case_match; try done_here. pass; done_here.
Qed.

Lemma keeps_restore trusted tool o : kept (restoreFrozenAction nowW trusted tool o).
Proof.
  unfold restoreFrozenAction. case_match; [|done_here]. case_bool_decide; [done_here|].
  pass; [done_here|]. pass; [apply keeps_latest|]. repeat case_match; done_here.
Qed.

Lemma keeps_Execute schema trusted call :
  kept (Execute nowW clockW schema Error g trusted call).
Proof.
  unfold Execute. pass; [done_here|]. cbv zeta. pass.
  - unfold guarded. repeat case_match; try done_here. pass; [apply keeps_restore|].
    repeat case_match; try done_here. apply keeps_dispatch.
  - case_match; [|done_here]. pass; done_here.
Qed.

Lemma sys_inv w : sys w -> inv g w.
Proof.
  induction 1 as [s Hs|w schema trusted call _ IH|w id ctx t Hm _ IH|[s l] tenant owner conv t _ IH|
                  s s' l Hs _ [IH1 IH2]].
  - split; [exact Hs|]. intros l1 m l2 E. by destruct l1.
  - pose proof (keeps_Execute schema trusted call w IH) as Hk. by destruct (Execute _ _ _ _ _ _ _ w).
  - pose proof (keeps_authorize g id ctx t w (conj IH Hm)) as Hk. by destruct (cs_Authorize id ctx t w).
  - pose proof (keeps_store g _ (EvInvalidate tenant owner conv t)
      (fun tr s => cl_invalidate tr s tenant owner conv t) _ IH) as Hk.
    by destruct (noted _ _ _) eqn:E; simpl; rewrite E.
  - split; [by apply Hs|exact IH2].
Qed.

(** Every command of a history has its consent before it. *)
Lemma commands_consented w l1 m l2 :
  sys w -> w.2 = l1 ++ GMutation m :: l2 -> exists b t, covers g b t m /\ consented l1 b.
Proof. intros [_ Hj]%sys_inv E. by apply (Hj l1 m l2). Qed.
End consent.

(** ** The in-memory store beside any backend *)
Section memory.
Context {B : Type} `{!toolapi.Backend B}.
Context (range : gmap string ConfirmationState -> list (string * ConfirmationState))
  (fresh : MemoryConfirmationStore -> string) (range_spec : forall m, range m ≡ₚ map_to_list m).

#[local] Abbreviation S := (MemoryConfirmationStore * B)%type.

#[local] Instance store : ConfirmationStore MemoryConfirmationStore := memory_store range fresh.

#[local] Instance beside_backend : ConfirmationStore S := {|
  cs_Propose b p now := on_first (cs_Propose b p now);
  cs_Latest t o c now := on_first (cs_Latest t o c now);
  cs_InvalidateLatest t o c now := on_first (cs_InvalidateLatest t o c now);
  cs_Authorize id ctx now := on_first (cs_Authorize id ctx now);
  cs_VerifyAuthorized id b now := on_first (cs_VerifyAuthorized id b now);
  cs_MarkConsumed id b now := on_first (cs_MarkConsumed id b now)
|}.

#[local] Instance beside_store : toolapi.Backend S := {|
  toolapi.ListServices t := on_second (toolapi.ListServices t);
  toolapi.ListStaff t id := on_second (toolapi.ListStaff t id);
  toolapi.FindSlots q := on_second (toolapi.FindSlots q);
  toolapi.CreateBooking now c := on_second (toolapi.CreateBooking now c);
  toolapi.RescheduleBooking c := on_second (toolapi.RescheduleBooking c);
  toolapi.CancelBooking c := on_second (toolapi.CancelBooking c);
  toolapi.Escalate c := on_second (toolapi.Escalate c)
|}.

Lemma memory_verified tr s id b t :
  reach tr s -> VerifyAuthorized id b t s = Ok tt -> consent_in tr b.
Proof.
  intros Hr Hv. destruct (verified_granted id b t _ Hv) as (r & Hrec & Hg & He & _).
  destruct (record_in_history _ _ _ _ Hr Hrec) as (p & t0 & Hp).
  destruct (grant_in_history _ _ _ _ Hr Hrec Hg) as (ctx & t' & Ha & Ho & H1 & H2 & _).
  pose proof He as He'. apply equalBinding_true in He' as (Et & Eo & Ec & _ & _).
  unfold owned_by in Ho. bool_to_prop.
  exists id, (Binding r), p, t0, ctx, t'.
  repeat match goal with |- _ /\ _ => split end; (done || congruence).
Qed.

Lemma reach_first {A} (m : St MemoryConfirmationStore A) e tr (s : S) :
  (forall u, step u e (m u).2) -> reach tr s.1 -> reach (tr ++ [e]) (on_first m s).2.1.
Proof.
  intros Hm Hr. unfold on_first. specialize (Hm s.1). destruct (m s.1) as [a u]. by eapply reach_step.
Qed.

Program Definition memory_laws : ConsentLaws S := {|
  cl_inv tr s := reach tr s.1; cl_may _ _ _ _ := True |}.
Next Obligation.
  intros tr s b p t. apply reach_first. intros u. simpl.
  pose proof (step_propose u (range (records u)) (fresh u) b p t (range_spec _)) as Hs.
  by destruct (Propose _ _ _ _ _ _).
Qed.
Next Obligation. done. Qed.
Next Obligation. intros tr s t o c n. apply reach_first. intros u. apply step_invalidate. Qed.
Next Obligation. intros tr s id ctx t _. apply reach_first. intros u. apply step_authorize. Qed.
Next Obligation. done. Qed.
Next Obligation. intros tr s id b t. apply reach_first. intros u. apply step_consume. Qed.
Next Obligation. intros tr [s w] id b t. apply memory_verified. Qed.

#[local] Existing Instance memory_laws.

Lemma quiet_second {A} (m : St B A) : quiet (S := S) (on_second m).
Proof. intros tr s Hr. unfold on_second. by destruct (m s.2). Qed.

#[local] Instance quiet_beside : QuietBackend S.
Proof. split; intros; apply quiet_second. Qed.

Context `{Host} (g : Gateway) (now clock : St B Time) (Error : error -> string).

(** Histories over the in-memory store: whatever else happens is a change of the
    backend. *)
Definition memory_sys : S * list gevent -> Prop := sys g (on_second now) (on_second clock) Error.

(** No booking changes without consent.  Whatever tool calls, customer
    messages and foreign changes a history is made of, every command to create,
    move or cancel a booking that reached the backend stands for an action that
    was proposed before, with the same tenant, customer, conversation, tool and
    digest of its arguments, and that this customer authorized in this
    conversation from a message other than the one that proposed it; the command
    and the action are made of the same arguments. *)
Theorem no_booking_without_consent w l1 m l2 :
  memory_sys w -> w.2 = l1 ++ GMutation m :: l2 ->
  exists b t, covers g b t m /\ exists id b0 p t0 ctx t',
    EvPropose b0 p t0 ∈ store_events l1 /\ equalBinding b0 b = true /\
    EvAuthorize id ctx t' ∈ store_events l1 /\
    tx_TenantID ctx = TenantID b /\ tx_CustomerID ctx = OwnerCustomerID b /\
    tx_ConversationID ctx = ConversationID b /\
    tx_InboundMessageID ctx <> "" /\ tx_InboundMessageID ctx <> ProposedFromMessageID b0.
Proof. intros Hs E. eapply commands_consented; [| |exact Hs|exact E]; apply quiet_second. Qed.
End memory.

(** ** A cancellation, proposed, confirmed and carried out *)
Module Demo.
#[local] Instance host : Host := {|
  LoadLocation _ := Ok UTC; Local := UTC; collate := String.compare; sha256_hex := Sha256.sha256_hex
|}.

Definition booking : toolapi.Booking :=
  toolapi.mkBooking "b1" "cancelled" "s1" "Haircut" "m1" "Anna" (mkTime 0 UTC) (mkTime Hour UTC) "UTC" "Ada" 2.

(** A backend that counts its cancellations. *)
#[local] Instance counting : toolapi.Backend nat := {|
  toolapi.ListServices _ n := (Ok [], n);
  toolapi.ListStaff _ _ n := (Ok [], n);
  toolapi.FindSlots _ n := (Ok [], n);
  toolapi.CreateBooking _ _ n := (Err toolapi.ErrSlotUnavailable, n);
  toolapi.RescheduleBooking _ n := (Err toolapi.ErrSlotUnavailable, n);
  toolapi.CancelBooking _ n := (Ok (toolapi.mkCancelled booking false), S n);
  toolapi.Escalate _ n := (Err toolapi.ErrDependencyUnavailable, n)
|}.

Definition demo_gateway : Gateway :=
  mkGateway (mkSigner "0123456789abcdef0123456789abcdef") (5 * Minute) (10 * Minute) (15 * Minute)
    (365 * 24 * Hour).

Definition from_message (id : string) : TrustedContext :=
  mkTrusted "t1" "c1" "Ada" "ada@example.com" "" "k1" id "r1" {[CapabilityBookingWriteSelf := true]}.

Definition dq : string := quote_mark.
Definition arguments (confirmation : string) : string :=
  Marshal (JObj ([("booking_id", JStr "b1"); ("reason", JStr "ill")] ++ omit_empty "confirmation_id" confirmation)).

Definition clock_at (t : Z) : St nat Time := fun n => (mkTime (t * Minute) UTC, n).

Definition range : gmap string ConfirmationState -> list (string * ConfirmationState) := map_to_list.
Definition fresh : MemoryConfirmationStore -> string := fun _ => "p1".
Definition S : Type := (MemoryConfirmationStore * nat)%type.

#[local] Instance demo_store : ConfirmationStore S := beside_backend range fresh.
#[local] Instance demo_backend : toolapi.Backend S := beside_store.

Definition run (call : Call) (message : string) (w : S * list gevent) : S * list gevent :=
  (Execute (nowW (on_second (clock_at 1))) (clockW (on_second (clock_at 1))) (fun _ _ => None) (fun _ => "")
     demo_gateway (from_message message) call w).2.

Definition start : S * list gevent := ((NewMemoryConfirmationStore, O), []).

Definition after_proposal : S * list gevent := run (mkCall "1" ToolCancel (arguments "")) "m1" start.
Definition after_consent : S * list gevent :=
  (cs_Authorize "p1" (from_message "m2") (mkTime (2 * Minute) UTC) after_proposal).2.
Definition after_cancel : S * list gevent := run (mkCall "2" ToolCancel (arguments "p1")) "m2" after_consent.

Definition cancelled : mutation :=
  match after_cancel.2 with
  | [_; _; GMutation m; _] => m
  | _ => MCancel (toolapi.mkCancel "" "" "" "" "" "")
  end.

Example one_cancellation : after_cancel.1.2 = 1%nat.
Proof. vm_compute. reflexivity. Qed.

Lemma demo_sys :
  memory_sys range fresh (fun m => reflexivity _) demo_gateway (clock_at 1) (clock_at 1) (fun _ => "") after_cancel.
Proof. apply sys_call, sys_authorize, sys_call, sys_init; [done|constructor]. Qed.

Lemma no_booking_without_consent_witness :
  after_cancel.2 = take 2 after_cancel.2 ++ GMutation cancelled :: drop 3 after_cancel.2 /\
  exists b t, covers demo_gateway b t cancelled /\ exists id ctx t',
    EvAuthorize id ctx t' ∈ store_events (take 2 after_cancel.2) /\ tx_CustomerID ctx = OwnerCustomerID b.
Proof.
  assert (E : after_cancel.2 = take 2 after_cancel.2 ++ GMutation cancelled :: drop 3 after_cancel.2)
    by (vm_compute; reflexivity).
  split; [exact E|].
  destruct (no_booking_without_consent range fresh (fun m => reflexivity _)
              demo_gateway (clock_at 1) (clock_at 1) (fun _ => "") after_cancel _ _ _ demo_sys E)
    as (b & t & Hc & id & b0 & p & t0 & ctx & t' & _ & _ & Ha & _ & Ho & _).
  exists b, t. split; [exact Hc|]. exists id, ctx, t'. split; [exact Ha|exact Ho].
Defined.
End Demo.
