(* ===== verification/Hex.v ===== *)
(** * [encoding/hex]

    [EncodeToString] writes lower-case digits, [DecodeString] takes either case
    and refuses an odd length or any other character. *)

From Stdlib Require Import ZArith Lia Ascii.
From stdpp Require Import base list strings.
From S2P Require Import Prelude Json.

#[local] Open Scope Z_scope.

Fixpoint hex_encode (l : list ascii) : list ascii :=
  match l with
  | [] => []
  | c :: tl => hex_digit (code c / 16) :: hex_digit (code c mod 16) :: hex_encode tl
  end.

Definition hex_value (c : ascii) : option Z :=
  let n := code c in
  if (48 <=? n) && (n <=? 57) then Some (n - 48)
  else if (97 <=? n) && (n <=? 102) then Some (n - 87)
  else if (65 <=? n) && (n <=? 70) then Some (n - 55)
  else None.

Fixpoint hex_decode (l : list ascii) : option (list ascii) :=
  match l with
  | [] => Some []
  | a :: b :: tl =>
      match hex_value a, hex_value b, hex_decode tl with
      | Some x, Some y, Some r => Some (chr (x * 16 + y) :: r)
      | _, _, _ => None
      end
  | [_] => None
  end.

Definition EncodeToHex (s : string) : string := of_bytes (hex_encode (string_bytes s)).
Definition DecodeHex (s : string) : option string := option_map of_bytes (hex_decode (string_bytes s)).

Lemma hex_value_digit n : 0 <= n < 16 -> hex_value (hex_digit n) = Some n.
Proof.
  intros Hn. unfold hex_value, hex_digit. destruct (Z.ltb_spec n 10); rewrite code_chr by lia.
  all: repeat match goal with |- context [if ?b then _ else _] => destruct b eqn:? end;
    rewrite ?andb_true_iff, ?andb_false_iff, ?Z.leb_le, ?Z.leb_gt in *; try (f_equal; lia); lia.
Qed.

Lemma hex_decode_encode l : hex_decode (hex_encode l) = Some l.
Proof.
  induction l as [|c l IH]; [done|]. pose proof (code_range c). simpl.
  rewrite !hex_value_digit, IH by (split; [|]; try apply Z.div_lt_upper_bound; try apply Z.div_pos;
    try apply Z.mod_pos_bound; lia).
  f_equal. f_equal. rewrite <- (chr_code c) at 3. f_equal.
  pose proof (Z.div_mod (code c) 16). lia.
Qed.

Lemma DecodeHex_EncodeToHex s : DecodeHex (EncodeToHex s) = Some s.
Proof.
  unfold DecodeHex, EncodeToHex. by rewrite string_of_bytes, hex_decode_encode; simpl; rewrite of_string_bytes.
Qed.

Lemma EncodeToHex_inj s t : EncodeToHex s = EncodeToHex t -> s = t.
Proof.
  intros E. pose proof (DecodeHex_EncodeToHex s) as Hs. rewrite E, DecodeHex_EncodeToHex in Hs.
  congruence.
Qed.

Lemma hex_encode_length l : length (hex_encode l) = (2 * length l)%nat.
Proof. induction l; simpl; lia. Qed.
