(* ===== verification/Regexp.v ===== *)
(** * The regular expressions of [internal/conversations/store.go]

    A matcher with the leftmost-first meaning of Go's [regexp] for the constructs
    the two patterns use: classes, greedy bounded repetition and ASCII word
    boundaries.  A class takes the bytes of one code point. *)

From Stdlib Require Import ZArith Lia Ascii.
From stdpp Require Import base list strings.
From S2P Require Import Prelude Json.

#[local] Open Scope Z_scope.

Inductive regex :=
| Class (take_one : list ascii -> option (ascii * list ascii))
| Boundary
| Cat (a b : regex)
| Upto (n : nat) (a : regex).

Definition in_range (lo hi : Z) (c : ascii) : bool := (lo <=? code c) && (code c <=? hi).
Definition is_letter (c : ascii) : bool := in_range 65 90 c || in_range 97 122 c.
Definition is_number (c : ascii) : bool := in_range 48 57 c.
Definition word_char (c : ascii) : bool := is_letter c || is_number c || (code c =? 95).

Definition word_at (o : option ascii) : bool := match o with Some c => word_char c | None => false end.

(** [\b] between the byte before and the rest. *)
Definition boundary (prev : option ascii) (l : list ascii) : bool :=
  xorb (word_at prev) (word_at (head l)).

(** The first way to match, in order of preference, that [k] accepts. *)
Fixpoint first_match {A} (r : regex) (prev : option ascii) (l : list ascii)
    (k : option ascii -> list ascii -> option A) : option A :=
  match r with
  | Class p => match p l with Some (c, rest) => k (Some c) rest | None => None end
  | Boundary => if boundary prev l then k prev l else None
  | Cat a b => first_match a prev l (fun p1 l1 => first_match b p1 l1 k)
  | Upto n a =>
      (fix up n prev l :=
         match n with
         | O => k prev l
         | S n => match first_match a prev l (up n) with Some x => Some x | None => k prev l end
         end) n prev l
  end.

(** What is left after the match that starts here. *)
Definition match_here (r : regex) (prev : option ascii) (l : list ascii) : option (list ascii) :=
  first_match r prev l (fun _ rest => Some rest).

Fixpoint find_from (r : regex) (prev : option ascii) (l : list ascii) : list ascii :=
  match match_here r prev l with
  | Some rest => take (length l - length rest) l
  | None => match l with [] => [] | c :: tl => find_from r (Some c) tl end
  end.

(** [FindString]: empty where nothing matches. *)
Definition FindString (r : nat -> regex) (s : string) : string :=
  let l := string_bytes s in of_bytes (find_from (r (length l)) None l).

(** ** Classes *)
Definition ascii_class (p : ascii -> bool) (l : list ascii) : option (ascii * list ascii) :=
  match l with c :: tl => if p c then Some (c, tl) else None | [] => None end.

(** With [(?i)] U+017F and U+212A fold to the letters s and k. *)
Definition folded_class (p : ascii -> bool) (l : list ascii) : option (ascii * list ascii) :=
  match l with
  | c0 :: tl =>
      if p c0 then Some (c0, tl)
      else match tl with
           | c1 :: tl1 =>
               if (code c0 =? 197) && (code c1 =? 191) then Some (c1, tl1)
               else match tl1 with
                    | c2 :: tl2 =>
                        if (code c0 =? 226) && (code c1 =? 132) && (code c2 =? 170) then Some (c2, tl2) else None
                    | [] => None
                    end
           | [] => None
           end
  | [] => None
  end.

Definition one_of (s : string) (c : ascii) : bool :=
  existsb (fun d => code c =? code d) (string_bytes s).

Definition literally (s : string) : regex := Class (ascii_class (one_of s)).

Fixpoint times (n : nat) (r : regex) (rest : regex) : regex :=
  match n with O => rest | S n => Cat r (times n r rest) end.

(** [r+] on a text of [n] bytes: every turn takes at least one. *)
Definition plus (n : nat) (r : regex) : regex := Cat r (Upto n r).

(** ** The patterns *)
Definition alnum : regex := Class (folded_class (fun c => is_letter c || is_number c)).
Definition alnum_dash : regex := Class (folded_class (fun c => is_letter c || is_number c || (code c =? 45))).
Definition local_char : regex :=
  Class (folded_class (fun c => is_letter c || is_number c || one_of ".!#$%&'*+/=?^_`{|}~-" c)).

Definition domain_label : regex := Cat alnum (Upto 1 (Cat (Upto 61 alnum_dash) alnum)).

(** [emailInMessage] *)
Definition emailInMessage (n : nat) : regex :=
  Cat Boundary (Cat (plus n local_char) (Cat (literally "@") (Cat domain_label
    (Cat (plus n (Cat (literally ".") domain_label)) Boundary)))).

(** [phoneInMessage] *)
Definition phoneInMessage (_ : nat) : regex :=
  Cat (literally "+") (Cat (literally "123456789")
    (times 7 (Class (ascii_class is_number)) (Cat (Upto 7 (Class (ascii_class is_number))) Boundary))).

Example email_found :
  FindString emailInMessage "Write to Carl.O+x@mail.example.com, please" = "Carl.O+x@mail.example.com".
Proof. vm_compute. reflexivity. Qed.

Example phone_found : FindString phoneInMessage "call +4915112345678." = "+4915112345678".
Proof. vm_compute. reflexivity. Qed.

Example phone_too_long : FindString phoneInMessage "+1234567890123456" = "".
Proof. vm_compute. reflexivity. Qed.
