(* ===== verification/Conversations.v ===== *)
(** * Conversations: [internal/conversations/store.go] and [events.go]

    Customers and conversations of a channel, the capability that opens a demo
    conversation, messages, the token cap of a conversation in the database and
    its correction, the event stream, and the two whole-message recognitions.  A Go [int] that does not fit PostgreSQL's
    [integer] is refused before it is sent; a sum that does not is SQLSTATE 22003. *)

From Stdlib Require Import ZArith Lia Ascii.
From stdpp Require Import base list strings sorting gmap.
From S2P Require Import Prelude GoTime Json Database Catalog Repository JsonParse Validation Base64 Sha256 Hex Regexp.

#[local] Open Scope Z_scope.

Definition ErrNotFound : error := ErrSentinel "conversation not found".
Definition ErrBudgetExceeded : error := ErrSentinel "conversation token budget exhausted".
Definition ErrUnauthorized : error := ErrSentinel "invalid conversation capability".

Record Conversation := mkConversation {
  co_TenantID : string; co_ID : string; co_CustomerID : string; Channel : string; co_Status : string;
  TokenBudget : Z; TokensUsed : Z; TokensReserved : Z; ConsecutiveClarificationFailures : Z;
  CapabilityToken : string
}.

Record Message := mkMessage {
  me_TenantID : string; me_ID : string; me_ConversationID : string; me_Role : string;
  me_Content : string; TokenCount : Z; me_CreatedAt : Time
}.

Record Profile := mkProfile { pf_DisplayName : string; pf_Email : string; pf_Phone : string }.

(** ** Integers of the database *)
Definition fits4 (z : Z) : bool := between (-2147483648) 2147483647 z.
Definition int4 (z : Z) : result Z :=
  if fits4 z then Ok z else Err (ErrText "value does not fit integer").
Definition int4_value (z : Z) : result Z := if fits4 z then Ok z else Err (ErrPg "22003").

(** [NULLIF(text,'')] *)
Definition nullif (s : string) : option string := if bool_decide (s = "") then None else Some s.

(** ** Rows *)
Definition is_conv (tenant id : string) (c : ConversationRow) : bool :=
  String.eqb (cv_tenant c) tenant && String.eqb (cv_id c) id.

Definition on_channel (tenant channel ref : string) (c : ConversationRow) : bool :=
  String.eqb (cv_tenant c) tenant && String.eqb (cv_channel c) channel &&
  bool_decide (cv_ref c = Some ref).

Definition insert_customer (row : CustomerRow) (d : DB) : result DB :=
  if negb (customer_check row) then Err CheckViolation
  else if existsb (is_customer (cu_tenant row) (cu_id row)) (customers d) then Err UniqueViolation
  else if negb (string_in (cu_tenant row) (tenants d)) then Err ForeignKeyViolation
  else Ok (set_customers (customers d ++ [row]) d).

(** The row a customer's profile becomes. *)
Definition profile_row (tenant id : string) (profile : Profile) : CustomerRow :=
  mkCustomerRow tenant id (TrimSpace (pf_DisplayName profile))
    (nullif (TrimSpace (pf_Email profile))) (nullif (TrimSpace (pf_Phone profile))).

Definition insert_customer_sql (row : CustomerRow) : sql unit := fun _ _ _ d =>
  let! d' := insert_customer row d in Ok (tt, d').

Definition conversation_refs_ok (row : ConversationRow) (d : DB) : bool :=
  string_in (cv_tenant row) (tenants d) &&
  opt_check (fun c => existsb (is_customer (cv_tenant row) c) (customers d)) (cv_customer row).

(** [conversations_channel_ref_uq] *)
Definition ref_taken (row : ConversationRow) (d : DB) : bool :=
  opt_check (fun r => existsb (on_channel (cv_tenant row) (cv_channel row) r) (conversations d)) (cv_ref row) &&
  is_set (cv_ref row).

Definition insert_conversation (row : ConversationRow) (d : DB) : result DB :=
  if negb (conversation_check row) then Err CheckViolation
  else if existsb (is_conv (cv_tenant row) (cv_id row)) (conversations d) then Err UniqueViolation
  else if ref_taken row d then Err UniqueViolation
  else if negb (conversation_refs_ok row d) then Err ForeignKeyViolation
  else Ok (set_conversations (conversations d ++ [row]) d).

Definition open_conversation (tenant id customer channel ref : string) (budget : Z) : ConversationRow :=
  mkConversationRow tenant id (Some customer) channel (Some ref) "open" 0 budget 0 0.

Definition insert_conversation_sql (tenant id customer channel ref : string) (budget : Z) : sql unit :=
  fun _ _ _ d =>
  let! budget := int4 budget in
  let! d' := insert_conversation (open_conversation tenant id customer channel ref budget) d in
  Ok (tt, d').

(** [ON CONFLICT (tenant_id,channel,channel_ref) DO NOTHING]: the rows inserted. *)
Definition adopt_conversation_sql (tenant id customer channel ref : string) (budget : Z) : sql nat :=
  fun _ _ _ d =>
  let! budget := int4 budget in
  let row := open_conversation tenant id customer channel ref budget in
  if negb (conversation_check row) then Err CheckViolation
  else if ref_taken row d then Ok (0%nat, d)
  else let! d' := insert_conversation row d in Ok (1%nat, d').

(** A [NULL] customer does not scan into a string. *)
Definition conversation_view (c : ConversationRow) : result Conversation :=
  match cv_customer c with
  | None => Err (ErrText "cannot scan NULL into *string")
  | Some customer =>
      Ok (mkConversation (cv_tenant c) (cv_id c) customer (cv_channel c) (cv_status c) (cv_budget c)
            (cv_used c) (cv_reserved c) (cv_failures c) "")
  end.

(** No row is [ErrNotFound], any other error is wrapped. *)
Definition missing (msg : string) (err : error) : error :=
  if errors_is err ErrNoRows then ErrNotFound else ErrWrap msg err.

Definition load_conversation (msg : string) (p : ConversationRow -> bool) : M Conversation :=
  map_err (missing msg) (
    let* o := query Pool (fun _ _ _ d => Ok (List.find p (conversations d))) in
    let* row := one_row o in
    lift (conversation_view row)).

(** ** Creating and finding *)
Section store.
Context `{Host}.

(** [secret] holds what [rand.Read] gave: 32 bytes, or its error. *)
Definition newCapabilityToken (secret : result string) : result (string * string) :=
  match secret with
  | Err err => Err (ErrWrap "generate conversation capability" err)
  | Ok secret =>
      let raw := EncodeToString secret in
      Ok (raw, EncodeToHex (sha256 raw))
  end.

Definition CreateDemo (secret : result string) (tenantID : string) (profile : Profile) (tokenBudget : Z)
    : M Conversation :=
  if bool_decide (tenantID = "") || blank (pf_DisplayName profile) || (tokenBudget <? 1)
  then fail (ErrText "invalid conversation input")
  else
    let* (token, digest) := lift (newCapabilityToken secret) in
    with_tx "begin conversation" (
      let* customerID := New_id in
      let* _ := wrap "insert customer" (run Tx (insert_customer_sql (profile_row tenantID customerID profile))) in
      let* id := New_id in
      let* _ := wrap "insert conversation"
        (run Tx (insert_conversation_sql tenantID id customerID "demo" digest tokenBudget)) in
      let* _ := wrap "commit conversation" commit in
      ret (mkConversation tenantID id customerID "demo" "open" tokenBudget 0 0 0 token)).

Definition channelConversation (tenantID channel channelRef : string) : M Conversation :=
  load_conversation "get channel conversation" (on_channel tenantID channel channelRef).

(** The transaction that files a first contact: [false] when another one won. *)
Definition first_contact (tenantID channel channelRef : string) (profile : Profile) (tokenBudget : Z) : M bool :=
  with_tx "begin channel conversation" (
    let* customerID := New_id in
    let* _ := wrap "insert channel customer"
      (run Tx (insert_customer_sql (profile_row tenantID customerID profile))) in
    let* id := New_id in
    let* inserted := wrap "insert channel conversation"
      (run Tx (adopt_conversation_sql tenantID id customerID channel channelRef tokenBudget)) in
    if Nat.eqb inserted 0 then ret false
    else
      let* _ := wrap "commit channel conversation" commit in
      ret true).

Definition EnsureChannelConversation (tenantID channel channelRef : string) (profile : Profile)
    (tokenBudget : Z) : M Conversation :=
  if bool_decide (tenantID = "") || bool_decide (channel = "") || bool_decide (channelRef = "") ||
     (tokenBudget <? 1)
  then fail (ErrText "invalid channel conversation input")
  else if blank (pf_DisplayName profile) then fail (ErrText "display name is required")
  else fun e w =>
    match channelConversation tenantID channel channelRef e w with
    | (Ok existing, w') => (Ok existing, w')
    | (Err err, w') =>
        if negb (errors_is err ErrNotFound) then (Err err, w')
        else (let* _ := first_contact tenantID channel channelRef profile tokenBudget in
              channelConversation tenantID channel channelRef) e w'
    end.

(** [COALESCE(NULLIF(old,''),NULLIF(found,''))] *)
Definition fill (old : option string) (found : string) : option string :=
  match old with
  | Some s => if bool_decide (s = "") then nullif found else Some s
  | None => nullif found
  end.

Definition capture (email phone : string) (c : CustomerRow) : CustomerRow :=
  mkCustomerRow (cu_tenant c) (cu_id c) (cu_name c) (fill (cu_email c) email) (fill (cu_phone c) phone).

Definition capture_sql (tenant customer email phone : string) : sql (option CustomerRow) := fun _ _ _ d =>
  let! (l, touched) := sql_update customer_check (is_customer tenant customer) (capture email phone) (customers d) in
  Ok (head touched, set_customers l d).

Definition CaptureContactFromMessage (tenantID customerID message : string) : M Profile :=
  let email := FindString emailInMessage message in
  let phone := FindString phoneInMessage message in
  let* row := map_err (missing "capture customer contact") (
    let* o := run Pool (capture_sql tenantID customerID email phone) in one_row o) in
  ret (mkProfile (cu_name row) (default "" (cu_email row)) (default "" (cu_phone row))).

(** ** The capability of a demo conversation *)
Definition zero_digest : string := of_bytes (repeat (chr 0) 32).

(** The digest compared with: zero bytes where the stored text is no digest. *)
Definition stored_digest (encoded : string) : string :=
  match DecodeHex encoded with
  | Some d => if len d =? 32 then d else zero_digest
  | None => zero_digest
  end.

Definition VerifyCapability (tenantID conversationID rawToken : string) : M unit :=
  let* o := wrap "load conversation capability" (query Pool (fun _ _ _ d =>
    Ok (List.find (is_conv tenantID conversationID) (conversations d)))) in
  match o with
  | None => fail ErrNotFound
  | Some row =>
      if bool_decide (rawToken = "") ||
         negb (bool_decide (sha256 rawToken = stored_digest (default "" (cv_ref row))))
      then fail ErrUnauthorized
      else ret tt
  end.

Definition Get (tenantID conversationID : string) : M Conversation :=
  load_conversation "get conversation" (is_conv tenantID conversationID).

(** ** Messages *)
Definition insert_message (row : MessageRow) (d : DB) : result DB :=
  if negb (message_check row) then Err CheckViolation
  else if existsb (fun m => String.eqb (ms_tenant m) (ms_tenant row) && String.eqb (ms_id m) (ms_id row))
            (messages d) then Err UniqueViolation
  else if opt_check (fun r => existsb (fun m => String.eqb (ms_tenant m) (ms_tenant row) &&
            String.eqb (ms_conversation m) (ms_conversation row) && bool_decide (ms_ref m = Some r))
            (messages d)) (ms_ref row) && is_set (ms_ref row) then Err UniqueViolation
  else if negb (existsb (is_conv (ms_tenant row) (ms_conversation row)) (conversations d))
  then Err ForeignKeyViolation
  else Ok (set_messages (messages d ++ [row]) d).

(** Answers [created_at]; without a receive time it is the server's clock. *)
Definition append_sql (tenant id conversation role content ref : string) (receivedAt : option Time)
    : sql Time := fun now n e d =>
  let created := match receivedAt with Some t => pg_time Local t | None => clock e n end in
  let! d' := insert_message (mkMessageRow tenant id conversation role content 0 (nullif ref) created) d in
  Ok (created, d').

Definition appendMessage (tenantID conversationID role content externalRef : string)
    (receivedAt : option Time) : M Message :=
  if negb (string_in role ["user"; "assistant"; "system"; "tool"]) then fail (ErrText "invalid message role")
  else
    let* id := New_id in
    let* created := wrap "append message"
      (run Pool (append_sql tenantID id conversationID role content externalRef receivedAt)) in
    ret (mkMessage tenantID id conversationID role content 0 created).

Definition AppendMessage (tenantID conversationID role content externalRef : string) : M Message :=
  appendMessage tenantID conversationID role content externalRef None.

Definition AppendMessageAt (tenantID conversationID role content externalRef : string) (receivedAt : Time)
    : M Message :=
  if IsZero receivedAt then fail (ErrText "message receive time is required")
  else appendMessage tenantID conversationID role content externalRef (Some receivedAt).

(** [ORDER BY created_at,id] *)
Definition earlier (a b : MessageRow) : bool :=
  (ns (ms_created a) <? ns (ms_created b)) ||
  ((ns (ms_created a) =? ns (ms_created b)) && String.ltb (ms_id a) (ms_id b)).

Definition message_view (m : MessageRow) : Message :=
  mkMessage (ms_tenant m) (ms_id m) (ms_conversation m) (ms_role m) (ms_content m) (ms_tokens m) (ms_created m).

Definition recent (tenant conversation : string) (limit : nat) (d : DB) : list MessageRow :=
  sort_slice earlier (take limit (sort_slice (fun a b => earlier b a)
    (List.filter (fun m => String.eqb (ms_tenant m) tenant && String.eqb (ms_conversation m) conversation)
      (messages d)))).

Definition History (tenantID conversationID : string) (limit : Z) : M (list Message) :=
  let limit := if (limit <? 1) || (500 <? limit) then 100 else limit in
  let* rows := wrap "list messages" (query Pool (fun _ _ _ d =>
    Ok (recent tenantID conversationID (Z.to_nat limit) d))) in
  ret (map message_view rows).

(** ** The token cap of a conversation *)
Definition set_tokens (used reserved : Z) (c : ConversationRow) : ConversationRow :=
  mkConversationRow (cv_tenant c) (cv_id c) (cv_customer c) (cv_channel c) (cv_ref c) (cv_status c)
    (cv_failures c) (cv_budget c) used reserved.

(** One row updated where its condition holds; the rows affected. *)
Definition update_conversation (tenant id : string) (p : ConversationRow -> result bool)
    (f : ConversationRow -> ConversationRow) (d : DB) : result (nat * DB) :=
  match List.find (is_conv tenant id) (conversations d) with
  | None => Ok (0%nat, d)
  | Some row =>
      let! ok := p row in
      if ok then
        let! (l, touched) := sql_update conversation_check (is_conv tenant id) f (conversations d) in
        Ok (length touched, set_conversations l d)
      else Ok (0%nat, d)
  end.

(** [tokens_used+tokens_reserved+$3 <= token_budget] *)
Definition reserve_sql (tenant id : string) (amount : Z) : sql nat := fun _ _ _ d =>
  let! amount := int4 amount in
  update_conversation tenant id
    (fun c => let! sum := int4_value (cv_used c + cv_reserved c + amount) in Ok (sum <=? cv_budget c))
    (fun c => set_tokens (cv_used c) (cv_reserved c + amount) c) d.

Definition affected_or (err : error) (n : nat) : M unit := if Nat.eqb n 0 then fail err else ret tt.

Definition ReserveTokens (tenantID conversationID : string) (amount : Z) : M unit :=
  if amount <? 1 then fail (ErrText "reservation must be positive")
  else
    let* n := wrap "reserve token budget" (run Pool (reserve_sql tenantID conversationID amount)) in
    affected_or ErrBudgetExceeded n.

Definition settle_sql (tenant id : string) (reserved actual : Z) : sql nat := fun _ _ _ d =>
  let! reserved := int4 reserved in
  let! actual := int4 actual in
  update_conversation tenant id
    (fun c => if reserved <=? cv_reserved c
              then let! sum := int4_value (cv_used c + actual) in Ok (sum <=? cv_budget c)
              else Ok false)
    (fun c => set_tokens (cv_used c + actual) (cv_reserved c - reserved) c) d.

Definition SettleTokens (tenantID conversationID : string) (reserved actual : Z) : M unit :=
  if (reserved <? 1) || (actual <? 0) || (reserved <? actual) then fail (ErrText "invalid token settlement")
  else
    let* n := wrap "settle token budget" (run Pool (settle_sql tenantID conversationID reserved actual)) in
    affected_or ErrBudgetExceeded n.

Definition release_sql (tenant id : string) (reserved : Z) : sql nat := fun _ _ _ d =>
  let! reserved := int4 reserved in
  update_conversation tenant id (fun c => Ok (reserved <=? cv_reserved c))
    (fun c => set_tokens (cv_used c) (cv_reserved c - reserved) c) d.

Definition ReleaseTokens (tenantID conversationID : string) (reserved : Z) : M unit :=
  if reserved <? 1 then ret tt
  else
    let* n := wrap "release token budget" (run Pool (release_sql tenantID conversationID reserved)) in
    affected_or ErrNotFound n.

(** ** Correcting inflated usage *)
(** What the iterations of a conversation's runs used: a failed call counts as
    [penalty]; no row where the conversation has no iteration. *)
Definition iteration_usage (penalty : Z) (i : IterationRow) : result Z :=
  let! sum := int4_value (it_prompt i + it_completion i) in
  Ok (if 0 <? sum then sum else penalty).

Definition runs_iterations (tenant conversation : string) (d : DB) : list IterationRow :=
  flat_map (fun r => List.filter (fun i => String.eqb (it_tenant i) (ru_tenant r) && String.eqb (it_run i) (ru_id r))
                       (agent_iterations (turns d)))
    (List.filter (fun r => String.eqb (ru_tenant r) tenant && String.eqb (ru_conversation r) conversation)
      (agent_runs d)).

Definition real_usage (tenant : string) (penalty : Z) (conversation : string) (d : DB) : result (option Z) :=
  let! used := each_ok (iteration_usage penalty) (runs_iterations tenant conversation d) in
  match used with
  | [] => Ok None
  | _ => let! sum := int4_value (fold_right Z.add 0 used) in Ok (Some sum)
  end.

(** A conversation with its recalculated usage, and whether it was touched. *)
Definition recalibrated (tenant : string) (penalty : Z) (d : DB) (c : ConversationRow)
    : result (ConversationRow * bool) :=
  if negb (String.eqb (cv_tenant c) tenant) then Ok (c, false)
  else
    let! usage := real_usage tenant penalty (cv_id c) d in
    match usage with
    | Some real =>
        if String.eqb (cv_status c) "open" && (cv_reserved c =? 0) && (real <? cv_used c)
        then let c' := set_tokens real (cv_reserved c) c in
             if conversation_check c' then Ok (c', true) else Err CheckViolation
        else Ok (c, false)
    | None => Ok (c, false)
    end.

Definition recalibrate_sql (tenant : string) (penalty : Z) : sql nat := fun _ _ _ d =>
  let! penalty := int4 penalty in
  let! rows := each_ok (recalibrated tenant penalty d) (conversations d) in
  Ok (length (List.filter snd rows), set_conversations (map fst rows) d).

Definition RecalibrateInflatedUsage (tenantID : string) (failedIterationPenalty : Z) : M Z :=
  let penalty := if failedIterationPenalty <=? 0 then 500 else failedIterationPenalty in
  let* n := wrap "recalibrate inflated token usage" (run Pool (recalibrate_sql tenantID penalty)) in
  ret (Z.of_nat n).

(** ** The event stream ([events.go]) *)
Record Event := mkEvent { e_ID : Z; Type_ : string; Payload : string; e_CreatedAt : Time }.

Definition event_view (x : TurnEventRow) : Event := mkEvent (te_id x) (te_type x) (te_payload x) (te_created x).

Definition stream_after (tenant conversation : string) (afterID : Z) (d : DB) : list TurnEventRow :=
  sort_slice (fun a b => te_id a <? te_id b)
    (List.filter (fun x => String.eqb (te_tenant x) tenant && String.eqb (te_conversation x) conversation &&
      (afterID <? te_id x)) (conversation_events (turns d))).

Definition EventsAfter (tenantID conversationID : string) (afterID limit : Z) : M (list Event) :=
  let limit := if (limit <? 1) || (500 <? limit) then 100 else limit in
  let* rows := wrap "load conversation events" (query Pool (fun _ _ _ d =>
    Ok (take (Z.to_nat limit) (stream_after tenantID conversationID afterID d)))) in
  ret (map event_view rows).
End store.

(** ** Recognizing a whole message *)
Definition full_stop : ascii := chr 46.

(** [strings.TrimSuffix(s, ".")] *)
Definition trim_stop (s : string) : string :=
  match rev (string_bytes s) with
  | c :: tl => if bool_decide (c = full_stop) then of_bytes (rev tl) else s
  | [] => s
  end.

Definition consent_phrases : list string :=
  ["yes"; "yes, confirm"; "confirm"; "confirm it"; "book it"; "yes, book it"; "go ahead"].

Definition IsExplicitConsent (text : string) : bool :=
  string_in (trim_stop (ToLower (TrimSpace text))) consent_phrases.

(** [strings.Trim(s, " \t\r\n.!?")]: every member of the set is one byte. *)
Definition trimmed_byte (c : ascii) : bool :=
  existsb (Z.eqb (code c)) [32; 9; 13; 10; 46; 33; 63].

Fixpoint drop_trimmed (l : list ascii) : list ascii :=
  match l with c :: tl => if trimmed_byte c then drop_trimmed tl else l | [] => [] end.

Definition trim_punctuation (s : string) : string :=
  of_bytes (rev (drop_trimmed (rev (drop_trimmed (string_bytes s))))).

(** [strings.Fields]: the words between white space. *)
Fixpoint fields (l : list (list ascii)) (word : list ascii) : list (list ascii) :=
  let flush := match word with [] => [] | _ => [word] end in
  match l with
  | [] => flush
  | c :: tl => if space_chunk c then flush ++ fields tl [] else fields tl (word ++ c)
  end.

Definition Fields (s : string) : list string :=
  map of_bytes (fields (chunks (String.length s) (string_bytes s)) []).

Definition human_phrases : list string :=
  ["human"; "human please"; "a human"; "a human please"; "person"; "person please"; "a person";
   "a person please"; "operator"; "operator please"; "live agent"; "live agent please";
   "talk to a human"; "speak to a human"; "talk to a person"; "speak to a person";
   "talk to an operator"; "speak to an operator"; "connect me to a human"; "connect me to a person";
   "connect me to an operator"; "i want a human"; "i need a human"; "i want a person"; "i need a person"].

Definition IsHumanRequest (text : string) : bool :=
  string_in (Json.join " " (Fields (trim_punctuation (ToLower (TrimSpace text))))) human_phrases.

Example consent_recognized : map IsExplicitConsent ["  Yes. "; "yes, but later"; "Book it"; "yes.."] =
  [true; false; true; false].
Proof. vm_compute. reflexivity. Qed.

Example human_recognized : map IsHumanRequest ["Talk  to a HUMAN!"; "no human"; "operator?"] =
  [true; false; true].
Proof. vm_compute. reflexivity. Qed.
