(* ===== verification/AgentBudget.v ===== *)
(** * The database-enforced token budget: [internal/agentbudget/postgres.go]

    The agent's reservation interface over the token columns of a conversation.
    A reservation is a shared object: settling answers the object it leaves and
    what it does to the tables.

    On one conversation without failing statements, the token columns and the
    reservations handed out are at every moment those of the ledger of
    [Budget.v], so what is proved of the ledger holds of the database. *)

From Stdlib Require Import ZArith Lia.
From stdpp Require Import base list strings gmap.
From S2P Require Import Prelude GoTime Json Database Catalog Repository Conversations Budget.

#[local] Open Scope Z_scope.

Record reservation := mkDbReservation {
  dr_conversation : string; dr_reserved : Z; dr_settled : bool
}.

Definition budget_error (err : error) : error :=
  if errors_is err ErrBudgetExceeded then ErrWrap "requested" ErrTokenBudgetExceeded else err.

Definition DbReserve (tenantID conversationID : string) (tokens : Z) : M reservation :=
  let* _ := map_err budget_error (ReserveTokens tenantID conversationID tokens) in
  ret (mkDbReservation conversationID tokens false).

Definition DbSettle (tenantID : string) (actualTokens : Z) (r : reservation) : reservation * M unit :=
  if dr_settled r then (r, fail (ErrText "token reservation already settled"))
  else
    (mkDbReservation (dr_conversation r) (dr_reserved r) true,
     if (actualTokens <? 0) || (dr_reserved r <? actualTokens) then
       let* _ := SettleTokens tenantID (dr_conversation r) (dr_reserved r) (dr_reserved r) in
       fail (ErrWrap "reserved, actual" ErrUsageExceedsReservation)
     else SettleTokens tenantID (dr_conversation r) (dr_reserved r) actualTokens).

(** ** Runs

    The calls of [Budget.v] made of the database instead: reservation [i] is the
    [i]-th one handed out. *)
Definition db_exec (tenant : string) (e : env) (c : call) (s : world * list reservation)
    : world * list reservation :=
  let '(w, handed) := s in
  match c with
  | CReserve _ conv tokens =>
      match DbReserve tenant conv tokens e w with
      | (Ok r, w') => (w', handed ++ [r])
      | (Err _, w') => (w', handed)
      end
  | CSettle _ i actual =>
      match handed !! i with
      | None => s
      | Some r => let '(r', m) := DbSettle tenant actual r in ((m e w).2, <[i := r']> handed)
      end
  end.

Definition db_run (tenant : string) (e : env) (cs : list call) (s : world * list reservation)
    : world * list reservation := fold_left (fun s c => db_exec tenant e c s) cs s.

(** * The database budget refines the in-memory one *)

From S2P Require Import DatabaseFacts.

#[local] Open Scope Z_scope.

(** ** One row of a table *)
Lemma find_head {A} (p : A -> bool) l : List.find p l = head (List.filter p l).
Proof. induction l as [|a l IH]; simpl; [done|]. by destruct (p a). Qed.

Lemma filter_update {A} (p : A -> bool) f l :
  (forall a, p a = true -> p (f a) = true) -> List.filter p (update_rows p f l) = map f (List.filter p l).
Proof.
  intros Hf. unfold update_rows. induction l as [|a l IH]; simpl; [done|].
  destruct (p a) eqn:Ha; simpl; [rewrite (Hf a Ha); simpl|rewrite Ha]; by rewrite ?IH.
Qed.

Lemma outstanding_app conv rs r :
  outstanding conv (rs ++ [r]) =
  outstanding conv rs + (if bool_decide (conversationID r = conv) && negb (settled r) then reserved r else 0).
Proof. induction rs as [|r0 rs IH]; simpl; [lia|]. rewrite IH. lia. Qed.

(** Marking a reservation settled takes it out. *)
Lemma outstanding_settle conv rs i r :
  rs !! i = Some r -> conversationID r = conv -> settled r = false ->
  outstanding conv (<[i := mkReservation (conversationID r) (reserved r) true]> rs) =
  outstanding conv rs - reserved r.
Proof.
  revert i. induction rs as [|r0 rs IH]; intros [|i] Hi Hc Hs; simplify_eq/=.
  - rewrite bool_decide_eq_true_2 by done. rewrite Hs. simpl. lia.
  - rewrite (IH i Hi eq_refl Hs). lia.
Qed.

Lemma outstanding_nonneg conv rs : Forall (fun r => 1 <= reserved r) rs -> 0 <= outstanding conv rs.
Proof. induction 1 as [|r rs Hr _ IH]; simpl; [lia|]. destruct (_ && _); lia. Qed.

Lemma outstanding_member conv rs i r :
  Forall (fun r => 1 <= reserved r) rs -> rs !! i = Some r -> conversationID r = conv -> settled r = false ->
  reserved r <= outstanding conv rs.
Proof.
  intros Hf. revert i. induction Hf as [|r0 rs Hr Hf IH]; intros [|i] Hi Hc Hs; simplify_eq/=.
  - rewrite bool_decide_eq_true_2 by done. rewrite Hs. simpl. pose proof (outstanding_nonneg (conversationID r) rs Hf). lia.
  - specialize (IH i Hi eq_refl Hs). destruct (_ && _); lia.
Qed.

(** A negative report: the database charges the reservation in full, as both budgets do
    for a report above it; the ledger refuses it and keeps the reservation open. *)
Definition charged_in_full (c : call) : call :=
  match c with
  | CSettle ctx i actual => CSettle ctx i (if actual <? 0 then max_int64 else actual)
  | _ => c
  end.

Definition sensible (c : call) : Prop := match c with CSettle _ _ actual => 0 <= actual | _ => True end.

Lemma charged_sensible cs : Forall sensible cs -> map charged_in_full cs = cs.
Proof.
  induction 1 as [|c cs Hc _ IH]; [done|]. cbn [map]. rewrite IH. f_equal. destruct c as [|ctx i a]; [done|].
  cbn in *. by rewrite (proj2 (Z.ltb_ge a 0)).
Qed.

Section refinement.
Context (tenant conv : string) (e : env) (calm : forall n, fault e n = None) (named : conv <> "").

Definition row_of (d : DB) (row : ConversationRow) : Prop :=
  List.filter (is_conv tenant conv) (conversations d) = [row] /\ conversation_check row = true.

Lemma update_conversation_one p f d row ok :
  row_of d row -> p row = Ok ok -> (ok = true -> conversation_check (f row) = true) ->
  (forall c, is_conv tenant conv c = true -> is_conv tenant conv (f c) = true) ->
  exists d', update_conversation tenant conv p f d = Ok ((if ok then 1 else 0)%nat, d') /\
    row_of d' (if ok then f row else row).
Proof.
  intros [Hf Hc] Hp Hok Hk. unfold update_conversation. rewrite find_head, Hf. simpl. rewrite Hp. simpl.
  destruct ok; [|by exists d]. unfold sql_update. rewrite Hf. simpl. rewrite Hok by done. simpl.
  eexists. split; [done|]. split; [|by apply Hok]. simpl. by rewrite filter_update, Hf.
Qed.

Lemma check_bounds row :
  conversation_check row = true ->
  1 <= cv_budget row <= 2000000 /\ 0 <= cv_used row /\ 0 <= cv_reserved row /\
  cv_used row + cv_reserved row <= cv_budget row.
Proof. unfold conversation_check, between. intros Hc. bool_to_prop. lia. Qed.

Lemma check_tokens row used reserved :
  conversation_check row = true -> 0 <= used -> 0 <= reserved -> used + reserved <= cv_budget row ->
  conversation_check (set_tokens used reserved row) = true.
Proof.
  unfold conversation_check. simpl. rewrite !andb_true_iff. intros [[[[[[[? ?] ?] ?] _] _] _] ?] Hu Hr Hs.
  repeat split; try done; by apply Z.leb_le.
Qed.

Lemma fits4_small z : -2147483648 <= z <= 2147483647 -> fits4 z = true.
Proof. unfold fits4, between. intros ?. apply andb_true_iff. lia. Qed.

(** [ReserveTokens] grants exactly what the row has room for. *)
Lemma ReserveTokens_spec n w row :
  row_of (db w) row ->
  if (1 <=? n) && (cv_used row + cv_reserved row + n <=? cv_budget row)
  then exists w', ReserveTokens tenant conv n e w = (Ok tt, w') /\
         row_of (db w') (set_tokens (cv_used row) (cv_reserved row + n) row)
  else exists err w', ReserveTokens tenant conv n e w = (Err err, w') /\ row_of (db w') row.
Proof.
  intros Hrow. pose proof (check_bounds row (proj2 Hrow)) as Hb. unfold ReserveTokens.
  destruct (Z.ltb_spec n 1) as [Hn|Hn].
  { rewrite (proj2 (Z.leb_gt 1 n)) by lia. simpl. by eexists _, w. }
  rewrite (proj2 (Z.leb_le 1 n)) by lia. simpl andb.
  unfold bind, wrap, map_err, Database.run, reserve_sql. rewrite calm. unfold int4.
  destruct (fits4 n) eqn:E1; cycle 1.
  { destruct (Z.leb_spec (cv_used row + cv_reserved row + n) (cv_budget row)); [|by eexists _, _].
    rewrite fits4_small in E1 by lia. done. }
  simpl.
  destruct (fits4 (cv_used row + cv_reserved row + n)) eqn:E2; cycle 1.
  { destruct (Z.leb_spec (cv_used row + cv_reserved row + n) (cv_budget row)).
    { rewrite fits4_small in E2 by lia. done. }
    unfold update_conversation. destruct Hrow as [Hf Hc]. rewrite find_head, Hf. simpl.
    unfold int4_value. rewrite E2. simpl. by eexists _, _. }
  destruct (update_conversation_one
    (fun c => let! sum := int4_value (cv_used c + cv_reserved c + n) in Ok (sum <=? cv_budget c))
    (fun c => set_tokens (cv_used c) (cv_reserved c + n) c) (db w) row
    (cv_used row + cv_reserved row + n <=? cv_budget row) Hrow) as (d' & Hu & Hd).
  - unfold int4_value. by rewrite E2.
  - intros Hle%Z.leb_le. apply check_tokens; [exact (proj2 Hrow)|lia..].
  - done.
  - rewrite Hu. destruct (_ <=? cv_budget row); [eexists|eexists _, _]; (split; [reflexivity|exact Hd]).
Qed.

(** [SettleTokens] of an outstanding reservation moves its tokens. *)
Lemma SettleTokens_spec n a w row :
  row_of (db w) row -> 1 <= n <= cv_reserved row -> 0 <= a <= n ->
  exists w', SettleTokens tenant conv n a e w = (Ok tt, w') /\
    row_of (db w') (set_tokens (cv_used row + a) (cv_reserved row - n) row).
Proof.
  intros Hrow Hn Ha. pose proof (check_bounds row (proj2 Hrow)) as Hb. unfold SettleTokens.
  destruct ((n <? 1) || (a <? 0) || (n <? a)) eqn:E.
  { rewrite !orb_true_iff, !Z.ltb_lt in E. lia. }
  unfold bind, wrap, map_err, Database.run, settle_sql. rewrite calm. unfold int4.
  rewrite !fits4_small by lia. simpl.
  destruct (update_conversation_one
    (fun c => if n <=? cv_reserved c
              then let! sum := int4_value (cv_used c + a) in Ok (sum <=? cv_budget c) else Ok false)
    (fun c => set_tokens (cv_used c + a) (cv_reserved c - n) c) (db w) row true Hrow) as (d' & Hu & Hd).
  - rewrite (proj2 (Z.leb_le n _)) by lia. unfold int4_value. rewrite fits4_small by lia. simpl.
    f_equal. apply Z.leb_le. lia.
  - intros _. apply check_tokens; [exact (proj2 Hrow)|lia..].
  - done.
  - rewrite Hu. eexists. split; [reflexivity|exact Hd].
Qed.

(** ** The simulation *)
Definition handle (r : memoryTokenReservation) : reservation :=
  mkDbReservation (conversationID r) (reserved r) (settled r).

Definition refines (s : system) (ws : world * list reservation) : Prop :=
  exists row, row_of (db ws.1) row /\ cv_budget row = limit (budget s) /\
    cv_used row + cv_reserved row = Accounted (budget s) conv /\
    cv_reserved row = outstanding conv (handed s) /\ ws.2 = map handle (handed s) /\
    Forall (fun r => conversationID r = conv) (handed s) /\ Forall (fun r => 1 <= reserved r) (handed s).

(** Calls on this conversation whose context lives. *)
Definition live_call (c : call) : Prop :=
  match c with
  | CReserve ctx cv _ => ctx = None /\ cv = conv
  | CSettle ctx _ _ => ctx = None
  end.

Lemma DbReserve_eq n w :
  DbReserve tenant conv n e w =
  match ReserveTokens tenant conv n e w with
  | (Ok _, w') => (Ok (mkDbReservation conv n false), w')
  | (Err err, w') => (Err (budget_error err), w')
  end.
Proof. unfold DbReserve, bind, map_err. by destruct (ReserveTokens _ _ _ _ _) as [[]]. Qed.

Lemma refines_reserve s ws n :
  refines s ws -> refines (exec (CReserve None conv n) s) (db_exec tenant e (CReserve None conv n) ws).
Proof.
  destruct ws as [w hs]. intros (row & Hrow & Hl & Ha & Hr & Hh & Hc & Hf). simpl in Hrow, Hh. subst hs.
  pose proof (check_bounds row (proj2 Hrow)) as Hb. pose proof (ReserveTokens_spec n w row Hrow) as Hs.
  cbn [exec db_exec]. rewrite DbReserve_eq. unfold Reserve. rewrite bool_decide_eq_false_2 by done.
  rewrite (wrap_cap (limit (budget s))) by (unfold max_int64; lia).
  destruct (Z.leb_spec n 0) as [Hn|Hn].
  { rewrite (proj2 (Z.leb_gt 1 n)) in Hs by lia. destruct Hs as (err & w' & -> & Hw). exists row. by repeat split; try apply Hw. }
  rewrite (proj2 (Z.leb_le 1 n)) in Hs by lia. simpl andb in Hs.
  destruct (Z.ltb_spec (limit (budget s) - Accounted (budget s) conv) n) as [Hlt|Hge].
  { rewrite (proj2 (Z.leb_gt _ (cv_budget row))) in Hs by lia. destruct Hs as (err & w' & -> & Hw).
    exists row. by repeat split; try apply Hw. }
  rewrite (proj2 (Z.leb_le _ (cv_budget row))) in Hs by lia. destruct Hs as (w' & -> & Hw).
  eexists. split; [exact Hw|]. simpl. rewrite Accounted_insert, bool_decide_eq_true_2 by done.
  rewrite (wrap_cap (limit (budget s))) by (unfold max_int64; lia).
  rewrite outstanding_app, map_app. simpl. rewrite bool_decide_eq_true_2 by done. simpl.
  split; [done|]. split; [lia|]. split; [lia|]. split; [done|].
  split; apply Forall_app; (split; [done|]); by repeat constructor; simpl; lia.
Qed.

Lemma refines_settle s ws i a :
  refines s ws -> refines (exec (charged_in_full (CSettle None i a)) s) (db_exec tenant e (CSettle None i a) ws).
Proof.
  destruct ws as [w hs]. intros (row & Hrow & Hl & Ha & Hr & Hh & Hc & Hf). simpl in Hrow, Hh. subst hs.
  pose proof (check_bounds row (proj2 Hrow)) as Hb. cbn [exec db_exec charged_in_full].
  rewrite list_lookup_fmap. destruct (handed s !! i) as [r|] eqn:Hi; simpl; [|by exists row].
  pose proof (proj1 (Forall_lookup _ _) Hc i r Hi) as Hrc. pose proof (proj1 (Forall_lookup _ _) Hf i r Hi) as Hr1.
  simpl in Hrc, Hr1.
  set (a' := if a <? 0 then max_int64 else a).
  assert (Ha' : 0 <= a') by (unfold a', max_int64; destruct (Z.ltb_spec a 0); lia).
  unfold DbSettle, Settle. rewrite (proj2 (Z.ltb_ge a' 0)) by done. simpl.
  destruct (settled r) eqn:Hs.
  { exists row. simpl. rewrite (list_insert_id (handed s)), list_insert_id by
      (try done; by rewrite list_lookup_fmap, Hi). by repeat split; try apply Hrow. }
  pose proof (outstanding_member conv _ _ _ Hf Hi Hrc Hs) as Ho.
  pose proof (outstanding_settle conv _ _ _ Hi Hrc Hs) as Hos.
  set (r' := mkReservation (conversationID r) (reserved r) true) in *.
  assert (Hc' : Forall (fun r => conversationID r = conv) (<[i := r']> (handed s))) by (by apply Forall_insert).
  assert (Hf' : Forall (fun r => 1 <= reserved r) (<[i := r']> (handed s))) by (by apply Forall_insert).
  assert (Hm : <[i := mkDbReservation conv (reserved r) true]> (map handle (handed s)) =
    map handle (<[i := r']> (handed s))) by (rewrite <- Hrc; symmetry; apply (list_fmap_insert handle)).
  assert (Hover : (a <? 0) || (reserved r <? a) = (reserved r <? a')).
  { unfold a', max_int64. destruct (Z.ltb_spec a 0); [|done]. symmetry. apply Z.ltb_lt. lia. }
  cbn [dr_reserved handle]. rewrite Hover. destruct (Z.ltb_spec (reserved r) a') as [Hlt|Hge]; simpl.
  - destruct (SettleTokens_spec (reserved r) (reserved r) w row Hrow) as (w' & Hs' & Hw); [lia..|].
    exists (set_tokens (cv_used row + reserved r) (cv_reserved row - reserved r) row). simpl.
    unfold bind. rewrite Hrc, Hs'. simpl. repeat split; try done; try lia; apply Hw.
  - assert (a' = a) as E by (unfold a', max_int64 in *; destruct (Z.ltb_spec a 0); lia). rewrite E in *. clear a' E Hover.
    destruct (SettleTokens_spec (reserved r) a w row Hrow) as (w' & Hs' & Hw); [lia..|].
    exists (set_tokens (cv_used row + a) (cv_reserved row - reserved r) row). simpl.
    rewrite Hrc, Hs'. simpl. rewrite Accounted_insert, bool_decide_eq_true_2 by done.
    rewrite (wrap_cap (limit (budget s)) (reserved r - a)) by (unfold max_int64; lia).
    rewrite (wrap_cap (limit (budget s))) by (unfold max_int64; lia).
    repeat split; try done; try lia; apply Hw.
Qed.

(** C31. The database budget refines the ledger.  Run the same reservations and
    settlements of one conversation on the database, whose statements do not
    fail, and on the in-memory ledger: from states that agree they reach states
    that agree, on the limit, on what is accounted, on what is reserved and on
    every reservation handed out.  A report of negative usage is where they part: the
    database charges the whole reservation, which is what the ledger does for a report
    that exceeds it, so it agrees with the ledger told of one; a run without negative
    reports is told just what was called. *)
Theorem db_budget_refines_memory cs s ws :
  Forall live_call cs -> refines s ws ->
  refines (run (map charged_in_full cs) s) (db_run tenant e cs ws) /\
  (Forall sensible cs -> refines (run cs s) (db_run tenant e cs ws)).
Proof.
  intros Hcs Hr. enough (H : refines (run (map charged_in_full cs) s) (db_run tenant e cs ws)).
  { split; [exact H|]. intros Hs%charged_sensible. by rewrite Hs in H. }
  unfold run, db_run. revert s ws Hr. induction Hcs as [|c cs Hc _ IH]; intros s ws Hr; simpl; [done|].
  apply IH. destruct c as [ctx cv n|ctx i a]; [destruct Hc as [-> ->]; by apply refines_reserve|].
  cbn in Hc. subst ctx. by apply refines_settle.
Qed.
End refinement.

(** ** A conversation with a cap of a thousand tokens *)
Definition capped : ConversationRow :=
  mkConversationRow "t" "v" (Some "c") "demo" None "open" 0 1000 0 0.

Definition capped_world : world :=
  let d := mkDB ["t"] [] [] [] [] [] [] [capped] [] [] [] [] [] [] [] [] [] [] no_turns in
  mkWorld d d false (mkTime 0 UTC) 0.

Definition steady : env :=
  mkEnv (fun _ => mkTime 0 UTC) (fun _ _ => "id") (fun _ _ => false) (fun _ => None) (fun _ => false) (fun _ => None).

Definition budget_calls : list call :=
  [CReserve None "v" 600; CReserve None "v" 600; CSettle None 0 200; CReserve None "v" 600; CSettle None 1 700].

(** A negative report, and the settlement after it. *)
Definition negative_report : list call := [CReserve None "v" 600; CSettle None 0 (-1); CSettle None 0 0].

Lemma db_budget_refines_memory_witness :
  refines "t" "v" (run budget_calls (mkSystem (mkBudget 1000 ∅) [])) (db_run "t" steady budget_calls (capped_world, [])) /\
  Accounted (budget (run budget_calls (mkSystem (mkBudget 1000 ∅) []))) "v" = 800 /\
  refines "t" "v" (run (map charged_in_full negative_report) (mkSystem (mkBudget 1000 ∅) []))
    (db_run "t" steady negative_report (capped_world, [])) /\
  Accounted (budget (run (map charged_in_full negative_report) (mkSystem (mkBudget 1000 ∅) []))) "v" = 600 /\
  Accounted (budget (run negative_report (mkSystem (mkBudget 1000 ∅) []))) "v" = 0.
Proof.
  assert (Hstart : refines "t" "v" (mkSystem (mkBudget 1000 ∅) []) (capped_world, [])).
  { exists capped. repeat split; constructor. }
  assert (Hrun : forall cs, Forall (live_call "v") cs -> refines "t" "v" (run (map charged_in_full cs) (mkSystem (mkBudget 1000 ∅) []))
      (db_run "t" steady cs (capped_world, [])) /\
    (Forall sensible cs -> refines "t" "v" (run cs (mkSystem (mkBudget 1000 ∅) [])) (db_run "t" steady cs (capped_world, [])))).
  { intros cs Hcs. apply db_budget_refines_memory; [reflexivity|discriminate|exact Hcs|exact Hstart]. }
  split; [|split; [vm_compute; reflexivity|split; [|split; vm_compute; reflexivity]]].
  - apply Hrun; repeat constructor; simpl; done.
  - apply Hrun; repeat constructor; simpl; done.
Defined.
