(* ===== verification/Durable.v ===== *)
(** * Two-phase confirmation in PostgreSQL: [internal/confirmations/postgres.go]

    The durable confirmation store: proposals are rows of [action_proposals], a
    customer's consent is a message of the conversation that follows a message
    of the assistant.  [jsonb] is the text PostgreSQL prints for a value it
    stored, or its refusal.  Identifier columns take any text here: the error of
    a malformed UUID is one of the faults a statement may meet. *)

From Stdlib Require Import ZArith Lia Ascii.
From stdpp Require Import base list strings sorting gmap.
From S2P Require Import Prelude GoTime Json Database Catalog Repository JsonParse Validation TimeText Hex Confirmations Tokens.

#[local] Open Scope Z_scope.

(** ** The summary: [json.Marshal] and [json.Unmarshal] of a proposal

    A list without facts is a nil slice. *)
Definition fact_json (f : ConfirmationFact) : json :=
  JObj [("label", JStr (Label f)); ("value", JStr (Value f))].

Definition facts_json (l : list ConfirmationFact) : json :=
  match l with [] => JNull | _ => JArr (map fact_json l) end.

Definition encode_proposal (p : ConfirmationProposal) : option json :=
  match time_json (ExpiresAt p) with
  | None => None
  | Some expires =>
      Some (JObj [("id", JStr (prop_ID p)); ("action", JStr (Action p)); ("title", JStr (Title p));
        ("facts", facts_json (Facts p)); ("expires_at", expires)])
  end.

Definition fact_field (kv : string * json) (f : ConfirmationFact) : option ConfirmationFact :=
  let '(mkFact label value) := f in
  if names_field kv.1 "label" then x ← decode_text label kv.2; Some (mkFact x value)
  else if names_field kv.1 "value" then x ← decode_text value kv.2; Some (mkFact label x)
  else Some f.

Fixpoint decode_facts (l : list json) : option (list ConfirmationFact) :=
  match l with
  | [] => Some []
  | v :: tl => f ← decode_struct fact_field v (mkFact "" ""); r ← decode_facts tl; Some (f :: r)
  end.

Section store.
Context `{Host} (jsonb : string -> result string).

Definition proposal_field (kv : string * json) (p : ConfirmationProposal) : option ConfirmationProposal :=
  let '(mkProposal id action title facts expires) := p in
  if names_field kv.1 "id" then x ← decode_text id kv.2; Some (mkProposal x action title facts expires)
  else if names_field kv.1 "action" then
    x ← decode_text action kv.2; Some (mkProposal id x title facts expires)
  else if names_field kv.1 "title" then
    x ← decode_text title kv.2; Some (mkProposal id action x facts expires)
  else if names_field kv.1 "facts" then
    match kv.2 with
    | JArr l => x ← decode_facts l; Some (mkProposal id action title x expires)
    | JNull => Some (mkProposal id action title [] expires)
    | _ => None
    end
  else if names_field kv.1 "expires_at" then
    x ← decode_time Local expires kv.2; Some (mkProposal id action title facts x)
  else Some p.

Definition decode_proposal (payload : string) (p : ConfirmationProposal) : option ConfirmationProposal :=
  v ← Unmarshal payload; decode_struct proposal_field v p.

Definition zero_proposal : ConfirmationProposal := mkProposal "" "" "" [] zero_time.

(** ** The statements *)
Definition owned (tenant customer conversation : string) (p : ProposalRow) : bool :=
  String.eqb (pr_tenant p) tenant && String.eqb (pr_customer p) customer &&
  String.eqb (pr_conversation p) conversation.

Definition set_status (st : string) (p : ProposalRow) : ProposalRow :=
  mkProposalRow (pr_tenant p) (pr_id p) (pr_conversation p) (pr_customer p) (pr_message p) (pr_tool p)
    (pr_arguments p) (pr_hash p) (pr_summary p) st (pr_expires p) (pr_confirmed_message p)
    (pr_confirmed p) (pr_consumed p) (pr_created p).

(** [expires_at > $n] for a time the client sent. *)
Definition unexpired (now : Time) (p : ProposalRow) : bool := ns (pg_time Local now) <? ns (pr_expires p).

(** [UPDATE action_proposals ... WHERE p]: how many rows it touched. *)
Definition update_proposals (p : DB -> ProposalRow -> bool) (f : ProposalRow -> ProposalRow) : sql nat :=
  fun _ _ _ d =>
  let! (l, touched) := sql_update proposal_check (p d) f (proposals d) in
  Ok (length touched, set_proposals l d).

Definition expire_sql (tenant conversation customer : string) (now : Time) : sql nat :=
  update_proposals (fun _ p => owned tenant customer conversation p && proposal_active p &&
    negb (unexpired now p)) (set_status "expired").

Definition replace_sql (tenant conversation customer : string) : sql nat :=
  update_proposals (fun _ p => owned tenant customer conversation p && proposal_active p)
    (set_status "rejected").

Definition invalidate_sql (tenant customer conversation : string) (now : Time) : sql nat :=
  update_proposals (fun _ p => owned tenant customer conversation p && proposal_active p && unexpired now p)
    (set_status "rejected").

Definition newer (a b : ProposalRow) : bool := ns (pr_created b) <? ns (pr_created a).

(** [ORDER BY created_at DESC LIMIT 1] of the live rows that satisfy [p]. *)
Definition newest_live (tenant customer conversation : string) (now : Time) (p : ProposalRow -> bool)
    (d : DB) : option ProposalRow :=
  head (sort_slice newer (List.filter (fun r =>
    owned tenant customer conversation r && proposal_active r && unexpired now r && p r) (proposals d))).

Definition is_proposal (tenant id : string) (p : ProposalRow) : bool :=
  String.eqb (pr_tenant p) tenant && String.eqb (pr_id p) id.

Definition proposal_refs_ok (p : ProposalRow) (d : DB) : bool :=
  existsb (is_customer (pr_tenant p) (pr_customer p)) (customers d) &&
  existsb (is_conversation (pr_tenant p) (pr_conversation p) (pr_customer p)) (conversations d) &&
  existsb (is_message (pr_tenant p) (pr_message p) (pr_conversation p)) (messages d) &&
  opt_check (fun m => existsb (is_message (pr_tenant p) m (pr_conversation p)) (messages d))
    (pr_confirmed_message p).

Definition insert_proposal (row : ProposalRow) (d : DB) : result DB :=
  if negb (proposal_check row) then Err CheckViolation
  else if existsb (is_proposal (pr_tenant row) (pr_id row)) (proposals d) then Err UniqueViolation
  else if existsb (fun p => same_conversation row p && proposal_active p && proposal_active row) (proposals d)
  then Err UniqueViolation
  else if negb (proposal_refs_ok row d) then Err ForeignKeyViolation
  else Ok (set_proposals (proposals d ++ [row]) d).

Definition proposal_row (b : ConfirmationBinding) (p : ConfirmationProposal) (payload arguments : string)
    (created : Time) : ProposalRow :=
  mkProposalRow (TenantID b) (prop_ID p) (ConversationID b) (OwnerCustomerID b) (ProposedFromMessageID b)
    (Tool b) arguments (EncodeToHex (ArgumentsHash b)) payload "pending" (pg_time Local (ExpiresAt p))
    None None None created.

Definition insert_proposal_sql (b : ConfirmationBinding) (p : ConfirmationProposal) (payload : string)
    : sql unit := fun now n e d =>
  let! arguments := jsonb (ArgumentsJSON b) in
  let! d' := insert_proposal (proposal_row b p payload arguments now) d in
  Ok (tt, d').

(** ** [Propose] *)
Definition lock_conversation (b : ConfirmationBinding) : M unit :=
  wrap "lock confirmation conversation" (
    let* o := query Tx (fun _ _ _ d => Ok (List.find
      (is_conversation (TenantID b) (ConversationID b) (OwnerCustomerID b)) (conversations d))) in
    let* _ := one_row o in ret tt).

Definition same_action (b : ConfirmationBinding) (p : ProposalRow) : bool :=
  String.eqb (pr_tool p) (Tool b) && String.eqb (pr_hash p) (EncodeToHex (ArgumentsHash b)).

(** The live row of the same action, where its summary decodes. *)
Definition find_existing (b : ConfirmationBinding) (now : Time) : M (option ConfirmationProposal) :=
  let* row := wrap "find confirmation proposal" (query Tx (fun _ _ _ d =>
    Ok (newest_live (TenantID b) (OwnerCustomerID b) (ConversationID b) now (same_action b) d))) in
  ret (row ← row; decode_proposal (pr_summary row) zero_proposal).

Definition Propose (b : ConfirmationBinding) (proposal : ConfirmationProposal) (now : Time)
    : M ConfirmationProposal :=
  if bool_decide (ProposedFromMessageID b = "") || bool_decide (ArgumentsJSON b = "") then
    fail (ErrText "confirmation proposal lacks frozen action context")
  else
    let* id := if bool_decide (prop_ID proposal = "") then New_id else ret (prop_ID proposal) in
    let proposal := set_ID id proposal in
    match encode_proposal proposal with
    | None => fail (ErrText "encode confirmation summary")
    | Some v =>
        with_tx "begin confirmation proposal" (
          let* _ := lock_conversation b in
          let* _ := wrap "expire confirmation proposals"
            (run Tx (expire_sql (TenantID b) (ConversationID b) (OwnerCustomerID b) now)) in
          let* existing := find_existing b now in
          match existing with
          | Some existing =>
              let* _ := wrap "commit confirmation replay" commit in ret existing
          | None =>
              let* _ := wrap "replace confirmation proposal"
                (run Tx (replace_sql (TenantID b) (ConversationID b) (OwnerCustomerID b))) in
              let* _ := wrap "insert confirmation proposal"
                (run Tx (insert_proposal_sql b proposal (Marshal v))) in
              let* _ := wrap "commit confirmation proposal" commit in
              ret proposal
          end)
    end.

(** ** Reading the live proposal *)
Definition shown_status (st : string) : string :=
  if bool_decide (st = "confirmed") then "authorized" else st.

Definition state_of (tenant customer conversation hash : string) (proposal : ConfirmationProposal)
    (row : ProposalRow) : ConfirmationState :=
  mkState proposal
    (mkBinding tenant customer conversation (pr_message row) (pr_tool row) hash (pr_arguments row))
    (shown_status (pr_status row)).

Definition Latest (tenant customer conversation : string) (now : Time) : M (option ConfirmationState) :=
  let* row := wrap "get latest confirmation" (query Pool (fun _ _ _ d =>
    Ok (newest_live tenant customer conversation now (fun _ => true) d))) in
  match row with
  | None => ret None
  | Some row =>
      match decode_proposal (pr_summary row) (mkProposal (pr_id row) "" "" [] (pr_expires row)) with
      | None => fail (ErrText "decode confirmation summary")
      | Some proposal =>
          match DecodeHex (pr_hash row) with
          | Some hash =>
              if len hash =? 32 then ret (Some (state_of tenant customer conversation hash proposal row))
              else fail (ErrText "stored confirmation hash is invalid")
          | None => fail (ErrText "stored confirmation hash is invalid")
          end
      end
  end.

Definition InvalidateLatest (tenant customer conversation : string) (now : Time) : M unit :=
  let* _ := wrap "invalidate confirmation proposals"
    (run Pool (invalidate_sql tenant customer conversation now)) in ret tt.

(** ** Consent *)
(** The assistant has spoken since the proposal and before the message [m]. *)
Definition presented (p : ProposalRow) (m : MessageRow) (d : DB) : bool :=
  existsb (fun x => String.eqb (ms_tenant x) (pr_tenant p) &&
    String.eqb (ms_conversation x) (pr_conversation p) && String.eqb (ms_role x) "assistant" &&
    (ns (pr_created p) <=? ns (ms_created x)) && (ns (ms_created x) <? ns (ms_created m))) (messages d).

(** The message [id] of the proposal's conversation is its customer's consent. *)
Definition consenting_message (id : string) (p : ProposalRow) (d : DB) (m : MessageRow) : bool :=
  is_message (pr_tenant p) id (pr_conversation p) m && String.eqb (ms_role m) "user" && presented p m d.

Definition confirm (message : string) (now : Time) (p : ProposalRow) : ProposalRow :=
  mkProposalRow (pr_tenant p) (pr_id p) (pr_conversation p) (pr_customer p) (pr_message p) (pr_tool p)
    (pr_arguments p) (pr_hash p) (pr_summary p) "confirmed" (pr_expires p) (Some message)
    (Some (pg_time Local now)) (pr_consumed p) (pr_created p).

Definition authorize_sql (tenant id customer conversation message : string) (now : Time) : sql nat :=
  update_proposals (fun d p => is_proposal tenant id p && owned tenant customer conversation p &&
    String.eqb (pr_status p) "pending" && unexpired now p && negb (String.eqb (pr_message p) message) &&
    existsb (consenting_message message p d) (messages d)) (confirm message now).

(** [classifyFailure]: any error of the lookup is [ErrConfirmationInvalid]. *)
Definition classifyFailure {A} (id tenant customer conversation : string) (now : Time) : M A :=
  let* row := map_err (fun _ => ErrConfirmationInvalid) (
    let* o := query Pool (fun _ _ _ d => Ok (List.find
      (fun p => is_proposal tenant id p && owned tenant customer conversation p) (proposals d))) in
    one_row o) in
  fail (if negb (Before now (pr_expires row)) then ErrConfirmationExpired else ErrConfirmationInvalid).

Definition Authorize (id : string) (confirmedBy : TrustedContext) (now : Time) : M unit :=
  if bool_decide (tx_InboundMessageID confirmedBy = "") then fail ErrConfirmationInvalid
  else
    let* affected := wrap "authorize confirmation" (run Pool
      (authorize_sql (tx_TenantID confirmedBy) id (tx_CustomerID confirmedBy)
         (tx_ConversationID confirmedBy) (tx_InboundMessageID confirmedBy) now)) in
    if Nat.eqb affected 0 then
      classifyFailure id (tx_TenantID confirmedBy) (tx_CustomerID confirmedBy)
        (tx_ConversationID confirmedBy) now
    else ret tt.

Definition no_row_is (err : error) (msg : string) (cause : error) : error :=
  if errors_is cause ErrNoRows then err else ErrWrap msg cause.

Definition VerifyAuthorized (id : string) (b : ConfirmationBinding) (now : Time) : M unit :=
  let* row := map_err (no_row_is ErrConfirmationInvalid "verify confirmation") (
    let* o := query Pool (fun _ _ _ d => Ok (List.find (fun p => is_proposal (TenantID b) id p &&
      owned (TenantID b) (OwnerCustomerID b) (ConversationID b) p) (proposals d))) in
    one_row o) in
  if negb (Before now (pr_expires row)) then fail ErrConfirmationExpired
  else if negb (bool_decide (pr_tool row = Tool b)) ||
          negb (bool_decide (pr_hash row = EncodeToHex (ArgumentsHash b)))
  then fail ErrConfirmationStale
  else if negb (bool_decide (pr_status row = "confirmed")) && negb (bool_decide (pr_status row = "consumed"))
  then fail ErrConfirmationInvalid
  else ret tt.

(** ** Spending a confirmation *)
Definition consume (now : Time) (p : ProposalRow) : ProposalRow :=
  mkProposalRow (pr_tenant p) (pr_id p) (pr_conversation p) (pr_customer p) (pr_message p) (pr_tool p)
    (pr_arguments p) (pr_hash p) (pr_summary p) "consumed" (pr_expires p) (pr_confirmed_message p)
    (pr_confirmed p) (Some (default (pg_time Local now) (pr_consumed p))) (pr_created p).

Definition consume_sql (id : string) (b : ConfirmationBinding) (now : Time) : sql nat :=
  update_proposals (fun _ p => is_proposal (TenantID b) id p &&
    owned (TenantID b) (OwnerCustomerID b) (ConversationID b) p && same_action b p &&
    string_in (pr_status p) ["confirmed"; "consumed"] && unexpired now p) (consume now).

Definition MarkConsumed (id : string) (b : ConfirmationBinding) (now : Time) : M unit :=
  let* affected := wrap "consume confirmation" (run Pool (consume_sql id b now)) in
  if Nat.eqb affected 0 then fail ErrConfirmationInvalid else ret tt.

(** What the gateway is given, in an environment of the database. *)
Definition durable_store (e : env) : ConfirmationStore world := {|
  cs_Propose b p now := Propose b p now e;
  cs_Latest t o c now := Latest t o c now e;
  cs_InvalidateLatest t o c now := InvalidateLatest t o c now e;
  cs_Authorize id ctx now := Authorize id ctx now e;
  cs_VerifyAuthorized id b now := VerifyAuthorized id b now e;
  cs_MarkConsumed id b now := MarkConsumed id b now e
|}.
End store.
