(* ===== verification/DurableProps.v ===== *)
(** * Consent in PostgreSQL

    The gateway over the durable confirmation store and the booking backend, both
    on the same tables: the store keeps its promise, no backend command touches
    it, and so no booking changes without a consent that stands in the messages.

    Every row of [action_proposals] comes from a proposal of the history; a
    confirmed or consumed row has its consent in the history and in the messages;
    and no conversation has two live rows. *)

From Stdlib Require Import ZArith Lia Ascii.
From stdpp Require Import base list strings sorting gmap.
From S2P Require Import Prelude State GoTime Json Database DatabaseFacts Catalog Repository RepositoryFacts JsonParse Validation TimeText Hex Confirmations Tokens Durable.

#[local] Open Scope Z_scope.

Lemma owned_spec t cu cv r :
  owned t cu cv r = true <-> pr_tenant r = t /\ pr_customer r = cu /\ pr_conversation r = cv.
Proof. unfold owned. rewrite !andb_true_iff, !String.eqb_eq. tauto. Qed.

Lemma is_proposal_spec t id r : is_proposal t id r = true <-> pr_tenant r = t /\ pr_id r = id.
Proof. unfold is_proposal. rewrite andb_true_iff, !String.eqb_eq. tauto. Qed.

Lemma same_action_spec b r :
  same_action b r = true <-> pr_tool r = Tool b /\ pr_hash r = EncodeToHex (ArgumentsHash b).
Proof. unfold same_action. rewrite andb_true_iff, !String.eqb_eq. tauto. Qed.

Section facts.
Context `{Host} (jsonb : string -> result string).

(** ** Rows and their history *)
Definition filed (b : ConfirmationBinding) (r : ProposalRow) : Prop :=
  pr_tenant r = TenantID b /\ pr_customer r = OwnerCustomerID b /\ pr_conversation r = ConversationID b /\
  pr_message r = ProposedFromMessageID b /\ pr_tool r = Tool b /\ pr_hash r = EncodeToHex (ArgumentsHash b).

Definition is_granted (r : ProposalRow) : Prop := pr_status r = "confirmed" \/ pr_status r = "consumed".

(** The consent of a row: who gave it, in which message, and that this message
    is in the conversation, after one of the assistant. *)
Definition agreed (tr : list event) (d : DB) (r : ProposalRow) : Prop :=
  exists ctx t, EvAuthorize (pr_id r) ctx t ∈ tr /\
    tx_TenantID ctx = pr_tenant r /\ tx_CustomerID ctx = pr_customer r /\
    tx_ConversationID ctx = pr_conversation r /\
    pr_confirmed_message r = Some (tx_InboundMessageID ctx) /\
    tx_InboundMessageID ctx <> "" /\ tx_InboundMessageID ctx <> pr_message r /\
    existsb (consenting_message (tx_InboundMessageID ctx) r d) (messages d) = true.

Definition recorded (tr : list event) (d : DB) (r : ProposalRow) : Prop :=
  (exists b p t, EvPropose b p t ∈ tr /\ filed b r) /\ (is_granted r -> agreed tr d r).

Definition proposals_inv (tr : list event) (d : DB) : Prop := Forall (recorded tr d) (proposals d).

(** A longer history and more messages lose nothing. *)
Definition more_messages (d d' : DB) : Prop := forall m, m ∈ messages d -> m ∈ messages d'.

Lemma existsb_incl {A} (p q : A -> bool) l l' :
  (forall x, x ∈ l -> p x = true -> x ∈ l' /\ q x = true) -> existsb p l = true -> existsb q l' = true.
Proof.
  intros Hpq Hp. apply existsb_exists in Hp as (x & Hin & Hx). apply list_elem_of_In in Hin.
  destruct (Hpq x Hin Hx) as [Hin' Hq]. apply existsb_exists. exists x. by rewrite <- list_elem_of_In.
Qed.

Lemma recorded_more tr tr' d d' r :
  (forall e, e ∈ tr -> e ∈ tr') -> more_messages d d' -> recorded tr d r -> recorded tr' d' r.
Proof.
  intros Htr Hm [(b & p & t & Hb & Hf) Hg]. split; [exists b, p, t; auto|].
  intros (ctx & t' & Ha & H1 & H2 & H3 & H4 & H5 & H6 & He)%Hg.
  exists ctx, t'. repeat (split; [by auto|]).
  eapply existsb_incl; [|exact He]. intros m Hin Hc. split; [by apply Hm|].
  unfold consenting_message in *. apply andb_true_iff in Hc as [-> Hp]. simpl.
  unfold presented in *. eapply existsb_incl; [|exact Hp]. intros x Hx Hq. split; [by apply Hm|exact Hq].
Qed.

Lemma inv_more tr tr' d d' :
  (forall e, e ∈ tr -> e ∈ tr') -> more_messages d d' -> proposals d' = proposals d ->
  proposals_inv tr d -> proposals_inv tr' d'.
Proof.
  intros Htr Hm Hp Hi. unfold proposals_inv in *. rewrite Hp.
  eapply Forall_impl; [exact Hi|]. intros r. by apply recorded_more.
Qed.

Lemma inv_later tr e d : proposals_inv tr d -> proposals_inv (tr ++ [e]) d.
Proof. apply inv_more; [intros x Hx; apply elem_of_app; by left|by intros m|done]. Qed.

(** ** Statements *)
Lemma update_proposals_Ok p f now n e d k d' :
  update_proposals p f now n e d = Ok (k, d') ->
  d' = set_proposals (update_rows (p d) f (proposals d)) d /\
  k = length (List.filter (p d) (proposals d)).
Proof.
  unfold update_proposals. intros ([l touched] & (-> & -> & _)%sql_update_Ok & [= <- <-])%rbind_Ok.
  by rewrite length_map.
Qed.

Lemma update_keeps tr p f :
  (forall d r, recorded tr d r -> p d r = true -> recorded tr d (f r)) ->
  sql_preserves (proposals_inv tr) (update_proposals p f).
Proof.
  intros Hf now n e d k d' Hd [-> _]%update_proposals_Ok. unfold proposals_inv in *. simpl.
  apply update_rows_Forall; [exact Hd|]. intros r. apply (Hf d).
Qed.

Lemma retired_recorded tr d r st :
  st <> "confirmed" -> st <> "consumed" -> recorded tr d r -> recorded tr d (set_status st r).
Proof. intros H1 H2 [Hf _]. split; [exact Hf|]. by intros [?|?]. Qed.

Lemma expire_keeps tr t c o now : sql_preserves (proposals_inv tr) (expire_sql t c o now).
Proof. apply update_keeps. intros d r Hr _. by apply retired_recorded. Qed.

Lemma replace_keeps tr t c o : sql_preserves (proposals_inv tr) (replace_sql t c o).
Proof. apply update_keeps. intros d r Hr _. by apply retired_recorded. Qed.

Lemma invalidate_keeps tr t o c now : sql_preserves (proposals_inv tr) (invalidate_sql t o c now).
Proof. apply update_keeps. intros d r Hr _. by apply retired_recorded. Qed.

Lemma authorize_keeps tr id ctx now :
  EvAuthorize id ctx now ∈ tr -> tx_InboundMessageID ctx <> "" ->
  sql_preserves (proposals_inv tr)
    (authorize_sql (tx_TenantID ctx) id (tx_CustomerID ctx) (tx_ConversationID ctx) (tx_InboundMessageID ctx) now).
Proof.
  intros Hin Hm. apply update_keeps. intros d r [Hf _] Hp. split; [exact Hf|]. intros _. simpl in Hp.
  rewrite !andb_true_iff in Hp. destruct Hp as [[[[[[_ Hid]%is_proposal_spec Ho%owned_spec] _] _] Hne] Hc].
  destruct Ho as (H1 & H2 & H3). exists ctx, now. simpl. rewrite Hid. repeat (split; [by auto|]).
  split; [|exact Hc]. apply negb_true_iff, String.eqb_neq in Hne. congruence.
Qed.

Lemma consume_keeps tr id b now : sql_preserves (proposals_inv tr) (consume_sql id b now).
Proof.
  apply update_keeps. intros d r [Hf Hg] Hp. split; [exact Hf|]. intros _. simpl in Hp.
  rewrite !andb_true_iff in Hp. destruct Hp as [[_ Hs] _]. apply Hg.
  rewrite !orb_true_iff, !String.eqb_eq in Hs. unfold is_granted. by destruct Hs as [?|[?|?]]; auto.
Qed.

Lemma insert_proposal_Ok row d d' :
  insert_proposal row d = Ok d' ->
  proposal_check row = true /\ existsb (is_proposal (pr_tenant row) (pr_id row)) (proposals d) = false /\
  existsb (fun p => same_conversation row p && proposal_active p && proposal_active row) (proposals d) = false /\
  proposal_refs_ok row d = true /\ d' = set_proposals (proposals d ++ [row]) d.
Proof.
  unfold insert_proposal. destruct (proposal_check row); [|done]. simpl.
  destruct (existsb (is_proposal _ _) _); [done|]. destruct (existsb _ _); [done|].
  destruct (proposal_refs_ok _ _); [|done]. by intros [= <-].
Qed.

Lemma insert_proposal_sql_Ok b p payload now n e d u d' :
  insert_proposal_sql jsonb b p payload now n e d = Ok (u, d') ->
  exists arguments, jsonb (ArgumentsJSON b) = Ok arguments /\
    insert_proposal (proposal_row b p payload arguments now) d = Ok d'.
Proof.
  unfold insert_proposal_sql. intros (arguments & Hj & (d1 & Hi & [= _ <-])%rbind_Ok)%rbind_Ok. eauto.
Qed.

Lemma insert_keeps tr b p q t payload :
  EvPropose b q t ∈ tr -> sql_preserves (proposals_inv tr) (insert_proposal_sql jsonb b p payload).
Proof.
  intros Hin now n e d u d' Hd (arguments & _ & (_ & _ & _ & _ & ->)%insert_proposal_Ok)%insert_proposal_sql_Ok.
  unfold proposals_inv in *. simpl. apply Forall_app. split; [exact Hd|]. apply Forall_singleton.
  split; [exists b, q, t; by repeat split|]. by intros [?|?].
Qed.

(** ** Operations, on the committed tables *)
Lemma preserves_lock I b : preserves I (lock_conversation b).
Proof. unfold lock_conversation. walk_preserves. Qed.

Lemma preserves_existing I b now : preserves I (find_existing b now).
Proof. unfold find_existing. walk_preserves. Qed.

Hint Resolve preserves_lock preserves_existing expire_keeps replace_keeps
  invalidate_keeps consume_keeps : db.

(** What a preserved invariant of the rows asks of each statement. *)
Section operations.
Context (I : DB -> Prop).

Lemma db_Propose b p now :
  (forall t c o n, sql_preserves I (expire_sql t c o n)) ->
  (forall t c o, sql_preserves I (replace_sql t c o)) ->
  (forall q payload, sql_preserves I (insert_proposal_sql jsonb b q payload)) ->
  db_preserves I (Propose jsonb b p now).
Proof. intros H1 H2 H3. unfold Propose. walk_committed. Qed.

Lemma db_classify {A} id t cu cv now : db_preserves I (classifyFailure (A := A) id t cu cv now).
Proof. unfold classifyFailure. walk_committed. Qed.

Lemma db_Latest t o c now : db_preserves I (Latest t o c now).
Proof. unfold Latest. walk_committed. Qed.

Lemma db_Invalidate t o c now :
  sql_preserves I (invalidate_sql t o c now) -> db_preserves I (InvalidateLatest t o c now).
Proof. intros Hi. unfold InvalidateLatest. walk_committed. Qed.

Lemma db_Authorize id ctx now :
  (tx_InboundMessageID ctx <> "" -> sql_preserves I (authorize_sql (tx_TenantID ctx) id (tx_CustomerID ctx)
     (tx_ConversationID ctx) (tx_InboundMessageID ctx) now)) ->
  db_preserves I (Authorize id ctx now).
Proof.
  intros Ha. unfold Authorize. case_bool_decide as Hm; [walk_committed|]. specialize (Ha Hm).
  apply db_bind; [walk_committed|]. intros k. destruct (Nat.eqb k 0); [apply db_classify|walk_committed].
Qed.

Lemma db_Verify id b now : db_preserves I (VerifyAuthorized id b now).
Proof. unfold VerifyAuthorized. walk_committed. Qed.

Lemma db_Consume id b now :
  sql_preserves I (consume_sql id b now) -> db_preserves I (MarkConsumed id b now).
Proof. intros Hc. unfold MarkConsumed. walk_committed. Qed.
End operations.

(** ** At most one live row *)
Definition conversation_key (r : ProposalRow) : string * string * string :=
  (pr_tenant r, pr_conversation r, pr_customer r).

Definition one_live (d : DB) : Prop :=
  NoDup (conversation_key <$> List.filter proposal_active (proposals d)).

Lemma owned_key t cu cv r : owned t cu cv r = true <-> conversation_key r = (t, cv, cu).
Proof.
  rewrite owned_spec. unfold conversation_key. split; [intros (-> & -> & ->)|intros [= -> -> ->]]; done.
Qed.

Lemma same_conversation_key a b : same_conversation a b = true <-> conversation_key a = conversation_key b.
Proof.
  unfold same_conversation, conversation_key. rewrite !andb_true_iff, !String.eqb_eq.
  split; [intros [[-> ->] ->]|intros [= -> -> ->]]; done.
Qed.

(** An update that revives no row and moves none. *)
Definition retires (p : ProposalRow -> bool) (f : ProposalRow -> ProposalRow) : Prop :=
  forall r, p r = true -> conversation_key (f r) = conversation_key r /\
    (proposal_active (f r) = true -> proposal_active r = true).

Lemma retires_sublist p f l :
  retires p f ->
  (conversation_key <$> List.filter proposal_active (update_rows p f l)) `sublist_of`
  (conversation_key <$> List.filter proposal_active l).
Proof.
  intros Hf. unfold update_rows. induction l as [|r l IH]; simpl; [constructor|].
  destruct (p r) eqn:Hp.
  - destruct (Hf r Hp) as [Hk Ha]. destruct (proposal_active (f r)).
    + rewrite Ha by done. simpl. rewrite Hk. by apply sublist_skip.
    + destruct (proposal_active r); simpl; [by apply sublist_cons|exact IH].
  - destruct (proposal_active r); simpl; [by apply sublist_skip|exact IH].
Qed.

Lemma update_one_live p f : (forall d, retires (p d) f) -> sql_preserves one_live (update_proposals p f).
Proof.
  intros Hf now n e d k d' Hd [-> _]%update_proposals_Ok. unfold one_live in *. simpl.
  eapply sublist_NoDup; [exact Hd|]. by apply retires_sublist.
Qed.

Lemma retires_status p st : string_in st ["pending"; "confirmed"] = false -> retires p (set_status st).
Proof. intros Hs r _. split; [done|]. unfold proposal_active. simpl pr_status. by rewrite Hs. Qed.

Lemma authorize_one_live t id cu cv m now : sql_preserves one_live (authorize_sql t id cu cv m now).
Proof.
  apply update_one_live. intros d r Hp. split; [done|]. intros _. rewrite !andb_true_iff in Hp.
  destruct Hp as [[[[_ Hs%String.eqb_eq] _] _] _]. unfold proposal_active. by rewrite Hs.
Qed.

Lemma insert_one_live b p payload : sql_preserves one_live (insert_proposal_sql jsonb b p payload).
Proof.
  intros now n e d u d' Hd (arguments & _ & (_ & _ & Hu & _ & ->)%insert_proposal_Ok)%insert_proposal_sql_Ok.
  unfold one_live in *. simpl. rewrite List.filter_app, fmap_app. apply NoDup_app. split; [exact Hd|].
  split; [|apply NoDup_singleton]. intros k (r & -> & [Hin Ha]%elem_of_filter_bool)%list_elem_of_fmap Hk.
  apply list_elem_of_singleton in Hk. eapply existsb_false in Hu; [|exact Hin].
  rewrite Ha, !andb_true_r in Hu. symmetry in Hk. apply same_conversation_key in Hk. congruence.
Qed.
End facts.

(** ** What an accepted verification says of the tables *)
Lemma VerifyAuthorized_Ok `{Host} id b now e w w' :
  VerifyAuthorized id b now e w = (Ok tt, w') ->
  exists r, r ∈ proposals (db w) /\ pr_id r = id /\ pr_tenant r = TenantID b /\
    pr_customer r = OwnerCustomerID b /\ pr_conversation r = ConversationID b /\ pr_tool r = Tool b /\
    pr_hash r = EncodeToHex (ArgumentsHash b) /\ is_granted r /\ ns now < ns (pr_expires r).
Proof.
  unfold VerifyAuthorized. intros Hv. open_all.
  match goal with Hf : List.find _ _ = Some ?r |- _ => apply List.find_some in Hf as [Hin Hp]; rename r into row end.
  apply list_elem_of_In in Hin. apply andb_true_iff in Hp as [[_ Hid]%is_proposal_spec (H1 & H2 & H3)%owned_spec].
  unfold Before in Hv. destruct (Z.ltb_spec (ns now) (ns (pr_expires row))) as [Hlt|]; [|done].
  destruct (bool_decide_reflect (pr_tool row = Tool b)); [|done].
  destruct (bool_decide_reflect (pr_hash row = EncodeToHex (ArgumentsHash b))); [|done].
  exists row. repeat (split; [done|]). split; [|exact Hlt]. unfold is_granted.
  destruct (bool_decide_reflect (pr_status row = "confirmed")); [by left|].
  destruct (bool_decide_reflect (pr_status row = "consumed")); [by right|done].
Qed.

(** ** What a successful [Propose] did *)
Section propose.
Context `{Host} (jsonb : string -> result string) (b : ConfirmationBinding) (p : ConfirmationProposal)
  (now : Time).

Definition mine (r : ProposalRow) : bool := owned (TenantID b) (OwnerCustomerID b) (ConversationID b) r.

(** The tables once the overdue proposals have expired. *)
Definition expired (d : DB) : DB :=
  set_proposals (update_rows (fun r => mine r && proposal_active r && negb (unexpired now r))
    (set_status "expired") (proposals d)) d.

Definition replaced (d : DB) : list ProposalRow :=
  update_rows (fun r => mine r && proposal_active r) (set_status "rejected") (proposals d).

Lemma find_existing_Ok e w o w' :
  find_existing b now e w = (Ok o, w') ->
  aborted w = false /\ w' = mkWorld (db w) (work w) false (tx_now w) (S (tick w)) /\
  o = (row ← newest_live (TenantID b) (OwnerCustomerID b) (ConversationID b) now (same_action b) (work w);
       decode_proposal (pr_summary row) zero_proposal).
Proof. unfold find_existing. intros Hf. open_all. done. Qed.

Lemma lock_conversation_Ok e w u w' :
  lock_conversation b e w = (Ok u, w') ->
  aborted w = false /\ w' = mkWorld (db w) (work w) false (tx_now w) (S (tick w)).
Proof. unfold lock_conversation. intros Hf. open_all. done. Qed.

Lemma Propose_Ok e w q w' :
  Propose jsonb b p now e w = (Ok q, w') ->
  (exists row, newest_live (TenantID b) (OwnerCustomerID b) (ConversationID b) now (same_action b)
                 (expired (db w)) = Some row /\
     decode_proposal (pr_summary row) zero_proposal = Some q /\ db w' = expired (db w)) \/
  (exists id v arguments created, q = set_ID id p /\ encode_proposal q = Some v /\
     jsonb (ArgumentsJSON b) = Ok arguments /\
     db w' = set_proposals (replaced (expired (db w)) ++ [proposal_row b q (Marshal v) arguments created])
               (expired (db w))).
Proof.
  unfold Propose. destruct (_ || _); [done|]. intros (id & w1 & Hid & Hp)%bind_Ok.
  assert (Hw : db w1 = db w) by (by destruct (bool_decide _); injection Hid as _ <-).
  destruct (encode_proposal _) as [v|] eqn:Ev; [|done].
  apply with_tx_Ok in Hp as (w2 & Hp & ->). rewrite Hw in Hp. clear Hid Hw.
  apply bind_Ok in Hp as (u & w3 & [_ ->]%lock_conversation_Ok & Hp).
  apply bind_Ok in Hp as (k & w4 & Hexp & Hp). open_step Hexp. open_step Hexp.
  unfold expire_sql in Hexp. apply update_proposals_Ok in Hexp as [-> _].
  apply bind_Ok in Hp as (o & w5 & (_ & -> & ->)%find_existing_Ok & Hp). simpl in Hp.
  fold (expired (db w)) in Hp.
  destruct (_ ≫= _) as [q'|] eqn:Ho in Hp.
  - open_all. left. apply bind_Some in Ho as (row & Hrow & Hq). by exists row.
  - open_all. right. unfold replace_sql in Hm. apply update_proposals_Ok in Hm as [-> _].
    apply insert_proposal_sql_Ok in Hm0 as (arguments & Hj & (_ & _ & _ & _ & ->)%insert_proposal_Ok).
    by eexists id, v, arguments, _.
Qed.

Lemma one_live_unique d r1 r2 :
  one_live d -> r1 ∈ proposals d -> r2 ∈ proposals d -> proposal_active r1 = true ->
  proposal_active r2 = true -> conversation_key r1 = conversation_key r2 -> r1 = r2.
Proof.
  intros Hd H1 H2 A1 A2 Hk. unfold one_live in Hd.
  assert (L1 : r1 ∈ List.filter proposal_active (proposals d)) by (by apply elem_of_filter_bool).
  assert (L2 : r2 ∈ List.filter proposal_active (proposals d)) by (by apply elem_of_filter_bool).
  apply list_elem_of_lookup in L1 as [i Hi]. apply list_elem_of_lookup in L2 as [j Hj].
  assert (i = j) as ->; [|congruence]. eapply NoDup_lookup; [exact Hd|..].
  - by rewrite list_lookup_fmap, Hi.
  - by rewrite list_lookup_fmap, Hj, Hk.
Qed.

Lemma mine_key r : mine r = true <-> conversation_key r = (TenantID b, ConversationID b, OwnerCustomerID b).
Proof. apply owned_key. Qed.

Lemma expired_one_live d : one_live d -> one_live (expired d).
Proof.
  intros Hd. unfold one_live, expired in *. simpl. eapply sublist_NoDup; [exact Hd|].
  by apply retires_sublist, retires_status.
Qed.

(** Retiring rows of the conversation leaves the rest. *)
Lemma retired_others (q : ProposalRow -> bool) st l r :
  (forall x, q x = true -> mine x = true) -> mine r = false ->
  r ∈ update_rows q (set_status st) l <-> r ∈ l.
Proof.
  intros Hq Hr. rewrite elem_of_update_rows. split.
  - intros (r0 & Hin & ->). destruct (q r0) eqn:E; [|done].
    apply Hq in E. change (mine (set_status st r0)) with (mine r0) in Hr. congruence.
  - intros Hin. exists r. split; [done|]. destruct (q r) eqn:E; [|done]. apply Hq in E. congruence.
Qed.

Lemma expired_others d r : mine r = false -> r ∈ proposals (expired d) <-> r ∈ proposals d.
Proof. apply retired_others. intros x Hx. rewrite !andb_true_iff in Hx. by destruct Hx as [[? _] _]. Qed.

Lemma replaced_others d r : mine r = false -> r ∈ replaced d <-> r ∈ proposals d.
Proof. apply retired_others. intros x Hx. by apply andb_true_iff in Hx as [? _]. Qed.

Lemma replaced_inactive d r : r ∈ replaced d -> mine r = true -> proposal_active r = false.
Proof.
  unfold replaced. rewrite elem_of_update_rows. intros (r0 & _ & ->) Hm.
  destruct (mine r0 && proposal_active r0) eqn:E; [done|]. by rewrite Hm in E.
Qed.

Lemma newest_live_spec t cu cv n f d r :
  newest_live t cu cv n f d = Some r ->
  r ∈ proposals d /\ owned t cu cv r = true /\ proposal_active r = true /\ unexpired n r = true /\ f r = true.
Proof.
  unfold newest_live. intros Hh. apply head_Some_elem_of in Hh. rewrite elem_of_sort_slice in Hh.
  apply elem_of_filter_bool in Hh as [Hin Hp]. rewrite !andb_true_iff in Hp.
  by destruct Hp as [[[? ?] ?] ?].
Qed.

(** In tables with one live row of the conversation, that row is the newest. *)
Lemma newest_live_unique n d r :
  one_live d -> r ∈ proposals d -> mine r = true -> proposal_active r = true -> unexpired n r = true ->
  newest_live (TenantID b) (OwnerCustomerID b) (ConversationID b) n (fun _ => true) d = Some r.
Proof.
  intros Hd Hin Hm Ha Hu.
  destruct (newest_live _ _ _ n (fun _ => true) d) as [r'|] eqn:E.
  - apply newest_live_spec in E as (Hin' & Hm' & Ha' & _). f_equal.
    eapply one_live_unique; [exact Hd|done..|]. apply mine_key in Hm. apply owned_key in Hm'. congruence.
  - unfold newest_live in E. apply head_None, (f_equal (fun l => r ∈ l)) in E.
    exfalso. apply (not_elem_of_nil r). rewrite <- E, elem_of_sort_slice, elem_of_filter_bool.
    split; [done|]. unfold mine in Hm. by rewrite Hm, Ha, Hu.
Qed.
End propose.

(** * The durable store keeps its promise *)

From S2P Require Import Tools SalonDemo ToolBackend ToolBackendProps JsonFacts Gateway GatewayProps.

#[local] Open Scope Z_scope.

(** ** A stored summary is read back *)
Definition printable_proposal (p : ConfirmationProposal) : Prop :=
  Forall (fun s => ValidString s = true) [prop_ID p; Action p; Title p] /\
  Forall (fun f => ValidString (Label f) = true /\ ValidString (Value f) = true) (Facts p) /\
  whole_minutes (ExpiresAt p).

Lemma decode_facts_json l : decode_facts (map fact_json l) = Some l.
Proof.
  induction l as [|[label value] l IH]; [done|]. simpl map. cbn [decode_facts].
  cbn [fact_json Label Value decode_struct decode_fields mbind option_bind fact_field fst snd]. eval_names.
  cbn [decode_text mbind option_bind fact_field fst snd]. eval_names. cbn [decode_text mbind option_bind].
  by rewrite IH.
Qed.

Lemma facts_encodable l :
  Forall (fun f => ValidString (Label f) = true /\ ValidString (Value f) = true) l ->
  encodable (facts_json l) = true /\ height (facts_json l) <= 2.
Proof.
  intros Hl. destruct l as [|f0 l0]; [done|]. unfold facts_json. set (l := f0 :: l0) in *. clearbody l.
  assert (Hb : forallb encodable (map fact_json l) = true /\
    foldr (fun x n => Z.max (height x) n) 0 (map fact_json l) <= 1).
  { induction Hl as [|f l [H1 H2] _ [IH1 IH2]]; [done|]. simpl. rewrite H1, H2. split; [exact IH1|]. lia. }
  destruct Hb as [Hb1 Hb2]. split; [exact Hb1|]. cbn [height]. lia.
Qed.

Section summary.
Context `{Host}.

Lemma decode_proposal_encoded p v p0 :
  encode_proposal p = Some v -> printable_proposal p ->
  exists q, decode_proposal (Marshal v) p0 = Some q /\ prop_ID q = prop_ID p /\ Action q = Action p /\
    Title q = Title p /\ Facts q = Facts p /\ ns (ExpiresAt q) = ns (ExpiresAt p).
Proof.
  destruct p as [id action title facts expires]. unfold encode_proposal, printable_proposal; simpl.
  intros He (Hs & Hf & Ht). destruct (time_json expires) as [vx|] eqn:Ex; [|done]. injection He as <-.
  destruct (time_json_spec _ _ Ex) as (Ex1 & Ex2 & Ex3); [done|].
  destruct (facts_encodable _ Hf) as [Hf1 Hf2].
  repeat match goal with H : Forall _ (_ :: _) |- _ => apply Forall_cons in H as [? H] end.
  unfold decode_proposal. rewrite Unmarshal_Marshal; cycle 1.
  { cbn [encodable forallb fst snd]. rewrite Ex1, Hf1.
    repeat match goal with H : ValidString _ = true |- _ => rewrite H; clear H end. reflexivity. }
  { cbn [height foldr snd]. rewrite Ex2. unfold maxNestingDepth. lia. }
  destruct p0 as [id0 action0 title0 facts0 expires0].
  destruct (Ex3 Local expires0) as (expires' & Ex4 & ?).
  exists (mkProposal id action title facts expires'). split; [|by repeat split].
  cbn [mbind option_bind decode_struct decode_fields]. clear Hf1 Hf2.
  destruct facts as [|f0 l0]; unfold facts_json;
    repeat first [ progress (cbn [mbind option_bind decode_text proposal_field fst snd]; eval_names)
                 | rewrite Ex4 | rewrite decode_facts_json ]; done.
Qed.
End summary.

(** ** Backend commands leave the confirmation tables alone *)
Section tables.
Context `{Host} (fuel : nat) (e : env) (b : ToolBackend).

Lemma discarded_world {A} (m : M A) w : (discard m e w).2 = (m e w).2.
Proof. unfold discard, bind. by destruct (m e w) as [[a|err] w']. Qed.

Lemma perform_tables q w :
  proposals (db (perform fuel b q e w).2) = proposals (db w) /\
  messages (db (perform fuel b q e w).2) = messages (db w) /\
  accounts_of (db (perform fuel b q e w).2) = accounts_of (db w).
Proof.
  destruct (repository b) as [r|] eqn:Hr.
  - pose proof (perform_stays fuel b r q (others (tenantID r) (db w)) Hr e w eq_refl) as Ho.
    exact (conj (f_equal proposals Ho) (conj (f_equal messages Ho) (f_equal accounts_of Ho))).
  - assert (Ha : forall t, authorizeTenant b t = Err ErrRepositoryUnavailable)
      by (intros t; unfold authorizeTenant; by rewrite Hr).
    destruct q; simpl; rewrite discarded_world;
      unfold ListServices, ListStaff, FindSlots, CreateBooking, RescheduleBooking, CancelBooking, Escalate,
        ToolBackend.authorized, bind, lift; by rewrite Ha.
Qed.

Lemma operation_tables q {A} (m : M A) w :
  perform fuel b q = discard m ->
  proposals (db (m e w).2) = proposals (db w) /\ messages (db (m e w).2) = messages (db w) /\
  accounts_of (db (m e w).2) = accounts_of (db w).
Proof. intros Hq. pose proof (perform_tables q w) as Ht. by rewrite Hq, discarded_world in Ht. Qed.
End tables.

(** ** The promise of the durable store *)
Section durable.
Context `{Host} (jsonb : string -> result string) (fuel : nat) (e : env) (b : ToolBackend).

#[local] Instance store : ConfirmationStore world := durable_store jsonb e.
#[local] Instance backend : toolapi.Backend world := tool_backend fuel b e.

Definition good (tr : list event) (d : DB) : Prop := proposals_inv tr d /\ one_live d.

Lemma good_op {A} tr tr' (m : M A) w :
  (forall x, x ∈ tr -> x ∈ tr') ->
  db_preserves (proposals_inv tr') m -> db_preserves one_live m ->
  good tr (db w) -> good tr' (db (m e w).2).
Proof.
  intros Htr H1 H2 [Hi Ho]. split; [|by apply H2]. apply H1.
  eapply inv_more; [exact Htr|by intros x|done|exact Hi].
Qed.

Lemma in_left {A} (tr : list A) x y : x ∈ tr -> x ∈ tr ++ [y].
Proof. intros ?. apply elem_of_app. by left. Qed.

Lemma in_last {A} (tr : list A) y : y ∈ tr ++ [y].
Proof. apply elem_of_app. right. by apply list_elem_of_singleton. Qed.

Lemma verified_consent tr id c t w w' :
  good tr (db w) -> VerifyAuthorized id c t e w = (Ok tt, w') -> consent_in tr c.
Proof.
  intros [Hi _] (r & Hin & Hid & Ht & Hc & Hv & Htool & Hh & Hg & _)%VerifyAuthorized_Ok.
  unfold proposals_inv in Hi. rewrite Forall_forall in Hi. destruct (Hi r Hin) as [(b0 & p & t0 & Hp & Hf) Ha].
  destruct Hf as (F1 & F2 & F3 & F4 & F5 & F6).
  destruct (Ha Hg) as (ctx & t' & Hau & A1 & A2 & A3 & _ & A5 & A6 & _).
  exists id, b0, p, t0, ctx, t'. rewrite <- Hid. rewrite F6 in Hh. apply EncodeToHex_inj in Hh.
  repeat match goal with |- _ /\ _ => split end; try done; try congruence.
  apply equalBinding_true. repeat split; congruence.
Qed.

Program Definition durable_laws : ConsentLaws world := {|
  cl_inv tr w := good tr (db w); cl_may _ _ _ _ := True |}.
Next Obligation.
  intros tr w c p t. apply good_op; [intros x; apply in_left|..]; apply db_Propose; intros.
  - apply expire_keeps.
  - apply replace_keeps.
  - eapply insert_keeps, in_last.
  - apply update_one_live. intros d. by apply retires_status.
  - apply update_one_live. intros d. by apply retires_status.
  - apply insert_one_live.
Qed.
Next Obligation. intros tr w t o c n. by apply good_op; [| apply db_Latest..]. Qed.
Next Obligation.
  intros tr w t o c n. apply good_op; [intros x; apply in_left|..]; apply db_Invalidate.
  - apply invalidate_keeps.
  - apply update_one_live. intros d. by apply retires_status.
Qed.
Next Obligation.
  intros tr w id ctx t _. apply good_op; [intros x; apply in_left|..]; apply db_Authorize; intros Hm.
  - by apply authorize_keeps; [apply in_last|].
  - apply authorize_one_live.
Qed.
Next Obligation. intros tr w id c t. by apply good_op; [| apply db_Verify..]. Qed.
Next Obligation.
  intros tr w id c t. apply good_op; [intros x; apply in_left|..]; apply db_Consume.
  - apply consume_keeps.
  - apply update_one_live. intros d r Hp. split; [done|discriminate].
Qed.
Next Obligation.
  intros tr w id c t Hg Hv. simpl in Hv. destruct (VerifyAuthorized _ _ _ _ _) as [v w'] eqn:E.
  simpl in Hv. subst v. eapply verified_consent; [exact Hg|]. exact E.
Qed.

#[local] Existing Instance durable_laws.

Lemma good_same tr d d' :
  proposals d' = proposals d -> more_messages d d' -> good tr d -> good tr d'.
Proof.
  intros Hp Hm [Hi Ho]. split; [by eapply inv_more; [|exact Hm|exact Hp|exact Hi]|].
  unfold one_live in *. by rewrite Hp.
Qed.

Lemma tables_quiet {A} (m : St world A) :
  (forall w, proposals (db (m w).2) = proposals (db w) /\ messages (db (m w).2) = messages (db w)) -> quiet m.
Proof.
  intros Hm tr w. destruct (Hm w) as [Hp Hs]. apply good_same; [exact Hp|].
  intros x. by rewrite Hs.
Qed.

Lemma backend_quiet q {A} (m : M A) : perform fuel b q = discard m -> quiet (m e).
Proof. intros Hq. apply tables_quiet. intros w. by destruct (operation_tables fuel e b q m w Hq) as (? & ? & _). Qed.

#[local] Instance quiet_backend : QuietBackend world.
Proof.
  split; intros.
  - by apply (backend_quiet (RqListServices t)).
  - by apply (backend_quiet (RqListStaff t id)).
  - by apply (backend_quiet (RqFindSlots q)).
  - by apply (backend_quiet (RqCreate n c)).
  - by apply (backend_quiet (RqReschedule c)).
  - by apply (backend_quiet (RqCancel c)).
  - by apply (backend_quiet (RqEscalate c)).
Qed.

(** ** Histories of the service

    The host's clocks are read at a tick of their own.  Besides tool calls and
    customers' messages, anything may happen that neither touches the proposals
    nor loses a message: other requests, operators, workers, other tenants. *)
Definition reading (f : nat -> Time) : St world Time := fun w => (f (tick w), bump w).

Context (g : Gateway) (now wall : nat -> Time) (Error : error -> string).

Inductive history : world * list gevent -> Prop :=
| history_start w : proposals (db w) = [] -> history (w, [])
| history_call w schema trusted call :
    history w ->
    history (Execute (silent (reading now)) (silent (reading wall)) schema Error g trusted call w).2
| history_consent w id ctx t : history w -> history (cs_Authorize id ctx t w).2
| history_withdraw w tenant owner conv t : history w -> history (cs_InvalidateLatest tenant owner conv t w).2
| history_other w w' l :
    proposals (db w') = proposals (db w) -> more_messages (db w) (db w') ->
    history (w, l) -> history (w', l).

Lemma history_sys w : history w -> sys g (reading now) (reading wall) Error w.
Proof.
  induction 1 as [w Hw|w schema trusted call _ IH|w id ctx t _ IH|w tenant owner conv t _ IH|w w' l Hp Hm _ IH].
  - apply sys_init. split; [unfold proposals_inv|unfold one_live]; rewrite Hw; constructor.
  - by apply sys_call.
  - by apply sys_authorize.
  - by apply sys_invalidate.
  - eapply sys_other; [|exact IH]. intros tr. by apply good_same.
Qed.

Lemma history_good w l : history (w, l) -> good (store_events l) (db w).
Proof.
  intros Hh%history_sys. apply sys_inv in Hh as [Hg _]; [exact Hg|..]; by apply tables_quiet.
Qed.

(** No booking changes without consent, in PostgreSQL.  Whatever tool calls,
    customers' messages and other requests a history of the service is made of,
    every command to create, move or cancel a booking that reached the scheduling
    repository stands for an action that was proposed before and that its own
    customer authorized, in its conversation, from another message; command and
    action are made of the same arguments. *)
Theorem durable_no_booking_without_consent w l1 m l2 :
  history w -> w.2 = l1 ++ GMutation m :: l2 ->
  exists c t, covers g c t m /\ exists id c0 p t0 ctx t',
    EvPropose c0 p t0 ∈ store_events l1 /\ equalBinding c0 c = true /\
    EvAuthorize id ctx t' ∈ store_events l1 /\
    tx_TenantID ctx = TenantID c /\ tx_CustomerID ctx = OwnerCustomerID c /\
    tx_ConversationID ctx = ConversationID c /\
    tx_InboundMessageID ctx <> "" /\ tx_InboundMessageID ctx <> ProposedFromMessageID c0.
Proof. intros Hh%history_sys E. eapply commands_consented; [| |exact Hh|exact E]; by apply tables_quiet. Qed.

(** C3. Consent stands in the messages.  In every history of the service, an
    identifier the store verifies for an action names a row of exactly that
    tenant, customer, conversation, tool and digest, unexpired; its customer
    authorized it; and the conversation holds the customer's message, other than
    the one the proposal came from, and before it a message of the assistant
    written since the proposal. *)
Theorem consent_stands_in_messages w l id c t w' :
  history (w, l) -> VerifyAuthorized id c t e w = (Ok tt, w') ->
  exists r ctx t' m x, r ∈ proposals (db w) /\ pr_id r = id /\
    pr_tool r = Tool c /\ pr_hash r = EncodeToHex (ArgumentsHash c) /\ ns t < ns (pr_expires r) /\
    EvAuthorize id ctx t' ∈ store_events l /\ tx_TenantID ctx = TenantID c /\
    tx_CustomerID ctx = OwnerCustomerID c /\ tx_ConversationID ctx = ConversationID c /\
    m ∈ messages (db w) /\ ms_id m = tx_InboundMessageID ctx /\ ms_id m <> pr_message r /\
    ms_role m = "user" /\ ms_tenant m = TenantID c /\ ms_conversation m = ConversationID c /\
    x ∈ messages (db w) /\ ms_role x = "assistant" /\ ms_tenant x = TenantID c /\
    ms_conversation x = ConversationID c /\ ns (pr_created r) <= ns (ms_created x) < ns (ms_created m).
Proof.
  intros [Hi _]%history_good (r & Hin & Hid & Ht & Hc & Hv & Htool & Hh & Hg & Hx)%VerifyAuthorized_Ok.
  unfold proposals_inv in Hi. rewrite Forall_forall in Hi. destruct (Hi r Hin) as [_ Ha].
  destruct (Ha Hg) as (ctx & t' & Hau & A1 & A2 & A3 & _ & _ & A6 & Hm).
  apply existsb_exists in Hm as (m & Hm%list_elem_of_In & Hcm).
  unfold consenting_message, is_message, presented in Hcm. rewrite !andb_true_iff, !String.eqb_eq in Hcm.
  destruct Hcm as [[[[Hm1 Hm2] Hm3] Hm4] Hp]. apply existsb_exists in Hp as (x & Hx'%list_elem_of_In & Hp).
  rewrite !andb_true_iff, !String.eqb_eq, Z.leb_le, Z.ltb_lt in Hp. destruct Hp as [[[[Hx1 Hx2] Hx3] Hx4] Hx5].
  exists r, ctx, t', m, x. rewrite <- Hid.
  repeat match goal with |- _ /\ _ => split end; (done || congruence).
Qed.

(** One live proposal.  After a successful [Propose] the conversation has
    exactly one live row.  It is of the same tool and digest of arguments, and
    what was answered is either the summary it holds, of an earlier proposal, or
    the new proposal it was filed for, pending, with the arguments frozen in it.
    The rows of every other conversation are the ones they were. *)
Theorem propose_leaves_one_live w l c p t q w' :
  history (w, l) -> Propose jsonb c p t e w = (Ok q, w') ->
  exists r, r ∈ proposals (db w') /\ mine c r = true /\ proposal_active r = true /\ same_action c r = true /\
    ((decode_proposal (pr_summary r) zero_proposal = Some q /\ unexpired t r = true) \/
     exists v id, q = set_ID id p /\ encode_proposal q = Some v /\ pr_summary r = Marshal v /\
       pr_id r = id /\ pr_status r = "pending" /\ pr_message r = ProposedFromMessageID c /\
       jsonb (ArgumentsJSON c) = Ok (pr_arguments r)) /\
    (forall r', r' ∈ proposals (db w') -> mine c r' = true -> proposal_active r' = true -> r' = r) /\
    (forall r', mine c r' = false -> r' ∈ proposals (db w') <-> r' ∈ proposals (db w)).
Proof.
  intros [_ Ho]%history_good Hp.
  apply Propose_Ok in Hp as [(row & Hn & Hd & Hw)|(id & v & arguments & created & Hq & Hv & Hj & Hw)].
  - apply newest_live_spec in Hn as (Hin & Hm & Ha & Hu & Hs). exists row. rewrite Hw.
    split; [done|]. split; [done|]. split; [done|]. split; [done|]. split; [by left|].
    split; [|intros r'; by apply expired_others]. intros r' Hin' Hm' Ha'.
    eapply one_live_unique; [by apply expired_one_live|done..|].
    apply mine_key in Hm, Hm'. congruence.
  - set (row := proposal_row c q (Marshal v) arguments created).
    assert (Hm : mine c row = true) by (apply mine_key; done).
    exists row. rewrite Hw. simpl. split; [apply elem_of_app; right; by apply list_elem_of_singleton|].
    split; [done|]. split; [done|]. split; [by apply same_action_spec|].
    split; [right; exists v, id; subst q; by repeat split|].
    split; intros r' Hr'.
    + intros Hm' Ha'. apply elem_of_app in Hr' as [Hr'|Hr'].
      * by rewrite (replaced_inactive _ _ _ Hr' Hm') in Ha'.
      * by apply list_elem_of_singleton in Hr'.
    + rewrite elem_of_app, list_elem_of_singleton, (replaced_others _ _ _ Hr'), (expired_others _ _ _ _ Hr').
      split; [intros [?|E]; [done|exfalso; revert Hr' Hm; rewrite E; unfold row; congruence]|by left].
Qed.

(** A frozen action is read back.  After a proposal was filed, [Latest]
    returns it while it is unexpired and its tables stand: the same proposal, the
    same tenant, customer, conversation, tool, digest and message, pending, and
    the arguments as PostgreSQL prints them. *)
Theorem latest_returns_frozen_action w l c p t q w1 w2 t2 :
  history (w, l) -> Propose jsonb c p t e w = (Ok q, w1) ->
  newest_live (TenantID c) (OwnerCustomerID c) (ConversationID c) t (same_action c) (expired c t (db w)) = None ->
  printable_proposal q -> len (ArgumentsHash c) = 32 ->
  db w2 = db w1 -> fault e (tick w2) = None -> ns (pg_time Local t2) < ns (pg_time Local (ExpiresAt q)) ->
  exists st, Latest (TenantID c) (OwnerCustomerID c) (ConversationID c) t2 e w2 = (Ok (Some st), bump w2) /\
    prop_ID (Proposal st) = prop_ID q /\ Action (Proposal st) = Action q /\ Title (Proposal st) = Title q /\
    Facts (Proposal st) = Facts q /\ ns (ExpiresAt (Proposal st)) = ns (ExpiresAt q) /\
    equalBinding (Binding st) c = true /\
    ProposedFromMessageID (Binding st) = ProposedFromMessageID c /\
    jsonb (ArgumentsJSON c) = Ok (ArgumentsJSON (Binding st)) /\ Status st = "pending".
Proof.
  intros Hg%history_good Hp Hnone Hq Hlen Hdb Hf Hx.
  pose proof (cl_propose _ _ c p t Hg) as Hg1. simpl in Hg1. rewrite Hp in Hg1. destruct Hg1 as [_ Ho].
  apply Propose_Ok in Hp as [(row & Hn & _)|(id & v & arguments & created & _ & Hv & Hj & Hw)]; [congruence|].
  set (row := proposal_row c q (Marshal v) arguments created) in *.
  assert (Hrow : newest_live (TenantID c) (OwnerCustomerID c) (ConversationID c) t2 (fun _ => true) (db w2) = Some row).
  { apply newest_live_unique; rewrite ?Hdb; try done.
    - rewrite Hw. apply elem_of_app. right. by apply list_elem_of_singleton.
    - by apply mine_key.
    - by apply Z.ltb_lt. }
  destruct (decode_proposal_encoded q v (mkProposal (pr_id row) "" "" [] (pr_expires row)) Hv Hq)
    as (q' & Hdec & E1 & E2 & E3 & E4 & E5).
  eexists (state_of _ _ _ (ArgumentsHash c) q' row). split; [|repeat split; try done].
  - unfold Latest, bind, wrap, map_err, query, run. rewrite Hf. simpl. rewrite Hrow. simpl in Hdec |- *.
    rewrite Hdec, DecodeHex_EncodeToHex, Hlen. simpl. unfold ret, bump. done.
  - by apply equalBinding_true.
Qed.
End durable.

(** ** A cancellation in the salon: proposed, presented, confirmed, carried out *)
Module Salon.
#[local] Abbreviation booking_id := "00000000-0000-4000-8000-000000000001".

Definition jsonb (s : string) : result string := Ok s.

Definition message (id role text : string) (m : Z) : MessageRow :=
  mkMessageRow "t" id conversation_id role text 0 None (monday 7 m).

Definition opening : list MessageRow := [message "m1" "user" "Please cancel" 0].
Definition dialogue : list MessageRow :=
  opening ++ [message "a1" "assistant" "Shall I cancel?" 1; message "m2" "user" "yes" 2].

Definition with_messages (l : list MessageRow) (w : world) : world :=
  mkWorld (set_messages l (db w)) (work w) (aborted w) (tx_now w) (tick w).

Definition start : world := with_messages opening booked_salon.

Definition salon_gateway : Gateway := Demo.demo_gateway.

Definition from_message (id : string) : TrustedContext :=
  mkTrusted "t" customer_id "Carl" "carl@example.com" "" conversation_id id run_id
    {[CapabilityBookingWriteSelf := true]}.

Definition arguments (confirmation : string) : string :=
  Marshal (JObj ([("booking_id", JStr booking_id); ("reason", JStr "ill");
                  ("idempotency_key", JStr "cancel-key-000001")] ++ omit_empty "confirmation_id" confirmation)).

Definition seven (n : nat) : Time := monday 7 0.
Definition silence (err : error) : string := "".

#[local] Instance salon_store : ConfirmationStore world := store jsonb calm.
#[local] Instance salon_tools : toolapi.Backend world := backend 40 calm salon_backend.

Definition run (call : Call) (message : string) (w : world * list gevent) : world * list gevent :=
  (Execute (silent (reading seven)) (silent (reading seven)) (fun _ _ => None) silence salon_gateway
     (from_message message) call w).2.

Definition proposed : world * list gevent := run (mkCall "1" ToolCancel (arguments "")) "m1" (start, []).
Definition presented_ : world * list gevent := (with_messages dialogue proposed.1, proposed.2).

(** The identifier of the filed proposal. *)
Definition filed_id : string :=
  match proposals (db proposed.1) with r :: _ => pr_id r | [] => "" end.

Definition consented : world * list gevent :=
  (cs_Authorize filed_id (from_message "m2") (monday 7 3) presented_).2.
Definition done_ : world * list gevent := run (mkCall "2" ToolCancel (arguments filed_id)) "m2" consented.

Example cancelled_once :
  (map (fun r => Database.Status (b_data r)) (bookings (db done_.1)), map pr_status (proposals (db done_.1))) =
  (["cancelled"], ["consumed"]).
Proof. vm_compute. reflexivity. Qed.

#[local] Abbreviation salon_history :=
  (history jsonb 40 calm salon_backend salon_gateway seven seven silence).

Lemma history_proposed : salon_history proposed.
Proof. unfold proposed, run, salon_store, salon_tools. apply history_call, history_start. reflexivity. Qed.

Lemma with_messages_proposals l w : proposals (db (with_messages l w)) = proposals (db w).
Proof. reflexivity. Qed.

Lemma history_presented : salon_history presented_.
Proof.
  pose proof history_proposed as Hp. unfold presented_.
  assert (E : messages (db proposed.1) = opening) by (vm_compute; reflexivity).
  destruct proposed as [w l]. simpl in *. refine (history_other _ _ _ _ _ _ _ _ w _ l _ _ Hp).
  - apply with_messages_proposals.
  - intros m Hm. rewrite E in Hm. apply elem_of_app. by left.
Qed.

Lemma history_consented : salon_history consented.
Proof. apply history_consent, history_presented. Qed.

Lemma history_done : salon_history done_.
Proof. unfold done_, run, salon_store, salon_tools. apply history_call, history_consented. Qed.

Definition cancelling : mutation :=
  match done_.2 with
  | [_; _; GMutation m; _] => m
  | _ => MCancel (toolapi.mkCancel "" "" "" "" "" "")
  end.

Definition action : ConfirmationBinding :=
  match (Latest "t" customer_id conversation_id (monday 7 3) calm presented_.1).1 with
  | Ok (Some st) => Binding st
  | _ => mkBinding "" "" "" "" "" "" ""
  end.

Definition draft : ConfirmationProposal :=
  mkProposal "" ToolCancel "Confirm" [mkFact "Reason" "late"] (monday 7 9).

Definition other_action : ConfirmationBinding :=
  mkBinding "t" customer_id conversation_id "m1" ToolCancel
    "0123456789abcdef0123456789abcdef" (arguments "").

(** Another action replaces the one that waits. *)
Definition refiled := Propose jsonb other_action draft (monday 7 4) calm presented_.1.

Definition refiled_proposal : ConfirmationProposal :=
  match refiled.1 with Ok q => q | Err _ => draft end.

Lemma refiled_Ok : refiled = (Ok refiled_proposal, refiled.2).
Proof.
  assert (E : is_ok refiled.1 = true) by (vm_compute; reflexivity).
  unfold refiled_proposal. destruct refiled as [[q|err] w']; [reflexivity|discriminate E].
Qed.

Lemma refiled_printable : printable_proposal refiled_proposal.
Proof.
  split; [|split].
  - repeat (apply Forall_cons; split; [vm_compute; reflexivity|]). apply Forall_nil. done.
  - assert (E : Facts refiled_proposal = [mkFact "Reason" "late"]) by (vm_compute; reflexivity).
    rewrite E. repeat constructor.
  - vm_compute. done.
Qed.
End Salon.

Lemma durable_no_booking_without_consent_witness :
  exists c t, covers Salon.salon_gateway c t Salon.cancelling /\ exists id ctx t',
    EvAuthorize id ctx t' ∈ store_events (take 2 Salon.done_.2) /\ tx_CustomerID ctx = OwnerCustomerID c.
Proof.
  assert (E : Salon.done_.2 = take 2 Salon.done_.2 ++ GMutation Salon.cancelling :: drop 3 Salon.done_.2)
    by (vm_compute; reflexivity).
  destruct (durable_no_booking_without_consent _ _ _ _ _ _ _ _ _ _ _ _ Salon.history_done E)
    as (c & t & Hc & id & c0 & p & t0 & ctx & t' & _ & _ & Ha & _ & Ho & _).
  exists c, t. split; [exact Hc|]. exists id, ctx, t'. split; [exact Ha|exact Ho].
Defined.

Lemma consent_stands_in_messages_witness :
  exists m, m ∈ messages (db Salon.consented.1) /\ ms_role m = "user".
Proof.
  assert (E : Salon.consented = (Salon.consented.1, Salon.consented.2)) by (by destruct Salon.consented).
  pose proof Salon.history_consented as Hh. rewrite E in Hh.
  destruct (VerifyAuthorized Salon.filed_id Salon.action (monday 7 4) calm Salon.consented.1) as [v w'] eqn:Ev.
  assert (Hv : (VerifyAuthorized Salon.filed_id Salon.action (monday 7 4) calm Salon.consented.1).1 = Ok tt)
    by (vm_compute; reflexivity).
  rewrite Ev in Hv. simpl in Hv. subst v.
  destruct (consent_stands_in_messages _ _ _ _ _ _ _ _ _ _ _ _ _ _ Hh Ev)
    as (r & ctx & t' & m & x & _ & _ & _ & _ & _ & _ & _ & _ & _ & Hm & _ & _ & Hr & _).
  exists m. split; [exact Hm|exact Hr].
Defined.

Lemma propose_leaves_one_live_witness :
  exists r, r ∈ proposals (db Salon.refiled.2) /\ proposal_active r = true /\ pr_hash r <> "".
Proof.
  assert (E2 : Salon.presented_ = (Salon.presented_.1, Salon.presented_.2)) by (by destruct Salon.presented_).
  pose proof Salon.history_presented as Hh. rewrite E2 in Hh.
  destruct (propose_leaves_one_live _ _ _ _ _ _ _ _ _ _ Salon.other_action Salon.draft (monday 7 4) _ _ Hh
              Salon.refiled_Ok) as (r & Hr & _ & Ha & Hs & _).
  exists r. split; [exact Hr|]. split; [exact Ha|].
  apply same_action_spec in Hs as [_ ->]. discriminate.
Defined.

Lemma latest_returns_frozen_action_witness :
  exists st, (Latest "t" customer_id conversation_id (monday 7 5) calm Salon.refiled.2).1 = Ok (Some st) /\
    Title (Proposal st) = "Confirm".
Proof.
  assert (E2 : Salon.presented_ = (Salon.presented_.1, Salon.presented_.2)) by (by destruct Salon.presented_).
  pose proof Salon.history_presented as Hh. rewrite E2 in Hh.
  destruct (latest_returns_frozen_action _ _ _ _ _ _ _ _ _ _ Salon.other_action Salon.draft (monday 7 4) _ _
              Salon.refiled.2 (monday 7 5) Hh Salon.refiled_Ok) as (st & Hl & _ & _ & Ht & _).
  - vm_compute. reflexivity.
  - exact Salon.refiled_printable.
  - reflexivity.
  - reflexivity.
  - reflexivity.
  - vm_compute. reflexivity.
  - exists st. split; [exact (f_equal fst Hl)|]. rewrite Ht. vm_compute. reflexivity.
Defined.
