(* ===== verification/Executor.v ===== *)
(** * The tool executor: [internal/agenttools/executor.go]

    Between the agent loop and the gateway: the trusted context comes from the
    run's own rows, a retryable failure or a timed-out attempt is tried again with
    the same call, and the result is rendered for the model.  Lists of a result
    are never nil: every producer makes them.  [None] is a panic of the gateway.

    Whatever the gateway answers, a request is tried at most [maxAttempts] times,
    always as the customer of its run and with the same call, again only after a
    failure that may be retried; and a committed side effect is never lost. *)

From Stdlib Require Import ZArith Lia Ascii.
From stdpp Require Import base list strings gmap.
From S2P Require Import Prelude State GoTime Json Database Catalog Repository Tools ToolBackend Conversations LLM TimeText Runner Confirmations Tokens Gateway Durable.

#[local] Open Scope Z_scope.

(** ** [json.Marshal] of a tool result ([types.go]) *)
Definition money_json (m : toolapi.Money) : json :=
  JObj [("minor_units", JInt (toolapi.MinorUnits m)); ("currency", JStr (toolapi.Currency m))].

Definition service_json (s : toolapi.Service) : json :=
  JObj ([("id", JStr (toolapi.sv_ID s)); ("name", JStr (toolapi.sv_Name s))] ++
        omit_empty "description" (toolapi.sv_Description s) ++
        [("duration_minutes", JInt (toolapi.sv_DurationMinutes s));
         ("buffer_before_minutes", JInt (toolapi.sv_BufferBeforeMinutes s));
         ("buffer_after_minutes", JInt (toolapi.sv_BufferAfterMinutes s));
         ("price", match toolapi.sv_Price s with Some m => money_json m | None => JNull end)]).

Definition staff_json (m : toolapi.Staff) : json :=
  JObj [("id", JStr (toolapi.sf_ID m)); ("display_name", JStr (toolapi.sf_DisplayName m));
        ("timezone", JStr (toolapi.sf_Timezone m))].

Definition slot_json (s : Slot) : option json :=
  start ← time_json (sl_StartAt s); stop ← time_json (sl_EndAt s); expires ← time_json (sl_ExpiresAt s);
  Some (JObj [("slot_token", JStr (SlotToken s)); ("service_id", JStr (sl_ServiceID s));
    ("staff_id", JStr (sl_StaffID s)); ("staff_name", JStr (sl_StaffName s)); ("start_at", start);
    ("end_at", stop); ("timezone", JStr (sl_Timezone s)); ("expires_at", expires)]).

Definition booking_json (b : toolapi.Booking) : option json :=
  start ← time_json (toolapi.bo_StartAt b); stop ← time_json (toolapi.bo_EndAt b);
  Some (JObj [("id", JStr (toolapi.bo_ID b)); ("status", JStr (toolapi.bo_Status b));
    ("service_id", JStr (toolapi.bo_ServiceID b)); ("service_name", JStr (toolapi.bo_ServiceName b));
    ("staff_id", JStr (toolapi.bo_StaffID b)); ("staff_name", JStr (toolapi.bo_StaffName b));
    ("start_at", start); ("end_at", stop); ("timezone", JStr (toolapi.bo_Timezone b));
    ("customer_display_name", JStr (toolapi.bo_CustomerDisplayName b));
    ("version", JInt (toolapi.bo_Version b))]).

(** A member that is left out when false. *)
Definition omit_false (name : string) (b : bool) : object := if b then [(name, JBool true)] else [].

Definition data_json (x : Data) : option json :=
  match x with
  | ListServicesData l => Some (JObj [("services", JArr (map service_json l))])
  | ListStaffData l => Some (JObj [("staff", JArr (map staff_json l))])
  | FindSlotsData l asOf truncated =>
      slots ← mapM slot_json l; t ← time_json asOf;
      Some (JObj ([("slots", JArr slots); ("availability_as_of", t)] ++ omit_false "truncated" truncated))
  | CreateBookingData b sync =>
      v ← booking_json b; Some (JObj [("booking", v); ("calendar_sync", JStr sync)])
  | RescheduleBookingData b | CancelBookingData b => v ← booking_json b; Some (JObj [("booking", v)])
  | EscalationData o =>
      Some (JObj [("escalation", JObj [("id", JStr (toolapi.eo_ID o)); ("status", JStr (toolapi.eo_Status o));
        ("replayed", JBool (toolapi.eo_Replayed o))])])
  end.

Definition tool_error_json (err : ToolError) : json :=
  JObj [("code", JStr (te_Code err)); ("message", JStr (te_Message err));
        ("retryable", JBool (Retryable err)); ("resolution", JStr (Resolution err))].

(** A pointer or interface that is left out when nil. *)
Definition omit_nil {A} (name : string) (f : A -> option json) (o : option A) : option object :=
  match o with None => Some [] | Some a => v ← f a; Some [(name, v)] end.

Definition result_json (r : Gateway.Result) : option json :=
  data ← omit_nil "data" data_json (res_Data r);
  confirmation ← omit_nil "confirmation" encode_proposal (res_Confirmation r);
  failed ← omit_nil "error" (fun e => Some (tool_error_json e)) (res_Error r);
  Some (JObj ([("schema_version", JStr (SchemaVersion r)); ("tool", JStr (res_Tool r));
    ("contract_version", JStr (res_ContractVersion r)); ("call_id", JStr (CallID r));
    ("status", JStr (res_Status r))] ++ data ++ confirmation ++ failed ++
    [("meta", JObj [("duration_ms", JInt (DurationMS r));
                    ("idempotency_replayed", JBool (IdempotencyReplayed r))])])).

(** ** The executor *)
Record Executor := mkExecutor { ex_tenantID : string; maxAttempts : Z; timeout : Z; baseBackoff : Z }.

Definition NewExecutor (tenantID : string) (maxAttempts timeout : Z) : Executor :=
  mkExecutor tenantID (if maxAttempts <? 1 then 1 else maxAttempts)
    (if timeout <=? 0 then 5 * Second else timeout) (100 * Millisecond).

(** The delay of [waitBackoff] for eight random bytes read as [random]; Go
    panics on a division by zero, which is [None]. *)
Definition backoff_delay (base : Z) (attempt : Z) (random : Z) : option Z :=
  let shifted := wrap64 (Z.shiftl base (attempt - 1)) in
  let max := if 2 * Second <? shifted then 2 * Second else shifted in
  let span := (Z.quot max 2 + 1) mod 18446744073709551616 in
  if span =? 0 then None else Some (wrap64 (Z.quot max 2 + wrap64 (random mod span))).

(** ** The trusted context: one query over the run, its conversation and customer *)
Definition trusted_row (tenant run conversation : string) (d : DB)
    : option (RunRow * ConversationRow * CustomerRow) :=
  r ← List.find (is_run tenant run conversation) (agent_runs d);
  c ← List.find (is_conv tenant (ru_conversation r)) (conversations d);
  customer ← cv_customer c;
  u ← List.find (is_customer tenant customer) (customers d);
  Some (r, c, u).

Definition allCapabilities : gmap string bool :=
  list_to_map (map (fun c => (c, true))
    [CapabilityScheduleRead; CapabilityBookingCreateSelf; CapabilityBookingWriteSelf;
     CapabilityCRMContactSelf; CapabilityCRMDealAfterBook; CapabilityConversationEscalate]).

Definition trusted_of (runID : string) (rows : RunRow * ConversationRow * CustomerRow) : TrustedContext :=
  let '(r, c, u) := rows in
  mkTrusted (ru_tenant r) (cu_id u) (cu_name u) (default "" (cu_email u)) (default "" (cu_phone u))
    (ru_conversation r) (default "" (ru_trigger r)) runID allCapabilities.

Definition context_error (err : error) : error :=
  if errors_is err ErrNoRows then ErrText "trusted agent run context not found"
  else ErrWrap "resolve trusted tool context" err.

Definition resolveTrustedContext (x : Executor) (request : ToolRequest) : M TrustedContext :=
  let* rows := map_err context_error (
    let* o := query Pool (fun _ _ _ d =>
      Ok (trusted_row (ex_tenantID x) (tq_RunID request) (tq_ConversationID request) d)) in
    one_row o) in
  ret (trusted_of (tq_RunID request) rows).

(** ** One attempt *)
Definition refusal (code : string) : bool :=
  existsb (String.eqb code) [CodePolicyDenied; CodeNotFoundOrNotOwned; CodeToolNotAllowed].

Definition tool_status (r : Gateway.Result) : string :=
  if String.eqb (res_Status r) StatusSuccess then ToolStatusSucceeded
  else if String.eqb (res_Status r) Gateway.StatusConfirmationRequired then ToolStatusConfirmationRequired
  else match res_Error r with
       | Some err => if refusal (te_Code err) then ToolStatusRefused else ToolStatusFailed
       | None => ToolStatusFailed
       end.

Definition failed_result (r : Gateway.Result) : bool := String.eqb (res_Status r) StatusError.

(** What an attempt adds to the execution. *)
Definition after_attempt (ex : ToolExecution) (r : Gateway.Result) (late : bool) (payload : string)
    (started finished : Time) : ToolExecution :=
  mkExecution payload (failed_result r || late) (tool_status r)
    (Attempts ex ++ [mkAttempt started finished
       (if failed_result r || late then ToolStatusFailed else ToolStatusSucceeded) payload])
    (SideEffectCommitted ex || res_SideEffectCommitted r).

Definition committed_so_far (ex : ToolExecution) (r : Gateway.Result) : ToolExecution :=
  mkExecution (ex_Content ex) (IsError ex) (ex_Status ex) (Attempts ex)
    (SideEffectCommitted ex || res_SideEffectCommitted r).

Definition zero_execution : ToolExecution := mkExecution "" false "" [] false.

(** Whether the loop goes on: [inl] is the answer's error, [inr] tries again. *)
Definition verdict (r : Gateway.Result) (attemptErr : option error) (last : bool) : option error + unit :=
  match attemptErr with
  | Some err => if negb (errors_is err DeadlineExceeded) || last then inl (Some err) else inr tt
  | None =>
      match res_Error r with
      | Some err => if negb (failed_result r) || negb (Retryable err) then inl None
                    else if last then inl None else inr tt
      | None => inl None
      end
  end.

Section executor.
Context {S : Type} (clock : St S Time) (gateway : TrustedContext -> Call -> St S (option Gateway.Result))
  (attempt_Err : St S (option error)) (waitBackoff : Z -> St S (option error)).

(** A status other than the three leaves the execution's; the gateway has none. *)
Fixpoint attempts (remaining : nat) (attemptNo : Z) (trusted : TrustedContext) (call : Call)
    (ex : ToolExecution) : St S (option (ToolExecution * option error)) :=
  match remaining with
  | O => st_ret (Some (ex, None))
  | Datatypes.S more =>
      let+ started := clock in
      let+ outcome := gateway trusted call in
      match outcome with
      | None => st_ret None
      | Some r =>
          let+ attemptErr := attempt_Err in
          match result_json r with
          | None => st_ret (Some (committed_so_far ex r, Some (ErrText "encode tool result")))
          | Some v =>
              let+ finished := clock in
              let ex := after_attempt ex r (is_set attemptErr) (Marshal v) started finished in
              match verdict r attemptErr (Nat.eqb more 0) with
              | inl err => st_ret (Some (ex, err))
              | inr _ =>
                  let+ interrupted := waitBackoff attemptNo in
                  match interrupted with
                  | Some err => st_ret (Some (ex, Some err))
                  | None => attempts more (attemptNo + 1) trusted call ex
                  end
              end
          end
      end
  end.

Definition call_of (request : ToolRequest) : Call :=
  mkCall (tc_ID (tq_Call request)) (tc_Name (tq_Call request)) (tc_Arguments (tq_Call request)).

(** [resolve] is [resolveTrustedContext] over the state. *)
Definition Execute (x : Executor) (resolve : ToolRequest -> St S (result TrustedContext))
    (request : ToolRequest) : St S (option (ToolExecution * option error)) :=
  let+ resolved := resolve request in
  match resolved with
  | Err err => st_ret (Some (zero_execution, Some err))
  | Ok trusted => attempts (Z.to_nat (maxAttempts x)) 1 trusted (call_of request) zero_execution
  end.
End executor.

(** * Properties of the tool executor *)

From S2P Require Import DatabaseFacts SalonDemo.

#[local] Open Scope Z_scope.

(** What the gateway was asked and answered, and how the attempt's context ended. *)
Inductive xevent :=
| ECall (trusted : TrustedContext) (call : Call) (outcome : option Gateway.Result)
| EEnd (err : option error).

Definition one_try (t : TrustedContext) (c : Call) (x : Gateway.Result * option error) : list xevent :=
  [ECall t c (Some x.1); EEnd x.2].

(** After such an attempt the executor may try again. *)
Definition may_retry (x : Gateway.Result * option error) : Prop :=
  match x.2 with
  | Some err => errors_is err DeadlineExceeded = true
  | None => res_Status x.1 = StatusError /\ exists err, res_Error x.1 = Some err /\ Retryable err = true
  end.

(** The answer after the tries [l], starting from [ex]. *)
Definition answered (ex : ToolExecution) (l : list (Gateway.Result * option error))
    (a : ToolExecution * option error) : Prop :=
  SideEffectCommitted a.1 = SideEffectCommitted ex || existsb (fun x => res_SideEffectCommitted x.1) l /\
  (a.2 = None -> exists r v, last l = Some (r, None) /\ result_json r = Some v /\
     ex_Content a.1 = Marshal v /\ ex_Status a.1 = tool_status r /\ IsError a.1 = failed_result r /\
     length (Attempts a.1) = (length (Attempts ex) + length l)%nat).

(** Tries that were each but the last one retryable, and then perhaps a panic. *)
Definition tries (t : TrustedContext) (c : Call) (n : nat) (ex : ToolExecution)
    (a : option (ToolExecution * option error)) (new : list xevent) : Prop :=
  exists l crash, new = flat_map (one_try t c) l ++ crash /\ (length l + length crash <= n)%nat /\
    (forall l1 x l2, l = l1 ++ x :: l2 -> l2 <> [] \/ crash <> [] -> may_retry x) /\
    match a with
    | None => crash = [ECall t c None]
    | Some a => crash = [] /\ l <> [] /\ answered ex l a
    end.

Section executor.
Context {S : Type} (clock : St S Time) (gateway : TrustedContext -> Call -> St S (option Gateway.Result))
  (attempt_Err : St S (option error)) (waitBackoff : Z -> St S (option error)).

Definition logged_gateway (t : TrustedContext) (c : Call) : St (S * list xevent) (option Gateway.Result) :=
  noting (fun o => [ECall t c o]) (gateway t c).
Definition logged_end : St (S * list xevent) (option error) := noting (fun e => [EEnd e]) attempt_Err.

Definition logged_attempts : nat -> Z -> TrustedContext -> Call -> ToolExecution ->
    St (S * list xevent) (option (ToolExecution * option error)) :=
  attempts (silent clock) logged_gateway logged_end (fun n => silent (waitBackoff n)).

Lemma verdict_retry r e last : verdict r e last = inr tt -> may_retry (r, e) /\ last = false.
Proof.
  unfold verdict, may_retry, failed_result. destruct e as [err|]; simpl.
  - destruct (errors_is err _), last; simpl; done.
  - destruct (res_Error r) as [err|]; [|done]. destruct (String.eqb_spec (res_Status r) StatusError); [|done].
    destruct (Retryable err) eqn:E; [|done]. destruct last; simpl; [done|]. intros _. split; [|done].
    split; [done|]. by exists err.
Qed.

Lemma verdict_done r e last : verdict r e last = inl None -> e = None.
Proof. destruct e as [err|]; simpl; [|done]. by destruct (_ || last). Qed.

(** One try that ends the loop. *)
Lemma tries_last t c n ex r e a :
  answered ex [(r, e)] a -> tries t c (Datatypes.S n) ex (Some a) (one_try t c (r, e)).
Proof.
  intros Ha. exists [(r, e)], []. split; [done|]. split; [simpl; lia|]. split; [|done].
  intros l1 x l2 E [Hn|Hn]; [|done]. by destruct l1 as [|y [|z l1]]; simplify_eq/=.
Qed.

(** A try that was retried, before the others. *)
Lemma tries_again t c n ex ex' r e a new :
  may_retry (r, e) -> SideEffectCommitted ex' = SideEffectCommitted ex || res_SideEffectCommitted r ->
  length (Attempts ex') = Datatypes.S (length (Attempts ex)) ->
  tries t c n ex' a new -> tries t c (Datatypes.S n) ex a (one_try t c (r, e) ++ new).
Proof.
  intros Hr Hs Hl (l & crash & -> & Hlen & Hre & Ha). exists ((r, e) :: l), crash.
  split; [done|]. split; [simpl; lia|]. split.
  - intros [|y l1] x l2 E Hn; simplify_eq/=; [done|]. by eapply Hre.
  - destruct a as [a|]; [|done]. destruct Ha as (-> & Hnil & H1 & H2). split; [done|]. split; [done|].
    split; [simpl; by rewrite H1, Hs, orb_assoc|]. intros Hn.
    destruct (H2 Hn) as (r' & v & E1 & E2 & E3 & E4 & E5 & E6). exists r', v.
    split; [by destruct l|]. repeat (split; [done|]). simpl. lia.
Qed.

Lemma attempts_tries n no t c ex :
  n <> O -> emits (logged_attempts n no t c ex) (tries t c n ex).
Proof.
  revert no ex. induction n as [|n IH]; intros no ex Hn; [done|].
  apply emits_quiet; [apply emits_silent|]. intros started.
  apply emits_noted. intros [r|]; cycle 1.
  { apply emits_ret. exists [], [ECall t c None]. split; [done|]. split; [simpl; lia|].
    split; [|done]. intros [|] ? ? ?; done. }
  apply emits_noted. intros e. destruct (result_json r) as [v|] eqn:Ev; cycle 1.
  { apply emits_ret. apply (tries_last t c n ex r e). split; simpl; [by rewrite orb_false_r|done]. }
  apply emits_quiet; [apply emits_silent|]. intros finished. cbv zeta.
  destruct (verdict _ _ _) as [err|[]] eqn:Hv.
  - apply emits_ret. apply (tries_last t c n ex r e). split; simpl; [by rewrite orb_false_r|].
    intros ->. apply verdict_done in Hv as ->. exists r, v. simpl. rewrite orb_false_r, length_app. done.
  - apply verdict_retry in Hv as [Hr Hlast].
    apply emits_quiet; [apply emits_silent|]. intros [err|].
    + apply emits_ret. apply (tries_last t c n ex r e). split; simpl; [by rewrite orb_false_r|done].
    + eapply emits_conseq; [apply IH; by destruct n|]. intros a new Hnew.
      apply (tries_again t c n ex (after_attempt ex r (is_set e) (Marshal v) started finished) r e); [done..| |exact Hnew].
      simpl. rewrite length_app. simpl. lia.
Qed.
End executor.

(** ** The rows of a run *)
Lemma trusted_row_spec t run cv d r c u :
  trusted_row t run cv d = Some (r, c, u) ->
  r ∈ agent_runs d /\ ru_tenant r = t /\ ru_id r = run /\ ru_conversation r = cv /\
  c ∈ conversations d /\ cv_tenant c = t /\ cv_id c = cv /\ cv_customer c = Some (cu_id u) /\
  u ∈ customers d /\ cu_tenant u = t.
Proof.
  unfold trusted_row. intros Ht.
  apply bind_Some in Ht as (r' & Hr & Ht). apply bind_Some in Ht as (c' & Hc & Ht).
  apply bind_Some in Ht as (k & Hk & Ht). apply bind_Some in Ht as (u' & Hu & [= -> -> ->]).
  apply List.find_some in Hr as [Hr Er]. apply List.find_some in Hc as [Hc Ec]. apply List.find_some in Hu as [Hu Eu].
  apply list_elem_of_In in Hr, Hc, Hu. unfold is_run, is_conv, is_customer in *.
  rewrite !andb_true_iff, !String.eqb_eq in *. destruct Er as [[E1 E2] E3], Ec as [E4 E5], Eu as [E6 E7].
  repeat match goal with |- _ /\ _ => split end; congruence.
Qed.

Section on_tables.
Context (e : env) (clock : St world Time)
  (gateway : TrustedContext -> Call -> St world (option Gateway.Result))
  (attempt_Err : St world (option error)) (waitBackoff : Z -> St world (option error)).

(** The executor with every call of the gateway and every end of an attempt logged. *)
Definition logged_Execute (x : Executor) (request : ToolRequest) :
    St (world * list xevent) (option (ToolExecution * option error)) :=
  Execute (silent clock) (logged_gateway gateway) (logged_end attempt_Err)
    (fun n => silent (waitBackoff n)) x (fun q => silent (resolveTrustedContext x q e)) request.

(** C29. Tools run for the customer of their run.  When the run's context cannot
    be read, nothing is called and an error is answered.  Otherwise every call
    goes out with the one identity the tables give (the run's tenant, its
    conversation, the customer of that conversation and the message that
    triggered the run) and with exactly the model's call; there are at most
    [maxAttempts] of them, each but the last ended in a retryable failure or a
    passed deadline, the committed side effects of all are reported, and an
    answer without error renders the last result. *)
Theorem tools_run_for_the_runs_customer tenant n limit request w l a w' l' :
  let x := NewExecutor tenant n limit in
  logged_Execute x request (w, l) = (a, (w', l')) ->
  (l' = l /\ exists err, a = Some (zero_execution, Some err)) \/
  exists r c u new, l' = l ++ new /\
    r ∈ agent_runs (db w) /\ ru_tenant r = tenant /\ ru_id r = tq_RunID request /\
    ru_conversation r = tq_ConversationID request /\
    c ∈ conversations (db w) /\ cv_id c = ru_conversation r /\ cv_customer c = Some (cu_id u) /\
    u ∈ customers (db w) /\ cu_tenant u = tenant /\
    tries (trusted_of (tq_RunID request) (r, c, u)) (call_of request) (Z.to_nat (maxAttempts x))
      zero_execution a new.
Proof.
  cbv zeta. set (x := NewExecutor tenant n limit). unfold logged_Execute, Execute, st_bind, silent, noting at 1. simpl.
  destruct (resolveTrustedContext x request e w) as [[t|err] w1] eqn:Hr; simpl; rewrite app_nil_r; intros Hx.
  - right. unfold resolveTrustedContext in Hr. open_all.
    match goal with Ht : trusted_row _ _ _ _ = Some ?rows |- _ => destruct rows as [[r c] u]; rename Ht into Hrow end.
    pose proof Hrow as Hspec. apply trusted_row_spec in Hspec as (H1 & H2 & H3 & H4 & H5 & _ & H7 & H8 & H9 & H10).
    assert (Hn : Z.to_nat (maxAttempts x) <> O) by (simpl; destruct (Z.ltb_spec n 1); lia).
    pose proof (attempts_tries clock gateway attempt_Err waitBackoff _ 1
      (trusted_of (tq_RunID request) (r, c, u)) (call_of request) zero_execution Hn) as Hm.
    eapply emits_run in Hm; [|exact Hx]. destruct Hm as (new & El & Hnew). simpl in El.
    exists r, c, u, new. split; [exact El|].
    repeat (split; [first [done|congruence]|]). exact Hnew.
  - left. unfold st_ret in Hx. simplify_eq. split; [done|]. by eexists.
Qed.
End on_tables.

(** ** A call that fails once *)
Module Retry.
Definition failing (w : world) : Gateway.Result :=
  backendFailure (Gateway.mkResult ResultSchemaV1 ToolListServices ContractVersion "call" "" None None None 0 false false)
    toolapi.ErrDependencyUnavailable.

Definition succeeding (w : world) : Gateway.Result :=
  success (Gateway.mkResult ResultSchemaV1 ToolListServices ContractVersion "call" "" None None None 0 false false)
    (ListServicesData []) false.

Definition gateway (t : TrustedContext) (c : Call) : St world (option Gateway.Result) :=
  fun w => (Some (if Nat.eqb (tick w) 1 then failing w else succeeding w), bump w).

Definition request : ToolRequest :=
  mkToolRequest run_id conversation_id 1 1 1 (mkToolCall "call" ToolListServices "{}").

Definition run := logged_Execute calm (fun w => (monday 7 0, w)) gateway (fun w => (None, w)) (fun _ w => (None, w))
  (NewExecutor "t" 3 0) request (empty_salon, []).

Example two_calls : length run.2.2 = 4%nat.
Proof. vm_compute. reflexivity. Qed.
End Retry.

Lemma tools_run_for_the_runs_customer_witness :
  exists ex, Retry.run.1 = Some (ex, None) /\ exists u, u ∈ customers (db empty_salon) /\ cu_id u = customer_id /\
    exists new, Retry.run.2.2 = new /\ length new = 4%nat.
Proof.
  assert (Ha : exists ex, Retry.run.1 = Some (ex, None)) by (eexists; vm_compute; reflexivity).
  assert (Hl : length Retry.run.2.2 = 4%nat) by (vm_compute; reflexivity).
  destruct Retry.run as [a [w' l']] eqn:E. simpl in Ha, Hl. unfold Retry.run in E.
  apply tools_run_for_the_runs_customer in E as E'.
  destruct Ha as [ex ->]. exists ex. split; [reflexivity|].
  destruct E' as [[-> _]|(r & c & u & new & _ & _ & _ & _ & _ & _ & _ & _ & Hu & _)]; [discriminate Hl|].
  exists u. split; [exact Hu|]. apply list_elem_of_singleton in Hu as ->. split; [reflexivity|]. by exists l'.
Defined.
