(* ===== verification/AgentTrace.v ===== *)
(** * The trace of a run: [internal/agenttrace/postgres.go]

    What the agent loop records, as rows: a run, its model calls, the tool calls
    of each and the attempts beneath them; and the timeline read back from them.
    [jsonb] is the text PostgreSQL prints for a value, or its refusal.  Columns
    that no statement of the program writes are left out. *)

From Stdlib Require Import ZArith Lia Ascii.
From stdpp Require Import base list strings sorting.
From S2P Require Import Prelude GoTime Json Database Catalog Repository JsonParse ToolBackend Conversations LLM Runner.

#[local] Open Scope Z_scope.

Definition nonNegativeMS (duration : Z) : Z := if duration <? 0 then 0 else Z.quot duration Millisecond.

Definition normalizeJSON (value : string) : string :=
  if bool_decide (value = "") || negb (Valid value) then "{}" else value.

Definition run_of (tenant run : string) (r : RunRow) : bool :=
  String.eqb (ru_tenant r) tenant && String.eqb (ru_id r) run.

(** ** Rows *)
Definition insert_run (row : RunRow) (d : DB) : result DB :=
  if negb (run_check row) then Err CheckViolation
  else if existsb (run_of (ru_tenant row) (ru_id row)) (agent_runs d) then Err UniqueViolation
  else if negb (existsb (is_conv (ru_tenant row) (ru_conversation row)) (conversations d) &&
                opt_check (fun m => existsb (is_message (ru_tenant row) m (ru_conversation row)) (messages d))
                  (ru_trigger row))
  then Err ForeignKeyViolation
  else Ok (set_runs (agent_runs d ++ [row]) d).

Definition iteration_of (tenant run : string) (no : Z) (i : IterationRow) : bool :=
  String.eqb (it_tenant i) tenant && String.eqb (it_run i) run && (it_no i =? no).

Definition insert_iteration (row : IterationRow) (d : DB) : result DB :=
  let rows := agent_iterations (turns d) in
  if negb (iteration_check row) then Err CheckViolation
  else if existsb (fun i => String.eqb (it_tenant i) (it_tenant row) && String.eqb (it_id i) (it_id row)) rows ||
          existsb (iteration_of (it_tenant row) (it_run row) (it_no row)) rows
  then Err UniqueViolation
  else if negb (existsb (run_of (it_tenant row) (it_run row)) (agent_runs d)) then Err ForeignKeyViolation
  else Ok (set_iterations (rows ++ [row]) d).

Definition call_of_run (tenant run call : string) (t : ToolRow) : bool :=
  String.eqb (tl_tenant t) tenant && String.eqb (tl_run t) run && String.eqb (tl_call t) call.

Definition insert_tool (row : ToolRow) (d : DB) : result DB :=
  let rows := tool_executions (turns d) in
  if negb (tool_check row) then Err CheckViolation
  else if existsb (fun t => String.eqb (tl_tenant t) (tl_tenant row) && String.eqb (tl_id t) (tl_id row)) rows ||
          existsb (call_of_run (tl_tenant row) (tl_run row) (tl_call row)) rows ||
          existsb (fun t => String.eqb (tl_tenant t) (tl_tenant row) &&
            String.eqb (tl_iteration t) (tl_iteration row) && (tl_index t =? tl_index row)) rows
  then Err UniqueViolation
  else if negb (existsb (fun i => String.eqb (it_tenant i) (tl_tenant row) &&
                  String.eqb (it_id i) (tl_iteration row) && String.eqb (it_run i) (tl_run row))
                  (agent_iterations (turns d)))
  then Err ForeignKeyViolation
  else Ok (set_tools (rows ++ [row]) d).

Definition insert_attempt (row : AttemptRow) (d : DB) : result DB :=
  let rows := tool_execution_attempts (turns d) in
  if negb (attempt_check row) then Err CheckViolation
  else if existsb (fun a => String.eqb (ax_tenant a) (ax_tenant row) && String.eqb (ax_id a) (ax_id row)) rows ||
          existsb (fun a => String.eqb (ax_tenant a) (ax_tenant row) && String.eqb (ax_tool a) (ax_tool row) &&
            (ax_no a =? ax_no row)) rows
  then Err UniqueViolation
  else if negb (existsb (fun t => String.eqb (tl_tenant t) (ax_tenant row) && String.eqb (tl_id t) (ax_tool row))
                  (tool_executions (turns d)))
  then Err ForeignKeyViolation
  else Ok (set_attempts (rows ++ [row]) d).

(** ** Runs *)
Definition started_run (tenant run conversation trigger provider model : string) (now : Time) : RunRow :=
  mkRunRow tenant run conversation (Some trigger) "running" provider model 0 0 None None None now None.

Definition start_run_sql (tenant run conversation trigger provider model : string) : sql unit :=
  fun now _ _ d =>
  let! d' := insert_run (started_run tenant run conversation trigger provider model now) d in Ok (tt, d').

Definition StartRun (tenantID runID conversationID triggerMessageID provider model : string) : M unit :=
  wrap "start agent run" (run Pool (start_run_sql tenantID runID conversationID triggerMessageID provider model)).

(** [UPDATE agent_runs ...]: the rows it touched. *)
Definition update_runs (p : RunRow -> bool) (f : RunRow -> RunRow) (d : DB) : result (nat * DB) :=
  let! (l, touched) := sql_update run_check p f (agent_runs d) in Ok (length touched, set_runs l d).

Definition finished_run (status code message : string) (duration : Z) (finished : Time) (r : RunRow) : RunRow :=
  mkRunRow (ru_tenant r) (ru_id r) (ru_conversation r) (ru_trigger r) status (ru_provider r) (ru_model r)
    (ru_prompt r) (ru_completion r) (Some duration) (nullif code) (nullif message) (ru_started r) (Some finished).

Definition finish_run_sql (tenant run status code message : string) (duration : Z) : sql nat := fun now _ _ d =>
  let! duration := int4 duration in
  update_runs (run_of tenant run) (finished_run status code message duration now) d.

(** [elapsed] is [time.Since(startedAt)]. *)
Definition FinishRun (tenantID runID status errorCode errorMessage : string) (elapsed : Z) : M unit :=
  let status := if bool_decide (status = "") then "completed" else status in
  let* affected := wrap "finish agent run"
    (run Pool (finish_run_sql tenantID runID status errorCode errorMessage (nonNegativeMS elapsed))) in
  if Nat.eqb affected 1 then ret tt else fail (ErrText "finish agent run: run not found").

(** ** Model calls *)
Section trace.
Context `{Host} (jsonb : string -> result string).

Definition model_payload (t : ModelCallTrace) : string :=
  Marshal (JObj [("charged_tokens", JInt (mc_ChargedTokens t)); ("error_message", JStr (mc_ErrorMessage t));
    ("reserved_tokens", JInt (mc_ReservedTokens t));
    ("returned_tool_call_count", JInt (mc_ReturnedToolCallCount t)); ("status", JStr (mc_Status t))]).

Definition iteration_row (tenant id : string) (t : ModelCallTrace) (response : string) (input output duration : Z)
    : IterationRow :=
  mkIterationRow tenant id (mc_RunID t) (mc_Iteration t) (mc_Status t) (mc_FinishReason t) input output
    duration response (nullif (mc_ErrorMessage t)) (pg_time Local (mc_StartedAt t)).

Definition insert_iteration_sql (tenant id : string) (t : ModelCallTrace) : sql unit := fun _ _ _ d =>
  let! _ := int4 (mc_Iteration t) in
  let! input := int4 (InputTokens (mc_Usage t)) in
  let! output := int4 (OutputTokens (mc_Usage t)) in
  let! duration := int4 (nonNegativeMS (Sub (mc_FinishedAt t) (mc_StartedAt t))) in
  let! response := jsonb (model_payload t) in
  let! d' := insert_iteration (iteration_row tenant id t response input output duration) d in
  Ok (tt, d').

Definition billed_run (model : string) (input output : Z) (r : RunRow) : RunRow :=
  mkRunRow (ru_tenant r) (ru_id r) (ru_conversation r) (ru_trigger r) (ru_status r) (ru_provider r)
    (if bool_decide (model = "") then ru_model r else model) (ru_prompt r + input) (ru_completion r + output)
    (ru_duration r) (ru_code r) (ru_error r) (ru_started r) (ru_finished r).

Definition bill_run_sql (tenant : string) (t : ModelCallTrace) : sql nat := fun _ _ _ d =>
  let! input := int4 (InputTokens (mc_Usage t)) in
  let! output := int4 (OutputTokens (mc_Usage t)) in
  if forallb (fun r => fits4 (ru_prompt r + input) && fits4 (ru_completion r + output))
       (List.filter (run_of tenant (mc_RunID t)) (agent_runs d))
  then update_runs (run_of tenant (mc_RunID t)) (billed_run (mc_Model t) input output) d
  else Err (ErrPg "22003").

Definition RecordModelCall (tenantID : string) (t : ModelCallTrace) : M unit :=
  with_tx "begin model trace" (
    let* id := New_id in
    let* _ := wrap "insert model trace" (run Tx (insert_iteration_sql tenantID id t)) in
    let* affected := wrap "update run usage" (run Tx (bill_run_sql tenantID t)) in
    if negb (Nat.eqb affected 1) then fail (ErrText "update run usage: run not found")
    else wrap "commit model trace" commit).

(** ** Tool calls *)
Definition tool_row (tenant id : string) (t : ToolExecutionStartedTrace) (iteration arguments : string) : ToolRow :=
  mkToolRow tenant id (ts_RunID t) iteration (ts_CallID t) (ts_CallIndex t) (ts_CallCount t) (ts_ToolName t)
    (ts_ContractVersion t) arguments None "running" None (Some (pg_time Local (ts_StartedAt t))) None.

(** [INSERT ... SELECT] from the iteration of that number, where there is one. *)
Definition insert_tool_sql (tenant id : string) (t : ToolExecutionStartedTrace) : sql nat := fun _ _ _ d =>
  let! _ := int4 (ts_CallIndex t) in
  let! _ := int4 (ts_CallCount t) in
  let! no := int4 (ts_Iteration t) in
  let! arguments := jsonb (normalizeJSON (ts_Arguments t)) in
  match List.find (iteration_of tenant (ts_RunID t) no) (agent_iterations (turns d)) with
  | None => Ok (0%nat, d)
  | Some i => let! d' := insert_tool (tool_row tenant id t (it_id i) arguments) d in Ok (1%nat, d')
  end.

Definition RecordToolExecutionStarted (tenantID : string) (t : ToolExecutionStartedTrace) : M unit :=
  let* id := New_id in
  let* affected := wrap "insert tool parent trace" (run Pool (insert_tool_sql tenantID id t)) in
  if Nat.eqb affected 1 then ret tt else fail (ErrText "insert tool parent trace: iteration not found").

Definition attempt_row (tenant id : string) (t : ToolAttemptTrace) (tool status detail : string) (duration : Z)
    : AttemptRow :=
  mkAttemptRow tenant id tool (ta_AttemptNo t) status (Some detail) (Some duration)
    (pg_time Local (ta_StartedAt t)) (Some (pg_time Local (ta_FinishedAt t))).

Definition insert_attempt_sql (tenant id : string) (t : ToolAttemptTrace) : sql nat := fun _ _ _ d =>
  let status := if bool_decide (ta_Status t = ToolStatusSucceeded) then "succeeded" else "failed" in
  let! _ := int4 (ta_AttemptNo t) in
  let! duration := int4 (nonNegativeMS (Sub (ta_FinishedAt t) (ta_StartedAt t))) in
  let! detail := jsonb (normalizeJSON (ta_Detail t)) in
  match List.find (call_of_run tenant (ta_RunID t) (ta_CallID t)) (tool_executions (turns d)) with
  | None => Ok (0%nat, d)
  | Some tool => let! d' := insert_attempt (attempt_row tenant id t (tl_id tool) status detail duration) d in Ok (1%nat, d')
  end.

Definition RecordToolAttempt (tenantID : string) (t : ToolAttemptTrace) : M unit :=
  let* id := New_id in
  let* affected := wrap "insert tool attempt trace" (run Pool (insert_attempt_sql tenantID id t)) in
  if Nat.eqb affected 1 then ret tt else fail (ErrText "insert tool attempt trace: parent call not found").

Definition completed_tool (result status : string) (duration : Z) (finished : Time) (t : ToolRow) : ToolRow :=
  mkToolRow (tl_tenant t) (tl_id t) (tl_run t) (tl_iteration t) (tl_call t) (tl_index t) (tl_count t) (tl_name t)
    (tl_version t) (tl_arguments t) (Some result) status (Some duration) (tl_started t)
    (Some (pg_time Local finished)).

Definition complete_tool_sql (tenant : string) (t : ToolExecutionCompletedTrace) : sql nat := fun _ _ _ d =>
  let status := if string_in (tc_Status t) [ToolStatusSucceeded; ToolStatusFailed; ToolStatusRefused;
                                            ToolStatusConfirmationRequired]
                then tc_Status t else "failed" in
  let! duration := int4 (nonNegativeMS (Sub (tc_FinishedAt t) (tc_StartedAt t))) in
  let! result := jsonb (normalizeJSON (tc_Result t)) in
  let! (l, touched) := sql_update tool_check (call_of_run tenant (tc_RunID t) (tc_CallID t))
    (completed_tool result status duration (tc_FinishedAt t)) (tool_executions (turns d)) in
  Ok (length touched, set_tools l d).

Definition RecordToolExecutionCompleted (tenantID : string) (t : ToolExecutionCompletedTrace) : M unit :=
  let* affected := wrap "complete tool parent trace" (run Pool (complete_tool_sql tenantID t)) in
  if Nat.eqb affected 1 then ret tt else fail (ErrText "complete tool parent trace: call not found").

(** ** The timeline of a run *)
Record IterationTrace := mkIterationTrace {
  Iteration : Z; itr_Status : string; itr_FinishReason : string; PromptTokens : Z; CompletionTokens : Z;
  itr_DurationMS : Z; itr_ReturnedToolCallCount : Z; itr_ReservedTokens : Z; itr_ChargedTokens : Z;
  itr_ErrorMessage : string; itr_StartedAt : Time
}.

Record AttemptTrace := mkAttemptTraceView {
  atr_AttemptNo : Z; atr_Status : string; atr_Result : option string; atr_DurationMS : option Z;
  atr_StartedAt : Time; atr_FinishedAt : option Time
}.

Record ToolTrace := mkToolTrace {
  ttr_ID : string; ttr_Iteration : Z; ttr_CallIndex : Z; ttr_CallCount : Z; ttr_CallID : string;
  ttr_Name : string; ttr_ContractVersion : string; ttr_Arguments : string; ttr_Result : option string;
  ttr_Status : string; ttr_DurationMS : option Z; ttr_StartedAt : option Time;
  ttr_FinishedAt : option Time; ttr_Attempts : list AttemptTrace
}.

Record RunTrace := mkRunTrace {
  rtr_ID : string; rtr_ConversationID : string; rtr_TriggerMessageID : string; rtr_Status : string;
  rtr_Provider : string; rtr_Model : string; rtr_PromptTokens : Z; rtr_CompletionTokens : Z;
  rtr_DurationMS : option Z; rtr_ErrorCode : string; rtr_ErrorMessage : string; rtr_StartedAt : Time;
  rtr_FinishedAt : option Time; rtr_Iterations : list IterationTrace; rtr_Tools : list ToolTrace
}.

(** [text::integer], for a sign and digits. *)
Definition pg_integer (s : string) : result Z :=
  let l := string_bytes s in
  let '(negative, digits) :=
    match l with c :: tl => if code c =? 45 then (true, tl) else (false, l) | [] => (false, []) end in
  match digits1 digits with
  | Some (ds, []) =>
      let n := fold_left (fun n c => n * 10 + (code c - 48)) ds 0 in
      int4_value (if negative then - n else n)
  | _ => Err (ErrPg "22P02")
  end.

(** [COALESCE((value->>'key')::integer,0)] *)
Definition payload_integer (key payload : string) : result Z :=
  match Unmarshal payload with
  | Some (JObj l) =>
      match member key l with
      | None | Some JNull => Ok 0
      | Some (JNum s) | Some (JStr s) => pg_integer s
      | Some _ => Err (ErrPg "22P02")
      end
  | _ => Ok 0
  end.

Definition iteration_view (i : IterationRow) : result IterationTrace :=
  let! returned := payload_integer "returned_tool_call_count" (it_response i) in
  let! reserved := payload_integer "reserved_tokens" (it_response i) in
  let! charged := payload_integer "charged_tokens" (it_response i) in
  Ok (mkIterationTrace (it_no i) (it_status i) (it_finish i) (it_prompt i) (it_completion i) (it_duration i)
        returned reserved charged (default "" (it_error i)) (it_created i)).

Definition iterations_of (tenant run : string) (d : DB) : list IterationRow :=
  sort_slice (fun a b => it_no a <? it_no b)
    (List.filter (fun i => String.eqb (it_tenant i) tenant && String.eqb (it_run i) run)
      (agent_iterations (turns d))).

(** A tool call with the number of its iteration: the join of the two tables. *)
Definition numbered (d : DB) (t : ToolRow) : list (Z * ToolRow) :=
  map (fun i => (it_no i, t)) (List.filter (fun i => String.eqb (it_tenant i) (tl_tenant t) &&
    String.eqb (it_id i) (tl_iteration t)) (agent_iterations (turns d))).

Definition tools_of (tenant run : string) (d : DB) : list (Z * ToolRow) :=
  sort_slice (fun a b => (a.1 <? b.1) || ((a.1 =? b.1) && (tl_index a.2 <? tl_index b.2)))
    (flat_map (numbered d) (List.filter (fun t => String.eqb (tl_tenant t) tenant && String.eqb (tl_run t) run)
      (tool_executions (turns d)))).

Definition attempts_of_tool (tenant tool : string) (d : DB) : list AttemptRow :=
  sort_slice (fun a b => ax_no a <? ax_no b)
    (List.filter (fun a => String.eqb (ax_tenant a) tenant && String.eqb (ax_tool a) tool)
      (tool_execution_attempts (turns d))).

Definition attempt_view (a : AttemptRow) : AttemptTrace :=
  mkAttemptTraceView (ax_no a) (ax_status a) (ax_result a) (ax_duration a) (ax_started a) (ax_finished a).

Definition getAttempts (tenantID executionID : string) : M (list AttemptTrace) :=
  let* rows := wrap "list tool attempts"
    (query Pool (fun _ _ _ d => Ok (attempts_of_tool tenantID executionID d))) in
  ret (map attempt_view rows).

Definition tool_view (no : Z) (t : ToolRow) (attempts : list AttemptTrace) : ToolTrace :=
  mkToolTrace (tl_id t) no (tl_index t) (tl_count t) (tl_call t) (tl_name t) (tl_version t) (tl_arguments t)
    (tl_result t) (tl_status t) (tl_duration t) (tl_started t) (tl_finished t) attempts.

(** The attempts of each tool call are read while its row is at hand. *)
Fixpoint tool_traces (tenantID : string) (rows : list (Z * ToolRow)) : M (list ToolTrace) :=
  match rows with
  | [] => ret []
  | (no, t) :: tl =>
      let* attempts := getAttempts tenantID (tl_id t) in
      let* r := tool_traces tenantID tl in
      ret (tool_view no t attempts :: r)
  end.

Definition run_view (r : RunRow) (iterations : list IterationTrace) (tools : list ToolTrace) : RunTrace :=
  mkRunTrace (ru_id r) (ru_conversation r) (default "" (ru_trigger r)) (ru_status r) (ru_provider r) (ru_model r)
    (ru_prompt r) (ru_completion r) (ru_duration r) (default "" (ru_code r)) (default "" (ru_error r))
    (ru_started r) (ru_finished r) iterations tools.

Definition no_run (err : error) : error := if errors_is err ErrNoRows then ErrNoRows else ErrWrap "get run" err.

Definition GetRun (tenantID runID : string) : M RunTrace :=
  let* row := map_err no_run (
    let* o := query Pool (fun _ _ _ d => Ok (List.find (run_of tenantID runID) (agent_runs d))) in
    one_row o) in
  let* rows := wrap "list model iterations" (query Pool (fun _ _ _ d => Ok (iterations_of tenantID runID d))) in
  let* iterations := wrap "model iteration rows" (lift (each_ok iteration_view rows)) in
  let* rows := wrap "list tool traces" (query Pool (fun _ _ _ d => Ok (tools_of tenantID runID d))) in
  let* tools := tool_traces tenantID rows in
  ret (run_view row iterations tools).
End trace.
