(* ===== verification/TurnQueue.v ===== *)
(** * Admission and serialization of turns: [internal/app/service.go]

    Before a turn runs it takes one of the process's admission slots, notes the
    database's time, takes a connection of its own and waits on it for the
    conversation's advisory lock.  The semaphore, the pool and the timers are the
    operations of an interface.

    The operations of the turn queue, each noted in what the process holds: its
    admission slots, its connections and the advisory lock of the turn's session.
    Whatever fails, a turn leaves all of it as it was, and no connection goes back
    to the pool with the conversation's lock. *)

From Stdlib Require Import ZArith Lia Ascii.
From stdpp Require Import base list strings.
From S2P Require Import Prelude State GoTime Json Sha256.

#[local] Open Scope Z_scope.

Definition ErrTurnOverloaded : error := ErrSentinel "app: conversation turn capacity is exhausted".

(** [*TurnOverloadError], which unwraps to [ErrTurnOverloaded]. *)
Definition TurnOverloadError (waited : Z) : error :=
  ErrWrap "app: conversation turn admission timed out" ErrTurnOverloaded.

Definition defaultTurnAdmissionWait : Z := 750 * Millisecond.

(** Which case of the [select] over the semaphore, the timer and the context. *)
Inductive admission := Entered | TimerFired | ContextDone (err : error).

(** What the process and its pool offer.  A [Some] of [parent_Err] or
    [queue_Err] is an ended context; [pause] answers whether the timer fired
    before the queue's context ended. *)
Class TurnQueue (S : Type) := {
  enter : Z -> St S admission;
  release_admission : St S unit;
  parent_Err : St S (option error);
  queue_Err : St S (option error);
  receive_time : St S (result Time);
  acquire_connection : St S (result unit);
  try_lock : Z -> St S (result bool);
  pause : St S bool;
  hijack_close : St S unit;
  release_connection : St S unit;
  unlock : Z -> St S (result unit)
}.

(** The first eight bytes of the digest, big-endian, as an [int64]. *)
Definition lock_key (tenantID conversationID : string) : Z :=
  wrap64 (fold_left (fun n c => n * 256 + code c)
    (take 8 (string_bytes (sha256 (String.append tenantID (String.append (str (chr 0)) conversationID))))) 0).

Section queue.
Context {S : Type} `{TurnQueue S}.

Definition turnQueueError (waited : Z) : St S error :=
  let+ err := parent_Err in
  st_ret (match err with Some e => e | None => TurnOverloadError waited end).

Definition admission_wait (wait : Z) : Z := if wait <=? 0 then defaultTurnAdmissionWait else wait.

Definition acquireTurnAdmission (wait : Z) : St S (result unit) :=
  let wait := admission_wait wait in
  let+ outcome := enter wait in
  st_ret (match outcome with
          | Entered => Ok tt
          | TimerFired => Err (TurnOverloadError wait)
          | ContextDone err => Err err
          end).

(** A failed step under the queue's context: its end is the reason, else [err]. *)
Definition queue_failure (wait : Z) (err : error) : St S error :=
  let+ ended := queue_Err in
  match ended with
  | Some _ => turnQueueError wait
  | None => st_ret err
  end.

(** Trying for the lock: [None] where the tries given did not suffice. *)
Fixpoint serialize (tries : nat) (wait key : Z) : St S (option (result unit)) :=
  match tries with
  | O => st_ret None
  | Datatypes.S tries =>
      let+ acquired := try_lock key in
      match acquired with
      | Err err =>
          let+ _ := hijack_close in
          let+ _ := release_admission in
          let+ err := queue_failure wait (ErrWrap "serialize conversation turn" err) in
          st_ret (Some (Err err))
      | Ok true => st_ret (Some (Ok tt))
      | Ok false =>
          let+ fired := pause in
          if fired then serialize tries wait key
          else
            let+ _ := release_connection in
            let+ _ := release_admission in
            let+ err := turnQueueError wait in
            st_ret (Some (Err err))
      end
  end.

(** Answers when the message was received. *)
Definition acquireConversationTurn (tries : nat) (wait : Z) (tenantID conversationID : string)
    : St S (option (result Time)) :=
  let wait := admission_wait wait in
  let+ admitted := acquireTurnAdmission wait in
  match admitted with
  | Err err => st_ret (Some (Err err))
  | Ok _ =>
      let+ received := receive_time in
      match received with
      | Err err =>
          let+ _ := release_admission in
          let+ err := queue_failure wait (ErrWrap "capture message receive time" err) in
          st_ret (Some (Err err))
      | Ok receivedAt =>
          let+ connection := acquire_connection in
          match connection with
          | Err err =>
              let+ _ := release_admission in
              let+ err := queue_failure wait (ErrWrap "acquire conversation turn connection" err) in
              st_ret (Some (Err err))
          | Ok _ =>
              let+ locked := serialize tries wait (lock_key tenantID conversationID) in
              st_ret (match locked with
                      | None => None
                      | Some (Err err) => Some (Err err)
                      | Some (Ok _) => Some (Ok receivedAt)
                      end)
          end
      end
  end.

(** The function the acquisition returns. *)
Definition releaseTurn (tenantID conversationID : string) : St S unit :=
  let+ unlocked := unlock (lock_key tenantID conversationID) in
  let+ _ := match unlocked with Err _ => hijack_close | Ok _ => release_connection end in
  release_admission.

(** A turn of the conversation: [body] runs with the receive time, and whatever
    it answers, a panic included, the turn is given back. *)
Definition in_turn {A} (tries : nat) (wait : Z) (tenantID conversationID : string)
    (body : Time -> St S (option (result A))) : St S (option (result A)) :=
  let+ turn := acquireConversationTurn tries wait tenantID conversationID in
  match turn with
  | None => st_ret None
  | Some (Err err) => st_ret (Some (Err err))
  | Some (Ok receivedAt) =>
      let+ answer := body receivedAt in
      let+ _ := releaseTurn tenantID conversationID in
      st_ret answer
  end.
End queue.

(** * A turn gives back what it took *)

#[local] Open Scope Z_scope.

(** ** What the process holds *)
(** The session's lock: a failed statement leaves it unknown. *)
Inductive lock := Free | Held (key : Z) | Unknown.

#[global] Instance lock_eq_dec : EqDecision lock.
Proof. solve_decision. Defined.

(** [soiled]: a connection was returned whose session may hold the lock;
    [pauses]: how often the turn waited for it. *)
Record held := mkHeld { slots : Z; connections : Z; session : lock; soiled : bool; pauses : Z }.

Definition entered (h : held) : held :=
  mkHeld (slots h + 1) (connections h) (session h) (soiled h) (pauses h).
Definition left_ (h : held) : held :=
  mkHeld (slots h - 1) (connections h) (session h) (soiled h) (pauses h).
Definition connected (h : held) : held :=
  mkHeld (slots h) (connections h + 1) (session h) (soiled h) (pauses h).
Definition locking (l : lock) (h : held) : held :=
  mkHeld (slots h) (connections h) l (soiled h) (pauses h).
Definition paused (h : held) : held :=
  mkHeld (slots h) (connections h) (session h) (soiled h) (pauses h + 1).

(** Closing the session ends its locks; the pool keeps the session of the other. *)
Definition closed (h : held) : held := mkHeld (slots h) (connections h - 1) Free (soiled h) (pauses h).
Definition returned (h : held) : held :=
  mkHeld (slots h) (connections h - 1) (session h) (soiled h || negb (bool_decide (session h = Free))) (pauses h).

Definition tracking {S A} (upd : A -> held -> held) (m : St S A) : St (S * held) A :=
  fun s => let '(a, s') := m s.1 in (a, (s', upd a s.2)).

#[global] Instance tracked {S} `{TurnQueue S} : TurnQueue (S * held) := {|
  enter n := tracking (fun a => match a with Entered => entered | _ => id end) (enter n);
  release_admission := tracking (fun _ => left_) release_admission;
  parent_Err := tracking (fun _ => id) parent_Err;
  queue_Err := tracking (fun _ => id) queue_Err;
  receive_time := tracking (fun _ => id) receive_time;
  acquire_connection := tracking (fun a => match a with Ok _ => connected | Err _ => id end) acquire_connection;
  try_lock key := tracking (fun a => match a with
    | Ok true => locking (Held key) | Ok false => id | Err _ => locking Unknown end) (try_lock key);
  pause := tracking (fun _ => paused) pause;
  hijack_close := tracking (fun _ => closed) hijack_close;
  release_connection := tracking (fun _ => returned) release_connection;
  unlock key := tracking (fun a h => match a with
    | Ok _ => if bool_decide (session h = Held key) then locking Free h else h
    | Err _ => locking Unknown h end) (unlock key)
|}.

Section turns.
Context {S : Type} `{TurnQueue S}.

(** A slot and a connection more than [h], the session's lock as given. *)
Definition holding (h : held) (l : lock) (h' : held) : Prop :=
  slots h' = slots h + 1 /\ connections h' = connections h + 1 /\ session h' = l /\ soiled h' = soiled h.

Definition given_back (h h' : held) : Prop :=
  slots h' = slots h /\ connections h' = connections h /\ session h' = session h /\ soiled h' = soiled h.

(** A slot more, and no connection. *)
Definition queued (h h' : held) : Prop :=
  slots h' = slots h + 1 /\ connections h' = connections h /\ session h' = Free /\ soiled h' = soiled h.

(** A tracked operation and what follows, by what is held between them. *)
Lemma track {A B} (R : A -> held -> Prop) (P : held -> Prop) upd (m : St S A) (f : A -> St (S * held) B) Q :
  (forall a h, P h -> R a (upd a h)) -> (forall a, triple (fun s => R a s.2) (f a) Q) ->
  triple (fun s => P s.2) (st_bind (tracking upd m) f) Q.
Proof.
  intros HR Hf. eapply triple_bind; [|exact Hf]. intros s Hs. unfold tracking. destruct (m s.1). by apply HR.
Qed.

(** The last operation. *)
Lemma track_last {A} (P : held -> Prop) upd (m : St S A) Q :
  (forall a h, P h -> Q (upd a h)) -> triple (fun s => P s.2) (tracking upd m) (fun _ s => Q s.2).
Proof. intros HQ s Hs. unfold tracking. destruct (m s.1). by apply HQ. Qed.

(** An operation that changes nothing that is held. *)
Lemma track_id {A B} (P : held -> Prop) (m : St S A) (f : A -> St (S * held) B) Q :
  (forall a, triple (fun s => P s.2) (f a) Q) ->
  triple (fun s => P s.2) (st_bind (tracking (fun _ => id) m) f) Q.
Proof. by apply (track (fun _ => P)). Qed.

Lemma queue_error_holds (P : held -> Prop) n :
  triple (fun s : S * held => P s.2) (turnQueueError n) (fun _ s => P s.2).
Proof. apply track_id. intros err. by apply triple_ret. Qed.

Lemma queue_failure_holds (P : held -> Prop) n err :
  triple (fun s : S * held => P s.2) (queue_failure n err) (fun _ s => P s.2).
Proof. apply track_id. intros [ended|]; [apply queue_error_holds|by apply triple_ret]. Qed.

Section turn.
Context (h : held) (Hfree : session h = Free).

Ltac count := unfold holding, queued, given_back in *; simpl; intuition (try congruence; lia).

(** A turned_away turn: what was taken is given back, then the error is found. *)
Lemma turned_away {A B} (P : held -> Prop) upd (m : St S A) (err : A -> St (S * held) error)
    (Q : option (result B) -> S * held -> Prop) :
  (forall a h', P h' -> given_back h (upd a h')) ->
  (forall a, triple (fun s => given_back h s.2) (err a) (fun _ s => given_back h s.2)) ->
  (forall x s, given_back h s.2 -> Q (Some (Err x)) s) ->
  triple (fun s => P s.2) (let+ a := tracking upd m in let+ x := err a in st_ret (Some (Err x))) Q.
Proof.
  intros Hu He Hq. eapply (track (fun _ => given_back h)); [exact Hu|]. intros a.
  eapply triple_bind; [apply He|]. intros x. apply triple_ret. intros s. apply Hq.
Qed.

Lemma serialize_holds tries n key before :
  triple (fun s : S * held => holding h Free s.2 /\ pauses s.2 = before) (serialize tries n key)
    (fun r s => match r with
                | None => holding h Free s.2 /\ pauses s.2 = before + Z.of_nat tries
                | Some (Err _) => given_back h s.2
                | Some (Ok _) => holding h (Held key) s.2
                end).
Proof.
  revert before. induction tries as [|tries IH]; intros before; simpl serialize.
  { apply triple_ret. intros s [Hh Hp]. split; [done|lia]. }
  apply (track (fun r h' => match r with
    | Ok true => holding h (Held key) h'
    | Ok false => holding h Free h' /\ pauses h' = before
    | Err _ => holding h Unknown h'
    end) (fun h' => holding h Free h' /\ pauses h' = before)).
  { intros [[]|err] h'; [count|done|count]. }
  intros [[]|err].
  - by apply triple_ret.
  - apply (track (fun _ h' => holding h Free h' /\ pauses h' = before + 1)
             (fun h' => holding h Free h' /\ pauses h' = before)); [count|].
    intros [].
    + eapply triple_conseq; [apply (IH (before + 1))|done|]. intros [[|]|] s; [done|done|].
      intros [Hh Hp]. split; [done|lia].
    + eapply (track (fun _ => queued h) (fun h' => holding h Free h' /\ pauses h' = before + 1)).
      { intros u h' [(H1 & H2 & H3 & H4) _]. unfold queued. simpl. rewrite bool_decide_eq_true_2 by done.
        rewrite orb_false_r. repeat split; (done || lia). }
      intros u. apply (turned_away (queued h)); [count|intros; apply queue_error_holds|done].
  - apply (track (fun _ => queued h) (holding h Unknown)); [count|].
    intros u. apply (turned_away (queued h)); [count|intros; apply queue_failure_holds|done].
Qed.

(** The turn is held, given back, or still waits after all its tries. *)
Definition acquired (tries : nat) (key before : Z) (r : option (result Time)) (h' : held) : Prop :=
  match r with
  | None => holding h Free h' /\ pauses h' = before + Z.of_nat tries
  | Some (Err _) => given_back h h'
  | Some (Ok _) => holding h (Held key) h'
  end.

Lemma acquire_holds tries n tenant conv :
  triple (fun s : S * held => s.2 = h) (acquireConversationTurn tries n tenant conv)
    (fun r s => acquired tries (lock_key tenant conv) (pauses h) r s.2).
Proof.
  unfold acquireConversationTurn, acquireTurnAdmission.
  eapply (triple_bind _ _ _ (fun r s => match r with
    | Ok _ => queued h s.2 /\ pauses s.2 = pauses h | Err _ => given_back h s.2 end)).
  { apply (track (fun a h' => match a with
      | Entered => queued h h' /\ pauses h' = pauses h | _ => given_back h h' end) (fun h' => h' = h)).
    - intros [| |err] h' ->; count.
    - intros [| |err]; by apply triple_ret. }
  intros [[]|err]; [|by apply triple_ret].
  apply (track_id (fun h' => queued h h' /\ pauses h' = pauses h)). intros [t|err].
  2: { apply (turned_away (fun h' => queued h h' /\ pauses h' = pauses h)); [count|intros; apply queue_failure_holds|done]. }
  apply (track (fun a h' => match a with
    | Ok _ => holding h Free h' /\ pauses h' = pauses h
    | Err _ => queued h h' /\ pauses h' = pauses h end) (fun h' => queued h h' /\ pauses h' = pauses h)).
  { intros [u|err] h'; count. }
  intros [u|err].
  - eapply triple_bind; [apply serialize_holds|]. intros [[v|err]|]; by apply triple_ret.
  - apply (turned_away (fun h' => queued h h' /\ pauses h' = pauses h)); [count|intros; apply queue_failure_holds|done].
Qed.

Lemma release_gives_back tenant conv :
  triple (fun s : S * held => holding h (Held (lock_key tenant conv)) s.2) (releaseTurn tenant conv)
    (fun _ s => given_back h s.2).
Proof.
  apply (track (fun a h' => holding h (match a with Ok _ => Free | Err _ => Unknown end) h')
    (holding h (Held (lock_key tenant conv)))).
  { intros [u|err] h' Hh; [|by revert Hh; count]. destruct Hh as (H1 & H2 & H3 & H4).
    rewrite bool_decide_eq_true_2 by done. by repeat split. }
  intros [u|err].
  - eapply triple_bind; [|intros v; apply (track_last (queued h)); count].
    apply (track_last (holding h Free)). intros v h' (H1 & H2 & H3 & H4). simpl.
    unfold queued. simpl. rewrite bool_decide_eq_true_2, orb_false_r by done. repeat split; (done || lia).
  - eapply triple_bind; [|intros v; apply (track_last (queued h)); count].
    apply (track_last (holding h Unknown)). count.
Qed.
End turn.
End turns.

(** C13. A turn gives back what it took.  Whatever the semaphore, the pool, the
    lock, the timers and the contexts answer, and whatever the body of the turn
    answers, a panic included: a turn that found its session without a lock ends
    with as many slots and connections taken as before, its session without a
    lock, and no connection returned that may hold one; and the body runs only
    while the session holds its conversation's lock.  A turn without an answer
    that keeps its slot and its connection is one that still waits, after as many
    pauses as it was given tries. *)
Theorem turn_gives_back {S A} `{TurnQueue S} tries n tenant conv
    (body : Time -> St (S * held) (option (result A))) (s s' : S) (h h' : held) answer :
  session h = Free ->
  (forall t s1 h1, session h1 = Held (lock_key tenant conv) -> (body t (s1, h1)).2.2 = h1) ->
  in_turn tries n tenant conv body (s, h) = (answer, (s', h')) ->
  given_back h h' \/
  (answer = None /\ slots h' = slots h + 1 /\ connections h' = connections h + 1 /\ session h' = Free /\
   soiled h' = soiled h /\ pauses h' = pauses h + Z.of_nat tries).
Proof.
  intros Hfree Hbody.
  assert (Ht : triple (fun s : S * held => s.2 = h) (in_turn tries n tenant conv body)
    (fun r s => given_back h s.2 \/ (r = None /\ holding h Free s.2 /\ pauses s.2 = pauses h + Z.of_nat tries))).
  { unfold in_turn. eapply triple_bind; [by apply acquire_holds|]. intros [[t|err]|].
    - eapply (triple_bind _ _ _ (fun _ s => holding h (Held (lock_key tenant conv)) s.2)).
      + intros [s1 h1] Hh. specialize (Hbody t s1 h1). destruct (body t (s1, h1)) as [a [s2 h2]].
        simpl in *. rewrite Hbody; [exact Hh|]. by destruct Hh as (_ & _ & -> & _).
      + intros a. eapply triple_bind; [by apply release_gives_back|]. intros u. apply triple_ret. by left.
    - apply triple_ret. by left.
    - apply triple_ret. intros s1 Hs. right. split; [done|exact Hs]. }
  intros E. specialize (Ht (s, h) eq_refl). rewrite E in Ht. destruct Ht as [Hg|(-> & Hh & Hp)]; [by left|].
  right. destruct Hh as (H1 & H2 & H3 & H4). by repeat split.
Qed.

(** ** A turn that waits once for the lock *)
Module Waiting.
(** The session of another turn holds the lock at the first try. *)
Definition passing {A} (f : nat -> A) : St nat A := fun n => (f n, Datatypes.S n).

#[local] Instance queue : TurnQueue nat := {|
  enter _ := passing (fun _ => Entered);
  release_admission := st_ret tt;
  parent_Err := passing (fun _ => None);
  queue_Err := passing (fun _ => None);
  receive_time := passing (fun n => Ok (mkTime (Z.of_nat n) UTC));
  acquire_connection := passing (fun _ => Ok tt);
  try_lock _ := passing (fun n => Ok (3 <? Z.of_nat n));
  pause := passing (fun _ => true);
  hijack_close := st_ret tt;
  release_connection := st_ret tt;
  unlock _ := passing (fun _ => Err (ErrText "connection reset"))
|}.

Definition nothing : held := mkHeld 0 0 Free false 0.
Definition body (t : Time) : St (nat * held) (option (result Z)) := st_ret (Some (Ok (ns t))).
Definition ran := in_turn 3 0 "t" "k" body (O, nothing).

Example waited_once : (ran.1, ran.2.2) = (Some (Ok 1), mkHeld 0 0 Free false 1).
Proof. vm_compute. reflexivity. Qed.
End Waiting.

Lemma turn_gives_back_witness :
  given_back Waiting.nothing Waiting.ran.2.2 \/ Waiting.ran.1 = None.
Proof.
  destruct Waiting.ran as [answer [s' h']] eqn:E.
  destruct (turn_gives_back (H := Waiting.queue) 3 0 "t" "k" Waiting.body O s' Waiting.nothing h' answer)
    as [Hg|[Hn _]].
  - reflexivity.
  - reflexivity.
  - exact E.
  - left. exact Hg.
  - right. exact Hn.
Defined.
