(* ===== verification/Deployment.v ===== *)
(** * The deployed service: [internal/bootstrap]

    The components wired together over the tables: the turn service with the
    durable confirmation store, the agent loop with the tool executor, the
    gateway and the booking backend, the token budget and the trace in the
    database.  Each operation that changes a confirmation or a booking is noted
    on a log before it is done.  What the outside decides (the clocks, the model,
    contexts that end, the semaphore, the advisory lock) is read at a tick of its
    own. *)

From Stdlib Require Import ZArith Lia Ascii.
From stdpp Require Import base list strings gmap.
From S2P Require Import Prelude State GoTime Json LLM Budget Database Catalog Repository JsonParse Tools ToolBackend Runner Validation Confirmations Tokens Gateway GatewayProps Conversations AgentBudget Durable AgentTrace TurnQueue Executor Service.

#[local] Open Scope Z_scope.

Record outside := mkOutside {
  o_now : nat -> Time;
  o_wall : nat -> Time;
  o_Error : error -> string;
  o_schema : string -> json -> option error;
  o_complete : nat -> Request -> Response * option error;
  o_attempt : nat -> option error;
  o_backoff : nat -> option error;
  o_admission : nat -> admission;
  o_parent : nat -> option error;
  o_queue : nat -> option error;
  o_connection : nat -> result unit;
  o_lock : nat -> result bool;
  o_pause : nat -> bool;
  o_unlock : nat -> result unit
}.

(** Read at the tick, which then has passed. *)
Definition ask {A} (f : nat -> A) : St world A := fun w => (f (tick w), bump w).

Definition error_of {A} (r : result A) : option error := match r with Ok _ => None | Err err => Some err end.

(** ** The components of one tenant *)
Record Components := mkComponents {
  Application : Service; c_Runner : Runner; c_Executor : Executor; c_Gateway : Gateway;
  c_Backend : ToolBackend; c_Estimator : ConservativeTokenEstimator
}.

Definition stage1ProviderAttempts : Z := 3.

Definition providerAttemptLimit (provider : string) : Z :=
  if string_in provider ["openai"; "openrouter"] then stage1ProviderAttempts else 1.

Record BuildConfig := mkBuildConfig {
  bc_Tenant : Service.Config; SlotTokenSecret : string; ToolMaxAttempts : Z; ToolTimeout : Z;
  bc_MaxIterations : Z; bc_TurnTimeout : Z; MaxOutputTokens_ : Z; ConversationTokenBudget : Z;
  MaxConns : Z; toolDefinitions : list ToolDefinition
}.

(** What [Build] wires together. *)
Definition assemble `{Host} (c : BuildConfig) : result Components :=
  let tenant := bc_Tenant c in
  let! gateway := match NewGateway true true (SlotTokenSecret c) 0 0 0 0 with
                  | Ok g => Ok g
                  | Err err => Err (ErrWrap "build tool gateway" err)
                  end in
  let! runner := match NewRunner (Runner.mkConfig (bc_MaxIterations c) (bc_TurnTimeout c) (MaxOutputTokens_ c)
                                    (ConversationTokenBudget c)) true (toolDefinitions c) with
                 | Ok r => Ok r
                 | Err err => Err (ErrWrap "build agent runner" err)
                 end in
  let! application := New (mkServiceConfig (cf_TenantID tenant) (TenantName tenant) (TenantTimezone tenant)
                             (Provider tenant) (Service.Model tenant) (ConversationTokenBudget c) 0
                             (bc_TurnTimeout c)) true (MaxConns c) in
  Ok (mkComponents application runner
        (NewExecutor (cf_TenantID tenant) (ToolMaxAttempts c) (ToolTimeout c)) gateway
        (NewToolBackend (Some (NewPGXRepository true (cf_TenantID tenant))))
        (mkEstimator 0 0 0 0 (providerAttemptLimit (Provider tenant)))).

(** Wired, then the usage of the tenant's conversations is corrected once; that
    it fails is only logged. *)
Definition Build `{Host} (c : BuildConfig) : M Components :=
  let* parts := lift (assemble c) in
  let* _ := ignore (RecalibrateInflatedUsage (cf_TenantID (bc_Tenant c)) 500) in
  ret parts.

(** ** Over the tables *)
Section deployment.
Context `{Host} (jsonb : string -> result string) (column_size : string -> Z) (fuel : nat) (e : env) (o : outside)
  (c : Components).

Definition deployed_store : ConfirmationStore world := durable_store jsonb e.
Definition deployed_backend : toolapi.Backend world := tool_backend fuel (c_Backend c) e.
#[local] Existing Instance deployed_store.
#[local] Existing Instance deployed_backend.

#[local] Abbreviation W := (world * list gevent)%type.

(** A computation over the database; nothing of it goes on the log. *)
Definition on_tables (A : Type) (m : M A) : St W (result A) := silent (m e).

Definition deployed_queue : TurnQueue W := {|
  enter wait := silent (ask (o_admission o));
  release_admission := st_ret tt;
  parent_Err := silent (ask (o_parent o));
  queue_Err := silent (ask (o_queue o));
  receive_time := on_tables _ (query Pool (fun _ n e _ => Ok (clock e n)));
  acquire_connection := silent (ask (o_connection o));
  try_lock key := silent (ask (o_lock o));
  pause := silent (ask (o_pause o));
  hijack_close := st_ret tt;
  release_connection := st_ret tt;
  unlock key := silent (ask (o_unlock o))
|}.

(** ** The agent loop's boundaries

    Beside the log, the reservations handed out, and where a panic of the gateway
    left the state: what is computed after it is dropped. *)
#[local] Abbreviation R := (W * (list reservation * option W))%type.

Definition call_gateway (trusted : TrustedContext) (call : Call) : St W (option Gateway.Result) :=
  Gateway.Execute (silent (ask (o_now o))) (silent (ask (o_wall o))) (o_schema o) (o_Error o) (c_Gateway c)
    trusted call.

Definition execute_tool (request : ToolRequest) : St W (option (ToolExecution * option error)) :=
  Executor.Execute (silent (ask (o_wall o))) call_gateway (silent (ask (o_attempt o)))
    (fun _ => silent (ask (o_backoff o))) (c_Executor c)
    (fun q => on_tables _ (resolveTrustedContext (c_Executor c) q)) request.

Definition ErrPanic : error := ErrText "panic".

Definition recovering (request : ToolRequest) : St R (ToolExecution * option error) := fun s =>
  let '(w, (handed, crashed)) := s in
  match execute_tool request w with
  | (Some answer, w') => (answer, (w', (handed, crashed)))
  | (None, w') => ((zero_execution, Some ErrPanic), (w', (handed, Some (default w' crashed))))
  end.

Definition recorded (m : M unit) : St R (option error) :=
  on_first (fun w => let '(r, w') := on_tables _ m w in (error_of r, w')).

Definition tenant_id : string := cf_TenantID (config (Application c)).

Definition reserve (conversation : string) (tokens : Z) : St R (result nat) := fun s =>
  let '(w, (handed, crashed)) := s in
  match on_tables _ (DbReserve tenant_id conversation tokens) w with
  | (Ok r, w') => (Ok (length handed), (w', (handed ++ [r], crashed)))
  | (Err err, w') => (Err err, (w', (handed, crashed)))
  end.

Definition settle (i : nat) (actual : Z) : St R (option error) := fun s =>
  let '(w, (handed, crashed)) := s in
  match handed !! i with
  | None => (None, s)
  | Some r =>
      let '(r', m) := DbSettle tenant_id actual r in
      let '(answer, w') := on_tables _ m w in
      (error_of answer, (w', (<[i := r']> handed, crashed)))
  end.

Definition deployed_dependencies : Dependencies R := {|
  ctx_Err := on_first (silent (fun w => let '(r, w') := ctx_check e w in (error_of r, w')));
  Runner.now := on_first (silent (ask (o_wall o)));
  Runner.Error := o_Error o;
  Runner.Estimate := Budget.Estimate (c_Estimator c);
  Runner.Reserve := reserve;
  ReservedTokens i s := default 0 (option_map dr_reserved (s.2.1 !! i));
  Runner.Settle _ := settle;
  Complete request := on_first (silent (ask (fun n => o_complete o n request)));
  executor := Some recovering;
  Runner.RecordModelCall _ t := recorded (RecordModelCall jsonb tenant_id t);
  Runner.RecordToolExecutionStarted _ t := recorded (RecordToolExecutionStarted jsonb tenant_id t);
  Runner.RecordToolAttempt _ t := recorded (RecordToolAttempt jsonb tenant_id t);
  Runner.RecordToolExecutionCompleted _ t := recorded (RecordToolExecutionCompleted jsonb tenant_id t)
|}.

Definition run_turn (turn : TurnRequest) : St W (option (Runner.TurnResult * option error)) := fun w =>
  let '(answer, (w', (_, crashed))) :=
    @Run R deployed_dependencies (c_Runner c) turn (w, ([], None)) in
  match crashed with
  | Some w0 => (None, w0)
  | None => (Some answer, w')
  end.

(** ** One message *)
Definition serve (tries : nat) (conversationID text clientMessageID : string)
    : St W (option (result TurnAnswer)) :=
  @SendMessage W world_store deployed_queue _ jsonb column_size on_tables (silent (ask (o_now o)))
    (silent (ask (o_wall o))) (silent (ask (fun n => uuid e n 0%nat))) (o_Error o) run_turn (Application c)
    tries conversationID text clientMessageID.
End deployment.
