(* ===== verification/ServiceFacts.v ===== *)
(** * What the turn service keeps

    An invariant that each operation of the service keeps is kept by a whole
    message.  Once the message is saved, the invariant may also speak of it: only
    then, and only for an explicit consent, is an action authorized.

    An invariant of the state that every boundary of the agent loop keeps is kept
    by a whole run; one that the gateway keeps is kept by the tool executor. *)

From Stdlib Require Import ZArith Lia.
From stdpp Require Import base list strings gmap.
From S2P Require Import Prelude State GoTime Json LLM Tools Runner Validation Confirmations Gateway Executor.

#[local] Open Scope Z_scope.

(** [m] keeps [I], whatever it answers. *)
Definition kept {S A} (I : S -> Prop) (m : St S A) : Prop := triple I m (fun _ => I).

Lemma kept_ret {S A} (I : S -> Prop) (a : A) : kept I (st_ret a).
Proof. by apply triple_ret. Qed.

Lemma kept_bind {S A B} (I : S -> Prop) (m : St S A) (f : A -> St S B) :
  kept I m -> (forall a, kept I (f a)) -> kept I (st_bind m f).
Proof. intros Hm Hf. exact (triple_bind _ _ _ _ _ Hm Hf). Qed.

Lemma kept_read {S A} (I : S -> Prop) (f : S -> A) : kept I (fun s => (f s, s)).
Proof. by intros s. Qed.

Create HintDb kept.
#[export] Hint Resolve kept_ret kept_read : kept.

(** Walks the structure of a computation, splitting its case distinctions. *)
Ltac walk_kept :=
  repeat first
    [ progress intros
    | solve [auto with kept]
    | apply kept_bind
    | match goal with |- kept _ (match ?x with _ => _ end) => destruct x end
    | match goal with |- kept _ (if ?x then _ else _) => destruct x end
    | match goal with |- kept _ (let (_, _) := ?x in _) => destruct x end ].

(** ** The agent loop *)
Section runner.
Context {S : Type} `{Dependencies S} (I : S -> Prop).

Class KeepingDependencies : Prop := {
  kd_err : kept I ctx_Err;
  kd_now : kept I now;
  kd_reserve c n : kept I (Reserve c n);
  kd_settle c i n : kept I (Settle c i n);
  kd_complete q : kept I (Complete q);
  kd_execute f q : executor = Some f -> kept I (f q);
  kd_model c t : kept I (RecordModelCall c t);
  kd_started c t : kept I (RecordToolExecutionStarted c t);
  kd_attempt c t : kept I (RecordToolAttempt c t);
  kd_completed c t : kept I (RecordToolExecutionCompleted c t)
}.

Context `{!KeepingDependencies} (r : Runner) (turn : TurnRequest).

#[local] Hint Resolve kd_err kd_now kd_reserve kd_settle kd_complete kd_model kd_started kd_attempt
  kd_completed : kept.

Lemma kept_persistence : kept I boundedPersistenceContext.
Proof. unfold boundedPersistenceContext. walk_kept. Qed.
#[local] Hint Resolve kept_persistence : kept.

Lemma kept_terminal i call : kept I (executeCustomerResponse r turn i call).
Proof. unfold executeCustomerResponse. walk_kept. Qed.

Lemma kept_invoke i ci cc call : kept I (invoke r turn i ci cc call).
Proof.
  unfold invoke. destruct (negb _); [apply kept_ret|]. destruct (_ || _); [apply kept_ret|].
  destruct executor as [f|] eqn:E; [|apply kept_ret].
  apply kept_bind; [by apply (kd_execute f)|]. walk_kept.
Qed.
#[local] Hint Resolve kept_terminal kept_invoke : kept.

Lemma kept_attempts ctx i ci no call s f b l : kept I (record_attempts r turn ctx i ci no call s f b l).
Proof. revert no. induction l as [|a l IH]; intros no; simpl; walk_kept. Qed.
#[local] Hint Resolve kept_attempts : kept.

Lemma kept_tool i ci cc call : kept I (executeTool r turn i ci cc call).
Proof. unfold executeTool. walk_kept. Qed.

Lemma kept_skipped i ci cc call k : kept I (recordSkippedTool r turn i ci cc call k).
Proof. unfold recordSkippedTool. walk_kept. Qed.
#[local] Hint Resolve kept_tool kept_skipped : kept.

Lemma kept_batch i ci cc calls b : kept I (run_batch r turn i ci cc calls b).
Proof. revert ci b. induction calls as [|call calls IH]; intros ci b; simpl; walk_kept. Qed.
#[local] Hint Resolve kept_batch : kept.

Lemma kept_model i l : kept I (model_call r turn i l).
Proof. unfold model_call. walk_kept. Qed.
#[local] Hint Resolve kept_model : kept.

Lemma kept_iterate i st : kept I (iterate r turn i st).
Proof. unfold iterate, respond, run_tools. walk_kept. Qed.
#[local] Hint Resolve kept_iterate : kept.

Lemma kept_iterations n i st : kept I (iterations r turn n i st).
Proof. revert i st. induction n as [|n IH]; intros i st; simpl; walk_kept. Qed.

Lemma kept_Run : kept I (Run r turn).
Proof. unfold Run. case_bool_decide; [apply kept_ret|apply kept_iterations]. Qed.
End runner.

(** ** The executor *)
Section executor.
Context {S : Type} (I : S -> Prop) (clock : St S Time)
  (gateway : TrustedContext -> Call -> St S (option Gateway.Result))
  (attempt_Err : St S (option error)) (waitBackoff : Z -> St S (option error)).

Lemma kept_Execute x resolve request :
  kept I clock -> (forall t c, kept I (gateway t c)) -> kept I attempt_Err -> (forall n, kept I (waitBackoff n)) ->
  (forall q, kept I (resolve q)) ->
  kept I (Executor.Execute clock gateway attempt_Err waitBackoff x resolve request).
Proof.
  intros Hc Hg Ha Hw Hr. unfold Executor.Execute. apply kept_bind; [apply Hr|]. intros [t|err]; [|apply kept_ret].
  generalize (call_of request) zero_execution. intros call ex.
  generalize (Z.to_nat (maxAttempts x)) 1. intros n. revert ex.
  induction n as [|n IH]; intros ex no; simpl; walk_kept.
Qed.
End executor.

(** * The service around its agent loop *)

From S2P Require Import Budget Database Catalog Repository JsonParse ToolBackend Conversations Durable AgentTrace TurnQueue Service.

#[local] Open Scope Z_scope.

(** ** The turn queue *)
Section queue.
Context {S : Type} `{TurnQueue S} (I : S -> Prop).

Class KeepingQueue : Prop := {
  kq_enter n : kept I (enter n);
  kq_release : kept I release_admission;
  kq_parent : kept I parent_Err;
  kq_queue : kept I queue_Err;
  kq_receive : kept I receive_time;
  kq_acquire : kept I acquire_connection;
  kq_lock k : kept I (try_lock k);
  kq_pause : kept I pause;
  kq_close : kept I hijack_close;
  kq_return : kept I release_connection;
  kq_unlock k : kept I (unlock k)
}.

Context `{!KeepingQueue}.
#[local] Hint Resolve kq_enter kq_release kq_parent kq_queue kq_receive kq_acquire kq_lock kq_pause kq_close
  kq_return kq_unlock : kept.

Lemma kept_queue_failure n err : kept I (queue_failure n err).
Proof. unfold queue_failure, turnQueueError. walk_kept. Qed.
#[local] Hint Resolve kept_queue_failure : kept.

Lemma kept_serialize tries n key : kept I (serialize tries n key).
Proof. induction tries as [|tries IH]; simpl; unfold turnQueueError; walk_kept. Qed.
#[local] Hint Resolve kept_serialize : kept.

Lemma kept_acquire tries n tenant conv : kept I (acquireConversationTurn tries n tenant conv).
Proof. unfold acquireConversationTurn, acquireTurnAdmission. walk_kept. Qed.

Lemma kept_in_turn {A} tries n tenant conv (body : Time -> St S (option (result A))) :
  (forall t, kept I (body t)) -> kept I (in_turn tries n tenant conv body).
Proof.
  intros Hb. unfold in_turn. apply kept_bind; [apply kept_acquire|]. intros [[t|err]|]; [|apply kept_ret..].
  apply kept_bind; [apply Hb|]. intros a. apply kept_bind; [|intros; apply kept_ret].
  unfold releaseTurn. walk_kept.
Qed.
End queue.

(** ** The service *)
Section service.
Context {S : Type} `{ConfirmationStore S} `{TurnQueue S} `{Host} (jsonb : string -> result string)
  (column_size : string -> Z) (tables : forall A, M A -> St S (result A)) (now wall : St S Time)
  (fresh : St S string) (Error : error -> string)
  (runner : TurnRequest -> St S (option (Runner.TurnResult * option error))) (s : Service).

(** Before a message is saved, and after: its conversation, row and text. *)
Context (J : option (string * Conversations.Message * string) -> S -> Prop).

#[local] Abbreviation cf := (config s).

Class KeepingService : Prop := {
  ks_now k : kept (J k) now;
  ks_wall k : kept (J k) wall;
  ks_fresh k : kept (J k) fresh;
  ks_queue k : KeepingQueue (J k);
  ks_get k t c : kept (J k) (tables _ (Conversations.Get t c));
  ks_history k t c n : kept (J k) (tables _ (History t c n));
  ks_capture k t c m : kept (J k) (tables _ (CaptureContactFromMessage t c m));
  ks_start k t r c m p q : kept (J k) (tables _ (StartRun t r c m p q));
  ks_reply k c m r n x st f p :
    kept (J k) (tables _ (persistReplyAndFinish jsonb column_size cf c m r n x st f p));
  ks_handoff k r n n' : kept (J k) (tables _ (persistHandoff jsonb column_size cf r n n'));
  ks_acknowledge k c m : kept (J k) (tables _ (acknowledgeEscalated jsonb column_size cf c m));
  ks_invalidate k t o c n : kept (J k) (cs_InvalidateLatest t o c n);
  ks_latest k t o c n : kept (J k) (cs_Latest t o c n);
  ks_run k turn : kept (J k) (runner turn);
  ks_append conv text ref at_ :
    triple (J None) (tables _ (AppendMessageAt (cf_TenantID cf) conv "user" text ref at_))
      (fun r st => match r with Ok m => J (Some (conv, m, text)) st | Err _ => J None st end);
  ks_authorize conv m text id customer t :
    IsExplicitConsent text = true ->
    kept (J (Some (conv, m, text)))
      (cs_Authorize id (mkTrusted (cf_TenantID cf) customer "" "" "" conv (me_ID m) "" ∅) t);
  ks_forget k st : J k st -> J None st
}.

Context `{!KeepingService}.
#[local] Hint Resolve ks_now ks_wall ks_fresh ks_get ks_history ks_capture ks_start ks_reply ks_handoff
  ks_acknowledge ks_invalidate ks_latest ks_run : kept.

#[local] Abbreviation failing := (handleSavedTurnFailure jsonb column_size tables now wall Error s).

Lemma kept_withdraw k t c : kept (J k) (withdraw now s t c).
Proof. unfold withdraw. walk_kept. Qed.

Lemma kept_found k t : kept (J k) (latest now s t).
Proof. unfold latest. walk_kept. Qed.

Lemma kept_hand_over k t c st r m dl n : kept (J k) (hand_over jsonb column_size tables wall s t c st r m dl n).
Proof. unfold hand_over. walk_kept. Qed.
#[local] Hint Resolve kept_withdraw kept_found kept_hand_over : kept.

Lemma kept_failure k t u r f err : kept (J k) (failing t u r f err).
Proof. unfold handleSavedTurnFailure. walk_kept. Qed.
#[local] Hint Resolve kept_failure : kept.

Lemma kept_agent_failure k t u err :
  kept (J k) (handleAgentFailure jsonb column_size tables now wall Error s t u err).
Proof. unfold handleAgentFailure. walk_kept. Qed.

Lemma kept_post_commit k t u err :
  kept (J k) (handlePostCommitFailure jsonb column_size tables now wall Error s t u err).
Proof. apply kept_failure. Qed.

Lemma kept_request k t : kept (J k) (escalateCustomerRequest jsonb column_size tables now wall Error s t).
Proof. unfold escalateCustomerRequest. walk_kept. Qed.

Lemma kept_authorized_message k t st :
  kept (J k) (authorized_message jsonb column_size tables now wall Error s t st).
Proof. unfold authorized_message. walk_kept. Qed.
#[local] Hint Resolve kept_agent_failure kept_post_commit kept_request kept_authorized_message : kept.

Lemma kept_persist k t turn c p : kept (J k) (persist_reply jsonb column_size tables wall s t turn c p).
Proof. unfold persist_reply. walk_kept. Qed.
#[local] Hint Resolve kept_persist : kept.

Lemma kept_finish k t turn : kept (J k) (finish_turn jsonb column_size tables now wall Error s t turn).
Proof. unfold finish_turn. walk_kept. Qed.
#[local] Hint Resolve kept_finish : kept.

Lemma kept_run_agent k t p a : kept (J k) (run_agent jsonb column_size tables now wall Error runner s t p a).
Proof. unfold run_agent. walk_kept. Qed.
#[local] Hint Resolve kept_run_agent : kept.

(** Only a saved, explicit consent authorizes. *)
Lemma kept_consent conv c m run at_ text :
  IsExplicitConsent text = true ->
  kept (J (Some (conv, m, text))) (consent jsonb column_size tables now wall Error s (mkSavedTurn conv c m run at_)).
Proof.
  intros Ht. unfold consent. simpl. apply kept_bind; [apply kept_found|]. intros [[st|]|err]; [|walk_kept..].
  destruct (String.eqb _ _); [|walk_kept]. apply kept_bind; [apply ks_now|]. intros t.
  apply kept_bind; [by apply ks_authorize|]. walk_kept.
Qed.

Lemma kept_answer conv c m run at_ text :
  kept (J (Some (conv, m, text)))
    (answer_saved jsonb column_size tables now wall Error runner s (mkSavedTurn conv c m run at_) text).
Proof.
  unfold answer_saved. simpl. apply kept_bind; [walk_kept|]. intros [[]|err]; [|walk_kept].
  apply kept_bind; [walk_kept|]. intros [p|err]; [|walk_kept]. apply kept_bind; [walk_kept|].
  intros [[]|err]; [|walk_kept]. destruct (IsHumanRequest text); [walk_kept|].
  apply kept_bind; [|walk_kept]. destruct (IsExplicitConsent text) eqn:E; [by apply kept_consent|walk_kept].
Qed.

Lemma kept_hold conv text ref at_ :
  kept (J None) (hold_turn jsonb column_size tables now wall fresh Error runner s conv text ref at_).
Proof.
  unfold hold_turn. apply kept_bind; [walk_kept|]. intros [c|err]; [|walk_kept].
  eapply triple_bind; [apply ks_append|]. intros [m|err]; [|apply kept_ret].
  set (k := Some (conv, m, text)).
  assert (Hforget : forall A (x : St S A), kept (J k) x -> triple (J k) x (fun _ => J None)).
  { intros A x Hx st Hst. specialize (Hx st Hst). destruct (x st). by apply (ks_forget k). }
  apply Hforget. destruct (String.eqb _ _); [walk_kept|].
  apply kept_bind; [walk_kept|]. intros run. apply kept_bind; [walk_kept|]. intros t. apply kept_answer.
Qed.

Lemma kept_SendMessage tries conv text ref :
  kept (J None) (SendMessage jsonb column_size tables now wall fresh Error runner s tries conv text ref).
Proof.
  unfold SendMessage. case_bool_decide; [apply kept_ret|]. destruct (_ || _); [apply kept_ret|].
  apply (@kept_in_turn _ _ _ (ks_queue None)). intros t. apply kept_hold.
Qed.
End service.
