(* ===== verification/DeploymentProps.v ===== *)
(** * Consent, end to end

    The deployed service over a whole history of turns: whatever the model
    proposes, a booking changes only where its customer wrote a consent.

    Every statement of the service, its trace and its budget leaves the
    confirmations alone and only adds messages; the confirmation store adds no
    message.  So a consent once recorded keeps the message it was given in.

    Whatever a turn of the deployed service does, it writes nothing into the tables of
    tenants, operators, sessions, channels and claimed updates.  The gateway is walked
    here for any invariant that its store and its backend keep. *)

From Stdlib Require Import ZArith Lia Ascii.
From stdpp Require Import base list strings sorting gmap.
From S2P Require Import Prelude State GoTime Json LLM Budget Database DatabaseFacts Catalog Repository JsonParse Tools ToolBackend ToolBackendProps Validation Runner Confirmations Tokens Gateway GatewayProps Conversations AgentBudget Durable DurableProps AgentTrace TurnQueue Executor Service Deployment ServiceFacts.

#[local] Open Scope Z_scope.

(** ** Growing tables *)
Definition grew (d d' : DB) : Prop :=
  proposals d' = proposals d /\ more_messages d d' /\ accounts_of d' = accounts_of d.

#[global] Instance grew_refl : Reflexive grew.
Proof. intros d. split; [done|]. split; [by intros m|done]. Qed.

#[global] Instance grew_trans : Transitive grew.
Proof. intros a b c (H1 & H2 & H3) (H4 & H5 & H6). split; [congruence|]. split; [|congruence]. intros m Hm. by apply H5, H2. Qed.

Lemma grew_same d d' :
  proposals d' = proposals d -> messages d' = messages d -> accounts_of d' = accounts_of d -> grew d d'.
Proof. intros Hp Hm Ha. split; [done|]. split; [|done]. intros m. by rewrite Hm. Qed.

Lemma grew_messages d l : grew d (set_messages (messages d ++ l) d).
Proof. split; [done|]. split; [|done]. intros m Hm. apply elem_of_app. by left. Qed.

Definition grows {A} (s : sql A) : Prop := forall now n e d a d', s now n e d = Ok (a, d') -> grew d d'.

(** A computation that grows the tables, from any of them. *)
Definition growing {A} (m : M A) : Prop := forall D, db_preserves (grew D) m.

Lemma grows_preserves {A} (s : sql A) D : grows s -> sql_preserves (grew D) s.
Proof. intros Hs now n e d a d' Hd Hr. etrans; [exact Hd|]. by eapply Hs. Qed.

Ltac open_result :=
  repeat (match goal with
  | Hr : rbind _ _ = Ok _ |- _ => apply rbind_Ok in Hr as (? & ? & Hr)
  | Hr : (let '_ := ?x in _) = Ok _ |- _ => destruct x
  | Hr : match ?x with _ => _ end = Ok _ |- _ => destruct x eqn:?
  | Hr : Ok _ = Ok _ |- _ => injection Hr as ?; subst
  | Hr : Err _ = Ok _ |- _ => discriminate Hr
  end).

Ltac solve_grows :=
  intros; repeat intro; open_result; first [reflexivity | by apply grew_same | apply grew_messages | eauto with grow].

Create HintDb grow.
#[export] Hint Resolve grew_refl : grow.

Lemma insert_message_grew row d d' : insert_message row d = Ok d' -> grew d d'.
Proof. unfold insert_message. solve_grows. Qed.

Lemma insert_run_grew row d d' : insert_run row d = Ok d' -> grew d d'.
Proof. unfold insert_run. solve_grows. Qed.

Lemma insert_iteration_grew row d d' : insert_iteration row d = Ok d' -> grew d d'.
Proof. unfold insert_iteration. solve_grows. Qed.

Lemma insert_tool_grew row d d' : insert_tool row d = Ok d' -> grew d d'.
Proof. unfold insert_tool. solve_grows. Qed.

Lemma insert_attempt_grew row d d' : insert_attempt row d = Ok d' -> grew d d'.
Proof. unfold insert_attempt. solve_grows. Qed.

Lemma insert_escalation_grew row d d' : insert_escalation row d = Ok d' -> grew d d'.
Proof. unfold insert_escalation. solve_grows. Qed.

Lemma insert_failure_grew row d d' : insert_failure row d = Ok d' -> grew d d'.
Proof. unfold insert_failure. solve_grows. Qed.

Lemma update_conversation_grew t id p f d k d' : update_conversation t id p f d = Ok (k, d') -> grew d d'.
Proof. unfold update_conversation. solve_grows. Qed.

Lemma update_runs_grew p f d k d' : update_runs p f d = Ok (k, d') -> grew d d'.
Proof. unfold update_runs. solve_grows. Qed.

#[export] Hint Resolve insert_message_grew insert_run_grew insert_iteration_grew insert_tool_grew
  insert_attempt_grew insert_escalation_grew insert_failure_grew update_conversation_grew update_runs_grew : grow.

Section statements.
Context `{Host} (jsonb : string -> result string) (column_size : string -> Z) (cf : Config).

Lemma grows_append t id c r x f at_ : grows (append_sql t id c r x f at_).
Proof. unfold append_sql. solve_grows. Qed.

Lemma grows_capture t c m p : grows (capture_sql t c m p).
Proof. unfold capture_sql. solve_grows. Qed.

Lemma grows_reserve t id n : grows (reserve_sql t id n).
Proof. unfold reserve_sql. solve_grows. Qed.

Lemma grows_settle t id r n : grows (settle_sql t id r n).
Proof. unfold settle_sql. solve_grows. Qed.

Lemma grows_start t r c g p m : grows (start_run_sql t r c g p m).
Proof. unfold start_run_sql. solve_grows. Qed.

Lemma grows_iteration t id x : grows (insert_iteration_sql jsonb t id x).
Proof. unfold insert_iteration_sql. solve_grows. Qed.

Lemma grows_bill t x : grows (bill_run_sql t x).
Proof. unfold bill_run_sql. solve_grows. Qed.

Lemma grows_tool t id x : grows (insert_tool_sql jsonb t id x).
Proof. unfold insert_tool_sql. solve_grows. Qed.

Lemma grows_attempt t id x : grows (insert_attempt_sql jsonb t id x).
Proof. unfold insert_attempt_sql. solve_grows. Qed.

Lemma grows_complete t x : grows (complete_tool_sql jsonb t x).
Proof. unfold complete_tool_sql. solve_grows. Qed.

Lemma grows_event t c p : grows (insert_turn_event_sql jsonb column_size t c p).
Proof. unfold insert_turn_event_sql. solve_grows. Qed.

Lemma grows_reply t id c x r : grows (insert_reply_sql t id c x r).
Proof. unfold insert_reply_sql. solve_grows. Qed.

Lemma grows_failures t c n : grows (set_failures_sql t c n).
Proof. unfold set_failures_sql. solve_grows. Qed.

Lemma grows_end t r c s x m n : grows (end_run_sql t r c s x m n).
Proof. unfold end_run_sql. solve_grows. Qed.

Lemma grows_ensure r n : grows (ensure_run_sql cf r n).
Proof. unfold ensure_run_sql. solve_grows. Qed.

Lemma grows_file r : grows (file_escalation_sql cf r).
Proof. unfold file_escalation_sql. solve_grows. Qed.

Lemma grows_dead_letter r : grows (dead_letter_sql jsonb cf r).
Proof. unfold dead_letter_sql, failure_payload. solve_grows. Qed.

Lemma grows_hand_over t c u n : grows (hand_over_sql t c u n).
Proof. unfold hand_over_sql. solve_grows. Qed.

#[local] Hint Resolve grows_preserves grows_append grows_capture grows_reserve grows_settle grows_start
  grows_iteration grows_bill grows_tool grows_attempt grows_complete grows_event grows_reply grows_failures
  grows_end grows_ensure grows_file grows_dead_letter grows_hand_over : db.

(** ** Operations *)
Lemma preserves_reply D t c r p x : preserves (grew D) (insertAssistantReply t c r p x).
Proof. unfold insertAssistantReply. walk_preserves. Qed.

Lemma preserves_event D t c p : preserves (grew D) (insertTurnEvent jsonb column_size t c p).
Proof. unfold insertTurnEvent. walk_preserves. Qed.

Lemma preserves_dead_letter D r : preserves (grew D) (insert_dead_letter jsonb cf r).
Proof. unfold insert_dead_letter. walk_preserves. Qed.

#[local] Hint Resolve preserves_reply preserves_event preserves_dead_letter : db.

Ltac walk_growing := intros D; walk_committed.

Lemma growing_get t c : growing (Conversations.Get t c).
Proof. unfold Conversations.Get, load_conversation. walk_growing. Qed.

Lemma growing_history t c n : growing (History t c n).
Proof. unfold History. walk_growing. Qed.

Lemma growing_capture t c m : growing (CaptureContactFromMessage t c m).
Proof. unfold CaptureContactFromMessage. walk_growing. Qed.

Lemma growing_append t c r x f at_ : growing (AppendMessageAt t c r x f at_).
Proof. unfold AppendMessageAt, appendMessage. walk_growing. Qed.

Lemma growing_start t r c g p m : growing (StartRun t r c g p m).
Proof. unfold StartRun. walk_growing. Qed.

Lemma growing_persist c m r n x s f p :
  growing (persistReplyAndFinish jsonb column_size cf c m r n x s f p).
Proof. unfold persistReplyAndFinish. walk_growing. Qed.

Lemma growing_handoff r n n' : growing (persistHandoff jsonb column_size cf r n n').
Proof. unfold persistHandoff. walk_growing. Qed.

Lemma growing_acknowledge c m : growing (acknowledgeEscalated jsonb column_size cf c m).
Proof. unfold acknowledgeEscalated. walk_growing. Qed.

Lemma growing_reserve t c n : growing (DbReserve t c n).
Proof. unfold DbReserve, ReserveTokens, affected_or. walk_growing. Qed.

Lemma growing_settle t c r n : growing (SettleTokens t c r n).
Proof. unfold SettleTokens, affected_or. walk_growing. Qed.

Lemma growing_model t x : growing (RecordModelCall jsonb t x).
Proof. unfold RecordModelCall. walk_growing. Qed.

Lemma growing_tool t x : growing (RecordToolExecutionStarted jsonb t x).
Proof. unfold RecordToolExecutionStarted. walk_growing. Qed.

Lemma growing_attempt t x : growing (RecordToolAttempt jsonb t x).
Proof. unfold RecordToolAttempt. walk_growing. Qed.

Lemma growing_complete t x : growing (RecordToolExecutionCompleted jsonb t x).
Proof. unfold RecordToolExecutionCompleted. walk_growing. Qed.

Lemma growing_trusted x q : growing (resolveTrustedContext x q).
Proof. unfold resolveTrustedContext. walk_growing. Qed.
End statements.

(** ** Consent that was heard *)
Definition said (tenant conversation id text : string) (d : DB) : Prop :=
  exists m, m ∈ messages d /\ ms_tenant m = tenant /\ ms_conversation m = conversation /\ ms_id m = id /\
    ms_role m = "user" /\ ms_content m = text.

Lemma said_more t c id x d d' : more_messages d d' -> said t c id x d -> said t c id x d'.
Proof. intros Hm (m & Hin & Hs). exists m. split; [by apply Hm|exact Hs]. Qed.

(** The message of a consent is the customer's, in the conversation, and consents. *)
Definition heard_by (ctx : TrustedContext) (d : DB) : Prop :=
  exists text, IsExplicitConsent text = true /\
    said (tx_TenantID ctx) (tx_ConversationID ctx) (tx_InboundMessageID ctx) text d.

Definition heard (tr : list event) (d : DB) : Prop :=
  forall id ctx t, EvAuthorize id ctx t ∈ tr -> heard_by ctx d.

Lemma heard_by_more ctx d d' : more_messages d d' -> heard_by ctx d -> heard_by ctx d'.
Proof. intros Hm (text & Ht & Hs). exists text. split; [exact Ht|by eapply said_more]. Qed.

Lemma heard_more tr d d' : more_messages d d' -> heard tr d -> heard tr d'.
Proof. intros Hm Hh id ctx t Hin. eapply heard_by_more; [exact Hm|by eapply Hh]. Qed.

(** An event that is no consent. *)
Lemma heard_snoc tr ev d : (forall id ctx t, ev <> EvAuthorize id ctx t) -> heard tr d -> heard (tr ++ [ev]) d.
Proof.
  intros Hn Hh id ctx t [Hin|Hin%list_elem_of_singleton]%elem_of_app; [by eapply Hh|].
  symmetry in Hin. by apply Hn in Hin.
Qed.

Lemma heard_consent tr id ctx t d : heard_by ctx d -> heard tr d -> heard (tr ++ [EvAuthorize id ctx t]) d.
Proof.
  intros Hb Hh id' ctx' t' [Hin|Hin%list_elem_of_singleton]%elem_of_app; [by eapply Hh|].
  by injection Hin as -> -> ->.
Qed.

(** ** The store writes no message *)
Definition silent_on (M0 : list MessageRow) (d : DB) : Prop := messages d = M0.

Lemma update_proposals_silent M0 p f : sql_preserves (silent_on M0) (update_proposals p f).
Proof. intros now n e d k d' Hd [-> _]%update_proposals_Ok. exact Hd. Qed.

Lemma insert_proposal_silent `{Host} jsonb M0 b p x : sql_preserves (silent_on M0) (insert_proposal_sql jsonb b p x).
Proof.
  intros now n e d u d' Hd (y & _ & (_ & _ & _ & _ & ->)%insert_proposal_Ok)%insert_proposal_sql_Ok. exact Hd.
Qed.

(** [m] writes no message. *)
Definition wordless {A} (m : M A) : Prop := forall e w, messages (db (m e w).2) = messages (db w).

Lemma wordless_of {A} (m : M A) : (forall M0, db_preserves (silent_on M0) m) -> wordless m.
Proof. intros Hm e w. by apply (Hm (messages (db w)) e w). Qed.

Section wordless.
Context `{Host} (jsonb : string -> result string).

Lemma wordless_Propose b p t : wordless (Propose jsonb b p t).
Proof.
  apply wordless_of. intros M0. apply db_Propose; intros;
    [apply update_proposals_silent..|apply insert_proposal_silent].
Qed.

Lemma wordless_Latest t o c n : wordless (Durable.Latest t o c n).
Proof. apply wordless_of. intros M0. apply db_Latest. Qed.

Lemma wordless_Invalidate t o c n : wordless (Durable.InvalidateLatest t o c n).
Proof. apply wordless_of. intros M0. apply db_Invalidate, update_proposals_silent. Qed.

Lemma wordless_Authorize id ctx t : wordless (Durable.Authorize id ctx t).
Proof. apply wordless_of. intros M0. apply db_Authorize. intros _. apply update_proposals_silent. Qed.

Lemma wordless_Verify id b t : wordless (Durable.VerifyAuthorized id b t).
Proof. apply wordless_of. intros M0. apply db_Verify. Qed.

Lemma wordless_Consume id b t : wordless (Durable.MarkConsumed id b t).
Proof. apply wordless_of. intros M0. apply db_Consume, update_proposals_silent. Qed.
End wordless.

(** ** The promise of the deployed store

    Beside the durable store's own promise: every recorded consent is heard, and
    [P], which more messages keep. *)
Section laws.
Context `{Host} (jsonb : string -> result string) (fuel : nat) (e : env) (b : ToolBackend)
  (P : DB -> Prop) (P_more : forall d d', more_messages d d' -> P d -> P d').

#[local] Instance the_store : ConfirmationStore world := durable_store jsonb e.
#[local] Instance the_backend : toolapi.Backend world := tool_backend fuel b e.
#[local] Abbreviation durable := (durable_laws jsonb e).

Definition promise (tr : list event) (w : world) : Prop := good tr (db w) /\ heard tr (db w) /\ P (db w).

Lemma promise_op tr tr' w w' :
  (good tr (db w) -> good tr' (db w')) -> messages (db w') = messages (db w) ->
  (heard tr (db w) -> heard tr' (db w)) -> promise tr w -> promise tr' w'.
Proof.
  intros Hg Hm Hh (H1 & H2 & H3). assert (Hmore : more_messages (db w) (db w')) by (intros m; by rewrite Hm).
  split; [by apply Hg|]. split; [eapply heard_more; [exact Hmore|by apply Hh]|by eapply P_more].
Qed.

Lemma promise_grew tr w w' : grew (db w) (db w') -> promise tr w -> promise tr w'.
Proof.
  intros (Hp & Hm & _) (H1 & H2 & H3). split; [by eapply good_same|]. split; [by eapply heard_more|by eapply P_more].
Qed.

Program Definition heard_laws : ConsentLaws world := {|
  cl_inv := promise; cl_may _ ctx _ w := heard_by ctx (db w) |}.
Next Obligation.
  intros tr w c p t. apply promise_op.
  - apply (@cl_propose _ _ durable).
  - apply wordless_Propose.
  - by apply heard_snoc.
Qed.
Next Obligation.
  intros tr w t o c n. apply promise_op; [apply (@cl_latest _ _ durable)|apply wordless_Latest|done].
Qed.
Next Obligation.
  intros tr w t o c n. apply promise_op.
  - apply (@cl_invalidate _ _ durable).
  - apply wordless_Invalidate.
  - by apply heard_snoc.
Qed.
Next Obligation.
  intros tr w id ctx t Hb. apply promise_op.
  - by apply (@cl_authorize _ _ durable).
  - apply wordless_Authorize.
  - by apply heard_consent.
Qed.
Next Obligation.
  intros tr w id c t. apply promise_op; [apply (@cl_verify _ _ durable)|apply wordless_Verify|done].
Qed.
Next Obligation.
  intros tr w id c t. apply promise_op.
  - apply (@cl_consume _ _ durable).
  - apply wordless_Consume.
  - by apply heard_snoc.
Qed.
Next Obligation. intros tr w id c t (Hg & _) Hv. exact (@cl_verified _ _ durable tr w id c t Hg Hv). Qed.

#[local] Existing Instance heard_laws.

Lemma grew_quiet {A} (m : St world A) : (forall w, grew (db w) (db (m w).2)) -> quiet m.
Proof. intros Hm tr w. by apply promise_grew. Qed.

Lemma growing_quiet {A} (m : M A) : growing m -> quiet (m e).
Proof. intros Hm. apply grew_quiet. intros w. by apply (Hm (db w)). Qed.

Lemma ask_quiet {A} (f : nat -> A) : quiet (ask f).
Proof. by apply grew_quiet. Qed.

Lemma operation_quiet q {A} (m : M A) : perform fuel b q = discard m -> quiet (m e).
Proof.
  intros Hq. apply grew_quiet. intros w. destruct (operation_tables fuel e b q m w Hq) as (Hp & Hm & Ha).
  by apply grew_same.
Qed.

#[global] Instance heard_backend : QuietBackend world.
Proof.
  split; intros.
  - by apply (operation_quiet (RqListServices t)).
  - by apply (operation_quiet (RqListStaff t id)).
  - by apply (operation_quiet (RqFindSlots q)).
  - by apply (operation_quiet (RqCreate n c)).
  - by apply (operation_quiet (RqReschedule c)).
  - by apply (operation_quiet (RqCancel c)).
  - by apply (operation_quiet (RqEscalate c)).
Qed.
End laws.

(** ** What one message keeps *)
Section deployed.
Context `{Host} (jsonb : string -> result string) (column_size : string -> Z) (fuel : nat) (e : env) (o : outside)
  (c : Components).

#[local] Instance deployed_store : ConfirmationStore world := Deployment.deployed_store jsonb e.
#[local] Instance deployed_backend : toolapi.Backend world := Deployment.deployed_backend fuel e c.
#[local] Instance deployed_queue : TurnQueue (world * list gevent) := Deployment.deployed_queue e o.
#[local] Abbreviation W := (world * list gevent)%type.
#[local] Abbreviation R := (W * (list reservation * option W))%type.
#[local] Abbreviation tenant := (cf_TenantID (config (Application c))).

(** A saved message of the service's tenant. *)
Definition saved (k : option (string * Conversations.Message * string)) (d : DB) : Prop :=
  match k with None => True | Some (conv, m, text) => said tenant conv (me_ID m) text d end.

Lemma saved_more k d d' : more_messages d d' -> saved k d -> saved k d'.
Proof. destruct k as [[[conv m] text]|]; [by apply said_more|done]. Qed.

#[local] Instance laws_of k : ConsentLaws world := heard_laws jsonb e (saved k) (saved_more k).

Definition J (k : option (string * Conversations.Message * string)) : W -> Prop :=
  @inv _ _ (laws_of k) _ (c_Gateway c).

Section any.
Context (k : option (string * Conversations.Message * string)).

Lemma kept_quiet {A} (m : St world A) : quiet (H := laws_of k) m -> kept (J k) (silent m).
Proof. apply (@keeps_quiet _ _ (laws_of k)). Qed.

Lemma kept_asked {A} (f : nat -> A) : kept (J k) (silent (ask f)).
Proof. apply kept_quiet, ask_quiet. Qed.

Lemma kept_tables {A} (m : M A) : growing m -> kept (J k) (on_tables e _ m).
Proof. intros Hm. by apply kept_quiet, growing_quiet. Qed.

#[local] Instance backend_laws : QuietBackend world (H := laws_of k) := heard_backend jsonb fuel e _ _ _.

Lemma kept_gateway t call : kept (J k) (call_gateway jsonb fuel e o c t call).
Proof. apply (@keeps_Execute _ _ (laws_of k) _ _ _ (c_Gateway c)); apply ask_quiet. Qed.

Lemma kept_tools q : kept (J k) (execute_tool jsonb fuel e o c q).
Proof.
  apply kept_Execute; intros.
  - apply kept_asked.
  - apply kept_gateway.
  - apply kept_asked.
  - apply kept_asked.
  - apply kept_tables, growing_trusted.
Qed.

(** *** The agent loop: also where a panic left the state *)
Definition JR (s : R) : Prop := J k s.1 /\ match s.2.2 with Some w => J k w | None => True end.

Lemma kept_first {A} (m : St W A) : kept (J k) m -> kept JR (on_first m).
Proof. intros Hm [w x] [Hw Hx]. specialize (Hm w Hw). unfold on_first. simpl. by destruct (m w). Qed.

Lemma kept_recorded m : growing m -> kept JR (recorded e m).
Proof.
  intros Hm. apply kept_first. intros w Hw. pose proof (kept_tables m Hm w Hw) as Hk.
  by destruct (on_tables e unit m w).
Qed.

Lemma kept_reserve conv n : kept JR (reserve e c conv n).
Proof.
  intros [w [handed crashed]] [Hw Hx]. pose proof (kept_tables _ (growing_reserve tenant conv n) w Hw) as Hk.
  unfold reserve, tenant_id. destruct (on_tables e _ _ w) as [[r|err] w']; by split.
Qed.

Lemma growing_DbSettle actual r : growing (DbSettle tenant actual r).2.
Proof.
  unfold DbSettle. destruct (dr_settled r); simpl.
  - intros D. by apply db_local.
  - destruct (_ || _); [|apply growing_settle]. intros D. apply db_bind; [apply growing_settle|].
    intros u. by apply db_local.
Qed.

Lemma kept_settle i n : kept JR (settle e c i n).
Proof.
  intros [w [handed crashed]] [Hw Hx]. unfold settle, tenant_id. destruct (handed !! i) as [r|]; [|by split].
  pose proof (growing_DbSettle n r) as Hg. destruct (DbSettle tenant n r) as [r' m]. simpl in Hg.
  pose proof (kept_tables _ Hg w Hw) as Hk. destruct (on_tables e _ m w) as [answer w']. by split.
Qed.

Lemma kept_recovering q : kept JR (recovering jsonb fuel e o c q).
Proof.
  intros [w [handed crashed]] [Hw Hx]. pose proof (kept_tools q w Hw) as Hk. unfold recovering.
  destruct (execute_tool jsonb fuel e o c q w) as [[answer|] w']; [by split|]. split; [done|]. by destruct crashed.
Qed.

Lemma kept_context : kept (J k) (silent (E := gevent) (fun w => let '(r, w') := ctx_check e w in (error_of r, w'))).
Proof.
  apply kept_quiet, grew_quiet. intros w. unfold ctx_check. by destruct (ctx_err e _).
Qed.

#[local] Instance loop : Dependencies R := deployed_dependencies jsonb fuel e o c.

#[local] Instance keeping_dependencies : KeepingDependencies JR.
Proof.
  split; intros.
  - apply kept_first, kept_context.
  - apply kept_first, kept_asked.
  - apply kept_reserve.
  - apply kept_settle.
  - apply kept_first, kept_asked.
  - match goal with Hf : executor = Some _ |- _ => injection Hf as <- end. apply kept_recovering.
  - apply kept_recorded, growing_model.
  - apply kept_recorded, growing_tool.
  - apply kept_recorded, growing_attempt.
  - apply kept_recorded, growing_complete.
Qed.

Lemma kept_turn t : kept (J k) (run_turn jsonb fuel e o c t).
Proof.
  intros w Hw. unfold run_turn. pose proof (kept_Run JR (c_Runner c) t (w, ([], None)) (conj Hw I)) as Hr.
  destruct (Run (c_Runner c) t (w, ([], None))) as [answer [w' [handed crashed]]].
  destruct Hr as [Hw' Hx]. simpl in *. by destruct crashed.
Qed.

(** *** The turn queue *)
Lemma keeping_queue : KeepingQueue (J k).
Proof. split; intros; first [apply kept_asked | by apply triple_ret | apply kept_tables; intros D; by apply db_local, local_query]. Qed.
End any.

(** *** The service *)
Lemma kept_withdraw_latest k t o' cc n : kept (J k) (cs_InvalidateLatest t o' cc n).
Proof.
  apply (@keeps_store _ _ (laws_of k) _ _ _ _ (EvInvalidate t o' cc n)). intros tr w.
  apply (@cl_invalidate _ _ (laws_of k)).
Qed.

Lemma kept_live k t o' cc n : kept (J k) (cs_Latest t o' cc n).
Proof. apply (@keeps_latest _ _ (laws_of k)). Qed.

Lemma J_forget k w : J k w -> J None w.
Proof. intros [(Hg & Hh & _) Hj]. by split. Qed.

(** What was appended stands. *)
Lemma appended conv text ref at_ w m w' :
  AppendMessageAt tenant conv "user" text ref at_ e w = (Ok m, w') ->
  said tenant conv (me_ID m) text (db w').
Proof.
  unfold AppendMessageAt, appendMessage. destruct (IsZero at_); [done|]. destruct (negb _); [done|]. intros Ha.
  open_all. unfold append_sql in *. open_result. unfold insert_message in *. open_result.
  eexists. split; [apply elem_of_app; right; by apply list_elem_of_singleton|]. by repeat split.
Qed.

Lemma kept_appended conv text ref at_ :
  triple (J None) (on_tables e _ (AppendMessageAt tenant conv "user" text ref at_))
    (fun r st => match r with Ok m => J (Some (conv, m, text)) st | Err _ => J None st end).
Proof.
  intros [w l] Hw.
  pose proof (kept_tables None _ (growing_append tenant conv "user" text ref at_) (w, l) Hw) as Hk.
  unfold on_tables, silent, noting in *. simpl in *.
  destruct (AppendMessageAt _ _ _ _ _ _ e w) as [[m|err] w'] eqn:Ha; [|exact Hk].
  apply appended in Ha. destruct Hk as [(Hg & Hh & _) Hj]. by split.
Qed.

(** A saved consent is heard. *)
Lemma kept_authorized conv m text id customer t :
  IsExplicitConsent text = true ->
  kept (J (Some (conv, m, text)))
    (cs_Authorize id (mkTrusted tenant customer "" "" "" conv (me_ID m) "" ∅) t).
Proof.
  intros Ht. set (k := Some (conv, m, text)). eapply triple_weaken; [|apply (@keeps_authorize _ _ (laws_of k))].
  intros w Hw. split; [exact Hw|]. exists text. split; [exact Ht|]. apply Hw.
Qed.

#[local] Instance keeping_service :
  KeepingService jsonb column_size (on_tables e) (silent (ask (o_now o))) (silent (ask (o_wall o)))
    (silent (ask (fun n => uuid e n 0%nat))) (run_turn jsonb fuel e o c) (Application c) J.
Proof.
  split; intros.
  - apply kept_asked.
  - apply kept_asked.
  - apply kept_asked.
  - apply keeping_queue.
  - apply kept_tables, growing_get.
  - apply kept_tables, growing_history.
  - apply kept_tables, growing_capture.
  - apply kept_tables, growing_start.
  - apply kept_tables, growing_persist.
  - apply kept_tables, growing_handoff.
  - apply kept_tables, growing_acknowledge.
  - apply kept_withdraw_latest.
  - apply kept_live.
  - apply kept_turn.
  - apply kept_appended.
  - by apply kept_authorized.
  - by eapply J_forget.
Qed.

Lemma kept_serve tries conv text ref : kept (J None) (serve jsonb column_size fuel e o c tries conv text ref).
Proof. apply (kept_SendMessage jsonb column_size _ _ _ _ _ _ _ J). Qed.
End deployed.

(** * What a turn leaves alone *)

#[local] Open Scope Z_scope.

(** ** The gateway *)
Section gateway.
Context `{host : !Host} {T : Type} `{backend : !toolapi.Backend T} `{store : !ConfirmationStore T} (I : T -> Prop).

Class KeepingBoundary : Prop := {
  kb_services t : kept I (toolapi.ListServices t);
  kb_staff t id : kept I (toolapi.ListStaff t id);
  kb_slots q : kept I (toolapi.FindSlots q);
  kb_create n c : kept I (toolapi.CreateBooking n c);
  kb_reschedule c : kept I (toolapi.RescheduleBooking c);
  kb_cancel c : kept I (toolapi.CancelBooking c);
  kb_escalate c : kept I (toolapi.Escalate c);
  kb_propose b p t : kept I (cs_Propose b p t);
  kb_latest t o c n : kept I (cs_Latest t o c n);
  kb_verify id b t : kept I (cs_VerifyAuthorized id b t);
  kb_consume id b t : kept I (cs_MarkConsumed id b t)
}.

Context `{!KeepingBoundary} (now clock : St T Time) (Hnow : kept I now) (Hclock : kept I clock)
  (schema : string -> json -> option error) (Error : error -> string) (g : Gateway).

#[local] Hint Resolve kb_services kb_staff kb_slots kb_create kb_reschedule kb_cancel kb_escalate kb_propose kb_latest
  kb_verify kb_consume : kept.

Lemma kept_answered (r : Gateway.Result) : kept I (answer r).
Proof. apply kept_ret. Qed.

Lemma kept_panic {A} : kept I (@Gateway.panic T A).
Proof. apply kept_ret. Qed.

#[local] Hint Resolve kept_answered kept_panic : kept.

Lemma kept_propose r b p t : kept I (propose r b p t).
Proof. unfold propose. walk_kept. Qed.

Lemma kept_authorized_action r id b t act : kept I act -> kept I (Gateway.authorized r id b t act).
Proof. intros Ha. unfold Gateway.authorized. walk_kept. Qed.

Lemma kept_gateway_finish r id b t m d p : kept I (Gateway.finish r id b t m d p).
Proof. unfold Gateway.finish. walk_kept. Qed.

#[local] Hint Resolve kept_propose kept_authorized_action kept_gateway_finish : kept.

Lemma kept_create t r o : kept I (createBooking now clock g t r o).
Proof. unfold createBooking. walk_kept; try (apply kept_authorized_action); walk_kept. Qed.

Lemma kept_reschedule t r o : kept I (rescheduleBooking now g t r o).
Proof. unfold rescheduleBooking. walk_kept; try (apply kept_authorized_action); walk_kept. Qed.

Lemma kept_cancel t r o : kept I (cancelBooking now g t r o).
Proof. unfold cancelBooking. walk_kept; try (apply kept_authorized_action); walk_kept. Qed.

Lemma kept_find t r o : kept I (findSlots now g t r o).
Proof. unfold findSlots, searchSlots. walk_kept. Qed.

#[local] Hint Resolve kept_create kept_reschedule kept_cancel kept_find : kept.

Lemma kept_Gateway_Execute t call : kept I (Gateway.Execute now clock schema Error g t call).
Proof.
  unfold Gateway.Execute, guarded, dispatch, listServices, listStaff, escalate, restoreFrozenAction, Latest_. walk_kept.
Qed.
End gateway.

(** ** The deployed turn *)
Section deployed.
Context `{host : !Host} (jsonb : string -> result string) (column_size : string -> Z) (fuel : nat) (e : env) (o : outside)
  (c : Components) (A : Accounts).

#[local] Instance frame_store : ConfirmationStore world := Deployment.deployed_store jsonb e.
#[local] Instance frame_backend : toolapi.Backend world := Deployment.deployed_backend fuel e c.
#[local] Instance frame_queue : TurnQueue (world * list gevent) := Deployment.deployed_queue e o.
#[local] Abbreviation W := (world * list gevent)%type.

Definition framed (s : W) : Prop := accounts_of (db s.1) = A.

(** A computation over the database that leaves the accounts alone. *)
Definition untouched {B} (m : M B) : Prop := forall w, accounts_of (db (m e w).2) = accounts_of (db w).

Lemma growing_untouched {B} (m : M B) : growing m -> untouched m.
Proof. intros Hm w. by apply (Hm (db w) e w (grew_refl (db w))). Qed.

Lemma kept_noting {B} ev (m : St world B) :
  (forall w, accounts_of (db (m w).2) = accounts_of (db w)) -> kept framed (noting (E := gevent) ev m).
Proof. intros Hm [w l] Hw. unfold noting. cbn. specialize (Hm w). destruct (m w). unfold framed in *. cbn in *. congruence. Qed.

Lemma kept_ask {B} (f : nat -> B) : kept framed (silent (ask f)).
Proof. by apply kept_noting. Qed.

Lemma kept_on_tables {B} (m : M B) : growing m -> kept framed (on_tables e B m).
Proof. intros Hm. by apply kept_noting, growing_untouched. Qed.

Lemma operation_untouched q {B} (m : M B) : perform fuel (c_Backend c) q = discard m -> untouched m.
Proof. intros Hq w. by apply (operation_tables fuel e (c_Backend c) q m w Hq). Qed.

(** *** The store *)
Definition same_accounts (A0 : Accounts) (d : DB) : Prop := accounts_of d = A0.

Lemma update_proposals_accounts A0 p f : sql_preserves (same_accounts A0) (update_proposals p f).
Proof. intros now n e' d k d' Hd [-> _]%update_proposals_Ok. exact Hd. Qed.

Lemma insert_proposal_accounts A0 b p x : sql_preserves (same_accounts A0) (insert_proposal_sql jsonb b p x).
Proof.
  intros now n e' d u d' Hd (y & _ & (_ & _ & _ & _ & ->)%insert_proposal_Ok)%insert_proposal_sql_Ok. exact Hd.
Qed.

Lemma untouched_of {B} (m : M B) : (forall A0, db_preserves (same_accounts A0) m) -> untouched m.
Proof. intros Hm w. by apply (Hm (accounts_of (db w)) e w). Qed.

Lemma untouched_store :
  (forall b p t, untouched (Propose jsonb b p t)) /\ (forall t o c n, untouched (Durable.Latest t o c n)) /\
  (forall t o c n, untouched (Durable.InvalidateLatest t o c n)) /\ (forall id x t, untouched (Durable.Authorize id x t)) /\
  (forall id b t, untouched (Durable.VerifyAuthorized id b t)) /\ (forall id b t, untouched (Durable.MarkConsumed id b t)).
Proof.
  split_and!; intros; apply untouched_of; intros A0.
  - apply db_Propose; intros; [apply update_proposals_accounts..|apply insert_proposal_accounts].
  - apply db_Latest.
  - apply db_Invalidate, update_proposals_accounts.
  - apply db_Authorize. intros _. apply update_proposals_accounts.
  - apply db_Verify.
  - apply db_Consume, update_proposals_accounts.
Qed.

#[local] Instance keeping_boundary : KeepingBoundary (T := W) framed.
Proof.
  destruct untouched_store as (H1 & H2 & H3 & H4 & H5 & H6).
  split; intros; apply kept_noting; intros w; [..|apply H1|apply H2|apply H5|apply H6].
  - by apply (operation_untouched (RqListServices t)).
  - by apply (operation_untouched (RqListStaff t id)).
  - by apply (operation_untouched (RqFindSlots q)).
  - by apply (operation_untouched (RqCreate n c0)).
  - by apply (operation_untouched (RqReschedule c0)).
  - by apply (operation_untouched (RqCancel c0)).
  - by apply (operation_untouched (RqEscalate c0)).
Qed.

Lemma framed_gateway t call : kept framed (call_gateway jsonb fuel e o c t call).
Proof. apply kept_Gateway_Execute; first [apply kept_ask|apply keeping_boundary]. Qed.

Lemma framed_tools q : kept framed (execute_tool jsonb fuel e o c q).
Proof.
  apply kept_Execute; intros; try apply kept_ask.
  - apply framed_gateway.
  - apply kept_on_tables, growing_trusted.
Qed.

(** *** The agent loop *)
#[local] Abbreviation R := (W * (list reservation * option W))%type.

Definition framed_run (s : R) : Prop := framed s.1 /\ match s.2.2 with Some w => framed w | None => True end.

Lemma framed_first {B} (m : St W B) : kept framed m -> kept framed_run (on_first m).
Proof. intros Hm [w x] [Hw Hx]. specialize (Hm w Hw). unfold on_first. simpl. by destruct (m w). Qed.

Lemma framed_recorded m : growing m -> kept framed_run (recorded e m).
Proof.
  intros Hm. apply framed_first. intros w Hw. pose proof (kept_on_tables m Hm w Hw) as Hk. by destruct (on_tables e unit m w).
Qed.

Lemma framed_reserve conv n : kept framed_run (reserve e c conv n).
Proof.
  intros [w [handed crashed]] [Hw Hx]. pose proof (kept_on_tables _ (growing_reserve (tenant_id c) conv n) w Hw) as Hk.
  unfold reserve. destruct (on_tables e _ _ w) as [[r|err] w']; by split.
Qed.

Lemma framed_settle i n : kept framed_run (settle e c i n).
Proof.
  intros [w [handed crashed]] [Hw Hx]. unfold settle. destruct (handed !! i) as [r|]; [|by split].
  pose proof (growing_DbSettle c n r) as Hg. unfold tenant_id. destruct (DbSettle _ n r) as [r' m]. simpl in Hg.
  pose proof (kept_on_tables _ Hg w Hw) as Hk. destruct (on_tables e _ m w) as [answer w']. by split.
Qed.

Lemma framed_recovering q : kept framed_run (recovering jsonb fuel e o c q).
Proof.
  intros [w [handed crashed]] [Hw Hx]. pose proof (framed_tools q w Hw) as Hk. unfold recovering.
  destruct (execute_tool jsonb fuel e o c q w) as [[answer|] w']; [by split|]. split; [done|]. by destruct crashed.
Qed.

Lemma framed_context : kept framed (silent (E := gevent) (fun w => let '(r, w') := ctx_check e w in (error_of r, w'))).
Proof. apply kept_noting. intros w. unfold ctx_check. by destruct (ctx_err e _). Qed.

#[local] Instance framed_loop : Dependencies R := deployed_dependencies jsonb fuel e o c.

#[local] Instance framed_dependencies : KeepingDependencies framed_run.
Proof.
  split; intros.
  - apply framed_first, framed_context.
  - apply framed_first, kept_ask.
  - apply framed_reserve.
  - apply framed_settle.
  - apply framed_first, kept_ask.
  - match goal with Hf : executor = Some _ |- _ => injection Hf as <- end. apply framed_recovering.
  - apply framed_recorded, growing_model.
  - apply framed_recorded, growing_tool.
  - apply framed_recorded, growing_attempt.
  - apply framed_recorded, growing_complete.
Qed.

Lemma framed_turn t : kept framed (run_turn jsonb fuel e o c t).
Proof.
  intros w Hw. unfold run_turn. pose proof (kept_Run framed_run (c_Runner c) t (w, ([], None)) (conj Hw Logic.I)) as Hr.
  destruct (Run (c_Runner c) t (w, ([], None))) as [answer [w' [handed crashed]]].
  destruct Hr as [Hw' Hx]. simpl in *. by destruct crashed.
Qed.

Lemma framed_queue : KeepingQueue framed.
Proof. split; intros; first [apply kept_ask | by apply triple_ret | apply kept_on_tables; intros D; by apply db_local, local_query]. Qed.

#[local] Instance framed_service :
  KeepingService jsonb column_size (on_tables e) (silent (ask (o_now o))) (silent (ask (o_wall o)))
    (silent (ask (fun n => uuid e n 0%nat))) (run_turn jsonb fuel e o c) (Application c) (fun _ => framed).
Proof.
  destruct untouched_store as (_ & _ & H3 & H4 & _ & _). destruct untouched_store as (_ & H2 & _).
  split; intros; try apply kept_ask; try done.
  - apply framed_queue.
  - apply kept_on_tables, growing_get.
  - apply kept_on_tables, growing_history.
  - apply kept_on_tables, growing_capture.
  - apply kept_on_tables, growing_start.
  - apply kept_on_tables, growing_persist.
  - apply kept_on_tables, growing_handoff.
  - apply kept_on_tables, growing_acknowledge.
  - by apply kept_noting, H3.
  - by apply kept_noting, H2.
  - apply framed_turn.
  - eapply triple_conseq; [apply (kept_on_tables _ (growing_append (cf_TenantID (config (Application c))) conv "user" text ref at_))|done|].
    intros [m|err] s; by intros.
  - by apply kept_noting, H4.
Qed.

Lemma framed_serve tries conv text ref : kept framed (serve jsonb column_size fuel e o c tries conv text ref).
Proof. apply (kept_SendMessage jsonb column_size _ _ _ _ _ _ _ (fun _ => framed)). Qed.
End deployed.

(** A turn leaves the accounts alone. *)
Lemma serve_accounts `{!Host} jsonb column_size fuel e o c tries conv text ref w l :
  accounts_of (db (serve jsonb column_size fuel e o c tries conv text ref (w, l)).2.1) = accounts_of (db w).
Proof.
  pose proof (framed_serve jsonb column_size fuel e o c (accounts_of (db w)) tries conv text ref (w, l) eq_refl) as Hs.
  by destruct (serve _ _ _ _ _ _ _ _ _ _ _).
Qed.

(** * Histories of the deployed service *)

From S2P Require Import SalonDemo.

#[local] Open Scope Z_scope.

Section deployment.
Context `{Host} (jsonb : string -> result string) (column_size : string -> Z) (fuel : nat) (g : Gateway).

(** Histories of the processes that share the tables and the signing key: turns,
    each with its own outside (clocks, model, faults, waits), and anything else
    that neither touches the proposals nor loses a message. *)
Inductive served : world * list gevent -> Prop :=
| served_start w : proposals (db w) = [] -> served (w, [])
| served_turn w e o c tries conversation text ref :
    c_Gateway c = g -> served w ->
    served (serve jsonb column_size fuel e o c tries conversation text ref w).2
| served_other w w' l :
    proposals (db w') = proposals (db w) -> more_messages (db w) (db w') ->
    served (w, l) -> served (w', l).

Lemma served_inv w : served w ->
  good (store_events w.2) (db w.1) /\ heard (store_events w.2) (db w.1) /\ all_justified g w.2.
Proof.
  induction 1 as [w Hw|w e o c tries conv text ref Hc _ IH|w w' l Hp Hm _ (Hg & Hh & Hj)].
  - split; [|split].
    + split; [unfold proposals_inv|unfold one_live]; simpl; rewrite Hw; constructor.
    + intros id ctx t Hin. by apply elem_of_nil in Hin.
    + intros l1 m l2 Hl. by destruct l1.
  - destruct IH as (Hg & Hh & Hj). rewrite <- Hc in *.
    pose proof (kept_serve jsonb column_size fuel e o c tries conv text ref w) as Hk.
    destruct (serve _ _ _ _ _ _ _ _ _ _ w) as [answer w'].
    destruct Hk as [(Hg' & Hh' & _) Hj']; [exact (conj (conj Hg (conj Hh I)) Hj)|done].
  - split; [by eapply good_same|]. split; [by eapply heard_more|exact Hj].
Qed.

(** C1. No booking changes without the customer's word.  In every history of
    turns, a command that creates, moves or cancels a booking stands for an
    action proposed before it, with the same tenant, customer, conversation, tool
    and digest of its arguments; the customer authorized it before it ran; and
    the conversation holds a message of the customer, other than the one the
    proposal came from, whose whole text is an explicit consent. *)
Theorem no_booking_without_word w l1 m l2 :
  served w -> w.2 = l1 ++ GMutation m :: l2 ->
  exists b t, covers g b t m /\ exists id b0 p t0 ctx t' x,
    EvPropose b0 p t0 ∈ store_events l1 /\ equalBinding b0 b = true /\
    EvAuthorize id ctx t' ∈ store_events l1 /\
    tx_TenantID ctx = TenantID b /\ tx_CustomerID ctx = OwnerCustomerID b /\
    tx_ConversationID ctx = ConversationID b /\
    x ∈ messages (db w.1) /\ ms_id x = tx_InboundMessageID ctx /\ ms_id x <> ProposedFromMessageID b0 /\
    ms_tenant x = TenantID b /\ ms_conversation x = ConversationID b /\ ms_role x = "user" /\
    IsExplicitConsent (ms_content x) = true.
Proof.
  intros (_ & Hh & Hj)%served_inv Hl.
  destruct (Hj _ _ _ Hl) as (b & t & Hc & id & b0 & p & t0 & ctx & t' & Hp & He & Ha & Ht & Ho & Hv & _ & Hn).
  destruct (Hh id ctx t') as (text & Htext & x & Hx & X1 & X2 & X3 & X4 & X5).
  { rewrite Hl, store_events_app. apply elem_of_app. by left. }
  exists b, t. split; [exact Hc|]. exists id, b0, p, t0, ctx, t', x.
  repeat match goal with |- _ /\ _ => split end; (done || congruence).
Qed.
End deployment.

(** ** A dialogue: a cancellation, asked for and confirmed *)
Module Dialogue.
#[local] Existing Instance GatewayProps.Demo.host.

Definition booking_id : string := "00000000-0000-4000-8000-000000000001".

Definition tool (name : string) : ToolDefinition := mkToolDefinition name "1" "" "{}".

Definition settings : BuildConfig := mkBuildConfig
  (mkServiceConfig "t" "Salon" "UTC" "fake" "scripted" 0 0 0) "0123456789abcdef0123456789abcdef" 1 0 6
  (30 * Second) 1000 50000 10 [tool ToolCancel; tool ToolRespondToCustomer].

Definition calls (name arguments : string) : Response * option error :=
  (mkResponse "" "" (LLM.mkMessage RoleAssistant "" "" "" [mkToolCall "" name arguments]) "tool_calls"
     (mkUsage 100 10 0) false 0, None).

Definition reply (text : string) : Response * option error :=
  calls ToolRespondToCustomer (Marshal (JObj [("message", JStr text); ("disposition", JStr "complete")])).

Definition arguments : string := Marshal (JObj
  [("booking_id", JStr booking_id); ("reason", JStr "ill"); ("idempotency_key", JStr "cancel-key-000001")]).

(** The arguments of the action the service authorizes. *)
Definition authorized_arguments (content : string) : string :=
  match after (string_bytes AuthorizedActionPrefix) (string_bytes content) with
  | Some rest =>
      match Unmarshal (of_bytes rest) with
      | Some (JObj l) => match member "arguments" l with Some a => Marshal a | None => "" end
      | _ => ""
      end
  | None => ""
  end.

(** A model that cancels the booking, and answers once the tool has. *)
Definition scripted (n : nat) (request : Request) : Response * option error :=
  match rev (LLM.Messages request) with
  | m :: _ =>
      if String.eqb (Role m) RoleSystem then calls ToolCancel (authorized_arguments (LLM.Content m))
      else if String.eqb (Role m) RoleTool then reply "Done"
      else calls ToolCancel arguments
  | [] => reply ""
  end.

Definition second (n : nat) : Time := Add (monday 7 0) (Z.of_nat n * Second).

Definition around : outside := mkOutside second second (fun _ => "e") (fun _ _ => None) scripted
  (fun _ => None) (fun _ => None) (fun _ => Entered) (fun _ => None) (fun _ => None) (fun _ => Ok tt)
  (fun _ => Ok true) (fun _ => true) (fun _ => Ok tt).

Definition postgres : env :=
  mkEnv second demo_uuid (fun _ _ => false) (fun _ => None) (fun _ => false) (fun _ => None).

Definition jsonb (s : string) : result string := Ok s.

Definition parts : Components :=
  match assemble settings with
  | Ok c => c
  | Err _ => mkComponents (mkService (bc_Tenant settings) 0 0) (mkRunner (Runner.mkConfig 0 0 0 0) [])
               (mkExecutor "" 0 0 0) (mkGateway (mkSigner "") 0 0 0 0) (mkToolBackend None) (mkEstimator 0 0 0 0 0)
  end.

Definition turn (text ref : string) (w : world * list gevent) :=
  serve jsonb len 40 postgres around parts 5 conversation_id text ref w.

Definition asked := turn "Please cancel" "c1" (booked_salon, []).
Definition confirmed := turn "yes" "c2" asked.2.

Definition shown (x : option (result TurnAnswer) * (world * list gevent)) :=
  match x.1 with
  | Some (Ok a) => (Outcome a, PendingConfirmationActive a, map (fun r => Database.Status (b_data r)) (bookings (db x.2.1)),
                    map pr_status (proposals (db x.2.1)))
  | _ => ("", false, [], [])
  end.

Example dialogue_runs :
  (shown asked, shown confirmed) =
  (("completed", true, ["confirmed"], ["pending"]), ("completed", false, ["cancelled"], ["consumed"])).
Proof. vm_compute. reflexivity. Qed.

Definition cancelling : mutation :=
  match confirmed.2.2 with
  | [_; _; _; GMutation m; _] => m
  | _ => MCancel (toolapi.mkCancel "" "" "" "" "" "")
  end.

#[local] Abbreviation history := (served jsonb len 40 (c_Gateway parts)).

Lemma history_confirmed : history confirmed.2.
Proof. unfold confirmed, asked, turn. apply served_turn, served_turn, served_start; reflexivity. Qed.
End Dialogue.

#[local] Existing Instance GatewayProps.Demo.host.

Lemma no_booking_without_word_witness :
  exists b t x, covers (c_Gateway Dialogue.parts) b t Dialogue.cancelling /\
    x ∈ messages (db Dialogue.confirmed.2.1) /\ ms_role x = "user" /\ IsExplicitConsent (ms_content x) = true.
Proof.
  assert (E : Dialogue.confirmed.2.2 =
              take 3 Dialogue.confirmed.2.2 ++ GMutation Dialogue.cancelling :: drop 4 Dialogue.confirmed.2.2)
    by (vm_compute; reflexivity).
  destruct (no_booking_without_word _ _ _ _ _ _ _ _ Dialogue.history_confirmed E)
    as (b & t & Hc & id & b0 & p & t0 & ctx & t' & x & _ & _ & _ & _ & _ & _ & Hx & _ & _ & _ & _ & Hr & Ht).
  exists b, t, x. split; [exact Hc|]. split; [exact Hx|]. split; [exact Hr|exact Ht].
Defined.
