(* ===== verification/TurnProps.v ===== *)
(** * What a turn leaves behind

    An answered turn is durable: its reply, its event and the end of its run stand
    in the tables, and a failed one has been handed to a person.  In a
    conversation a person owns, a turn does nothing but file the message.

    The two transactions that end a turn, and the acknowledgement of an escalated
    conversation, by what stands once they have committed. *)

From Stdlib Require Import ZArith Lia Ascii.
From stdpp Require Import base list strings sorting gmap.
From S2P Require Import Prelude GoTime Json Database DatabaseFacts Catalog Repository ToolBackend ToolBackendProps Confirmations Conversations AgentTrace Durable DurableProps Service DeploymentProps.

#[local] Open Scope Z_scope.

(** ** What stands *)
Definition message_stands (t conv id : string) (d : DB) : Prop :=
  exists m, m ∈ messages d /\ ms_tenant m = t /\ ms_conversation m = conv /\ ms_id m = id.

Definition run_ended (t run conv status : string) (d : DB) : Prop :=
  exists r, r ∈ agent_runs d /\ is_run t run conv r = true /\ ru_status r = status /\ ru_finished r <> None.

Definition event_stands (jsonb : string -> result string) (t conv : string) (p : turnEventPayload) (d : DB) : Prop :=
  exists x v, x ∈ conversation_events (turns d) /\ te_tenant x = t /\ te_conversation x = conv /\
    te_type x = "turn_completed" /\ payload_json p = Some v /\ jsonb (Marshal v) = Ok (te_payload x).

(** A person owns the conversation and is told why. *)
Definition escalation_stands (t conv run reason : string) (d : DB) : Prop :=
  (exists x, x ∈ escalations d /\ filed_for t conv run reason x = true) /\
  (exists c, c ∈ conversations d /\ is_conv t conv c = true /\ cv_status c = "escalated").

Definition failure_stands (t run reason : string) (d : DB) : Prop :=
  exists f, f ∈ dead_letter_events (turns d) /\ failure_of t run reason f = true.

(** ** The statements *)
Lemma updated_row {R} check p (f : R -> R) l l' touched :
  sql_update check p f l = Ok (l', touched) -> length touched = 1%nat ->
  exists r, r ∈ l /\ p r = true /\ f r ∈ l'.
Proof.
  intros (-> & -> & _)%sql_update_Ok Hn. rewrite length_map in Hn.
  destruct (List.filter p l) as [|r tl] eqn:Hf; [done|].
  assert (Hr : r ∈ List.filter p l) by (rewrite Hf; by left). apply elem_of_filter_bool in Hr as [Hin Hp].
  exists r. split; [done|]. split; [done|]. apply elem_of_update_rows. exists r. by rewrite Hp.
Qed.

Section statements.
Context `{Host} (jsonb : string -> result string) (column_size : string -> Z) (cf : Config).

Lemma insert_reply_Ok t id conv x ref now n e d row d' :
  insert_reply_sql t id conv x ref now n e d = Ok (row, d') ->
  exists l, d' = set_messages l d /\ row ∈ l /\ ms_tenant row = t /\ ms_conversation row = conv.
Proof.
  unfold insert_reply_sql. intros Hr. destruct (message_check _); [|done]. simpl in Hr.
  destruct (List.find _ _) as [old|] eqn:Hf.
  - injection Hr as -> ->. apply List.find_some in Hf as [Hin Hp]. apply list_elem_of_In in Hin.
    unfold referenced in Hp. rewrite !andb_true_iff, !String.eqb_eq in Hp. destruct Hp as [[-> ->] _].
    exists (messages d'). by destruct d'.
  - apply rbind_Ok in Hr as (d1 & Hi & [= <- <-]). unfold insert_message in Hi.
    repeat match type of Hi with (if ?b then _ else _) = _ => destruct b; [done|] end. injection Hi as <-.
    eexists. split; [reflexivity|]. split; [|done]. apply elem_of_app. right. by apply list_elem_of_singleton.
Qed.

Lemma turn_event_Ok t conv payload now n e d u d' :
  insert_turn_event_sql jsonb column_size t conv payload now n e d = Ok (u, d') ->
  exists stored, jsonb payload = Ok stored /\
    d' = set_turn_events (conversation_events (turns d) ++ [turn_event t conv stored n now]) d.
Proof.
  unfold insert_turn_event_sql. intros (stored & Hj & Hr)%rbind_Ok. destruct (_ <? _); [done|].
  destruct (negb _); [done|]. injection Hr as _ <-. by exists stored.
Qed.

Lemma set_failures_Ok t conv n now k e d a d' :
  set_failures_sql t conv n now k e d = Ok (a, d') -> exists l, d' = set_conversations l d.
Proof.
  unfold set_failures_sql, update_conversation. intros Hr. destruct (List.find _ _).
  - apply rbind_Ok in Hr as ([] & _ & Hr); [|injection Hr as _ <-; exists (conversations d); by destruct d].
    apply rbind_Ok in Hr as ([l touched] & _ & [= _ <-]). by exists l.
  - injection Hr as _ <-. exists (conversations d). by destruct d.
Qed.

Lemma end_run_Ok t run conv st code m n now k e d d' :
  end_run_sql t run conv st code m n now k e d = Ok (1%nat, d') ->
  exists l, d' = set_runs l d /\ run_ended t run conv st d'.
Proof.
  unfold end_run_sql, update_runs. intros (n' & _ & ([l touched] & Hu & Hr)%rbind_Ok)%rbind_Ok.
  injection Hr as Hn <-. apply updated_row in Hu as (r & Hin & Hp & Hf); [|done].
  exists l. split; [done|]. eexists. split; [exact Hf|]. by repeat split.
Qed.

Lemma ensure_run_Ok r n now k e d u d' :
  ensure_run_sql cf r n now k e d = Ok (u, d') -> exists l, d' = set_runs l d.
Proof.
  unfold ensure_run_sql. intros (n' & _ & Hr)%rbind_Ok. destruct (negb _); [done|].
  destruct (existsb _ _); [injection Hr as _ <-; exists (agent_runs d); by destruct d|].
  apply rbind_Ok in Hr as (d1 & Hi & [= _ <-]). unfold insert_run in Hi.
  repeat match type of Hi with (if ?b then _ else _) = _ => destruct b; [done|] end.
  injection Hi as <-. by eexists.
Qed.

Lemma file_escalation_Ok r now n e d u d' :
  file_escalation_sql cf r now n e d = Ok (u, d') ->
  exists l, d' = set_escalations l d /\
    exists x, x ∈ l /\ filed_for (cf_TenantID cf) (co_ID (dh_Conversation r)) (dh_RunID r) (dh_Reason r) x = true.
Proof.
  unfold file_escalation_sql. destruct (existsb _ _) eqn:Hx.
  - intros [= _ <-]. exists (escalations d). split; [by destruct d|].
    apply existsb_exists in Hx as (x & Hin%list_elem_of_In & Hp). eauto.
  - intros (d1 & Hi & [= _ <-])%rbind_Ok. unfold insert_escalation in Hi.
    repeat match type of Hi with (if ?b then _ else _) = _ => destruct b; [done|] end. injection Hi as <-.
    eexists. split; [reflexivity|]. eexists. split; [apply elem_of_app; right; by apply list_elem_of_singleton|].
    unfold filed_for. simpl. rewrite !String.eqb_refl, bool_decide_eq_true_2 by done. done.
Qed.

Lemma hand_over_Ok t conv cu n now k e d d' :
  hand_over_sql t conv cu n now k e d = Ok (1%nat, d') ->
  exists l, d' = set_conversations l d /\
    exists c, c ∈ l /\ is_conv t conv c = true /\ cv_status c = "escalated".
Proof.
  unfold hand_over_sql. intros ([l touched] & Hu & Hr)%rbind_Ok. injection Hr as Hn <-.
  apply updated_row in Hu as (c & Hin & Hp & Hf); [|done]. exists l. split; [done|].
  eexists. split; [exact Hf|]. split; [|done]. unfold is_conversation in Hp. unfold is_conv.
  rewrite !andb_true_iff in Hp. simpl. by destruct Hp as [[-> ->] _].
Qed.

Lemma dead_letter_Ok r now n e d k d' :
  dead_letter_sql jsonb cf r now n e d = Ok (k, d') ->
  exists l, d' = set_failures l d /\
    (k = 0%nat \/ exists f, f ∈ l /\ failure_of (cf_TenantID cf) (dh_RunID r) (dh_Reason r) f = true).
Proof.
  unfold dead_letter_sql. intros Hr. assert (Hsame : d = set_failures (dead_letter_events (turns d)) d).
  { destruct d as [? ? ? ? ? ? ? ? ? ? ? ? ? ? ? ? ? ? []]. done. }
  destruct (List.find _ _) as [row|]; [|injection Hr as <- <-; eauto].
  destruct (ru_trigger row); [|injection Hr as <- <-; eauto].
  destruct (existsb _ _); [injection Hr as <- <-; eauto|].
  apply rbind_Ok in Hr as (payload & _ & (d1 & Hi & [= <- <-])%rbind_Ok). unfold insert_failure in Hi.
  repeat match type of Hi with (if ?b then _ else _) = _ => destruct b; [done|] end. injection Hi as <-.
  eexists. split; [reflexivity|]. right. eexists.
  split; [apply elem_of_app; right; by apply list_elem_of_singleton|]. unfold failure_of. simpl.
  by rewrite !String.eqb_refl.
Qed.

(** ** The transactions *)
Lemma insertAssistantReply_Ok t conv run prefix x e w m w' :
  insertAssistantReply t conv run prefix x e w = (Ok m, w') ->
  exists l, work w' = set_messages l (work w) /\ db w' = db w /\
    exists row, row ∈ l /\ ms_tenant row = t /\ ms_conversation row = conv /\ ms_id row = me_ID m.
Proof.
  unfold insertAssistantReply. intros Hr. open_all. apply insert_reply_Ok in Hm0 as (l & -> & Hin & Ht & Hc).
  unfold New_id in Hm. injection Hm as _ <-. exists l. split; [done|]. split; [done|]. by eexists.
Qed.

Lemma insertTurnEvent_Ok t conv p e w u w' :
  insertTurnEvent jsonb column_size t conv p e w = (Ok u, w') ->
  exists x v, work w' = set_turn_events (conversation_events (turns (work w)) ++ [x]) (work w) /\ db w' = db w /\
    te_tenant x = t /\ te_conversation x = conv /\ te_type x = "turn_completed" /\ payload_json p = Some v /\
    jsonb (Marshal v) = Ok (te_payload x).
Proof.
  unfold insertTurnEvent. destruct (payload_json p) as [v|]; [|done]. intros Hr. open_all.
  apply turn_event_Ok in Hr as (stored & Hj & ->). by eexists _, v.
Qed.

Lemma insert_dead_letter_Ok r e w u w' :
  insert_dead_letter jsonb cf r e w = (Ok u, w') ->
  exists l, work w' = set_failures l (work w) /\ db w' = db w /\
    exists f, f ∈ l /\ failure_of (cf_TenantID cf) (dh_RunID r) (dh_Reason r) f = true.
Proof.
  unfold insert_dead_letter. intros Hr. open_all. apply dead_letter_Ok in Hm as (l & -> & Hk).
  destruct (Nat.eqb_spec a 0) as [->|Hn]; simpl in Hr; open_all.
  - destruct (existsb _ _) eqn:Hx; [|done]. open_all. exists l. split; [done|]. split; [done|].
    apply existsb_exists in Hx as (f & Hin%list_elem_of_In & Hp). eauto.
  - exists l. split; [done|]. split; [done|]. by destruct Hk as [?|?].
Qed.

(** The reply stands, its event tells of it, and its run has ended as it says. *)
Lemma persist_reply_Ok conversation inbound run elapsed x st f p e w m w' :
  persistReplyAndFinish jsonb column_size cf conversation inbound run elapsed x st f p e w = (Ok m, w') ->
  message_stands (cf_TenantID cf) (co_ID conversation) (me_ID m) (db w') /\
  event_stands jsonb (cf_TenantID cf) (co_ID conversation)
    (mkTurnEvent run (me_ID inbound) (me_ID m) x st p (is_set p)) (db w') /\
  run_ended (cf_TenantID cf) run (co_ID conversation) st (db w').
Proof.
  unfold persistReplyAndFinish. intros (w2 & Hr & ->)%with_tx_Ok.
  apply bind_Ok in Hr as (a & w3 & (l & Hw3 & _ & row & Hin & R1 & R2 & R3)%insertAssistantReply_Ok & Hr).
  simpl in Hw3. open_step Hr. open_step Hm. open_step Hm. apply set_failures_Ok in Hm as (lc & ->).
  apply bind_Ok in Hr as (u & w4 & (ev & v & Hw4 & _ & E1 & E2 & E3 & E4 & E5)%insertTurnEvent_Ok & Hr).
  simpl in Hw4. open_step Hr. open_step Hm. open_step Hm.
  destruct (Nat.eqb_spec a1 1) as [->|]; simpl in Hr; [|done]. apply end_run_Ok in Hm as (lr & -> & Hrun).
  open_all. rewrite Hw4, Hw3 in *. simpl in *. split; [|split; [|exact Hrun]].
  - by exists row.
  - exists ev, v. split; [|done]. apply elem_of_app. right. by apply list_elem_of_singleton.
Qed.

(** The reply and its event, the escalation and, for a failure, its dead letter
    stand; the conversation is a person's and the run has ended. *)
Lemma persist_handoff_Ok r elapsed elapsed' e w m w' :
  let t := cf_TenantID cf in let conv := co_ID (dh_Conversation r) in
  persistHandoff jsonb column_size cf r elapsed elapsed' e w = (Ok m, w') ->
  message_stands t conv (me_ID m) (db w') /\
  event_stands jsonb t conv
    (mkTurnEvent (dh_RunID r) (me_ID (dh_Inbound r)) (me_ID m) (dh_Content r) (dh_RunStatus r) None false) (db w') /\
  run_ended t (dh_RunID r) conv (dh_RunStatus r) (db w') /\
  escalation_stands t conv (dh_RunID r) (dh_Reason r) (db w') /\
  (dh_DeadLetter r = true -> failure_stands t (dh_RunID r) (dh_Reason r) (db w')).
Proof.
  intros t conv. unfold persistHandoff. intros (w2 & Hr & ->)%with_tx_Ok.
  open_step Hr. open_step Hm. open_step Hm. apply ensure_run_Ok in Hm as (l0 & ->).
  apply bind_Ok in Hr as (a0 & w3 & (l & Hw3 & _ & row & Hin & R1 & R2 & R3)%insertAssistantReply_Ok & Hr).
  apply bind_Ok in Hr as (u & w4 & (ev & v & Hw4 & _ & E1 & E2 & E3 & E4 & E5)%insertTurnEvent_Ok & Hr).
  open_step Hr. open_step Hm. open_step Hm. apply file_escalation_Ok in Hm as (le & -> & x & Hx & Px).
  apply bind_Ok in Hr as (u1 & w5 & Hd & Hr).
  assert (exists lf, work w5 = set_failures lf (set_escalations le (work w4)) /\
    (dh_DeadLetter r = true -> exists f, f ∈ lf /\ failure_of t (dh_RunID r) (dh_Reason r) f = true))
    as (lf & Hw5 & Hf).
  { destruct (dh_DeadLetter r).
    - apply insert_dead_letter_Ok in Hd as (lf & Hw5 & _ & Hf). by exists lf.
    - open_all. exists (dead_letter_events (turns (work w4))). split; [|done].
      destruct (work w4) as [? ? ? ? ? ? ? ? ? ? ? ? ? ? ? ? ? ? []]. done. }
  clear Hd. open_step Hr. open_step Hm. open_step Hm.
  destruct (Nat.eqb_spec a2 1) as [->|]; simpl in Hr; [|done].
  apply hand_over_Ok in Hm as (lc & -> & cv & Hc & C1 & C2).
  open_step Hr. open_step Hm. open_step Hm.
  destruct (Nat.eqb_spec a2 1) as [->|]; simpl in Hr; [|done]. apply end_run_Ok in Hm as (lr & -> & Hrun).
  open_all. rewrite Hw5, Hw4, Hw3 in *. simpl in *.
  split; [by exists row|]. split; [|split; [exact Hrun|split; [|exact Hf]]].
  - exists ev, v. split; [|done]. apply elem_of_app. right. by apply list_elem_of_singleton.
  - split; [by exists x|by exists cv].
Qed.

Lemma acknowledge_Ok conversation inbound e w a w' :
  acknowledgeEscalated jsonb column_size cf conversation inbound e w = (Ok a, w') ->
  a = mkTurnAnswer "" (co_ID conversation) (ta_MessageID a) escalated_acknowledgement "escalated" no_usage None false /\
  message_stands (cf_TenantID cf) (co_ID conversation) (ta_MessageID a) (db w') /\
  event_stands jsonb (cf_TenantID cf) (co_ID conversation)
    (mkTurnEvent "" (me_ID inbound) (ta_MessageID a) escalated_acknowledgement "escalated" None false) (db w').
Proof.
  unfold acknowledgeEscalated. intros (w2 & Hr & ->)%with_tx_Ok.
  open_step Hr. open_step Hm. apply insertAssistantReply_Ok in Hm as (l & Hw & _ & row & Hin & R1 & R2 & R3).
  apply bind_Ok in Hr as (u & w4 & (ev & v & Hw4 & _ & E1 & E2 & E3 & E4 & E5)%insertTurnEvent_Ok & Hr).
  open_all. rewrite Hw4, Hw in *. simpl in *. split; [done|]. split; [by exists row|].
  exists ev, v. split; [|done]. apply elem_of_app. right. by apply list_elem_of_singleton.
Qed.
End statements.

(** * Outcomes of a turn *)

From S2P Require Import Prelude State GoTime Json LLM Budget Database DatabaseFacts Catalog Repository JsonParse Tools SalonDemo ToolBackend ToolBackendProps Runner Validation Confirmations Tokens Gateway GatewayProps Conversations AgentBudget Durable DurableProps AgentTrace TurnQueue Executor Service Deployment ServiceFacts DeploymentProps.

#[local] Open Scope Z_scope.

Section deployed.
Context `{Host} (jsonb : string -> result string) (column_size : string -> Z) (fuel : nat) (e : env) (o : outside)
  (c : Components).

#[local] Instance deployed_store : ConfirmationStore world := Deployment.deployed_store jsonb e.
#[local] Instance deployed_backend : toolapi.Backend world := Deployment.deployed_backend fuel e c.
#[local] Instance deployed_queue : TurnQueue (world * list gevent) := Deployment.deployed_queue e o.
#[local] Abbreviation W := (world * list gevent)%type.
#[local] Abbreviation tenant := (cf_TenantID (config (Application c))).
#[local] Abbreviation cf := (config (Application c)).
#[local] Abbreviation clock := (silent (ask (o_now o)) : St W Time).
#[local] Abbreviation wall := (silent (ask (o_wall o)) : St W Time).
#[local] Abbreviation fresh := (silent (ask (fun n => uuid e n 0%nat)) : St W string).

(** ** What stands once a turn is answered *)
Definition told (conv id run content outcome : string) (d : DB) : Prop :=
  message_stands tenant conv id d /\
  exists inbound p active, event_stands jsonb tenant conv (mkTurnEvent run inbound id content outcome p active) d.

Definition failing (outcome : string) : bool := string_in outcome ["failed"; "budget_exhausted"].

Definition settled (a : TurnAnswer) (d : DB) : Prop :=
  told (ta_Conversation a) (ta_MessageID a) (ta_Run a) (ta_Message a) (Outcome a) d /\
  (ta_Run a = "" \/ run_ended tenant (ta_Run a) (ta_Conversation a) (Outcome a) d) /\
  (failing (Outcome a) = true -> exists reason,
     escalation_stands tenant (ta_Conversation a) (ta_Run a) reason d /\ failure_stands tenant (ta_Run a) reason d).

Definition anything (s : W) : Prop := True.

(** Nothing is claimed of an error. *)
Definition if_answered (r : result TurnAnswer) (s : W) : Prop :=
  match r with Ok a => settled a (db s.1) | Err _ => True end.

Definition if_returned (r : option (result TurnAnswer)) (s : W) : Prop :=
  match r with Some r => if_answered r s | None => True end.

Lemma whatever {A} (m : St W A) : triple anything m (fun _ => anything).
Proof. intros s _. by destruct (m s). Qed.

Lemma next {A B} (m : St W A) (f : A -> St W B) Q : (forall a, triple anything (f a) Q) -> triple anything (st_bind m f) Q.
Proof. apply triple_bind. apply whatever. Qed.

Lemma refusing err : triple anything (st_ret (Err err)) if_answered.
Proof. by apply triple_ret. Qed.

Lemma returned (m : St W (result TurnAnswer)) :
  triple anything m if_answered -> triple anything (st_bind m (fun a => st_ret (Some a))) if_returned.
Proof. intros Hm. eapply triple_bind; [exact Hm|]. intros a. by apply triple_ret. Qed.

Lemma on_tables_post {A} (m : M A) (Q : A -> DB -> Prop) :
  (forall w a w', m e w = (Ok a, w') -> Q a (db w')) ->
  triple anything (on_tables e A m) (fun r s => match r with Ok a => Q a (db s.1) | Err _ => True end).
Proof.
  intros Hm [w l] _. unfold on_tables, silent, noting. simpl. destruct (m e w) as [[a|err] w'] eqn:E; simpl; [|done].
  by eapply Hm.
Qed.

Section turn.
Context (t : SavedTurn) (Hid : co_ID (tn_Conversation t) = tn_ConversationID t).

Definition handed (content st reason : string) (dl : bool) (m : Conversations.Message) (d : DB) : Prop :=
  told (co_ID (tn_Conversation t)) (me_ID m) (tn_RunID t) content st d /\
  run_ended tenant (tn_RunID t) (co_ID (tn_Conversation t)) st d /\
  escalation_stands tenant (co_ID (tn_Conversation t)) (tn_RunID t) reason d /\
  (dl = true -> failure_stands tenant (tn_RunID t) reason d).

Lemma hand_over_post content st reason summary dl n :
  triple anything (hand_over jsonb column_size (on_tables e) wall (Application c) t content st reason summary dl n)
    (fun r s => match r with Ok m => handed content st reason dl m (db s.1) | Err _ => True end).
Proof.
  unfold hand_over. apply next. intros t1. apply next. intros t2.
  apply (on_tables_post _ (handed content st reason dl)). intros w m w' Hr.
  apply persist_handoff_Ok in Hr as (H1 & H2 & H3 & H4 & H5). simpl in *.
  split; [|exact (conj H3 (conj H4 H5))]. split; [exact H1|]. by eexists _, _, _.
Qed.

#[local] Abbreviation saved_failure :=
  (handleSavedTurnFailure jsonb column_size (on_tables e) clock wall (o_Error o) (Application c)).

Lemma failure_answered u reason fallback err : triple anything (saved_failure t u reason fallback err) if_answered.
Proof.
  unfold handleSavedTurnFailure. apply next. intros cause. eapply triple_bind; [apply hand_over_post|].
  intros [m|err']; apply triple_ret; [|done]. intros s (H1 & H2 & H3 & H4).
  split; [exact H1|]. split; [by right|]. intros _. exists reason. split; [exact H3|by apply H4].
Qed.

Lemma request_answered :
  triple anything (escalateCustomerRequest jsonb column_size (on_tables e) clock wall (o_Error o) (Application c) t)
    if_answered.
Proof.
  unfold escalateCustomerRequest. apply next. intros [u|err]; [|apply failure_answered].
  eapply triple_bind; [apply hand_over_post|]. intros [m|err].
  - apply triple_ret. intros s (H1 & H2 & _). split; [exact H1|]. split; [by right|done].
  - eapply triple_weaken; [|apply failure_answered]. done.
Qed.

(** The reply of a run, whichever way it is filed. *)
Definition replied (r : result Conversations.Message * (string * string)) (s : W) : Prop :=
  match r with
  | (Ok m, (content, outcome)) =>
      told (tn_ConversationID t) (me_ID m) (tn_RunID t) content outcome (db s.1) /\
      run_ended tenant (tn_RunID t) (tn_ConversationID t) outcome (db s.1) /\ failing outcome = false
  | (Err _, _) => True
  end.

Lemma run_status_not_failing turn : failing (run_status turn) = false.
Proof. unfold run_status. by destruct (_ || _). Qed.

Lemma reply_persisted turn content pending :
  triple anything (persist_reply jsonb column_size (on_tables e) wall (Application c) t turn content pending) replied.
Proof.
  unfold persist_reply. pose proof (run_status_not_failing turn) as Hs. destruct (_ && _); [|destruct (3 <=? _)].
  - eapply triple_bind; [apply hand_over_post|]. intros r. apply triple_ret. intros s Hr.
    destruct r as [m|err]; [|done]. destruct Hr as (H1 & H2 & _). rewrite Hid in *. by split.
  - eapply triple_bind; [apply hand_over_post|]. intros r. apply triple_ret. intros s Hr.
    destruct r as [m|err]; [|done]. destruct Hr as (H1 & H2 & _). rewrite Hid in *. by split.
  - apply next. intros t1. eapply triple_bind.
    + apply (on_tables_post _ (fun m d => told (co_ID (tn_Conversation t)) (me_ID m) (tn_RunID t) content
        (run_status turn) d /\ run_ended tenant (tn_RunID t) (co_ID (tn_Conversation t)) (run_status turn) d)).
      intros w m w' (H1 & H2 & H3)%persist_reply_Ok. split; [|exact H3]. split; [exact H1|]. by eexists _, _, _.
    + intros r. apply triple_ret. intros s Hr. destruct r as [m|err]; [|done]. rewrite Hid in Hr.
      destruct Hr as [H1 H2]. by split.
Qed.

Lemma finish_answered turn :
  triple anything (finish_turn jsonb column_size (on_tables e) clock wall (o_Error o) (Application c) t turn)
    if_answered.
Proof.
  unfold finish_turn. destruct (_ && _); [apply failure_answered|]. apply next. intros [u|err]; [|apply failure_answered].
  apply next. intros [state|err]; [|apply failure_answered]. eapply triple_bind; [apply reply_persisted|].
  intros [[m|err] [content outcome]].
  - apply triple_ret. intros s (H1 & H2 & H3). split; [exact H1|]. split; [by right|]. simpl. by rewrite H3.
  - eapply triple_weaken; [|apply failure_answered]. done.
Qed.

Lemma agent_answered profile authorized :
  triple anything (run_agent jsonb column_size (on_tables e) clock wall (o_Error o)
    (run_turn jsonb fuel e o c) (Application c) t profile authorized) if_returned.
Proof.
  unfold run_agent. apply next. intros [history|err].
  2: { apply returned, failure_answered. }
  apply next. intros at_. apply next. intros [[turn [err|]]|]; [| |by apply triple_ret].
  - apply returned. destruct (BookingCommitted turn); [apply failure_answered|].
    unfold handleAgentFailure. destruct (agent_failure err). apply failure_answered.
  - apply returned, finish_answered.
Qed.

(** What an early end of the consent answers. *)
Definition if_ended (r : option (string + result TurnAnswer)) (s : W) : Prop :=
  match r with Some (inr a) => if_answered a s | _ => True end.

Lemma ended (m : St W (result TurnAnswer)) :
  triple anything m if_answered -> triple anything (st_bind m (fun a => st_ret (Some (inr a)))) if_ended.
Proof. intros Hm. eapply triple_bind; [exact Hm|]. intros a. by apply triple_ret. Qed.

Lemma authorized_answered state :
  triple anything (authorized_message jsonb column_size (on_tables e) clock wall (o_Error o) (Application c) t state)
    if_ended.
Proof.
  unfold authorized_message. destruct (authorizedActionMessage state) as [[message|err]|]; [by apply triple_ret| |by apply triple_ret].
  apply ended, failure_answered.
Qed.

Lemma consent_answered :
  triple anything (consent jsonb column_size (on_tables e) clock wall (o_Error o) (Application c) t) if_ended.
Proof.
  unfold consent. apply next. intros [[state|]|err]; [|by apply triple_ret|apply ended, failure_answered].
  destruct (String.eqb _ "pending"); [|destruct (String.eqb _ _); [apply authorized_answered|by apply triple_ret]].
  apply next. intros at_. apply next. intros [u|err]; [apply authorized_answered|].
  destruct (_ && _); [apply ended, failure_answered|by apply triple_ret].
Qed.

Lemma saved_answered text :
  triple anything (answer_saved jsonb column_size (on_tables e) clock wall (o_Error o)
    (run_turn jsonb fuel e o c) (Application c) t text) if_returned.
Proof.
  unfold answer_saved. apply next. intros [u|err]; [|apply returned, failure_answered].
  apply next. intros [profile|err]; [|apply returned, failure_answered].
  apply next. intros [v|err]; [|apply returned, failure_answered].
  destruct (IsHumanRequest text); [apply returned, request_answered|].
  apply (triple_bind _ _ _ if_ended).
  - destruct (IsExplicitConsent text); [apply consent_answered|by apply triple_ret].
  - intros [[message|answer]|].
    + eapply triple_weaken; [|apply agent_answered]. done.
    + by apply triple_ret.
    + by apply triple_ret.
Qed.
End turn.

(** ** While the turn is held *)
Lemma Get_Ok conv w k w' :
  Conversations.Get tenant conv e w = (Ok k, w') ->
  exists row, List.find (is_conv tenant conv) (conversations (db w)) = Some row /\
    conversation_view row = Ok k /\ co_ID k = conv.
Proof.
  unfold Conversations.Get, load_conversation. intros Hr. open_all.
  match goal with Hf : List.find _ _ = Some ?r |- _ => rename Hf into Hrow; rename r into row end.
  exists row. split; [done|]. unfold conversation_view in *. destruct (cv_customer row); [|done]. simplify_eq/=.
  split; [done|]. apply List.find_some in Hrow as [_ Hp].
  unfold is_conv in Hp. rewrite andb_true_iff, !String.eqb_eq in Hp. by destruct Hp.
Qed.

#[local] Abbreviation hold := (hold_turn jsonb column_size (on_tables e) clock wall fresh (o_Error o)
  (run_turn jsonb fuel e o c) (Application c)).

Lemma held_answered conv text ref at_ : triple anything (hold conv text ref at_) if_returned.
Proof.
  unfold hold_turn. eapply triple_bind.
  { apply (on_tables_post _ (fun k _ => co_ID k = conv)). intros w k w' Hg. by destruct (Get_Ok _ _ _ _ Hg) as (? & _ & _ & ?). }
  intros [k|err]; [|by apply triple_ret]. intros s Hid. revert s Hid.
  enough (Hk : co_ID k = conv -> triple anything (let+ saved := on_tables e _ (AppendMessageAt tenant conv "user" text ref at_) in
     match saved with
     | Err err => st_ret (Some (Err err))
     | Ok inbound =>
         if String.eqb (co_Status k) "escalated" then
           let+ answer := on_tables e _ (acknowledgeEscalated jsonb column_size cf k inbound) in st_ret (Some answer)
         else
           let+ runID := fresh in
           let+ startedAt := wall in
           answer_saved jsonb column_size (on_tables e) clock wall (o_Error o) (run_turn jsonb fuel e o c)
             (Application c) (mkSavedTurn conv k inbound runID startedAt) text
     end) if_returned) by (intros s Hid; by apply Hk).
  intros Hid. apply next. intros [m|err]; [|by apply triple_ret]. destruct (String.eqb _ _).
  - apply returned. eapply triple_conseq; [|done|].
    + apply (on_tables_post _ (fun a d => settled a d)). intros w a w' (-> & H1 & H2)%acknowledge_Ok. simpl in *.
      split; [split; [exact H1|by eexists _, _, _]|]. by split; [left|].
    + by intros [a|err].
  - apply next. intros run. apply next. intros t0. by apply saved_answered.
Qed.

(** ** Around the turn *)
(** What the tables and the log say, whatever the tick. *)
Definition stands (P : DB -> list gevent -> Prop) (s : W) : Prop := P (db s.1) s.2.

Lemma stands_local P {A} (m : St world A) :
  (forall w, db (m w).2 = db w) -> kept (stands P) (silent m).
Proof.
  intros Hm [w l] Hs. unfold silent, noting, stands in *. simpl in *. specialize (Hm w).
  destruct (m w) as [a w']. simpl in *. by rewrite Hm, app_nil_r.
Qed.

Lemma queue_stands P : KeepingQueue (stands P).
Proof.
  split; intros; first [by apply triple_ret | by apply stands_local | apply stands_local; intros w; apply local_query].
Qed.

(** What holds of the tables before the turn, and of its answer while it is held. *)
Lemma in_turn_post {A} P (Q : option (result A) -> DB -> list gevent -> Prop) tries n conv
    (body : Time -> St W (option (result A))) :
  (forall d l, P d l -> Q None d l) -> (forall err d l, P d l -> Q (Some (Err err)) d l) ->
  (forall t, triple (stands P) (body t) (fun r => stands (Q r))) ->
  triple (stands P) (in_turn tries n tenant conv body) (fun r => stands (Q r)).
Proof.
  intros Hn He Hb. unfold in_turn. eapply triple_bind; [apply kept_acquire, queue_stands|].
  intros [[t|err]|].
  2: { apply triple_ret. intros s. apply He. }
  2: { apply triple_ret. intros s. apply Hn. }
  eapply triple_bind; [apply Hb|]. intros a. eapply (triple_bind _ _ _ (fun _ => stands (Q a))); [|intros u; by apply triple_ret].
  pose proof (queue_stands (Q a)) as Hq. apply kept_bind; [apply Hq|]. intros r.
  apply kept_bind; [destruct r|intros u]; apply Hq.
Qed.

Lemma serve_post P (Q : option (result TurnAnswer) -> DB -> list gevent -> Prop) tries conv text ref :
  (forall d l, P d l -> Q None d l) -> (forall err d l, P d l -> Q (Some (Err err)) d l) ->
  (forall t, triple (stands P) (hold conv (TrimSpace text) ref t) (fun r => stands (Q r))) ->
  triple (stands P) (serve jsonb column_size fuel e o c tries conv text ref) (fun r => stands (Q r)).
Proof.
  intros Hn He Hb. unfold serve, SendMessage. cbv zeta. case_bool_decide; [apply triple_ret; intros s; apply He|].
  destruct (_ || _); [apply triple_ret; intros s; apply He|]. by apply (in_turn_post P Q).
Qed.

(** C4. An answered turn is durable.  When a turn answers, the tables hold the
    message it answers with and an event of the conversation that tells of it,
    its text and its outcome; the run it names has ended with that outcome; and
    when the outcome is a failure the conversation is escalated, with an
    escalation and a dead letter of the run under the same reason. *)
Theorem answered_turn_is_durable tries conv text ref w l a w' l' :
  serve jsonb column_size fuel e o c tries conv text ref (w, l) = (Some (Ok a), (w', l')) ->
  settled a (db w').
Proof.
  intros E. pose proof (serve_post (fun _ _ => True)
    (fun r d _ => match r with Some (Ok a) => settled a d | _ => True end) tries conv text ref) as Hp.
  specialize (Hp (fun _ _ _ => I) (fun _ _ _ _ => I)).
  assert (Hh : forall t, triple (stands (fun _ _ => True)) (hold conv (TrimSpace text) ref t)
    (fun r => stands (fun d _ => match r with Some (Ok a) => settled a d | _ => True end))).
  { intros t. eapply triple_conseq; [apply held_answered|done|]. by intros [[a0|err]|] s. }
  specialize (Hp Hh (w, l) I). by rewrite E in Hp.
Qed.

(** ** A conversation a person owns *)
(** What a message to it may add. *)
Definition filed_message (conv text : string) (m : MessageRow) : Prop :=
  ms_tenant m = tenant /\ ms_conversation m = conv /\
  (ms_role m = "user" /\ ms_content m = text \/ ms_role m = "assistant" /\ ms_content m = escalated_acknowledgement).

Definition filed_event (conv : string) (x : TurnEventRow) : Prop :=
  te_tenant x = tenant /\ te_conversation x = conv /\ te_type x = "turn_completed".

Definition inert (conv text : string) (d d' : DB) : Prop :=
  exists new evs,
    d' = set_turn_events (conversation_events (turns d) ++ evs) (set_messages (messages d ++ new) d) /\
    Forall (filed_message conv text) new /\ Forall (filed_event conv) evs.

Lemma inert_refl conv text d : inert conv text d d.
Proof.
  exists [], []. rewrite !app_nil_r. split; [|done].
  destruct d as [? ? ? ? ? ? ? ? ? ? ? ? ? ? ? ? ? ? []]. done.
Qed.

Lemma inert_message conv text d d' m :
  filed_message conv text m -> inert conv text d d' ->
  inert conv text d (set_messages (messages d' ++ [m]) d').
Proof.
  intros Hm (new & evs & -> & Hn & He). exists (new ++ [m]), evs. simpl. rewrite app_assoc.
  split; [done|]. split; [|done]. apply Forall_app. split; [done|by apply Forall_singleton].
Qed.

Lemma inert_event conv text d d' x :
  filed_event conv x -> inert conv text d d' ->
  inert conv text d (set_turn_events (conversation_events (turns d') ++ [x]) d').
Proof.
  intros Hx (new & evs & -> & Hn & He). exists new, (evs ++ [x]). simpl. rewrite app_assoc.
  split; [done|]. split; [done|]. apply Forall_app. split; [done|by apply Forall_singleton].
Qed.

Section inert.
Context (conv text : string) (D : DB).

Lemma inert_append id ref at_ :
  sql_preserves (inert conv text D) (append_sql tenant id conv "user" text ref at_).
Proof.
  intros now n e' d u d' Hd Hr. unfold append_sql in Hr. apply rbind_Ok in Hr as (d1 & Hi & [= _ <-]).
  unfold insert_message in Hi. open_result. apply inert_message; [|done].
  split; [done|]. split; [done|]. by left.
Qed.

Lemma inert_reply id ref :
  sql_preserves (inert conv text D) (insert_reply_sql tenant id conv escalated_acknowledgement ref).
Proof.
  intros now n e' d u d' Hd Hr. unfold insert_reply_sql, insert_message in Hr. open_result; [done|].
  unfold insert_message in *. open_result. apply inert_message; [|done].
  split; [done|]. split; [done|]. by right.
Qed.

Lemma inert_announce payload :
  sql_preserves (inert conv text D) (insert_turn_event_sql jsonb column_size tenant conv payload).
Proof.
  intros now n e' d u d' Hd (stored & _ & ->)%turn_event_Ok. by apply inert_event.
Qed.

#[local] Hint Resolve inert_append inert_reply inert_announce : db.

Lemma inert_append_message ref at_ :
  db_preserves (inert conv text D) (AppendMessageAt tenant conv "user" text ref at_).
Proof. unfold AppendMessageAt, appendMessage. walk_committed. Qed.

Lemma inert_acknowledge k m :
  co_ID k = conv -> db_preserves (inert conv text D) (acknowledgeEscalated jsonb column_size cf k m).
Proof.
  intros Hk. unfold acknowledgeEscalated, insertAssistantReply, insertTurnEvent. rewrite Hk. walk_committed.
Qed.
End inert.

(** The log and the tables of a turn of an escalated conversation. *)
Definition owned_turn (conv text : string) (D : DB) (L : list gevent) (r : option (result TurnAnswer)) (d : DB)
    (l : list gevent) : Prop :=
  l = L /\ inert conv text D d /\ forall a, r = Some (Ok a) -> Outcome a = "escalated" /\ ta_Run a = "".

Lemma tables_inert {A} conv text D L (m : M A) :
  db_preserves (inert conv text D) m -> kept (stands (fun d l => inert conv text D d /\ l = L)) (on_tables e A m).
Proof.
  intros Hm [w l] [Hi Hl]. unfold on_tables, silent, noting, stands in *. simpl in *. specialize (Hm e w Hi).
  destruct (m e w) as [r w']. simpl in *. by rewrite app_nil_r.
Qed.

Lemma owned_hold conv text ref t D L row :
  List.find (is_conv tenant conv) (conversations D) = Some row -> cv_status row = "escalated" ->
  triple (stands (fun d l => d = D /\ l = L)) (hold conv text ref t) (fun r => stands (owned_turn conv text D L r)).
Proof.
  intros Hf Hs. unfold hold_turn.
  apply (triple_bind _ _ _ (fun r => stands (fun d l => (inert conv text D d /\ l = L) /\
    match r with Ok k => co_ID k = conv /\ co_Status k = "escalated" | Err _ => True end))).
  { intros [w l] [Hd Hl]. simpl in *.
    assert (Hw : db (Conversations.Get tenant conv e w).2 = db w).
    { unfold Conversations.Get, load_conversation. apply local_map_err. walk_local. }
    unfold on_tables, silent, noting. simpl. destruct (Conversations.Get tenant conv e w) as [[k|err] w'] eqn:Hg.
    - simpl in *. rewrite app_nil_r. unfold stands. simpl. rewrite Hw, Hd.
      destruct (Get_Ok _ _ _ _ Hg) as (row' & Hf' & Hv & Hk). rewrite Hd, Hf in Hf'. injection Hf' as <-.
      split; [split; [apply inert_refl|done]|]. split; [done|]. unfold conversation_view in Hv.
      destruct (cv_customer row); [|done]. injection Hv as <-. exact Hs.
    - simpl in *. rewrite app_nil_r. unfold stands. simpl. rewrite Hw, Hd. split; [split; [apply inert_refl|done]|done]. }
  intros [k|err]; [|apply triple_ret; intros s [[Hi Hl] _]; by repeat split].
  intros s [Hs' [Hk He]]. revert s Hs'.
  set (I := stands (fun d l => inert conv text D d /\ l = L)).
  match goal with |- forall s, _ -> let '(a, s') := ?m s in _ => enough (Hh : triple I m (fun r => stands (owned_turn conv text D L r))) by exact Hh end.
  apply triple_kept; [apply tables_inert, inert_append_message|].
  intros [m|err]; [|apply triple_ret; intros s [Hi Hl]; by repeat split].
  rewrite He. simpl String.eqb. cbv iota.
  intros s Hi. pose proof (tables_inert conv text D L _ (inert_acknowledge conv text D k m Hk) s Hi) as Hq.
  unfold st_bind. destruct s as [w l]. unfold on_tables, silent, noting in *. simpl in *.
  destruct (acknowledgeEscalated _ _ _ _ _ e w) as [[a|err] w'] eqn:Ha; destruct Hq as [Hi' Hl'].
  - split; [done|]. split; [done|]. intros a' [= <-]. apply acknowledge_Ok in Ha as (-> & _). done.
  - split; [done|]. split; [done|]. done.
Qed.

(** C11. A person's conversation is left alone.  A message to a conversation that
    is escalated proposes, authorizes and books nothing, starts no run and
    changes no table but the messages and the events: it may add the customer's
    text and an acknowledgement, and events of the conversation; an answer to it
    names no run and says that a person owns the conversation. *)
Theorem escalated_turn_is_inert tries conv text ref w l answer w' l' row :
  List.find (is_conv tenant conv) (conversations (db w)) = Some row -> cv_status row = "escalated" ->
  serve jsonb column_size fuel e o c tries conv text ref (w, l) = (answer, (w', l')) ->
  l' = l /\ inert conv (TrimSpace text) (db w) (db w') /\
  forall a, answer = Some (Ok a) -> Outcome a = "escalated" /\ ta_Run a = "".
Proof.
  intros Hf Hs E. pose proof (serve_post (fun d l0 => d = db w /\ l0 = l)
    (owned_turn conv (TrimSpace text) (db w) l) tries conv text ref) as Hp.
  assert (Hr : serve jsonb column_size fuel e o c tries conv text ref (w, l) = (answer, (w', l')) ->
    owned_turn conv (TrimSpace text) (db w) l answer (db w') l').
  { intros E'. specialize (Hp ltac:(intros d l0 [-> ->]; split; [done|]; split; [apply inert_refl|done])
      ltac:(intros err d l0 [-> ->]; split; [done|]; split; [apply inert_refl|done])
      ltac:(intros t; by apply (owned_hold _ _ _ _ _ _ row)) (w, l) (conj eq_refl eq_refl)).
    by rewrite E' in Hp. }
  exact (Hr E).
Qed.
End deployed.

(** ** The cancellation's last turn, and a message after a person took over *)
Module Aftermath.
#[local] Existing Instance GatewayProps.Demo.host.

Definition answer_of (r : option (result TurnAnswer)) : TurnAnswer :=
  match r with Some (Ok a) => a | _ => mkTurnAnswer "" "" "" "" "" no_usage None false end.

(** The customer asks for a person, then writes again. *)
Definition handed := Dialogue.turn "talk to a human" "c3" Dialogue.confirmed.2.
Definition after := Dialogue.turn "Hello?" "c4" handed.2.

Example person_asked :
  (Outcome (answer_of handed.1), Outcome (answer_of after.1), ta_Run (answer_of after.1)) =
  ("escalated", "escalated", "").
Proof. vm_compute. reflexivity. Qed.

Definition owned_row : ConversationRow :=
  match List.find (is_conv "t" conversation_id) (conversations (db handed.2.1)) with
  | Some row => row
  | None => mkConversationRow "" "" None "" None "" 0 0 0 0
  end.
End Aftermath.

#[local] Existing Instance GatewayProps.Demo.host.

Lemma answered_turn_is_durable_witness :
  settled Dialogue.jsonb Dialogue.parts (Aftermath.answer_of Aftermath.handed.1) (db Aftermath.handed.2.1).
Proof.
  refine (answered_turn_is_durable Dialogue.jsonb len 40 Dialogue.postgres Dialogue.around Dialogue.parts 5
    conversation_id "talk to a human" "c3" Dialogue.confirmed.2.1 Dialogue.confirmed.2.2 _ _ Aftermath.handed.2.2 _).
  vm_compute. reflexivity.
Defined.

Lemma escalated_turn_is_inert_witness :
  Aftermath.after.2.2 = Aftermath.handed.2.2 /\
  inert Dialogue.parts conversation_id "Hello?" (db Aftermath.handed.2.1) (db Aftermath.after.2.1).
Proof.
  destruct (escalated_turn_is_inert Dialogue.jsonb len 40 Dialogue.postgres Dialogue.around Dialogue.parts 5
    conversation_id "Hello?" "c4" Aftermath.handed.2.1 Aftermath.handed.2.2 Aftermath.after.1
    Aftermath.after.2.1 Aftermath.after.2.2 Aftermath.owned_row) as (Hl & Hi & _).
  - vm_compute. reflexivity.
  - vm_compute. reflexivity.
  - vm_compute. reflexivity.
  - split; [exact Hl|]. exact Hi.
Defined.
