(* ===== verification/ConversationProps.v ===== *)
(** * Correcting inflated usage

    Recalibration brings the usage of the idle conversations of a tenant down to
    what their runs really used, and a second one finds nothing to do. *)

From Stdlib Require Import ZArith Lia Ascii.
From stdpp Require Import base list strings gmap.
From S2P Require Import Prelude State GoTime Json Budget Database DatabaseFacts Catalog Repository RepositoryFacts SalonDemo JsonParse ToolBackend Tools Runner Validation Confirmations Gateway Conversations Durable AgentTrace TurnQueue Service.

#[local] Open Scope Z_scope.

(** ** Recalibration *)
(** A row as it was, or an idle open one brought down to its real usage. *)
Definition brought_down (tenant : string) (penalty : Z) (d : DB) (c c' : ConversationRow) : Prop :=
  c' = c \/
  exists real, real_usage tenant penalty (cv_id c) d = Ok (Some real) /\ cv_tenant c = tenant /\
    cv_status c = "open" /\ cv_reserved c = 0 /\ real < cv_used c /\ c' = set_tokens real (cv_reserved c) c.

Lemma recalibrated_spec t p d c c' b :
  recalibrated t p d c = Ok (c', b) -> brought_down t p d c c' /\ recalibrated t p d c' = Ok (c', false).
Proof.
  unfold recalibrated. destruct (String.eqb_spec (cv_tenant c) t) as [Ht|Ht]; simpl.
  2: { intros [= <- <-]. split; [by left|]. by destruct (String.eqb_spec (cv_tenant c) t). }
  intros ([real|] & Hu & Hr)%rbind_Ok.
  2: { injection Hr as <- <-. split; [by left|]. rewrite (proj2 (String.eqb_eq _ _) Ht). simpl. by rewrite Hu. }
  destruct (_ && _) eqn:Hc.
  - destruct (conversation_check _) eqn:Hk; [|done]. injection Hr as <- <-.
    rewrite !andb_true_iff, String.eqb_eq, Z.eqb_eq, Z.ltb_lt in Hc. destruct Hc as [[Ho Hz] Hl].
    split; [right; by exists real|]. simpl. rewrite (proj2 (String.eqb_eq _ _) Ht). simpl. rewrite Hu. simpl.
    by rewrite Z.ltb_irrefl, andb_false_r.
  - injection Hr as <- <-. split; [by left|]. rewrite (proj2 (String.eqb_eq _ _) Ht). simpl. rewrite Hu. simpl.
    by rewrite Hc.
Qed.

Lemma recalibrate_Ok t p now n e d k d' :
  recalibrate_sql t p now n e d = Ok (k, d') ->
  exists l, d' = set_conversations l d /\ Forall2 (brought_down t p d) (conversations d) l /\
    forall now' n' e', recalibrate_sql t p now' n' e' d' = Ok (0%nat, d').
Proof.
  unfold recalibrate_sql. intros (p' & Hp & (rows & Hrows & [= _ <-])%rbind_Ok)%rbind_Ok.
  assert (p' = p) as -> by (unfold int4 in Hp; destruct (fits4 p); congruence).
  apply each_ok_Ok in Hrows. exists (map fst rows). split; [done|]. split.
  - induction Hrows as [|c [c' b] l rows Hc _ IH]; simpl; constructor; [|done]. by apply recalibrated_spec in Hc as [? _].
  - intros now' n' e'. rewrite Hp. simpl.
    assert (Hagain : each_ok (recalibrated t p (set_conversations (map fst rows) d)) (map fst rows)
                     = Ok (map (fun r => (r.1, false)) rows)).
    { apply each_ok_Ok. clear Hp. induction Hrows as [|c [c' b] l rows Hc _ IH]; simpl; constructor.
      - apply recalibrated_spec in Hc as [_ Hc]. exact Hc.
      - eapply Forall2_impl; [exact IH|]. by intros x y. }
    rewrite Hagain. simpl. f_equal. f_equal.
    + clear. by induction rows.
    + rewrite map_map. simpl. by destruct d.
Qed.

(** C32. Recalibration settles.  A successful recalibration leaves every
    conversation as it was, or, where it was the tenant's, open, without
    reservation and its recorded usage above the real one, with its usage set to
    the real one; no other table changes.  A second recalibration of these tables
    that is not disturbed touches no row. *)
Theorem recalibration_settles tenant penalty e w n w' :
  RecalibrateInflatedUsage tenant penalty e w = (Ok n, w') ->
  let p := if penalty <=? 0 then 500 else penalty in
  (exists l, db w' = set_conversations l (db w) /\
     Forall2 (brought_down tenant p (db w)) (conversations (db w)) l) /\
  forall e2 w2, db w2 = db w' -> fault e2 (tick w2) = None ->
    RecalibrateInflatedUsage tenant penalty e2 w2 = (Ok 0, bump w2).
Proof.
  intros Hr p. unfold RecalibrateInflatedUsage in Hr. open_all. fold p in Hm.
  apply recalibrate_Ok in Hm as (l & -> & Hl & Hagain). split; [by exists l|].
  intros e2 w2 Hw Hf. unfold RecalibrateInflatedUsage, bind, wrap, map_err, Database.run. simpl in Hw. fold p.
  rewrite Hf, Hw, Hagain. unfold ret, bump. simpl. by rewrite <- Hw.
Qed.
(** ** A conversation whose recorded usage was inflated *)
Module Inflated.
Definition row : ConversationRow :=
  mkConversationRow "t" conversation_id (Some customer_id) "demo" None "open" 0 50000 9000 0.

(** A failed call and an answered one. *)
Definition call (id : string) (no prompt completion : Z) : IterationRow :=
  mkIterationRow "t" id run_id no "completed" "stop" prompt completion 0 "{}" None (monday 7 0).

Definition tables : DB :=
  set_conversations [row] (set_iterations [call "i1" 1 0 0; call "i2" 2 100 20] (demo_db [])).

Definition once := RecalibrateInflatedUsage "t" 0 calm (idle tables).

Example brought_to_620 : (once.1, map cv_used (conversations (db once.2))) = (Ok 1, [620]).
Proof. vm_compute. reflexivity. Qed.
End Inflated.

Lemma recalibration_settles_witness :
  RecalibrateInflatedUsage "t" 0 calm Inflated.once.2 = (Ok 0, bump Inflated.once.2).
Proof.
  assert (E : Inflated.once = (Ok 1, Inflated.once.2)) by (vm_compute; reflexivity).
  destruct (recalibration_settles "t" 0 calm (idle Inflated.tables) 1 Inflated.once.2 E) as [_ Hagain].
  apply Hagain; reflexivity.
Defined.
