(* ===== verification/OpenRouter.v ===== *)
(** * The Chat Completions adapter: [internal/llm/openrouter.go]

    A request of the agent becomes a request of the provider, is sent up to a
    bounded number of times, and the provider's answer becomes a response.  The
    HTTP client, the clock, the source of random bytes and the timer are the
    operations of the interface [Http]; what [http.ParseTime] reads, which errors
    are network time-outs, and how a [float64] that is not a small integer is
    printed are its values.  A raw JSON message stands for the value it holds. *)

From Stdlib Require Import ZArith Lia Ascii.
From stdpp Require Import base list strings pretty.
From S2P Require Import Prelude State GoTime Json JsonParse Validation TimeText Tokens LLM Gateway.

#[local] Open Scope Z_scope.

(** ** Configuration *)
Definition defaultOpenRouterEndpoint : string := "https://openrouter.ai/api/v1/chat/completions".
Definition defaultOpenAIEndpoint : string := "https://api.openai.com/v1/chat/completions".
Definition defaultOpenRouterTimeout : Z := 20 * Second.
Definition defaultOpenRouterAttempts : Z := 3.
Definition defaultRetryBaseDelay : Z := 200 * Millisecond.
Definition defaultRetryMaxDelay : Z := 4 * Second.
Definition maxOpenRouterAttempts : Z := 10.
Definition maxOpenRouterResponseSize : Z := 4194304.

Record OpenRouterConfig := mkOpenRouterConfig {
  oc_APIKey : string; oc_Model : string; oc_Endpoint : string; oc_HTTPReferer : string;
  oc_AppTitle : string; oc_Timeout : Z; oc_MaxAttempts : Z; oc_RetryBaseDelay : Z; oc_RetryMaxDelay : Z
}.

Record OpenAIConfig := mkOpenAIConfig {
  ai_APIKey : string; ai_Model : string; ai_Endpoint : string; ai_Timeout : Z; ai_MaxAttempts : Z;
  ai_RetryBaseDelay : Z; ai_RetryMaxDelay : Z
}.

Record OpenRouterAdapter := mkAdapter {
  apiKey : string; model : string; endpoint : string; httpReferer : string; appTitle : string;
  timeout : Z; maxAttempts : Z; retryBaseDelay : Z; retryMaxDelay : Z
}.

Definition or_value {A} `{EqDecision A} (zero value other : A) : A := if bool_decide (value = zero) then other else value.

Definition NewOpenRouterAdapter (c : OpenRouterConfig) : result OpenRouterAdapter :=
  if blank (oc_APIKey c) then Err (ErrText "openrouter: API key is required")
  else if blank (oc_Model c) then Err (ErrText "openrouter: model is required")
  else
    let endpoint := or_value "" (TrimSpace (oc_Endpoint c)) defaultOpenRouterEndpoint in
    let timeout := if oc_Timeout c <=? 0 then defaultOpenRouterTimeout else oc_Timeout c in
    let attempts := or_value 0 (oc_MaxAttempts c) defaultOpenRouterAttempts in
    if (attempts <? 1) || (maxOpenRouterAttempts <? attempts)
    then Err (ErrText "openrouter: max attempts must be between 1 and 10")
    else
      let base := or_value 0 (oc_RetryBaseDelay c) defaultRetryBaseDelay in
      if base <? 0 then Err (ErrText "openrouter: retry base delay cannot be negative")
      else
        let max := or_value 0 (oc_RetryMaxDelay c) defaultRetryMaxDelay in
        if max <? base then Err (ErrText "openrouter: retry max delay must be at least the base delay")
        else Ok (mkAdapter (TrimSpace (oc_APIKey c)) (TrimSpace (oc_Model c)) endpoint (oc_HTTPReferer c)
                   (oc_AppTitle c) timeout attempts base max).

Definition NewOpenAIAdapter (c : OpenAIConfig) : result OpenRouterAdapter :=
  NewOpenRouterAdapter (mkOpenRouterConfig (ai_APIKey c) (ai_Model c)
    (or_value "" (TrimSpace (ai_Endpoint c)) defaultOpenAIEndpoint) "" "" (ai_Timeout c) (ai_MaxAttempts c)
    (ai_RetryBaseDelay c) (ai_RetryMaxDelay c)).

(** ** The wire *)
Record openRouterFunctionCall := mkFunctionCall { fc_Name : string; fc_Arguments : string }.

Record openRouterToolCall := mkWireCall {
  wc_ID : string; wc_Type : string; wc_Function : openRouterFunctionCall
}.

Record openRouterMessage := mkWireMessage {
  wm_Role : string; wm_Content : option string; wm_Name : string; wm_ToolCallID : string;
  wm_ToolCalls : list openRouterToolCall
}.

Record openRouterFunctionTool := mkFunctionTool { ft_Name : string; ft_Description : string; ft_Parameters : json }.

(** [Type] is ["function"]. *)
Record openRouterTool := mkWireTool { wt_Type : string; wt_Function : openRouterFunctionTool }.

Record openRouterRequest := mkWireRequest {
  wr_Model : string; wr_Messages : list openRouterMessage; wr_Tools : list openRouterTool;
  wr_ToolChoice : string; wr_ParallelToolCalls : bool; wr_MaxCompletionTokens : Z
}.

Definition ToolChoiceAuto : string := "auto".
Definition ToolChoiceRequired : string := "required".

(** *** Encoding *)
Definition call_json (c : openRouterToolCall) : json :=
  JObj [("id", JStr (wc_ID c)); ("type", JStr (wc_Type c));
        ("function", JObj [("name", JStr (fc_Name (wc_Function c))); ("arguments", JStr (fc_Arguments (wc_Function c)))])].

Definition omit_none (name : string) (o : option json) : object :=
  match o with None => [] | Some v => [(name, v)] end.

Definition omit_empty_list {A} (name : string) (f : A -> json) (l : list A) : object :=
  match l with [] => [] | _ => [(name, JArr (map f l))] end.

Definition message_json (m : openRouterMessage) : json :=
  JObj ([("role", JStr (wm_Role m))] ++ omit_none "content" (JStr <$> wm_Content m) ++
    omit_empty "name" (wm_Name m) ++ omit_empty "tool_call_id" (wm_ToolCallID m) ++
    omit_empty_list "tool_calls" call_json (wm_ToolCalls m)).

Definition tool_json (t : openRouterTool) : json :=
  JObj [("type", JStr (wt_Type t));
        ("function", JObj ([("name", JStr (ft_Name (wt_Function t)))] ++
           omit_empty "description" (ft_Description (wt_Function t)) ++
           [("parameters", ft_Parameters (wt_Function t))]))].

Definition request_json (r : openRouterRequest) : json :=
  JObj ([("model", JStr (wr_Model r)); ("messages", JArr (map message_json (wr_Messages r)))] ++
    omit_empty_list "tools" tool_json (wr_Tools r) ++ omit_empty "tool_choice" (wr_ToolChoice r) ++
    [("parallel_tool_calls", JBool (wr_ParallelToolCalls r))] ++
    (if wr_MaxCompletionTokens r =? 0 then [] else [("max_completion_tokens", JInt (wr_MaxCompletionTokens r))])).

(** *** Decoding

    A slice's element is decoded into the one an earlier duplicate of the member
    left there, as [encoding/json] does. *)
Fixpoint decode_elements {A} (f : json -> A -> option A) (zero : A) (l : list json) (old : list A)
    : option (list A) :=
  match l with
  | [] => Some []
  | v :: tl => a ← f v (hd zero old); r ← decode_elements f zero tl (List.tl old); Some (a :: r)
  end.

Definition decode_slice {A} (f : json -> A -> option A) (zero : A) (old : list A) (v : json) : option (list A) :=
  match v with JNull => Some [] | JArr l => decode_elements f zero l old | _ => None end.

Definition decode_pointer {A} (f : json -> A -> option A) (zero : A) (old : option A) (v : json)
    : option (option A) :=
  match v with JNull => Some None | _ => a ← f v (default zero old); Some (Some a) end.

Definition function_field (kv : string * json) (c : openRouterFunctionCall) : option openRouterFunctionCall :=
  let '(mkFunctionCall name arguments) := c in
  if names_field kv.1 "name" then x ← decode_text name kv.2; Some (mkFunctionCall x arguments)
  else if names_field kv.1 "arguments" then x ← decode_text arguments kv.2; Some (mkFunctionCall name x)
  else Some c.

Definition call_field (kv : string * json) (c : openRouterToolCall) : option openRouterToolCall :=
  let '(mkWireCall id type function) := c in
  if names_field kv.1 "id" then x ← decode_text id kv.2; Some (mkWireCall x type function)
  else if names_field kv.1 "type" then x ← decode_text type kv.2; Some (mkWireCall id x function)
  else if names_field kv.1 "function" then
    x ← decode_struct function_field kv.2 function; Some (mkWireCall id type x)
  else Some c.

Definition zero_call : openRouterToolCall := mkWireCall "" "" (mkFunctionCall "" "").

(** A raw message is kept as the value it holds; absent is [None]. *)
Record openRouterRawMessage := mkRawMessage {
  rm_Role : string; rm_Content : option json; rm_ToolCalls : list openRouterToolCall
}.

Definition raw_message_field (kv : string * json) (m : openRouterRawMessage) : option openRouterRawMessage :=
  let '(mkRawMessage role content calls) := m in
  if names_field kv.1 "role" then x ← decode_text role kv.2; Some (mkRawMessage x content calls)
  else if names_field kv.1 "content" then Some (mkRawMessage role (Some kv.2) calls)
  else if names_field kv.1 "tool_calls" then
    x ← decode_slice (decode_struct call_field) zero_call calls kv.2; Some (mkRawMessage role content x)
  else Some m.

Record openRouterAPIError := mkAPIError { ae_Code : option json; ae_Message : string }.

Definition api_error_field (kv : string * json) (x : openRouterAPIError) : option openRouterAPIError :=
  let '(mkAPIError code message) := x in
  if names_field kv.1 "code" then Some (mkAPIError (Some kv.2) message)
  else if names_field kv.1 "message" then m ← decode_text message kv.2; Some (mkAPIError code m)
  else Some x.

Definition decode_api_error : option openRouterAPIError -> json -> option (option openRouterAPIError) :=
  decode_pointer (decode_struct api_error_field) (mkAPIError None "").

Record openRouterChoice := mkChoice {
  ch_FinishReason : string; ch_Message : openRouterRawMessage; ch_Error : option openRouterAPIError
}.

Definition choice_field (kv : string * json) (x : openRouterChoice) : option openRouterChoice :=
  let '(mkChoice reason message err) := x in
  if names_field kv.1 "finish_reason" then r ← decode_text reason kv.2; Some (mkChoice r message err)
  else if names_field kv.1 "message" then
    m ← decode_struct raw_message_field kv.2 message; Some (mkChoice reason m err)
  else if names_field kv.1 "error" then e ← decode_api_error err kv.2; Some (mkChoice reason message e)
  else Some x.

Definition zero_choice : openRouterChoice := mkChoice "" (mkRawMessage "" None []) None.

Record openRouterUsage := mkWireUsage { wu_Prompt : Z; wu_Completion : Z; wu_Total : Z }.

Definition usage_field (kv : string * json) (u : openRouterUsage) : option openRouterUsage :=
  let '(mkWireUsage prompt completion total) := u in
  if names_field kv.1 "prompt_tokens" then x ← decode_int prompt kv.2; Some (mkWireUsage x completion total)
  else if names_field kv.1 "completion_tokens" then
    x ← decode_int completion kv.2; Some (mkWireUsage prompt x total)
  else if names_field kv.1 "total_tokens" then x ← decode_int total kv.2; Some (mkWireUsage prompt completion x)
  else Some u.

Record openRouterResponse := mkWireResponse {
  ws_ID : string; ws_Model : string; ws_Choices : list openRouterChoice; ws_Usage : openRouterUsage;
  ws_Error : option openRouterAPIError
}.

Definition response_field (kv : string * json) (r : openRouterResponse) : option openRouterResponse :=
  let '(mkWireResponse id model choices usage err) := r in
  if names_field kv.1 "id" then x ← decode_text id kv.2; Some (mkWireResponse x model choices usage err)
  else if names_field kv.1 "model" then x ← decode_text model kv.2; Some (mkWireResponse id x choices usage err)
  else if names_field kv.1 "choices" then
    x ← decode_slice (decode_struct choice_field) zero_choice choices kv.2;
    Some (mkWireResponse id model x usage err)
  else if names_field kv.1 "usage" then
    x ← decode_struct usage_field kv.2 usage; Some (mkWireResponse id model choices x err)
  else if names_field kv.1 "error" then
    x ← decode_api_error err kv.2; Some (mkWireResponse id model choices usage x)
  else Some r.

Definition zero_wire_response : openRouterResponse := mkWireResponse "" "" [] (mkWireUsage 0 0 0) None.

Definition decode_response (body : string) : option openRouterResponse :=
  v ← Unmarshal body; decode_struct response_field v zero_wire_response.

(** ** Failures *)
Record OpenRouterError := mkProviderError {
  StatusCode : Z; Code : option json; pe_Message : string; RetryAfter : Z
}.

(** What an attempt fails with: a sanitized answer of the provider, or any other
    error. *)
Inductive attempt_error := ProviderFailure (e : OpenRouterError) | Failed (e : error).

(** [OpenRouterError.Error]. *)
Definition Error_text (e : OpenRouterError) : string :=
  if 0 <? StatusCode e
  then String.append "openrouter: HTTP " (String.append (pretty (StatusCode e)) (String.append ": " (pe_Message e)))
  else String.append "openrouter: " (pe_Message e).

Definition as_error (e : attempt_error) : error :=
  match e with ProviderFailure p => ErrText (Error_text p) | Failed e => e end.

Definition retryable_status (status : Z) : bool := existsb (Z.eqb status) [408; 429; 500; 502; 503; 504].

Definition Retryable (e : OpenRouterError) : bool := retryable_status (StatusCode e).

(** [http.StatusText]. *)
Definition status_texts : list (Z * string) :=
  [(100, "Continue"); (101, "Switching Protocols"); (102, "Processing"); (103, "Early Hints");
   (200, "OK"); (201, "Created"); (202, "Accepted"); (203, "Non-Authoritative Information");
   (204, "No Content"); (205, "Reset Content"); (206, "Partial Content"); (207, "Multi-Status");
   (208, "Already Reported"); (226, "IM Used");
   (300, "Multiple Choices"); (301, "Moved Permanently"); (302, "Found"); (303, "See Other");
   (304, "Not Modified"); (305, "Use Proxy"); (307, "Temporary Redirect"); (308, "Permanent Redirect");
   (400, "Bad Request"); (401, "Unauthorized"); (402, "Payment Required"); (403, "Forbidden");
   (404, "Not Found"); (405, "Method Not Allowed"); (406, "Not Acceptable");
   (407, "Proxy Authentication Required"); (408, "Request Timeout"); (409, "Conflict"); (410, "Gone");
   (411, "Length Required"); (412, "Precondition Failed"); (413, "Request Entity Too Large");
   (414, "Request URI Too Long"); (415, "Unsupported Media Type");
   (416, "Requested Range Not Satisfiable"); (417, "Expectation Failed"); (418, "I'm a teapot");
   (421, "Misdirected Request"); (422, "Unprocessable Entity"); (423, "Locked");
   (424, "Failed Dependency"); (425, "Too Early"); (426, "Upgrade Required");
   (428, "Precondition Required"); (429, "Too Many Requests");
   (431, "Request Header Fields Too Large"); (451, "Unavailable For Legal Reasons");
   (500, "Internal Server Error"); (501, "Not Implemented"); (502, "Bad Gateway");
   (503, "Service Unavailable"); (504, "Gateway Timeout"); (505, "HTTP Version Not Supported");
   (506, "Variant Also Negotiates"); (507, "Insufficient Storage"); (508, "Loop Detected");
   (510, "Not Extended"); (511, "Network Authentication Required")].

Definition StatusText (status : Z) : string :=
  match List.find (fun e => e.1 =? status) status_texts with Some e => e.2 | None => "" end.

(** [strconv.Atoi]. *)
Definition Atoi (s : string) : option Z :=
  let '(sign, ds) := opt_sign (fun c => (code c =? 43) || (code c =? 45)) (string_bytes s) in
  match ds with
  | [] => None
  | _ =>
      n ← number 0 ds;
      let n := match sign with c :: _ => if code c =? 45 then - n else n | [] => n end in
      if (min_int64 <=? n) && (n <=? max_int64) then Some n else None
  end.

Definition client_or_server_error (n : Z) : bool := (400 <=? n) && (n <=? 599).

(** [None] where the code answers false. *)
Definition embeddedOpenRouterStatus (raw : option json) : option Z :=
  match raw with
  | None => None
  | Some v =>
      match decode_int 0 v with
      | Some n => if client_or_server_error n then Some n
                  else t ← decode_text "" v; n ← Atoi (TrimSpace t); if client_or_server_error n then Some n else None
      | None => t ← decode_text "" v; n ← Atoi (TrimSpace t); if client_or_server_error n then Some n else None
      end
  end.

Definition successful (status : Z) : bool := (200 <=? status) && (status <? 300).

(** ** The outside world *)
Record http_request := mkHttpRequest { hr_URL : string; hr_Headers : list (string * string); hr_Body : string }.

(** The request could not be made or not be sent, or it was answered: a status,
    the [Retry-After] header, and a body that may break off. *)
Inductive http_outcome :=
| NotCreated (e : error)
| NotSent (e : error)
| Answered (status : Z) (retry_after : string) (body : string) (broken : option error).

Class Http (S : Type) := {
  post : http_request -> St S http_outcome;
  ended : St S (option error);
  clock : St S Time;
  random64 : St S (option Z);
  timer : Z -> St S (option error);
  given_jitter : option (Z -> St S Z);
  given_wait : option (Z -> St S (option error))
}.

(** [float_text] prints a number that is not a small integer the way
    [encoding/json] prints the [float64] it reads, [None] when it is out of range;
    [float_int] is that number truncated. *)
Class Library := {
  ParseTime : string -> option Time;
  times_out : error -> bool;
  float_text : string -> option string;
  float_int : string -> Z
}.

Section adapter.
Context `{!Library}.

(** ** Schemas for the provider *)
Definition small_integer (literal : string) : option Z :=
  match decode_int 0 (JNum literal) with
  | Some n => if Z.abs n <=? 9007199254740992 then Some n else None
  | None => None
  end.

Definition number_text (literal : string) : option string :=
  match small_integer literal with Some _ => Some literal | None => float_text literal end.

Definition number_int (literal : string) : Z :=
  match small_integer literal with Some n => n | None => float_int literal end.

(** The numbers of a value as [float64]s. *)
Fixpoint floats (v : json) : option json :=
  match v with
  | JNum literal => JNum <$> number_text literal
  | JArr l =>
      JArr <$> (fix go l := match l with [] => Some [] | a :: tl => b ← floats a; r ← go tl; Some (b :: r) end) l
  | JObj l =>
      JObj <$> (fix go l := match l with
                            | [] => Some []
                            | (k, a) :: tl => b ← floats a; r ← go tl; Some ((k, b) :: r)
                            end) l
  | _ => Some v
  end.

Definition providerUnsupportedSchemaKeys : list string :=
  ["$schema"; "$id"; "$ref"; "$defs"; "defs"; "pattern"; "maxProperties"; "minProperties"; "minLength";
   "maxLength"; "anyOf"; "oneOf"; "allOf"; "format"].

Definition unsupported (key : string) : bool := existsb (String.eqb key) providerUnsupportedSchemaKeys.

Definition describedSchemaKeys : list string := ["format"; "pattern"; "minLength"; "maxLength"].

Definition constraint_text (key : string) (v : json) : list string :=
  match v with
  | JStr s =>
      if String.eqb key "format" then [String.append "must be a valid " s]
      else if String.eqb key "pattern" then [String.append "must match the regular expression " s]
      else []
  | JNum n =>
      if String.eqb key "minLength" then ["at least " +:+ pretty (number_int n) +:+ " characters"]
      else if String.eqb key "maxLength" then ["at most " +:+ pretty (number_int n) +:+ " characters"]
      else []
  | _ => []
  end.

Definition strippedConstraintNote (node : object) : string :=
  match flat_map (fun key => match member key node with Some v => constraint_text key v | None => [] end)
          describedSchemaKeys with
  | [] => ""
  | constraints => "Constraints: " +:+ join "; " constraints +:+ "."
  end.

(** The note is added to the description, which a text that is not one loses. *)
Definition add_note (note : string) (result : object) : object :=
  if bool_decide (note = "") then result
  else
    let description := default "" (text_member "description" result) in
    let description := if bool_decide (description = "") then description else description +:+ " " in
    sort_slice key_less (set_member "description" (JStr (description +:+ note)) result).

Fixpoint stripUnsupportedSchemaKeys (value : json) : json :=
  match value with
  | JObj typed =>
      JObj (add_note (strippedConstraintNote typed)
        (flat_map (fun kv => if unsupported kv.1 then [] else [(kv.1, stripUnsupportedSchemaKeys kv.2)]) typed))
  | JArr typed => JArr (map stripUnsupportedSchemaKeys typed)
  | _ => value
  end.

Definition sanitizeParametersForProvider (raw : json) : json :=
  match floats (as_any raw) with
  | None => raw
  | Some parsed => stripUnsupportedSchemaKeys parsed
  end.

(** ** Requests *)
Definition wire_call (call : ToolCall) : result openRouterToolCall :=
  if bool_decide (tc_ID call = "") || bool_decide (tc_Name call = "")
  then Err (ErrText "tool call requires id and name")
  else Ok (mkWireCall (tc_ID call) "function" (mkFunctionCall (tc_Name call) (tc_Arguments call))).

Definition has_calls (m : Message) : bool := negb (bool_decide (length (ToolCalls m) = 0%nat)).

Definition toOpenRouterMessage (message : Message) : result openRouterMessage :=
  if bool_decide (Role message = RoleSystem) || bool_decide (Role message = RoleUser) then
    if negb (bool_decide (ToolCallID message = "")) || has_calls message
    then Err (ErrText "system/user message cannot contain tool call fields")
    else Ok (mkWireMessage (Role message) (Some (Content message)) (msg_Name message) (ToolCallID message) [])
  else if bool_decide (Role message = RoleAssistant) then
    if negb (bool_decide (ToolCallID message = ""))
    then Err (ErrText "assistant message cannot be a tool response")
    else
      let content := if bool_decide (Content message = "") then None else Some (Content message) in
      let! calls := each_ok wire_call (ToolCalls message) in
      Ok (mkWireMessage (Role message) content (msg_Name message) (ToolCallID message) calls)
  else if bool_decide (Role message = RoleTool) then
    if bool_decide (ToolCallID message = "") then Err (ErrText "tool message requires tool_call_id")
    else if has_calls message then Err (ErrText "tool message cannot request tools")
    else Ok (mkWireMessage (Role message) (Some (Content message)) "" (ToolCallID message) [])
  else Err (ErrText "unsupported role").

Definition wrapped_message (m : Message) : result openRouterMessage :=
  match toOpenRouterMessage m with
  | Ok w => Ok w
  | Err e => Err (ErrWrap "openrouter: message" e)
  end.

Definition default_parameters : json :=
  JObj [("type", JStr "object"); ("additionalProperties", JBool false)].

Definition wire_tool (tool : ToolDefinition) : result openRouterTool :=
  if blank (td_Name tool) then Err (ErrText "openrouter: tool has no name")
  else
    match (if bool_decide (td_Parameters tool = "") then Some default_parameters
           else Unmarshal (td_Parameters tool)) with
    | None => Err (ErrText "openrouter: tool has invalid parameter schema")
    | Some parameters =>
        Ok (mkWireTool "function"
              (mkFunctionTool (td_Name tool) (td_Description tool) (sanitizeParametersForProvider parameters)))
    end.

Definition check_choice (request : Request) : result unit :=
  let choice := ToolChoice request in
  if bool_decide (choice = "") || bool_decide (choice = ToolChoiceAuto) then Ok tt
  else if bool_decide (choice = ToolChoiceRequired) then
    match Tools request with
    | [] => Err (ErrText "openrouter: required tool choice needs at least one tool")
    | _ => Ok tt
    end
  else Err (ErrText "openrouter: unsupported tool choice").

Definition toOpenRouterRequest (a : OpenRouterAdapter) (request : Request) : result openRouterRequest :=
  let! _ := check_choice request in
  let! messages := each_ok wrapped_message (Messages request) in
  match Tools request with
  | [] => Ok (mkWireRequest (model a) messages [] "" true (MaxOutputTokens request))
  | _ =>
      let! tools := each_ok wire_tool (Tools request) in
      Ok (mkWireRequest (model a) messages tools (or_value "" (ToolChoice request) ToolChoiceAuto) true
            (MaxOutputTokens request))
  end.

(** ** Responses *)
Definition decodeNullableString (raw : option json) : result string :=
  match raw with
  | None | Some JNull => Ok ""
  | Some (JStr s) => Ok s
  | Some _ => Err (ErrText "only text content is supported")
  end.

Definition read_call (call : openRouterToolCall) : result ToolCall :=
  if negb (bool_decide (wc_Type call = "")) && negb (bool_decide (wc_Type call = "function"))
  then Err (ErrText "openrouter: tool call has unsupported type")
  else if bool_decide (wc_ID call = "") || bool_decide (fc_Name (wc_Function call) = "")
  then Err (ErrText "openrouter: tool call requires id and name")
  else Ok (mkToolCall (wc_ID call) (fc_Name (wc_Function call)) (fc_Arguments (wc_Function call))).

Definition fromOpenRouterMessage (wire : openRouterRawMessage) : result Message :=
  if negb (bool_decide (rm_Role wire = RoleAssistant))
  then Err (ErrText "openrouter: completion has unexpected role")
  else
    match decodeNullableString (rm_Content wire) with
    | Err e => Err (ErrWrap "openrouter: decode assistant content" e)
    | Ok content =>
        let! calls := each_ok read_call (rm_ToolCalls wire) in
        Ok (mkMessage RoleAssistant content "" "" calls)
    end.

Definition wire_usage (u : openRouterUsage) : Usage := mkUsage (wu_Prompt u) (wu_Completion u) (wu_Total u).

Definition partialOpenRouterResponse (wire : openRouterResponse) : Response :=
  mkResponse (ws_ID wire) (ws_Model wire) zero_message "" (wire_usage (ws_Usage wire)) false 0.

(** [Retry-After]: a positive number of seconds, or a date to come. *)
Definition retry_after_header (header : string) (now : Time) : Z :=
  let header := TrimSpace header in
  if bool_decide (header = "") then 0
  else
    let date := match ParseTime header with
                | Some at_ => if After at_ now then Sub at_ now else 0
                | None => 0
                end in
    match Atoi header with
    | Some seconds => if 0 <? seconds then wrap64 (seconds * Second) else date
    | None => date
    end.

Definition newOpenRouterError (status : Z) (header : string) (providerError : option openRouterAPIError)
    (now : Time) : OpenRouterError :=
  let message := match providerError with Some e => TrimSpace (ae_Message e) | None => "" end in
  let code := match providerError with Some e => ae_Code e | None => None end in
  mkProviderError
    (if successful status then default status (embeddedOpenRouterStatus code) else status)
    code (or_value "" message (StatusText status)) (retry_after_header header now).

(** What the body of an answer says: a response, a failure of the adapter's own,
    or one of the provider's, whose error is built at the time of the clock. *)
Inductive reading :=
| Completed (r : Response)
| Unreadable (r : Response) (e : error)
| ProviderSaid (r : Response) (status : Z) (header : string) (e : option openRouterAPIError)
| FinishedInError (r : Response) (status : Z).

Definition read_choice (status : Z) (header : string) (wire : openRouterResponse) (choice : openRouterChoice)
    : reading :=
  match ch_Error choice with
  | Some e => ProviderSaid (partialOpenRouterResponse wire) status header (Some e)
  | None =>
      if bool_decide (ch_FinishReason choice = "error")
      then FinishedInError (partialOpenRouterResponse wire) status
      else
        match fromOpenRouterMessage (ch_Message choice) with
        | Err e => Unreadable zero_response e
        | Ok message =>
            Completed (mkResponse (ws_ID wire) (ws_Model wire) message (ch_FinishReason choice)
                         (wire_usage (ws_Usage wire)) false 0)
        end
  end.

Definition read_body (status : Z) (header body : string) : reading :=
  match decode_response body with
  | None =>
      if successful status then Unreadable zero_response (ErrText "openrouter: decode response")
      else ProviderSaid zero_response status header None
  | Some wire =>
      if negb (successful status) then
        ProviderSaid (partialOpenRouterResponse wire) status header (ws_Error wire)
      else
        match ws_Error wire, ws_Choices wire with
        | Some e, _ => ProviderSaid (partialOpenRouterResponse wire) status header (Some e)
        | None, [] => Unreadable zero_response (ErrText "openrouter: response contains no choices")
        | None, choice :: _ => read_choice status header wire choice
        end
  end.

(** At most one byte more than the limit is read. *)
Definition read_answer (status : Z) (header body : string) (broken : option error) : reading :=
  if maxOpenRouterResponseSize <? len body
  then Unreadable zero_response (ErrText "openrouter: response exceeds size limit")
  else match broken with
       | Some e => Unreadable zero_response (ErrWrap "openrouter: read response" e)
       | None => read_body status header body
       end.

Definition read_outcome (o : http_outcome) : reading :=
  match o with
  | NotCreated e => Unreadable zero_response (ErrWrap "openrouter: create request" e)
  | NotSent e => Unreadable zero_response (ErrWrap "openrouter: send request" e)
  | Answered status header body broken => read_answer status header body broken
  end.

(** ** Attempts *)
Definition headers (a : OpenRouterAdapter) : list (string * string) :=
  [("Authorization", "Bearer " +:+ apiKey a); ("Content-Type", "application/json")] ++
  (if bool_decide (httpReferer a = "") then [] else [("HTTP-Referer", httpReferer a)]) ++
  (if bool_decide (appTitle a = "") then [] else [("X-OpenRouter-Title", appTitle a)]).

Definition http_request_of (a : OpenRouterAdapter) (body : string) : http_request :=
  mkHttpRequest (endpoint a) (headers a) body.

Definition addProviderUsage (total usage : Usage) : Usage :=
  mkUsage (wrap64 (InputTokens total + InputTokens usage)) (wrap64 (OutputTokens total + OutputTokens usage))
    (wrap64 (TotalTokens total + Total usage)).

Definition transient_sentinels : list error :=
  map ErrSentinel ["EOF"; "unexpected EOF"; "connection reset by peer"; "connection refused"; "broken pipe";
                   "connection timed out"; "network is unreachable"; "no route to host"].

Definition isTransientTransportError (e : error) : bool :=
  existsb (errors_is e) transient_sentinels || times_out e.

Definition Canceled : error := ErrSentinel "context canceled".

(** The error part of [shouldRetryOpenRouter]. *)
Definition worth_retrying (e : attempt_error) : bool :=
  match e with
  | ProviderFailure p => retryable_status (StatusCode p) || (StatusCode p =? 200)
  | Failed e => negb (errors_is e Canceled) && isTransientTransportError e
  end.

Fixpoint backoff_steps (n : nat) (max backoff : Z) : Z :=
  match n with
  | O => backoff
  | S n =>
      if backoff <? max
      then if Z.quot max 2 <? backoff then max else backoff_steps n max (wrap64 (backoff * 2))
      else backoff
  end.

(** The wait grows with the attempts that failed, up to the configured maximum. *)
Definition backoff (a : OpenRouterAdapter) (failedAttempt : Z) : Z :=
  Z.min (backoff_steps (Z.to_nat (failedAttempt - 1)) (retryMaxDelay a) (retryBaseDelay a)) (retryMaxDelay a).

Definition error_retry_after (e : attempt_error) : Z :=
  match e with ProviderFailure p => RetryAfter p | Failed _ => 0 end.

Section world.
Context {S : Type} `{!Http S}.

Definition completeAttempt (a : OpenRouterAdapter) (body : string) : St S (Response * option attempt_error) :=
  let+ outcome := post (http_request_of a body) in
  match read_outcome outcome with
  | Completed r => st_ret (r, None)
  | Unreadable r e => st_ret (r, Some (Failed e))
  | ProviderSaid r status header e =>
      let+ now := clock in st_ret (r, Some (ProviderFailure (newOpenRouterError status header e now)))
  | FinishedInError r status =>
      st_ret (r, Some (ProviderFailure (mkProviderError status None "provider returned an error finish reason" 0)))
  end.

Definition cryptoRetryJitter (max : Z) : St S Z :=
  if max <=? 0 then st_ret 0
  else
    let+ random := random64 in
    st_ret (match random with
            | None => Z.quot max 2
            | Some r => wrap64 (r mod (wrap64 (max + 1) mod two64))
            end).

Definition waitForRetry (delay : Z) : St S (option error) := if delay <=? 0 then ended else timer delay.

Definition retryJitter : Z -> St S Z := default cryptoRetryJitter given_jitter.
Definition retryWait : Z -> St S (option error) := default waitForRetry given_wait.

Definition retryDelay (a : OpenRouterAdapter) (failedAttempt : Z) (e : attempt_error) : St S Z :=
  let backoff := backoff a failedAttempt in
  let half := Z.quot backoff 2 in
  let jitterWindow := backoff - half in
  let+ jitter := retryJitter jitterWindow in
  let delay := half + Z.min (Z.max jitter 0) jitterWindow in
  st_ret (if delay <? error_retry_after e then error_retry_after e else delay).

Definition shouldRetryOpenRouter (e : attempt_error) : St S bool :=
  let+ over := ended in
  st_ret (match over with Some _ => false | None => worth_retrying e end).

(** What the attempts so far have used. *)
Record tally := mkTally { t_Usage : Usage; t_Incomplete : bool; t_Unknown : Z }.

Definition count (t : tally) (r : Response) (failed : bool) : tally :=
  let unknown := failed && (Total (rsp_Usage r) <=? 0) in
  mkTally (addProviderUsage (t_Usage t) (rsp_Usage r)) (t_Incomplete t || unknown)
    (t_Unknown t + if unknown then 1 else 0).

Definition with_tally (t : tally) (r : Response) : Response :=
  mkResponse (rsp_ID r) (rsp_Model r) (rsp_Message r) (FinishReason r) (t_Usage t) (t_Incomplete t) (t_Unknown t).

(** The loop of [Complete]: [more] attempts remain, [attempt] is the next one's number. *)
Fixpoint attempts (more : nat) (a : OpenRouterAdapter) (body : string) (attempt : Z) (t : tally)
    : St S (Response * option attempt_error) :=
  match more with
  | O => st_ret (with_tally t zero_response,
                 Some (Failed (ErrText "openrouter: retry loop ended unexpectedly")))
  | Datatypes.S more =>
      let+ answer := completeAttempt a body in
      let '(response, failure) := (answer : Response * option attempt_error) in
      let t := count t response (match failure with Some _ => true | None => false end) in
      let response := with_tally t response in
      match failure with
      | None => st_ret (response, None)
      | Some e =>
          if attempt =? maxAttempts a then st_ret (response, Some e)
          else
            let+ again := shouldRetryOpenRouter e in
            if negb again then st_ret (response, Some e)
            else
              let+ delay := retryDelay a attempt e in
              let+ waited := retryWait delay in
              match waited with
              | Some w => st_ret (response, Some (Failed (ErrWrap "openrouter: retry wait" w)))
              | None => attempts more a body (attempt + 1) t
              end
      end
  end.

Definition CompleteRequest (a : OpenRouterAdapter) (request : Request)
    : St S (Response * option attempt_error) :=
  match toOpenRouterRequest a request with
  | Err e => st_ret (zero_response, Some (Failed e))
  | Ok wire =>
      attempts (Z.to_nat (maxAttempts a)) a (Marshal (request_json wire)) 1 (mkTally zero_usage false 0)
  end.

(** [Complete] as the interface of the agent's model has it. *)
Definition Adapter_Complete (a : OpenRouterAdapter) (request : Request) : St S (Response * option error) :=
  let+ answer := CompleteRequest a request in st_ret (answer.1, as_error <$> answer.2).
End world.

End adapter.
