(* ===== verification/OpenRouterProps.v ===== *)
(** * What the Chat Completions adapter does

    Over [OpenRouter]: how many requests one completion sends and what they are
    charged as, how long the waits between them are, what a provider's schema is
    left with, and the round trip of the assistant's messages. *)

From Stdlib Require Import ZArith Lia Ascii.
From stdpp Require Import base list strings pretty sorting.
From S2P Require Import Prelude State GoTime Json JsonParse Validation TimeText LLM Gateway JsonFacts GatewayProps Tokens OpenRouter.

#[local] Open Scope Z_scope.

(** ** Configurations that are accepted *)
Lemma or_value_cases {A} `{EqDecision A} (zero x y : A) :
  (x <> zero /\ or_value zero x y = x) \/ or_value zero x y = y.
Proof.
  unfold or_value. destruct (bool_decide (x = zero)) eqn:E; [by right|].
  apply bool_decide_eq_false_1 in E. by left.
Qed.

Lemma adapter_valid c a :
  NewOpenRouterAdapter c = Ok a ->
  1 <= maxAttempts a <= 10 /\ 0 < timeout a /\ 0 <= retryBaseDelay a <= retryMaxDelay a /\
  (in_int64 (oc_RetryMaxDelay c) -> in_int64 (retryMaxDelay a)).
Proof.
  unfold NewOpenRouterAdapter, maxOpenRouterAttempts. intros H. repeat case_match; try done.
  all: injection H as <-; cbn [maxAttempts timeout retryBaseDelay retryMaxDelay]; bool_to_prop.
  all: split_and!; [lia|lia|first [lia|by vm_compute]|lia|lia|].
  all: intros Hi; by destruct (or_value_cases 0 (oc_RetryMaxDelay c) defaultRetryMaxDelay) as [[_ ->]| ->].
Qed.

(** ** Requests on the wire *)
Inductive event := Posted (r : http_request) (o : http_outcome).

Section observed.
Context {S : Type} `{!Library} `{!Http S}.

#[local] Instance observed : Http (S * list event) := {|
  post r := noting (fun o => [Posted r o]) (post r);
  ended := silent ended;
  clock := silent clock;
  random64 := silent random64;
  timer z := silent (timer z);
  given_jitter := (fun f z => silent (f z)) <$> given_jitter;
  given_wait := (fun f z => silent (f z)) <$> given_wait
|}.

Definition quiet {A} (m : St (S * list event) A) : Prop := emits m (fun _ new => new = []).

Lemma quiet_ret {A} (a : A) : quiet (st_ret a).
Proof. by apply emits_ret. Qed.

Lemma quiet_bind {A B} (m : St (S * list event) A) (f : A -> St (S * list event) B) :
  quiet m -> (forall a, quiet (f a)) -> quiet (st_bind m f).
Proof. apply emits_quiet. Qed.

Lemma quiet_jitter z : quiet (retryJitter z).
Proof.
  unfold retryJitter. cbn [given_jitter observed]. destruct given_jitter; [apply emits_silent|].
  cbn. unfold cryptoRetryJitter. destruct (z <=? 0); [apply quiet_ret|].
  apply quiet_bind; [apply emits_silent|intros; apply quiet_ret].
Qed.

Lemma quiet_wait z : quiet (retryWait z).
Proof.
  unfold retryWait. cbn [given_wait observed]. destruct given_wait; [apply emits_silent|].
  cbn. unfold waitForRetry. destruct (z <=? 0); apply emits_silent.
Qed.

Lemma quiet_delay a k e : quiet (retryDelay a k e).
Proof. apply quiet_bind; [apply quiet_jitter|intros; apply quiet_ret]. Qed.

Lemma again_emits e :
  emits (shouldRetryOpenRouter e) (fun again new => new = [] /\ (again = true -> worth_retrying e = true)).
Proof.
  apply emits_quiet; [apply emits_silent|]. intros over. apply emits_ret. by destruct over.
Qed.

(** *** What an outcome is worth *)
Definition reading_response (r : reading) : Response :=
  match r with
  | Completed r | Unreadable r _ | ProviderSaid r _ _ _ | FinishedInError r _ => r
  end.

Definition reading_failure (now : Time) (r : reading) : option attempt_error :=
  match r with
  | Completed _ => None
  | Unreadable _ e => Some (Failed e)
  | ProviderSaid _ status header e => Some (ProviderFailure (newOpenRouterError status header e now))
  | FinishedInError _ status =>
      Some (ProviderFailure (mkProviderError status None "provider returned an error finish reason" 0))
  end.

Definition charged (o : http_outcome) : Usage := rsp_Usage (reading_response (read_outcome o)).

Definition completed (o : http_outcome) : bool :=
  match read_outcome o with Completed _ => true | _ => false end.

(** It failed without saying what it used. *)
Definition untold (o : http_outcome) : bool := negb (completed o) && (Total (charged o) <=? 0).

Definition retried (o : http_outcome) : bool :=
  match reading_failure zero_time (read_outcome o) with Some e => worth_retrying e | None => false end.

Lemma retried_at o now e :
  reading_failure now (read_outcome o) = Some e -> worth_retrying e = retried o.
Proof. unfold retried. by destruct (read_outcome o); intros [= <-]. Qed.

Lemma completeAttempt_emits a body :
  emits (completeAttempt a body) (fun answer new => exists o now,
    new = [Posted (http_request_of a body) o] /\
    answer = (reading_response (read_outcome o), reading_failure now (read_outcome o))).
Proof.
  unfold completeAttempt. apply emits_noted. intros o. destruct (read_outcome o) as [r|r e|r st h e|r st] eqn:Hr.
  - apply emits_ret. exists o, zero_time. by rewrite Hr.
  - apply emits_ret. exists o, zero_time. by rewrite Hr.
  - apply emits_quiet; [apply emits_silent|]. intros t. apply emits_ret. exists o, t. by rewrite Hr.
  - apply emits_ret. exists o, zero_time. by rewrite Hr.
Qed.

(** *** A run of attempts *)
Fixpoint sent_of (r : http_request) (l : list http_outcome) : list event :=
  match l with [] => [] | o :: tl => Posted r o :: sent_of r tl end.

Definition unknown_count (l : list http_outcome) : Z :=
  foldr (fun o n => (if untold o then 1 else 0) + n) 0 l.

Definition course (most : Z) (t : tally) (answer : Response * option attempt_error)
    (outs : list http_outcome) : Prop :=
  exists before last, outs = before ++ [last] /\ Z.of_nat (length outs) <= most /\
    rsp_Usage answer.1 = fold_left addProviderUsage (map charged outs) (t_Usage t) /\
    UnknownUsageAttempts answer.1 = t_Unknown t + unknown_count outs /\
    UsageIncomplete answer.1 = t_Incomplete t || existsb untold outs /\
    Forall (fun o => completed o = false /\ retried o = true) before /\
    (answer.2 = None <-> completed last = true).

Lemma count_outcome t o now :
  count t (reading_response (read_outcome o))
    (match reading_failure now (read_outcome o) with Some _ => true | None => false end) =
  mkTally (addProviderUsage (t_Usage t) (charged o)) (t_Incomplete t || untold o)
    (t_Unknown t + if untold o then 1 else 0).
Proof. unfold count, untold, completed, charged. by destruct (read_outcome o). Qed.

Lemma failure_completed o now : reading_failure now (read_outcome o) = None <-> completed o = true.
Proof. unfold completed. by destruct (read_outcome o). Qed.

(** The answer that ends the loop. *)
Lemma course_last most t o now (answer : Response * option attempt_error) :
  1 <= most ->
  answer.1 = with_tally (count t (reading_response (read_outcome o))
    (match reading_failure now (read_outcome o) with Some _ => true | None => false end))
    (reading_response (read_outcome o)) ->
  (answer.2 = None <-> reading_failure now (read_outcome o) = None) ->
  course most t answer [o].
Proof.
  intros Hm Ha Hf. exists [], o. rewrite Ha, count_outcome, Hf. cbn. rewrite orb_false_r.
  split_and!; try done; try lia. apply failure_completed.
Qed.

Lemma course_more most t o now answer outs :
  reading_failure now (read_outcome o) <> None -> retried o = true ->
  course most (count t (reading_response (read_outcome o)) true) answer outs ->
  course (most + 1) t answer (o :: outs).
Proof.
  intros Hf Hr (before & last & -> & Hl & Hu & Hk & Hi & Hb & Hn).
  assert (Hc : completed o = false).
  { destruct (completed o) eqn:E; [|done]. by apply failure_completed with (now := now) in E. }
  pose proof (count_outcome t o now) as Ht.
  destruct (reading_failure now (read_outcome o)); [|done]. rewrite Ht in Hu, Hk, Hi. cbn in Hu, Hk, Hi.
  exists (o :: before), last. split_and!; [done|cbn; cbn in Hl; lia|by rewrite Hu|cbn [app unknown_count foldr]|
    |by constructor|done].
  - rewrite Hk. unfold unknown_count. cbn. lia.
  - rewrite Hi. cbn. by rewrite orb_assoc.
Qed.

Lemma attempts_emits a body more k t :
  k + Z.of_nat more = maxAttempts a + 1 -> (0 < more)%nat ->
  emits (attempts more a body k t) (fun answer new => exists outs,
    new = sent_of (http_request_of a body) outs /\ course (Z.of_nat more) t answer outs).
Proof.
  revert k t. induction more as [|more IH]; intros k t Hk Hpos; [lia|].
  cbn [attempts]. eapply emits_bind; [apply completeAttempt_emits|].
  intros answer n1 (o & now & -> & ->). cbv zeta.
  destruct (reading_failure now (read_outcome o)) as [e|] eqn:He.
  2: { apply emits_ret. exists [o]. split; [done|]. apply (course_last _ _ _ now); [lia| |by rewrite He].
       by rewrite He. }
  assert (Hstop : forall r : attempt_error, course (Z.of_nat (Datatypes.S more)) t
    (with_tally (count t (reading_response (read_outcome o)) true) (reading_response (read_outcome o)), Some r)
    [o]) by (intros r; apply (course_last _ _ _ now); [lia|by rewrite He|by rewrite He]).
  destruct (k =? maxAttempts a) eqn:Hlast; [apply emits_ret; by exists [o]|]. apply Z.eqb_neq in Hlast.
  eapply emits_bind; [apply again_emits|]. intros again n2 [-> Hagain].
  destruct again; [|apply emits_ret; by exists [o]]. specialize (Hagain eq_refl).
  apply emits_quiet; [apply quiet_delay|]. intros delay.
  apply emits_quiet; [apply quiet_wait|]. intros [w|]; [apply emits_ret; by exists [o]|].
  eapply emits_conseq; [apply IH; lia|]. intros answer new (outs & -> & Hc). exists (o :: outs). split; [done|].
  replace (Z.of_nat (Datatypes.S more)) with (Z.of_nat more + 1) by lia.
  apply (course_more _ _ _ now); [by rewrite He|by rewrite <- (retried_at o now e)|done].
Qed.

(** C28. A completion whose request the adapter can express sends that request, the
    same each time, at least once and at most as often as it is configured to, ten
    times at the very most; all but the last answer are failures worth another
    attempt, and the completion succeeds just when the last does.  Its usage is the
    sum of what the answers say they used, and the attempts that failed without
    saying so are counted. *)
Theorem attempts_accounted (c : OpenRouterConfig) (a : OpenRouterAdapter) (request : Request)
    (wire : openRouterRequest) (Hnew : NewOpenRouterAdapter c = Ok a)
    (Hwire : toOpenRouterRequest a request = Ok wire) :
  maxAttempts a <= 10 /\
  emits (CompleteRequest a request) (fun answer new => exists outs,
    new = sent_of (http_request_of a (Marshal (request_json wire))) outs /\
    course (maxAttempts a) (mkTally zero_usage false 0) answer outs).
Proof.
  destruct (adapter_valid c a Hnew) as (Hmax & _). split; [lia|]. unfold CompleteRequest. rewrite Hwire.
  pose proof (attempts_emits a (Marshal (request_json wire)) (Z.to_nat (maxAttempts a)) 1
    (mkTally zero_usage false 0) ltac:(lia) ltac:(lia)) as He.
  by rewrite Z2Nat.id in He by lia.
Qed.
End observed.

(** ** Waits between attempts *)
Lemma backoff_steps_min n max b :
  in_int64 max -> 0 <= b <= max -> backoff_steps n max b = Z.min (b * 2 ^ Z.of_nat n) max.
Proof.
  intros Hm. revert b. induction n as [|n IH]; intros b Hb; [cbn; lia|].
  replace (2 ^ Z.of_nat (Datatypes.S n)) with (2 * 2 ^ Z.of_nat n)
    by (rewrite Nat2Z.inj_succ, Z.pow_succ_r by lia; lia).
  pose proof (Z.pow_pos_nonneg 2 (Z.of_nat n)). cbn [backoff_steps]. unfold in_int64, min_int64, max_int64 in Hm.
  destruct (b <? max) eqn:Hc1; [apply Z.ltb_lt in Hc1|apply Z.ltb_ge in Hc1; nia].
  rewrite Z.quot_div_nonneg by lia. pose proof (Z.div_mod max 2 ltac:(lia)). pose proof (Z.mod_pos_bound max 2).
  destruct (max / 2 <? b) eqn:Hc2; [apply Z.ltb_lt in Hc2; nia|apply Z.ltb_ge in Hc2].
  rewrite wrap64_id by (unfold in_int64, min_int64, max_int64; lia). rewrite IH by lia.
  by rewrite <- Z.mul_assoc.
Qed.

(** However the jitter falls out, the wait after the [k]-th failed attempt is
    at least half of the base delay doubled [k - 1] times and cut at the maximum,
    and at least what the provider asked for; it exceeds that delay only where the
    provider asked for more. *)
Theorem retry_waits_backed_off `{!Library} {S} `{!Http S} (c : OpenRouterConfig) (a : OpenRouterAdapter)
    (k : Z) (e : attempt_error) (s : S)
    (Hnew : NewOpenRouterAdapter c = Ok a) (Hdelay : in_int64 (oc_RetryMaxDelay c)) (Hk : 1 <= k) :
  let d := (retryDelay a k e s).1 in
  let b := Z.min (retryBaseDelay a * 2 ^ (k - 1)) (retryMaxDelay a) in
  Z.max (Z.quot b 2) (error_retry_after e) <= d <= Z.max b (error_retry_after e).
Proof.
  destruct (adapter_valid c a Hnew) as (_ & _ & Hb & Hmax). specialize (Hmax Hdelay). cbv zeta.
  unfold retryDelay, st_bind. destruct (retryJitter _ s) as [j s']. cbn [fst st_ret].
  assert (Hbk : backoff a k = Z.min (retryBaseDelay a * 2 ^ (k - 1)) (retryMaxDelay a)).
  { unfold backoff. rewrite backoff_steps_min by done. rewrite Z2Nat.id by lia. lia. }
  pose proof (Z.pow_pos_nonneg 2 (k - 1)). rewrite Hbk.
  set (b := Z.min _ (retryMaxDelay a)). assert (0 <= b) by (unfold b; nia).
  rewrite Z.quot_div_nonneg by lia. pose proof (Z.div_mod b 2 ltac:(lia)). pose proof (Z.mod_pos_bound b 2).
  destruct (_ <? error_retry_after e) eqn:Hc1; [apply Z.ltb_lt in Hc1|apply Z.ltb_ge in Hc1]; lia.
Qed.

(** ** Schemas *)
Definition keys (l : object) : list string := map fst l.

Lemma member_in k v l : NoDup (keys l) -> member k l = Some v <-> (k, v) ∈ l.
Proof.
  induction l as [|[k' v'] l IH]; cbn; intros Hn; [by split; [|intros ?%elem_of_nil]|].
  apply NoDup_cons in Hn as [Hk Hn]. rewrite elem_of_cons.
  destruct (decide (k' = k)) as [->|Hne].
  - rewrite bool_decide_eq_true_2 by done. split; [intros [= ->]; by left|].
    intros [[= ->]|Hin]; [done|]. destruct Hk. apply list_elem_of_fmap. by exists (k, v).
  - rewrite bool_decide_eq_false_2 by done. rewrite IH by done.
    split; [by right|]. by intros [[= -> ->]|].
Qed.

Lemma member_perm k l l' : l ≡ₚ l' -> NoDup (keys l) -> member k l' = member k l.
Proof.
  intros Hp Hn. assert (Hn' : NoDup (keys l')) by (eapply NoDup_Permutation_proper; [|exact Hn]; by apply Permutation_map).
  apply option_eq. intros v. rewrite !member_in by done. by rewrite Hp.
Qed.

Lemma set_member_keys k v l : NoDup (keys l) -> NoDup (keys (set_member k v l)).
Proof.
  assert (Hin : forall k' l, k' ∈ keys (set_member k v l) -> k' = k \/ k' ∈ keys l).
  { intros k' m. induction m as [|[k1 v1] m IH]; cbn; [rewrite elem_of_cons; tauto|].
    destruct (bool_decide (k1 = k)); cbn; rewrite !elem_of_cons; tauto. }
  induction l as [|[k1 v1] l IH]; cbn; intros Hn; [apply NoDup_singleton|].
  apply NoDup_cons in Hn as [Hk Hn]. destruct (decide (k1 = k)) as [->|Hne].
  - rewrite bool_decide_eq_true_2 by done. by apply NoDup_cons.
  - rewrite bool_decide_eq_false_2 by done. apply NoDup_cons. split; [|by apply IH].
    by intros [|]%Hin.
Qed.

Lemma as_any_keys v l : as_any v = JObj l -> NoDup (keys l).
Proof.
  destruct v as [| | | | |m]; cbn; intros [= <-]. unfold keys.
  rewrite sort_slice_perm. change (NoDup (keys (fold_left insert_member (map (fun kv => (kv.1, as_any kv.2)) m) []))).
  assert (Hn : NoDup (keys [])) by constructor. revert Hn. generalize (@nil (string * json)) as acc.
  induction m as [|kv m IH]; cbn; intros acc Hn; [done|]. by apply IH, set_member_keys.
Qed.

Section schemas.
Context `{Hlib : !Library}.

Lemma floats_keys v l : floats v = Some (JObj l) -> exists m, v = JObj m /\ keys m = keys l.
Proof.
  destruct v as [| | n | | m | m]; cbn; try done; [by destruct (number_text n)|by destruct (_ m)|].
  intros H. exists m. split; [done|]. revert l H. induction m as [|[k v] m IH]; intros l; cbn; [by intros [= <-]|].
  destruct (floats v) as [v'|]; cbn; [|done]. destruct (_ m) as [m'|] eqn:E; cbn; [|done].
  intros [= <-]. cbn. f_equal. by apply IH.
Qed.

#[local] Arguments unsupported : simpl never.
#[local] Arguments strippedConstraintNote : simpl never.

(** No keyword the providers lack, at any depth. *)
Fixpoint clean (v : json) : bool :=
  match v with
  | JObj l => forallb (fun kv => negb (unsupported kv.1) && clean kv.2) l
  | JArr l => forallb clean l
  | _ => true
  end.

Definition kept_members (typed : object) : object :=
  flat_map (fun kv => if unsupported kv.1 then [] else [(kv.1, stripUnsupportedSchemaKeys kv.2)]) typed.

Lemma forallb_in {A} (f : A -> bool) l : forallb f l = true <-> forall x, x ∈ l -> f x = true.
Proof. rewrite forallb_forall. by setoid_rewrite list_elem_of_In. Qed.

Lemma add_note_clean note l :
  forallb (fun kv => negb (unsupported kv.1) && clean kv.2) l = true ->
  forallb (fun kv => negb (unsupported kv.1) && clean kv.2) (add_note note l) = true.
Proof.
  intros H. unfold add_note. destruct (bool_decide _); [done|]. rewrite forallb_in.
  intros x Hx%elem_of_sort_slice. revert x Hx. rewrite <- forallb_in.
  set (d := JStr _). assert (Hd : clean d = true) by done. clearbody d.
  induction l as [|[k v] l IH]; cbn [set_member]; [cbn; by rewrite Hd|]. cbn [forallb fst snd] in H.
  apply andb_true_iff in H as [H1 H2].
  destruct (bool_decide (k = "description")) eqn:E; cbn [forallb fst snd].
  - apply bool_decide_eq_true_1 in E as ->. rewrite Hd. exact H2.
  - by rewrite H1, IH.
Qed.

Lemma strip_clean v : clean (stripUnsupportedSchemaKeys v) = true.
Proof.
  induction v as [|b|n|s|l IH|l IH] using json_nested_ind; try done; cbn.
  - induction IH as [|v l Hv _ IH]; cbn; [done|]. by rewrite Hv, IH.
  - apply add_note_clean. induction IH as [|[k v] l Hv _ IH]; cbn; [done|].
    destruct (unsupported k) eqn:E; cbn; [exact IH|]. rewrite E, IH. cbn in Hv. by rewrite Hv.
Qed.

Lemma clean_no_note l : forallb (fun kv => negb (unsupported kv.1) && clean kv.2) l = true ->
  strippedConstraintNote l = "".
Proof.
  intros H. assert (Hm : forall k, unsupported k = true -> member k l = None).
  { intros k Hk. induction l as [|[k' v] l IH]; cbn in *; [done|].
    apply andb_true_iff in H as [[H1 _]%andb_true_iff H2].
    rewrite bool_decide_eq_false_2 by (intros ->; by rewrite Hk in H1). by apply IH. }
  unfold strippedConstraintNote, describedSchemaKeys. cbn [flat_map].
  by rewrite !Hm by reflexivity.
Qed.

Lemma clean_strip v : clean v = true -> stripUnsupportedSchemaKeys v = v.
Proof.
  induction v as [|b|n|s|l IH|l IH] using json_nested_ind; intros Hc; try done; cbn in *.
  - f_equal. induction IH as [|v l Hv _ IH]; cbn in *; [done|].
    apply andb_true_iff in Hc as [H1 H2]. by rewrite Hv, IH.
  - rewrite clean_no_note by done. unfold add_note. rewrite bool_decide_eq_true_2 by done. f_equal.
    induction IH as [|[k v] l Hv _ IH]; cbn in *; [done|].
    apply andb_true_iff in Hc as [[H1 H2]%andb_true_iff H3]. apply negb_true_iff in H1.
    by rewrite H1, IH, Hv.
Qed.

Lemma kept_members_keys l : NoDup (keys l) -> NoDup (keys (kept_members l)).
Proof.
  assert (Hin : forall k l, k ∈ keys (kept_members l) -> k ∈ keys l).
  { intros k m. induction m as [|[k' v] m IH]; cbn; [done|]. rewrite elem_of_cons.
    destruct (unsupported k'); cbn; [auto|]. rewrite elem_of_cons. tauto. }
  induction l as [|[k v] l IH]; cbn; intros Hn; [constructor|]. apply NoDup_cons in Hn as [Hk Hn].
  destruct (unsupported k); cbn; [by apply IH|]. apply NoDup_cons. split; [by intros ?%Hin|by apply IH].
Qed.

Lemma kept_members_member k l :
  member k (kept_members l) = if unsupported k then None else stripUnsupportedSchemaKeys <$> member k l.
Proof.
  induction l as [|[k' v] l IH]; cbn; [by destruct (unsupported k)|].
  destruct (decide (k' = k)) as [->|Hne].
  - rewrite (bool_decide_eq_true_2 (k = k)) by done. destruct (unsupported k); [done|]. cbn.
    by rewrite bool_decide_eq_true_2.
  - rewrite (bool_decide_eq_false_2 (k' = k)) by done.
    destruct (unsupported k'); cbn; [done|]. by rewrite bool_decide_eq_false_2.
Qed.

(** What the provider is sent of a tool's schema (all of whose numbers fit a
    [float64]) has, at no depth, a keyword the providers lack, and stripping it again changes nothing.  At every object
    of the schema the other members are kept, each stripped in turn, and the
    constraints that went with the keywords are the end of its description. *)
Theorem sanitized_schema (raw parsed : json) (Hparsed : floats (as_any raw) = Some parsed) :
  clean (sanitizeParametersForProvider raw) = true /\
  stripUnsupportedSchemaKeys (sanitizeParametersForProvider raw) = sanitizeParametersForProvider raw /\
  forall typed, parsed = JObj typed -> exists result,
    sanitizeParametersForProvider raw = JObj result /\
    (forall k, k <> "description" ->
       member k result = if unsupported k then None else stripUnsupportedSchemaKeys <$> member k typed) /\
    (strippedConstraintNote typed <> "" -> exists before,
       member "description" result = Some (JStr (before +:+ strippedConstraintNote typed))) /\
    (strippedConstraintNote typed = "" ->
       member "description" result = stripUnsupportedSchemaKeys <$> member "description" typed).
Proof.
  unfold sanitizeParametersForProvider. rewrite Hparsed. pose proof (strip_clean parsed) as Hc.
  split; [done|]. split; [by apply clean_strip|]. intros typed ->.
  destruct (floats_keys _ _ Hparsed) as (m & Hm & Hk).
  assert (Hn : NoDup (keys typed)) by (rewrite <- Hk; by apply (as_any_keys raw)).
  apply kept_members_keys in Hn. eexists. split; [reflexivity|]. fold (kept_members typed).
  unfold add_note. destruct (bool_decide (strippedConstraintNote typed = "")) eqn:E.
  - apply bool_decide_eq_true_1 in E. rewrite E. split_and!; [|done|]; intros; by rewrite kept_members_member.
  - apply bool_decide_eq_false_1 in E. set (d := if bool_decide _ then _ else _).
    pose proof (fun k => member_perm k _ _ (symmetry (sort_slice_perm key_less
      (set_member "description" (JStr (d +:+ strippedConstraintNote typed)) (kept_members typed))))
      (set_member_keys _ _ _ Hn)) as Hs.
    split_and!; [|intros _; exists d|done].
    + intros k Hne. rewrite Hs, member_set, bool_decide_eq_false_2 by done. apply kept_members_member.
    + by rewrite Hs, member_set, bool_decide_eq_true_2.
Qed.
End schemas.

(** ** The assistant's messages *)
Definition text_ok (m : Message) : Prop :=
  ValidString (Content m) = true /\ ValidString (msg_Name m) = true /\
  Forall (fun c => ValidString (tc_ID c) = true /\ ValidString (tc_Name c) = true /\
                   ValidString (tc_Arguments c) = true) (ToolCalls m).

Definition call_ok (c : openRouterToolCall) : Prop :=
  ValidString (wc_ID c) = true /\ ValidString (wc_Type c) = true /\
  ValidString (fc_Name (wc_Function c)) = true /\ ValidString (fc_Arguments (wc_Function c)) = true.

Lemma call_json_encodable c : call_ok c -> encodable (call_json c) = true.
Proof. intros (H1 & H2 & H3 & H4). unfold call_json. cbn [encodable forallb fst snd]. by rewrite H1, H2, H3, H4. Qed.

Lemma decode_call c : decode_struct call_field (call_json c) zero_call = Some c.
Proof.
  destruct c as [id type [name arguments]]. unfold call_json, zero_call.
  cbn [decode_struct decode_fields mbind option_bind call_field fst snd wc_ID wc_Type wc_Function fc_Name fc_Arguments].
  repeat progress (eval_names; cbn [decode_struct decode_fields mbind option_bind decode_text call_field
    function_field fst snd]). done.
Qed.

Lemma decode_calls l :
  decode_elements (decode_struct call_field) zero_call (map call_json l) [] = Some l.
Proof.
  induction l as [|c l IH]; [done|]. cbn [map decode_elements hd List.tl]. by rewrite decode_call; cbn; rewrite IH.
Qed.

Lemma decode_slice_calls l :
  decode_slice (decode_struct call_field) zero_call [] (JArr (map call_json l)) = Some l.
Proof. apply decode_calls. Qed.

Lemma calls_wired l calls :
  each_ok wire_call l = Ok calls -> each_ok read_call calls = Ok l.
Proof.
  rewrite !each_ok_Ok. induction 1 as [|c w l calls Hc _ IH]; constructor; [|done]. revert Hc.
  unfold wire_call, read_call. destruct c as [id name arguments]. cbn [tc_ID tc_Name tc_Arguments].
  destruct (_ || _) eqn:E; [done|]. intros [= <-]. cbn [wc_ID wc_Type wc_Function fc_Name fc_Arguments].
  by rewrite E.
Qed.

Lemma calls_text_ok l calls :
  each_ok wire_call l = Ok calls ->
  Forall (fun c => ValidString (tc_ID c) = true /\ ValidString (tc_Name c) = true /\
                   ValidString (tc_Arguments c) = true) l -> Forall call_ok calls.
Proof.
  rewrite each_ok_Ok. induction 1 as [|c w l calls Hc _ IH]; inversion 1 as [|? ? (H1 & H2 & H3) H4]; subst; constructor; auto.
  revert Hc. unfold wire_call. destruct (_ || _); [done|]. by intros [= <-].
Qed.

Lemma calls_encodable l : Forall call_ok l -> forallb encodable (map call_json l) = true.
Proof. induction 1 as [|c l Hc _ IH]; [done|]. cbn [map forallb]. by rewrite call_json_encodable, IH. Qed.

Lemma calls_height l : foldr (fun x n => Z.max (height x) n) 0 (map call_json l) <= 2.
Proof. induction l as [|c l IH]; [done|]. cbn [map foldr]. change (height (call_json c)) with 2. lia. Qed.

Lemma assistant_encodable content name calls :
  default true (ValidString <$> content) = true -> ValidString name = true -> Forall call_ok calls ->
  let v := message_json (mkWireMessage RoleAssistant content name "" calls) in
  encodable v = true /\ height v <= 4.
Proof.
  intros Hc Hn Hl. apply calls_encodable in Hl. pose proof (calls_height calls) as Hh. unfold message_json.
  cbn [wm_Role wm_Content wm_Name wm_ToolCallID wm_ToolCalls].
  unfold omit_empty. destruct content as [content|], (bool_decide (name = "")), calls as [|c calls];
    cbn [omit_none omit_empty_list app fmap option_fmap option_map default from_option id] in *; unfold id in Hc;
    rewrite (bool_decide_eq_true_2 ("" = "")) by done; cbn [app encodable height forallb foldr fst snd] in *;
    (split; [by rewrite ?Hc, ?Hn, ?Hl|lia]).
Qed.

(** An assistant message that the adapter puts on the wire is read back from
    its JSON text as the message it was, its tool calls in order, with their
    arguments, but without the name a model's answer never carries. *)
Theorem assistant_message_roundtrip (m : Message) (w : openRouterMessage)
    (Hrole : Role m = RoleAssistant) (Hw : toOpenRouterMessage m = Ok w) (Htext : text_ok m) :
  exists v raw, Unmarshal (Marshal (message_json w)) = Some v /\
    decode_struct raw_message_field v (mkRawMessage "" None []) = Some raw /\
    fromOpenRouterMessage raw = Ok (mkMessage RoleAssistant (Content m) "" "" (ToolCalls m)).
Proof.
  destruct Htext as (Hct & Hnm & Hcs). revert Hw. unfold toOpenRouterMessage. rewrite Hrole. cbn [bool_decide].
  rewrite (bool_decide_eq_false_2 (RoleAssistant = RoleSystem)), (bool_decide_eq_false_2 (RoleAssistant = RoleUser)),
    (bool_decide_eq_true_2 (RoleAssistant = RoleAssistant)) by done.
  cbn [orb]. destruct (bool_decide (ToolCallID m = "")) eqn:Hid; [|done]. apply bool_decide_eq_true_1 in Hid.
  cbn [negb]. intros (calls & Hcalls & [= <-])%rbind_Ok. rewrite Hid.
  pose proof (calls_text_ok _ _ Hcalls Hcs) as Hok. apply calls_wired in Hcalls.
  set (content := if bool_decide (Content m = "") then None else Some (Content m)).
  assert (Hv : default true (ValidString <$> content) = true) by (unfold content; by destruct (bool_decide _)).
  destruct (assistant_encodable content (msg_Name m) calls Hv Hnm Hok) as [He Hh].
  eexists. exists (mkRawMessage RoleAssistant (JStr <$> content) calls).
  split; [apply Unmarshal_Marshal; [done|unfold maxNestingDepth; lia]|].
  split.
  - unfold message_json. cbn [wm_Role wm_Content wm_Name wm_ToolCallID wm_ToolCalls]. unfold omit_empty.
    rewrite (bool_decide_eq_true_2 ("" = "")) by done.
    destruct content as [t|], (bool_decide (msg_Name m = "")), calls as [|c calls];
    cbn [omit_none omit_empty_list app fmap option_fmap option_map];
    repeat progress (cbn [decode_struct decode_fields mbind option_bind decode_text raw_message_field fst snd];
      eval_names); rewrite ?decode_slice_calls; done.
  - unfold fromOpenRouterMessage. cbn [rm_Role rm_Content rm_ToolCalls].
    rewrite bool_decide_eq_true_2 by done. cbn [negb]. rewrite Hcalls.
    unfold content. by destruct (bool_decide (Content m = "")) eqn:E; [apply bool_decide_eq_true_1 in E as ->|].
Qed.

(** ** A completion at work *)
Module AdapterDemo.
#[export] Instance demo_library : Library := {|
  ParseTime _ := None; times_out _ := false; float_text s := Some s; float_int _ := 0
|}.

(** The answers to come. *)
#[export] Instance scripted_http : Http (list http_outcome) := {|
  post _ s := match s with [] => (NotSent (ErrSentinel "EOF"), []) | o :: tl => (o, tl) end;
  ended s := (None, s);
  clock s := (zero_time, s);
  random64 s := (Some 12345678, s);
  timer _ s := (None, s);
  given_jitter := None;
  given_wait := None
|}.

Definition demo_config : OpenRouterConfig := mkOpenRouterConfig " key " "model" "" "" "Kontor" 0 0 0 0.
Definition demo_adapter : OpenRouterAdapter :=
  mkAdapter "key" "model" defaultOpenRouterEndpoint "" "Kontor" (20 * Second) 3 (200 * Millisecond) (4 * Second).

Definition find_call : ToolCall := mkToolCall "call_1" "find_slots" (Marshal (JObj [("service_id", JStr "s1")])).

Definition demo_message : Message := mkMessage RoleAssistant "Let me look." "agent" "" [find_call].

Definition demo_schema : json :=
  JObj [("type", JStr "object");
        ("properties", JObj [("service_id", JObj [("type", JStr "string"); ("format", JStr "uuid");
                                                 ("description", JStr "The service.")])]);
        ("minProperties", JInt 1)].

Definition demo_request : Request :=
  mkRequest [mkMessage RoleUser "Tomorrow?" "" "" []; demo_message;
             mkMessage RoleTool "[]" "" "call_1" []]
    [mkToolDefinition "find_slots" "1.0.0" "Free times" (Marshal demo_schema)] "" 500.

Definition demo_wire : openRouterRequest :=
  match toOpenRouterRequest demo_adapter demo_request with
  | Ok w => w
  | Err _ => mkWireRequest "" [] [] "" false 0
  end.

Definition usage_json (prompt completion : Z) : json :=
  JObj [("prompt_tokens", JInt prompt); ("completion_tokens", JInt completion)].

Definition overloaded : http_outcome :=
  Answered 503 "1" (Marshal (JObj [("error", JObj [("message", JStr "overloaded")]); ("usage", usage_json 7 0)])) None.

Definition spoken : http_outcome :=
  Answered 200 "" (Marshal (JObj [("id", JStr "gen-1"); ("choices", JArr [JObj
    [("finish_reason", JStr "stop");
     ("message", JObj [("role", JStr "assistant"); ("content", JStr "At ten?")])]]);
    ("usage", usage_json 20 5)])) None.

Example two_attempts :
  (CompleteRequest demo_adapter demo_request [NotSent (ErrSentinel "EOF"); overloaded; spoken]).1 =
  (mkResponse "gen-1" "" (mkMessage RoleAssistant "At ten?" "" "" []) "stop" (mkUsage 27 5 32) true 1, None).
Proof. vm_compute. reflexivity. Qed.

Example wire_schema :
  map (fun t => Marshal (ft_Parameters (wt_Function t))) (wr_Tools demo_wire) =
  [Marshal (JObj [("properties", JObj [("service_id", JObj
     [("description", JStr "The service. Constraints: must be a valid uuid."); ("type", JStr "string")])]);
     ("type", JStr "object")])].
Proof. vm_compute. reflexivity. Qed.
End AdapterDemo.

Import AdapterDemo.

Lemma attempts_accounted_witness :
  NewOpenRouterAdapter demo_config = Ok demo_adapter /\
  toOpenRouterRequest demo_adapter demo_request = Ok demo_wire /\
  maxAttempts demo_adapter <= 10 /\
  @emits (list http_outcome) event _ (@CompleteRequest _ _ observed demo_adapter demo_request) (fun answer new => exists outs,
    new = sent_of (http_request_of demo_adapter (Marshal (request_json demo_wire))) outs /\
    course (maxAttempts demo_adapter) (mkTally zero_usage false 0) answer outs).
Proof.
  assert (H1 : NewOpenRouterAdapter demo_config = Ok demo_adapter) by (vm_compute; reflexivity).
  assert (H2 : toOpenRouterRequest demo_adapter demo_request = Ok demo_wire) by (vm_compute; reflexivity).
  split; [exact H1|]. split; [exact H2|].
  exact (attempts_accounted demo_config demo_adapter demo_request demo_wire H1 H2).
Defined.

Lemma retry_waits_backed_off_witness :
  NewOpenRouterAdapter demo_config = Ok demo_adapter /\
  let d := (retryDelay demo_adapter 2 (Failed Canceled) []).1 in
  let b := Z.min (retryBaseDelay demo_adapter * 2 ^ (2 - 1)) (retryMaxDelay demo_adapter) in
  b = 400 * Millisecond /\
  Z.max (Z.quot b 2) (error_retry_after (Failed Canceled)) <= d <= Z.max b (error_retry_after (Failed Canceled)).
Proof.
  assert (H1 : NewOpenRouterAdapter demo_config = Ok demo_adapter) by (vm_compute; reflexivity).
  split; [exact H1|]. cbv zeta. split; [reflexivity|].
  apply (retry_waits_backed_off demo_config demo_adapter 2 (Failed Canceled) []); [exact H1|vm_compute; split; discriminate|lia].
Defined.

Lemma sanitized_schema_witness :
  exists parsed, floats (as_any demo_schema) = Some parsed /\
  clean (sanitizeParametersForProvider demo_schema) = true /\
  stripUnsupportedSchemaKeys (sanitizeParametersForProvider demo_schema) = sanitizeParametersForProvider demo_schema.
Proof.
  eexists. assert (H : floats (as_any demo_schema) = Some _) by (vm_compute; reflexivity).
  split; [exact H|]. destruct (sanitized_schema demo_schema _ H) as (H1 & H2 & _). split; [exact H1|exact H2].
Defined.

Lemma assistant_message_roundtrip_witness :
  exists w, toOpenRouterMessage demo_message = Ok w /\
  exists v raw, Unmarshal (Marshal (message_json w)) = Some v /\
    decode_struct raw_message_field v (mkRawMessage "" None []) = Some raw /\
    fromOpenRouterMessage raw = Ok (mkMessage RoleAssistant "Let me look." "" "" [find_call]).
Proof.
  eexists. assert (H : toOpenRouterMessage demo_message = Ok _) by (vm_compute; reflexivity).
  split; [exact H|].
  apply (assistant_message_roundtrip demo_message _); [reflexivity|exact H|].
  split; [reflexivity|]. split; [reflexivity|]. repeat constructor.
Defined.
