(* ===== verification/Delivery.v ===== *)
(** * Deliveries: [internal/notifications/notifications.go], [internal/crm]

    What the worker hands over to the outside: reminders, contacts and deals.
    The interfaces are the class [Drivers]; the log drivers write lines on a log,
    and the HubSpot driver is written over the HTTP client of [OpenRouter.Http]. *)

From Stdlib Require Import ZArith Lia Ascii.
From stdpp Require Import base list strings pretty.
From S2P Require Import Prelude State GoTime Json JsonParse Validation Tokens OpenRouter.

#[local] Open Scope Z_scope.

(** ** What is delivered *)
Record Reminder := mkReminder {
  rm_TenantID : string; rm_BookingID : string; rm_CustomerName : string; rm_CustomerEmail : string;
  rm_CustomerPhone : string; rm_ServiceName : string; rm_StaffName : string; rm_StartsAt : Time;
  rm_Timezone : string
}.

Record SendResult := mkSendResult { sr_Provider : string; sr_ExternalID : string }.

Record Contact := mkContact {
  ct_TenantID : string; ct_CustomerID : string; ct_DisplayName : string; ct_Email : string;
  ct_Phone : string; ct_Company : string; ct_Locale : string
}.

Record Deal := mkDeal {
  dl_TenantID : string; dl_BookingID : string; dl_ContactRef : string; dl_ServiceName : string;
  dl_StaffName : string; dl_StartsAt : Time; dl_Amount : Z; dl_Currency : string
}.

Record UpsertResult := mkUpsertResult { ur_Provider : string; ur_ContactRef : string; ur_Created : bool }.
Record DealResult := mkDealResult { dr_Provider : string; dr_DealID : string; dr_Created : bool }.

(** [Notifier] and [CRM]. *)
Class Drivers (S : Type) := {
  SendReminder : Reminder -> St S (result SendResult);
  UpsertContact : Contact -> St S (result UpsertResult);
  CreateDeal : Deal -> St S (result DealResult)
}.

(** ** The log drivers *)
Inductive LogLine :=
| ReminderSent (tenant booking customer email service staff starts : string)
| ContactUpserted (tenant customer name email : string)
| DealCreated (tenant booking contact service : string) (amount : Z) (currency : string).

#[export] Instance log_drivers : Drivers (list LogLine) := {|
  SendReminder r log :=
    (Ok (mkSendResult "log" ""),
     log ++ [ReminderSent (rm_TenantID r) (rm_BookingID r) (rm_CustomerName r) (rm_CustomerEmail r)
               (rm_ServiceName r) (rm_StaffName r) (RFC3339 (rm_StartsAt r))]);
  UpsertContact c log :=
    (Ok (mkUpsertResult "log" ("ctr_v1_log_" +:+ ct_CustomerID c) true),
     log ++ [ContactUpserted (ct_TenantID c) (ct_CustomerID c) (ct_DisplayName c) (ct_Email c)]);
  CreateDeal d log :=
    (Ok (mkDealResult "log" ("deal_log_" +:+ dl_BookingID d) true),
     log ++ [DealCreated (dl_TenantID d) (dl_BookingID d) (dl_ContactRef d) (dl_ServiceName d)
               (dl_Amount d) (dl_Currency d)])
|}.

(** ** HubSpot *)
Module HubSpot.
Record HubSpotConfig := mkConfig { hc_APIKey : string; hc_BaseURL : string; hc_Timeout : Z }.
Record HubSpotCRM := mkCRM { apiKey : string; baseURL : string; timeout : Z }.

Definition NewHubSpotCRM (cfg : HubSpotConfig) : result HubSpotCRM :=
  if bool_decide (hc_APIKey cfg = "") then Err (ErrText "crm/hubspot: API key is required")
  else Ok (mkCRM (hc_APIKey cfg) (or_value "" (hc_BaseURL cfg) "https://api.hubapi.com")
             (if hc_Timeout cfg <=? 0 then 10 * Second else hc_Timeout cfg)).

(** A map's members are printed in the order of their keys. *)
Definition contact_json (c : Contact) : json :=
  JObj [("properties", JObj [("company", JStr (ct_Company c)); ("email", JStr (ct_Email c));
                             ("firstname", JStr (ct_DisplayName c)); ("phone", JStr (ct_Phone c))])].

(** [fmt.Sprintf("%.2f", float64(amount)/100)].  Below 2^51 the quotient is off by
    less than half a cent and the text is exact; [inexact] prints the others. *)
Definition two_digits (n : Z) : string := (if n <? 10 then "0" else "") +:+ pretty n.

Definition amount_text (inexact : Z -> string) (amount : Z) : string :=
  if Z.abs amount <? 2 ^ 51
  then (if amount <? 0 then "-" else "") +:+ pretty (Z.abs amount / 100) +:+ "." +:+
       two_digits (Z.abs amount mod 100)
  else inexact amount.

Definition deal_json (inexact : Z -> string) (d : Deal) : json :=
  JObj [("properties", JObj [("amount", JStr (amount_text inexact (dl_Amount d)));
                             ("dealname", JStr ("Booking " +:+ dl_BookingID d));
                             ("dealstage", JStr "appointmentscheduled"); ("pipeline", JStr "default")])].

Definition request (h : HubSpotCRM) (path : string) (body : json) : http_request :=
  mkHttpRequest (baseURL h +:+ path)
    [("Authorization", "Bearer " +:+ apiKey h); ("Content-Type", "application/json")] (Marshal body).

Definition id_field (kv : string * json) (id : string) : option string :=
  if names_field kv.1 "id" then decode_text id kv.2 else Some id.

(** The first 65536 bytes that can be read, and the [id] in them. *)
Definition limited (body : string) : string := of_bytes (take (Z.to_nat 65536) (string_bytes body)).

Definition decode_id (body : string) : option string :=
  v ← Unmarshal (limited body); decode_struct id_field v "".

Definition read_contact (o : http_outcome) : result UpsertResult :=
  match o with
  | NotCreated e => Err (ErrWrap "crm/hubspot: build request" e)
  | NotSent e => Err (ErrWrap "crm/hubspot: create contact" e)
  | Answered status _ body _ =>
      if status =? 201 then
        match decode_id body with
        | Some id => Ok (mkUpsertResult "hubspot" ("ctr_v1_hs_" +:+ id) true)
        | None => Err (ErrText "crm/hubspot: decode create response")
        end
      else if status =? 409 then Ok (mkUpsertResult "hubspot" "ctr_v1_hs_existing" false)
      else Err (ErrText ("crm/hubspot: unexpected status " +:+ pretty status +:+ ": " +:+ limited body))
  end.

Definition read_deal (o : http_outcome) : result DealResult :=
  match o with
  | NotCreated e => Err (ErrWrap "crm/hubspot: build deal request" e)
  | NotSent e => Err (ErrWrap "crm/hubspot: create deal" e)
  | Answered status _ body _ =>
      if negb (status =? 201)
      then Err (ErrText ("crm/hubspot: create deal status " +:+ pretty status +:+ ": " +:+ limited body))
      else match decode_id body with
           | Some id => Ok (mkDealResult "hubspot" ("deal_hs_" +:+ id) true)
           | None => Err (ErrText "crm/hubspot: decode deal response")
           end
  end.

Section driver.
Context {S : Type} `{!Http S} (inexact : Z -> string) (h : HubSpotCRM).

Definition UpsertContact (c : Contact) : St S (result UpsertResult) :=
  if bool_decide (ct_Email c = "")
  then st_ret (Err (ErrText "crm/hubspot: email is required for contact upsert"))
  else let+ o := post (request h "/crm/v3/objects/contacts" (contact_json c)) in st_ret (read_contact o).

Definition CreateDeal (d : Deal) : St S (result DealResult) :=
  let+ o := post (request h "/crm/v3/objects/deals" (deal_json inexact d)) in st_ret (read_deal o).
End driver.
End HubSpot.
