(* ===== verification/Worker.v ===== *)
(** * The worker: [cmd/worker/main.go]

    The handlers of the three kinds of job, one job from its handler to the write
    of its outcome, a batch of jobs run by concurrent goroutines, and the loop that
    reaps, claims and processes.  A batch and the loop are transition systems: a
    [choice] says which goroutine or which part of the loop moves, and every
    interleaving of the goroutines is a list of choices.  A call of the queue or
    of a driver is one move. *)

From Stdlib Require Import ZArith Lia Ascii.
From stdpp Require Import base list strings.
From S2P Require Import Prelude State GoTime Json JsonParse Validation TimeText Tokens Database JobQueue Delivery.

#[local] Open Scope Z_scope.

Definition defaultPollInterval : Z := 5 * Second.
Definition defaultBatchSize : Z := 10.
Definition defaultConcurrency : Z := 4.
Definition defaultJobTimeout : Z := 30 * Second.
Definition worker_staleClaimLease : Z := 5 * Minute.
Definition defaultReapInterval : Z := 1 * Minute.
Definition terminalWriteTimeout : Z := 5 * Second.

(** ** Payloads *)
Record reminderPayload := mkReminderPayload {
  rp_CustomerName : string; rp_CustomerEmail : string; rp_CustomerPhone : string;
  rp_ServiceName : string; rp_StaffName : string; rp_StartsAt : string; rp_Timezone : string
}.

Definition reminder_field (kv : string * json) (p : reminderPayload) : option reminderPayload :=
  let '(mkReminderPayload name email phone service staff starts tz) := p in
  if names_field kv.1 "customer_name" then
    x ← decode_text name kv.2; Some (mkReminderPayload x email phone service staff starts tz)
  else if names_field kv.1 "customer_email" then
    x ← decode_text email kv.2; Some (mkReminderPayload name x phone service staff starts tz)
  else if names_field kv.1 "customer_phone" then
    x ← decode_text phone kv.2; Some (mkReminderPayload name email x service staff starts tz)
  else if names_field kv.1 "service_name" then
    x ← decode_text service kv.2; Some (mkReminderPayload name email phone x staff starts tz)
  else if names_field kv.1 "staff_name" then
    x ← decode_text staff kv.2; Some (mkReminderPayload name email phone service x starts tz)
  else if names_field kv.1 "starts_at" then
    x ← decode_text starts kv.2; Some (mkReminderPayload name email phone service staff x tz)
  else if names_field kv.1 "timezone" then
    x ← decode_text tz kv.2; Some (mkReminderPayload name email phone service staff starts x)
  else Some p.

Record crmUpsertPayload := mkUpsertPayload {
  up_CustomerID : string; up_DisplayName : string; up_Email : string; up_Phone : string;
  up_Company : string; up_Locale : string
}.

Definition upsert_field (kv : string * json) (p : crmUpsertPayload) : option crmUpsertPayload :=
  let '(mkUpsertPayload id name email phone company locale) := p in
  if names_field kv.1 "customer_id" then
    x ← decode_text id kv.2; Some (mkUpsertPayload x name email phone company locale)
  else if names_field kv.1 "display_name" then
    x ← decode_text name kv.2; Some (mkUpsertPayload id x email phone company locale)
  else if names_field kv.1 "email" then
    x ← decode_text email kv.2; Some (mkUpsertPayload id name x phone company locale)
  else if names_field kv.1 "phone" then
    x ← decode_text phone kv.2; Some (mkUpsertPayload id name email x company locale)
  else if names_field kv.1 "company" then
    x ← decode_text company kv.2; Some (mkUpsertPayload id name email phone x locale)
  else if names_field kv.1 "locale" then
    x ← decode_text locale kv.2; Some (mkUpsertPayload id name email phone company x)
  else Some p.

Record crmDealPayload := mkDealPayload {
  dp_ContactRef : string; dp_ServiceName : string; dp_StaffName : string; dp_StartsAt : string;
  dp_Amount : Z; dp_Currency : string
}.

Definition deal_field (kv : string * json) (p : crmDealPayload) : option crmDealPayload :=
  let '(mkDealPayload ref service staff starts amount currency) := p in
  if names_field kv.1 "contact_ref" then
    x ← decode_text ref kv.2; Some (mkDealPayload x service staff starts amount currency)
  else if names_field kv.1 "service_name" then
    x ← decode_text service kv.2; Some (mkDealPayload ref x staff starts amount currency)
  else if names_field kv.1 "staff_name" then
    x ← decode_text staff kv.2; Some (mkDealPayload ref service x starts amount currency)
  else if names_field kv.1 "starts_at" then
    x ← decode_text starts kv.2; Some (mkDealPayload ref service staff x amount currency)
  else if names_field kv.1 "amount" then
    x ← decode_int amount kv.2; Some (mkDealPayload ref service staff starts x currency)
  else if names_field kv.1 "currency" then
    x ← decode_text currency kv.2; Some (mkDealPayload ref service staff starts amount x)
  else Some p.

Definition outcome {A} (r : result A) : option error := match r with Ok _ => None | Err e => Some e end.

(** ** Jobs *)
Section worker.
Context {X : Type} `{!Drivers X} (Local : Location) (overflow : Z) (Error : error -> string) (e : env).

Definition handleReminder (job : Job) : St X (option error) :=
  match decode_struct reminder_field (PayloadJSON job) (mkReminderPayload "" "" "" "" "" "" "") with
  | None => st_ret (Some (ErrText "decode reminder payload"))
  | Some p =>
      match ParseRFC3339 Local (rp_StartsAt p) with
      | None => st_ret (Some (ErrText "parse starts_at"))
      | Some startsAt =>
          let+ r := SendReminder (mkReminder (job_TenantID job) (job_BookingID job) (rp_CustomerName p)
                      (rp_CustomerEmail p) (rp_CustomerPhone p) (rp_ServiceName p) (rp_StaffName p)
                      startsAt (rp_Timezone p)) in
          st_ret (outcome r)
      end
  end.

Definition handleCRMUpsert (job : Job) : St X (option error) :=
  match decode_struct upsert_field (PayloadJSON job) (mkUpsertPayload "" "" "" "" "" "") with
  | None => st_ret (Some (ErrText "decode crm upsert payload"))
  | Some p =>
      let+ r := UpsertContact (mkContact (job_TenantID job) (up_CustomerID p) (up_DisplayName p)
                  (up_Email p) (up_Phone p) (up_Company p) (up_Locale p)) in
      st_ret (outcome r)
  end.

Definition handleCRMDeal (job : Job) : St X (option error) :=
  match decode_struct deal_field (PayloadJSON job) (mkDealPayload "" "" "" "" 0 "") with
  | None => st_ret (Some (ErrText "decode crm deal payload"))
  | Some p =>
      match ParseRFC3339 Local (dp_StartsAt p) with
      | None => st_ret (Some (ErrText "parse starts_at in crm deal payload"))
      | Some startsAt =>
          let+ r := CreateDeal (mkDeal (job_TenantID job) (job_BookingID job) (dp_ContactRef p)
                      (dp_ServiceName p) (dp_StaffName p) startsAt (dp_Amount p) (dp_Currency p)) in
          st_ret (outcome r)
      end
  end.

Definition dispatch (job : Job) : St X (option error) :=
  if String.eqb (JobType job) "send_reminder" then handleReminder job
  else if String.eqb (JobType job) "crm_upsert_contact" then handleCRMUpsert job
  else if String.eqb (JobType job) "crm_create_deal" then handleCRMDeal job
  else st_ret (Some (ErrText ("unknown job type: " +:+ JobType job))).

(** The write of the outcome, under a context of its own. *)
Definition record_outcome (job : Job) (err : option error) : St world (result unit) :=
  match err with
  | Some err => Fail_ overflow (job_ID job) (Error err) e
  | None => JobQueue.Complete (job_ID job) e
  end.

Definition processOne (job : Job) : St (world * X) (result unit) :=
  let+ err := on_second (dispatch job) in on_first (record_outcome job err).

(** ** A batch *)
Inductive stage := Started | Handled (err : option error).

(** The loop over the jobs is at a job's check, waits for a slot for a job, or is
    over and waits for the goroutines. *)
Inductive launcher := Looping (jobs : list Job) | Acquiring (job : Job) (rest : list Job) | Leaving.

Record Batch := mkBatch {
  b_world : world; b_out : X; b_launcher : launcher; b_running : list (Job * stage);
  b_recorded : list (Job * option error * result unit); b_cancelled : bool
}.

Inductive choice := Launch | Advance (i : nat) | Interrupt.

Definition start_batch (w : world) (x : X) (jobs : list Job) (cancelled : bool) : Batch :=
  mkBatch w x (Looping jobs) [] [] cancelled.

Definition launch (concurrency : Z) (b : Batch) : option Batch :=
  let '(mkBatch w x l running recorded cancelled) := b in
  match l with
  | Looping [] => Some (mkBatch w x Leaving running recorded cancelled)
  | Looping (job :: rest) =>
      Some (mkBatch w x (if cancelled then Leaving else Acquiring job rest) running recorded cancelled)
  | Acquiring job rest =>
      if Z.of_nat (length running) <? concurrency
      then Some (mkBatch w x (Looping rest) (running ++ [(job, Started)]) recorded cancelled)
      else None
  | Leaving => None
  end.

(** A goroutine runs its handler, then records the outcome and gives its slot back. *)
Definition advance (i : nat) (b : Batch) : option Batch :=
  let '(mkBatch w x l running recorded cancelled) := b in
  match running !! i with
  | None => None
  | Some (job, Started) =>
      let '(err, x') := dispatch job x in
      Some (mkBatch w x' l (<[i := (job, Handled err)]> running) recorded cancelled)
  | Some (job, Handled err) =>
      let '(r, w') := record_outcome job err w in
      Some (mkBatch w' x l (delete i running) (recorded ++ [(job, err, r)]) cancelled)
  end.

Definition batch_next (concurrency : Z) (c : choice) (b : Batch) : option Batch :=
  match c with
  | Launch => launch concurrency b
  | Advance i => advance i b
  | Interrupt =>
      if b_cancelled b then None
      else Some (mkBatch (b_world b) (b_out b) (b_launcher b) (b_running b) (b_recorded b) true)
  end.

(** [wg.Wait] returns. *)
Definition batch_over (b : Batch) : bool :=
  match b_launcher b, b_running b with Leaving, [] => true | _, _ => false end.

Fixpoint batch_run (concurrency : Z) (l : list choice) (b : Batch) : option Batch :=
  match l with
  | [] => Some b
  | c :: tl => b' ← batch_next concurrency c b; batch_run concurrency tl b'
  end.

(** ** The loop *)
Record Worker := mkWorker {
  w_batchSize : Z; w_concurrency : Z; w_staleClaimLease : Z; w_reapInterval : Z
}.

Definition default_worker : Worker :=
  mkWorker defaultBatchSize defaultConcurrency worker_staleClaimLease defaultReapInterval.

Inductive phase := AtTop | ToReap | ToClaim | Processing (b : Batch) | Polling | Stopped.

(** [lp_lastReap] is zero or the time of the last reaping. *)
Record Loop := mkLoop {
  lp_world : world; lp_out : X; lp_lastReap : option Time; lp_phase : phase; lp_cancelled : bool
}.

(** [time.Since(w.lastReap) < w.reapInterval] keeps it from reaping. *)
Definition reap_due (k : Worker) (last : option Time) (now : Time) : bool :=
  negb (w_reapInterval k <=? 0) &&
  match last with None => true | Some t => negb (Sub now t <? w_reapInterval k) end.

Definition maybeReapStaleClaims (k : Worker) (now : Time) (w : world) (last : option Time)
    : world * option Time :=
  if reap_due k last now then ((RequeueStaleClaims (w_staleClaimLease k) e w).2, Some now)
  else (w, last).

(** [Go] moves the loop itself, whose clock reads [now]; [Batch_ c] a batch that is
    being processed; [Stop] cancels the context. *)
Inductive move := Go (now : Time) | Batch_ (c : choice) | Stop.

Definition go (k : Worker) (now : Time) (lp : Loop) : option Loop :=
  let '(mkLoop w x last ph cancelled) := lp in
  match ph with
  | AtTop => Some (mkLoop w x last (if cancelled then Stopped else ToReap) cancelled)
  | ToReap =>
      let '(w', last') := maybeReapStaleClaims k now w last in
      Some (mkLoop w' x last' ToClaim cancelled)
  | ToClaim =>
      let '(r, w') := ClaimBatch (w_batchSize k) e w in
      Some (mkLoop w' x last
              (match r with
               | Err _ => if cancelled then Stopped else Polling
               | Ok [] => Polling
               | Ok jobs => Processing (start_batch w' x jobs cancelled)
               end) cancelled)
  | Polling => Some (mkLoop w x last (if cancelled then Stopped else AtTop) cancelled)
  | Processing b =>
      if batch_over b then Some (mkLoop (b_world b) (b_out b) last AtTop cancelled) else None
  | Stopped => None
  end.

Definition loop_next (k : Worker) (m : move) (lp : Loop) : option Loop :=
  match m with
  | Go now => go k now lp
  | Batch_ c =>
      match lp_phase lp with
      | Processing b =>
          b' ← batch_next (w_concurrency k) c b;
          Some (mkLoop (lp_world lp) (lp_out lp) (lp_lastReap lp) (Processing b') (b_cancelled b'))
      | _ => None
      end
  | Stop =>
      match lp_phase lp with
      | Processing _ => None
      | _ => if lp_cancelled lp then None
             else Some (mkLoop (lp_world lp) (lp_out lp) (lp_lastReap lp) (lp_phase lp) true)
      end
  end.

Fixpoint loop_run (k : Worker) (l : list move) (lp : Loop) : option Loop :=
  match l with [] => Some lp | m :: tl => lp' ← loop_next k m lp; loop_run k tl lp' end.

Definition start_loop (w : world) (x : X) : Loop := mkLoop w x None AtTop false.
End worker.
