(* ===== verification/WorkerProps.v ===== *)
(** * What the worker makes of the jobs it claims

    Over [Worker]: the write of one outcome leaves the other jobs alone; under
    every interleaving of the goroutines a batch runs boundedly many handlers at
    a time and records each job once; and every batch comes to its end. *)

From Stdlib Require Import ZArith Lia Ascii.
From stdpp Require Import base list strings sorting.
From S2P Require Import Prelude State GoTime Json Validation TimeText Tokens Database DatabaseFacts JobQueue Repository Delivery Worker.

#[local] Open Scope Z_scope.

(** ** One outcome *)
Lemma Fail_db (I : DB -> Prop) overflow id msg e w :
  (forall row delay now n d' t, List.find (is_job id "claimed") (jobs (db w)) = Some row ->
     j_attempts row < j_max row -> retry_sql id msg delay now n e (db w) = Ok (t, d') -> I d') ->
  sql_preserves I (dead_insert_sql id msg) -> sql_preserves I (dead_update_sql id msg) ->
  I (db w) -> I (db (Fail_ overflow id msg e w).2).
Proof.
  intros Hr Hi Hu Hw. unfold Fail_, bind at 1. pose proof (Fail_lookup id e w) as Hl.
  destruct (wrap _ _ e w) as [[row|err] w1]; [|cbn; by destruct Hl as [-> _]].
  destruct Hl as (Hdb & _ & Hf). destruct (Z.ltb_spec (j_attempts row) (j_max row)) as [Hlt|_].
  - unfold retryJob. rewrite discard_world. cbn [snd]. apply db_run_pool_at; rewrite Hdb; [|done].
    intros t d' Ht. by eapply Hr.
  - unfold deadLetter. apply db_preserves_with_tx; [|by rewrite Hdb].
    apply preserves_bind; [|intros _; apply preserves_bind]; [apply preserves_wrap; by apply preserves_run..|].
    intros _. auto with db.
Qed.

(** The tables keep everything that is not about job [id]. *)
Definition spared (id : string) (d d' : DB) : Prop :=
  (forall r, j_id r <> id -> r ∈ jobs d -> r ∈ jobs d') /\
  (forall x, x ∈ dead_letters d -> x ∈ dead_letters d').

Lemma update_spared id d0 f d t d' :
  spared id d0 d -> update_jobs (is_job id "claimed") f d = Ok (t, d') -> spared id d0 d'.
Proof.
  intros [Hs Hd] (-> & _ & _)%update_jobs_Ok. split; [|done]. intros r Hne Hr. cbn. apply elem_of_update_rows.
  exists r. split; [by apply Hs|]. destruct (is_job id "claimed" r) eqn:E; [|done].
  by apply is_job_spec in E as [E _].
Qed.

Section records.
Context (overflow : Z) (Error : error -> string) (e : env).

Lemma record_wf job err w : jobs_wf (db w) -> jobs_wf (db (record_outcome overflow Error e job err w).2).
Proof.
  intros Hw. destruct err as [err|]; cbn [record_outcome].
  - apply Fail_db; [| | |done].
    + intros row delay now n d' t Hf Hlt Hr. eapply retry_sql_wf; [|exact Hw|exact Hr].
      intros j Hj Hp. destruct (find_unique _ _ _ Hw Hf) as (Hin & Hid & _).
      apply is_job_spec in Hp as [Hp _]. rewrite (same_id_eq _ j row Hw Hj Hin); [done|congruence].
    + intros now n e' d a d' Hd (d1 & Hi & [= _ <-])%rbind_Ok. apply (jobs_wf_same d); [|done].
      by eapply insert_dead_jobs.
    + intros now n e' d a d' Hd H. by eapply (settle_wf _ (dead_row now (Error err))); [..|exact H].
  - unfold Complete. apply db_bind; [|intros []; apply db_local; [apply local_fail|apply local_ret]|done].
    apply db_map_err, db_run_pool. intros now n e' d a d' Hd H.
    by eapply (settle_wf _ (complete_row now)); [..|exact H].
Qed.

Lemma record_spared job err w :
  spared (job_ID job) (db w) (db (record_outcome overflow Error e job err w).2).
Proof.
  assert (Hw : spared (job_ID job) (db w) (db w)) by (split; auto).
  destruct err as [err|]; cbn [record_outcome].
  - apply Fail_db; [| | |done].
    + intros row delay now n d' t _ _. by apply update_spared.
    + intros now n e' d a d' [Hs Hd] (d1 & Hi & [= _ <-])%rbind_Ok. unfold insert_dead in Hi.
      destruct (forallb _ _); [|done]. injection Hi as <-. split; [done|]. intros x Hx. cbn. apply elem_of_app.
      left. by apply Hd.
    + intros now n e' d a d' Hd. by apply update_spared.
  - unfold Complete. apply db_bind; [|intros []; apply db_local; [apply local_fail|apply local_ret]|done].
    apply db_map_err, db_run_pool. intros now n e' d a d' Hd. by apply update_spared.
Qed.

(** What the table says of a job whose outcome is written. *)
Definition settled (job : Job) (err : option error) (d : DB) : Prop :=
  exists row now, j_status row = "claimed" /\ job = job_of row /\
  match err with
  | None => complete_row now row ∈ jobs d
  | Some x =>
      if Attempts job <? MaxAttempts job
      then pending_row (Add now (pg_interval (JobQueue.retryDelay overflow (Attempts job)))) (Error x) row ∈ jobs d
      else dead_row now (Error x) row ∈ jobs d /\
           exists did, dead_copy now (Error x) did row ∈ dead_letters d
  end.

Definition held (job : Job) (d : DB) : Prop :=
  exists row, row ∈ jobs d /\ j_status row = "claimed" /\ job = job_of row.

Lemma held_row job d row :
  jobs_wf d -> held job d -> row ∈ jobs d -> j_id row = job_ID job -> j_status row = "claimed" /\ job = job_of row.
Proof.
  intros Hwf (row' & Hin & Hst & ->) Hrow Hid. rewrite (same_id_eq d row row'); done.
Qed.

Lemma record_settles job err w w' :
  jobs_wf (db w) -> held job (db w) -> record_outcome overflow Error e job err w = (Ok tt, w') ->
  settled job err (db w').
Proof.
  intros Hwf Hh H. destruct err as [err|]; cbn [record_outcome] in H.
  - apply Fail_spec in H as (row & now & Hin & Hid & Hst & H); [|done].
    destruct (held_row _ _ row Hwf Hh Hin Hid) as [_ ->]. exists row, now. split; [done|]. split; [done|]. cbn.
    destruct H as [(Hlt & _ & Hj)|(Hge & (did & Hd) & Hj)].
    + rewrite (proj2 (Z.ltb_lt _ _)) by lia. apply Hj. by right.
    + rewrite (proj2 (Z.ltb_ge _ _)) by lia. split; [apply Hj; by right|].
      exists did. rewrite Hd. apply elem_of_app. right. by apply list_elem_of_singleton.
  - unfold Complete in H. apply bind_Ok in H as (t & w1 & H & Ht).
    apply wrap_Ok, run_Pool_Ok in H as (d & Hu & ->). apply update_jobs_Ok in Hu as (-> & -> & _).
    destruct (List.filter _ _) eqn:Hf in Ht; [done|]. injection Ht as <-. cbn.
    destruct Hh as (row & Hin & Hst & ->). exists row, (clock e (tick w)). split; [done|]. split; [done|].
    apply elem_of_update_rows. exists row. split; [done|].
    by rewrite (proj2 (is_job_spec _ _ _)).
Qed.

Lemma settled_spared job err d d' id :
  spared id d d' -> job_ID job <> id -> settled job err d -> settled job err d'.
Proof.
  intros [Hj Hd] Hne (row & now & Hst & -> & H). exists row, now. split; [done|]. split; [done|].
  destruct err as [x|]; [destruct (_ <? _)|]; [by apply Hj| |by apply Hj].
  destruct H as [H (did & Hx)]. split; [by apply Hj|]. exists did. by apply Hd.
Qed.

Lemma held_spared job d d' id : spared id d d' -> job_ID job <> id -> held job d -> held job d'.
Proof. intros [Hj _] Hne (row & Hin & Hst & ->). exists row. split; [by apply Hj|done]. Qed.
End records.

(** ** A batch under every interleaving *)
Definition to_launch (l : launcher) : list Job :=
  match l with Looping jobs => jobs | Acquiring job rest => job :: rest | Leaving => [] end.

Section batch.
Context {X : Type} `{!Drivers X} (Local : Location) (overflow : Z) (Error : error -> string) (e : env).
Context (concurrency : Z).

(** The jobs of a batch that have no outcome yet, and those that have. *)
Definition open_jobs (b : Batch (X := X)) : list Job := to_launch (b_launcher b) ++ map fst (b_running b).
Definition recorded_jobs (b : Batch (X := X)) : list Job := map (fun r => r.1.1) (b_recorded b).

Record batch_inv (js : list Job) (b : Batch (X := X)) : Prop := {
  inv_nodup : NoDup (map job_ID (open_jobs b ++ recorded_jobs b));
  inv_from : forall job, job ∈ open_jobs b ++ recorded_jobs b -> job ∈ js;
  inv_all : b_cancelled b = false -> open_jobs b ++ recorded_jobs b ≡ₚ js;
  inv_bound : Z.of_nat (length (b_running b)) <= concurrency;
  inv_wf : jobs_wf (db (b_world b));
  inv_held : forall job, job ∈ open_jobs b -> held job (db (b_world b));
  inv_settled : forall job err, (job, err, Ok tt) ∈ b_recorded b ->
    settled overflow Error job err (db (b_world b))
}.

(** Moves that leave the open jobs, up to their order, and the tables. *)
Lemma inv_reordered js b b' :
  open_jobs b' ≡ₚ open_jobs b -> b_recorded b' = b_recorded b -> b_world b' = b_world b ->
  (b_cancelled b' = false -> b_cancelled b = false) ->
  Z.of_nat (length (b_running b')) <= concurrency -> batch_inv js b -> batch_inv js b'.
Proof.
  intros Ho Hr Hw Hc Hl [Hn Hf Ha Hb Hwf Hh Hs].
  assert (Hr' : recorded_jobs b' = recorded_jobs b) by (unfold recorded_jobs; by rewrite Hr).
  split; rewrite ?Hw, ?Hr'; try done.
  - by rewrite Ho.
  - intros job. rewrite Ho. apply Hf.
  - intros ?. rewrite Ho. auto.
  - intros job. rewrite Ho. apply Hh.
  - rewrite Hr. done.
Qed.

Lemma launch_inv js b b' : batch_inv js b -> launch concurrency b = Some b' -> batch_inv js b'.
Proof.
  destruct b as [w x l running recorded cancelled]. intros Hi H. pose proof (inv_bound _ _ Hi) as Hb. cbn in Hb, H.
  destruct l as [[|job rest]|job rest|]; [| | |done].
  - injection H as <-. by revert Hi; apply inv_reordered.
  - injection H as <-. destruct cancelled; [|by revert Hi; apply inv_reordered].
    destruct Hi as [Hn Hf Ha _ Hw Hh Hs]. unfold open_jobs, recorded_jobs in *. cbn in *.
    split; unfold open_jobs, recorded_jobs; cbn; try done.
    + eapply sublist_NoDup; [exact Hn|]. apply sublist_cons. apply (fmap_sublist job_ID).
      rewrite <- app_assoc. by apply sublist_inserts_l.
    + intros j Hj. apply Hf. rewrite elem_of_cons, !elem_of_app in *. tauto.
    + intros j Hj. apply Hh. rewrite elem_of_cons, !elem_of_app in *. tauto.
  - destruct (_ <? _) eqn:E; [|done]. apply Z.ltb_lt in E. injection H as <-.
    revert Hi. apply inv_reordered; try done; [|cbn; rewrite length_app; cbn; lia].
    unfold open_jobs. cbn. rewrite map_app, app_assoc. cbn. by rewrite Permutation_app_comm.
Qed.

Lemma advance_inv i js b b' :
  batch_inv js b -> advance Local overflow Error e i b = Some b' -> batch_inv js b'.
Proof.
  destruct b as [w x l running recorded cancelled]. intros Hi H. pose proof (inv_bound _ _ Hi) as Hb. cbn in Hb, H.
  destruct (running !! i) as [[job [|err]]|] eqn:Hl; [| |done].
  - destruct (dispatch _ job x) as [err x']. injection H as <-.
    revert Hi. apply inv_reordered; try done; [|cbn; by rewrite length_insert].
    unfold open_jobs. cbn. change (map fst ?l) with (fst <$> l). rewrite list_fmap_insert. cbn.
    rewrite list_insert_id; [done|]. rewrite list_lookup_fmap. by rewrite Hl.
  - destruct (record_outcome _ _ _ job err w) as [r w'] eqn:Hr. injection H as <-.
    destruct Hi as [Hn Hf Ha _ Hw Hh Hs]. unfold open_jobs, recorded_jobs in *. cbn in *.
    pose proof (record_wf overflow Error e job err w Hw) as Hw'.
    pose proof (record_spared overflow Error e job err w) as Hsp. rewrite Hr in Hw', Hsp. cbn in Hw', Hsp.
    assert (Ho : to_launch l ++ map fst running ≡ₚ job :: to_launch l ++ map fst (delete i running)).
    { rewrite delete_take_drop. rewrite <- (take_drop_middle running i _ Hl) at 1. rewrite !map_app. cbn.
      rewrite !app_assoc. by rewrite Permutation_middle. }
    assert (Hp : (to_launch l ++ map fst (delete i running)) ++ map (fun r => r.1.1) (recorded ++ [(job, err, r)])
                 ≡ₚ (to_launch l ++ map fst running) ++ map (fun r => r.1.1) recorded).
    { rewrite Ho, map_app. cbn. rewrite app_assoc. by rewrite Permutation_app_comm. }
    assert (Hne : forall j, j ∈ to_launch l ++ map fst (delete i running) \/ j ∈ map (fun r => r.1.1) recorded ->
                            job_ID j <> job_ID job).
    { intros j Hj Heq. rewrite Ho in Hn. cbn in Hn. apply NoDup_cons in Hn as [Hn _]. apply Hn.
      rewrite <- Heq. apply list_elem_of_fmap_2. rewrite elem_of_app. tauto. }
    split; unfold open_jobs, recorded_jobs; cbn; try done.
    + by rewrite Hp.
    + intros j. rewrite Hp. apply Hf.
    + intros Hc. rewrite Hp. by apply Ha.
    + assert (length (delete i running) <= length running)%nat; [|lia].
      rewrite length_delete by by eexists. lia.
    + intros j Hj. eapply held_spared; [exact Hsp|apply Hne; by left|]. apply Hh. rewrite Ho. by right.
    + intros j err' Hj. apply elem_of_app in Hj as [Hj|Hj].
      * eapply settled_spared; [exact Hsp| |by apply Hs]. apply Hne. right.
        apply (list_elem_of_fmap_2 (fun r => r.1.1)) in Hj. exact Hj.
      * apply list_elem_of_singleton in Hj. injection Hj as -> -> <-.
        eapply record_settles; [exact Hw| |exact Hr]. apply Hh. rewrite Ho. by left.
Qed.

Lemma next_inv c js b b' :
  batch_inv js b -> batch_next Local overflow Error e concurrency c b = Some b' -> batch_inv js b'.
Proof.
  destruct c as [|i|]; cbn; [apply launch_inv|apply advance_inv|].
  intros Hi H. destruct (b_cancelled b) eqn:E; [done|]. injection H as <-.
  pose proof (inv_bound _ _ Hi). by revert Hi; apply inv_reordered.
Qed.

Lemma runs_inv l js b b' :
  batch_inv js b -> batch_run Local overflow Error e concurrency l b = Some b' -> batch_inv js b'.
Proof.
  revert b. induction l as [|c l IH]; intros b Hi; cbn; [by intros [= <-]|].
  destruct (batch_next _ _ _ _ _ c b) as [b1|] eqn:Hc; [|done]. apply IH. by eapply next_inv.
Qed.

(** What a claim hands to the batch. *)
Lemma claimed_batch limit w js w' x cancelled :
  0 <= concurrency -> jobs_wf (db w) -> ClaimBatch limit e w = (Ok js, w') ->
  batch_inv js (start_batch w' x js cancelled).
Proof.
  intros Hc Hwf H. unfold ClaimBatch in H. repeat open_step H. repeat open_step Hm.
  pose proof (claim_sql_wf _ _ _ _ _ _ _ Hwf Hm) as Hwf'.
  unfold claim_sql in Hm. destruct (_ <? _); [done|]. apply update_jobs_Ok in Hm as (-> & -> & _).
  set (p := fun j => existsb _ _) in *. set (now := clock e (tick w)) in *.
  assert (Hheld : forall job, job ∈ map job_of (map (claim_row now) (List.filter p (jobs (db w)))) ->
    held job (set_jobs (update_rows p (claim_row now) (jobs (db w))) (db w))).
  { intros job. rewrite map_map. intros (j & -> & [Hj Hp]%elem_of_filter_bool)%list_elem_of_fmap.
    exists (claim_row now j). split; [|done]. apply elem_of_update_rows. exists j. by rewrite Hp. }
  split; unfold open_jobs, recorded_jobs; cbn [start_batch b_launcher b_running b_recorded to_launch b_world db map];
    rewrite ?app_nil_r; try done; [|by intros ?? ?%elem_of_nil].
  rewrite !map_map. cbn. destruct Hwf as [Hn _]. change (map j_id ?l) with (j_id <$> l).
  eapply sublist_NoDup; [exact Hn|]. apply fmap_sublist. clear. induction (jobs (db w)) as [|j l IH]; cbn; [done|].
  destruct (p j); [by apply sublist_skip|by apply sublist_cons].
Qed.

(** C15. However the goroutines of a batch interleave, and wherever the shutdown
    falls, never more handlers run at a time than the configured number; no job's
    outcome is recorded twice, nor one of a job the batch did not claim; and each
    recorded job for which the write succeeded is left completed where its handler
    succeeded, and otherwise pending again after its backoff while it has attempts
    left or dead with its dead letter.  A batch that ends with no shutdown has
    recorded every job it claimed. *)
Theorem batch_records_each_job (limit : Z) (w w' : world) (js : list Job) (x : X) (l : list choice)
    (b : Batch (X := X)) (Hconc : 0 <= concurrency) (Hwf : jobs_wf (db w))
    (Hclaim : ClaimBatch limit e w = (Ok js, w'))
    (Hrun : batch_run Local overflow Error e concurrency l (start_batch w' x js false) = Some b) :
  Z.of_nat (length (b_running b)) <= concurrency /\
  NoDup (map job_ID (recorded_jobs b)) /\
  (forall job, job ∈ recorded_jobs b -> job ∈ js) /\
  (forall job err, (job, err, Ok tt) ∈ b_recorded b -> settled overflow Error job err (db (b_world b))) /\
  (batch_over b = true -> b_cancelled b = false -> recorded_jobs b ≡ₚ js).
Proof.
  pose proof (runs_inv l js _ b (claimed_batch limit w js w' x false Hconc Hwf Hclaim) Hrun)
    as [Hn Hf Ha Hb _ _ Hs].
  split; [done|]. split; [rewrite map_app in Hn; by apply NoDup_app in Hn as (_ & _ & Hn)|].
  split; [intros job Hj; apply Hf, elem_of_app; by right|]. split; [done|].
  intros Ho Hc. rewrite <- Ha by done. unfold open_jobs, batch_over in *.
  by destruct (b_launcher b), (b_running b).
Qed.

(** *** Every batch ends *)
Definition stage_work (s : Job * stage) : nat := match s.2 with Started => 2 | Handled _ => 1 end.

#[local] Arguments stage_work : simpl never.

Definition batch_work (b : Batch (X := X)) : nat :=
  match b_launcher b with
  | Looping jobs => 4 * length jobs + 1
  | Acquiring _ rest => 4 * length rest + 4
  | Leaving => 0
  end + sum_list_with stage_work (b_running b) + if b_cancelled b then 0 else 1.

Lemma sum_insert (l : list (Job * stage)) i x y :
  l !! i = Some x ->
  (sum_list_with stage_work (<[i := y]> l) + stage_work x = sum_list_with stage_work l + stage_work y)%nat.
Proof.
  revert i. induction l as [|z l IH]; intros [|i] H; simplify_eq/=; try done.
  - lia.
  - specialize (IH i H). lia.
Qed.

Lemma sum_delete (l : list (Job * stage)) i x :
  l !! i = Some x -> (sum_list_with stage_work (delete i l) + stage_work x = sum_list_with stage_work l)%nat.
Proof.
  revert i. induction l as [|z l IH]; intros [|i] H; simplify_eq/=; try done.
  - lia.
  - specialize (IH i H). lia.
Qed.

Lemma next_works c b b' :
  batch_next Local overflow Error e concurrency c b = Some b' -> (batch_work b' < batch_work b)%nat.
Proof.
  destruct b as [w x l running recorded cancelled]. destruct c as [|i|]; cbn.
  - destruct l as [[|job rest]|job rest|]; [| | |done].
    + intros [= <-]. unfold batch_work. cbn. destruct cancelled; lia.
    + intros [= <-]. unfold batch_work. destruct cancelled; cbn; lia.
    + destruct (_ <? _); [|done]. intros [= <-]. unfold batch_work. cbn. rewrite sum_list_with_app. cbn. unfold stage_work at 2. cbn. destruct cancelled; lia.
  - destruct (running !! i) as [[job [|err]]|] eqn:Hl; [| |done].
    + destruct (dispatch _ job x) as [err x']. intros [= <-]. unfold batch_work. cbn.
      pose proof (sum_insert _ _ _ (job, Handled err) Hl) as Hs. unfold stage_work at 2 4 in Hs. cbn in Hs. destruct cancelled; lia.
    + destruct (record_outcome _ _ _ job err w) as [r w']. intros [= <-]. unfold batch_work. cbn.
      pose proof (sum_delete _ _ _ Hl) as Hs. unfold stage_work at 2 in Hs. cbn in Hs. destruct cancelled; lia.
  - destruct cancelled; [done|]. intros [= <-]. unfold batch_work. cbn. lia.
Qed.

Lemma runs_work l b b' :
  batch_run Local overflow Error e concurrency l b = Some b' -> (length l + batch_work b' <= batch_work b)%nat.
Proof.
  revert b. induction l as [|c l IH]; intros b; cbn; [intros [= <-]; lia|].
  destruct (batch_next _ _ _ _ _ c b) as [b1|] eqn:Hc; [|done]. intros H%IH. apply next_works in Hc. lia.
Qed.

Lemma next_possible b :
  1 <= concurrency -> batch_over b = false ->
  exists c, is_Some (batch_next Local overflow Error e concurrency c b).
Proof.
  intros Hc Ho. destruct b as [w x l running recorded cancelled]. destruct running as [|[job s] running].
  - exists Launch. cbn in *. destruct l as [[|]| |]; [by eexists..| |done].
    cbn. rewrite (proj2 (Z.ltb_lt _ _)) by lia. by eexists.
  - exists (Advance 0). cbn. destruct s as [|err]; [destruct (dispatch _ job x)|destruct (record_outcome _ _ _ job err w)];
      by eexists.
Qed.

(** C16. A batch ends: no run of it has more moves than four for each of its jobs
    and two, and whatever has happened so far can be continued until its loop and
    all its goroutines are done, unless they are already. *)
Theorem batch_ends (w : world) (x : X) (js : list Job) (cancelled : bool) (l : list choice)
    (b : Batch (X := X)) (Hconc : 1 <= concurrency)
    (Hrun : batch_run Local overflow Error e concurrency l (start_batch w x js cancelled) = Some b) :
  (length l <= 4 * length js + 2)%nat /\
  exists l' b', batch_run Local overflow Error e concurrency l' b = Some b' /\ batch_over b' = true.
Proof.
  split.
  - apply runs_work in Hrun. unfold batch_work in Hrun. cbn in Hrun. destruct cancelled; lia.
  - clear Hrun. remember (batch_work b) as n eqn:Hn. revert b Hn.
    induction n as [n IH] using lt_wf_ind. intros b ->.
    destruct (batch_over b) eqn:Ho; [by exists [], b|].
    destruct (next_possible b Hconc Ho) as (c & b1 & Hb1).
    destruct (IH _ (next_works _ _ _ Hb1) b1 eq_refl) as (l' & b' & Hr & Hover).
    exists (c :: l'), b'. split; [|done]. cbn [batch_run]. by rewrite Hb1.
Qed.
End batch.

(** ** Reminders *)
Definition truncated (t : Time) : Time := mkTime (unix t * Second) (tloc t).

Lemma unix_truncated t : unix (truncated t) = unix t.
Proof. unfold unix, truncated, Second. cbn. by rewrite Z.div_mul. Qed.

Lemma RFC3339_truncated t : RFC3339 t = RFC3339Nano (truncated t).
Proof.
  assert (Hn : NanosecondOf (truncated t) = 0).
  { unfold NanosecondOf, truncated, Second. cbn. by rewrite Z.mod_mul. }
  assert (Hl : local_sec (truncated t) = local_sec t) by (unfold local_sec; by rewrite unix_truncated).
  unfold RFC3339Nano. rewrite Hn. cbn [Z.eqb].
  unfold RFC3339, format_seconds, format_date, zone_suffix, Year, Month, Day, civil, HourOf, MinuteOf, SecondOf,
    day_sec, local_day. rewrite Hl, unix_truncated. done.
Qed.

Lemma parse_RFC3339 Local t :
  0 <= Year t <= 9999 -> whole_minutes t ->
  exists t', ParseRFC3339 Local (RFC3339 t) = Some t' /\ ns t' = unix t * Second.
Proof.
  intros Hy Hw. rewrite RFC3339_truncated.
  destruct (ParseRFC3339_RFC3339Nano Local (truncated t)) as (t' & Hp & Hn); [| |by exists t'].
  - unfold Year, civil, local_day, local_sec in *. by rewrite unix_truncated.
  - unfold whole_minutes in *. by rewrite unix_truncated.
Qed.

(** The columns of a reminder that its payload carries. *)
Definition reminder_of (job : Job) (c : CustomerRow) (service staff tz : string) (starts : Time) : Reminder :=
  mkReminder (job_TenantID job) (job_BookingID job) (cu_name c) (default "" (cu_email c))
    (default "" (cu_phone c)) service staff starts tz.

(** The job's handler hands the driver the reminder, at [starts] to the second. *)
Definition reminds {X} `{!Drivers X} (Local : Location) (job : Job) (c : CustomerRow)
    (service staff tz : string) (starts : Time) : Prop :=
  exists t, ns t = unix starts * Second /\
  forall x, dispatch Local job x =
    (let+ r := SendReminder (reminder_of job c service staff tz t) in st_ret (outcome r)) x.

Lemma payload_reminds {X} `{!Drivers X} Local job c service staff tz starts :
  JobType job = "send_reminder" ->
  PayloadJSON job = JObj [("customer_email", JStr (default "" (cu_email c))); ("customer_name", JStr (cu_name c));
    ("customer_phone", JStr (default "" (cu_phone c))); ("service_name", JStr service);
    ("staff_name", JStr staff); ("starts_at", JStr (RFC3339 starts)); ("timezone", JStr tz)] ->
  0 <= Year starts <= 9999 -> whole_minutes starts -> reminds Local job c service staff tz starts.
Proof.
  intros Ht Hp Hy Hw. destruct (parse_RFC3339 Local starts Hy Hw) as (t & Hparse & Hns).
  exists t. split; [done|]. intros x. unfold dispatch. rewrite Ht. cbn [String.eqb Ascii.eqb Bool.eqb].
  unfold handleReminder. rewrite Hp.
  repeat progress (cbn [decode_struct decode_fields mbind option_bind decode_text reminder_field fst snd rp_StartsAt];
    eval_names).
  by rewrite Hparse.
Qed.

(** The reminder that a new booking leaves in the queue reads back as that
    booking: whatever the driver, the worker hands it the customer's name and
    addresses, the service, the staff member, their time zone and the start, to the
    second; and after the booking has moved, the new start and the new zone. *)
Theorem reminder_says_the_booking {X} `{!Drivers X} (Local : Location) (job moved : Job) (c : CustomerRow)
    (booking : Booking) (service staff tz tz' : string) (starts' : Time)
    (Htype : JobType job = "send_reminder") (Hmtype : JobType moved = "send_reminder")
    (Hpayload : PayloadJSON job = reminder_payload c booking service staff tz)
    (Hmoved : moved_payload starts' tz' (PayloadJSON job) = Ok (PayloadJSON moved))
    (Hyear : 0 <= Year (StartsAt booking) <= 9999) (Hzone : whole_minutes (StartsAt booking))
    (Hyear' : 0 <= Year (ToUTC starts') <= 9999) :
  reminds Local job c service staff tz (StartsAt booking) /\
  reminds Local moved c service staff tz' (ToUTC starts').
Proof.
  split; [by apply payload_reminds|]. rewrite Hpayload in Hmoved. unfold reminder_payload, moved_payload in Hmoved.
  cbn [jsonb_set rbind set_member bool_decide] in Hmoved.
  apply payload_reminds; [done| |done|split; [reflexivity|cbn; lia]].
  assert (H : Ok (PayloadJSON moved) = Ok (JObj [("customer_email", JStr (default "" (cu_email c)));
    ("customer_name", JStr (cu_name c)); ("customer_phone", JStr (default "" (cu_phone c)));
    ("service_name", JStr service); ("staff_name", JStr staff); ("starts_at", JStr (RFC3339 (ToUTC starts')));
    ("timezone", JStr tz')])) by (by rewrite <- Hmoved). by injection H.
Qed.

(** ** A batch at work *)
Module WorkerDemo.
Definition payload : json :=
  JObj [("customer_email", JStr "ann@example.com"); ("customer_name", JStr "Ann"); ("customer_phone", JStr "");
        ("service_name", JStr "Haircut"); ("staff_name", JStr "Mia");
        ("starts_at", JStr "2026-08-03T10:00:00Z"); ("timezone", JStr "Europe/Berlin")].

Definition reminder_row : JobRow :=
  mkJobRow "t" "j1" "b" "send_reminder" "pending" payload 0 2 (QueueDemo.at_ 1) None None None None
    None (Some "reminder:00000000") (QueueDemo.at_ 0).

(** A deal whose payload has no start, on its last attempt. *)
Definition deal_row : JobRow :=
  mkJobRow "t" "j2" "b" "crm_create_deal" "pending" (JObj []) 1 2 (QueueDemo.at_ 1) None None None None
    None (Some "crm_deal:00000000") (QueueDemo.at_ 0).

Definition before : world := QueueDemo.with_jobs [reminder_row; deal_row].

Lemma before_wf : jobs_wf (db before).
Proof.
  split; [apply NoDup_cons; split; [by intros H%list_elem_of_singleton|apply NoDup_singleton]|].
  apply Forall_cons. split; [|apply Forall_singleton]; (split; [reflexivity|]); vm_compute; by split.
Defined.

Definition claim := ClaimBatch 10 QueueDemo.e before.
Definition claimed : list Job := match claim.1 with Ok js => js | Err _ => [] end.

Definition boom (err : error) : string := "failed".

(** Both handlers run before either outcome is written, the second one first. *)
Definition interleaving : list choice :=
  [Launch; Launch; Launch; Launch; Launch; Advance 1; Advance 0; Advance 1; Advance 0].

Definition after : option (Batch (X := list LogLine)) :=
  batch_run UTC 0 boom QueueDemo.e 4 interleaving (start_batch claim.2 [] claimed false).

Definition fallback : Batch (X := list LogLine) := start_batch before [] [] false.

Example both_recorded :
  (fun b => (batch_over b, map j_status (jobs (db (b_world b))), b_out b)) <$> after =
  Some (true, ["completed"; "dead"],
        [ReminderSent "t" "b" "Ann" "ann@example.com" "Haircut" "Mia" "2026-08-03T10:00:00Z"]).
Proof. vm_compute. reflexivity. Qed.
End WorkerDemo.

Lemma batch_records_each_job_witness :
  exists b, WorkerDemo.after = Some b /\ batch_over b = true /\ recorded_jobs b ≡ₚ WorkerDemo.claimed.
Proof.
  exists (default WorkerDemo.fallback WorkerDemo.after).
  assert (Hr : WorkerDemo.after = Some (default WorkerDemo.fallback WorkerDemo.after)) by (vm_compute; reflexivity).
  split; [exact Hr|]. split; [vm_compute; reflexivity|].
  refine (proj2 (proj2 (proj2 (proj2 (batch_records_each_job UTC 0 WorkerDemo.boom QueueDemo.e 4 10 WorkerDemo.before
    WorkerDemo.claim.2 WorkerDemo.claimed [] WorkerDemo.interleaving _ _ WorkerDemo.before_wf _ Hr)))) _ _).
  - lia.
  - vm_compute. reflexivity.
  - vm_compute. reflexivity.
  - vm_compute. reflexivity.
Defined.

Lemma batch_ends_witness :
  exists l' b', batch_run UTC 0 WorkerDemo.boom QueueDemo.e 4 l'
    (start_batch WorkerDemo.claim.2 ([] : list LogLine) WorkerDemo.claimed false) = Some b' /\ batch_over b' = true.
Proof.
  destruct (batch_ends UTC 0 WorkerDemo.boom QueueDemo.e 4 WorkerDemo.claim.2 ([] : list LogLine)
    WorkerDemo.claimed false [] _ ltac:(lia) eq_refl) as [_ H]. exact H.
Defined.

Lemma reminder_says_the_booking_witness :
  exists job moved, reminds UTC job (mkCustomerRow "t" "c" "Ann" None None) "Haircut" "Mia" "UTC" (QueueDemo.at_ 10) /\
    reminds UTC moved (mkCustomerRow "t" "c" "Ann" None None) "Haircut" "Mia" "Europe/Berlin" (ToUTC (QueueDemo.at_ 34)).
Proof.
  set (c := mkCustomerRow "t" "c" "Ann" None None).
  set (b := mkBooking "b" "c" "" "s" "m" "confirmed" (QueueDemo.at_ 10) (QueueDemo.at_ 11) 0 0 1 "" (QueueDemo.at_ 0) (QueueDemo.at_ 0)).
  set (p := reminder_payload c b "Haircut" "Mia" "UTC").
  exists (mkJob "j" "t" "b" "send_reminder" p 1 5).
  exists (mkJob "j" "t" "b" "send_reminder"
    (match moved_payload (QueueDemo.at_ 34) "Europe/Berlin" p with Ok q => q | Err _ => JNull end) 1 5).
  apply (reminder_says_the_booking UTC _ _ c b "Haircut" "Mia" "UTC" "Europe/Berlin" (QueueDemo.at_ 34));
    try reflexivity.
  - vm_compute. split; discriminate.
  - split; [reflexivity|vm_compute; split; reflexivity].
  - vm_compute. split; discriminate.
Defined.
