(* ===== verification/Passwords.v ===== *)
(** * Password verifiers: [internal/identity/password.go]

    PBKDF2 over HMAC-SHA-256 with one block of output ([crypto/pbkdf2]), the
    standard alphabet of Base64 without padding, [fmt.Sscanf] of a decimal number,
    and the encoded verifier with its check. *)

From Stdlib Require Import ZArith Lia Ascii.
From stdpp Require Import base list strings pretty.
From S2P Require Import Prelude Json JsonParse Sha256 Base64 TimeText Tokens.

#[local] Open Scope Z_scope.

Definition passwordScheme : string := "pbkdf2-sha256".
Definition passwordIterations : Z := 600000.
Definition passwordSaltBytes : Z := 16.
Definition passwordKeyBytes : Z := 32.
Definition minimumPasswordLen : Z := 12.
Definition maximumPasswordLen : Z := 1024.

Definition ErrInvalidPassword : error := ErrSentinel "identity: password does not meet the security policy".

(** ** [base64.RawStdEncoding], over the URL alphabet *)
Definition std_symbol (c : ascii) : ascii :=
  if code c =? 45 then chr 43 else if code c =? 95 then chr 47 else c.

Definition url_symbol (c : ascii) : ascii :=
  if code c =? 43 then chr 45 else if code c =? 47 then chr 95
  else if (code c =? 45) || (code c =? 95) then chr 33 else c.

Definition StdEncodeToString (s : string) : string := of_bytes (map std_symbol (encode (string_bytes s))).
Definition StdDecodeString (s : string) : option string := DecodeString (of_bytes (map url_symbol (string_bytes s))).

(** ** [pbkdf2.Key(sha256.New, password, salt, iterations, 32)] *)
Definition xor_octets (a b : list Z) : list Z := zip_with Z.lxor a b.

(** One more iteration: the last digest and the sum of all so far. *)
Definition pbkdf2_step (password : list Z) (s : list Z * list Z) : list Z * list Z :=
  let u := HMAC password s.1 in (u, xor_octets s.2 u).

Definition pbkdf2 (password salt : string) (iterations : Z) : string :=
  let u := HMAC (octets password) (octets salt ++ [0; 0; 0; 1]) in
  of_octets (Z.iter (iterations - 1) (pbkdf2_step (octets password)) (u, u)).2.

(** ** Verifiers *)
Definition validateNewPassword (password : string) : option error :=
  if (len password <? minimumPasswordLen) || (maximumPasswordLen <? len password)
  then Some ErrInvalidPassword else None.

Definition dollar : string := str (chr 36).

Definition encode_verifier (salt derived : string) : string :=
  Json.join dollar [passwordScheme; pretty passwordIterations; StdEncodeToString salt; StdEncodeToString derived].

(** [salt] is what the random source gave, if it gave anything. *)
Definition HashPassword (salt : option string) (password : string) : result string :=
  match validateNewPassword password with
  | Some e => Err e
  | None =>
      match salt with
      | None => Err (ErrText "identity: generate password salt")
      | Some salt => Ok (encode_verifier salt (pbkdf2 password salt passwordIterations))
      end
  end.

(** [fmt.Sscanf(s, "%d", &n)]: what follows the number is not looked at. *)
Fixpoint skip_spaces (l : list (list ascii)) : option (list ascii) :=
  match l with
  | [] => Some []
  | c :: tl =>
      if bool_decide (c = [chr 10]) then None
      else if space_chunk c then skip_spaces tl else Some (mjoin (c :: tl))
  end.

Definition Sscanf_d (s : string) : option Z :=
  l ← skip_spaces (chunks (String.length s) (string_bytes s));
  let '(sign, l) := opt_sign (fun c => (code c =? 43) || (code c =? 45)) l in
  match span_digits l with
  | ([], _) => None
  | (ds, _) =>
      n ← number 0 ds;
      let n := match sign with c :: _ => if code c =? 45 then - n else n | [] => n end in
      if (min_int64 <=? n) && (n <=? max_int64) then Some n else None
  end.

Definition VerifyPassword (password encoded : string) : bool :=
  match map of_bytes (split_on 36 (string_bytes encoded)) with
  | [scheme; work; salt; key] =>
      if negb (String.eqb scheme passwordScheme) || (maximumPasswordLen <? len password) then false
      else
        match Sscanf_d work with
        | None => false
        | Some iterations =>
            if (iterations <? 100000) || (10000000 <? iterations) then false
            else
              match StdDecodeString salt with
              | None => false
              | Some salt =>
                  if len salt <? passwordSaltBytes then false
                  else
                    match StdDecodeString key with
                    | None => false
                    | Some want =>
                        if negb (len want =? passwordKeyBytes) then false
                        else bool_decide (pbkdf2 password salt iterations = want)
                    end
              end
        end
  | _ => false
  end.

Example pbkdf2_vectors :
  hex (octets (pbkdf2 "password" "salt" 1)) = "120fb6cffcf8b32c43e7225256c4f837a86548c92ccc35480805987cb70be17b" /\
  hex (octets (pbkdf2 "password" "salt" 2)) = "ae4d0c95af6b46d32d0adff928f06dd02a303f8ef3c251dfd6e2d85a95474c43".
Proof. vm_compute. split; reflexivity. Qed.

Example std_alphabet : StdEncodeToString (of_bytes [chr 251; chr 255; chr 254]) = "+//+".
Proof. reflexivity. Qed.

(** ** The verifier's fields *)
Lemma length_Sum256 m : length (Sum256 m) = 32%nat.
Proof.
  unfold Sum256. cbv zeta. set (s := fold_left _ _ _). assert (Hs : length s = 8%nat) by (by apply length_compressed).
  clearbody s. do 9 (destruct s as [|? s]; try discriminate Hs). reflexivity.
Qed.

Lemma length_HMAC k m : length (HMAC k m) = 32%nat.
Proof. apply length_Sum256. Qed.

Lemma len_of_octets l : len (of_octets l) = Z.of_nat (length l).
Proof.
  unfold of_octets, len. f_equal. induction l as [|x l IH]; cbn; [done|]. by rewrite IH.
Qed.

Lemma len_pbkdf2 password salt iterations : len (pbkdf2 password salt iterations) = 32.
Proof.
  unfold pbkdf2. cbv zeta. rewrite len_of_octets. set (u := HMAC _ _).
  assert (H : length (Z.iter (iterations - 1) (pbkdf2_step (octets password)) (u, u)).2 = 32%nat); [|by rewrite H].
  unfold Z.iter. destruct (iterations - 1) as [|n|n]; cbn [snd]; try apply length_HMAC.
  apply (Pos.iter_invariant n _ (pbkdf2_step (octets password)) (fun s => length s.2 = 32%nat)); [|apply length_HMAC].
  intros s Hs. unfold pbkdf2_step, xor_octets. cbn [snd]. by rewrite length_zip_with, Hs, length_HMAC.
Qed.

(** The work factor must not be computed by unfolding. *)
#[global] Opaque pbkdf2.
