(* ===== verification/Identity.v ===== *)
(** * Operators and their sessions: [internal/identity]

    Accounts of a tenant ([store.go], [ensure.go]), logins and opaque sessions, and
    the middleware that turns a bearer token into a principal ([middleware.go]).
    The tables are those of [Database.Accounts]; random bytes, the Unicode letter
    case of texts that are not ASCII and the database's are parameters. *)

From Stdlib Require Import ZArith Lia Ascii.
From stdpp Require Import base list strings.
From S2P Require Import Prelude GoTime Json JsonParse Validation Sha256 Base64 Database Conversations Passwords.

#[local] Open Scope Z_scope.

Definition ErrInvalidCredentials : error := ErrSentinel "identity: invalid credentials".
Definition ErrSessionInvalid : error := ErrSentinel "identity: invalid or expired session".
Definition ErrForbidden : error := ErrSentinel "identity: operator role is not authorized".
Definition ErrInvalidOperator : error := ErrSentinel "identity: invalid operator input".
Definition ErrOperatorExists : error := ErrSentinel "identity: operator already exists".
Definition ErrNilStore : error := ErrText "identity: nil store".

Definition RoleOwner : string := "owner".
Definition RoleStaff : string := "staff".
Definition validRole (role : string) : bool := String.eqb role RoleOwner || String.eqb role RoleStaff.

Record Operator := mkOperator {
  o_TenantID : string; o_ID : string; o_Email : string; o_DisplayName : string; o_Role : string;
  o_Active : bool; o_CreatedAt : Time; o_UpdatedAt : Time
}.

Record Principal := mkPrincipal {
  p_SessionID : string; p_TenantID : string; p_TenantSlug : string; p_TenantName : string;
  p_Timezone : string; p_Currency : string; p_OperatorID : string; p_Email : string;
  p_DisplayName : string; p_Role : string; p_ExpiresAt : Time
}.

Definition no_principal : Principal := mkPrincipal "" "" "" "" "" "" "" "" "" "" (mkTime 0 UTC).

Record LoginResult := mkLogin { Token : string; lr_Principal : Principal }.

Record CreateOperatorInput := mkOperatorInput {
  in_TenantID : string; in_Email : string; in_DisplayName : string; in_Password : string; in_Role : string
}.

(** [now] is the server's clock at a tick. *)
Record Store := mkStore { has_pool : bool; sessionTTL : Z; now : nat -> Time }.

Definition NewStore (has_pool : bool) (ttl : Z) (now : nat -> Time) : result Store :=
  if negb has_pool then Err (ErrText "identity: nil PostgreSQL pool")
  else
    let ttl := if ttl =? 0 then 12 * Hour else ttl in
    if (ttl <? 5 * Minute) || (30 * 24 * Hour <? ttl)
    then Err (ErrText "identity: session TTL must be between 5 minutes and 30 days")
    else Ok (mkStore has_pool ttl now).

(** ** Letter case and random bytes *)
Class Letters := {
  unicode_lower : string -> string;
  unicode_upper : string -> string;
  database_lower : string -> string;
  database_upper : string -> string
}.

Class Entropy := { random_bytes : nat -> Z -> option string }.

Definition is_ascii (s : string) : bool := forallb (fun c => code c <? 128) (string_bytes s).

Definition ascii_lower (s : string) : string := of_bytes (map (shift_case 65 97) (string_bytes s)).
Definition ascii_upper (s : string) : string := of_bytes (map (shift_case 97 65) (string_bytes s)).

(** [crypto/rand.Read]. *)
Definition random `{!Entropy} (n : Z) : M (option string) :=
  fun _ w => (Ok (random_bytes (tick w) n), bump w).

Section identity.
Context `{!Letters} `{!Entropy}.

(** [strings.ToLower], [strings.ToUpper] and PostgreSQL's [lower] and [upper]. *)
Definition lower (s : string) : string := if is_ascii s then ascii_lower s else unicode_lower s.
Definition upper (s : string) : string := if is_ascii s then ascii_upper s else unicode_upper s.
Definition pg_lower (s : string) : string := if is_ascii s then ascii_lower s else database_lower s.
Definition pg_upper (s : string) : string := if is_ascii s then ascii_upper s else database_upper s.

(** The text before and after the last [@]. *)
Fixpoint last_at (l : list ascii) : option (list ascii * list ascii) :=
  match l with
  | [] => None
  | c :: tl =>
      match last_at tl with
      | Some (a, b) => Some (c :: a, b)
      | None => if code c =? 64 then Some ([], tl) else None
      end
  end.

Definition blank_byte (c : ascii) : bool := existsb (Z.eqb (code c)) [32; 9; 13; 10].

Definition NormalizeEmail (value : string) : result string :=
  let email := lower (TrimSpace value) in
  if (len email <? 3) || (254 <? len email) || existsb blank_byte (string_bytes email)
  then Err ErrInvalidOperator
  else
    match last_at (string_bytes email) with
    | None => Err ErrInvalidOperator
    | Some (before, after) =>
        if bool_decide (before = []) || bool_decide (after = []) || negb (existsb (fun c => code c =? 46) after)
        then Err ErrInvalidOperator else Ok email
    end.

(** ** The tables *)
(** [position('@' IN email) > 1]: the first one is not the first character. *)
Definition at_inside (email : string) : bool :=
  match string_bytes email with
  | c :: tl => negb (code c =? 64) && existsb (fun c => code c =? 64) tl
  | [] => false
  end.

Definition operator_check (o : OperatorRow) : bool :=
  String.eqb (op_email o) (pg_lower (op_email o)) && between 3 254 (pg_length (op_email o)) &&
  at_inside (op_email o) && between 1 200 (pg_length (op_name o)) && between 60 255 (pg_length (op_hash o)) &&
  validRole (op_role o).

Definition same_login (a b : OperatorRow) : bool :=
  String.eqb (op_tenant a) (op_tenant b) && String.eqb (pg_lower (op_email a)) (pg_lower (op_email b)).

Definition is_operator (tenant id : string) (o : OperatorRow) : bool :=
  String.eqb (op_tenant o) tenant && String.eqb (op_id o) id.

Definition insert_operator (row : OperatorRow) (d : DB) : result DB :=
  let ops := operators (accounts_of d) in
  if negb (operator_check row) then Err CheckViolation
  else if existsb (is_operator (op_tenant row) (op_id row)) ops || existsb (same_login row) ops
  then Err UniqueViolation
  else if negb (existsb (String.eqb (op_tenant row)) (tenants d)) then Err ForeignKeyViolation
  else Ok (set_operators (ops ++ [row]) d).

Definition session_check (s : SessionRow) : bool :=
  (len (se_digest s) =? 32) && (ns (se_created s) <? ns (se_expires s)).

Definition insert_session (row : SessionRow) (d : DB) : result DB :=
  let ss := operator_sessions (accounts_of d) in
  if negb (session_check row) then Err CheckViolation
  else if existsb (fun s => String.eqb (se_id s) (se_id row) || String.eqb (se_digest s) (se_digest row)) ss
  then Err UniqueViolation
  else if negb (existsb (is_operator (se_tenant row) (se_operator row)) (operators (accounts_of d)))
  then Err ForeignKeyViolation
  else Ok (set_sessions (ss ++ [row]) d).

(** ** Accounts *)
Definition operator_of (o : OperatorRow) : Operator :=
  mkOperator (op_tenant o) (op_id o) (op_email o) (op_name o) (op_role o) (op_active o) (op_created o) (op_updated o).

Definition insert_operator_sql (tenant email name hash role : string) : sql OperatorRow := fun now n e d =>
  let row := mkOperatorRow tenant (uuid e n 0%nat) email name hash role true now now in
  let! d' := insert_operator row d in Ok (row, d').

Definition operator_error (err : error) : error :=
  if bool_decide (pg_code err = Some "23505") then ErrOperatorExists else ErrWrap "identity: insert operator" err.

Definition CreateOperatorTx (input : CreateOperatorInput) : M Operator :=
  if blank (in_TenantID input) || negb (validRole (in_Role input)) then fail ErrInvalidOperator
  else
    let* email := lift (NormalizeEmail (in_Email input)) in
    let name := TrimSpace (in_DisplayName input) in
    if bool_decide (name = "") || (200 <? len name) then fail ErrInvalidOperator
    else
      let* salt := random passwordSaltBytes in
      let* hash := lift (HashPassword salt (in_Password input)) in
      let* row := map_err operator_error
                    (run Tx (insert_operator_sql (in_TenantID input) email name hash (in_Role input))) in
      ret (operator_of row).

Definition CreateOperator (s : Store) (input : CreateOperatorInput) : M Operator :=
  if negb (has_pool s) then fail ErrNilStore
  else
    with_tx "identity: begin create operator" (
      let* operator := CreateOperatorTx input in
      let* _ := wrap "identity: commit create operator" commit in
      ret operator).

Definition has_email (tenant email : string) (o : OperatorRow) : bool :=
  String.eqb (op_tenant o) tenant && String.eqb (op_email o) email.

Definition operatorByEmail (tenant email : string) : M Operator :=
  let* o := query Pool (fun _ _ _ d => Ok (List.find (has_email tenant email) (operators (accounts_of d)))) in
  let* row := one_row o in
  ret (operator_of row).

(** An operation whose error is looked at by its caller. *)
Definition attempt {A} (m : M A) : M (result A) := fun e w => let '(r, w') := m e w in (Ok r, w').

Definition EnsureOperator (s : Store) (input : CreateOperatorInput) : M Operator :=
  if negb (has_pool s) then fail ErrNilStore
  else
    let* email := lift (NormalizeEmail (in_Email input)) in
    let* found := attempt (operatorByEmail (in_TenantID input) email) in
    match found with
    | Ok o => ret o
    | Err err =>
        if negb (errors_is err ErrNoRows) then fail err
        else
          let* created := attempt (CreateOperator s input) in
          match created with
          | Ok o => ret o
          | Err err =>
              let* loaded := attempt (operatorByEmail (in_TenantID input) email) in
              match loaded with
              | Ok o => ret o
              | Err _ => fail (ErrWrap "identity: ensure operator" err)
              end
          end
    end.

(** ** Sessions *)
Definition tokenDigest (token : string) : string := sha256 token.

Definition newSessionToken : M string :=
  let* raw := random 32 in
  match raw with
  | Some raw => ret (EncodeToString raw)
  | None => fail (ErrText "identity: generate session token")
  end.

(** The operators that a slug and an address name, with their tenants. *)
Definition logins (slug email : string) (d : DB) : list (TenantRow * OperatorRow) :=
  flat_map (fun t => if String.eqb (tr_slug t) slug
                     then map (fun o => (t, o))
                            (List.filter (fun o => has_email (tr_id t) email o && op_active o)
                               (operators (accounts_of d)))
                     else [])
    (tenant_rows (accounts_of d)).

Definition principal_of (t : TenantRow) (o : OperatorRow) (session : string) (expires : Time) : Principal :=
  mkPrincipal session (tr_id t) (tr_slug t) (tr_name t) (tr_timezone t) (tr_currency t) (op_id o) (op_email o)
    (op_name o) (op_role o) expires.

Definition insert_session_sql (tenant operator digest : string) (expires : Time) : sql SessionRow := fun now n e d =>
  let row := mkSessionRow (uuid e n 0%nat) tenant operator digest (pg_time (tloc now) expires) None now now in
  let! d' := insert_session row d in Ok (row, d').

Definition wall_clock (s : Store) : M Time := fun _ w => (Ok (now s (tick w)), bump w).

Definition createSession (s : Store) (t : TenantRow) (o : OperatorRow) (token : string) : M Principal :=
  let* at_ := wall_clock s in
  let expiresAt := Add (ToUTC at_) (sessionTTL s) in
  let* row := wrap "identity: create session"
                (run Pool (insert_session_sql (tr_id t) (op_id o) (tokenDigest token) expiresAt)) in
  ret (principal_of t o (se_id row) expiresAt).

Definition Authenticate (s : Store) (tenantSlug email password : string) : M LoginResult :=
  if negb (has_pool s) then fail ErrNilStore
  else
    match NormalizeEmail email with
    | Err _ => fail ErrInvalidCredentials
    | Ok email =>
        if blank tenantSlug || (maximumPasswordLen <? len password) then fail ErrInvalidCredentials
        else
          let* found := wrap "identity: lookup credentials"
                          (query Pool (fun _ _ _ d => Ok (hd_error (logins (TrimSpace tenantSlug) email d)))) in
          match found with
          | None => fail ErrInvalidCredentials
          | Some (t, o) =>
              if negb (VerifyPassword password (op_hash o)) then fail ErrInvalidCredentials
              else
                let* token := newSessionToken in
                let* principal := createSession s t o token in
                ret (mkLogin token principal)
          end
    end.

(** A live session of an active operator. *)
Definition live (digest : string) (at_ : Time) (s : SessionRow) : bool :=
  String.eqb (se_digest s) digest && negb (is_set (se_revoked s)) && (ns at_ <? ns (se_expires s)).

Definition sessions_of (digest : string) (at_ : Time) (d : DB) : list Principal :=
  flat_map (fun s =>
    if live digest at_ s then
      flat_map (fun o =>
        if is_operator (se_tenant s) (se_operator s) o && op_active o then
          map (fun t => principal_of t o (se_id s) (se_expires s))
            (List.filter (fun t => String.eqb (tr_id t) (se_tenant s)) (tenant_rows (accounts_of d)))
        else []) (operators (accounts_of d))
    else []) (operator_sessions (accounts_of d)).

Definition touch_session (at_ : Time) (s : SessionRow) : SessionRow :=
  mkSessionRow (se_id s) (se_tenant s) (se_operator s) (se_digest s) (se_expires s) (se_revoked s) at_ (se_created s).

Definition touch_sql (id : string) : sql unit := fun now n e d =>
  Ok (tt, set_sessions (update_rows (fun s => String.eqb (se_id s) id) (touch_session now)
                          (operator_sessions (accounts_of d))) d).

Definition ValidateSession (s : Store) (token : string) : M Principal :=
  if negb (has_pool s) || bool_decide (token = "") then fail ErrSessionInvalid
  else
    let* found := wrap "identity: validate session"
                    (query Pool (fun now _ _ d => Ok (hd_error (sessions_of (tokenDigest token) now d)))) in
    match found with
    | None => fail ErrSessionInvalid
    | Some p =>
        let* _ := wrap "identity: update session activity" (run Pool (touch_sql (p_SessionID p))) in
        ret p
    end.

Definition revoke (at_ : Time) (s : SessionRow) : SessionRow :=
  mkSessionRow (se_id s) (se_tenant s) (se_operator s) (se_digest s) (se_expires s)
    (Some (default at_ (se_revoked s))) (se_used s) (se_created s).

Definition revocable (digest : string) (at_ : Time) (s : SessionRow) : bool :=
  String.eqb (se_digest s) digest && (ns at_ <? ns (se_expires s)).

Definition revoke_sql (digest : string) : sql nat := fun now n e d =>
  let ss := operator_sessions (accounts_of d) in
  Ok (length (List.filter (revocable digest now) ss), set_sessions (update_rows (revocable digest now) (revoke now) ss) d).

Definition RevokeSession (s : Store) (token : string) : M unit :=
  if negb (has_pool s) || bool_decide (token = "") then fail ErrSessionInvalid
  else
    let* affected := wrap "identity: revoke session" (run Pool (revoke_sql (tokenDigest token))) in
    if bool_decide (affected = 1%nat) then ret tt else fail ErrSessionInvalid.

(** ** The middleware *)
(** What a request carries: its [Authorization] header and the principal that an
    outer handler put into its context. *)
Record HttpRequest := mkRequest { Authorization : string; rq_Principal : option Principal }.

(** The status of a refusal, or the answer of the handler. *)
Inductive Response (A : Type) := Problem (status : Z) | Answer (a : A).
#[global] Arguments Problem {A}.
#[global] Arguments Answer {A}.

Definition Handler (A : Type) : Type := HttpRequest -> M (Response A).

Definition writeUnauthorized {A} : M (Response A) := ret (Problem 401).
Definition unavailable {A} : M (Response A) := ret (Problem 500).

Definition WithPrincipal (r : HttpRequest) (p : Principal) : HttpRequest := mkRequest (Authorization r) (Some p).

Definition PrincipalFromContext (r : HttpRequest) : option Principal :=
  match rq_Principal r with
  | Some p => if bool_decide (p_TenantID p = "") || bool_decide (p_OperatorID p = "") || negb (validRole (p_Role p))
              then None else Some p
  | None => None
  end.

(** [strings.EqualFold(_, "Bearer")]: no other character folds to these letters. *)
Definition bearerToken (header : string) : option string :=
  if 1024 <? len header then None
  else
    match Fields header with
    | [scheme; token] => if String.eqb (ascii_lower scheme) "bearer" && negb (bool_decide (token = "")) then Some token else None
    | _ => None
    end.

(** [middleware.Authenticate], over a validator that may be missing. *)
Definition Authenticated {A} (validator : option (string -> M Principal)) (next : Handler A) : Handler A :=
  fun r =>
  match validator with
  | None => unavailable
  | Some validate =>
      match bearerToken (Authorization r) with
      | None => writeUnauthorized
      | Some token =>
          let* p := attempt (validate token) in
          match p with
          | Err err => if errors_is err ErrSessionInvalid then writeUnauthorized else unavailable
          | Ok p => next (WithPrincipal r p)
          end
      end
  end.

Definition RequireRole {A} (role : string) (next : Handler A) : Handler A :=
  fun r =>
  match PrincipalFromContext r with
  | None => writeUnauthorized
  | Some p => if negb (String.eqb (p_Role p) role) then ret (Problem 403) else next r
  end.
End identity.
