(* ===== verification/IdentityProps.v ===== *)
(** * What a password, a session and a role are worth

    Over [Passwords] and [Identity]: a verifier accepts its password and nothing
    that derives another key; a route behind the middleware is reached only through
    a login that presented the password of an active operator with its role; and a
    session that was revoked is dead for good. *)

From Stdlib Require Import ZArith Lia Ascii.
From stdpp Require Import base list strings pretty.
From S2P Require Import Prelude GoTime Json JsonParse Validation Sha256 Base64 TimeText Tokens Database DatabaseFacts Passwords Identity.

#[local] Open Scope Z_scope.

(** ** Verifiers *)
Lemma url_std_symbol c n : sextet c = Some n -> url_symbol (std_symbol c) = c.
Proof.
  intros Hc. unfold std_symbol. destruct (code c =? 45) eqn:H1.
  { apply Z.eqb_eq in H1. rewrite <- (chr_code c), H1. reflexivity. }
  destruct (code c =? 95) eqn:H2.
  { apply Z.eqb_eq in H2. rewrite <- (chr_code c), H2. reflexivity. }
  unfold url_symbol. rewrite H1, H2. unfold sextet in Hc.
  destruct (code c =? 43) eqn:H3; [apply Z.eqb_eq in H3; by rewrite H3 in Hc|].
  destruct (code c =? 47) eqn:H4; [apply Z.eqb_eq in H4; by rewrite H4 in Hc|done].
Qed.

Lemma sextet_symbol n : 0 <= n < 64 -> exists k, sextet (symbol n) = Some k.
Proof. intros Hn. destruct (symbol_facts n Hn) as [H _]. by exists n. Qed.

Lemma encode_symbols l : Forall (fun c => exists n, sextet c = Some n) (encode l).
Proof.
  induction l as [|a|a b|a b c l IH] using triples_ind; cbn [encode]; pose_codes;
    repeat constructor; try (apply sextet_symbol; sextet_range); done.
Qed.

Lemma StdDecode_StdEncode s : StdDecodeString (StdEncodeToString s) = Some s.
Proof.
  unfold StdDecodeString, StdEncodeToString. rewrite string_of_bytes.
  replace (map url_symbol (map std_symbol (encode (string_bytes s)))) with (encode (string_bytes s)).
  - apply DecodeString_EncodeToString.
  - rewrite map_map. symmetry. induction (encode_symbols (string_bytes s)) as [|c l [n Hc] _ IH]; cbn; [done|].
    by rewrite IH, (url_std_symbol c n).
Qed.

Lemma std_no_dollar s : Forall (fun c => code c <> 36) (string_bytes (StdEncodeToString s)).
Proof.
  unfold StdEncodeToString. rewrite string_of_bytes.
  induction (encode_symbols (string_bytes s)) as [|c l [n Hc] _ IH]; cbn; constructor; [|done].
  unfold std_symbol. destruct (code c =? 45) eqn:H1; [rewrite code_chr; lia|].
  destruct (code c =? 95); [rewrite code_chr; lia|]. intros E. unfold sextet in Hc. by rewrite E in Hc.
Qed.

Lemma split_on_more sep a b :
  Forall (fun c => code c <> sep) a -> 0 <= sep < 256 -> split_on sep (a ++ chr sep :: b) = a :: split_on sep b.
Proof.
  intros Ha Hs. induction Ha as [|c a Hc _ IH]; cbn [app split_on]; [by rewrite code_chr, Z.eqb_refl|].
  apply Z.eqb_neq in Hc. by rewrite Hc, IH.
Qed.

Lemma verifier_fields salt key :
  map of_bytes (split_on 36 (string_bytes (encode_verifier salt key))) =
  [passwordScheme; pretty passwordIterations; StdEncodeToString salt; StdEncodeToString key].
Proof.
  unfold encode_verifier. cbn [Json.join]. rewrite !string_bytes_app. unfold dollar, str.
  cbn [string_bytes app]. repeat (rewrite split_on_more; [| |lia]).
  - cbn [map]. rewrite split_on_part by apply std_no_dollar. cbn [map]. by rewrite !of_string_bytes.
  - apply std_no_dollar.
  - vm_compute. repeat constructor; discriminate.
  - vm_compute. repeat constructor; discriminate.
Qed.

Lemma verify_encoded salt password q :
  len salt = passwordSaltBytes ->
  VerifyPassword q (encode_verifier salt (pbkdf2 password salt passwordIterations)) = true <->
  len q <= maximumPasswordLen /\ pbkdf2 q salt passwordIterations = pbkdf2 password salt passwordIterations.
Proof.
  intros Hsalt. unfold VerifyPassword. rewrite verifier_fields, String.eqb_refl.
  replace (Sscanf_d (pretty passwordIterations)) with (Some passwordIterations) by (vm_compute; reflexivity).
  cbn [negb orb]. rewrite StdDecode_StdEncode, Hsalt, StdDecode_StdEncode, len_pbkdf2.
  change (passwordSaltBytes <? passwordSaltBytes) with false.
  change ((passwordIterations <? 100000) || (10000000 <? passwordIterations)) with false.
  change (negb (32 =? passwordKeyBytes)) with false. cbv iota.
  destruct (maximumPasswordLen <? len q) eqn:Hq; [apply Z.ltb_lt in Hq|apply Z.ltb_ge in Hq].
  - split; [done|]. intros [? _]. lia.
  - rewrite bool_decide_eq_true. split; [intros Hk; split; [exact Hq|exact Hk]|intros [_ Hk]; exact Hk].
Qed.

(** The verifier of a password accepts that password, and of all others only
    those no longer than the limit from which the same key derives. *)
Theorem verifier_accepts_its_password (salt password candidate verifier : string)
    (Hsalt : len salt = passwordSaltBytes) (Hhash : HashPassword (Some salt) password = Ok verifier) :
  VerifyPassword password verifier = true /\
  (VerifyPassword candidate verifier = true <->
     len candidate <= maximumPasswordLen /\
     pbkdf2 candidate salt passwordIterations = pbkdf2 password salt passwordIterations).
Proof.
  unfold HashPassword in Hhash. destruct (validateNewPassword password) eqn:Hv; [done|]. injection Hhash as <-.
  unfold validateNewPassword in Hv. destruct (_ || _) eqn:Hl in Hv; [done|]. bool_to_prop.
  split; [apply (verify_encoded _ _ _ Hsalt); split; [lia|reflexivity]|exact (verify_encoded _ _ _ Hsalt)].
Qed.

(** ** Sessions *)
Section sessions.
Context `{letters : !Letters} `{entropy : !Entropy} (s : Store).

(** The operations on operators and sessions. *)
Inductive op :=
| OpCreate (input : CreateOperatorInput)
| OpEnsure (input : CreateOperatorInput)
| OpLogin (slug email password : string)
| OpValidate (token : string)
| OpRevoke (token : string).

Definition discard {A} (m : M A) : M unit := let* _ := m in ret tt.

Definition exec_op (o : op) : M unit :=
  match o with
  | OpCreate i => discard (CreateOperator s i)
  | OpEnsure i => discard (EnsureOperator s i)
  | OpLogin slug email password => discard (Authenticate s slug email password)
  | OpValidate token => discard (ValidateSession s token)
  | OpRevoke token => RevokeSession s token
  end.

(** What a history of operations, failed or not, leaves. *)
Fixpoint history (l : list op) (e : env) (w : world) : world :=
  match l with [] => w | o :: tl => history tl e (exec_op o e w).2 end.

#[local] Abbreviation ops_of d := (operators (accounts_of d)).
#[local] Abbreviation sessions_in d := (operator_sessions (accounts_of d)).
#[local] Abbreviation tenants_in d := (tenant_rows (accounts_of d)).

(** A login of [past] that presented the password of operator [o]. *)
Definition logged_in (past : list op) (t : TenantRow) (o : OperatorRow) : Prop :=
  exists slug email password, OpLogin slug email password ∈ past /\
    tr_slug t = TrimSpace slug /\ NormalizeEmail email = Ok (op_email o) /\
    VerifyPassword password (op_hash o) = true /\ op_active o = true /\ op_tenant o = tr_id t.

Record accounts_inv (past : list op) (d : DB) : Prop := {
  ai_operators : NoDup (map (fun o => (op_tenant o, op_id o)) (ops_of d));
  ai_tenants : NoDup (map tr_id (tenants_in d));
  ai_digests : NoDup (map se_digest (sessions_in d));
  ai_logins : forall r, r ∈ sessions_in d -> exists t o, t ∈ tenants_in d /\ o ∈ ops_of d /\
    logged_in past t o /\ se_tenant r = op_tenant o /\ se_operator r = op_id o
}.

Lemma logged_in_later past o' t o : logged_in past t o -> logged_in (past ++ [o']) t o.
Proof.
  intros (sl & em & pw & Hin & H). exists sl, em, pw. split; [apply elem_of_app; by left|done].
Qed.

Lemma accounts_inv_later past o d : accounts_inv past d -> accounts_inv (past ++ [o]) d.
Proof.
  intros [H1 H2 H3 H4]. split; try done. intros r Hr. destruct (H4 r Hr) as (t & o' & Ht & Ho & Hl & He).
  exists t, o'. split_and!; try done; [by apply logged_in_later|apply He..].
Qed.

Lemma insert_operator_inv past row d d' :
  accounts_inv past d -> insert_operator row d = Ok d' -> accounts_inv past d'.
Proof.
  intros [H1 H2 H3 H4]. unfold insert_operator. destruct (operator_check row); [|done]. cbn [negb].
  destruct (_ || _) eqn:E; [done|]. destruct (existsb _ (tenants d)); [|done]. cbn [negb]. intros [= <-].
  apply orb_false_iff in E as [E _].
  split; cbn; try done.
  - rewrite map_app. apply NoDup_app. split; [done|]. split; [|apply NoDup_singleton].
    intros x (o & -> & Ho)%list_elem_of_fmap Heq%list_elem_of_singleton. injection Heq as Ht Hi.
    assert (Hx : existsb (is_operator (op_tenant row) (op_id row)) (ops_of d) = true); [|congruence].
    apply existsb_exists. exists o. split; [by apply list_elem_of_In|]. unfold is_operator.
    by rewrite Ht, Hi, !String.eqb_refl.
  - intros r Hr. destruct (H4 r Hr) as (t & o & Ht & Ho & Hl). exists t, o.
    split; [done|]. split; [apply elem_of_app; by left|done].
Qed.

Lemma insert_session_inv past row d d' :
  accounts_inv past d ->
  (exists t o, t ∈ tenants_in d /\ o ∈ ops_of d /\ logged_in past t o /\
     se_tenant row = op_tenant o /\ se_operator row = op_id o) ->
  insert_session row d = Ok d' -> accounts_inv past d'.
Proof.
  intros [H1 H2 H3 H4] Hrow. unfold insert_session. destruct (session_check row); [|done]. cbn [negb].
  destruct (existsb _ (sessions_in d)) eqn:E; [done|]. destruct (existsb _ (ops_of d)); [|done]. cbn [negb].
  intros [= <-]. split; cbn; try done.
  - rewrite map_app. apply NoDup_app. split; [done|]. split; [|apply NoDup_singleton].
    intros x (r & -> & Hr)%list_elem_of_fmap Heq%list_elem_of_singleton.
    assert (Hx : existsb (fun x => String.eqb (se_id x) (se_id row) || String.eqb (se_digest x) (se_digest row))
                   (sessions_in d) = true); [|congruence].
    apply existsb_exists. exists r. split; [by apply list_elem_of_In|]. cbn in Heq.
    by rewrite Heq, String.eqb_refl, orb_true_r.
  - intros r [Hr|Hr%list_elem_of_singleton]%elem_of_app; [by apply H4|]. by subst.
Qed.

(** Updates that keep what a session names. *)
Lemma update_sessions_inv past p f d :
  (forall r, se_digest (f r) = se_digest r /\ se_tenant (f r) = se_tenant r /\ se_operator (f r) = se_operator r) ->
  accounts_inv past d -> accounts_inv past (set_sessions (update_rows p f (sessions_in d)) d).
Proof.
  intros Hf [H1 H2 H3 H4]. split; cbn; try done.
  - change (map se_digest ?l) with (se_digest <$> l). rewrite fmap_update_rows; [done|]. intros r _. apply Hf.
  - intros r (r0 & Hr0 & ->)%elem_of_update_rows. destruct (H4 r0 Hr0) as (t & o & Ht & Ho & Hl & He1 & He2).
    exists t, o. split_and!; try done; (destruct (p r0); [|done]); destruct (Hf r0) as (_ & Et & Eo); congruence.
Qed.

Lemma CreateOperator_inv past i : db_preserves (accounts_inv past) (CreateOperator s i).
Proof.
  unfold CreateOperator, CreateOperatorTx, random. walk_committed.
  - intros e w Hw. exact Hw.
  - intros now n e d b d' Hd Hr. apply rbind_Ok in Hr as (d1 & Hi & [= _ <-]). by eapply insert_operator_inv.
Qed.

Lemma attempt_db (I : DB -> Prop) {A} (m : M A) : db_preserves I m -> db_preserves I (attempt m).
Proof. intros Hm e w Hw. unfold attempt. specialize (Hm e w Hw). by destruct (m e w). Qed.

Lemma operatorByEmail_db (I : DB -> Prop) t email : db_preserves I (operatorByEmail t email).
Proof. unfold operatorByEmail. walk_committed. Qed.

Lemma EnsureOperator_inv past i : db_preserves (accounts_inv past) (EnsureOperator s i).
Proof.
  unfold EnsureOperator. destruct (negb _); [by apply db_local, local_fail|].
  apply db_bind; [by apply db_local, local_lift|]. intros email.
  apply db_bind; [by apply attempt_db, operatorByEmail_db|]. intros [o|err]; [by apply db_local, local_ret|].
  destruct (negb _); [by apply db_local, local_fail|].
  apply db_bind; [by apply attempt_db, CreateOperator_inv|]. intros [o|err']; [by apply db_local, local_ret|].
  apply db_bind; [by apply attempt_db, operatorByEmail_db|].
  intros [o|err'']; [by apply db_local, local_ret|by apply db_local, local_fail].
Qed.

(** The accounts a login finds, and the session it makes for them. *)
Lemma elem_of_logins slug email d t o :
  (t, o) ∈ logins slug email d ->
  t ∈ tenants_in d /\ o ∈ ops_of d /\ tr_slug t = slug /\ op_tenant o = tr_id t /\ op_email o = email /\
  op_active o = true.
Proof.
  unfold logins. rewrite list_elem_of_In, in_flat_map. intros (t' & Ht & Hin).
  destruct (String.eqb (tr_slug t') slug) eqn:Hs; [|done]. apply in_map_iff in Hin as (o' & [= -> ->] & Ho).
  apply filter_In in Ho as [Ho Hp]. apply andb_true_iff in Hp as [Hp Ha]. unfold has_email in Hp.
  apply andb_true_iff in Hp as [H1 H2]. apply String.eqb_eq in H1, H2, Hs. by rewrite !list_elem_of_In.
Qed.

Lemma createSession_inv past t o token e w :
  accounts_inv past (db w) -> t ∈ tenants_in (db w) -> o ∈ ops_of (db w) -> logged_in past t o ->
  accounts_inv past (db (createSession s t o token e w).2).
Proof.
  intros Hw Ht Ho Hl. unfold createSession. apply db_after_local; [by intros ??| |done].
  intros at_ w1 _ Hdb. rewrite then_local by (intros; apply local_ret). unfold wrap. rewrite map_err_db.
  apply db_run_pool_at; [|by rewrite Hdb]. intros row d Hr. apply rbind_Ok in Hr as (d' & Hi & [= _ <-]).
  rewrite Hdb in Hi. eapply insert_session_inv; [exact Hw| |exact Hi]. exists t, o.
  split_and!; try done. cbn. by destruct Hl as (? & ? & ? & _ & _ & _ & _ & _ & ->).
Qed.

Lemma Authenticate_inv past slug email password e w :
  accounts_inv past (db w) ->
  accounts_inv (past ++ [OpLogin slug email password]) (db (Authenticate s slug email password e w).2).
Proof.
  intros Hw. apply (accounts_inv_later _ (OpLogin slug email password)) in Hw. revert Hw. set (past' := past ++ _). intros Hw.
  assert (Hin : OpLogin slug email password ∈ past') by (apply elem_of_app; right; by apply list_elem_of_singleton).
  unfold Authenticate. destruct (negb _); [done|].
  destruct (NormalizeEmail email) as [email'|] eqn:He; [|done]. destruct (_ || _); [done|].
  apply db_after_local; [auto with db| |done]. intros found w1 Hq Hdb.
  destruct found as [[t o]|]; [|by rewrite <- Hdb in Hw].
  destruct (VerifyPassword password (op_hash o)) eqn:Hv; cbn [negb]; [|by rewrite <- Hdb in Hw].
  apply wrap_Ok, query_Pool_Ok in Hq as [Hq _]. injection Hq as Hq.
  assert (Hf : (t, o) ∈ logins (TrimSpace slug) email' (db w)).
  { destruct (logins _ _ _); [done|]. injection Hq as ->. by left. }
  apply elem_of_logins in Hf as (Ht & Ho & Hs & Hto & Hem & Ha).
  apply db_after_local; [unfold newSessionToken, random| |by rewrite Hdb].
  { apply local_bind; [by intros ??|]. intros []; auto with db. }
  intros token w2 _ Hdb2. rewrite then_local by (intros; apply local_ret).
  apply createSession_inv; rewrite ?Hdb2, ?Hdb; try done.
  exists slug, email, password. split_and!; try done. by rewrite Hem.
Qed.

Lemma ValidateSession_inv past token : db_preserves (accounts_inv past) (ValidateSession s token).
Proof.
  unfold ValidateSession. walk_committed. intros now n e d b d' Hd [= _ <-]. by apply update_sessions_inv.
Qed.

Lemma RevokeSession_inv past token : db_preserves (accounts_inv past) (RevokeSession s token).
Proof.
  unfold RevokeSession. walk_committed. intros now n e d b d' Hd [= _ <-]. by apply update_sessions_inv.
Qed.

Lemma discard_db {A} (m : M A) e w : db (discard m e w).2 = db (m e w).2.
Proof. apply then_local. intros a. apply local_ret. Qed.

Lemma exec_inv past o e w :
  accounts_inv past (db w) -> accounts_inv (past ++ [o]) (db (exec_op o e w).2).
Proof.
  intros Hw. destruct o; cbn [exec_op]; rewrite ?discard_db;
    [apply accounts_inv_later; by apply CreateOperator_inv|apply accounts_inv_later; by apply EnsureOperator_inv
    |by apply Authenticate_inv|apply accounts_inv_later; by apply ValidateSession_inv
    |apply accounts_inv_later; by apply RevokeSession_inv].
Qed.

Lemma history_inv l past e w :
  accounts_inv past (db w) -> accounts_inv (past ++ l) (db (history l e w)).
Proof.
  revert past w. induction l as [|o l IH]; intros past w Hw; cbn; [by rewrite app_nil_r|].
  replace (past ++ o :: l) with ((past ++ [o]) ++ l) by by rewrite <- app_assoc. by apply IH, exec_inv.
Qed.

(** Tables no one has logged in to. *)
Definition fresh_accounts (d : DB) : Prop :=
  sessions_in d = [] /\ NoDup (map (fun o => (op_tenant o, op_id o)) (ops_of d)) /\ NoDup (map tr_id (tenants_in d)).

Lemma fresh_inv d : fresh_accounts d -> accounts_inv [] d.
Proof.
  intros (Hs & Ho & Ht). split; try done; [rewrite Hs; constructor|]. rewrite Hs. by intros r ?%elem_of_nil.
Qed.

(** *** What a session answers *)
Lemma elem_of_sessions digest at_ d p :
  p ∈ sessions_of digest at_ d -> exists r o t, r ∈ sessions_in d /\ o ∈ ops_of d /\ t ∈ tenants_in d /\
    live digest at_ r = true /\ is_operator (se_tenant r) (se_operator r) o = true /\ op_active o = true /\
    tr_id t = se_tenant r /\ p = principal_of t o (se_id r) (se_expires r).
Proof.
  unfold sessions_of. rewrite list_elem_of_In, in_flat_map. intros (r & Hr & Hin).
  destruct (live digest at_ r) eqn:Hl; [|done]. apply in_flat_map in Hin as (o & Ho & Hin).
  destruct (is_operator _ _ o && op_active o) eqn:Hp; [|done]. apply andb_true_iff in Hp as [Hp Ha].
  apply in_map_iff in Hin as (t & <- & Ht). apply filter_In in Ht as [Ht He%String.eqb_eq].
  exists r, o, t. by rewrite !list_elem_of_In.
Qed.

Lemma ValidateSession_Ok token e w p w' :
  ValidateSession s token e w = (Ok p, w') -> p ∈ sessions_of (tokenDigest token) (clock e (tick w)) (db w).
Proof.
  unfold ValidateSession. destruct (_ || _); [done|]. intros (found & w1 & Hq & Hrest)%bind_Ok.
  apply wrap_Ok, query_Pool_Ok in Hq as [Hq _]. injection Hq as Hq.
  destruct found as [q|]; [|done]. apply bind_Ok in Hrest as (u & w2 & _ & Hrest). injection Hrest as <- _.
  destruct (sessions_of _ _ _); [done|]. injection Hq as ->. by left.
Qed.

(** A session that a bearer token opens at a time: its digest is stored for an active
    operator of a tenant, and it has been neither revoked nor outlived. *)
Definition opens (token : string) (at_ : Time) (row : SessionRow) (t : TenantRow) (o : OperatorRow) (d : DB) : Prop :=
  row ∈ sessions_in d /\ se_digest row = tokenDigest token /\ se_revoked row = None /\ ns at_ < ns (se_expires row) /\
  o ∈ ops_of d /\ op_tenant o = se_tenant row /\ op_id o = se_operator row /\ op_active o = true /\
  t ∈ tenants_in d /\ tr_id t = se_tenant row.

(** C8. A handler behind the middleware for a role is reached only with a bearer token
    in the request's header whose digest is stored with a session that is not revoked
    and, by the clock of the database, not over; and only where the session's operator
    is active, has that role, and logged in before: with the slug of the tenant, the
    operator's address, and a password that the operator's verifier accepts.  The
    handler is handed the principal of that operator and that session, whatever else
    the request carries. *)
Theorem role_needs_its_login {A} (role : string) (next : Handler A) (past : list op) (e : env) (w0 w' : world)
    (r : HttpRequest) (a : A) (Hfresh : fresh_accounts (db w0))
    (Hanswer : Authenticated (Some (ValidateSession s)) (RequireRole role next) r e (history past e w0)
               = (Ok (Answer a), w')) :
  exists token row t o p w1, bearerToken (Authorization r) = Some token /\
    opens token (clock e (tick (history past e w0))) row t o (db (history past e w0)) /\
    op_role o = role /\ logged_in past t o /\
    p = principal_of t o (se_id row) (se_expires row) /\ next (WithPrincipal r p) e w1 = (Ok (Answer a), w').
Proof.
  pose proof (history_inv past [] e w0 (fresh_inv _ Hfresh)) as Hinv. cbn [app] in Hinv.
  set (w := history past e w0) in *. unfold Authenticated in Hanswer.
  destruct (bearerToken (Authorization r)) as [token|]; [|done].
  apply bind_Ok in Hanswer as (res & w1 & Hv & Hanswer). unfold attempt in Hv.
  destruct (ValidateSession s token e w) as [v w2] eqn:Hval. injection Hv as <- <-.
  destruct v as [p|err]; [|by destruct (errors_is err ErrSessionInvalid)].
  apply ValidateSession_Ok in Hval. apply elem_of_sessions in Hval as (row & o & t & Hrow & Ho & Ht & Hl & Hop & Ha & Hid & ->).
  unfold RequireRole, PrincipalFromContext in Hanswer. cbn [rq_Principal WithPrincipal] in Hanswer.
  destruct (_ || _) in Hanswer; [done|]. destruct (String.eqb _ role) eqn:Hrole; cbn [negb] in Hanswer; [|done].
  apply String.eqb_eq in Hrole. cbn in Hrole.
  destruct (ai_logins _ _ Hinv row Hrow) as (t' & o' & Ht' & Ho' & Hlog & Et & Eo).
  assert (o' = o).
  { apply (NoDup_map_inj _ _ _ _ (ai_operators _ _ Hinv)); [done|done|].
    unfold is_operator in Hop. apply andb_true_iff in Hop as [H1 H2]. apply String.eqb_eq in H1, H2. congruence. }
  subst o'. assert (t' = t).
  { apply (NoDup_map_inj _ _ _ _ (ai_tenants _ _ Hinv)); [done|done|].
    destruct Hlog as (? & ? & ? & _ & _ & _ & _ & _ & Hto). congruence. }
  subst t'. unfold live in Hl. unfold is_operator in Hop. bool_to_prop.
  exists token, row, t, o, (principal_of t o (se_id row) (se_expires row)), w2. split; [done|]. split; [|done].
  split_and!; try done; [by apply String.eqb_eq|by destruct (se_revoked row)].
Qed.

(** *** Revocation *)
Definition dead (digest : string) (d : DB) : Prop :=
  (exists r, r ∈ sessions_in d /\ se_digest r = digest) /\
  forall r, r ∈ sessions_in d -> se_digest r = digest -> is_set (se_revoked r) = true.

Lemma insert_session_dead digest row d d' : dead digest d -> insert_session row d = Ok d' -> dead digest d'.
Proof.
  intros [(r0 & Hr0 & Hd0) Hall]. unfold insert_session. destruct (session_check row); [|done]. cbn [negb].
  destruct (existsb _ (sessions_in d)) eqn:E; [done|]. destruct (existsb _ (ops_of d)); [|done]. cbn [negb].
  intros [= <-]. split; cbn; [exists r0; split; [apply elem_of_app; by left|done]|].
  intros r [Hr|Hr%list_elem_of_singleton]%elem_of_app Hd; [by apply Hall|]. subst r.
  assert (Hx : existsb (fun x => String.eqb (se_id x) (se_id row) || String.eqb (se_digest x) (se_digest row))
                 (sessions_in d) = true); [|congruence].
  apply existsb_exists. exists r0. split; [by apply list_elem_of_In|].
  by rewrite Hd0, Hd, String.eqb_refl, orb_true_r.
Qed.

Lemma update_sessions_dead digest p f d :
  (forall r, se_digest (f r) = se_digest r /\ (is_set (se_revoked r) = true -> is_set (se_revoked (f r)) = true)) ->
  dead digest d -> dead digest (set_sessions (update_rows p f (sessions_in d)) d).
Proof.
  intros Hf [(r0 & Hr0 & Hd0) Hall]. split; cbn.
  - exists (if p r0 then f r0 else r0). split; [apply elem_of_update_rows; by exists r0|].
    destruct (p r0); [|done]. by rewrite (proj1 (Hf r0)).
  - intros r (r1 & Hr1 & ->)%elem_of_update_rows Hd. destruct (p r1); [|by apply Hall].
    destruct (Hf r1) as [Hfd Hfr]. apply Hfr, Hall; [done|congruence].
Qed.

Lemma CreateOperator_dead digest i : db_preserves (dead digest) (CreateOperator s i).
Proof.
  unfold CreateOperator, CreateOperatorTx, random. walk_committed.
  - intros e w Hw. exact Hw.
  - intros now n e d b d' Hd Hr. apply rbind_Ok in Hr as (d1 & Hi & [= _ <-]). unfold insert_operator in Hi.
    destruct (negb _); [done|]. destruct (_ || _); [done|]. destruct (negb _); [done|]. by injection Hi as <-.
Qed.

Lemma Authenticate_dead digest slug email password : db_preserves (dead digest) (Authenticate s slug email password).
Proof.
  unfold Authenticate, createSession, newSessionToken, random, wall_clock. walk_committed; try (by intros e w Hw).
  intros now n e d b d' Hd Hr. apply rbind_Ok in Hr as (d1 & Hi & [= _ <-]). by eapply insert_session_dead.
Qed.

Lemma exec_dead digest o e w : dead digest (db w) -> dead digest (db (exec_op o e w).2).
Proof.
  intros Hw. destruct o; cbn [exec_op]; rewrite ?discard_db.
  - by apply CreateOperator_dead.
  - unfold EnsureOperator. destruct (negb _); [done|].
    apply db_bind; [by apply db_local, local_lift| |done]. intros email'.
    apply db_bind; [by apply attempt_db, operatorByEmail_db|]. intros [o|err]; [by apply db_local, local_ret|].
    destruct (negb _); [by apply db_local, local_fail|].
    apply db_bind; [by apply attempt_db, CreateOperator_dead|]. intros [o|err']; [by apply db_local, local_ret|].
    apply db_bind; [by apply attempt_db, operatorByEmail_db|].
    intros [o|err'']; [by apply db_local, local_ret|by apply db_local, local_fail].
  - by apply Authenticate_dead.
  - enough (H : db_preserves (dead digest) (ValidateSession s token)) by (by apply H).
    unfold ValidateSession. walk_committed. intros now n e' d b d' Hd [= _ <-]. by apply update_sessions_dead.
  - enough (H : db_preserves (dead digest) (RevokeSession s token)) by (by apply H).
    unfold RevokeSession. walk_committed. intros now n e' d b d' Hd [= _ <-]. by apply update_sessions_dead.
Qed.

Lemma history_dead digest l e w : dead digest (db w) -> dead digest (db (history l e w)).
Proof. revert w. induction l as [|o l IH]; intros w Hw; [done|]. by apply IH, exec_dead. Qed.

Lemma revoked_dead past token e w w' :
  accounts_inv past (db w) -> RevokeSession s token e w = (Ok tt, w') -> dead (tokenDigest token) (db w').
Proof.
  intros Hinv. unfold RevokeSession. destruct (_ || _); [done|]. intros (k & w1 & Hr & Hk)%bind_Ok.
  destruct (bool_decide (k = 1%nat)) eqn:E; [|done]. apply bool_decide_eq_true_1 in E as ->. injection Hk as <-.
  apply wrap_Ok, run_Pool_Ok in Hr as (d & Hd & ->). unfold revoke_sql in Hd. injection Hd as Hlen <-.
  set (p := revocable _ _) in *. set (at_ := clock e (tick w)) in *. cbn [db].
  destruct (List.filter p (sessions_in (db w))) as [|r0 l] eqn:Hfil; [done|].
  assert (Hr0 : r0 ∈ sessions_in (db w) /\ p r0 = true) by (apply elem_of_filter_bool; rewrite Hfil; by left).
  destruct Hr0 as [Hin Hp]. assert (Hd0 : se_digest r0 = tokenDigest token).
  { unfold p, revocable in Hp. by apply andb_true_iff in Hp as [Hp%String.eqb_eq _]. }
  split; cbn.
  - exists (revoke at_ r0). split; [|done]. apply elem_of_update_rows. exists r0. by rewrite Hp.
  - intros r (r1 & Hr1 & ->)%elem_of_update_rows Hdig.
    assert (r1 = r0); [|subst; by rewrite Hp].
    apply (NoDup_map_inj _ _ _ _ (ai_digests _ _ Hinv)); [done|done|]. rewrite Hd0.
    by destruct (p r1).
Qed.

(** Once a session's token has been revoked, no later history of logins,
    validations, revocations and new accounts makes it valid again. *)
Theorem revoked_session_is_dead (past later : list op) (token : string) (e : env) (w0 w1 : world)
    (Hfresh : fresh_accounts (db w0)) (Hrevoke : RevokeSession s token e (history past e w0) = (Ok tt, w1)) :
  forall p w2, ValidateSession s token e (history later e w1) <> (Ok p, w2).
Proof.
  intros p w2 Hv. apply ValidateSession_Ok, elem_of_sessions in Hv as (r & o & t & Hr & _ & _ & Hl & _).
  pose proof (history_inv past [] e w0 (fresh_inv _ Hfresh)) as Hinv.
  apply (revoked_dead _ _ _ _ _ Hinv) in Hrevoke. apply (history_dead _ later e) in Hrevoke as [_ Hall].
  unfold live in Hl. apply andb_true_iff in Hl as [[Hd%String.eqb_eq Hn]%andb_true_iff _].
  by rewrite (Hall r Hr Hd) in Hn.
Qed.
End sessions.

(** A login that finds its account and a verifier that accepts the password. *)
Lemma Authenticate_login `{letters : !Letters} `{entropy : !Entropy} s slug email email' password t o e w :
  has_pool s = true -> NormalizeEmail email = Ok email' ->
  blank slug || (maximumPasswordLen <? len password) = false ->
  head (logins (TrimSpace slug) email' (db w)) = Some (t, o) -> VerifyPassword password (op_hash o) = true ->
  fault e (tick w) = None ->
  Authenticate s slug email password e w
  = (let* token := newSessionToken in
     let* principal := createSession s t o token in ret (mkLogin token principal)) e
      (query Pool (fun _ _ _ d => Ok (head (logins (TrimSpace slug) email' d))) e w).2.
Proof.
  intros Hp He Hb Hl Hv Hf. unfold Authenticate. rewrite Hp, He, Hb. cbn [negb].
  unfold bind at 1, wrap, map_err, query, run. cbn beta iota zeta.
  rewrite Hf. cbn [rbind]. rewrite Hl. rewrite Hv. cbn [negb snd]. reflexivity.
Qed.

(** ** An operator at work *)
Module OperatorDemo.
#[export] Instance demo_letters : Letters := {|
  unicode_lower x := x; unicode_upper x := x; database_lower x := x; database_upper x := x
|}.

Fixpoint zeros (n : nat) : string := match n with O => EmptyString | S n => String zero (zeros n) end.

#[export] Instance demo_entropy : Entropy := {| random_bytes _ n := Some (zeros (Z.to_nat n)) |}.

Definition at_ (h : Z) : Time := mkTime (h * Hour) UTC.
Definition e : env := mkEnv (fun n => at_ (100 + Z.of_nat n)) (fun _ _ => "session") (fun _ _ => false)
  (fun _ => None) (fun _ => false) (fun _ => None).
Definition store : Store := mkStore true (12 * Hour) (fun n => at_ (100 + Z.of_nat n)).

Definition password : string := "correct horse battery".
Definition tenant : TenantRow := mkTenantRow "t" "salon-nord" "Salon Nord" "Europe/Berlin" "EUR" (at_ 0) (at_ 0).
Definition owner (hash : string) : OperatorRow :=
  mkOperatorRow "t" "o" "ann@example.com" "Ann" hash "owner" true (at_ 0) (at_ 0).

Definition accounts_with (hash : string) : world :=
  let d := mkDB ["t"] [] [] [] [] [] [] [] [] [] [] [] [] [] [] [] [] []
    (mkTurnTables [] [] [] [] [] (mkAccounts [tenant] [owner hash] [] [] [])) in
  mkWorld d d false (at_ 0) 0.

Definition login : op := OpLogin "salon-nord" " Ann@Example.com" password.
Definition token : string := EncodeToString (zeros 32).
Definition request : HttpRequest := mkRequest (String.append "Bearer " token) None.
Definition secret : Handler string := fun _ => ret (Answer "figures").

Lemma fresh hash : fresh_accounts (db (accounts_with hash)).
Proof. split; [reflexivity|]. split; apply NoDup_singleton. Defined.


(** With a verifier that accepts the password, the owner's token opens the route. *)
Lemma served hash : VerifyPassword password hash = true ->
  (Authenticated (Some (ValidateSession store)) (RequireRole "owner" secret) request e
    (history store [login] e (accounts_with hash))).1 = Ok (Answer "figures").
Proof.
  intros Hv. cbn [history exec_op login]. unfold discard, bind at 1.
  rewrite (Authenticate_login store "salon-nord" " Ann@Example.com" "ann@example.com" password tenant (owner hash) e (accounts_with hash)
             eq_refl eq_refl eq_refl eq_refl Hv eq_refl).
  vm_compute. reflexivity.
Qed.

Lemma opened_revoked hash : VerifyPassword password hash = true ->
  (RevokeSession store token e (history store [login] e (accounts_with hash))).1 = Ok tt.
Proof.
  intros Hv. cbn [history exec_op login]. unfold discard, bind at 1.
  rewrite (Authenticate_login store "salon-nord" " Ann@Example.com" "ann@example.com" password tenant (owner hash) e (accounts_with hash)
             eq_refl eq_refl eq_refl eq_refl Hv eq_refl).
  vm_compute. reflexivity.
Qed.
Definition verifier : string := encode_verifier (zeros 16) (pbkdf2 password (zeros 16) passwordIterations).

Lemma verifier_of_password : HashPassword (Some (zeros 16)) password = Ok verifier.
Proof. reflexivity. Qed.

Lemma verifier_verifies : VerifyPassword password verifier = true.
Proof. apply (verify_encoded (zeros 16)); [reflexivity|]. split; [by vm_compute|exact eq_refl]. Qed.

Lemma served_world hash : VerifyPassword password hash = true ->
  exists w', Authenticated (Some (ValidateSession store)) (RequireRole "owner" secret) request e
    (history store [login] e (accounts_with hash)) = (Ok (Answer "figures"), w').
Proof. intros Hv. eexists. rewrite <- (served hash Hv). apply surjective_pairing. Qed.

Lemma revoked_world hash : VerifyPassword password hash = true ->
  exists w', RevokeSession store token e (history store [login] e (accounts_with hash)) = (Ok tt, w').
Proof. intros Hv. eexists. rewrite <- (opened_revoked hash Hv). apply surjective_pairing. Qed.

End OperatorDemo.

#[local] Existing Instances OperatorDemo.demo_letters OperatorDemo.demo_entropy.

Lemma verifier_accepts_its_password_witness :
  HashPassword (Some (OperatorDemo.zeros 16)) OperatorDemo.password = Ok OperatorDemo.verifier /\
  VerifyPassword OperatorDemo.password OperatorDemo.verifier = true.
Proof.
  split; [exact OperatorDemo.verifier_of_password|].
  exact (proj1 (verifier_accepts_its_password (OperatorDemo.zeros 16) OperatorDemo.password EmptyString
                  OperatorDemo.verifier eq_refl OperatorDemo.verifier_of_password)).
Defined.

Lemma role_needs_its_login_witness :
  exists token row t o, bearerToken (Authorization OperatorDemo.request) = Some token /\
    se_digest row = tokenDigest token /\ se_revoked row = None /\ op_role o = "owner"%string /\
    logged_in [OperatorDemo.login] t o.
Proof.
  destruct (OperatorDemo.served_world _ OperatorDemo.verifier_verifies) as [w' H].
  destruct (role_needs_its_login _ _ _ _ _ _ _ _ _ (OperatorDemo.fresh _) H)
    as (token & row & t & o & _ & _ & Ht & (_ & Hd & Hrev & _) & Hr & Hl & _).
  exists token, row, t, o. split_and!; [exact Ht|exact Hd|exact Hrev|exact Hr|exact Hl].
Defined.

Lemma revoked_session_is_dead_witness :
  exists w1, RevokeSession OperatorDemo.store OperatorDemo.token OperatorDemo.e
      (history OperatorDemo.store [OperatorDemo.login] OperatorDemo.e
         (OperatorDemo.accounts_with OperatorDemo.verifier)) = (Ok tt, w1) /\
    forall p w2, ValidateSession OperatorDemo.store OperatorDemo.token OperatorDemo.e
      (history OperatorDemo.store [OperatorDemo.login] OperatorDemo.e w1) <> (Ok p, w2).
Proof.
  destruct (OperatorDemo.revoked_world _ OperatorDemo.verifier_verifies) as [w1 H]. exists w1. split; [exact H|].
  exact (revoked_session_is_dead _ _ _ _ _ _ _ (OperatorDemo.fresh _) H).
Defined.
