(* ===== verification/Aes.v ===== *)
(** * AES-256 in Galois/counter mode: [crypto/aes] and [crypto/cipher]

    The block cipher of FIPS 197 for keys of 32 bytes and the mode of SP 800-38D
    with nonces of 12 bytes and tags of 16, as [cipher.NewGCM] builds it.  A byte is
    a [Z] below 256, a block a list of sixteen in the order of the standard. *)

From Stdlib Require Import ZArith Lia Ascii.
From stdpp Require Import base list strings.
From S2P Require Import Prelude Json Sha256 Tokens.

#[local] Open Scope Z_scope.

(** ** The field of the cipher, modulo x^8 + x^4 + x^3 + x + 1 *)
Definition xtime (a : Z) : Z := Z.land (Z.lxor (2 * a) (if Z.testbit a 7 then 27 else 0)) 255.

(** The product of [a] and the low [n] bits of [b]. *)
Fixpoint field_mul (n : nat) (a b : Z) : Z :=
  match n with
  | O => 0
  | S k => Z.lxor (if Z.testbit b 0 then a else 0) (field_mul k (xtime a) (b / 2))
  end.

Definition sbox : list Z :=
  [99; 124; 119; 123; 242; 107; 111; 197; 48; 1; 103; 43; 254; 215; 171; 118;
   202; 130; 201; 125; 250; 89; 71; 240; 173; 212; 162; 175; 156; 164; 114; 192;
   183; 253; 147; 38; 54; 63; 247; 204; 52; 165; 229; 241; 113; 216; 49; 21;
   4; 199; 35; 195; 24; 150; 5; 154; 7; 18; 128; 226; 235; 39; 178; 117;
   9; 131; 44; 26; 27; 110; 90; 160; 82; 59; 214; 179; 41; 227; 47; 132;
   83; 209; 0; 237; 32; 252; 177; 91; 106; 203; 190; 57; 74; 76; 88; 207;
   208; 239; 170; 251; 67; 77; 51; 133; 69; 249; 2; 127; 80; 60; 159; 168;
   81; 163; 64; 143; 146; 157; 56; 245; 188; 182; 218; 33; 16; 255; 243; 210;
   205; 12; 19; 236; 95; 151; 68; 23; 196; 167; 126; 61; 100; 93; 25; 115;
   96; 129; 79; 220; 34; 42; 144; 136; 70; 238; 184; 20; 222; 94; 11; 219;
   224; 50; 58; 10; 73; 6; 36; 92; 194; 211; 172; 98; 145; 149; 228; 121;
   231; 200; 55; 109; 141; 213; 78; 169; 108; 86; 244; 234; 101; 122; 174; 8;
   186; 120; 37; 46; 28; 166; 180; 198; 232; 221; 116; 31; 75; 189; 139; 138;
   112; 62; 181; 102; 72; 3; 246; 14; 97; 53; 87; 185; 134; 193; 29; 158;
   225; 248; 152; 17; 105; 217; 142; 148; 155; 30; 135; 233; 206; 85; 40; 223;
   140; 161; 137; 13; 191; 230; 66; 104; 65; 153; 45; 15; 176; 84; 187; 22].

Definition sub_byte (a : Z) : Z := nth (Z.to_nat a) sbox 0.

(** ** Rounds *)
Definition sub_bytes (s : list Z) : list Z := map sub_byte s.

Definition shift_rows (s : list Z) : list Z :=
  map (fun i => nth i s 0) [0; 5; 10; 15; 4; 9; 14; 3; 8; 13; 2; 7; 12; 1; 6; 11]%nat.

Fixpoint mix_columns (s : list Z) : list Z :=
  match s with
  | a :: b :: c :: d :: tl =>
      let two := xtime in let three x := Z.lxor (xtime x) x in
      Z.lxor (xor3 (two a) (three b) c) d :: Z.lxor (xor3 a (two b) (three c)) d ::
      Z.lxor (xor3 a b (two c)) (three d) :: Z.lxor (xor3 (three a) b c) (two d) :: mix_columns tl
  | _ => []
  end.

Definition add_key (s k : list Z) : list Z := zip_with Z.lxor s k.

(** *** The key schedule: words of four bytes, the latest eight, the last one first *)
Definition rot_word (w : list Z) : list Z := match w with a :: tl => tl ++ [a] | [] => [] end.

Definition next_key_word (i : nat) (recent : list (list Z)) : list Z :=
  let last := nth 0 recent [] in
  let t := match (i mod 8)%nat with
           | O => add_key (sub_bytes (rot_word last)) [Nat.iter (i / 8 - 1) xtime 1; 0; 0; 0]
           | 4%nat => sub_bytes last
           | _ => last
           end in
  add_key (nth 7 recent []) t.

Fixpoint expand_key (n i : nat) (recent : list (list Z)) : list (list Z) :=
  match n with
  | O => recent
  | S n => expand_key n (S i) (next_key_word i recent :: recent)
  end.

Fixpoint groups_of_four (l : list Z) : list (list Z) :=
  match l with a :: b :: c :: d :: tl => [a; b; c; d] :: groups_of_four tl | _ => [] end.

(** Fifteen round keys for a key of 32 bytes. *)
Fixpoint round_keys (n : nat) (words : list (list Z)) : list (list Z) :=
  match n with
  | O => []
  | S n => mjoin (take 4 words) :: round_keys n (drop 4 words)
  end.

Definition key_schedule (key : list Z) : list (list Z) :=
  round_keys 15 (rev (expand_key 52 8 (rev (groups_of_four key)))).

Fixpoint rounds (s : list Z) (keys : list (list Z)) : list Z :=
  match keys with
  | [] => s
  | [k] => add_key (shift_rows (sub_bytes s)) k
  | k :: keys => rounds (add_key (mix_columns (shift_rows (sub_bytes s))) k) keys
  end.

Definition encrypt_block (keys : list (list Z)) (block : list Z) : list Z :=
  match keys with
  | [] => block
  | k :: keys => rounds (add_key block k) keys
  end.

(** ** GHASH: a block is a number of 128 bits, the first bit the highest *)
Definition number_of (l : list Z) : Z := fold_left (fun n b => 256 * n + b) l 0.

Definition ghash_reduce (v : Z) : Z :=
  if Z.testbit v 0 then Z.lxor (v / 2) (Z.shiftl 225 120) else v / 2.

(** The product of the bits of [x] from the one numbered [n - 1] down and [v]. *)
Fixpoint ghash_mul (n : nat) (x v : Z) : Z :=
  match n with
  | O => 0
  | S k => Z.lxor (if Z.testbit x (Z.of_nat k) then v else 0) (ghash_mul k x (ghash_reduce v))
  end.

Definition pad_block (l : list Z) : list Z := l ++ repeat 0 (Z.to_nat ((- Z.of_nat (length l)) mod 16)).

Definition ghash (h : Z) (l : list Z) : Z :=
  fold_left (fun y b => ghash_mul 128 (Z.lxor y (number_of b)) h) (blocks (length l) l) 0.

(** ** The mode *)
Definition nonceSize : Z := 12.
Definition tagSize : Z := 16.

Definition counter_block (nonce : list Z) (n : Z) : list Z := nonce ++ big_endian 4 (n mod 4294967296).

(** The bytes the plaintext is combined with: counters from 2 on. *)
Fixpoint keystream (keys : list (list Z)) (nonce : list Z) (blocks : nat) (n : Z) : list Z :=
  match blocks with
  | O => []
  | S k => encrypt_block keys (counter_block nonce n) ++ keystream keys nonce k (n + 1)
  end.

Definition xor_char (c : ascii) (k : Z) : ascii := chr (Z.lxor (code c) k mod 256).

(** Every byte of the text has its byte of the stream. *)
Fixpoint xor_stream (l : list ascii) (stream : list Z) : list ascii :=
  match l with
  | [] => []
  | c :: tl => xor_char c (hd 0 stream) :: xor_stream tl (List.tl stream)
  end.

Definition crypt (keys : list (list Z)) (nonce text : string) : string :=
  of_bytes (xor_stream (string_bytes text)
    (keystream keys (octets nonce) (S (String.length text / 16)) 2)).

Definition tag_of (keys : list (list Z)) (nonce ciphertext aad : string) : string :=
  let h := number_of (encrypt_block keys (repeat 0 16)) in
  let a := octets aad in let c := octets ciphertext in
  let lengths := big_endian 8 (8 * Z.of_nat (length a)) ++ big_endian 8 (8 * Z.of_nat (length c)) in
  let s := ghash h (pad_block a ++ pad_block c ++ lengths) in
  let mask := number_of (encrypt_block keys (counter_block (octets nonce) 1)) in
  of_octets (big_endian 16 (Z.lxor s mask)).

(** [aead.Seal(nil, nonce, plaintext, aad)] and [aead.Open(nil, nonce, ciphertext, aad)]
    for a nonce of [nonceSize] bytes. *)
Definition Seal (key nonce plaintext aad : string) : string :=
  let keys := key_schedule (octets key) in
  let c := crypt keys nonce plaintext in
  String.append c (tag_of keys nonce c aad).

Definition Open (key nonce ciphertext aad : string) : option string :=
  let l := string_bytes ciphertext in
  if Z.of_nat (length l) <? tagSize then None
  else
    let keys := key_schedule (octets key) in
    let n := (length l - 16)%nat in
    let c := of_bytes (take n l) in
    if bool_decide (of_bytes (drop n l) = tag_of keys nonce c aad) then Some (crypt keys nonce c) else None.

(** ** The published vectors *)
Fixpoint counting (n : nat) : list Z := match n with O => [] | S k => counting k ++ [Z.of_nat k] end.

(** The table is the affine image of the inverses. *)
Definition rotl8 (n x : Z) : Z := Z.land (Z.lor (Z.shiftl x n) (Z.shiftr x (8 - n))) 255.

Example sbox_affine : forallb (fun x =>
    let y := sub_byte x in
    existsb (fun i => (field_mul 8 x i =? (if x =? 0 then 0 else 1)) &&
      (y =? Z.lxor (xor3 (xor3 i (rotl8 1 i) (rotl8 2 i)) (rotl8 3 i) (rotl8 4 i)) 99))
      (if x =? 0 then [0] else counting 256)) (counting 256) = true.
Proof. vm_compute. reflexivity. Qed.

Example fips_197 :
  hex (encrypt_block (key_schedule (counting 32)) (map (fun i => 17 * i) (counting 16)))
  = "8ea2b7ca516745bfeafc49904b496089".
Proof. vm_compute. reflexivity. Qed.

Example gcm_vectors :
  let zeros n := of_octets (repeat 0 n) in
  hex (octets (Seal (zeros 32%nat) (zeros 12%nat) "" "")) = "530f8afbc74536b9a963b4f1c4cb738b" /\
  hex (octets (Seal (zeros 32%nat) (zeros 12%nat) (zeros 16%nat) ""))
  = "cea7403d4d606b6e074ec5d3baf39d18d0d1c8a799996bf0265b98b5d48ab919".
Proof. vm_compute. split; reflexivity. Qed.

Example gcm_vector_with_data :
  let key := of_octets (big_endian 32 0xfeffe9928665731c6d6a8f9467308308feffe9928665731c6d6a8f9467308308) in
  let nonce := of_octets (big_endian 12 0xcafebabefacedbaddecaf888) in
  let text := of_octets (big_endian 60
    0xd9313225f88406e5a55909c5aff5269a86a7a9531534f7da2e4c303d8a318a721c3c0c95956809532fcf0e2449a6b525b16aedf5aa0de657ba637b39) in
  let aad := of_octets (big_endian 20 0xfeedfacedeadbeeffeedfacedeadbeefabaddad2) in
  octets (Seal key nonce text aad) = big_endian 60
    0x522dc1f099567d07f47f37a32a84427d643a8cdcbfe5c0c97598a2bd2555d1aa8cb08e48590dbb3da7b08b1056828838c5f61e6393ba7a0abcc9f662
    ++ big_endian 16 0x76fc6ece0f4e1768cddf8853bb2d551b.
Proof. vm_compute. reflexivity. Qed.

(** ** Opening what was sealed *)
Lemma xor_char_twice c k : xor_char (xor_char c k) k = c.
Proof.
  unfold xor_char. rewrite code_chr by (apply Z.mod_pos_bound; lia).
  change 256 with (2 ^ 8). rewrite <- !Z.land_ones by lia.
  assert (Hc : Z.land (code c) (Z.ones 8) = code c).
  { rewrite Z.land_ones by lia. apply Z.mod_small. pose proof (code_range c). lia. }
  replace (Z.land (Z.lxor (Z.land (Z.lxor (code c) k) (Z.ones 8)) k) (Z.ones 8)) with (code c); [apply chr_code|].
  apply Z.bits_inj'. intros i Hi. rewrite <- Hc at 1. rewrite !Z.land_spec, !Z.lxor_spec, !Z.land_spec, !Z.lxor_spec.
  by destruct (Z.testbit (code c) i), (Z.testbit k i), (Z.testbit (Z.ones 8) i).
Qed.

Lemma xor_stream_twice l stream : xor_stream (xor_stream l stream) stream = l.
Proof. revert stream. induction l as [|c l IH]; intros stream; cbn; [done|]. by rewrite xor_char_twice, IH. Qed.

Lemma length_xor_stream l stream : length (xor_stream l stream) = length l.
Proof. revert stream. induction l as [|c l IH]; intros stream; cbn; [done|]. by rewrite IH. Qed.

Lemma length_of_bytes l : String.length (of_bytes l) = length l.
Proof. induction l as [|c l IH]; cbn; [done|]. by rewrite IH. Qed.

Lemma length_string_bytes s : length (string_bytes s) = String.length s.
Proof. induction s as [|c s IH]; cbn; [done|]. by rewrite IH. Qed.

Lemma crypt_twice keys nonce text : crypt keys nonce (crypt keys nonce text) = text.
Proof.
  unfold crypt at 1. unfold crypt at 2. rewrite length_of_bytes, length_xor_stream, length_string_bytes.
  unfold crypt. by rewrite string_of_bytes, xor_stream_twice, of_string_bytes.
Qed.

Lemma length_tag keys nonce c aad : length (string_bytes (tag_of keys nonce c aad)) = 16%nat.
Proof. unfold tag_of, of_octets. cbv zeta. by rewrite string_of_bytes, length_map, length_big_endian. Qed.

(** What was sealed with [aad] opens with [aad'] just when the two give the same tag,
    and then to the text. *)
Lemma Open_Seal_with key nonce text aad aad' :
  Open key nonce (Seal key nonce text aad) aad' =
  let keys := key_schedule (octets key) in
  let c := crypt keys nonce text in
  if bool_decide (tag_of keys nonce c aad = tag_of keys nonce c aad') then Some text else None.
Proof.
  unfold Open, Seal. cbv zeta. set (keys := key_schedule _). set (c := crypt keys nonce text).
  rewrite string_bytes_app, length_app, length_tag.
  replace (length (string_bytes c) + 16 - 16)%nat with (length (string_bytes c)) by lia.
  rewrite take_app_length, drop_app_length, !of_string_bytes.
  destruct (Z.ltb_spec (Z.of_nat (length (string_bytes c) + 16)) tagSize); [unfold tagSize in *; lia|].
  assert (Hc : crypt keys nonce c = text) by apply crypt_twice. by rewrite Hc.
Qed.

Lemma Open_Seal key nonce text aad : Open key nonce (Seal key nonce text aad) aad = Some text.
Proof. rewrite Open_Seal_with. cbv zeta. by rewrite bool_decide_true. Qed.

Lemma Seal_nonempty key nonce text aad : Seal key nonce text aad <> "".
Proof.
  intros E. apply (f_equal (fun x => length (string_bytes x))) in E. unfold Seal in E. cbv zeta in E.
  rewrite string_bytes_app, length_app, length_tag in E. change (length (string_bytes EmptyString)) with 0%nat in E. lia.
Qed.

(** Neither is to be computed by unfolding. *)
#[global] Opaque Seal Open.
