(* ===== verification/Url.v ===== *)
(** * [net/url] and [net], as far as an origin and a host need them

    [url.Parse] with its scheme, query, authority, path and fragment;
    [URL.Hostname], [URL.Port]; the escaping of a host; [net.SplitHostPort] and
    [net.JoinHostPort].  What the releases of Go differ in is a parameter: the hosts
    with a bracket they take, and whether they take several colons without one.

    Decimal ports read back, texts without blanks are trimmed already, and an address
    that is a scheme and a plain host parses to just that. *)

From Stdlib Require Import ZArith Lia Ascii.
From stdpp Require Import base list strings pretty.
From S2P Require Import Prelude Json JsonParse Validation Regexp Hex TimeText.

#[local] Open Scope Z_scope.

(** [ip_literal host] is what [url.Parse] makes of a host that holds a bracket. *)
Class UrlHosts := {
  ip_literal : list ascii -> option (list ascii);
  several_colons : bool
}.

Definition is_char (n : Z) (c : ascii) : bool := code c =? n.
Definition has_char (n : Z) (l : list ascii) : bool := existsb (is_char n) l.

(** [strings.Cut] at the first [n]: what is before, and what is after it if it is there. *)
Fixpoint cut (n : Z) (l : list ascii) : list ascii * option (list ascii) :=
  match l with
  | [] => ([], None)
  | c :: tl => if is_char n c then ([], Some tl) else let '(a, b) := cut n tl in (c :: a, b)
  end.

(** What is before and after the last [n]. *)
Fixpoint cut_last (n : Z) (l : list ascii) : option (list ascii * list ascii) :=
  match l with
  | [] => None
  | c :: tl =>
      match cut_last n tl with
      | Some (a, b) => Some (c :: a, b)
      | None => if is_char n c then Some ([], tl) else None
      end
  end.

(** ** Escaping *)
Definition host_punctuation : list ascii := string_bytes "!$&'()*+,;=:[]<>-_.~" ++ [chr 34].

(** [shouldEscape(c, encodeHost)] is false. *)
Definition host_char (c : ascii) : bool :=
  is_letter c || is_number c || existsb (fun p => code p =? code c) host_punctuation.

(** [unescape]: the ASCII characters of a host are not escaped, except for [%25]. *)
Fixpoint unescape (host : bool) (l : list ascii) : option (list ascii) :=
  match l with
  | [] => Some []
  | c :: tl =>
      if is_char 37 c then
        match tl with
        | h :: k :: tl' =>
            match hex_value h, hex_value k with
            | Some a, Some b =>
                if host && (a <? 8) && negb ((a =? 2) && (b =? 5)) then None
                else option_map (cons (chr (16 * a + b))) (unescape host tl')
            | _, _ => None
            end
        | _ => None
        end
      else if host && (code c <? 128) && negb (host_char c) then None
      else option_map (cons c) (unescape host tl)
  end.

Definition upper_hex (n : Z) : ascii := chr (if n <? 10 then 48 + n else 55 + n).

(** [escape(s, encodeHost)] *)
Fixpoint escape_host (l : list ascii) : list ascii :=
  match l with
  | [] => []
  | c :: tl =>
      (if host_char c then [c] else [chr 37; upper_hex (code c / 16); upper_hex (code c mod 16)]) ++ escape_host tl
  end.

(** ** Parsing *)
Record URL := mkURL {
  u_Scheme : list ascii; u_Opaque : list ascii; u_User : bool; u_Host : list ascii; u_Path : list ascii;
  u_RawQuery : list ascii; u_ForceQuery : bool; u_Fragment : list ascii
}.

(** [stringContainsCTLByte] *)
Definition control (c : ascii) : bool := (code c <? 32) || (code c =? 127).

(** [getScheme]: the scheme, empty if there is none, and the rest; [None] is an error.
    [before] is what has been read, the last character first. *)
Fixpoint getScheme (before l : list ascii) (whole : list ascii) : option (list ascii * list ascii) :=
  match l with
  | [] => Some ([], whole)
  | c :: tl =>
      if is_letter c then getScheme (c :: before) tl whole
      else if is_number c || existsb (Z.eqb (code c)) [43; 45; 46] then
        match before with [] => Some ([], whole) | _ => getScheme (c :: before) tl whole end
      else if is_char 58 c then
        match before with [] => None | _ => Some (rev before, tl) end
      else Some ([], whole)
  end.

(** The part of [validOptionalPort] after the colon. *)
Definition digits (l : list ascii) : bool := forallb is_number l.

Definition parseHost `{!UrlHosts} (host : list ascii) : option (list ascii) :=
  if has_char 91 host then ip_literal host
  else
    match cut_last 58 host with
    | Some (name, port) =>
        if negb (digits port) || (has_char 58 name && negb several_colons) then None else unescape true host
    | None => unescape true host
    end.

(** [validUserinfo] and the unescaping that follows it. *)
Definition user_char (c : ascii) : bool :=
  is_letter c || is_number c || existsb (fun p => code p =? code c) (string_bytes "-._:~!$&'()*+,;=%@").

Definition parseAuthority `{!UrlHosts} (authority : list ascii) : option (bool * list ascii) :=
  match cut_last 64 authority with
  | None => option_map (pair false) (parseHost authority)
  | Some (user, host) =>
      match parseHost host with
      | None => None
      | Some host =>
          if negb (forallb user_char user) then None
          else
            let '(name, password) := cut 58 user in
            match unescape false name, unescape false (default [] password) with
            | Some _, Some _ => Some (true, host)
            | _, _ => None
            end
      end
  end.

(** The query, whether it is an empty one that the text has a mark for, and the rest. *)
Definition split_query (l : list ascii) : list ascii * bool * list ascii :=
  match cut 63 l with
  | (a, Some []) => ([], true, a)
  | (a, Some q) => (q, false, a)
  | (a, None) => ([], false, a)
  end.

Definition starts_with (p l : list ascii) : bool := bool_decide (take (length p) l = p).

Definition slash : ascii := chr 47.

(** [url.parse(s, false)], on what is before the first [#]. *)
Definition parse_url `{!UrlHosts} (l : list ascii) : option URL :=
  if existsb control l then None
  else if bool_decide (l = [chr 42]) then Some (mkURL [] [] false [] l [] false [])
  else
    match getScheme [] l l with
    | None => None
    | Some (scheme, rest) =>
        let scheme := map (shift_case 65 97) scheme in
        let '(query, force, rest) := split_query rest in
        if negb (starts_with [slash] rest) && negb (bool_decide (scheme = [])) then
          Some (mkURL scheme rest false [] [] query force [])
        else if negb (starts_with [slash] rest) && has_char 58 (fst (cut 47 rest)) then None
        else if starts_with [slash; slash] rest &&
                (negb (bool_decide (scheme = [])) || negb (starts_with [slash; slash; slash] rest)) then
          let '(authority, path) := cut 47 (drop 2 rest) in
          let path := match path with Some p => slash :: p | None => [] end in
          match parseAuthority authority, unescape false path with
          | Some (user, host), Some path => Some (mkURL scheme [] user host path query force [])
          | _, _ => None
          end
        else
          option_map (fun path => mkURL scheme [] false [] path query force []) (unescape false rest)
    end.

Definition Parse `{!UrlHosts} (s : string) : option URL :=
  let '(l, fragment) := cut 35 (string_bytes s) in
  match parse_url l, unescape false (default [] fragment) with
  | Some u, Some f =>
      Some (mkURL (u_Scheme u) (u_Opaque u) (u_User u) (u_Host u) (u_Path u) (u_RawQuery u) (u_ForceQuery u) f)
  | _, _ => None
  end.

(** [URL.Hostname] and [URL.Port]: [splitHostPort]. *)
Definition splitHostPort (host : list ascii) : list ascii * list ascii :=
  let '(name, port) := match cut_last 58 host with
                       | Some (name, port) => if digits port then (name, port) else (host, [])
                       | None => (host, [])
                       end in
  match name, rev name with
  | o :: _ :: _, c :: _ =>
      (if is_char 91 o && is_char 93 c then removelast (List.tl name) else name, port)
  | _, _ => (name, port)
  end.

(** ** [net] *)
Definition JoinHostPort (host port : list ascii) : list ascii :=
  if has_char 58 host then chr 91 :: host ++ chr 93 :: chr 58 :: port else host ++ chr 58 :: port.

(** [net.SplitHostPort]: the host, when the text has a host and a port. *)
Definition SplitHostPort (l : list ascii) : option (list ascii) :=
  match cut_last 58 l with
  | None => None
  | Some (before, port) =>
      match l with
      | o :: tl =>
          if is_char 91 o then
            match cut 93 tl with
            | (_, None) => None
            | (host, Some after) =>
                if bool_decide (after = chr 58 :: port) && negb (has_char 91 tl) && negb (has_char 93 after)
                then Some host else None
            end
          else if has_char 58 before || has_char 91 l || has_char 93 l then None
          else Some before
      | [] => None
      end
  end.

(** [strings.Trim(s, ".")] *)
Fixpoint drop_char (n : Z) (l : list ascii) : list ascii :=
  match l with
  | [] => []
  | c :: tl => if is_char n c then drop_char n tl else l
  end.

Definition trim_char (n : Z) (l : list ascii) : list ascii := rev (drop_char n (rev (drop_char n l))).

(** [strconv.ParseUint(s, 10, 16)], and [FormatUint] of it. *)
Definition ParseUint16 (l : list ascii) : option Z :=
  match l with
  | [] => None
  | _ =>
      match number 0 l with
      | Some n => if n <=? 65535 then Some n else None
      | None => None
      end
  end.

Definition FormatUint (n : Z) : list ascii := string_bytes (pretty n).

Example parses : let _ : UrlHosts := {| ip_literal _ := None; several_colons := true |} in
  option_map (fun u => (of_bytes (u_Scheme u), of_bytes (u_Host u), of_bytes (u_Path u), of_bytes (u_RawQuery u)))
    (Parse "HTTPS://Salon.Example:8443/a%20b?x=1#top") = Some ("https", "Salon.Example:8443", "/a b", "x=1")
  /\ option_map (fun u => (u_User u, splitHostPort (u_Host u))) (Parse "http://user@a.b:80")
     = Some (true, (string_bytes "a.b", string_bytes "80"))
  /\ Parse "http://a.b:8o" = None /\ Parse "http://a%41" = None /\ Parse "x:y:z" <> None /\ Parse "1:2" = None.
Proof. vm_compute. repeat split; discriminate. Qed.

Example splits : SplitHostPort (string_bytes "a.b:80") = Some (string_bytes "a.b") /\
  SplitHostPort (string_bytes "[::1]:80") = Some (string_bytes "::1") /\ SplitHostPort (string_bytes "a:b:1") = None /\
  SplitHostPort (string_bytes "a.b") = None.
Proof. vm_compute. repeat split. Qed.

(** * Facts on addresses *)

#[local] Open Scope Z_scope.

(** ** Decimal numbers *)
Lemma digit_of_char (x : N) : (x < 10)%N ->
  digit_value (pretty_N_char x) = Some (Z.of_N x) /\ is_number (pretty_N_char x) = true.
Proof.
  intros Hx. assert (H : forallb (fun y => bool_decide (digit_value (pretty_N_char y) = Some (Z.of_N y)) &&
    is_number (pretty_N_char y)) (map N.of_nat (seq 0 10)) = true) by (vm_compute; reflexivity).
  rewrite forallb_forall in H. specialize (H x). apply andb_true_iff in H as [H1 H2].
  - by apply bool_decide_eq_true_1 in H1.
  - apply in_map_iff. exists (N.to_nat x). rewrite in_seq. lia.
Qed.

Lemma number_pretty_go (x : N) s :
  number 0 (string_bytes (pretty_N_go x s)) = number (Z.of_N x) (string_bytes s).
Proof.
  revert s. induction x as [x IH] using (well_founded_induction N.lt_wf_0). intros s. destruct (decide (x = 0)%N) as [->|Hx].
  { by rewrite pretty_N_go_0. }
  rewrite pretty_N_go_step by lia. rewrite IH by (apply N.div_lt; lia). cbn [string_bytes number].
  destruct (digit_of_char (x mod 10)) as [-> _]; [by apply N.mod_lt|]. f_equal.
  rewrite N2Z.inj_div, N2Z.inj_mod. pose proof (Z.div_mod (Z.of_N x) 10). lia.
Qed.

Lemma digits_pretty_go (x : N) s :
  digits (string_bytes s) = true -> digits (string_bytes (pretty_N_go x s)) = true.
Proof.
  revert s. induction x as [x IH] using (well_founded_induction N.lt_wf_0). intros s Hs. destruct (decide (x = 0)%N) as [->|Hx].
  { by rewrite pretty_N_go_0. }
  rewrite pretty_N_go_step by lia. apply IH; [apply N.div_lt; lia|]. unfold digits in *. cbn.
  by destruct (digit_of_char (x mod 10)) as [_ ->]; [apply N.mod_lt|].
Qed.

Lemma FormatUint_digits n : 0 < n -> digits (FormatUint n) = true /\ number 0 (FormatUint n) = Some n.
Proof.
  intros Hn. destruct n as [|p|p]; [lia| |lia]. unfold FormatUint.
  change (pretty (Z.pos p)) with (pretty (N.pos p)). unfold pretty, pretty_N.
  rewrite decide_False by done. split; [by apply digits_pretty_go|by rewrite number_pretty_go].
Qed.

Lemma ParseUint16_FormatUint n : 0 < n <= 65535 -> ParseUint16 (FormatUint n) = Some n.
Proof.
  intros Hn. destruct (FormatUint_digits n) as [_ Hv]; [lia|]. unfold ParseUint16.
  destruct (FormatUint n); [cbn in Hv; injection Hv; lia|]. rewrite Hv. destruct (Z.leb_spec n 65535); [done|lia].
Qed.

Lemma number_nonneg acc l n : 0 <= acc -> number acc l = Some n -> 0 <= n.
Proof.
  revert acc. induction l as [|c l IH]; intros acc Hacc; cbn; [by intros [= <-]|].
  destruct (digit_value c) as [d|] eqn:Hd; [|done]. apply IH. unfold digit_value in Hd.
  destruct (is_digit c) eqn:?; [|done]. injection Hd as <-. pose proof (code_range c).
  unfold is_digit in *. bool_to_prop. lia.
Qed.

(** ** Texts without blanks *)
Definition solid (c : ascii) : bool := (32 <? code c) && (code c <? 127).

Lemma chunks_solid l n : forallb solid l = true -> (length l <= n)%nat -> chunks n l = map (fun c => [c]) l.
Proof.
  revert n. induction l as [|c l IH]; intros n Hl Hn; [by destruct n|]. cbn in Hl. apply andb_true_iff in Hl as [Hc Hl].
  destruct n as [|n]; cbn in Hn; [lia|]. cbn [chunks map]. unfold solid in Hc. bool_to_prop.
  assert (Hu : utf8_len (c :: l) = 1%nat).
  { unfold utf8_len. destruct (Z.ltb_spec (code c) 128); [done|lia]. }
  rewrite Hu. cbn [take drop]. by rewrite IH by (done || lia).
Qed.

Lemma drop_spaces_solid l : forallb solid l = true -> drop_spaces (map (fun c => [c]) l) = map (fun c => [c]) l.
Proof.
  destruct l as [|c l]; [done|]. cbn. intros [Hc _]%andb_true_iff. unfold solid in Hc. bool_to_prop.
  assert (Hs : space_chunk [c] = false); [|by rewrite Hs]. unfold space_chunk.
  assert (Hu : utf8_len [c] = 1%nat) by (unfold utf8_len; destruct (Z.ltb_spec (code c) 128); [done|lia]).
  rewrite Hu. unfold rune_of, IsSpace. destruct (Z.ltb_spec (code c) 128); [|lia]. cbn [Nat.eqb negb andb].
  repeat (apply orb_false_iff; split); try (apply Z.eqb_neq; lia); apply andb_false_iff; rewrite !Z.leb_gt; lia.
Qed.

Lemma solid_rev l : forallb solid l = true -> forallb solid (rev l) = true.
Proof. rewrite !forallb_forall. intros H c Hc. by apply H, in_rev. Qed.

Lemma TrimSpace_solid s : forallb solid (string_bytes s) = true -> TrimSpace s = s.
Proof.
  intros Hs. unfold TrimSpace. rewrite chunks_solid by (done || (pose proof (len_bytes s) as Hl; unfold len in Hl; lia)).
  rewrite drop_spaces_solid, <- map_rev, drop_spaces_solid, <- map_rev, rev_involutive; [|by apply solid_rev|done].
  rewrite <- (of_string_bytes s) at 2. f_equal. clear Hs. induction (string_bytes s); cbn; [done|]. by f_equal.
Qed.

(** ** Addresses that are a scheme and a plain host *)
Lemma by_codes (p : ascii -> bool) :
  forallb (fun n => p (ascii_of_nat n)) (seq 0 256) = true -> forall c, p c = true.
Proof.
  rewrite forallb_forall. intros H c. rewrite <- (ascii_nat_embedding c). apply H, in_seq.
  pose proof (nat_ascii_bounded c). lia.
Qed.

Lemma host_char_facts c : host_char c = true ->
  solid c = true /\ control c = false /\ existsb (Z.eqb (code c)) [35; 37; 47; 63; 64] = false.
Proof.
  intros Hc. pose proof (by_codes (fun c => implb (host_char c) (solid c && negb (control c) &&
    negb (existsb (Z.eqb (code c)) [35; 37; 47; 63; 64]))) ltac:(vm_compute; reflexivity) c) as H.
  cbv beta in H. rewrite Hc in H. cbn [implb] in H. bool_to_prop. split_and!; assumption.
Qed.

Lemma cut_none n l : has_char n l = false -> cut n l = (l, None).
Proof.
  induction l as [|c l IH]; [done|]. cbn [has_char existsb cut]. intros [H1 H2]%orb_false_iff. by rewrite H1, IH.
Qed.

Lemma cut_last_none n l : has_char n l = false -> cut_last n l = None.
Proof.
  induction l as [|c l IH]; [done|]. cbn [has_char existsb cut_last]. intros [H1 H2]%orb_false_iff. by rewrite IH, H1.
Qed.

Lemma cut_last_app n l m : 0 <= n < 256 -> has_char n m = false -> cut_last n (l ++ chr n :: m) = Some (l, m).
Proof.
  intros Hn Hm. induction l as [|c l IH]; cbn [app cut_last]; [|by rewrite IH].
  rewrite cut_last_none by done. unfold is_char. by rewrite code_chr, Z.eqb_refl.
Qed.

Lemma has_char_app n l m : has_char n (l ++ m) = has_char n l || has_char n m.
Proof. apply existsb_app. Qed.

Lemma host_without n l : existsb (Z.eqb n) [35; 37; 47; 63; 64] = true -> forallb host_char l = true -> has_char n l = false.
Proof.
  intros Hn. induction l as [|c l IH]; [done|]. cbn [forallb has_char existsb]. intros [Hc Hl]%andb_true_iff.
  apply orb_false_iff. split; [|by apply IH]. unfold is_char. apply host_char_facts in Hc as (_ & _ & Hc).
  destruct (Z.eqb_spec (code c) n) as [E|]; [|done]. rewrite E in Hc. congruence.
Qed.

Lemma unescape_host l : forallb host_char l = true -> unescape true l = Some l.
Proof.
  induction l as [|c l IH]; [done|]. cbn [forallb unescape]. intros [Hc Hl]%andb_true_iff.
  assert (H37 : is_char 37 c = false).
  { apply host_char_facts in Hc as (_ & _ & Hc). unfold is_char. cbn in Hc. bool_to_prop. by apply Z.eqb_neq. }
  rewrite H37, Hc, andb_false_r, (IH Hl). done.
Qed.

Lemma escape_plain l : has_char 37 (escape_host l) = false -> forallb host_char l = true /\ escape_host l = l.
Proof.
  induction l as [|c l IH]; [done|]. cbn [escape_host forallb]. destruct (host_char c) eqn:Hc; cbn [app].
  - cbn [has_char existsb]. intros [_ Hl]%orb_false_iff. destruct (IH Hl) as [-> ->]. done.
  - intros H. cbn in H. done.
Qed.

Lemma escape_all l : forallb host_char l = true -> escape_host l = l.
Proof.
  induction l as [|c l IH]; [done|]. cbn [escape_host forallb]. intros [-> Hl]%andb_true_iff. cbn [app]. by rewrite IH.
Qed.

(** A host name, with its port or without. *)
Definition plain_name (h : list ascii) : Prop :=
  h <> [] /\ forallb host_char h = true /\ has_char 58 h = false /\ has_char 91 h = false.

Definition port_suffix (port : list ascii) : list ascii := match port with [] => [] | _ => chr 58 :: port end.

Lemma number_char_host c : is_number c = true -> host_char c = true /\ is_char 58 c = false /\ is_char 91 c = false.
Proof.
  intros Hc. pose proof (by_codes (fun c => implb (is_number c) (host_char c && negb (is_char 58 c) && negb (is_char 91 c)))
    ltac:(vm_compute; reflexivity) c) as H. cbv beta in H. rewrite Hc in H. cbn [implb] in H. bool_to_prop. split_and!; assumption.
Qed.

Lemma port_digits_plain port : digits port = true ->
  forallb host_char port = true /\ has_char 58 port = false /\ has_char 91 port = false.
Proof.
  induction port as [|c l IH]; [done|]. cbn. intros [Hc Hl]%andb_true_iff.
  apply number_char_host in Hc as (-> & -> & ->). apply (IH Hl).
Qed.

Lemma plain_host h port : plain_name h -> digits port = true ->
  let l := h ++ port_suffix port in
  forallb host_char l = true /\ has_char 91 l = false /\ splitHostPort l = (h, port).
Proof.
  intros (Hne & Hh & H58 & H91) Hp. destruct (port_digits_plain port Hp) as (Hp1 & Hp2 & Hp3). cbv zeta.
  assert (Hnot : forall x, match h, rev h with
    | o :: _ :: _, c :: _ => (if is_char 91 o && is_char 93 c then removelast (List.tl h) else h, x)
    | _, _ => (h, x) end = (h, x : list ascii)).
  { intros x. destruct h as [|o [|o2 h]]; [done|done|]. cbn in H91. apply orb_false_iff in H91 as [-> _].
    by destruct (rev (o :: o2 :: h)). }
  destruct port as [|c port]; cbn [port_suffix].
  - rewrite app_nil_r. split_and!; try done. unfold splitHostPort. rewrite cut_last_none by done.
    destruct h as [|? [|? ?]]; apply Hnot.
  - rewrite forallb_app, has_char_app, Hh, H91. split_and!.
    + cbn [forallb]. cbn in Hp1. by rewrite Hp1.
    + cbn in Hp3 |- *. by rewrite Hp3.
    + unfold splitHostPort. rewrite cut_last_app, Hp by done.
      destruct h as [|? [|? ?]]; apply Hnot.
Qed.

Lemma no_control l : forallb host_char l = true -> existsb control l = false.
Proof.
  induction l as [|c l IH]; [done|]. cbn. intros [Hc Hl]%andb_true_iff.
  apply host_char_facts in Hc as (_ & -> & _). by apply IH.
Qed.

Lemma parseHost_plain `{!UrlHosts} h port :
  plain_name h -> digits port = true -> parseHost (h ++ port_suffix port) = Some (h ++ port_suffix port).
Proof.
  intros Hh Hp. destruct (plain_host h port Hh Hp) as (Hl & H91 & _). unfold parseHost. rewrite H91.
  destruct Hh as (_ & _ & H58 & _). destruct port as [|c port]; cbn [port_suffix] in *.
  - rewrite app_nil_r in *. rewrite cut_last_none by done. by apply unescape_host.
  - rewrite cut_last_app by (done || by apply port_digits_plain). rewrite Hp, H58. cbn. by apply unescape_host.
Qed.

Lemma parse_plain `{!UrlHosts} scheme h port :
  scheme = string_bytes "http" \/ scheme = string_bytes "https" -> plain_name h -> digits port = true ->
  Parse (of_bytes (scheme ++ string_bytes "://" ++ h ++ port_suffix port))
  = Some (mkURL scheme [] false (h ++ port_suffix port) [] [] false []).
Proof.
  intros Hs Hh Hp. pose proof (parseHost_plain h port Hh Hp) as Hhost.
  destruct (plain_host h port Hh Hp) as (Hl & H91 & _). set (l := h ++ port_suffix port) in *. clearbody l.
  unfold Parse. rewrite string_of_bytes.
  assert (Hcut : cut 35 (scheme ++ string_bytes "://" ++ l) = (scheme ++ string_bytes "://" ++ l, None)).
  { apply cut_none. rewrite !has_char_app, (host_without 35 l) by done. by destruct Hs as [-> | ->]. }
  rewrite Hcut. unfold parse_url. rewrite !existsb_app, (no_control l Hl).
  assert (Hq : cut 63 (chr 47 :: chr 47 :: l) = (chr 47 :: chr 47 :: l, None)).
  { apply cut_none. change (has_char 63 l = false). by apply host_without. }
  assert (Hsl : cut 47 l = (l, None)) by (by apply cut_none, host_without).
  assert (Hat : cut_last 64 l = None) by (by apply cut_last_none, host_without).
  assert (Hstar : bool_decide (scheme ++ string_bytes "://" ++ l = [chr 42]) = false).
  { apply bool_decide_false. by destruct Hs as [-> | ->]. }
  rewrite Hstar. assert (Hc : existsb control scheme || (existsb control (string_bytes "://") || false) = false)
    by (by destruct Hs as [-> | ->]).
  rewrite Hc. assert (Hg : forall whole, getScheme [] (scheme ++ string_bytes "://" ++ l) whole
                                = Some (scheme, slash :: slash :: l)) by (intros ?; by destruct Hs as [-> | ->]).
  rewrite Hg. assert (Hlow : map (shift_case 65 97) scheme = scheme) by (by destruct Hs as [-> | ->]).
  rewrite Hlow. unfold split_query. fold slash in Hq. change (chr 47) with slash in Hq. rewrite Hq. cbv beta iota zeta.
  assert (H1 : starts_with [slash] (slash :: slash :: l) = true) by done.
  assert (H2 : starts_with [slash; slash] (slash :: slash :: l) = true) by done.
  assert (H3 : bool_decide (scheme = []) = false) by (by destruct Hs as [-> | ->]).
  rewrite H1, H2, H3. cbn [negb andb orb]. change (drop 2 (slash :: slash :: l)) with l. rewrite Hsl. cbv beta iota zeta.
  unfold parseAuthority. rewrite Hat, Hhost. done.
Qed.

Lemma plain_solid scheme l :
  scheme = string_bytes "http" \/ scheme = string_bytes "https" -> forallb host_char l = true ->
  forallb solid (scheme ++ string_bytes "://" ++ l) = true.
Proof.
  intros Hs Hl. rewrite !forallb_app. assert (H : forallb solid l = true).
  { rewrite forallb_forall in *. intros c Hc. by apply host_char_facts, Hl. }
  rewrite H. by destruct Hs as [-> | ->].
Qed.
