(* ===== verification/Tenants.v ===== *)
(** * Tenants: [internal/tenants] and [internal/channels/tenanthttp]

    Provisioning, the catalogue's mutations and the channel settings of a tenant over
    the tables of [Database]; secrets sealed for their tenant ([crypto.go]); the
    adoption of a tenant of the earlier stages ([legacy_bootstrap.go]); and the public
    boundary that finds a tenant by its host ([context.go], [tenanthttp]). *)

From Stdlib Require Import ZArith Lia Ascii.
From stdpp Require Import base list strings gmap.
From S2P Require Import Prelude GoTime Json JsonParse Sha256 Base64 TimeText Regexp Url Aes Catalog Database Passwords Identity.

#[local] Open Scope Z_scope.

#[local] Abbreviation TrimSpace := JsonParse.TrimSpace.
Definition ErrNotFound : error := ErrSentinel "tenants: tenant not found".
Definition ErrConflict : error := ErrSentinel "tenants: tenant already exists".
Definition ErrInvalidInput : error := ErrSentinel "tenants: invalid provisioning input".
Definition ErrChannelDisabled : error := ErrSentinel "tenants: requested channel is disabled".
Definition ErrLegacyBootstrapIneligible : error := ErrSentinel "tenants: legacy bootstrap target is ineligible".

(** ** Inputs and answers: [types.go] *)
Record Tenant := mkTenant {
  t_ID : string; t_Slug : string; t_Name : string; t_Timezone : string; t_Currency : string;
  t_WidgetOrigin : string; t_CreatedAt : Time; t_UpdatedAt : Time
}.

Record ChannelConfig := mkChannels {
  WidgetOrigin : string; TelegramEnabled : bool; TelegramBotToken : string; TelegramWebhookSecret : string
}.

Record ServiceInput := mkServiceInput {
  vi_Slug : string; vi_Name : string; vi_Description : string; vi_DurationMinutes : Z;
  vi_BufferBeforeMinutes : Z; vi_BufferAfterMinutes : Z; vi_PriceMinor : Z; vi_Currency : string
}.

Record AvailabilityRuleInput := mkRuleInput {
  ri_RuleType : string; ri_DayOfWeek : Z; ri_LocalStart : string; ri_LocalEnd : string
}.

Record StaffInput := mkStaffInput {
  mi_Slug : string; mi_DisplayName : string; mi_Timezone : string; mi_ServiceSlugs : list string;
  mi_Availability : list AvailabilityRuleInput
}.

Record OwnerInput := mkOwner { ow_Email : string; ow_DisplayName : string; ow_Password : string }.

Record ProvisionInput := mkProvision {
  pi_Slug : string; pi_Name : string; pi_Timezone : string; pi_Currency : string; pi_Owner : OwnerInput;
  pi_Channels : ChannelConfig; pi_Services : list ServiceInput; pi_Staff : list StaffInput
}.

Record TelegramCredentials := mkCredentials { BotToken : string; WebhookDigest : string }.

Record LegacyBootstrapInput := mkLegacy {
  lb_TenantID : string; lb_TenantSlug : string; lb_WidgetOrigin : string; lb_Owner : OwnerInput;
  lb_Telegram : ChannelConfig
}.

Record CatalogService := mkCatalogService {
  cs_ID : string; cs_Slug : string; cs_Name : string; cs_Description : string; cs_DurationMinutes : Z;
  cs_BufferBeforeMinutes : Z; cs_BufferAfterMinutes : Z; cs_PriceMinor : Z; cs_Currency : string
}.

Record CatalogStaff := mkCatalogStaff { cf_ID : string; cf_Slug : string; cf_DisplayName : string; cf_Timezone : string }.

(** [tn_cipher] is the key of the cipher, if one is configured. *)
Record Store := mkStore { tn_pool : bool; tn_cipher : option string }.

(** ** Secrets: [crypto.go] *)
Definition channelKeyBytes : Z := 32.

Definition newSecretCipher (key : string) : result string :=
  if negb (len key =? channelKeyBytes) then Err (ErrText "tenant channels: encryption key must contain 32 bytes")
  else Ok key.

Definition NewStore (pool : bool) (key : string) : result Store :=
  if negb pool then Err (ErrText "tenants: nil PostgreSQL pool")
  else if bool_decide (key = "") then Ok (mkStore pool None)
  else let! cipher := newSecretCipher key in Ok (mkStore pool (Some cipher)).

Definition channelAAD (tenantID : string) : string := String.append "kontor.tenant-channel.v1:" tenantID.

Definition webhookDigest (secret : string) : string := sha256 secret.

(** The digest that stands for none, 32 bytes of zero. *)
Definition zero_digest : string := of_octets (repeat 0 32).

Definition nullableDigest (digest : string) : option string :=
  if bool_decide (digest = zero_digest) then None else Some digest.

Definition NotConfigured : error := ErrText "tenant channels: encryption is not configured".

Definition open (cipher : option string) (ciphertext nonce : option string) (aad : string) : result string :=
  match cipher with
  | None => Err NotConfigured
  | Some key =>
      let ciphertext := default "" ciphertext in
      let nonce := default "" nonce in
      if negb (len nonce =? nonceSize) || bool_decide (ciphertext = "")
      then Err (ErrText "tenant channels: stored ciphertext is malformed")
      else
        match Open key nonce ciphertext aad with
        | Some plaintext => Ok plaintext
        | None => Err (ErrText "tenant channels: decrypt stored secret")
        end
  end.

(** ** Tables *)
(** [^[a-z0-9][a-z0-9-]{0,62}$] *)
Definition slug_char (c : ascii) : bool := in_range 97 122 c || is_number c.

Definition slug_ok (s : string) : bool :=
  match string_bytes s with
  | c :: tl => slug_char c && forallb (fun c => slug_char c || is_char 45 c) tl && (length tl <=? 62)%nat
  | [] => false
  end.

(** A value of [char(3)] is padded; no caller stores one of more characters. *)
Definition char3 (s : string) : string := String.append s (of_bytes (repeat (chr 32) (3 - Z.to_nat (pg_length s)))).

Definition StringTooLong : error := ErrPg "22001".

Definition has_tenant (id : string) (d : DB) : bool := existsb (String.eqb id) (tenants d).

Definition channels_check (c : ChannelsRow) : bool :=
  (pg_length (ch_origin c) <=? 2048) && opt_check (fun x => len x =? 32) (ch_digest c) &&
  Bool.eqb (is_set (ch_ciphertext c)) (is_set (ch_nonce c)) &&
  (negb (ch_enabled c) || is_set (ch_ciphertext c) && is_set (ch_digest c)).

Definition insert_channels (row : ChannelsRow) (d : DB) : result DB :=
  let l := tenant_channels (accounts_of d) in
  if negb (channels_check row) then Err CheckViolation
  else if existsb (fun c => String.eqb (ch_tenant c) (ch_tenant row)) l then Err UniqueViolation
  else if negb (has_tenant (ch_tenant row) d) then Err ForeignKeyViolation
  else Ok (set_channels (l ++ [row]) d).

Section tenants.
Context `{letters : !Letters} `{entropy : !Entropy} `{host : !Host} `{hosts : !UrlHosts}.

Definition currency_check (s : string) : bool := String.eqb s (pg_upper s).

Definition insert_tenant (row : TenantRow) (d : DB) : result DB :=
  if 3 <? pg_length (tr_currency row) then Err StringTooLong
  else if negb (slug_ok (tr_slug row) && between 1 200 (pg_length (tr_name row)) && currency_check (tr_currency row))
  then Err CheckViolation
  else if has_tenant (tr_id row) d || existsb (fun t => String.eqb (tr_slug t) (tr_slug row)) (tenant_rows (accounts_of d))
  then Err UniqueViolation
  else Ok (add_tenant (mkTenantRow (tr_id row) (tr_slug row) (tr_name row) (tr_timezone row)
                         (char3 (tr_currency row)) (tr_created row) (tr_updated row)) d).

Definition service_check (s : ServiceRow) : bool :=
  slug_ok (sv_slug s) && between 1 200 (pg_length (sv_name s)) && (pg_length (sv_description s) <=? 2000) &&
  between 5 1440 (sv_duration s) && between 0 240 (sv_before s) && between 0 240 (sv_after s) && (0 <=? sv_price s) &&
  currency_check (sv_currency s).

Definition insert_service (s : ServiceRow) (d : DB) : result DB :=
  if 3 <? pg_length (sv_currency s) then Err StringTooLong
  else if negb (service_check s) then Err CheckViolation
  else if existsb (fun o => String.eqb (sv_tenant o) (sv_tenant s) &&
                            (String.eqb (sv_id o) (sv_id s) || String.eqb (sv_slug o) (sv_slug s))) (services d)
  then Err UniqueViolation
  else if negb (has_tenant (sv_tenant s) d) then Err ForeignKeyViolation
  else
    let s := mkServiceRow (sv_tenant s) (sv_id s) (sv_slug s) (sv_name s) (sv_description s) (sv_duration s)
               (sv_before s) (sv_after s) (sv_price s) (char3 (sv_currency s)) (sv_active s) in
    Ok (set_catalogue (services d ++ [s]) (staff d) (staff_services d) (rules d) d).

Definition staff_check (s : StaffRow) : bool := slug_ok (st_slug s) && between 1 200 (pg_length (st_name s)).

Definition insert_staff (s : StaffRow) (d : DB) : result DB :=
  if negb (staff_check s) then Err CheckViolation
  else if existsb (fun o => String.eqb (st_tenant o) (st_tenant s) &&
                            (String.eqb (st_id o) (st_id s) || String.eqb (st_slug o) (st_slug s))) (staff d)
  then Err UniqueViolation
  else if negb (has_tenant (st_tenant s) d) then Err ForeignKeyViolation
  else Ok (set_catalogue (services d) (staff d ++ [s]) (staff_services d) (rules d) d).

Definition is_member (tenant id : string) (s : StaffRow) : bool := String.eqb (st_tenant s) tenant && String.eqb (st_id s) id.
Definition is_offer (tenant id : string) (s : ServiceRow) : bool := String.eqb (sv_tenant s) tenant && String.eqb (sv_id s) id.

Definition same_assignment (a b : StaffServiceRow) : bool :=
  String.eqb (ss_tenant a) (ss_tenant b) && String.eqb (ss_staff a) (ss_staff b) && String.eqb (ss_service a) (ss_service b).

Definition insert_assignment (s : StaffServiceRow) (d : DB) : result DB :=
  if existsb (same_assignment s) (staff_services d) then Err UniqueViolation
  else if negb (existsb (is_member (ss_tenant s) (ss_staff s)) (staff d) && existsb (is_offer (ss_tenant s) (ss_service s)) (services d))
  then Err ForeignKeyViolation
  else Ok (set_catalogue (services d) (staff d) (staff_services d ++ [s]) (rules d) d).

(** A rule's own identifier is not part of its row here. *)
Definition rule_check (r : RuleRow) : bool :=
  string_in (ar_type r) ["working"; "break"] && between 0 6 (ar_day r) && (ar_start r <? ar_end r).

Definition insert_rule (r : RuleRow) (d : DB) : result DB :=
  if negb (rule_check r) then Err CheckViolation
  else if negb (existsb (is_member (ar_tenant r) (ar_staff r)) (staff d)) then Err ForeignKeyViolation
  else Ok (set_catalogue (services d) (staff d) (staff_services d) (rules d ++ [r]) d).

(** [INSERT] of one row, and nothing more. *)
Definition insert (f : DB -> result DB) : sql unit := fun _ _ _ d => let! d' := f d in Ok (tt, d').

(** ** Origins and hosts *)
Definition lower_bytes (l : list ascii) : list ascii := string_bytes (lower (of_bytes l)).

Definition canonicalOriginHost (hostname port : list ascii) : list ascii :=
  match port with
  | [] => if has_char 58 hostname then chr 91 :: hostname ++ [chr 93] else hostname
  | _ => JoinHostPort hostname port
  end.

(** [URL.String] of an address that has only a scheme and a host. *)
Definition origin_string (scheme h : list ascii) : string :=
  of_bytes (scheme ++ string_bytes "://" ++ escape_host h).

Definition is_http (scheme : list ascii) : bool := bool_decide (scheme = string_bytes "http").
Definition is_https (scheme : list ascii) : bool := bool_decide (scheme = string_bytes "https").

Definition CanonicalWidgetOrigin (value : string) : result string :=
  match Parse (TrimSpace value) with
  | None => Err ErrInvalidInput
  | Some u =>
      let scheme := lower_bytes (u_Scheme u) in
      let '(name, port) := splitHostPort (u_Host u) in
      let hostname := lower_bytes name in
      if negb (bool_decide (u_Opaque u = [])) || u_User u || negb (is_http scheme || is_https scheme) ||
         bool_decide (hostname = []) || negb (bool_decide (u_Path u = []) || bool_decide (u_Path u = [slash])) ||
         negb (bool_decide (u_RawQuery u = [])) || u_ForceQuery u || negb (bool_decide (u_Fragment u = []))
      then Err ErrInvalidInput
      else
        let! port := match port with
                     | [] => Ok []
                     | _ => match ParseUint16 port with
                            | None => Err ErrInvalidInput
                            | Some n => if n =? 0 then Err ErrInvalidInput else Ok (FormatUint n)
                            end
                     end in
        let port := if (is_http scheme && bool_decide (port = string_bytes "80")) ||
                       (is_https scheme && bool_decide (port = string_bytes "443")) then [] else port in
        Ok (origin_string scheme (canonicalOriginHost hostname port))
  end.

Definition validWidgetOrigin (value : string) : bool :=
  match CanonicalWidgetOrigin value with Ok _ => true | Err _ => false end.

Definition slugFromHost (h platformSuffix : string) : option string :=
  let h := lower_bytes (string_bytes (TrimSpace h)) in
  let h := default h (SplitHostPort h) in
  let suffix := lower_bytes (trim_char 46 (string_bytes (TrimSpace platformSuffix))) in
  if bool_decide (suffix = []) then None
  else
    let n := (length h - length (chr 46 :: suffix))%nat in
    if negb (bool_decide (drop n h = chr 46 :: suffix)) then None
    else
      let slug := of_bytes (take n h) in
      if has_char 46 (take n h) || negb (slug_ok slug) then None else Some slug.

(** ** Validation *)
(** [time.Parse("15:04", s)], as seconds of the day. *)
Definition parse_clock (s : string) : option Z :=
  match hour (string_bytes s) with
  | Some (h, c :: tl) =>
      if negb (is_char 58 c) || (24 <=? h) then None
      else match fixed 2 tl with
           | Some (m, []) => if 60 <=? m then None else Some (h * 3600 + m * 60)
           | _ => None
           end
  | _ => None
  end.

Definition validLocalTimeRange (start end_ : string) : bool :=
  match parse_clock start, parse_clock end_ with Some a, Some b => a <? b | _, _ => false end.

Definition validRule (r : AvailabilityRuleInput) : bool :=
  (String.eqb (ri_RuleType r) "working" || String.eqb (ri_RuleType r) "break") && (0 <=? ri_DayOfWeek r) &&
  (ri_DayOfWeek r <=? 6) && validLocalTimeRange (ri_LocalStart r) (ri_LocalEnd r).

Definition validRules (l : list AvailabilityRuleInput) : bool := forallb validRule l.

Definition valid_currency (s : string) : bool := (len s =? 3) && String.eqb s (upper s).

Definition validService (s : ServiceInput) : bool :=
  slug_ok (vi_Slug s) && negb (blank (vi_Name s)) && (len (vi_Name s) <=? 200) && (len (vi_Description s) <=? 2000) &&
  (5 <=? vi_DurationMinutes s) && (vi_DurationMinutes s <=? 1440) &&
  (0 <=? vi_BufferBeforeMinutes s) && (vi_BufferBeforeMinutes s <=? 240) &&
  (0 <=? vi_BufferAfterMinutes s) && (vi_BufferAfterMinutes s <=? 240) && (0 <=? vi_PriceMinor s) &&
  valid_currency (vi_Currency s).

(** [time.LoadLocation(name)] finds the zone. *)
Definition known_zone (name : string) : bool := match LoadLocation name with Ok _ => true | Err _ => false end.

(** No member comes a second time. *)
Fixpoint distinct (l seen : list string) : bool :=
  match l with
  | [] => true
  | s :: tl => negb (string_in s seen) && distinct tl (s :: seen)
  end.

Definition named (slug display : string) : bool := slug_ok slug && negb (blank display) && (len display <=? 200).

Definition validStaffInput (m : StaffInput) : bool :=
  named (mi_Slug m) (mi_DisplayName m) && negb (bool_decide (mi_ServiceSlugs m = [])) &&
  negb (bool_decide (length (mi_Availability m) = 0%nat)) && known_zone (mi_Timezone m) &&
  forallb slug_ok (mi_ServiceSlugs m) && distinct (mi_ServiceSlugs m) [] && validRules (mi_Availability m).

Definition valid_member (offered : list string) (m : StaffInput) : bool :=
  named (mi_Slug m) (mi_DisplayName m) && known_zone (mi_Timezone m) &&
  negb (bool_decide (mi_ServiceSlugs m = [])) && negb (bool_decide (length (mi_Availability m) = 0%nat)) &&
  forallb (fun s => string_in s offered) (mi_ServiceSlugs m) && distinct (mi_ServiceSlugs m) [] &&
  validRules (mi_Availability m).

(** Every refusal is the same error, so the order of the checks does not show. *)
Definition validateProvision (i : ProvisionInput) : option error :=
  let owner := pi_Owner i in
  let offered := map vi_Slug (pi_Services i) in
  if slug_ok (TrimSpace (pi_Slug i)) && negb (blank (pi_Name i)) && (len (pi_Name i) <=? 200) &&
     known_zone (pi_Timezone i) && valid_currency (pi_Currency i) &&
     match NormalizeEmail (ow_Email owner) with Ok _ => true | Err _ => false end &&
     negb (blank (ow_DisplayName owner)) && (len (ow_DisplayName owner) <=? 200) &&
     negb (bool_decide (offered = [])) && negb (bool_decide (length (pi_Staff i) = 0%nat)) &&
     validWidgetOrigin (WidgetOrigin (pi_Channels i)) &&
     forallb validService (pi_Services i) && distinct offered [] &&
     forallb (valid_member offered) (pi_Staff i) && distinct (map mi_Slug (pi_Staff i)) []
  then None else Some ErrInvalidInput.

(** ** Channel settings *)
Definition seal (cipher : option string) (value aad : string) : M (string * string) :=
  match cipher with
  | None => fail NotConfigured
  | Some key =>
      let* nonce := random nonceSize in
      match nonce with
      | Some nonce => ret (Seal key nonce value aad, nonce)
      | None => fail (ErrText "tenant channels: generate nonce")
      end
  end.

(** The ciphertext, its nonce and the digest of the webhook secret. *)
Definition prepareChannelConfig (s : Store) (c : ChannelConfig) (tenantID : string)
    : M (option string * option string * string) :=
  if negb (TelegramEnabled c) then
    if negb (bool_decide (TelegramBotToken c = "")) || negb (bool_decide (TelegramWebhookSecret c = ""))
    then fail ErrInvalidInput else ret (None, None, zero_digest)
  else if (len (TelegramBotToken c) =? 0) || (512 <? len (TelegramBotToken c)) ||
          (len (TelegramWebhookSecret c) <? 16) || (256 <? len (TelegramWebhookSecret c))
  then fail ErrInvalidInput
  else
    let* sealed := seal (tn_cipher s) (TelegramBotToken c) (channelAAD tenantID) in
    ret (Some (fst sealed), Some (snd sealed), webhookDigest (TelegramWebhookSecret c)).

Definition is_channels (tenant : string) (c : ChannelsRow) : bool := String.eqb (ch_tenant c) tenant.

Definition update_channels_sql (tenant origin : string) (ciphertext nonce digest : option string) (enabled : bool)
    : sql nat := fun now _ _ d =>
  let! updated := sql_update channels_check (is_channels tenant)
                    (fun _ => mkChannelsRow tenant origin ciphertext nonce digest enabled now)
                    (tenant_channels (accounts_of d)) in
  Ok (length (snd updated), set_channels (fst updated) d).

Definition UpdateChannels (s : Store) (tenantID : string) (input : ChannelConfig) : M unit :=
  if negb (tn_pool s) || bool_decide (tenantID = "") then fail ErrInvalidInput
  else
    match CanonicalWidgetOrigin (WidgetOrigin input) with
    | Err _ => fail ErrInvalidInput
    | Ok origin =>
        let* prepared := prepareChannelConfig s input tenantID in
        let '(ciphertext, nonce, digest) := (prepared : option string * option string * string) in
        let* affected := wrap "tenants: update channels"
          (run Pool (update_channels_sql tenantID origin ciphertext nonce (nullableDigest digest) (TelegramEnabled input))) in
        if bool_decide (affected = 1%nat) then ret tt else fail ErrNotFound
    end.

Definition find_channels (tenant : string) (d : DB) : option ChannelsRow :=
  List.find (is_channels tenant) (tenant_channels (accounts_of d)).

Definition GetChannelConfig (s : Store) (tenantID : string) : M ChannelConfig :=
  if negb (tn_pool s) || bool_decide (tenantID = "") then fail ErrNotFound
  else
    let* found := wrap "tenants: get channels" (query Pool (fun _ _ _ d => Ok (find_channels tenantID d))) in
    match found with
    | None => fail ErrNotFound
    | Some c => ret (mkChannels (ch_origin c) (ch_enabled c) "" "")
    end.

Definition LoadTelegramCredentials (s : Store) (tenantID : string) : M TelegramCredentials :=
  if negb (tn_pool s) || bool_decide (tenantID = "") then fail ErrNotFound
  else
    let* found := wrap "tenants: load Telegram configuration" (query Pool (fun _ _ _ d => Ok (find_channels tenantID d))) in
    match found with
    | None => fail ErrNotFound
    | Some c =>
        if negb (ch_enabled c) then fail ErrChannelDisabled
        else
          let* token := lift (open (tn_cipher s) (ch_ciphertext c) (ch_nonce c) (channelAAD tenantID)) in
          let digest := default "" (ch_digest c) in
          if negb (len digest =? 32) then fail (ErrText "tenants: stored Telegram secret digest is malformed")
          else ret (mkCredentials token digest)
    end.

(** ** Finding a tenant *)
Definition tenant_of (d : DB) (t : TenantRow) : Tenant :=
  mkTenant (tr_id t) (tr_slug t) (tr_name t) (tr_timezone t) (tr_currency t)
    (match find_channels (tr_id t) d with Some c => ch_origin c | None => "" end) (tr_created t) (tr_updated t).

Definition find_tenant (p : TenantRow -> bool) (msg : string) : M Tenant :=
  let* found := wrap msg (query Pool (fun _ _ _ d => Ok (option_map (tenant_of d) (List.find p (tenant_rows (accounts_of d)))))) in
  match found with Some t => ret t | None => fail ErrNotFound end.

Definition TenantByID (s : Store) (tenantID : string) : M Tenant :=
  if negb (tn_pool s) || bool_decide (tenantID = "") then fail ErrNotFound
  else find_tenant (fun t => String.eqb (tr_id t) tenantID) "tenants: get tenant by ID".

Definition TenantBySlug (s : Store) (slug : string) : M Tenant :=
  if negb (tn_pool s) || negb (slug_ok slug) then fail ErrNotFound
  else find_tenant (fun t => String.eqb (tr_slug t) slug) "tenants: get tenant by slug".

Definition TenantForHost (s : Store) (h platformSuffix : string) : M Tenant :=
  match slugFromHost h platformSuffix with
  | None => fail ErrNotFound
  | Some slug => TenantBySlug s slug
  end.

(** ** The catalogue *)
Definition mapProvisionError (err : error) : error :=
  if bool_decide (pg_code err = Some "23505") then ErrConflict else ErrWrap "tenants: insert tenant" err.

(** [%q] of a slug. *)
Definition quoted (before slug : string) : string :=
  of_bytes (string_bytes before ++ [chr 32; chr 34] ++ string_bytes slug ++ [chr 34]).

(** One statement for each member of a list, in order. *)
Fixpoint for_each {A} (f : A -> M unit) (l : list A) : M unit :=
  match l with
  | [] => ret tt
  | a :: tl => let* _ := f a in for_each f tl
  end.

Definition service_row (tenant id : string) (v : ServiceInput) : ServiceRow :=
  mkServiceRow tenant id (vi_Slug v) (vi_Name v) (vi_Description v) (vi_DurationMinutes v) (vi_BufferBeforeMinutes v)
    (vi_BufferAfterMinutes v) (vi_PriceMinor v) (vi_Currency v) true.

Definition rule_row (tenant member : string) (r : AvailabilityRuleInput) : RuleRow :=
  mkRuleRow tenant member (ri_RuleType r) (ri_DayOfWeek r) (default 0 (parse_clock (ri_LocalStart r)))
    (default 0 (parse_clock (ri_LocalEnd r))) None None.

(** [local_start] and [local_end] are cast by the server; [None] is its error for a text that is no time. *)
Definition insert_rule_sql (tenant member : string) (r : AvailabilityRuleInput) : sql unit := fun now n e d =>
  match parse_clock (ri_LocalStart r), parse_clock (ri_LocalEnd r) with
  | Some _, Some _ => insert (insert_rule (rule_row tenant member r)) now n e d
  | _, _ => Err (ErrPg "22007")
  end.

Definition insertAvailability (tenant member : string) (l : list AvailabilityRuleInput) : M unit :=
  for_each (fun r =>
    let* _ := New_id in
    wrap "tenants: insert availability rule" (run Tx (insert_rule_sql tenant member r))) l.

(** The services in order, and the map from their slugs to their identifiers. *)
Fixpoint insert_services (tenant : string) (l : list ServiceInput) (ids : gmap string string)
    : M (gmap string string) :=
  match l with
  | [] => ret ids
  | v :: tl =>
      let* id := New_id in
      let* _ := wrap (quoted "tenants: insert service" (vi_Slug v)) (run Tx (insert (insert_service (service_row tenant id v)))) in
      insert_services tenant tl (<[vi_Slug v := id]> ids)
  end.

Definition insert_member (tenant : string) (ids : gmap string string) (m : StaffInput) : M unit :=
  let* id := New_id in
  let* _ := wrap (quoted "tenants: insert staff" (mi_Slug m))
              (run Tx (insert (insert_staff (mkStaffRow tenant id (mi_Slug m) (mi_DisplayName m) (mi_Timezone m) true)))) in
  let* _ := for_each (fun slug => wrap "tenants: assign staff service"
              (run Tx (insert (insert_assignment (mkStaffServiceRow tenant id (default "" (ids !! slug))))))) (mi_ServiceSlugs m) in
  insertAvailability tenant id (mi_Availability m).

Definition insertCatalog (tenant : string) (offered : list ServiceInput) (members : list StaffInput) : M unit :=
  let* ids := insert_services tenant offered ∅ in
  for_each (insert_member tenant ids) members.

Definition CreateService (s : Store) (tenantID : string) (input : ServiceInput) : M CatalogService :=
  if negb (tn_pool s) || bool_decide (tenantID = "") || negb (validService input) then fail ErrInvalidInput
  else
    let* row := map_err mapProvisionError (run Pool (fun _ n e d =>
      let v := service_row tenantID (uuid e n 0%nat) input in
      let v := mkServiceRow (sv_tenant v) (sv_id v) (sv_slug v) (TrimSpace (sv_name v)) (sv_description v) (sv_duration v)
                 (sv_before v) (sv_after v) (sv_price v) (sv_currency v) (sv_active v) in
      let! d' := insert_service v d in Ok (v, d'))) in
    ret (mkCatalogService (sv_id row) (sv_slug row) (sv_name row) (sv_description row) (sv_duration row) (sv_before row)
           (sv_after row) (sv_price row) (char3 (sv_currency row))).

(** [INSERT ... SELECT] of the tenant's active service with this slug. *)
Definition assign_by_slug_sql (tenant member slug : string) : sql nat := fun _ _ _ d =>
  match List.filter (fun v => String.eqb (sv_tenant v) tenant && String.eqb (sv_slug v) slug && sv_active v) (services d) with
  | [] => Ok (0%nat, d)
  | v :: _ => let! d' := insert_assignment (mkStaffServiceRow tenant member (sv_id v)) d in Ok (1%nat, d')
  end.

Definition CreateStaff (s : Store) (tenantID : string) (input : StaffInput) : M CatalogStaff :=
  if negb (tn_pool s) || bool_decide (tenantID = "") || negb (validStaffInput input) then fail ErrInvalidInput
  else
    with_tx "tenants: begin create staff" (
      let* id := New_id in
      let row := mkStaffRow tenantID id (mi_Slug input) (TrimSpace (mi_DisplayName input)) (mi_Timezone input) true in
      let* _ := map_err mapProvisionError (run Tx (insert (insert_staff row))) in
      let* _ := for_each (fun slug =>
                  let* affected := wrap "tenants: assign staff service" (run Tx (assign_by_slug_sql tenantID id slug)) in
                  if bool_decide (affected = 1%nat) then ret tt else fail ErrInvalidInput) (mi_ServiceSlugs input) in
      let* _ := insertAvailability tenantID id (mi_Availability input) in
      let* _ := wrap "tenants: commit create staff" commit in
      ret (mkCatalogStaff id (st_slug row) (st_name row) (st_timezone row))).

Definition AddAvailability (s : Store) (tenantID staffID : string) (l : list AvailabilityRuleInput) : M unit :=
  if negb (tn_pool s) || bool_decide (tenantID = "") || bool_decide (staffID = "") ||
     bool_decide (length l = 0%nat) || negb (validRules l) then fail ErrInvalidInput
  else
    with_tx "tenants: begin add availability" (
      let* exists_ := wrap "tenants: check staff" (query Tx (fun _ _ _ d => Ok (existsb (is_member tenantID staffID) (staff d)))) in
      if negb exists_ then fail ErrNotFound
      else
        let* _ := insertAvailability tenantID staffID l in
        wrap "tenants: commit availability" commit).

(** ** Provisioning *)
Definition insert_tenant_sql (row : Time -> TenantRow) : sql Time := fun now _ _ d =>
  let! d' := insert_tenant (row now) d in Ok (now, d').

Definition insert_channels_sql (tenant origin : string) (ciphertext nonce digest : option string) (enabled : bool)
    : sql unit := fun now => insert (insert_channels (mkChannelsRow tenant origin ciphertext nonce digest enabled now)) now.

Definition set_slug_and_origin (i : ProvisionInput) (origin : string) : ProvisionInput :=
  let c := pi_Channels i in
  mkProvision (TrimSpace (pi_Slug i)) (pi_Name i) (pi_Timezone i) (pi_Currency i) (pi_Owner i)
    (mkChannels origin (TelegramEnabled c) (TelegramBotToken c) (TelegramWebhookSecret c)) (pi_Services i) (pi_Staff i).

Definition owner_of (tenant email name password : string) : CreateOperatorInput :=
  mkOperatorInput tenant email name password RoleOwner.

Definition Provision (s : Store) (input : ProvisionInput) : M Tenant :=
  if negb (tn_pool s) then fail (ErrText "tenants: nil store")
  else
    match CanonicalWidgetOrigin (WidgetOrigin (pi_Channels input)) with
    | Err _ => fail ErrInvalidInput
    | Ok origin =>
        let input := set_slug_and_origin input origin in
        match validateProvision input with
        | Some err => fail err
        | None =>
            let* tenantID := New_id in
            let* prepared := prepareChannelConfig s (pi_Channels input) tenantID in
            let '(ciphertext, nonce, digest) := (prepared : option string * option string * string) in
            with_tx "tenants: begin provisioning" (
              let name := TrimSpace (pi_Name input) in
              let* at_ := map_err mapProvisionError (run Tx (insert_tenant_sql (fun now =>
                mkTenantRow tenantID (pi_Slug input) name (pi_Timezone input) (pi_Currency input) now now))) in
              let* _ := wrap "tenants: insert channels" (run Tx (insert_channels_sql tenantID origin ciphertext nonce
                          (nullableDigest digest) (TelegramEnabled (pi_Channels input)))) in
              let* _ := wrap "tenants: create owner" (CreateOperatorTx
                          (owner_of tenantID (ow_Email (pi_Owner input)) (ow_DisplayName (pi_Owner input))
                             (ow_Password (pi_Owner input)))) in
              let* _ := insertCatalog tenantID (pi_Services input) (pi_Staff input) in
              let* _ := wrap "tenants: commit provisioning" commit in
              ret (mkTenant tenantID (pi_Slug input) name (pi_Timezone input) (pi_Currency input) origin at_ at_))
        end
    end.

(** ** Adopting a tenant of the earlier stages *)
Definition legacyChannelsPristine (c : ChannelsRow) : bool :=
  bool_decide (ch_origin c = "") && negb (ch_enabled c) && bool_decide (default "" (ch_ciphertext c) = "") &&
  bool_decide (default "" (ch_nonce c) = "") && bool_decide (default "" (ch_digest c) = "").

Definition legacyChannelsMatchInput (s : Store) (c : ChannelsRow) (tenantID origin : string) (input : ChannelConfig)
    (digest : string) : bool :=
  if negb (String.eqb (ch_origin c) origin) || negb (Bool.eqb (ch_enabled c) (TelegramEnabled input)) then false
  else if negb (TelegramEnabled input) then
    bool_decide (default "" (ch_ciphertext c) = "") && bool_decide (default "" (ch_nonce c) = "") &&
    bool_decide (default "" (ch_digest c) = "")
  else if bool_decide (default "" (ch_ciphertext c) = "") || bool_decide (default "" (ch_nonce c) = "") ||
          negb (String.eqb (default "" (ch_digest c)) digest) then false
  else
    match open (tn_cipher s) (ch_ciphertext c) (ch_nonce c) (channelAAD tenantID) with
    | Ok token => String.eqb token (TelegramBotToken input)
    | Err _ => false
    end.

(** The settings of the tenant with this identifier and slug, and its operators. *)
Definition legacy_target (tenant slug : string) (d : DB) : option ChannelsRow :=
  if existsb (fun t => String.eqb (tr_id t) tenant && String.eqb (tr_slug t) slug) (tenant_rows (accounts_of d))
  then find_channels tenant d else None.

Definition operators_of (tenant : string) (d : DB) : list OperatorRow :=
  List.filter (fun o => String.eqb (op_tenant o) tenant) (operators (accounts_of d)).

(** The owner the input asks for. *)
Definition same_owner (email name password : string) (o : OperatorRow) : bool :=
  String.eqb (op_email o) email && String.eqb (op_name o) name && String.eqb (op_role o) RoleOwner && op_active o &&
  VerifyPassword password (op_hash o).

(** Whether the bootstrap was applied; that it was before is success as well. *)
Definition BootstrapLegacyTenant (s : Store) (input : LegacyBootstrapInput) : M bool :=
  let owner := lb_Owner input in
  let tenant := lb_TenantID input in
  if negb (tn_pool s) || blank tenant || blank (lb_TenantSlug input) then fail ErrLegacyBootstrapIneligible
  else
    match CanonicalWidgetOrigin (lb_WidgetOrigin input), NormalizeEmail (ow_Email owner) with
    | Ok origin, Ok email =>
        let name := TrimSpace (ow_DisplayName owner) in
        if bool_decide (name = "") || (200 <? len name) then fail ErrLegacyBootstrapIneligible
        else
          let* prepared := map_err (fun _ => ErrLegacyBootstrapIneligible) (prepareChannelConfig s (lb_Telegram input) tenant) in
          let '(ciphertext, nonce, digest) := (prepared : option string * option string * string) in
          with_tx "tenants: begin legacy bootstrap" (
            let* found := wrap "tenants: lock legacy bootstrap target"
                            (query Tx (fun _ _ _ d => Ok (legacy_target tenant (TrimSpace (lb_TenantSlug input)) d))) in
            match found with
            | None => fail ErrLegacyBootstrapIneligible
            | Some channels =>
                let* count := wrap "tenants: count legacy operators"
                                (query Tx (fun _ _ _ d => Ok (length (operators_of tenant d)))) in
                if bool_decide (count = 0%nat) && legacyChannelsPristine channels then
                  let* _ := wrap "tenants: create legacy bootstrap owner"
                              (CreateOperatorTx (owner_of tenant email name (ow_Password owner))) in
                  let* affected := wrap "tenants: set legacy channels"
                    (run Tx (update_channels_sql tenant origin ciphertext nonce (nullableDigest digest)
                               (TelegramEnabled (lb_Telegram input)))) in
                  if negb (bool_decide (affected = 1%nat)) then fail ErrLegacyBootstrapIneligible
                  else let* _ := wrap "tenants: commit legacy bootstrap" commit in ret true
                else if bool_decide (count = 1%nat) &&
                        legacyChannelsMatchInput s channels tenant origin (lb_Telegram input) digest then
                  let* o := wrap "tenants: read legacy bootstrap owner"
                              (let* o := query Tx (fun _ _ _ d => Ok (hd_error (operators_of tenant d))) in one_row o) in
                  if same_owner email name (ow_Password owner) o
                  then let* _ := wrap "tenants: commit legacy bootstrap replay" commit in ret false
                  else fail ErrLegacyBootstrapIneligible
                else fail ErrLegacyBootstrapIneligible
            end)
    | _, _ => fail ErrLegacyBootstrapIneligible
    end.

(** ** The public boundary: [context.go] and [tenanthttp] *)
Record PublicRequest := mkPublic { rq_Host : string; rq_Origin : string; rq_Method : string }.

(** A refusal's status; the answer to a preflight, or of the handler, each with the
    origin it allows. *)
Inductive PublicResponse (A : Type) :=
| Refused (status : Z)
| Preflight (allowed : string)
| Served (allowed : option string) (a : A).
#[global] Arguments Refused {A}.
#[global] Arguments Preflight {A}.
#[global] Arguments Served {A}.

(** [strings.EqualFold] on two canonical origins, which are ASCII. *)
Definition same_origin (a b : string) : bool := String.eqb (ascii_lower a) (ascii_lower b).

(** [next] is the handler with the tenant put into its context by [WithTenant]. *)
Definition PublicTenant {A} (resolver : option (string -> string -> M Tenant)) (hostSuffix : string)
    (next : Tenant -> PublicRequest -> M A) (r : PublicRequest) : M (PublicResponse A) :=
  match resolver with
  | None => ret (Refused 500)
  | Some resolve =>
      let* found := attempt (resolve (rq_Host r) hostSuffix) in
      match found with
      | Err err => ret (Refused (if errors_is err ErrNotFound then 404 else 500))
      | Ok tenant =>
          let serve allowed := let* a := next tenant r in ret (Served allowed a) in
          let origin := TrimSpace (rq_Origin r) in
          if bool_decide (origin = "") then serve None
          else
            match CanonicalWidgetOrigin origin, CanonicalWidgetOrigin (t_WidgetOrigin tenant) with
            | Ok requested, Ok allowed =>
                if negb (same_origin requested allowed) then ret (Refused 403)
                else if String.eqb (rq_Method r) "OPTIONS" then ret (Preflight allowed)
                else serve (Some allowed)
            | _, _ => ret (Refused 403)
            end
      end
  end.

(** [FromContext]: the tenant of a handler's context. *)
Definition FromContext (t : option Tenant) : option Tenant :=
  match t with
  | Some t => if bool_decide (t_ID t = "") || bool_decide (t_Slug t = "") then None else Some t
  | None => None
  end.
End tenants.
