(* ===== verification/TenantsProps.v ===== *)
(** * What provisioning, channel settings and hosts guarantee

    Over [Tenants]: a provisioned tenant is complete and touches no other one; a
    bot's token reads back from the settings of its tenant and opens for no other
    one; a bootstrap is repeated without a change; a public request is served for the
    tenant its host names, to that tenant's origin; a canonical origin is canonical. *)

From Stdlib Require Import ZArith Lia Ascii.
From stdpp Require Import base list strings gmap pretty.
From S2P Require Import Prelude GoTime Json JsonParse Validation Sha256 Base64 TimeText Tokens Regexp Hex Url Aes Catalog Database DatabaseFacts Passwords Identity IdentityProps Tenants.

#[local] Open Scope Z_scope.

#[local] Abbreviation TrimSpace := JsonParse.TrimSpace.

(** ** Growth of one tenant's catalogue *)
Definition grows (tenant : string) (d d' : DB) : Prop :=
  exists sv st ss ru,
    d' = set_catalogue (services d ++ sv) (staff d ++ st) (staff_services d ++ ss) (rules d ++ ru) d /\
    Forall (fun v => sv_tenant v = tenant) sv /\ Forall (fun m => st_tenant m = tenant) st /\
    Forall (fun a => ss_tenant a = tenant) ss /\ Forall (fun r => ar_tenant r = tenant) ru.

#[export] Instance grows_refl tenant : Reflexive (grows tenant).
Proof. intros d. exists [], [], [], []. rewrite !app_nil_r. split; [by destruct d|done]. Qed.

#[export] Instance grows_trans tenant : Transitive (grows tenant).
Proof.
  intros d1 d2 d3 (sv & st & ss & ru & -> & Hv & Hs & Ha & Hr) (sv' & st' & ss' & ru' & -> & Hv' & Hs' & Ha' & Hr').
  exists (sv ++ sv'), (st ++ st'), (ss ++ ss'), (ru ++ ru'). cbn. rewrite !app_assoc.
  split; [done|]. by rewrite !Forall_app.
Qed.

Lemma grows_services tenant d d' v : grows tenant d d' -> v ∈ services d -> v ∈ services d'.
Proof. intros (? & ? & ? & ? & -> & _) Hv. apply elem_of_app. by left. Qed.

Lemma grows_assignments tenant d d' a : grows tenant d d' -> a ∈ staff_services d -> a ∈ staff_services d'.
Proof. intros (? & ? & ? & ? & -> & _) Hv. apply elem_of_app. by left. Qed.

Lemma grows_staff tenant d d' m : grows tenant d d' -> m ∈ staff d -> m ∈ staff d'.
Proof. intros (? & ? & ? & ? & -> & _) Hv. apply elem_of_app. by left. Qed.

Lemma grows_rules tenant d d' r : grows tenant d d' -> r ∈ rules d -> r ∈ rules d'.
Proof. intros (? & ? & ? & ? & -> & _) Hv. apply elem_of_app. by left. Qed.

Section catalogue.
Context `{letters : !Letters} (tenant : string).

Lemma insert_service_Ok v d d' :
  sv_tenant v = tenant -> insert_service v d = Ok d' ->
  grows tenant d d' /\ exists r, r ∈ services d' /\ sv_tenant r = tenant /\ sv_id r = sv_id v /\
    r = mkServiceRow tenant (sv_id v) (sv_slug v) (sv_name v) (sv_description v) (sv_duration v) (sv_before v)
          (sv_after v) (sv_price v) (char3 (sv_currency v)) (sv_active v).
Proof.
  intros <-. unfold insert_service. destruct (_ <? _); [done|]. destruct (negb _); [done|].
  destruct (existsb _ _); [done|]. destruct (negb _); [done|]. intros [= <-]. split.
  - eexists [_], [], [], []. rewrite !app_nil_r. split; [done|]. by repeat constructor.
  - eexists. cbn. split; [apply elem_of_app; right; by apply list_elem_of_singleton|done].
Qed.

Lemma insert_staff_Ok m d d' :
  st_tenant m = tenant -> insert_staff m d = Ok d' -> grows tenant d d' /\ m ∈ staff d'.
Proof.
  intros <-. unfold insert_staff. destruct (negb _); [done|]. destruct (existsb _ _); [done|].
  destruct (negb _); [done|]. intros [= <-]. split.
  - eexists [], [_], [], []. rewrite !app_nil_r. split; [done|]. by repeat constructor.
  - cbn. apply elem_of_app; right; by apply list_elem_of_singleton.
Qed.

Lemma insert_assignment_Ok a d d' :
  ss_tenant a = tenant -> insert_assignment a d = Ok d' ->
  grows tenant d d' /\ a ∈ staff_services d'.
Proof.
  intros <-. unfold insert_assignment. destruct (existsb _ _); [done|]. destruct (negb _); [done|]. intros [= <-]. split.
  - eexists [], [], [_], []. rewrite !app_nil_r. split; [done|]. by repeat constructor.
  - cbn. apply elem_of_app; right; by apply list_elem_of_singleton.
Qed.

Lemma insert_rule_Ok r d d' :
  ar_tenant r = tenant -> insert_rule r d = Ok d' -> grows tenant d d' /\ r ∈ rules d'.
Proof.
  intros <-. unfold insert_rule. destruct (negb _); [done|]. destruct (negb _); [done|]. intros [= <-]. split.
  - eexists [], [], [], [_]. rewrite !app_nil_r. split; [done|]. by repeat constructor.
  - cbn. apply elem_of_app; right; by apply list_elem_of_singleton.
Qed.

(** From tables with [P], a step that only lets the tenant's catalogue grow, and what
    holds after it. *)
Definition adds {A} (P : DB -> Prop) (m : M A) (Q : A -> DB -> Prop) : Prop := forall e w a w',
  P (work w) -> m e w = (Ok a, w') ->
  db w' = db w /\ tx_now w' = tx_now w /\ grows tenant (work w) (work w') /\ Q a (work w').

Definition stable (P : DB -> Prop) : Prop := forall d d', grows tenant d d' -> P d -> P d'.

Lemma adds_ret {A} P (a : A) (Q : A -> DB -> Prop) : (forall d, P d -> Q a d) -> adds P (ret a) Q.
Proof. intros HQ e w b w' HP. unfold ret. intros [= <- <-]. split_and!; try done. by apply HQ. Qed.

Lemma adds_wrap {A} P msg (m : M A) Q : adds P m Q -> adds P (wrap msg m) Q.
Proof. intros Hm e w a w' HP Hr%wrap_Ok. by apply Hm in Hr. Qed.

Lemma adds_id P : adds P New_id (fun _ _ => True).
Proof. intros e w a w' _ [= _ <-]. done. Qed.

Lemma adds_sql {A} P (s : sql A) (Q : A -> DB -> Prop) :
  (forall now n e d a d', s now n e d = Ok (a, d') -> grows tenant d d' /\ Q a d') -> adds P (run Tx s) Q.
Proof. intros Hs e w a w' _ (_ & d & Hr & ->)%run_Tx_Ok. by apply Hs in Hr as [Hg HQ]. Qed.

Lemma adds_insert P (f : DB -> result DB) (Q : DB -> Prop) :
  (forall d d', f d = Ok d' -> grows tenant d d' /\ Q d') -> adds P (run Tx (insert f)) (fun _ => Q).
Proof.
  intros Hf. apply adds_sql. intros now n e d a d' (d1 & Hd & [= _ <-])%rbind_Ok. by apply Hf.
Qed.

Lemma adds_then {A B} P (m : M A) (f : A -> M B) (Q : A -> DB -> Prop) (R : B -> DB -> Prop) :
  stable P -> adds P m Q -> (forall a, adds (fun d => P d /\ Q a d) (f a) R) -> adds P (bind m f) R.
Proof.
  intros Hs Hm Hf e w b w' HP (a & w1 & H1 & H2)%bind_Ok. apply Hm in H1 as (Hd1 & Ht1 & Hg1 & HQ); [|done].
  apply Hf in H2 as (Hd2 & Ht2 & Hg2 & HR); [|split; [by eapply Hs|done]].
  split; [congruence|]. split; [congruence|]. by split; [etrans|].
Qed.

Lemma stable_and P Q : stable P -> stable Q -> stable (fun d => P d /\ Q d).
Proof. intros HP HQ d d' Hg [H1 H2]. split; [by eapply HP|by eapply HQ]. Qed.

Lemma stable_true : stable (fun _ => True).
Proof. done. Qed.

Lemma stable_each {A} (l : list A) (Q : A -> DB -> Prop) :
  (forall a, stable (Q a)) -> stable (fun d => forall a, a ∈ l -> Q a d).
Proof. intros HQ d d' Hg H a Ha. by eapply HQ, H. Qed.

Lemma adds_for_each {A} P (f : A -> M unit) (l : list A) (Q : A -> DB -> Prop) :
  stable P -> (forall a, stable (Q a)) -> (forall a, a ∈ l -> adds P (f a) (fun _ => Q a)) ->
  adds P (for_each f l) (fun _ d => forall a, a ∈ l -> Q a d).
Proof.
  intros HP HQ. induction l as [|a l IH]; intros Hf; cbn [for_each].
  - apply adds_ret. intros d _ a Ha. by apply elem_of_nil in Ha.
  - eapply adds_then; [done|apply Hf; by left|]. intros u e w b w' [Hp Ha] Hr.
    apply IH in Hr as (? & ? & Hg & Hall); [|intros a' Ha'; apply Hf; by right|done]. split_and!; try done.
    intros a' [->|Hin]%elem_of_cons; [by eapply HQ|by apply Hall].
Qed.

(** *** The rows of an input *)
Definition stored_service (id : string) (v : ServiceInput) : ServiceRow :=
  mkServiceRow tenant id (vi_Slug v) (vi_Name v) (vi_Description v) (vi_DurationMinutes v) (vi_BufferBeforeMinutes v)
    (vi_BufferAfterMinutes v) (vi_PriceMinor v) (char3 (vi_Currency v)) true.

Definition has_service (slug id : string) (d : DB) : Prop :=
  exists v, v ∈ services d /\ sv_tenant v = tenant /\ sv_slug v = slug /\ sv_id v = id.

Definition assigned (member slug : string) (d : DB) : Prop :=
  exists id, has_service slug id d /\ mkStaffServiceRow tenant member id ∈ staff_services d.

(** A member with the services and the hours the input gives them. *)
Definition stored_member (m : StaffInput) (d : DB) : Prop :=
  exists id, mkStaffRow tenant id (mi_Slug m) (mi_DisplayName m) (mi_Timezone m) true ∈ staff d /\
    (forall slug, slug ∈ mi_ServiceSlugs m -> assigned id slug d) /\
    (forall r, r ∈ mi_Availability m -> rule_row tenant id r ∈ rules d).

Lemma stable_service v : stable (fun d => v ∈ services d).
Proof. intros d d' Hg Hv. by eapply grows_services. Qed.
Lemma stable_staff m : stable (fun d => m ∈ staff d).
Proof. intros d d' Hg Hv. by eapply grows_staff. Qed.
Lemma stable_assignment a : stable (fun d => a ∈ staff_services d).
Proof. intros d d' Hg Hv. by eapply grows_assignments. Qed.
Lemma stable_rule r : stable (fun d => r ∈ rules d).
Proof. intros d d' Hg Hv. by eapply grows_rules. Qed.

Lemma stable_has_service slug id : stable (has_service slug id).
Proof. intros d d' Hg (v & Hv & H). exists v. split; [by eapply grows_services|done]. Qed.

Lemma stable_assigned member slug : stable (assigned member slug).
Proof.
  intros d d' Hg (id & Hs & Ha). exists id. split; [by eapply stable_has_service|by eapply grows_assignments].
Qed.

Lemma stable_member m : stable (stored_member m).
Proof.
  intros d d' Hg (id & Hm & Ha & Hr). exists id. split; [by eapply grows_staff|].
  split; [intros slug Hin; by eapply stable_assigned, Ha|intros r Hin; by eapply grows_rules, Hr].
Qed.

(** The identifiers name services of the tenant by their slugs. *)
Definition names_services (ids : gmap string string) (d : DB) : Prop :=
  forall slug id, ids !! slug = Some id -> has_service slug id d.

Lemma stable_names ids : stable (names_services ids).
Proof. intros d d' Hg Hn slug id Hid. by eapply stable_has_service, Hn. Qed.

Definition services_done (l : list ServiceInput) (ids ids' : gmap string string) (d : DB) : Prop :=
  names_services ids' d /\ (forall slug, is_Some (ids !! slug) -> is_Some (ids' !! slug)) /\
  forall v, v ∈ l -> is_Some (ids' !! vi_Slug v) /\ exists id, stored_service id v ∈ services d.

Lemma insert_services_adds l ids :
  adds (names_services ids) (insert_services tenant l ids) (services_done l ids).
Proof.
  revert ids. induction l as [|v l IH]; intros ids; cbn [insert_services].
  - apply adds_ret. intros d Hn. split_and!; try done. intros v Hv. by apply elem_of_nil in Hv.
  - eapply adds_then; [apply stable_names|apply adds_id|]. intros id.
    eapply adds_then with (Q := fun _ d => stored_service id v ∈ services d);
      [apply stable_and; [apply stable_names|done]| |].
    { apply adds_wrap, adds_insert. intros d d' Hi. apply insert_service_Ok in Hi as (Hg & r & Hr & _ & _ & ->); done. }
    intros u e w ids' w' [[Hids _] Hv] Hr. apply IH in Hr as (? & ? & Hg & Hn & Hk & Hall).
    + split_and!; try done. split; [done|]. split.
      * intros slug Hs. apply Hk. destruct (decide (vi_Slug v = slug)) as [<-|Hne];
          [by rewrite lookup_insert_eq|by rewrite lookup_insert_ne].
      * intros v' [->|Hin]%elem_of_cons; [|by apply Hall]. split; [|exists id; by eapply grows_services].
        apply Hk. by rewrite lookup_insert_eq.
    + intros slug i. destruct (decide (vi_Slug v = slug)) as [<-|Hne].
      * rewrite lookup_insert_eq. intros [= <-]. by exists (stored_service id v).
      * rewrite lookup_insert_ne by done. apply Hids.
Qed.

Lemma insertAvailability_adds P member l :
  stable P -> adds P (insertAvailability tenant member l) (fun _ d => forall r, r ∈ l -> rule_row tenant member r ∈ rules d).
Proof.
  intros HP. apply (adds_for_each P _ _ (fun r d => rule_row tenant member r ∈ rules d)); [done|intros r; apply stable_rule|].
  intros r _. eapply adds_then; [done|apply adds_id|]. intros id. apply adds_wrap, adds_sql.
  intros now n e d a d' Hr. unfold insert_rule_sql, insert in Hr.
  destruct (parse_clock _); [|done]. destruct (parse_clock _); [|done]. apply rbind_Ok in Hr as (d1 & Hd & [= _ <-]).
  by apply insert_rule_Ok in Hd.
Qed.

Lemma insert_member_adds ids m :
  (forall slug, slug ∈ mi_ServiceSlugs m -> is_Some (ids !! slug)) ->
  adds (names_services ids) (insert_member tenant ids m) (fun _ => stored_member m).
Proof.
  intros Hslugs. unfold insert_member. eapply adds_then; [apply stable_names|apply adds_id|]. intros id.
  eapply adds_then with (Q := fun _ d => mkStaffRow tenant id (mi_Slug m) (mi_DisplayName m) (mi_Timezone m) true ∈ staff d);
    [apply stable_and; [apply stable_names|done]| |].
  { apply adds_wrap, adds_insert. intros d d' Hi. by apply insert_staff_Ok in Hi. }
  intros u. set (P := fun d => _ /\ _). assert (HP : stable P).
  { apply stable_and; [apply stable_and; [apply stable_names|done]|apply stable_staff]. }
  eapply adds_then; [exact HP| |].
  - apply (adds_for_each P _ _ (fun slug d => mkStaffServiceRow tenant id (default "" (ids !! slug)) ∈ staff_services d));
      [done|intros slug; apply stable_assignment|].
    intros slug _. apply adds_wrap, adds_insert. intros d d' Hi. by apply insert_assignment_Ok in Hi.
  - intros u' e w a w' [[[Hids _] Hm] Ha] Hr.
    apply (insertAvailability_adds (fun _ => True)) in Hr as (? & ? & Hg & Hrules); [|done|done]. split_and!; try done.
    exists id. split; [by eapply grows_staff|]. split; [|done]. intros slug Hin.
    destruct (Hslugs slug Hin) as [i Hi]. exists i. specialize (Ha slug Hin). rewrite Hi in Ha.
    split; [by eapply stable_has_service, Hids|by eapply grows_assignments].
Qed.

(** A catalogue whose members name only services of the same input. *)
Lemma insertCatalog_adds offered members :
  (forall m, m ∈ members -> forall slug, slug ∈ mi_ServiceSlugs m -> slug ∈ map vi_Slug offered) ->
  adds (fun _ => True) (insertCatalog tenant offered members) (fun _ d =>
    (forall v, v ∈ offered -> exists id, stored_service id v ∈ services d) /\
    (forall m, m ∈ members -> stored_member m d)).
Proof.
  intros Hin e w u w' _ Hr. apply bind_Ok in Hr as (ids & w1 & H1 & H2).
  apply insert_services_adds in H1 as (Hd1 & Ht1 & Hg1 & Hn & _ & Hall); [|intros ??; by rewrite lookup_empty].
  apply (adds_for_each (names_services ids) _ _ stored_member) in H2 as (Hd2 & Ht2 & Hg2 & Hm);
    [|apply stable_names|apply stable_member| |done].
  - split; [congruence|]. split; [congruence|]. split; [by etrans|]. split; [|done].
    intros v Hv. destruct (Hall v Hv) as [_ [id Hid]]. exists id. by eapply grows_services.
  - intros m Hmem. apply insert_member_adds. intros slug Hs.
    apply (Hin m Hmem) in Hs. apply list_elem_of_fmap in Hs as (v & -> & Hv). by apply Hall.
Qed.
End catalogue.

(** ** Sealed settings *)
(** The random source fills the buffer it is given, or fails. *)
Definition full_reads `{!Entropy} : Prop :=
  forall n size bytes, 0 <= size ->
  random_bytes n size = Some bytes -> len bytes = size.

Section settings.
Context `{letters : !Letters} `{entropy : !Entropy} `{hostt : !Host} `{hosts : !UrlHosts} (s : Store).

(** Ciphertext, nonce and digest of the settings of a tenant. *)
Definition seals (tenant : string) (c : ChannelConfig) (p : option string * option string * string) : Prop :=
  if TelegramEnabled c then
    exists key nonce, tn_cipher s = Some key /\ len nonce = nonceSize /\
      p = (Some (Seal key nonce (TelegramBotToken c) (channelAAD tenant)), Some nonce,
           webhookDigest (TelegramWebhookSecret c))
  else p = (None, None, zero_digest).

(** A sealed value opens with the key, and for other data only if the tags collide. *)
Lemma open_sealed_with key nonce text aad aad' :
  len nonce = nonceSize ->
  open (Some key) (Some (Seal key nonce text aad)) (Some nonce) aad' =
  let keys := key_schedule (octets key) in
  let c := crypt keys nonce text in
  if bool_decide (tag_of keys nonce c aad = tag_of keys nonce c aad') then Ok text
  else Err (ErrText "tenant channels: decrypt stored secret").
Proof.
  intros Hn. unfold open. cbv zeta. cbn [from_option id]. rewrite Hn, Z.eqb_refl. cbn [negb orb].
  rewrite bool_decide_false by apply Seal_nonempty. rewrite Open_Seal_with. cbv zeta. by destruct (bool_decide _).
Qed.

Lemma open_sealed key nonce text aad :
  len nonce = nonceSize -> open (Some key) (Some (Seal key nonce text aad)) (Some nonce) aad = Ok text.
Proof. intros Hn. rewrite open_sealed_with by done. cbv zeta. by rewrite bool_decide_true. Qed.

Lemma prepared tenant c e w p w' :
  full_reads -> prepareChannelConfig s c tenant e w = (Ok p, w') ->
  (db w', work w', aborted w', tx_now w') = (db w, work w, aborted w, tx_now w) /\ seals tenant c p.
Proof.
  intros Hfull. unfold prepareChannelConfig, seals. destruct (TelegramEnabled c) eqn:He; cbn [negb].
  - destruct (_ || _ || _ || _); [done|]. intros (sealed & w1 & Hs & Hr)%bind_Ok. injection Hr as <- <-.
    unfold seal in Hs. destruct (tn_cipher s) as [key|]; [|done].
    apply bind_Ok in Hs as (nonce & w2 & Hn & Hs). unfold random in Hn. injection Hn as <- <-.
    destruct (random_bytes _ _) as [nonce|] eqn:Hb; [|done]. injection Hs as <- <-.
    split; [done|]. exists key, nonce. split; [done|]. split; [by apply (Hfull (tick w)); [done|]|done].
  - destruct (_ || _); [done|]. by intros [= <- <-].
Qed.

(** *** The owner *)
Lemma new_password salt password hash :
  (forall x, salt = Some x -> len x = passwordSaltBytes) -> HashPassword salt password = Ok hash ->
  VerifyPassword password hash = true.
Proof.
  intros Hsalt. unfold HashPassword. destruct (validateNewPassword password) eqn:Hv; [done|].
  destruct salt as [x|]; [|done]. intros [= <-]. apply verify_encoded; [by apply Hsalt|].
  unfold validateNewPassword in Hv. destruct (_ || _) eqn:Hl in Hv; [done|]. bool_to_prop. split; [lia|exact eq_refl].
Qed.

(** The account an input asks for. *)
Definition account (i : CreateOperatorInput) (o : OperatorRow) : Prop :=
  op_tenant o = in_TenantID i /\ NormalizeEmail (in_Email i) = Ok (op_email o) /\ op_name o = TrimSpace (in_DisplayName i) /\
  op_role o = in_Role i /\ op_active o = true /\ VerifyPassword (in_Password i) (op_hash o) = true.

Lemma CreateOperatorTx_Ok i e w o w' :
  full_reads -> CreateOperatorTx i e w = (Ok o, w') ->
  (db w', tx_now w') = (db w, tx_now w) /\ exists row, account i row /\
    work w' = set_operators (operators (accounts_of (work w)) ++ [row]) (work w).
Proof.
  intros Hfull. unfold CreateOperatorTx. destruct (_ || _); [done|]. intros (email & w1 & He & Hr)%bind_Ok.
  unfold lift in He. injection He as He <-. destruct (_ || _) in Hr; [done|].
  apply bind_Ok in Hr as (salt & w2 & Hs & Hr). unfold random in Hs. injection Hs as <- <-.
  apply bind_Ok in Hr as (hash & w3 & Hh & Hr). unfold lift in Hh. injection Hh as Hh <-.
  apply bind_Ok in Hr as (row & w4 & Hrow & Hr). injection Hr as <- <-.
  apply map_err_Ok, run_Tx_Ok in Hrow as (_ & d & Hi & ->). unfold insert_operator_sql in Hi.
  apply rbind_Ok in Hi as (d' & Hi & [= <- <-]). split; [done|].
  match type of Hi with insert_operator ?r _ = _ => exists r end. split.
  - unfold account. cbn. split_and!; try done. refine (new_password _ _ _ _ Hh). intros x Hx. by apply (Hfull _ _ _) in Hx.
  - cbn in Hi |- *. unfold insert_operator in Hi. destruct (negb _); [done|]. destruct (_ || _); [done|].
    destruct (negb _); [done|]. by injection Hi as <-.
Qed.

(** *** Nothing is committed before the end *)
Lemma local_for_each {A} (f : A -> M unit) (l : list A) : (forall a, local (f a)) -> local (for_each f l).
Proof. intros Hf. induction l; cbn [for_each]; walk_local; auto with db. Qed.

Lemma local_random n : local (random n).
Proof. by intros e w. Qed.

Lemma local_prepare c tenant : local (prepareChannelConfig s c tenant).
Proof. unfold prepareChannelConfig, seal. walk_local; try apply local_random; auto with db. Qed.

Lemma local_operator i : local (CreateOperatorTx i).
Proof. unfold CreateOperatorTx. walk_local; try apply local_random; auto with db. Qed.

Lemma local_availability tenant member l : local (insertAvailability tenant member l).
Proof. apply local_for_each. intros r. walk_local. Qed.

Lemma local_catalog tenant offered members : local (insertCatalog tenant offered members).
Proof.
  unfold insertCatalog. apply local_bind.
  - generalize (∅ : gmap string string). induction offered as [|v l IH]; intros ids; cbn [insert_services]; walk_local; auto.
  - intros ids. apply local_for_each. intros m. unfold insert_member.
    repeat (apply local_bind; [|intros ?]); try apply local_availability; try walk_local.
    apply local_for_each. intros slug. walk_local.
Qed.
#[local] Hint Resolve local_random local_prepare local_operator local_availability local_catalog : db.

Lemma atomic_Provision input : atomic (Provision s input).
Proof. unfold Provision. walk_atomic. Qed.

(** ** A provisioned tenant *)
(** What [Provision] of an input makes of the tables. *)
Record provisioned (input : ProvisionInput) (t : Tenant) (d d' : DB) : Prop := {
  pr_fresh : (t_ID t ∉ tenants d) /\ forall o, o ∈ tenant_rows (accounts_of d) -> tr_slug o <> t_Slug t;
  pr_tables : exists row owner channels,
    grows (t_ID t)
      (set_operators (operators (accounts_of d) ++ [owner])
        (set_channels (tenant_channels (accounts_of d) ++ [channels]) (add_tenant row d))) d' /\
    (tr_id row = t_ID t /\ tr_slug row = TrimSpace (pi_Slug input) /\ tr_name row = TrimSpace (pi_Name input) /\
     tr_timezone row = pi_Timezone input /\ tr_currency row = char3 (pi_Currency input)) /\
    account (owner_of (t_ID t) (ow_Email (pi_Owner input)) (ow_DisplayName (pi_Owner input))
               (ow_Password (pi_Owner input))) owner /\
    (ch_tenant channels = t_ID t /\ CanonicalWidgetOrigin (WidgetOrigin (pi_Channels input)) = Ok (ch_origin channels) /\
     ch_enabled channels = TelegramEnabled (pi_Channels input) /\
     exists digest, ch_digest channels = nullableDigest digest /\
       seals (t_ID t) (pi_Channels input) (ch_ciphertext channels, ch_nonce channels, digest));
  pr_services : forall v, v ∈ pi_Services input -> exists id, stored_service (t_ID t) id v ∈ services d';
  pr_staff : forall m, m ∈ pi_Staff input -> stored_member (t_ID t) m d'
}.

Lemma known_services i :
  validateProvision i = None ->
  forall m, m ∈ pi_Staff i -> forall slug, slug ∈ mi_ServiceSlugs m -> slug ∈ map vi_Slug (pi_Services i).
Proof.
  unfold validateProvision. destruct (_ && _) eqn:Hv; [|done]. intros _ m Hm slug Hs.
  repeat (apply andb_true_iff in Hv as [Hv ?]).
  match goal with H : forallb (valid_member _) _ = true |- _ => rewrite forallb_forall in H; rename H into Hall end.
  apply list_elem_of_In, Hall in Hm. unfold valid_member in Hm. repeat (apply andb_true_iff in Hm as [Hm ?]).
  match goal with H : forallb (fun s => string_in s _) _ = true |- _ => rewrite forallb_forall in H; rename H into Hin end.
  apply list_elem_of_In, Hin in Hs. unfold string_in in Hs. apply existsb_exists in Hs as (x & Hx & ->%String.eqb_eq).
  by apply list_elem_of_In.
Qed.

Definition padded (row : TenantRow) : TenantRow :=
  mkTenantRow (tr_id row) (tr_slug row) (tr_name row) (tr_timezone row) (char3 (tr_currency row)) (tr_created row)
    (tr_updated row).

Lemma insert_tenant_Ok row d d' :
  insert_tenant row d = Ok d' -> d' = add_tenant (padded row) d /\ (tr_id row ∉ tenants d) /\
    forall o, o ∈ tenant_rows (accounts_of d) -> tr_slug o <> tr_slug row.
Proof.
  unfold insert_tenant. destruct (_ <? _); [done|]. destruct (negb _); [done|].
  destruct (has_tenant _ _ || _) eqn:Hf; [done|]. intros [= <-]. apply orb_false_iff in Hf as [Hf1 Hf2].
  split_and!; [done| |].
  - intros Hin. assert (Hx : has_tenant (tr_id row) d = true); [|congruence].
    apply existsb_exists. exists (tr_id row). split; [by apply list_elem_of_In|apply String.eqb_refl].
  - intros o Ho Hs. apply not_true_iff_false in Hf2. apply Hf2, existsb_exists. exists o.
    split; [by apply list_elem_of_In|by apply String.eqb_eq].
Qed.

Lemma insert_channels_Ok row d d' :
  insert_channels row d = Ok d' -> d' = set_channels (tenant_channels (accounts_of d) ++ [row]) d.
Proof.
  unfold insert_channels. destruct (negb _); [done|]. destruct (existsb _ _); [done|].
  destruct (negb _); [done|]. by intros [= <-].
Qed.

Lemma Provision_Ok input e w t w' :
  full_reads -> Provision s input e w = (Ok t, w') -> provisioned input t (db w) (db w').
Proof.
  intros Hfull. unfold Provision. destruct (negb _); [done|].
  destruct (CanonicalWidgetOrigin _) as [origin|] eqn:Ho; [|done]. set (i := set_slug_and_origin input origin).
  destruct (validateProvision i) eqn:Hv; [done|]. intros (id & w1 & Hid & Hr)%bind_Ok. injection Hid as <- <-.
  set (id := uuid e (tick w) 0) in *.
  apply bind_Ok in Hr as (p & w2 & Hp & Hr). apply prepared in Hp as [Hw2 Hseal]; [|done].
  destruct p as [[ciphertext nonce] digest]. apply with_tx_Ok in Hr as (w3 & Hr & ->).
  injection Hw2 as Hdb2 _ _ _. cbn in Hdb2. rewrite Hdb2 in Hr.
  apply bind_Ok in Hr as (at_ & w4 & H1 & Hr). apply map_err_Ok, run_Tx_Ok in H1 as (_ & d1 & H1 & ->).
  apply rbind_Ok in H1 as (d1' & (-> & Hfresh & Hslug)%insert_tenant_Ok & [= _ <-]).
  apply bind_Ok in Hr as (u & w5 & H2 & Hr). apply wrap_Ok, run_Tx_Ok in H2 as (_ & d2 & H2 & ->).
  apply rbind_Ok in H2 as (d2' & ->%insert_channels_Ok & [= _ <-]).
  apply bind_Ok in Hr as (o & w6 & H3 & Hr). apply wrap_Ok, CreateOperatorTx_Ok in H3 as (_ & owner & Hacc & Hw6); [|done].
  apply bind_Ok in Hr as (u' & w7 & H4 & Hr).
  apply insertCatalog_adds in H4 as (_ & _ & Hg & Hsv & Hst); [|exact (known_services i Hv)|done].
  apply bind_Ok in Hr as (u'' & w8 & H5 & Hr). apply wrap_Ok, commit_Ok in H5 as [_ ->]. injection Hr as <- <-. cbn.
  rewrite Hw6 in Hg. split; [done| |done|done].
  match type of Hfresh with tr_id ?r ∉ _ => exists (padded r), owner end.
  match type of Hg with context [tenant_channels _ ++ [?c]] => exists c end.
  split; [exact Hg|]. split_and!; try done. by exists digest.
Qed.

(** C35. Provisioning is all or nothing.  When it succeeds the new tenant, whose
    identifier and slug no tenant had, has its row, an active owner to whom the
    input's password opens the account, its channel settings with the bot's token
    sealed for it, every service of the input, and every member of staff with the
    hours and the services that the input gives them, those services the tenant's
    own; all other rows of all tenants are as they were.  When it fails every table
    is as it was, unless the answer to the commit was lost. *)
Theorem provision_complete (input : ProvisionInput) (e : env) (w : world) (Hfull : full_reads) :
  match Provision s input e w with
  | (Ok t, w') => provisioned input t (db w) (db w')
  | (Err err, w') => db w' = db w \/ (pg_code err = None /\ lost_commit e)
  end.
Proof.
  destruct (Provision s input e w) as [[t|err] w'] eqn:Hr; [by eapply Provision_Ok|by eapply atomic_Provision].
Qed.

(** ** A bot's token *)
Lemma is_channels_iff tenant c : is_channels tenant c = true <-> ch_tenant c = tenant.
Proof. apply String.eqb_eq. Qed.

Lemma find_other tenant row l t :
  ch_tenant row = tenant -> t <> tenant ->
  List.find (is_channels t) (update_rows (is_channels tenant) (fun _ => row) l) = List.find (is_channels t) l.
Proof.
  intros Hrow Ht. induction l as [|c l IH]; [done|]. cbn [update_rows map List.find].
  destruct (is_channels tenant c) eqn:Hc; [|by destruct (is_channels t c)]. apply is_channels_iff in Hc.
  assert (H1 : is_channels t row = false) by (apply not_true_iff_false; rewrite is_channels_iff; congruence).
  assert (H2 : is_channels t c = false) by (apply not_true_iff_false; rewrite is_channels_iff; congruence).
  by rewrite H1, H2.
Qed.

Lemma find_updated tenant row l r :
  ch_tenant row = tenant -> r ∈ l -> is_channels tenant r = true ->
  List.find (is_channels tenant) (update_rows (is_channels tenant) (fun _ => row) l) = Some row.
Proof.
  intros Hrow Hr Hp. assert (H1 : is_channels tenant row = true) by (by apply is_channels_iff).
  induction l as [|c l IH]; [by apply elem_of_nil in Hr|]. cbn [update_rows map List.find].
  destruct (is_channels tenant c) eqn:Hc; [by rewrite H1|]. rewrite Hc. apply IH.
  apply elem_of_cons in Hr as [->|Hr]; [congruence|done].
Qed.

Lemma update_channels_Ok tenant origin ct n dg enabled now k e d m d' :
  update_channels_sql tenant origin ct n dg enabled now k e d = Ok (m, d') -> m = 1%nat ->
  let row := mkChannelsRow tenant origin ct n dg enabled now in
  channels_check row = true /\ find_channels tenant d' = Some row /\
  forall t, t <> tenant -> find_channels t d' = find_channels t d.
Proof.
  unfold update_channels_sql. intros Hr Hm. apply rbind_Ok in Hr as ([l touched] & Hu & [= <- <-]).
  apply sql_update_Ok in Hu as (-> & -> & Hc). cbn [snd] in Hm. rewrite length_map in Hm.
  set (row := mkChannelsRow _ _ _ _ _ _ _) in *. cbv zeta. unfold find_channels. cbn [fst].
  change (tenant_channels (accounts_of (set_channels ?x d))) with x.
  destruct (List.filter (is_channels tenant) _) as [|r l] eqn:Hf in Hc, Hm; [done|]. cbn in Hc.
  apply andb_true_iff in Hc as [Hc _]. assert (Hin : r ∈ tenant_channels (accounts_of d) /\ is_channels tenant r = true).
  { apply elem_of_filter_bool. rewrite Hf. by left. }
  split; [done|]. split; [by eapply find_updated; [|apply Hin..]|]. intros t Ht. by apply find_other.
Qed.

(** C36. A bot's token is kept for its tenant.  After an owner's update of the channel
    settings with Telegram enabled, the tenant's credentials are exactly the token and
    the digest of the webhook secret of the update, for as long as the row stands; with
    Telegram disabled there are none.  No other tenant's settings change, and the
    ciphertext put into another tenant's row opens for that tenant only if the
    associated data of the two tenants have the same tag. *)
Theorem channel_secret_roundtrip (tenant : string) (input : ChannelConfig) (e : env) (w w' : world)
    (Hfull : full_reads) (Hupdate : UpdateChannels s tenant input e w = (Ok tt, w')) :
  (forall e' w2, find_channels tenant (db w2) = find_channels tenant (db w') -> fault e' (tick w2) = None ->
    (LoadTelegramCredentials s tenant e' w2).1 =
      if TelegramEnabled input
      then Ok (mkCredentials (TelegramBotToken input) (webhookDigest (TelegramWebhookSecret input)))
      else Err ErrChannelDisabled) /\
  (forall t, t <> tenant -> find_channels t (db w') = find_channels t (db w)) /\
  (forall t c token, find_channels tenant (db w') = Some c ->
    open (tn_cipher s) (ch_ciphertext c) (ch_nonce c) (channelAAD t) = Ok token ->
    exists key nonce, tn_cipher s = Some key /\ ch_nonce c = Some nonce /\ token = TelegramBotToken input /\
      let keys := key_schedule (octets key) in
      let secret := crypt keys nonce token in
      tag_of keys nonce secret (channelAAD tenant) = tag_of keys nonce secret (channelAAD t)).
Proof.
  unfold UpdateChannels in Hupdate. destruct (_ || _) eqn:Hp; [done|].
  destruct (CanonicalWidgetOrigin _) as [origin|]; [|done]. apply bind_Ok in Hupdate as (p & w1 & H1 & Hr).
  apply prepared in H1 as [Hw1 Hs]; [|done]. destruct p as [[ct n] dg]. injection Hw1 as Hdb _ _ _.
  apply bind_Ok in Hr as (m & w2 & H2 & Hr). destruct (bool_decide (m = 1%nat)) eqn:Hm; [|done].
  apply bool_decide_eq_true_1 in Hm. injection Hr as <-. apply wrap_Ok, run_Pool_Ok in H2 as (d & Hu & ->).
  apply update_channels_Ok in Hu as (Hc & Hfind & Hother); [|done]. cbn [db].
  split; [|split; [by rewrite Hdb in Hother|]].
  - intros e' w2 Hsame Hfault. rewrite Hfind in Hsame. unfold LoadTelegramCredentials. rewrite Hp.
    unfold bind, wrap, map_err, query, run. rewrite Hfault. cbn [rbind]. rewrite Hsame. cbn [ch_enabled negb].
    unfold seals in Hs. destruct (TelegramEnabled input); [|done]. cbn [negb].
    destruct Hs as (key & nonce & -> & Hn & [= -> -> ->]). cbn [ch_ciphertext ch_nonce ch_digest].
    rewrite open_sealed by done. unfold channels_check in Hc. cbn in Hc.
    destruct (nullableDigest _) as [dg|] eqn:Hd in Hc; [|by rewrite andb_false_r in Hc]. rewrite Hd.
    apply andb_true_iff in Hc as [[[_ Hl]%andb_true_iff _]%andb_true_iff _]. cbn in Hl |- *. rewrite Hl. cbn.
    unfold nullableDigest in Hd. destruct (bool_decide _) in Hd; [discriminate Hd|]. injection Hd as <-. reflexivity.
  - intros t c token Hc' Hopen. rewrite Hfind in Hc'. injection Hc' as <-. cbn [ch_ciphertext ch_nonce] in *.
    unfold seals in Hs. destruct (TelegramEnabled input); [|].
    + destruct Hs as (key & nonce & Hk & Hn & [= -> -> _]). rewrite Hk in Hopen. exists key, nonce.
      rewrite open_sealed_with in Hopen by done. cbv zeta in Hopen |- *. destruct (bool_decide _) eqn:Ht in Hopen; [|done].
      injection Hopen as <-. apply bool_decide_eq_true_1 in Ht. done.
    + injection Hs as -> -> _. unfold open in Hopen. destruct (tn_cipher s); [|done]. done.
Qed.

(** ** Adoption *)
Lemma local_find {A} q (f : Time -> nat -> env -> DB -> result A) msg : local (wrap msg (query q f)).
Proof. walk_local. Qed.

Lemma atomic_Bootstrap input : atomic (BootstrapLegacyTenant s input).
Proof.
  unfold BootstrapLegacyTenant. destruct (_ || _); [by apply atomic_local|].
  destruct (CanonicalWidgetOrigin _); [|by apply atomic_local]. destruct (NormalizeEmail _); [|by apply atomic_local].
  walk_atomic.
Qed.

(** The settings of a tenant replaced by [row]. *)
Definition with_channels (tenant : string) (row : ChannelsRow) (d : DB) : DB :=
  set_channels (update_rows (is_channels tenant) (fun _ => row) (tenant_channels (accounts_of d))) d.

(** A tenant adopted: its one owner and its settings. *)
Definition adopted (input : LegacyBootstrapInput) (d d' : DB) : Prop :=
  exists origin row ct nonce digest at_,
    legacy_target (lb_TenantID input) (TrimSpace (lb_TenantSlug input)) d <> None /\
    operators_of (lb_TenantID input) d = [] /\
    CanonicalWidgetOrigin (lb_WidgetOrigin input) = Ok origin /\
    (exists email, NormalizeEmail (ow_Email (lb_Owner input)) = Ok email /\
      account (owner_of (lb_TenantID input) email (TrimSpace (ow_DisplayName (lb_Owner input)))
                 (ow_Password (lb_Owner input))) row) /\
    seals (lb_TenantID input) (lb_Telegram input) (ct, nonce, digest) /\
    d' = with_channels (lb_TenantID input)
           (mkChannelsRow (lb_TenantID input) origin ct nonce (nullableDigest digest)
              (TelegramEnabled (lb_Telegram input)) at_)
           (set_operators (operators (accounts_of d) ++ [row]) d).

Lemma update_channels_tables tenant origin ct n dg enabled now k e d m d' :
  update_channels_sql tenant origin ct n dg enabled now k e d = Ok (m, d') ->
  d' = with_channels tenant (mkChannelsRow tenant origin ct n dg enabled now) d.
Proof.
  unfold update_channels_sql. intros ([l touched] & Hu & [= _ <-])%rbind_Ok. by apply sql_update_Ok in Hu as (-> & _ & _).
Qed.

(** Whoever the input names: the answer of a bootstrap that does not fail. *)
Lemma Bootstrap_Ok input e w applied w' :
  full_reads -> BootstrapLegacyTenant s input e w = (Ok applied, w') ->
  if applied then adopted input (db w) (db w')
  else db w' = db w /\ exists o email, operators_of (lb_TenantID input) (db w) = [o] /\
         NormalizeEmail (ow_Email (lb_Owner input)) = Ok email /\
         same_owner email (TrimSpace (ow_DisplayName (lb_Owner input))) (ow_Password (lb_Owner input)) o = true.
Proof.
  intros Hfull. unfold BootstrapLegacyTenant. destruct (_ || _); [done|].
  destruct (CanonicalWidgetOrigin _) as [origin|] eqn:Ho; [|done]. destruct (NormalizeEmail _) as [email|] eqn:He; [|done].
  destruct (_ || _); [done|]. intros (p & w1 & Hp & Hr)%bind_Ok. apply map_err_Ok, prepared in Hp as [Hw1 Hs]; [|done].
  destruct p as [[ct nonce] digest]. injection Hw1 as Hdb _ _ _. apply with_tx_Ok in Hr as (w2 & Hr & ->).
  rewrite Hdb in Hr. apply bind_Ok in Hr as (found & w3 & H1 & Hr). apply wrap_Ok, query_Tx_Ok in H1 as (_ & [= Hf] & ->).
  cbn in Hf. destruct found as [channels|]; [|done].
  apply bind_Ok in Hr as (count & w4 & H2 & Hr). apply wrap_Ok, query_Tx_Ok in H2 as (_ & [= Hcount] & ->). cbn in Hcount.
  destruct (bool_decide (count = 0%nat) && _) eqn:Hnew.
  - apply andb_true_iff in Hnew as [Hzero%bool_decide_eq_true_1 _].
    apply bind_Ok in Hr as (o & w5 & H3 & Hr). apply wrap_Ok, CreateOperatorTx_Ok in H3 as (Hsame & row & Hacc & Hw5); [|done].
    injection Hsame as _ Hnow.
    apply bind_Ok in Hr as (affected & w6 & H4 & Hr). apply wrap_Ok, run_Tx_Ok in H4 as (_ & d6 & H4 & ->).
    destruct (negb _); [done|]. apply bind_Ok in Hr as (u & w7 & H5 & Hr). apply wrap_Ok, commit_Ok in H5 as [_ ->].
    injection Hr as <- <-. apply update_channels_tables in H4 as ->. rewrite Hw5. cbn [db work].
    exists origin, row, ct, nonce, digest, (tx_now w5). split_and!; try done.
    + by rewrite Hf.
    + apply nil_length_inv. congruence.
    + by exists email.
  - destruct (bool_decide (count = 1%nat) && _) eqn:Hold; [|done].
    apply andb_true_iff in Hold as [Hone%bool_decide_eq_true_1 _].
    apply bind_Ok in Hr as (o & w5 & H3 & Hr). apply wrap_Ok, bind_Ok in H3 as (r & w6 & H3 & H4).
    apply query_Tx_Ok in H3 as (_ & [= Hr0] & ->). apply one_row_Ok in H4 as [-> ->]. cbn in Hr0.
    destruct (same_owner _ _ _ _) eqn:Hso; [|done]. apply bind_Ok in Hr as (u & w7 & H5 & Hr).
    apply wrap_Ok, commit_Ok in H5 as [_ ->]. injection Hr as <- <-. cbn [db work]. split; [done|].
    exists o, email. split; [|done]. destruct (operators_of _ _) as [|o' [|? ?]]; cbn in *; [done| |congruence]. congruence.
Qed.

(** Adoption happens once.  A bootstrap that applies found the tenant without any
    operator and leaves it with one, the active owner whose account the input's
    password opens, and with the input's channel settings; one that answers success
    without applying found exactly that owner and changes nothing; and one that fails
    changes nothing, unless the answer to its commit was lost. *)
Theorem bootstrap_adopts_once (input : LegacyBootstrapInput) (e : env) (w : world) (Hfull : full_reads) :
  match BootstrapLegacyTenant s input e w with
  | (Ok true, w') => adopted input (db w) (db w')
  | (Ok false, w') => db w' = db w /\ exists o email, operators_of (lb_TenantID input) (db w) = [o] /\
      NormalizeEmail (ow_Email (lb_Owner input)) = Ok email /\
      same_owner email (TrimSpace (ow_DisplayName (lb_Owner input))) (ow_Password (lb_Owner input)) o = true
  | (Err err, w') => db w' = db w \/ (pg_code err = None /\ lost_commit e)
  end.
Proof.
  destruct (BootstrapLegacyTenant s input e w) as [[[]|err] w'] eqn:Hr.
  - by apply Bootstrap_Ok in Hr.
  - by apply Bootstrap_Ok in Hr.
  - by eapply atomic_Bootstrap.
Qed.

(** ** The public boundary *)
Lemma slugFromHost_Some h suffix slug :
  slugFromHost h suffix = Some slug ->
  slug_ok slug = true /\ has_char 46 (string_bytes slug) = false /\
  let name := lower_bytes (string_bytes (TrimSpace h)) in
  let base := lower_bytes (trim_char 46 (string_bytes (TrimSpace suffix))) in
  base <> [] /\ default name (SplitHostPort name) = string_bytes slug ++ chr 46 :: base.
Proof.
  unfold slugFromHost. cbv zeta. set (base := lower_bytes (trim_char _ _)). set (name := lower_bytes (string_bytes _)).
  set (l := default name (SplitHostPort name)). destruct (bool_decide (base = [])) eqn:Hb; [done|].
  apply bool_decide_eq_false_1 in Hb. set (n := (length l - _)%nat). destruct (negb (bool_decide _)) eqn:Hd; [done|].
  apply negb_false_iff, bool_decide_eq_true_1 in Hd. destruct (_ || _) eqn:Hs; [done|]. intros [= <-].
  apply orb_false_iff in Hs as [H1 H2%negb_false_iff]. rewrite string_of_bytes. split_and!; try done.
  by rewrite <- Hd, take_drop.
Qed.

(** C12. A public request reaches a tenant's handler only through its host: the first label
    before the platform's suffix is the slug of that tenant's row, and the handler is
    given that tenant.  A browser's request, which names an origin, gets there only if
    that origin and the one in the tenant's own settings have the same canonical form,
    and it is the latter that the answer allows. *)
Theorem host_names_the_tenant {A} (suffix : string) (next : Tenant -> PublicRequest -> M A) (r : PublicRequest)
    (e : env) (w w' : world) (allowed : option string) (a : A)
    (Hserved : PublicTenant (Some (TenantForHost s)) suffix next r e w = (Ok (Served allowed a), w')) :
  exists row slug base w1,
    next (tenant_of (db w) row) r e w1 = (Ok a, w') /\ db w1 = db w /\
    row ∈ tenant_rows (accounts_of (db w)) /\ tr_slug row = slug /\ slug_ok slug = true /\
    (let name := lower_bytes (string_bytes (TrimSpace (rq_Host r))) in
     default name (SplitHostPort name) = string_bytes slug ++ chr 46 :: base /\
     base = lower_bytes (trim_char 46 (string_bytes (TrimSpace suffix)))) /\
    match allowed with
    | None => TrimSpace (rq_Origin r) = ""
    | Some origin => CanonicalWidgetOrigin (t_WidgetOrigin (tenant_of (db w) row)) = Ok origin /\
        exists requested, CanonicalWidgetOrigin (TrimSpace (rq_Origin r)) = Ok requested /\
          same_origin requested origin = true
    end.
Proof.
  unfold PublicTenant in Hserved. apply bind_Ok in Hserved as (found & w1 & Hf & Hr). unfold attempt in Hf.
  destruct (TenantForHost s (rq_Host r) suffix e w) as [res w2] eqn:Ht. injection Hf as <- <-.
  destruct res as [t|err]; [|by destruct (errors_is err ErrNotFound)].
  unfold TenantForHost in Ht. destruct (slugFromHost (rq_Host r) suffix) as [slug|] eqn:Hs; [|done].
  apply slugFromHost_Some in Hs as (Hok & _ & Hbase & Hname). unfold TenantBySlug, find_tenant in Ht.
  destruct (_ || _) in Ht; [done|]. apply bind_Ok in Ht as (o & w3 & H1 & Ht). apply wrap_Ok, query_Pool_Ok in H1 as [[= Ho] ->].
  destruct (List.find _ _) as [row|] eqn:Hrow in Ho; subst o; [|done]. injection Ht as <- <-.
  apply find_some in Hrow as [Hin%list_elem_of_In Hslug%String.eqb_eq].
  exists row, slug, (lower_bytes (trim_char 46 (string_bytes (TrimSpace suffix)))), (mkWorld (db w) (work w) (aborted w) (tx_now w) (S (tick w))).
  assert (Hserve : forall x, (let* y := next (tenant_of (db w) row) r in ret (Served x y)) e
      (mkWorld (db w) (work w) (aborted w) (tx_now w) (S (tick w))) = (Ok (Served allowed a), w') ->
      x = allowed /\ next (tenant_of (db w) row) r e
        (mkWorld (db w) (work w) (aborted w) (tx_now w) (S (tick w))) = (Ok a, w')).
  { intros x (y & w4 & Hn & Hy)%bind_Ok. injection Hy as <- <- <-. done. }
  destruct (bool_decide (TrimSpace (rq_Origin r) = "")) eqn:Horigin.
  { apply Hserve in Hr as [<- Hn]. apply bool_decide_eq_true_1 in Horigin. by split_and!. }
  destruct (CanonicalWidgetOrigin (TrimSpace (rq_Origin r))) as [requested|] eqn:Hq; [|done].
  destruct (CanonicalWidgetOrigin (t_WidgetOrigin _)) as [own|] eqn:Hown; [|done].
  destruct (same_origin requested own) eqn:Hsame; cbn [negb] in Hr; [|done].
  destruct (String.eqb _ _); [done|]. apply Hserve in Hr as [<- Hn]. split_and!; try done. by exists requested.
Qed.

(** ** Canonical origins *)
Definition http_scheme (scheme : list ascii) : Prop := scheme = string_bytes "http" \/ scheme = string_bytes "https".

(** The port that goes without saying. *)
Definition default_port (scheme port : list ascii) : bool :=
  (is_http scheme && bool_decide (port = string_bytes "80")) || (is_https scheme && bool_decide (port = string_bytes "443")).

Definition written_port (scheme port : list ascii) : Prop :=
  port = [] \/ exists n, 0 < n <= 65535 /\ port = FormatUint n /\ default_port scheme port = false.

Lemma written_digits scheme port : written_port scheme port -> digits port = true.
Proof. intros [->|(n & Hn & -> & _)]; [done|]. apply FormatUint_digits. lia. Qed.

Lemma canonical_plain scheme h port :
  http_scheme scheme -> plain_name h -> lower_bytes h = h -> written_port scheme port ->
  let o := of_bytes (scheme ++ string_bytes "://" ++ h ++ port_suffix port) in CanonicalWidgetOrigin o = Ok o.
Proof.
  intros Hs Hh Hlow Hp. cbv zeta. pose proof (written_digits _ _ Hp) as Hd.
  destruct (plain_host h port Hh Hd) as (Hl & H91 & Hsplit). unfold CanonicalWidgetOrigin.
  rewrite TrimSpace_solid by (rewrite string_of_bytes; by apply plain_solid). rewrite parse_plain by done.
  cbn [u_Scheme u_Host u_Opaque u_User u_Path u_RawQuery u_ForceQuery u_Fragment]. rewrite Hsplit. cbv beta iota zeta.
  assert (Hls : lower_bytes scheme = scheme) by (by destruct Hs as [-> | ->]). rewrite Hls, Hlow.
  assert (Hhttp : is_http scheme || is_https scheme = true) by (by destruct Hs as [-> | ->]). rewrite Hhttp.
  destruct Hh as (Hne & Hhc & H58 & H91h). rewrite (bool_decide_false (h = [])) by done.
  rewrite !(bool_decide_true ([] = [])) by done. cbn [negb orb].
  assert (Hport : match port with [] => Ok [] | _ :: _ =>
      match ParseUint16 port with None => Err ErrInvalidInput
      | Some n => if n =? 0 then Err ErrInvalidInput else Ok (FormatUint n) end end = Ok port).
  { destruct Hp as [->|(n & Hn & -> & _)]; [done|]. rewrite ParseUint16_FormatUint by done.
    destruct (Z.eqb_spec n 0); [lia|]. by destruct (FormatUint n). }
  rewrite Hport. cbn [rbind]. fold (default_port scheme port).
  assert (Hdef : (if default_port scheme port then [] else port) = port).
  { destruct Hp as [->|(n & _ & _ & ->)]; [by destruct (default_port _ _)|done]. }
  rewrite Hdef. do 2 f_equal. unfold origin_string. f_equal. do 2 f_equal.
  assert (Hc : canonicalOriginHost h port = h ++ port_suffix port).
  { destruct port; cbn; [by rewrite H58, app_nil_r|]. unfold JoinHostPort. by rewrite H58. }
  rewrite Hc. apply escape_all. exact Hl.
Qed.

Lemma canonical_host h port :
  h <> [] -> has_char 91 (escape_host (canonicalOriginHost h port)) = false ->
  has_char 37 (escape_host (canonicalOriginHost h port)) = false ->
  plain_name h /\ escape_host (canonicalOriginHost h port) = h ++ port_suffix port.
Proof.
  intros Hne H91 H37. apply escape_plain in H37 as [Hl He]. rewrite He in *.
  assert (Hc : has_char 58 h = false /\ canonicalOriginHost h port = h ++ port_suffix port).
  { unfold canonicalOriginHost, JoinHostPort in *. destruct port as [|c port], (has_char 58 h); cbn in *; try done.
    by rewrite app_nil_r. }
  destruct Hc as [H58 Hc]. rewrite Hc in *. rewrite forallb_app in Hl. rewrite has_char_app in H91.
  apply andb_true_iff in Hl as [Hl _]. apply orb_false_iff in H91 as [H91 _]. by split.
Qed.

(** Two spellings of an origin meet in one form.  The canonical form of an origin
    without escapes or brackets is a scheme, a host in lower case, and a port unless it
    is the scheme's own, in decimal without leading zeros; and it is its own canonical
    form, so that comparing canonical forms, as the public boundary does, compares the
    origins themselves. *)
Theorem widget_origin_canonical (value o : string) (Hlower : forall x, lower (lower x) = lower x)
    (Hok : CanonicalWidgetOrigin value = Ok o)
    (Hplain : has_char 37 (string_bytes o) = false /\ has_char 91 (string_bytes o) = false) :
  CanonicalWidgetOrigin o = Ok o /\
  exists scheme h port, o = of_bytes (scheme ++ string_bytes "://" ++ h ++ port_suffix port) /\
    http_scheme scheme /\ plain_name h /\ lower_bytes h = h /\ written_port scheme port.
Proof.
  enough (H : exists scheme h port, o = of_bytes (scheme ++ string_bytes "://" ++ h ++ port_suffix port) /\
    http_scheme scheme /\ plain_name h /\ lower_bytes h = h /\ written_port scheme port).
  { split; [|done]. destruct H as (scheme & h & port & -> & Hs & Hh & Hl & Hp). by apply canonical_plain. }
  unfold CanonicalWidgetOrigin in Hok. destruct (Parse _) as [u|]; [|done].
  set (scheme := lower_bytes (u_Scheme u)) in *. destruct (splitHostPort (u_Host u)) as [name port0].
  destruct (_ || _) eqn:Hbad in Hok; [done|]. repeat (apply orb_false_iff in Hbad as [Hbad ?]).
  apply rbind_Ok in Hok as (port & Hport & Hok). set (h := lower_bytes name) in *. set (port' := if default_port scheme port then [] else port).
  change (Ok (origin_string scheme (canonicalOriginHost h port')) = Ok o) in Hok.
  assert (Ho : origin_string scheme (canonicalOriginHost h port') = o) by congruence. clear Hok.
  assert (Hp : written_port scheme port').
  { unfold port'. destruct (default_port scheme port) eqn:Hd; [by left|]. destruct port0; [injection Hport as <-; by left|].
    destruct (ParseUint16 _) as [n|] eqn:Hn in Hport; [|done]. destruct (Z.eqb_spec n 0) in Hport; [done|]. injection Hport as <-.
    right. exists n. split; [|done]. unfold ParseUint16 in Hn. destruct (number 0 _) as [n'|] eqn:Hn' in Hn; [|done].
    apply number_nonneg in Hn'; [|lia]. destruct (Z.leb_spec n' 65535); [|done]. injection Hn as ->. lia. }
  assert (Hs : http_scheme scheme).
  { match goal with H : negb (is_http _ || is_https _) = false |- _ =>
      apply negb_false_iff, orb_true_iff in H as [H|H]; apply bool_decide_eq_true_1 in H; [left|right]; exact H end. }
  assert (Hne : h <> []).
  { match goal with H : bool_decide (h = []) = false |- _ => by apply bool_decide_eq_false_1 in H end. }
  rewrite <- Ho in Hplain. unfold origin_string in Hplain. rewrite string_of_bytes, !has_char_app in Hplain.
  destruct Hplain as [[_ [_ H37]%orb_false_iff]%orb_false_iff [_ [_ H91]%orb_false_iff]%orb_false_iff].
  destruct (canonical_host h port' Hne H91 H37) as [Hh Hc]. exists scheme, h, port'. unfold origin_string in Ho. rewrite Hc in Ho.
  split_and!; try done. unfold h, lower_bytes. by rewrite of_string_bytes, Hlower.
Qed.
End settings.

(** ** A tenant at work *)
Module TenantDemo.
#[local] Existing Instances OperatorDemo.demo_letters OperatorDemo.demo_entropy.

#[export] Instance demo_host : Host := {|
  LoadLocation name := if String.eqb name "UTC" then Ok UTC else Err (ErrText "unknown time zone");
  Local := UTC; collate := String.compare; sha256_hex := Sha256.sha256_hex
|}.
#[export] Instance demo_hosts : UrlHosts := {| ip_literal _ := None; several_colons := true |}.

Lemma full : full_reads.
Proof.
  intros n size bytes Hs [= <-]. unfold len. rewrite <- (Z2Nat.id size) at 2 by lia. f_equal.
  clear Hs. induction (Z.to_nat size); cbn; [done|]. by f_equal.
Qed.

Lemma forallb_of_map {A B} (f : A -> B) p l : forallb p (map f l) = forallb (fun x => p (f x)) l.
Proof. induction l as [|x l IH]; cbn; [done|]. by rewrite IH. Qed.

Lemma lower_twice x : lower (lower x) = lower x.
Proof.
  unfold lower. destruct (is_ascii x) eqn:Hx; [|change (unicode_lower x) with x; by rewrite Hx].
  assert (H : is_ascii (ascii_lower x) = true /\ ascii_lower (ascii_lower x) = ascii_lower x); [|by destruct H as [-> ->]].
  unfold is_ascii, ascii_lower in *. rewrite !string_of_bytes, map_map, forallb_of_map.
  pose proof (by_codes (fun c => implb (code c <? 128) ((code (shift_case 65 97 c) <? 128) &&
    (code (shift_case 65 97 (shift_case 65 97 c)) =? code (shift_case 65 97 c)))) ltac:(vm_compute; reflexivity)) as H.
  rewrite forallb_forall in Hx. assert (Hc : forall c, c ∈ string_bytes x -> (code (shift_case 65 97 c) <? 128) = true /\
    code (shift_case 65 97 (shift_case 65 97 c)) = code (shift_case 65 97 c)).
  { intros c Hc. specialize (H c). cbv beta in H. rewrite (Hx c) in H by (by apply list_elem_of_In).
    apply andb_true_iff in H as [H1 H2%Z.eqb_eq]. done. }
  split.
  - apply forallb_forall. intros c Hin. by apply Hc, list_elem_of_In.
  - f_equal. apply map_ext_in. intros c Hin. apply list_elem_of_In in Hin.
    rewrite <- chr_code, <- (chr_code (shift_case _ _ (shift_case _ _ _))). f_equal. by apply Hc.
Qed.

Definition at_ (h : Z) : Time := mkTime (h * Hour) UTC.
Definition e : env := mkEnv (fun n => at_ (100 + Z.of_nat n)) (fun n _ => String.append "id" (pretty (Z.of_nat n)))
  (fun _ _ => false) (fun _ => None) (fun _ => false) (fun _ => None).
Definition store : Store := mkStore true (Some "0123456789abcdef0123456789abcdef").

Definition salon : TenantRow := mkTenantRow "t" "salon-nord" "Salon Nord" "UTC" "EUR" (at_ 0) (at_ 0).
Definition settings : ChannelsRow := mkChannelsRow "t" "https://salon.example" None None None false (at_ 0).

Definition w : world :=
  let d := mkDB ["t"] [] [] [] [] [] [] [] [] [] [] [] [] [] [] [] [] []
    (mkTurnTables [] [] [] [] [] (mkAccounts [salon] [] [] [settings] [])) in
  mkWorld d d false (at_ 0) 0.

Definition telegram : ChannelConfig := mkChannels "https://salon.example" true "bot-token" "a webhook secret".
Definition owner : OwnerInput := mkOwner "ann@example.com" "Ann" "correct horse battery".

Definition adoption : LegacyBootstrapInput := mkLegacy "t" "salon-nord" "https://salon.example" owner telegram.

Definition harbour : ProvisionInput :=
  mkProvision "harbour" "Harbour Barber" "UTC" "EUR" owner telegram
    [mkServiceInput "cut" "Cut" "" 30 0 0 2500 "EUR"]
    [mkStaffInput "bo" "Bo" "UTC" ["cut"] [mkRuleInput "working" 1 "9:00" "17:30"]].

Example harbour_valid : validateProvision harbour = None.
Proof. vm_compute. reflexivity. Qed.

Definition updated : world := (UpdateChannels store "t" telegram e w).2.

Lemma update : UpdateChannels store "t" telegram e w = (Ok tt, updated).
Proof. vm_compute. reflexivity. Qed.

Definition echo (t : Tenant) (_ : PublicRequest) : M string := ret (t_Name t).
Definition request : PublicRequest := mkPublic "Salon-Nord.kontor.example:8080" "https://SALON.example:443" "GET".
End TenantDemo.

#[local] Existing Instances OperatorDemo.demo_letters OperatorDemo.demo_entropy TenantDemo.demo_host TenantDemo.demo_hosts.

Lemma provision_complete_witness :
  validateProvision TenantDemo.harbour = None /\
  match Provision TenantDemo.store TenantDemo.harbour TenantDemo.e TenantDemo.w with
  | (Ok t, w') => provisioned TenantDemo.store TenantDemo.harbour t (db TenantDemo.w) (db w')
  | (Err err, w') => db w' = db TenantDemo.w \/ (pg_code err = None /\ lost_commit TenantDemo.e)
  end.
Proof.
  split; [exact TenantDemo.harbour_valid|].
  pose proof (provision_complete TenantDemo.store TenantDemo.harbour TenantDemo.e TenantDemo.w TenantDemo.full) as H.
  assumption.
Defined.

Lemma channel_secret_roundtrip_witness :
  (LoadTelegramCredentials TenantDemo.store "t" TenantDemo.e TenantDemo.updated).1
  = Ok (mkCredentials "bot-token" (webhookDigest "a webhook secret")).
Proof.
  exact (proj1 (channel_secret_roundtrip TenantDemo.store "t" TenantDemo.telegram TenantDemo.e TenantDemo.w
    TenantDemo.updated TenantDemo.full TenantDemo.update) TenantDemo.e TenantDemo.updated eq_refl eq_refl).
Defined.

Lemma bootstrap_adopts_once_witness :
  match BootstrapLegacyTenant TenantDemo.store TenantDemo.adoption TenantDemo.e TenantDemo.updated with
  | (Ok true, w') => adopted TenantDemo.store TenantDemo.adoption (db TenantDemo.updated) (db w')
  | (Ok false, w') => db w' = db TenantDemo.updated /\ exists o email,
      operators_of (lb_TenantID TenantDemo.adoption) (db TenantDemo.updated) = [o] /\
      NormalizeEmail (ow_Email (lb_Owner TenantDemo.adoption)) = Ok email /\
      same_owner email (JsonParse.TrimSpace (ow_DisplayName (lb_Owner TenantDemo.adoption)))
        (ow_Password (lb_Owner TenantDemo.adoption)) o = true
  | (Err err, w') => db w' = db TenantDemo.updated \/ (pg_code err = None /\ lost_commit TenantDemo.e)
  end.
Proof.
  pose proof (bootstrap_adopts_once TenantDemo.store TenantDemo.adoption TenantDemo.e TenantDemo.updated TenantDemo.full) as H.
  assumption.
Defined.

Lemma host_names_the_tenant_witness :
  exists row, row ∈ tenant_rows (accounts_of (db TenantDemo.w)) /\ tr_slug row = "salon-nord"%string.
Proof.
  destruct (host_names_the_tenant TenantDemo.store "kontor.example" TenantDemo.echo TenantDemo.request TenantDemo.e
    TenantDemo.w (PublicTenant (Some (TenantForHost TenantDemo.store)) "kontor.example" TenantDemo.echo TenantDemo.request
      TenantDemo.e TenantDemo.w).2 (Some "https://salon.example"%string) "Salon Nord" ltac:(vm_compute; reflexivity))
    as (row & slug & base & w1 & Hn & _ & Hin & Hslug & _).
  exists row. split; [exact Hin|]. cbn in Hin. apply list_elem_of_singleton in Hin. by rewrite Hin.
Defined.

Lemma widget_origin_canonical_witness :
  CanonicalWidgetOrigin "https://salon.example:8443" = Ok "https://salon.example:8443"%string.
Proof.
  apply (widget_origin_canonical "HTTPS://Salon.Example:08443/" "https://salon.example:8443" TenantDemo.lower_twice).
  - vm_compute. reflexivity.
  - vm_compute. split; reflexivity.
Defined.
