(* ===== verification/Seed.v ===== *)
(** * Demonstration data: [internal/demo/seed.go]

    The fixed tenant with its channel row, and its catalogue, each in one transaction of
    upserts that can be repeated. *)

From Stdlib Require Import ZArith Lia Ascii.
From stdpp Require Import base list strings.
From S2P Require Import Prelude GoTime Json Database Catalog Repository Identity Url Tenants.

#[local] Open Scope Z_scope.

Definition HaircutServiceID : string := "10000000-0000-4000-8000-000000000001".
Definition BeardServiceID : string := "10000000-0000-4000-8000-000000000002".
Definition ColourServiceID : string := "10000000-0000-4000-8000-000000000003".
Definition KidsServiceID : string := "10000000-0000-4000-8000-000000000004".

Definition AlexStaffID : string := "20000000-0000-4000-8000-000000000001".
Definition NadiaStaffID : string := "20000000-0000-4000-8000-000000000002".
Definition TomStaffID : string := "20000000-0000-4000-8000-000000000003".

Record DemoTenant := mkDemoTenant { dt_ID : string; dt_Slug : string; dt_Name : string; dt_Timezone : string; dt_Currency : string }.

Section seed.
Context `{letters : !Letters} `{entropy : !Entropy} `{host : !Host} `{hosts : !UrlHosts}.

(** ** The tenant *)
Definition set_tenant_rows (x : list TenantRow) (d : DB) : DB :=
  let a := accounts_of d in
  set_accounts (mkAccounts x (operators a) (operator_sessions a) (tenant_channels a) (telegram_updates a)) d.

(** [ON CONFLICT(id) DO UPDATE]: all but the identifier and the time of creation. *)
Definition upsert_tenant (now : Time) (t : DemoTenant) (d : DB) : result DB :=
  let row := mkTenantRow (dt_ID t) (dt_Slug t) (dt_Name t) (dt_Timezone t) (dt_Currency t) now now in
  if 3 <? pg_length (dt_Currency t) then Err StringTooLong
  else if negb (slug_ok (dt_Slug t) && between 1 200 (pg_length (dt_Name t)) && currency_check (dt_Currency t)) then Err CheckViolation
  else if negb (has_tenant (dt_ID t) d) then insert_tenant row d
  else if existsb (fun o => negb (String.eqb (tr_id o) (dt_ID t)) && String.eqb (tr_slug o) (dt_Slug t)) (tenant_rows (accounts_of d))
  then Err UniqueViolation
  else Ok (set_tenant_rows
    (update_rows (fun o => String.eqb (tr_id o) (dt_ID t))
       (fun o => mkTenantRow (tr_id o) (dt_Slug t) (dt_Name t) (dt_Timezone t) (char3 (dt_Currency t)) (tr_created o) now)
       (tenant_rows (accounts_of d))) d).

(** The row of its channels, unless there is one. *)
Definition ensure_channels (now : Time) (tenant : string) (d : DB) : result DB :=
  if existsb (is_channels tenant) (tenant_channels (accounts_of d)) then Ok d
  else insert_channels (mkChannelsRow tenant "" None None None false now) d.

Definition EnsureFixedTenant (t : DemoTenant) : M unit :=
  with_tx "begin fixed tenant" (
    let* _ := wrap "upsert fixed tenant" (run Tx (fun now => insert (upsert_tenant now t) now)) in
    let* _ := wrap "ensure fixed tenant channels" (run Tx (fun now => insert (ensure_channels now (dt_ID t)) now)) in
    wrap "commit fixed tenant" commit).

(** ** The catalogue *)
(** The statements of one command, in order. *)
Fixpoint in_order (l : list (DB -> result DB)) (d : DB) : result DB :=
  match l with [] => Ok d | f :: l => let! d := f d in in_order l d end.

(** [ON CONFLICT (tenant_id,id) DO UPDATE]: all but the slug, and active again. *)
Definition upsert_service (s : ServiceRow) (d : DB) : result DB :=
  if 3 <? pg_length (sv_currency s) then Err StringTooLong
  else if negb (service_check s) then Err CheckViolation
  else if existsb (is_offer (sv_tenant s) (sv_id s)) (services d) then
    Ok (set_catalogue
      (update_rows (is_offer (sv_tenant s) (sv_id s))
         (fun o => mkServiceRow (sv_tenant o) (sv_id o) (sv_slug o) (sv_name s) (sv_description s) (sv_duration s)
                     (sv_before s) (sv_after s) (sv_price s) (char3 (sv_currency s)) true)
         (services d)) (staff d) (staff_services d) (rules d) d)
  else insert_service s d.

Definition upsert_staff (s : StaffRow) (d : DB) : result DB :=
  if negb (staff_check s) then Err CheckViolation
  else if existsb (is_member (st_tenant s) (st_id s)) (staff d) then
    Ok (set_catalogue (services d)
      (update_rows (is_member (st_tenant s) (st_id s))
         (fun o => mkStaffRow (st_tenant o) (st_id o) (st_slug o) (st_name s) (st_timezone s) true)
         (staff d)) (staff_services d) (rules d) d)
  else insert_staff s d.

Definition ensure_assignment (s : StaffServiceRow) (d : DB) : result DB :=
  if existsb (same_assignment s) (staff_services d) then Ok d else insert_assignment s d.

Definition same_rule (a b : RuleRow) : bool :=
  String.eqb (ar_tenant a) (ar_tenant b) && String.eqb (ar_staff a) (ar_staff b) && String.eqb (ar_type a) (ar_type b) &&
  (ar_day a =? ar_day b) && (ar_start a =? ar_start b) && (ar_end a =? ar_end b).

(** [INSERT ... SELECT ... WHERE NOT EXISTS] *)
Definition ensure_rule (r : RuleRow) (d : DB) : result DB :=
  if existsb (same_rule r) (rules d) then Ok d else insert_rule r d.

Definition demo_services (tenant currency : string) : list ServiceRow :=
  [mkServiceRow tenant HaircutServiceID "haircut" "Haircut" "A standard appointment" 45 0 10 4500 currency true;
   mkServiceRow tenant BeardServiceID "beard-trim" "Beard trim" "A short appointment" 20 0 5 2500 currency true;
   mkServiceRow tenant ColourServiceID "colour" "Colour" "A longer appointment" 90 10 15 9000 currency true;
   mkServiceRow tenant KidsServiceID "kids-cut" "Kids cut" "A compact appointment" 30 0 5 3000 currency true].

Definition demo_staff (tenant : string) : list StaffRow :=
  [mkStaffRow tenant AlexStaffID "alex-rivera" "Alex Rivera" "Europe/Berlin" true;
   mkStaffRow tenant NadiaStaffID "nadia-p" "Nadia P." "Europe/Berlin" true;
   mkStaffRow tenant TomStaffID "tom-b" "Tom B." "Europe/Berlin" true].

Definition demo_assignments (tenant : string) : list StaffServiceRow :=
  map (fun p => mkStaffServiceRow tenant p.1 p.2)
    [(AlexStaffID, HaircutServiceID); (AlexStaffID, BeardServiceID); (AlexStaffID, KidsServiceID);
     (NadiaStaffID, HaircutServiceID); (NadiaStaffID, ColourServiceID); (NadiaStaffID, KidsServiceID);
     (TomStaffID, HaircutServiceID); (TomStaffID, BeardServiceID)].

(** Monday to Saturday, nine to eight, with a break at one. *)
Definition demo_rules (tenant : string) : list RuleRow :=
  day ← [1; 2; 3; 4; 5; 6];
  member ← [AlexStaffID; NadiaStaffID; TomStaffID];
  rule ← [("working", "09:00", "20:00"); ("break", "13:00", "14:00")]%string;
  [mkRuleRow tenant member rule.1.1 day (default 0 (parse_clock rule.1.2)) (default 0 (parse_clock rule.2)) None None].

Definition SeedCatalog (tenantID currency : string) : M unit :=
  with_tx "begin demo seed" (
    let* _ := wrap "seed services" (run Tx (insert (in_order (map upsert_service (demo_services tenantID currency))))) in
    let* _ := wrap "seed staff" (run Tx (insert (in_order (map upsert_staff (demo_staff tenantID))))) in
    let* _ := wrap "seed staff services" (run Tx (insert (in_order (map ensure_assignment (demo_assignments tenantID))))) in
    let* _ := for_each (fun r => wrap "seed availability" (run Tx (insert (ensure_rule r)))) (demo_rules tenantID) in
    wrap "commit demo seed" commit).
End seed.
