(* ===== verification/Mux.v ===== *)
(** * Routing and reading requests

    [http.ServeMux] as the channels use it, the query of an address, and the JSON bodies
    of requests.  A path is given as its decoded segments, a final slash as an empty
    one; a path that is not clean is redirected before it comes here. *)

From Stdlib Require Import ZArith Lia Ascii.
From stdpp Require Import base list strings.
From S2P Require Import Prelude Json JsonParse Tokens Url.

#[local] Open Scope Z_scope.

(** ** Patterns *)
(** No method is any method.  A segment [None] is a wildcard, which no empty segment
    matches; a subtree is a pattern that ends with a slash. *)
Record Pattern := mkPattern { pt_method : option string; pt_path : list (option string); pt_subtree : bool }.

Record Route (A : Type) := mkRoute { rt_pattern : Pattern; rt_handler : list string -> A }.
Arguments mkRoute {A}. Arguments rt_pattern {A}. Arguments rt_handler {A}.

Definition fixed_path (l : list string) : list (option string) := map Some l.

Definition handle {A} (method : string) (path : list (option string)) (handler : list string -> A) : Route A :=
  mkRoute (mkPattern (Some method) path false) handler.

Definition subtree {A} (path : list string) (handler : A) : Route A :=
  mkRoute (mkPattern None (fixed_path path) true) (fun _ => handler).

(** The values of the wildcards. *)
Fixpoint path_values (pattern : list (option string)) (sub : bool) (path : list string) : option (list string) :=
  match pattern, path with
  | [], [] => if sub then None else Some []
  | [], _ :: _ => if sub then Some [] else None
  | Some s :: pattern, x :: path => if String.eqb s x then path_values pattern sub path else None
  | None :: pattern, x :: path =>
      if bool_decide (x = "") then None else option_map (cons x) (path_values pattern sub path)
  | _, _ => None
  end.

(** A pattern for [GET] takes [HEAD] too. *)
Definition method_ok (pattern : option string) (method : string) : bool :=
  match pattern with
  | None => true
  | Some m => String.eqb m method || (String.eqb m "GET" && String.eqb method "HEAD")
  end.

Definition path_match {A} (path : list string) (rt : Route A) : option (Route A * list string) :=
  option_map (pair rt) (path_values (pt_path (rt_pattern rt)) (pt_subtree (rt_pattern rt)) path).

(** The path with a slash is the root of this subtree. *)
Definition slash_missing {A} (path : list string) (rt : Route A) : bool :=
  pt_subtree (rt_pattern rt) && (length (pt_path (rt_pattern rt)) =? length path)%nat &&
  match path_values (pt_path (rt_pattern rt)) false path with Some _ => true | None => false end.

Inductive Routed (A : Type) := Handled (handler : A) | Redirected | NoRoute | WrongMethod.
Arguments Handled {A}. Arguments Redirected {A}. Arguments NoRoute {A}. Arguments WrongMethod {A}.

(** Routes come from the more special to the more general: the first that matches is
    the most special one. *)
Definition route {A} (routes : list (Route A)) (method : string) (path : list string) : Routed A :=
  let matching := omap (path_match path) routes in
  let found := List.find (fun p => method_ok (pt_method (rt_pattern p.1)) method) matching in
  let exact := match found with Some (rt, _) => negb (pt_subtree (rt_pattern rt)) | None => false end in
  if negb exact && existsb (slash_missing path) routes then Redirected
  else
    match found, matching with
    | Some (rt, values), _ => Handled (rt_handler rt values)
    | None, [] => NoRoute
    | None, _ => WrongMethod
    end.

(** ** The query of an address *)
Definition plus_is_space (c : ascii) : ascii := if is_char 43 c then chr 32 else c.

Definition QueryUnescape (l : list ascii) : option string :=
  option_map of_bytes (unescape false (map plus_is_space l)).

Fixpoint cut_first (n : Z) (l : list ascii) : list ascii * list ascii :=
  match l with
  | [] => ([], [])
  | c :: tl => if is_char n c then ([], tl) else let '(a, b) := cut_first n tl in (c :: a, b)
  end.

(** A part with a semicolon, or that does not decode, is left out. *)
Definition query_pair (part : list ascii) : option (string * string) :=
  if has_char 59 part || bool_decide (part = []) then None
  else
    let '(k, v) := cut_first 61 part in
    k ← QueryUnescape k; v ← QueryUnescape v; Some (k, v).

Definition Query (raw : string) : list (string * string) := omap query_pair (split_on 38 (string_bytes raw)).

Definition Get (key : string) (values : list (string * string)) : string :=
  match List.find (fun kv => String.eqb kv.1 key) values with Some kv => kv.2 | None => "" end.

(** ** Bodies *)
(** One value of at most [limit] bytes and nothing after it; with a decoder that
    refuses unknown members. *)
Definition strict_body {A} (limit : Z) (member : string * json -> A -> option A) (zero : A) (body : string) : option A :=
  if limit <? len body then None else v ← Unmarshal body; decode_struct member v zero.

Definition json_content (content_type : string) : bool :=
  bool_decide (content_type = "") || starts_with (string_bytes "application/json") (string_bytes content_type).

(** ** Facts *)
Lemma route_Handled {A} (routes : list (Route A)) method path h :
  route routes method path = Handled h ->
  exists rt values, rt ∈ routes /\ method_ok (pt_method (rt_pattern rt)) method = true /\ h = rt_handler rt values /\
    path_values (pt_path (rt_pattern rt)) (pt_subtree (rt_pattern rt)) path = Some values.
Proof.
  unfold route. destruct (List.find _ _) as [[rt values]|] eqn:Ef.
  - destruct (_ && _); [done|]. intros [= <-]. apply List.find_some in Ef as [Hin%list_elem_of_In Hm].
    apply list_elem_of_omap in Hin as (rt' & Hrt & Ho). unfold path_match in Ho.
    destruct (path_values _ _ _) as [v|] eqn:Ev; [|done]. injection Ho as -> ->. by exists rt, values.
  - destruct (_ && _); [done|]. by destruct (omap _ _).
Qed.

Lemma method_exact m method : m <> "GET"%string -> method_ok (Some m) method = true -> method = m.
Proof.
  unfold method_ok. intros Hm. rewrite (proj2 (String.eqb_neq m "GET") Hm), orb_false_r. by intros ->%String.eqb_eq.
Qed.

Lemma path_values_in pattern sub path : forall values x,
  path_values pattern sub path = Some values -> x ∈ values -> x ∈ path.
Proof.
  revert path. induction pattern as [|[s|] pattern IH]; intros [|y path] values x; simpl; try done.
  - destruct sub; [done|]. intros [= <-]. by rewrite elem_of_nil.
  - destruct sub; [|done]. intros [= <-]. by rewrite elem_of_nil.
  - destruct (String.eqb s y); [|done]. intros H Hx. right. by eapply IH.
  - destruct (bool_decide _); [done|]. destruct (path_values pattern sub path) as [v|] eqn:E; [|done].
    intros [= <-] [->|Hx]%elem_of_cons; [by left|right; by eapply IH].
Qed.

Lemma path_values_fixed l path values : path_values (fixed_path l) false path = Some values -> path = l.
Proof.
  revert path values. induction l as [|s l IH]; intros [|y path] values; simpl; try done.
  destruct (String.eqb_spec s y) as [->|]; [|done]. intros H. f_equal. by eapply IH.
Qed.

Definition wildcards (pattern : list (option string)) : nat :=
  length (List.filter (fun s => match s with None => true | Some _ => false end) pattern).

Lemma path_values_count pattern sub path values :
  path_values pattern sub path = Some values -> length values = wildcards pattern.
Proof.
  revert path values. induction pattern as [|[s|] pattern IH]; intros [|y path] values; simpl; try done.
  - destruct sub; [done|]. by intros [= <-].
  - destruct sub; [|done]. by intros [= <-].
  - destruct (String.eqb s y); [|done]. apply IH.
  - destruct (bool_decide _); [done|]. destruct (path_values pattern sub path) as [v|] eqn:E; [|done].
    intros [= <-]. simpl. unfold wildcards. simpl. f_equal. by eapply IH.
Qed.
