(* ===== verification/Contracts.v ===== *)
(** * The tool contracts: [internal/tools/contracts.go]

    The ten tools a model is offered, with the JSON schemas of their arguments.
    The schemas are built from their parts; their text is the source's. *)

From Stdlib Require Import ZArith Lia Ascii.
From stdpp Require Import base list strings.
From S2P Require Import Prelude Json JsonParse LLM Gateway.

#[local] Open Scope Z_scope.

(** ** Parts of a schema *)
Definition typed (type : string) (rest : object) : json := JObj (("type", JStr type) :: rest).

Definition texts (l : list string) : json := JArr (map JStr l).

Definition described (text : string) : object := [("description", JStr text)].

Definition lengths (least most : Z) : object := [("minLength", JInt least); ("maxLength", JInt most)].

Definition at_most (most : Z) : object := [("maxLength", JInt most)].

Definition patterned (pattern : string) : object := [("pattern", JStr pattern)].

Definition uuid : json := typed "string" [("format", JStr "uuid")].

Definition uuid_of (description : string) : json :=
  typed "string" (("format", JStr "uuid") :: described description).

Definition date_time : json :=
  typed "string" (("format", JStr "date-time") :: patterned "(Z|[+-][0-9]{2}:[0-9]{2})$").

Definition slot_token : json :=
  typed "string" (lengths 32 1024 ++ patterned "^slt_v1_[A-Za-z0-9_-]+\.[A-Za-z0-9_-]+$").

Definition key_pattern : object := lengths 16 128 ++ patterned "^[A-Za-z0-9][A-Za-z0-9._:-]*$".

Definition required_key : json := typed "string" key_pattern.

Definition optional_key : json :=
  typed "string" (key_pattern ++
    described "Optional. Omit it: the server derives a stable key from the action itself.").

(** The members of a closed object. *)
Definition members (required : list string) (properties : object) : object :=
  [("required", texts required); ("properties", JObj properties); ("additionalProperties", JBool false)].

Definition record (required : list string) (properties : object) : json := typed "object" (members required properties).

Definition dialect : string * json := ("$schema", JStr "https://json-schema.org/draft/2020-12/schema").

(** [schemaPrefix], and what follows it. *)
Definition schema (rest : object) : string := Marshal (JObj (dialect :: ("type", JStr "object") :: rest)).

Definition service_reference : json :=
  uuid_of "The service UUID returned by list_services, never a service name string".

Definition staff_reference : json :=
  uuid_of "The staff UUID returned by list_staff, never a staff name string".

(** ** The tools *)
Definition tool (name description : string) (parameters : object) : ToolDefinition :=
  mkToolDefinition name ContractVersion description (schema parameters).

Definition listServicesTool : ToolDefinition := tool ToolListServices
  "List active services with duration, buffers, and price. For a new booking, use this before staff or slot lookup."
  [("maxProperties", JInt 0); ("additionalProperties", JBool false)].

Definition listStaffTool : ToolDefinition := tool ToolListStaff
  "List staff who can perform the selected service. For a new booking, call after list_services and before find_slots."
  (members ["service_id"] [("service_id", service_reference)]).

Definition findSlotsTool : ToolDefinition := tool ToolFindSlots
  "Find currently free appointment slots for the selected service and optional selected staff. Call after service/staff discovery. date_to must be strictly after date_from; for one requested local calendar day, use [local 00:00, following local 00:00) with RFC3339 offsets. Returned slots are not held until booking succeeds. A result carries at most the 12 earliest matching slots and sets truncated when more exist; narrow the range instead of repeating the same search."
  (members ["service_id"; "date_from"; "date_to"]
    [("service_id", service_reference); ("staff_id", staff_reference); ("date_from", date_time);
     ("date_to", date_time)]).

Definition createBookingTool : ToolDefinition := tool ToolCreateBooking
  "Propose or, after a server-authorized confirmation, create a booking using a slot token. Customer identity and contact are authenticated server-side: never invent or send customer data. Do not call until service, staff, slot, and contact requirements in the system instructions are satisfied."
  (members ["slot_token"]
    [("slot_token", slot_token);
     ("customer", typed "object" (described
        "Ignored. The server replaces any value here with the authenticated customer profile. Omit this property."));
     ("notes", typed "string" (at_most 500)); ("idempotency_key", optional_key); ("confirmation_id", uuid)]).

Definition rescheduleTool : ToolDefinition := tool ToolReschedule
  "Propose or, after confirmation, reschedule an owned booking."
  (members ["booking_id"; "new_slot"]
    [("booking_id", uuid); ("new_slot", record ["slot_token"] [("slot_token", slot_token)]);
     ("idempotency_key", optional_key); ("confirmation_id", uuid)]).

Definition cancelTool : ToolDefinition := tool ToolCancel
  "Propose or, after confirmation, cancel an owned booking."
  (members ["booking_id"; "reason"]
    [("booking_id", uuid); ("reason", typed "string" (lengths 1 500)); ("idempotency_key", optional_key);
     ("confirmation_id", uuid)]).

Definition contact_schema : json :=
  typed "object"
    [("properties", JObj
       [("email", typed "string" (("format", JStr "email") :: at_most 254));
        ("phone", typed "string" (patterned "^\+[1-9][0-9]{7,14}$"))]);
     ("anyOf", JArr [JObj [("required", texts ["email"])]; JObj [("required", texts ["phone"])]]);
     ("additionalProperties", JBool false)].

Definition upsertContactTool : ToolDefinition := tool ToolUpsertContact
  "Create or update the authenticated customer's CRM contact."
  (members ["profile"; "idempotency_key"]
    [("profile", record ["display_name"; "contact"]
       [("display_name", typed "string" (lengths 1 200)); ("contact", contact_schema);
        ("company", typed "string" (at_most 200)); ("locale", typed "string" (lengths 2 35))]);
     ("idempotency_key", required_key)]).

Definition createDealTool : ToolDefinition := tool ToolCreateDeal
  "Create a CRM deal for an owned confirmed booking when a server-issued workflow grant permits it."
  (members ["booking_id"; "contact_ref"; "idempotency_key"]
    [("booking_id", uuid);
     ("contact_ref", typed "string" (lengths 32 600 ++ patterned "^ctr_v1_[A-Za-z0-9_-]+$"));
     ("idempotency_key", required_key)]).

Definition escalateTool : ToolDefinition := tool ToolEscalate
  "Hand this conversation to a human operator."
  (members ["reason"]
    [("reason", record ["code"; "summary"]
       [("code", typed "string" [("enum", texts
           ["customer_request"; "understanding_failed"; "tool_refused"; "provider_failure"; "policy"; "other"])]);
        ("summary", typed "string" (lengths 1 1000))])]).

Definition respondToCustomerTool : ToolDefinition := tool ToolRespondToCustomer
  "Mandatory terminal control call for a customer-facing reply. Call it alone, never alongside another tool. Use clarification_needed for missing booking details, a missing email or E.164 phone, or after a tool error with resolution fix_arguments; ask one concise, safe question and do not retry speculative arguments. The server escalates after three consecutive clarification outcomes."
  (members ["disposition"; "message"]
    [("disposition", typed "string" [("enum", texts ["complete"; "clarification_needed"])]);
     ("message", typed "string" (lengths 1 2000 ++ patterned "\S"))]).

(** In the order the model is offered them. *)
Definition Definitions : list ToolDefinition :=
  [listServicesTool; listStaffTool; findSlotsTool; createBookingTool; rescheduleTool; cancelTool;
   upsertContactTool; createDealTool; escalateTool; respondToCustomerTool].
