(* ===== verification/Bootstrap.v ===== *)
(** * The components of a tenant, built on demand: [internal/bootstrap]

    The model adapter a configuration asks for, and [Build] with it
    ([bootstrap.go], over [Deployment.Build]); the runtime that builds the components of a
    tenant when a channel first asks for them, and keeps them ([runtime.go]).

    Over [ProcessConfig] and [Bootstrap]: a configuration that is accepted fails closed on
    the secrets of the demo, and every store and every tenant's graph is built from it;
    the components the runtime hands out for a tenant work on that tenant. *)

From Stdlib Require Import ZArith Lia Ascii.
From stdpp Require Import base list strings gmap.
From S2P Require Import Prelude GoTime Json JsonParse LLM Database Catalog Url Contracts OpenRouter Passwords Identity Service Deployment Tenants ProcessConfig.

#[local] Open Scope Z_scope.

(** ** The model adapter *)
(** [llm.NewDemoAdapter]: what it is made of, with its defaults. *)
Record DemoAdapter := mkDemoAdapter {
  da_serviceID : string; da_staffID : string; da_customerName : string; da_customerEmail : string;
  da_timezone : Location
}.

Definition demoHaircutServiceID : string := "10000000-0000-4000-8000-000000000001".
Definition demoAlexStaffID : string := "20000000-0000-4000-8000-000000000001".

Record DemoConfig := mkDemoConfig {
  dc_ServiceID : string; dc_StaffID : string; dc_CustomerName : string; dc_CustomerEmail : string;
  dc_Timezone : string
}.

Definition NewDemoAdapter `{Host} (c : DemoConfig) : result DemoAdapter :=
  let timezone := or_value "" (dc_Timezone c) "Europe/Berlin" in
  match LoadLocation timezone with
  | Err err => Err (ErrWrap "llm demo: load timezone" err)
  | Ok location =>
      Ok (mkDemoAdapter (or_value "" (dc_ServiceID c) demoHaircutServiceID) (or_value "" (dc_StaffID c) demoAlexStaffID)
            (or_value "" (dc_CustomerName c) "Demo Customer") (or_value "" (dc_CustomerEmail c) "demo@example.com")
            location)
  end.

Inductive ModelAdapter := ScriptedDemo (a : DemoAdapter) | ChatCompletions (a : OpenRouterAdapter).

(** [strings.TrimRight(s, "/")] *)
Definition trim_slashes (s : string) : string := of_bytes (rev (drop_char 47 (rev (string_bytes s)))).

Definition has_suffix (suffix s : string) : bool :=
  starts_with (rev (string_bytes suffix)) (rev (string_bytes s)).

Definition chatCompletionsEndpoint (baseURL : string) : string :=
  let endpoint := trim_slashes baseURL in
  if has_suffix "/chat/completions" endpoint then endpoint else String.append endpoint "/chat/completions".

(** What is built for a tenant, and [Runtime.components], which is only touched under
    the mutex. *)
Record Built := mkBuilt { bu_Model : ModelAdapter; bu_Parts : Components }.

Abbreviation Cache := (gmap string Built).

Section bootstrap.
Context `{host : !Host}.

(** The adapter and the name of its model. *)
Definition modelAdapter (cfg : ProcessConfig.Config) : result (ModelAdapter * string) :=
  let l := cfg_LLM cfg in
  let timeout := ag_TurnTimeout (cfg_Agent cfg) in
  if String.eqb (llm_Provider l) "fake" then
    let! a := NewDemoAdapter (mkDemoConfig "" "" "" "" (ten_Timezone (cfg_Tenant cfg))) in
    Ok (ScriptedDemo a, "kontor/demo-v1")
  else if String.eqb (llm_Provider l) "openai" then
    let! a := NewOpenAIAdapter (mkOpenAIConfig (OpenAIKey l) (OpenAIModel l) (chatCompletionsEndpoint (OpenAIURL l))
                timeout stage1ProviderAttempts 0 0) in
    Ok (ChatCompletions a, OpenAIModel l)
  else if String.eqb (llm_Provider l) "openrouter" then
    let! a := NewOpenRouterAdapter (mkOpenRouterConfig (OpenRouterKey l) (OpenRouterModel l)
                (chatCompletionsEndpoint (OpenRouterURL l)) (AppURL l) (AppTitle l) timeout stage1ProviderAttempts 0 0) in
    Ok (ChatCompletions a, OpenRouterModel l)
  else Err (ErrText "unsupported LLM provider").

(** What [Build] takes from the configuration; [conns] is the size of the pool. *)
Definition build_config (cfg : ProcessConfig.Config) (model : string) (conns : Z) : BuildConfig :=
  let t := cfg_Tenant cfg in
  let a := cfg_Agent cfg in
  mkBuildConfig
    (mkServiceConfig (ten_ID t) (ten_Name t) (ten_Timezone t) (llm_Provider (cfg_LLM cfg)) model
       (ag_ConversationTokenBudget a) 0 (ag_TurnTimeout a))
    (cfg_SlotTokenSecret cfg) (ag_ToolMaxAttempts a) (ag_ToolTimeout a) (ag_MaxIterations a) (ag_TurnTimeout a)
    (ag_MaxOutputTokens a) (ag_ConversationTokenBudget a) conns Definitions.

Definition Build (cfg : ProcessConfig.Config) (conns : Z) : M Built :=
  let* (adapter, model) := lift (modelAdapter cfg) in
  let* parts := Deployment.Build (build_config cfg model conns) in
  ret (mkBuilt adapter parts).

(** ** The runtime: [runtime.go] *)
Record Runtime := mkRuntime { rt_config : ProcessConfig.Config; rt_conns : Z; rt_tenants : Tenants.Store }.

Definition NewRuntime (cfg : ProcessConfig.Config) (conns : Z) (pool : bool) (tenantStore : option Tenants.Store)
    : result Runtime :=
  match tenantStore with
  | Some store =>
      if pool then Ok (mkRuntime cfg conns store)
      else Err (ErrText "bootstrap runtime: PostgreSQL pool and tenant store are required")
  | None => Err (ErrText "bootstrap runtime: PostgreSQL pool and tenant store are required")
  end.

(** The configuration of the process for one tenant. *)
Definition for_tenant (t : Tenants.Tenant) (c : ProcessConfig.Config) : ProcessConfig.Config :=
  ProcessConfig.mkConfig (Environment c) (HTTPAddr c) (DatabaseURL c) (DemoMode c)
    (ProcessConfig.mkTenant (t_ID t) (t_Slug t) (t_Name t) (t_Timezone t) (t_Currency t)) (cfg_Tenancy c) (cfg_Demo c)
    (cfg_Telegram c) (cfg_Agent c) (cfg_LLM c) (cfg_Operator c) (cfg_SlotTokenSecret c) (ShutdownTimeout c)
    (cfg_HTTP c) (cfg_Metrics c).

(** A failure adds nothing to the components. *)
Definition componentsFor (r : Runtime) (components : Cache) (tenantID : string) : M (Built * Cache) :=
  if bool_decide (tenantID = "") then fail (ErrText "bootstrap runtime: tenant ID is required")
  else
    match components !! tenantID with
    | Some built => ret (built, components)
    | None =>
        let* tenant := TenantByID (rt_tenants r) tenantID in
        let* built := Build (for_tenant tenant (rt_config r)) (rt_conns r) in
        ret (built, <[tenantID := built]> components)
    end.
End bootstrap.

(** * What an accepted configuration starts *)

From S2P Require Import Prelude GoTime Json JsonParse LLM Budget Database DatabaseFacts Catalog Repository SalonDemo ToolBackend Runner Tokens Gateway Contracts OpenRouter Conversations Executor Service Deployment Passwords Identity Tenants ProcessConfig.

#[local] Open Scope Z_scope.

(** ** Checks *)
Lemma refuse_Ok b text x : refuse b text = Ok x -> b = false.
Proof. by destruct b. Qed.

(** Every check that was passed, as a condition that does not hold. *)
Ltac passed :=
  repeat match goal with
  | H : rbind _ _ = Ok _ |- _ => apply rbind_Ok in H as (? & ? & H)
  | H : refuse _ _ = Ok _ |- _ => apply refuse_Ok in H
  end; bool_to_prop.

Section config.
Context `{host : !Host} `{letters : !Letters} (e : Environ) (c : Config).
Hypothesis accepted : Load e = Ok c.

Lemma accepted_checks :
  c = read_config e /\ check_tenancy c = Ok tt /\ check_agent c = Ok tt /\ check_secrets c = Ok tt /\
  check_edges c = Ok tt /\ check_llm (cfg_LLM c) = Ok tt.
Proof.
  revert accepted. unfold Load.
  intros (legacy & _ & (? & _ & ([] & Ht & ([] & Ha & ([] & Hs & ([] & He & ([] & Hl & H)%rbind_Ok)%rbind_Ok)%rbind_Ok)%rbind_Ok)%rbind_Ok)%rbind_Ok)%rbind_Ok.
  by injection H as <-.
Qed.

Lemma accepted_agent :
  let a := cfg_Agent c in
  1 <= ag_MaxIterations a <= 32 /\ 1 <= ag_ToolMaxAttempts a <= 16 /\
  1 <= ag_ConversationTokenBudget a <= 2000000 /\ 1 <= ag_MaxOutputTokens a /\ 0 < ag_TurnTimeout a /\
  wrap64 (ag_TurnTimeout a + 5 * Second) <= ShutdownTimeout c.
Proof. destruct accepted_checks as (_ & _ & H & _). unfold check_agent in H. cbv zeta in *. passed. lia. Qed.

Lemma accepted_secrets :
  32 <= Json.len (cfg_SlotTokenSecret c) /\ Json.len (ChannelEncryptionKey (cfg_Tenancy c)) = 32 /\
  (DemoMode c = true -> isProductionEnvironment (Environment c) = false) /\
  (DemoMode c = false -> cfg_SlotTokenSecret c <> demoSlotTokenSecret /\
     ChannelEncryptionKey (cfg_Tenancy c) <> demoChannelEncryptionKey).
Proof.
  destruct accepted_checks as (_ & Ht & _ & H & _). unfold check_tenancy in Ht. unfold check_secrets in H. cbv zeta in *.
  passed. split; [lia|]. split; [lia|]. destruct (DemoMode c); cbn [andb] in *; (split; [done|]); intros; [done|].
  passed. by split; apply String.eqb_neq.
Qed.
End config.

(** ** The parts that are built *)
Section building.
Context `{host : !Host} `{letters : !Letters}.

Lemma contracts_pass : check_tools [] Definitions = Ok tt.
Proof. by vm_compute. Qed.

Lemma terminal_offered : existsb (names_tool Runner.ToolRespondToCustomer) Definitions = true.
Proof. by vm_compute. Qed.

(** A graph that works on the configuration's tenant, within its limits. *)
Definition graph_of (cfg : Config) (conns : Z) (parts : Components) : Prop :=
  cf_TenantID (Service.config (Application parts)) = ten_ID (cfg_Tenant cfg) /\
  ex_tenantID (c_Executor parts) = ten_ID (cfg_Tenant cfg) /\
  repository (c_Backend parts) = Some (NewPGXRepository true (ten_ID (cfg_Tenant cfg))) /\
  signing_key (signer (c_Gateway parts)) = cfg_SlotTokenSecret cfg /\
  Runner.config (c_Runner parts) = Runner.mkConfig (ag_MaxIterations (cfg_Agent cfg)) (ag_TurnTimeout (cfg_Agent cfg))
    (ag_MaxOutputTokens (cfg_Agent cfg)) (ag_ConversationTokenBudget (cfg_Agent cfg)) /\
  tools (c_Runner parts) = Definitions /\ turnCapacity (Application parts) = Z.quot conns 2.

Lemma gateway_key key g : NewGateway true true key 0 0 0 0 = Ok g -> signing_key (signer g) = key.
Proof.
  unfold NewGateway, NewSlotSigner. cbn -[Z.ltb]. intros (s & Hs & H)%rbind_Ok. destruct (_ <? 32); [done|].
  injection Hs as <-. destruct (_ <=? _); [done|]. by injection H as <-.
Qed.

Lemma gateway_made key : 32 <= Json.len key -> exists g, NewGateway true true key 0 0 0 0 = Ok g.
Proof.
  intros Hk. unfold NewGateway, NewSlotSigner. cbn [negb]. destruct (Z.ltb_spec (Json.len key) 32); [lia|].
  cbn [rbind]. eexists. reflexivity.
Qed.

Lemma runner_made (rc : Runner.Config) :
  0 < MaxIterations rc -> 0 < TurnTimeout rc -> 0 < MaxOutputTokensPerCall rc -> 0 < ConversationTokenLimit rc ->
  NewRunner rc true Definitions = Ok (mkRunner rc Definitions).
Proof.
  intros Hi Ht Ho Hl. unfold NewRunner. rewrite !(proj2 (Z.leb_gt _ _)) by done. cbn [negb].
  by rewrite contracts_pass, terminal_offered.
Qed.

Lemma runner_Ok rc r : NewRunner rc true Definitions = Ok r -> r = mkRunner rc Definitions.
Proof.
  unfold NewRunner. repeat (destruct (_ <=? 0); [done|]). cbn [negb]. rewrite contracts_pass, terminal_offered.
  by intros [= <-].
Qed.

Lemma assemble_Ok cfg model conns parts :
  assemble (build_config cfg model conns) = Ok parts -> graph_of cfg conns parts.
Proof.
  unfold assemble. intros (g & Hg & (r & Hr & (a & Ha & [= <-])%rbind_Ok)%rbind_Ok)%rbind_Ok.
  destruct (NewGateway _ _ _ _ _ _ _) as [g'|] eqn:Eg; [|done]. injection Hg as ->. apply gateway_key in Eg.
  destruct (NewRunner _ _ _) as [r'|] eqn:Er; [|done]. injection Hr as ->. apply runner_Ok in Er as ->.
  unfold New in Ha. cbn [negb] in Ha. destruct (bool_decide _); [done|]. destruct (_ <? 2); [done|]. injection Ha as <-.
  done.
Qed.

Lemma assemble_made cfg model conns :
  32 <= Json.len (cfg_SlotTokenSecret cfg) -> ten_ID (cfg_Tenant cfg) <> ""%string -> 2 <= conns ->
  (let a := cfg_Agent cfg in
   0 < ag_MaxIterations a /\ 0 < ag_TurnTimeout a /\ 0 < ag_MaxOutputTokens a /\ 0 < ag_ConversationTokenBudget a) ->
  exists parts, assemble (build_config cfg model conns) = Ok parts.
Proof.
  intros Hk Hid Hc (Hi & Ht & Ho & Hl). unfold assemble. cbn -[Z.ltb NewGateway NewRunner New].
  destruct (gateway_made _ Hk) as [g ->]. rewrite runner_made by done. cbn [rbind].
  unfold New. cbn -[Z.ltb]. rewrite bool_decide_eq_false_2 by done. destruct (Z.ltb_spec conns 2); [lia|].
  eexists. reflexivity.
Qed.

(** The key and the model of a provider, without the blanks around them. *)
Definition named_model (l : ProcessConfig.LLM) : Prop :=
  (llm_Provider l = "openai"%string -> blank (OpenAIKey l) = false /\ blank (OpenAIModel l) = false) /\
  (llm_Provider l = "openrouter"%string -> blank (OpenRouterKey l) = false /\ blank (OpenRouterModel l) = false).

Lemma adapter_made key model url referer title timeout :
  blank key = false -> blank model = false ->
  exists a, NewOpenRouterAdapter (mkOpenRouterConfig key model url referer title timeout stage1ProviderAttempts 0 0) = Ok a.
Proof. intros Hk Hm. unfold NewOpenRouterAdapter. cbn [oc_APIKey oc_Model]. rewrite Hk, Hm. eexists. reflexivity. Qed.

Lemma modelAdapter_made cfg l :
  existsb (String.eqb (llm_Provider (cfg_LLM cfg))) ["fake"; "openai"; "openrouter"] = true ->
  named_model (cfg_LLM cfg) -> LoadLocation (or_value "" (ten_Timezone (cfg_Tenant cfg)) "Europe/Berlin") = Ok l ->
  exists built, modelAdapter cfg = Ok built.
Proof.
  intros Hp [Ha Hr] Hz. unfold modelAdapter. cbn [existsb] in Hp.
  destruct (String.eqb_spec (llm_Provider (cfg_LLM cfg)) "fake") as [_|_].
  { unfold NewDemoAdapter. cbn [dc_Timezone]. rewrite Hz. eexists. reflexivity. }
  destruct (String.eqb_spec (llm_Provider (cfg_LLM cfg)) "openai") as [E|_].
  { unfold NewOpenAIAdapter. destruct (Ha E). cbn [ai_APIKey ai_Model ai_Endpoint ai_Timeout ai_MaxAttempts ai_RetryBaseDelay ai_RetryMaxDelay].
    set (o := NewOpenRouterAdapter _). assert (exists a, o = Ok a) as [a ->] by by apply adapter_made.
    eexists. reflexivity. }
  destruct (String.eqb_spec (llm_Provider (cfg_LLM cfg)) "openrouter") as [E|_]; [|done].
  destruct (Hr E). set (o := NewOpenRouterAdapter _). assert (exists a, o = Ok a) as [a ->] by by apply adapter_made.
  eexists. reflexivity.
Qed.
End building.

(** ** Properties *)
Section properties.
Context `{host : !Host} `{letters : !Letters}.

(** C19. An accepted configuration fails closed.  In an environment called production it is
    not in demo mode; outside demo mode neither of the secrets the repository
    publishes is in use, the key of the tenants' channels has 32 bytes and that of the
    slot tokens at least as many; and a metrics token, where there is one, has at
    least 16. *)
Theorem accepted_config_fails_closed (e : Environ) (c : Config) (accepted : Load e = Ok c) :
  (isProductionEnvironment (Environment c) = true -> DemoMode c = false) /\
  (DemoMode c = false ->
     cfg_SlotTokenSecret c <> demoSlotTokenSecret /\ ChannelEncryptionKey (cfg_Tenancy c) <> demoChannelEncryptionKey /\
     Getenv e "TENANT_CHANNEL_ENCRYPTION_KEY" = ChannelEncryptionKey (cfg_Tenancy c) /\
     e "SLOT_TOKEN_SECRET" = Some (cfg_SlotTokenSecret c)) /\
  32 <= Json.len (cfg_SlotTokenSecret c) /\ Json.len (ChannelEncryptionKey (cfg_Tenancy c)) = 32 /\
  (met_Token (cfg_Metrics c) <> ""%string -> 16 <= Json.len (met_Token (cfg_Metrics c))).
Proof.
  destruct (accepted_secrets e c accepted) as (Hs & Hk & Hp & Hd).
  destruct (accepted_checks e c accepted) as (Hc & _ & _ & Hsec & _).
  split; [|split; [|split; [done|split; [done|]]]].
  - intros Hprod. destruct (DemoMode c); [|done]. by rewrite Hp in Hprod.
  - intros Hdemo. destruct (Hd Hdemo) as [Hne Hnk]. split; [done|]. split; [done|]. rewrite Hc in Hdemo, Hne |- *.
    cbn in Hdemo, Hne |- *. rewrite Hdemo, andb_false_r. split; [done|]. unfold env in *.
    destruct (e "SLOT_TOKEN_SECRET"); [done|]. by cbn in Hne.
  - intros Ht. unfold check_secrets in Hsec. passed. rewrite bool_decide_eq_false_2 in Hsec by done. cbn in Hsec.
    by bool_to_prop.
Qed.

(** C40. An accepted configuration starts.  The stores of tenants and of operators are made
    from it, and for every tenant with a known zone, unless the key or the model of the
    provider is only blanks, the whole graph is built: on that tenant's
    rows, with the loop's limits as configured, and, where the sum of durations does not
    overflow, with a turn ending five seconds before the shutdown gives up. *)
Theorem accepted_config_starts (e : Environ) (c : Config) (t : Tenants.Tenant) (conns : Z) (l : Location) (now : nat -> Time)
    (accepted : Load e = Ok c) (Htenant : t_ID t <> ""%string) (Hconns : 2 <= conns)
    (Hzone : LoadLocation (or_value "" (t_Timezone t) "Europe/Berlin") = Ok l) (Hmodel : named_model (cfg_LLM c)) :
  Tenants.NewStore true (ChannelEncryptionKey (cfg_Tenancy c)) =
    Ok (Tenants.mkStore true (Some (ChannelEncryptionKey (cfg_Tenancy c)))) /\
  Identity.NewStore true (SessionTTL (cfg_Operator c)) now = Ok (Identity.mkStore true (SessionTTL (cfg_Operator c)) now) /\
  (exists adapter model parts, modelAdapter (for_tenant t c) = Ok (adapter, model) /\
     assemble (build_config (for_tenant t c) model conns) = Ok parts /\ graph_of (for_tenant t c) conns parts) /\
  (ag_TurnTimeout (cfg_Agent c) <= max_int64 - 5 * Second -> ag_TurnTimeout (cfg_Agent c) + 5 * Second <= ShutdownTimeout c).
Proof.
  destruct (accepted_secrets e c accepted) as (Hs & Hk & _). pose proof (accepted_agent e c accepted) as Ha. cbv zeta in Ha.
  destruct (accepted_checks e c accepted) as (_ & _ & _ & _ & Hedges & Hllm). unfold check_edges in Hedges. cbv zeta in Hedges.
  unfold check_llm in Hllm. passed. split; [|split; [|split]].
  - unfold Tenants.NewStore, newSecretCipher, channelKeyBytes. cbn [negb]. rewrite bool_decide_eq_false_2; [by rewrite Hk|].
    intros E. by rewrite E in Hk.
  - unfold Identity.NewStore. cbn [negb].
    destruct (Z.eqb_spec (SessionTTL (cfg_Operator c)) 0) as [E|_].
    { rewrite E in *. change (5 * Minute) with 300000000000 in *. lia. }
    by rewrite (proj2 (Z.ltb_ge _ _)), (proj2 (Z.ltb_ge _ _)).
  - destruct (modelAdapter_made (for_tenant t c) l) as [[adapter model] Hm]; [done..|].
    destruct (assemble_made (for_tenant t c) model conns) as [parts Hp]; [done..|cbn; lia|].
    exists adapter, model, parts. split; [done|]. split; [done|]. by eapply assemble_Ok.
  - intros Hb. rewrite wrap64_id in Ha; [lia|]. unfold in_int64, min_int64, max_int64, Second in *. lia.
Qed.

(** ** The runtime *)
Definition scoped_to (tenant : string) (built : Built) : Prop :=
  let parts := bu_Parts built in
  cf_TenantID (Service.config (Application parts)) = tenant /\ ex_tenantID (c_Executor parts) = tenant /\
  repository (c_Backend parts) = Some (NewPGXRepository true tenant).

Definition scoped_cache (components : Cache) : Prop :=
  forall tenant built, components !! tenant = Some built -> scoped_to tenant built.

Lemma find_tenant_Ok p msg e w t w' :
  find_tenant p msg e w = (Ok t, w') ->
  exists row, row ∈ tenant_rows (accounts_of (db w)) /\ p row = true /\ t_ID t = tr_id row /\ db w' = db w.
Proof.
  unfold find_tenant. intros (found & w1 & Hq & Ht)%bind_Ok. unfold wrap, map_err, query, run in Hq.
  destruct (fault e (tick w)); [done|]. cbn in Hq. injection Hq as <- <-.
  destruct (List.find p _) as [row|] eqn:E; [|done]. apply List.find_some in E as [Hin%list_elem_of_In Hp].
  cbn in Ht. injection Ht as <- <-. by exists row.
Qed.

Lemma Build_scoped c conns e w built w' :
  Bootstrap.Build c conns e w = (Ok built, w') -> scoped_to (ten_ID (cfg_Tenant c)) built.
Proof.
  unfold Bootstrap.Build. intros ([adapter model] & w1 & _ & (parts & w2 & Hb & [= <- _])%bind_Ok)%bind_Ok.
  unfold Deployment.Build in Hb. apply bind_Ok in Hb as (parts' & w3 & Ha & (n & w4 & _ & [= <- _])%bind_Ok).
  unfold lift in Ha. injection Ha as Ha _. by apply assemble_Ok in Ha as (? & ? & ? & _).
Qed.

(** C18. The runtime's components stay scoped.  What it hands out for an identifier works on
    the rows of that tenant; what it kept before is kept and handed out again
    as it is; and it builds anew only for a tenant the table holds. *)
Theorem runtime_stays_scoped (r : Runtime) (components : Cache) (tenantID : string) (e : Database.env) (w : world) (built : Built)
    (components' : Cache) (w' : world) (Hscoped : scoped_cache components)
    (Hrun : componentsFor r components tenantID e w = (Ok (built, components'), w')) :
  scoped_to tenantID built /\ scoped_cache components' /\ components' !! tenantID = Some built /\
  (forall tenant b, components !! tenant = Some b -> components' !! tenant = Some b) /\
  (components !! tenantID = None -> exists row, row ∈ tenant_rows (accounts_of (db w)) /\ tr_id row = tenantID).
Proof.
  unfold componentsFor in Hrun. destruct (bool_decide _); [done|].
  destruct (components !! tenantID) as [b|] eqn:E.
  { injection Hrun as <- <- <-. split; [by apply Hscoped|]. split; [done|]. by split; [|split]. }
  apply bind_Ok in Hrun as (t & w1 & Ht & (b & w2 & Hb & [= <- <- <-])%bind_Ok). unfold TenantByID in Ht.
  destruct (_ || _); [done|]. apply find_tenant_Ok in Ht as (row & Hrow & Hp%String.eqb_eq & Hid & _).
  assert (Hs : scoped_to tenantID b) by (rewrite <- Hp, <- Hid; by eapply (Build_scoped (for_tenant t _))).
  split; [done|]. split; [|split; [by rewrite lookup_insert_eq|split]].
  - intros tenant b' [[<- <-]|[_ Hl]]%lookup_insert_Some; [done|by apply Hscoped].
  - intros tenant b' Hl. rewrite lookup_insert_ne; [done|]. by intros <-; rewrite E in Hl.
  - intros _. by exists row.
Qed.
End properties.

(** ** A deployment *)
Module StartDemo.
Definition environ (l : list (string * string)) : Environ := fun key =>
  option_map snd (List.find (fun kv => String.eqb kv.1 key) l).

(** A production deployment with its own secrets. *)
Definition production : Environ := environ
  [("APP_ENV", "Production "); ("DEMO_MODE", "false"); ("SLOT_TOKEN_SECRET", "a-secret-of-this-deployment-alone");
   ("TENANT_CHANNEL_ENCRYPTION_KEY", "0123456789abcdef0123456789ABCDEF"); ("FIXED_TENANT_TIMEZONE", "UTC");
   ("AGENT_TURN_TIMEOUT", "29.5s"); ("SHUTDOWN_TIMEOUT", "34500ms"); ("LLM_PROVIDER", "OpenAI");
   ("OPENAI_API_KEY", "key"); ("OPENAI_MODEL", "model")]%string.

#[export] Instance letters : Letters := {|
  unicode_lower x := x; unicode_upper x := x; database_lower x := x; database_upper x := x
|}.

Definition tenant : Tenants.Tenant := Tenants.mkTenant "t" "salon-nord" "Salon Nord" "UTC" "EUR" "" (monday 0 0) (monday 0 0).

Definition accounts : Accounts :=
  mkAccounts [mkTenantRow "t" "salon-nord" "Salon Nord" "UTC" "EUR" (monday 0 0) (monday 0 0)] [] [] [] [].

Definition tables : world := idle (set_accounts accounts (db empty_salon)).
End StartDemo.

#[local] Existing Instance StartDemo.letters.

Lemma accepted_config_fails_closed_witness :
  exists c, Load StartDemo.production = Ok c /\ isProductionEnvironment (Environment c) = true /\
    DemoMode c = false /\ cfg_SlotTokenSecret c <> demoSlotTokenSecret.
Proof.
  assert (H : exists c, Load StartDemo.production = Ok c /\ isProductionEnvironment (Environment c) = true)
    by (eexists; split; [vm_compute; reflexivity|]; vm_compute; reflexivity).
  destruct H as (c & Hl & Hp). exists c. split; [done|]. split; [done|].
  destruct (accepted_config_fails_closed StartDemo.production c Hl) as (Hd & Hs & _).
  split; [by apply Hd|]. by apply Hs, Hd.
Defined.

Lemma accepted_config_starts_witness :
  exists c, Load StartDemo.production = Ok c /\ ag_TurnTimeout (cfg_Agent c) = 29500000000 /\
    exists adapter model parts, modelAdapter (for_tenant StartDemo.tenant c) = Ok (adapter, model) /\
      assemble (build_config (for_tenant StartDemo.tenant c) model 4) = Ok parts.
Proof.
  assert (H : exists c, Load StartDemo.production = Ok c /\ ag_TurnTimeout (cfg_Agent c) = 29500000000 /\ named_model (cfg_LLM c)).
  { eexists. split; [vm_compute; reflexivity|]. split; [vm_compute; reflexivity|].
    split; intros E; vm_compute in E; [by vm_compute|discriminate E]. }
  destruct H as (c & Hl & Ht & Hm). exists c. split; [done|]. split; [done|].
  assert (Hid : t_ID StartDemo.tenant <> ""%string) by done. assert (Hz : LoadLocation "UTC" = Ok UTC) by done.
  assert (Hc : 2 <= 4) by lia.
  destruct (accepted_config_starts StartDemo.production c StartDemo.tenant 4 UTC (fun _ => monday 0 0) Hl Hid Hc Hz Hm)
    as (_ & _ & (adapter & model & parts & Ha & Hp & _) & _).
  exists adapter, model, parts. split; [exact Ha|exact Hp].
Defined.

Lemma runtime_stays_scoped_witness :
  exists c built components w', Load StartDemo.production = Ok c /\
    componentsFor (mkRuntime c 4 (Tenants.mkStore true None)) ∅ "t" calm StartDemo.tables = (Ok (built, components), w') /\
    scoped_to "t" built.
Proof.
  assert (H : exists c built components w', Load StartDemo.production = Ok c /\
    componentsFor (mkRuntime c 4 (Tenants.mkStore true None)) ∅ "t" calm StartDemo.tables = (Ok (built, components), w'))
    by (eexists _, _, _, _; split; [vm_compute; reflexivity|]; vm_compute; reflexivity).
  destruct H as (c & built & components & w' & Hl & Hr). exists c, built, components, w'. split; [done|]. split; [done|].
  assert (Hs : scoped_cache ∅) by (intros t b Hb; by rewrite lookup_empty in Hb).
  exact (proj1 (runtime_stays_scoped _ ∅ "t" calm StartDemo.tables built components w' Hs Hr)).
Defined.
