(* ===== verification/Migrations.v ===== *)
(** * Migrations of the schema: [internal/platform/database]

    Forward-only SQL files, applied each in a transaction of its own that also records the
    file's version and checksum.  What a file's statements do to the tables is a parameter;
    the advisory lock makes one run a single step among the runs of several processes.

    However its calls fare, a run applies files in the order of their names, each with its
    row, never a recorded version again, and it succeeds only when every file stands in
    the table as it is now. *)

From Stdlib Require Import ZArith Lia Ascii.
From stdpp Require Import base list strings pretty sorting.
From S2P Require Import Prelude GoTime Json JsonParse Hex Sha256 Repository Regexp OpenRouter Url Mux Tenants Bootstrap Database.

#[local] Open Scope Z_scope.

(** A row of [schema_migrations], and an entry of the directory of migrations. *)
Record Migration := mkMigration { mg_version : Z; mg_name : string; mg_checksum : string; mg_applied_at : Time }.
Record Entry := mkEntry { en_Name : string; en_IsDir : bool; en_Body : result string }.

(** [strings.TrimSuffix] *)
Definition trim_suffix (suffix s : string) : string :=
  if has_suffix suffix s then of_bytes (take (String.length s - String.length suffix) (string_bytes s)) else s.

Definition migrationVersion (name : string) : result Z :=
  let bytes := string_bytes name in
  let prefix := if existsb (is_char 95) bytes then of_bytes (cut_first 95 bytes).1 else trim_suffix ".sql" name in
  match Atoi prefix with
  | Some version => if version <? 1 then Err (ErrText (cat [quoted "migration" name; " must start with a positive numeric version"]))
                    else Ok version
  | None => Err (ErrText (cat [quoted "migration" name; " must start with a positive numeric version"]))
  end.

Definition name_before (a b : Entry) : bool := String.ltb (en_Name a) (en_Name b).

Definition is_script (f : Entry) : bool := negb (en_IsDir f) && has_suffix ".sql" (en_Name f).

Definition checksum_of (body : string) : string := EncodeToHex (sha256 body).

Section migrations.
Context {Schema : Type} (script : string -> Schema -> result Schema).

(** The committed tables, [schema_migrations] once it is there, and the calls so far. *)
Record State := mkState { schema : Schema; migrations : option (list Migration); calls : nat }.

(** What a transaction has done so far. *)
Record Work := mkWork { wk_schema : Schema; wk_migrations : list Migration; wk_now : Time }.

Definition Mig (A : Type) : Type := env -> State -> result A * State.

Definition mig_ret {A} (a : A) : Mig A := fun _ s => (Ok a, s).
Definition mig_fail {A} (err : error) : Mig A := fun _ s => (Err err, s).
Definition mig_bind {A B} (m : Mig A) (f : A -> Mig B) : Mig B := fun e s =>
  match m e s with (Ok a, s) => f a e s | (Err err, s) => (Err err, s) end.
Definition mig_wrap {A} (msg : string) (m : Mig A) : Mig A := fun e s =>
  match m e s with (Err err, s) => (Err (ErrWrap msg err), s) | ok => ok end.

#[local] Notation "'let?' x := m 'in' k" := (mig_bind m (fun x => k))
  (at level 10, x pattern, m at level 100, k at level 200).

Definition counted (s : State) : State := mkState (schema s) (migrations s) (S (calls s)).

(** A call that leaves the committed tables alone. *)
Definition call {A} (answer : Time -> State -> result A) : Mig A := fun e s =>
  (match fault e (calls s) with Some err => Err err | None => answer (clock e (calls s)) s end, counted s).

(** A change that is committed at once; when its answer was lost it may have landed. *)
Definition change (f : State -> State) : Mig unit := fun e s =>
  match fault e (calls s) with
  | None => (Ok tt, counted (f s))
  | Some err => (Err err, if negb (is_set (pg_code err)) && landed e (calls s) then counted (f s) else counted s)
  end.

Definition create_table (s : State) : State := mkState (schema s) (Some (default [] (migrations s))) (calls s).

Definition recorded (s : State) : list Migration := default [] (migrations s).

(** [SELECT checksum FROM schema_migrations WHERE version=$1]: [None] without a row. *)
Definition find_checksum (version : Z) (l : list Migration) : option string :=
  option_map mg_checksum (List.find (fun m => mg_version m =? version) l).

Definition begin_work : Mig Work := call (fun now s => Ok (mkWork (schema s) (recorded s) now)).

Definition run_script (body : string) (t : Work) : Mig Work :=
  call (fun _ _ => let! d := script body (wk_schema t) in Ok (mkWork d (wk_migrations t) (wk_now t))).

Definition record_migration (version : Z) (name checksum : string) (t : Work) : Mig Work :=
  call (fun _ _ =>
    if is_set (find_checksum version (wk_migrations t)) then Err UniqueViolation
    else Ok (mkWork (wk_schema t) (wk_migrations t ++ [mkMigration version name checksum (wk_now t)]) (wk_now t))).

Definition commit_work (t : Work) : Mig unit := change (fun s => mkState (wk_schema t) (Some (wk_migrations t)) (calls s)).

(** [_ = tx.Rollback(ctx)] before the error is returned. *)
Definition or_rollback {A} (m : Mig A) : Mig A := fun e s =>
  match m e s with (Err err, s) => (Err err, counted s) | ok => ok end.

Definition numbered (before : string) (version : Z) : string := cat [before; " migration "; pretty version].

Definition apply_migration (version : Z) (name body checksum : string) : Mig unit :=
  let? t := mig_wrap (numbered "begin" version) begin_work in
  let? t := or_rollback (mig_wrap (cat [numbered "apply" version; " ("; name; ")"]) (run_script body t)) in
  let? t := or_rollback (mig_wrap (numbered "record" version) (record_migration version name checksum t)) in
  mig_wrap (numbered "commit" version) (commit_work t).

(** One entry: skipped, found with its checksum, refused, or applied. *)
Definition migrate_entry (f : Entry) : Mig unit :=
  if negb (is_script f) then mig_ret tt
  else
    match migrationVersion (en_Name f) with
    | Err err => mig_fail err
    | Ok version =>
        match en_Body f with
        | Err err => mig_fail (ErrWrap (cat ["read migration "; en_Name f]) err)
        | Ok body =>
            let? existing := mig_wrap (numbered "check" version) (call (fun _ s => Ok (find_checksum version (recorded s)))) in
            match existing with
            | Some existing =>
                if String.eqb existing (checksum_of body) then mig_ret tt
                else mig_fail (ErrText (cat ["migration "; pretty version; " checksum changed"]))
            | None => apply_migration version (en_Name f) body (checksum_of body)
            end
        end
    end.

Fixpoint migrate_entries (l : list Entry) : Mig unit :=
  match l with
  | [] => mig_ret tt
  | f :: l => let? _ := migrate_entry f in migrate_entries l
  end.

(** The statement that gives the lock back runs whatever happened; its error is dropped. *)
Definition and_unlock (m : Mig unit) : Mig unit := fun e s => let '(r, s) := m e s in (r, counted s).

Definition ApplyMigrations (entries : result (list Entry)) : Mig unit :=
  let? _ := mig_wrap "acquire migration connection" (call (fun _ _ => Ok tt)) in
  let? _ := mig_wrap "lock migrations" (call (fun _ _ => Ok tt)) in
  and_unlock
    (let? _ := mig_wrap "create schema_migrations" (change create_table) in
     match entries with
     | Err err => mig_fail (ErrWrap "read migrations" err)
     | Ok entries => migrate_entries (sort_slice name_before entries)
     end).
End migrations.

(** * What a run of the migrations leaves behind *)

#[local] Open Scope Z_scope.

Section facts.
Context {Schema : Type} (script : string -> Schema -> result Schema).

#[local] Abbreviation Tables := (Schema * list Migration)%type.

(** Files of the list applied in its order, each to what the former ones left. *)
Inductive Applied : list Entry -> Tables -> Tables -> Prop :=
| Stops l t : Applied l t t
| Skips f l t t' : Applied l t t' -> Applied (f :: l) t t'
| Applies f l version body now d d' rows t' :
    is_script f = true -> migrationVersion (en_Name f) = Ok version -> en_Body f = Ok body ->
    version ∉ map mg_version rows -> script body d = Ok d' ->
    Applied l (d', rows ++ [mkMigration version (en_Name f) (checksum_of body) now]) t' ->
    Applied (f :: l) (d, rows) t'.

Definition tables_of (s : State (Schema := Schema)) : Tables := (schema s, recorded s).

(** The file stands in the table with its checksum. *)
Definition current (rows : list Migration) (f : Entry) : Prop :=
  is_script f = true -> exists version body, migrationVersion (en_Name f) = Ok version /\ en_Body f = Ok body /\
    find_checksum version rows = Some (checksum_of body).

Lemma Applied_grows l t t' : Applied l t t' -> exists added, t'.2 = t.2 ++ added.
Proof.
  induction 1 as [l t|f l t t' _ IH|f l version body now d d' rows t' _ _ _ _ _ _ (added & IH)]; [by exists []; rewrite app_nil_r|done|].
  cbn [snd] in *. eexists. by rewrite IH, <- app_assoc.
Qed.

Lemma Applied_then f l t t1 t2 : Applied [f] t t1 -> Applied l t1 t2 -> Applied (f :: l) t t2.
Proof.
  intros H1 H2. inversion H1; subst; [by apply Skips| |].
  - match goal with H : Applied [] _ _ |- _ => inversion H; subst end. by apply Skips.
  - match goal with H : Applied [] _ _ |- _ => inversion H; subst end. by eapply Applies.
Qed.

Lemma Applied_versions l t t' : Applied l t t' -> NoDup (map mg_version t.2) -> NoDup (map mg_version t'.2).
Proof.
  induction 1 as [l t|f l t t' _ IH|f l version body now d d' rows t' _ _ _ Hv _ _ IH]; intros Hn; [done|auto|].
  apply IH. cbn [snd] in *. rewrite map_app. apply NoDup_app. split; [done|]. split; [|apply NoDup_singleton].
  intros x Hx ->%list_elem_of_singleton. by apply Hv.
Qed.

Lemma find_app {A} (p : A -> bool) l1 l2 :
  List.find p (l1 ++ l2) = match List.find p l1 with Some x => Some x | None => List.find p l2 end.
Proof. induction l1 as [|x l1 IH]; simpl; [done|]. by destruct (p x). Qed.

Lemma find_checksum_app version rows added c :
  find_checksum version rows = Some c -> find_checksum version (rows ++ added) = Some c.
Proof.
  unfold find_checksum. rewrite find_app. by destruct (List.find _ rows).
Qed.

Lemma current_grows l t t' f : Applied l t t' -> current t.2 f -> current t'.2 f.
Proof.
  intros (added & ->)%Applied_grows Hc Hs. destruct (Hc Hs) as (version & body & ? & ? & ?).
  exists version, body. repeat split; [done|done|]. by apply find_checksum_app.
Qed.

Lemma find_checksum_none version rows : find_checksum version rows = None <-> version ∉ map mg_version rows.
Proof.
  unfold find_checksum. split.
  - destruct (List.find _ rows) eqn:E; [done|]. intros _ (m & Hm & Hin)%list_elem_of_fmap.
    apply list_elem_of_In in Hin. pose proof (find_none _ _ E _ Hin) as Hne. cbn in Hne. by rewrite Hm, Z.eqb_refl in Hne.
  - intros Hn. destruct (List.find _ rows) as [m|] eqn:E; [|done]. apply find_some in E as [Hin Heq].
    apply Z.eqb_eq in Heq as <-. exfalso. apply Hn. apply list_elem_of_fmap. exists m. split; [done|]. by apply list_elem_of_In.
Qed.

(** ** One file *)
Lemma apply_migration_spec f version body e s r s' :
  is_script f = true -> migrationVersion (en_Name f) = Ok version -> en_Body f = Ok body ->
  find_checksum version (recorded s) = None ->
  apply_migration script version (en_Name f) body (checksum_of body) e s = (r, s') ->
  Applied [f] (tables_of s) (tables_of s') /\
  (r = Ok tt -> find_checksum version (recorded s') = Some (checksum_of body)).
Proof.
  intros Hs Hv Hb Hn. unfold apply_migration, or_rollback, mig_bind, mig_wrap, begin_work, run_script, record_migration, commit_work, call, change.
  destruct (fault e (calls s)); [intros [= <- <-]; split; [apply Stops|done]|]. cbn [calls counted wk_schema wk_migrations wk_now].
  destruct (fault e (S (calls s))); [intros [= <- <-]; split; [apply Stops|done]|].
  destruct (script body (schema s)) as [d|] eqn:Hd; [|intros [= <- <-]; split; [apply Stops|done]]. cbn [rbind calls counted wk_schema wk_migrations wk_now].
  destruct (fault e (S (S (calls s)))); [intros [= <- <-]; split; [apply Stops|done]|]. rewrite Hn. cbn [is_set calls counted wk_schema wk_migrations wk_now].
  assert (Ha : forall now, Applied [f] (tables_of s)
    (d, recorded s ++ [mkMigration version (en_Name f) (checksum_of body) now])).
  { intros now. eapply Applies; [done|done|done|by apply find_checksum_none|done|apply Stops]. }
  destruct (fault e _).
  - destruct (negb _ && _); intros [= <- <-]; (split; [|done]); [apply Ha|apply Stops].
  - intros [= <- <-]. split; [apply Ha|]. intros _. cbn. unfold find_checksum in *. rewrite find_app.
    destruct (List.find _ (recorded s)); [done|]. cbn. by rewrite Z.eqb_refl.
Qed.

Lemma migrate_entry_spec f e s r s' :
  migrate_entry script f e s = (r, s') ->
  Applied [f] (tables_of s) (tables_of s') /\ (r = Ok tt -> current (recorded s') f).
Proof.
  unfold migrate_entry. destruct (is_script f) eqn:Hs; cbn [negb]; [|intros [= <- <-]; split; [apply Stops|congruence]].
  destruct (migrationVersion (en_Name f)) as [version|] eqn:Hv; [|intros [= <- <-]; split; [apply Stops|done]].
  destruct (en_Body f) as [body|] eqn:Hb; [|intros [= <- <-]; split; [apply Stops|done]].
  unfold mig_bind, mig_wrap, call. destruct (fault e (calls s)); [intros [= <- <-]; split; [apply Stops|done]|].
  destruct (find_checksum version (recorded s)) as [existing|] eqn:Hf.
  - destruct (String.eqb_spec existing (checksum_of body)) as [->|]; intros [= <- <-]; (split; [apply Stops|]); [|done].
    intros _ _. by exists version, body.
  - intros Ha. destruct (apply_migration_spec f version body e (counted s) r s' Hs Hv Hb Hf Ha) as [H1 H2].
    split; [exact H1|]. intros Hr _. exists version, body. auto.
Qed.

Lemma migrate_current f e s r s' :
  current (recorded s) f -> migrate_entry script f e s = (r, s') ->
  tables_of s' = tables_of s /\ ((forall n, fault e n = None) -> r = Ok tt).
Proof.
  unfold migrate_entry, current. destruct (is_script f) eqn:Hs; cbn [negb]; [|by intros _ [= <- <-]].
  intros (version & body & -> & -> & Hf); [done|]. unfold mig_bind, mig_wrap, call. rewrite Hf.
  destruct (fault e (calls s)) eqn:He; [intros [= <- <-]; split; [done|congruence]|].
  rewrite String.eqb_refl. by intros [= <- <-].
Qed.

(** ** All of them *)
Lemma migrate_entries_spec l e s r s' :
  migrate_entries script l e s = (r, s') ->
  Applied l (tables_of s) (tables_of s') /\ (r = Ok tt -> Forall (current (recorded s')) l).
Proof.
  revert s. induction l as [|f l IH]; intros s; simpl; [intros [= <- <-]; split; [apply Stops|constructor]|].
  unfold mig_bind. destruct (migrate_entry script f e s) as [r1 s1] eqn:E1. apply migrate_entry_spec in E1 as [H1 Hc].
  destruct r1 as [[]|err].
  - intros [Hl Hr]%IH. split; [by eapply Applied_then|]. intros Hok. constructor; [|auto].
    eapply (current_grows l (tables_of s1) (tables_of s')); [done|auto].
  - intros [= <- <-]. split; [|done]. eapply Applied_then; [done|apply Stops].
Qed.

Lemma migrate_entries_current l e s r s' :
  Forall (current (recorded s)) l -> migrate_entries script l e s = (r, s') ->
  tables_of s' = tables_of s /\ ((forall n, fault e n = None) -> r = Ok tt).
Proof.
  revert s. induction l as [|f l IH]; intros s Hl; simpl; [by intros [= <- <-]|]. inversion Hl as [|? ? Hf Hl']; subst.
  unfold mig_bind. destruct (migrate_entry script f e s) as [r1 s1] eqn:E1.
  apply migrate_current in E1 as [Ht Hr]; [|done]. assert (Hrec : recorded s1 = recorded s) by (by injection Ht).
  destruct r1 as [[]|err].
  - intros H. apply IH in H as [-> ?]; [done|by rewrite Hrec].
  - intros [= <- <-]. split; [done|]. intros Hn. by specialize (Hr Hn).
Qed.

Lemma tables_created s : tables_of (create_table s) = tables_of s.
Proof. done. Qed.

Lemma change_created e s r s' : change create_table e s = (r, s') -> tables_of s' = tables_of s.
Proof.
  unfold change. destruct (fault e (calls s)); [destruct (negb _ && _)|]; by intros [= <- <-].
Qed.

(** What the run does to the tables, once it has its connection and its lock. *)
Lemma apply_run entries e s r s' :
  ApplyMigrations script (Ok entries) e s = (r, s') ->
  tables_of s' = tables_of s /\ (exists n, fault e n <> None) /\ r <> Ok tt \/
  exists s0 s1, tables_of s0 = tables_of s /\ tables_of s' = tables_of s1 /\
    migrate_entries script (sort_slice name_before entries) e s0 = (r, s1).
Proof.
  unfold ApplyMigrations, mig_bind at 1 2, mig_wrap at 1 2, call at 1 2.
  destruct (fault e (calls s)) eqn:H0; [intros [= <- <-]; left; split_and!; [done|by exists (calls s); rewrite H0|done]|].
  destruct (fault e (calls (counted s))) eqn:H1; [intros [= <- <-]; left; split_and!; [done|by eexists; rewrite H1|done]|].
  unfold and_unlock, mig_bind, mig_wrap. destruct (change create_table e _) as [r0 s0] eqn:Hc.
  pose proof (change_created _ _ _ _ Hc) as Ht. destruct r0 as [[]|err].
  - intros H. right. destruct (migrate_entries script _ e s0) as [r1 s1] eqn:Hm. injection H as <- <-. exists s0, s1. auto.
  - intros [= <- <-]. left. split_and!; [done| |done]. unfold change in Hc.
    destruct (fault e (calls (counted (counted s)))) eqn:H2; [by eexists; rewrite H2|done].
Qed.
End facts.

(** C25. A run of the migrations, whichever of its calls fail or lose their answer, applies
    files in the order of their names, each to the tables the former ones left and together
    with its row, and none whose version stands in the table; versions stay distinct.  It
    succeeds only when every file stands in the table with its present checksum, so a file
    that was changed later is refused, and where they all do a run changes nothing and
    fails only if a call fails. *)
Theorem migrations_apply_once {Schema : Type} (script : string -> Schema -> result Schema)
    (entries : list Entry) (e : env) (s s' : State) (r : result unit)
    (Hrun : ApplyMigrations script (Ok entries) e s = (r, s')) :
  Applied script (sort_slice name_before entries) (tables_of s) (tables_of s') /\
  (NoDup (map mg_version (recorded s)) -> NoDup (map mg_version (recorded s'))) /\
  (r = Ok tt -> Forall (current (recorded s')) entries) /\
  (Forall (current (recorded s)) entries ->
   tables_of s' = tables_of s /\ ((forall n, fault e n = None) -> r = Ok tt)).
Proof.
  destruct (apply_run script entries e s r s' Hrun) as [(Ht & (n & Hf) & Hr)|(s0 & s1 & H0 & H1 & Hm)].
  - split; [rewrite Ht; apply Stops|]. assert (Hrec : recorded s' = recorded s) by (by injection Ht).
    rewrite Hrec. split; [done|]. split; [done|]. intros _. split; [done|]. intros Hn. by rewrite Hn in Hf.
  - destruct (migrate_entries_spec script _ _ _ _ _ Hm) as [Ha Hc]. rewrite H0, <- H1 in Ha.
    assert (recorded s' = recorded s1) as Hrec by (by injection H1).
    split; [exact Ha|]. split; [exact (Applied_versions script _ _ _ Ha)|]. split.
    + intros Hr. apply Hc in Hr. by rewrite sort_slice_perm, <- Hrec in Hr.
    + intros Hcur. assert (recorded s0 = recorded s) as Hrec0 by (by injection H0).
      rewrite <- Hrec0 in Hcur. rewrite <- (sort_slice_perm name_before) in Hcur.
      destruct (migrate_entries_current script _ _ _ _ _ Hcur Hm) as [H2 H3]. split; [congruence|exact H3].
Qed.

(** ** A first start and a second one *)
Module MigrationsDemo.
Definition entries : list Entry :=
  [mkEntry "000002_channels.sql" false (Ok "b"); mkEntry "embed.go" false (Ok "package migrations");
   mkEntry "000001_stage1.sql" false (Ok "a")].

(** The tables are the scripts that ran. *)
Definition script (body : string) (d : list string) : result (list string) := Ok (d ++ [body]).

(** The answer to the second file's commit is lost. *)
Definition e : env :=
  mkEnv (fun n => mkTime (Z.of_nat n) (mkLocation "UTC" 0 [])) (fun _ _ => ""%string) (fun _ _ => true)
    (fun n => if Nat.eqb n 12 then Some (ErrSentinel "EOF") else None) (fun _ => true) (fun _ => None).

Definition empty : State (Schema := list string) := mkState [] None 0.
End MigrationsDemo.
Import MigrationsDemo.

Lemma migrations_apply_once_witness :
  exists r s r' s', ApplyMigrations script (Ok entries) e empty = (Err r, s) /\ schema s = ["a"; "b"]%string /\
    map mg_version (recorded s) = [1; 2] /\
    ApplyMigrations script (Ok entries) e s = (r', s') /\ tables_of s' = tables_of s /\ Forall (current (recorded s')) entries.
Proof.
  destruct (ApplyMigrations script (Ok entries) e empty) as [[x|r] s] eqn:H1; [vm_compute in H1; discriminate H1|].
  destruct (ApplyMigrations script (Ok entries) e s) as [r' s'] eqn:H2.
  exists r, s, r', s'. split; [reflexivity|].
  assert (Hs : s = (ApplyMigrations script (Ok entries) e empty).2) by (by rewrite H1).
  split; [rewrite Hs; vm_compute; reflexivity|]. split; [rewrite Hs; vm_compute; reflexivity|]. split; [exact H2|].
  assert (Hr : r' = Ok tt).
  { transitivity (ApplyMigrations script (Ok entries) e s).1; [by rewrite H2|]. rewrite Hs. vm_compute. reflexivity. }
  destruct (migrations_apply_once script entries e s s' r' H2) as (_ & _ & Hall & Hsame).
  assert (Hcur : Forall (current (recorded s)) entries).
  { rewrite Hs. repeat constructor; intros Hscript; try discriminate Hscript;
    eexists _, _; (split; [vm_compute; reflexivity|]); (split; [reflexivity|vm_compute; reflexivity]). }
  split; [exact (proj1 (Hsame Hcur))|exact (Hall Hr)].
Defined.
