(* ===== verification/Float64.v ===== *)
(** * Go's [float64]

    The specification of binary64 (53 bits of precision, exponents below 1024), the units
    of a duration, and the shortest decimal text of a number. *)

From Stdlib Require Import ZArith Lia Ascii SpecFloat.
From stdpp Require Import base list strings pretty.
From S2P Require Import Prelude GoTime Json.

#[local] Open Scope Z_scope.

Definition float64 : Type := spec_float.

#[global] Instance float64_eq_dec : EqDecision float64.
Proof. unfold float64. solve_decision. Defined.

Definition zero : float64 := S754_zero false.
Definition float_of (z : Z) : float64 := binary_normalize 53 1024 z 0 false.
Definition fadd : float64 -> float64 -> float64 := SFadd 53 1024.
Definition fsub : float64 -> float64 -> float64 := SFsub 53 1024.
Definition fmul : float64 -> float64 -> float64 := SFmul 53 1024.
Definition fdiv : float64 -> float64 -> float64 := SFdiv 53 1024.
Definition flt : float64 -> float64 -> bool := SFltb.
Definition fle : float64 -> float64 -> bool := SFleb.

(** The number nearest to [num / den]: the quotient with two bits to spare and more, its
    last one set when a rest is left, is rounded once. *)
Definition float_of_ratio (num den : Z) : float64 :=
  let shift := Z.max 0 (60 + Z.log2 den - Z.log2 num) in
  let scaled := num * 2 ^ shift in
  let q := scaled / den in
  binary_normalize 53 1024 (2 * q + (if scaled mod den =? 0 then 0 else 1)) (- shift - 1) false.

(** [Duration.Minutes] and [Duration.Seconds] *)
Definition in_unit (unit d : Z) : float64 :=
  fadd (float_of (Z.quot d unit)) (fdiv (float_of (Z.rem d unit)) (float_of unit)).
Definition Minutes : Z -> float64 := in_unit Minute.
Definition Seconds : Z -> float64 := in_unit Second.

(** ** [strconv.FormatFloat(v, 'g', -1, 64)] *)
(** A positive number is a ratio of integers. *)
Definition ratio (m : positive) (e : Z) : Z * Z := if 0 <=? e then (Zpos m * 2 ^ e, 1) else (Zpos m, 2 ^ (- e)).

(** [10^k <= num / den] *)
Definition reaches (num den k : Z) : bool := if 0 <=? k then 10 ^ k * den <=? num else den <=? num * 10 ^ (- k).

(** The exponent of the first digit. *)
Fixpoint leading (fuel : nat) (k : Z) (num den : Z) : Z :=
  match fuel with
  | O => k
  | S fuel => if reaches num den k then k else leading fuel (k - 1) num den
  end.

(** [d * 10^k] as a number. *)
Definition decimal (d k : Z) : float64 := if 0 <=? k then float_of_ratio (d * 10 ^ k) 1 else float_of_ratio d (10 ^ (- k)).

(** The nearer of the two decimals of [n] digits around the number that reads back as it. *)
Definition digits_of (n : Z) (v : float64) (num den k : Z) : option Z :=
  let last := k - n + 1 in
  let '(a, b) := if 0 <=? last then (num, den * 10 ^ last) else (num * 10 ^ (- last), den) in
  let d := a / b in
  let candidates := if 2 * (a mod b) <? b then [d; d + 1] else if 2 * (a mod b) =? b then [d + Z.modulo d 2; d + 1 - Z.modulo d 2]
                    else [d + 1; d] in
  List.find (fun d => bool_decide (decimal d last = v)) candidates.

Fixpoint shortest (fuel : nat) (n : Z) (v : float64) (num den k : Z) : Z * Z :=
  match fuel with
  | O => (0, 0)
  | S fuel => match digits_of n v num den k with Some d => (d, k - n + 1) | None => shortest fuel (n + 1) v num den k end
  end.

(** Without the zeros at its end. *)
Fixpoint trimmed (fuel : nat) (d k : Z) : Z * Z :=
  match fuel with
  | O => (d, k)
  | S fuel => if d mod 10 =? 0 then trimmed fuel (d / 10) (k + 1) else (d, k)
  end.

Definition two_digits (n : Z) : string := if n <? 10 then String.append "0" (pretty n) else pretty n.

(** [digits] read with the first one at the power [e] of ten. *)
Definition format_exp (digits : list ascii) (e : Z) : string :=
  let mantissa := match digits with
                  | [] => [] | [d] => [d]
                  | d :: rest => d :: chr 46 :: rest
                  end in
  of_bytes (mantissa ++ string_bytes (if e <? 0 then "e-" else "e+") ++ string_bytes (two_digits (Z.abs e))).

Definition format_plain (digits : list ascii) (e : Z) : string :=
  let zeros n := repeat (chr 48) (Z.to_nat n) in
  of_bytes
    (if e <? 0 then chr 48 :: chr 46 :: zeros (- e - 1) ++ digits
     else
       let whole := take (Z.to_nat (e + 1)) digits in
       let rest := drop (Z.to_nat (e + 1)) digits in
       whole ++ zeros (e + 1 - Z.of_nat (length digits)) ++ (match rest with [] => [] | _ => chr 46 :: rest end)).

Definition format_positive (v : float64) (m : positive) (e : Z) : string :=
  let '(num, den) := ratio m e in
  let k := leading 640 308 num den in
  let '(d, last) := shortest 17 1 v num den k in
  let '(d, last) := trimmed 17 d last in
  let digits := string_bytes (pretty d) in
  let e := last + Z.of_nat (length digits) - 1 in
  if (e <? -4) || (6 <=? e) then format_exp digits e else format_plain digits e.

Definition formatFloat (v : float64) : string :=
  match v with
  | S754_zero false => "0"
  | S754_zero true => "-0"
  | S754_infinity false => "+Inf"
  | S754_infinity true => "-Inf"
  | S754_nan => "NaN"
  | S754_finite false m e => format_positive v m e
  | S754_finite true m e => String.append "-" (format_positive (S754_finite false m e) m e)
  end.

Example formats :
  (map formatFloat (map float_of [0; 1; 100000; 1000000; 1785751200; -25]) =
    ["0"; "1"; "100000"; "1e+06"; "1.7857512e+09"; "-25"])%string /\
  (map formatFloat [float_of_ratio 1 200; float_of_ratio 25 10; float_of_ratio 1 3; fadd (float_of_ratio 1 10) (float_of_ratio 2 10)] =
    ["0.005"; "2.5"; "0.3333333333333333"; "0.30000000000000004"])%string.
Proof. split; vm_compute; reflexivity. Qed.
