(* ===== verification/Httpx.v ===== *)
(** * The edge of the HTTP server: [internal/platform/httpx]

    The allowed origin of the widget's API and the token bucket of each client. *)

From Stdlib Require Import ZArith Lia Ascii.
From stdpp Require Import base list strings gmap.
From S2P Require Import Prelude GoTime Float64 Json JsonParse Validation Tokens Regexp Url Mux.

#[local] Open Scope Z_scope.

#[local] Abbreviation TrimSpace := JsonParse.TrimSpace.

(** ** The allowed origin *)
(** What [CORS] adds to the answer: the origin it allows; and whether it answers itself. *)
Inductive Cors := Unmarked | Marked (allowed : string) | Preflighted (allowed : string).

Definition CORS (allowedOrigin method origin : string) : Cors :=
  if negb (bool_decide (origin = "")) && (String.eqb allowedOrigin "*" || names_field origin allowedOrigin) then
    if String.eqb method "OPTIONS" then Preflighted allowedOrigin else Marked allowedOrigin
  else Unmarked.

(** ** The rate limiter *)
Record bucket := mkBucket { bk_tokens : float64; bk_seen : Time }.

Record RateLimiter := mkLimiter {
  buckets : gmap string bucket; perMinute : float64; burst : float64; lastCleanup : Time; trustForwardedFor : bool
}.

Definition NewRateLimiter (perMinute burst : Z) : RateLimiter :=
  mkLimiter ∅ (float_of (Z.max 1 perMinute)) (float_of (Z.max 1 burst)) zero_time true.

Definition SetTrustForwardedFor (trust : bool) (l : RateLimiter) : RateLimiter :=
  mkLimiter (buckets l) (perMinute l) (burst l) (lastCleanup l) trust.

(** Once a minute, the buckets that have been idle for ten are dropped. *)
Definition kept_bucket (now : Time) (kv : string * bucket) : Prop := Sub now (bk_seen kv.2) <= 10 * Minute.

#[global] Instance kept_bucket_dec now kv : Decision (kept_bucket now kv).
Proof. unfold kept_bucket. apply _. Defined.

Definition cleanup (now : Time) (l : RateLimiter) : RateLimiter :=
  if Minute <? Sub now (lastCleanup l)
  then mkLimiter (filter (kept_bucket now) (buckets l)) (perMinute l) (burst l) now (trustForwardedFor l)
  else l.

(** The tokens of a client now, before one is taken. *)
Definition refilled (now : Time) (perMinute burst : float64) (state : option bucket) : float64 :=
  match state with
  | None => burst
  | Some state =>
      let tokens := fadd (bk_tokens state) (fmul (Minutes (Sub now (bk_seen state))) perMinute) in
      if flt burst tokens then burst else tokens
  end.

Definition allow (now : Time) (key : string) (l : RateLimiter) : bool * RateLimiter :=
  let l := cleanup now l in
  let tokens := refilled now (perMinute l) (burst l) (buckets l !! key) in
  let admitted := negb (flt tokens (float_of 1)) in
  let tokens := if admitted then fsub tokens (float_of 1) else tokens in
  (admitted, mkLimiter (<[key := mkBucket tokens now]> (buckets l)) (perMinute l) (burst l) (lastCleanup l) (trustForwardedFor l)).

Definition clientKey (l : RateLimiter) (forwarded remote : string) : string :=
  let first := TrimSpace (of_bytes (cut_first 44 (string_bytes forwarded)).1) in
  if trustForwardedFor l && negb (bool_decide (forwarded = "")) && negb (bool_decide (first = "")) then first
  else match SplitHostPort (string_bytes remote) with Some h => of_bytes h | None => remote end.

(** [/healthz] and [/readyz] *)
Definition is_probe (path : string) : bool := String.eqb path "/healthz" || String.eqb path "/readyz".

(** [Middleware]: whether the request goes on. *)
Definition admitted (now : Time) (path forwarded remote : string) (l : RateLimiter) : bool * RateLimiter :=
  if is_probe path then (true, l) else allow now (clientKey l forwarded remote) l.

(** ** Clients do not share their buckets *)
Lemma cleanup_config now l :
  perMinute (cleanup now l) = perMinute l /\ burst (cleanup now l) = burst l /\ trustForwardedFor (cleanup now l) = trustForwardedFor l.
Proof. unfold cleanup. by destruct (_ <? _). Qed.

Lemma cleanup_lookup now l key :
  buckets (cleanup now l) !! key = buckets l !! key \/
  buckets (cleanup now l) !! key = None /\ exists b, buckets l !! key = Some b /\ 10 * Minute < Sub now (bk_seen b).
Proof.
  unfold cleanup. destruct (_ <? _); [|by left]. cbn [buckets].
  destruct (buckets l !! key) as [b|] eqn:Hb.
  - destruct (decide (kept_bucket now (key, b))) as [Hk|Hk].
    + left. by apply map_lookup_filter_Some_2.
    + right. split; [|exists b; split; [done|]; unfold kept_bucket in Hk; cbn in Hk; lia].
      apply map_lookup_filter_None. right. intros b' Hb'. by rewrite Hb in Hb'; simplify_eq.
  - left. apply map_lookup_filter_None. by left.
Qed.

Lemma allow_other now key other l :
  other <> key ->
  buckets (allow now key l).2 !! other = buckets l !! other \/
  buckets (allow now key l).2 !! other = None /\ exists b, buckets l !! other = Some b /\ 10 * Minute < Sub now (bk_seen b).
Proof.
  intros Hne. unfold allow. cbn [snd buckets]. rewrite lookup_insert_ne by done. apply cleanup_lookup.
Qed.

Lemma allow_config now key l :
  perMinute (allow now key l).2 = perMinute l /\ burst (allow now key l).2 = burst l /\
  trustForwardedFor (allow now key l).2 = trustForwardedFor l.
Proof. apply (cleanup_config now l). Qed.
