(* ===== verification/Metrics.v ===== *)
(** * Metrics: [internal/platform/metrics]

    Families of counters, gauges and histograms in a registry, their text for a scrape
    ([metrics.go]), and the middleware that counts requests ([http.go]).  A family is
    reached by its name, as the code reaches it by a pointer; [None] is a panic.

    The lock-free addition loses no delta however goroutines interleave, and the buckets of
    a histogram say how many observations lie below each bound. *)

From Stdlib Require Import ZArith Lia Ascii SpecFloat.
From stdpp Require Import base list strings gmap pretty relations sorting.
From S2P Require Import Prelude GoTime Float64 Json JsonParse Regexp Repository.

#[local] Open Scope Z_scope.

Definition chr_text (n : Z) : string := str (chr n).

Definition DefBuckets : list float64 :=
  map (fun r => float_of_ratio r.1 r.2)
    [(5, 1000); (1, 100); (25, 1000); (5, 100); (1, 10); (25, 100); (5, 10); (1, 1); (25, 10); (5, 1); (10, 1)].

(** ** Values *)
(** [Counter.Add] *)
Definition counter_add (delta v : float64) : option float64 := if flt delta zero then None else Some (fadd v delta).
Definition counter_inc : float64 -> option float64 := counter_add (float_of 1).
Definition gauge_add (delta v : float64) : float64 := fadd v delta.

(** [Histogram]: the counts of its finite bounds are 64 bits wide, as is the total. *)
Record Histogram := mkHistogram { hg_counts : list Z; hg_sum : float64; hg_count : Z }.

Definition uint64 (n : Z) : Z := n mod two64.

Definition new_histogram (upper : list float64) : Histogram := mkHistogram (map (fun _ => 0) upper) zero 0.

(** [sort.Search] over [i..j] with the test [f]. *)
Fixpoint Search (fuel : nat) (f : nat -> bool) (i j : nat) : nat :=
  match fuel with
  | O => i
  | S fuel =>
      if (i <? j)%nat then
        let h := Nat.div2 (i + j) in
        if f h then Search fuel f i h else Search fuel f (S h) j
      else i
  end.

Definition SearchFloat64s (upper : list float64) (v : float64) : nat :=
  Search (length upper) (fun i => fle v (nth i upper zero)) 0 (length upper).

Definition Observe (upper : list float64) (v : float64) (h : Histogram) : Histogram :=
  let i := SearchFloat64s upper v in
  mkHistogram (alter (fun n => uint64 (n + 1)) i (hg_counts h)) (fadd (hg_sum h) v) (uint64 (hg_count h + 1)).

(** ** Families *)
Definition Children (A : Type) : Type := gmap string (list string * A).

Inductive Family :=
| CounterFamily (v : float64)
| GaugeFamily (v : float64)
| CounterVec (labels : list string) (children : Children float64)
| GaugeVec (labels : list string) (children : Children float64)
| HistogramVec (labels : list string) (upper : list float64) (children : Children Histogram).

Record Collector := mkCollector { cl_name : string; cl_help : string; cl_family : Family }.

(** [Registry]: the families in the order of their registration. *)
Definition Registry : Type := list Collector.
Definition NewRegistry : Registry := [].

Definition named (name : string) (c : Collector) : bool := String.eqb (cl_name c) name.

Definition register (name help : string) (f : Family) (r : Registry) : option Registry :=
  if existsb (named name) r then None else Some (r ++ [mkCollector name help f]).

Definition NewCounter (name help : string) : Registry -> option Registry := register name help (CounterFamily zero).
Definition NewGauge (name help : string) : Registry -> option Registry := register name help (GaugeFamily zero).
Definition NewCounterVec (name help : string) (labels : list string) : Registry -> option Registry :=
  register name help (CounterVec labels ∅).
Definition NewGaugeVec (name help : string) (labels : list string) : Registry -> option Registry :=
  register name help (GaugeVec labels ∅).
Definition NewHistogramVec (name help : string) (buckets : list float64) (labels : list string) : Registry -> option Registry :=
  register name help (HistogramVec labels (sort_slice flt (match buckets with [] => DefBuckets | _ => buckets end)) ∅).

(** The child of the label values, made on first use, and what becomes of it. *)
Definition labelSeparator : string := chr_text 255.
Definition child_key (values : list string) : string := String.concat labelSeparator values.

Definition With {A} (labels values : list string) (fresh : A) (f : A -> option A) (children : Children A)
    : option (Children A) :=
  if negb (length values =? length labels)%nat then None
  else
    let '(kept, child) := default (values, fresh) (children !! child_key values) in
    child ← f child; Some (<[child_key values := (kept, child)]> children).

(** A change to the family of a name. *)
Fixpoint update (name : string) (f : Family -> option Family) (r : Registry) : option Registry :=
  match r with
  | [] => None
  | c :: r =>
      if named name c then x ← f (cl_family c); Some (mkCollector (cl_name c) (cl_help c) x :: r)
      else r ← update name f r; Some (c :: r)
  end.

Definition inc (f : Family) : option Family :=
  match f with
  | CounterFamily v => CounterFamily <$> counter_inc v
  | GaugeFamily v => Some (GaugeFamily (gauge_add (float_of 1) v))
  | _ => None
  end.

Definition dec (f : Family) : option Family :=
  match f with GaugeFamily v => Some (GaugeFamily (gauge_add (float_of (-1)) v)) | _ => None end.

Definition inc_with (values : list string) (f : Family) : option Family :=
  match f with
  | CounterVec labels children => CounterVec labels <$> With labels values zero counter_inc children
  | _ => None
  end.

Definition set_gauge (v : float64) (f : Family) : option Family :=
  match f with GaugeFamily _ => Some (GaugeFamily v) | _ => None end.

Definition set_with (values : list string) (v : float64) (f : Family) : option Family :=
  match f with
  | GaugeVec labels children => GaugeVec labels <$> With labels values zero (fun _ => Some v) children
  | _ => None
  end.

Definition observe_with (values : list string) (v : float64) (f : Family) : option Family :=
  match f with
  | HistogramVec labels upper children =>
      HistogramVec labels upper <$> With labels values (new_histogram upper) (fun h => Some (Observe upper v h)) children
  | _ => None
  end.

(** ** The text of a scrape *)
Definition line_feed : string := chr_text 10.

Definition escape_rune (quotes : bool) (r : Z) : list ascii :=
  if r =? 92 then [chr 92; chr 92]
  else if r =? 10 then [chr 92; chr 110]
  else if quotes && (r =? 34) then [chr 92; chr 34]
  else encode_rune r.

Definition escaped (quotes : bool) (s : string) : string := of_bytes (flat_map (escape_rune quotes) (runes_of s)).

Definition writeHelpType (name help type : string) : string :=
  cat ["# HELP "; name; " "; escaped false help; line_feed; "# TYPE "; name; " "; type; line_feed].

Definition label_text (p : string * string) : string := cat [p.1; "="; chr_text 34; escaped true p.2; chr_text 34].

Definition writeSample (name : string) (labels values : list string) (v : float64) : string :=
  cat [name;
       match labels with [] => "" | _ => cat ["{"; String.concat "," (map label_text (zip labels values)); "}"] end;
       " "; formatFloat v; line_feed].

(** [sortedKeys] *)
Definition sortedKeys {A} (children : Children A) : list string := sort_slice String.ltb (map fst (map_to_list children)).

Definition each_child {A} (render : list string -> A -> string) (children : Children A) : string :=
  cat (map (fun key => match children !! key with Some (values, child) => render values child | None => "" end)
         (sortedKeys children)).

Fixpoint cumulative (total : Z) (counts : list Z) : list Z :=
  match counts with [] => [] | n :: tl => let total := uint64 (total + n) in total :: cumulative total tl end.

Definition render_histogram (name : string) (labels : list string) (upper : list float64) (values : list string) (h : Histogram)
    : string :=
  let bucket bound n := writeSample (String.append name "_bucket") (labels ++ ["le"]) (values ++ [bound]) (float_of n) in
  cat (map (fun p => bucket (formatFloat p.1) p.2) (zip upper (cumulative 0 (hg_counts h))) ++
       [bucket "+Inf" (hg_count h);
        writeSample (String.append name "_sum") labels values (hg_sum h);
        writeSample (String.append name "_count") labels values (float_of (hg_count h))]).

Definition render (c : Collector) : string :=
  let name := cl_name c in
  match cl_family c with
  | CounterFamily v => cat [writeHelpType name (cl_help c) "counter"; writeSample name [] [] v]
  | GaugeFamily v => cat [writeHelpType name (cl_help c) "gauge"; writeSample name [] [] v]
  | CounterVec labels children =>
      cat [writeHelpType name (cl_help c) "counter"; each_child (writeSample name labels) children]
  | GaugeVec labels children =>
      cat [writeHelpType name (cl_help c) "gauge"; each_child (writeSample name labels) children]
  | HistogramVec labels upper children =>
      cat [writeHelpType name (cl_help c) "histogram"; each_child (render_histogram name labels upper) children]
  end.

Definition Gather (r : Registry) : string := cat (map render r).

(** ** The process and its requests *)
Definition RegisterProcessInfo (version go_version : string) (now : Time) (r : Registry) : option Registry :=
  let version := if bool_decide (version = "") then "dev" else version in
  r ← NewGaugeVec "kontor_build_info" "Build and runtime information; always 1." ["version"; "go_version"] r;
  r ← update "kontor_build_info" (set_with [version; go_version] (float_of 1)) r;
  r ← NewGauge "kontor_process_start_time_seconds" "Start time of the process since the Unix epoch, in seconds." r;
  update "kontor_process_start_time_seconds" (set_gauge (float_of (unix now))) r.

Definition NewHTTP (r : Registry) : option Registry :=
  r ← NewCounterVec "kontor_http_requests_total" "Total HTTP requests by method and response status code." ["method"; "code"] r;
  r ← NewHistogramVec "kontor_http_request_duration_seconds" "HTTP request latency in seconds by method." DefBuckets ["method"] r;
  r ← NewGauge "kontor_http_requests_in_flight" "In-flight HTTP requests currently being served." r;
  NewCounter "kontor_http_rate_limited_total" "Requests rejected by the edge rate limiter." r.

Definition RateLimited : Registry -> option Registry := update "kontor_http_rate_limited_total" inc.

(** Before the handler runs, and when it returns or panics. *)
Definition request_started : Registry -> option Registry := update "kontor_http_requests_in_flight" inc.

Definition request_ended (method : string) (status : Z) (longLived : bool) (elapsed : Z) (r : Registry) : option Registry :=
  r ← update "kontor_http_requests_in_flight" dec r;
  r ← update "kontor_http_requests_total" (inc_with [method; pretty status]) r;
  if longLived then Some r
  else update "kontor_http_request_duration_seconds" (observe_with [method] (Seconds elapsed)) r.

(** [statusRecorder]: the first status that is written, 200 until then. *)
Record statusRecorder := mkRecorder { sr_status : Z; sr_written : bool }.
Definition new_recorder : statusRecorder := mkRecorder 200 false.
Definition WriteHeader (code : Z) (s : statusRecorder) : statusRecorder :=
  if sr_written s then s else mkRecorder code true.
Definition Write (s : statusRecorder) : statusRecorder := mkRecorder (sr_status s) true.

(** ** The loop of [Counter.Add] and [Gauge.Add] among goroutines *)
(** A goroutine adds [delta]: it loads the bits, and swaps them if they are unchanged. *)
Inductive Adder := Loads (delta : float64) | Swaps (delta old : float64) | Added (delta : float64).

Inductive add_step : float64 * list Adder -> float64 * list Adder -> Prop :=
| Load v adders i delta :
    adders !! i = Some (Loads delta) -> add_step (v, adders) (v, <[i := Swaps delta v]> adders)
| Swap v adders i delta :
    adders !! i = Some (Swaps delta v) -> add_step (v, adders) (fadd v delta, <[i := Added delta]> adders)
| Retry v adders i delta old :
    adders !! i = Some (Swaps delta old) -> old <> v -> add_step (v, adders) (v, <[i := Loads delta]> adders).

(** * What the metrics count *)

#[local] Open Scope Z_scope.

(** ** Additions among goroutines *)
Definition delta_of (a : Adder) : float64 := match a with Loads d | Swaps d _ | Added d => d end.
Definition landed_delta (a : Adder) : option float64 := match a with Added d => Some d | _ => None end.

(** The value is the start and what has landed, in the order it did. *)
Definition tallied (start : float64) (s : float64 * list Adder) : Prop :=
  exists order, order ≡ₚ omap landed_delta s.2 /\ s.1 = fold_left fadd order start.

Lemma landed_cons a (adders : list Adder) :
  omap landed_delta (a :: adders) = match landed_delta a with Some d => d :: omap landed_delta adders | None => omap landed_delta adders end.
Proof. done. Qed.

Lemma landed_insert (adders : list Adder) (i : nat) a d :
  adders !! i = Some a -> landed_delta a = None ->
  omap landed_delta (<[i := Added d]> adders) ≡ₚ omap landed_delta adders ++ [d].
Proof.
  intros Hi Ha. revert i Hi. induction adders as [|x adders IH]; intros [|i] Hi; try done.
  - injection Hi as ->. change (<[0%nat:=Added d]> (a :: adders)) with (Added d :: adders).
    rewrite (landed_cons (Added d)), (landed_cons a), Ha. apply Permutation_cons_append.
  - specialize (IH i Hi). change (<[S i:=Added d]> (x :: adders)) with (x :: <[i:=Added d]> adders).
    rewrite !landed_cons. destruct (landed_delta x); cbn; by rewrite IH.
Qed.

Lemma landed_same (adders : list Adder) (i : nat) a b :
  adders !! i = Some a -> landed_delta a = None -> landed_delta b = None ->
  omap landed_delta (<[i := b]> adders) = omap landed_delta adders.
Proof.
  intros Hi Ha Hb. revert i Hi. induction adders as [|x adders IH]; intros [|i] Hi; try done.
  - injection Hi as ->. change (<[0%nat:=b]> (a :: adders)) with (b :: adders). by rewrite !landed_cons, Ha, Hb.
  - specialize (IH i Hi). change (<[S i:=b]> (x :: adders)) with (x :: <[i:=b]> adders). by rewrite !landed_cons, IH.
Qed.

Lemma add_step_tallied start s s' : add_step s s' -> tallied start s -> tallied start s'.
Proof.
  intros Hs (order & Ho & Hv). unfold tallied. destruct Hs as [v adders i delta Hi|v adders i delta Hi|v adders i delta old Hi Hne]; cbn [fst snd] in *.
  - exists order. by rewrite (landed_same adders i _ _ Hi) by done.
  - exists (order ++ [delta]). cbn [fst snd]. rewrite fold_left_app, (landed_insert adders i _ _ Hi) by done. split; [by rewrite Ho|by rewrite Hv].
  - exists order. by rewrite (landed_same adders i _ _ Hi) by done.
Qed.

Lemma add_step_deltas s s' : add_step s s' -> map delta_of s'.2 = map delta_of s.2.
Proof.
  assert (Hm : forall (adders : list Adder) (i : nat) a b, adders !! i = Some a -> delta_of b = delta_of a -> map delta_of (<[i := b]> adders) = map delta_of adders).
  { intros adders i a b Hi Hd. apply list_eq. intros j. rewrite !list_lookup_fmap.
    destruct (decide (i = j)) as [<-|]; [|by rewrite list_lookup_insert_ne].
    rewrite list_lookup_insert_eq by (by eapply lookup_lt_Some). by rewrite Hi; cbn; rewrite Hd. }
  intros [v adders i delta Hi|v adders i delta Hi|v adders i delta old Hi Hne]; cbn [snd]; by eapply Hm.
Qed.

Lemma unfinished_steps v (adders : list Adder) (i : nat) a :
  adders !! i = Some a -> landed_delta a = None -> exists s', add_step (v, adders) s'.
Proof.
  destruct a as [d|d old|d]; intros Hi Ha; [|destruct (decide (old = v)) as [->|]|done]; eexists;
    [by eapply Load|by eapply Swap|by eapply Retry].
Qed.

(** C30. However goroutines that add to a counter or a gauge interleave, the value is always
    the start and the deltas that have landed, each once, in the order they did; one that
    has not landed can go on; and when none can, the value holds the delta of every one. *)
Theorem additions_all_land (start : float64) (deltas : list float64) (s : float64 * list Adder)
    (Hrun : rtc add_step (start, map Loads deltas) s) :
  tallied start s /\
  (forall (i : nat) a, s.2 !! i = Some a -> landed_delta a = None -> exists s', add_step s s') /\
  ((forall s', ~ add_step s s') -> exists order, order ≡ₚ deltas /\ s.1 = fold_left fadd order start).
Proof.
  assert (Hinv : tallied start s /\ map delta_of s.2 = deltas).
  { eapply (rtc_ind_r (R := add_step) (fun s => tallied start s /\ map delta_of s.2 = deltas)); [| |exact Hrun].
    - split; [exists []; split; [|done]|]; cbn [snd]; [clear; by induction deltas|]. rewrite map_map. cbn. by rewrite map_id.
    - intros y z _ Hs [Ht Hd]. split; [by eapply add_step_tallied|by rewrite (add_step_deltas y z)]. }
  destruct s as [v adders], Hinv as [Ht Hd]. split; [done|]. split; [intros i a; apply unfinished_steps|].
  intros Hstuck. destruct Ht as (order & Ho & Hv). exists order. split; [|done]. rewrite Ho. cbn [snd] in *.
  rewrite <- Hd. assert (Hall : Forall (fun a => landed_delta a = Some (delta_of a)) adders).
  { apply Forall_forall. intros a (i & Hi)%list_elem_of_lookup. destruct (landed_delta a) eqn:Ha; [by destruct a; simplify_eq/=|].
    destruct (unfinished_steps v adders i a Hi Ha) as [s' Hs']. by apply Hstuck in Hs'. }
  clear -Hall. induction Hall as [|a l Ha _ IH]; [done|]. rewrite landed_cons, Ha. cbn [map]. by rewrite IH.
Qed.

(** Two goroutines add one: the second one's swap fails once. *)
Lemma additions_all_land_witness :
  let one := float_of 1 in
  exists s, rtc add_step (zero, map Loads [one; one]) s /\ s.1 = float_of 2 /\ tallied zero s.
Proof.
  set (one := float_of 1). exists (float_of 2, [Added one; Added one]).
  assert (Hrun : rtc add_step (zero, map Loads [one; one]) (float_of 2, [Added one; Added one])).
  { eapply rtc_l; [apply (Load zero _ 0 one); reflexivity|].
    eapply rtc_l; [apply (Load zero _ 1 one); reflexivity|].
    eapply rtc_l; [apply (Swap zero _ 0 one); reflexivity|].
    eapply rtc_l; [apply (Retry (fadd zero one) _ 1 one zero); [reflexivity|discriminate]|].
    eapply rtc_l; [apply (Load (fadd zero one) _ 1 one); reflexivity|].
    eapply rtc_l; [apply (Swap (fadd zero one) _ 1 one); reflexivity|]. apply rtc_refl. }
  split; [exact Hrun|]. split; [reflexivity|].
  exact (proj1 (additions_all_land zero [one; one] _ Hrun)).
Defined.

(** ** Histograms *)
(** The order of numbers, up to the two zeros. *)
Lemma fle_cases x y :
  fle x y = true <-> SFcompare x y = Some Lt \/ SFcompare x y = Some Eq.
Proof.
  unfold fle, SFleb. destruct (SFcompare x y) as [[]|]; split; intros H; (done || auto || (destruct H; discriminate)).
Qed.

Lemma fle_trans x y z : fle x y = true -> fle y z = true -> fle x z = true.
Proof.
  unfold fle, SFleb, SFcompare. destruct x as [[]|[]| |[] m1 e1], y as [[]|[]| |[] m2 e2], z as [[]|[]| |[] m3 e3]; try done.
  - destruct (Z.compare_spec e1 e2), (Z.compare_spec e2 e3), (Z.compare_spec e1 e3); try done; try lia; subst;
    fold (Pos.compare m1 m2) (Pos.compare m2 m3) (Pos.compare m1 m3);
    destruct (Pos.compare_spec m1 m2), (Pos.compare_spec m2 m3), (Pos.compare_spec m1 m3); cbn; try done; lia.
  - destruct (Z.compare_spec e1 e2), (Z.compare_spec e2 e3), (Z.compare_spec e1 e3); try done; try lia; subst;
    fold (Pos.compare m1 m2) (Pos.compare m2 m3) (Pos.compare m1 m3);
    destruct (Pos.compare_spec m1 m2), (Pos.compare_spec m2 m3), (Pos.compare_spec m1 m3); cbn; try done; lia.
Qed.

(** [sort.Search] finds the least index that passes a test which stays passed. *)
Lemma Search_least fuel (f : nat -> bool) i j :
  (j - i < 2 ^ fuel)%nat -> (i <= j)%nat ->
  (forall a b, (a <= b < j)%nat -> f a = true -> f b = true) ->
  let k := Search fuel f i j in
  (i <= k <= j)%nat /\ (forall a, (i <= a < k)%nat -> f a = false) /\ (forall a, (k <= a < j)%nat -> f a = true).
Proof.
  revert i j. induction fuel as [|fuel IH]; intros i j Hn Hij Hf; cbn [Search].
  { cbn in Hn. assert (i = j) as -> by lia. split; [lia|]. split; intros; lia. }
  destruct (Nat.ltb_spec i j); [|split; [lia|]; split; intros; lia].
  assert (Hh : (i <= Nat.div2 (i + j) < j)%nat).
  { rewrite Nat.div2_div. split; [apply Nat.div_le_lower_bound; lia|apply Nat.Div0.div_lt_upper_bound; lia]. }
  assert (H2 : (2 * Nat.div2 (i + j) <= i + j < 2 * Nat.div2 (i + j) + 2)%nat).
  { rewrite Nat.div2_div. pose proof (Nat.div_mod_eq (i + j) 2). pose proof (Nat.mod_upper_bound (i + j) 2). lia. }
  set (h := Nat.div2 (i + j)) in *. cbn in Hn. destruct (f h) eqn:Eh.
  - destruct (IH i h ltac:(lia) ltac:(lia) ltac:(intros a b ?; apply Hf; lia)) as (H3 & H4 & H5). split; [lia|]. split; [exact H4|].
    intros a Ha. destruct (decide (a < h)%nat); [apply H5; lia|]. by apply (Hf h a); [lia|].
  - destruct (IH (S h) j ltac:(lia) ltac:(lia) Hf) as (H3 & H4 & H5). split; [lia|]. split; [|exact H5].
    intros a Ha. destruct (decide (h < a)%nat); [apply H4; lia|].
    destruct (f a) eqn:Ea; [|done]. by rewrite (Hf a h ltac:(lia) Ea) in Eh.
Qed.

(** The bounds a histogram is made with. *)
Definition ascending (upper : list float64) : Prop := StronglySorted (fun a b => fle a b = true) upper.

Lemma ascending_nth upper i j v :
  ascending upper -> (i <= j < length upper)%nat -> fle v (nth i upper zero) = true -> fle v (nth j upper zero) = true.
Proof.
  intros Hs. revert i j. induction Hs as [|b upper _ IH Hb]; cbn [length]; intros i j Hij Hv; [lia|].
  destruct i as [|i], j as [|j]; cbn [nth] in *; [done| |lia|apply (IH i); [lia|done]].
  apply (fle_trans _ b); [done|]. rewrite Forall_forall in Hb. apply Hb. apply list_elem_of_In, nth_In. lia.
Qed.

(** The bucket of an observation is at or before a bound just when the bound holds it. *)
Lemma Search_bound upper v i :
  ascending upper -> (i < length upper)%nat -> (SearchFloat64s upper v <=? i)%nat = fle v (nth i upper zero).
Proof.
  intros Hs Hi.
  destruct (Search_least (length upper) (fun i => fle v (nth i upper zero)) 0 (length upper)) as (Hk & Hl & Hr); [|lia| |].
  - pose proof (Nat.pow_gt_lin_r 2 (length upper)). lia.
  - intros a b Hab. by apply ascending_nth.
  - fold (SearchFloat64s upper v) in *. destruct (Nat.leb_spec (SearchFloat64s upper v) i).
    + symmetry. apply Hr. lia.
    + symmetry. apply Hl. lia.
Qed.

Definition observed (upper xs : list float64) : Histogram :=
  fold_left (fun h x => Observe upper x h) xs (new_histogram upper).

Definition counted {A} (p : A -> bool) (xs : list A) : Z := Z.of_nat (length (List.filter p xs)).

Lemma counted_snoc {A} (p : A -> bool) xs x : counted p (xs ++ [x]) = counted p xs + (if p x then 1 else 0).
Proof. unfold counted. rewrite List.filter_app, length_app. cbn. destruct (p x); cbn; lia. Qed.

Lemma counted_range {A} (p : A -> bool) (xs : list A) : Z.of_nat (length xs) < two64 -> 0 <= counted p xs < two64.
Proof. unfold counted. pose proof (List.filter_length_le p xs). lia. Qed.

Lemma observed_snoc upper xs x : observed upper (xs ++ [x]) = Observe upper x (observed upper xs).
Proof. unfold observed. by rewrite fold_left_app. Qed.

Lemma observed_counts upper xs :
  Z.of_nat (length xs) < two64 ->
  hg_counts (observed upper xs) = map (fun k => counted (fun x => SearchFloat64s upper x =? k)%nat xs) (seq 0 (length upper)) /\
  hg_count (observed upper xs) = Z.of_nat (length xs) /\
  hg_sum (observed upper xs) = fold_left fadd xs zero.
Proof.
  induction xs as [|x xs IH] using rev_ind; intros Hn.
  - split; [|done]. cbn. generalize 0%nat. induction upper as [|b upper IH]; intros n; [done|]. cbn. by rewrite <- IH.
  - rewrite length_app in Hn. cbn in Hn. destruct IH as (Hc & Ht & Hs); [lia|]. rewrite observed_snoc.
    cbn [Observe hg_counts hg_count hg_sum]. rewrite Hc, Ht, Hs, fold_left_app. split; [|split; [|done]].
    + apply list_eq. intros k. set (i := SearchFloat64s upper x).
      assert (Hlook : forall ys, (map (fun k => counted (fun x => SearchFloat64s upper x =? k)%nat ys) (seq 0 (length upper))) !! k
        = if decide (k < length upper)%nat then Some (counted (fun x => SearchFloat64s upper x =? k)%nat ys) else None).
      { intros ys. rewrite list_lookup_fmap. destruct (decide (k < length upper)%nat).
        - by rewrite lookup_seq_lt.
        - by rewrite lookup_seq_ge by lia. }
      rewrite Hlook. destruct (decide (k = i)) as [->|Hk].
      * rewrite list_lookup_alter_eq, Hlook. destruct (decide _); [|done]. cbn. f_equal. rewrite counted_snoc.
        fold i. rewrite Nat.eqb_refl. unfold uint64. apply Z.mod_small.
        pose proof (counted_range (fun x => SearchFloat64s upper x =? i)%nat xs ltac:(lia)).
        unfold counted in *. pose proof (List.filter_length_le (fun x => SearchFloat64s upper x =? i)%nat xs). lia.
      * rewrite list_lookup_alter_ne, Hlook by done. destruct (decide _); [|done]. f_equal. rewrite counted_snoc.
        fold i. rewrite (proj2 (Nat.eqb_neq i k)) by done. lia.
    + unfold uint64. rewrite Z.mod_small by lia. rewrite length_app. cbn. lia.
Qed.

Lemma counted_split {A} (g : A -> nat) k (xs : list A) :
  counted (fun x => g x <? k)%nat xs + counted (fun x => g x =? k)%nat xs = counted (fun x => g x <=? k)%nat xs.
Proof.
  induction xs as [|x xs IH]; [done|]. unfold counted in *. cbn [List.filter].
  destruct (Nat.ltb_spec (g x) k), (Nat.eqb_spec (g x) k), (Nat.leb_spec (g x) k); cbn [length]; lia.
Qed.

Lemma cumulative_counts {A} (g : A -> nat) (xs : list A) a n :
  Z.of_nat (length xs) < two64 ->
  cumulative (counted (fun x => g x <? a)%nat xs) (map (fun k => counted (fun x => g x =? k)%nat xs) (seq a n)) =
  map (fun k => counted (fun x => g x <=? k)%nat xs) (seq a n).
Proof.
  intros Hn. revert a. induction n as [|n IH]; intros a; [done|]. cbn [seq map cumulative].
  rewrite counted_split. unfold uint64. rewrite Z.mod_small by (by apply counted_range). f_equal.
  by rewrite <- IH.
Qed.

(** After any observations, fewer than 2^64, the number a scrape shows for a bound is
    how many of them are at most that bound, the total is how many there were, and the sum
    is theirs in order; the shown numbers never fall from one bound to the next. *)
Theorem histogram_counts (upper xs : list float64)
    (Hupper : ascending upper) (Hfew : Z.of_nat (length xs) < two64) :
  let h := observed upper xs in
  cumulative 0 (hg_counts h) = map (fun bound => counted (fun x => fle x bound) xs) upper /\
  hg_count h = Z.of_nat (length xs) /\ hg_sum h = fold_left fadd xs zero /\
  StronglySorted Z.le (cumulative 0 (hg_counts h) ++ [hg_count h]).
Proof.
  destruct (observed_counts upper xs Hfew) as (Hc & Ht & Hs). intros h.
  assert (Hall : cumulative 0 (hg_counts h) = map (fun bound => counted (fun x => fle x bound) xs) upper).
  { unfold h. rewrite Hc. assert (counted (fun x => SearchFloat64s upper x <? 0)%nat xs = 0) as <-.
    { unfold counted. clear. by induction xs. }
    rewrite cumulative_counts by done. apply list_eq. intros i. rewrite !list_lookup_fmap.
    destruct (decide (i < length upper)%nat) as [Hi|Hi].
    - rewrite lookup_seq_lt by done. destruct (lookup_lt_is_Some_2 upper i Hi) as [b Hb]. rewrite Hb. cbn. f_equal.
      unfold counted. f_equal. f_equal. apply List.filter_ext. intros x. rewrite Search_bound by done.
      by rewrite (nth_lookup_Some upper i zero b Hb).
    - rewrite lookup_seq_ge by lia. by rewrite lookup_ge_None_2 by lia. }
  split; [exact Hall|]. split; [exact Ht|]. split; [exact Hs|]. rewrite Hall. unfold h. rewrite Ht. clear -Hupper.
  assert (Hle : forall p, counted p xs <= Z.of_nat (length xs)).
  { intros p. unfold counted. pose proof (List.filter_length_le p xs). lia. }
  induction Hupper as [|b upper Hu IH Hb]; cbn; [by repeat constructor|]. constructor; [done|].
  apply Forall_app. split; [|repeat constructor; apply Hle]. apply Forall_map. eapply Forall_impl; [exact Hb|].
  intros c Hbc. unfold counted. apply Nat2Z.inj_le. clear -Hbc. induction xs as [|x xs IH]; [done|]. cbn.
  destruct (fle x b) eqn:E; [rewrite (fle_trans x b c E Hbc); cbn; lia|]. destruct (fle x c); cbn; lia.
Qed.

Lemma histogram_counts_witness :
  let xs := map Seconds [3 * Millisecond; 5 * Millisecond; 2 * Second; 11 * Second] in
  ascending DefBuckets /\ Z.of_nat (length xs) < two64 /\
  cumulative 0 (hg_counts (observed DefBuckets xs)) = [2; 2; 2; 2; 2; 2; 2; 2; 3; 3; 3] /\
  map (fun bound => counted (fun x => fle x bound) xs) DefBuckets = [2; 2; 2; 2; 2; 2; 2; 2; 3; 3; 3].
Proof.
  set (xs := map Seconds [3 * Millisecond; 5 * Millisecond; 2 * Second; 11 * Second]).
  assert (Hu : ascending DefBuckets) by (repeat constructor).
  assert (Hn : Z.of_nat (length xs) < two64) by reflexivity.
  split; [exact Hu|]. split; [exact Hn|].
  assert (Hc : cumulative 0 (hg_counts (observed DefBuckets xs)) = [2; 2; 2; 2; 2; 2; 2; 2; 3; 3; 3]) by (vm_compute; reflexivity).
  split; [exact Hc|]. rewrite <- Hc. symmetry. exact (proj1 (histogram_counts DefBuckets xs Hu Hn)).
Defined.
