(* ===== verification/DemoModel.v ===== *)
(** * The demonstration model: [internal/llm/demo.go]

    A scripted stand-in for a model, which reads the history of a conversation and books a
    haircut.  The order in which a Go map is walked is a parameter; [None] is a panic. *)

From Stdlib Require Import ZArith Lia Ascii.
From stdpp Require Import base list strings.
From S2P Require Import Prelude GoTime Json JsonParse Validation TimeText Tokens Hex Sha256 Url Gateway OpenRouter Conversations Service Bootstrap LLM.

#[local] Open Scope Z_scope.

#[local] Abbreviation TrimSpace := JsonParse.TrimSpace.

Section demo.
Context `{!Library} (walk : list (string * string) -> list (string * string)).

(** ** Reading the history *)
(** [json.Unmarshal] into a [map[string]any]; [null] leaves it nil. *)
Definition decode_map (text : string) : option (option object) :=
  v ← Unmarshal text;
  match v with
  | JObj l => w ← floats (JObj l); match w with JObj l => Some (Some (as_map l)) | _ => None end
  | JNull => Some None
  | _ => None
  end.

Fixpoint latest_result (newest : list Message) (name : string) : option object :=
  match newest with
  | [] => None
  | m :: older =>
      if negb (String.eqb (Role m) RoleTool) || negb (String.eqb (msg_Name m) name) then latest_result older name
      else match decode_map (Content m) with Some found => Some (default [] found) | None => None end
  end.

Definition latestToolResult (messages : list Message) (name : string) : option object := latest_result (rev messages) name.

Definition latestAssistantToolArguments (messages : list Message) (name : string) : option string :=
  option_map tc_Arguments
    (List.find (fun c => String.eqb (tc_Name c) name) (flat_map (fun m => rev (ToolCalls m)) (rev messages))).

Definition latestMessageRole (messages : list Message) : string :=
  match rev messages with m :: _ => Role m | [] => "" end.

Definition latestUserText (messages : list Message) : string :=
  match List.find (fun m => String.eqb (Role m) RoleUser) (rev messages) with Some m => Content m | None => "" end.

Definition affirmations : list string := ["yes"; "confirm"; "confirmed"; "go ahead"; "book it"; "please do"; "ja"].

Definition isAffirmative (value : string) : bool :=
  let normalized := string_bytes (ToLower (TrimSpace value)) in
  existsb (fun phrase =>
    bool_decide (normalized = string_bytes phrase) ||
    existsb (fun next => starts_with (string_bytes phrase ++ [next]) normalized) [chr 32; chr 44; chr 33; chr 46]) affirmations.

Fixpoint at_path (v : json) (path : list string) : string :=
  match path with
  | [] => match v with JStr s => s | _ => "" end
  | part :: path =>
      match v with JObj l => match member part l with Some v => at_path v path | None => "" end | _ => "" end
  end.

Definition jsonStringAt (o : object) (path : list string) : string := at_path (JObj o) path.

(** The first of the found texts that is not empty. *)
Definition first_found (found : list string) : string :=
  match List.find (fun s => negb (bool_decide (s = ""))) found with Some s => s | None => "" end.

(** An object's own member, or what is found in one of its values, in the order of the walk. *)
Fixpoint findFirstString (key : string) (v : json) : string :=
  match v with
  | JObj l =>
      match text_member key l with
      | Some s => s
      | None => first_found (map snd (walk (map (fun kv => (kv.1, findFirstString key kv.2)) l)))
      end
  | JArr l => first_found (map (findFirstString key) l)
  | _ => ""
  end.

(** ** The authorized action *)
(** The members of the text of an object, with the text of each value. *)
Fixpoint raw_members (fuel : nat) (l : list ascii) : list (string * string) :=
  match fuel with
  | O => []
  | S fuel =>
      match value (2 * length l + 2) 0 l with
      | Some (JStr key, rest) =>
          let rest := skip (List.tl (skip rest)) in
          match value (2 * length rest + 2) 0 rest with
          | Some (_, after) =>
              (key, of_bytes (take (length rest - length after) rest)) ::
              match skip after with c :: more => if code c =? 44 then raw_members fuel more else [] | [] => [] end
          | None => []
          end
      | _ => []
      end
  end.

Definition raw_object (text : string) : list (string * string) :=
  match skip (string_bytes text) with
  | c :: l => if code c =? 123 then raw_members (length l) l else []
  | [] => []
  end.

Record demoAuthorizedAction := mkAction { da_Tool : string; da_Arguments : string }.

Definition tool_field (kv : string * json) (tool : string) : option string :=
  if names_field kv.1 "tool" then decode_text tool kv.2 else Some tool.

Definition raw_arguments (text : string) : string :=
  fold_left (fun old kv => if names_field kv.1 "arguments" then kv.2 else old) (raw_object text) "".

Definition has_prefix (prefix s : string) : bool := starts_with (string_bytes prefix) (string_bytes s).
Definition trim_prefix (prefix s : string) : string := of_bytes (drop (length (string_bytes prefix)) (string_bytes s)).

Definition authorizedAction (messages : list Message) : option demoAuthorizedAction :=
  match rev messages with
  | [] => None
  | last :: _ =>
      if negb (String.eqb (Role last) RoleSystem) || negb (has_prefix AuthorizedActionPrefix (Content last)) then None
      else
        let text := trim_prefix AuthorizedActionPrefix (Content last) in
        tool ← (v ← Unmarshal text; decode_struct tool_field v "");
        let arguments := raw_arguments text in
        if bool_decide (tool = "") || bool_decide (arguments = "") || negb (Valid arguments) then None
        else Some (mkAction tool arguments)
  end.

(** ** Answering *)
Definition demo_usage : Usage := mkUsage 80 48 128.

Definition demo_response (id : string) (calls : list ToolCall) : Response :=
  mkResponse id "kontor/demo-v1" (mkMessage RoleAssistant "" "" "" calls) "tool_calls" demo_usage false 0.

Definition terminalResponse (responseID callID message : string) : Response :=
  demo_response responseID
    [mkToolCall callID "respond_to_customer" (marshal_map [("disposition", JStr "complete"); ("message", JStr message)])].

(** The first bytes of a digest, in hexadecimal. *)
Definition short_hash (n : nat) (text : string) : string := EncodeToHex (of_bytes (take n (string_bytes (sha256 text)))).

Definition nextThursdayEvening (a : DemoAdapter) (now : Time) : Time * Time :=
  let now := In now (da_timezone a) in
  let days := (4 - Weekday now + 7) mod 7 in
  let days := if days =? 0 then 7 else days in
  let date := AddDate now 0 0 days in
  (Date (Year date) (Month date) (Day date) 17 0 0 0 (da_timezone a),
   Date (Year date) (Month date) (Day date) 20 0 0 0 (da_timezone a)).

Definition booked_message : string := "Your appointment is booked. I’ve sent the confirmation details.".
Definition confirm_message : string :=
  "Please confirm the booking summary shown above. Nothing will be booked until you explicitly confirm.".
Definition error_message : string := "I couldn’t complete that booking. Please choose another slot or ask for a human.".
Definition no_slots_message : string := "I couldn’t find an available demo slot.".

(** The proposal again, with its confirmation; a call without arguments is passed over. *)
Definition confirm_booking (messages : list Message) (confirmationID : string) : option (option Response) :=
  match latestAssistantToolArguments messages "create_booking" with
  | None => Some None
  | Some arguments =>
      if bool_decide (confirmationID = "") then Some None
      else match decode_map arguments with
           | None => Some None
           | Some None => None
           | Some (Some o) =>
               Some (Some (demo_response "demo-confirm-booking"
                 [mkToolCall "demo-call-create-confirmed" "create_booking"
                    (marshal_map (set_member "confirmation_id" (JStr confirmationID) o))]))
           end
  end.

(** What follows the result of a booking; [Some None] is none of its statuses. *)
Definition after_create (messages : list Message) (created : object) : option (option Response) :=
  let status := jsonStringAt created ["status"] in
  if String.eqb status "success" then
    Some (Some (terminalResponse "demo-booking-complete" "demo-call-respond-booked" booked_message))
  else if String.eqb status "confirmation_required" then
    let ask := terminalResponse "demo-request-confirmation" "demo-call-respond-confirm" confirm_message in
    if String.eqb (latestMessageRole messages) RoleUser && isAffirmative (latestUserText messages) then
      confirmed ← confirm_booking messages (jsonStringAt created ["confirmation"; "id"]);
      Some (Some (default ask confirmed))
    else Some (Some ask)
  else if String.eqb status "error" then
    Some (Some (terminalResponse "demo-booking-error" "demo-call-respond-error" error_message))
  else Some None.

Definition propose_booking (a : DemoAdapter) (found : object) : Response :=
  let slotToken := findFirstString "slot_token" (JObj found) in
  if bool_decide (slotToken = "") then terminalResponse "demo-no-slots" "demo-call-respond-no-slots" no_slots_message
  else
    demo_response "demo-propose-booking"
      [mkToolCall "demo-call-create" "create_booking" (marshal_map
         [("slot_token", JStr slotToken);
          ("customer", JObj [("contact", JObj [("email", JStr (da_customerEmail a))]); ("display_name", JStr (da_customerName a))]);
          ("idempotency_key", JStr (String.append "demo-booking-" (short_hash 8 slotToken)))])].

Definition find_slots (a : DemoAdapter) (now : Time) : Response :=
  let '(from, to) := nextThursdayEvening a now in
  demo_response "demo-find-slots"
    [mkToolCall "demo-call-find-slots" "find_slots" (marshal_map
       [("service_id", JStr (da_serviceID a)); ("staff_id", JStr (da_staffID a));
        ("date_from", JStr (RFC3339 from)); ("date_to", JStr (RFC3339 to))])].

Definition discover (a : DemoAdapter) : Response :=
  demo_response "demo-discover"
    [mkToolCall "demo-call-list-services" "list_services" "{}";
     mkToolCall "demo-call-list-staff" "list_staff" (marshal_map [("service_id", JStr (da_serviceID a))])].

(** The steps that follow when no booking has been tried. *)
Definition search (a : DemoAdapter) (now : Time) (messages : list Message) : Response :=
  match latestToolResult messages "find_slots" with
  | Some found => propose_booking a found
  | None =>
      match latestToolResult messages "list_staff" with
      | Some _ => find_slots a now
      | None => discover a
      end
  end.

Definition Complete (a : DemoAdapter) (ctx : option error) (now : Time) (request : Request)
    : option (Response * option error) :=
  match ctx with
  | Some err => Some (zero_response, Some err)
  | None =>
      let messages := Messages request in
      match authorizedAction messages with
      | Some action =>
          Some (demo_response "demo-authorized-action"
            [mkToolCall (String.append "demo-call-authorized-" (short_hash 6 (String.append (da_Tool action) (da_Arguments action))))
               (da_Tool action) (da_Arguments action)], None)
      | None =>
          next ← match latestToolResult messages "create_booking" with
                 | Some created => after_create messages created
                 | None => Some None
                 end;
          Some (default (search a now messages) next, None)
      end
  end.
End demo.
