(* ===== verification/DemoModelProps.v ===== *)
(** * What the demonstration model asks for

    Its answers follow from the history alone: every turn ends in a control call the
    runner accepts, and a booking is confirmed only after the customer's word or on the
    server's own authority. *)

From Stdlib Require Import ZArith Lia Ascii.
From stdpp Require Import base list strings.
From S2P Require Import Prelude GoTime Json JsonParse Validation TimeText Runner Gateway OpenRouter Conversations Service Bootstrap LLM DemoModel.

#[local] Open Scope Z_scope.

Section facts.
Context `{!Library} (walk : list (string * string) -> list (string * string)).

(** ** The kinds of call *)
Inductive Asked (a : DemoAdapter) (messages : list Message) : ToolCall -> Prop :=
| Replies id message :
    ParseRespondToCustomerArguments (marshal_map [("disposition", JStr "complete"); ("message", JStr message)])
      = Ok (mkRespond ResponseComplete message) ->
    Asked a messages (mkToolCall id ToolRespondToCustomer
      (marshal_map [("disposition", JStr "complete"); ("message", JStr message)]))
| Lists_services id : Asked a messages (mkToolCall id ToolListServices "{}")
| Lists_staff id : Asked a messages (mkToolCall id ToolListStaff (marshal_map [("service_id", JStr (da_serviceID a))]))
| Finds id members :
    latestToolResult messages ToolListStaff <> None ->
    Asked a messages (mkToolCall id ToolFindSlots (marshal_map members))
| Proposes id found members :
    latestToolResult messages ToolFindSlots = Some found ->
    member "slot_token" members = Some (JStr (findFirstString walk "slot_token" (JObj found))) ->
    findFirstString walk "slot_token" (JObj found) <> "" ->
    member "confirmation_id" members = None ->
    Asked a messages (mkToolCall id ToolCreateBooking (marshal_map members))
| Confirms id created proposed arguments :
    latestMessageRole messages = RoleUser -> isAffirmative (latestUserText messages) = true ->
    latestToolResult messages ToolCreateBooking = Some created ->
    jsonStringAt created ["status"] = "confirmation_required" ->
    jsonStringAt created ["confirmation"; "id"] <> "" ->
    latestAssistantToolArguments messages ToolCreateBooking = Some arguments ->
    decode_map arguments = Some (Some proposed) ->
    Asked a messages (mkToolCall id ToolCreateBooking
      (marshal_map (set_member "confirmation_id" (JStr (jsonStringAt created ["confirmation"; "id"])) proposed))).

#[local] Abbreviation calls r := (ToolCalls (rsp_Message r)).

Definition All_asked a messages r : Prop := calls r <> [] /\ Forall (Asked a messages) (calls r).

Lemma terminal_asked a messages rid id message :
  message ∈ [booked_message; confirm_message; error_message; no_slots_message] ->
  All_asked a messages (terminalResponse rid id message).
Proof.
  intros Hm. split; [done|]. repeat constructor.
  repeat (apply elem_of_cons in Hm as [->|Hm]; [vm_compute; reflexivity|]). by apply elem_of_nil in Hm.
Qed.

#[local] Hint Extern 1 (All_asked _ _ (terminalResponse _ _ _)) => apply terminal_asked; repeat constructor : core.
#[local] Opaque terminalResponse.

Lemma propose_asked a messages found :
  latestToolResult messages ToolFindSlots = Some found -> All_asked a messages (propose_booking walk a found).
Proof.
  intros Hf. unfold propose_booking. case_bool_decide as Ht; [auto|]. split; [done|]. repeat constructor.
  by eapply Proposes.
Qed.

Lemma search_asked a now messages : All_asked a messages (search walk a now messages).
Proof.
  unfold search. destruct (latestToolResult messages "find_slots") as [found|] eqn:Hf; [by apply propose_asked|].
  destruct (latestToolResult messages "list_staff") as [found|] eqn:Hs.
  - unfold find_slots. destruct (nextThursdayEvening a now) as [from to]. split; [done|]. repeat constructor.
    intros Hn. by rewrite (Hn : latestToolResult messages "list_staff" = None) in Hs.
  - split; [done|]. repeat constructor.
Qed.

Lemma confirm_asked a messages created r :
  latestMessageRole messages = RoleUser -> isAffirmative (latestUserText messages) = true ->
  latestToolResult messages ToolCreateBooking = Some created ->
  jsonStringAt created ["status"] = "confirmation_required" ->
  confirm_booking messages (jsonStringAt created ["confirmation"; "id"]) = Some (Some r) -> All_asked a messages r.
Proof.
  intros Hrole Hyes Hc Hs. unfold confirm_booking.
  destruct (latestAssistantToolArguments messages "create_booking") as [arguments|] eqn:Ha; [|done].
  case_bool_decide as Hid; [done|]. destruct (decode_map arguments) as [[proposed|]|] eqn:Hd; intros [= <-].
  split; [done|]. repeat constructor. by eapply Confirms.
Qed.

Lemma created_asked a messages created r :
  latestToolResult messages ToolCreateBooking = Some created ->
  after_create messages created = Some (Some r) -> All_asked a messages r.
Proof.
  intros Hc. unfold after_create. destruct (String.eqb_spec (jsonStringAt created ["status"]) "success"); [intros [= <-]; auto|].
  destruct (String.eqb_spec (jsonStringAt created ["status"]) "confirmation_required") as [Hs|].
  - destruct (String.eqb_spec (latestMessageRole messages) RoleUser) as [Hr|]; [|intros [= <-]; auto].
    destruct (isAffirmative (latestUserText messages)) eqn:Hy; [|intros [= <-]; auto]. cbn [andb].
    destruct (confirm_booking messages _) as [[c|]|] eqn:Hb; intros [= <-]; [by eapply confirm_asked|auto].
  - destruct (String.eqb _ "error"); intros [= <-]. auto.
Qed.

(** The demonstration model always asks for something.  Either it repeats the action the
    server's last system message authorizes, or each call is one of six: a reply to the
    customer which the runner accepts, a look-up, a proposal of a found slot without a
    confirmation, or the last proposal with the confirmation of its result, and then the
    customer's last message affirms it. *)
Theorem demo_confirms_on_word a ctx now request response
    (Hrun : Complete walk a ctx now request = Some (response, None)) :
  (exists action rest last, authorizedAction (Messages request) = Some action /\
     Messages request = rest ++ [last] /\ Role last = RoleSystem /\ Valid (da_Arguments action) = true /\
     map (fun c => (tc_Name c, tc_Arguments c)) (calls response) = [(da_Tool action, da_Arguments action)]) \/
  (calls response <> [] /\ Forall (Asked a (Messages request)) (calls response)).
Proof.
  unfold Complete in Hrun. destruct ctx; [by simplify_eq|].
  destruct (authorizedAction (Messages request)) as [action|] eqn:Ha.
  - left. simplify_eq. unfold authorizedAction in Ha.
    destruct (rev (Messages request)) as [|last older] eqn:Hm; [done|].
    exists action, (rev older), last. apply (f_equal (@rev _)) in Hm. rewrite rev_involutive in Hm.
    destruct (String.eqb_spec (Role last) RoleSystem) as [Hr|]; [|done].
    destruct (negb _ || negb _) eqn:Hp in Ha; [done|]. apply bind_Some in Ha as (tool & _ & Ha).
    case_match eqn:Hv; [done|]. apply orb_false_iff in Hv as [_ Hv]. simplify_eq.
    repeat split; [done|done|by apply negb_false_iff].
  - right. apply bind_Some in Hrun as (next & Hn & [= <-]).
    destruct next as [r|]; [|apply search_asked]. cbn [default from_option].
    destruct (latestToolResult (Messages request) "create_booking") as [created|] eqn:Hc; [|done].
    by eapply created_asked.
Qed.
End facts.

(** ** A customer who says yes *)
#[local] Instance plain_library : Library := {|
  ParseTime _ := None; times_out _ := false; float_text s := Some s; float_int _ := 0
|}.

Definition demo_adapter : DemoAdapter :=
  mkDemoAdapter demoHaircutServiceID demoAlexStaffID "Demo Customer" "demo@example.com" (mkLocation "Europe/Berlin" 7200 []).

Definition proposed_arguments : object := [("slot_token", JStr "slt_v1_a.b")].

Definition waiting_result : string :=
  Marshal (JObj [("status", JStr "confirmation_required"); ("confirmation", JObj [("id", JStr "c-1")])]).

Definition demo_history : list Message :=
  [mkMessage RoleUser "A haircut on Thursday, please." "" "" [];
   mkMessage RoleAssistant "" "" "" [mkToolCall "1" ToolCreateBooking (marshal_map proposed_arguments)];
   mkMessage RoleTool waiting_result ToolCreateBooking "1" [];
   mkMessage RoleUser " Yes, book it!" "" "" []].

Definition demo_request : Request := mkRequest demo_history [] ToolChoiceAuto 1024.

Definition demo_now : Time := mkTime 1785751200000000000 (mkLocation "UTC" 0 []).

Lemma demo_confirms_on_word_witness :
  exists response, Complete (fun l => l) demo_adapter None demo_now demo_request = Some (response, None) /\
    map tc_Arguments (ToolCalls (rsp_Message response)) =
      [marshal_map [("confirmation_id", JStr "c-1"); ("slot_token", JStr "slt_v1_a.b")]] /\
    ToolCalls (rsp_Message response) <> [] /\
    Forall (Asked (fun l => l) demo_adapter demo_history) (ToolCalls (rsp_Message response)).
Proof.
  assert (H : exists response, Complete (fun l => l) demo_adapter None demo_now demo_request = Some (response, None) /\
    map tc_Arguments (ToolCalls (rsp_Message response)) =
      [marshal_map [("confirmation_id", JStr "c-1"); ("slot_token", JStr "slt_v1_a.b")]])
    by (eexists; split; [vm_compute; reflexivity|vm_compute; reflexivity]).
  destruct H as (response & Hrun & Hargs). exists response. split; [exact Hrun|]. split; [exact Hargs|].
  destruct (demo_confirms_on_word (fun l => l) demo_adapter None demo_now demo_request response Hrun)
    as [(action & rest & last & Ha & _)|H]; [discriminate Ha|exact H].
Defined.
