(* ===== verification/OperatorConsole.v ===== *)
(** * The operator console's data: [internal/channels/operatorhttp/types.go, postgres.go, multitenant.go]

    The tenant-scoped read model over the tables of [Database], and the bookings
    an operator makes, moves and cancels through the commands of [Repository].
    [Backend] is what the HTTP handlers of [OperatorHttp] work on;
    [MultiTenantPostgreSQL] makes one from the principal of each request. *)

From Stdlib Require Import ZArith Lia Ascii.
From stdpp Require Import base list strings sorting.
From S2P Require Import Prelude GoTime Json JsonParse Validation Base64 TimeText Tokens Engine Database Catalog Repository Conversations AgentTrace Passwords Identity.

#[local] Open Scope Z_scope.

#[local] Abbreviation TrimSpace := JsonParse.TrimSpace.

(** ** Requests and answers: [types.go] *)
Module operatorapi.
Record Session := mkSession {
  ses_TenantID : string; ses_TenantName : string; ses_Timezone : string; ses_Currency : string;
  ses_OperatorID : string; ses_OperatorEmail : string; ses_OperatorName : string; ses_Role : string
}.

Record DashboardRequest := mkDashboardRequest { Days : Z }.

(** [SuccessRate] is the quotient of its two numbers, zero runs being [0/1]. *)
Record DashboardKPIs := mkKPIs {
  BookingsToday : Z; TotalRuns : Z; SuccessRate : Z * Z; MedianLatencyMS : Z; OpenEscalations : Z;
  TotalTokens : Z
}.

Record BookingSeriesPoint := mkPoint { pt_Date : string; pt_Channel : string; pt_Count : Z }.

Record RunOutcomeCount := mkOutcome { oc_Status : string; oc_Count : Z }.

Record AttentionItem := mkAttention {
  at_Kind : string; at_ID : string; at_RunID : string; at_Title : string; at_Summary : string;
  at_CreatedAt : Time
}.

Record ListRunsRequest := mkListRuns {
  lr_Limit : Z; lr_Cursor : string; lr_Status : string; lr_Channel : string; lr_Query : string;
  lr_From : option Time; lr_To : option Time
}.

Record RunSummary := mkSummary {
  rsm_ID : string; rsm_ConversationID : string; rsm_CustomerName : string; rsm_Channel : string;
  rsm_Status : string; rsm_DurationMS : option Z; rsm_PromptTokens : Z; rsm_CompletionTokens : Z;
  rsm_TotalTokens : Z; rsm_StartedAt : Time; rsm_FinishedAt : option Time
}.

Record RunPage := mkPage { Items : list RunSummary; NextCursor : string }.

Record Dashboard := mkDashboard {
  GeneratedAt : Time; PeriodDays : Z; KPIs : DashboardKPIs; BookingSeries : list BookingSeriesPoint;
  RunOutcomes : list RunOutcomeCount; RecentRuns : list RunSummary; Attention : list AttentionItem
}.

Record Customer := mkCustomer {
  cus_ID : string; cus_DisplayName : string; cus_Email : string; cus_Phone : string
}.

Record Message := mkMessage { msg_ID : string; msg_Role : string; msg_Content : string; msg_CreatedAt : Time }.

Record Escalation := mkEscalation {
  esc_ID : string; esc_ReasonCode : string; esc_Summary : string; esc_Status : string; esc_CreatedAt : Time
}.

Record CalendarRequest := mkCalendarRequest { cal_From : Time; cal_To : Time }.

Record Staff := mkStaff { sta_ID : string; sta_DisplayName : string; sta_Timezone : string }.

Record Service := mkService {
  ser_ID : string; ser_Name : string; ser_DurationMinutes : Z; ser_PriceMinor : Z; ser_Currency : string
}.

Record Booking := mkBooking {
  ob_ID : string; ob_CustomerID : string; ob_CustomerName : string; ob_CustomerEmail : string;
  ob_CustomerPhone : string; ob_ConversationID : string; ob_ServiceID : string; ob_ServiceName : string;
  ob_StaffID : string; ob_StaffName : string; ob_Status : string; ob_StartsAt : Time; ob_EndsAt : Time;
  ob_ScheduleVersion : Z; ob_Notes : string
}.

Record ScheduleBlock := mkBlock {
  blk_ID : string; blk_StaffID : string; blk_Kind : string; blk_StartsAt : Time; blk_EndsAt : Time;
  blk_Note : string
}.

Record Calendar := mkCalendar {
  From : string; To : string; Timezone : string; StaffList : list Staff; Services : list Service;
  Bookings : list Booking; Blocks : list ScheduleBlock
}.

Record RunDetail := mkDetail {
  Run : RunTrace; det_Customer : Customer; Channel : string; ConversationStatus : string;
  Messages : list Message; MessagesTruncated : bool; det_Bookings : list Booking;
  det_Escalation : option Escalation
}.

Record CreateBookingCommand := mkCreateBooking {
  cb_CustomerID : string; cb_ServiceID : string; cb_StaffID : string; cb_StartsAt : Time; cb_Notes : string;
  cb_IdempotencyKey : string
}.

Record RescheduleBookingCommand := mkRescheduleBooking {
  rb_BookingID : string; rb_ExpectedVersion : Z; rb_StartsAt : Time; rb_IdempotencyKey : string
}.

Record CancelBookingCommand := mkCancelBooking {
  xb_BookingID : string; xb_ExpectedVersion : Z; xb_Reason : string; xb_IdempotencyKey : string
}.

Record CustomerListRequest := mkCustomerListRequest { cl_Query : string; cl_Limit : Z }.

Record CustomerList := mkCustomerList { cl_Items : list Customer }.

(** Two packages have sentinels of the same text, told apart here by their names. *)
Definition ErrInvalidCommand : error := ErrSentinel "operatorhttp: operator command is invalid".
Definition ErrBookingNotFound : error := ErrSentinel "operatorhttp: booking not found".
Definition ErrVersionConflict : error := ErrSentinel "operatorhttp: schedule version conflict".
Definition ErrSlotUnavailable : error := ErrSentinel "operatorhttp: slot is no longer available".
Definition ErrBookingStateConflict : error := ErrSentinel "operatorhttp: booking state conflict".

(** What the handlers ask for; the request carries the principal. *)
Record Backend := mkBackend {
  be_Dashboard : HttpRequest -> DashboardRequest -> M Dashboard;
  be_ListRuns : HttpRequest -> ListRunsRequest -> M RunPage;
  be_GetRun : HttpRequest -> string -> M RunDetail;
  be_Calendar : HttpRequest -> CalendarRequest -> M Calendar;
  be_ListCustomers : HttpRequest -> CustomerListRequest -> M CustomerList;
  be_CreateBooking : HttpRequest -> CreateBookingCommand -> M Booking;
  be_RescheduleBooking : HttpRequest -> RescheduleBookingCommand -> M Booking;
  be_CancelBooking : HttpRequest -> CancelBookingCommand -> M Booking
}.
End operatorapi.

(** [pgtype.UUID.Scan] accepts the text; the text PostgreSQL prints is one.
    Identifiers are those texts: another spelling of one names no row here. *)
Definition uuid_char (c : ascii) : bool := is_digit c || ((97 <=? code c) && (code c <=? 102)) || (code c =? 45).

Definition canonical_uuid (s : string) : bool := (len s =? 36) && forallb uuid_char (string_bytes s).

Class Uuids := {
  validUUID : string -> bool;
  validUUID_canonical s : canonical_uuid s = true -> validUUID s = true
}.

(** ** Patterns *)
(** [LIKE] over the characters of a text.  No pattern here ends with a backslash, which
    would be an error. *)
Fixpoint like (p t : list (list ascii)) {struct p} : bool :=
  match p with
  | [] => bool_decide (t = [])
  | c :: p' =>
      if bool_decide (c = [chr 37]) then
        (fix any (t : list (list ascii)) : bool :=
           like p' t || match t with [] => false | _ :: t' => any t' end) t
      else
        match t with
        | [] => false
        | x :: t' =>
            if bool_decide (c = [chr 95]) then like p' t'
            else if bool_decide (c = [chr 92]) then
              match p' with q :: p'' => bool_decide (q = x) && like p'' t' | [] => false end
            else bool_decide (c = x) && like p' t'
        end
  end.

Definition characters (s : string) : list (list ascii) := chunks (String.length s) (string_bytes s).

(** ** The cursor of a listing *)
Record runCursor := mkCursor { rc_StartedAt : Time; rc_ID : string }.

Definition zero_cursor : runCursor := mkCursor zero_time "".

(** A time that does not encode leaves no payload. *)
Definition encodeRunCursor (c : runCursor) : string :=
  Base64.EncodeToString
    (match time_json (rc_StartedAt c) with
     | Some at_ => Marshal (JObj [("started_at", at_); ("id", JStr (rc_ID c))])
     | None => ""
     end).

Section console.
Context `{host : !Host} `{letters : !Letters} `{uuids : !Uuids} (fuel : nat).

(** [ILIKE '%' || query || '%'] *)
Definition ilike (text query : string) : bool :=
  like (characters (pg_lower (cat ["%"; query; "%"]))) (characters (pg_lower text)).

(** A member that names no field is an error. *)
Definition decode_cursor_member (kv : string * json) (c : runCursor) : option runCursor :=
  if names_field kv.1 "started_at" then
    t ← decode_time Local (rc_StartedAt c) kv.2; Some (mkCursor t (rc_ID c))
  else if names_field kv.1 "id" then
    id ← decode_text (rc_ID c) kv.2; Some (mkCursor (rc_StartedAt c) id)
  else None.

(** The decoder reads one value, and then nothing but blanks. *)
Definition cursor_payload (encoded : string) : option runCursor :=
  payload ← Base64.DecodeString encoded;
  v ← Unmarshal payload;
  decode_struct decode_cursor_member v zero_cursor.

Definition decodeRunCursor (encoded : string) : result runCursor :=
  if 1024 <? len encoded then Err (ErrText "run cursor is too long")
  else
    match cursor_payload encoded with
    | Some c =>
        if IsZero (rc_StartedAt c) || negb (validUUID (rc_ID c)) then Err (ErrText "run cursor is invalid") else Ok c
    | None => Err (ErrText "run cursor is invalid")
    end.

(** ** The backend of one tenant: [postgres.go] *)
Record bookingCommander := mkCommander {
  do_create : AdminCreateBookingRequest -> M BookingResult;
  do_reschedule : AdminRescheduleBookingRequest -> M BookingResult;
  do_cancel : AdminCancelBookingRequest -> M BookingResult
}.

(** [ps_now] is the process's clock. *)
Record PostgreSQL := mkPostgreSQL {
  ps_trace : string -> M RunTrace; ps_commands : bookingCommander; ps_tenant : string; ps_timezone : string;
  ps_location : Location; ps_actorRef : string; ps_now : nat -> Time
}.

Definition NewPostgreSQL (pool : bool) (trace : option (string -> M RunTrace)) (commands : option bookingCommander)
    (tenant timezone : string) (now : nat -> Time) : result PostgreSQL :=
  if negb pool then Err (ErrText "operator postgres: nil pool")
  else
    match trace, commands with
    | None, _ => Err (ErrText "operator postgres: nil trace reader")
    | _, None => Err (ErrText "operator postgres: nil booking commander")
    | Some trace, Some commands =>
        match LoadLocation timezone with
        | Err err => Err (ErrWrap "operator postgres: invalid timezone" err)
        | Ok location => Ok (mkPostgreSQL trace commands tenant timezone location "operator" now)
        end
    end.

(** *** Runs *)
(** The rows of a [LEFT JOIN]: none is one without the other side. *)
Definition left_join {A} (l : list A) : list (option A) :=
  match l with [] => [None] | _ => map Some l end.

Definition customer_of (tenant : string) (id : option string) (d : DB) : list CustomerRow :=
  match id with
  | Some id => List.filter (is_customer tenant id) (customers d)
  | None => []
  end.

Definition run_joined (d : DB) (r : RunRow) : list (RunRow * ConversationRow * option CustomerRow) :=
  flat_map (fun c => map (fun cu => (r, c, cu)) (left_join (customer_of (cv_tenant c) (cv_customer c) d)))
    (List.filter (is_conv (ru_tenant r) (ru_conversation r)) (conversations d)).

Definition blank_or (name : option CustomerRow) : string :=
  match name with
  | Some c => if bool_decide (cu_name c = "") then "Unknown customer" else cu_name c
  | None => "Unknown customer"
  end.

Definition customer_name (c : option CustomerRow) : string := match c with Some c => cu_name c | None => "" end.

(** After the row a cursor names, in the order of the listing. *)
Definition past_cursor (cursor : option runCursor) (r : RunRow) : bool :=
  match cursor with
  | None => true
  | Some c =>
      let at_ := ns (pg_time Local (rc_StartedAt c)) in
      (ns (ru_started r) <? at_) || ((ns (ru_started r) =? at_) && String.ltb (ru_id r) (rc_ID c))
  end.

Definition run_matches (tenant : string) (q : operatorapi.ListRunsRequest) (cursor : option runCursor)
    (row : RunRow * ConversationRow * option CustomerRow) : bool :=
  let '(r, c, cu) := row in
  let query := TrimSpace (operatorapi.lr_Query q) in
  String.eqb (ru_tenant r) tenant &&
  (String.eqb (operatorapi.lr_Status q) "" || String.eqb (ru_status r) (operatorapi.lr_Status q)) &&
  (String.eqb (operatorapi.lr_Channel q) "" || String.eqb (cv_channel c) (operatorapi.lr_Channel q)) &&
  (String.eqb query "" || ilike (ru_id r) query || ilike (customer_name cu) query) &&
  opt_check (fun t => ns (pg_time Local t) <=? ns (ru_started r)) (operatorapi.lr_From q) &&
  opt_check (fun t => ns (ru_started r) <? ns (pg_time Local t)) (operatorapi.lr_To q) &&
  past_cursor cursor r.

(** [ORDER BY started_at DESC, id DESC] *)
Definition run_before (a b : RunRow) : bool :=
  (ns (ru_started b) <? ns (ru_started a)) ||
  ((ns (ru_started a) =? ns (ru_started b)) && String.ltb (ru_id b) (ru_id a)).

Definition run_summary (row : RunRow * ConversationRow * option CustomerRow) : operatorapi.RunSummary :=
  let '(r, c, cu) := row in
  operatorapi.mkSummary (ru_id r) (ru_conversation r) (blank_or cu) (cv_channel c) (ru_status r) (ru_duration r)
    (ru_prompt r) (ru_completion r) (ru_prompt r + ru_completion r) (ru_started r) (ru_finished r).

(** Every run that matches, in order; a page is a beginning of it. *)
Definition runs_listed (tenant : string) (q : operatorapi.ListRunsRequest) (cursor : option runCursor) (d : DB)
    : list operatorapi.RunSummary :=
  map run_summary (sort_slice (fun a b => run_before a.1.1 b.1.1)
    (List.filter (run_matches tenant q cursor) (flat_map (run_joined d) (agent_runs d)))).

Definition page_limit (limit : Z) : Z :=
  let limit := if limit <=? 0 then 50 else limit in if 100 <? limit then 100 else limit.

Definition run_page (limit : Z) (rows : list operatorapi.RunSummary) : operatorapi.RunPage :=
  if limit <? Z.of_nat (length rows) then
    let items := take (Z.to_nat limit) rows in
    operatorapi.mkPage items
      (match last items with
       | Some r => encodeRunCursor (mkCursor (operatorapi.rsm_StartedAt r) (operatorapi.rsm_ID r))
       | None => ""
       end)
  else operatorapi.mkPage rows "".

Definition request_cursor (cursor : string) : result (option runCursor) :=
  if bool_decide (cursor = "") then Ok None else let! c := decodeRunCursor cursor in Ok (Some c).

Definition listRunSummaries (s : PostgreSQL) (q : operatorapi.ListRunsRequest) : M operatorapi.RunPage :=
  let limit := page_limit (operatorapi.lr_Limit q) in
  let* cursor := lift (request_cursor (operatorapi.lr_Cursor q)) in
  let* rows := wrap "list operator runs" (query Pool (fun _ _ _ d =>
    Ok (take (Z.to_nat (limit + 1)) (runs_listed (ps_tenant s) q cursor d)))) in
  ret (run_page limit rows).

Definition ListRuns (s : PostgreSQL) (q : operatorapi.ListRunsRequest) : M operatorapi.RunPage :=
  listRunSummaries s q.

(** *** Bookings *)
Definition booking_view (cu : CustomerRow) (svc : ServiceRow) (st : StaffRow) (b : Booking) : operatorapi.Booking :=
  operatorapi.mkBooking (bk_ID b) (CustomerID b) (cu_name cu) (default "" (cu_email cu)) (default "" (cu_phone cu))
    (ConversationID b) (ServiceID b) (sv_name svc) (StaffID b) (st_name st) (Status b) (StartsAt b) (EndsAt b)
    (ScheduleVersion b) (Notes b).

(** The joins of a booking with its customer, service and member of staff. *)
Definition booking_joined (d : DB) (b : BookingRow) : list operatorapi.Booking :=
  let t := b_tenant b in let x := b_data b in
  flat_map (fun cu =>
    flat_map (fun svc =>
      map (fun st => booking_view cu svc st x) (List.filter (is_staff t (StaffID x)) (staff d)))
      (List.filter (is_service t (ServiceID x)) (services d)))
    (List.filter (is_customer t (CustomerID x)) (customers d)).

Definition booking_before (a b : operatorapi.Booking) : bool :=
  (ns (operatorapi.ob_StartsAt a) <? ns (operatorapi.ob_StartsAt b)) ||
  ((ns (operatorapi.ob_StartsAt a) =? ns (operatorapi.ob_StartsAt b)) &&
   String.ltb (operatorapi.ob_ID a) (operatorapi.ob_ID b)).

Definition bookings_listed (tenant : string) (condition : Booking -> bool) (d : DB) : list operatorapi.Booking :=
  sort_slice booking_before (flat_map (booking_joined d)
    (List.filter (fun b => String.eqb (b_tenant b) tenant && condition (b_data b)) (bookings d))).

Definition listBookings (s : PostgreSQL) (condition : Booking -> bool) : M (list operatorapi.Booking) :=
  wrap "list operator bookings" (query Pool (fun _ _ _ d => Ok (bookings_listed (ps_tenant s) condition d))).

Definition bookingByID (s : PostgreSQL) (bookingID : string) : M operatorapi.Booking :=
  let* bookings := listBookings s (fun b => String.eqb (bk_ID b) bookingID) in
  match bookings with
  | [] => fail operatorapi.ErrBookingNotFound
  | b :: _ => ret b
  end.

(** *** One run *)
Definition run_conversation (tenant id : string) (d : DB) : option (ConversationRow * option CustomerRow) :=
  hd_error (flat_map (fun c => map (fun cu => (c, cu)) (left_join (customer_of (cv_tenant c) (cv_customer c) d)))
    (List.filter (is_conv tenant id) (conversations d))).

(** Here an empty name stays. *)
Definition run_customer (cu : option CustomerRow) : operatorapi.Customer :=
  match cu with
  | Some c => operatorapi.mkCustomer (cu_id c) (cu_name c) (default "" (cu_email c)) (default "" (cu_phone c))
  | None => operatorapi.mkCustomer "" "Unknown customer" "" ""
  end.

Definition message_before (a b : MessageRow) : bool :=
  (ns (ms_created a) <? ns (ms_created b)) ||
  ((ns (ms_created a) =? ns (ms_created b)) && String.ltb (ms_id a) (ms_id b)).

(** The order of the texts of the identifiers. *)
Definition text_less (a b : string) : bool := match collate a b with Lt => true | _ => false end.

Definition shown_before (a b : MessageRow) : bool :=
  (ns (ms_created a) <? ns (ms_created b)) ||
  ((ns (ms_created a) =? ns (ms_created b)) && text_less (ms_id a) (ms_id b)).

(** The latest [501], and then in order. *)
Definition latest_messages (tenant conversation : string) (d : DB) : list MessageRow :=
  sort_slice shown_before (take 501 (sort_slice (fun a b => message_before b a)
    (List.filter (fun m => String.eqb (ms_tenant m) tenant && String.eqb (ms_conversation m) conversation)
       (messages d)))).

Definition message_view (m : MessageRow) : operatorapi.Message :=
  operatorapi.mkMessage (ms_id m) (ms_role m) (ms_content m) (ms_created m).

Definition escalation_after (a b : EscalationRow) : bool :=
  (ns (es_created b) <? ns (es_created a)) ||
  ((ns (es_created a) =? ns (es_created b)) && String.ltb (es_id b) (es_id a)).

Definition escalation_of_run (tenant run : string) (x : EscalationRow) : bool :=
  String.eqb (es_tenant x) tenant && bool_decide (es_run x = Some run).

Definition latest_escalation (tenant run : string) (d : DB) : option EscalationRow :=
  hd_error (sort_slice escalation_after (List.filter (escalation_of_run tenant run) (escalations d))).

Definition escalation_view (x : EscalationRow) : operatorapi.Escalation :=
  operatorapi.mkEscalation (es_id x) (es_reason x) (es_summary x) (es_status x) (es_created x).

Definition GetRun (s : PostgreSQL) (runID : string) : M operatorapi.RunDetail :=
  let* run := ps_trace s runID in
  let* (c, cu) := wrap "load operator run conversation" (
    let* o := query Pool (fun _ _ _ d => Ok (run_conversation (ps_tenant s) (rtr_ConversationID run) d)) in
    one_row o) in
  let* rows := wrap "load operator run messages" (query Pool (fun _ _ _ d =>
    Ok (latest_messages (ps_tenant s) (rtr_ConversationID run) d))) in
  let messages := map message_view rows in
  let truncated := (500 <? length messages)%nat in
  let messages := if truncated then drop (length messages - 500) messages else messages in
  let* bookings := listBookings s (fun b => negb (String.eqb (ConversationID b) "") &&
                                            String.eqb (ConversationID b) (rtr_ConversationID run)) in
  let* escalation := wrap "load operator run escalation" (query Pool (fun _ _ _ d =>
    Ok (latest_escalation (ps_tenant s) runID d))) in
  ret (operatorapi.mkDetail run (run_customer cu) (cv_channel c) (cv_status c) messages truncated bookings
         (option_map escalation_view escalation)).

(** *** The calendar *)
Definition staff_view (m : StaffRow) : operatorapi.Staff := operatorapi.mkStaff (st_id m) (st_name m) (st_timezone m).

Definition service_view (v : ServiceRow) : operatorapi.Service :=
  operatorapi.mkService (sv_id v) (sv_name v) (sv_duration v) (sv_price v) (TrimSpace (sv_currency v)).

Definition block_view (b : BlockRow) : operatorapi.ScheduleBlock :=
  operatorapi.mkBlock (bl_id b) (bl_staff b) (bl_kind b) (bl_starts b) (bl_ends b) (bl_note b).

Definition block_before (a b : BlockRow) : bool :=
  (ns (bl_starts a) <? ns (bl_starts b)) ||
  ((ns (bl_starts a) =? ns (bl_starts b)) && String.ltb (bl_id a) (bl_id b)).

(** Some of it is before [to], and some of it after [from]. *)
Definition within (from to start stop : Time) : bool :=
  (ns start <? ns (pg_time Local to)) && (ns (pg_time Local from) <? ns stop).

Definition Calendar (s : PostgreSQL) (q : operatorapi.CalendarRequest) : M operatorapi.Calendar :=
  let from := operatorapi.cal_From q in
  let to := operatorapi.cal_To q in
  if IsZero from || IsZero to || negb (Before from to) then fail (ErrText "calendar requires a positive range")
  else
    let* members := wrap "list operator calendar staff" (query Pool (fun _ _ _ d =>
      Ok (sort_slice (collated st_name st_id)
            (List.filter (fun m => String.eqb (st_tenant m) (ps_tenant s) && st_active m) (staff d))))) in
    let* offered := wrap "list operator calendar services" (query Pool (fun _ _ _ d =>
      Ok (sort_slice (collated sv_name sv_id)
            (List.filter (fun v => String.eqb (sv_tenant v) (ps_tenant s) && sv_active v) (services d))))) in
    let* bookings := listBookings s (fun b => negb (String.eqb (Status b) "cancelled") &&
                                              within from to (StartsAt b) (EndsAt b)) in
    let* closed := wrap "list operator calendar blocks" (query Pool (fun _ _ _ d =>
      Ok (sort_slice block_before
            (List.filter (fun b => String.eqb (bl_tenant b) (ps_tenant s) && within from to (bl_starts b) (bl_ends b))
               (blocks d))))) in
    ret (operatorapi.mkCalendar (format_date (In from (ps_location s))) (format_date (In to (ps_location s)))
           (ps_timezone s) (map staff_view members) (map service_view offered) bookings (map block_view closed)).

(** *** Customers *)
Definition customer_view (c : CustomerRow) : operatorapi.Customer :=
  operatorapi.mkCustomer (cu_id c) (cu_name c) (default "" (cu_email c)) (default "" (cu_phone c)).

Definition customer_matches (query : string) (c : CustomerRow) : bool :=
  String.eqb query "" || ilike (cu_name c) query ||
  match cu_email c with Some e => ilike e query | None => false end ||
  match cu_phone c with Some p => ilike p query | None => false end.

Definition customer_limit (limit : Z) : Z :=
  let limit := if limit <=? 0 then 20 else limit in if 50 <? limit then 50 else limit.

Definition ListCustomers (s : PostgreSQL) (q : operatorapi.CustomerListRequest) : M operatorapi.CustomerList :=
  let limit := customer_limit (operatorapi.cl_Limit q) in
  let text := TrimSpace (operatorapi.cl_Query q) in
  let* rows := wrap "list operator customers" (query Pool (fun _ _ _ d =>
    Ok (take (Z.to_nat limit) (sort_slice (collated cu_name cu_id)
      (List.filter (fun c => String.eqb (cu_tenant c) (ps_tenant s) && customer_matches text c) (customers d)))))) in
  ret (operatorapi.mkCustomerList (map customer_view rows)).

(** *** Commands *)
Definition orGeneratedKey (key : string) : M string :=
  if bool_decide (key = "") then let* id := New_id in ret (String.append "op-" id) else ret key.

Definition mapCommandError (err : error) : error :=
  if errors_is err ErrScheduleVersionConflict then operatorapi.ErrVersionConflict
  else if errors_is err ErrNotFound then operatorapi.ErrBookingNotFound
  else if errors_is err ErrSlotUnavailable then operatorapi.ErrSlotUnavailable
  else if errors_is err ErrBookingStateConflict then operatorapi.ErrBookingStateConflict
  else if errors_is err ErrIdempotencyConflict then operatorapi.ErrBookingStateConflict
  else if errors_is err ErrInvalidInput then operatorapi.ErrInvalidCommand
  else err.

(** The booking as the calendar shows it, once the command has been done. *)
Definition commanded (s : PostgreSQL) (command : M BookingResult) : M operatorapi.Booking :=
  let* result := map_err mapCommandError command in
  bookingByID s (bk_ID (res_Booking result)).

Definition CreateBooking (s : PostgreSQL) (c : operatorapi.CreateBookingCommand) : M operatorapi.Booking :=
  let* key := orGeneratedKey (operatorapi.cb_IdempotencyKey c) in
  commanded s (do_create (ps_commands s)
    (mkAdminCreate (operatorapi.cb_CustomerID c) (operatorapi.cb_ServiceID c) (operatorapi.cb_StaffID c)
       (operatorapi.cb_StartsAt c) (operatorapi.cb_Notes c) (ps_actorRef s) key)).

Definition RescheduleBooking (s : PostgreSQL) (c : operatorapi.RescheduleBookingCommand) : M operatorapi.Booking :=
  let* key := orGeneratedKey (operatorapi.rb_IdempotencyKey c) in
  commanded s (do_reschedule (ps_commands s)
    (mkAdminReschedule (operatorapi.rb_BookingID c) (operatorapi.rb_ExpectedVersion c) (operatorapi.rb_StartsAt c)
       (ps_actorRef s) key)).

Definition CancelBooking (s : PostgreSQL) (c : operatorapi.CancelBookingCommand) : M operatorapi.Booking :=
  let* key := orGeneratedKey (operatorapi.xb_IdempotencyKey c) in
  commanded s (do_cancel (ps_commands s)
    (mkAdminCancel (operatorapi.xb_BookingID c) (operatorapi.xb_ExpectedVersion c) (operatorapi.xb_Reason c)
       (ps_actorRef s) key)).

(** *** The dashboard *)
(** [AT TIME ZONE] on the server: the zone by its name. *)
Definition server_zone (name : string) : result Location :=
  match LoadLocation name with Ok l => Ok l | Err _ => Err (ErrPg "22023") end.

Definition count {A} (l : list A) : Z := Z.of_nat (length l).

Definition bookings_on_day (tenant : string) (zone : Location) (at_ : Time) (d : DB) : list BookingRow :=
  List.filter (fun b => String.eqb (b_tenant b) tenant && negb (String.eqb (Status (b_data b)) "cancelled") &&
                        (local_day (In (StartsAt (b_data b)) zone) =? local_day (In at_ zone))) (bookings d).

Definition runs_since (tenant : string) (since : Time) (d : DB) : list RunRow :=
  List.filter (fun r => String.eqb (ru_tenant r) tenant && (ns since <=? ns (ru_started r))) (agent_runs d).

(** A [double precision] to a [bigint]: half of [n], rounded to the even one. *)
Definition half_even (n : Z) : Z :=
  if n mod 2 =? 0 then n / 2 else if (n / 2) mod 2 =? 0 then n / 2 else n / 2 + 1.

(** [percentile_cont(0.5)]: the middle of the sorted values, or of the two in the middle. *)
Definition median (l : list Z) : Z :=
  match l with
  | [] => 0
  | _ =>
      let l := sort_slice Z.ltb l in
      let n := length l in
      half_even (nth ((n - 1) / 2) l 0 + nth (n / 2) l 0)
  end.

(** Runs, completed ones, ended ones, the median of the durations, and tokens. *)
Definition run_metrics (runs : list RunRow) : result (Z * Z * Z * Z * Z) :=
  if forallb (fun r => fits4 (ru_prompt r + ru_completion r)) runs then
    Ok (count runs, count (List.filter (fun r => String.eqb (ru_status r) "completed") runs),
        count (List.filter (fun r => negb (String.eqb (ru_status r) "running")) runs),
        median (omap ru_duration runs),
        foldr (fun r n => ru_prompt r + ru_completion r + n) 0 runs)
  else Err (ErrPg "22003").

Definition open_escalation (tenant : string) (x : EscalationRow) : bool :=
  String.eqb (es_tenant x) tenant && string_in (es_status x) ["open"; "claimed"].

(** [GROUP BY] and [ORDER BY] the key, with how often it occurs. *)
Definition counted {K} `{EqDecision K} (less : K -> K -> bool) (l : list K) : list (K * Z) :=
  map (fun k => (k, count (filter (.= k) l))) (sort_slice less (remove_dups l)).

Definition pair_less (a b : string * string) : bool :=
  match collate a.1 b.1 with Lt => true | Gt => false | Eq => text_less a.2 b.2 end.

(** The channel of a booking's conversation, or of none. *)
Definition booking_channels (d : DB) (b : BookingRow) : list string :=
  map (fun c => match c with Some c => cv_channel c | None => "operator" end)
    (left_join (if bool_decide (ConversationID (b_data b) = "") then []
                else List.filter (is_conv (b_tenant b) (ConversationID (b_data b))) (conversations d))).

Definition booking_series (tenant : string) (zone : Location) (since : Time) (d : DB)
    : list ((string * string) * Z) :=
  counted pair_less (flat_map (fun b =>
    map (fun channel => (format_date (In (CreatedAt (b_data b)) zone), channel)) (booking_channels d b))
    (List.filter (fun b => String.eqb (b_tenant b) tenant && (ns since <=? ns (CreatedAt (b_data b)))) (bookings d))).

Definition escalation_item (x : EscalationRow) : operatorapi.AttentionItem :=
  operatorapi.mkAttention "escalation" (es_id x) (default "" (es_run x)) (es_reason x) (es_summary x) (es_created x).

Definition failed_item (r : RunRow) : operatorapi.AttentionItem :=
  operatorapi.mkAttention "failed_run" (ru_id r) (ru_id r)
    (match ru_code r with Some c => if bool_decide (c = "") then "run failed" else c | None => "run failed" end)
    (default "" (ru_error r)) (ru_started r).

(** A failed run that no open escalation points at. *)
Definition unattended (d : DB) (r : RunRow) : bool :=
  string_in (ru_status r) ["failed"; "budget_exhausted"] &&
  negb (existsb (fun x => escalation_of_run (ru_tenant r) (ru_id r) x && open_escalation (ru_tenant r) x)
          (escalations d)).

(** [ORDER BY created_at DESC, id DESC] of texts. *)
Definition attention_before (a b : operatorapi.AttentionItem) : bool :=
  (ns (operatorapi.at_CreatedAt b) <? ns (operatorapi.at_CreatedAt a)) ||
  ((ns (operatorapi.at_CreatedAt a) =? ns (operatorapi.at_CreatedAt b)) &&
   text_less (operatorapi.at_ID b) (operatorapi.at_ID a)).

Definition attention_items (tenant : string) (since : Time) (d : DB) : list operatorapi.AttentionItem :=
  sort_slice attention_before
    (map escalation_item (List.filter (open_escalation tenant) (escalations d)) ++
     map failed_item (List.filter (unattended d) (runs_since tenant since d))).

Definition process_now (s : PostgreSQL) : M Time := fun _ w => (Ok (ps_now s (tick w)), bump w).

Definition latest_runs : operatorapi.ListRunsRequest := operatorapi.mkListRuns 8 "" "" "" "" None None.

Definition Dashboard (s : PostgreSQL) (q : operatorapi.DashboardRequest) : M operatorapi.Dashboard :=
  let days := operatorapi.Days q in
  if negb ((days =? 7) || (days =? 30) || (days =? 90))
  then fail (ErrText "dashboard period must be 7, 30, or 90 days")
  else
    let* at_ := process_now s in
    let now := ToUTC at_ in
    let since := pg_time Local (AddDate now 0 0 (- days)) in
    let* today := wrap "dashboard bookings today" (query Pool (fun _ _ _ d =>
      let! zone := server_zone (ps_timezone s) in
      Ok (count (bookings_on_day (ps_tenant s) zone (pg_time Local now) d)))) in
    let* (total, completed, ended, latency, tokens) := wrap "dashboard run metrics" (query Pool (fun _ _ _ d =>
      run_metrics (runs_since (ps_tenant s) since d))) in
    let* waiting := wrap "dashboard open escalations" (query Pool (fun _ _ _ d =>
      Ok (count (List.filter (open_escalation (ps_tenant s)) (escalations d))))) in
    let* series := wrap "dashboard booking series" (query Pool (fun _ _ _ d =>
      let! zone := server_zone (ps_timezone s) in
      Ok (booking_series (ps_tenant s) zone since d))) in
    let* outcomes := wrap "dashboard run outcomes" (query Pool (fun _ _ _ d =>
      Ok (counted text_less (map ru_status (runs_since (ps_tenant s) since d))))) in
    let* recent := listRunSummaries s latest_runs in
    let* attention := wrap "dashboard attention" (query Pool (fun _ _ _ d =>
      Ok (take 8 (attention_items (ps_tenant s) since d)))) in
    ret (operatorapi.mkDashboard now days
      (operatorapi.mkKPIs today total (if 0 <? ended then (completed, ended) else (0, 1)) latency waiting tokens)
      (map (fun p => operatorapi.mkPoint p.1.1 p.1.2 p.2) series)
      (map (fun p => operatorapi.mkOutcome p.1 p.2) outcomes) (operatorapi.Items recent) attention).

(** ** A backend for each request: [multitenant.go] *)
(** [AdminCreateBooking] and its like of the repository of one tenant. *)
Definition commander (r : PGXRepository) : bookingCommander :=
  mkCommander (AdminCreateBooking fuel r) (AdminRescheduleBooking fuel r) (AdminCancelBooking r).

Record MultiTenantPostgreSQL := mkMultiTenant { mt_pool : bool; mt_now : nat -> Time }.

Definition NewMultiTenantPostgreSQL (pool : bool) (now : nat -> Time) : result MultiTenantPostgreSQL :=
  if negb pool then Err (ErrText "operator multitenant postgres: nil pool") else Ok (mkMultiTenant pool now).

Definition acting_as (actor : string) (s : PostgreSQL) : PostgreSQL :=
  mkPostgreSQL (ps_trace s) (ps_commands s) (ps_tenant s) (ps_timezone s) (ps_location s) actor (ps_now s).

Definition scoped (m : MultiTenantPostgreSQL) (r : HttpRequest) : result PostgreSQL :=
  if negb (mt_pool m) then Err (ErrText "operator multitenant postgres: nil backend")
  else
    match PrincipalFromContext r with
    | None => Err ErrSessionInvalid
    | Some p =>
        let! backend := NewPostgreSQL (mt_pool m) (Some (AgentTrace.GetRun (p_TenantID p)))
          (Some (commander (NewPGXRepository (mt_pool m) (p_TenantID p)))) (p_TenantID p) (p_Timezone p) (mt_now m) in
        Ok (acting_as (p_OperatorID p) backend)
    end.

(** Every operation of the backend, on that of the principal's tenant. *)
Definition within_scope {A B} (m : MultiTenantPostgreSQL) (operation : PostgreSQL -> A -> M B) (r : HttpRequest) (a : A)
    : M B :=
  let* backend := lift (scoped m r) in operation backend a.

Definition multi_tenant (m : MultiTenantPostgreSQL) : operatorapi.Backend :=
  operatorapi.mkBackend (within_scope m Dashboard) (within_scope m ListRuns) (within_scope m GetRun)
    (within_scope m Calendar) (within_scope m ListCustomers) (within_scope m CreateBooking)
    (within_scope m RescheduleBooking) (within_scope m CancelBooking).
End console.
