(* ===== verification/OperatorHttp.v ===== *)
(** * The operator console's HTTP boundary: [internal/channels/operatorhttp/handler.go]

    Routes, the checks on what a request asks for, the statuses of the answers,
    and the authentication in front of them all.  Handlers work on any [Backend].
    A path is given as its decoded segments; one that is not clean is redirected
    before it comes here.  An answer is its status with the value that is encoded. *)

From Stdlib Require Import ZArith Lia Ascii.
From stdpp Require Import base list strings.
From S2P Require Import Prelude GoTime Json JsonParse Validation TimeText Tokens Url Mux Database Catalog OpenRouter Passwords Identity OperatorConsole.

#[local] Open Scope Z_scope.

#[local] Abbreviation TrimSpace := JsonParse.TrimSpace.

(** ** Requests and answers *)
Record OperatorRequest := mkOperatorRequest {
  or_Http : HttpRequest; or_Method : string; or_Path : list string; or_RawQuery : string; or_Body : string
}.

Inductive Body :=
| BodySession (s : operatorapi.Session)
| BodyDashboard (d : operatorapi.Dashboard)
| BodyRuns (p : operatorapi.RunPage)
| BodyRun (r : operatorapi.RunDetail)
| BodyCalendar (c : operatorapi.Calendar)
| BodyCustomers (l : operatorapi.CustomerList)
| BodyBooking (b : operatorapi.Booking).

Inductive Reply :=
| ProblemReply (status : Z) (title : string)
| JSONReply (status : Z) (body : Body).

Definition status_of (r : Reply) : Z := match r with ProblemReply s _ | JSONReply s _ => s end.

Definition BadRequest : string -> Reply := ProblemReply 400.
Definition internalError : Reply := ProblemReply 500 "operator query failed".

(** ** Checks *)
Definition allowedRunStatus (s : string) : bool :=
  string_in s ["running"; "completed"; "failed"; "escalated"; "budget_exhausted"].

Definition allowedChannel (s : string) : bool := string_in s ["web"; "telegram"; "demo"].

(** No text, or an integer within the bounds. *)
Definition limit_of (raw : string) (default_ most : Z) : option Z :=
  if bool_decide (raw = "") then Some default_
  else match Atoi raw with
       | Some n => if (n <? 1) || (most <? n) then None else Some n
       | None => None
       end.

(** [time.ParseInLocation("2006-01-02", text, location)] *)
Definition parse_day (location : Location) (text : string) : option Time :=
  '(y, l) ← fixed 4 (string_bytes text); l ← literal 45 l;
  '(m, l) ← fixed 2 l; l ← literal 45 l;
  '(d, l) ← fixed 2 l;
  match l with
  | _ :: _ => None
  | [] => if between_bad 1 12 m || between_bad 1 (days_in y m) d then None else Some (Date y m d 0 0 0 0 location)
  end.

(** [decodeCommandBody] *)
Definition strict {A} : (string * json -> A -> option A) -> A -> string -> option A := strict_body 16384.

Record createBody := mkCreateBody {
  bd_CustomerID : string; bd_ServiceID : string; bd_StaffID : string; bd_StartsAt : string; bd_Notes : string;
  bd_Key : string
}.

Definition create_member (kv : string * json) (b : createBody) : option createBody :=
  let '(mkCreateBody cu sv st at_ notes key) := b in
  let '(k, x) := kv in
  if names_field k "customer_id" then cu ← decode_text cu x; Some (mkCreateBody cu sv st at_ notes key)
  else if names_field k "service_id" then sv ← decode_text sv x; Some (mkCreateBody cu sv st at_ notes key)
  else if names_field k "staff_id" then st ← decode_text st x; Some (mkCreateBody cu sv st at_ notes key)
  else if names_field k "starts_at" then at_ ← decode_text at_ x; Some (mkCreateBody cu sv st at_ notes key)
  else if names_field k "notes" then notes ← decode_text notes x; Some (mkCreateBody cu sv st at_ notes key)
  else if names_field k "idempotency_key" then key ← decode_text key x; Some (mkCreateBody cu sv st at_ notes key)
  else None.

(** A reschedule's [starts_at] or a cancellation's [reason]. *)
Record changeBody := mkChangeBody { bd_Version : Z; bd_Text : string; bd_ChangeKey : string }.

Definition change_member (text : string) (kv : string * json) (b : changeBody) : option changeBody :=
  let '(mkChangeBody version s key) := b in
  let '(k, x) := kv in
  if names_field k "expected_version" then version ← decode_int version x; Some (mkChangeBody version s key)
  else if names_field k text then s ← decode_text s x; Some (mkChangeBody version s key)
  else if names_field k "idempotency_key" then key ← decode_text key x; Some (mkChangeBody version s key)
  else None.

Definition key_refused (key : string) : bool :=
  negb (bool_decide (key = "")) && ((len key <? 16) || (128 <? len key)).

Definition command_status (err : error) : Reply :=
  if errors_is err operatorapi.ErrInvalidCommand then BadRequest "invalid command"
  else if errors_is err operatorapi.ErrBookingNotFound then ProblemReply 404 "booking not found"
  else if errors_is err operatorapi.ErrVersionConflict then ProblemReply 409 "schedule version conflict"
  else if errors_is err operatorapi.ErrSlotUnavailable then ProblemReply 409 "slot unavailable"
  else if errors_is err operatorapi.ErrBookingStateConflict then ProblemReply 409 "booking state conflict"
  else internalError.

(** ** Handlers *)
Section http.
Context `{host : !Host} `{uuids : !Uuids} (backend : operatorapi.Backend) (now : nat -> Time).

(** The backend's answer with this status, or what its error comes to. *)
Definition answered {A} (status : Z) (body : A -> Body) (failed : error -> Reply) (m : M A) : M Reply :=
  let* r := attempt m in
  ret (match r with Ok a => JSONReply status (body a) | Err err => failed err end).

Definition query_failed (_ : error) : Reply := internalError.

Definition getSession (r : OperatorRequest) : M Reply :=
  ret (match PrincipalFromContext (or_Http r) with
       | None => internalError
       | Some p => JSONReply 200 (BodySession (operatorapi.mkSession (p_TenantID p) (p_TenantName p) (p_Timezone p)
                     (p_Currency p) (p_OperatorID p) (p_Email p) (p_DisplayName p) (p_Role p)))
       end).

Definition getDashboard (r : OperatorRequest) : M Reply :=
  let value := Get "range" (Query (or_RawQuery r)) in
  let days := if string_in value [""; "30d"] then Some 30 else if String.eqb value "7d" then Some 7
              else if String.eqb value "90d" then Some 90 else None in
  match days with
  | None => ret (BadRequest "invalid range")
  | Some days => answered 200 BodyDashboard query_failed
                   (operatorapi.be_Dashboard backend (or_Http r) (operatorapi.mkDashboardRequest days))
  end.

(** An optional time, or [None] for a text that is none. *)
Definition time_bound (raw : string) : option (option Time) :=
  let raw := TrimSpace raw in
  if bool_decide (raw = "") then Some None
  else match ParseRFC3339 Local raw with Some t => Some (Some t) | None => None end.

Definition bad_range (from to : option Time) : bool :=
  match from, to with Some f, Some t => negb (Before f t) | _, _ => false end.

Definition runs_request (values : list (string * string)) : operatorapi.ListRunsRequest + string :=
  let field k := TrimSpace (Get k values) in
  match limit_of (Get "limit" values) 50 100 with
  | None => inr "invalid limit"
  | Some limit =>
      if negb (bool_decide (field "status" = "")) && negb (allowedRunStatus (field "status")) then inr "invalid status"
      else if negb (bool_decide (field "channel" = "")) && negb (allowedChannel (field "channel")) then inr "invalid channel"
      else if 200 <? len (field "q") then inr "invalid query"
      else
        match time_bound (Get "from" values), time_bound (Get "to" values) with
        | Some from, Some to =>
            if bad_range from to then inr "invalid time range"
            else if negb (bool_decide (field "cursor" = "")) && negb (is_ok (decodeRunCursor (field "cursor")))
            then inr "invalid cursor"
            else inl (operatorapi.mkListRuns limit (field "cursor") (field "status") (field "channel") (field "q") from to)
        | _, _ => inr "invalid time range"
        end
  end.

Definition listRuns (r : OperatorRequest) : M Reply :=
  match runs_request (Query (or_RawQuery r)) with
  | inr title => ret (BadRequest title)
  | inl request => answered 200 BodyRuns query_failed (operatorapi.be_ListRuns backend (or_Http r) request)
  end.

Definition run_failed (err : error) : Reply :=
  if errors_is err ErrNoRows then ProblemReply 404 "run not found" else internalError.

Definition getRun (runID : string) (r : OperatorRequest) : M Reply :=
  let runID := TrimSpace runID in
  if negb (validUUID runID) then ret (BadRequest "invalid run id")
  else answered 200 BodyRun run_failed (operatorapi.be_GetRun backend (or_Http r) runID).

(** The week that holds [now], from its Monday. *)
Definition this_week (location : Location) (t : Time) : Time * Time :=
  let t := In t location in
  let offset := (Weekday t + 6) mod 7 in
  let from := AddDate (Date (Year t) (Month t) (Day t) 0 0 0 0 location) 0 0 (- offset) in
  (from, AddDate from 0 0 7).

Definition http_now : M Time := fun _ w => (Ok (now (tick w)), bump w).

Definition show_calendar (r : OperatorRequest) (from to : Time) : M Reply :=
  if negb (Before from to) || After to (AddDate from 0 0 31) then ret (BadRequest "invalid calendar range")
  else answered 200 BodyCalendar query_failed
         (operatorapi.be_Calendar backend (or_Http r) (operatorapi.mkCalendarRequest from to)).

Definition calendar_zone (r : OperatorRequest) : result Location :=
  match PrincipalFromContext (or_Http r) with Some p => LoadLocation (p_Timezone p) | None => Ok UTC end.

Definition getCalendar (r : OperatorRequest) : M Reply :=
  match calendar_zone r with
  | Err _ => ret (ProblemReply 500 "invalid tenant timezone")
  | Ok location =>
      let from := TrimSpace (Get "from" (Query (or_RawQuery r))) in
      let to := TrimSpace (Get "to" (Query (or_RawQuery r))) in
      if bool_decide (from = "") && bool_decide (to = "") then
        let* t := http_now in
        let '(from, to) := this_week location t in
        show_calendar r from to
      else if bool_decide (from = "") || bool_decide (to = "") then ret (BadRequest "invalid calendar range")
      else
        match parse_day location from, parse_day location to with
        | Some from, Some to => show_calendar r from to
        | _, _ => ret (BadRequest "invalid calendar range")
        end
  end.

Definition listCustomers (r : OperatorRequest) : M Reply :=
  let values := Query (or_RawQuery r) in
  let query := TrimSpace (Get "q" values) in
  if 200 <? len query then ret (BadRequest "invalid query")
  else
    match limit_of (Get "limit" values) 20 50 with
    | None => ret (BadRequest "invalid limit")
    | Some limit =>
        answered 200 BodyCustomers query_failed
          (operatorapi.be_ListCustomers backend (or_Http r) (operatorapi.mkCustomerListRequest query limit))
    end.

Definition parseCommandTime (value : string) : option Time := ParseRFC3339 Local (TrimSpace value).

Definition createBooking (r : OperatorRequest) : M Reply :=
  match strict create_member (mkCreateBody "" "" "" "" "" "") (or_Body r) with
  | None => ret (BadRequest "invalid request body")
  | Some b =>
      if negb (validUUID (bd_CustomerID b)) || negb (validUUID (bd_ServiceID b)) || negb (validUUID (bd_StaffID b))
      then ret (BadRequest "invalid booking")
      else
        match parseCommandTime (bd_StartsAt b) with
        | None => ret (BadRequest "invalid time")
        | Some startsAt =>
            if 500 <? len (bd_Notes b) then ret (BadRequest "invalid booking")
            else if key_refused (bd_Key b) then ret (BadRequest "invalid idempotency key")
            else answered 201 BodyBooking command_status (operatorapi.be_CreateBooking backend (or_Http r)
                   (operatorapi.mkCreateBooking (bd_CustomerID b) (bd_ServiceID b) (bd_StaffID b) startsAt
                      (bd_Notes b) (bd_Key b)))
        end
  end.

Definition rescheduleBooking (bookingID : string) (r : OperatorRequest) : M Reply :=
  let bookingID := TrimSpace bookingID in
  if negb (validUUID bookingID) then ret (BadRequest "invalid booking id")
  else
    match strict (change_member "starts_at") (mkChangeBody 0 "" "") (or_Body r) with
    | None => ret (BadRequest "invalid request body")
    | Some b =>
        if bd_Version b <=? 0 then ret (BadRequest "invalid reschedule")
        else
          match parseCommandTime (bd_Text b) with
          | None => ret (BadRequest "invalid time")
          | Some startsAt =>
              if key_refused (bd_ChangeKey b) then ret (BadRequest "invalid idempotency key")
              else answered 200 BodyBooking command_status (operatorapi.be_RescheduleBooking backend (or_Http r)
                     (operatorapi.mkRescheduleBooking bookingID (bd_Version b) startsAt (bd_ChangeKey b)))
          end
    end.

Definition cancelBooking (bookingID : string) (r : OperatorRequest) : M Reply :=
  let bookingID := TrimSpace bookingID in
  if negb (validUUID bookingID) then ret (BadRequest "invalid booking id")
  else
    match strict (change_member "reason") (mkChangeBody 0 "" "") (or_Body r) with
    | None => ret (BadRequest "invalid request body")
    | Some b =>
        if bd_Version b <=? 0 then ret (BadRequest "invalid cancel")
        else if bool_decide (TrimSpace (bd_Text b) = "") || (500 <? len (bd_Text b)) then ret (BadRequest "invalid cancel")
        else if key_refused (bd_ChangeKey b) then ret (BadRequest "invalid idempotency key")
        else answered 200 BodyBooking command_status (operatorapi.be_CancelBooking backend (or_Http r)
               (operatorapi.mkCancelBooking bookingID (bd_Version b) (bd_Text b) (bd_ChangeKey b)))
    end.

(** ** Routes *)
Definition under (path : list (option string)) : list (option string) :=
  [Some "api"; Some "v1"; Some "operator"] ++ path.

Definition routes : list (Route (OperatorRequest -> M Reply)) :=
  [ handle "GET" (under [Some "session"]) (fun _ => getSession);
    handle "GET" (under [Some "dashboard"]) (fun _ => getDashboard);
    handle "GET" (under [Some "runs"]) (fun _ => listRuns);
    handle "GET" (under [Some "runs"; None]) (fun v => getRun (default "" (head v)));
    handle "GET" (under [Some "calendar"]) (fun _ => getCalendar);
    handle "GET" (under [Some "customers"]) (fun _ => listCustomers);
    handle "POST" (under [Some "bookings"]) (fun _ => createBooking);
    handle "POST" (under [Some "bookings"; None; Some "reschedule"]) (fun v => rescheduleBooking (default "" (head v)));
    handle "POST" (under [Some "bookings"; None; Some "cancel"]) (fun v => cancelBooking (default "" (head v))) ].

(** No route here is a subtree: nothing is redirected. *)
Definition mux (r : OperatorRequest) : M Reply :=
  match route routes (or_Method r) (or_Path r) with
  | Handled handler => handler r
  | NoRoute | Redirected => ret (ProblemReply 404 "404 page not found")
  | WrongMethod => ret (ProblemReply 405 "Method Not Allowed")
  end.

Definition with_http (r : OperatorRequest) (http : HttpRequest) : OperatorRequest :=
  mkOperatorRequest http (or_Method r) (or_Path r) (or_RawQuery r) (or_Body r).

(** [New]: the routes behind the session. *)
Definition ServeOperator (validator : option (string -> M Principal)) (r : OperatorRequest) : M (Response Reply) :=
  Authenticated validator (fun http => let* reply := mux (with_http r http) in ret (Answer reply)) (or_Http r).
End http.

Definition New {A} (authenticator : option A) (backend : option operatorapi.Backend)
    : result (A * operatorapi.Backend) :=
  match backend, authenticator with
  | None, _ => Err (ErrText "operator HTTP: nil backend")
  | _, None => Err (ErrText "operator HTTP: an identity session validator is required")
  | Some b, Some a => Ok (a, b)
  end.
