(* ===== verification/OperatorProps.v ===== *)
(** * What the operator console shows and does

    Over [OperatorConsole] and [OperatorHttp]: the pages of a listing hold every
    run once; an operator's requests stay in the tenant of the session; and the
    status of a command tells whether the schedule changed.

    A cursor is read back as it was written; the order of a listing is total; and
    what a cursor leaves out is a beginning of the listing. *)

From Stdlib Require Import ZArith Lia Ascii.
From stdpp Require Import base list strings sorting.
From S2P Require Import Prelude GoTime Json JsonParse JsonFacts Validation Base64 TimeText Tokens Database DatabaseFacts Catalog Repository Conversations Identity OperatorConsole.

#[local] Open Scope Z_scope.

(** ** The length of a cursor *)
Lemma escape_ascii_short c : (length (string_bytes (escape_ascii c)) <= 6)%nat.
Proof. destruct c as [[] [] [] [] [] [] [] []]; apply Nat.leb_le; reflexivity. Qed.

Lemma escape_short n l :
  utf8 l -> (length (string_bytes (escape_bytes n l)) <= 6 * length l)%nat.
Proof.
  intros Hu; revert n; induction Hu as [|c l Hn _ IH]; intros n; [by destruct n|].
  destruct n as [|n]; [simpl; lia|]. cbn [escape_bytes].
  destruct (utf8_len_cases c l Hn) as [[Hc E]|(Hc & Hle & _)].
  - rewrite (proj2 (Z.ltb_lt _ _) Hc), string_bytes_app, length_app.
    rewrite E in IH. cbn [drop] in IH. rewrite drop_0 in IH.
    pose proof (escape_ascii_short c). specialize (IH n). simpl in *. lia.
  - rewrite (proj2 (Z.ltb_ge _ _) Hc).
    set (k := utf8_len (c :: l)) in *. clearbody k. destruct k as [|k]; [done|].
    rewrite string_bytes_app, length_app. specialize (IH n). rewrite length_drop in IH.
    assert (Ht : (length (string_bytes match line_separator (take (S k) (c :: l)) with
                                       | Some s => s | None => of_bytes (take (S k) (c :: l)) end) <= 6 * S k)%nat).
    { destruct (line_separator _) as [s|] eqn:Es; [|rewrite string_of_bytes, length_take; lia].
      unfold line_separator in Es. destruct (take (S k) (c :: l)) as [|? [|? [|? [|]]]]; try done.
      destruct (_ && _); [|done]. injection Es as <-. simpl. lia. }
    simpl length in *. lia.
Qed.

Lemma quote_short s : ValidString s = true ->
  (length (string_bytes (quote s)) <= 6 * String.length s + 2)%nat.
Proof.
  intros Hs. pose proof (string_bytes_quote s []) as E. rewrite app_nil_r in E. rewrite E.
  pose proof (escape_short (length (string_bytes s)) _ (ValidString_utf8 s Hs)) as H.
  pose proof (len_bytes s) as Hl. unfold len in Hl. simpl. rewrite length_app. simpl. lia.
Qed.

Lemma encode_short l : (3 * length (encode l) <= 4 * length l + 8)%nat.
Proof. induction l as [|a|a b|a b c l IH] using triples_ind; cbn [encode length]; lia. Qed.

Lemma RFC3339Nano_short t :
  0 <= Year t <= 9999 -> whole_minutes t -> (String.length (RFC3339Nano t) <= 40)%nat.
Proof.
  intros Hy Hw. pose proof (len_bytes (RFC3339Nano t)) as H. unfold len in H.
  rewrite RFC3339Nano_bytes in H by done.
  repeat (rewrite ?length_app, ?length_cons, ?length_digit_list in H).
  assert (Hf : (length (fraction_text t) <= 10)%nat).
  { unfold fraction_text. destruct (clock_ranges t) as (_ & _ & _ & Hn).
    destruct (Z.eqb_spec (NanosecondOf t) 0) as [|H0]; [simpl; lia|].
    destruct (trim_zeros_spec 9 9 (NanosecondOf t)) as (v & m & Hv & _ & _ & ->);
      [lia|change (10 ^ Z.of_nat 9) with Second; lia|]. rewrite length_cons, length_digit_list. lia. }
  assert (Hz : (length (string_bytes (zone_suffix t)) <= 6)%nat).
  { destruct (zone_suffix_bytes t Hw) as [[_ ->]|(c & h & m & _ & _ & -> & _)]; [simpl; lia|].
    rewrite length_cons, length_app, length_cons, !length_digit_list. lia. }
  lia.
Qed.

(** ** The round trip *)
Definition listable (id : string) (t : Time) : Prop :=
  canonical_uuid id = true /\ 0 <= Year t <= 9999 /\ whole_minutes t /\ IsZero t = false.

Lemma canonical_valid id : canonical_uuid id = true -> ValidString id = true /\ String.length id = 36%nat.
Proof.
  unfold canonical_uuid. rewrite andb_true_iff, Z.eqb_eq, forallb_forall. intros [Hl Hc].
  split; [|unfold len in Hl; lia]. pose proof (len_bytes id) as H. unfold len in *. apply plain_valid; [lia|].
  apply Forall_forall. intros c Hin%list_elem_of_In. specialize (Hc c Hin). unfold uuid_char, is_digit, plain in *.
  apply orb_true_iff in Hc as [Hc|Hc]; [apply orb_true_iff in Hc as [Hc|Hc]|]; bool_to_prop; lia.
Qed.

Lemma time_json_listable t : 0 <= Year t <= 9999 -> whole_minutes t -> time_json t = Some (JStr (RFC3339Nano t)).
Proof.
  intros Hy [_ Ho]. unfold time_json. cbv zeta.
  rewrite (proj2 (Z.leb_le _ _)), (proj2 (Z.leb_le _ _)), (proj2 (Z.ltb_lt _ _)) by lia. done.
Qed.

(** The payload of a cursor. *)
Definition cursor_json (id : string) (t : Time) : json :=
  JObj [("started_at"%string, JStr (RFC3339Nano t)); ("id"%string, JStr id)].

Lemma cursor_json_short id t :
  listable id t -> (length (string_bytes (Marshal (cursor_json id t))) <= 700)%nat.
Proof.
  intros (Hid & Hy & Hw & _). destruct (canonical_valid id Hid) as [Hv Hl].
  pose proof (quote_short (RFC3339Nano t) (RFC3339Nano_valid t Hy Hw)) as H1.
  pose proof (quote_short id Hv) as H2. pose proof (RFC3339Nano_short t Hy Hw) as H3.
  assert (E1 : length (string_bytes (quote "started_at")) = 12%nat) by reflexivity.
  assert (E2 : length (string_bytes (quote "id")) = 4%nat) by reflexivity.
  unfold cursor_json. cbn [Marshal map fst snd join]. rewrite !string_bytes_app, !length_app, E1, E2.
  set (a := length (string_bytes (quote (RFC3339Nano t)))) in *. set (b := length (string_bytes (quote id))) in *.
  clearbody a b. cbn [string_bytes length]. lia.
Qed.

Lemma Marshal_object l : string_bytes (Marshal (JObj l)) <> [].
Proof. cbn [Marshal]. rewrite string_bytes_app. discriminate. Qed.

Lemma encodeRunCursor_text id t :
  listable id t -> encodeRunCursor (mkCursor t id) = Base64.EncodeToString (Marshal (cursor_json id t)).
Proof.
  intros (_ & Hy & Hw & _). unfold encodeRunCursor. cbn [rc_StartedAt rc_ID].
  by rewrite (time_json_listable t Hy Hw).
Qed.

Lemma encodeRunCursor_short id t : listable id t -> len (encodeRunCursor (mkCursor t id)) <= 1024.
Proof.
  intros H. rewrite encodeRunCursor_text by done. pose proof (cursor_json_short id t H) as Hs.
  rewrite len_bytes. unfold Base64.EncodeToString. rewrite string_of_bytes.
  set (l := string_bytes (Marshal (cursor_json id t))) in *. clearbody l. pose proof (encode_short l). lia.
Qed.

Lemma encodeRunCursor_not_empty id t : listable id t -> encodeRunCursor (mkCursor t id) <> ""%string.
Proof.
  intros H. rewrite encodeRunCursor_text by done. intros E. apply (f_equal string_bytes) in E.
  unfold Base64.EncodeToString in E. rewrite string_of_bytes in E.
  eapply encode_not_nil; [|exact E]. apply Marshal_object.
Qed.

Section cursors.
Context `{host : !Host} `{letters : !Letters} `{uuids : !Uuids}.

Lemma bound_some {A B} (f : A -> option B) x : (Some x ≫= f) = f x.
Proof. reflexivity. Qed.

Lemma decode_cursor_json id t t' :
  decode_time Local zero_time (JStr (RFC3339Nano t)) = Some t' ->
  decode_struct decode_cursor_member (cursor_json id t) zero_cursor = Some (mkCursor t' id).
Proof.
  unfold cursor_json. generalize (RFC3339Nano t). intros text Ht'.
  assert (E1 : names_field "started_at" "started_at" = true) by (vm_compute; reflexivity).
  assert (E2 : names_field "id" "started_at" = false) by (vm_compute; reflexivity).
  assert (E3 : names_field "id" "id" = true) by (vm_compute; reflexivity).
  unfold decode_struct, decode_fields, decode_cursor_member, fst, snd. rewrite E1, E2, E3.
  change (rc_StartedAt zero_cursor) with zero_time. rewrite Ht'. reflexivity.
Qed.

Lemma cursor_json_read id t : listable id t -> Unmarshal (Marshal (cursor_json id t)) = Some (cursor_json id t).
Proof.
  intros (Hid & Hy & Hw & _). destruct (canonical_valid id Hid) as [Hv _].
  apply Unmarshal_Marshal; [|done]. unfold cursor_json. cbn [encodable forallb fst snd].
  by rewrite (RFC3339Nano_valid t Hy Hw), Hv.
Qed.

Lemma cursor_payload_encoded id t :
  listable id t -> exists t', ns t' = ns t /\
    cursor_payload (encodeRunCursor (mkCursor t id)) = Some (mkCursor t' id).
Proof.
  intros H. pose proof H as (_ & Hy & Hw & _).
  destruct (time_json_spec _ _ (time_json_listable t Hy Hw) Hw) as (_ & _ & Hd).
  destruct (Hd Local zero_time) as (t' & Ht' & Hns).
  exists t'. split; [done|]. rewrite encodeRunCursor_text by done. unfold cursor_payload.
  rewrite DecodeString_EncodeToString, bound_some, (cursor_json_read id t H), bound_some.
  by apply decode_cursor_json.
Qed.

Lemma decode_encode_cursor id t :
  listable id t -> exists t', ns t' = ns t /\
    decodeRunCursor (encodeRunCursor (mkCursor t id)) = Ok (mkCursor t' id).
Proof.
  intros H. destruct (cursor_payload_encoded id t H) as (t' & Hns & Hp). exists t'.
  split; [done|]. pose proof H as (Hid & Hrest). unfold decodeRunCursor.
  rewrite (proj2 (Z.ltb_ge _ _) (encodeRunCursor_short id t H)), Hp. cbn [rc_StartedAt rc_ID].
  rewrite (validUUID_canonical id Hid). destruct Hrest as (_ & _ & Hz). unfold IsZero in *. by rewrite Hns, Hz.
Qed.
End cursors.

(** ** The order of a listing *)
Abbreviation joined_run := (RunRow * ConversationRow * option CustomerRow)%type.
Definition joined_before (a b : joined_run) : bool := run_before a.1.1 b.1.1.

Definition run_key (r : RunRow) : string * string := (ru_tenant r, ru_id r).
Definition conversation_key (c : ConversationRow) : string * string := (cv_tenant c, cv_id c).
Definition customer_key (c : CustomerRow) : string * string := (cu_tenant c, cu_id c).

Definition joined_le (a b : joined_run) : Prop :=
  ns (ru_started b.1.1) < ns (ru_started a.1.1) \/
  ns (ru_started a.1.1) = ns (ru_started b.1.1) /\ String.le (ru_id b.1.1) (ru_id a.1.1).

Lemma not_less_joined a b : not_less joined_before a b <-> joined_le a b.
Proof.
  unfold not_less, joined_before, run_before, joined_le. rewrite orb_false_iff, andb_false_iff, string_ltb_false.
  rewrite Z.ltb_ge, Z.eqb_neq. destruct (Z.lt_trichotomy (ns (ru_started a.1.1)) (ns (ru_started b.1.1))) as [|[|]];
    intuition lia.
Qed.

#[global] Instance joined_total : Total (not_less joined_before).
Proof.
  intros a b. rewrite !not_less_joined. unfold joined_le.
  destruct (Z.lt_total (ns (ru_started a.1.1)) (ns (ru_started b.1.1))) as [|[|]]; [by right; left| |by left; left].
  destruct (total String.le (ru_id b.1.1) (ru_id a.1.1)); [left|right]; by right.
Qed.

#[global] Instance joined_trans : Transitive (not_less joined_before).
Proof.
  intros a b c. rewrite !not_less_joined. unfold joined_le.
  intros [|[? H1]] [|[? H2]]; [left; lia..|]. right. split; [lia|]. by etrans.
Qed.

(** One of the two is strictly first, where their keys differ. *)
Lemma joined_strict a b :
  not_less joined_before a b -> ru_id a.1.1 <> ru_id b.1.1 -> joined_before a b = true.
Proof.
  intros Hab Hne. destruct (joined_before a b) eqn:E; [done|]. exfalso. apply Hne.
  apply not_less_joined in Hab. assert (Hba : not_less joined_before b a) by done. apply not_less_joined in Hba.
  unfold joined_le in *. destruct Hab as [|[? H1]], Hba as [|[? H2]]; try lia. by apply (anti_symm String.le).
Qed.

(** Where a cursor stands in a sorted list. *)
Lemma filter_after {A} (less : A -> A -> bool) (l1 l2 : list A) (x : A) :
  Forall (fun z => less x z = false) (l1 ++ [x]) -> Forall (fun z => less x z = true) l2 ->
  List.filter (less x) (l1 ++ x :: l2) = l2.
Proof.
  intros H1 H2. change (x :: l2) with ([x] ++ l2). rewrite app_assoc, List.filter_app.
  assert (E : forall l, Forall (fun z => less x z = false) l -> List.filter (less x) l = []).
  { induction 1 as [|z l Hz _ IH]; simpl; [done|]. by rewrite Hz. }
  rewrite (E _ H1). simpl. induction H2 as [|z l Hz _ IH]; simpl; [done|]. by rewrite Hz, IH.
Qed.

Lemma StronglySorted_split {A} (R : A -> A -> Prop) (l1 l2 : list A) x :
  StronglySorted R (l1 ++ x :: l2) -> Forall (fun z => R z x) l1 /\ Forall (R x) l2.
Proof.
  induction l1 as [|y l1 IH]; simpl; intros H.
  - apply StronglySorted_inv in H as [_ H]. by split.
  - apply StronglySorted_inv in H as [H Hy]. destruct (IH H) as [H1 H2]. split; [|done]. constructor; [|done].
    apply Forall_app in Hy as [_ Hy]. by apply Forall_cons in Hy as [? _].
Qed.

Lemma joined_irreflexive x : joined_before x x = false.
Proof. destruct (total (not_less joined_before) x x); done. Qed.

Lemma sorted_after (l1 l2 : list joined_run) x :
  StronglySorted (not_less joined_before) (l1 ++ x :: l2) ->
  NoDup (map (fun y : joined_run => ru_id y.1.1) (l1 ++ x :: l2)) ->
  List.filter (joined_before x) (l1 ++ x :: l2) = l2.
Proof.
  intros [H1 H2]%StronglySorted_split Hn. apply filter_after.
  - apply Forall_app. split; [exact H1|]. constructor; [apply joined_irreflexive|constructor].
  - rewrite map_app in Hn. apply NoDup_app in Hn as (_ & _ & Hn). simpl in Hn. apply NoDup_cons in Hn as [Hx _].
    apply Forall_forall. intros z Hz. apply joined_strict; [by eapply (proj1 (Forall_forall _ _) H2)|].
    intros E. apply Hx. rewrite E. by apply (list_elem_of_fmap_2 (fun y : joined_run => ru_id y.1.1)).
Qed.

(** Filters of lists. *)
Lemma sublist_filter_bool {A} (p : A -> bool) (l : list A) : sublist (List.filter p l) l.
Proof. induction l as [|a l IH]; simpl; [done|]. destruct (p a); by constructor. Qed.

Lemma filter_bool_perm {A} (p : A -> bool) (l k : list A) : l ≡ₚ k -> List.filter p l ≡ₚ List.filter p k.
Proof.
  induction 1 as [|x l k _ IH|x y l|l k m _ IH1 _ IH2]; simpl; [done| | |by etrans].
  - destruct (p x); by rewrite ?IH.
  - destruct (p x), (p y); done || apply Permutation_swap.
Qed.

Lemma filter_bool_and {A} (p q : A -> bool) (l : list A) :
  List.filter (fun x => p x && q x) l = List.filter q (List.filter p l).
Proof.
  induction l as [|a l IH]; simpl; [done|]. destruct (p a); simpl; [|done]. destruct (q a); by rewrite IH.
Qed.

(** ** Keys of the joined rows *)
(** Where each element contributes at most one, the keys of what came out are keys of what went in. *)
Lemma map_flat_map_sublist {A B K} (f : A -> list B) (g : B -> K) (h : A -> K) (l : list A) :
  (forall a, (length (f a) <= 1)%nat /\ forall b, b ∈ f a -> g b = h a) ->
  sublist (map g (flat_map f l)) (map h l).
Proof.
  intros Hf. induction l as [|a l IH]; [constructor|]. simpl. rewrite map_app.
  destruct (Hf a) as [Hl Hb]. destruct (f a) as [|b [|]]; [by constructor| |simpl in Hl; lia].
  simpl. rewrite (Hb b) by by left. by constructor.
Qed.

Lemma filter_one {A K} (key : A -> K) (p : A -> bool) (k : K) (l : list A) :
  NoDup (map key l) -> (forall a, p a = true -> key a = k) -> (length (List.filter p l) <= 1)%nat.
Proof.
  intros Hn Hp. destruct (List.filter p l) as [|x [|y m]] eqn:E; simpl; try lia. exfalso.
  assert (Hs : sublist (map key (x :: y :: m)) (map key l)).
  { rewrite <- E. by apply fmap_sublist, sublist_filter_bool. }
  assert (H : forall z, z ∈ x :: y :: m -> p z = true).
  { intros z Hz. rewrite <- E in Hz. by apply elem_of_filter_bool in Hz as [_ ?]. }
  apply (sublist_NoDup _ _ Hn) in Hs. simpl in Hs. apply NoDup_cons in Hs as [Hx _]. apply Hx.
  rewrite (Hp x) by (apply H; by left). rewrite <- (Hp y) by (apply H; right; by left). by left.
Qed.

Lemma length_left_join {A} (l : list A) : (length l <= 1)%nat -> length (left_join l) = 1%nat.
Proof. destruct l as [|a [|]]; simpl; [done|done|lia]. Qed.

(** The keys of the tables a listing joins. *)
Definition keyed (d : DB) : Prop :=
  NoDup (map run_key (agent_runs d)) /\ NoDup (map conversation_key (conversations d)) /\
  NoDup (map customer_key (customers d)).

Lemma run_joined_one d r : keyed d -> (length (run_joined d r) <= 1)%nat.
Proof.
  intros (_ & Hc & Hcu). unfold run_joined.
  assert (Hl : (length (List.filter (is_conv (ru_tenant r) (ru_conversation r)) (conversations d)) <= 1)%nat).
  { apply (filter_one conversation_key _ (ru_tenant r, ru_conversation r)); [done|].
    intros c Hc'. unfold is_conv in Hc'. apply andb_true_iff in Hc' as [H1%String.eqb_eq H2%String.eqb_eq].
    unfold conversation_key. by rewrite H1, H2. }
  destruct (List.filter _ (conversations d)) as [|c [|]]; [simpl; lia| |simpl in Hl; lia].
  simpl. rewrite app_nil_r, length_map, length_left_join; [done|]. unfold customer_of.
  destruct (cv_customer c) as [id|]; [|simpl; lia].
  apply (filter_one customer_key _ (cv_tenant c, id)); [done|]. intros x Hx. unfold is_customer in Hx.
  apply andb_true_iff in Hx as [H1%String.eqb_eq H2%String.eqb_eq]. unfold customer_key. by rewrite H1, H2.
Qed.

Lemma joined_keys d :
  keyed d -> NoDup (map (fun x : joined_run => run_key x.1.1) (flat_map (run_joined d) (agent_runs d))).
Proof.
  intros Hk. pose proof (proj1 Hk) as Hr. eapply sublist_NoDup; [exact Hr|]. apply map_flat_map_sublist.
  intros r. split; [by apply run_joined_one|]. intros x Hx. unfold run_joined in Hx.
  apply list_elem_of_In, in_flat_map in Hx as (c & _ & Hx). apply in_map_iff in Hx as (cu & <- & _). done.
Qed.

(** ** Pages *)
Section pages.
Context `{host : !Host} `{letters : !Letters} `{uuids : !Uuids} (tenant : string) (d : DB).
Hypothesis Hkeyed : keyed d.
Hypothesis Hlistable : forall r, r ∈ agent_runs d -> ru_tenant r = tenant ->
  listable (ru_id r) (ru_started r) /\ ns (pg_time Local (ru_started r)) = ns (ru_started r).

Definition rows_listed (q : operatorapi.ListRunsRequest) (cursor : option runCursor) : list joined_run :=
  sort_slice joined_before (List.filter (run_matches tenant q cursor) (flat_map (run_joined d) (agent_runs d))).

Lemma runs_rows q cursor : runs_listed tenant q cursor d = map run_summary (rows_listed q cursor).
Proof. done. Qed.

Lemma rows_sorted q cursor : StronglySorted (not_less joined_before) (rows_listed q cursor).
Proof. apply sort_slice_sorted; apply _. Qed.

Lemma elem_of_rows q cursor x :
  x ∈ rows_listed q cursor ->
  x ∈ flat_map (run_joined d) (agent_runs d) /\ run_matches tenant q cursor x = true.
Proof. unfold rows_listed. rewrite elem_of_sort_slice. apply elem_of_filter_bool. Qed.

Lemma row_tenant q cursor x : x ∈ rows_listed q cursor ->
  ru_tenant x.1.1 = tenant /\ x.1.1 ∈ agent_runs d.
Proof.
  intros [Hx Hm]%elem_of_rows. split.
  - destruct x as [[r c] cu]. unfold run_matches in Hm. rewrite !andb_true_iff in Hm. apply String.eqb_eq. simpl. tauto.
  - apply list_elem_of_In, in_flat_map in Hx as (r & Hr & Hx). unfold run_joined in Hx.
    apply in_flat_map in Hx as (c & _ & Hx). apply in_map_iff in Hx as (cu & <- & _). by apply list_elem_of_In.
Qed.

Lemma row_unique q c1 c2 x y : x ∈ rows_listed q c1 -> y ∈ rows_listed q c2 ->
  ru_id x.1.1 = ru_id y.1.1 -> x = y.
Proof.
  intros Hx Hy Hid. destruct (row_tenant _ _ _ Hx) as [Htx _], (row_tenant _ _ _ Hy) as [Hty _].
  apply elem_of_rows in Hx as [Hx _], Hy as [Hy _].
  eapply (NoDup_map_inj (fun x : joined_run => run_key x.1.1)); [by apply joined_keys|done|done|].
  unfold run_key. congruence.
Qed.

Lemma rows_nodup q cursor : NoDup (map (fun x : joined_run => ru_id x.1.1) (rows_listed q cursor)).
Proof.
  assert (H : NoDup (rows_listed q cursor)).
  { unfold rows_listed. rewrite sort_slice_perm. eapply sublist_NoDup; [|apply sublist_filter_bool].
    eapply (NoDup_fmap_1 (fun x : joined_run => run_key x.1.1)). by apply joined_keys. }
  pose proof (row_unique q cursor cursor) as Hu. revert H Hu. generalize (rows_listed q cursor). intros l.
  induction 1 as [|x l Hx _ IH]; intros Hu; simpl; [constructor|]. constructor; cycle 1.
  { apply IH. intros y z Hy Hz. apply Hu; by right. }
  intros (y & Hid & Hy)%list_elem_of_fmap. apply Hx. rewrite (Hu x y); [done|by left|by right|done].
Qed.

(** What a cursor leaves of a listing is what comes after the row it names. *)
Lemma rows_past q x c : ns (rc_StartedAt c) = ns (ru_started x.1.1) -> rc_ID c = ru_id x.1.1 ->
  x.1.1 ∈ agent_runs d -> ru_tenant x.1.1 = tenant ->
  rows_listed q (Some c) = List.filter (joined_before x) (rows_listed q None).
Proof.
  intros Hns Hid Hin Ht.
  assert (Hp : forall y, run_matches tenant q (Some c) y = run_matches tenant q None y && joined_before x y).
  { intros [[r cv] cu]. unfold run_matches. rewrite andb_true_r. f_equal. unfold past_cursor, joined_before, run_before.
    destruct (Hlistable _ Hin Ht) as [_ E]. unfold pg_time in *. cbn [ns] in *. cbn [fst]. rewrite Hns, E, Hid.
    f_equal. by rewrite Z.eqb_sym. }
  apply (StronglySorted_unique_strong (not_less joined_before)).
  - intros y z Hy Hz Hyz Hzy. apply (row_unique q (Some c) None); [done|by apply elem_of_filter_bool in Hz as [? _]|].
    destruct (decide (ru_id y.1.1 = ru_id z.1.1)) as [|Hne]; [done|].
    pose proof (joined_strict y z Hyz Hne) as E. by rewrite Hzy in E.
  - apply rows_sorted.
  - pose proof (rows_sorted q None) as Hs. induction Hs as [|y l Hl IH Hall]; simpl; [constructor|].
    destruct (joined_before x y); [|done]. constructor; [done|].
    eapply (incl_Forall (P:=fun z => not_less joined_before y z)); [|exact Hall].
    intros z Hz. by apply filter_In in Hz as [? _].
  - unfold rows_listed at 1. rewrite sort_slice_perm.
    rewrite (List.filter_ext _ _ Hp), filter_bool_and. apply filter_bool_perm. unfold rows_listed. by rewrite sort_slice_perm.
Qed.
End pages.

(** ** Reading a trace *)
Lemma local_traces tenant rows : local (AgentTrace.tool_traces tenant rows).
Proof.
  induction rows as [|[no t] rows IH]; simpl; [auto with db|]. unfold AgentTrace.getAttempts. walk_local.
Qed.

Lemma local_trace tenant run : local (AgentTrace.GetRun tenant run).
Proof. unfold AgentTrace.GetRun. pose proof local_traces. walk_local. Qed.

#[export] Hint Resolve local_traces local_trace : db.

(** * Pages, tenants and statuses *)

From S2P Require Import RepositoryFacts SalonDemo ToolBackendProps Passwords Mux OperatorHttp.

#[local] Open Scope Z_scope.

(** ** Pages *)
Definition at_cursor (q : operatorapi.ListRunsRequest) (cursor : string) : operatorapi.ListRunsRequest :=
  operatorapi.mkListRuns (operatorapi.lr_Limit q) cursor (operatorapi.lr_Status q) (operatorapi.lr_Channel q)
    (operatorapi.lr_Query q) (operatorapi.lr_From q) (operatorapi.lr_To q).

Section pages.
Context `{host : !Host} `{letters : !Letters} `{uuids : !Uuids}.

(** A client that follows the cursors to the end, over at most [n] pages. *)
Fixpoint walk (n : nat) (s : PostgreSQL) (q : operatorapi.ListRunsRequest) : M (list operatorapi.RunPage) :=
  match n with
  | O => fail Diverges
  | S n =>
      let* page := ListRuns s q in
      if bool_decide (operatorapi.NextCursor page = "") then ret [page]
      else
        let* rest := walk n s (at_cursor q (operatorapi.NextCursor page)) in
        ret (page :: rest)
  end.

Lemma page_limit_range limit : 1 <= page_limit limit <= 100.
Proof. unfold page_limit. destruct (Z.leb_spec limit 0), (Z.ltb_spec 100 limit); simpl; try lia. Qed.

Lemma ListRuns_calm s q c e w :
  (forall n, fault e n = None) -> request_cursor (operatorapi.lr_Cursor q) = Ok c ->
  exists w', ListRuns s q e w =
    (Ok (run_page (page_limit (operatorapi.lr_Limit q))
           (take (Z.to_nat (page_limit (operatorapi.lr_Limit q) + 1)) (runs_listed (ps_tenant s) q c (db w)))), w') /\
    db w' = db w.
Proof.
  intros Hf Hc. unfold ListRuns, listRunSummaries, lift, bind, wrap, map_err, query, run. rewrite Hc, Hf. simpl.
  eexists. split; [reflexivity|done].
Qed.

(** A page and what comes after it. *)
Lemma run_page_split limit (rows : list joined_run) :
  1 <= limit ->
  let page := run_page limit (take (Z.to_nat (limit + 1)) (map run_summary rows)) in
  (page = operatorapi.mkPage (map run_summary rows) "" /\ Z.of_nat (length rows) <= limit) \/
  exists before x after, rows = before ++ x :: after /\ Z.of_nat (length (before ++ [x])) = limit /\
    page = operatorapi.mkPage (map run_summary (before ++ [x]))
             (encodeRunCursor (mkCursor (ru_started x.1.1) (ru_id x.1.1))).
Proof.
  intros Hl page. unfold page, run_page. rewrite length_take, length_map.
  destruct (limit <? _) eqn:Hm; bool_to_prop; cycle 1.
  { left. split; [|lia]. rewrite take_ge; [done|]. rewrite length_map. lia. }
  right. rewrite take_take. replace (Nat.min _ _) with (Z.to_nat limit) by lia.
  set (n := Z.to_nat limit) in *. assert (Hn : (1 <= n /\ n < length rows)%nat) by lia.
  destruct (lookup_lt_is_Some_2 rows (n - 1)%nat) as [x Hx]; [lia|].
  assert (Ht : take n rows = take (n - 1) rows ++ [x]).
  { replace n with (S (n - 1)) at 1 by lia. by apply take_S_r. }
  exists (take (n - 1) rows), x, (drop n rows). rewrite <- Ht. split.
  { change (x :: drop n rows) with ([x] ++ drop n rows). by rewrite app_assoc, <- Ht, take_drop. }
  split; [rewrite Ht, length_app; simpl; rewrite length_take; lia|].
  rewrite firstn_map, Ht, map_app. simpl. rewrite last_snoc. by destruct x as [[r c] cu].
Qed.

Section walking.
Context (s : PostgreSQL) (e : env) (q : operatorapi.ListRunsRequest).
Hypothesis calm : forall n, fault e n = None.

Lemma walk_rows n rows c cursor w :
  keyed (db w) ->
  (forall r, r ∈ agent_runs (db w) -> ru_tenant r = ps_tenant s ->
     listable (ru_id r) (ru_started r) /\ ns (pg_time Local (ru_started r)) = ns (ru_started r)) ->
  (length rows < n)%nat -> request_cursor cursor = Ok c -> rows_listed (ps_tenant s) (db w) q c = rows ->
  (exists skipped, rows_listed (ps_tenant s) (db w) q None = skipped ++ rows) ->
  exists pages w', walk n s (at_cursor q cursor) e w = (Ok pages, w') /\ db w' = db w /\
    concat (map operatorapi.Items pages) = map run_summary rows /\
    Forall (fun p => Z.of_nat (length (operatorapi.Items p)) <= page_limit (operatorapi.lr_Limit q)) pages.
Proof.
  intros Hk Hl. revert rows c cursor w Hk Hl. induction n as [|n IH]; intros rows c cursor w Hk Hl Hn Hc Hr Hs; [lia|].
  simpl. destruct (ListRuns_calm s (at_cursor q cursor) c e w calm Hc) as (w1 & Hp & Hd).
  pose proof (page_limit_range (operatorapi.lr_Limit q)) as Hlim.
  change (operatorapi.lr_Limit (at_cursor q cursor)) with (operatorapi.lr_Limit q) in Hp.
  change (runs_listed (ps_tenant s) (at_cursor q cursor) c (db w))
    with (map run_summary (rows_listed (ps_tenant s) (db w) q c)) in Hp. rewrite Hr in Hp.
  unfold bind at 1. rewrite Hp.
  destruct (run_page_split (page_limit (operatorapi.lr_Limit q)) rows (proj1 Hlim))
    as [[-> Hlen]|(before & x & after & Hrows & Hlen & ->)]; cbn [operatorapi.NextCursor operatorapi.Items].
  - rewrite bool_decide_eq_true_2 by done. eexists _, _. split; [reflexivity|]. split; [done|]. cbn.
    rewrite app_nil_r. split; [done|]. constructor; [|done]. cbn. by rewrite length_map.
  - destruct Hs as [skipped Hs].
    assert (Hx : x ∈ rows_listed (ps_tenant s) (db w) q None).
    { rewrite Hs, Hrows. apply elem_of_app. right. apply elem_of_app. right. by left. }
    destruct (row_tenant _ _ _ _ _ Hx) as [Ht Hin]. destruct (Hl _ Hin Ht) as [Hli _].
    rewrite bool_decide_eq_false_2 by by apply encodeRunCursor_not_empty.
    destruct (decode_encode_cursor _ _ Hli) as (t' & Hns & Hdec).
    set (next := encodeRunCursor _) in *.
    assert (Hnext : request_cursor next = Ok (Some (mkCursor t' (ru_id x.1.1)))).
    { unfold request_cursor. rewrite bool_decide_eq_false_2 by by apply encodeRunCursor_not_empty. by rewrite Hdec. }
    assert (Hafter : rows_listed (ps_tenant s) (db w) q (Some (mkCursor t' (ru_id x.1.1))) = after).
    { rewrite (rows_past _ _ Hk Hl q x) by done. rewrite Hs, Hrows, app_assoc.
      pose proof (rows_sorted (ps_tenant s) (db w) q None) as Hso.
      pose proof (rows_nodup (ps_tenant s) (db w) Hk q None) as Hnd. rewrite Hs, Hrows, app_assoc in Hso, Hnd.
      by apply sorted_after. }
    destruct (IH after (Some (mkCursor t' (ru_id x.1.1))) next w1) as (pages & w' & Hw & Hd' & Hcat & Hall);
      rewrite ?Hd; try done.
    { rewrite Hrows, length_app in Hn. simpl in Hn. lia. }
    { exists (skipped ++ before ++ [x]). rewrite Hs, Hrows. by rewrite <- !app_assoc. }
    unfold bind. change (at_cursor (at_cursor q cursor) next) with (at_cursor q next). rewrite Hw.
    eexists _, _. split; [reflexivity|]. rewrite Hd', Hd. split; [done|]. split.
    + cbn. rewrite Hcat, Hrows, !map_app. by rewrite <- app_assoc.
    + constructor; [cbn; rewrite length_map; lia|done].
Qed.
End walking.

Lemma rows_length tenant d q : keyed d -> (length (rows_listed tenant d q None) <= length (agent_runs d))%nat.
Proof.
  intros Hk. unfold rows_listed. rewrite length_sort_slice.
  etrans; [apply sublist_length, sublist_filter_bool|].
  rewrite <- (length_map (fun x : joined_run => run_key x.1.1)), <- (length_map run_key (agent_runs d)).
  apply sublist_length, map_flat_map_sublist. intros r. split; [by apply run_joined_one|].
  intros x Hx. apply list_elem_of_In in Hx. unfold run_joined in Hx.
  apply in_flat_map in Hx as (c & _ & Hx). by apply in_map_iff in Hx as (cu & <- & _).
Qed.

(** C34. The pages of a listing hold every run once.  On tables that do not change, a
    client that starts without a cursor and follows those it is given comes to an
    end; its pages, none longer than the limit, hold together every run of the tenant
    that matches, none twice, the latest first. *)
Theorem run_pages_cover (s : PostgreSQL) (q : operatorapi.ListRunsRequest) (e : env) (w : world)
    (calm : forall n, fault e n = None) (Hkeyed : keyed (db w))
    (Hstored : forall r, r ∈ agent_runs (db w) -> ru_tenant r = ps_tenant s ->
       listable (ru_id r) (ru_started r) /\ ns (pg_time Local (ru_started r)) = ns (ru_started r)) :
  exists pages w', walk (S (length (agent_runs (db w)))) s (at_cursor q "") e w = (Ok pages, w') /\ db w' = db w /\
    Forall (fun p => Z.of_nat (length (operatorapi.Items p)) <= page_limit (operatorapi.lr_Limit q)) pages /\
    let all := concat (map operatorapi.Items pages) in
    (forall x, x ∈ flat_map (run_joined (db w)) (agent_runs (db w)) ->
       run_matches (ps_tenant s) q None x = true -> run_summary x ∈ all) /\
    NoDup (map operatorapi.rsm_ID all) /\
    StronglySorted (fun a b => ns (operatorapi.rsm_StartedAt b) <= ns (operatorapi.rsm_StartedAt a)) all.
Proof.
  destruct (walk_rows s e q calm (S (length (agent_runs (db w)))) (rows_listed (ps_tenant s) (db w) q None) None "" w)
    as (pages & w' & Hw & Hd & Hcat & Hall); try done.
  { pose proof (rows_length (ps_tenant s) (db w) q Hkeyed). lia. }
  { by exists []. }
  exists pages, w'. split; [exact Hw|]. split; [exact Hd|]. split; [exact Hall|]. cbv zeta. rewrite Hcat. split; [|split].
  - intros x Hx Hm. apply list_elem_of_fmap_2. apply elem_of_sort_slice, elem_of_filter_bool. by split.
  - rewrite map_map. erewrite map_ext; [exact (rows_nodup (ps_tenant s) (db w) Hkeyed q None)|]. by intros [[r c] cu].
  - pose proof (rows_sorted (ps_tenant s) (db w) q None) as Hs. revert Hs. generalize (rows_listed (ps_tenant s) (db w) q None).
    induction 1 as [|x l _ IH Hx]; simpl; [constructor|]. constructor; [done|].
    apply Forall_map. eapply Forall_impl; [exact Hx|]. intros y Hy%not_less_joined.
    destruct x as [[rx cx] cux], y as [[ry cy] cuy]. unfold joined_le in Hy. simpl in *. lia.
Qed.
End pages.

(** ** What the handlers do *)
(** The three commands of an operator. *)
Inductive order : Type :=
| OrderCreate (c : operatorapi.CreateBookingCommand)
| OrderReschedule (c : operatorapi.RescheduleBookingCommand)
| OrderCancel (c : operatorapi.CancelBookingCommand).

Definition give (b : operatorapi.Backend) (r : HttpRequest) (o : order) : M operatorapi.Booking :=
  match o with
  | OrderCreate c => operatorapi.be_CreateBooking b r c
  | OrderReschedule c => operatorapi.be_RescheduleBooking b r c
  | OrderCancel c => operatorapi.be_CancelBooking b r c
  end.

Definition done_status (o : order) : Z := match o with OrderCreate _ => 201 | _ => 200 end.

(** What a backend promises of its queries. *)
Class ReadsOnly (b : operatorapi.Backend) : Prop := {
  ro_dashboard r q : local (operatorapi.be_Dashboard b r q);
  ro_runs r q : local (operatorapi.be_ListRuns b r q);
  ro_run r id : local (operatorapi.be_GetRun b r id);
  ro_calendar r q : local (operatorapi.be_Calendar b r q);
  ro_customers r q : local (operatorapi.be_ListCustomers b r q)
}.

#[local] Hint Resolve ro_dashboard ro_runs ro_run ro_calendar ro_customers : db.

Lemma local_attempt {A} (m : M A) : local m -> local (attempt m).
Proof. intros Hm e w. unfold attempt. specialize (Hm e w). by destruct (m e w) as [[a|err] w']. Qed.

Section handlers.
Context `{host : !Host} `{uuids : !Uuids} (b : operatorapi.Backend) `{!ReadsOnly b} (now : nat -> Time).

(** No booking is shown. *)
Definition no_booking (m : M Reply) : Prop :=
  forall e w status booking w', m e w <> (Ok (JSONReply status (BodyBooking booking)), w').

Definition reads (m : M Reply) : Prop := local m /\ no_booking m.

(** A request reads, or it is answered for one command. *)
Definition reads_or_orders (r : OperatorRequest) (m : M Reply) : Prop :=
  reads m \/ exists o, m = answered (done_status o) BodyBooking command_status (give b (or_Http r) o).

(** ... and that only by [POST]. *)
Definition reads_or_posts (method : string) (r : OperatorRequest) (m : M Reply) : Prop :=
  reads m \/ method = "POST"%string /\ reads_or_orders r m.

Lemma reads_problem status title : reads (ret (ProblemReply status title)).
Proof. split; [auto with db|]. intros e w st bk w'. unfold ret. discriminate. Qed.

Lemma reads_answered {A} status (body : A -> Body) failed (m : M A) :
  local m -> (forall a bk, body a <> BodyBooking bk) -> (forall err st bk, failed err <> JSONReply st (BodyBooking bk)) ->
  reads (answered status body failed m).
Proof.
  intros Hm Hb Hf. split.
  - unfold answered. apply local_bind; [by apply local_attempt|]. intros r. auto with db.
  - intros e w st bk w'. unfold answered, bind, attempt, ret. destruct (m e w) as [[a|err] w1]; intros H.
    + injection H as _ H _. by apply (Hb a bk).
    + injection H as H _. by apply (Hf err st bk).
Qed.

Lemma query_failed_problem err st bk : query_failed err <> JSONReply st (BodyBooking bk).
Proof. discriminate. Qed.

Lemma run_failed_problem err st bk : run_failed err <> JSONReply st (BodyBooking bk).
Proof. unfold run_failed. by destruct (errors_is _ _). Qed.

#[local] Hint Resolve query_failed_problem run_failed_problem : db.

Ltac walk_reads := repeat (lazymatch goal with
  | |- reads (match ?x with _ => _ end) => destruct x
  | |- reads (ret _) => apply reads_problem
  | |- reads (answered _ _ _ _) => apply reads_answered; [auto with db|done|auto with db]
  | |- reads_or_orders _ (match ?x with _ => _ end) => destruct x
  | |- reads_or_orders _ (ret _) => left; apply reads_problem
  end).

Lemma calendar_reads r : reads (getCalendar b now r).
Proof.
  unfold getCalendar. destruct (calendar_zone r) as [l|]; [|apply reads_problem]. cbv zeta.
  assert (Hs : forall f t, reads (show_calendar b r f t)).
  { intros f t. unfold show_calendar. walk_reads. }
  destruct (_ && _); [|repeat case_match; try apply reads_problem; apply Hs].
  split.
  - apply local_bind; [done|]. intros t. destruct (this_week l t). apply Hs.
  - intros e w st bk w'. unfold bind, http_now. destruct (this_week l _). apply Hs.
Qed.

Lemma handler_cases rt values r : rt ∈ routes b now -> reads_or_posts (default ""%string (pt_method (rt_pattern rt))) r (rt_handler rt values r).
Proof.
  unfold routes. rewrite !elem_of_cons, elem_of_nil.
  intros [->|[->|[->|[->|[->|[->|[->|[->|[->|[]]]]]]]]]]; cbn [rt_handler rt_pattern pt_method handle default].
  - left. unfold getSession. split; [auto with db|]. intros e w st bk w'. unfold ret. by destruct (PrincipalFromContext _).
  - left. unfold getDashboard. cbv zeta. destruct (if string_in _ _ then _ else _); walk_reads.
  - left. unfold listRuns. walk_reads.
  - left. unfold getRun. cbv zeta. walk_reads.
  - left. apply calendar_reads.
  - left. unfold listCustomers. cbv zeta. walk_reads.
  - right. split; [done|]. unfold createBooking. walk_reads. right. by eexists (OrderCreate _).
  - right. split; [done|]. unfold rescheduleBooking. cbv zeta. walk_reads. right. by eexists (OrderReschedule _).
  - right. split; [done|]. unfold cancelBooking. cbv zeta. walk_reads. right. by eexists (OrderCancel _).
Qed.

Lemma mux_cases r : reads_or_posts (or_Method r) r (mux b now r).
Proof.
  unfold mux. destruct (route _ _ _) as [h| | |] eqn:E; [|left; apply reads_problem..].
  apply route_Handled in E as (rt & values & Hrt & Hm & -> & _).
  destruct (handler_cases rt values r Hrt) as [|[Hp Ho]]; [by left|]. right. split; [|done].
  destruct (pt_method (rt_pattern rt)) as [m|]; [|done]. cbn in Hp. subst m. by apply method_exact in Hm.
Qed.
End handlers.

(** ** The backend of the principal's tenant *)
Section tenants.
Context `{host : !Host} `{letters : !Letters} `{uuids : !Uuids} (fuel : nat) (m : MultiTenantPostgreSQL).

Lemma scoped_Ok r s : scoped fuel m r = Ok s ->
  exists p, PrincipalFromContext r = Some p /\ ps_tenant s = p_TenantID p /\ ps_actorRef s = p_OperatorID p /\
    ps_trace s = AgentTrace.GetRun (p_TenantID p) /\
    ps_commands s = commander fuel (NewPGXRepository true (p_TenantID p)).
Proof.
  unfold scoped. destruct (mt_pool m) eqn:Hm; [|done]. cbn [negb].
  destruct (PrincipalFromContext r) as [p|]; [|done]. intros (b & Hb & [= <-])%rbind_Ok.
  unfold NewPostgreSQL in Hb. cbn [negb] in Hb. destruct (LoadLocation _) as [l|]; [|done].
  injection Hb as <-. by exists p.
Qed.

Lemma local_bookings s c : local (listBookings s c).
Proof. unfold listBookings. walk_local. Qed.

Lemma local_runs s q : local (ListRuns s q).
Proof. unfold ListRuns, listRunSummaries. cbv zeta. walk_local. Qed.

#[local] Hint Resolve local_bookings local_runs : db.

Lemma local_scoped {A B} (op : PostgreSQL -> A -> M B) r a :
  (forall s, scoped fuel m r = Ok s -> local (op s a)) -> local (within_scope fuel m op r a).
Proof.
  intros Hop e w. unfold within_scope, bind, lift. destruct (scoped fuel m r) as [s|err] eqn:E; [|done].
  by apply Hop.
Qed.

#[global] Instance multi_tenant_reads : ReadsOnly (multi_tenant fuel m).
Proof.
  split; intros r q; apply local_scoped; intros s Hs.
  - unfold Dashboard. cbv zeta. destruct (negb _); [auto with db|]. apply local_bind; [done|]. intros at_. cbv zeta.
    repeat (apply local_bind; [walk_local; fail|intros ?]). walk_local.
  - auto with db.
  - destruct (scoped_Ok _ _ Hs) as (p & _ & _ & _ & Ht & _). unfold GetRun. rewrite Ht. walk_local.
  - unfold Calendar. cbv zeta. destruct (_ || _); [auto with db|]. walk_local.
  - unfold ListCustomers. cbv zeta. walk_local.
Qed.

(** The repository's command behind an order, and the key it was given. *)
Definition order_key (o : order) : string :=
  match o with
  | OrderCreate c => operatorapi.cb_IdempotencyKey c
  | OrderReschedule c => operatorapi.rb_IdempotencyKey c
  | OrderCancel c => operatorapi.xb_IdempotencyKey c
  end.

Definition ordered (actor key : string) (o : order) : command :=
  match o with
  | OrderCreate c => CmdAdminCreate (mkAdminCreate (operatorapi.cb_CustomerID c) (operatorapi.cb_ServiceID c)
      (operatorapi.cb_StaffID c) (operatorapi.cb_StartsAt c) (operatorapi.cb_Notes c) actor key)
  | OrderReschedule c => CmdAdminReschedule (mkAdminReschedule (operatorapi.rb_BookingID c)
      (operatorapi.rb_ExpectedVersion c) (operatorapi.rb_StartsAt c) actor key)
  | OrderCancel c => CmdAdminCancel (mkAdminCancel (operatorapi.xb_BookingID c) (operatorapi.xb_ExpectedVersion c)
      (operatorapi.xb_Reason c) actor key)
  end.

Definition repository (p : Principal) : PGXRepository := NewPGXRepository true (p_TenantID p).

Lemma repository_tenant r p : PrincipalFromContext r = Some p -> tenantID (repository p) = p_TenantID p.
Proof.
  unfold PrincipalFromContext. destruct (rq_Principal r) as [p'|]; [|done].
  destruct (_ || _) eqn:E; [done|]. intros [= ->]. bool_to_prop. unfold repository, NewPGXRepository. cbn.
  by rewrite bool_decide_eq_false_2.
Qed.

Lemma give_scoped r o :
  give (multi_tenant fuel m) r o =
  (let* s := lift (scoped fuel m r) in
   match o with
   | OrderCreate c => CreateBooking s c
   | OrderReschedule c => RescheduleBooking s c
   | OrderCancel c => CancelBooking s c
   end).
Proof. by destruct o. Qed.

Lemma give_Ok_scope r o s p :
  scoped fuel m r = Ok s -> ps_commands s = commander fuel (repository p) -> ps_actorRef s = p_OperatorID p ->
  give (multi_tenant fuel m) r o =
  (let* key := orGeneratedKey (order_key o) in
   commanded s (exec_command fuel (repository p) (ordered (p_OperatorID p) key o))).
Proof.
  intros Hs Hc Ha. rewrite give_scoped, Hs. unfold bind at 1, lift.
  destruct o; unfold CreateBooking, RescheduleBooking, CancelBooking; by rewrite Hc, Ha.
Qed.

Lemma key_step k e w : exists key w1, orGeneratedKey k e w = (Ok key, w1) /\ db w1 = db w.
Proof.
  unfold orGeneratedKey. destruct (bool_decide _); [|by eexists _, _].
  unfold bind, New_id, ret. eexists _, _. split; [reflexivity|done].
Qed.

(** What an order comes to: nothing, or a command of the repository, and then a look
    at the booking. *)
Lemma give_cases r o e w res w' :
  give (multi_tenant fuel m) r o e w = (res, w') ->
  (exists err, res = Err err /\ db w' = db w) \/
  exists p s key w1, PrincipalFromContext r = Some p /\ ps_tenant s = p_TenantID p /\ db w1 = db w /\
    commanded s (exec_command fuel (repository p) (ordered (p_OperatorID p) key o)) e w1 = (res, w').
Proof.
  intros Hg. destruct (scoped fuel m r) as [s|err] eqn:Hs.
  - destruct (scoped_Ok _ _ Hs) as (p & Hp & Ht & Ha & _ & Hc). right.
    rewrite (give_Ok_scope r o s p Hs Hc Ha) in Hg. unfold bind in Hg.
    destruct (key_step (order_key o) e w) as (key & w1 & Hk & Hd). rewrite Hk in Hg.
    by exists p, s, key, w1.
  - left. rewrite give_scoped, Hs in Hg. unfold bind, lift in Hg. injection Hg as <- <-. by eexists.
Qed.

Lemma booking_joined_id d row b : b ∈ booking_joined d row -> operatorapi.ob_ID b = bk_ID (b_data row).
Proof.
  intros Hb%list_elem_of_In. unfold booking_joined in Hb. apply in_flat_map in Hb as (cu & _ & Hb).
  apply in_flat_map in Hb as (sv & _ & Hb). by apply in_map_iff in Hb as (st & <- & _).
Qed.

Lemma bookingByID_cases s id e w res w' :
  bookingByID s id e w = (res, w') ->
  db w' = db w /\
  ((exists err, fault e (tick w) = Some err /\ res = Err (ErrWrap "list operator bookings" err)) \/
   res = Err operatorapi.ErrBookingNotFound \/
   exists b, res = Ok b /\ b ∈ bookings_listed (ps_tenant s) (fun x => String.eqb (bk_ID x) id) (db w')).
Proof.
  unfold bookingByID, listBookings, bind, wrap, map_err, query, run. destruct (fault e (tick w)) as [err|] eqn:Hf.
  - simpl. intros [= <- <-]. split; [by destruct (negb _ && _)|]. left. by exists err.
  - cbn [rbind]. destruct (bookings_listed _ _ _) as [|b l] eqn:Hb; cbn; intros [= <- <-]; cbn.
    + split; [done|]. right. by left.
    + split; [done|]. right. right. exists b. split; [done|]. rewrite Hb. by left.
Qed.

Lemma local_lookup s id : local (bookingByID s id).
Proof. intros e w. destruct (bookingByID s id e w) as [res w'] eqn:E. by apply bookingByID_cases in E as [E _]. Qed.

(** A booking is shown to the operator only after a command of the repository of
    the operator's own tenant, under the operator's name, has been done. *)
Definition shown_after (r : OperatorRequest) (e : env) (before after : DB) (status : Z) (booking : operatorapi.Booking) : Prop :=
  exists p o key res w1 w2, PrincipalFromContext (or_Http r) = Some p /\ db w1 = before /\ db w2 = after /\
    exec_command fuel (repository p) (ordered (p_OperatorID p) key o) e w1 = (Ok res, w2) /\ status = done_status o /\
    booking ∈ bookings_listed (p_TenantID p) (fun x => String.eqb (bk_ID x) (bk_ID (res_Booking res))) after.

Lemma mux_orders now r : reads_or_orders (multi_tenant fuel m) r (mux (multi_tenant fuel m) now r).
Proof. destruct (mux_cases (multi_tenant fuel m) now r) as [|[_ ?]]; [by left|done]. Qed.

Lemma mux_stays now r e w : 
  db (mux (multi_tenant fuel m) now r e w).2 = db w \/
  exists p, PrincipalFromContext (or_Http r) = Some p /\
    others (p_TenantID p) (db (mux (multi_tenant fuel m) now r e w).2) = others (p_TenantID p) (db w).
Proof.
  destruct (mux_orders now r) as [[Hl _]|[o ->]]; [left; apply Hl|].
  unfold answered, bind, attempt. destruct (give (multi_tenant fuel m) (or_Http r) o e w) as [res w1] eqn:Hg.
  apply give_cases in Hg as [(err & -> & Hd)|(p & s & key & w2 & Hp & Ht & Hd2 & Hc)]; [by left|]. right.
  exists p. split; [done|]. cbn [snd ret]. unfold commanded in Hc.
  assert (Hs : db_preserves (fun d => others (p_TenantID p) d = others (p_TenantID p) (db w))
                 (let* result := map_err mapCommandError (exec_command fuel (repository p) (ordered (p_OperatorID p) key o)) in
                  bookingByID s (bk_ID (res_Booking result)))).
  { apply db_bind; [|intros x; by apply db_local, local_lookup]. apply db_map_err, command_stays.
    by eapply repository_tenant. }
  specialize (Hs e w2). rewrite Hc in Hs. apply Hs. by rewrite Hd2.
Qed.

(** C6. A session opens one tenant.  A request that got past the authentication carried
    the token of a live session; whatever it asks for, it changes rows of that
    session's tenant alone, and none at all unless its method is [POST]. *)
Theorem session_opens_one_tenant (store : Identity.Store) (now : nat -> Time) (r : OperatorRequest) (e : env) (w : world)
    (reply : Reply) (w' : world)
    (Hserved : ServeOperator (multi_tenant fuel m) now (Some (ValidateSession store)) r e w = (Ok (Answer reply), w')) :
  exists token p w1, bearerToken (Authorization (or_Http r)) = Some token /\
    ValidateSession store token e w = (Ok p, w1) /\
    others (p_TenantID p) (db w') = others (p_TenantID p) (db w1) /\
    (or_Method r <> "POST"%string -> db w' = db w1).
Proof.
  unfold ServeOperator, Authenticated in Hserved.
  destruct (bearerToken _) as [token|] eqn:Ht; [|done].
  unfold bind, attempt in Hserved.
  destruct (ValidateSession store token e w) as [[p|err] w1] eqn:Hv; cycle 1.
  { by destruct (errors_is err _). }
  exists token, p, w1. split; [done|]. split; [done|].
  set (r' := with_http r (WithPrincipal (or_Http r) p)) in *.
  destruct (mux (multi_tenant fuel m) now r' e w1) as [[rep|err] w2] eqn:Hm; [|done].
  unfold ret in Hserved. injection Hserved as <- <-. split.
  - destruct (mux_stays now r' e w1) as [E|(p' & Hp & E)]; rewrite Hm in E; cbn [snd] in E; [by rewrite E|].
    unfold r', PrincipalFromContext in Hp. cbn in Hp. destruct (_ || _); [done|]. by injection Hp as <-.
  - intros Hpost. destruct (mux_cases (multi_tenant fuel m) now r') as [[Hl _]|[Hx _]]; [|done].
    specialize (Hl e w1). by rewrite Hm in Hl.
Qed.

(** C24. The status tells what happened.  Unless the answer to a commit was lost, a
    request refused as invalid or in conflict has changed no table; and a booking is
    shown, with the status of its order, only when the command it asked for has been
    done for the tenant of the session, under the operator's name, and as it then
    stands in that tenant's schedule. *)
Theorem status_tells_effect (now : nat -> Time) (r : OperatorRequest) (e : env) (w : world) (reply : Reply) (w' : world)
    (Hlost : ~ lost_commit e) (Hfaults : forall n err, fault e n = Some err -> command_status err = internalError)
    (Hrun : mux (multi_tenant fuel m) now r e w = (Ok reply, w')) :
  (status_of reply = 400 \/ status_of reply = 409 -> db w' = db w) /\
  forall status booking, reply = JSONReply status (BodyBooking booking) ->
    shown_after r e (db w) (db w') status booking.
Proof.
  destruct (mux_orders now r) as [[Hl Hn]|[o Ho]].
  { split; [intros _; specialize (Hl e w); by rewrite Hrun in Hl|]. intros st bk ->. by apply Hn in Hrun. }
  rewrite Ho in Hrun. unfold answered, bind, attempt in Hrun.
  destruct (give (multi_tenant fuel m) (or_Http r) o e w) as [res w1] eqn:Hg. unfold ret in Hrun.
  injection Hrun as <- <-. apply give_cases in Hg as [(err & -> & Hd)|(p & s & key & w2 & Hp & Ht & Hd2 & Hc)].
  { split; [done|]. intros st bk. unfold command_status. repeat case_match; discriminate. }
  unfold commanded, bind, map_err in Hc.
  destruct (exec_command fuel _ _ e w2) as [[result|err] w3] eqn:Hx; cycle 1.
  { injection Hc as <- <-. split.
    - intros _. rewrite <- Hd2. by destruct (atomic_command _ _ _ _ _ _ _ Hx) as [|[_ ?]].
    - intros st bk. unfold command_status. repeat case_match; discriminate. }
  apply bookingByID_cases in Hc as [Hd3 [(err & Hf & ->)|[->|(b & -> & Hb)]]].
  - split.
    + enough (E : command_status (ErrWrap "list operator bookings" err) = internalError)
        by (rewrite E; by intros [?|?]).
      rewrite <- (Hfaults _ _ Hf). reflexivity.
    + intros st bk. unfold command_status. repeat case_match; discriminate.
  - split; [by intros [?|?]|discriminate].
  - split; [destruct o; by intros [?|?]|]. intros st bk [= <- <-]. exists p, o, key, result, w2, w3.
    rewrite Ht in Hb. by rewrite Hd3 in *.
Qed.
End tenants.

(** ** A salon at work *)
Module ConsoleDemo.
#[export] Instance demo_letters : Letters := {|
  unicode_lower x := x; unicode_upper x := x; database_lower x := x; database_upper x := x
|}.

Lemma canonical_accepted s : canonical_uuid s = true -> canonical_uuid s = true.
Proof. done. Qed.

#[export] Instance demo_uuids : Uuids := {| validUUID := canonical_uuid; validUUID_canonical := canonical_accepted |}.

Definition booking_id : string := "00000000-0000-4000-8000-000000000001".
Definition token : string := "an-opaque-session-token".

Definition accounts : Accounts :=
  mkAccounts [mkTenantRow "t" "salon-nord" "Salon Nord" "UTC" "EUR" (monday 0 0) (monday 0 0)]
    [mkOperatorRow "t" "o" "ann@example.com" "Ann" "" "staff" true (monday 0 0) (monday 0 0)]
    [mkSessionRow "s" "t" "o" (tokenDigest token) (monday 20 0) None (monday 6 0) (monday 6 0)] [] [].

Definition run_at (id : string) (h : Z) : RunRow :=
  mkRunRow "t" id conversation_id None "completed" "fake" "" 10 5 (Some 900) None None (monday h 0) (Some (monday h 1)).

Definition salon : world :=
  idle (set_accounts accounts (set_runs [run_at run_id 7; run_at "00000000-0000-4000-8000-0000000000e2" 8;
    run_at "00000000-0000-4000-8000-0000000000e3" 8] (db booked_salon))).

Definition principal : Principal :=
  mkPrincipal "s" "t" "salon-nord" "Salon Nord" "UTC" "EUR" "o" "ann@example.com" "Ann" "staff" (monday 20 0).

Definition console : MultiTenantPostgreSQL := mkMultiTenant true (fun _ => monday 9 0).
Definition store : Identity.Store := Identity.mkStore true (12 * Hour) (fun _ => monday 9 0).

Definition cancellation (http : HttpRequest) : OperatorRequest :=
  mkOperatorRequest http "POST" ["api"; "v1"; "operator"; "bookings"; booking_id; "cancel"] ""
    (Marshal (JObj [("expected_version"%string, JInt 1); ("reason"%string, JStr "closed for the day")])).

Definition backend : PostgreSQL :=
  mkPostgreSQL (AgentTrace.GetRun "t") (commander 40 repo) "t" "UTC" UTC "o" (fun _ => monday 9 0).

Definition two_at_a_time : operatorapi.ListRunsRequest := operatorapi.mkListRuns 2 "" "completed" "demo" "" None None.

Lemma runs_keyed : keyed (db salon).
Proof.
  split; [|split]; [|apply NoDup_singleton..]. cbn. repeat (apply NoDup_cons; split; [|]); [| | |constructor];
    rewrite ?elem_of_cons, ?elem_of_nil; intuition discriminate.
Defined.

Lemma runs_stored r : r ∈ agent_runs (db salon) -> ru_tenant r = "t"%string ->
  listable (ru_id r) (ru_started r) /\ ns (pg_time Local (ru_started r)) = ns (ru_started r).
Proof.
  intros Hr _. cbn in Hr. rewrite !elem_of_cons, elem_of_nil in Hr.
  destruct Hr as [->|[->|[->|[]]]]; (split; [|by vm_compute]);
    (split; [by vm_compute|]; split; [split; by vm_compute|]; split; [split; [by vm_compute|split; by vm_compute]|by vm_compute]).
Defined.
End ConsoleDemo.

#[local] Existing Instances ConsoleDemo.demo_letters ConsoleDemo.demo_uuids.

Lemma run_pages_cover_witness :
  exists pages w', walk 4 ConsoleDemo.backend (at_cursor ConsoleDemo.two_at_a_time "") calm ConsoleDemo.salon = (Ok pages, w') /\
    map (fun p => length (operatorapi.Items p)) pages = [2; 1]%nat /\ db w' = db ConsoleDemo.salon.
Proof.
  destruct (run_pages_cover ConsoleDemo.backend ConsoleDemo.two_at_a_time calm ConsoleDemo.salon (fun _ => eq_refl)
              ConsoleDemo.runs_keyed ConsoleDemo.runs_stored) as (pages & w' & Hw & Hd & _).
  exists pages, w'. split; [exact Hw|]. split; [|exact Hd].
  assert (E : (walk 4 ConsoleDemo.backend (at_cursor ConsoleDemo.two_at_a_time "") calm ConsoleDemo.salon).1 = Ok pages)
    by exact (f_equal fst Hw).
  vm_compute in E. by injection E as <-.
Defined.

Lemma status_tells_effect_witness :
  exists booking w', mux (multi_tenant 40 ConsoleDemo.console) (fun _ => monday 9 0)
      (ConsoleDemo.cancellation (mkRequest "" (Some ConsoleDemo.principal))) calm ConsoleDemo.salon =
      (Ok (JSONReply 200 (BodyBooking booking)), w') /\
    operatorapi.ob_Status booking = "cancelled"%string /\
    shown_after 40 (ConsoleDemo.cancellation (mkRequest "" (Some ConsoleDemo.principal))) calm (db ConsoleDemo.salon)
      (db w') 200 booking.
Proof.
  assert (Hrun : exists booking w', mux (multi_tenant 40 ConsoleDemo.console) (fun _ => monday 9 0)
      (ConsoleDemo.cancellation (mkRequest "" (Some ConsoleDemo.principal))) calm ConsoleDemo.salon =
      (Ok (JSONReply 200 (BodyBooking booking)), w') /\ operatorapi.ob_Status booking = "cancelled"%string)
    by (eexists _, _; split; [vm_compute; reflexivity|reflexivity]).
  destruct Hrun as (booking & w' & Hrun & Hst). exists booking, w'. split; [exact Hrun|]. split; [exact Hst|].
  assert (Hl : ~ lost_commit calm) by (intros (n & err & Hf & _); discriminate Hf).
  assert (Hf : forall n err, fault calm n = Some err -> command_status err = internalError) by (intros n err; discriminate).
  exact (proj2 (status_tells_effect 40 ConsoleDemo.console (fun _ => monday 9 0) _ calm ConsoleDemo.salon _ w' Hl Hf Hrun)
           200 booking eq_refl).
Defined.

Lemma session_opens_one_tenant_witness :
  exists reply w', ServeOperator (multi_tenant 40 ConsoleDemo.console) (fun _ => monday 9 0)
      (Some (ValidateSession ConsoleDemo.store))
      (ConsoleDemo.cancellation (mkRequest (String.append "Bearer " ConsoleDemo.token) None)) calm ConsoleDemo.salon =
      (Ok (Answer reply), w') /\ status_of reply = 200 /\
    exists p w1, ValidateSession ConsoleDemo.store ConsoleDemo.token calm ConsoleDemo.salon = (Ok p, w1) /\
      others (p_TenantID p) (db w') = others (p_TenantID p) (db w1).
Proof.
  assert (Hrun : exists reply w', ServeOperator (multi_tenant 40 ConsoleDemo.console) (fun _ => monday 9 0)
      (Some (ValidateSession ConsoleDemo.store))
      (ConsoleDemo.cancellation (mkRequest (String.append "Bearer " ConsoleDemo.token) None)) calm ConsoleDemo.salon =
      (Ok (Answer reply), w') /\ status_of reply = 200)
    by (eexists _, _; split; [vm_compute; reflexivity|reflexivity]).
  destruct Hrun as (reply & w' & Hrun & Hst). exists reply, w'. split; [exact Hrun|]. split; [exact Hst|].
  destruct (session_opens_one_tenant 40 ConsoleDemo.console ConsoleDemo.store (fun _ => monday 9 0) _ calm _ reply w' Hrun)
    as (token & p & w1 & Ht & Hv & Ho & _). injection Ht as <-. exists p, w1. split; [exact Hv|exact Ho].
Defined.
