(* ===== verification/PublicHttp.v ===== *)
(** * The customers' channel over HTTP: [internal/channels/demohttp]

    The widget's endpoints ([handler.go]), the stream of a conversation's events ([sse.go]),
    and the application of the tenant the host was resolved to ([multitenant.go]).  Answers
    are their status with the value that is encoded; files of the binary are named. *)

From Stdlib Require Import ZArith Lia Ascii.
From stdpp Require Import base list strings gmap pretty.
From S2P Require Import Prelude State GoTime Json JsonParse Validation LLM Tokens Url Mux Database Catalog Repository OpenRouter Conversations AgentTrace TurnQueue Passwords Identity Service Deployment Tenants ProcessConfig Bootstrap.

#[local] Open Scope Z_scope.

#[local] Abbreviation TrimSpace := JsonParse.TrimSpace.
#[local] Abbreviation len := Json.len.

(** ** Requests and answers *)
Record WidgetRequest := mkWidgetRequest {
  wq_Host : string; wq_Origin : string; wq_Method : string; wq_Path : list string; wq_RawQuery : string;
  wq_Authorization : string; wq_ContentType : string; wq_LastEventID : string; wq_Body : string
}.

(** A frame of the event stream. *)
Inductive Frame :=
| Comment (text : string)
| EventFrame (id : Z) (type payload : string).

Definition newline : string := str (chr 10).

Definition frame_text (f : Frame) : string :=
  match f with
  | Comment text => cat [": "; text; newline; newline]
  | EventFrame id type payload =>
      cat ["id: "; pretty id; newline; "event: "; type; newline; "data: "; payload; newline; newline]
  end.

Inductive WidgetBody :=
| BodyStatus (status : string)
| BodyConversation (c : Conversation)
| BodyTurn (t : TurnAnswer)
| BodyRunTrace (r : RunTrace).

Inductive WidgetReply :=
| WProblem (status : Z) (title : string)
| WJSON (status : Z) (body : WidgetBody)
| WStatic (name : string)
| WStream (frames : list Frame).

Definition internal_error : WidgetReply := WProblem 500 "internal error".
Definition auth_problem : WidgetReply := WProblem 401 "unauthorized".

(** The tenant in the context of a request. *)
Abbreviation Scope := (option Tenants.Tenant).

(** [applicationService] and [traceReader]; [None] is a panic. *)
Record applicationService := mkApplication {
  as_CreateConversation : Scope -> Profile -> M Conversation;
  as_VerifyConversationCapability : Scope -> string -> string -> M unit;
  as_SendMessage : Scope -> string -> string -> string -> M (option TurnAnswer);
  as_ConversationEvents : Scope -> string -> Z -> Z -> M (list Event);
  as_GetRun : Scope -> string -> M RunTrace
}.

(** What a connection does to a stream: the clock, writes that succeed, and a client
    that has gone away, each at a tick; and what other transactions commit between two
    polls. *)
Record Connection := mkConnection {
  cn_wall : nat -> Time; cn_writes : nat -> bool; cn_gone : nat -> bool; cn_commits : nat -> DB -> DB
}.

Definition bearerToken (header : string) : option string :=
  if 512 <? len header then None
  else
    match Fields header with
    | [scheme; token] =>
        if String.eqb (ascii_lower scheme) "bearer" && negb (bool_decide (token = "")) then Some token else None
    | _ => None
    end.

(** [decodeJSON] *)
Definition decodeJSON {A} (r : WidgetRequest) (member : string * json -> A -> option A) (zero : A) : option A :=
  if json_content (wq_ContentType r) then strict_body 16384 member zero (wq_Body r) else None.

Definition profile_member (kv : string * json) (p : Profile) : option Profile :=
  let '(mkProfile name email phone) := p in
  let '(k, x) := kv in
  if names_field k "display_name" then name ← decode_text name x; Some (mkProfile name email phone)
  else if names_field k "email" then email ← decode_text email x; Some (mkProfile name email phone)
  else if names_field k "phone" then phone ← decode_text phone x; Some (mkProfile name email phone)
  else None.

(** The client's identifier of the message, and the text. *)
Definition message_member (kv : string * json) (m : string * string) : option (string * string) :=
  let '(id, text) := m in
  if names_field kv.1 "client_message_id" then id ← decode_text id kv.2; Some (id, text)
  else if names_field kv.1 "text" then text ← decode_text text kv.2; Some (id, text)
  else None.

(** ** The stream: [sse.go] *)
Definition ssePollInterval : Z := 1 * Second.
Definition sseHeartbeatInterval : Z := 15 * Second.
Definition sseMaxStreamAge : Z := 10 * Minute.
Definition sseBatchLimit : Z := 100.

(** [strconv.ParseInt(raw, 10, 64)] is [Atoi] where an int has 64 bits. *)
Definition lastEventID (r : WidgetRequest) : option Z :=
  let raw := TrimSpace (wq_LastEventID r) in
  let raw := if bool_decide (raw = "") then TrimSpace (Mux.Get "last_event_id" (Query (wq_RawQuery r))) else raw in
  if bool_decide (raw = "") then Some 0
  else match Atoi raw with Some id => if id <? 0 then None else Some id | None => None end.

(** [strings.ReplaceAll(payload, "\n", "")] *)
Definition without_newlines (s : string) : string :=
  of_bytes (List.filter (fun c => negb (is_char 10 c)) (string_bytes s)).

Definition event_frame (e : Event) : Frame := EventFrame (e_ID e) (Type_ e) (without_newlines (Payload e)).

Section handlers.
Context (app : applicationService) (cn : Connection) (scope : Scope).

Definition at_tick {A} (f : nat -> A) : M A := fun _ w => (Ok (f (tick w)), bump w).

Record Stream := mkStream { cursor : Z; lastActivity : Time; sent : list Frame }.

(** A frame is sent when its write succeeds. *)
Definition writeFrame (f : Frame) (s : Stream) : M (Stream * bool) :=
  let* ok := at_tick (cn_writes cn) in
  ret (if ok then (mkStream (cursor s) (lastActivity s) (sent s ++ [f]), true) else (s, false)).

(** One event after the other, until a write fails. *)
Fixpoint write_events (events : list Event) (s : Stream) : M (Stream * bool) :=
  match events with
  | [] => ret (s, true)
  | e :: tl =>
      let* (s, ok) := writeFrame (event_frame e) s in
      if negb ok then ret (s, false)
      else
        let* now := at_tick (cn_wall cn) in
        write_events tl (mkStream (e_ID e) now (sent s))
  end.

(** [select]: the client went away, or the next poll is due and others have committed. *)
Definition wait_poll : M bool := fun _ w =>
  if cn_gone cn (tick w) then (Ok false, bump w)
  else (Ok true, bump (mkWorld (cn_commits cn (tick w) (db w)) (work w) (aborted w) (tx_now w) (tick w))).

Definition heartbeat (s : Stream) : M (Stream * bool) :=
  let* now := at_tick (cn_wall cn) in
  if sseHeartbeatInterval <? Sub now (lastActivity s) then
    let* (s, ok) := writeFrame (Comment "heartbeat") s in
    if ok then
      let* now := at_tick (cn_wall cn) in ret (mkStream (cursor s) now (sent s), true)
    else ret (s, false)
  else ret (s, true).

(** The loop, over at most [fuel] polls. *)
Fixpoint follow (fuel : nat) (conversationID : string) (started : Time) (s : Stream) : M (list Frame) :=
  match fuel with
  | O => fail Diverges
  | S fuel =>
      let* loaded := attempt (as_ConversationEvents app scope conversationID (cursor s) sseBatchLimit) in
      match loaded with
      | Err _ => ret (sent s)
      | Ok events =>
          let* (s, ok) := write_events events s in
          if negb ok then ret (sent s)
          else
            let* now := at_tick (cn_wall cn) in
            if sseMaxStreamAge <? Sub now started then
              let* (s, _) := writeFrame (Comment "stream age limit reached, reconnect to resume") s in ret (sent s)
            else
              let* (s, ok) := heartbeat s in
              if negb ok then ret (sent s)
              else
                let* again := wait_poll in
                if again then follow fuel conversationID started s else ret (sent s)
      end
  end.

Definition stream (fuel : nat) (conversationID : string) (after : Z) : M (list Frame) :=
  let* started := at_tick (cn_wall cn) in
  let* (s, ok) := writeFrame (Comment "connected") (mkStream after started []) in
  if negb ok then ret (sent s)
  else
    let* started := at_tick (cn_wall cn) in
    let* last := at_tick (cn_wall cn) in
    follow fuel conversationID started (mkStream (cursor s) last (sent s)).

(** ** Handlers *)
(** No answer of its own when the capability is accepted. *)
Definition requireConversationCapability (r : WidgetRequest) (conversationID : string) : M (option WidgetReply) :=
  match bearerToken (wq_Authorization r) with
  | None => ret (Some auth_problem)
  | Some token =>
      let* verified := attempt (as_VerifyConversationCapability app scope conversationID token) in
      ret (match verified with
           | Ok _ => None
           | Err err =>
               Some (if errors_is err Conversations.ErrNotFound then WProblem 404 "conversation not found"
                     else if errors_is err ErrUnauthorized then auth_problem
                     else WProblem 500 "authorization failed")
           end)
  end.

Definition with_capability (r : WidgetRequest) (conversationID : string) (next : M WidgetReply) : M WidgetReply :=
  let* refused := requireConversationCapability r conversationID in
  match refused with Some reply => ret reply | None => next end.

Definition health (_ : WidgetRequest) : M WidgetReply := ret (WJSON 200 (BodyStatus "ok")).

(** [Ping] *)
Definition ready (_ : WidgetRequest) : M WidgetReply :=
  let* pinged := attempt (query Pool (fun _ _ _ _ => Ok tt)) in
  ret (match pinged with Ok _ => WJSON 200 (BodyStatus "ready") | Err _ => WProblem 503 "not ready" end).

Definition createConversation (r : WidgetRequest) : M WidgetReply :=
  match decodeJSON r profile_member (mkProfile "" "" "") with
  | None => ret (WProblem 400 "invalid request")
  | Some profile =>
      if bool_decide (TrimSpace (pf_DisplayName profile) = "") then ret (WProblem 400 "conversation rejected")
      else
        let* created := attempt (as_CreateConversation app scope profile) in
        ret (match created with Ok c => WJSON 201 (BodyConversation c) | Err _ => internal_error end)
  end.

Definition turn_failed (err : error) : WidgetReply :=
  if errors_is err ErrTurnOverloaded then WProblem 503 "service busy"
  else if errors_is err ErrInvalidMessage then WProblem 400 "invalid message"
  else if errors_is err Conversations.ErrNotFound then WProblem 404 "conversation not found"
  else internal_error.

(** A panic is recovered as the same answer. *)
Definition sendMessage (conversationID : string) (r : WidgetRequest) : M WidgetReply :=
  with_capability r conversationID (
    match decodeJSON r message_member ("", "")%string with
    | None => ret (WProblem 400 "invalid request")
    | Some (id, text) =>
        let* id := if bool_decide (id = "") then New_id else ret id in
        let* result := attempt (as_SendMessage app scope conversationID text id) in
        ret (match result with
             | Ok (Some turn) => WJSON 200 (BodyTurn turn)
             | Ok None => internal_error
             | Err err => turn_failed err
             end)
    end).

Definition getRun (runID : string) (r : WidgetRequest) : M WidgetReply :=
  match bearerToken (wq_Authorization r) with
  | None => ret auth_problem
  | Some _ =>
      let* found := attempt (as_GetRun app scope runID) in
      match found with
      | Err err => ret (if errors_is err ErrNoRows then WProblem 404 "run not found" else internal_error)
      | Ok run => with_capability r (rtr_ConversationID run) (ret (WJSON 200 (BodyRunTrace run)))
      end
  end.

Definition streamEvents (fuel : nat) (conversationID : string) (r : WidgetRequest) : M WidgetReply :=
  with_capability r conversationID (
    match lastEventID r with
    | None => ret (WProblem 400 "invalid cursor")
    | Some after => let* frames := stream fuel conversationID after in ret (WStream frames)
    end).

Definition serveStatic (name : string) (_ : WidgetRequest) : M WidgetReply := ret (WStatic name).

Definition conversations_path : list (option string) :=
  [Some "api"; Some "v1"; Some "demo"; Some "conversations"].

(** [New] *)
Definition widget_routes (fuel : nat) : list (Route (WidgetRequest -> M WidgetReply)) :=
  [ handle "GET" [Some "healthz"] (fun _ => health);
    handle "GET" [Some "readyz"] (fun _ => ready);
    handle "POST" conversations_path (fun _ => createConversation);
    handle "POST" (conversations_path ++ [None; Some "messages"]) (fun v => sendMessage (default "" (head v)));
    handle "GET" (conversations_path ++ [None; Some "events"]) (fun v => streamEvents fuel (default "" (head v)));
    handle "GET" [Some "api"; Some "v1"; Some "demo"; Some "runs"; None] (fun v => getRun (default "" (head v)));
    handle "GET" [Some "widget"; Some "v1"; Some "kontor.js"] (fun _ => serveStatic "kontor.js");
    handle "GET" [Some "widget"; Some "v1"; Some "demo"] (fun _ => serveStatic "demo");
    handle "GET" [Some "operator"] (fun _ => serveStatic "index");
    handle "GET" [Some "operator"; Some "ds"; Some "styles.css"] (fun _ => serveStatic "styles.css");
    handle "GET" [Some "operator"; Some "ds"; Some "bundle.js"] (fun _ => serveStatic "bundle.js");
    handle "GET" [Some "operator"; Some "vendor"; Some "react.js"] (fun _ => serveStatic "react.js");
    handle "GET" [Some "operator"; Some "vendor"; Some "react-dom.js"] (fun _ => serveStatic "react-dom.js") ].

Definition serve_widget (fuel : nat) (r : WidgetRequest) : M WidgetReply :=
  match route (widget_routes fuel) (wq_Method r) (wq_Path r) with
  | Handled handler => handler r
  | NoRoute | Redirected => ret (WProblem 404 "404 page not found")
  | WrongMethod => ret (WProblem 405 "Method Not Allowed")
  end.
End handlers.

(** ** The application of the tenant in the context: [multitenant.go] *)
Section tenants.
Context `{host : !Host} `{letters : !Letters} `{entropy : !Entropy} (jsonb : string -> result string) (column_size : string -> Z) (fuel tries : nat)
  (o : outside).

(** [ApplicationFor] of the runtime. *)
Variable ApplicationFor : string -> M Built.

Definition components (scope : Scope) : M Built :=
  match Tenants.FromContext scope with
  | None => fail (ErrText "demo HTTP: host tenant was not resolved")
  | Some tenant => ApplicationFor (t_ID tenant)
  end.

Definition application_tenant (b : Built) : string := tenant_id (bu_Parts b).

(** A turn, without the log that is kept beside it. *)
Definition take_turn (b : Built) (conversationID text clientMessageID : string) : M (option TurnAnswer) := fun e w =>
  let '(answer, (w', _)) :=
    serve jsonb column_size fuel e o (bu_Parts b) tries conversationID text clientMessageID (w, []) in
  (match answer with Some (Ok turn) => Ok (Some turn) | Some (Err err) => Err err | None => Ok None end, w').

(** Random bytes, or the error of the source. *)
Definition read_secret : M (result string) :=
  let* bytes := random 32 in
  ret (match bytes with Some s => Ok s | None => Err (ErrText "crypto/rand") end).

Definition tenantApplicationProxy : applicationService := mkApplication
  (fun scope profile =>
     let* b := components scope in
     let* secret := read_secret in
     CreateDemo secret (application_tenant b) profile (cf_TokenBudget (Service.config (Application (bu_Parts b)))))
  (fun scope conversationID token =>
     let* b := components scope in VerifyCapability (application_tenant b) conversationID token)
  (fun scope conversationID text clientMessageID =>
     let* b := components scope in take_turn b conversationID text clientMessageID)
  (fun scope conversationID afterID limit =>
     let* b := components scope in EventsAfter (application_tenant b) conversationID afterID limit)
  (fun scope runID =>
     let* b := components scope in AgentTrace.GetRun (application_tenant b) runID).

(** [NewMultiTenant], behind the boundary that resolves the host. *)
Definition public_widget `{!UrlHosts} (store : Tenants.Store) (hostSuffix : string) (cn : Connection) (polls : nat)
    (r : WidgetRequest) : M (PublicResponse WidgetReply) :=
  PublicTenant (Some (TenantForHost store)) hostSuffix
    (fun tenant _ => serve_widget tenantApplicationProxy cn (Some tenant) polls r)
    (mkPublic (wq_Host r) (wq_Origin r) (wq_Method r)).
End tenants.

(** The runtime's [ApplicationFor] over what it has built so far. *)
Definition cached `{Host} (r : Runtime) (built : Cache) (tenantID : string) : M Built :=
  let* p := componentsFor r built tenantID in ret p.1.
