(* ===== verification/Onboarding.v ===== *)
(** * Provisioning and operators over HTTP: [internal/channels/onboardinghttp]

    The public endpoints, provisioning and login, and behind a session the settings and the
    catalogue of the owner's tenant, over [Tenants] and [Identity].  Answers are their
    status with the value that is encoded.

    Over [Onboarding]: what a session opens, the tables beside its tenant, and the
    secrets that no answer holds. *)

From Stdlib Require Import ZArith Lia Ascii.
From stdpp Require Import base list strings gmap.
From S2P Require Import Prelude State GoTime Json JsonParse Validation Tokens Url Mux Database Catalog Repository Passwords Identity Tenants.

#[local] Open Scope Z_scope.

#[local] Abbreviation TrimSpace := JsonParse.TrimSpace.

(** ** Requests and answers *)
Record OnboardingRequest := mkOnboarding {
  nq_Http : HttpRequest; nq_Method : string; nq_Path : list string; nq_ContentType : string; nq_Body : string
}.

Inductive OnboardingBody :=
| BodyTenant (t : Tenant)
| BodyLogin (l : LoginResult)
| BodyOperator (o : Operator)
| BodyChannels (c : ChannelConfig)
| BodyService (s : CatalogService)
| BodyStaff (s : CatalogStaff)
| BodyDone (name : string).

Inductive OnboardingReply :=
| OProblem (status : Z) (title : string)
| OJSON (status : Z) (body : OnboardingBody)
| ONoContent.

Definition unauthorized : OnboardingReply := OProblem 401 "unauthorized".

(** ** Reading a body *)
Definition decode_bool (old : bool) (v : json) : option bool :=
  match v with JBool b => Some b | JNull => Some old | _ => None end.

(** Into a slice: an element there is read into, a new one starts from zero; what the
    array does not have is cut off. *)
Fixpoint decode_items {A} (item : json -> A -> option A) (zero : A) (l : list json) (old : list A) : option (list A) :=
  match l with
  | [] => Some []
  | v :: tl => a ← item v (default zero (head old)); rest ← decode_items item zero tl (List.tl old); Some (a :: rest)
  end.

Definition decode_list {A} (item : json -> A -> option A) (zero : A) (v : json) (old : list A) : option (list A) :=
  match v with JNull => Some [] | JArr l => decode_items item zero l old | _ => None end.

Definition owner_member (kv : string * json) (o : OwnerInput) : option OwnerInput :=
  let '(mkOwner email name password) := o in
  if names_field kv.1 "email" then email ← decode_text email kv.2; Some (mkOwner email name password)
  else if names_field kv.1 "display_name" then name ← decode_text name kv.2; Some (mkOwner email name password)
  else if names_field kv.1 "password" then password ← decode_text password kv.2; Some (mkOwner email name password)
  else None.

Definition channels_member (kv : string * json) (c : ChannelConfig) : option ChannelConfig :=
  let '(mkChannels origin enabled token secret) := c in
  if names_field kv.1 "widget_origin" then origin ← decode_text origin kv.2; Some (mkChannels origin enabled token secret)
  else if names_field kv.1 "telegram_enabled" then
    enabled ← decode_bool enabled kv.2; Some (mkChannels origin enabled token secret)
  else if names_field kv.1 "telegram_bot_token" then token ← decode_text token kv.2; Some (mkChannels origin enabled token secret)
  else if names_field kv.1 "telegram_webhook_secret" then
    secret ← decode_text secret kv.2; Some (mkChannels origin enabled token secret)
  else None.

Definition no_channels : ChannelConfig := mkChannels "" false "" "".

(** [ChannelConfig.UnmarshalJSON]: from nothing, whatever was there. *)
Definition decode_channels (v : json) : option ChannelConfig := decode_struct channels_member v no_channels.

Definition service_member (kv : string * json) (s : ServiceInput) : option ServiceInput :=
  let '(mkServiceInput slug name description duration before after price currency) := s in
  if names_field kv.1 "slug" then slug ← decode_text slug kv.2; Some (mkServiceInput slug name description duration before after price currency)
  else if names_field kv.1 "name" then name ← decode_text name kv.2; Some (mkServiceInput slug name description duration before after price currency)
  else if names_field kv.1 "description" then
    description ← decode_text description kv.2; Some (mkServiceInput slug name description duration before after price currency)
  else if names_field kv.1 "duration_minutes" then
    duration ← decode_int duration kv.2; Some (mkServiceInput slug name description duration before after price currency)
  else if names_field kv.1 "buffer_before_minutes" then
    before ← decode_int before kv.2; Some (mkServiceInput slug name description duration before after price currency)
  else if names_field kv.1 "buffer_after_minutes" then
    after ← decode_int after kv.2; Some (mkServiceInput slug name description duration before after price currency)
  else if names_field kv.1 "price_minor" then price ← decode_int price kv.2; Some (mkServiceInput slug name description duration before after price currency)
  else if names_field kv.1 "currency" then
    currency ← decode_text currency kv.2; Some (mkServiceInput slug name description duration before after price currency)
  else None.

Definition no_service : ServiceInput := mkServiceInput "" "" "" 0 0 0 0 "".

Definition rule_member (kv : string * json) (r : AvailabilityRuleInput) : option AvailabilityRuleInput :=
  let '(mkRuleInput type day start stop) := r in
  if names_field kv.1 "rule_type" then type ← decode_text type kv.2; Some (mkRuleInput type day start stop)
  else if names_field kv.1 "day_of_week" then day ← decode_int day kv.2; Some (mkRuleInput type day start stop)
  else if names_field kv.1 "local_start" then start ← decode_text start kv.2; Some (mkRuleInput type day start stop)
  else if names_field kv.1 "local_end" then stop ← decode_text stop kv.2; Some (mkRuleInput type day start stop)
  else None.

Definition decode_rules : json -> list AvailabilityRuleInput -> option (list AvailabilityRuleInput) :=
  decode_list (decode_struct rule_member) (mkRuleInput "" 0 "" "").

Definition staff_member (kv : string * json) (m : StaffInput) : option StaffInput :=
  let '(mkStaffInput slug name timezone services availability) := m in
  if names_field kv.1 "slug" then slug ← decode_text slug kv.2; Some (mkStaffInput slug name timezone services availability)
  else if names_field kv.1 "display_name" then name ← decode_text name kv.2; Some (mkStaffInput slug name timezone services availability)
  else if names_field kv.1 "timezone" then
    timezone ← decode_text timezone kv.2; Some (mkStaffInput slug name timezone services availability)
  else if names_field kv.1 "service_slugs" then
    services ← decode_list (fun v old => decode_text old v) "" kv.2 services; Some (mkStaffInput slug name timezone services availability)
  else if names_field kv.1 "availability" then
    availability ← decode_rules kv.2 availability; Some (mkStaffInput slug name timezone services availability)
  else None.

Definition no_staff : StaffInput := mkStaffInput "" "" "" [] [].

Definition provision_member (kv : string * json) (i : ProvisionInput) : option ProvisionInput :=
  let '(mkProvision slug name timezone currency owner channels services staff) := i in
  if names_field kv.1 "slug" then slug ← decode_text slug kv.2; Some (mkProvision slug name timezone currency owner channels services staff)
  else if names_field kv.1 "name" then name ← decode_text name kv.2; Some (mkProvision slug name timezone currency owner channels services staff)
  else if names_field kv.1 "timezone" then
    timezone ← decode_text timezone kv.2; Some (mkProvision slug name timezone currency owner channels services staff)
  else if names_field kv.1 "currency" then
    currency ← decode_text currency kv.2; Some (mkProvision slug name timezone currency owner channels services staff)
  else if names_field kv.1 "owner" then
    owner ← decode_struct owner_member kv.2 owner; Some (mkProvision slug name timezone currency owner channels services staff)
  else if names_field kv.1 "channels" then
    channels ← decode_channels kv.2; Some (mkProvision slug name timezone currency owner channels services staff)
  else if names_field kv.1 "services" then
    services ← decode_list (decode_struct service_member) no_service kv.2 services;
    Some (mkProvision slug name timezone currency owner channels services staff)
  else if names_field kv.1 "staff" then
    staff ← decode_list (decode_struct staff_member) no_staff kv.2 staff;
    Some (mkProvision slug name timezone currency owner channels services staff)
  else None.

Definition no_provision : ProvisionInput := mkProvision "" "" "" "" (mkOwner "" "" "") no_channels [] [].

Record loginBody := mkLoginBody { lo_TenantSlug : string; lo_Email : string; lo_Password : string }.

Definition login_member (kv : string * json) (b : loginBody) : option loginBody :=
  let '(mkLoginBody slug email password) := b in
  if names_field kv.1 "tenant_slug" then slug ← decode_text slug kv.2; Some (mkLoginBody slug email password)
  else if names_field kv.1 "email" then email ← decode_text email kv.2; Some (mkLoginBody slug email password)
  else if names_field kv.1 "password" then password ← decode_text password kv.2; Some (mkLoginBody slug email password)
  else None.

Record operatorBody := mkOperatorBody { ob_Email : string; ob_DisplayName : string; ob_Password : string; ob_Role : string }.

Definition operator_member (kv : string * json) (b : operatorBody) : option operatorBody :=
  let '(mkOperatorBody email name password role) := b in
  if names_field kv.1 "email" then email ← decode_text email kv.2; Some (mkOperatorBody email name password role)
  else if names_field kv.1 "display_name" then name ← decode_text name kv.2; Some (mkOperatorBody email name password role)
  else if names_field kv.1 "password" then password ← decode_text password kv.2; Some (mkOperatorBody email name password role)
  else if names_field kv.1 "role" then role ← decode_text role kv.2; Some (mkOperatorBody email name password role)
  else None.

Definition rules_member (kv : string * json) (l : list AvailabilityRuleInput) : option (list AvailabilityRuleInput) :=
  if names_field kv.1 "rules" then decode_rules kv.2 l else None.

(** One value of at most 128 KiB, decoded strictly. *)
Definition one_value (body : string) : option json := if 131072 <? len body then None else Unmarshal body.

(** [decodeJSON]: the answer of a request that is refused. *)
Definition decodeJSON {A} (r : OnboardingRequest) (decode : json -> option A) : A + OnboardingReply :=
  if negb (json_content (nq_ContentType r)) then inr (OProblem 415 "unsupported media type")
  else match (v ← one_value (nq_Body r); decode v) with
       | Some a => inl a
       | None => inr (OProblem 400 "invalid request body")
       end.

(** ** Handlers *)
Section handlers.
Context `{letters : !Letters} `{entropy : !Entropy} `{host : !Host} `{hosts : !UrlHosts} (ts : Tenants.Store) (ids : Identity.Store).

Definition with_body {A} (r : OnboardingRequest) (decode : json -> option A) (next : A -> M OnboardingReply) : M OnboardingReply :=
  match decodeJSON r decode with inl input => next input | inr reply => ret reply end.

(** Behind a principal. *)
Definition with_principal (r : OnboardingRequest) (next : Principal -> M OnboardingReply) : M OnboardingReply :=
  match PrincipalFromContext (nq_Http r) with Some p => next p | None => ret unauthorized end.

Definition handleTenantError (err : error) : OnboardingReply :=
  if errors_is err ErrNotFound then OProblem 404 "not found"
  else if errors_is err ErrInvalidInput || errors_is err ErrInvalidPassword then OProblem 400 "invalid configuration"
  else if errors_is err ErrConflict then OProblem 409 "conflict"
  else OProblem 500 "tenant update failed".

Definition provision_failed (err : error) : OnboardingReply :=
  if errors_is err ErrConflict then OProblem 409 "tenant already exists"
  else if errors_is err ErrInvalidInput || errors_is err ErrInvalidPassword then OProblem 400 "invalid tenant configuration"
  else OProblem 500 "tenant provisioning failed".

Definition provision (r : OnboardingRequest) : M OnboardingReply :=
  with_body r (fun v => decode_struct provision_member v no_provision) (fun input =>
    let* created := attempt (Provision ts input) in
    ret (match created with Ok t => OJSON 201 (BodyTenant t) | Err err => provision_failed err end)).

Definition login_failed (err : error) : OnboardingReply :=
  if errors_is err ErrInvalidCredentials || errors_is err ErrInvalidOperator then OProblem 401 "invalid credentials"
  else OProblem 500 "login failed".

Definition login (r : OnboardingRequest) : M OnboardingReply :=
  with_body r (fun v => decode_struct login_member v (mkLoginBody "" "" "")) (fun input =>
    let* result := attempt (Authenticate ids (lo_TenantSlug input) (lo_Email input) (lo_Password input)) in
    ret (match result with Ok l => OJSON 200 (BodyLogin l) | Err err => login_failed err end)).

Definition logout (r : OnboardingRequest) : M OnboardingReply :=
  match bearerToken (Authorization (nq_Http r)) with
  | None => ret unauthorized
  | Some token =>
      let* revoked := attempt (RevokeSession ids token) in
      ret (match revoked with
           | Ok _ => ONoContent
           | Err err => if negb (errors_is err ErrSessionInvalid) then OProblem 500 "logout failed" else ONoContent
           end)
  end.

Definition operator_failed (err : error) : OnboardingReply :=
  if errors_is err ErrInvalidOperator || errors_is err ErrInvalidPassword then OProblem 400 "invalid operator"
  else if errors_is err ErrOperatorExists then OProblem 409 "operator already exists"
  else OProblem 500 "operator creation failed".

Definition createOperator (r : OnboardingRequest) : M OnboardingReply :=
  with_principal r (fun p =>
    with_body r (fun v => decode_struct operator_member v (mkOperatorBody "" "" "" "")) (fun input =>
      let* created := attempt (CreateOperator ids (mkOperatorInput (p_TenantID p) (ob_Email input) (ob_DisplayName input)
                                                     (ob_Password input) (ob_Role input))) in
      ret (match created with Ok o => OJSON 201 (BodyOperator o) | Err err => operator_failed err end))).

Definition getChannels (r : OnboardingRequest) : M OnboardingReply :=
  with_principal r (fun p =>
    let* config := attempt (GetChannelConfig ts (p_TenantID p)) in
    ret (match config with Ok c => OJSON 200 (BodyChannels c) | Err err => handleTenantError err end)).

(** A change of the tenant, and what is answered when it is made. *)
Definition changed {A} (m : M A) (reply : A -> OnboardingReply) : M OnboardingReply :=
  let* result := attempt m in ret (match result with Ok a => reply a | Err err => handleTenantError err end).

Definition updateChannels (r : OnboardingRequest) : M OnboardingReply :=
  with_principal r (fun p => with_body r decode_channels (fun input =>
    changed (UpdateChannels ts (p_TenantID p) input) (fun _ => OJSON 200 (BodyDone "updated")))).

Definition createService (r : OnboardingRequest) : M OnboardingReply :=
  with_principal r (fun p => with_body r (fun v => decode_struct service_member v no_service) (fun input =>
    changed (CreateService ts (p_TenantID p) input) (fun s => OJSON 201 (BodyService s)))).

Definition createStaff (r : OnboardingRequest) : M OnboardingReply :=
  with_principal r (fun p => with_body r (fun v => decode_struct staff_member v no_staff) (fun input =>
    changed (CreateStaff ts (p_TenantID p) input) (fun s => OJSON 201 (BodyStaff s)))).

Definition addAvailability (staffID : string) (r : OnboardingRequest) : M OnboardingReply :=
  with_principal r (fun p => with_body r (fun v => decode_struct rules_member v []) (fun rules =>
    changed (AddAvailability ts (p_TenantID p) (TrimSpace staffID) rules) (fun _ => OJSON 201 (BodyDone "created")))).

(** ** Routes: [New] *)
Definition under (tail : list (option string)) : list (option string) := [Some "api"; Some "v1"; Some "operator"] ++ tail.

Abbreviation Served := (OnboardingRequest -> M OnboardingReply).

Definition serve (routes : list (Route Served)) (r : OnboardingRequest) : M OnboardingReply :=
  match route routes (nq_Method r) (nq_Path r) with
  | Handled handler => handler r
  | Redirected => ret (OProblem 301 "Moved Permanently")
  | NoRoute => ret (OProblem 404 "404 page not found")
  | WrongMethod => ret (OProblem 405 "Method Not Allowed")
  end.

Definition with_http (r : OnboardingRequest) (http : HttpRequest) : OnboardingRequest :=
  mkOnboarding http (nq_Method r) (nq_Path r) (nq_ContentType r) (nq_Body r).

(** A handler of the identity middleware, over the whole request. *)
Definition behind (middleware : Handler OnboardingReply -> Handler OnboardingReply) (next : Served) : Served := fun r =>
  let* answer := middleware (fun http => let* reply := next (with_http r http) in ret (Answer reply)) (nq_Http r) in
  ret (match answer with Answer reply => reply | Problem status => OProblem status "" end).

Definition owners : list (Route Served) :=
  [ handle "GET" (under [Some "channels"]) (fun _ => getChannels);
    handle "PUT" (under [Some "channels"]) (fun _ => updateChannels);
    handle "POST" (under [Some "operators"]) (fun _ => createOperator);
    handle "POST" (under [Some "catalog"; Some "services"]) (fun _ => createService);
    handle "POST" (under [Some "staff"]) (fun _ => createStaff);
    handle "POST" (under [Some "staff"; None; Some "availability"]) (fun v => addAvailability (default "" (head v))) ].

Definition protected : list (Route Served) :=
  [ handle "POST" (under [Some "logout"]) (fun _ => logout);
    subtree ["api"; "v1"; "operator"] (behind (RequireRole RoleOwner) (serve owners)) ].

Definition public : list (Route Served) :=
  [ handle "POST" [Some "api"; Some "v1"; Some "tenants"] (fun _ => provision);
    handle "POST" (under [Some "login"]) (fun _ => login);
    subtree ["api"; "v1"; "operator"] (behind (Authenticated (Some (ValidateSession ids))) (serve protected)) ].

Definition ServeOnboarding : Served := serve public.
End handlers.

(** * What an owner's request can change *)

From S2P Require Import DatabaseFacts ToolBackendProps SalonDemo TenantsProps Bootstrap.

#[local] Open Scope Z_scope.

(** ** Beside one tenant *)
(** Operators, channels and catalogue but for the rows of [t]; every other table. *)
Definition beside (t : string) (d : DB) : DB :=
  let a := accounts_of d in
  set_accounts (mkAccounts (tenant_rows a) (foreign op_tenant t (operators a)) (operator_sessions a)
                  (foreign ch_tenant t (tenant_channels a)) (telegram_updates a))
    (set_catalogue (foreign sv_tenant t (services d)) (foreign st_tenant t (staff d)) (foreign ss_tenant t (staff_services d))
       (foreign ar_tenant t (rules d)) d).

Definition kept_beside (t : string) (D d : DB) : Prop := beside t d = D.

Section statements.
Context `{letters : !Letters} (t : string) (D : DB).

Lemma beside_insert (f : DB -> result DB) :
  (forall d d', f d = Ok d' -> beside t d' = beside t d) -> sql_preserves (kept_beside t D) (insert f).
Proof. intros Hf now n e d k d' Hd (d1 & H & [= _ <-])%rbind_Ok. red. rewrite (Hf _ _ H). exact Hd. Qed.

Ltac beside_row :=
  intros d d'; repeat (case_match; [done|]); intros [= <-]; unfold beside; cbn -[foreign]; rewrite foreign_app by done; done.

Lemma beside_service v : sv_tenant v = t -> forall d d', insert_service v d = Ok d' -> beside t d' = beside t d.
Proof. intros Hv. unfold insert_service. beside_row. Qed.

Lemma beside_staff m : st_tenant m = t -> forall d d', insert_staff m d = Ok d' -> beside t d' = beside t d.
Proof. intros Hv. unfold insert_staff. beside_row. Qed.

Lemma beside_assignment a : ss_tenant a = t -> forall d d', insert_assignment a d = Ok d' -> beside t d' = beside t d.
Proof. intros Hv. unfold insert_assignment. beside_row. Qed.

Lemma beside_rule r : ar_tenant r = t -> forall d d', insert_rule r d = Ok d' -> beside t d' = beside t d.
Proof. intros Hv. unfold insert_rule. beside_row. Qed.

Lemma beside_operator o : op_tenant o = t -> forall d d', insert_operator o d = Ok d' -> beside t d' = beside t d.
Proof. intros Hv. unfold insert_operator. beside_row. Qed.

Lemma beside_rules m r : sql_preserves (kept_beside t D) (insert_rule_sql t m r).
Proof.
  intros now n e d k d' Hd. unfold insert_rule_sql. do 2 (case_match; [|done]).
  exact (beside_insert _ (beside_rule (rule_row t m r) eq_refl) now n e d k d' Hd).
Qed.

Lemma beside_assign m slug : sql_preserves (kept_beside t D) (assign_by_slug_sql t m slug).
Proof.
  intros now n e d k d' Hd. unfold assign_by_slug_sql. destruct (List.filter _ _) as [|v l]; [by intros [= _ <-]|].
  intros (d1 & H & [= _ <-])%rbind_Ok. red. by rewrite (beside_assignment (mkStaffServiceRow t m (sv_id v)) eq_refl _ _ H).
Qed.

Lemma beside_channels origin ct n dg enabled : sql_preserves (kept_beside t D) (update_channels_sql t origin ct n dg enabled).
Proof.
  intros now k e d m d' Hd. unfold update_channels_sql. intros ([l touched] & Hu & [= _ <-])%rbind_Ok.
  apply sql_update_Ok in Hu as (-> & _ & _). red. rewrite <- Hd. unfold beside. cbn -[foreign].
  rewrite foreign_update; [done|]. intros c Hc%String.eqb_eq. done.
Qed.

Lemma beside_account email name hash role : sql_preserves (kept_beside t D) (insert_operator_sql t email name hash role).
Proof.
  intros now n e d k d' Hd. unfold insert_operator_sql. intros (d1 & H & [= _ <-])%rbind_Ok.
  red. by rewrite (beside_operator (mkOperatorRow t (uuid e n 0%nat) email name hash role true now now) eq_refl _ _ H).
Qed.
End statements.

#[local] Hint Resolve beside_rules beside_assign beside_channels beside_account : db.

Section operations.
Context `{letters : !Letters} `{entropy : !Entropy} `{host : !Host} `{hosts : !UrlHosts} (ts : Tenants.Store) (ids : Identity.Store)
  (t : string) (D : DB).

#[local] Abbreviation keeps m := (db_preserves (kept_beside t D) m).

Lemma preserves_for_each {A} (P : DB -> Prop) (f : A -> M unit) l : (forall a, preserves P (f a)) -> preserves P (for_each f l).
Proof.
  intros Hf. induction l as [|a l IH]; [apply preserves_ret|]. apply preserves_bind; [apply Hf|intros _; exact IH].
Qed.

Lemma preserves_random P n : preserves P (random n).
Proof. by intros e w. Qed.

#[local] Hint Resolve preserves_random : db.

Lemma preserves_availability m l : preserves (kept_beside t D) (insertAvailability t m l).
Proof. apply preserves_for_each. intros r. walk_preserves. Qed.

#[local] Hint Resolve preserves_availability : db.

Lemma keeps_service input : keeps (CreateService ts t input).
Proof.
  unfold CreateService. destruct (_ || _ || _); [by apply db_local|]. apply db_bind; [|intros ?; by apply db_local].
  apply db_map_err, db_run_pool. intros now n e d v d' Hd (d1 & H & [= _ <-])%rbind_Ok. eapply (beside_service t) in H; [|done]. red. by rewrite H.
Qed.

Lemma keeps_staff input : keeps (CreateStaff ts t input).
Proof.
  unfold CreateStaff. destruct (_ || _ || _); [by apply db_local|]. apply db_preserves_with_tx.
  apply preserves_bind; [auto with db|]. intros id. apply preserves_bind.
  { apply preserves_map_err, preserves_run, beside_insert, beside_staff. done. }
  intros _. apply preserves_bind; [|intros _; walk_preserves]. apply preserves_for_each. intros slug. walk_preserves.
Qed.

Lemma keeps_availability member l : keeps (AddAvailability ts t member l).
Proof. unfold AddAvailability. destruct (_ || _ || _ || _ || _); [by apply db_local|]. apply db_preserves_with_tx. walk_preserves. Qed.

Lemma keeps_channels input : keeps (UpdateChannels ts t input).
Proof.
  unfold UpdateChannels. destruct (_ || _); [by apply db_local|]. destruct (CanonicalWidgetOrigin _); [|by apply db_local].
  apply db_bind.
  - apply db_local, local_prepare.
  - intros [[ct n] dg]. walk_committed.
Qed.

Lemma keeps_operator email name password role : keeps (CreateOperator ids (mkOperatorInput t email name password role)).
Proof.
  unfold CreateOperator. destruct (negb _); [by apply db_local|]. apply db_preserves_with_tx.
  apply preserves_bind; [|intros o; walk_preserves]. unfold CreateOperatorTx. cbn [in_TenantID]. walk_preserves.
Qed.
End operations.

(** ** Sessions *)
Definition sessions_only (D d : DB) : Prop := d = set_sessions (operator_sessions (accounts_of d)) D.

Lemma sessions_refl d : sessions_only d d.
Proof.
  unfold sessions_only, set_sessions, set_accounts, accounts_of. destruct d as [a b c d0 e0 f g h i j k l m n o p q r [u v x y z [a1 a2 a3 a4 a5]]]. reflexivity.
Qed.

Lemma sessions_set D d l : sessions_only D d -> sessions_only D (set_sessions l d).
Proof. intros H. red in H |- *. rewrite H. by destruct D. Qed.

Section sessions.
Context `{letters : !Letters} `{entropy : !Entropy} `{host : !Host} (ids : Identity.Store) (D : DB).

Lemma sessions_touch id : sql_preserves (sessions_only D) (touch_sql id).
Proof. intros now n e d k d' Hd [= _ <-]. by apply sessions_set. Qed.

Lemma sessions_revoke digest : sql_preserves (sessions_only D) (revoke_sql digest).
Proof. intros now n e d k d' Hd [= _ <-]. by apply sessions_set. Qed.

Lemma sessions_insert tenant operator digest expires : sql_preserves (sessions_only D) (insert_session_sql tenant operator digest expires).
Proof.
  intros now n e d k d' Hd. unfold insert_session_sql, insert_session. intros (d1 & H & [= _ <-])%rbind_Ok.
  repeat (case_match; [done|]). injection H as <-. by apply sessions_set.
Qed.

#[local] Hint Resolve sessions_touch sessions_revoke sessions_insert : db.

Lemma sessions_validate token : db_preserves (sessions_only D) (ValidateSession ids token).
Proof. unfold ValidateSession. walk_committed. Qed.

Lemma sessions_logout token : db_preserves (sessions_only D) (RevokeSession ids token).
Proof. unfold RevokeSession. walk_committed. Qed.

Lemma sessions_login slug email password : db_preserves (sessions_only D) (Authenticate ids slug email password).
Proof. unfold Authenticate, createSession, newSessionToken, random, wall_clock. walk_committed; by intros e w Hw. Qed.
End sessions.

(** ** Requests *)
Lemma attempt_keeps {A} (P : DB -> Prop) (m : M A) : db_preserves P m -> db_preserves P (attempt m).
Proof. intros Hm e w Hw. specialize (Hm e w Hw). unfold attempt. by destruct (m e w). Qed.

Lemma attempt_then {A B} (P : DB -> Prop) (m : M A) (f : result A -> B) :
  db_preserves P m -> db_preserves P (let* x := attempt m in ret (f x)).
Proof. intros Hm. apply db_bind; [by apply attempt_keeps|]. intros x. by apply db_local. Qed.

(** No answer holds a secret of a channel. *)
Definition secretless (reply : OnboardingReply) : Prop :=
  match reply with
  | OJSON _ (BodyChannels c) => TelegramBotToken c = ""%string /\ TelegramWebhookSecret c = ""%string
  | _ => True
  end.

Definition discreet (m : M OnboardingReply) : Prop := forall e w reply w', m e w = (Ok reply, w') -> secretless reply.

Lemma discreet_ret reply : secretless reply -> discreet (ret reply).
Proof. by intros Hr e w r w' [= <- _]. Qed.

Lemma discreet_bind {A} (m : M A) f : (forall a, discreet (f a)) -> discreet (bind m f).
Proof. intros Hf e w r w' (a & w1 & _ & Hr)%bind_Ok. by eapply Hf. Qed.

Lemma discreet_failed err : secretless (handleTenantError err).
Proof. unfold handleTenantError. by repeat case_match. Qed.

Section requests.
Context `{letters : !Letters} `{entropy : !Entropy} `{host : !Host} `{hosts : !UrlHosts} (ts : Tenants.Store) (ids : Identity.Store).

Lemma discreet_body {A} r (decode : json -> option A) next : (forall a, discreet (next a)) -> discreet (with_body r decode next).
Proof.
  intros Hn. unfold with_body, decodeJSON. destruct (negb _); [by apply discreet_ret|].
  destruct (_ ≫= _); [apply Hn|by apply discreet_ret].
Qed.

Lemma discreet_principal r next : (forall p, discreet (next p)) -> discreet (with_principal r next).
Proof. intros Hn. unfold with_principal. destruct (PrincipalFromContext _); [apply Hn|by apply discreet_ret]. Qed.

Lemma discreet_changed {A} (m : M A) reply : (forall a, secretless (reply a)) -> discreet (changed m reply).
Proof. intros Hr. apply discreet_bind. intros [a|err]; apply discreet_ret; [apply Hr|apply discreet_failed]. Qed.

Lemma discreet_getChannels r : discreet (getChannels ts r).
Proof.
  apply discreet_principal. intros p e w reply w' (res & w1 & Hg & [= <- _])%bind_Ok. unfold attempt in Hg.
  destruct (GetChannelConfig ts (p_TenantID p) e w) as [[c|err] w2] eqn:E; injection Hg as <- _; [|apply discreet_failed].
  unfold GetChannelConfig in E. destruct (_ || _); [done|]. apply bind_Ok in E as (found & w3 & _ & E).
  destruct found as [ch|]; [|done]. by injection E as <- _.
Qed.

Lemma discreet_createOperator r : discreet (createOperator ids r).
Proof.
  apply discreet_principal. intros p. apply discreet_body. intros b. apply discreet_bind. intros [o|err]; apply discreet_ret; [done|].
  unfold operator_failed. by repeat case_match.
Qed.

Lemma discreet_handled routes r :
  (forall rt values, rt ∈ routes -> discreet (rt_handler rt values r)) -> discreet (serve routes r).
Proof.
  intros Hh. unfold serve. destruct (route _ _ _) as [h| | |] eqn:E; try by apply discreet_ret.
  apply route_Handled in E as (rt & values & Hrt & _ & -> & _). by apply Hh.
Qed.

Lemma discreet_behind middleware next r :
  (forall http, discreet (next (with_http r http))) ->
  (forall (f : Handler OnboardingReply) http e w a w', middleware f http e w = (Ok (Answer a), w') ->
     exists http' w1, f http' e w1 = (Ok (Answer a), w')) ->
  discreet (behind middleware next r).
Proof.
  intros Hn Hm e w reply w' (answer & w1 & Ha & [= <- _])%bind_Ok. destruct answer as [status|a]; [done|].
  apply Hm in Ha as (http & w2 & (a' & w3 & Ha & [= <- _])%bind_Ok). by eapply Hn.
Qed.

Lemma authenticated_next (validator : option (string -> M Principal)) (f : Handler OnboardingReply) http e w a w' :
  Authenticated validator f http e w = (Ok (Answer a), w') -> exists http' w1, f http' e w1 = (Ok (Answer a), w').
Proof.
  unfold Authenticated. destruct validator; [|done]. destruct (bearerToken _); [|done].
  intros (res & w1 & _ & Hf)%bind_Ok. destruct res as [p|err]; [by eexists _, _|by destruct (errors_is _ _)].
Qed.

Lemma role_next role (f : Handler OnboardingReply) http e w a w' :
  RequireRole role f http e w = (Ok (Answer a), w') -> exists http' w1, f http' e w1 = (Ok (Answer a), w').
Proof. unfold RequireRole. destruct (PrincipalFromContext _); [|done]. destruct (negb _); [done|]. by eexists _, _. Qed.

Lemma discreet_served r : discreet (ServeOnboarding ts ids r).
Proof.
  apply discreet_handled. unfold public. intros rt values. rewrite !elem_of_cons, elem_of_nil.
  intros [->|[->|[->|[]]]]; cbn [rt_handler handle subtree].
  - apply discreet_body. intros i. apply discreet_bind. intros [t|err]; apply discreet_ret; [done|].
    unfold provision_failed. by repeat case_match.
  - apply discreet_body. intros i. apply discreet_bind. intros [l|err]; apply discreet_ret; [done|].
    unfold login_failed. by repeat case_match.
  - apply discreet_behind; [|by intros *; apply authenticated_next]. intros http. apply discreet_handled. unfold protected.
    intros rt' values'. rewrite !elem_of_cons, elem_of_nil. intros [->|[->|[]]]; cbn [rt_handler handle subtree].
    + unfold logout. destruct (bearerToken _); [|by apply discreet_ret]. apply discreet_bind. intros [x|err]; apply discreet_ret; [done|].
      by destruct (negb _).
    + apply discreet_behind; [|by intros *; apply role_next]. intros http'. apply discreet_handled. unfold owners.
      intros rt2 v2. rewrite !elem_of_cons, elem_of_nil. intros [->|[->|[->|[->|[->|[->|[]]]]]]]; cbn [rt_handler handle];
        try (by apply discreet_getChannels); try (by apply discreet_createOperator);
        apply discreet_principal; intros p; apply discreet_body; intros b; by apply discreet_changed.
Qed.

(** *** What each handler keeps *)
Lemma body_keeps {A} (P : DB -> Prop) r (decode : json -> option A) next :
  (forall a, db_preserves P (next a)) -> db_preserves P (with_body r decode next).
Proof. intros Hn. unfold with_body. destruct (decodeJSON r decode); [apply Hn|by apply db_local]. Qed.

Lemma owners_keep r p D : PrincipalFromContext (nq_Http r) = Some p ->
  db_preserves (kept_beside (p_TenantID p) D) (serve (owners ts ids) r).
Proof.
  intros Hp. unfold serve. destruct (route _ _ _) as [h| | |] eqn:E; try by apply db_local.
  apply route_Handled in E as (rt & values & Hrt & _ & -> & _). unfold owners in Hrt. rewrite !elem_of_cons, elem_of_nil in Hrt.
  destruct Hrt as [->|[->|[->|[->|[->|[->|[]]]]]]]; cbn [rt_handler handle];
    unfold getChannels, updateChannels, createOperator, createService, createStaff, addAvailability, with_principal; rewrite Hp;
    try (apply body_keeps; intros input); apply attempt_then.
  - apply db_local. unfold GetChannelConfig. walk_local.
  - apply keeps_channels.
  - apply keeps_operator.
  - apply keeps_service.
  - apply keeps_staff.
  - apply keeps_availability.
Qed.
End requests.

(** ** Properties *)
(** What served the request behind the session: its token, its principal, who is an
    owner, and the tables when it was let in. *)
Definition let_in (ids : Identity.Store) (r : OnboardingRequest) (e : env) (w : world) (p : Principal) (w1 : world) : Prop :=
  exists token, bearerToken (Authorization (nq_Http r)) = Some token /\ ValidateSession ids token e w = (Ok p, w1) /\
    p_Role p = RoleOwner /\ sessions_only (db w) (db w1).

Section served.
Context `{letters : !Letters} `{entropy : !Entropy} `{host : !Host} `{hosts : !UrlHosts} (ts : Tenants.Store) (ids : Identity.Store).

Lemma protected_cases r p e w reply w' :
  serve (protected ts ids) (with_http r (WithPrincipal (nq_Http r) p)) e w = (Ok reply, w') ->
  sessions_only (db w) (db w') \/ p_Role p = RoleOwner /\ kept_beside (p_TenantID p) (beside (p_TenantID p) (db w)) (db w').
Proof.
  unfold serve at 1. destruct (route _ _ _) as [h| | |] eqn:E; try (intros [= _ <-]; left; apply sessions_refl).
  apply route_Handled in E as (rt & values & Hrt & _ & -> & _). unfold protected in Hrt. rewrite !elem_of_cons, elem_of_nil in Hrt.
  destruct Hrt as [->|[->|[]]]; cbn [rt_handler handle subtree].
  - unfold logout. destruct (bearerToken _) as [token|]; [|intros [= _ <-]; left; apply sessions_refl]. intros Hr. left.
    pose proof (attempt_then (sessions_only (db w)) (RevokeSession ids token)
      (fun revoked => match revoked with Ok _ => ONoContent
        | Err err => if negb (errors_is err ErrSessionInvalid) then OProblem 500 "logout failed" else ONoContent end)
      (sessions_logout ids (db w) token) e w (sessions_refl _)) as Hs. cbv beta in Hs. by rewrite Hr in Hs.
  - unfold behind, RequireRole. set (http := WithPrincipal (nq_Http r) p). cbn [nq_Http with_http].
    destruct (PrincipalFromContext http) as [p'|] eqn:Hp; [|intros [= _ <-]; left; apply sessions_refl].
    assert (p' = p) as -> by (unfold PrincipalFromContext, http in Hp; cbn in Hp; destruct (_ || _); [done|]; by injection Hp as <-).
    destruct (String.eqb_spec (p_Role p) RoleOwner) as [Hrole|]; cbn [negb]; [|intros [= _ <-]; left; apply sessions_refl].
    intros Hr. right. split; [done|].
    set (r' := with_http (with_http r http) http) in *.
    pose proof (owners_keep ts ids r' p (beside (p_TenantID p) (db w)) Hp e w eq_refl) as Hk.
    unfold bind in Hr. destruct (serve (owners ts ids) r' e w) as [[x|err] w2]; by injection Hr as _ <-.
Qed.
End served.

(** C9. An owner's request changes the owner's tenant.  A request to the onboarding
    endpoints that is answered either writes no more than operator sessions, or
    provisions a tenant by a [POST] to its address, or carried the token of a live
    session of an owner, and then every row that does not belong to that session's
    tenant is as it was.  No answer holds a channel's secret. *)
Theorem owner_changes_own_tenant `{!Letters} `{!Entropy} `{!Host} `{!UrlHosts} (ts : Tenants.Store) (ids : Identity.Store)
    (r : OnboardingRequest) (e : env) (w w' : world) (reply : OnboardingReply)
    (Hserved : ServeOnboarding ts ids r e w = (Ok reply, w')) :
  secretless reply /\
  (sessions_only (db w) (db w') \/
   (nq_Method r = "POST"%string /\ nq_Path r = ["api"; "v1"; "tenants"]%string /\
    exists input, db w' = db (Provision ts input e w).2) \/
   exists p w1, let_in ids r e w p w1 /\ beside (p_TenantID p) (db w') = beside (p_TenantID p) (db w1)).
Proof.
  split; [by eapply discreet_served|]. unfold ServeOnboarding, serve in Hserved.
  destruct (route _ _ _) as [h| | |] eqn:E; try (injection Hserved as _ <-; left; apply sessions_refl).
  apply route_Handled in E as (rt & values & Hrt & Hm & -> & Hp). unfold public in Hrt. rewrite !elem_of_cons, elem_of_nil in Hrt.
  destruct Hrt as [->|[->|[->|[]]]]; cbn [rt_handler handle subtree rt_pattern pt_method pt_path pt_subtree] in *.
  - unfold provision, with_body in Hserved. destruct (decodeJSON _ _) as [input|]; [|injection Hserved as _ <-; left; apply sessions_refl].
    right. left. split; [by apply method_exact in Hm|]. split; [by apply (path_values_fixed ["api"; "v1"; "tenants"]%string) in Hp|].
    exists input. unfold bind, attempt in Hserved. destruct (Provision ts input e w) as [res w1]. by injection Hserved as _ <-.
  - left. unfold login, with_body in Hserved. destruct (decodeJSON _ _) as [b|]; [|injection Hserved as _ <-; apply sessions_refl].
    unfold bind, attempt in Hserved.
    pose proof (sessions_login ids (db w) (lo_TenantSlug b) (lo_Email b) (lo_Password b) e w (sessions_refl _)) as Hs.
    destruct (Authenticate ids _ _ _ e w) as [res w1]. by injection Hserved as _ <-.
  - unfold behind, Authenticated in Hserved.
    destruct (bearerToken _) as [token|] eqn:Ht; [|injection Hserved as _ <-; left; apply sessions_refl].
    unfold bind at 1, bind at 1, attempt in Hserved.
    pose proof (sessions_validate ids (db w) token e w (sessions_refl _)) as Hs.
    destruct (ValidateSession ids token e w) as [[p|err] w1] eqn:Hv; cbn [snd] in Hs.
    2: { left. destruct (errors_is err _); by injection Hserved as _ <-. }
    unfold bind in Hserved.
    destruct (serve (protected ts ids) _ e w1) as [[x|err] w2] eqn:Hr; [|done]. injection Hserved as _ <-.
    apply protected_cases in Hr as [Hr|[Hrole Hr]]; [left|right; right].
    + red in Hs, Hr |- *. rewrite Hr, Hs. by destruct (db w).
    + exists p, w1. split; [|exact Hr]. by exists token.
Qed.

(** ** An owner adds a service *)
Module OwnerDemo.
Definition token : string := "an-opaque-session-token".

Definition tables : world :=
  let a := StartDemo.accounts in
  idle (set_accounts (mkAccounts (tenant_rows a) [mkOperatorRow "t" "o" "ann@example.com" "Ann" "" "owner" true (monday 0 0) (monday 0 0)]
          [mkSessionRow "s" "t" "o" (tokenDigest token) (monday 20 0) None (monday 6 0) (monday 6 0)] [] []) (db empty_salon)).

#[export] Instance entropy : Entropy := {| random_bytes _ _ := None |}.
#[export] Instance hosts : UrlHosts := {| ip_literal _ := None; several_colons := true |}.

Definition tenants : Tenants.Store := Tenants.mkStore true None.
Definition identities : Identity.Store := Identity.mkStore true (12 * Hour) (fun _ => monday 9 0).

Definition new_service : OnboardingRequest :=
  mkOnboarding (mkRequest (String.append "Bearer " token) None) "POST" ["api"; "v1"; "operator"; "catalog"; "services"] "application/json"
    (Marshal (JObj [("slug", JStr "beard"); ("name", JStr "Beard"); ("duration_minutes", JInt 15); ("price_minor", JInt 900);
                    ("currency", JStr "EUR")]%string)).
End OwnerDemo.

#[local] Existing Instances StartDemo.letters OwnerDemo.entropy OwnerDemo.hosts.

Lemma owner_changes_own_tenant_witness :
  exists s w', ServeOnboarding OwnerDemo.tenants OwnerDemo.identities OwnerDemo.new_service calm OwnerDemo.tables =
      (Ok (OJSON 201 (BodyService s)), w') /\ length (services (db w')) = S (length (services (db OwnerDemo.tables))) /\
    exists p w1, let_in OwnerDemo.identities OwnerDemo.new_service calm OwnerDemo.tables p w1 /\
      beside (p_TenantID p) (db w') = beside (p_TenantID p) (db w1).
Proof.
  assert (H : exists s w', ServeOnboarding OwnerDemo.tenants OwnerDemo.identities OwnerDemo.new_service calm
      OwnerDemo.tables = (Ok (OJSON 201 (BodyService s)), w') /\
    length (services (db w')) = S (length (services (db OwnerDemo.tables))))
    by (eexists _, _; split; [vm_compute; reflexivity|]; vm_compute; reflexivity).
  destruct H as (s & w' & Hs & Hn). exists s, w'. split; [exact Hs|]. split; [exact Hn|].
  destruct (owner_changes_own_tenant OwnerDemo.tenants OwnerDemo.identities OwnerDemo.new_service calm OwnerDemo.tables w' _ Hs)
    as [_ [Hd|[(_ & Hd & _)|Hd]]].
  - red in Hd. rewrite Hd in Hn. exfalso. exact (Nat.neq_succ_diag_r _ Hn).
  - discriminate Hd.
  - exact Hd.
Defined.
