(* ===== verification/ChannelFacts.v ===== *)
(** * What the channels change

    The runtime a channel reaches hands out the components of the tenant it was asked
    for, and quietly: it changes nothing but recalibrated usage.  A first contact files one
    customer and one conversation of theirs, both new. *)

From Stdlib Require Import ZArith Lia Ascii.
From stdpp Require Import base list strings gmap.
From S2P Require Import Prelude State GoTime Json JsonParse Hex Sha256 Aes Url Mux Database DatabaseFacts Catalog Repository Conversations ConversationProps AgentTrace TurnQueue Passwords Identity Service Deployment DeploymentProps Tenants ProcessConfig Bootstrap PublicHttp.

#[local] Open Scope Z_scope.

(** ** What changes *)
Definition unused (c : ConversationRow) : ConversationRow := set_tokens 0 (cv_reserved c) c.

(** The tables but for the recorded usage of conversations. *)
Definition same_but_usage (d d' : DB) : Prop :=
  d' = set_conversations (conversations d') d /\ map unused (conversations d') = map unused (conversations d).

(** The tables but for customers and conversations. *)
Definition same_but_contacts (d d' : DB) : Prop :=
  d' = set_customers (customers d') (set_conversations (conversations d') d).

Lemma same_refl d : same_but_usage d d.
Proof. split; [by destruct d|done]. Qed.

Lemma same_trans d1 d2 d3 : same_but_usage d1 d2 -> same_but_usage d2 d3 -> same_but_usage d1 d3.
Proof. intros [H1 H1'] [H2 H2']. split; [|congruence]. rewrite H2, H1. by destruct d1. Qed.

Lemma same_contacts d d' : same_but_usage d d' -> same_but_contacts d d'.
Proof. intros [-> _]. unfold same_but_contacts. by destruct d. Qed.

Lemma recalibrate_same d0 tenant penalty : sql_preserves (same_but_usage d0) (recalibrate_sql tenant penalty).
Proof.
  intros now n e d k d' Hd (l & -> & Hl & _)%recalibrate_Ok. eapply same_trans; [exact Hd|]. split; [by destruct d|].
  induction Hl as [|c c' cs cs' Hc _ IH]; [done|]. simpl in *. rewrite IH. f_equal.
  by destruct Hc as [->|(? & _ & _ & _ & _ & _ & ->)].
Qed.

(** What the runtime promises to the channels. *)
Class ScopedRuntime `{Host} (ApplicationFor : string -> M Built) : Prop := {
  sr_scoped id e w b w' : ApplicationFor id e w = (Ok b, w') -> application_tenant b = id;
  sr_quiet d id : db_preserves (same_but_usage d) (ApplicationFor id)
}.

Lemma build_quiet `{Host} d c conns : db_preserves (same_but_usage d) (Bootstrap.Build c conns).
Proof.
  unfold Bootstrap.Build, Deployment.Build, RecalibrateInflatedUsage. apply db_bind; [by apply db_local|]. intros [a m].
  apply db_bind; [|intros ?; by apply db_local]. apply db_bind; [by apply db_local|]. intros parts.
  apply db_bind; [|intros ?; by apply db_local].
  assert (Hr : db_preserves (same_but_usage d)
    (let* n := wrap "recalibrate inflated token usage" (run Pool (recalibrate_sql (cf_TenantID (bc_Tenant (build_config c m conns))) 500)) in
     ret (Z.of_nat n))).
  { apply db_bind; [|intros ?; by apply db_local]. apply db_map_err, db_run_pool, recalibrate_same. }
  intros e w Hw. exact (Hr e w Hw).
Qed.

#[export] Instance cached_scoped `{Host} r components : scoped_cache components -> ScopedRuntime (cached r components).
Proof.
  intros Hc. split.
  - unfold cached. intros id e w b w' ([b' c'] & w1 & Hr & [= <- _])%bind_Ok. unfold componentsFor in Hr.
    destruct (bool_decide _); [done|]. destruct (components !! id) as [b0|] eqn:E.
    { injection Hr as <- _ _. apply Hc in E as [E _]. exact E. }
    apply bind_Ok in Hr as (t & w2 & Ht & (b0 & w3 & Hb & [= <- _ _])%bind_Ok). unfold TenantByID in Ht.
    destruct (_ || _); [done|]. apply find_tenant_Ok in Ht as (row & _ & Hp%String.eqb_eq & Hid & _).
    apply Build_scoped in Hb as [Hb _]. cbn in Hb. unfold application_tenant, tenant_id. congruence.
  - intros d id. unfold cached. apply db_bind; [|intros ?; by apply db_local]. unfold componentsFor.
    destruct (bool_decide _); [by apply db_local|]. destruct (components !! id); [by apply db_local|].
    apply db_bind.
    + apply db_local. unfold TenantByID, find_tenant. walk_local.
    + intros t. apply db_bind; [apply build_quiet|]. intros ?. by apply db_local.
Qed.

(** ** First contacts *)
(** Contacts come with the accounts they found. *)
Lemma contacts_accounts d d' : same_but_contacts d d' -> accounts_of d' = accounts_of d.
Proof. intros ->. by destruct d. Qed.

(** ** What a first contact files

    One customer and one conversation of theirs, both new; every other row stays. *)
Definition filed (c : CustomerRow) (v : ConversationRow) (d d' : DB) : Prop :=
  existsb (is_customer (cu_tenant c) (cu_id c)) (customers d) = false /\
  existsb (is_conv (cv_tenant v) (cv_id v)) (conversations d) = false /\ ref_taken v d = false /\
  d' = set_conversations (conversations d ++ [v]) (set_customers (customers d ++ [c]) d).

Lemma filed_contacts c v d d' : filed c v d d' -> same_but_contacts d d'.
Proof. intros (_ & _ & _ & ->). red. by destruct d. Qed.

(** A step that commits nothing fails and leaves the tables, or the next one goes on. *)
Lemma local_then {A B} (m : M A) (f : A -> M B) e w res w' : local m -> bind m f e w = (res, w') ->
  (exists err, res = Err err /\ db w' = db w) \/ exists a w1, m e w = (Ok a, w1) /\ db w1 = db w /\ f a e w1 = (res, w').
Proof.
  intros Hm. unfold bind. pose proof (Hm e w) as Hd. destruct (m e w) as [[a|err] w1]; cbn in Hd.
  - intros Hf. right. by exists a, w1.
  - intros [= <- <-]. left. by exists err.
Qed.

Lemma commit_then {A} msg (a : A) e w res w' : (let* _ := wrap msg commit in ret a) e w = (res, w') ->
  res = Ok a /\ db w' = work w \/ exists err, res = Err err /\ (db w' = db w \/ lost_commit e /\ db w' = work w).
Proof.
  unfold bind, wrap, map_err, commit, ret. destruct (aborted w); [intros [= <- <-]; right; eexists; split; [done|by left]|].
  destruct (fault e (tick w)) as [err|] eqn:Hf; [|intros [= <- <-]; by left].
  destruct (negb _ && _) eqn:Hl; intros [= <- <-]; right; (eexists; split; [done|]); [right|by left].
  apply lost_answer with (err := err) in Hl as [_ Hl]; [by split|done].
Qed.

(** A transaction, from the tables it starts with. *)
Lemma with_tx_cases {A} msg (body : M A) e w res w' : with_tx msg body e w = (res, w') ->
  (exists err, res = Err err /\ db w' = db w) \/
  exists w1 w2, db w1 = db w /\ work w1 = db w /\ aborted w1 = false /\ body e w1 = (res, w2) /\ db w' = db w2.
Proof.
  unfold with_tx. intros Hr. apply local_then in Hr as [Hr|(u & w1 & Hb & Hd & Hr)]; [by left| |].
  - right. apply wrap_Ok, begin_Ok in Hb. unfold rolled_back in Hr. destruct (body e w1) as [r w2] eqn:E.
    injection Hr as <- <-. exists w1, w2. rewrite Hb in *. by split_and!.
  - apply local_wrap. intros e' w0. unfold begin_tx. by destruct (fault e' _).
Qed.

Lemma insert_customer_run row e w u w1 : run Tx (insert_customer_sql row) e w = (Ok u, w1) ->
  existsb (is_customer (cu_tenant row) (cu_id row)) (customers (work w)) = false /\
  work w1 = set_customers (customers (work w) ++ [row]) (work w).
Proof.
  intros (_ & d & Hs & ->)%run_Tx_Ok. unfold insert_customer_sql, insert_customer in Hs. apply rbind_Ok in Hs as (d1 & Hs & [= _ <-]).
  destruct (negb _); [done|]. destruct (existsb _ _) eqn:E; [done|]. destruct (negb _); [done|]. by injection Hs as <-.
Qed.

Lemma insert_conversation_Ok row d d' : insert_conversation row d = Ok d' ->
  existsb (is_conv (cv_tenant row) (cv_id row)) (conversations d) = false /\ ref_taken row d = false /\
  d' = set_conversations (conversations d ++ [row]) d.
Proof.
  unfold insert_conversation. destruct (negb _); [done|]. destruct (existsb _ _) eqn:E; [done|].
  destruct (ref_taken _ _) eqn:Er; [done|]. destruct (negb _); [done|]. by intros [= <-].
Qed.

Lemma int4_Ok n z : int4 n = Ok z -> z = n.
Proof. unfold int4. destruct (fits4 n); [by intros [= ->]|done]. Qed.

Lemma insert_conversation_run tenant id customer channel ref budget e w u w1 :
  run Tx (insert_conversation_sql tenant id customer channel ref budget) e w = (Ok u, w1) ->
  let row := open_conversation tenant id customer channel ref budget in
  existsb (is_conv tenant id) (conversations (work w)) = false /\ ref_taken row (work w) = false /\
  work w1 = set_conversations (conversations (work w) ++ [row]) (work w).
Proof.
  intros (_ & d & Hs & ->)%run_Tx_Ok. unfold insert_conversation_sql in Hs. apply rbind_Ok in Hs as (b & ->%int4_Ok & Hs).
  apply rbind_Ok in Hs as (d1 & Hs & [= _ <-]). by apply insert_conversation_Ok in Hs.
Qed.

(** The first contact of a channel: no row, where another one won. *)
Lemma adopt_conversation_run tenant id customer channel ref budget e w n w1 :
  run Tx (adopt_conversation_sql tenant id customer channel ref budget) e w = (Ok n, w1) -> n <> 0%nat ->
  let row := open_conversation tenant id customer channel ref budget in
  existsb (is_conv tenant id) (conversations (work w)) = false /\ ref_taken row (work w) = false /\
  work w1 = set_conversations (conversations (work w) ++ [row]) (work w).
Proof.
  intros (_ & d & Hs & ->)%run_Tx_Ok Hn. unfold adopt_conversation_sql in Hs. apply rbind_Ok in Hs as (b & ->%int4_Ok & Hs).
  destruct (negb _); [done|]. destruct (ref_taken _ _); [by injection Hs as <- _|].
  apply rbind_Ok in Hs as (d1 & Hs & [= _ <-]). by apply insert_conversation_Ok in Hs.
Qed.

Lemma filed_after c v d d1 d2 :
  existsb (is_customer (cu_tenant c) (cu_id c)) (customers d) = false -> d1 = set_customers (customers d ++ [c]) d ->
  existsb (is_conv (cv_tenant v) (cv_id v)) (conversations d1) = false -> ref_taken v d1 = false ->
  d2 = set_conversations (conversations d1 ++ [v]) d1 -> filed c v d d2.
Proof. intros Hc -> Hv Hr ->. by split. Qed.

Lemma sha256_length s : Json.len (sha256 s) = 32.
Proof. unfold Json.len, sha256, of_octets. by rewrite Aes.length_of_bytes, length_map, Sum256_length. Qed.

(** A stored digest is read back. *)
Lemma stored_digest_of token : stored_digest (EncodeToHex (sha256 token)) = sha256 token.
Proof. unfold stored_digest. by rewrite DecodeHex_EncodeToHex, sha256_length. Qed.

(** Opening a conversation for a visitor. *)
Lemma CreateDemo_files `{Host} secret tenant profile budget e w res w' :
  CreateDemo secret tenant profile budget e w = (res, w') ->
  let conversation id customer token :=
    open_conversation tenant id customer "demo" (EncodeToHex (sha256 token)) budget in
  match res with
  | Ok c => co_TenantID c = tenant /\ filed (profile_row tenant (co_CustomerID c) profile)
      (conversation (co_ID c) (co_CustomerID c) (CapabilityToken c)) (db w) (db w')
  | Err _ => db w' = db w \/ lost_commit e /\ exists customer id token,
      filed (profile_row tenant customer profile) (conversation id customer token) (db w) (db w')
  end.
Proof.
  unfold CreateDemo. destruct (_ || _ || _); [intros [= <- <-]; by left|]. unfold newCapabilityToken.
  destruct secret as [raw|err]; [|intros [= <- <-]; by left]. set (token := Base64.EncodeToString raw).
  intros Hr. apply local_then in Hr as [(err & -> & Hd)|(p & w0 & [= <- <-] & _ & Hr)]; [by left| |apply local_lift].
  apply with_tx_cases in Hr as [(err & -> & Hd)|(w1 & w2 & Hd1 & Hw1 & _ & Hr & Hd2)]; [by left|].
  apply local_then in Hr as [(err & -> & Hd)|(customer & w3 & [= <- <-] & _ & Hr)]; [left; congruence| |apply local_new_id].
  apply local_then in Hr as [(err & -> & Hd)|(u & w4 & Hc & Hd4 & Hr)];
    [left; rewrite Hd2, Hd; exact Hd1| |apply local_wrap, local_run].
  apply wrap_Ok, insert_customer_run in Hc as [Hnew Hc]. cbn [work bump] in Hnew, Hc. cbn [db bump] in Hd4.
  apply local_then in Hr as [(err & -> & Hd)|(id & w5 & [= <- <-] & _ & Hr)]; [left; congruence| |apply local_new_id].
  apply local_then in Hr as [(err & -> & Hd)|(u2 & w6 & Hv & Hd6 & Hr)];
    [left; rewrite Hd2, Hd; cbn; congruence| |apply local_wrap, local_run].
  apply wrap_Ok, insert_conversation_run in Hv as (Hfree & Href & Hv). cbn [work bump] in Hfree, Href, Hv. cbn [db bump] in Hd6.
  rewrite Hw1 in Hnew, Hc.
  pose proof (filed_after _ (open_conversation tenant (uuid e (tick w4) 0) (uuid e (tick w1) 0) "demo" (EncodeToHex (sha256 token)) budget)
    _ _ _ Hnew Hc Hfree Href Hv) as Hfiled.
  apply commit_then in Hr as [[-> Hd]|(err & -> & [Hd|[Hl Hd]])]; cbn [co_TenantID co_CustomerID co_ID CapabilityToken].
  - rewrite Hd2, Hd. by split.
  - left. congruence.
  - right. split; [done|]. rewrite Hd2, Hd. eexists _, _, token. exact Hfiled.
Qed.

(** The conversation of a chat, filed by the first message. *)
Definition contact_of (tenant channel ref : string) (profile : Profile) (budget : Z) (d d' : DB) : Prop :=
  d' = d \/ exists customer id, filed (profile_row tenant customer profile)
    (open_conversation tenant id customer channel ref budget) d d'.

Lemma first_contact_files `{Host} tenant channel ref profile budget e w res w' :
  first_contact tenant channel ref profile budget e w = (res, w') -> contact_of tenant channel ref profile budget (db w) (db w').
Proof.
  unfold first_contact. intros Hr.
  apply with_tx_cases in Hr as [(err & -> & Hd)|(w1 & w2 & Hd1 & Hw1 & _ & Hr & Hd2)]; [by left|].
  apply local_then in Hr as [(err & -> & Hd)|(customer & w3 & [= <- <-] & _ & Hr)]; [left; congruence| |apply local_new_id].
  apply local_then in Hr as [(err & -> & Hd)|(u & w4 & Hc & Hd4 & Hr)];
    [left; rewrite Hd2, Hd; exact Hd1| |apply local_wrap, local_run].
  apply wrap_Ok, insert_customer_run in Hc as [Hnew Hc]. cbn [work bump] in Hnew, Hc. cbn [db bump] in Hd4.
  apply local_then in Hr as [(err & -> & Hd)|(id & w5 & [= <- <-] & _ & Hr)]; [left; congruence| |apply local_new_id].
  apply local_then in Hr as [(err & -> & Hd)|(n & w6 & Hv & Hd6 & Hr)];
    [left; rewrite Hd2, Hd; cbn; congruence| |apply local_wrap, local_run].
  cbn [db bump] in Hd6. destruct (Nat.eqb_spec n 0) as [_|Hn]; [injection Hr as _ <-; left; congruence|].
  apply wrap_Ok, adopt_conversation_run in Hv as (Hfree & Href & Hv); [|done]. cbn [work bump] in Hfree, Href, Hv.
  rewrite Hw1 in Hnew, Hc.
  assert (Hfiled : contact_of tenant channel ref profile budget (db w) (work w6))
    by (right; eexists _, _; eapply filed_after; [exact Hnew|exact Hc|exact Hfree|exact Href|exact Hv]).
  apply commit_then in Hr as [[_ Hd]|(err & _ & [Hd|[_ Hd]])]; rewrite Hd2, Hd; [done|left; congruence|done].
Qed.

Lemma channelConversation_Ok tenant channel ref e w c w' : channelConversation tenant channel ref e w = (Ok c, w') ->
  exists row, row ∈ conversations (db w') /\ on_channel tenant channel ref row = true /\ cv_id row = co_ID c.
Proof.
  unfold channelConversation, load_conversation. intros Hr%map_err_Ok. apply bind_Ok in Hr as (o & w1 & Hq & Hr).
  apply query_Pool_Ok in Hq as [[= Ho] ->]. apply bind_Ok in Hr as (row & w2 & H1 & Hl). apply one_row_Ok in H1 as [H1 ->].
  unfold lift in Hl. injection Hl as Hv <-. rewrite H1 in Ho. apply List.find_some in Ho as [Hin%list_elem_of_In Hp].
  exists row. split; [done|]. split; [done|]. unfold conversation_view in Hv. destruct (cv_customer row); [|done]. by injection Hv as <-.
Qed.

Lemma ensure_files `{Host} tenant channel ref profile budget e w res w' :
  EnsureChannelConversation tenant channel ref profile budget e w = (res, w') ->
  contact_of tenant channel ref profile budget (db w) (db w') /\
  forall c, res = Ok c -> exists row, row ∈ conversations (db w') /\ on_channel tenant channel ref row = true /\ cv_id row = co_ID c.
Proof.
  unfold EnsureChannelConversation. destruct (_ || _ || _ || _); [intros [= <- <-]; split; [by left|done]|].
  destruct (blank _); [intros [= <- <-]; split; [by left|done]|].
  assert (Hl : local (channelConversation tenant channel ref)) by (unfold channelConversation, load_conversation; walk_local).
  pose proof (Hl e w) as Hd. destruct (channelConversation tenant channel ref e w) as [[c|err] w1] eqn:Hc; cbn in Hd.
  - intros [= <- <-]. split; [left; exact Hd|]. intros c' [= <-]. by apply channelConversation_Ok in Hc.
  - destruct (negb _); [intros [= <- <-]; by split; [left|]|]. unfold bind.
    destruct (first_contact _ _ _ _ _ e w1) as [[b|err'] w2] eqn:Hf; apply first_contact_files in Hf; rewrite Hd in Hf.
    + intros Hr. pose proof (Hl e w2) as Hd2. rewrite Hr in Hd2. cbn in Hd2. rewrite Hd2. split; [exact Hf|].
      intros c ->. apply channelConversation_Ok in Hr. by rewrite Hd2 in Hr.
    + intros [= <- <-]. by split.
Qed.
