(* ===== verification/Telegram.v ===== *)
(** * The Telegram channel: [internal/channels/telegram]

    The sender of the Bot API with its retries ([sender.go]), the webhook of one tenant
    ([webhook.go]) and the webhook that finds its tenant by the address and authenticates
    by that tenant's digest ([multitenant.go]).  The Bot API is the class [Bot]; a request
    whose handler panics has no status.

    Over [Telegram]: who reaches a webhook, that an update is claimed before its turn and
    never answered again, and how often a reply is sent. *)

From Stdlib Require Import ZArith Lia Ascii.
From stdpp Require Import base list strings gmap pretty.
From S2P Require Import Prelude State GoTime Json JsonParse Validation LLM Tokens Sha256 Database Catalog Repository Confirmations OpenRouter Conversations TurnQueue Passwords Identity Service Deployment Tenants ProcessConfig Bootstrap PublicHttp.

#[local] Open Scope Z_scope.

#[local] Abbreviation TrimSpace := JsonParse.TrimSpace.

(** ** The sender: [sender.go] *)
(** One request and its answer, within its own timeout; a wait, which ends early with the
    error of the context; and [rand.Int63n]. *)
Class Bot (S : Type) := {
  bot_post : http_request -> St S http_outcome;
  bot_wait : Z -> St S (option error);
  Int63n : Z -> St S Z
}.

Record BotAPIConfig := mkBotConfig { bc_Token : string; bc_BaseURL : string; bc_Timeout : Z }.
Record BotAPISender := mkSender { endpoint : string; sender_timeout : Z }.

Definition senderMaxAttempts : Z := 3.

Definition NewBotAPISender (config : BotAPIConfig) : result BotAPISender :=
  if bool_decide (bc_Token config = "") then Err (ErrText "telegram: bot token is required")
  else
    let base := trim_slashes (bc_BaseURL config) in
    let base := if bool_decide (base = "") then "https://api.telegram.org" else base in
    Ok (mkSender (cat [base; "/bot"; bc_Token config; "/sendMessage"])
          (if bc_Timeout config <=? 0 then 10 * Second else bc_Timeout config)).

(** [permanentSendError], or an error worth another attempt. *)
Inductive SendError := PermanentSendError (status : Z) | TransientSendError (err : error).

(** The first value of what can be read; a field that does not fit is left as it was. *)
Definition first_value (limit : Z) (body : string) : option json :=
  let l := take (Z.to_nat limit) (string_bytes body) in
  option_map fst (value (2 * length l + 2) 0 l).

Definition lenient_int (kv : string * json) (name : string) (old : Z) : Z :=
  if names_field kv.1 name then default old (decode_int old kv.2) else old.

Definition lenient_struct {A} (member : A -> string * json -> A) (v : json) (a : A) : A :=
  match v with JObj l => fold_left member l a | _ => a end.

(** [parameters.retry_after] *)
Definition retry_after_body (body : string) : Z :=
  match first_value 4096 body with
  | None => 0
  | Some v =>
      lenient_struct (fun n kv =>
        if names_field kv.1 "parameters" then lenient_struct (fun n kv => lenient_int kv "retry_after" n) kv.2 n else n) v 0
  end.

Definition read_attempt (o : http_outcome) : Z * option SendError :=
  match o with
  | NotCreated e => (0, Some (TransientSendError (ErrWrap "telegram: build request" e)))
  | NotSent e => (0, Some (TransientSendError (ErrWrap "telegram: transport" e)))
  | Answered status _ body _ =>
      if status =? 200 then (0, None)
      else if status =? 429 then
        let retryAfter := wrap64 (retry_after_body body * Second) in
        ((if 30 * Second <? retryAfter then 30 * Second else retryAfter),
         Some (TransientSendError (ErrText "telegram: rate limited (HTTP 429)")))
      else if 500 <=? status then
        (0, Some (TransientSendError (ErrText (cat ["telegram: Bot API unavailable (HTTP "; pretty status; ")"]))))
      else (0, Some (PermanentSendError status))
  end.

Definition message_request (s : BotAPISender) (chatID : Z) (text : string) : http_request :=
  mkHttpRequest (endpoint s) [("Content-Type", "application/json")]
    (Marshal (JObj [("chat_id", JNum (pretty chatID)); ("text", JStr text)])).

Section sender.
Context {T : Type} `{!Bot T}.

Definition send_attempt (r : http_request) : St T (Z * option SendError) :=
  let+ o := bot_post r in st_ret (read_attempt o).

Definition send_error (e : SendError) : error :=
  match e with
  | PermanentSendError status => ErrText (cat ["telegram: Bot API rejected the message with HTTP "; pretty status])
  | TransientSendError err => err
  end.

(** From attempt [n] on, [more] further ones at most. *)
Fixpoint send_attempts (more : nat) (n : Z) (r : http_request) : St T (option error) :=
  let+ (retryAfter, err) := send_attempt r in
  match err with
  | None => st_ret None
  | Some (PermanentSendError status) => st_ret (Some (send_error (PermanentSendError status)))
  | Some err =>
      match more with
      | O => st_ret (Some (ErrWrap "telegram: send failed after 3 attempts" (send_error err)))
      | S more =>
          let+ jitter := Int63n (250 * Millisecond) in
          let delay := Z.shiftl 1 (n - 1) * (500 * Millisecond) + jitter in
          let delay := if delay <? retryAfter then retryAfter else delay in
          let+ stopped := bot_wait delay in
          match stopped with Some err => st_ret (Some err) | None => send_attempts more (n + 1) r end
      end
  end.

Definition Send (s : BotAPISender) (chatID : Z) (text : string) : St T (option error) :=
  send_attempts (Z.to_nat (senderMaxAttempts - 1)) 1 (message_request s chatID text).
End sender.

(** ** Updates *)
Record Chat := mkChat { chat_ID : Z; chat_Type : string }.
Record From := mkFrom { FirstName : string; LastName : string; Username : string }.
Record UpdateMessage := mkUpdateMessage { um_Text : string; um_Chat : Chat; um_From : option From }.
Record update := mkUpdate { UpdateID : Z; up_Message : option UpdateMessage }.

Definition chat_member (kv : string * json) (c : Chat) : option Chat :=
  let '(mkChat id type) := c in
  if names_field kv.1 "id" then id ← decode_int id kv.2; Some (mkChat id type)
  else if names_field kv.1 "type" then type ← decode_text type kv.2; Some (mkChat id type)
  else Some c.

Definition from_member (kv : string * json) (f : From) : option From :=
  let '(mkFrom first last username) := f in
  if names_field kv.1 "first_name" then first ← decode_text first kv.2; Some (mkFrom first last username)
  else if names_field kv.1 "last_name" then last ← decode_text last kv.2; Some (mkFrom first last username)
  else if names_field kv.1 "username" then username ← decode_text username kv.2; Some (mkFrom first last username)
  else Some f.

(** Into a pointer: [null] clears it, a value is read into what it points to. *)
Definition decode_pointer {A} (member : string * json -> A -> option A) (zero : A) (v : json) (old : option A) : option (option A) :=
  match v with JNull => Some None | _ => option_map Some (decode_struct member v (default zero old)) end.

Definition message_member (kv : string * json) (m : UpdateMessage) : option UpdateMessage :=
  let '(mkUpdateMessage text chat from) := m in
  if names_field kv.1 "text" then text ← decode_text text kv.2; Some (mkUpdateMessage text chat from)
  else if names_field kv.1 "chat" then chat ← decode_struct chat_member kv.2 chat; Some (mkUpdateMessage text chat from)
  else if names_field kv.1 "from" then
    from ← decode_pointer from_member (mkFrom "" "" "") kv.2 from; Some (mkUpdateMessage text chat from)
  else Some m.

Definition update_member (kv : string * json) (u : update) : option update :=
  let '(mkUpdate id message) := u in
  if names_field kv.1 "update_id" then id ← decode_int id kv.2; Some (mkUpdate id message)
  else if names_field kv.1 "message" then
    message ← decode_pointer message_member (mkUpdateMessage "" (mkChat 0 "") None) kv.2 message; Some (mkUpdate id message)
  else Some u.

(** What follows the first value is not looked at. *)
Definition decode_update (body : string) : option update :=
  v ← first_value 65536 body; decode_struct update_member v (mkUpdate 0 None).

(** The message of an update the channel answers. *)
Definition answerable (u : update) : option UpdateMessage :=
  match up_Message u with
  | Some m =>
      if (UpdateID u =? 0) || bool_decide (TrimSpace (um_Text m) = "") || negb (String.eqb (chat_Type (um_Chat m)) "private")
      then None else Some m
  | None => None
  end.

Definition telegramProfile (m : UpdateMessage) : Profile :=
  let name :=
    match um_From m with
    | Some f =>
        let name := TrimSpace (cat [FirstName f; " "; LastName f]) in
        if bool_decide (name = "") then Username f else name
    | None => ""
    end in
  mkProfile (if bool_decide (name = "") then "Telegram customer" else name)
    (cat ["telegram-"; pretty (chat_ID (um_Chat m)); "@customers.invalid"]) "".

Definition formatConfirmation (title : string) (facts : list ConfirmationFact) : string :=
  Json.join newline ((if bool_decide (title = "") then [] else [title]) ++ map (fun f => cat [Label f; ": "; Value f]) facts).

Definition busy_reply : string := "I’m handling a lot of messages right now — please send that again in a moment.".
Definition failed_reply : string := "Something went wrong on our side. A person will follow up.".
Definition quote : string := str (chr 34).

Definition reply_of (turn : result TurnAnswer) : string :=
  match turn with
  | Err err => if errors_is err ErrTurnOverloaded then busy_reply else failed_reply
  | Ok turn =>
      match PendingConfirmation turn with
      | None => ta_Message turn
      | Some p =>
          cat [ta_Message turn; newline; newline; formatConfirmation (Confirmations.Title p) (Facts p); newline; newline;
               "Reply "; quote; "Yes, confirm"; quote; " to confirm."]
      end
  end.

(** [INSERT ... ON CONFLICT (tenant_id,update_id) DO NOTHING]: the rows inserted. *)
Definition is_update (tenant : string) (id : Z) (u : UpdateRow) : bool :=
  String.eqb (tu_tenant u) tenant && (tu_update u =? id).

Definition claim_sql (tenant : string) (id : Z) : sql nat := fun now _ _ d =>
  if existsb (is_update tenant id) (telegram_updates (accounts_of d)) then Ok (0%nat, d)
  else if negb (string_in tenant (tenants d)) then Err ForeignKeyViolation
  else Ok (1%nat, set_updates (telegram_updates (accounts_of d) ++ [mkUpdateRow tenant id now]) d).

Definition claimUpdate (tenant : string) (id : Z) : M bool :=
  let* n := wrap "claim telegram update" (run Pool (claim_sql tenant id)) in ret (Nat.eqb n 1).

(** ** The webhooks *)
Record TelegramRequest := mkTelegramRequest { tq_Method : string; tq_Slug : string; tq_Secret : string; tq_Body : string }.

Record WebhookConfig := mkWebhookConfig { wh_TenantID : string; wh_Secret : string; wh_TokenBudget : Z }.

Definition token_budget (n : Z) : Z := if n <? 1 then 50000 else n.

(** [wired]: no dependency is nil. *)
Definition NewWebhook (wired : bool) (config : WebhookConfig) : result WebhookConfig :=
  if bool_decide (wh_TenantID config = "") || bool_decide (wh_Secret config = "")
  then Err (ErrText "telegram: tenant ID and webhook secret are required")
  else if negb wired then Err (ErrText "telegram: all webhook dependencies are required")
  else Ok (mkWebhookConfig (wh_TenantID config) (wh_Secret config) (token_budget (wh_TokenBudget config))).

Record MultiTenantWebhook := mkMultiTenant { mw_APIBaseURL : string; mw_TokenBudget : Z }.

Definition NewMultiTenantWebhook (wired : bool) (apiBaseURL : string) (tokenBudget : Z) : result MultiTenantWebhook :=
  if negb wired then Err (ErrText "telegram: tenant runtime, store, and pool are required")
  else Ok (mkMultiTenant apiBaseURL (token_budget tokenBudget)).

(** A message whose update has been claimed, in its conversation. *)
Record Claimed := mkClaimed { cl_Conversation : string; cl_Chat : Z; cl_Text : string; cl_ID : string }.

(** A request is answered at once, or a turn is run for it first, by the application
    that was found. *)
Inductive Accepted (A : Type) := Answer (status : Z) | Turn (a : A) (c : Claimed).
Arguments Answer {A}. Arguments Turn {A}.

(** From the body to the claim: the conversation is there before the update is claimed. *)
Definition claim_message {A} (ensure : UpdateMessage -> M (A * Conversation)) (tenantID body : string) : M (Accepted A) :=
  match decode_update body with
  | None => ret (Answer 200)
  | Some payload =>
      match answerable payload with
      | None => ret (Answer 200)
      | Some m =>
          let* mapped := attempt (ensure m) in
          match mapped with
          | Err _ => ret (Answer 500)
          | Ok (a, conversation) =>
              let* fresh := attempt (claimUpdate tenantID (UpdateID payload)) in
              match fresh with
              | Err _ => ret (Answer 500)
              | Ok false => ret (Answer 200)
              | Ok true =>
                  ret (Turn a (mkClaimed (co_ID conversation) (chat_ID (um_Chat m)) (um_Text m)
                                 (cat ["tg-"; pretty (UpdateID payload)])))
              end
          end
      end
  end.

Section webhooks.
Context `{host : !Host} {T : Type} `{bot : !Bot T} (e : Database.env).

#[local] Abbreviation H := (St (world * T)).

Definition on_db {A} (m : M A) : H (result A) := fun '(w, t) => let '(r, w') := m e w in (r, (w', t)).
Definition on_bot {A} (m : St T A) : H A := fun '(w, t) => let '(a, t') := m t in (a, (w, t')).

(** The turn of a claimed message, and its reply; no status when the turn panics. *)
Definition answer_turn (send_message : string -> string -> string -> M (option TurnAnswer)) (c : Claimed)
    (send : string -> H unit) : H (option Z) :=
  let+ turn := on_db (send_message (cl_Conversation c) (cl_Text c) (cl_ID c)) in
  match turn with
  | Ok None => st_ret None
  | Ok (Some turn) => let+ _ := send (reply_of (Ok turn)) in st_ret (Some 200)
  | Err err => let+ _ := send (reply_of (Err err)) in st_ret (Some 200)
  end.

Definition finish {A} (accepted : result (Accepted A)) (turn : A -> Claimed -> H (option Z)) : H (option Z) :=
  match accepted with
  | Ok (Answer status) => st_ret (Some status)
  | Ok (Turn a c) => turn a c
  | Err _ => st_ret (Some 500)
  end.

(** [Webhook.ServeHTTP] *)
Definition ServeHTTP (h : WebhookConfig) (send_message : string -> string -> string -> M (option TurnAnswer))
    (send : Z -> string -> St T (option error)) (r : TelegramRequest) : H (option Z) :=
  if negb (String.eqb (tq_Method r) "POST") then st_ret (Some 405)
  else if negb (bool_decide (tq_Secret r = wh_Secret h)) then st_ret (Some 404)
  else
    let+ accepted := on_db (claim_message (fun m =>
      let* c := EnsureChannelConversation (wh_TenantID h) "telegram" (pretty (chat_ID (um_Chat m))) (telegramProfile m)
                  (wh_TokenBudget h) in
      ret (tt, c)) (wh_TenantID h) (tq_Body r)) in
    finish accepted (fun _ c =>
      answer_turn send_message c (fun reply => let+ _ := on_bot (send (cl_Chat c) reply) in st_ret tt)).

Context `{letters : !Letters} (jsonb : string -> result string) (column_size : string -> Z) (fuel tries : nat) (o : outside)
  (ApplicationFor : string -> M Built).

(** The credentials of the tenant that the address names and the header proves. *)
Definition authenticated (store : Tenants.Store) (r : TelegramRequest) : M (Tenants.Tenant * TelegramCredentials) :=
  let* tenant := TenantBySlug store (TrimSpace (tq_Slug r)) in
  let* credentials := LoadTelegramCredentials store (t_ID tenant) in
  if bool_decide (sha256 (tq_Secret r) = WebhookDigest credentials) then ret (tenant, credentials)
  else fail ErrUnauthorized.

(** [MultiTenantWebhook.ServeHTTP] *)
Definition ServeTenant (h : MultiTenantWebhook) (store : Tenants.Store) (r : TelegramRequest) : H (option Z) :=
  if negb (String.eqb (tq_Method r) "POST") then st_ret (Some 405)
  else
    let+ found := on_db (authenticated store r) in
    match found with
    | Err _ => st_ret (Some 404)
    | Ok (tenant, credentials) =>
        let+ accepted := on_db (claim_message (fun m =>
          let* b := ApplicationFor (t_ID tenant) in
          let* c := EnsureChannelConversation (t_ID tenant) "telegram" (pretty (chat_ID (um_Chat m))) (telegramProfile m)
                      (mw_TokenBudget h) in
          ret (b, c)) (t_ID tenant) (tq_Body r)) in
        finish accepted (fun b c =>
          answer_turn (take_turn jsonb column_size fuel tries o b) c (fun reply =>
            match NewBotAPISender (mkBotConfig (BotToken credentials) (mw_APIBaseURL h) 0) with
            | Err _ => st_ret tt
            | Ok sender => let+ _ := on_bot (Send sender (cl_Chat c) reply) in st_ret tt
            end))
    end.
End webhooks.

(** * One answer to one update *)

From S2P Require Import DatabaseFacts SalonDemo DeploymentProps ChannelFacts.

#[local] Open Scope Z_scope.

(** ** Claims *)
Definition claims (d : DB) : list UpdateRow := telegram_updates (accounts_of d).

(** The update was free and is claimed, and that is all. *)
Definition claimed (tenant : string) (id : Z) (d d' : DB) : Prop :=
  existsb (is_update tenant id) (claims d) = false /\
  exists at_, d' = set_updates (claims d ++ [mkUpdateRow tenant id at_]) d.

Lemma claim_sql_Ok tenant id now n e d k d' : claim_sql tenant id now n e d = Ok (k, d') ->
  k = 0%nat /\ d' = d /\ existsb (is_update tenant id) (claims d) = true \/ k = 1%nat /\ claimed tenant id d d'.
Proof.
  unfold claim_sql. destruct (existsb _ _) eqn:He; [intros [= <- <-]; by left|]. destruct (negb _); [done|].
  intros [= <- <-]. right. split; [done|]. split; [exact He|]. by eexists.
Qed.

Lemma claim_cases tenant id e w res w' : claimUpdate tenant id e w = (res, w') ->
  match res with
  | Ok true => claimed tenant id (db w) (db w')
  | Ok false => db w' = db w /\ existsb (is_update tenant id) (claims (db w)) = true
  | Err _ => db w' = db w \/ lost_commit e /\ claimed tenant id (db w) (db w')
  end.
Proof.
  unfold claimUpdate, bind, wrap, map_err, run, ret.
  destruct (fault e (tick w)) as [err|] eqn:Hf; destruct (claim_sql _ _ _ _ _ _) as [[k d]|] eqn:Hs;
    try (intros [= <- <-]; by left).
  - destruct (negb _ && landed e (tick w)) eqn:Hl; [|intros [= <- <-]; by left]. apply lost_answer with (err := err) in Hl as [_ Hl]; [|done].
    apply claim_sql_Ok in Hs as [(-> & -> & _)|[-> Hc]]; intros [= <- <-]; [by left|by right].
  - apply claim_sql_Ok in Hs as [(-> & -> & He)|[-> Hc]]; by intros [= <- <-].
Qed.

(** No private text: nothing is done about it. *)
Definition no_text (body : string) : Prop :=
  decode_update body = None \/ exists u, decode_update body = Some u /\ answerable u = None.

(** What comes of a message whose turn does not run.  [ensure] finds its conversation, and
    [files] is what that does to the tables. *)
Definition not_run {A} (files : DB -> DB -> Prop) (ensure : M A) (tenant : string) (u : update) (e : Database.env)
    (w w' : world) (status : Z) : Prop :=
  status = 200 /\ existsb (is_update tenant (UpdateID u)) (claims (db w)) = true /\ files (db w) (db w') \/
  status = 500 /\ (exists err, ensure e w = (Err err, w')) /\ files (db w) (db w') \/
  status = 500 /\ exists a w1 err, ensure e w = (Ok a, w1) /\ claimUpdate tenant (UpdateID u) e w1 = (Err err, w') /\
    files (db w) (db w1) /\ (db w' = db w1 \/ lost_commit e /\ claimed tenant (UpdateID u) (db w1) (db w')).

Lemma claim_message_cases {A} (files : UpdateMessage -> DB -> DB -> Prop) (ensure : UpdateMessage -> M (A * Conversation))
    tenant body e w res w' :
  (forall m d d', files m d d' -> accounts_of d' = accounts_of d) ->
  (forall m res w', ensure m e w = (res, w') -> files m (db w) (db w')) ->
  claim_message ensure tenant body e w = (res, w') ->
  exists accepted, res = Ok accepted /\
  match accepted with
  | Answer status =>
      status = 200 /\ no_text body /\ db w' = db w \/
      exists u m, decode_update body = Some u /\ answerable u = Some m /\
        not_run (files m) (ensure m) tenant u e w w' status
  | Turn a c => exists u m w1 conv, decode_update body = Some u /\ answerable u = Some m /\
      ensure m e w = (Ok (a, conv), w1) /\ claimed tenant (UpdateID u) (db w1) (db w') /\
      c = mkClaimed (co_ID conv) (chat_ID (um_Chat m)) (um_Text m) (cat ["tg-"; pretty (UpdateID u)])
  end.
Proof.
  intros Hacc He. unfold claim_message.
  destruct (decode_update body) as [u|] eqn:Hu; [|intros [= <- <-]; eexists; split; [done|]; left; by repeat split; left].
  destruct (answerable u) as [m|] eqn:Hm;
    [|intros [= <- <-]; eexists; split; [done|]; left; split; [done|]; split; [right; by exists u|done]].
  unfold bind at 1, attempt at 1. destruct (ensure m e w) as [[[a conv]|err] w1] eqn:Hr; pose proof (He _ _ _ Hr) as Hf;
    [|intros [= <- <-]; eexists; split; [done|]; right; exists u, m; split; [done|]; split; [done|]; right; left; split; [done|]; split; [by exists err|done]].
  unfold bind at 1, attempt at 1. destruct (claimUpdate _ _ e w1) as [res2 w2] eqn:Hrun. pose proof (claim_cases _ _ _ _ _ _ Hrun) as Hq.
  destruct res2 as [[]|err]; intros [= <- <-]; eexists; (split; [done|]).
  - exists u, m, w1, conv. by split_and!.
  - right. exists u, m. split; [done|]. split; [done|]. left. destruct Hq as [Hq Hx]. rewrite Hq. split; [done|].
    split; [|exact Hf]. unfold claims in *. by rewrite <- (Hacc _ _ _ Hf).
  - right. exists u, m. split; [done|]. split; [done|]. right. right. split; [done|]. by exists (a, conv), w1, err.
Qed.

(** ** A query and what follows it *)
Lemma bind_assoc {A B C} (m : M A) (f : A -> M B) (g : B -> M C) e w :
  (let* b := (let* a := m in f a) in g b) e w = (let* a := m in let* b := f a in g b) e w.
Proof. unfold bind. by destruct (m e w) as [[a|err] w1]. Qed.

Lemma bind_ret {A B} (a : A) (f : A -> M B) e w : (let* x := ret a in f x) e w = f a e w.
Proof. done. Qed.

Lemma bind_lift {A B} (r : result A) (f : A -> M B) e w :
  (let* x := lift r in f x) e w = match r with Ok a => f a e w | Err err => (Err err, w) end.
Proof. unfold bind, lift. by destruct r. Qed.

Lemma looked_up {A B} msg (f : DB -> A) (k : A -> M B) e w res w' :
  (let* x := wrap msg (query Pool (fun _ _ _ d => Ok (f d))) in k x) e w = (res, w') ->
  (exists err, res = Err err /\ exists n, is_Some (fault e n)) \/ exists w1, db w1 = db w /\ k (f (db w)) e w1 = (res, w').
Proof.
  unfold bind, wrap, map_err, query, run. cbn. destruct (fault e (tick w)) as [err|] eqn:Hf.
  - intros [= <- _]. left. eexists. split; [done|]. exists (tick w). by rewrite Hf.
  - intros Hk. right. eexists. split; [|exact Hk]. done.
Qed.

(** ** Deliveries *)
Section deliveries.
Context `{host : !Host} `{letters : !Letters} {T : Type} `{bot : !Bot T} (jsonb : string -> result string)
  (column_size : string -> Z) (fuel tries : nat) (o : outside) (r : Runtime) (components : Cache) (store : Tenants.Store)
  (h : MultiTenantWebhook).

#[local] Abbreviation turn_of b := (take_turn jsonb column_size fuel tries o b).

Lemma take_turn_accounts b c text id e w : accounts_of (db (turn_of b c text id e w).2) = accounts_of (db w).
Proof.
  unfold take_turn. pose proof (serve_accounts jsonb column_size fuel e o (bu_Parts b) tries c text id w []) as Hs.
  destruct (serve _ _ _ _ _ _ _ _ _ _ _) as [answer [w' l]]. exact Hs.
Qed.

Lemma local_authenticated q : local (authenticated store q).
Proof. unfold authenticated, TenantBySlug, find_tenant, LoadTelegramCredentials. walk_local. Qed.

(** The tenant of the address, whose channel is enabled and stores the digest of the
    secret that was presented; and its bot token, which its own cipher text hides. *)
Definition addressed (q : TelegramRequest) (d : DB) (row : TenantRow) (token : string) : Prop :=
  tn_pool store = true /\ slug_ok (JsonParse.TrimSpace (tq_Slug q)) = true /\ tr_id row <> ""%string /\
  List.find (fun t => String.eqb (tr_slug t) (JsonParse.TrimSpace (tq_Slug q))) (tenant_rows (accounts_of d)) = Some row /\
  exists ch, find_channels (tr_id row) d = Some ch /\ ch_enabled ch = true /\ ch_digest ch = Some (sha256 (tq_Secret q)) /\
    open (tn_cipher store) (ch_ciphertext ch) (ch_nonce ch) (channelAAD (tr_id row)) = Ok token.

(** The lookup and the check come to the tenant that is addressed, unless a statement fails. *)
Lemma authenticated_cases q e w res w' : authenticated store q e w = (res, w') -> db w' = db w /\
  match res with
  | Ok (t, credentials) => exists row, addressed q (db w) row (BotToken credentials) /\ t_ID t = tr_id row
  | Err _ => (exists n, is_Some (fault e n)) \/ forall row token, ~ addressed q (db w) row token
  end.
Proof.
  intros Ha. split; [by pose proof (local_authenticated q e w) as Hl; rewrite Ha in Hl|]. revert Ha.
  unfold authenticated, TenantBySlug. destruct (tn_pool store) eqn:Hp; cbn [negb orb]; cycle 1.
  { intros [= <- _]. right. intros row token (H & _). congruence. }
  destruct (slug_ok _) eqn:Hslug; cbn [negb]; cycle 1.
  { intros [= <- _]. right. intros row token (_ & H & _). congruence. }
  unfold find_tenant. rewrite bind_assoc. intros [(err & -> & Hf)|(w1 & Hd1 & Hr)]%looked_up; [by left|].
  destruct (List.find _ _) as [row|] eqn:Hrow; cbn [option_map] in Hr; cycle 1.
  { injection Hr as <- _. right. intros row token (_ & _ & _ & H & _). congruence. }
  rewrite bind_ret in Hr. unfold LoadTelegramCredentials in Hr. rewrite Hp in Hr. cbn [negb orb t_ID tenant_of] in Hr.
  destruct (bool_decide (tr_id row = "")) eqn:Hid; bool_to_prop.
  { injection Hr as <- _. right. intros row' token (_ & _ & H & Hx & _). congruence. }
  rewrite bind_assoc in Hr. apply looked_up in Hr as [(err & -> & Hf)|(w2 & Hd2 & Hr)]; [by left|]. rewrite Hd1 in Hr.
  destruct (find_channels (tr_id row) (db w)) as [ch|] eqn:Hch; cycle 1.
  { injection Hr as <- _. right. intros row' token (_ & _ & _ & Hx & ch & H & _). congruence. }
  assert (Hsame : forall row' token, addressed q (db w) row' token -> ch_enabled ch = true /\
    ch_digest ch = Some (sha256 (tq_Secret q)) /\
    open (tn_cipher store) (ch_ciphertext ch) (ch_nonce ch) (channelAAD (tr_id row)) = Ok token).
  { intros row' token (_ & _ & _ & Hx & ch' & H & H1 & H2 & H3).
    assert (row' = row) as -> by congruence. assert (ch' = ch) as -> by congruence. by split. }
  destruct (ch_enabled ch) eqn:Hen; cbn [negb] in Hr; cycle 1.
  { injection Hr as <- _. right. intros row' token [H _]%Hsame. done. }
  rewrite bind_assoc, bind_lift in Hr. destruct (open _ _ _ _) as [token|err] eqn:Hop; cycle 1.
  { injection Hr as <- _. right. intros row' token (_ & _ & H)%Hsame. done. }
  destruct (Json.len (default "" (ch_digest ch)) =? 32) eqn:Hlen; cbn [negb] in Hr; cycle 1.
  { injection Hr as <- _. right. intros row' token' (_ & H & _)%Hsame. rewrite H in Hlen.
    change (default "" (Some ?x)) with x in Hlen. by rewrite sha256_length in Hlen. }
  rewrite bind_ret in Hr. cbn [WebhookDigest] in Hr. destruct (bool_decide _) eqn:Hd in Hr; bool_to_prop; injection Hr as <- _.
  - exists row. cbn [BotToken t_ID tenant_of]. split; [|done]. split_and!; try done. exists ch. split_and!; try done.
    rewrite Hd. destruct (ch_digest ch); [done|discriminate Hlen].
  - right. intros row' token' (_ & H & _)%Hsame. apply Hd. by rewrite H.
Qed.

(** The tables but for recalibrated usage, and at most the conversation of a chat: one
    customer and one conversation, both new. *)
Definition contacted (row : TenantRow) (m : UpdateMessage) (d d' : DB) : Prop :=
  exists d1, same_but_usage d d1 /\
    contact_of (tr_id row) "telegram" (pretty (chat_ID (um_Chat m))) (telegramProfile m) (mw_TokenBudget h) d1 d'.

Lemma contacted_accounts row m d d' : contacted row m d d' -> accounts_of d' = accounts_of d.
Proof.
  intros (d1 & Hu & Hc). apply same_contacts, contacts_accounts in Hu. rewrite <- Hu.
  destruct Hc as [->|(customer & id & Hf)]; [done|]. by apply filed_contacts, contacts_accounts in Hf.
Qed.

(** Finding the conversation of a chat, by the components of the runtime. *)
Definition conversation_of (row : TenantRow) (m : UpdateMessage) : M (Built * Conversation) :=
  let* b := cached r components (tr_id row) in
  let* c := EnsureChannelConversation (tr_id row) "telegram" (pretty (chat_ID (um_Chat m))) (telegramProfile m) (mw_TokenBudget h) in
  ret (b, c).

Lemma ensured_contacted (Hscoped : scoped_cache components) row m e w res w' :
  conversation_of row m e w = (res, w') -> contacted row m (db w) (db w').
Proof.
  pose proof (cached_scoped r components Hscoped) as Hsr.
  unfold conversation_of, bind at 1. pose proof (sr_quiet (db w) (tr_id row) e w (same_refl _)) as Hq.
  destruct (cached r components (tr_id row) e w) as [[b|err] w1]; cbn in Hq; [|intros [= _ <-]; exists (db w1); split; [done|by left]].
  unfold bind. destruct (EnsureChannelConversation _ _ _ _ _ e w1) as [res1 w2] eqn:He. apply ensure_files in He as [Hc _].
  destruct res1; intros [= _ <-]; by exists (db w1).
Qed.

Lemma ensured_found (Hscoped : scoped_cache components) row m e w b c w' : conversation_of row m e w = (Ok (b, c), w') ->
  application_tenant b = tr_id row /\ exists v, v ∈ conversations (db w') /\
    on_channel (tr_id row) "telegram" (pretty (chat_ID (um_Chat m))) v = true /\ cv_id v = co_ID c.
Proof.
  pose proof (cached_scoped r components Hscoped) as Hsr.
  intros (b' & w1 & Hb & (c' & w2 & Hc & [= -> -> <-])%bind_Ok)%bind_Ok. apply sr_scoped in Hb. split; [done|].
  apply ensure_files in Hc as [_ Hc]. by apply Hc.
Qed.

(** What a turn is told to its chat. *)
Definition told (e : Database.env) (token : string) (chat : Z) (turn : result (option TurnAnswer)) (t t' : T) (status : option Z) : Prop :=
  match turn with
  | Ok None => status = None /\ t' = t
  | Ok (Some _) | Err _ =>
      status = Some 200 /\
      let reply := reply_of (match turn with Ok (Some a) => Ok a | Ok None => Err ErrPanic | Err err => Err err end) in
      match NewBotAPISender (mkBotConfig token (mw_APIBaseURL h) 0) with
      | Ok sender => t' = (Send sender chat reply t).2
      | Err _ => t' = t
      end
  end.

(** A request whose update is new: it is claimed for the tenant of the address, then its
    turn runs in the conversation of its chat, and the reply goes to that chat. *)
Definition answered (e : Database.env) (q : TelegramRequest) (row : TenantRow) (token : string) (u : update) (m : UpdateMessage)
    (s s' : world * T) (status : option Z) : Prop :=
  exists b conversation v w1 w2 turn,
    application_tenant b = tr_id row /\ contacted row m (db s.1) (db w1) /\
    v ∈ conversations (db w1) /\ on_channel (tr_id row) "telegram" (pretty (chat_ID (um_Chat m))) v = true /\ cv_id v = conversation /\
    claimed (tr_id row) (UpdateID u) (db w1) (db w2) /\
    turn_of b conversation (um_Text m) (cat ["tg-"; pretty (UpdateID u)]) e w2 = (turn, s'.1) /\
    claims (db s'.1) = claims (db w2) /\
    told e token (chat_ID (um_Chat m)) turn s.2 s'.2 status.

(** How a request ends, with its status. *)
Inductive handled (e : Database.env) (q : TelegramRequest) (s s' : world * T) : option Z -> Prop :=
| NotPosted : tq_Method q <> "POST"%string -> db s'.1 = db s.1 -> s'.2 = s.2 -> handled e q s s' (Some 405)
| NotFound : tq_Method q = "POST"%string ->
    (exists n, is_Some (fault e n)) \/ (forall row token, ~ addressed q (db s.1) row token) ->
    db s'.1 = db s.1 -> s'.2 = s.2 -> handled e q s s' (Some 404)
| NoText row token : tq_Method q = "POST"%string -> addressed q (db s.1) row token -> no_text (tq_Body q) ->
    db s'.1 = db s.1 -> s'.2 = s.2 -> handled e q s s' (Some 200)
| NotRun row token u m status : tq_Method q = "POST"%string -> addressed q (db s.1) row token ->
    decode_update (tq_Body q) = Some u -> answerable u = Some m ->
    (exists w, db w = db s.1 /\ not_run (contacted row m) (conversation_of row m) (tr_id row) u e w s'.1 status) -> s'.2 = s.2 -> handled e q s s' (Some status)
| TurnRun row token u m status : tq_Method q = "POST"%string -> addressed q (db s.1) row token ->
    decode_update (tq_Body q) = Some u -> answerable u = Some m ->
    answered e q row token u m s s' status -> handled e q s s' status.

Definition reply_to (token : string) (c : Claimed) (reply : string) : St (world * T) unit :=
  match NewBotAPISender (mkBotConfig token (mw_APIBaseURL h) 0) with
  | Err _ => st_ret tt
  | Ok sender => let+ _ := on_bot (Send sender (cl_Chat c) reply) in st_ret tt
  end.

Lemma reply_sent token c reply w t : exists t' : T, reply_to token c reply (w, t) = (tt, (w, t')) /\ match NewBotAPISender (mkBotConfig token (mw_APIBaseURL h) 0) with
  | Ok sender => t' = (Send sender (cl_Chat c) reply t).2 | Err _ => t' = t end.
Proof.
  unfold reply_to. destruct (NewBotAPISender _) as [sender|err]; [|by exists t]. unfold st_bind, on_bot.
  destruct (Send sender (cl_Chat c) reply t) as [a t']. by exists t'.
Qed.

Lemma turn_answered (e : Database.env) token b c w t status s' :
  answer_turn e (turn_of b) c (reply_to token c) (w, t) = (status, s') ->
  exists turn, turn_of b (cl_Conversation c) (cl_Text c) (cl_ID c) e w = (turn, s'.1) /\ told e token (cl_Chat c) turn t s'.2 status.
Proof.
  unfold answer_turn, st_bind, on_db. destruct (turn_of b _ _ _ e w) as [[[a|]|err] w1].
  - destruct (reply_sent token c (reply_of (Ok a)) w1 t) as (t' & -> & Ht). intros [= <- <-]. exists (Ok (Some a)). by split.
  - intros [= <- <-]. by exists (Ok None).
  - destruct (reply_sent token c (reply_of (Err err)) w1 t) as (t' & -> & Ht). intros [= <- <-]. exists (Err err). by split.
Qed.

Lemma answered_unclaimed e q row token u m s s' status : answered e q row token u m s s' status ->
  existsb (is_update (tr_id row) (UpdateID u)) (claims (db s.1)) = false.
Proof.
  intros (b & c & v & w1 & w2 & turn & _ & Hc & _ & _ & _ & [Hn _] & _). unfold claims in *.
  by rewrite <- (contacted_accounts _ _ _ _ Hc).
Qed.
End deliveries.

#[local] Opaque decode_update.

(** C10. An update of Telegram is answered at most once, and only for its tenant.  A request
    to the webhook ends in one of five ways.  One that is no POST gets 405; one that is not
    addressed to a tenant whose secret it presents, or whose lookup failed, gets 404; and
    one with a body that is no private text gets 200: none of the three changes a table or
    sends anything.  A private text whose update had been claimed before gets 200, and one
    that could not be claimed 500: nothing is sent, no turn runs, and usage apart the tables
    gain at most the chat's customer and conversation, and a claim whose answer was lost.
    Otherwise its update, which nobody had claimed, is claimed before its turn runs; the turn
    is the tenant's own, in the conversation of the chat, and what is sent is its reply, to
    that chat.  The turn keeps the claims.  So without a tenant's own secret a POST gets 404
    and leaves everything as it was, and an update claimed before sends nothing. *)
Theorem update_answered_once `{!Host} `{!Letters} {T : Type} `{!Bot T} (jsonb : string -> result string)
    (column_size : string -> Z) (fuel tries : nat) (o : outside) (r : Runtime) (components : Cache) (store : Tenants.Store)
    (h : MultiTenantWebhook) (q : TelegramRequest) (e : Database.env) (s s' : world * T) (status : option Z)
    (Hscoped : scoped_cache components)
    (Hs : ServeTenant e jsonb column_size fuel tries o (cached r components) h store q s = (status, s')) :
  handled jsonb column_size fuel tries o r components store h e q s s' status /\
  (tq_Method q = "POST"%string -> (forall row token, ~ addressed store q (db s.1) row token) ->
     status = Some 404 /\ db s'.1 = db s.1 /\ s'.2 = s.2) /\
  (forall row token u, addressed store q (db s.1) row token -> decode_update (tq_Body q) = Some u ->
     existsb (is_update (tr_id row) (UpdateID u)) (claims (db s.1)) = true -> s'.2 = s.2).
Proof.
  enough (Hh : handled jsonb column_size fuel tries o r components store h e q s s' status).
  { split; [exact Hh|]. split; [intros Hpost Hno|intros row token u Haddr Hu Hx]; inversion Hh as
      [Hm Hd Hb Hst|Hm Hw Hd Hb Hst|row' token' Hm Ha Ht Hd Hb Hst|row' token' u' m status' Hm Ha Hu' Hans Hn Hb Hst
      |row' token' u' m status' Hm Ha Hu' Hans Hn Hst]; subst; try done; try (by destruct (Hno _ _ Ha)).
    eapply answered_unclaimed in Hn. destruct Haddr as (_ & _ & _ & Hf & _), Ha as (_ & _ & _ & Hf' & _).
    assert (row' = row) as -> by congruence. assert (u' = u) as -> by congruence. congruence. }
  destruct s as [w t]. unfold ServeTenant in Hs.
  destruct (String.eqb_spec (tq_Method q) "POST") as [Hm|Hm]; cbn [negb] in Hs; [|injection Hs as <- <-; by apply NotPosted].
  unfold st_bind at 1, on_db at 1 in Hs. destruct (authenticated store q e w) as [res w1] eqn:Ha.
  apply authenticated_cases in Ha as [Hw1 Ha].
  destruct res as [[tenant credentials]|err]; [|injection Hs as <- <-; by apply NotFound].
  destruct Ha as (row & Haddr & Hid). unfold st_bind at 1, on_db at 1 in Hs.
  destruct (claim_message _ _ _ e w1) as [res w2] eqn:Hc.
  rewrite Hid in Hc. apply (claim_message_cases (contacted h row) (conversation_of r components h row)) in Hc as (accepted & -> & Hc);
    [|by apply contacted_accounts|intros m res' w'; by apply ensured_contacted]. destruct accepted as [code|b c].
  - injection Hs as <- <-. destruct Hc as [(-> & Ht & Hd)|(u & m & Hu & Hans & Hn)].
    + eapply NoText; [exact Hm|exact Haddr|exact Ht|cbn; congruence|done].
    + eapply NotRun; [exact Hm|exact Haddr|exact Hu|exact Hans|by exists w1|done].
  - destruct Hc as (u & m & w3 & conv & Hu & Hans & He & Hclaim & ->).
    pose proof (ensured_contacted r components h Hscoped row m e w1 _ _ He) as Hcontacted. rewrite Hw1 in Hcontacted.
    eapply TurnRun; [exact Hm|exact Haddr|exact Hu|exact Hans|].
    unfold finish in Hs. apply turn_answered in Hs as (turn & Hturn & Htold).
    destruct (ensured_found r components h Hscoped row m e w1 b conv w3 He) as (Hscope & v & Hv & Hch & Hvid).
    exists b, (co_ID conv), v, w3, w2, turn. split_and!; try done.
    unfold claims. pose proof (take_turn_accounts jsonb column_size fuel tries o b (co_ID conv) (um_Text m)
      (cat ["tg-"; pretty (UpdateID u)]) e w2) as Hacc. cbn [cl_Conversation cl_Text cl_ID] in Hturn. rewrite Hturn in Hacc. cbn in Hacc. by rewrite Hacc.
Qed.

(** ** Sending *)
Inductive sending := Posted (r : http_request) (o : http_outcome) | Waited (delay : Z).

Definition requests (l : list sending) : list http_request := omap (fun x => match x with Posted r _ => Some r | _ => None end) l.
Definition outcomes (l : list sending) : list http_outcome := omap (fun x => match x with Posted _ o => Some o | _ => None end) l.
Definition waits (l : list sending) : list Z := omap (fun x => match x with Waited d => Some d | _ => None end) l.

(** The Bot API observed. *)
Definition observed {T} `{!Bot T} : Bot (T * list sending) := {|
  bot_post r := noting (fun o => [Posted r o]) (bot_post r);
  bot_wait d := noting (fun _ => [Waited d]) (bot_wait d);
  Int63n n := silent (Int63n n)
|}.

Definition accepted (o : http_outcome) : bool := negb (is_set (read_attempt o).2).
Definition worth_another (o : http_outcome) : bool :=
  match (read_attempt o).2 with Some (TransientSendError _) => true | _ => false end.

Lemma retry_after_limit o : (read_attempt o).1 <= 30 * Second.
Proof.
  destruct o as [err|err|status ra body broken]; cbn; try (unfold Second; lia). destruct (status =? 200); [cbn; unfold Second; lia|].
  destruct (status =? 429); [|destruct (500 <=? status); cbn; unfold Second; lia]. cbn.
  destruct (Z.ltb_spec (30 * Second) (wrap64 (retry_after_body body * Second))); lia.
Qed.

Section sender.
Context {T : Type} `{bot : !Bot T} (Hrand : forall n t, 0 < n -> 0 <= (Int63n n t).1 < n).

#[local] Instance observed_bot : Bot (T * list sending) := observed.

(** From attempt [n] on: what is added to the log. *)
Definition within (r : http_request) (more : nat) (err : option error) (l : list sending) : Prop :=
  requests l = repeat r (length (outcomes l)) /\ (1 <= length (outcomes l) <= S more)%nat /\
  (length (waits l) <= more)%nat /\ Forall (fun d => 500 * Millisecond <= d <= 30 * Second) (waits l) /\
  (exists before o, outcomes l = before ++ [o] /\ Forall (fun x => worth_another x = true) before /\ (err = None <-> accepted o = true)).

Lemma attempts_within r more : forall n t l, 1 <= n <= 3 -> Z.of_nat more = 3 - n ->
  exists new, let '(err, (_, l')) := send_attempts more n r (t, l) in l' = l ++ new /\ within r more err new.
Proof.
  induction more as [|more IH]; intros n t l Hn Hmore; cbn [send_attempts]; unfold st_bind at 1, send_attempt, st_bind at 1;
    unfold bot_post at 1; cbn [observed_bot observed]; unfold noting at 1; cbn [fst snd]; destruct (bot_post r t) as [o t1]; unfold st_ret at 1;
    pose proof (retry_after_limit o) as Hlimit; destruct (read_attempt o) as [retryAfter verdict] eqn:Ho; cbn [fst snd] in Hlimit.
  - assert (Hone : forall err, (err = None <-> accepted o = true) -> within r 0 err [Posted r o]).
    { intros err Herr. split_and!; cbn; try done; try lia; try by constructor. exists [], o. by split_and!. }
    exists [Posted r o]. destruct verdict as [[status|err]|]; cbn; (split; [done|]); apply Hone; unfold accepted; rewrite Ho; done.
  - assert (Hone : forall err, (err = None <-> accepted o = true) -> within r (S more) err [Posted r o]).
    { intros err Herr. split_and!; cbn; try done; try lia; try by constructor. exists [], o. by split_and!. }
    destruct verdict as [[status|err]|];
      [exists [Posted r o]; cbn; split; [done|]; apply Hone; unfold accepted; by rewrite Ho| |
       exists [Posted r o]; cbn; split; [done|]; apply Hone; unfold accepted; by rewrite Ho].
    assert (Hworth : worth_another o = true) by (unfold worth_another; by rewrite Ho).
    unfold st_bind at 1. unfold Int63n at 1. cbn [observed_bot observed]. unfold silent, noting at 1. cbn [fst snd].
    pose proof (Hrand (250 * Millisecond) t1 ltac:(unfold Millisecond; lia)) as Hj. destruct (Int63n _ t1) as [j t2]. cbn [fst] in Hj.
    set (delay := if _ <? _ then _ else _).
    assert (Hdelay : 500 * Millisecond <= delay <= 30 * Second).
    { assert (Hs : 1 <= Z.shiftl 1 (n - 1) <= 2).
      { rewrite Z.shiftl_1_l. assert (n = 1 \/ n = 2) as [-> | ->] by lia; cbn; lia. }
      unfold delay, Second in *. destruct (Z.ltb_spec (Z.shiftl 1 (n - 1) * (500 * Millisecond) + j) retryAfter); unfold Millisecond in *; nia. }
    unfold st_bind at 1. unfold bot_wait at 1. cbn [observed_bot observed]. unfold noting at 1. cbn [fst snd].
    destruct (bot_wait delay t2) as [stopped t3]. rewrite app_nil_r. destruct stopped as [stop|].
    + exists [Posted r o; Waited delay]. cbn. rewrite <- app_assoc. split; [done|]. split_and!; cbn; try done; try lia; try by apply Forall_singleton.
      exists [], o. split_and!; try done. unfold accepted. by rewrite Ho.
    + destruct (IH (n + 1) t3 ((l ++ [Posted r o]) ++ [Waited delay]) ltac:(lia) ltac:(lia)) as (new & Hnew).
      destruct (send_attempts more (n + 1) r _) as [err' [t4 l4]]. destruct Hnew as (-> & H1 & H2 & H3 & H4 & before & last & H5 & H6 & H7).
      exists (Posted r o :: Waited delay :: new). split; [by rewrite <- !app_assoc|]. unfold within.
      change (outcomes (_ :: _)) with (o :: outcomes new). change (waits (_ :: _)) with (delay :: waits new).
      change (requests (_ :: _)) with (r :: requests new). cbn [length repeat].
      split_and!; try lia; [f_equal; exact H1|constructor; [exact Hdelay|exact H4]|].
      exists (o :: before), last. split; [exact (f_equal (cons o) H5)|]. split; [by constructor|exact H7].
Qed.
End sender.

(** A reply is sent within bounds.  Sending posts the same request at least once and at
    most three times, again only after an answer that may change (a failed transport, a
    rate limit, an outage), waits between half a second and thirty seconds in between,
    and reports success just when the last request was accepted. *)
Theorem reply_sent_within_bounds {T : Type} `{!Bot T} (s : BotAPISender) (chat : Z) (text : string) (t : T)
    (Hrand : forall n t, 0 < n -> 0 <= (Int63n n t).1 < n) :
  let '(err, (_, log)) := Send (Bot0 := observed) s chat text (t, []) in
  requests log = repeat (message_request s chat text) (length (outcomes log)) /\ (1 <= length (outcomes log) <= 3)%nat /\
  (length (waits log) <= 2)%nat /\ Forall (fun d => 500 * Millisecond <= d <= 30 * Second) (waits log) /\
  exists before o, outcomes log = before ++ [o] /\ Forall (fun x => worth_another x = true) before /\
    (err = None <-> accepted o = true).
Proof.
  unfold Send. destruct (attempts_within Hrand (message_request s chat text) 2 1 t [] ltac:(lia) ltac:(lia)) as (new & Hnew).
  change (Z.to_nat (senderMaxAttempts - 1)) with 2%nat. unfold observed_bot in Hnew.
  destruct (send_attempts 2 1 _ _) as [err [t' log]]. destruct Hnew as [-> Hw]. exact Hw.
Qed.

(** ** A message of the demonstration tenant *)
Module TelegramDemo.
Definition key : string := "0123456789abcdef0123456789ABCDEF".
Definition nonce : string := "twelve bytes".
Definition secret : string := "a webhook secret".

Definition settings : ChannelsRow :=
  mkChannelsRow "t" "https://salon.example" (Some (Aes.Seal key nonce "bot-token" (channelAAD "t"))) (Some nonce)
    (Some (sha256 secret)) true (monday 0 0).

Definition tables : world :=
  let a := StartDemo.accounts in
  idle (set_accounts (mkAccounts (tenant_rows a) [] [] [settings] []) (db empty_salon)).

Definition store : Tenants.Store := Tenants.mkStore true (Some key).
Definition runtime (c : Config) : Runtime := mkRuntime c 4 store.
Definition webhook : MultiTenantWebhook := mkMultiTenant "https://bot.example/" 50000.

Definition hello : TelegramRequest :=
  mkTelegramRequest "POST" "salon-nord" secret
    (Marshal (JObj [("update_id", JNum "7");
       ("message", JObj [("text", JStr "hello"); ("chat", JObj [("id", JNum "42"); ("type", JStr "private")])])]%string)).

Definition forged : TelegramRequest := mkTelegramRequest "POST" "salon-nord" "a guess" (tq_Body hello).

(** Every message is taken; what was posted is kept. *)
#[export] Instance bot : Bot (list http_request) := {|
  bot_post r l := (Answered 200 "" "" None, l ++ [r]);
  bot_wait _ l := (None, l);
  Int63n _ l := (0, l)
|}.

(** The first attempt is told to wait for four seconds. *)
Definition busy : Bot nat := {|
  bot_post _ n :=
    (if (n =? 0)%nat then Answered 429 "" (Marshal (JObj [("parameters", JObj [("retry_after", JNum "4")])]%string)) None
     else Answered 200 "" "" None, S n);
  bot_wait _ n := (None, n);
  Int63n _ n := (0, n)
|}.
Definition sender : BotAPISender := mkSender "https://bot.example/bot/sendMessage" (10 * Second).
End TelegramDemo.

#[local] Existing Instances StartDemo.letters TelegramDemo.bot.

#[local] Abbreviation hello_served c s :=
  (ServeTenant calm Dialogue.jsonb (fun _ => 0) 40 5 Dialogue.around (cached (TelegramDemo.runtime c) ∅) TelegramDemo.webhook
    TelegramDemo.store TelegramDemo.hello s).

(** The same message with a wrong secret. *)
#[local] Abbreviation forged_served c s :=
  (ServeTenant calm Dialogue.jsonb (fun _ => 0) 40 5 Dialogue.around (cached (TelegramDemo.runtime c) ∅) TelegramDemo.webhook
    TelegramDemo.store TelegramDemo.forged s).

Lemma update_answered_once_witness :
  exists c w' post, Load StartDemo.production = Ok c /\
    hello_served c (TelegramDemo.tables, []) = (Some 200, (w', [post])) /\
    (exists row token u m, answered Dialogue.jsonb (fun _ => 0) 40 5 Dialogue.around TelegramDemo.webhook calm TelegramDemo.hello
      row token u m (TelegramDemo.tables, []) (w', [post]) (Some 200)) /\
    exists w2, forged_served c (TelegramDemo.tables, []) = (Some 404, (w2, [])) /\ db w2 = db TelegramDemo.tables.
Proof.
  assert (H : exists c w' post w2, Load StartDemo.production = Ok c /\
    hello_served c (TelegramDemo.tables, []) = (Some 200, (w', [post])) /\
    forged_served c (TelegramDemo.tables, []) = (Some 404, (w2, [])))
    by (eexists _, _, _, _; split; [vm_compute; reflexivity|]; split; vm_compute; reflexivity).
  destruct H as (c & w' & post & w2 & Hl & Hs & Hf). exists c, w', post. split; [exact Hl|]. split; [exact Hs|].
  assert (Hc : scoped_cache ∅) by (intros t b Hb; by rewrite lookup_empty in Hb).
  destruct (update_answered_once Dialogue.jsonb (fun _ => 0) 40 5 Dialogue.around (TelegramDemo.runtime c) ∅ TelegramDemo.store
    TelegramDemo.webhook TelegramDemo.hello calm (TelegramDemo.tables, []) (w', [post]) (Some 200) Hc Hs) as [Hh _].
  destruct (update_answered_once Dialogue.jsonb (fun _ => 0) 40 5 Dialogue.around (TelegramDemo.runtime c) ∅ TelegramDemo.store
    TelegramDemo.webhook TelegramDemo.forged calm (TelegramDemo.tables, []) (w2, []) (Some 404) Hc Hf) as (_ & Hn & _).
  split.
  - inversion Hh; try (match goal with Hb : snd _ = snd _ |- _ => discriminate Hb end). eexists _, _, _, _. eassumption.
  - exists w2. split; [exact Hf|]. apply Hn; [reflexivity|]. intros row token (_ & _ & _ & Hrow & ch & Hch & _ & Hd & _).
    vm_compute in Hrow. injection Hrow as <-. vm_compute in Hch. injection Hch as <-. vm_compute in Hd. discriminate Hd.
Defined.

Lemma reply_sent_within_bounds_witness :
  let '(err, (_, log)) := Send (Bot0 := @observed nat TelegramDemo.busy) TelegramDemo.sender 42 "hello" (0%nat, []) in
  err = None /\ waits log = [4 * Second] /\ (1 <= length (outcomes log) <= 3)%nat.
Proof.
  assert (Hrand : forall (n : Z) (t : nat), 0 < n -> 0 <= (@Int63n nat TelegramDemo.busy n t).1 < n) by (intros n t Hn; cbn; lia).
  pose proof (reply_sent_within_bounds (Bot0 := TelegramDemo.busy) TelegramDemo.sender 42 "hello" 0%nat Hrand) as H.
  destruct (Send _ _ _ _) as [err [n log]] eqn:E. vm_compute in E. injection E as <- <- <-.
  split; [reflexivity|]. split; [reflexivity|]. exact (proj1 (proj2 H)).
Defined.
