(* ===== verification/Api.v ===== *)
(** * The API process: [cmd/api/main.go]

    The edges of the server around its handlers: rate limiting, the separate routes of
    onboarding, console, webhook and widget, the metrics and their endpoint; and what the
    process prepares in the tables before it serves.

    The metrics never make a request fail, and each request reaches at most the handler
    that answers for its path, once its client has been let in. *)

From Stdlib Require Import ZArith Lia Ascii.
From stdpp Require Import base list strings gmap pretty.
From S2P Require Import Prelude State GoTime Float64 Json JsonParse Regexp Url Database Repository OpenRouter Deployment Identity Tenants ProcessConfig Bootstrap Seed Mux Httpx Metrics OperatorConsole OperatorHttp PublicHttp Onboarding Telegram.

#[local] Open Scope Z_scope.

(** ** Requests and answers *)
(** The path as its segments; the address of the peer; when the request came and how long
    it took. *)
Record ServerRequest := mkServerRequest {
  sv_Method : string; sv_Path : list string; sv_RawQuery : string; sv_Host : string; sv_Origin : string;
  sv_Authorization : string; sv_ContentType : string; sv_LastEventID : string; sv_Secret : string;
  sv_ForwardedFor : string; sv_RemoteAddr : string; sv_Body : string; sv_Arrived : Time; sv_Elapsed : Z
}.

Definition path_text (path : list string) : string := String.append "/" (String.concat "/" path).

Inductive ServerReply :=
| FromOnboarding (r : OnboardingReply)
| FromConsole (r : Identity.Response OperatorHttp.Reply)
| FromTenant (r : PublicResponse WidgetReply)
| FromPublic (r : WidgetReply)
| FromWebhook (status : Z)
| FromMetrics (text : string)
| TooManyRequests
| Plain (status : Z).

Definition onboarding_status (r : OnboardingReply) : Z :=
  match r with OProblem s _ | OJSON s _ => s | ONoContent => 204 end.

Definition widget_status (r : WidgetReply) : Z :=
  match r with WProblem s _ | WJSON s _ => s | WStatic _ | WStream _ => 200 end.

Definition reply_status (r : ServerReply) : Z :=
  match r with
  | FromOnboarding r => onboarding_status r
  | FromConsole (Problem s) => s
  | FromConsole (Identity.Answer r) => OperatorHttp.status_of r
  | FromTenant (Refused s) => s
  | FromTenant (Preflight _) => 204
  | FromTenant (Served _ r) | FromPublic r => widget_status r
  | FromWebhook s | Plain s => s
  | FromMetrics _ => 200
  | TooManyRequests => 429
  end.

(** ** The edges *)
(** The limiter, the registry, and what the handlers work on. *)
Record Server (W : Type) := mkServer { limiter : RateLimiter; registry : Registry; application : W }.
Arguments mkServer {W}. Arguments limiter {W}. Arguments registry {W}. Arguments application {W}.

(** [/healthz] and [/readyz], and [GET .../conversations/{id}/events]. *)
Definition isHealthProbe (r : ServerRequest) : bool := is_probe (path_text (sv_Path r)).

Definition isEventStream (r : ServerRequest) : bool :=
  String.eqb (sv_Method r) "GET" &&
  starts_with (string_bytes "/api/v1/demo/conversations/") (string_bytes (path_text (sv_Path r))) &&
  has_suffix "/events" (path_text (sv_Path r)).

Section edges.
Context {W : Type}.

(** A handler answers, or panics. *)
Abbreviation Handler := (ServerRequest -> St (Server W) (option ServerReply)).

Definition serving (h : ServerRequest -> St W (option ServerReply)) : Handler := fun r s =>
  let '(reply, w) := h r (application s) in (reply, mkServer (limiter s) (registry s) w).

(** A change of the metrics; where it panics the request does. *)
Definition measured (f : Registry -> option Registry) : St (Server W) bool := fun s =>
  match f (registry s) with
  | Some x => (true, mkServer (limiter s) x (application s))
  | None => (false, s)
  end.

(** [limiter.Middleware], with the metrics' hook. *)
Definition edge (next : Handler) : Handler := fun r s =>
  let '(ok, l) := admitted (sv_Arrived r) (path_text (sv_Path r)) (sv_ForwardedFor r) (sv_RemoteAddr r) (limiter s) in
  let s := mkServer l (registry s) (application s) in
  if ok then next r s
  else (let+ counted := measured RateLimited in st_ret (if counted then Some TooManyRequests else None)) s.

(** A handler that is given the values of a pattern's wildcards. *)
Definition at_ (method : option string) (path : list (option string)) (sub : bool) (h : list string -> Handler) : Route Handler :=
  mkRoute (mkPattern method path sub) h.

Definition exactly (path : list string) (h : Handler) : Route Handler := at_ None (fixed_path path) false (fun _ => h).

(** [buildStage6HTTPHandler] *)
Definition stage6_routes (unscopedRoutes tenantPublic operatorHandler onboardingHandler : Handler)
    (webhook : string -> Handler) : list (Route Handler) :=
  let onboarding := edge onboardingHandler in
  [exactly ["api"; "v1"; "tenants"] onboarding;
   exactly ["api"; "v1"; "operator"; "login"] onboarding;
   exactly ["api"; "v1"; "operator"; "logout"] onboarding;
   exactly ["api"; "v1"; "operator"; "channels"] onboarding;
   exactly ["api"; "v1"; "operator"; "operators"] onboarding;
   subtree ["api"; "v1"; "operator"; "catalog"] onboarding;
   exactly ["api"; "v1"; "operator"; "staff"] onboarding;
   subtree ["api"; "v1"; "operator"; "staff"] onboarding;
   exactly ["api"; "v1"; "operator"] (edge operatorHandler);
   subtree ["api"; "v1"; "operator"] (edge operatorHandler);
   at_ (Some "POST") [Some "webhooks"; Some "v1"; Some "telegram"; None] false (fun values => edge (webhook (nth 0 values "")));
   subtree ["api"; "v1"; "demo"] (edge tenantPublic);
   subtree ["widget"] (edge tenantPublic);
   subtree [] (edge unscopedRoutes)].

Definition routed (routes : list (Route Handler)) : Handler := fun r s =>
  match route routes (sv_Method r) (sv_Path r) with
  | Handled h => h r s
  | NoRoute => (Some (Plain 404), s)
  | Redirected => (Some (Plain 301), s)
  | WrongMethod => (Some (Plain 405), s)
  end.

(** [HTTP.Middleware]: probes are not counted; what is recorded of a panic is the status
    that nothing was written over. *)
Definition instrumented (next : Handler) : Handler := fun r =>
  if isHealthProbe r then next r
  else
    let+ started := measured request_started in
    if negb started then st_ret None
    else
      let+ reply := next r in
      let status := match reply with Some reply => reply_status reply | None => 200 end in
      let+ ended := measured (request_ended (sv_Method r) status (isEventStream r) (sv_Elapsed r)) in
      st_ret (if ended then reply else None).

(** [guardMetricsToken]: with a token, the header without its scheme is that token. *)
Definition trim_bearer (header : string) : string :=
  let prefix := string_bytes "Bearer " in
  if starts_with prefix (string_bytes header) then of_bytes (drop (length prefix) (string_bytes header)) else header.

Definition guardMetricsToken (token : string) (next : Handler) : Handler := fun r =>
  if bool_decide (token = "") || bool_decide (trim_bearer (sv_Authorization r) = token) then next r
  else st_ret (Some (Plain 401)).

Definition scrape : Handler := fun _ => let+ r := st_get registry in st_ret (Some (FromMetrics (Gather r))).

Definition withMetricsEndpoint (app : Handler) (cfg : ProcessConfig.Metrics) : Handler :=
  if negb (met_Enabled cfg) then app
  else
    routed [at_ (Some "GET") [Some "metrics"] false (fun _ => guardMetricsToken (met_Token cfg) scrape);
            subtree [] app].
End edges.

(** ** The handlers *)
Section api.
Context `{host : !Catalog.Host} `{letters : !Letters} `{entropy : !Entropy} `{hosts : !UrlHosts} `{uuids : !Uuids} {T : Type} `{bot : !Bot T}.
Context (e : Database.env) (jsonb : string -> result string) (column_size : string -> Z) (fuel tries pages polls : nat) (o : outside)
  (ApplicationFor : string -> M Built) (cn : Connection).

#[local] Abbreviation App := (ServerRequest -> St (world * T) (option ServerReply)).

(** A handler over the tables; a failure none of its answers stands for is a 500. *)
Definition over_tables {A} (reply : A -> ServerReply) (m : M A) : St (world * T) (option ServerReply) :=
  let+ r := on_db e m in st_ret (Some (match r with Ok a => reply a | Err _ => Plain 500 end)).

Definition bearing (r : ServerRequest) : HttpRequest := Identity.mkRequest (sv_Authorization r) None.

Definition widget_request (r : ServerRequest) : WidgetRequest :=
  mkWidgetRequest (sv_Host r) (sv_Origin r) (sv_Method r) (sv_Path r) (sv_RawQuery r) (sv_Authorization r)
    (sv_ContentType r) (sv_LastEventID r) (sv_Body r).

Definition onboardingHandler (ts : Tenants.Store) (ids : Identity.Store) : App := fun r =>
  over_tables FromOnboarding
    (ServeOnboarding ts ids (mkOnboarding (bearing r) (sv_Method r) (sv_Path r) (sv_ContentType r) (sv_Body r))).

Definition operatorHandler (ids : Identity.Store) (console : MultiTenantPostgreSQL) (now : nat -> Time) : App := fun r =>
  over_tables FromConsole
    (ServeOperator (multi_tenant pages console) now (Some (ValidateSession ids))
       (mkOperatorRequest (bearing r) (sv_Method r) (sv_Path r) (sv_RawQuery r) (sv_Body r))).

Definition publicApplication : applicationService :=
  tenantApplicationProxy jsonb column_size fuel tries o ApplicationFor.

(** [NewMultiTenant] without a tenant, and behind the boundary that resolves it. *)
Definition publicRoutes : App := fun r =>
  over_tables FromPublic (serve_widget publicApplication cn None polls (widget_request r)).

Definition tenantPublic (ts : Tenants.Store) (hostSuffix : string) : App := fun r =>
  over_tables FromTenant
    (public_widget jsonb column_size fuel tries o ApplicationFor ts hostSuffix cn polls (widget_request r)).

Definition telegramWebhook (ts : Tenants.Store) (h : MultiTenantWebhook) (slug : string) : App := fun r =>
  let+ status := ServeTenant e jsonb column_size fuel tries o ApplicationFor h ts
                   (mkTelegramRequest (sv_Method r) slug (sv_Secret r) (sv_Body r)) in
  st_ret (option_map FromWebhook status).

(** What the process has built when it begins to serve. *)
Record Parts := mkParts {
  pa_tenants : Tenants.Store; pa_identities : Identity.Store; pa_console : MultiTenantPostgreSQL;
  pa_webhook : MultiTenantWebhook
}.

(** The server's handler, with the console's clock. *)
Definition handler (cfg : ProcessConfig.Config) (p : Parts) (now : nat -> Time)
    : ServerRequest -> St (Server (world * T)) (option ServerReply) :=
  withMetricsEndpoint
    (instrumented (routed (stage6_routes (serving publicRoutes)
       (serving (tenantPublic (pa_tenants p) (HostSuffix (cfg_Tenancy cfg))))
       (serving (operatorHandler (pa_identities p) (pa_console p) now))
       (serving (onboardingHandler (pa_tenants p) (pa_identities p)))
       (fun slug => serving (telegramWebhook (pa_tenants p) (pa_webhook p) slug)))))
    (cfg_Metrics cfg).
End api.

(** ** Before it serves *)
Section start.
Context `{host : !Catalog.Host} `{letters : !Letters} `{entropy : !Entropy} `{hosts : !UrlHosts}.

Definition legacyComposeDemoWidgetOrigin : string := "http://salon-nord.localhost:8080".

Definition when (b : bool) (m : M unit) : M unit := if b then m else ret tt.

(** The demonstration tenant and its catalogue, after the migrations. *)
Definition seed_demo (cfg : ProcessConfig.Config) : M unit :=
  let t := cfg_Tenant cfg in
  when (DemoMode cfg)
    (let* _ := EnsureFixedTenant (mkDemoTenant (ten_ID t) (ten_Slug t) (ten_Name t) (ten_Timezone t) (ten_Currency t)) in
     SeedCatalog (ten_ID t) (ten_Currency t)).

Definition legacy_input (cfg : ProcessConfig.Config) (b : LegacyTenantBootstrap) : LegacyBootstrapInput :=
  let tg := cfg_Telegram cfg in
  Tenants.mkLegacy (leg_TenantID b) (leg_TenantSlug b) (leg_WidgetOrigin b)
    (mkOwner (leg_OwnerEmail b) (leg_OwnerDisplayName b) (leg_OwnerPassword b))
    (mkChannels "" (Enabled tg) (tg_BotToken tg) (tg_WebhookSecret tg)).

Definition adopt_legacy (cfg : ProcessConfig.Config) (ts : Tenants.Store) (b : LegacyTenantBootstrap) : M unit :=
  when (leg_Enabled b)
    (wrap "bootstrap legacy Stage 6 tenant" (let* _ := BootstrapLegacyTenant ts (legacy_input cfg b) in ret tt)).

(** The demonstration's origin, unless another one was set, and its owner. *)
Definition prepare_demo (cfg : ProcessConfig.Config) (ts : Tenants.Store) (ids : Identity.Store) : M unit :=
  let tenant := ten_ID (cfg_Tenant cfg) in
  let demo := cfg_Demo cfg in
  when (DemoMode cfg)
    (let* channels := GetChannelConfig ts tenant in
     let shouldSetWidgetOrigin :=
       bool_decide (Tenants.WidgetOrigin channels = "") ||
       (String.eqb (Tenants.WidgetOrigin channels) legacyComposeDemoWidgetOrigin &&
        negb (String.eqb (ProcessConfig.WidgetOrigin demo) legacyComposeDemoWidgetOrigin)) in
     let* _ := when shouldSetWidgetOrigin
       (UpdateChannels ts tenant (mkChannels (ProcessConfig.WidgetOrigin demo) false "" "")) in
     let* _ := EnsureOperator ids
       (mkOperatorInput tenant (OwnerEmail demo) "Demo owner" (OwnerPassword demo) RoleOwner) in
     ret tt).

(** [run], from the configuration to the parts of the server; [wall] is the clock of the
    sessions. *)
Definition prepare (env_ : Environ) (cfg : ProcessConfig.Config) (wall : nat -> Time) : M Parts :=
  let* _ := seed_demo cfg in
  let* ts := lift (Tenants.NewStore true (ChannelEncryptionKey (cfg_Tenancy cfg))) in
  let* ids := lift (Identity.NewStore true (SessionTTL (cfg_Operator cfg)) wall) in
  let* legacy := lift (LoadLegacyTenantBootstrap env_ (DemoMode cfg)) in
  let* _ := adopt_legacy cfg ts legacy in
  let* _ := prepare_demo cfg ts ids in
  let* console := lift (NewMultiTenantPostgreSQL true wall) in
  let* webhook := lift (NewMultiTenantWebhook true (APIBaseURL (cfg_Telegram cfg))
                          (ag_ConversationTokenBudget (cfg_Agent cfg))) in
  ret (mkParts ts ids console webhook).
End start.

(** The limiter and the registry of a new server; a family registered twice would panic. *)
Definition new_server {W} (cfg : ProcessConfig.Config) (version go_version : string) (now : Time) (w : W)
    : option (Server W) :=
  let h := cfg_HTTP cfg in
  let l := SetTrustForwardedFor (TrustForwardedFor h) (NewRateLimiter (RateLimitPerMinute h) (RateLimitBurst h)) in
  r ← RegisterProcessInfo version go_version now NewRegistry;
  r ← NewHTTP r;
  Some (mkServer l r w).

(** [healthcheck]: the answer of the address, or why there is none. *)
Definition healthcheck (answer : result Z) : option error :=
  match answer with
  | Err err => Some (ErrWrap "healthcheck" err)
  | Ok status => if status =? 200 then None else Some (ErrText (cat ["healthcheck: HTTP "; pretty status]))
  end.

(** * The edges of the server *)

#[local] Open Scope Z_scope.

(** ** The families a server has *)
Definition has (name : string) (P : Family -> Prop) (r : Registry) : Prop :=
  exists c, List.find (named name) r = Some c /\ P (cl_family c).

Definition is_counter (f : Family) : Prop := exists v, f = CounterFamily v.
Definition is_gauge (f : Family) : Prop := exists v, f = GaugeFamily v.
Definition is_counters (n : nat) (f : Family) : Prop := exists labels m, f = CounterVec labels m /\ length labels = n.
Definition is_histograms (n : nat) (f : Family) : Prop := exists labels upper m, f = HistogramVec labels upper m /\ length labels = n.

Definition equipped (r : Registry) : Prop :=
  has "kontor_http_requests_total" (is_counters 2) r /\ has "kontor_http_request_duration_seconds" (is_histograms 1) r /\
  has "kontor_http_requests_in_flight" is_gauge r /\ has "kontor_http_rate_limited_total" is_counter r.

Lemma update_has name (P : Family -> Prop) g r :
  has name P r -> (forall f, P f -> exists f', g f = Some f' /\ P f') ->
  exists r', Metrics.update name g r = Some r' /\ forall other Q, (other = name -> Q = P) -> has other Q r -> has other Q r'.
Proof.
  intros (c & Hc & Hp) Hg. induction r as [|x r IH]; [done|]. cbn [Metrics.update List.find] in *.
  destruct (named name x) eqn:Hn.
  - injection Hc as ->. destruct (Hg _ Hp) as (f' & Hf & Hf'). rewrite Hf. eexists. split; [reflexivity|].
    intros other Q HQ (c' & Hc' & Hq). unfold has. cbn [List.find] in *. unfold named in *. cbn [cl_name] in *.
    destruct (String.eqb_spec (cl_name c) other) as [<-|]; [|by exists c'].
    eexists. split; [reflexivity|]. cbn [cl_family]. apply String.eqb_eq in Hn. by rewrite HQ.
  - destruct (IH Hc) as (r' & Hr & Hk). rewrite Hr. eexists. split; [reflexivity|].
    intros other Q HQ (c' & Hc' & Hq). unfold has. cbn [List.find] in *.
    destruct (named other x) eqn:Ho; [by exists c'|]. apply (Hk other Q HQ). by exists c'.
Qed.

Lemma counter_inc_Some v : exists x, counter_inc v = Some x.
Proof. unfold counter_inc, counter_add. replace (flt (float_of 1) zero) with false by (vm_compute; reflexivity). by eexists. Qed.

Lemma With_Some {A} labels values (fresh : A) f children :
  length values = length labels -> (forall x, exists y, f x = Some y) -> exists m, With labels values fresh f children = Some m.
Proof.
  intros Hl Hf. unfold With. rewrite Hl, Nat.eqb_refl. cbn [negb].
  destruct (default (values, fresh) (children !! child_key values)) as [kept child]. destruct (Hf child) as [y ->]. by eexists.
Qed.

Definition kinds : list (string * (Family -> Prop)) :=
  [("kontor_http_requests_total", is_counters 2); ("kontor_http_request_duration_seconds", is_histograms 1);
   ("kontor_http_requests_in_flight", is_gauge); ("kontor_http_rate_limited_total", is_counter)]%string.

#[local] Ltac kind := repeat constructor; simpl; by intros [=].

Lemma equipped_kept name P g r :
  equipped r -> has name P r -> (forall f, P f -> exists f', g f = Some f' /\ P f') ->
  Forall (fun p => p.1 = name -> p.2 = P) kinds ->
  exists r', Metrics.update name g r = Some r' /\ equipped r'.
Proof.
  intros (H1 & H2 & H3 & H4) Hh Hg Hq. destruct (update_has name P g r Hh Hg) as (r' & Hr & Hk). exists r'. split; [done|].
  repeat (apply Forall_cons in Hq as [? Hq]). split_and!; (apply Hk; [cbn in *; auto|done]).
Qed.

Lemma RateLimited_equipped r : equipped r -> exists r', RateLimited r = Some r' /\ equipped r'.
Proof.
  intros He. eapply (equipped_kept _ is_counter); [done|apply He| |kind].
  intros f [v ->]. cbn. destruct (counter_inc_Some v) as [x ->]. eexists. split; [done|by eexists].
Qed.

Lemma started_equipped r : equipped r -> exists r', request_started r = Some r' /\ equipped r'.
Proof.
  intros He. eapply (equipped_kept _ is_gauge); [done|apply He| |kind].
  intros f [v ->]. cbn. eexists. split; [done|by eexists].
Qed.

Lemma ended_equipped method status longLived elapsed r :
  equipped r -> exists r', request_ended method status longLived elapsed r = Some r' /\ equipped r'.
Proof.
  intros He. unfold request_ended.
  destruct (equipped_kept "kontor_http_requests_in_flight" is_gauge dec r) as (r1 & -> & He1); [done|apply He| |kind|].
  { intros f [v ->]. cbn. eexists. split; [done|by eexists]. }
  cbn [mbind option_bind].
  destruct (equipped_kept "kontor_http_requests_total" (is_counters 2) (inc_with [method; pretty status]) r1) as (r2 & -> & He2);
    [done|apply He1| |kind|].
  { intros f (labels & m & -> & Hl). cbn [inc_with].
    destruct (With_Some labels [method; pretty status] zero counter_inc m (eq_sym Hl) counter_inc_Some) as [m' ->].
    eexists. split; [reflexivity|]. by eexists _, _. }
  cbn [mbind option_bind]. destruct longLived; [by exists r2|].
  eapply (equipped_kept _ (is_histograms 1)); [done|apply He2| |kind].
  intros f (labels & upper & m & -> & Hl). cbn [observe_with].
  destruct (With_Some labels [method] (new_histogram upper) (fun h => Some (Observe upper (Seconds elapsed) h)) m (eq_sym Hl)) as [m' ->];
    [by eexists|]. eexists. split; [reflexivity|]. by eexists _, _, _.
Qed.

(** ** The first route that matches *)
Lemma route_first {A} (routes : list (Route A)) method path h :
  route routes method path = Handled h ->
  exists before rt after values, routes = before ++ rt :: after /\
    method_ok (pt_method (rt_pattern rt)) method = true /\ h = rt_handler rt values /\
    path_values (pt_path (rt_pattern rt)) (pt_subtree (rt_pattern rt)) path = Some values /\
    Forall (fun rt => method_ok (pt_method (rt_pattern rt)) method = true ->
              path_values (pt_path (rt_pattern rt)) (pt_subtree (rt_pattern rt)) path = None) before.
Proof.
  unfold route. set (ok := fun p : Route A * list string => method_ok (pt_method (rt_pattern p.1)) method).
  intros H. assert (exists p, List.find ok (omap (path_match path) routes) = Some p /\ h = rt_handler p.1 p.2) as ([rt values] & Hf & ->).
  { destruct (List.find ok _) as [[rt values]|]; destruct (_ && _); try done; [by injection H as <-; eexists|].
    by destruct (omap _ _). }
  clear H. induction routes as [|x routes IH]; [done|].
  change (omap (path_match path) (x :: routes)) with
    (match path_match path x with Some p => p :: omap (path_match path) routes | None => omap (path_match path) routes end) in Hf.
  unfold path_match at 1 in Hf. destruct (path_values _ _ path) as [v|] eqn:Ev; cbn [option_map] in Hf.
  - cbn [List.find] in Hf. destruct (ok (x, v)) eqn:Eo.
    + injection Hf as <- <-. exists [], x, routes, v. split_and!; done.
    + destruct (IH Hf) as (before & rt' & after & values' & -> & H1 & H2 & H3 & H4).
      exists (x :: before), rt', after, values'. split_and!; [done|done|done|done|]. constructor; [|done].
      unfold ok in Eo. cbn [fst] in Eo. by rewrite Eo.
  - destruct (IH Hf) as (before & rt' & after & values' & -> & H1 & H2 & H3 & H4).
    exists (x :: before), rt', after, values'. split_and!; [done|done|done|done|]. by constructor.
Qed.

Lemma route_index {A} (routes : list (Route A)) method path h :
  route routes method path = Handled h ->
  exists (i : nat) rt values, routes !! i = Some rt /\
    method_ok (pt_method (rt_pattern rt)) method = true /\ h = rt_handler rt values /\
    path_values (pt_path (rt_pattern rt)) (pt_subtree (rt_pattern rt)) path = Some values /\
    forall (j : nat) x, (j < i)%nat -> routes !! j = Some x -> method_ok (pt_method (rt_pattern x)) method = true ->
      path_values (pt_path (rt_pattern x)) (pt_subtree (rt_pattern x)) path = None.
Proof.
  intros (before & rt & after & values & -> & H1 & H2 & H3 & H4)%route_first.
  exists (length before), rt, values. split; [by apply list_lookup_middle|]. split_and!; [done|done|done|].
  intros j x Hj Hx Hm. rewrite lookup_app_l in Hx by done. rewrite Forall_forall in H4.
  apply (H4 x); [by eapply list_elem_of_lookup_2|done].
Qed.

(** ** Paths *)
Definition beneath (prefix path : list string) : Prop := exists x rest, path = prefix ++ x :: rest.

Lemma path_values_beneath prefix path :
  match path_values (fixed_path prefix) true path with Some _ => beneath prefix path | None => ~ beneath prefix path end.
Proof.
  revert path. induction prefix as [|s prefix IH]; intros [|y path]; cbn.
  - by intros (x & rest & ?).
  - by exists y, path.
  - by intros (x & rest & ?).
  - destruct (String.eqb_spec s y) as [->|Hne].
    + specialize (IH path). fold (fixed_path prefix). destruct (path_values (fixed_path prefix) true path).
      * destruct IH as (x & rest & ->). by exists x, rest.
      * intros (x & rest & [= ->]). apply IH. by exists x, rest.
    + intros (x & rest & [= ? ?]). done.
Qed.

Lemma beneath_Some prefix path values : path_values (fixed_path prefix) true path = Some values -> beneath prefix path.
Proof. intros H. pose proof (path_values_beneath prefix path) as Hb. by rewrite H in Hb. Qed.

Lemma beneath_None prefix path : path_values (fixed_path prefix) true path = None -> ~ beneath prefix path.
Proof. intros H. pose proof (path_values_beneath prefix path) as Hb. by rewrite H in Hb. Qed.

(** ** One request *)
Section requests.
Context {W : Type}.

#[local] Abbreviation App := (ServerRequest -> St W (option ServerReply)).

(** The handler that answers for a request. *)
Inductive Answers (unscoped tenant operator onboarding : App) (webhook : string -> App) (r : ServerRequest) : App -> Prop :=
| Onboarding :
    sv_Path r = ["api"; "v1"; "tenants"]%string \/ beneath ["api"; "v1"; "operator"] (sv_Path r) ->
    Answers unscoped tenant operator onboarding webhook r onboarding
| Console :
    sv_Path r = ["api"; "v1"; "operator"]%string \/ beneath ["api"; "v1"; "operator"] (sv_Path r) ->
    ~ beneath ["api"; "v1"; "operator"; "catalog"] (sv_Path r) -> ~ beneath ["api"; "v1"; "operator"; "staff"] (sv_Path r) ->
    Answers unscoped tenant operator onboarding webhook r operator
| Webhook slug :
    sv_Method r = "POST"%string -> sv_Path r = ["webhooks"; "v1"; "telegram"; slug]%string -> slug <> ""%string ->
    Answers unscoped tenant operator onboarding webhook r (webhook slug)
| Widget :
    beneath ["api"; "v1"; "demo"] (sv_Path r) \/ beneath ["widget"] (sv_Path r) ->
    Answers unscoped tenant operator onboarding webhook r tenant
| Unscoped :
    ~ beneath ["api"; "v1"; "demo"] (sv_Path r) -> ~ beneath ["widget"] (sv_Path r) ->
    ~ beneath ["api"; "v1"; "operator"] (sv_Path r) ->
    Answers unscoped tenant operator onboarding webhook r unscoped.

Definition gate (r : ServerRequest) (l : RateLimiter) : bool * RateLimiter :=
  admitted (sv_Arrived r) (path_text (sv_Path r)) (sv_ForwardedFor r) (sv_RemoteAddr r) l.

(** No handler of the application ran. *)
Definition turned_away (r : ServerRequest) (s s' : Server W) (reply : option ServerReply) : Prop :=
  application s' = application s /\
  (limiter s' = limiter s /\ (exists status, reply = Some (Plain status)) \/
   (gate r (limiter s)).1 = false /\ limiter s' = (gate r (limiter s)).2 /\ reply = Some TooManyRequests).

(** One handler ran, behind the limiter, and answered. *)
Definition let_through (answers : App -> Prop) (r : ServerRequest) (s s' : Server W) (reply : option ServerReply) : Prop :=
  exists h, answers h /\ (gate r (limiter s)).1 = true /\ limiter s' = (gate r (limiter s)).2 /\
    h r (application s) = (reply, application s').

Definition treated (answers : App -> Prop) (r : ServerRequest) (s : Server W) (run : option ServerReply * Server W) : Prop :=
  equipped (registry run.2) /\ (turned_away r s run.2 run.1 \/ let_through answers r s run.2 run.1).

Lemma edge_treated (answers : App -> Prop) h r s :
  equipped (registry s) -> answers h -> treated answers r s (edge (serving h) r s).
Proof.
  intros He Ha. unfold edge. fold (gate r (limiter s)). destruct (gate r (limiter s)) as [[] l] eqn:Hg.
  - unfold serving. cbn [application limiter registry]. destruct (h r (application s)) as [reply w] eqn:Hh.
    split; [done|]. right. exists h. rewrite Hg. by cbn.
  - destruct (RateLimited_equipped (registry s) He) as (x & Hx & Hx').
    unfold st_bind, measured. cbn [registry limiter application]. rewrite Hx. cbn.
    split; [done|]. left. split; [done|]. right. by rewrite Hg.
Qed.

Lemma routed_treated unscoped tenant operator onboarding webhook r s :
  equipped (registry s) ->
  treated (Answers unscoped tenant operator onboarding webhook r) r s
    (routed (stage6_routes (serving unscoped) (serving tenant) (serving operator) (serving onboarding)
               (fun slug => serving (webhook slug))) r s).
Proof.
  intros He. assert (Hplain : forall n, treated (Answers unscoped tenant operator onboarding webhook r) r s (Some (Plain n), s)).
  { intros n. split; [done|]. left. split; [done|]. left. split; [done|]. by exists n. }
  unfold routed. destruct (route _ _ _) as [h| | |] eqn:Hr; try apply Hplain.
  apply route_index in Hr as (i & rt & values & Hi & Hm & -> & Hp & Hbefore). unfold stage6_routes in Hi, Hbefore.
  assert (Hno : forall (j : nat) prefix (h : ServerRequest -> St (Server W) (option ServerReply)), (j < i)%nat ->
    stage6_routes (serving unscoped) (serving tenant) (serving operator) (serving onboarding)
               (fun slug => serving (webhook slug)) !! j = Some (subtree prefix h) -> ~ beneath prefix (sv_Path r)).
  { intros j prefix h Hj Hx. apply beneath_None. exact (Hbefore j _ Hj Hx eq_refl). }
  clear Hbefore. destruct i as [|[|[|[|[|[|[|[|[|[|[|[|[|[|i]]]]]]]]]]]]]]; [..|done].
  all: injection Hi as <-; cbn [rt_handler exactly at_ subtree rt_pattern pt_path pt_subtree pt_method] in *.
  all: try (apply path_values_fixed in Hp; apply edge_treated; [done|]).
  all: try (apply beneath_Some in Hp; apply edge_treated; [done|]).
  all: try (apply Onboarding; rewrite ?Hp; first [by left|by right; eexists _, _|right; destruct Hp as (x & rest & ->); by eexists _, _]).
  - apply Console; [by left|by eapply (Hno 5%nat); [lia|]|by eapply (Hno 7%nat); [lia|]].
  - apply Console; [by right|by eapply (Hno 5%nat); [lia|]|by eapply (Hno 7%nat); [lia|]].
  - apply edge_treated; [done|]. destruct (sv_Path r) as [|a [|b [|c [|slug [|]]]]] eqn:Hpath; try done; cbn [path_values] in Hp;
      repeat (match type of Hp with context [String.eqb ?x ?y] => destruct (String.eqb_spec x y) as [<-|] end; try done);
      case_bool_decide as Hs; try done. injection Hp as <-. apply Webhook; [by apply method_exact in Hm|done|done].
  - apply Widget. by left.
  - apply Widget. by right.
  - apply Unscoped; [by eapply (Hno 11%nat); [lia|]|by eapply (Hno 12%nat); [lia|]|by eapply (Hno 9%nat); [lia|]].
Qed.

(** Instrumentation changes the registry alone. *)
Lemma instrumented_treated (answers : App -> Prop) next r s :
  equipped (registry s) ->
  (forall s, equipped (registry s) -> treated answers r s (next r s)) ->
  treated answers r s (instrumented next r s).
Proof.
  intros He Hn. unfold instrumented. destruct (isHealthProbe r); [by apply Hn|].
  destruct (started_equipped (registry s) He) as (x & Hx & Hex). unfold st_bind, measured, st_ret. rewrite Hx. cbn [negb].
  set (s1 := mkServer (limiter s) x (application s)). specialize (Hn s1 Hex). destruct (next r s1) as [reply s2] eqn:Hs2.
  destruct Hn as [He2 Hn]. cbn [fst snd] in *.
  destruct (ended_equipped (sv_Method r) (match reply with Some reply => reply_status reply | None => 200 end)
              (isEventStream r) (sv_Elapsed r) (registry s2) He2) as (y & -> & Hey).
  split; [done|]. exact Hn.
Qed.

(** [/metrics]: answered aside, to who shows the token. *)
Definition scraped (cfg : ProcessConfig.Metrics) (r : ServerRequest) (s s' : Server W) (reply : option ServerReply) : Prop :=
  s' = s /\ met_Enabled cfg = true /\ sv_Path r = ["metrics"]%string /\
  (reply = Some (Plain 401) \/
   reply = Some (FromMetrics (Gather (registry s))) /\
   (met_Token cfg = ""%string \/ trim_bearer (sv_Authorization r) = met_Token cfg)).

Lemma endpoint_treated (answers : App -> Prop) app cfg r s :
  equipped (registry s) ->
  (forall s, equipped (registry s) -> treated answers r s (app r s)) ->
  let run := withMetricsEndpoint app cfg r s in
  treated answers r s run \/ scraped cfg r s run.2 run.1.
Proof.
  intros He Ha. unfold withMetricsEndpoint. destruct (met_Enabled cfg) eqn:Hen; cbn [negb]; [|left; by apply Ha].
  unfold routed. destruct (route _ _ _) as [h| | |] eqn:Hr.
  2-4: left; split; [done|]; left; split; [done|]; left; split; [done|]; by eexists.
  apply route_index in Hr as (i & rt & values & Hi & Hm & -> & Hp & _).
  destruct i as [|[|i]]; [| |done]; injection Hi as <-; cbn [rt_handler at_ subtree rt_pattern pt_path pt_subtree] in *; [|left; by apply Ha].
  right. change [Some "metrics"%string] with (fixed_path ["metrics"%string]) in Hp. apply path_values_fixed in Hp.
  unfold guardMetricsToken. destruct (bool_decide (met_Token cfg = "") || _) eqn:Ht; (split; [done|]); (split; [done|]); (split; [done|]).
  - right. split; [done|]. apply orb_true_iff in Ht as [Ht%bool_decide_eq_true_1|Ht%bool_decide_eq_true_1]; [by left|by right].
  - by left.
Qed.

Lemma gate_buckets r l other :
  other <> clientKey l (sv_ForwardedFor r) (sv_RemoteAddr r) ->
  buckets (gate r l).2 !! other = buckets l !! other \/
  buckets (gate r l).2 !! other = None /\ exists b, buckets l !! other = Some b /\ 10 * Minute < Sub (sv_Arrived r) (bk_seen b).
Proof. intros Hne. unfold gate, admitted. destruct (is_probe _); [by left|by apply allow_other]. Qed.
End requests.

(** C7. A request to the server is turned away without a handler of the application, by
    the routes or because its client has no token left; or its client was let in and
    exactly the handler that answers for its path has run, once, so that nothing beneath
    the widget's or the console's address reaches a handler without its tenant or session;
    or it asked for the metrics and showed their token.  The metrics never make it fail,
    only its own client's bucket and buckets idle for ten minutes change, and a probe takes
    no token. *)
Theorem requests_pass_their_edge {W : Type}
    (unscoped tenant operator onboarding : ServerRequest -> St W (option ServerReply))
    (webhook : string -> ServerRequest -> St W (option ServerReply)) (cfg : ProcessConfig.Metrics)
    (r : ServerRequest) (s s' : Server W) (reply : option ServerReply) (Hequipped : equipped (registry s))
    (Hserved : withMetricsEndpoint (instrumented (routed (stage6_routes (serving unscoped) (serving tenant)
       (serving operator) (serving onboarding) (fun slug => serving (webhook slug))))) cfg r s = (reply, s')) :
  equipped (registry s') /\
  (turned_away r s s' reply \/
   let_through (Answers unscoped tenant operator onboarding webhook r) r s s' reply \/
   scraped cfg r s s' reply) /\
  (isHealthProbe r = true -> limiter s' = limiter s) /\
  (forall other, other <> clientKey (limiter s) (sv_ForwardedFor r) (sv_RemoteAddr r) ->
     buckets (limiter s') !! other = buckets (limiter s) !! other \/
     buckets (limiter s') !! other = None /\
     exists b, buckets (limiter s) !! other = Some b /\ 10 * Minute < Sub (sv_Arrived r) (bk_seen b)).
Proof.
  pose proof (endpoint_treated (Answers unscoped tenant operator onboarding webhook r)
    (instrumented (routed (stage6_routes (serving unscoped) (serving tenant) (serving operator) (serving onboarding)
       (fun slug => serving (webhook slug))))) cfg r s Hequipped) as H.
  rewrite Hserved in H. cbv zeta in H. unfold treated at 2 in H. cbn [fst snd] in H.
  assert (Hlim : forall l', l' = limiter s \/ l' = (gate r (limiter s)).2 ->
    (isHealthProbe r = true -> l' = limiter s) /\
    (forall other, other <> clientKey (limiter s) (sv_ForwardedFor r) (sv_RemoteAddr r) ->
       buckets l' !! other = buckets (limiter s) !! other \/
       buckets l' !! other = None /\
       exists b, buckets (limiter s) !! other = Some b /\ 10 * Minute < Sub (sv_Arrived r) (bk_seen b))).
  { intros l' [->| ->]; (split; [|intros other Hne]); [done|by left| |by apply gate_buckets].
    unfold isHealthProbe, gate, admitted. by intros ->. }
  destruct H as [[He [Ha|Hl]]|Hs].
  - intros s2 He2. apply instrumented_treated; [done|]. intros s3 He3. by apply routed_treated.
  - split; [done|]. split; [by left|]. apply Hlim. destruct Ha as (_ & [(-> & _)|(_ & -> & _)]); auto.
  - split; [done|]. split; [by right; left|]. apply Hlim. destruct Hl as (h & _ & _ & -> & _). auto.
  - destruct Hs as (-> & Hs). split; [done|]. split; [right; right; by split|]. apply Hlim. by left.
Qed.

(** ** A server that has just started *)
Lemma new_server_equipped {W} cfg version go_version now (w : W) :
  exists s, new_server cfg version go_version now w = Some s /\ equipped (registry s).
Proof.
  unfold new_server, RegisterProcessInfo. set (v := if bool_decide (version = "") then "dev"%string else version).
  unfold NewGaugeVec at 1, register at 1. cbn [existsb NewRegistry app mbind option_bind Metrics.update].
  replace (named _ _) with true by (symmetry; apply String.eqb_refl). cbn [cl_family set_with].
  match goal with |- context [With ?a ?b ?c ?f ?m] => destruct (With_Some a b c f m) as [x ->]; [done|by eexists|] end.
  cbn [fmap option_fmap option_map mbind option_bind cl_name cl_help].
  eexists. split; [reflexivity|]. split_and!; (eexists; split; [reflexivity|]).
  - by eexists _, _.
  - by eexists _, _, _.
  - by eexists.
  - by eexists.
Qed.

Module EdgeDemo.
(** Handlers that write down their names; a limit of one request. *)
Definition named_handler (name : string) (_ : ServerRequest) : St (list string) (option ServerReply) :=
  fun l => (Some (FromWebhook 200), l ++ [name]).

Definition server : Server (list string) :=
  mkServer (NewRateLimiter 1 1) (default [] (NewHTTP NewRegistry)) [].

Definition request (path : list string) (client : string) : ServerRequest :=
  mkServerRequest "GET" path "" "salon.kontor.test" "" "Bearer scrape" "" "" "" client "10.0.0.1:80" ""
    (mkTime 1785751200000000000 UTC) Millisecond.

Definition events : list string := ["api"; "v1"; "demo"; "conversations"; "c"; "events"].
End EdgeDemo.
Import EdgeDemo.

Lemma requests_pass_their_edge_witness :
  let serve := withMetricsEndpoint (instrumented (routed (stage6_routes (serving (named_handler "unscoped"))
     (serving (named_handler "tenant")) (serving (named_handler "operator")) (serving (named_handler "onboarding"))
     (fun slug => serving (named_handler slug))))) (mkMetrics true "scrape") in
  let s1 := (serve (request events "a") server).2 in
  application s1 = ["tenant"%string] /\ (serve (request events "a") s1).1 = Some TooManyRequests /\
  application (serve (request ["operator"] "b") s1).2 = ["tenant"; "unscoped"]%string /\
  turned_away (request events "a") s1 (serve (request events "a") s1).2 (Some TooManyRequests).
Proof.
  set (serve := withMetricsEndpoint (instrumented (routed (stage6_routes (serving (named_handler "unscoped"))
     (serving (named_handler "tenant")) (serving (named_handler "operator")) (serving (named_handler "onboarding"))
     (fun slug => serving (named_handler slug))))) (mkMetrics true "scrape")).
  set (s1 := (serve (request events "a") server).2).
  assert (He : equipped (registry server)).
  { split_and!; (eexists; split; [reflexivity|]); [by eexists _, _|by eexists _, _, _|by eexists|by eexists]. }
  assert (He1 : equipped (registry s1)).
  { apply (requests_pass_their_edge (named_handler "unscoped") (named_handler "tenant") (named_handler "operator")
      (named_handler "onboarding") named_handler (mkMetrics true "scrape") (request events "a") server s1
      (serve (request events "a") server).1 He). by rewrite <- surjective_pairing. }
  assert (Hr : (serve (request events "a") s1).1 = Some TooManyRequests) by (vm_compute; reflexivity).
  split; [vm_compute; reflexivity|]. split; [exact Hr|]. split; [vm_compute; reflexivity|].
  destruct (requests_pass_their_edge (named_handler "unscoped") (named_handler "tenant") (named_handler "operator")
      (named_handler "onboarding") named_handler (mkMetrics true "scrape") (request events "a") s1
      (serve (request events "a") s1).2 (Some TooManyRequests) He1) as (_ & [H|[H|H]] & _).
  - rewrite <- Hr. by rewrite <- surjective_pairing.
  - exact H.
  - exfalso. destruct H as (h & _ & Hg & _). assert (Hf : (gate (request events "a") (limiter s1)).1 = false) by (vm_compute; reflexivity).
    rewrite Hf in Hg. discriminate Hg.
  - exfalso. destruct H as (_ & _ & Hp & _). discriminate Hp.
Defined.
