(* ===== verification/PublicProps.v ===== *)
(** * What a customer's request can reach

    Over [PublicHttp]: past the host and the origin, a message, a trace or a stream needs
    the capability of its conversation in the tenant the host names; without one a request
    opens at most a conversation of its own.

    Over [PublicHttp]: the frames of a stream are the events of its conversation after the
    cursor, in the order of their identifiers and without a gap, whatever other
    transactions commit in between; all that the last poll found has been sent; a client
    that comes back with the last identifier it read goes on where it was; and a stream
    comes to an end. *)

From Stdlib Require Import ZArith Lia Ascii.
From stdpp Require Import base list strings gmap sorting.
From S2P Require Import Prelude State GoTime Json Database DatabaseFacts Catalog Conversations Service Deployment Passwords Identity Tenants ProcessConfig SalonDemo DeploymentProps Bootstrap PublicHttp.

#[local] Open Scope Z_scope.

(** ** The events of a conversation *)
Definition id_before (x y : TurnEventRow) : Prop := te_id x < te_id y.

Definition log_of (d : DB) : list TurnEventRow := conversation_events (turns d).

Definition mine (tenant conversation : string) (x : TurnEventRow) : bool :=
  String.eqb (te_tenant x) tenant && String.eqb (te_conversation x) conversation.

Definition events_of (tenant conversation : string) (d : DB) : list TurnEventRow :=
  List.filter (mine tenant conversation) (log_of d).

(** Within one conversation identifiers rise in the order of the rows: its turns run one
    after the other under its lock, and an identity column counts up.  Of the events of
    other conversations nothing is assumed. *)
Definition ordered (tenant conversation : string) (d : DB) : Prop := StronglySorted id_before (events_of tenant conversation d).

(** Other transactions append to the events of the conversation, or leave them. *)
Definition appends (tenant conversation : string) (d d' : DB) : Prop :=
  ordered tenant conversation d' /\ exists more, events_of tenant conversation d' = events_of tenant conversation d ++ more.

Definition pending (after : Z) (l : list TurnEventRow) : list TurnEventRow := List.filter (fun x => after <? te_id x) l.

Lemma sorted_filter {A} (R : A -> A -> Prop) p (l : list A) : StronglySorted R l -> StronglySorted R (List.filter p l).
Proof.
  induction 1 as [|x l Hl IH Hx]; simpl; [constructor|]. destruct (p x); [|done]. constructor; [done|].
  apply Forall_forall. intros y [Hy _]%elem_of_filter_bool. by apply (proj1 (Forall_forall _ _) Hx).
Qed.

Lemma not_less_id x y : not_less (fun a b => te_id a <? te_id b) x y <-> te_id x <= te_id y.
Proof. unfold not_less. by rewrite Z.ltb_ge. Qed.

#[local] Instance id_total : Total (not_less (fun a b => te_id a <? te_id b)).
Proof. intros x y. rewrite !not_less_id. lia. Qed.

#[local] Instance id_trans : Transitive (not_less (fun a b => te_id a <? te_id b)).
Proof. intros x y z. rewrite !not_less_id. lia. Qed.

Lemma id_unique l x y : StronglySorted id_before l -> x ∈ l -> y ∈ l -> te_id x = te_id y -> x = y.
Proof.
  induction 1 as [|z l _ IH Hz]; [by rewrite elem_of_nil|].
  pose proof (proj1 (Forall_forall _ _) Hz) as Hlt. unfold id_before in Hlt. rewrite !elem_of_cons.
  intros [->|Hx] [->|Hy] E; [done| | |by apply IH].
  - specialize (Hlt _ Hy). lia.
  - specialize (Hlt _ Hx). lia.
Qed.

Lemma sort_by_id l : StronglySorted id_before l -> sort_slice (fun a b => te_id a <? te_id b) l = l.
Proof.
  intros Hl. eapply (StronglySorted_unique_strong (not_less (fun a b => te_id a <? te_id b))).
  - intros x y Hx Hy Hxy Hyx. rewrite elem_of_sort_slice in Hx. rewrite not_less_id in Hxy, Hyx.
    apply (id_unique l); try done. lia.
  - apply sort_slice_sorted; apply _.
  - eapply StronglySorted_impl; [|exact Hl]. intros x y. unfold id_before. rewrite not_less_id. lia.
  - apply sort_slice_perm.
Qed.

Lemma filter_both {A} (p q : A -> bool) l : List.filter (fun x => p x && q x) l = List.filter q (List.filter p l).
Proof. induction l as [|x l IH]; [done|]. simpl. destruct (p x) eqn:Hp, (q x) eqn:Hq; simpl; rewrite ?Hq; by rewrite IH. Qed.

Lemma stream_after_pending tenant conversation after d :
  ordered tenant conversation d -> stream_after tenant conversation after d = pending after (events_of tenant conversation d).
Proof.
  intros Hd. unfold stream_after, pending, events_of. rewrite <- filter_both. apply sort_by_id.
  change (StronglySorted id_before (List.filter (fun x => mine tenant conversation x && (after <? te_id x)) (log_of d))).
  rewrite filter_both. apply sorted_filter, Hd.
Qed.

Lemma pending_sorted after l : StronglySorted id_before l -> StronglySorted id_before (pending after l).
Proof. apply sorted_filter. Qed.

(** What comes later in a sorted list is above, what comes earlier is not. *)
Lemma pending_pivot read x rest :
  StronglySorted id_before (read ++ x :: rest) -> pending (te_id x) (read ++ x :: rest) = rest.
Proof.
  intros (Hb & Hr & Hxr)%StronglySorted_app. unfold pending. rewrite List.filter_app.
  assert (Hread : List.filter (fun y => te_id x <? te_id y) read = []).
  { induction read as [|y read IH]; [done|]. simpl. rewrite IH; [|intros; apply Hb; [by right|done]|by inversion Hr].
    assert (Hy : id_before y x) by (apply Hb; left). unfold id_before in Hy. destruct (Z.ltb_spec (te_id x) (te_id y)); [lia|done]. }
  rewrite Hread. simpl. rewrite Z.ltb_irrefl. inversion Hxr as [|? ? _ Hf]; subst.
  clear -Hf. induction Hf as [|y l Hy _ IH]; [done|]. simpl. unfold id_before in Hy.
  destruct (Z.ltb_spec (te_id x) (te_id y)); [by f_equal|lia].
Qed.

(** What is read up to an identifier, and what is read after it. *)
Lemma pending_split after l read rest x :
  StronglySorted id_before l -> pending after l = read ++ x :: rest -> pending (te_id x) l = rest.
Proof.
  intros Hl Hp. assert (Hx : after < te_id x).
  { assert (Hin : x ∈ pending after l) by (rewrite Hp; apply elem_of_app; right; by left).
    apply elem_of_filter_bool in Hin as [_ Hin]. bool_to_prop. lia. }
  transitivity (pending (te_id x) (pending after l)).
  { unfold pending. rewrite <- filter_both. apply List.filter_ext. intros y.
    destruct (Z.ltb_spec (te_id x) (te_id y)); [|by rewrite andb_false_r]. rewrite (proj2 (Z.ltb_lt after _)); [done|lia]. }
  rewrite Hp. apply pending_pivot. rewrite <- Hp. by apply pending_sorted.
Qed.

(** ** Frames *)
Definition frames_of (rows : list TurnEventRow) : list Frame := map (fun x => event_frame (event_view x)) rows.

Definition is_event (f : Frame) : bool := match f with EventFrame _ _ _ => true | Comment _ => false end.

Definition events_in (frames : list Frame) : list Frame := List.filter is_event frames.

(** The identifier a client that has read these comes back with. *)
Definition last_read (after : Z) (read : list TurnEventRow) : Z :=
  match last read with Some x => te_id x | None => after end.

Lemma events_in_frames rows : events_in (frames_of rows) = frames_of rows.
Proof. induction rows as [|x rows IH]; [done|]. simpl. by f_equal. Qed.

Lemma events_in_app a b : events_in (a ++ b) = events_in a ++ events_in b.
Proof. apply List.filter_app. Qed.

Section stream.
Context (app : applicationService) (cn : Connection) (scope : Scope) (tenant conversation : string).

Hypothesis loads : forall after limit e w,
  as_ConversationEvents app scope conversation after limit e w = EventsAfter tenant conversation after limit e w.
Hypothesis commits_append : forall n d, ordered tenant conversation d -> appends tenant conversation d (cn_commits cn n d).

#[local] Abbreviation events_of := (events_of tenant conversation).
#[local] Abbreviation ordered := (ordered tenant conversation).

Lemma pending_after after l read rest :
  StronglySorted id_before l -> pending after l = read ++ rest -> pending (last_read after read) l = rest.
Proof.
  intros Hl Hp. destruct read as [|x read _] using rev_ind.
  - done.
  - unfold last_read. rewrite last_snoc. rewrite <- app_assoc in Hp. by eapply pending_split.
Qed.

(** The frames are what was read, and the rest is still to come. *)
Definition delivered (after : Z) (frames : list Frame) (d : DB) (read rest : list TurnEventRow) : Prop :=
  pending after (events_of d) = read ++ rest /\ events_in frames = frames_of read.

(** Between two moments a write or a statement failed. *)
Definition interrupted (e : Database.env) (from to : nat) : Prop :=
  exists n, (from <= n < to)%nat /\ (cn_writes cn n = false \/ is_Some (fault e n)).

(** Nothing is unread, but for what a full batch had no room for. *)
Definition drained (after : Z) (read : list TurnEventRow) (d : DB) : Prop :=
  pending (last_read after read) (events_of d) = [] \/ (100 <= length read)%nat.

(** The last poll, of tables that came out of [d] and at most one commit before [d'], drained
    them. *)
Definition caught_up (after : Z) (read : list TurnEventRow) (d d' : DB) : Prop :=
  exists polled more, events_of polled = events_of d ++ more /\
    (d' = polled \/ exists n, d' = cn_commits cn n polled) /\ drained after read polled.

(** Where the stream stands. *)
Definition stands (after : Z) (s : Stream) (d : DB) (read : list TurnEventRow) : Prop :=
  exists rest, delivered after (sent s) d read rest /\ cursor s = last_read after read.

Lemma stands_later after s n d read : ordered d -> stands after s d read -> stands after s (cn_commits cn n d) read.
Proof.
  intros Hd (rest & [Hp Hf] & Hc). destruct (commits_append n d Hd) as [_ [more Hm]].
  exists (rest ++ pending after more). split; [|done]. split; [|done].
  rewrite Hm. unfold pending in *. by rewrite List.filter_app, Hp, app_assoc.
Qed.

Lemma caught_up_later after read d d1 d' more : events_of d1 = events_of d ++ more ->
  caught_up after read d1 d' -> caught_up after read d d'.
Proof.
  intros Hm (polled & more' & Hp & Hd & Hr). exists polled, (more ++ more'). rewrite Hp, Hm, <- app_assoc. by split.
Qed.

Lemma interrupted_within e n1 n2 m1 m2 : (m1 <= n1)%nat -> (n2 <= m2)%nat -> interrupted e n1 n2 -> interrupted e m1 m2.
Proof. intros H1 H2 (n & Hn & Hi). exists n. split; [lia|done]. Qed.

Lemma writeFrame_run f s e w :
  writeFrame cn f s e w = (Ok (if cn_writes cn (tick w) then mkStream (cursor s) (lastActivity s) (sent s ++ [f]) else s,
                               cn_writes cn (tick w)), bump w).
Proof. unfold writeFrame, at_tick, bind, ret. by destruct (cn_writes cn (tick w)). Qed.

Lemma last_read_app after a b : last_read after (a ++ b) = last_read (last_read after a) b.
Proof. unfold last_read. rewrite last_app. by destruct (last b). Qed.

Lemma write_events_run rows : forall s e w, exists rows1 rows2 s' ok w',
  write_events cn (map event_view rows) s e w = (Ok (s', ok), w') /\ rows = rows1 ++ rows2 /\
  (if ok : bool then rows2 = [] else interrupted e (tick w) (tick w')) /\ sent s' = sent s ++ frames_of rows1 /\
  cursor s' = last_read (cursor s) rows1 /\ db w' = db w /\ (tick w <= tick w')%nat.
Proof.
  induction rows as [|x rows IH]; intros s e w.
  { exists [], [], s, true, w. cbn [frames_of map]. rewrite !app_nil_r. repeat (split; [done|]). lia. }
  simpl. unfold bind at 1. rewrite writeFrame_run. destruct (cn_writes cn (tick w)) eqn:Hok; cbn [negb].
  - unfold bind, at_tick. cbn [sent].
    destruct (IH (mkStream (te_id x) (cn_wall cn (tick (bump w))) (sent s ++ [event_frame (event_view x)])) e (bump (bump w)))
      as (rows1 & rows2 & s' & ok & w' & Hr & -> & Ho & Hsent & Hc & Hd & Ht). cbn [bump tick] in Ho, Ht.
    exists (x :: rows1), rows2, s', ok, w'. split; [exact Hr|]. split; [done|]. split; [|split; [|split; [|split]]].
    + destruct ok; [done|]. eapply interrupted_within; [| |exact Ho]; lia.
    + rewrite Hsent. cbn. by rewrite <- app_assoc.
    + rewrite Hc. change (x :: rows1) with ([x] ++ rows1). by rewrite last_read_app.
    + exact Hd.
    + lia.
  - exists [], (x :: rows), s, false, (bump w). cbn [frames_of map]. rewrite !app_nil_r. repeat (split; [done|]).
    split; [exists (tick w); cbn; split; [lia|by left]|]. repeat (split; [done|]). cbn. lia.
Qed.

Lemma load_run after e w : ordered (db w) -> exists w', db w' = db w /\ (tick w <= tick w')%nat /\
  ((exists err, EventsAfter tenant conversation after sseBatchLimit e w = (Err err, w') /\ interrupted e (tick w) (tick w')) \/
   EventsAfter tenant conversation after sseBatchLimit e w = (Ok (map event_view (take 100 (pending after (events_of (db w))))), w')).
Proof.
  intros Hd. unfold EventsAfter, bind, wrap, map_err, query, run. cbn. destruct (fault e (tick w)) as [err|] eqn:Hf.
  - assert (Hi : interrupted e (tick w) (S (tick w))) by (exists (tick w); split; [lia|right; by rewrite Hf]).
    eexists. split; [|split; [|left; eexists; split; [reflexivity|]]]; cbn;
      [by destruct (negb _ && _)|destruct (negb _ && _); cbn; lia|by destruct (negb _ && _)].
  - eexists. split; [|split; [|right; cbn; by rewrite stream_after_pending]]; [done|cbn; lia].
Qed.

Lemma heartbeat_run s e w : exists s' ok w', heartbeat cn s e w = (Ok (s', ok), w') /\
  (ok = false -> interrupted e (tick w) (tick w')) /\
  events_in (sent s') = events_in (sent s) /\ cursor s' = cursor s /\ db w' = db w /\ (tick w <= tick w')%nat.
Proof.
  unfold heartbeat, bind at 1, at_tick. destruct (_ <? _).
  - unfold bind at 1. rewrite writeFrame_run. destruct (cn_writes cn (tick (bump w))) eqn:Hok.
    + eexists _, _, _. split; [reflexivity|]. cbn. rewrite events_in_app, app_nil_r. repeat (split; [done|]). lia.
    + eexists _, _, _. split; [reflexivity|]. split; [|repeat (split; [done|]); cbn; lia].
      intros _. exists (tick (bump w)). cbn. split; [lia|by left].
  - eexists _, _, _. split; [reflexivity|]. repeat (split; [done|]). cbn. lia.
Qed.

Lemma wait_run e w : exists again w', wait_poll cn e w = (Ok again, w') /\ (tick w < tick w')%nat /\
  (db w' = db w \/ exists n, db w' = cn_commits cn n (db w)).
Proof.
  unfold wait_poll. destruct (cn_gone cn (tick w)); eexists _, _; (split; [reflexivity|]); cbn; (split; [lia|]); [by left|right; by eexists].
Qed.

(** After a batch the stream stands further on. *)
Lemma stands_batch after s d read rows1 rows2 s' :
  ordered d -> stands after s d read -> take 100 (pending (cursor s) (events_of d)) = rows1 ++ rows2 ->
  events_in (sent s') = events_in (sent s) ++ frames_of rows1 -> cursor s' = last_read (cursor s) rows1 ->
  stands after s' d (read ++ rows1) /\ (rows2 = [] -> drained after (read ++ rows1) d).
Proof.
  intros Hd (rest & [Hp Hf] & Hc) Ht Hs Hc'.
  assert (Hrest : pending (cursor s) (events_of d) = rest) by (rewrite Hc; by apply pending_after).
  rewrite Hrest in Ht.
  assert (Hp' : pending after (events_of d) = (read ++ rows1) ++ rows2 ++ drop 100 rest).
  { rewrite Hp, <- app_assoc. f_equal. by rewrite app_assoc, <- Ht, take_drop. }
  split.
  - exists (rows2 ++ drop 100 rest). split; [split; [exact Hp'|]|].
    + rewrite Hs, Hf. unfold frames_of. by rewrite map_app.
    + by rewrite Hc', Hc, last_read_app.
  - intros ->. rewrite app_nil_r in Ht. red. apply pending_after in Hp'; [|exact Hd]. rewrite Hp'. simpl.
    destruct (decide (length rest <= 100)%nat) as [Hle|Hgt]; [left; by apply drop_ge|right].
    rewrite length_app, <- Ht, length_take. lia.
Qed.

(** How a stream ends. *)
Definition ends (after : Z) (e : Database.env) (w w' : world) (frames : list Frame) : Prop :=
  exists read rest, delivered after frames (db w') read rest /\ ordered (db w') /\
    (interrupted e (tick w) (tick w') \/ caught_up after read (db w) (db w')).

Lemma ends_interrupted after e w w' s read : ordered (db w) -> stands after s (db w) read -> db w' = db w ->
  interrupted e (tick w) (tick w') -> ends after e w w' (sent s).
Proof. intros Ho (rest & Hd & _) Hw Hi. exists read, rest. rewrite Hw. split; [done|]. split; [done|by left]. Qed.

Lemma ends_later after e w w1 w' frames more : events_of (db w1) = events_of (db w) ++ more -> (tick w <= tick w1)%nat ->
  ends after e w1 w' frames -> ends after e w w' frames.
Proof.
  intros Hm Ht (read & rest & Hd & Ho & Hend). exists read, rest. split; [done|]. split; [done|].
  destruct Hend as [Hi|Hc]; [left; by eapply interrupted_within; [exact Ht| |exact Hi]|right; by eapply caught_up_later].
Qed.

(** What a poll that was written in full comes to, when the stream ends with it. *)
Lemma ends_polled after e w w' frames read rest : delivered after frames (db w') read rest -> ordered (db w') ->
  drained after read (db w) -> db w' = db w \/ (exists n, db w' = cn_commits cn n (db w)) -> ends after e w w' frames.
Proof.
  intros Hd Ho Hr Hw. exists read, rest. split; [done|]. split; [done|]. right. exists (db w), []. by rewrite app_nil_r.
Qed.

(** One poll, up to the moment the stream waits for the next. *)
Definition polled (after : Z) (e : Database.env) (w w3 : world) (s3 : Stream) : Prop :=
  exists read, stands after s3 (db w) read /\ drained after read (db w) /\ db w3 = db w.

Definition then_wait (fuel : nat) (started : Time) (s : Stream) : M (list Frame) :=
  let* again := wait_poll cn in if again then follow app cn scope fuel conversation started s else ret (sent s).

Lemma follow_step after started fuel s read e w :
  ordered (db w) -> stands after s (db w) read ->
  (exists frames w', follow app cn scope (S fuel) conversation started s e w = (Ok frames, w') /\ ends after e w w' frames) \/
  exists s3 n w3, polled after e w w3 s3 /\ (tick w <= n < tick w3)%nat /\ Sub (cn_wall cn n) started <= sseMaxStreamAge /\
    follow app cn scope (S fuel) conversation started s e w = then_wait fuel started s3 e w3.
Proof.
  intros Ho Hs. destruct (follow app cn scope (S fuel) conversation started s e w) as [res wf] eqn:Hout.
  cbn [follow] in Hout. unfold bind at 1, attempt in Hout. rewrite loads in Hout.
  destruct (load_run (cursor s) e w Ho) as (w1 & Hd1 & Ht1 & [(err & Hl & Hi)|Hl]); rewrite Hl in Hout; clear Hl.
  { left. injection Hout as <- <-. exists (sent s), w1. split; [done|]. by eapply ends_interrupted. }
  unfold bind at 1 in Hout.
  destruct (write_events_run (take 100 (pending (cursor s) (events_of (db w)))) s e w1)
    as (rows1 & rows2 & s2 & ok & w2 & Hw & Hrows & Hok & Hsent & Hc2 & Hd2 & Ht2). rewrite Hw in Hout. clear Hw.
  destruct (stands_batch after s (db w) read rows1 rows2 s2 Ho Hs Hrows ltac:(by rewrite Hsent, events_in_app, events_in_frames) Hc2)
    as [Hs2 Hup].
  assert (Hdw2 : db w2 = db w) by congruence.
  destruct ok; cbn [negb] in Hout; cycle 1.
  { left. injection Hout as <- <-. exists (sent s2), w2. split; [done|]. eapply ends_interrupted; [done|done|done|].
    by eapply interrupted_within; [exact Ht1| |exact Hok]. }
  specialize (Hup Hok). unfold bind at 1, at_tick in Hout. destruct (sseMaxStreamAge <? _) eqn:Eage in Hout.
  { left. unfold bind at 1 in Hout. rewrite writeFrame_run in Hout. injection Hout as <- <-. eexists _, _. split; [reflexivity|].
    destruct Hs2 as (rest & [Hp Hfr] & _). apply (ends_polled _ _ _ _ _ (read ++ rows1) rest); cbn [db bump];
      rewrite ?Hdw2; [|done|done|by left]. split; [done|]. destruct (cn_writes cn _); [|done]. cbn [sent].
    by rewrite events_in_app, app_nil_r. }
  bool_to_prop. unfold bind at 1 in Hout.
  destruct (heartbeat_run s2 e (bump w2)) as (s3 & ok & w3 & Hh & Hbeat & He3 & Hc3 & Hd3 & Ht3). rewrite Hh in Hout. clear Hh.
  cbn [db bump tick] in Hd3, Hbeat, Ht3. assert (Hs3 : stands after s3 (db w) (read ++ rows1)).
  { destruct Hs2 as (rest & [Hp Hfr] & Hc). exists rest. split; [split; [done|congruence]|congruence]. }
  assert (Hdw3 : db w3 = db w) by congruence. destruct ok; cbn [negb] in Hout; cycle 1.
  { left. injection Hout as <- <-. exists (sent s3), w3. split; [done|]. destruct Hs3 as (rest & Hdel & _).
    eapply ends_polled; [by rewrite Hdw3|by rewrite Hdw3|exact Hup|by left]. }
  right. exists s3, (tick w2), w3. split; [by exists (read ++ rows1)|]. split; [lia|]. split; [exact Eage|symmetry; exact Hout].
Qed.

Lemma follow_delivers after N started :
  (forall n, (N <= n)%nat -> sseMaxStreamAge < Sub (cn_wall cn n) started) ->
  forall fuel s read e w, ordered (db w) -> stands after s (db w) read -> (0 < fuel)%nat -> (N < fuel + tick w)%nat ->
  exists frames w', follow app cn scope fuel conversation started s e w = (Ok frames, w') /\ ends after e w w' frames.
Proof.
  intros Hage. induction fuel as [|fuel IH]; intros s read e w Ho Hs Hf Hn; [lia|].
  destruct (follow_step after started fuel s read e w Ho Hs) as [Hend|(s3 & n & w3 & (read3 & Hs3 & Hup & Hd3) & Ht3 & Hyoung & ->)];
    [exact Hend|].
  assert (Hlt : (n < N)%nat).
  { destruct (le_lt_dec N n) as [Hle|]; [|done]. specialize (Hage _ Hle). lia. }
  unfold then_wait, bind. destruct (wait_run e w3) as (again & w4 & -> & Ht4 & Hd4). rewrite Hd3 in Hd4.
  assert (H4 : ordered (db w4) /\ stands after s3 (db w4) read3 /\ exists more, events_of (db w4) = events_of (db w) ++ more).
  { destruct Hd4 as [->|[k ->]]; [split; [done|split; [done|exists []; by rewrite app_nil_r]]|].
    destruct (commits_append k (db w) Ho) as [Ho4 Hm]. split; [done|]. split; [by apply stands_later|done]. }
  destruct H4 as (Ho4 & Hs4 & more & Hmore). destruct again.
  - destruct (IH s3 read3 e w4 Ho4 Hs4 ltac:(lia) ltac:(lia)) as (frames & w' & Hr & Hends).
    exists frames, w'. split; [exact Hr|]. eapply ends_later; [exact Hmore|lia|exact Hends].
  - exists (sent s3), w4. split; [done|]. destruct Hs4 as (rest & Hdel & _). by eapply ends_polled.
Qed.
End stream.

(** ** Properties *)
Section properties.
Context `{host : !Host} `{letters : !Letters} `{entropy : !Entropy} (jsonb : string -> result string) (column_size : string -> Z)
  (fuel tries : nat) (o : outside) (r : Runtime) (components : Cache).

(** C20. The stream delivers every event once.  Other transactions may commit between two
    polls, those of other conversations in any order, those of this one, whose turns its
    lock keeps apart, with rising identifiers.  Once its age exceeds the limit the stream
    comes to an end, and the events on it are the first ones of the conversation, in the
    tenant of the host, after the cursor, in the order of their identifiers.  Unless a
    write or a statement failed meanwhile, they are all that the tables of the last poll
    held, which was at most one wait before the end, or at least a full batch of a
    hundred.  What has not been sent is what a client that comes back with the last
    identifier it read is sent next. *)
Theorem stream_delivers_once (cn : Connection) (t : Tenants.Tenant) (built : Built) (conversation : string) (after : Z)
    (N : nat) (e : Database.env) (w : world)
    (Hscope : Tenants.FromContext (Some t) = Some t) (Hbuilt : components !! t_ID t = Some built)
    (Hordered : ordered (application_tenant built) conversation (db w))
    (Happends : forall n d, ordered (application_tenant built) conversation d ->
       appends (application_tenant built) conversation d (cn_commits cn n d))
    (Hage : forall n m, (N <= n)%nat -> (m <= tick w + 3)%nat -> sseMaxStreamAge < Sub (cn_wall cn n) (cn_wall cn m)) :
  let app := tenantApplicationProxy jsonb column_size fuel tries o (cached r components) in
  let events := events_of (application_tenant built) conversation in
  exists frames w' read rest, stream app cn (Some t) (S N) conversation after e w = (Ok frames, w') /\
    pending after (events (db w')) = read ++ rest /\ events_in frames = frames_of read /\
    (interrupted cn e (tick w) (tick w') \/
     caught_up cn (application_tenant built) conversation after read (db w) (db w')) /\
    pending (last_read after read) (events (db w')) = rest.
Proof.
  intros app events.
  assert (Hid : t_ID t <> ""%string).
  { unfold Tenants.FromContext in Hscope. destruct (bool_decide (t_ID t = "")) eqn:E; [done|]. by bool_to_prop. }
  assert (Hloads : forall after limit e w, as_ConversationEvents app (Some t) conversation after limit e w =
    EventsAfter (application_tenant built) conversation after limit e w).
  { intros a l e0 w0. cbn. unfold PublicHttp.components. rewrite Hscope. unfold cached, componentsFor.
    rewrite bool_decide_eq_false_2 by done. by rewrite Hbuilt. }
  unfold stream. unfold bind at 1, at_tick. unfold bind at 1. rewrite writeFrame_run.
  destruct (cn_writes cn (tick (bump w))) eqn:Hok; cbn [negb].
  - unfold bind, at_tick. cbn [cursor sent]. set (w3 := bump (bump (bump w))).
    assert (Haged : forall n, (N <= n)%nat -> sseMaxStreamAge < Sub (cn_wall cn n) (cn_wall cn (tick (bump (bump w))))).
    { intros n Hn. apply Hage; [exact Hn|]. cbn. lia. }
    destruct (follow_delivers app cn (Some t) (application_tenant built) conversation Hloads Happends after N _ Haged (S N)
      (mkStream after (cn_wall cn (tick w3)) [Comment "connected"]) [] e (bump w3)) as (frames & w' & Hr & Hends).
    + exact Hordered.
    + exists (pending after (events (db w))). split; [split|]; reflexivity.
    + lia.
    + cbn. lia.
    + eapply (ends_later cn _ _ after e w) in Hends; [|symmetry; apply app_nil_r|cbn; lia].
      destruct Hends as (read & rest & [Hp Hf] & Ho & Hend). exists frames, w', read, rest. split; [exact Hr|].
      split; [done|]. split; [done|]. split; [done|]. by eapply pending_after.
  - eexists _, _, [], _. split; [reflexivity|]. split; [reflexivity|]. split; [done|]. split; [|done].
    left. exists (tick (bump w)). cbn. split; [lia|by left].
Qed.
End properties.

(** ** A stream *)
Module StreamDemo.
Definition event (id : Z) : TurnEventRow :=
  mkTurnEventRow "t" id conversation_id "turn_completed" "{}" (monday 9 0).

(** An event of another conversation, filed late under a low identifier. *)
Definition elsewhere : TurnEventRow := mkTurnEventRow "t" 5 "another" "turn_completed" "{}" (monday 9 0).

(** The identifier after the last. *)
Definition next_id (d : DB) : Z := 1 + foldr Z.max 0 (map te_id (events_of "t" conversation_id d)).

(** Two turns end while the stream is open. *)
Definition commits (n : nat) (d : DB) : DB :=
  if Nat.eqb n 11 then set_turn_events (log_of d ++ [elsewhere; event (next_id d)]) d else d.

Lemma below_next l x : x ∈ l -> te_id x < 1 + foldr Z.max 0 (map te_id l).
Proof. induction l as [|y l IH]; [by rewrite elem_of_nil|]. simpl. intros [->|Hx]%elem_of_cons; [lia|]. specialize (IH Hx). lia. Qed.

Lemma commits_append n d : ordered "t" conversation_id d -> appends "t" conversation_id d (commits n d).
Proof.
  intros Hd. unfold commits. destruct (Nat.eqb n 11); [|split; [done|exists []; by rewrite app_nil_r]].
  assert (He : events_of "t" conversation_id (set_turn_events (log_of d ++ [elsewhere; event (next_id d)]) d) =
    events_of "t" conversation_id d ++ [event (next_id d)]) by (unfold events_of at 1; cbn; apply List.filter_app).
  split; [|eexists; exact He]. red. rewrite He. apply StronglySorted_app_2.
  - intros x y Hx ->%list_elem_of_singleton. by apply below_next.
  - exact Hd.
  - by repeat constructor.
Qed.

(** A minute passes at every tick. *)
Definition connection : Connection :=
  mkConnection (fun n => Add (monday 9 0) (Z.of_nat n * Minute)) (fun _ => true) (fun _ => false) commits.

Lemma aged n m : (14 <= n)%nat -> (m <= 0 + 3)%nat ->
  sseMaxStreamAge < Sub (cn_wall connection n) (cn_wall connection m).
Proof.
  intros Hn Hm. unfold Sub, connection. cbn [cn_wall Add ns]. set (x := ns (monday 9 0)).
  assert (11 * Minute <= x + Z.of_nat n * Minute - (x + Z.of_nat m * Minute)) by (unfold Minute, Second; lia).
  assert (Hlim : sseMaxStreamAge < 11 * Minute <= max_int64) by (split; [reflexivity|discriminate]).
  destruct Hlim. lia.
Qed.

Definition open_conversation : world :=
  idle (set_turn_events [event 3; event 8] (set_accounts StartDemo.accounts (db empty_salon))).

Lemma events_ordered : ordered "t" conversation_id (db open_conversation).
Proof. unfold ordered. vm_compute events_of. repeat constructor. Defined.

#[export] Instance entropy : Entropy := {| random_bytes _ _ := None |}.

End StreamDemo.

#[local] Existing Instances StartDemo.letters StreamDemo.entropy.

Lemma stream_delivers_once_witness :
  exists c built components' w1 frames w' read, Load StartDemo.production = Ok c /\
    let r := mkRuntime c 4 (Tenants.mkStore true None) in
    let app := tenantApplicationProxy Dialogue.jsonb (fun _ => 0) 40 5 Dialogue.around
                 (cached r {["t"%string := built]}) in
    componentsFor r ∅ "t" calm StreamDemo.open_conversation = (Ok (built, components'), w1) /\
    stream app StreamDemo.connection (Some StartDemo.tenant) 15 conversation_id 3 calm StreamDemo.open_conversation =
      (Ok frames, w') /\
    caught_up StreamDemo.connection (application_tenant built) conversation_id 3 read
      (db StreamDemo.open_conversation) (db w') /\
    events_in frames = frames_of [StreamDemo.event 8; StreamDemo.event 9].
Proof.
  assert (H : exists c built components' w1, Load StartDemo.production = Ok c /\
    componentsFor (mkRuntime c 4 (Tenants.mkStore true None)) ∅ "t" calm StreamDemo.open_conversation =
      (Ok (built, components'), w1) /\ application_tenant built = "t"%string /\
    exists frames w', stream (tenantApplicationProxy Dialogue.jsonb (fun _ => 0) 40 5 Dialogue.around
        (cached (mkRuntime c 4 (Tenants.mkStore true None)) {["t"%string := built]})) StreamDemo.connection
        (Some StartDemo.tenant) 15 conversation_id 3 calm StreamDemo.open_conversation = (Ok frames, w') /\
      events_in frames = frames_of [StreamDemo.event 8; StreamDemo.event 9]).
  { eexists _, _, _, _. split; [vm_compute; reflexivity|]. split; [vm_compute; reflexivity|]. split; [vm_compute; reflexivity|].
    eexists _, _. split; vm_compute; reflexivity. }
  destruct H as (c & built & components' & w1 & Hl & Hb & Ht & frames0 & w0 & H0 & Hids).
  assert (Hc : ({["t"%string := built]} : Cache) !! t_ID StartDemo.tenant = Some built) by apply lookup_singleton_eq.
  pose proof StreamDemo.events_ordered as Ho. pose proof StreamDemo.commits_append as Ha. rewrite <- Ht in Ho, Ha.
  destruct (stream_delivers_once Dialogue.jsonb (fun _ => 0) 40 5 Dialogue.around (mkRuntime c 4 (Tenants.mkStore true None))
    {["t"%string := built]} StreamDemo.connection StartDemo.tenant built conversation_id 3 14 calm StreamDemo.open_conversation
    eq_refl Hc Ho Ha StreamDemo.aged)
    as (frames & w' & read & rest & Hr & Hp & Hf & Hend & _).
  assert (Hcaught : caught_up StreamDemo.connection (application_tenant built) conversation_id 3 read
      (db StreamDemo.open_conversation) (db w')).
  { destruct Hend as [(n & _ & [Hw|[err He]])|Hcaught]; [discriminate Hw|discriminate He|exact Hcaught]. }
  exists c, built, components', w1, frames, w', read. split; [exact Hl|]. split; [exact Hb|]. split; [exact Hr|].
  split; [exact Hcaught|]. rewrite Hr in H0. injection H0 as <- _. exact Hids.
Defined.

(** * What a request opens *)

From S2P Require Import JsonParse Hex Sha256 Url Mux Repository ConversationProps AgentTrace TurnQueue TenantsProps OperatorProps ChannelFacts.

#[local] Open Scope Z_scope.

(** ** Capabilities *)
Definition capability (tenant conversation token : string) (d : DB) : Prop :=
  token <> ""%string /\ exists row, row ∈ conversations d /\ is_conv tenant conversation row = true /\
    sha256 token = stored_digest (default ""%string (cv_ref row)).

(** Usage has no part in it. *)
Lemma capability_same d d' tenant conversation token :
  same_but_usage d d' -> capability tenant conversation token d' -> capability tenant conversation token d.
Proof.
  intros [_ Hm] [Ht (row & Hrow & Hid & Hd)]. split; [done|].
  assert (Hin : unused row ∈ map unused (conversations d)) by (rewrite <- Hm; by apply list_elem_of_fmap_2).
  apply list_elem_of_fmap in Hin as (row' & He & Hin). exists row'. split; [done|].
  unfold unused, set_tokens in He. destruct row, row'. injection He as -> -> -> -> -> -> -> -> ->. by split.
Qed.

Lemma verify_Ok tenant conversation token e w x w' :
  VerifyCapability tenant conversation token e w = (Ok x, w') -> capability tenant conversation token (db w).
Proof.
  unfold VerifyCapability. intros (o & w1 & Hq & Ho)%bind_Ok. unfold wrap, map_err, query, run in Hq.
  destruct (fault e (tick w)); [done|]. cbn in Hq. injection Hq as <- <-. destruct (List.find _ _) as [row|] eqn:E; [|done].
  apply List.find_some in E as [Hin%list_elem_of_In Hid]. destruct (_ || _) eqn:Hb; [done|]. bool_to_prop.
  split; [done|]. exists row. by split.
Qed.

(** What only the holder of a capability sees. *)
Definition discloses (reply : WidgetReply) : bool :=
  match reply with WJSON _ (BodyTurn _) | WJSON _ (BodyRunTrace _) | WStream _ => true | _ => false end.

Section handlers.
Context `{host : !Host} `{letters : !Letters} `{entropy : !Entropy} (jsonb : string -> result string) (column_size : string -> Z)
  (fuel tries : nat) (o : outside) (ApplicationFor : string -> M Built) `{!ScopedRuntime ApplicationFor}
  (cn : Connection) (t : Tenants.Tenant).
Hypothesis scope : Tenants.FromContext (Some t) = Some t.

#[local] Abbreviation app := (tenantApplicationProxy jsonb column_size fuel tries o ApplicationFor).

(** Nothing is disclosed and nothing changes but usage. *)
Definition harmless (w : world) (reply : WidgetReply) (w' : world) : Prop :=
  same_but_usage (db w) (db w') /\ discloses reply = false.

(** The request shows the capability of a conversation it names, or of the run it reads. *)
Definition capable (q : WidgetRequest) (named : string -> Prop) (w : world) (reply : WidgetReply) : Prop :=
  exists token conversation, PublicHttp.bearerToken (wq_Authorization q) = Some token /\
    capability (t_ID t) conversation token (db w) /\
    (named conversation \/ exists run, reply = WJSON 200 (BodyRunTrace run) /\ conversation = rtr_ConversationID run).

Lemma components_cases e w res w1 : components ApplicationFor (Some t) e w = (res, w1) ->
  same_but_usage (db w) (db w1) /\ forall b, res = Ok b -> application_tenant b = t_ID t.
Proof.
  unfold components. rewrite scope. intros Hr. split.
  - pose proof (sr_quiet (db w) (t_ID t) e w (same_refl _)) as Hq. by rewrite Hr in Hq.
  - intros b ->. by apply sr_scoped in Hr.
Qed.

(** An operation of the application that only reads. *)
Lemma reads_quietly {A} (f : Built -> M A) e w res w' :
  (forall b, local (f b)) -> (let* b := components ApplicationFor (Some t) in f b) e w = (res, w') ->
  same_but_usage (db w) (db w') /\
  forall a, res = Ok a -> exists b w1, same_but_usage (db w) (db w1) /\ application_tenant b = t_ID t /\ f b e w1 = (Ok a, w').
Proof.
  intros Hl. unfold bind. destruct (components _ _ e w) as [[b|err] w1] eqn:Hc; apply components_cases in Hc as [Hq Hb].
  - intros Hf. pose proof (Hl b e w1) as Hd. rewrite Hf in Hd. cbn in Hd. split; [by rewrite Hd|].
    intros a ->. exists b, w1. split; [done|]. split; [by apply Hb|done].
  - intros [= <- <-]. by split.
Qed.

Lemma local_verify tenant conversation token : local (VerifyCapability tenant conversation token).
Proof. unfold VerifyCapability. walk_local. Qed.

(** A handler behind the check of a capability. *)
Lemma with_capability_cases q conversation next e w reply w' :
  with_capability app (Some t) q conversation next e w = (Ok reply, w') ->
  harmless w reply w' \/
  exists token w1, PublicHttp.bearerToken (wq_Authorization q) = Some token /\
    capability (t_ID t) conversation token (db w) /\ next e w1 = (Ok reply, w').
Proof.
  unfold with_capability, requireConversationCapability. destruct (PublicHttp.bearerToken _) as [token|]; cycle 1.
  { intros [= <- <-]. left. by split; [apply same_refl|]. }
  unfold bind at 1. unfold bind at 1. unfold attempt. destruct (as_VerifyConversationCapability app _ _ _ e w) as [[x|err] w1] eqn:Hv;
    apply reads_quietly in Hv as [Hq Hv]; try (intros b; apply local_verify).
  - intros Hn. right. exists token, w1. split; [done|]. split; [|exact Hn]. destruct (Hv x eq_refl) as (b & w2 & Hs & Hb & Hver).
    apply verify_Ok in Hver. rewrite Hb in Hver. by eapply capability_same.
  - cbn. intros [= <- <-]. left. split; [done|]. by repeat case_match.
Qed.

Lemma getRun_cases id q e w reply w' :
  getRun app (Some t) id q e w = (Ok reply, w') -> harmless w reply w' \/ capable q (fun _ => False) w reply.
Proof.
  unfold getRun. destruct (PublicHttp.bearerToken _) as [token|] eqn:Hb.
  2:{ intros [= <- <-]. left. by split; [apply same_refl|]. }
  unfold bind at 1, attempt. destruct (as_GetRun app _ _ e w) as [[run|err] w1] eqn:Hg;
    apply reads_quietly in Hg as [Hq _]; try (intros b; apply local_trace).
  - intros Hr. destruct (with_capability_cases _ _ _ _ _ _ _ Hr) as [[Hs Hd]|(token' & w2 & Ht & Hc & [= <- _])].
    + left. split; [by eapply same_trans|done].
    + right. exists token', (rtr_ConversationID run). split; [done|]. split; [by eapply capability_same|]. right. by exists run.
  - intros [= <- <-]. left. split; [done|]. by destruct (errors_is _ _).
Qed.

Definition new_conversation (q : WidgetRequest) : Prop :=
  wq_Method q = "POST"%string /\ wq_Path q = ["api"; "v1"; "demo"; "conversations"]%string.

(** A new customer with the profile that was sent, and a new conversation of theirs whose
    stored digest is that of a token. *)
Definition own_conversation (profile : Profile) (customer id token : string) (budget : Z) (d d' : DB) : Prop :=
  filed (profile_row (t_ID t) customer profile)
    (open_conversation (t_ID t) id customer "demo" (EncodeToHex (sha256 token)) budget) d d'.

(** A conversation is opened: usage apart, its two rows are added and nothing else changes,
    and the answer holds its token; or opening it failed, and nothing was added but for a
    commit whose answer was lost.  The token is then the capability of the conversation. *)
Definition opened (q : WidgetRequest) (e : Database.env) (w : world) (reply : WidgetReply) (w' : world) : Prop :=
  exists profile budget d, decodeJSON q profile_member (mkProfile "" "" "") = Some profile /\ same_but_usage (db w) d /\
  ((exists c, reply = WJSON 201 (BodyConversation c) /\ co_TenantID c = t_ID t /\
      own_conversation profile (co_CustomerID c) (co_ID c) (CapabilityToken c) budget d (db w') /\
      (CapabilityToken c <> ""%string -> capability (t_ID t) (co_ID c) (CapabilityToken c) (db w'))) \/
   reply = internal_error /\ (db w' = d \/ lost_commit e /\ exists customer id token,
      own_conversation profile customer id token budget d (db w'))).

Lemma create_opens profile e w res w' : as_CreateConversation app (Some t) profile e w = (res, w') ->
  exists budget d, same_but_usage (db w) d /\
  match res with
  | Ok c => co_TenantID c = t_ID t /\ own_conversation profile (co_CustomerID c) (co_ID c) (CapabilityToken c) budget d (db w')
  | Err _ => db w' = d \/ lost_commit e /\ exists customer id token, own_conversation profile customer id token budget d (db w')
  end.
Proof.
  cbn. unfold bind at 1. destruct (components ApplicationFor (Some t) e w) as [[b|err] w1] eqn:Hc;
    apply components_cases in Hc as [Hq Hb]; [|intros [= <- <-]; exists 0, (db w1); split; [done|by left]].
  specialize (Hb b eq_refl). unfold bind at 1. assert (Hl : local read_secret) by (unfold read_secret; walk_local).
  pose proof (Hl e w1) as Hd. destruct (read_secret e w1) as [[secret|err] w2]; cbn in Hd;
    [|intros [= <- <-]; exists 0, (db w1); split; [done|by left]].
  intros Hr. apply CreateDemo_files in Hr. rewrite Hb, Hd in Hr. by eexists _, (db w1).
Qed.

(** The token of a new conversation opens it. *)
Lemma own_capability profile customer id token budget d d' : own_conversation profile customer id token budget d d' ->
  token <> ""%string -> capability (t_ID t) id token d'.
Proof.
  intros (_ & _ & _ & ->) Ht. split; [exact Ht|].
  exists (open_conversation (t_ID t) id customer "demo" (EncodeToHex (sha256 token)) budget).
  split; [|split; [|symmetry; apply stored_digest_of]].
  - apply elem_of_app. right. by apply list_elem_of_singleton.
  - unfold is_conv. cbn. by rewrite !String.eqb_refl.
Qed.

(** What serving a request comes to. *)
Definition served (q : WidgetRequest) (e : Database.env) (w : world) (reply : WidgetReply) (w' : world) : Prop :=
  harmless w reply w' \/
  (new_conversation q /\ opened q e w reply w') \/
  capable q (fun c => c ∈ wq_Path q) w reply.

Lemma harmless_served q e w reply : discloses reply = false -> served q e w reply w.
Proof. intros Hd. left. by split; [apply same_refl|]. Qed.

Lemma named_capable q c next e w reply w' values :
  head values = Some c -> (forall x, x ∈ values -> x ∈ wq_Path q) ->
  with_capability app (Some t) q (default ""%string (head values)) next e w = (Ok reply, w') -> served q e w reply w'.
Proof.
  intros Hc Hin Hr. destruct (with_capability_cases _ _ _ _ _ _ _ Hr) as [H|(token & w1 & Ht & Hcap & _)]; [by left|].
  right. right. exists token, (default ""%string (head values)). split; [done|]. split; [done|]. left. rewrite Hc. apply Hin.
  destruct values; [done|]. injection Hc as ->. by left.
Qed.

Lemma handler_served polls rt values q e w reply w' :
  rt ∈ widget_routes app cn (Some t) polls -> method_ok (pt_method (rt_pattern rt)) (wq_Method q) = true ->
  path_values (pt_path (rt_pattern rt)) (pt_subtree (rt_pattern rt)) (wq_Path q) = Some values ->
  rt_handler rt values q e w = (Ok reply, w') -> served q e w reply w'.
Proof.
  intros Hrt Hm Hp Hr. assert (Hin : forall x, x ∈ values -> x ∈ wq_Path q) by (intros x; by eapply path_values_in).
  unfold widget_routes in Hrt. rewrite !elem_of_cons, elem_of_nil in Hrt.
  destruct Hrt as [->|[->|[->|[->|[->|[->|Hrt]]]]]]; cbn [rt_handler rt_pattern pt_method pt_path pt_subtree handle] in *.
  - injection Hr as <- <-. by apply harmless_served.
  - left. unfold ready, bind, attempt, query, run in Hr. destruct (fault e (tick w)).
    + injection Hr as <- <-. cbn. destruct (negb _ && _); by split; [apply same_refl|].
    + injection Hr as <- <-. by split; [apply same_refl|].
  - unfold createConversation in Hr. destruct (decodeJSON _ _ _) as [profile|] eqn:Hp'; [|injection Hr as <- <-; by apply harmless_served].
    destruct (bool_decide _); [injection Hr as <- <-; by apply harmless_served|].
    right. left. split.
    + split; [by apply method_exact in Hm|]. by apply (path_values_fixed ["api"; "v1"; "demo"; "conversations"]%string) in Hp.
    + unfold bind, attempt in Hr. destruct (as_CreateConversation app (Some t) profile e w) as [res w1] eqn:Hc.
      apply create_opens in Hc as (budget & d & Hd & Hc). injection Hr as <- <-. exists profile, budget, d.
      split; [done|]. split; [done|]. destruct res as [c|err]; [|by right].
      left. exists c. destruct Hc as [Htc Hc]. split; [done|]. split; [done|]. split; [done|]. by eapply own_capability.
  - apply path_values_count in Hp. destruct values as [|c values]; [discriminate Hp|].
    by eapply (named_capable q c _ e w reply w' (c :: values)).
  - apply path_values_count in Hp. destruct values as [|c values]; [discriminate Hp|].
    by eapply (named_capable q c _ e w reply w' (c :: values)).
  - destruct (getRun_cases _ _ _ _ _ _ Hr) as [H|(token & c & Ht & Hc & [[]|Hrun])]; [by left|].
    right. right. exists token, c. split; [done|]. split; [done|]. by right.
  - assert (Hs : exists name, rt_handler rt values = serveStatic name) by (destruct Hrt as [->|[->|[->|[->|[->|[->|[->|[]]]]]]]]; by eexists).
    destruct Hs as [name Hs]. rewrite Hs in Hr. injection Hr as <- <-. by apply harmless_served.
Qed.

Lemma serve_served polls q e w reply w' :
  serve_widget app cn (Some t) polls q e w = (Ok reply, w') -> served q e w reply w'.
Proof.
  unfold serve_widget. destruct (route _ _ _) as [h| | |] eqn:E; try (intros [= <- <-]; by apply harmless_served).
  apply route_Handled in E as (rt & values & Hrt & Hm & -> & Hv). intros Hr. by eapply handler_served.
Qed.
End handlers.

(** ** Behind the boundary *)
Section boundary.
Context `{host : !Host} `{letters : !Letters} `{entropy : !Entropy} `{hosts : !UrlHosts} (jsonb : string -> result string)
  (column_size : string -> Z) (fuel tries : nat) (o : outside) (ApplicationFor : string -> M Built) `{!ScopedRuntime ApplicationFor}.

Lemma host_tenant store h suffix e w t w' :
  (forall row, row ∈ tenant_rows (accounts_of (db w)) -> tr_id row <> ""%string) ->
  TenantForHost store h suffix e w = (Ok t, w') ->
  db w' = db w /\ Tenants.FromContext (Some t) = Some t /\
  exists row, row ∈ tenant_rows (accounts_of (db w)) /\ t = tenant_of (db w) row /\ slugFromHost h suffix = Some (tr_slug row).
Proof.
  intros Hids. unfold TenantForHost. destruct (slugFromHost h suffix) as [slug|] eqn:Hs; [|done].
  apply slugFromHost_Some in Hs as (Hok & _). unfold TenantBySlug, find_tenant. destruct (_ || _); [done|].
  intros (found & w1 & H1 & Ht)%bind_Ok. apply wrap_Ok, query_Pool_Ok in H1 as [[= Ho] ->].
  destruct (List.find _ _) as [row|] eqn:Hrow in Ho; subst found; [|done]. injection Ht as <- <-.
  apply List.find_some in Hrow as [Hin%list_elem_of_In Hslug%String.eqb_eq]. split; [done|]. split.
  - unfold Tenants.FromContext. rewrite !bool_decide_eq_false_2; [done| |by apply Hids].
    intros E. cbn in E. rewrite <- Hslug, E in Hok. discriminate Hok.
  - exists row. by rewrite Hslug.
Qed.
End boundary.

(** C5. A customer's conversation is closed to whoever does not hold its capability.  A
    public request that is served reaches the tenant its host names, and there it comes
    to one of three things: it discloses no message, trace or event and changes nothing
    but recalibrated usage; it opens a conversation, which adds one customer and one
    conversation of theirs, both new, under the digest of the token it answers, and
    changes no row there was but recalibrated usage; or it shows a token whose digest is stored
    with a conversation of that tenant, one that its path names or whose run it reads.
    A request that is refused changes nothing. *)
Theorem message_needs_capability `{!Host} `{!Letters} `{!Entropy} `{!UrlHosts} (jsonb : string -> result string)
    (column_size : string -> Z) (fuel tries : nat) (o : outside) (r : Runtime) (components : Cache) (store : Tenants.Store)
    (suffix : string) (cn : Connection) (polls : nat) (q : WidgetRequest) (e : Database.env) (w w' : world)
    (response : PublicResponse WidgetReply) (Hscoped : scoped_cache components)
    (Hids : forall row, row ∈ tenant_rows (accounts_of (db w)) -> tr_id row <> ""%string)
    (Hr : public_widget jsonb column_size fuel tries o (cached r components) store suffix cn polls q e w = (Ok response, w')) :
  match response with
  | Served _ reply =>
      exists row, row ∈ tenant_rows (accounts_of (db w)) /\ slugFromHost (wq_Host q) suffix = Some (tr_slug row) /\
        served (tenant_of (db w) row) q e w reply w'
  | _ => db w' = db w
  end.
Proof.
  unfold public_widget, PublicTenant in Hr. apply bind_Ok in Hr as (found & w1 & Hf & Hr). unfold attempt in Hf.
  cbn [rq_Host rq_Origin rq_Method] in Hr, Hf.
  destruct (TenantForHost store (wq_Host q) suffix e w) as [res w2] eqn:Ht. injection Hf as <- <-.
  assert (Hl : db w2 = db w).
  { assert (Hloc : local (TenantForHost store (wq_Host q) suffix)) by (unfold TenantForHost, TenantBySlug, find_tenant; walk_local).
    specialize (Hloc e w). by rewrite Ht in Hloc. }
  destruct res as [t|err]; [|by injection Hr as <- <-].
  apply host_tenant in Ht as (_ & Hctx & row & Hrow & -> & Hs); [|exact Hids].
  assert (Hserve : forall allowed,
    (let* a := serve_widget (tenantApplicationProxy jsonb column_size fuel tries o (cached r components)) cn
       (Some (tenant_of (db w) row)) polls q in ret (Served allowed a)) e w2 = (Ok response, w') ->
    match response with Served _ reply => exists row, row ∈ tenant_rows (accounts_of (db w)) /\
      slugFromHost (wq_Host q) suffix = Some (tr_slug row) /\ served (tenant_of (db w) row) q e w reply w' | _ => db w' = db w end).
  { intros allowed (reply & w3 & Hn & [= <- <-])%bind_Ok. exists row. split; [done|]. split; [done|].
    pose proof (cached_scoped r components Hscoped) as Hsr.
    eapply serve_served in Hn; [|exact Hsr|exact Hctx]. unfold served, harmless, opened, capable in *. by rewrite Hl in Hn. }
  destruct (bool_decide (JsonParse.TrimSpace _ = _)); [by apply (Hserve None)|].
  destruct (CanonicalWidgetOrigin (JsonParse.TrimSpace _)); [|by injection Hr as <- <-].
  destruct (CanonicalWidgetOrigin (t_WidgetOrigin _)) as [own|]; [|by injection Hr as <- <-].
  destruct (negb _); [by injection Hr as <- <-|]. destruct (String.eqb _ _); [by injection Hr as <- <-|].
  by apply (Hserve (Some own)).
Qed.

(** ** A request of the demonstration tenant *)
Module PublicDemo.
Definition token : string := "a-capability".

(** The conversation whose digest is stored in hexadecimal. *)
Definition tables : world :=
  let d := set_conversations
    (map (fun c => mkConversationRow (cv_tenant c) (cv_id c) (cv_customer c) (cv_channel c) (Some (EncodeToHex (sha256 token)))
                     (cv_status c) (cv_failures c) (cv_budget c) (cv_used c) (cv_reserved c)) (conversations (db empty_salon)))
    (set_accounts StartDemo.accounts (db empty_salon)) in idle d.

(** A connection that ends after the first poll. *)
Definition connection : Connection := mkConnection (fun _ => monday 9 0) (fun _ => true) (fun _ => true) (fun _ d => d).

#[export] Instance entropy : Entropy := {| random_bytes _ _ := None |}.
#[export] Instance hosts : UrlHosts := {| ip_literal _ := None; several_colons := true |}.

Definition runtime (c : Config) : Runtime := mkRuntime c 4 (Tenants.mkStore true None).

(** An address of the platform, and a bearer token. *)
Definition events : WidgetRequest :=
  mkWidgetRequest "salon-nord.kontor.example" "" "GET"
    ["api"; "v1"; "demo"; "conversations"; conversation_id; "events"]%string "" ("Bearer " ++ token) "" "" "".
End PublicDemo.

#[local] Existing Instances StartDemo.letters PublicDemo.entropy PublicDemo.hosts.

Lemma message_needs_capability_witness :
  exists c reply w' row, Load StartDemo.production = Ok c /\
    public_widget Dialogue.jsonb (fun _ => 0) 40 5 Dialogue.around (cached (PublicDemo.runtime c) ∅) (Tenants.mkStore true None)
      "kontor.example" PublicDemo.connection 2 PublicDemo.events calm PublicDemo.tables = (Ok (Served None reply), w') /\
    discloses reply = true /\ row ∈ tenant_rows (accounts_of (db PublicDemo.tables)) /\
    served (tenant_of (db PublicDemo.tables) row) PublicDemo.events calm PublicDemo.tables reply w'.
Proof.
  assert (H : exists c reply w', Load StartDemo.production = Ok c /\
    public_widget Dialogue.jsonb (fun _ => 0) 40 5 Dialogue.around (cached (PublicDemo.runtime c) ∅) (Tenants.mkStore true None)
      "kontor.example" PublicDemo.connection 2 PublicDemo.events calm PublicDemo.tables = (Ok (Served None reply), w') /\
    discloses reply = true)
    by (eexists _, _, _; split; [vm_compute; reflexivity|]; split; vm_compute; reflexivity).
  destruct H as (c & reply & w' & Hl & Hr & Hd).
  assert (Hs : scoped_cache ∅) by (intros t b Hb; by rewrite lookup_empty in Hb).
  assert (Hids : forall row, row ∈ tenant_rows (accounts_of (db PublicDemo.tables)) -> tr_id row <> ""%string)
    by (intros row ->%list_elem_of_singleton; done).
  destruct (message_needs_capability Dialogue.jsonb (fun _ => 0) 40 5 Dialogue.around (PublicDemo.runtime c) ∅ (Tenants.mkStore true None)
    "kontor.example" PublicDemo.connection 2 PublicDemo.events calm PublicDemo.tables w' _ Hs Hids Hr) as (row & Hin & _ & Hv).
  exists c, reply, w', row. split; [exact Hl|]. split; [exact Hr|]. split; [exact Hd|]. split; [exact Hin|exact Hv].
Defined.
